(* ===== verification/_CoqProject ===== *)
-Q . S2P
Prelude.v
Ring.v
Board.v
BoardFacts.v
Xbee.v
XbeeFacts.v
Rfpt.v
RfptFacts.v
RfptLink.v
Clkpwr.v
Demo.v
DemoFacts.v
UsbMem.v
UsbMemFacts.v
Usb.v
UsbFacts.v
AoaHost.v
AoaFacts.v
HostTask.v
HostTaskFacts.v
I2c.v
I2cFacts.v
Eeprom.v
EepromFacts.v
I2cSlave.v
I2cSlaveFacts.v
CanAf.v
CanAfFacts.v
Can.v
CanFacts.v
Canpt.v
CanptFacts.v
AoaTask.v
AoaTaskFacts.v
Inet.v
InetFacts.v
Fat.v
FatTable.v
FatFacts.v
FatChain.v
FatRam.v
FatData.v
FatFile.v
FatReadFacts.v
FatWriteFacts.v
FatSeekFacts.v
FatGrow.v
FatSyncFacts.v
FatDir.v
FatMount.v
FatNameFacts.v
FatDirFacts.v
FatSpec.v
FatAlike.v
FatOpenFacts.v
FatProps.v
Ssp.v
Mmc.v
SdCard.v
MmcFacts.v
MmcBlocks.v
MmcDisk.v
MmcInit.v
MmcSafe.v
SdProps.v
SspDev.v
SspIrqFacts.v
SspDevFacts.v
