(* ===== verification/Prelude.v ===== *)
(** * DemoAoaCan: a verification library for the firmware

    ** The program

    The repository is the firmware of an Embedded Artists AOA board (an NXP LPC1769)
    with the libraries it is linked with.  Its own logic is in these parts:

    - the board (Lib_Board/src: board.c, time.c, btn.c, rgb.c): a millisecond clock that
      an interrupt advances, pins, a UART to the radio with a queue filled by an interrupt;
    - the radio: xbee.c drives an XBee module in API mode over that UART, rfpt.c is the
      protocol of nodes and a coordinator on top of it, called back by the driver;
    - CAN: the acceptance filter table and the controllers (Lib_MCU/src/lpc17xx_can.c), and
      canpt.c, which queues received messages in an interrupt handler, forwards them from
      one bus to the other and holds the CAN form of the node protocol;
    - the memory chip: eeprom.c on the I2C master of lpc17xx_i2c.c;
    - the Android accessory: Lib_AOA and AndroidAccessoryHost.c on the USB host library
      (nxpUSBlib), whose pipes take their buffers from a pool (USBMemory.c) and whose task
      enumerates devices (Host_LPC.c);
    - the file system: FatFs (Lib_FatFs_SD/src/ff.c) on the driver of the memory card
      (mmc.c), which transfers its bytes over the SSP (lpc17xx_ssp.c);
    - the network: lwIP (Lib_lwip), of which the checksums and the addresses are here;
    - the demo (demo_aoa_can/src: main.c, pwm.c, timer.c, GPIO.c): an RGB fade.

    The parts share state: the radio and CAN protocols are called from below by callbacks
    and from interrupts, and the drivers share clocks and power (lpc17xx_clkpwr.c).

    ** How it is modelled

    A function of the source is a definition of the same name in the state and error monad
    [M W] of this file: it runs in a world [W], the record of all the state it can reach,
    and gives a result with the next world or a [fault].  A fault is what C leaves
    undefined or what never returns: an index out of bounds ([OutOfBounds]), a NULL
    pointer, a use of a missing return value, a failed CHECK_PARAM, or a loop that used up
    its turns ([OutOfFuel]).  Integers are [Z] and wrap at the width of the variable they
    are assigned to ([u8], [u16], [u32]).  A file-local variable is a field of the world,
    an array a list with checked reads and writes ([aget], [aset]).  A component works on
    its own part of a larger world through a [Lens] ([zoom], with [LensLaws]).  Hardware
    is modelled as far as the driver depends on it: registers are fields, and what the
    device does by itself is a separate definition ([hw_event], [bus_action], [irq]) that
    the world's schedule delivers at the reads of the clock or at the polls of a register.
    Calls to the application's callbacks are recorded in order ([upcalls]).

    What is wired to a controller or lies below a component is an interface, a class with
    laws where they are needed, so that theorems hold for every implementation:
    [Slave] and [QuietSlave] (I2C), [Hcd] (the USB host controller), [SspPort] and [Socket]
    (the SSP, the pins and the timer of the memory card), [SlavePort] (an I2C controller in
    slave mode), [Disk] and [WorkingDisk] (the
    drive below FatFs).  A drive in memory ([FatRam]) and the memory card behind its driver
    ([MmcDisk]) are the two instances of [WorkingDisk], so that what is proved of FatFs
    holds of FatFs on mmc.c with a card in the socket.

    ** Files

    - Prelude: machine integers, the monad, lenses, bounded loops [while], preservation of
      an invariant by monadic code ([keeps], with its hints), lemmas on lists and bits.
    - Ring: an array with two indices as a list; the class [BoundedFifo] that board.c's
      receive queue and canpt.c's message queue implement.
    - Board, BoardFacts: the clock, pins, converter, UART and receive queue.
    - Xbee, XbeeFacts: all of xbee.c.
    - Rfpt, RfptFacts: all of rfpt.c, called by [Xbee] through the record of callbacks.
      RfptLink: Board, Xbee and Rfpt together, interrupts and turns of the main loop in any
      order.
    - Clkpwr: the dividers and power bits of lpc17xx_clkpwr.c.
    - Demo, DemoFacts: main.c, pwm.c, timer.c, GPIO.c and the system tick.
    - UsbMem, UsbMemFacts: USBMemory.c, as the map of block headers in the pool.
    - Usb, UsbFacts: Pipe_LPC.c/.h, PipeStream_LPC.c, HostStandardReq.c, ConfigDescriptor.c/.h
      (the host part), over [Hcd] and the pool of [UsbMem].
    - AoaHost, AoaFacts: Lib_AOA/src and, of AndroidAccessoryHost.c, the enumeration events
      and the messages to the device.
    - HostTask, HostTaskFacts: the enumeration state machine of Host_LPC.c with its task
      (USBTask.c) and interrupt handlers, calling the events of [AoaHost].
    - I2c, I2cFacts: the master and configuration functions of lpc17xx_i2c.c; I2cSlave,
      I2cSlaveFacts: its slave functions, with a master on the bus.
    - Eeprom, EepromFacts: eeprom.c, and the 24LC32A and 24AA02E48 chips as slaves.
    - CanAf, CanAfFacts: the look-up table functions of lpc17xx_can.c.
    - Can, CanFacts: its other functions, the two controllers.
    - Canpt, CanptFacts: all of canpt.c, over [Board] and [Can].
    - AoaTask, AoaTaskFacts: the task of AndroidAccessoryHost.c and its callbacks, between
      [Canpt] and [AoaHost].
    - Inet, InetFacts: inet_chksum.c, ip_addr.c and def.c of lwIP.
    - Fat (volume: window, table, chains), FatFile (open files), FatDir (directories, names,
      paths), FatMount (mounting, opening): all that ffconf.h leaves of ff.c.
    - FatTable, FatFacts, FatChain, FatData, FatReadFacts, FatWriteFacts, FatSeekFacts,
      FatGrow (seeks behind the end), FatSyncFacts, FatNameFacts, FatDirFacts: what these
      functions do to the table of entries, the chains and the bytes of files.  FatSpec: the abstract file that an open
      file implements; FatAlike: the same volume on another drive; FatOpenFacts: opening by
      name; FatRam: the drive in memory; FatProps: the properties, applied to a small volume.
    - Ssp: transfers by polling of lpc17xx_ssp.c; SspDev: its other functions, the clock,
      the modes and transfers by interrupt; SspDevFacts: the clock; SspIrqFacts: a partner
      on the wire and transfers with it by interrupt.  Mmc: all of mmc.c, over [SspPort]
      and [Socket].
    - SdCard: the four kinds of card (SDv1, SDv2, SDHC, MMC) as automata on the bus, the
      environment of the theorems.  MmcFacts (bytes, commands), MmcBlocks (data blocks),
      MmcDisk (sectors; the instance of [WorkingDisk]), MmcInit (initialisation), MmcSafe
      (any hardware), SdProps (the properties, applied to cards).

    Constants have the names of the source; where C evaluates a header macro, the
    definition is its value.

    ** What the theorems show

    - The gateway forwards every received data message once, unchanged and in order, while
      its queue has room and the transmit buffer is free, and a pointer into the queue stays
      valid ([canpt_task_forwards], [frame_is_queued], [q_get_slot_stable]); it starts empty
      and ready ([canpt_init_ready]).  A remote frame stops it ([remote_frame_never_served]).
    - Memory safety of the radio protocol against every message from every address
      ([xbeeData_safe]), registration, queries, subscriptions, their encoding, and expiry of
      nodes; a message's whole way from the UART interrupt to the application
      ([publish_frame_registers]); the framing of the driver, checksum errors and termination
      of its line reader, and the frame that overruns its buffer.
    - The acceptance filter table implements insertion into and deletion from sorted lists
      and keeps its section addresses ([load_std_inserts], [load_ext_inserts],
      [remove_entry_deletes], [load_remove_ext], [load_std_addresses]).
    - A CAN data message survives the registers of the transmitter and the receiver; the
      bit rate is within its bounds or refused.
    - An I2C transfer by polling is a transaction on the bus, tried until the slave
      acknowledges all of it or the retries are used up, whatever the speed of the
      controller and wherever the slave refuses ([transfer_is_transaction]); writes to the memory chip are stored
      across page borders and read back.  A slave serves the sessions of a master by
      polling, and by interrupt when only the last of them reads ([slave_serves],
      [handler_serves]).
    - The SSP's transfer by interrupt of 8 bit frames exchanges the buffers with any partner,
      without an overrun ([SSP_interrupt_transfer]); the clock is the first setting of the search that
      is not above the target, which the registers hold iff one of theirs is not above it
      ([SSP_SetClock_spec]).
    - The USB pool computes first-fit allocation on the list of its blocks: what it hands
      out is disjoint for requests of every 32-bit size, freeing undoes allocation, and all freed it is one block again.
    - From the interrupt that reports an accessory to its configuration: the host task
      finds the interface and endpoints that a reference search on the list of descriptors
      finds, and ends with two pipes of their own ([attached_accessory_configured]); any
      other device is switched to accessory mode.  A descriptor without length makes the
      search endless, and a failed request sends its bytes with the next one.
    - The accessory task does with each packet from the device what its command asks for;
      a value message handed to the protocol arrives at the device as one packet, if the
      callback is registered; and for a device that has gone the messages that end its
      subscriptions are built, which canpt.c no longer sends, and the subscriptions cleared ([packet_served], [value_forwarded],
      [unattached_cleans]).
    - The three checksum algorithms of lwIP agree with RFC 1071 on every buffer of their
      documented lengths, and the checksums over chains of buffers with them; addresses survive the dotted form.
    - The FAT is a table of numbers whatever its width; chains are released and extended as
      searches in that table say, and both loops return ([fat_entry_roundtrip],
      [chain_release], [chain_extend]).  An open file is a sequence of bytes with a
      position, for any sequence of calls in the mode it was opened in, seeks behind the end
      included, whatever part of it is in the window ([file_session], [write_contents], [sync_flushes]); [f_open] finds the file that a
      search for its name in the list of entries finds ([open_by_name],
      [name_roundtrip]).
    - The card driver tells the kinds of card apart and stores sectors ([card_initialised],
      [card_stores]); on any hardware it stays within its buffers and types
      ([driver_keeps_types]).  FatFs on this driver on a card of any kind is the file it
      is to be ([file_on_card]).  The delays of the card are those the specification allows
      before an answer, and shorter than the fuel of the loops ([sane]).
    - The demo writes its ramps with a tick between two steps; a delay on timer 0 is never
      short.

    Theorems about a behaviour that is a fault of the source ([failed_request_resends],
    [zero_length_never_ends], [receive_oversized_overflows], [remote_frame_never_served],
    [eeprom_absent_succeeds], [busy_card_awaited], [sector_count_v2], [load_ext_overruns],
    [zero_address_uncounts]) state what the code
    does.

    ** Bounds and fuel

    Loops with a bound in the data are structural.  Loops that wait (for a register, the
    clock, a byte) take a number of turns as an argument; the theorems give the number that
    is enough, or hold for every number, and say that the function then returns.  Fixed
    numbers: [walk] (513) exceeds the 512 headers the pool of 2048 bytes can hold;
    [search_fuel] (514) exceeds the descriptors 512 bytes can hold; [AF_FUEL] (1024) exceeds
    the words of the filter table; the enumeration takes 1608 turns of the host task; a
    netmask has 32 bits, so that its loops end within 33 turns; [main]'s endless loop runs
    for a number of rounds.  Loops of ff.c over clusters and sectors get as many turns as
    the volume has of them ([enough]); the loops of the card driver more turns than the
    delays of the card ([sane]).

    ** Not modelled

    CMSIS, start-up code, the drivers of Lib_MCU that are not named above, the debug output
    (eadebug.c) and the board's initialisation (board.c: register set-up) do not hold logic
    of this program.  Of lwIP everything that keeps state (buffers, TCP, UDP, DHCP, the
    interfaces) is left out: only net_init and net_task of board.c call it, and no program
    calls those.  Of nxpUSBlib the device stack, the class drivers and the host controller
    drivers (OHCI, EHCI), which are the interface [Hcd], are left out; of ff.c what
    ffconf.h switches off.  Timer interrupts come where the models say, at the polls of registers, and not
    between any two instructions. *)

From stdpp Require Export base list strings.
From Stdlib Require Export ZArith Lia.
From coqutil Require Export Datatypes.RecordSetters.
Export DoubleBraceUpdate.

#[global] Open Scope Z_scope.

(** ** Record updates

    [r{{ f := v }}] is coqutil's notation.  A record declares its eta expansion
    once ([Settable]), so that an update unfolds to the constructor applied to
    the projections of [r], and reduces by [simpl]. *)

Class Settable (R : Type) : Type := eta_record : R -> R.

Ltac eta_setter R E getter :=
  exact (fun (updateE : E -> E) (r : R) => ltac:(
    let b := eval hnf in (@eta_record R _ r) in
    match b with
    | context C[getter r] => let b' := context C[updateE (getter r)] in exact b'
    end)).

#[global] Hint Extern 0 (@Setter ?R ?E ?getter) =>
  eta_setter R E getter : typeclass_instances.

#[global] Arguments constant {E} newValue / _.
#[global] Arguments Nat.min : simpl never.

Ltac Zify.zify_post_hook ::= Z.to_euclidean_division_equations.

(** ** Machine integers

    A C unsigned integer of width [w] is a [Z] in [0, 2^w); an assignment to a
    variable of that type reduces the value modulo [2^w]. *)

Definition u8 (z : Z) : Z := z mod 256.
Definition u16 (z : Z) : Z := z mod 65536.
Definition u32 (z : Z) : Z := z mod 4294967296.
Definition s16 (z : Z) : Z := (z + 32768) mod 65536 - 32768.
Definition s32 (z : Z) : Z := (z + 2147483648) mod 4294967296 - 2147483648.

(** The value fits the type. *)
Definition byte_ok (z : Z) : Prop := 0 <= z < 256.
Definition word_ok (z : Z) : Prop := 0 <= z < 4294967296.

(** ** Faults and the state monad

    A run of a C function either returns with a new state or stops: in
    [check_failed]'s infinite loop, at an access outside an array, through a
    null pointer, by using the value of a function that returned none, or
    because the fuel given to a loop is used up. *)

Inductive fault : Set :=
| CheckFailed
| OutOfBounds
| NullDeref
| NoReturnValue
| DivByZero
| OutOfFuel.

Inductive res (A : Type) : Type :=
| Ok (a : A)
| Fault (f : fault).
Arguments Ok {A} a.
Arguments Fault {A} f.

Definition M (W A : Type) : Type := W -> res (A * W).

#[export] Instance M_ret W : MRet (M W) := fun A a w => Ok (a, w).
#[export] Instance M_bind W : MBind (M W) := fun A B k m w =>
  match m w with
  | Ok (a, w') => k a w'
  | Fault f => Fault f
  end.

Definition fail {W A} (f : fault) : M W A := fun _ => Fault f.
Definition get {W} : M W W := fun w => Ok (w, w).
Definition gets {W A} (f : W -> A) : M W A := fun w => Ok (f w, w).
Definition modify {W} (f : W -> W) : M W unit := fun w => Ok (tt, f w).
Definition guard {W} (b : bool) (f : fault) : M W unit :=
  if b then mret tt else fail f.

(** [CHECK_PARAM(expr)] of lpc17xx_libcfg_default.h: [check_failed] never
    returns. *)
Definition CHECK_PARAM {W} (b : bool) : M W unit := guard b CheckFailed.

Definition when {W} (b : bool) (m : M W unit) : M W unit :=
  if b then m else mret tt.

(** [Status] of lpc_types.h. *)
Inductive Status : Type := SUCCESS | ERROR.

(** ** Arrays

    A C array is the list of its elements; a read or a write at an index outside
    it is a fault. *)

Definition aget {W A} (l : list A) (i : Z) : M W A :=
  if i <? 0 then fail OutOfBounds else
  match l !! Z.to_nat i with
  | Some x => mret x
  | None => fail OutOfBounds
  end.

Definition aset {W A} (l : list A) (i : Z) (x : A) : M W (list A) :=
  if (i <? 0) || (Z.of_nat (length l) <=? i) then fail OutOfBounds
  else mret (<[Z.to_nat i := x]> l).

(** The index of the first element that satisfies [P], [length l] when there is
    none: the value of [i] after
    [for (i = 0; i < N; i++) if (P(l[i])) break;]. *)
Fixpoint find_idx {A} (P : A -> bool) (l : list A) : nat :=
  match l with
  | [] => 0%nat
  | x :: l' => if P x then 0%nat else S (find_idx P l')
  end.

(** ** Loops *)

(** [for (x in l) body]. *)
Fixpoint foreach {W A} (l : list A) (body : A -> M W unit) : M W unit :=
  match l with
  | [] => mret tt
  | x :: l' => body x ;; foreach l' body
  end.

(** The same, with a local carried from one iteration to the next. *)
Fixpoint foreach_acc {W A B} (l : list A) (acc : B) (body : B -> A -> M W B) : M W B :=
  match l with
  | [] => mret acc
  | x :: l' => acc' ← body acc x; foreach_acc l' acc' body
  end.

(** [for (i = 0; i < n; i++)]: the values of [i]. *)
Definition range (n : nat) : list Z := seqZ 0 (Z.of_nat n).

(** What the body of a [while] decides: go on with new locals, or leave. *)
Inductive ctl (A B : Type) : Type :=
| Continue (a : A)
| Break (b : B).
Arguments Continue {A B} a.
Arguments Break {A B} b.

(** A [while] loop with its locals in [a]; [fuel] bounds the iterations. *)
Fixpoint while {W A B} (fuel : nat) (body : A -> M W (ctl A B)) (a : A)
    : M W B :=
  match fuel with
  | O => fail OutOfFuel
  | S fuel' =>
      c ← body a;
      match c with
      | Continue a' => while fuel' body a'
      | Break b => mret b
      end
  end.

(** ** Lenses

    A component runs inside a larger world through a lens on its own state. *)

Class Lens (S W : Type) : Type := {
  view : W -> S;
  put : S -> W -> W
}.

Class LensLaws (S W : Type) `{Lens S W} : Prop := {
  view_put : forall s w, view (put s w) = s;
  put_view : forall w, put (view w) w = w;
  put_put : forall s s' w, put s (put s' w) = put s w
}.

(** Run a computation of the component in the world. *)
Definition zoom {S W A} `{Lens S W} (m : M S A) : M W A := fun w =>
  match m (view w) with
  | Ok (a, s) => Ok (a, put s w)
  | Fault f => Fault f
  end.

(** ** Lemmas on bits and lists *)

Lemma Z_lor_shiftl_small a b n :
  0 <= n -> 0 <= a -> 0 <= b < 2 ^ n -> Z.lor (Z.shiftl a n) b = Z.shiftl a n + b.
Proof.
  intros Hn Ha Hb. rewrite <- Z.lxor_lor, Z.add_nocarry_lxor; [done| |].
  all: apply Z.bits_inj'; intros i Hi; rewrite Z.land_spec, Z.bits_0.
  all: destruct (Z.ltb_spec i n).
  1,3: rewrite Z.shiftl_spec_low by lia; done.
  all: replace b with (b mod 2 ^ n) by (apply Z.mod_small; lia).
  all: rewrite Z.mod_pow2_bits_high by lia; apply andb_false_r.
Qed.

(** Writing [l] into [buf] from index [p] on. *)
Definition blit {A} (buf : list A) (p : nat) (l : list A) : list A :=
  take p buf ++ l ++ drop (p + length l) buf.

Lemma blit_nil {A} (buf : list A) p : blit buf p [] = buf.
Proof. unfold blit. simpl. by rewrite Nat.add_0_r, take_drop. Qed.

Lemma blit_cons {A} (buf : list A) p x l :
  (p < length buf)%nat -> blit buf p (x :: l) = blit (<[p := x]> buf) (S p) l.
Proof.
  intros Hp. unfold blit. rewrite (insert_take_drop buf p x) by done.
  assert (length (take p buf) = p) by (rewrite length_take; lia).
  rewrite take_app_ge, drop_app_ge by lia.
  replace (S p - _)%nat with 1%nat by lia.
  replace (S p + length l - _)%nat with (S (length l)) by lia.
  simpl. rewrite take_0, drop_drop, <- app_assoc. simpl. repeat f_equal. lia.
Qed.

Lemma length_blit {A} (buf : list A) p l :
  (p + length l <= length buf)%nat -> length (blit buf p l) = length buf.
Proof. intros. unfold blit. rewrite !length_app, length_take, length_drop. lia. Qed.

Lemma take_blit {A} (buf : list A) l : take (length l) (blit buf 0 l) = l.
Proof. unfold blit. simpl. by rewrite take_app_length. Qed.

Lemma take_insert_blit {A} (buf l : list A) x :
  (length l < length buf)%nat ->
  take (length l + 1) (<[length l := x]> (blit buf 0 l)) = l ++ [x].
Proof.
  intros Hl. unfold blit. simpl.
  rewrite insert_app_r_alt, Nat.sub_diag, take_app_add' by lia.
  f_equal. destruct (drop (length l) buf) eqn:E; [|done].
  apply (f_equal length) in E. rewrite length_drop in E. simpl in E. lia.
Qed.

Lemma blit_snoc {A} (buf l : list A) x :
  (length l < length buf)%nat -> <[length l := x]> (blit buf 0 l) = blit buf 0 (l ++ [x]).
Proof.
  intros Hl. unfold blit. simpl. rewrite insert_app_r_alt, Nat.sub_diag by lia.
  rewrite length_app, <- app_assoc. f_equal.
  destruct (lookup_lt_is_Some_2 buf (length l) Hl) as [y Hy].
  rewrite (drop_S _ _ _ Hy). simpl. by rewrite Nat.add_1_r.
Qed.

Lemma blit_app {A} (buf a b : list A) p :
  (p + length a + length b <= length buf)%nat ->
  blit (blit buf p a) (p + length a) b = blit buf p (a ++ b).
Proof.
  intros Hl. unfold blit. rewrite length_app.
  rewrite take_app, take_take, Nat.min_r by lia. rewrite length_take, Nat.min_l by lia.
  replace (p + length a - p)%nat with (length a) by lia. rewrite take_app_length.
  rewrite !drop_app, length_take, Nat.min_l by lia.
  rewrite drop_ge by (rewrite length_take; lia). simpl.
  replace (p + length a + length b - p)%nat with (length a + length b)%nat by lia.
  rewrite drop_ge by lia. simpl. rewrite drop_drop, <- !app_assoc. do 3 f_equal. f_equal. lia.
Qed.

(** ** Array accesses *)

Lemma aget_ok {W A} (l : list A) i x (w : W) :
  0 <= i -> l !! Z.to_nat i = Some x -> aget l i w = Ok (x, w).
Proof. intros Hi Hx. unfold aget. destruct (Z.ltb_spec i 0); [lia|]. by rewrite Hx. Qed.

Lemma aget_out {W A} (l : list A) i (w : W) :
  Z.of_nat (length l) <= i -> aget l i w = Fault OutOfBounds.
Proof.
  intros Hi. unfold aget. destruct (Z.ltb_spec i 0); [lia|].
  by rewrite lookup_ge_None_2 by lia.
Qed.

Lemma aset_ok {W A} (l : list A) i x (w : W) :
  0 <= i < Z.of_nat (length l) -> aset l i x w = Ok (<[Z.to_nat i := x]> l, w).
Proof.
  intros Hi. unfold aset.
  destruct (Z.ltb_spec i 0), (Z.leb_spec (Z.of_nat (length l)) i); try lia. done.
Qed.

Lemma aset_out {W A} (l : list A) i x (w : W) :
  Z.of_nat (length l) <= i -> aset l i x w = Fault OutOfBounds.
Proof.
  intros Hi. unfold aset.
  destruct (Z.ltb_spec i 0), (Z.leb_spec (Z.of_nat (length l)) i); try lia; done.
Qed.

Lemma find_idx_lt {A} (P : A -> bool) l :
  (find_idx P l < length l)%nat -> exists x, l !! find_idx P l = Some x /\ P x = true.
Proof.
  induction l as [|x l IH]; simpl; [lia|]. destruct (P x) eqn:E; [by exists x|].
  intros H. apply IH. lia.
Qed.

Lemma find_idx_before {A} (P : A -> bool) l i x :
  (i < find_idx P l)%nat -> l !! i = Some x -> P x = false.
Proof.
  revert i. induction l as [|y l IH]; intros i; simpl; [lia|].
  destruct (P y) eqn:E; [lia|]. destruct i; simpl; [by intros _ [= <-]|].
  intros. eapply IH; [|done]. lia.
Qed.

Lemma find_idx_le {A} (P : A -> bool) l : (find_idx P l <= length l)%nat.
Proof. induction l as [|x l IH]; simpl; [lia|]. destruct (P x); lia. Qed.

Lemma find_idx_none {A} (P : A -> bool) l :
  find_idx P l = length l <-> forall x, x ∈ l -> P x = false.
Proof.
  split.
  - intros E x Hx. apply list_elem_of_lookup in Hx as [i Hi].
    apply (find_idx_before P l i); [|done]. rewrite E. by eapply lookup_lt_Some.
  - intros H. pose proof (find_idx_le P l).
    destruct (decide (find_idx P l = length l)); [done|].
    destruct (find_idx_lt P l) as (x & Hx & Px); [lia|].
    rewrite H in Px; [done|]. by eapply list_elem_of_lookup_2.
Qed.

(** ** Reasoning about runs

    [wp m Q w]: from [w], [m] returns, in a state and with a result that satisfy
    [Q].  [keeps R m]: whenever [m] returns, [R] relates the state before to the
    state after. *)

Definition wp {W A} (m : M W A) (Q : A -> W -> Prop) (w : W) : Prop :=
  match m w with
  | Ok (a, w') => Q a w'
  | Fault _ => False
  end.

Definition keeps {W A} (R : W -> W -> Prop) (m : M W A) : Prop :=
  forall w a w', m w = Ok (a, w') -> R w w'.

Lemma wp_run {W A} (m : M W A) Q w :
  wp m Q w <-> exists a w', m w = Ok (a, w') /\ Q a w'.
Proof.
  unfold wp. split.
  - destruct (m w) as [[a w']|]; [|done]. eauto.
  - by intros (a & w' & -> & H).
Qed.

Lemma wp_returns {W A} (m : M W A) a (P : W -> Prop) w :
  wp m (fun r w' => r = a /\ P w') w -> exists w', m w = Ok (a, w') /\ P w'.
Proof. intros (r & w' & E & -> & H)%wp_run. eauto. Qed.

Lemma wp_bind {W A B} (m : M W A) (k : A -> M W B) Q w :
  wp (m ≫= k) Q w <-> wp m (fun a w' => wp (k a) Q w') w.
Proof. unfold wp, mbind, M_bind. by destruct (m w) as [[a w']|]. Qed.

Lemma bind_ok {W A B} (m : M W A) (k : A -> M W B) w a w' :
  m w = Ok (a, w') -> (m ≫= k) w = k a w'.
Proof. unfold mbind, M_bind. by intros ->. Qed.

Lemma bind_fault {W A B} (m : M W A) (k : A -> M W B) w f :
  m w = Fault f -> (m ≫= k) w = Fault f.
Proof. unfold mbind, M_bind. by intros ->. Qed.

(** A run of the first two computations of a sequence. *)
Lemma bind_bind_ok {W A B C} (m : M W A) (k : A -> M W B) (h : B -> M W C) w b w' :
  (m ≫= k) w = Ok (b, w') -> (m ≫= fun a => k a ≫= h) w = h b w'.
Proof.
  unfold mbind, M_bind. destruct (m w) as [[a w1]|]; [|done]. by intros ->.
Qed.

Lemma zoom_ok {S W A} `{Lens S W} (m : M S A) w a s :
  m (view w) = Ok (a, s) -> zoom m w = Ok (a, put s w).
Proof. unfold zoom. by intros ->. Qed.

Lemma wp_ret {W A} (a : A) (Q : A -> W -> Prop) w : wp (mret a) Q w <-> Q a w.
Proof. done. Qed.

Lemma wp_exact {W A} (m : M W A) a w' (Q : A -> W -> Prop) w :
  m w = Ok (a, w') -> Q a w' -> wp m Q w.
Proof. unfold wp. by intros ->. Qed.

Lemma wp_mono {W A} (m : M W A) (P Q : A -> W -> Prop) w :
  wp m P w -> (forall a w', P a w' -> Q a w') -> wp m Q w.
Proof. unfold wp. destruct (m w) as [[a w']|]; [|done]. auto. Qed.

Lemma wp_zoom {S W A} `{Lens S W} (m : M S A) (Q : A -> W -> Prop) w :
  wp (zoom m) Q w <-> wp m (fun a s => Q a (put s w)) (view w).
Proof. unfold wp, zoom. by destruct (m (view w)) as [[a s]|]. Qed.

Lemma wp_foreach {W A} (l : list A) (body : A -> M W unit) (I : W -> Prop) w :
  I w -> (forall x w', x ∈ l -> I w' -> wp (body x) (fun _ => I) w') ->
  wp (foreach l body) (fun _ => I) w.
Proof.
  revert w. induction l as [|x l IH]; intros w Hw Hb; [done|]. simpl.
  rewrite wp_bind. eapply wp_mono; [apply Hb; [by left|done]|].
  intros [] w' Hw'. apply IH; [done|]. intros y w'' Hy. apply Hb. by right.
Qed.

Lemma range_S n : range (S n) = range n ++ [Z.of_nat n].
Proof.
  unfold range. replace (Z.of_nat (S n)) with (Z.of_nat n + 1) by lia.
  by rewrite seqZ_app by lia.
Qed.

Lemma foreach_app {W A} (l l' : list A) (body : A -> M W unit) w :
  foreach (l ++ l') body w = (foreach l body ;; foreach l' body) w.
Proof.
  revert w. induction l as [|x l IH]; intros w; [done|]. simpl.
  unfold mbind, M_bind in *. destruct (body x w) as [[[] w1]|]; [apply IH|done].
Qed.

Lemma wp_foreach_app {W A} (l l' : list A) (body : A -> M W unit) Q w :
  wp (foreach (l ++ l') body) Q w <->
  wp (foreach l body) (fun _ w' => wp (foreach l' body) Q w') w.
Proof. rewrite <- (wp_bind _ (fun _ => foreach l' body)). unfold wp. by rewrite foreach_app. Qed.

(** A counted loop, with an invariant that knows the count. *)
Lemma wp_range {W} n (body : Z -> M W unit) (I : nat -> W -> Prop) w :
  I 0%nat w ->
  (forall j w', (j < n)%nat -> I j w' -> wp (body (Z.of_nat j)) (fun _ => I (S j)) w') ->
  wp (foreach (range n) body) (fun _ => I n) w.
Proof.
  intros Hw Hb. induction n as [|n IH]; [done|].
  rewrite range_S, wp_foreach_app.
  eapply wp_mono; [apply IH; intros; apply Hb; [lia|done]|].
  intros [] w' Hw'. simpl. rewrite wp_bind.
  eapply wp_mono; [by apply Hb; [lia|]|]. by intros [].
Qed.

Section keeps.
Context {W : Type} (R : W -> W -> Prop) `{!PreOrder R}.

Lemma keeps_ret {A} (a : A) : keeps R (mret a).
Proof. intros w a' w' [= _ ->]. reflexivity. Qed.

Lemma keeps_fail {A} f : keeps R (fail f : M W A).
Proof. intros w a w' [=]. Qed.

Lemma keeps_gets {A} (f : W -> A) : keeps R (gets f).
Proof. intros w a' w' [= _ ->]. reflexivity. Qed.

Lemma keeps_bind {A B} (m : M W A) (k : A -> M W B) :
  keeps R m -> (forall a, keeps R (k a)) -> keeps R (m ≫= k).
Proof.
  intros Hm Hk w b w'. unfold mbind, M_bind.
  destruct (m w) as [[a w1]|] eqn:E; [|done]. intros E'.
  etransitivity; [by eapply Hm|by eapply Hk].
Qed.

Lemma keeps_aget {A} (l : list A) i : keeps R (aget l i).
Proof.
  unfold aget. destruct (i <? 0); [apply keeps_fail|].
  destruct (l !! _); [apply keeps_ret|apply keeps_fail].
Qed.

Lemma keeps_aset {A} (l : list A) i x : keeps R (aset l i x).
Proof. unfold aset. destruct (_ || _); [apply keeps_fail|apply keeps_ret]. Qed.

Lemma keeps_guard b f : keeps R (guard b f).
Proof. destruct b; [apply keeps_ret|apply keeps_fail]. Qed.

Lemma keeps_when b m : keeps R m -> keeps R (when b m).
Proof. destruct b; [done|]. intros _. apply keeps_ret. Qed.

Lemma keeps_foreach {A} (l : list A) (body : A -> M W unit) :
  (forall x, keeps R (body x)) -> keeps R (foreach l body).
Proof.
  intros Hb. induction l as [|x l IH]; [apply keeps_ret|].
  apply keeps_bind; [apply Hb|]. intros. apply IH.
Qed.

Lemma keeps_while {A B} fuel (body : A -> M W (ctl A B)) a :
  (forall a, keeps R (body a)) -> keeps R (while fuel body a).
Proof.
  intros Hb. revert a. induction fuel as [|fuel IH]; intros a; [apply keeps_fail|].
  apply keeps_bind; [apply Hb|]. intros [a'|b]; [apply IH|apply keeps_ret].
Qed.
End keeps.

(** A computation that only reads. *)
Lemma keeps_pure {W A} (R : W -> W -> Prop) `{!PreOrder R} (m : M W A) :
  (forall w w' a, m w = Ok (a, w') -> w' = w) -> keeps R m.
Proof. intros Hm w a w' E. by rewrite (Hm _ _ _ E). Qed.

(** The lemmas that say what a named operation keeps. *)
Create HintDb keeps discriminated.
#[export] Hint Constants Opaque : keeps.

(** Prove [keeps] by the shape of the program. *)
Ltac keeps_step :=
  first
    [ solve [eauto 3 with keeps]
    | match goal with
      | |- keeps _ (mret _) => apply keeps_ret; exact _
      | |- keeps _ (fail _) => apply keeps_fail
      | |- keeps _ (gets _) => apply keeps_gets; exact _
      | |- keeps _ get => apply (keeps_gets _ id)
      | |- keeps _ (aget _ _) => apply keeps_aget; exact _
      | |- keeps _ (aset _ _ _) => apply keeps_aset; exact _
      | |- keeps _ (guard _ _) => apply keeps_guard; exact _
      | |- keeps _ (mbind _ _) => apply keeps_bind; [exact _| |intros ?]
      | |- keeps _ (when _ _) => apply keeps_when; [exact _|]
      | |- keeps _ (foreach _ _) => apply keeps_foreach; [exact _|intros ?]
      | |- keeps _ (while _ _ _) => apply keeps_while; [exact _|intros ?]
      | |- keeps _ (match ?x with _ => _ end) => destruct x
      | |- keeps _ (let '(_, _) := ?x in _) => destruct x
      end ].
Ltac keeps := repeat keeps_step.
