(* ===== verification/Ring.v ===== *)
(** * Ring buffers as queues

    canpt.c keeps received CAN messages, and board.c received UART bytes, in an
    array with an input and an output index.  This file relates such an array to
    the list it holds ([ring_rep]) and states, as the class [BoundedFifo], what
    a component may rely on when it uses such a queue. *)

From S2P Require Import Prelude.

Section ring.
Context {A : Type}.
Implicit Types (buf l : list A) (i o n : Z).

(** The ring of [n] slots [buf], read at [o] and written at [i], holds [l]. *)
Definition ring_rep (n : Z) (buf : list A) (i o : Z) (l : list A) : Prop :=
  Z.of_nat (length l) = (i - o) mod n /\
  forall j : nat, (j < length l)%nat ->
    buf !! Z.to_nat ((o + Z.of_nat j) mod n) = l !! j.

Lemma mod_wrap x n : 0 <= x < 2 * n -> x mod n = if x <? n then x else x - n.
Proof.
  intros H. destruct (Z.ltb_spec x n).
  - apply Z.mod_small. lia.
  - symmetry. apply (Z.mod_unique_pos _ _ 1); lia.
Qed.

Lemma mod_diff i o n :
  0 <= i < n -> 0 <= o < n -> (i - o) mod n = if i <? o then i - o + n else i - o.
Proof.
  intros. replace (i - o) with (i - o + n + (-1) * n) by lia.
  rewrite Z.mod_add, mod_wrap by lia.
  destruct (Z.ltb_spec i o), (Z.ltb_spec (i - o + n) n); lia.
Qed.

Lemma ring_nil n buf i : 0 < n -> ring_rep n buf i i [].
Proof.
  intros. split; simpl; [|lia]. now rewrite Z.sub_diag, Z.mod_0_l by lia.
Qed.

Lemma ring_empty_iff n buf i o l :
  0 <= i < n -> 0 <= o < n -> ring_rep n buf i o l -> (i = o <-> l = []).
Proof.
  intros Hi Ho [Hlen _]. rewrite mod_diff in Hlen by lia.
  destruct (Z.ltb_spec i o); split; intros; subst; simpl in *; try lia.
  destruct l; simpl in *; [done|lia].
Qed.

Lemma ring_full_iff n buf i o l :
  0 <= i < n -> 0 <= o < n -> ring_rep n buf i o l ->
  (o = (i + 1) mod n <-> Z.of_nat (length l) = n - 1).
Proof.
  intros Hi Ho [Hlen _]. rewrite mod_diff in Hlen by lia.
  rewrite mod_wrap by lia.
  destruct (Z.ltb_spec i o), (Z.ltb_spec (i + 1) n); split; lia.
Qed.

Lemma ring_length_lt n buf i o l :
  0 < n -> ring_rep n buf i o l -> Z.of_nat (length l) < n.
Proof. intros Hn [-> _]. apply Z.mod_pos_bound. lia. Qed.

Lemma ring_put n buf i o l d :
  0 <= i < n -> 0 <= o < n -> n <= Z.of_nat (length buf) ->
  ring_rep n buf i o l -> Z.of_nat (length l) < n - 1 ->
  ring_rep n (<[Z.to_nat i := d]> buf) ((i + 1) mod n) o (l ++ [d]).
Proof.
  intros Hi Ho Hb Hr Hlt. pose proof Hr as [Hlen Hget].
  assert (Hm : 0 <= (i + 1) mod n < n) by (apply Z.mod_pos_bound; lia).
  rewrite mod_diff in Hlen by lia.
  split.
  - rewrite length_app, mod_diff by lia. simpl.
    rewrite mod_wrap in * by lia.
    destruct (Z.ltb_spec i o), (Z.ltb_spec (i + 1) n); simpl in *; try lia;
      match goal with |- context [?a <? ?b] => destruct (Z.ltb_spec a b) end; lia.
  - intros j Hj. rewrite length_app in Hj. simpl in Hj.
    assert (Hcase : (j < length l)%nat \/ j = length l) by lia.
    rewrite mod_wrap by lia. destruct Hcase as [Hj'| ->].
    + rewrite lookup_app_l, <- (Hget j Hj'), mod_wrap by lia.
      rewrite list_lookup_insert_ne; [done|].
      destruct (Z.ltb_spec i o), (Z.ltb_spec (o + Z.of_nat j) n); lia.
    + rewrite lookup_app_r, Nat.sub_diag by lia. simpl.
      replace (Z.to_nat _) with (Z.to_nat i);
        [rewrite list_lookup_insert_eq by lia; done|].
      destruct (Z.ltb_spec i o), (Z.ltb_spec (o + Z.of_nat (length l)) n); lia.
Qed.

Lemma ring_get n buf i o d l :
  0 <= i < n -> 0 <= o < n -> ring_rep n buf i o (d :: l) ->
  buf !! Z.to_nat o = Some d /\ ring_rep n buf i ((o + 1) mod n) l.
Proof.
  intros Hi Ho [Hlen Hget].
  assert (Hm : 0 <= (o + 1) mod n < n) by (apply Z.mod_pos_bound; lia).
  split.
  - specialize (Hget 0%nat). simpl in Hget.
    rewrite Z.add_0_r, Z.mod_small in Hget by lia. apply Hget. lia.
  - simpl in Hlen. rewrite mod_diff in Hlen by lia. split.
    + rewrite mod_diff by lia. rewrite mod_wrap in * by lia.
      destruct (Z.ltb_spec i o), (Z.ltb_spec (o + 1) n); try lia;
        match goal with |- context [?a <? ?b] => destruct (Z.ltb_spec a b) end; lia.
    + intros j Hj. specialize (Hget (S j)). simpl in Hget.
      rewrite <- Hget by lia. f_equal. f_equal.
      rewrite Z.add_mod_idemp_l by lia. f_equal. lia.
Qed.
End ring.

(** ** The queue a component relies on

    [fifo_inv s l]: the queue [s] is well formed and holds [l].  Nothing is
    promised about a [fifo_put] on a queue that holds [fifo_cap] elements. *)
Class BoundedFifo (S A : Type) : Type := {
  fifo_inv : S -> list A -> Prop;
  fifo_cap : Z;
  fifo_put : A -> M S unit;
  fifo_get : M S (option A);
  fifo_isEmpty : S -> bool;
  fifo_put_ok : forall s l d,
    fifo_inv s l -> Z.of_nat (length l) < fifo_cap ->
    exists s', fifo_put d s = Ok (tt, s') /\ fifo_inv s' (l ++ [d]);
  fifo_get_nil : forall s,
    fifo_inv s [] -> fifo_get s = Ok (None, s);
  fifo_get_cons : forall s d l,
    fifo_inv s (d :: l) ->
    exists s', fifo_get s = Ok (Some d, s') /\ fifo_inv s' l;
  fifo_isEmpty_spec : forall s l,
    fifo_inv s l -> (fifo_isEmpty s = true <-> l = [])
}.

Section fifo.
Context {S A : Type} `{BoundedFifo S A}.

(** Puts that fit are all kept, in order. *)
Lemma fifo_puts (ds l : list A) (s : S) :
  fifo_inv s l -> Z.of_nat (length l + length ds) <= fifo_cap ->
  exists s', foreach ds fifo_put s = Ok (tt, s') /\ fifo_inv s' (l ++ ds).
Proof.
  revert l s. induction ds as [|d ds IH]; intros l s Hs Hc; simpl.
  - exists s. rewrite app_nil_r. done.
  - simpl in Hc. destruct (fifo_put_ok s l d Hs) as (s1 & E1 & Hs1); [lia|].
    destruct (IH (l ++ [d]) s1 Hs1) as (s2 & E2 & Hs2);
      [rewrite length_app; simpl; lia|].
    exists s2. unfold mbind, M_bind. rewrite E1, E2.
    split; [done|]. by rewrite <- app_assoc in Hs2.
Qed.
End fifo.
