(* ===== verification/Board.v ===== *)
(** * The board: time base, pins, converter and the RF UART

    Lib_Board/src/time.c, btn.c, rgb.c, the trimming potentiometer and RF UART
    part of board.c, and the functions of Lib_MCU they call, over one record of
    peripheral state.  Interrupts are delivered at the reads of the clock
    ([time_get]): [sched] lists, read by read, what the hardware does before. *)

From S2P Require Import Prelude Ring.

(** ** State *)

(** One GPIO port: direction and level of its 32 pins. *)
Record port_st : Type := mk_port {
  FIODIR : Z;
  FIOPIN : Z
}.
#[export] Instance eta_port_st : Settable port_st :=
  fun s => mk_port (FIODIR s) (FIOPIN s).

(** UART1: [tx_wait] is the number of polls that find THR full before each
    write of a burst (0 once the list is used up), [thr] the bytes written to
    THR, [rbr] the bytes received and not yet read. *)
Record uart_st : Type := mk_uart {
  tx_wait : list nat;
  thr : list Z;
  rbr : list Z
}.
#[export] Instance eta_uart_st : Settable uart_st :=
  fun s => mk_uart (tx_wait s) (thr s) (rbr s).

(** The receive queue of board.c: [rxqIn] and [rxqOut] are [uint8_t]. *)
Record rxq_st : Type := mk_rxq {
  rxqIn : Z;
  rxqOut : Z;
  rxq : list Z
}.
#[export] Instance eta_rxq_st : Settable rxq_st :=
  fun s => mk_rxq (rxqIn s) (rxqOut s) (rxq s).

(** What the hardware can do between two instructions of the main loop: a
    millisecond tick of TIMER1, or the reception of bytes by UART1. *)
Inductive irq : Type :=
| IrqTimer1
| IrqUart1 (bs : list Z).

Record board : Type := mk_board {
  timeMs : Z;                       (* time.c *)
  ports : list port_st;             (* GPIO ports 0..4 *)
  adc : list Z;                     (* ADDR5 after each conversion to come *)
  uart1 : uart_st;
  rxq_s : rxq_st;
  console : list (string * list Z); (* what was printed, format and arguments *)
  sched : list (list irq)
}.
#[export] Instance eta_board : Settable board :=
  fun s => mk_board (timeMs s) (ports s) (adc s) (uart1 s) (rxq_s s) (console s) (sched s).

(** After reset, with the hardware's behaviour to come in [irqs]. *)
Definition board_reset (irqs : list (list irq)) : board := {|
  timeMs := 0; ports := replicate 5 (mk_port 0 0); adc := [];
  uart1 := mk_uart [] [] []; rxq_s := mk_rxq 0 0 (replicate 512 0);
  console := []; sched := irqs
|}.

#[export] Instance lens_uart : Lens uart_st board :=
  {| view := uart1; put := fun s b => b{{ uart1 := s }} |}.
#[export] Instance lens_rxq : Lens rxq_st board :=
  {| view := rxq_s; put := fun s b => b{{ rxq_s := s }} |}.

(** ** UART driver (lpc17xx_uart.c) *)

Definition UART_BLOCKING_TIMEOUT : Z := 0xFFFFFFFF.
Definition UART_TX_FIFO_SIZE : nat := 16.

(** The wait for THR empty: [polls] reads of LSR find it full.  The result is
    the value of [timeOut] on exit. *)
Fixpoint UART_wait_THRE (polls : nat) (timeOut : Z) : Z :=
  match polls with
  | O => timeOut
  | S polls' => if timeOut =? 0 then 0 else UART_wait_THRE polls' (timeOut - 1)
  end.

Definition UART_poll_THRE : M uart_st Z := fun u =>
  match tx_wait u with
  | [] => Ok (UART_wait_THRE 0 UART_BLOCKING_TIMEOUT, u)
  | n :: ns => Ok (UART_wait_THRE n UART_BLOCKING_TIMEOUT, u{{ tx_wait := ns }})
  end.

(** The bytes [UART_Send] passes to [UART_SendData] in blocking mode, burst by
    burst; the result is [bSent]. *)
Fixpoint UART_Send_loop (fuel : nat) (bs : list Z) (bSent : Z) : M uart_st Z :=
  match bs with
  | [] => mret bSent
  | _ :: _ =>
      match fuel with
      | O => fail OutOfFuel
      | S fuel' =>
          timeOut ← UART_poll_THRE;
          if timeOut =? 0 then mret bSent
          else
            modify (fun u => u{{ thr := thr u ++ take UART_TX_FIFO_SIZE bs }}) ;;
            UART_Send_loop fuel' (drop UART_TX_FIFO_SIZE bs)
              (bSent + Z.of_nat (length (take UART_TX_FIFO_SIZE bs)))
      end
  end.

Definition UART_Send (txbuf : list Z) : M uart_st Z :=
  UART_Send_loop (length txbuf) txbuf 0.

(** [UART_Receive(UARTx, &data, 1, NONE_BLOCKING)]. *)
Definition UART_Receive1 : M uart_st (option Z) := fun u =>
  match rbr u with
  | [] => Ok (None, u)
  | d :: ds => Ok (Some d, u{{ rbr := ds }})
  end.

(** ** The receive queue (board.c) *)

Definition RX_BUF_SIZE : Z := 512.

Definition rxq_put (data : Z) : M rxq_st unit :=
  q ← get;
  if rxqOut q =? (rxqIn q + 1) mod RX_BUF_SIZE then mret tt
  else
    buf ← aset (rxq q) (rxqIn q) data;
    modify (fun q => q{{ rxq := buf; rxqIn := u8 ((rxqIn q + 1) mod RX_BUF_SIZE) }}).

Definition rxq_get : M rxq_st Z :=
  q ← get;
  if rxqIn q =? rxqOut q then mret 0
  else
    d ← aget (rxq q) (rxqOut q);
    modify (fun q => q{{ rxqOut := u8 ((rxqOut q + 1) mod RX_BUF_SIZE) }}) ;;
    mret d.

Definition rxq_isEmpty (q : rxq_st) : bool := rxqIn q =? rxqOut q.

(** The receive callback: drain the UART into the queue. *)
Fixpoint rf_uartRecvCb_loop (fuel : nat) : M board unit :=
  match fuel with
  | O => fail OutOfFuel
  | S fuel' =>
      d ← zoom UART_Receive1;
      match d with
      | Some data => zoom (rxq_put data) ;; rf_uartRecvCb_loop fuel'
      | None => mret tt
      end
  end.

Definition rf_uartRecvCb : M board unit := fun b =>
  rf_uartRecvCb_loop (S (length (rbr (uart1 b)))) b.

(** UART1 raises its interrupt with the bytes [bs] received; the standard
    handler calls the receive callback that [rf_uart_init] installed. *)
Definition UART1_IRQHandler (bs : list Z) : M board unit :=
  zoom (modify (fun u : uart_st => u{{ rbr := rbr u ++ bs }})) ;;
  rf_uartRecvCb.

(** ** Time (time.c) *)

Definition TIMER1_IRQHandler : M board unit :=
  modify (fun b : board => b{{ timeMs := u32 (timeMs b + 1) }}).

Definition handle_irq (i : irq) : M board unit :=
  match i with
  | IrqTimer1 => TIMER1_IRQHandler
  | IrqUart1 bs => UART1_IRQHandler bs
  end.

(** Run the interrupts that arrive before the next clock read. *)
Definition preempt : M board unit := fun b =>
  match sched b with
  | [] => Ok (tt, b)
  | irqs :: rest => foreach irqs handle_irq (b{{ sched := rest }})
  end.

Definition time_get : M board Z := preempt ;; gets timeMs.

(** ** The RF UART as the drivers above see it (board.c) *)

Definition rf_uart_send (txbuf : list Z) : M board Z := zoom (UART_Send txbuf).

Definition bytes_of_string (s : string) : list Z :=
  map (fun c => Z.of_N (Ascii.N_of_ascii c)) (String.list_ascii_of_string s).

Definition rf_uart_sendString (s : string) : M board Z :=
  zoom (UART_Send (bytes_of_string s)).

Fixpoint rf_uart_receive (buflen : nat) : M board (list Z) :=
  match buflen with
  | O => mret []
  | S n =>
      e ← gets (fun b => rxq_isEmpty (rxq_s b));
      if (e : bool) then mret []
      else
        d ← zoom rxq_get;
        ds ← rf_uart_receive n;
        mret (d :: ds)
  end.

Definition rf_uart_recvIsEmpty (b : board) : bool := rxq_isEmpty (rxq_s b).

(** [dbg(fmt, args)] of eadebug.h and [console_sendString]. *)
Definition dbg (fmt : string) (args : list Z) : M board unit :=
  modify (fun b : board => b{{ console := console b ++ [(fmt, args)] }}).

(** ** Pins (lpc17xx_gpio.c) *)

Definition on_port (portNum : Z) (f : port_st -> port_st) : M board unit :=
  modify (fun b : board =>
    if (portNum <? 0) || (4 <? portNum) then b
    else b{{ ports := alter f (Z.to_nat portNum) (ports b) }}).

(** Writing 1s to FIOSET (FIOCLR) drives those pins high (low). *)
Definition GPIO_SetDir (portNum bitValue dir : Z) : M board unit :=
  on_port portNum (fun p => p{{ FIODIR :=
    if dir =? 0 then Z.land (FIODIR p) (Z.lnot bitValue)
    else Z.lor (FIODIR p) bitValue }}).

Definition GPIO_SetValue (portNum bitValue : Z) : M board unit :=
  on_port portNum (fun p => p{{ FIOPIN := Z.lor (FIOPIN p) bitValue }}).

Definition GPIO_ClearValue (portNum bitValue : Z) : M board unit :=
  on_port portNum (fun p => p{{ FIOPIN := Z.land (FIOPIN p) (Z.lnot bitValue) }}).

Definition GPIO_ReadValue (portNum : Z) : M board Z :=
  gets (fun b =>
    if (portNum <? 0) || (4 <? portNum) then 0
    else match ports b !! Z.to_nat portNum with
         | Some p => FIOPIN p
         | None => 0
         end).

(** ** Buttons and RGB LEDs (btn.c, rgb.c) *)

Definition BTN_SW2 : Z := 0x01.
Definition BTN_SW3 : Z := 0x02.

Definition btn_init : M board unit :=
  GPIO_SetDir 2 (Z.shiftl 1 11) 0 ;;
  GPIO_SetDir 2 (Z.shiftl 1 12) 0.

Definition btn_get : M board Z :=
  v ← GPIO_ReadValue 2;
  let res := 0 in
  let res := if Z.land v (Z.shiftl 1 11) =? 0 then Z.lor res BTN_SW2 else res in
  let res := if Z.land v (Z.shiftl 1 12) =? 0 then Z.lor res BTN_SW3 else res in
  mret res.

Inductive rgb_led_t : Type := LED_6 | LED_7.
Definition RGB_RED : Z := 0x01.
Definition RGB_BLUE : Z := 0x02.
Definition RGB_GREEN : Z := 0x04.

Definition rgb_init : M board unit :=
  GPIO_SetDir 2 (Z.shiftl 1 0) 1 ;;
  GPIO_SetDir 2 (Z.shiftl 1 1) 1 ;;
  GPIO_SetDir 2 (Z.shiftl 1 2) 1 ;;
  GPIO_SetValue 2 (Z.lor (Z.lor (Z.shiftl 1 0) (Z.shiftl 1 1)) (Z.shiftl 1 2)) ;;
  GPIO_SetDir 2 (Z.shiftl 1 3) 1 ;;
  GPIO_SetDir 2 (Z.shiftl 1 4) 1 ;;
  GPIO_SetDir 2 (Z.shiftl 1 5) 1 ;;
  GPIO_SetValue 2 (Z.lor (Z.lor (Z.shiftl 1 3) (Z.shiftl 1 4)) (Z.shiftl 1 5)).

Definition rgb_setLeds (led : rgb_led_t) (ledOnMask ledOffMask : Z) : M board unit :=
  match led with
  | LED_6 =>
      when (negb (Z.land ledOffMask RGB_RED =? 0)) (GPIO_SetValue 2 (Z.shiftl 1 0)) ;;
      when (negb (Z.land ledOffMask RGB_BLUE =? 0)) (GPIO_SetValue 2 (Z.shiftl 1 1)) ;;
      when (negb (Z.land ledOffMask RGB_GREEN =? 0)) (GPIO_SetValue 2 (Z.shiftl 1 2)) ;;
      when (negb (Z.land ledOnMask RGB_RED =? 0)) (GPIO_ClearValue 2 (Z.shiftl 1 0)) ;;
      when (negb (Z.land ledOnMask RGB_BLUE =? 0)) (GPIO_ClearValue 2 (Z.shiftl 1 1)) ;;
      when (negb (Z.land ledOnMask RGB_GREEN =? 0)) (GPIO_ClearValue 2 (Z.shiftl 1 2))
  | LED_7 =>
      when (negb (Z.land ledOffMask RGB_RED =? 0)) (GPIO_SetValue 2 (Z.shiftl 1 3)) ;;
      when (negb (Z.land ledOffMask RGB_BLUE =? 0)) (GPIO_SetValue 2 (Z.shiftl 1 4)) ;;
      when (negb (Z.land ledOffMask RGB_GREEN =? 0)) (GPIO_SetValue 2 (Z.shiftl 1 5)) ;;
      when (negb (Z.land ledOnMask RGB_RED =? 0)) (GPIO_ClearValue 2 (Z.shiftl 1 3)) ;;
      when (negb (Z.land ledOnMask RGB_BLUE =? 0)) (GPIO_ClearValue 2 (Z.shiftl 1 4)) ;;
      when (negb (Z.land ledOnMask RGB_GREEN =? 0)) (GPIO_ClearValue 2 (Z.shiftl 1 5))
  end.

(** ** The trimming potentiometer (board.c over lpc17xx_adc.c)

    [adc] lists the values the data register of channel 5 takes, conversion by
    conversion (0 once the list is used up); the wait for DONE only polls the
    hardware.  The 12-bit result is in bits 4..15. *)

Definition ADC_DR_RESULT (n : Z) : Z := Z.land (Z.shiftr n 4) 0xFFF.

Definition trimpot_get : M board Z := fun b =>
  match adc b with
  | [] => Ok (u16 (ADC_DR_RESULT 0), b)
  | dr :: rest => Ok (u16 (ADC_DR_RESULT dr), b{{ adc := rest }})
  end.
