(* ===== verification/BoardFacts.v ===== *)
(** * Facts about the board layer

    The UART receive queue is a first-in first-out queue for up to 255 bytes,
    the UART driver sends what it is given, interrupts keep the board well
    formed, and the clock only moves by its ticks. *)

From S2P Require Import Prelude Ring Board.

(** ** The receive queue *)

(** The queue holds [l].  The indices are [uint8_t], so only the first 256
    slots of the array are ever used. *)
Definition rxq_inv (q : rxq_st) (l : list Z) : Prop :=
  length (rxq q) = 512%nat /\ 0 <= rxqIn q < 256 /\ 0 <= rxqOut q < 256 /\
  ring_rep 256 (rxq q) (rxqIn q) (rxqOut q) l.

Definition rxq_get_opt : M rxq_st (option Z) := fun q =>
  if rxq_isEmpty q then Ok (None, q)
  else match rxq_get q with
       | Ok (d, q') => Ok (Some d, q')
       | Fault f => Fault f
       end.

Lemma u8_mod512 i : 0 <= i < 256 -> u8 ((i + 1) mod 512) = (i + 1) mod 256.
Proof. unfold u8. lia. Qed.

Lemma rxq_put_runs q l d :
  rxq_inv q l ->
  rxq_put d q = Ok (tt, if rxqOut q =? (rxqIn q + 1) mod 512 then q
    else q{{ rxq := <[Z.to_nat (rxqIn q) := d]> (rxq q);
             rxqIn := (rxqIn q + 1) mod 256 }}).
Proof.
  intros (Hl & Hi & Ho & _). unfold rxq_put, mbind, M_bind, get. unfold RX_BUF_SIZE.
  destruct (rxqOut q =? _); [done|].
  unfold aset. rewrite Hl.
  destruct (Z.ltb_spec (rxqIn q) 0), (Z.leb_spec (Z.of_nat 512) (rxqIn q)); try lia.
  simpl. unfold modify. simpl. by rewrite u8_mod512.
Qed.

Lemma rxq_put_ok q l d :
  rxq_inv q l -> Z.of_nat (length l) < 255 ->
  exists q', rxq_put d q = Ok (tt, q') /\ rxq_inv q' (l ++ [d]).
Proof.
  intros Hq Hlt. rewrite (rxq_put_runs q l d Hq). eexists. split; [done|].
  destruct Hq as (Hl & Hi & Ho & Hr).
  pose proof (ring_full_iff 256 _ _ _ _ Hi Ho Hr) as Hfull.
  destruct (Z.eqb_spec (rxqOut q) ((rxqIn q + 1) mod 512)); [lia|].
  unfold rxq_inv. simpl. rewrite length_insert. split_and!; try lia.
  apply ring_put; auto; lia.
Qed.

Lemma rxq_get_cons q d l :
  rxq_inv q (d :: l) -> exists q', rxq_get q = Ok (d, q') /\ rxq_inv q' l.
Proof.
  intros (Hl & Hi & Ho & Hr).
  pose proof (ring_empty_iff 256 _ _ _ _ Hi Ho Hr) as Hemp.
  destruct (ring_get 256 _ _ _ _ _ Hi Ho Hr) as [Hd Hr'].
  unfold rxq_get, mbind, M_bind, get.
  destruct (Z.eqb_spec (rxqIn q) (rxqOut q)) as [e|_]; [apply Hemp in e; done|].
  unfold aget. destruct (Z.ltb_spec (rxqOut q) 0); [lia|]. rewrite Hd.
  eexists. split; [reflexivity|].
  unfold rxq_inv, RX_BUF_SIZE. simpl. rewrite u8_mod512 by lia. split_and!; try lia; apply Hr'.
Qed.

Lemma rxq_isEmpty_iff q l : rxq_inv q l -> (rxq_isEmpty q = true <-> l = []).
Proof.
  intros (_ & Hi & Ho & Hr). unfold rxq_isEmpty. rewrite Z.eqb_eq.
  by apply (ring_empty_iff 256 _ _ _ _ Hi Ho Hr).
Qed.

#[export] Program Instance rxq_fifo : BoundedFifo rxq_st Z := {|
  fifo_inv := rxq_inv;
  fifo_cap := 255;
  fifo_put := rxq_put;
  fifo_get := rxq_get_opt;
  fifo_isEmpty := rxq_isEmpty
|}.
Next Obligation. intros. by apply rxq_put_ok. Qed.
Next Obligation.
  intros s Hs. unfold rxq_get_opt.
  by rewrite (proj2 (rxq_isEmpty_iff s [] Hs) eq_refl).
Qed.
Next Obligation.
  intros s d l Hs. unfold rxq_get_opt.
  destruct (rxq_isEmpty s) eqn:E; [by apply (rxq_isEmpty_iff s _ Hs) in E|].
  destruct (rxq_get_cons s d l Hs) as (s' & -> & H'). eauto.
Qed.
Next Obligation. intros. by apply rxq_isEmpty_iff. Qed.

(** A put never fails, full or not. *)
Definition rxq_wf (q : rxq_st) : Prop :=
  length (rxq q) = 512%nat /\ 0 <= rxqIn q < 256 /\ 0 <= rxqOut q < 256.

Lemma rxq_wf_put q d :
  rxq_wf q -> exists q', rxq_put d q = Ok (tt, q') /\ rxq_wf q'.
Proof.
  intros (Hl & Hi & Ho). unfold rxq_put, mbind, M_bind, get, RX_BUF_SIZE.
  destruct (rxqOut q =? _); [by exists q|].
  unfold aset. rewrite Hl.
  destruct (Z.ltb_spec (rxqIn q) 0), (Z.leb_spec (Z.of_nat 512) (rxqIn q)); try lia.
  eexists. split; [reflexivity|]. unfold rxq_wf. simpl.
  rewrite length_insert, u8_mod512 by lia. split_and!; try done; lia.
Qed.

Lemma rxq_wf_get q :
  rxq_wf q -> exists d q', rxq_get q = Ok (d, q') /\ rxq_wf q'.
Proof.
  intros (Hl & Hi & Ho). unfold rxq_get, mbind, M_bind, get, RX_BUF_SIZE.
  destruct (rxqIn q =? _); [by exists 0, q|].
  unfold aget. destruct (Z.ltb_spec (rxqOut q) 0); [lia|].
  destruct (lookup_lt_is_Some_2 (rxq q) (Z.to_nat (rxqOut q))) as [d Hd]; [lia|].
  rewrite Hd. eexists _, _. split; [reflexivity|]. unfold rxq_wf. simpl.
  rewrite u8_mod512 by lia. split_and!; try done; lia.
Qed.

(** On 255 bytes the put depends on the input index: the full test compares an
    8-bit index with a value up to 256.  At index 255 it misses, the index wraps
    onto the output index and the whole queue is lost. *)
Lemma rxq_put_on_full q l d :
  rxq_inv q l -> Z.of_nat (length l) = 255 ->
  exists q', rxq_put d q = Ok (tt, q') /\
    rxq_inv q' (if rxqIn q =? 255 then [] else l).
Proof.
  intros Hq Hlen. rewrite (rxq_put_runs q l d Hq).
  destruct Hq as (Hl & Hi & Ho & Hr).
  apply (ring_full_iff 256 _ _ _ _ Hi Ho Hr) in Hlen.
  eexists. split; [done|].
  destruct (Z.eqb_spec (rxqIn q) 255) as [e|e].
  - destruct (Z.eqb_spec (rxqOut q) ((rxqIn q + 1) mod 512)); [lia|].
    unfold rxq_inv. simpl. rewrite length_insert. rewrite e in *.
    rewrite Hlen. split_and!; try done. apply ring_nil. lia.
  - destruct (Z.eqb_spec (rxqOut q) ((rxqIn q + 1) mod 512)); [|lia].
    done.
Qed.

(** ** The UART driver *)

Lemma UART_wait_spec n t : 0 <= t -> UART_wait_THRE n t = Z.max 0 (t - Z.of_nat n).
Proof.
  revert t. induction n as [|n IH]; intros t Ht; cbn [UART_wait_THRE]; [lia|].
  destruct (Z.eqb_spec t 0); [lia|]. rewrite IH; lia.
Qed.

(** The transmitter becomes ready before every timeout. *)
Definition uart_ready (u : uart_st) : Prop :=
  Forall (fun n => Z.of_nat n < UART_BLOCKING_TIMEOUT) (tx_wait u).

Lemma UART_poll_ready u :
  uart_ready u ->
  exists t u', UART_poll_THRE u = Ok (t, u') /\ t <> 0 /\
    thr u' = thr u /\ rbr u' = rbr u /\ uart_ready u'.
Proof.
  intros Hu. unfold UART_poll_THRE, uart_ready in *. destruct (tx_wait u) as [|n ns] eqn:E.
  - eexists _, u. split; [reflexivity|]. split; [done|].
    split_and!; try done; by rewrite E.
  - apply Forall_cons in Hu as [Hn Hns]. eexists _, _.
    split; [reflexivity|]. rewrite UART_wait_spec by done.
    split_and!; [|done..]. unfold UART_BLOCKING_TIMEOUT in *. lia.
Qed.

Lemma UART_Send_loop_ready fuel bs k u :
  (length bs <= fuel)%nat -> uart_ready u ->
  exists u', UART_Send_loop fuel bs k u = Ok (k + Z.of_nat (length bs), u') /\
    thr u' = thr u ++ bs /\ rbr u' = rbr u /\ uart_ready u'.
Proof.
  revert bs k u. induction fuel as [|fuel IH]; intros bs k u Hf Hu.
  { destruct bs; simpl in *; [|lia]. exists u. rewrite app_nil_r, Z.add_0_r. done. }
  destruct bs as [|b bs]; cbn [UART_Send_loop].
  { exists u. simpl. rewrite app_nil_r, Z.add_0_r. done. }
  destruct (UART_poll_ready u Hu) as (t & u1 & E & Ht & Hthr & Hrbr & Hu1).
  unfold mbind, M_bind. rewrite E. apply Z.eqb_neq in Ht. rewrite Ht.
  remember (b :: bs) as l. unfold modify.
  destruct (IH (drop UART_TX_FIFO_SIZE l)
              (k + Z.of_nat (length (take UART_TX_FIFO_SIZE l)))
              (u1{{ thr := thr u1 ++ take UART_TX_FIFO_SIZE l }}))
    as (u2 & E2 & Hthr2 & Hrbr2 & Hu2).
  { rewrite length_drop. unfold UART_TX_FIFO_SIZE. subst l. simpl in *. lia. }
  { done. }
  exists u2. rewrite E2, <- Z.add_assoc, <- Nat2Z.inj_add, <- length_app, take_drop.
  split; [done|]. simpl in *. rewrite Hthr2, Hthr, Hrbr2, <- app_assoc, take_drop. done.
Qed.

(** A blocking send outputs the buffer, in order, when no wait times out. *)
Lemma UART_Send_ready bs u :
  uart_ready u ->
  exists u', UART_Send bs u = Ok (Z.of_nat (length bs), u') /\
    thr u' = thr u ++ bs /\ rbr u' = rbr u /\ uart_ready u'.
Proof. intros. unfold UART_Send. by apply UART_Send_loop_ready. Qed.

(** Whatever the transmitter does, what goes out is a prefix of the buffer, as
    long as the returned count. *)
Lemma UART_Send_loop_prefix fuel bs k u :
  (length bs <= fuel)%nat ->
  exists n u', UART_Send_loop fuel bs k u = Ok (k + Z.of_nat n, u') /\
    (n <= length bs)%nat /\ thr u' = thr u ++ take n bs /\ rbr u' = rbr u.
Proof.
  revert bs k u. induction fuel as [|fuel IH]; intros bs k u Hf.
  { destruct bs; simpl in *; [|lia]. exists 0%nat, u. rewrite app_nil_r, Z.add_0_r. done. }
  destruct bs as [|b bs]; cbn [UART_Send_loop].
  { exists 0%nat, u. simpl. rewrite app_nil_r, Z.add_0_r. done. }
  remember (b :: bs) as l.
  assert (exists t u1, UART_poll_THRE u = Ok (t, u1) /\ thr u1 = thr u /\ rbr u1 = rbr u)
    as (t & u1 & E & Hthr & Hrbr).
  { unfold UART_poll_THRE. destruct (tx_wait u); eexists _, _; done. }
  unfold mbind, M_bind. rewrite E. destruct (t =? 0).
  { exists 0%nat, u1. rewrite take_0, app_nil_r, Z.add_0_r. split_and!; try done. lia. }
  unfold modify.
  destruct (IH (drop UART_TX_FIFO_SIZE l)
              (k + Z.of_nat (length (take UART_TX_FIFO_SIZE l)))
              (u1{{ thr := thr u1 ++ take UART_TX_FIFO_SIZE l }}))
    as (n & u2 & E2 & Hn & Hthr2 & Hrbr2).
  { rewrite length_drop. unfold UART_TX_FIFO_SIZE. subst l. simpl in *. lia. }
  exists (length (take UART_TX_FIFO_SIZE l) + n)%nat, u2.
  rewrite E2, <- Z.add_assoc, <- Nat2Z.inj_add. split_and!; [done| | |].
  - rewrite length_drop in Hn. rewrite length_take. lia.
  - simpl in *. rewrite Hthr2, Hthr, <- app_assoc. f_equal.
    rewrite length_take. destruct (decide (UART_TX_FIFO_SIZE <= length l)%nat).
    + rewrite Nat.min_l by lia. apply take_take_drop.
    + rewrite drop_ge, take_nil, app_nil_r, !take_ge; [done|lia..].
  - simpl in *. congruence.
Qed.

(** The returned count is the length of the prefix of the buffer that went out,
    whatever the transmitter does. *)
Lemma UART_Send_prefix bs u :
  exists n u', UART_Send bs u = Ok (Z.of_nat n, u') /\
    (n <= length bs)%nat /\ thr u' = thr u ++ take n bs /\ rbr u' = rbr u.
Proof. intros. unfold UART_Send. by apply UART_Send_loop_prefix. Qed.

(** ** Interrupts and the clock *)

Definition board_ok (b : board) : Prop := rxq_wf (rxq_s b).

(** What interrupts leave alone. *)
Definition irq_frame (b b' : board) : Prop :=
  ports b' = ports b /\ adc b' = adc b /\ console b' = console b /\
  thr (uart1 b') = thr (uart1 b) /\ tx_wait (uart1 b') = tx_wait (uart1 b).

Lemma irq_frame_refl b : irq_frame b b.
Proof. unfold irq_frame. done. Qed.

Lemma irq_frame_trans b1 b2 b3 :
  irq_frame b1 b2 -> irq_frame b2 b3 -> irq_frame b1 b3.
Proof. unfold irq_frame. intros. destruct_and!. split_and!; congruence. Qed.

Create HintDb board discriminated.
#[export] Hint Resolve irq_frame_refl irq_frame_trans : board.

Lemma rf_uartRecvCb_ok fuel b :
  board_ok b -> (length (rbr (uart1 b)) < fuel)%nat ->
  exists b', rf_uartRecvCb_loop fuel b = Ok (tt, b') /\ board_ok b' /\
    irq_frame b b' /\ timeMs b' = timeMs b /\ sched b' = sched b.
Proof.
  revert b. induction fuel as [|fuel IH]; intros b Hb Hf; [lia|].
  cbn [rf_uartRecvCb_loop]. unfold mbind, M_bind, zoom at 1. simpl.
  unfold UART_Receive1. destruct (rbr (uart1 b)) as [|d ds] eqn:E.
  { eexists. split; [reflexivity|]. by destruct b. }
  unfold zoom. simpl.
  destruct (rxq_wf_put (rxq_s b) d Hb) as (q' & -> & Hq').
  edestruct IH as (b' & -> & Hb' & Hfr & Ht & Hs);
    [done|simpl in *; lia|].
  by exists b'.
Qed.

Lemma handle_irq_ok i b :
  board_ok b ->
  exists b', handle_irq i b = Ok (tt, b') /\ board_ok b' /\ irq_frame b b' /\
    sched b' = sched b /\
    timeMs b' = match i with IrqTimer1 => u32 (timeMs b + 1) | _ => timeMs b end.
Proof.
  intros Hb. destruct i as [|bs]; simpl.
  - eexists. split; [reflexivity|]. by destruct b.
  - unfold UART1_IRQHandler, mbind, M_bind, zoom, modify, rf_uartRecvCb.
    cbn -[rf_uartRecvCb_loop].
    edestruct rf_uartRecvCb_ok as (b' & -> & Hb' & Hfr & Ht & Hs);
      [done|simpl; lia|].
    by exists b'.
Qed.

(** The ticks among a batch of interrupts. *)
Fixpoint ticks (l : list irq) : Z :=
  match l with
  | [] => 0
  | IrqTimer1 :: l' => 1 + ticks l'
  | IrqUart1 _ :: l' => ticks l'
  end.

Lemma handle_irqs_ok l b :
  board_ok b -> word_ok (timeMs b) ->
  exists b', foreach l handle_irq b = Ok (tt, b') /\ board_ok b' /\ irq_frame b b' /\
    sched b' = sched b /\ timeMs b' = u32 (timeMs b + ticks l).
Proof.
  revert b. induction l as [|i l IH]; intros b Hb Hw; cbn [foreach ticks].
  { exists b. unfold u32, word_ok in *. split_and!; auto with board. lia. }
  destruct (handle_irq_ok i b Hb) as (b1 & E1 & Hb1 & Hf1 & Hs1 & Ht1).
  assert (Hw1 : word_ok (timeMs b1)).
  { rewrite Ht1. destruct i; [|done]. unfold u32, word_ok. lia. }
  destruct (IH b1 Hb1 Hw1) as (b2 & E2 & Hb2 & Hf2 & Hs2 & Ht2).
  exists b2. unfold mbind, M_bind. rewrite E1, E2.
  split_and!; eauto with board; [congruence|].
  rewrite Ht2, Ht1. unfold u32. destruct i; [|f_equal; lia].
  rewrite Zplus_mod_idemp_l. f_equal. lia.
Qed.

Definition next_irqs (b : board) : list irq := default [] (head (sched b)).

(** A read of the clock runs the interrupts that are due and returns the time
    with their ticks counted, modulo 2^32. *)
Lemma time_get_ok b :
  board_ok b -> word_ok (timeMs b) ->
  exists b', time_get b = Ok (u32 (timeMs b + ticks (next_irqs b)), b') /\
    board_ok b' /\ word_ok (timeMs b') /\ irq_frame b b' /\
    sched b' = tail (sched b) /\ timeMs b' = u32 (timeMs b + ticks (next_irqs b)).
Proof.
  intros Hb Hw. unfold time_get, preempt, next_irqs, mbind, M_bind, gets.
  destruct (sched b) as [|l rest] eqn:E; cbn [head tail default].
  - exists b. cbn [ticks]. rewrite Z.add_0_r.
    replace (u32 (timeMs b)) with (timeMs b) by (unfold u32, word_ok in *; lia).
    split_and!; auto with board.
  - destruct (handle_irqs_ok l (b{{ sched := rest }})) as (b' & E' & Hb' & Hf & Hs & Ht);
      [done..|].
    rewrite E'. simpl in Ht, Hs. exists b'. rewrite Ht.
    split_and!; try done; unfold word_ok, u32; lia.
Qed.

(** The ticks delivered by the next [n] reads of the clock. *)
Definition ticks_in (n : nat) (b : board) : Z := ticks (concat (take n (sched b))).

Lemma ticks_app l l' : ticks (l ++ l') = ticks l + ticks l'.
Proof. induction l as [|[] l IH]; simpl; rewrite ?IH; lia. Qed.

Lemma ticks_nonneg l : 0 <= ticks l.
Proof. induction l as [|[] l IH]; simpl; lia. Qed.

Lemma ticks_in_S n b : ticks_in (S n) b = ticks (next_irqs b) + ticks (concat (take n (tail (sched b)))).
Proof.
  unfold ticks_in, next_irqs. destruct (sched b) as [|l s]; simpl; [by rewrite take_nil|].
  apply ticks_app.
Qed.

Lemma ticks_in_nonneg n b : 0 <= ticks_in n b.
Proof. apply ticks_nonneg. Qed.

(** A read of the clock that does not wrap. *)
Lemma time_get_nowrap n b :
  board_ok b -> word_ok (timeMs b) -> word_ok (timeMs b + ticks_in (S n) b) ->
  exists b', time_get b = Ok (timeMs b', b') /\ board_ok b' /\ word_ok (timeMs b') /\
    timeMs b' = timeMs b + ticks_in 1 b /\
    (forall k, timeMs b' + ticks_in k b' = timeMs b + ticks_in (S k) b).
Proof.
  intros Hb Hw Hn. destruct (time_get_ok b Hb Hw) as (b' & E & Hb' & Hw' & _ & Hs & Ht).
  pose proof (ticks_in_S 0 b) as H1. simpl in H1.
  rewrite (ticks_in_S n) in *. pose proof (ticks_nonneg (next_irqs b)).
  pose proof (ticks_nonneg (concat (take n (tail (sched b))))).
  unfold u32 in *. unfold word_ok in *.
  rewrite Z.mod_small in * by lia. exists b'.
  split_and!; try done; try lia; [by rewrite Ht|].
  intros k. rewrite (ticks_in_S k). unfold ticks_in. rewrite Hs. lia.
Qed.

(** ** What never changes, whatever the state *)

#[export] Instance irq_frame_preorder : PreOrder irq_frame.
Proof. split; [exact irq_frame_refl|exact irq_frame_trans]. Qed.

Lemma keeps_rxq_zoom {A} (m : M rxq_st A) : keeps irq_frame (zoom m).
Proof.
  intros b a b'. unfold zoom. simpl. destruct (m (rxq_s b)) as [[a1 q]|]; [|done].
  intros [= _ <-]. done.
Qed.
#[export] Hint Resolve keeps_rxq_zoom : keeps.

Lemma keeps_recvCb fuel : keeps irq_frame (rf_uartRecvCb_loop fuel).
Proof.
  induction fuel as [|fuel IH]; simpl; keeps.
  intros b a b'. unfold zoom, UART_Receive1. simpl.
  destruct (rbr (uart1 b)); intros [= _ <-]; done.
Qed.
#[export] Hint Resolve keeps_recvCb : keeps.

Lemma keeps_handle_irq i : keeps irq_frame (handle_irq i).
Proof.
  destruct i as [|bs]; simpl.
  - intros b r b'. intros [= _ <-]. done.
  - unfold UART1_IRQHandler, rf_uartRecvCb. keeps.
    + intros b r b'. intros [= _ <-]. done.
    + intros b r b' E. by eapply keeps_recvCb.
Qed.
#[export] Hint Resolve keeps_handle_irq : keeps.

Lemma keeps_time_get : keeps irq_frame time_get.
Proof.
  unfold time_get. keeps. intros b a b'. unfold preempt.
  destruct (sched b) as [|l rest]; [by intros [= _ <-]|]. intros E.
  assert (K : keeps irq_frame (foreach l handle_irq)) by keeps.
  apply K in E. done.
Qed.

Lemma keeps_rf_uart_receive n : keeps irq_frame (rf_uart_receive n).
Proof. induction n as [|n IH]; simpl; keeps. Qed.
#[export] Hint Resolve keeps_time_get keeps_rf_uart_receive : keeps.

(** Taking one byte off the receive queue. *)
Lemma rf_uart_receive1_ok b :
  board_ok b ->
  exists ds b', rf_uart_receive 1 b = Ok (ds, b') /\ board_ok b' /\
    timeMs b' = timeMs b /\ sched b' = sched b /\ irq_frame b b' /\ (length ds <= 1)%nat.
Proof.
  intros Hb. simpl. unfold mbind, M_bind, gets.
  destruct (rxq_isEmpty (rxq_s b)).
  { exists [], b. split_and!; auto with board; simpl; lia. }
  unfold zoom. simpl. destruct (rxq_wf_get _ Hb) as (d & q' & -> & Hq').
  eexists _, _. split; [reflexivity|]. simpl. split_and!; auto; done.
Qed.
