(* ===== verification/Xbee.v ===== *)
(** * The XBee driver

    Lib_Board/src/xbee.c: the API-mode frame receiver, the frames it sends, the
    AT-command start-up, over the board's UART and clock.  The functions that
    call back into the protocol above run in a world [W] that holds the driver's
    state behind a lens. *)

From S2P Require Import Prelude Ring Board.

(** ** Constants *)

Definition CR : Z := 0x0D.
Definition RESP_OK : list Z := [79; 75; 0].

Definition ERROR_BUF_TOO_SMALL : Z := -1.
Definition ERROR_TIMEOUT : Z := -2.

Definition XBEE_START_DEL : Z := 0x7E.
Definition XBEE_BUF_SZ : Z := 200.

Definition XBEE_API_ID_TX_64 : Z := 0x00.
Definition XBEE_API_ID_AT_CMD : Z := 0x08.
Definition XBEE_API_ID_AT_RESP : Z := 0x88.
Definition XBEE_API_ID_TX_STAT : Z := 0x89.
Definition XBEE_API_ID_RX_64 : Z := 0x80.
Definition XBEE_API_ID_RX_16 : Z := 0x81.
Definition XBEE_API_ID_MOD_STAT : Z := 0x8A.

Definition XBEE_MOD_STAT_ASSOC : Z := 2.
Definition XBEE_MOD_STAT_DIASSOC : Z := 3.
Definition XBEE_MOD_STAT_COORD_START : Z := 6.

Definition XBEE_TX_STAT_SUCCESS : Z := 0.
Definition XBEE_TX_STAT_NOACK : Z := 1.
Definition XBEE_TX_STAT_CCA_FAIL : Z := 2.
Definition XBEE_TX_STAT_PURGED : Z := 3.

Definition XBEE_RECV_FRAME_TO : Z := 2000.

(** [error_t] of board.h. *)
Inductive error_t : Type :=
| ERR_OK
| ERR_ARGUMENT
| ERR_TIMEOUT
| ERR_NOT_INIT
| ERR_CAN_SEND
| ERR_RF_CMD_ERROR
| ERR_RF_READ_ERROR.
#[export] Instance error_t_dec : EqDecision error_t.
Proof. solve_decision. Defined.

Inductive rfState_t : Type := XBEE_FRAME | XBEE_LENGTH | XBEE_DATA.
#[export] Instance rfState_t_dec : EqDecision rfState_t.
Proof. solve_decision. Defined.

(** [xbeeType_t] and [xbeeTxStatus_t] of xbee.h. *)
Inductive xbeeType_t : Type := XBEE_END_DEVICE | XBEE_COORDINATOR.
Inductive xbeeTxStatus_t : Type := TX_STAT_OK | TX_STAT_NO_ACK | TX_STAT_CCA | TX_STAT_PURGED.

(** ** State: the static variables of xbee.c *)

Record xbee_st : Type := mk_xbee {
  _cb : bool;                 (* the callback pointer is not NULL *)
  rfState : rfState_t;
  rfFrameLen : Z;
  rfPos : Z;
  rfBuf : list Z;
  rfFrameId : Z;
  rfFrameTimer : Z;
  isCoordinator : bool;
  initialized : bool
}.
#[export] Instance eta_xbee_st : Settable xbee_st :=
  fun s => mk_xbee (_cb s) (rfState s) (rfFrameLen s) (rfPos s) (rfBuf s) (rfFrameId s) (rfFrameTimer s) (isCoordinator s) (initialized s).

Definition xbee_reset : xbee_st := {|
  _cb := false; rfState := XBEE_FRAME; rfFrameLen := 0; rfPos := 0;
  rfBuf := replicate 200 0; rfFrameId := 1; rfFrameTimer := 0;
  isCoordinator := false; initialized := false
|}.

Record xworld : Type := mk_xworld { brd : board; xb : xbee_st }.
#[export] Instance eta_xworld : Settable xworld :=
  fun s => mk_xworld (brd s) (xb s).

#[export] Instance lens_brd : Lens board xworld :=
  {| view := brd; put := fun b w => w{{ brd := b }} |}.
#[export] Instance lens_xb : Lens xbee_st xworld :=
  {| view := xb; put := fun s w => w{{ xb := s }} |}.

(** ** Byte order *)

Definition bufTo32bitInt {W} (buf : list Z) : M W Z :=
  b0 ← aget buf 0; b1 ← aget buf 1; b2 ← aget buf 2; b3 ← aget buf 3;
  let v := 0 in
  let v := Z.lor v (u32 (Z.shiftl b0 24)) in
  let v := Z.lor v (u32 (Z.shiftl b1 16)) in
  let v := Z.lor v (u32 (Z.shiftl b2 8)) in
  let v := Z.lor v b3 in
  mret v.

Definition int32bitToBuf (v : Z) : list Z :=
  [ Z.land (Z.shiftr v 24) 0xff; Z.land (Z.shiftr v 16) 0xff;
    Z.land (Z.shiftr v 8) 0xff; Z.land (Z.shiftr v 0) 0xff ].

(** ** Frame identifiers and checksum *)

Definition getFrameId : M xbee_st Z :=
  modify (fun s => s{{ rfFrameId := u8 (rfFrameId s + 1) }}) ;;
  s ← get;
  when (rfFrameId s =? 0) (modify (fun s => s{{ rfFrameId := 1 }})) ;;
  gets rfFrameId.

Fixpoint checksum_loop (bs : list Z) (cs : Z) : Z :=
  match bs with
  | [] => cs
  | b :: bs' => checksum_loop bs' (u8 (cs + b))
  end.

Definition checksum {W} (buf : list Z) (len : Z) : M W Z :=
  if Z.of_nat (length buf) <? len then fail OutOfBounds
  else mret (u8 (0xFF - checksum_loop (take (Z.to_nat len) buf) 0)).

(** ** Sending *)

Definition apiAtCmd (atCmd : list Z) (param : Z) (setParam : bool) : M xworld error_t :=
  fid ← zoom getFrameId;
  c0 ← aget atCmd 0;
  c1 ← aget atCmd 1;
  let buf := [XBEE_START_DEL; 0; (if setParam then 4 + 4 else 4);
              XBEE_API_ID_AT_CMD; fid; c0; c1]
             ++ (if setParam then int32bitToBuf param else []) in
  let pos := Z.of_nat (length buf) in
  cs ← checksum (drop 3 buf) (pos - 3);
  zoom (rf_uart_send (buf ++ [cs])) ;;
  mret ERR_OK.

(** The result carries [*frameId], written only when a frame is sent. *)
Definition apiTx64 (addrHi addrLo : Z) (data : list Z) (len : Z)
    : M xworld (error_t * option Z) :=
  if 20 <? len then mret (ERR_ARGUMENT, None)
  else
    fid ← zoom getFrameId;
    guard (len <=? Z.of_nat (length data)) OutOfBounds ;;
    let buf := [XBEE_START_DEL; 0; u8 (11 + len); XBEE_API_ID_TX_64; fid]
               ++ int32bitToBuf addrHi ++ int32bitToBuf addrLo ++ [0]
               ++ take (Z.to_nat len) data in
    cs ← checksum (drop 3 buf) (u8 (11 + len));
    zoom (rf_uart_send (buf ++ [cs])) ;;
    mret (ERR_OK, Some fid).

(** ** Receiving

    The callback table of [xbee_callb_t]: each entry may be NULL. *)

Record xbee_callb_t (W : Type) : Type := mk_xbee_callb {
  cb_up : option (Z -> M W unit);
  cb_node : option (Z -> Z -> Z -> M W unit);
  cb_txStat : option (Z -> xbeeTxStatus_t -> M W unit);
  cb_data : option (Z -> Z -> Z -> list Z -> Z -> M W unit)
}.
Arguments cb_up {W} x.
Arguments cb_node {W} x.
Arguments cb_txStat {W} x.
Arguments cb_data {W} x.

Section receiver.
Context {W : Type} `{Lens xworld W}.
(** The table [xbee_init] was given. *)
Variable callbacks : xbee_callb_t W.

Definition xw {A} (m : M xworld A) : M W A := zoom m.
Definition xlog (fmt : string) (args : list Z) : M W unit :=
  xw (zoom (dbg fmt args)).
Definition xst (f : xbee_st -> xbee_st) : M W unit :=
  xw (zoom (modify f : M xbee_st unit)).
Definition xget {A} (f : xbee_st -> A) : M W A :=
  xw (zoom (gets f : M xbee_st A)).

(** [_cb->f]: through the pointer. *)
Definition deref_cb : M W (xbee_callb_t W) :=
  set ← xget _cb;
  if (set : bool) then mret callbacks else fail NullDeref.

Definition handleTxStatus (frameId status : Z) : M W unit :=
  cb ← deref_cb;
  match cb_txStat cb with
  | Some txStat =>
      if status =? XBEE_TX_STAT_SUCCESS then txStat frameId TX_STAT_OK
      else if status =? XBEE_TX_STAT_NOACK then txStat frameId TX_STAT_NO_ACK
      else if status =? XBEE_TX_STAT_CCA_FAIL then txStat frameId TX_STAT_CCA
      else if status =? XBEE_TX_STAT_PURGED then txStat frameId TX_STAT_PURGED
      else mret tt
  | None => xlog "Xbee: Tx status = %d\r\n" [status]
  end.

(** [buf] is the rest of the receive buffer from the first data byte on;
    the callback takes the length as a [uint8_t]. *)
Definition processData (addrHi addrLo rssi opt : Z) (buf : list Z) (len : Z)
    : M W unit :=
  cb ← deref_cb;
  match cb_data cb with
  | Some data => data addrHi addrLo rssi buf (u8 len)
  | None =>
      xlog "data: %x:%x, rssi=%d, opt=%d, len=%d\r\n" [addrHi; addrLo; rssi; opt; len] ;;
      foreach (take (Z.to_nat len) buf) (fun b => xlog "%x " [b]) ;;
      xlog "\r\n" []
  end.

Definition handleDiscovery (status : Z) (buf : list Z) (len : Z) : M W unit :=
  if (status =? 0) && (11 <=? len) then
    cb ← deref_cb;
    match cb_node cb with
    | Some node =>
        addrHi ← bufTo32bitInt (drop 2 buf);
        addrLo ← bufTo32bitInt (drop 6 buf);
        rssi ← aget buf 10;
        node addrHi addrLo rssi
    | None => mret tt
    end
  else mret tt.

Definition handleAtResponse (frameId : Z) (atBuf : list Z) (status : Z)
    (valueBuf : list Z) (valueLen : Z) : M W unit :=
  c0 ← aget atBuf 0;
  c1 ← aget atBuf 1;
  if (c0 =? 78) && (c1 =? 68) then handleDiscovery status valueBuf valueLen
  else
    xlog "Xbee: AT response %x, %c%c, stat=%d, len=%d\r\n    " [frameId; c0; c1; status; valueLen] ;;
    foreach (take (Z.to_nat valueLen) valueBuf) (fun b => xlog "%x " [b]) ;;
    xlog "\r\n" [].

Definition call_up (up : Z) : M W unit :=
  cb ← deref_cb;
  match cb_up cb with
  | Some f => f up
  | None => mret tt
  end.

Definition handleModemStatus (status : Z) : M W unit :=
  xlog "Xbee: Modem status %d\r\n" [status] ;;
  coord ← xget isCoordinator;
  if (coord : bool) && (status =? XBEE_MOD_STAT_COORD_START) then
    xst (fun s => s{{ initialized := true }}) ;; call_up 1
  else if negb coord && (status =? XBEE_MOD_STAT_ASSOC) then
    xst (fun s => s{{ initialized := true }}) ;; call_up 1
  else if negb coord && (status =? XBEE_MOD_STAT_DIASSOC) then
    xst (fun s => s{{ initialized := false }}) ;; call_up 0
  else mret tt.

Definition processFrame (buf : list Z) (len : Z) : M W unit :=
  if len <? 2 then xlog "Xbee: Invalid frame length (%d)\r\n" [len]
  else
    cs ← checksum buf len;
    if negb (cs =? 0) then xlog "Xbee: Invalid checksum\r\n" []
    else
      api ← aget buf 0;
      if api =? XBEE_API_ID_AT_RESP then
        if len <? 5 then xlog "Xbee: AT resp data too small: %d\r\n " [len]
        else
          frameId ← aget buf 1;
          status ← aget buf 4;
          (if 6 <? len
           then handleAtResponse frameId (drop 2 buf) status (drop 5 buf) (len - 5 - 1)
           else handleAtResponse frameId (drop 2 buf) status [] 0)
      else if api =? XBEE_API_ID_TX_STAT then
        frameId ← aget buf 1;
        status ← aget buf 2;
        handleTxStatus frameId status
      else if api =? XBEE_API_ID_RX_64 then
        if len <? 12 then xlog "Xbee: RX data too small: %d\r\n " [len]
        else
          addrHi ← bufTo32bitInt (drop 1 buf);
          addrLo ← bufTo32bitInt (drop 5 buf);
          rssi ← aget buf 9;
          opt ← aget buf 10;
          processData addrHi addrLo rssi opt (drop 11 buf) (len - 11 - 1)
      else if api =? XBEE_API_ID_RX_16 then xlog "Xbee: RX 16 bit (unhandled)\r\n" []
      else if api =? XBEE_API_ID_MOD_STAT then
        status ← aget buf 1;
        handleModemStatus status
      else
        xlog "Xbee: Unhandled API ID: %x\r\n " [api] ;;
        foreach (take (Z.to_nat (len - 2)) (drop 1 buf)) (fun b => xlog "%x " [b]) ;;
        xlog "\r\n" [].

Definition processByte (data : Z) : M W unit :=
  st ← xget rfState;
  match st with
  | XBEE_FRAME =>
      if data =? XBEE_START_DEL then
        xst (fun s => s{{ rfPos := 0; rfFrameLen := 0; rfState := XBEE_LENGTH }}) ;;
        t ← xw (zoom time_get);
        xst (fun s => s{{ rfFrameTimer := u32 (t + XBEE_RECV_FRAME_TO) }})
      else mret tt
  | XBEE_LENGTH =>
      xst (fun s => s{{ rfFrameLen :=
        u32 (Z.lor (rfFrameLen s) (Z.shiftl data (8 * (1 - rfPos s)))) }}) ;;
      xst (fun s => s{{ rfPos := u32 (rfPos s + 1) }}) ;;
      pos ← xget rfPos;
      if pos =? 2 then
        xst (fun s => s{{ rfPos := 0; rfState := XBEE_DATA }}) ;;
        len ← xget rfFrameLen;
        if XBEE_BUF_SZ <? len then
          xlog "Xbee: Frame len %d > max buffer len %d\r\n" [len; XBEE_BUF_SZ] ;;
          xst (fun s => s{{ rfFrameLen := XBEE_BUF_SZ }})
        else mret tt
      else mret tt
  | XBEE_DATA =>
      s ← xget (fun s => s);
      buf ← aset (rfBuf s) (rfPos s) data;
      xst (fun s => s{{ rfBuf := buf; rfPos := u32 (rfPos s + 1) }}) ;;
      s ← xget (fun s => s);
      if rfPos s =? u32 (rfFrameLen s + 1) then
        xst (fun s => s{{ rfState := XBEE_FRAME; rfFrameTimer := 0 }}) ;;
        processFrame (rfBuf s) (rfPos s)
      else mret tt
  end.

Definition xbee_task : M W unit :=
  timer ← xget rfFrameTimer;
  (if 0 <? timer then
     now ← xw (zoom time_get);
     when (timer <? now)
       (xst (fun s => s{{ rfState := XBEE_FRAME }}) ;;
        xlog "Xbee: Frame timer expired\r\n" [] ;;
        xst (fun s => s{{ rfFrameTimer := 0 }}))
   else mret tt) ;;
  empty ← xw (zoom (gets rf_uart_recvIsEmpty));
  if negb (empty : bool) then
    ds ← xw (zoom (rf_uart_receive 1));
    match ds with
    | data :: _ => processByte data
    | [] => mret tt
    end
  else mret tt.
End receiver.

(** ** AT command mode

    The buffer argument of [readLine] is what the caller's array holds on
    entry; [fuel] bounds the iterations of its loop. *)

Definition readLine_body (t bufLen : Z) (l : list Z * Z)
    : M xworld (ctl (list Z * Z) (list Z * Z)) :=
  let '(buf, pos) := l in
  if negb (pos <? bufLen) then mret (Break (buf, pos))
  else
    now ← zoom time_get;
    if negb (now <? t) then mret (Break (buf, pos))
    else
      ds ← zoom (rf_uart_receive 1);
      match ds with
      | d :: _ =>
          buf' ← aset buf pos d;
          if d =? CR then
            buf'' ← aset buf' pos 0;
            mret (Break (buf'', pos))
          else mret (Continue (buf', u32 (pos + 1)))
      | [] => mret (Continue (buf, pos))
      end.

Definition readLine (fuel : nat) (buf : list Z) (bufLen timeout : Z)
    : M xworld (Z * list Z) :=
  t0 ← zoom time_get;
  let t := u32 (t0 + timeout) in
  bp ← while fuel (readLine_body t bufLen) (buf, 0);
  let '(buf, pos) := bp in
  if bufLen <=? pos then mret (ERROR_BUF_TOO_SMALL, buf)
  else
    now ← zoom time_get;
    if t <=? now then mret (ERROR_TIMEOUT, buf)
    else mret (pos, buf).

(** [strcmp(s, buf) != 0]; [s] ends with its NUL. *)
Fixpoint strcmp_differs {W} (s buf : list Z) : M W bool :=
  match s, buf with
  | [], _ => mret false
  | _ :: _, [] => fail OutOfBounds
  | c :: s', d :: buf' =>
      if c =? d then (if c =? 0 then mret false else strcmp_differs s' buf')
      else mret true
  end.

Section at_mode.
(** What the uninitialised local arrays ([ebuf], [b]) hold on entry. *)
Variable uninit : list Z.

Definition commandMode (fuel : nat) : M xworld error_t :=
  zoom (rf_uart_sendString "+++") ;;
  r ← readLine fuel uninit 10 1200;
  let '(lineLen, ebuf) := r in
  if lineLen <? 0 then mret ERR_RF_READ_ERROR
  else
    ne ← strcmp_differs RESP_OK ebuf;
    if (ne : bool) then mret ERR_RF_CMD_ERROR else mret ERR_OK.

Definition XBEE_END_CMD : list Z := [CR].

Definition atGet (fuel : nat) (atCmd : string) (resp : list Z) (respLen : Z)
    : M xworld (error_t * list Z) :=
  zoom (rf_uart_sendString atCmd) ;;
  zoom (rf_uart_send XBEE_END_CMD) ;;
  if 0 <? respLen then
    r ← readLine fuel resp respLen 1000;
    let '(lineLen, resp') := r in
    if lineLen <? 0 then mret (ERR_RF_READ_ERROR, resp') else mret (ERR_OK, resp')
  else mret (ERR_OK, resp).

Definition atSet (fuel : nat) (atCmd : string) : M xworld error_t :=
  r ← atGet fuel atCmd uninit 10;
  let '(err, b) := r in
  match err with
  | ERR_OK =>
      ne ← strcmp_differs RESP_OK b;
      if (ne : bool) then mret ERR_RF_CMD_ERROR else mret ERR_OK
  | _ => mret err
  end.

(** One step of [xbee_init]'s [do { ... } while (0)]: run the command, leave
    with its error, or go on. *)
Definition at_step (cmd : M xworld error_t) (failed : string)
    (next : M xworld error_t) : M xworld error_t :=
  err ← cmd;
  match err with
  | ERR_OK => next
  | _ => zoom (dbg failed []) ;; mret err
  end.

Definition xbee_init (fuel : nat) (type : xbeeType_t) (callbacks : bool)
    : M xworld error_t :=
  zoom (modify (fun s : xbee_st =>
    s{{ _cb := callbacks;
        isCoordinator := match type with XBEE_COORDINATOR => true | _ => false end }})) ;;
  at_step (commandMode fuel) "Xbee: +++ failed\r\n" (
  at_step (atSet fuel "ATIDEAEA") "Xbee: ATIDEAEA failed\r\n" (
  at_step (atSet fuel "ATMYFFFE") "Xbee: ATMYFFFE failed\r\n" (
  coord ← zoom (gets isCoordinator : M xbee_st bool);
  let to_api := at_step (atSet fuel "ATAP1") "Xbee: ATAP1 failed\r\n" (mret ERR_OK) in
  if (coord : bool) then
    at_step (atSet fuel "ATA24") "Xbee: ATA24 failed\r\n" (
    at_step (atSet fuel "ATCE1") "Xbee: ATCE1 failed\r\n" to_api)
  else
    at_step (atSet fuel "ATA14") "Xbee: ATA14 failed\r\n" to_api))).
End at_mode.

(** ** Requests *)

Definition xbee_send (addrHi addrLo : Z) (data : list Z) (len : Z)
    : M xworld (error_t * option Z) :=
  init ← zoom (gets initialized : M xbee_st bool);
  if negb (init : bool) then mret (ERR_NOT_INIT, None)
  else apiTx64 addrHi addrLo data len.

Definition xbee_nodeDiscover : M xworld error_t :=
  init ← zoom (gets initialized : M xbee_st bool);
  if negb (init : bool) then mret ERR_NOT_INIT
  else apiAtCmd [78; 68] 0 false.
