(* ===== verification/XbeeFacts.v ===== *)
(** * Facts about the XBee driver

    Byte order, checksum and frame identifiers; the frame receiver accepts
    exactly the well-formed frames that fit its buffer; the frames the driver
    sends are such frames; the start-up sequence. *)

From S2P Require Import Prelude Ring Board BoardFacts Xbee.

(** ** Running the receiver in its world *)

Lemma xworld_eta (x : xworld) : mk_xworld (brd x) (xb x) = x.
Proof. by destruct x. Qed.

#[export] Instance lens_brd_laws : LensLaws board xworld.
Proof. split; intros; by repeat match goal with w : xworld |- _ => destruct w end. Qed.
#[export] Instance lens_xb_laws : LensLaws xbee_st xworld.
Proof. split; intros; by repeat match goal with w : xworld |- _ => destruct w end. Qed.

Section running.
Context {W : Type} `{LensLaws xworld W}.
Implicit Types w : W.

Lemma xget_run {A} (f : xbee_st -> A) w : xget f w = Ok (f (xb (view w)), w).
Proof.
  unfold xget, xw, zoom, gets. simpl.
  rewrite xworld_eta. by rewrite put_view.
Qed.

Lemma xst_run (f : xbee_st -> xbee_st) w :
  xst f w = Ok (tt, put ((view w){{ xb := f (xb (view w)) }}) w).
Proof. done. Qed.

Lemma xlog_run fmt args w :
  xlog fmt args w =
    Ok (tt, put ((view w){{ brd := (brd (view w)){{ console :=
      console (brd (view w)) ++ [(fmt, args)] }} }}) w).
Proof. done. Qed.

Lemma xtime_run w :
  board_ok (brd (view w)) -> word_ok (timeMs (brd (view w))) ->
  exists b', xw (zoom time_get) w = Ok (timeMs b', put ((view w){{ brd := b' }}) w) /\
    board_ok b' /\ word_ok (timeMs b') /\ irq_frame (brd (view w)) b'.
Proof.
  intros Hb Hw. destruct (time_get_ok _ Hb Hw) as (b' & E & Hb' & Hw' & Hf & _ & Ht).
  exists b'. split_and!; try done. unfold xw, zoom. simpl. by rewrite E, Ht.
Qed.
End running.

Create Rewrite HintDb run.
#[export] Hint Rewrite @xget_run @xst_run @xlog_run @view_put @put_put
  using typeclasses eauto : run.

(** Run the monadic steps of the goal whose effect is known. *)
Ltac mrun :=
  repeat (cbn [mbind M_bind mret M_ret when guard fail];
          unfold mbind, M_bind, mret, M_ret;
          autorewrite with run; simpl).

Section receive.
Context {W : Type} `{LensLaws xworld W}.
Variable cb : xbee_callb_t W.
Implicit Types (w : W) (x : xworld).

Definition feed (bs : list Z) : M W unit := foreach bs (processByte cb).

Lemma feed_app bs bs' w :
  feed (bs ++ bs') w = (feed bs ;; feed bs') w.
Proof.
  revert w. induction bs as [|b bs IH]; intros w; [done|].
  unfold feed in *. simpl. unfold mbind, M_bind in *.
  destruct (processByte cb b w) as [[[] w1]|]; [apply IH|done].
Qed.

(** The world in which the driver's variables have the given values. *)
Local Abbreviation at_state b c st l p buf fid tm co ini w :=
  (put (mk_xworld b (mk_xbee c st l p buf fid tm co ini)) w).

Lemma recv_hi b c buf fid tm co ini d w :
  byte_ok d ->
  processByte cb d (at_state b c XBEE_LENGTH 0 0 buf fid tm co ini w) =
  Ok (tt, at_state b c XBEE_LENGTH (d * 256) 1 buf fid tm co ini w).
Proof.
  intros Hd. unfold processByte. mrun.
  rewrite ?Z.lor_0_l, Z.shiftl_mul_pow2 by lia. change (2 ^ (8 * (1 - 0))) with 256.
  unfold u32, byte_ok in *. rewrite Z.mod_small by lia. done.
Qed.

Lemma recv_lo b c buf fid tm co ini h d w :
  byte_ok h -> byte_ok d ->
  processByte cb d (at_state b c XBEE_LENGTH (h * 256) 1 buf fid tm co ini w) =
  Ok (tt, at_state (if XBEE_BUF_SZ <? h * 256 + d then
                      b{{ console := console b ++
                        [("Xbee: Frame len %d > max buffer len %d\r\n"%string,
                          [h * 256 + d; XBEE_BUF_SZ])] }} else b) c XBEE_DATA
            (Z.min (h * 256 + d) XBEE_BUF_SZ) 0 buf fid tm co ini w).
Proof.
  intros Hh Hd. unfold processByte. mrun.
  rewrite Z.shiftl_0_r.
  replace (Z.lor (h * 256) d) with (h * 256 + d).
  2:{ change 256 with (2 ^ 8). rewrite <- Z.shiftl_mul_pow2 by lia.
      symmetry. apply Z_lor_shiftl_small; unfold byte_ok in *; lia. }
  unfold u32, byte_ok in *. rewrite Z.mod_small by lia.
  destruct (Z.ltb_spec XBEE_BUF_SZ (h * 256 + d)); mrun.
  - rewrite Z.min_r by lia. done.
  - rewrite Z.min_l by lia. done.
Qed.

(** A start delimiter opens a frame and arms the frame timer. *)
Lemma recv_start b c l p buf fid tm co ini w :
  board_ok b -> word_ok (timeMs b) ->
  exists b', board_ok b' /\ word_ok (timeMs b') /\ irq_frame b b' /\
    processByte cb XBEE_START_DEL (at_state b c XBEE_FRAME l p buf fid tm co ini w) =
    Ok (tt, at_state b' c XBEE_LENGTH 0 0 buf fid
              (u32 (timeMs b' + XBEE_RECV_FRAME_TO)) co ini w).
Proof.
  intros Hb Hw. unfold processByte. mrun.
  destruct (xtime_run (put (mk_xworld b (mk_xbee c XBEE_LENGTH 0 0 buf fid tm co ini)) w))
    as (b' & E & Hb' & Hw' & Hf).
  { by rewrite view_put. } { by rewrite view_put. }
  rewrite E. rewrite view_put in *. mrun. by exists b'.
Qed.

(** Outside a frame every other byte is ignored. *)
Lemma recv_noise b c l p buf fid tm co ini d w :
  d <> XBEE_START_DEL ->
  processByte cb d (at_state b c XBEE_FRAME l p buf fid tm co ini w) =
  Ok (tt, at_state b c XBEE_FRAME l p buf fid tm co ini w).
Proof. intros Hd. unfold processByte. mrun. apply Z.eqb_neq in Hd. by rewrite Hd. Qed.

(** A data byte that does not complete the frame is stored. *)
Lemma recv_data1 b c l p buf fid tm co ini d w :
  0 <= p < l -> p < Z.of_nat (length buf) -> l <= XBEE_BUF_SZ ->
  processByte cb d (at_state b c XBEE_DATA l p buf fid tm co ini w) =
  Ok (tt, at_state b c XBEE_DATA l (p + 1) (<[Z.to_nat p := d]> buf) fid tm co ini w).
Proof.
  intros Hp Hb Hl. unfold processByte. mrun. unfold XBEE_BUF_SZ in *.
  rewrite aset_ok by lia. mrun.
  replace (u32 (p + 1)) with (p + 1) by (unfold u32; lia).
  replace (u32 (l + 1)) with (l + 1) by (unfold u32; lia).
  destruct (Z.eqb_spec (p + 1) (l + 1)); [lia|]. by mrun.
Qed.

Lemma recv_data ds b c l p buf fid tm co ini w :
  Z.of_nat p + Z.of_nat (length ds) <= l -> l <= XBEE_BUF_SZ ->
  (p + length ds <= length buf)%nat ->
  feed ds (at_state b c XBEE_DATA l (Z.of_nat p) buf fid tm co ini w) =
  Ok (tt, at_state b c XBEE_DATA l (Z.of_nat (p + length ds)) (blit buf p ds)
            fid tm co ini w).
Proof.
  revert p buf. induction ds as [|d ds IH]; intros p buf Hlen Hl Hbuf.
  { simpl. by rewrite Nat.add_0_r, blit_nil. }
  simpl in *. unfold feed in *. simpl. unfold mbind, M_bind.
  rewrite recv_data1 by lia.
  replace (Z.of_nat p + 1) with (Z.of_nat (S p)) by lia. rewrite Nat2Z.id.
  rewrite IH by (rewrite ?length_insert; lia).
  rewrite blit_cons by lia. by replace (p + S (length ds))%nat with (S p + length ds)%nat by lia.
Qed.

(** The byte after the declared ones completes the frame: it is processed,
    with the receiver back between frames. *)
Lemma recv_last b c l buf fid tm co ini d w :
  0 <= l < XBEE_BUF_SZ -> length buf = 200%nat ->
  processByte cb d (at_state b c XBEE_DATA l l buf fid tm co ini w) =
  processFrame cb (<[Z.to_nat l := d]> buf) (l + 1)
    (at_state b c XBEE_FRAME l (l + 1) (<[Z.to_nat l := d]> buf) fid 0 co ini w).
Proof.
  intros Hl Hb. unfold processByte. mrun. unfold XBEE_BUF_SZ in *.
  rewrite aset_ok by lia. mrun.
  replace (u32 (l + 1)) with (l + 1) by (unfold u32; lia).
  rewrite Z.eqb_refl. mrun. done.
Qed.

(** At the clamped length of 200 that byte is written past the buffer. *)
Lemma recv_last_overflow b c buf fid tm co ini d w :
  length buf = 200%nat ->
  processByte cb d (at_state b c XBEE_DATA XBEE_BUF_SZ 200 buf fid tm co ini w) =
  Fault OutOfBounds.
Proof. intros Hb. unfold processByte. mrun. by rewrite aset_out by lia. Qed.

Lemma foreach_cons {A} (x : A) l (f : A -> M W unit) w w' :
  f x w = Ok (tt, w') -> foreach (x :: l) f w = foreach l f w'.
Proof. intros E. simpl. unfold mbind, M_bind. by rewrite E. Qed.

(** The state in which the driver waits for a frame. *)
Definition between_frames (x : xworld) : Prop :=
  board_ok (brd x) /\ word_ok (timeMs (brd x)) /\
  rfState (xb x) = XBEE_FRAME /\ length (rfBuf (xb x)) = 200%nat.

(** What a frame leaves in the driver: it is between frames, without a timer,
    and the other variables are as before. *)
Definition received (x x' : xworld) (frame : list Z) : Prop :=
  between_frames x' /\ irq_frame (brd x) (brd x') /\ rfFrameTimer (xb x') = 0 /\
  take (length frame) (rfBuf (xb x')) = frame /\
  rfPos (xb x') = Z.of_nat (length frame) /\
  _cb (xb x') = _cb (xb x) /\ rfFrameId (xb x') = rfFrameId (xb x) /\
  isCoordinator (xb x') = isCoordinator (xb x) /\
  initialized (xb x') = initialized (xb x).

Lemma feed_header b c l p buf fid tm co ini hi lo w :
  board_ok b -> word_ok (timeMs b) -> byte_ok hi -> byte_ok lo ->
  exists b', board_ok b' /\ word_ok (timeMs b') /\
    (hi * 256 + lo <= XBEE_BUF_SZ -> irq_frame b b') /\
    forall rest, feed (XBEE_START_DEL :: hi :: lo :: rest)
           (at_state b c XBEE_FRAME l p buf fid tm co ini w) =
    feed rest (at_state b' c XBEE_DATA (Z.min (hi * 256 + lo) XBEE_BUF_SZ) 0 buf fid
                 (u32 (timeMs b' + XBEE_RECV_FRAME_TO)) co ini w).
Proof.
  intros Hb Hw Hhi Hlo.
  destruct (recv_start b c l p buf fid tm co ini w Hb Hw) as (b1 & Hb1 & Hw1 & Hf & E).
  exists (if XBEE_BUF_SZ <? hi * 256 + lo
          then b1{{ console := console b1 ++
                      [("Xbee: Frame len %d > max buffer len %d\r\n"%string,
                        [hi * 256 + lo; XBEE_BUF_SZ])] }}
          else b1).
  split_and!.
  4:{ intros rest. unfold feed. rewrite (foreach_cons _ _ _ _ _ E).
      erewrite foreach_cons by (by apply recv_hi).
      erewrite foreach_cons by (by apply recv_lo).
      destruct (_ <? _); reflexivity. }
  - by destruct (_ <? _).
  - by destruct (_ <? _).
  - intros. destruct (Z.ltb_spec XBEE_BUF_SZ (hi * 256 + lo)); [lia|done].
Qed.

(** *** Whole frames *)

Definition frame_bytes (payload : list Z) (c : Z) : list Z :=
  XBEE_START_DEL :: Z.of_nat (length payload) / 256
    :: Z.of_nat (length payload) mod 256 :: payload ++ [c].

Lemma feed_frame payload c w :
  between_frames (view w) -> Z.of_nat (length payload) < XBEE_BUF_SZ ->
  exists x', received (view w) x' (payload ++ [c]) /\
    feed (frame_bytes payload c) w =
    processFrame cb (rfBuf (xb x')) (Z.of_nat (length payload) + 1) (put x' w).
Proof.
  intros (Hb & Hw & Hs & Hbuf) Hlen. set (n := Z.of_nat (length payload)) in *.
  assert (Hn : n / 256 * 256 + n mod 256 = n) by lia.
  assert (E0 : feed (frame_bytes payload c) w =
               feed (frame_bytes payload c) (put (view w) w)) by (by rewrite put_view).
  rewrite E0. clear E0. destruct (view w) as [b [cb0 st l p buf fid tm co ini]] eqn:Ew.
  simpl in *. subst st. unfold XBEE_BUF_SZ in *.
  destruct (feed_header b cb0 l p buf fid tm co ini (n / 256) (n mod 256) w)
    as (b' & Hb' & Hw' & Hf & E); [done|done|unfold byte_ok; lia..|].
  unfold frame_bytes. fold n. rewrite E, Hn, feed_app.
  unfold XBEE_BUF_SZ. rewrite Z.min_l by lia.
  pose proof (recv_data payload b' cb0 n 0 buf fid
    (u32 (timeMs b' + XBEE_RECV_FRAME_TO)) co ini w) as R.
  change (Z.of_nat 0) with 0 in R.
  unfold mbind, M_bind. rewrite R by (unfold XBEE_BUF_SZ; lia).
  unfold feed. simpl. unfold mbind, M_bind. fold n.
  rewrite recv_last by (rewrite ?length_blit by lia; unfold XBEE_BUF_SZ; lia).
  set (buf' := <[Z.to_nat n := c]> (blit buf 0 payload)).
  exists (mk_xworld b' (mk_xbee cb0 XBEE_FRAME n (n + 1) buf' fid 0 co ini)).
  split; [|by destruct (processFrame _ _ _ _) as [[[] ?]|]].
  assert (length buf' = 200%nat)
    by (unfold buf'; rewrite length_insert, length_blit; lia).
  unfold received, between_frames. simpl. rewrite length_app. simpl.
  split_and!; try done; [apply Hf; unfold XBEE_BUF_SZ; lia| |lia].
  unfold buf', n. rewrite Nat2Z.id.
  apply take_insert_blit. lia.
Qed.

(** A buffer that starts with a given list. *)
Lemma received_buf x x' frame :
  received x x' frame -> exists tl, rfBuf (xb x') = frame ++ tl.
Proof.
  intros (_ & _ & _ & Ht & _). exists (drop (length frame) (rfBuf (xb x'))).
  by rewrite <- Ht at 1; rewrite take_drop.
Qed.
End receive.

(** ** Checksum *)

Definition sum_bytes (bs : list Z) : Z := foldr Z.add 0 bs.

Lemma checksum_loop_sum bs cs :
  0 <= cs < 256 -> checksum_loop bs cs = u8 (cs + sum_bytes bs).
Proof.
  revert cs. induction bs as [|b bs IH]; intros cs Hcs; simpl.
  - unfold u8. lia.
  - rewrite IH by (unfold u8; lia). unfold u8. rewrite Zplus_mod_idemp_l. f_equal. lia.
Qed.

Lemma sum_bytes_app a b : sum_bytes (a ++ b) = sum_bytes a + sum_bytes b.
Proof. induction a; simpl; unfold sum_bytes in *; simpl; lia. Qed.

(** The checksum byte of a payload. *)
Definition cksum (bs : list Z) : Z := u8 (0xFF - u8 (sum_bytes bs)).

Lemma checksum_run {W} bs tl (w : W) :
  checksum (bs ++ tl) (Z.of_nat (length bs)) w = Ok (cksum bs, w).
Proof.
  unfold checksum, cksum. rewrite length_app.
  destruct (Z.ltb_spec (Z.of_nat (length bs + length tl)) (Z.of_nat (length bs))); [lia|].
  rewrite Nat2Z.id, take_app_length, checksum_loop_sum by lia. done.
Qed.

Lemma checksum_exact {W} bs n (w : W) :
  n = Z.of_nat (length bs) -> checksum bs n w = Ok (cksum bs, w).
Proof. intros ->. rewrite <- (app_nil_r bs) at 1. apply checksum_run. Qed.

Lemma cksum_snoc bs c : byte_ok c -> (cksum (bs ++ [c]) = 0 <-> c = cksum bs).
Proof.
  unfold cksum. rewrite sum_bytes_app. simpl. unfold u8, byte_ok.
  generalize (sum_bytes bs). intros. split; intros; lia.
Qed.

Lemma cksum_byte bs : byte_ok (cksum bs).
Proof. unfold cksum, byte_ok, u8. lia. Qed.

(** ** Byte order *)

Lemma int32bitToBuf_eq v :
  int32bitToBuf v =
    [v / 16777216 mod 256; v / 65536 mod 256; v / 256 mod 256; v mod 256].
Proof.
  unfold int32bitToBuf. rewrite !Z.shiftr_div_pow2 by lia.
  change 0xff with (Z.ones 8). rewrite !Z.land_ones by lia.
  change (2 ^ 8) with 256. change (2 ^ 0) with 1. by rewrite Z.div_1_r.
Qed.

Lemma bufTo32bitInt_eq {W} a b c d tl (w : W) :
  byte_ok a -> byte_ok b -> byte_ok c -> byte_ok d ->
  bufTo32bitInt (a :: b :: c :: d :: tl) w =
    Ok (a * 16777216 + b * 65536 + c * 256 + d, w).
Proof.
  unfold byte_ok. intros. unfold bufTo32bitInt. mrun. f_equal. f_equal.
  rewrite Z.lor_0_l.
  replace (u32 (Z.shiftl a 24)) with (Z.shiftl a 24)
    by (rewrite Z.shiftl_mul_pow2 by lia; unfold u32; lia).
  replace (u32 (Z.shiftl b 16)) with (Z.shiftl b 16)
    by (rewrite Z.shiftl_mul_pow2 by lia; unfold u32; lia).
  replace (u32 (Z.shiftl c 8)) with (Z.shiftl c 8)
    by (rewrite Z.shiftl_mul_pow2 by lia; unfold u32; lia).
  rewrite (Z_lor_shiftl_small a) by (rewrite ?Z.shiftl_mul_pow2 by lia; lia).
  replace (Z.shiftl a 24 + Z.shiftl b 16) with (Z.shiftl (a * 256 + b) 16)
    by (rewrite !Z.shiftl_mul_pow2 by lia; lia).
  rewrite (Z_lor_shiftl_small _ (Z.shiftl c 8)) by (rewrite ?Z.shiftl_mul_pow2 by lia; lia).
  replace (Z.shiftl (a * 256 + b) 16 + Z.shiftl c 8)
    with (Z.shiftl ((a * 256 + b) * 256 + c) 8)
    by (rewrite !Z.shiftl_mul_pow2 by lia; lia).
  rewrite Z_lor_shiftl_small by lia. rewrite Z.shiftl_mul_pow2 by lia. lia.
Qed.

Lemma bufTo32bitInt_roundtrip {W} v tl (w : W) :
  word_ok v -> bufTo32bitInt (int32bitToBuf v ++ tl) w = Ok (v, w).
Proof.
  intros Hv. rewrite int32bitToBuf_eq. simpl.
  rewrite bufTo32bitInt_eq by (unfold byte_ok; lia).
  unfold word_ok in Hv. f_equal. f_equal. lia.
Qed.

(** ** Properties of the receiver *)

(** The payload of a received-packet frame with a 64-bit source address. *)
Definition rx64_payload (hi lo rssi opt : Z) (data : list Z) : list Z :=
  XBEE_API_ID_RX_64 :: int32bitToBuf hi ++ int32bitToBuf lo ++ rssi :: opt :: data.

Lemma length_rx64 hi lo rssi opt data :
  length (rx64_payload hi lo rssi opt data) = (11 + length data)%nat.
Proof. done. Qed.

Lemma processFrame_rx64 {W} `{LensLaws xworld W} cb f hi lo rssi opt data tl n (w : W) :
  _cb (xb (view w)) = true -> cb_data cb = Some f -> word_ok hi -> word_ok lo ->
  Z.of_nat (length data) < 256 ->
  n = 12 + Z.of_nat (length data) ->
  processFrame cb (rx64_payload hi lo rssi opt data
    ++ [cksum (rx64_payload hi lo rssi opt data)] ++ tl) n w =
  f hi lo rssi (data ++ cksum (rx64_payload hi lo rssi opt data) :: tl)
    (Z.of_nat (length data)) w.
Proof.
  intros Hc Hf Hhi Hlo Hd Hn. unfold processFrame.
  destruct (Z.ltb_spec n 2); [lia|].
  set (p := rx64_payload hi lo rssi opt data). set (c := cksum p).
  assert (Hcs : checksum (p ++ [c] ++ tl) n w = Ok (0, w)).
  { rewrite app_assoc.
    replace n with (Z.of_nat (length (p ++ [c])))
      by (rewrite length_app; unfold p; rewrite length_rx64; simpl; lia).
    rewrite checksum_run.
    by rewrite (proj2 (cksum_snoc p c (cksum_byte p)) eq_refl). }
  unfold mbind, M_bind. rewrite Hcs. simpl.
  destruct (Z.ltb_spec n 12); [lia|].
  pose proof (bufTo32bitInt_roundtrip hi [] w Hhi) as Ehi.
  pose proof (bufTo32bitInt_roundtrip lo [] w Hlo) as Elo.
  simpl in Ehi, Elo. injection Ehi as ->. injection Elo as ->.
  unfold processData, deref_cb. mrun. rewrite Hc. mrun. rewrite Hf.
  replace (u8 (n - 11 - 1)) with (Z.of_nat (length data)) by (unfold u8; lia).
  done.
Qed.

(** Feeding a whole frame with a received packet hands its address, signal
    strength and data to the data callback, once, with the receiver ready for
    the next frame. *)
Lemma receive_rx64_delivers {W} `{LensLaws xworld W} cb f hi lo rssi opt data (w : W) :
  between_frames (view w) -> _cb (xb (view w)) = true -> cb_data cb = Some f ->
  word_ok hi -> word_ok lo -> Z.of_nat (length data) < 189 ->
  let p := rx64_payload hi lo rssi opt data in
  exists x' tl, received (view w) x' (p ++ [cksum p]) /\
    feed cb (frame_bytes p (cksum p)) w =
    f hi lo rssi (data ++ cksum p :: tl) (Z.of_nat (length data)) (put x' w).
Proof.
  intros Hb Hc Hf Hhi Hlo Hd p.
  destruct (feed_frame cb p (cksum p) w Hb) as (x' & Hx & E).
  { unfold p. rewrite length_rx64. unfold XBEE_BUF_SZ. lia. }
  destruct (received_buf _ _ _ Hx) as [tl Htl].
  exists x', tl. split; [done|]. rewrite E, Htl, <- app_assoc. unfold p.
  rewrite length_rx64. destruct Hx as (_ & _ & _ & _ & _ & Hcb & _).
  apply processFrame_rx64; try done; [|lia..]. by rewrite view_put, Hcb.
Qed.

(** A frame whose checksum byte is wrong changes nothing but the receiver's own
    variables, and is reported on the console only. *)
Theorem receive_bad_checksum {W} `{LensLaws xworld W} cb p c (w : W) :
  between_frames (view w) -> byte_ok c -> c <> cksum p ->
  (0 < length p)%nat -> Z.of_nat (length p) < XBEE_BUF_SZ ->
  exists x', received (view w) x' (p ++ [c]) /\
    feed cb (frame_bytes p c) w =
    Ok (tt, put (x'{{ brd := (brd x'){{ console :=
      console (brd x') ++ [("Xbee: Invalid checksum\r\n"%string, [])] }} }}) w).
Proof.
  intros Hb Hc Hne Hp Hl.
  destruct (feed_frame cb p c w Hb Hl) as (x' & Hx & E).
  destruct (received_buf _ _ _ Hx) as [tl Htl].
  exists x'. split; [done|]. rewrite E, Htl. unfold processFrame.
  destruct (Z.ltb_spec (Z.of_nat (length p) + 1) 2); [lia|].
  replace (Z.of_nat (length p) + 1) with (Z.of_nat (length (p ++ [c])))
    by (rewrite length_app; simpl; lia).
  unfold mbind, M_bind. rewrite checksum_run.
  destruct (Z.eqb_spec (cksum (p ++ [c])) 0) as [e|_].
  { by apply cksum_snoc in e. }
  simpl. rewrite xlog_run. mrun. done.
Qed.

(** C38: The buffer has no room for the checksum byte of a frame that fills it: a
    frame whose declared length is 200 or more stops the receiver with a write
    past the end of the buffer at its 201st data byte. *)
Theorem receive_oversized_overflows {W} `{LensLaws xworld W} cb hi lo ds c (w : W) :
  between_frames (view w) -> byte_ok hi -> byte_ok lo ->
  XBEE_BUF_SZ <= hi * 256 + lo -> length ds = 200%nat ->
  feed cb (XBEE_START_DEL :: hi :: lo :: ds ++ [c]) w = Fault OutOfBounds.
Proof.
  intros (Hb & Hw & Hs & Hbuf) Hhi Hlo Hlen Hds.
  rewrite <- (put_view w). destruct (view w) as [b [cb0 st l p buf fid tm co ini]] eqn:Ew.
  simpl in *. subst st.
  destruct (feed_header cb b cb0 l p buf fid tm co ini hi lo w)
    as (b' & Hb' & _ & _ & E); [done..|].
  rewrite E, Z.min_r, feed_app by lia.
  pose proof (recv_data cb ds b' cb0 XBEE_BUF_SZ 0 buf fid
    (u32 (timeMs b' + XBEE_RECV_FRAME_TO)) co ini w) as R.
  change (Z.of_nat 0) with 0 in R. unfold XBEE_BUF_SZ in *.
  unfold mbind, M_bind. rewrite R by lia.
  unfold feed. simpl. unfold mbind, M_bind. rewrite Hds. change (Z.of_nat 200) with 200.
  pose proof recv_last_overflow as O. unfold XBEE_BUF_SZ in O.
  rewrite O; [done|]. rewrite length_blit; lia.
Qed.

(** ** Sending *)

Lemma rf_uart_send_ready bs b :
  uart_ready (uart1 b) ->
  exists b', rf_uart_send bs b = Ok (Z.of_nat (length bs), b') /\
    thr (uart1 b') = thr (uart1 b) ++ bs /\ uart_ready (uart1 b') /\
    b' = b{{ uart1 := uart1 b' }}.
Proof.
  intros Hu. unfold rf_uart_send, zoom. simpl.
  destruct (UART_Send_ready bs _ Hu) as (u' & -> & Ht & _ & Hu').
  eexists. split; [reflexivity|]. by destruct b.
Qed.

(** The payload of a transmit request. *)
Definition tx64_payload (fid hi lo : Z) (data : list Z) : list Z :=
  XBEE_API_ID_TX_64 :: fid :: int32bitToBuf hi ++ int32bitToBuf lo ++ 0 :: data.

(** The identifier that follows [i]: 1 to 255, without 0. *)
Definition next_frame_id (i : Z) : Z := if u8 (i + 1) =? 0 then 1 else u8 (i + 1).

Lemma getFrameId_run s :
  getFrameId s = Ok (next_frame_id (rfFrameId s),
                     s{{ rfFrameId := next_frame_id (rfFrameId s) }}).
Proof.
  unfold getFrameId, next_frame_id. mrun. unfold modify, get, gets. simpl.
  destruct (u8 (rfFrameId s + 1) =? 0) eqn:E; mrun; by rewrite ?E.
Qed.

(** Frame identifiers are never 0 (which would ask for no status), and 255
    requests in a row use each identifier once. *)
Theorem getFrameId_cycles s :
  byte_ok (rfFrameId s) ->
  exists s', getFrameId s = Ok (rfFrameId s', s') /\ 1 <= rfFrameId s' <= 255 /\
    rfFrameId s' mod 255 = (rfFrameId s + 1) mod 255.
Proof.
  intros Hs. rewrite getFrameId_run.
  exists (s{{ rfFrameId := next_frame_id (rfFrameId s) }}). split; [done|]. simpl.
  unfold next_frame_id, u8, byte_ok in *.
  destruct (Z.eqb_spec ((rfFrameId s + 1) mod 256) 0); split; lia.
Qed.

(** A transmit request of at most 20 bytes goes out as one frame: start
    delimiter, length, identifier, address, data and checksum; a longer one is
    refused and nothing is sent. *)
Lemma apiTx64_sends hi lo data x :
  uart_ready (uart1 (brd x)) ->
  if 20 <? Z.of_nat (length data)
  then apiTx64 hi lo data (Z.of_nat (length data)) x = Ok ((ERR_ARGUMENT, None), x)
  else exists x', let fid := next_frame_id (rfFrameId (xb x)) in
    let p := tx64_payload fid hi lo data in
    apiTx64 hi lo data (Z.of_nat (length data)) x = Ok ((ERR_OK, Some fid), x') /\
    thr (uart1 (brd x')) = thr (uart1 (brd x)) ++ frame_bytes p (cksum p) /\
    uart_ready (uart1 (brd x')) /\ xb x' = (xb x){{ rfFrameId := fid }}.
Proof.
  intros Hu. unfold apiTx64. destruct (Z.ltb_spec 20 (Z.of_nat (length data))); [done|].
  set (n := Z.of_nat (length data)) in *. set (fid := next_frame_id (rfFrameId (xb x))).
  set (p := tx64_payload fid hi lo data).
  assert (Hn : u8 (11 + n) = Z.of_nat (length p)) by
    (unfold p, tx64_payload, u8; simpl; lia).
  cbn zeta. unfold mbind, M_bind, zoom at 1. simpl view. rewrite getFrameId_run. fold fid.
  rewrite Hn. unfold n. rewrite Nat2Z.id, firstn_all.
  unfold guard. rewrite Z.leb_refl. unfold mret, M_ret.
  rewrite checksum_exact; [|done].
  unfold zoom. simpl view.
  edestruct (rf_uart_send_ready) as (b' & E & Ht & Hu' & _); [exact Hu|].
  rewrite E. eexists. split; [reflexivity|]. simpl put. simpl.
  split_and!; [|done|done]. rewrite Ht. f_equal.
  unfold frame_bytes. change (drop 3 _) with p.
  replace (Z.of_nat (length p) / 256) with 0 by (rewrite <- Hn; unfold u8; lia).
  replace (Z.of_nat (length p) mod 256) with (Z.of_nat (length p))
    by (rewrite <- Hn; unfold u8; lia).
  unfold p at 3, tx64_payload. simpl. rewrite <- ?app_assoc. done.
Qed.

(** A request is refused before the module is up; at most 20 bytes of data go
    out as one frame (start delimiter, length, identifier, address, data and
    checksum), and more are refused with nothing sent. *)
Theorem xbee_send_spec hi lo data x :
  uart_ready (uart1 (brd x)) ->
  if negb (initialized (xb x))
  then xbee_send hi lo data (Z.of_nat (length data)) x = Ok ((ERR_NOT_INIT, None), x)
  else if 20 <? Z.of_nat (length data)
  then xbee_send hi lo data (Z.of_nat (length data)) x = Ok ((ERR_ARGUMENT, None), x)
  else exists x', let fid := next_frame_id (rfFrameId (xb x)) in
    let p := tx64_payload fid hi lo data in
    xbee_send hi lo data (Z.of_nat (length data)) x = Ok ((ERR_OK, Some fid), x') /\
    thr (uart1 (brd x')) = thr (uart1 (brd x)) ++ frame_bytes p (cksum p) /\
    uart_ready (uart1 (brd x')) /\ xb x' = (xb x){{ rfFrameId := fid }}.
Proof.
  intros Hu. pose proof (apiTx64_sends hi lo data x Hu) as Hs.
  assert (E : xbee_send hi lo data (Z.of_nat (length data)) x =
    if negb (initialized (xb x)) then Ok ((ERR_NOT_INIT, None), x)
    else apiTx64 hi lo data (Z.of_nat (length data)) x).
  { unfold xbee_send, mbind, M_bind, zoom, gets. simpl.
    rewrite xworld_eta. destruct (initialized (xb x)); done. }
  rewrite E. destruct (negb _); [done|]. exact Hs.
Qed.

(** ** Reading a line *)

Lemma readLine_loop_returns n fuel t bufLen buf pos x :
  board_ok (brd x) -> word_ok (timeMs (brd x)) ->
  word_ok (timeMs (brd x) + ticks_in n (brd x)) ->
  t <= timeMs (brd x) + ticks_in n (brd x) ->
  0 <= pos -> bufLen <= Z.of_nat (length buf) -> (0 < n <= fuel)%nat ->
  exists r x', while fuel (readLine_body t bufLen) (buf, pos) x = Ok (r, x') /\
    board_ok (brd x') /\ word_ok (timeMs (brd x')).
Proof.
  revert n buf pos x. induction fuel as [|fuel IH]; intros n buf pos x Hb Hw Hn Ht Hp Hl Hf; [lia|].
  destruct n as [|n]; [lia|]. cbn [while]. unfold readLine_body at 2.
  destruct (Z.ltb_spec pos bufLen); cbn [negb]; [|mrun; eauto 10].
  destruct (time_get_nowrap n (brd x)) as (b1 & E1 & Hb1 & Hw1 & Ht1 & Hn1); [done..|].
  unfold mbind, M_bind, zoom. simpl view. rewrite E1. simpl put.
  destruct (Z.ltb_spec (timeMs b1) t); cbn [negb]; [|mrun; eauto 10].
  destruct n as [|n]; [unfold ticks_in in *; simpl in *; lia|].
  destruct (rf_uart_receive1_ok b1 Hb1) as (ds & b2 & E2 & Hb2 & Ht2 & Hs2 & _ & _).
  simpl view. rewrite E2. simpl put.
  assert (Hn2 : ticks_in (S n) b2 = ticks_in (S n) b1) by (unfold ticks_in; by rewrite Hs2).
  destruct ds as [|d ds].
  { mrun. apply (IH (S n)); simpl; rewrite ?Hn2, ?Ht2, ?Hn1; try done; try lia. }
  rewrite aset_ok by lia. destruct (d =? CR).
  { rewrite aset_ok by (rewrite length_insert; lia). mrun.
    eexists _, _. split; [reflexivity|]. simpl. by rewrite Ht2. }
  mrun. apply (IH (S n)); simpl; rewrite ?Hn2, ?Ht2, ?Hn1, ?length_insert; try done; try lia.
  unfold u32. lia.
Qed.

(** [readLine] returns: once the clock has moved by the timeout, within as many
    reads as it takes, whatever arrives on the UART in the meantime. *)
Theorem readLine_returns n fuel buf bufLen timeout x :
  board_ok (brd x) -> word_ok (timeMs (brd x)) ->
  word_ok (timeMs (brd x) + ticks_in (S n) (brd x)) ->
  timeout <= ticks_in (S n) (brd x) - ticks_in 1 (brd x) ->
  0 <= timeout -> bufLen <= Z.of_nat (length buf) -> (0 < n <= fuel)%nat ->
  exists r buf' x', readLine fuel buf bufLen timeout x = Ok ((r, buf'), x') /\
    (r < 0 \/ r < bufLen).
Proof.
  intros Hb Hw Hn Ht H0 Hl Hf. unfold readLine, mbind, M_bind, zoom. simpl view.
  destruct (time_get_nowrap n (brd x)) as (b1 & E1 & Hb1 & Hw1 & Ht1 & Hn1); [done..|].
  rewrite E1. simpl put.
  assert (Hwr : word_ok (timeMs b1 + timeout)) by (unfold word_ok in *; lia).
  replace (u32 (timeMs b1 + timeout)) with (timeMs b1 + timeout)
    by (unfold u32, word_ok in *; lia).
  destruct (readLine_loop_returns n fuel (timeMs b1 + timeout) bufLen buf 0
              (mk_xworld b1 (xb x))) as ([buf' pos] & x2 & E2 & Hb2 & Hw2);
    simpl; rewrite ?Hn1; try done; try lia.
  rewrite E2. destruct (Z.leb_spec bufLen pos).
  { mrun. eexists _, _, _. split; [done|]. by left. }
  destruct (time_get_ok (brd x2) Hb2 Hw2) as (b3 & E3 & _). rewrite E3. mrun.
  destruct (_ <=? _); mrun; eexists _, _, _; (split; [done|]); [by left|by right].
Qed.

(** ** Start-up *)

(** What a step that sends nothing leaves alone. *)
Definition silent (x x' : xworld) : Prop :=
  thr (uart1 (brd x')) = thr (uart1 (brd x)) /\
  tx_wait (uart1 (brd x')) = tx_wait (uart1 (brd x)) /\ xb x' = xb x.

#[export] Instance silent_preorder : PreOrder silent.
Proof.
  split; unfold silent; [done|]. intros x y z (? & ? & ?) (? & ? & ?).
  split_and!; congruence.
Qed.

Lemma keeps_silent_board {A} (m : M board A) :
  keeps irq_frame m -> keeps silent (zoom m : M xworld A).
Proof.
  intros Hm x a x'. unfold zoom. simpl. destruct (m (brd x)) as [[a1 b]|] eqn:E; [|done].
  intros [= _ <-]. apply Hm in E. unfold silent, irq_frame in *. simpl. tauto.
Qed.
#[export] Hint Resolve keeps_silent_board : keeps.

Lemma keeps_readLine fuel buf bufLen timeout : keeps silent (readLine fuel buf bufLen timeout).
Proof. unfold readLine, readLine_body. keeps. Qed.

Lemma keeps_strcmp s buf : keeps silent (strcmp_differs s buf).
Proof. revert buf. induction s; intros []; simpl; keeps. Qed.
#[export] Hint Resolve keeps_readLine keeps_strcmp : keeps.

(** [m] sends exactly [bs], when the transmitter is ready. *)
Definition sends {A} (bs : list Z) (m : M xworld A) : Prop := forall x a x',
  uart_ready (uart1 (brd x)) -> m x = Ok (a, x') ->
  thr (uart1 (brd x')) = thr (uart1 (brd x)) ++ bs /\
  uart_ready (uart1 (brd x')) /\ xb x' = xb x.

Lemma sends_silent {A} (m : M xworld A) : keeps silent m -> sends [] m.
Proof.
  intros Hm x a x' Hu E. apply Hm in E as (Ht & Hw & Hx). rewrite app_nil_r.
  unfold uart_ready in *. by rewrite Hw.
Qed.

Lemma sends_bind {A B} bs bs' (m : M xworld A) (k : A -> M xworld B) :
  sends bs m -> (forall a, sends bs' (k a)) -> sends (bs ++ bs') (m ≫= k).
Proof.
  intros Hm Hk x b x' Hu. unfold mbind, M_bind.
  destruct (m x) as [[a x1]|] eqn:E; [|done]. intros E'.
  destruct (Hm _ _ _ Hu E) as (H1 & H2 & H3).
  destruct (Hk _ _ _ _ H2 E') as (H4 & H5 & H6).
  rewrite H4, H1, H6, H3, <- app_assoc. done.
Qed.

Lemma sends_uart bs : sends bs (zoom (rf_uart_send bs)).
Proof.
  intros x a x' Hu. unfold zoom. simpl.
  destruct (rf_uart_send_ready bs (brd x) Hu) as (b' & -> & Ht & Hu' & _).
  intros [= _ <-]. done.
Qed.

Lemma commandMode_sends uninit fuel :
  sends (bytes_of_string "+++") (commandMode uninit fuel).
Proof.
  rewrite <- (app_nil_r (bytes_of_string _)). unfold commandMode.
  apply sends_bind; [apply sends_uart|]. intros _. apply sends_silent.
  keeps.
Qed.

Definition at_line (cmd : string) : list Z := bytes_of_string cmd ++ [CR].

Lemma atSet_sends uninit fuel cmd : sends (at_line cmd) (atSet uninit fuel cmd).
Proof.
  rewrite <- (app_nil_r (at_line _)). unfold atSet, atGet.
  apply sends_bind.
  2:{ intros [e b]. apply sends_silent. keeps. }
  apply sends_bind; [apply sends_uart|]. intros _.
  rewrite <- (app_nil_r [CR]). apply sends_bind; [apply sends_uart|]. intros _.
  apply sends_silent. simpl. keeps.
Qed.

(** On a node whose role is [c], [m] sends the commands of [script] in order, up
    to the first that fails. *)
Definition runs_script (c : bool) (script : list (list Z)) (m : M xworld error_t) : Prop :=
  forall x e x', uart_ready (uart1 (brd x)) -> isCoordinator (xb x) = c ->
  m x = Ok (e, x') ->
  exists k, (k <= length script)%nat /\ (e = ERR_OK -> k = length script) /\
    thr (uart1 (brd x')) = thr (uart1 (brd x)) ++ concat (take k script) /\
    xb x' = xb x.

Lemma runs_script_ok c : runs_script c [] (mret ERR_OK).
Proof. intros x e x' _ _ [= <- <-]. exists 0%nat. simpl. by rewrite app_nil_r. Qed.

Lemma runs_script_role c script (k : bool -> M xworld error_t) :
  runs_script c script (k c) ->
  runs_script c script (c' ← zoom (gets isCoordinator : M xbee_st bool); k c').
Proof.
  intros Hk x e x' Hu Hc E. apply (Hk x e x' Hu Hc).
  unfold mbind, M_bind, zoom, gets in E. simpl in E. rewrite Hc in E.
  by destruct x.
Qed.

Lemma runs_script_step c l script cmd msg next :
  sends l cmd -> runs_script c script next ->
  runs_script c (l :: script) (at_step cmd msg next).
Proof.
  intros Hc Hn x e x' Hu Hr. unfold at_step, mbind, M_bind.
  destruct (cmd x) as [[e1 x1]|] eqn:E1; [|done].
  destruct (Hc _ _ _ Hu E1) as (Ht & Hu1 & Hx1).
  destruct (decide (e1 = ERR_OK)) as [->|Hne].
  - intros E2. rewrite <- Hx1 in Hr.
    destruct (Hn _ _ _ Hu1 Hr E2) as (k & Hk & Hok & Ht2 & Hx2).
    exists (S k). simpl. rewrite Ht2, Ht, Hx2, <- app_assoc.
    split_and!; [lia| |done|done]. intros He. by rewrite Hok.
  - intros E2. assert (e = e1 /\ thr (uart1 (brd x')) = thr (uart1 (brd x1)) /\
      xb x' = xb x1) as (-> & Ht2 & Hx2).
    { destruct e1; [done|..]; unfold zoom, dbg, modify in E2; simpl in E2;
        injection E2 as <- <-; done. }
    exists 1%nat. simpl. rewrite Ht2, Ht, Hx2, app_nil_r.
    split_and!; [lia|done|done|done].
Qed.

(** The commands that put the module in API mode, by the node's role. *)
Definition xbee_script (type : xbeeType_t) : list (list Z) :=
  [bytes_of_string "+++"; at_line "ATIDEAEA"; at_line "ATMYFFFE"] ++
  match type with
  | XBEE_COORDINATOR => [at_line "ATA24"; at_line "ATCE1"]
  | XBEE_END_DEVICE => [at_line "ATA14"]
  end ++ [at_line "ATAP1"].

(** Initialisation sends the commands of the node's role, in order, and stops at
    the first that the module does not confirm; it reports success only when all
    of them were sent.  The role and the callback table are recorded whatever
    happens. *)
Theorem xbee_init_script uninit fuel type cbs x e x' :
  uart_ready (uart1 (brd x)) -> xbee_init uninit fuel type cbs x = Ok (e, x') ->
  exists k, (k <= length (xbee_script type))%nat /\
    (e = ERR_OK -> k = length (xbee_script type)) /\
    thr (uart1 (brd x')) = thr (uart1 (brd x)) ++ concat (take k (xbee_script type)) /\
    xb x' = (xb x){{ _cb := cbs;
      isCoordinator := match type with XBEE_COORDINATOR => true | _ => false end }}.
Proof.
  intros Hu. unfold xbee_init. cbn zeta. unfold mbind at 1, M_bind at 1, zoom at 1, modify.
  simpl view. intros E.
  set (c := match type with XBEE_COORDINATOR => true | _ => false end) in *.
  match type of E with ?m ?x1 = _ =>
    assert (R : runs_script c (xbee_script type) m); [|
      destruct (R x1 e x' Hu eq_refl E) as (k & Hk & Hok & Ht & Hx)] end.
  - apply runs_script_step; [apply commandMode_sends|].
    do 2 (apply runs_script_step; [apply atSet_sends|]).
    apply runs_script_role. unfold c. destruct type; simpl;
      repeat (apply runs_script_step; [apply atSet_sends|]); apply runs_script_ok.
  - exists k. split_and!; done.
Qed.

(** A frame that is not complete two seconds after its start delimiter is given
    up: the task continues as if it had been called between frames. *)
Theorem xbee_task_gives_up {W} `{LensLaws xworld W} cb (w : W) :
  board_ok (brd (view w)) -> word_ok (timeMs (brd (view w))) ->
  0 < rfFrameTimer (xb (view w)) <
    u32 (timeMs (brd (view w)) + ticks (next_irqs (brd (view w)))) ->
  exists b', board_ok b' /\ irq_frame (brd (view w)) b' /\
    xbee_task cb w = xbee_task cb (put (mk_xworld
      (b'{{ console := console b' ++ [("Xbee: Frame timer expired\r\n"%string, [])] }})
      ((xb (view w)){{ rfState := XBEE_FRAME; rfFrameTimer := 0 }})) w).
Proof.
  intros Hb Hw Ht. destruct (time_get_ok _ Hb Hw) as (b' & E & Hb' & Hw' & Hf & _ & Ht').
  exists b'. split_and!; [done..|]. unfold xbee_task at 1. mrun.
  destruct (Z.ltb_spec 0 (rfFrameTimer (xb (view w)))); [|lia].
  mrun. unfold xw at 1, zoom at 1 2. simpl. rewrite E.
  destruct (Z.ltb_spec (rfFrameTimer (xb (view w)))
    (u32 (timeMs (brd (view w)) + ticks (next_irqs (brd (view w)))))); [|lia].
  mrun. rewrite ?xlog_run. mrun. unfold xbee_task. mrun. done.
Qed.

(** ** The properties at concrete inputs *)

(** A world that records what the data callback is given. *)
Definition demo : Type := xworld * list (Z * Z * Z * list Z).
#[local] Instance lens_demo : Lens xworld demo :=
  {| view := fst; put := fun x w => (x, snd w) |}.
#[local] Instance lens_demo_laws : LensLaws xworld demo.
Proof. split; intros; by repeat match goal with w : demo |- _ => destruct w end. Qed.

Definition demo_data (hi lo rssi : Z) (buf : list Z) (len : Z) : M demo unit :=
  modify (fun w => (fst w, snd w ++ [(hi, lo, rssi, take (Z.to_nat len) buf)])).

Definition demo_cb : xbee_callb_t demo := {|
  cb_up := None; cb_node := None; cb_txStat := None; cb_data := Some demo_data
|}.

Definition demo_world : demo :=
  (mk_xworld (board_reset []) (xbee_reset{{ _cb := true; initialized := true }}), []).

Lemma demo_between_frames : between_frames (view demo_world).
Proof.
  unfold between_frames, board_ok, rxq_wf, word_ok.
  split_and!; vm_compute; try reflexivity; discriminate.
Qed.

Lemma receive_bad_checksum_witness : exists x',
  received (view demo_world) x' [0x8A; 2; 0] /\
  feed demo_cb (frame_bytes [0x8A; 2] 0) demo_world =
    Ok (tt, put (x'{{ brd := (brd x'){{ console :=
      console (brd x') ++ [("Xbee: Invalid checksum\r\n"%string, [])] }} }}) demo_world).
Proof.
  apply (receive_bad_checksum demo_cb [0x8A; 2] 0 demo_world);
    [exact demo_between_frames|unfold byte_ok; lia|vm_compute; discriminate|simpl; lia|
     vm_compute; reflexivity].
Defined.

Lemma receive_oversized_overflows_witness :
  feed demo_cb (XBEE_START_DEL :: 0 :: 200 :: replicate 200 0 ++ [0]) demo_world =
    Fault OutOfBounds.
Proof.
  apply (receive_oversized_overflows demo_cb 0 200 (replicate 200 0) 0 demo_world);
    [exact demo_between_frames|unfold byte_ok; lia|unfold byte_ok; lia|
     vm_compute; discriminate|reflexivity].
Defined.

Lemma getFrameId_cycles_witness : exists s',
  getFrameId (xbee_reset{{ rfFrameId := 255 }}) = Ok (rfFrameId s', s') /\
  1 <= rfFrameId s' <= 255 /\ rfFrameId s' mod 255 = (255 + 1) mod 255.
Proof.
  refine (getFrameId_cycles (xbee_reset{{ rfFrameId := 255 }}) _).
  unfold byte_ok. simpl. lia.
Defined.

Lemma xbee_send_spec_witness : exists x',
  xbee_send 1 2 [3; 4] 2 (fst demo_world) = Ok ((ERR_OK, Some 2), x') /\
  thr (uart1 (brd x')) =
    [0x7E; 0; 13; 0; 2; 0; 0; 0; 1; 0; 0; 0; 2; 0; 3; 4; 0xF3].
Proof.
  assert (Hu : uart_ready (uart1 (brd (fst demo_world)))) by constructor.
  pose proof (xbee_send_spec 1 2 [3; 4] (fst demo_world) Hu) as H.
  simpl in H. destruct H as (x' & E & Ht & _).
  exists x'. split; [exact E|]. rewrite Ht. reflexivity.
Defined.

(** The clock ticks at each read. *)
Definition ticking (n : nat) : xworld :=
  mk_xworld (board_reset (replicate n [IrqTimer1])) xbee_reset.

Lemma readLine_returns_witness : exists r buf' x',
  readLine 20 (replicate 10 0) 10 12 (ticking 13) = Ok ((r, buf'), x') /\ (r < 0 \/ r < 10).
Proof.
  apply (readLine_returns 12 20); try (vm_compute; discriminate); try (simpl; lia).
  - unfold board_ok, rxq_wf. split_and!; vm_compute; try reflexivity; discriminate.
  - unfold word_ok. split; vm_compute; [discriminate|reflexivity].
  - unfold word_ok. split; vm_compute; [discriminate|reflexivity].
Defined.

(** The module answers [OK] to every command. *)
Definition answering : xworld :=
  let ok := [IrqUart1 [79; 75; 13]] in
  mk_xworld (board_reset (concat (replicate 5 [ok; []; []; []; []]))) xbee_reset.

Lemma xbee_init_script_witness : exists x' k,
  xbee_init (replicate 10 0) 9 XBEE_END_DEVICE true answering = Ok (ERR_OK, x') /\
  (ERR_OK = ERR_OK -> k = length (xbee_script XBEE_END_DEVICE)) /\
  thr (uart1 (brd x')) = concat (take k (xbee_script XBEE_END_DEVICE)).
Proof.
  destruct (xbee_init (replicate 10 0) 9 XBEE_END_DEVICE true answering)
    as [[e x']|f] eqn:E; [|vm_compute in E; discriminate].
  assert (e = ERR_OK) as -> by (vm_compute in E; congruence).
  destruct (xbee_init_script (replicate 10 0) 9 XBEE_END_DEVICE true answering ERR_OK x')
    as (k & _ & Hk & Ht & _); [constructor|exact E|].
  exists x', k. split; [reflexivity|]. split; [exact Hk|exact Ht].
Defined.

Definition stale_frame : demo :=
  (mk_xworld ((board_reset []){{ timeMs := 5000 }})
     (xbee_reset{{ rfState := XBEE_DATA; rfFrameLen := 40; rfFrameTimer := 3000 }}), []).

Lemma xbee_task_gives_up_witness : exists b',
  board_ok b' /\ irq_frame (brd (view stale_frame)) b' /\
  xbee_task demo_cb stale_frame = xbee_task demo_cb (put (mk_xworld
    (b'{{ console := console b' ++ [("Xbee: Frame timer expired\r\n"%string, [])] }})
    ((xb (view stale_frame)){{ rfState := XBEE_FRAME; rfFrameTimer := 0 }})) stale_frame).
Proof.
  apply (xbee_task_gives_up demo_cb stale_frame).
  - unfold board_ok, rxq_wf. split_and!; vm_compute; try reflexivity; discriminate.
  - unfold word_ok. split; vm_compute; [discriminate|reflexivity].
  - split; vm_compute; reflexivity.
Defined.
