(* ===== verification/Rfpt.v ===== *)
(** * The RF peripheral protocol

    Lib_Board/src/rfpt.c: nodes on an XBee network, of which one, the
    coordinator, discovers the others, polls them, reads and writes their
    peripherals and subscribes to changes.  Calls to the application's callbacks
    are recorded in [upcalls]. *)

From S2P Require Import Prelude Ring Board Xbee.

(** ** Constants (rfpt.h, rfpt.c) *)

Definition RFPT_MSG_GET : Z := 0x01.
Definition RFPT_MSG_SET : Z := 0x02.
Definition RFPT_MSG_SUB : Z := 0x03.
Definition RFPT_MSG_UNSUB : Z := 0x04.
Definition RFPT_MSG_VAL : Z := 0x05.
Definition RFPT_MSG_POLL : Z := 0x06.
Definition RFPT_MSG_PUBLISH : Z := 0x07.
Definition RFPT_MSG_DISCOVER : Z := 0x08.
Definition RFPT_MSG_POLL_RESP : Z := 0x80.

Definition RFPT_MSG_SUB_GTE : Z := 0x10.
Definition RFPT_MSG_SUB_LTE : Z := 0x20.
Definition RFPT_MSG_SUB_DIF : Z := 0x30.
Definition RFPT_MSG_SUB_RESP : Z := 0xF0.

Definition RFPT_MSG_DEV_MASK : Z := 0xF0.
Definition RFPT_MSG_DEV_TEMP : Z := 0x10.
Definition RFPT_MSG_DEV_LIGHT : Z := 0x20.
Definition RFPT_MSG_DEV_BTN : Z := 0x30.
Definition RFPT_MSG_DEV_RGB : Z := 0x40.
Definition RFPT_MSG_DEV_LED : Z := 0x50.

Definition DISCOVER_TIME_MS : Z := 6000.
Definition RF_MAX_NODES : nat := 10.
Definition RF_NODE_MAX_CAPS : nat := 12.
Definition RF_NODE_POLL_TIME : Z := 1000.
Definition RF_NODE_ALIVE_TIME : Z := 3000.
Definition RF_MAX_SUBS : nat := 20.

Definition XBEE_ADDRLO_BROADCAST : Z := 0xFFFF.
Definition XBEE_ADDRHI_BROADCAST : Z := 0.

(** ** State *)

Record node_t : Type := mk_node {
  n_addrHi : Z;
  n_addrLo : Z;
  aliveTime : Z;
  lastPoll : Z;
  caps : list Z;
  numCaps : Z
}.
#[export] Instance eta_node_t : Settable node_t :=
  fun s => mk_node (n_addrHi s) (n_addrLo s) (aliveTime s) (lastPoll s) (caps s) (numCaps s).

Record sub_t : Type := mk_sub {
  s_addrHi : Z;
  s_addrLo : Z;
  periphId : Z;
  act : Z;
  value : Z;
  last : Z
}.
#[export] Instance eta_sub_t : Settable sub_t :=
  fun s => mk_sub (s_addrHi s) (s_addrLo s) (periphId s) (act s) (value s) (last s).

(** Which entries of the application's [rfpt_callb_t] are not NULL. *)
Record rfpt_callb_t : Type := mk_rfpt_callb {
  has_nodeAttached : bool;
  has_nodeDetached : bool;
  has_value : bool;
  has_subStarted : bool
}.

Inductive rf_event : Type :=
| nodeAttached (nodeId : Z)
| nodeDetached (nodeId : Z)
| valueUpdate (nodeId periph : Z) (valbuf : list Z) (len : Z)
| subStarted (nodeId subId : Z).

(** The static variables of rfpt.c; [rf_cb] is [_cb], [None] for NULL. *)
Record rfpt_st : Type := mk_rfpt {
  lastDiscover : Z;
  rf_isCoordinator : bool;
  nodes : list node_t;
  rf_cb : option rfpt_callb_t;
  subNumRegistered : Z;
  subscribers : list sub_t
}.
#[export] Instance eta_rfpt_st : Settable rfpt_st :=
  fun s => mk_rfpt (lastDiscover s) (rf_isCoordinator s) (nodes s) (rf_cb s) (subNumRegistered s) (subscribers s).

Definition rfpt_reset : rfpt_st := {|
  lastDiscover := 0; rf_isCoordinator := false;
  nodes := replicate RF_MAX_NODES (mk_node 0 0 0 0 (replicate RF_NODE_MAX_CAPS 0) 0);
  rf_cb := None; subNumRegistered := 0;
  subscribers := replicate RF_MAX_SUBS (mk_sub 0 0 0 0 0 0)
|}.

Record rworld : Type := mk_rworld {
  rx : xworld;
  rf : rfpt_st;
  upcalls : list rf_event
}.
#[export] Instance eta_rworld : Settable rworld :=
  fun s => mk_rworld (rx s) (rf s) (upcalls s).

#[export] Instance lens_rx : Lens xworld rworld :=
  {| view := rx; put := fun x w => w{{ rx := x }} |}.
#[export] Instance lens_rf : Lens rfpt_st rworld :=
  {| view := rf; put := fun s w => w{{ rf := s }} |}.

(** ** Access to the layers below, the variables and the callbacks *)

Definition on_board {A} (m : M board A) : M rworld A := zoom (zoom m : M xworld A).
Definition rlog (fmt : string) (args : list Z) : M rworld unit := on_board (dbg fmt args).
Definition rget {A} (f : rfpt_st -> A) : M rworld A := zoom (gets f : M rfpt_st A).
Definition rst (f : rfpt_st -> rfpt_st) : M rworld unit :=
  zoom (modify f : M rfpt_st unit).

(** [if (_cb->f != NULL) _cb->f(...)]. *)
Definition has_cb (f : rfpt_callb_t -> bool) : M rworld bool :=
  cb ← rget rf_cb;
  match cb with
  | Some c => mret (f c)
  | None => fail NullDeref
  end.
Definition upcall (e : rf_event) : M rworld unit :=
  modify (fun w : rworld => w{{ upcalls := upcalls w ++ [e] }}).

(** [nodes[i].f = v] and [subscribers[i].f = v]. *)
Definition set_node (i : Z) (f : node_t -> node_t) : M rworld unit :=
  ns ← rget nodes;
  n ← aget ns i;
  ns' ← aset ns i (f n);
  rst (fun s => s{{ nodes := ns' }}).

Definition set_sub (i : Z) (f : sub_t -> sub_t) : M rworld unit :=
  ss ← rget subscribers;
  n ← aget ss i;
  ss' ← aset ss i (f n);
  rst (fun s => s{{ subscribers := ss' }}).

Definition get_node (i : Z) : M rworld node_t := ns ← rget nodes; aget ns i.
Definition get_sub (i : Z) : M rworld sub_t := ss ← rget subscribers; aget ss i.

Definition send (addrHi addrLo : Z) (buf : list Z) : M rworld error_t :=
  r ← zoom (xbee_send addrHi addrLo buf (Z.of_nat (length buf)));
  mret (fst r).

(** ** Address tables *)

Definition node_is (addrHi addrLo : Z) (n : node_t) : bool :=
  (n_addrHi n =? addrHi) && (n_addrLo n =? addrLo).
Definition sub_free (s : sub_t) : bool := (s_addrHi s =? 0) && (s_addrLo s =? 0).

(** The index of the node with an address, [RF_MAX_NODES] when there is none. *)
Definition find_node (addrHi addrLo : Z) : M rworld Z :=
  ns ← rget nodes;
  mret (Z.of_nat (find_idx (node_is addrHi addrLo) ns)).

Definition getAddress (nodeId : Z) : M rworld (Z * Z) :=
  if (0 <? nodeId) && (nodeId <=? Z.of_nat RF_MAX_NODES) then
    n ← get_node (nodeId - 1);
    mret (n_addrHi n, n_addrLo n)
  else mret (0, 0).

Definition subInit : M rworld unit :=
  rst (fun s => s{{ subNumRegistered := 0 }}) ;;
  foreach (range RF_MAX_SUBS) (fun i =>
    set_sub i (fun s => s{{ s_addrHi := 0; s_addrLo := 0 }})).

Definition sub_is (addrHi addrLo action pId val : Z) (s : sub_t) : bool :=
  (s_addrHi s =? addrHi) && (s_addrLo s =? addrLo) && (periphId s =? pId)
    && (act s =? action) && (value s =? val).

(** 0 when there is no such subscription. *)
Definition subscriptionExists (addrHi addrLo action pId val : Z) : M rworld Z :=
  ss ← rget subscribers;
  let i := find_idx (sub_is addrHi addrLo action pId val) ss in
  mret (if (i <? length ss)%nat then Z.of_nat i + 1 else 0).

(** ** Messages *)

Definition sendPublish (addrHi addrLo : Z) : M rworld error_t :=
  send addrHi addrLo [RFPT_MSG_PUBLISH; RFPT_MSG_DEV_BTN; RFPT_MSG_DEV_RGB;
                      RFPT_MSG_DEV_TEMP; RFPT_MSG_DEV_LED].

Definition sendPoll (addrHi addrLo : Z) : M rworld error_t :=
  send addrHi addrLo [RFPT_MSG_POLL].

Definition sendPollResponse (addrHi addrLo : Z) : M rworld error_t :=
  send addrHi addrLo [Z.lor RFPT_MSG_POLL RFPT_MSG_POLL_RESP].

Definition sendTemperature (addrHi addrLo : Z) : M rworld error_t :=
  v ← on_board trimpot_get;
  send addrHi addrLo [Z.lor RFPT_MSG_VAL RFPT_MSG_DEV_TEMP;
                      Z.land (Z.shiftr v 8) 0xff; Z.land v 0xff].

Definition sendBtn (addrHi addrLo : Z) : M rworld error_t :=
  v ← on_board btn_get;
  send addrHi addrLo [Z.lor RFPT_MSG_VAL RFPT_MSG_DEV_BTN; Z.land v BTN_SW2].

Definition sendSubResponse (addrHi addrLo subId : Z) : M rworld error_t :=
  send addrHi addrLo [Z.lor RFPT_MSG_SUB RFPT_MSG_SUB_RESP; subId].

Definition discover : M rworld error_t :=
  send XBEE_ADDRHI_BROADCAST XBEE_ADDRLO_BROADCAST [RFPT_MSG_DISCOVER].

(** Call for the effect, as a statement. *)
Definition ignore {W A} (m : M W A) : M W unit := _ ← m; mret tt.

(** ** Handlers of received messages *)

(** The scan of [handlePublish]: the first free node (its number, 0 for none),
    looked for up to the node with the address, and whether that node exists. *)
Fixpoint publish_scan (addrHi addrLo : Z) (ns : list node_t) (i freeNodeId : Z)
    : Z * bool :=
  match ns with
  | [] => (freeNodeId, false)
  | n :: ns' =>
      let freeNodeId :=
        if (freeNodeId =? 0) && (n_addrHi n =? 0) && (n_addrLo n =? 0)
        then i + 1 else freeNodeId in
      if node_is addrHi addrLo n then (freeNodeId, true)
      else publish_scan addrHi addrLo ns' (i + 1) freeNodeId
  end.

Definition handlePublish (addrHi addrLo : Z) (buf : list Z) (len : Z) : M rworld unit :=
  ns ← rget nodes;
  let '(freeNodeId, exists_) := publish_scan addrHi addrLo ns 0 0 in
  if negb exists_ && negb (freeNodeId =? 0) then
    let i := freeNodeId - 1 in
    set_node i (fun n => n{{ n_addrHi := addrHi; n_addrLo := addrLo }}) ;;
    now ← on_board time_get;
    set_node i (fun n => n{{ aliveTime := now }}) ;;
    _ ← on_board time_get;
    foreach (range (Nat.min RF_NODE_MAX_CAPS (Z.to_nat len))) (fun j =>
      b ← aget buf j;
      n ← get_node i;
      caps' ← aset (caps n) j b;
      set_node i (fun n => n{{ caps := caps' }})) ;;
    set_node i (fun n => n{{ numCaps :=
      if Z.of_nat RF_NODE_MAX_CAPS <? len then Z.of_nat RF_NODE_MAX_CAPS else len }}) ;;
    rlog "new node %x: %x\r\n" [addrHi; addrLo] ;;
    has ← has_cb has_nodeAttached;
    when has (upcall (nodeAttached freeNodeId))
  else mret tt.

Definition handlePollResponse (addrHi addrLo : Z) : M rworld unit :=
  i ← find_node addrHi addrLo;
  if i <? Z.of_nat RF_MAX_NODES then
    now ← on_board time_get;
    set_node i (fun n => n{{ aliveTime := now }})
  else mret tt.

(** The callback takes the length as a [uint8_t]. *)
Definition handleValueUpdate (addrHi addrLo periph : Z) (buf : list Z) (len : Z)
    : M rworld unit :=
  has ← has_cb has_value;
  if (has : bool) then
    i ← find_node addrHi addrLo;
    if i <? Z.of_nat RF_MAX_NODES then upcall (valueUpdate (i + 1) periph buf (u8 len))
    else rlog "RF: value update from unknown node %x: %x\r\n" [addrHi; addrLo]
  else mret tt.

(** The peripheral, threshold and current value a subscription request asks
    for; peripheral 0 for an invalid request. *)
Definition parse_sub (buf : list Z) : M rworld (Z * Z * Z) :=
  p ← aget buf 0;
  if p =? RFPT_MSG_DEV_TEMP then
    hi ← aget buf 1;
    lo ← aget buf 2;
    cval ← on_board trimpot_get;
    mret (RFPT_MSG_DEV_TEMP, s16 (Z.lor (Z.shiftl hi 8) lo), cval)
  else if p =? RFPT_MSG_DEV_BTN then
    val ← aget buf 1;
    if (val =? 0) || (val =? 1) then
      cval ← on_board btn_get;
      mret (RFPT_MSG_DEV_BTN, val, cval)
    else mret (0, val, 0)
  else mret (0, 0, 0).

Definition handleSubscribe (addrHi addrLo action : Z) (buf : list Z) (len : Z)
    : M rworld unit :=
  if len <? 2 then mret tt
  else
    r ← parse_sub buf;
    let '(pId, val, cval) := r in
    if pId =? 0 then mret tt
    else
      subId ← subscriptionExists addrHi addrLo action pId (u32 val);
      if negb (subId =? 0) then ignore (sendSubResponse addrHi addrLo subId)
      else
        ss ← rget subscribers;
        let i := find_idx sub_free ss in
        if (i <? RF_MAX_SUBS)%nat then
          set_sub (Z.of_nat i) (fun _ => mk_sub addrHi addrLo pId action (u32 val) cval) ;;
          rst (fun s => s{{ subNumRegistered := u8 (subNumRegistered s + 1) }}) ;;
          ignore (sendSubResponse addrHi addrLo (Z.of_nat i + 1))
        else mret tt.

Definition handleUnsubscribe (addrHi addrLo subId : Z) : M rworld unit :=
  if subId =? 0 then mret tt
  else
    let subId := subId - 1 in
    if Z.of_nat RF_MAX_SUBS <=? subId then mret tt
    else
      s ← get_sub subId;
      if (s_addrHi s =? addrHi) && (s_addrLo s =? addrLo) then
        rst (fun s => s{{ subNumRegistered := u8 (subNumRegistered s - 1) }}) ;;
        set_sub subId (fun s => s{{ s_addrHi := 0; s_addrLo := 0 }})
      else mret tt.

Definition handleSubscribeResponse (addrHi addrLo subId : Z) : M rworld unit :=
  i ← find_node addrHi addrLo;
  if i <? Z.of_nat RF_MAX_NODES then
    has ← has_cb has_subStarted;
    when has (upcall (subStarted (i + 1) subId))
  else mret tt.

Definition getValue (addrHi addrLo periph : Z) : M rworld unit :=
  if periph =? RFPT_MSG_DEV_TEMP then ignore (sendTemperature addrHi addrLo)
  else if periph =? RFPT_MSG_DEV_BTN then ignore (sendBtn addrHi addrLo)
  else rlog "RF: Unknown peripheral %d\r\n" [periph].

Definition setValue (addrHi addrLo periph : Z) (buf : list Z) (len : Z) : M rworld unit :=
  if periph =? RFPT_MSG_DEV_RGB then
    if len <? 2 then mret tt
    else
      mask ← aget buf 0;
      on ← aget buf 1;
      on_board (if 0 <? on then rgb_setLeds LED_6 mask 0 else rgb_setLeds LED_6 0 mask)
  else if periph =? RFPT_MSG_DEV_LED then
    if len <? 1 then mret tt
    else
      b ← aget buf 0;
      on_board (if b =? 1 then rgb_setLeds LED_7 RGB_RED 0 else rgb_setLeds LED_7 0 RGB_RED)
  else mret tt.

(** ** Aliveness of the nodes (coordinator) *)

Definition check_node (i : Z) : M rworld unit :=
  n ← get_node i;
  if negb (n_addrHi n =? 0) && negb (n_addrLo n =? 0) then
    time ← on_board time_get;
    if (0 <? aliveTime n) && (u32 (aliveTime n + RF_NODE_ALIVE_TIME) <? time) then
      rlog "detach: alive=%d, time=%d\r\n" [aliveTime n; time] ;;
      has ← has_cb has_nodeDetached;
      when has (upcall (nodeDetached (i + 1))) ;;
      set_node i (fun n => n{{ n_addrHi := 0; n_addrLo := 0; numCaps := 0 }})
    else if u32 (lastPoll n + RF_NODE_POLL_TIME) <? time then
      set_node i (fun n => n{{ lastPoll := time }}) ;;
      ignore (sendPoll (n_addrHi n) (n_addrLo n))
    else mret tt
  else mret tt.

Definition checkIfNodesAlive : M rworld unit :=
  foreach (range RF_MAX_NODES) check_node.

(** ** Callbacks given to the XBee driver *)

Definition xbeeUp (up : Z) : M rworld unit := rlog "RF: Xbee Up (%d)\r\n" [up].

Definition xbeeNode (addrHi addrLo rssi : Z) : M rworld unit :=
  rlog "RF: Node %x:%x rssi=%d\r\n" [addrHi; addrLo; rssi].

Definition xbeeTxStatus (frameId : Z) (status : xbeeTxStatus_t) : M rworld unit :=
  match status with
  | TX_STAT_OK => mret tt
  | TX_STAT_NO_ACK => rlog "RF: [%d] TX failed %d\r\n" [frameId; 1]
  | TX_STAT_CCA => rlog "RF: [%d] TX failed %d\r\n" [frameId; 2]
  | TX_STAT_PURGED => rlog "RF: [%d] TX failed %d\r\n" [frameId; 3]
  end.

Definition xbeeData (addrHi addrLo rssi : Z) (buf : list Z) (len : Z) : M rworld unit :=
  if len <? 1 then mret tt
  else
    b0 ← aget buf 0;
    coord ← rget rf_isCoordinator;
    let msg := Z.land b0 0x0F in
    let dev := Z.land b0 RFPT_MSG_DEV_MASK in
    if msg =? RFPT_MSG_GET then
      when (negb coord) (getValue addrHi addrLo dev)
    else if msg =? RFPT_MSG_SET then
      when (negb coord) (setValue addrHi addrLo dev (drop 1 buf) (len - 1))
    else if msg =? RFPT_MSG_SUB then
      if Z.land b0 0xF0 =? RFPT_MSG_SUB_RESP then
        b1 ← aget buf 1;
        handleSubscribeResponse addrHi addrLo b1
      else when (negb coord) (handleSubscribe addrHi addrLo dev (drop 1 buf) (len - 1))
    else if msg =? RFPT_MSG_UNSUB then
      if negb coord then
        b1 ← aget buf 1;
        handleUnsubscribe addrHi addrLo b1
      else mret tt
    else if msg =? RFPT_MSG_VAL then
      handleValueUpdate addrHi addrLo dev (drop 1 buf) (len - 1)
    else if msg =? RFPT_MSG_POLL then
      if negb (Z.land b0 RFPT_MSG_POLL_RESP =? 0) then handlePollResponse addrHi addrLo
      else ignore (sendPollResponse addrHi addrLo)
    else if msg =? RFPT_MSG_PUBLISH then
      when coord (handlePublish addrHi addrLo (drop 1 buf) (u8 (len - 1)))
    else if msg =? RFPT_MSG_DISCOVER then
      when (negb coord) (ignore (sendPublish addrHi addrLo))
    else
      rlog "RF: Unhandled data %x:%x rssi=%d, len=%d\r\n" [addrHi; addrLo; rssi; len].

Definition callbacks : xbee_callb_t rworld := {|
  cb_up := Some xbeeUp;
  cb_node := Some xbeeNode;
  cb_txStat := Some xbeeTxStatus;
  cb_data := Some xbeeData
|}.

(** ** Public functions *)

Definition rf_init (uninit : list Z) (fuel : nat) (coordinator : Z) (cbs : option rfpt_callb_t)
    : M rworld error_t :=
  match cbs with
  | None => mret ERR_ARGUMENT
  | Some _ =>
      let coord := negb (coordinator =? 0) in
      rst (fun s => s{{ rf_cb := cbs; rf_isCoordinator := coord }}) ;;
      foreach (range RF_MAX_NODES) (fun i =>
        set_node i (fun n => n{{ n_addrHi := 0; n_addrLo := 0 }})) ;;
      subInit ;;
      zoom (xbee_init uninit fuel (if coord then XBEE_COORDINATOR else XBEE_END_DEVICE) true)
  end.

Definition rf_getTemperature (nodeId : Z) : M rworld error_t :=
  a ← getAddress nodeId;
  send (fst a) (snd a) [Z.lor RFPT_MSG_GET RFPT_MSG_DEV_TEMP].

Definition rf_getButton (nodeId : Z) : M rworld error_t :=
  a ← getAddress nodeId;
  send (fst a) (snd a) [Z.lor RFPT_MSG_GET RFPT_MSG_DEV_BTN].

Definition rf_getLight (nodeId : Z) : M rworld error_t :=
  a ← getAddress nodeId;
  send (fst a) (snd a) [Z.lor RFPT_MSG_GET RFPT_MSG_DEV_LIGHT].

Definition rf_setRGB (nodeId mask on : Z) : M rworld error_t :=
  a ← getAddress nodeId;
  send (fst a) (snd a) [Z.lor RFPT_MSG_SET RFPT_MSG_DEV_RGB; mask; on].

Definition rf_setLed (nodeId on : Z) : M rworld error_t :=
  a ← getAddress nodeId;
  send (fst a) (snd a) [Z.lor RFPT_MSG_SET RFPT_MSG_DEV_LED; on].

Definition rf_subscribe (nodeId periph subAct : Z) (valBuf : list Z) (len : Z)
    : M rworld error_t :=
  if (periph <? RFPT_MSG_DEV_TEMP) || (RFPT_MSG_DEV_LED <? periph) then mret ERR_ARGUMENT
  else if (subAct <? RFPT_MSG_SUB_GTE) || (RFPT_MSG_SUB_DIF <? subAct) then mret ERR_ARGUMENT
  else if 4 <? len then mret ERR_ARGUMENT
  else
    guard (len <=? Z.of_nat (length valBuf)) OutOfBounds ;;
    a ← getAddress nodeId;
    send (fst a) (snd a)
      (Z.lor RFPT_MSG_SUB subAct :: periph :: take (Z.to_nat len) valBuf).

Definition rf_unsubscribe (nodeId subId : Z) : M rworld error_t :=
  a ← getAddress nodeId;
  send (fst a) (snd a) [RFPT_MSG_UNSUB; subId].

Definition node_listed (n : node_t) : bool :=
  negb (n_addrHi n =? 0) && negb (n_addrLo n =? 0).

(** The numbers of the listed nodes, in order, as many as the buffer takes: what
    the loop writes to [nodeIdBuf]. *)
Fixpoint list_nodes (ns : list node_t) (i room : Z) : list Z :=
  match ns with
  | [] => []
  | n :: ns' =>
      if node_listed n && (0 <? room) then (i + 1) :: list_nodes ns' (i + 1) (room - 1)
      else list_nodes ns' (i + 1) room
  end.

(** [None] for a NULL buffer or NULL [numNodes]; the result holds the copied
    numbers. *)
Definition rf_getNodes (nodeIdBuf : option (list Z)) (len : Z) (numNodes : bool)
    : M rworld (error_t * list Z) :=
  match nodeIdBuf with
  | Some buf =>
      if negb numNodes || (len =? 0) then mret (ERR_ARGUMENT, [])
      else
        ns ← rget nodes;
        let ids := list_nodes ns 0 len in
        guard (length ids <=? length buf)%nat OutOfBounds ;;
        mret (ERR_OK, ids)
  | None => mret (ERR_ARGUMENT, [])
  end.

Definition rf_getNodeCaps (nodeId : Z) (nodeCapBuf : option (list Z)) (len : Z)
    (numCaps_ : bool) : M rworld (error_t * list Z) :=
  match nodeCapBuf with
  | Some buf =>
      if negb numCaps_ || (len =? 0) then mret (ERR_ARGUMENT, [])
      else if (0 <? nodeId) && (nodeId <=? Z.of_nat RF_MAX_NODES) then
        n ← get_node (nodeId - 1);
        if node_listed n then
          let ids := take (Nat.min (Z.to_nat len) (Z.to_nat (numCaps n))) (caps n) in
          guard (length ids <=? length buf)%nat OutOfBounds ;;
          mret (ERR_OK, ids)
        else mret (ERR_ARGUMENT, [])
      else mret (ERR_ARGUMENT, [])
  | None => mret (ERR_ARGUMENT, [])
  end.

(** ** The task *)

(** Whether a subscriber is due, by its action, on the value [read]; and whether
    the value is then remembered. *)
Definition sub_due (action last value read : Z) : bool * bool :=
  if action =? RFPT_MSG_SUB_GTE then ((last <? value) && (value <=? read), true)
  else if action =? RFPT_MSG_SUB_LTE then ((value <? last) && (read <=? value), true)
  else if action =? RFPT_MSG_SUB_DIF then
    let due := ((read <? last) && (value <? u32 (last - read)))
               || ((last <? read) && (value <? u32 (read - last))) in
    (due, due)
  else (false, false).

(** The loop body of [rf_task] on a device; [read] is carried over. *)
Definition notify_sub (read : Z) (i : Z) : M rworld Z :=
  s ← get_sub i;
  if negb (s_addrHi s =? 0) && negb (s_addrLo s =? 0) then
    read ← (if periphId s =? RFPT_MSG_DEV_TEMP then on_board trimpot_get
            else if periphId s =? RFPT_MSG_DEV_BTN then on_board btn_get
            else mret read);
    let '(update, keep) := sub_due (act s) (last s) (value s) read in
    when keep (set_sub i (fun s => s{{ last := read }})) ;;
    when update
      (if periphId s =? RFPT_MSG_DEV_TEMP then ignore (sendTemperature (s_addrHi s) (s_addrLo s))
       else if periphId s =? RFPT_MSG_DEV_BTN then ignore (sendBtn (s_addrHi s) (s_addrLo s))
       else mret tt) ;;
    mret read
  else mret read.

Definition rf_task : M rworld unit :=
  coord ← rget rf_isCoordinator;
  (if (coord : bool) then
     ld ← rget lastDiscover;
     now ← on_board time_get;
     when (u32 (ld + DISCOVER_TIME_MS) <? now)
       (now ← on_board time_get;
        rst (fun s => s{{ lastDiscover := now }}) ;;
        ignore discover) ;;
     checkIfNodesAlive
   else
     n ← rget subNumRegistered;
     when (negb (n =? 0))
       (ignore (foreach_acc (range RF_MAX_SUBS) 0 notify_sub))) ;;
  xbee_task callbacks.
