(* ===== verification/RfptFacts.v ===== *)
(** * Facts about the RF peripheral protocol

    The node and subscription tables stay well formed whatever a peer sends; the
    coordinator registers, lists and drops nodes as the protocol says; a device
    serves subscriptions; roles do not mix. *)

From S2P Require Import Prelude Ring Board BoardFacts Xbee XbeeFacts Rfpt.

(** ** Well-formed states *)

Definition node_ok (n : node_t) : Prop :=
  length (caps n) = RF_NODE_MAX_CAPS /\ 0 <= numCaps n <= 12.

Definition node_used (n : node_t) : Prop := ~ (n_addrHi n = 0 /\ n_addrLo n = 0).

(** No two entries in use have the same address. *)
Definition nodes_distinct (ns : list node_t) : Prop :=
  forall i j n m, ns !! i = Some n -> ns !! j = Some m -> node_used n ->
    n_addrHi n = n_addrHi m -> n_addrLo n = n_addrLo m -> i = j.

(** The subscriptions in use. *)
Definition sub_count (ss : list sub_t) : Z :=
  Z.of_nat (length (filter (fun s => sub_free s = false) ss)).

Definition nodes_ok (ns : list node_t) : Prop :=
  length ns = RF_MAX_NODES /\ Forall node_ok ns /\ nodes_distinct ns.

Definition subs_ok (s : rfpt_st) : Prop := length (subscribers s) = RF_MAX_SUBS.

(** The number of subscriptions is the number of entries in use.  Messages from the address
    0:0, which marks a free entry, break this; nothing else depends on it. *)
Definition counted (s : rfpt_st) : Prop := subNumRegistered s = sub_count (subscribers s).

Definition rfpt_ok (s : rfpt_st) : Prop :=
  nodes_ok (nodes s) /\ subs_ok s /\ rf_cb s <> None.

Definition brd_ok (w : rworld) : Prop :=
  board_ok (brd (rx w)) /\ word_ok (timeMs (brd (rx w))).

Definition rworld_ok (w : rworld) : Prop := brd_ok w /\ rfpt_ok (rf w).

(** ** Running one operation *)

Lemma wp_rget {A} (f : rfpt_st -> A) Q w : wp (rget f) Q w <-> Q (f (rf w)) w.
Proof. unfold rget. rewrite wp_zoom. by destruct w. Qed.

Lemma wp_rst f Q w : wp (rst f) Q w <-> Q tt (w{{ rf := f (rf w) }}).
Proof. done. Qed.

Lemma wp_upcall e Q w : wp (upcall e) Q w <-> Q tt (w{{ upcalls := upcalls w ++ [e] }}).
Proof. done. Qed.

Lemma wp_rlog fmt args (Q : unit -> rworld -> Prop) w :
  wp (rlog fmt args) Q w <->
  Q tt (w{{ rx := (rx w){{ brd := (brd (rx w)){{ console :=
    console (brd (rx w)) ++ [(fmt, args)] }} }} }}).
Proof. done. Qed.

Lemma wp_on_board {A} (m : M board A) Q w :
  wp (on_board m) Q w <->
  wp m (fun a b => Q a (w{{ rx := (rx w){{ brd := b }} }})) (brd (rx w)).
Proof. unfold on_board. by rewrite !wp_zoom. Qed.

Lemma wp_aget {W A} (l : list A) i (Q : A -> W -> Prop) w x :
  0 <= i -> l !! Z.to_nat i = Some x -> Q x w -> wp (aget l i) Q w.
Proof. intros Hi Hx HQ. unfold wp. by rewrite (aget_ok l i x w Hi Hx). Qed.

Lemma wp_aget_any {W A} (l : list A) i (Q : A -> W -> Prop) w :
  0 <= i < Z.of_nat (length l) -> (forall x, l !! Z.to_nat i = Some x -> Q x w) ->
  wp (aget l i) Q w.
Proof.
  intros Hi HQ. destruct (lookup_lt_is_Some_2 l (Z.to_nat i)) as [x Hx]; [lia|].
  eapply wp_aget; eauto; lia.
Qed.

Lemma wp_aset {W A} (l : list A) i x (Q : list A -> W -> Prop) w :
  0 <= i < Z.of_nat (length l) -> Q (<[Z.to_nat i := x]> l) w -> wp (aset l i x) Q w.
Proof. intros Hi HQ. unfold wp. by rewrite aset_ok. Qed.

Lemma wp_set_node i f (Q : unit -> rworld -> Prop) w n :
  0 <= i < Z.of_nat (length (nodes (rf w))) -> nodes (rf w) !! Z.to_nat i = Some n ->
  Q tt (w{{ rf := (rf w){{ nodes := <[Z.to_nat i := f n]> (nodes (rf w)) }} }}) ->
  wp (set_node i f) Q w.
Proof.
  intros Hi Hn HQ. unfold set_node. rewrite wp_bind, wp_rget, wp_bind.
  eapply wp_aget; [lia|exact Hn|]. rewrite wp_bind. apply wp_aset; [done|].
  rewrite wp_rst. done.
Qed.

Lemma wp_set_sub i f (Q : unit -> rworld -> Prop) w s :
  0 <= i < Z.of_nat (length (subscribers (rf w))) ->
  subscribers (rf w) !! Z.to_nat i = Some s ->
  Q tt (w{{ rf := (rf w){{ subscribers := <[Z.to_nat i := f s]> (subscribers (rf w)) }} }}) ->
  wp (set_sub i f) Q w.
Proof.
  intros Hi Hn HQ. unfold set_sub. rewrite wp_bind, wp_rget, wp_bind.
  eapply wp_aget; [lia|exact Hn|]. rewrite wp_bind. apply wp_aset; [done|].
  rewrite wp_rst. done.
Qed.

(** A read of the clock. *)
Lemma wp_time_get (Q : Z -> rworld -> Prop) w :
  brd_ok w ->
  (forall b', board_ok b' -> word_ok (timeMs b') -> irq_frame (brd (rx w)) b' ->
    Q (timeMs b') (w{{ rx := (rx w){{ brd := b' }} }})) ->
  wp (on_board time_get) Q w.
Proof.
  intros [Hb Hw] HQ. rewrite wp_on_board.
  destruct (time_get_ok _ Hb Hw) as (b' & E & Hb' & Hw' & Hf & _ & Ht).
  unfold wp. rewrite E, <- Ht. by apply HQ.
Qed.

Lemma wp_has_cb f (Q : bool -> rworld -> Prop) w :
  rf_cb (rf w) <> None ->
  (forall b, Q b w) -> wp (has_cb f) Q w.
Proof.
  intros Hc HQ. unfold has_cb. rewrite wp_bind, wp_rget.
  destruct (rf_cb (rf w)); [apply HQ|done].
Qed.

(** What reads of the clock and console output leave alone in the layers below. *)
Definition rx_quiet (x x' : xworld) : Prop :=
  board_ok (brd x') /\ word_ok (timeMs (brd x')) /\ xb x' = xb x /\
  ports (brd x') = ports (brd x) /\ adc (brd x') = adc (brd x) /\
  thr (uart1 (brd x')) = thr (uart1 (brd x)) /\
  tx_wait (uart1 (brd x')) = tx_wait (uart1 (brd x)).

Lemma rx_quiet_irq x b' :
  board_ok b' -> word_ok (timeMs b') -> irq_frame (brd x) b' ->
  rx_quiet x (x{{ brd := b' }}).
Proof. unfold irq_frame, rx_quiet. simpl. tauto. Qed.

Lemma rx_quiet_trans x y z : rx_quiet x y -> rx_quiet y z -> rx_quiet x z.
Proof. unfold rx_quiet. intros. destruct_and!. split_and!; congruence. Qed.

(** ** Publishing *)

Definition node_free (n : node_t) : bool := (n_addrHi n =? 0) && (n_addrLo n =? 0).

Lemma publish_scan_spec hi lo ns i f :
  0 <= i ->
  (snd (publish_scan hi lo ns i f) = true <-> exists n, n ∈ ns /\ node_is hi lo n = true) /\
  (snd (publish_scan hi lo ns i f) = false ->
   fst (publish_scan hi lo ns i f) =
     if f =? 0 then
       if (find_idx node_free ns <? length ns)%nat
       then i + Z.of_nat (find_idx node_free ns) + 1 else 0
     else f).
Proof.
  intros Hi. revert i f Hi.
  induction ns as [|n ns IH]; intros i f Hi.
  { simpl. split; [split; [done|intros (? & H & _); by apply not_elem_of_nil in H]|].
    intros _. destruct (Z.eqb_spec f 0); done. }
  cbn [publish_scan find_idx length].
  set (f' := if (f =? 0) && (n_addrHi n =? 0) && (n_addrLo n =? 0) then i + 1 else f).
  destruct (node_is hi lo n) eqn:E.
  { split; [|done]. split; [|done]. intros _. exists n. split; [by left|done]. }
  destruct (IH (i + 1) f') as [IH1 IH2]; [lia|]. split.
  - rewrite IH1. split.
    + intros (m & Hm & Em). exists m. split; [by right|done].
    + intros (m & Hm & Em). apply elem_of_cons in Hm as [->|Hm]; [congruence|eauto].
  - intros Hs. rewrite IH2 by done. unfold f', node_free.
    destruct (Z.eqb_spec f 0); cbn [andb].
    + destruct ((n_addrHi n =? 0) && (n_addrLo n =? 0)) eqn:E0; cbn [find_idx].
      * destruct (Z.eqb_spec (i + 1) 0); [lia|]. simpl. lia.
      * subst f. simpl. fold node_free.
        destruct (Nat.ltb_spec (find_idx node_free ns) (length ns)),
          (Nat.ltb_spec (S (find_idx node_free ns)) (S (length ns))); lia.
    + destruct (Z.eqb_spec f 0); [done|]. done.
Qed.

(** The entry a new node gets. *)
Definition new_node (hi lo now : Z) (buf : list Z) (len : Z) (old : node_t) : node_t :=
  let k := Nat.min RF_NODE_MAX_CAPS (Z.to_nat len) in
  mk_node hi lo now (lastPoll old) (take k buf ++ drop k (caps old)) (Z.of_nat k).

Definition known (hi lo : Z) (ns : list node_t) : Prop :=
  exists n, n ∈ ns /\ node_is hi lo n = true.

(** The world after a publish message from a new node: only the entry [i], the
    events and the quiet part of the layers below differ. *)
Definition attached (i : nat) (n : node_t) (w w' : rworld) : Prop :=
  rx_quiet (rx w) (rx w') /\
  rf w' = (rf w){{ nodes := <[i := n]> (nodes (rf w)) }} /\
  upcalls w' = upcalls w ++
    (if (from_option has_nodeAttached false (rf_cb (rf w)) : bool)
     then [nodeAttached (Z.of_nat i + 1)] else []).

Lemma insert_caps_step {A} (buf cs : list A) j b :
  buf !! j = Some b -> (j < length cs)%nat ->
  <[j := b]> (take j buf ++ drop j cs) = take (S j) buf ++ drop (S j) cs.
Proof.
  intros Hb Hj. assert (length (take j buf) = j)
    by (rewrite length_take; apply lookup_lt_Some in Hb; lia).
  rewrite insert_app_r_alt by lia. rewrite H, Nat.sub_diag.
  rewrite (take_S_r _ _ _ Hb), <- app_assoc. f_equal.
  destruct (lookup_lt_is_Some_2 cs j Hj) as [c Hc].
  by rewrite (drop_S _ _ _ Hc).
Qed.

Lemma caps_loop_ok i buf k (w : rworld) n :
  (i < length (nodes (rf w)))%nat -> nodes (rf w) !! i = Some n ->
  (k <= length buf)%nat -> (k <= length (caps n))%nat ->
  wp (foreach (range k) (fun j =>
      b ← aget buf j;
      n ← get_node (Z.of_nat i);
      caps' ← aset (caps n) j b;
      set_node (Z.of_nat i) (fun n => n{{ caps := caps' }})))
    (fun _ w' => w' = w{{ rf := (rf w){{ nodes :=
      <[i := n{{ caps := take k buf ++ drop k (caps n) }}]> (nodes (rf w)) }} }}) w.
Proof.
  intros Hi Hn Hk Hc.
  eapply wp_mono; [apply (wp_range k _ (fun j w' => w' = w{{ rf := (rf w){{ nodes :=
      <[i := n{{ caps := take j buf ++ drop j (caps n) }}]> (nodes (rf w)) }} }}))|done].
  - destruct w as [x [] u], n. simpl in *. by rewrite list_insert_id.
  - intros j w' Hj ->. rewrite wp_bind. apply wp_aget_any; [lia|].
    rewrite Nat2Z.id. intros b Hb. unfold get_node. rewrite !wp_bind, wp_rget. simpl.
    eapply wp_aget; [lia|rewrite Nat2Z.id, list_lookup_insert_eq by done; done|].
    rewrite wp_bind. apply wp_aset.
    { simpl. rewrite length_app, length_take, length_drop. lia. }
    eapply wp_set_node; simpl.
    + rewrite length_insert. lia.
    + rewrite Nat2Z.id, list_lookup_insert_eq by done. done.
    + rewrite !Nat2Z.id, list_insert_insert_eq, insert_caps_step by (done || lia). done.
Qed.

Lemma wp_has_cb_eq f c (Q : bool -> rworld -> Prop) w :
  rf_cb (rf w) = Some c -> Q (f c) w -> wp (has_cb f) Q w.
Proof. intros Hc HQ. unfold has_cb. rewrite wp_bind, wp_rget, Hc. done. Qed.

Lemma wp_when_upcall b e (Q : unit -> rworld -> Prop) w :
  wp (when b (upcall e)) Q w <->
  Q tt (w{{ upcalls := upcalls w ++ (if (b : bool) then [e] else []) }}).
Proof. destruct b; simpl; [done|]. rewrite wp_ret, app_nil_r. by destruct w. Qed.

Lemma publish_new_ok hi lo buf len w old :
  brd_ok w -> rf_cb (rf w) <> None ->
  0 <= len <= Z.of_nat (length buf) ->
  ~ known hi lo (nodes (rf w)) ->
  let i := find_idx node_free (nodes (rf w)) in
  nodes (rf w) !! i = Some old -> length (caps old) = RF_NODE_MAX_CAPS ->
  wp (handlePublish hi lo buf len) (fun _ w' =>
    exists now, word_ok now /\ attached i (new_node hi lo now buf len old) w w') w.
Proof.
  intros Hb Hcb Hlen Hnew i Hi Hcaps. unfold handlePublish. rewrite wp_bind, wp_rget.
  unfold new_node. cbn zeta.
  assert (Hn : (if Z.of_nat RF_NODE_MAX_CAPS <? len then Z.of_nat RF_NODE_MAX_CAPS else len)
    = Z.of_nat (Nat.min RF_NODE_MAX_CAPS (Z.to_nat len))).
  { unfold RF_NODE_MAX_CAPS. destruct (Z.ltb_spec (Z.of_nat 12) len); lia. }
  rewrite Hn. clear Hn.
  assert (Hk : (Nat.min RF_NODE_MAX_CAPS (Z.to_nat len) <= length buf)%nat) by lia.
  assert (Hk' : (Nat.min RF_NODE_MAX_CAPS (Z.to_nat len) <= length (caps old))%nat) by lia.
  revert Hk Hk'. generalize (Nat.min RF_NODE_MAX_CAPS (Z.to_nat len)). intros k Hk Hk'.
  assert (Hil : (i < length (nodes (rf w)))%nat) by (by eapply lookup_lt_Some).
  destruct (publish_scan_spec hi lo (nodes (rf w)) 0 0) as [He Hf]; [lia|].
  destruct (publish_scan hi lo (nodes (rf w)) 0 0) as [fr ex]. simpl in He, Hf.
  destruct ex; [exfalso; apply Hnew, He; done|]. rewrite Hf by done. fold i.
  destruct (Nat.ltb_spec i (length (nodes (rf w)))); [|lia].
  destruct (Z.eqb_spec (0 + Z.of_nat i + 1) 0); [lia|]. cbn [negb andb]. cbn zeta.
  replace (0 + Z.of_nat i + 1 - 1) with (Z.of_nat i) by lia.
  destruct (rf_cb (rf w)) as [c|] eqn:Ec; [|done].
  rewrite wp_bind. eapply wp_set_node; [lia|rewrite Nat2Z.id; done|]. rewrite Nat2Z.id.
  rewrite wp_bind. apply wp_time_get; [done|]. intros b1 Hb1 Hw1 Hf1.
  rewrite wp_bind. eapply wp_set_node; simpl; [rewrite length_insert; lia|
    rewrite Nat2Z.id, list_lookup_insert_eq by done; done|].
  rewrite Nat2Z.id, list_insert_insert_eq, wp_bind.
  apply wp_time_get; [done|]. simpl. intros b2 Hb2 Hw2 Hf2. rewrite wp_bind.
  eapply wp_mono; [eapply (caps_loop_ok i buf k);
    [simpl; by rewrite length_insert|simpl; by rewrite list_lookup_insert_eq by done|
     done|done]|].
  intros [] w3 ->. simpl. rewrite wp_bind.
  eapply wp_set_node; simpl; [rewrite !length_insert; lia|
    rewrite Nat2Z.id, list_lookup_insert_eq by (by rewrite length_insert); done|].
  rewrite Nat2Z.id, !list_insert_insert_eq, wp_bind, wp_rlog, wp_bind.
  eapply wp_has_cb_eq; [simpl; exact Ec|]. rewrite wp_when_upcall.
  exists (timeMs b1).
  assert (Hq : rx_quiet (rx w) ((rx w){{ brd := b2{{ console :=
    console b2 ++ [("new node %x: %x\r\n"%string, [hi; lo])] }} }})).
  { unfold rx_quiet, irq_frame in *. simpl in *. destruct_and!. split_and!; congruence || done. }
  unfold attached. rewrite Ec. simpl in *.
  replace (0 + Z.of_nat i + 1) with (Z.of_nat i + 1) by lia. split_and!; try done.
  by rewrite Ec.
Qed.

(** A publish message from a known node, or with all entries in use, changes
    nothing. *)
Lemma publish_old_ok hi lo buf len w :
  known hi lo (nodes (rf w)) \/ (forall n, n ∈ nodes (rf w) -> node_free n = false) ->
  handlePublish hi lo buf len w = Ok (tt, w).
Proof.
  intros Hc. unfold handlePublish.
  assert (E : rget nodes w = Ok (nodes (rf w), w)) by (by destruct w).
  unfold mbind, M_bind. rewrite E.
  destruct (publish_scan_spec hi lo (nodes (rf w)) 0 0) as [He Hf]; [lia|].
  destruct (publish_scan hi lo (nodes (rf w)) 0 0) as [fr ex]. simpl in He, Hf.
  destruct ex; [done|]. destruct Hc as [Hk|Hfull]; [by apply He in Hk|].
  rewrite Hf by done. apply find_idx_none in Hfull. rewrite Hfull, Nat.ltb_irrefl. done.
Qed.

(** ** The invariant of the tables *)

Lemma nodes_ok_insert ns i n :
  nodes_ok ns -> (i < length ns)%nat -> node_ok n ->
  (forall j m, j <> i -> ns !! j = Some m -> node_used n ->
     ~ (n_addrHi n = n_addrHi m /\ n_addrLo n = n_addrLo m)) ->
  nodes_ok (<[i := n]> ns).
Proof.
  intros (Hl & Hok & Hd) Hi Hn Hne. split_and!.
  - by rewrite length_insert.
  - by apply Forall_insert.
  - intros a b x y Ha Hb Hu Hhi Hlo.
    destruct (decide (a = i)) as [->|Hai], (decide (b = i)) as [->|Hbi]; [done| | |].
    + rewrite list_lookup_insert_eq in Ha by done. injection Ha as <-.
      rewrite list_lookup_insert_ne in Hb by done. exfalso. eapply Hne; eauto.
    + rewrite list_lookup_insert_eq in Hb by done. injection Hb as <-.
      rewrite list_lookup_insert_ne in Ha by done. exfalso.
      eapply (Hne a x Hai Ha); [|done].
      unfold node_used in *. by rewrite <- Hhi, <- Hlo.
    + rewrite list_lookup_insert_ne in Ha, Hb by done. by eapply Hd.
Qed.

(** Changing a node without changing its address to another one. *)
Lemma nodes_ok_update ns i n n' :
  nodes_ok ns -> ns !! i = Some n -> node_ok n' ->
  (node_used n' -> n_addrHi n' = n_addrHi n /\ n_addrLo n' = n_addrLo n) ->
  nodes_ok (<[i := n']> ns).
Proof.
  intros Hns Hi Hn Ha. apply nodes_ok_insert; [done|by eapply lookup_lt_Some|done|].
  intros j m Hj Hm Hu [Hhi Hlo]. destruct (Ha Hu) as [E1 E2].
  destruct Hns as (_ & _ & Hd). apply Hj. symmetry. apply (Hd i j n m); try done.
  - unfold node_used in *. by rewrite <- E1, <- E2.
  - congruence.
  - congruence.
Qed.

Lemma node_ok_new hi lo now buf len old :
  node_ok old -> 0 <= len <= Z.of_nat (length buf) -> node_ok (new_node hi lo now buf len old).
Proof.
  intros [Hc _] Hl. unfold new_node, node_ok. cbn [caps numCaps].
  assert (Hk : (Nat.min RF_NODE_MAX_CAPS (Z.to_nat len) <= RF_NODE_MAX_CAPS)%nat) by lia.
  assert (Hb : (Nat.min RF_NODE_MAX_CAPS (Z.to_nat len) <= length buf)%nat) by lia.
  revert Hk Hb. generalize (Nat.min RF_NODE_MAX_CAPS (Z.to_nat len)).
  unfold RF_NODE_MAX_CAPS in *. intros k Hk Hb.
  rewrite length_app, length_take, length_drop. lia.
Qed.

Lemma known_iff hi lo ns :
  known hi lo ns <-> exists j m, ns !! j = Some m /\ n_addrHi m = hi /\ n_addrLo m = lo.
Proof.
  unfold known, node_is. split.
  - intros (n & Hn & E). apply list_elem_of_lookup in Hn as [j Hj].
    apply andb_true_iff in E as [E1%Z.eqb_eq E2%Z.eqb_eq]. eauto.
  - intros (j & m & Hj & <- & <-). exists m. split; [by eapply list_elem_of_lookup_2|].
    by rewrite !Z.eqb_refl.
Qed.

Section Kept.
(** A condition under which the subscriptions stay counted. *)
Context (cond : Prop).

(** What a handler may change: nothing but the layers below, the tables and the
    record of the callbacks. *)
Definition kept (w w' : rworld) : Prop :=
  rworld_ok w' /\ rf_isCoordinator (rf w') = rf_isCoordinator (rf w) /\
  rf_cb (rf w') = rf_cb (rf w) /\ (cond -> counted (rf w) -> counted (rf w')).

Lemma known_dec hi lo ns : {known hi lo ns} + {~ known hi lo ns}.
Proof.
  destruct (existsb (node_is hi lo) ns) eqn:E; [left|right].
  - apply existsb_exists in E as (n & Hn & E). exists n. split; [by apply list_elem_of_In|done].
  - intros (n & Hn & E'). apply not_true_iff_false in E. apply E, existsb_exists.
    exists n. split; [by apply list_elem_of_In|done].
Qed.

Lemma rx_quiet_brd_ok w w' : rx_quiet (rx w) (rx w') -> brd_ok w'.
Proof. intros (? & ? & _). done. Qed.

Lemma handlePublish_ok hi lo buf len w :
  rworld_ok w -> 0 <= len <= Z.of_nat (length buf) ->
  wp (handlePublish hi lo buf len) (fun _ w' => kept w w') w.
Proof.
  intros Hw Hlen. pose proof Hw as (Hb & Hns & Hs & Hc).
  destruct (known_dec hi lo (nodes (rf w))) as [Hk|Hk].
  { unfold wp. rewrite publish_old_ok by (by left). done. }
  destruct (decide (find_idx node_free (nodes (rf w)) = length (nodes (rf w)))) as [E|E].
  { unfold wp. rewrite publish_old_ok; [done|]. right. by apply find_idx_none. }
  destruct (find_idx_lt node_free (nodes (rf w))) as (old & Hi & _).
  { pose proof (find_idx_le node_free (nodes (rf w))). lia. }
  assert (Hold : node_ok old) by (destruct Hns as (_ & Hf & _); by eapply Forall_lookup_1 in Hi).
  eapply wp_mono; [by eapply publish_new_ok; try done; apply Hold|].
  intros [] w' (now & _ & Hq & Hrf & _). unfold kept. rewrite Hrf. simpl.
  split_and!; [|done|done|done]. split; [by eapply rx_quiet_brd_ok|].
  rewrite Hrf. split_and!; simpl; [|done|done].
  apply nodes_ok_insert; [done|by eapply lookup_lt_Some|by apply node_ok_new|].
  intros j m Hj Hm _ [Hhi Hlo]. apply Hk, known_iff. exists j, m. simpl in *. done.
Qed.

(** Only the layers below, and the record of the callbacks, change. *)
Definition below (w w' : rworld) : Prop := brd_ok w' /\ rf w' = rf w.

Lemma below_kept w w' : rworld_ok w -> below w w' -> kept w w'.
Proof. intros [_ H] [Hb E]. unfold kept, rworld_ok. by rewrite E. Qed.

Lemma kept_refl w : rworld_ok w -> kept w w.
Proof. done. Qed.

Lemma kept_trans w1 w2 w3 : kept w1 w2 -> kept w2 w3 -> kept w1 w3.
Proof. unfold kept. intros. destruct_and!. split_and!; [congruence..|auto]. Qed.

(** Nothing stops a transmit request of at most 20 bytes. *)
Lemma apiTx64_total hi lo data x :
  Z.of_nat (length data) <= 20 ->
  exists r u fid, apiTx64 hi lo data (Z.of_nat (length data)) x =
    Ok (r, mk_xworld ((brd x){{ uart1 := u }}) ((xb x){{ rfFrameId := fid }})).
Proof.
  intros Hl. unfold apiTx64. destruct (Z.ltb_spec 20 (Z.of_nat (length data))); [lia|].
  unfold mbind, M_bind, zoom at 1. simpl view. rewrite getFrameId_run.
  unfold guard. rewrite Z.leb_refl. unfold mret, M_ret. cbn zeta.
  rewrite checksum_exact.
  2:{ rewrite Nat2Z.id, firstn_all. unfold u8. simpl. lia. }
  unfold zoom, rf_uart_send. simpl view. unfold zoom. simpl view.
  match goal with |- context [UART_Send ?bs ?u] =>
    destruct (UART_Send_prefix bs u) as (k & u' & E & _) end.
  simpl in E |- *. rewrite E. eexists _, u', _. reflexivity.
Qed.

Lemma wp_send hi lo buf (Q : error_t -> rworld -> Prop) w :
  brd_ok w -> Z.of_nat (length buf) <= 20 ->
  (forall e w', below w w' -> upcalls w' = upcalls w ->
     ports (brd (rx w')) = ports (brd (rx w)) -> Q e w') ->
  wp (send hi lo buf) Q w.
Proof.
  intros Hb Hl HQ. unfold send. rewrite wp_bind, wp_zoom. unfold xbee_send.
  rewrite wp_bind, wp_zoom. unfold wp at 1, gets.
  destruct (initialized _); cbn [negb].
  - destruct (apiTx64_total hi lo buf (rx w)) as (r & u & fid & E); [done|].
    rewrite (put_view (view w)). simpl view. unfold wp. rewrite E. apply HQ; done.
  - rewrite wp_ret, wp_ret. apply HQ; [|done..].
    unfold below, brd_ok in *. simpl. done.
Qed.

Lemma sub_count_insert ss i old n :
  ss !! i = Some old ->
  sub_count (<[i := n]> ss) =
    sub_count ss - (if sub_free old then 0 else 1) + (if sub_free n then 0 else 1).
Proof.
  revert i. induction ss as [|s ss IH]; intros i; [done|].
  unfold sub_count in *. destruct i as [|i]; simpl.
  - intros [= <-]. rewrite !filter_cons.
    destruct (sub_free s), (sub_free n); repeat case_decide; simpl; try done; lia.
  - intros Hi. rewrite !filter_cons. specialize (IH i Hi).
    case_decide; simpl; lia.
Qed.

Lemma sub_count_bounds ss : 0 <= sub_count ss <= Z.of_nat (length ss).
Proof.
  unfold sub_count. pose proof (length_filter (fun s => sub_free s = false) ss). lia.
Qed.

(** *** The peripherals *)

Lemma trimpot_range b : exists v b', trimpot_get b = Ok (v, b') /\ 0 <= v < 4096 /\
  b' = b{{ adc := adc b' }}.
Proof.
  unfold trimpot_get. destruct (adc b) as [|dr rest].
  - eexists _, _. split; [reflexivity|]. split; [vm_compute; done|by destruct b].
  - eexists _, _. split; [reflexivity|]. split; [|by destruct b].
    unfold ADC_DR_RESULT. change 0xFFF with (Z.ones 12). rewrite Z.land_ones by lia.
    change (2 ^ 12) with 4096. unfold u16. lia.
Qed.

Lemma wp_trimpot (Q : Z -> rworld -> Prop) w :
  brd_ok w ->
  (forall v w', 0 <= v < 4096 -> below w w' -> upcalls w' = upcalls w ->
     ports (brd (rx w')) = ports (brd (rx w)) -> Q v w') ->
  wp (on_board trimpot_get) Q w.
Proof.
  intros Hb HQ. rewrite wp_on_board.
  destruct (trimpot_range (brd (rx w))) as (v & b' & E & Hv & Eb).
  unfold wp. rewrite E. apply HQ; try done; simpl; [|by rewrite Eb].
  unfold below, brd_ok in *. simpl. rewrite Eb. done.
Qed.

Lemma wp_btn (Q : Z -> rworld -> Prop) w :
  (forall v, Q v w) -> wp (on_board btn_get) Q w.
Proof.
  intros HQ. rewrite wp_on_board. unfold wp, btn_get, GPIO_ReadValue, gets, mbind, M_bind, mret, M_ret.
  destruct w as [[b x] s u]. simpl in *. apply HQ.
Qed.

Lemma wp_rgb led on off (Q : unit -> rworld -> Prop) w :
  brd_ok w -> (forall w', below w w' -> upcalls w' = upcalls w -> Q tt w') ->
  wp (on_board (rgb_setLeds led on off)) Q w.
Proof.
  intros Hb HQ. rewrite wp_on_board.
  assert (K : forall P : unit -> board -> Prop,
    (forall b', b' = (brd (rx w)){{ ports := ports b' }} -> P tt b') ->
    wp (rgb_setLeds led on off) P (brd (rx w))).
  { intros P HP. unfold rgb_setLeds, wp, GPIO_SetValue, GPIO_ClearValue, on_port, modify.
    revert HP. generalize (brd (rx w)). intros b HP.
    destruct led; repeat (destruct (negb _); simpl); apply HP; by destruct b. }
  apply K. intros b' Eb. apply HQ; [|done]. unfold below, brd_ok in *. simpl. rewrite Eb. done.
Qed.

(** *** The handlers *)

Lemma wp_ignore {W A} (m : M W A) (Q : unit -> W -> Prop) w :
  wp (ignore m) Q w <-> wp m (fun _ w' => Q tt w') w.
Proof. unfold ignore. rewrite wp_bind. done. Qed.

Lemma wp_find_node hi lo (Q : Z -> rworld -> Prop) w :
  Q (Z.of_nat (find_idx (node_is hi lo) (nodes (rf w)))) w -> wp (find_node hi lo) Q w.
Proof. intros HQ. unfold find_node. by rewrite wp_bind, wp_rget, wp_ret. Qed.

Lemma kept_below w w1 w2 : kept w w1 -> below w1 w2 -> kept w w2.
Proof. intros H1 H2. eapply kept_trans; [done|]. apply below_kept; [apply H1|done]. Qed.

Lemma handlePollResponse_ok hi lo w :
  rworld_ok w -> wp (handlePollResponse hi lo) (fun _ w' => kept w w') w.
Proof.
  intros Hw. pose proof Hw as (Hb & Hns & Hs & Hc). unfold handlePollResponse.
  rewrite wp_bind. apply wp_find_node. set (i := find_idx _ _).
  destruct (Z.ltb_spec (Z.of_nat i) (Z.of_nat RF_MAX_NODES)); [|by apply kept_refl].
  pose proof Hns as (Hl & Hf & _).
  destruct (find_idx_lt (node_is hi lo) (nodes (rf w))) as (n & Hn & _); [fold i; lia|].
  fold i in Hn. rewrite wp_bind. apply wp_time_get; [done|]. intros b' Hb' Hw' _.
  eapply wp_set_node; simpl; [lia|by rewrite Nat2Z.id|].
  split_and!; [|done|done|done]. split; [done|]. split_and!; [|done|done]. simpl. rewrite Nat2Z.id.
  eapply nodes_ok_update; [done|exact Hn| |done].
  by eapply (Forall_lookup_1 _ _ _ _ Hf Hn).
Qed.

Lemma handleValueUpdate_ok hi lo periph buf len w :
  rworld_ok w -> wp (handleValueUpdate hi lo periph buf len) (fun _ w' => kept w w') w.
Proof.
  intros Hw. pose proof Hw as (Hb & Hns & Hs & Hc). unfold handleValueUpdate.
  rewrite wp_bind. apply wp_has_cb; [done|]. intros []; [|by apply kept_refl].
  rewrite wp_bind. apply wp_find_node.
  destruct (_ <? _); [rewrite wp_upcall|rewrite wp_rlog]; apply below_kept; done.
Qed.

Lemma handleSubscribeResponse_ok hi lo subId w :
  rworld_ok w -> wp (handleSubscribeResponse hi lo subId) (fun _ w' => kept w w') w.
Proof.
  intros Hw. pose proof Hw as (Hb & Hns & Hs & Hc). unfold handleSubscribeResponse.
  rewrite wp_bind. apply wp_find_node. destruct (_ <? _); [|by apply kept_refl].
  rewrite wp_bind. apply wp_has_cb; [done|]. intros b. rewrite wp_when_upcall.
  by apply below_kept.
Qed.

Lemma wp_send_kept hi lo buf w :
  rworld_ok w -> Z.of_nat (length buf) <= 20 ->
  wp (ignore (send hi lo buf)) (fun _ w' => kept w w') w.
Proof.
  intros Hw Hl. rewrite wp_ignore. apply wp_send; [apply Hw|done|].
  intros e w' Hb _ _. by apply below_kept.
Qed.

Lemma getValue_ok hi lo periph w :
  rworld_ok w -> wp (getValue hi lo periph) (fun _ w' => kept w w') w.
Proof.
  intros Hw. pose proof Hw as (Hb & _). unfold getValue.
  destruct (periph =? RFPT_MSG_DEV_TEMP); [|destruct (periph =? RFPT_MSG_DEV_BTN)].
  - rewrite wp_ignore. unfold sendTemperature. rewrite wp_bind. apply wp_trimpot; [done|].
    intros v w1 _ H1 _ _. apply wp_send; [apply H1|simpl; lia|]. intros e w2 H2 _ _.
    eapply kept_below; [by apply below_kept|done].
  - rewrite wp_ignore. unfold sendBtn. rewrite wp_bind. apply wp_btn. intros v.
    apply wp_send; [done|simpl; lia|]. intros e w2 H2 _ _. by apply below_kept.
  - rewrite wp_rlog. by apply below_kept.
Qed.

Lemma setValue_ok hi lo periph buf len w :
  rworld_ok w -> (2 <= length buf)%nat ->
  wp (setValue hi lo periph buf len) (fun _ w' => kept w w') w.
Proof.
  intros Hw Hl. pose proof Hw as (Hb & _). unfold setValue.
  destruct (periph =? RFPT_MSG_DEV_RGB); [|destruct (periph =? RFPT_MSG_DEV_LED)].
  - destruct (len <? 2); [by apply kept_refl|].
    rewrite wp_bind. apply wp_aget_any; [lia|]. intros mask _.
    rewrite wp_bind. apply wp_aget_any; [lia|]. intros on _.
    destruct (0 <? on); apply wp_rgb; try done; intros; by apply below_kept.
  - destruct (len <? 1); [by apply kept_refl|].
    rewrite wp_bind. apply wp_aget_any; [lia|]. intros v _.
    destruct (v =? 1); apply wp_rgb; try done; intros; by apply below_kept.
  - by apply kept_refl.
Qed.

Lemma wp_parse_sub buf (Q : Z * Z * Z -> rworld -> Prop) w :
  brd_ok w -> (3 <= length buf)%nat ->
  (forall p v c w', below w w' -> upcalls w' = upcalls w -> Q (p, v, c) w') ->
  wp (parse_sub buf) Q w.
Proof.
  intros Hb Hl HQ. assert (Hrefl : below w w) by done. unfold parse_sub.
  rewrite wp_bind. apply wp_aget_any; [lia|]. intros p _.
  destruct (p =? RFPT_MSG_DEV_TEMP); [|destruct (p =? RFPT_MSG_DEV_BTN)].
  - rewrite wp_bind. apply wp_aget_any; [lia|]. intros hi _.
    rewrite wp_bind. apply wp_aget_any; [lia|]. intros lo _.
    rewrite wp_bind. apply wp_trimpot; [done|]. intros c w' _ H1 H2 _.
    rewrite wp_ret. by apply HQ.
  - rewrite wp_bind. apply wp_aget_any; [lia|]. intros v _.
    destruct ((v =? 0) || (v =? 1)); [|rewrite wp_ret; by apply HQ].
    rewrite wp_bind. apply wp_btn. intros c. rewrite wp_ret. by apply HQ.
  - rewrite wp_ret. by apply HQ.
Qed.

Lemma wp_subscriptionExists hi lo action p v (Q : Z -> rworld -> Prop) w :
  (let i := find_idx (sub_is hi lo action p v) (subscribers (rf w)) in
   Q (if (i <? length (subscribers (rf w)))%nat then Z.of_nat i + 1 else 0) w) ->
  wp (subscriptionExists hi lo action p v) Q w.
Proof. intros HQ. unfold subscriptionExists. by rewrite wp_bind, wp_rget, wp_ret. Qed.

Definition addr_used (hi lo : Z) : Prop := ~ (hi = 0 /\ lo = 0).

Lemma addr_used_free hi lo p a v l : addr_used hi lo -> sub_free (mk_sub hi lo p a v l) = false.
Proof.
  unfold addr_used, sub_free. simpl. intros H.
  destruct (Z.eqb_spec hi 0), (Z.eqb_spec lo 0); try done. exfalso. by apply H.
Qed.

(** A new subscription takes the first free entry [i]. *)
Definition subscribed (i : nat) (s : sub_t) (w : rworld) : rworld :=
  w{{ rf := (rf w){{ subscribers := <[i := s]> (subscribers (rf w));
                     subNumRegistered := u8 (subNumRegistered (rf w) + 1) }} }}.

Lemma subscribed_kept i s old w :
  rworld_ok w -> subscribers (rf w) !! i = Some old -> sub_free old = true ->
  (cond -> sub_free s = false) -> kept w (subscribed i s w).
Proof.
  intros (Hb & Hns & Hl & Hcb) Hi Ho Hs. unfold kept, rworld_ok, rfpt_ok, subs_ok, counted, subscribed. simpl.
  split_and!; try done; [by rewrite length_insert|]. intros Hcond Hc.
  assert (Hc' : sub_count (<[i := s]> (subscribers (rf w))) = sub_count (subscribers (rf w)) + 1)
    by (rewrite (sub_count_insert _ _ _ _ Hi), Ho, (Hs Hcond); lia).
  pose proof (sub_count_bounds (<[i := s]> (subscribers (rf w)))) as Hbd.
  unfold subs_ok in Hl. rewrite length_insert, Hl in Hbd. unfold RF_MAX_SUBS in Hbd.
  rewrite Hc, Hc'. unfold u8. pose proof (sub_count_bounds (subscribers (rf w))). lia.
Qed.

Lemma handleSubscribe_ok hi lo action buf len w :
  rworld_ok w -> (cond -> addr_used hi lo) -> (3 <= length buf)%nat ->
  wp (handleSubscribe hi lo action buf len) (fun _ w' => kept w w') w.
Proof.
  intros Hw Ha Hl. unfold handleSubscribe.
  destruct (len <? 2); [by apply kept_refl|].
  rewrite wp_bind. apply wp_parse_sub; [apply Hw|done|]. intros p v c w1 Hb1 _.
  assert (K1 : kept w w1) by (by apply below_kept). cbn beta iota.
  destruct (p =? 0); [by rewrite wp_ret|].
  rewrite wp_bind. apply wp_subscriptionExists. cbn zeta.
  set (j := find_idx _ _). destruct (negb _).
  { eapply wp_mono; [apply wp_send_kept; [apply K1|simpl; lia]|]. intros [] w2 K2.
    by eapply kept_trans. }
  rewrite wp_bind, wp_rget. set (i := find_idx sub_free _).
  destruct (Nat.ltb_spec i RF_MAX_SUBS) as [Hi|]; [|by rewrite wp_ret].
  destruct K1 as [Hw1 K1]. pose proof Hw1 as (_ & _ & Hl1 & _). unfold subs_ok in Hl1.
  destruct (find_idx_lt sub_free (subscribers (rf w1))) as (old & Ho & Hf); [fold i; lia|].
  fold i in Ho. rewrite wp_bind. eapply wp_set_sub; [lia|by rewrite Nat2Z.id|].
  rewrite Nat2Z.id. rewrite wp_bind, wp_rst.
  pose proof (subscribed_kept i (mk_sub hi lo p action (u32 v) c) old w1 Hw1 Ho Hf
    (fun x => addr_used_free hi lo p action (u32 v) c (Ha x))) as K2.
  eapply wp_mono; [apply wp_send_kept; [apply K2|simpl; lia]|]. intros [] w3 K3.
  eapply kept_trans; [|exact K3]. by eapply kept_trans.
Qed.

Lemma handleUnsubscribe_ok hi lo subId w :
  rworld_ok w -> (cond -> addr_used hi lo) -> 0 <= subId ->
  wp (handleUnsubscribe hi lo subId) (fun _ w' => kept w w') w.
Proof.
  intros Hw Ha Hid. pose proof Hw as (Hb & Hns & Hl & Hcb). unfold subs_ok in Hl. unfold handleUnsubscribe.
  destruct (Z.eqb_spec subId 0); [by apply kept_refl|]. cbn zeta.
  destruct (Z.leb_spec (Z.of_nat RF_MAX_SUBS) (subId - 1)); [by apply kept_refl|].
  unfold get_sub. rewrite !wp_bind, wp_rget. apply wp_aget_any; [lia|]. intros s Hs.
  destruct ((s_addrHi s =? hi) && (s_addrLo s =? lo)) eqn:E; [|by apply kept_refl].
  apply andb_true_iff in E as [E1%Z.eqb_eq E2%Z.eqb_eq].
  rewrite wp_bind, wp_rst. eapply wp_set_sub; simpl; [lia|exact Hs|].
  unfold kept, rworld_ok, rfpt_ok, subs_ok, counted. simpl. split_and!; try done.
  { by rewrite length_insert. }
  intros Hcond Hc. assert (Hf : sub_free s = false).
  { destruct s. simpl in *. subst. by apply addr_used_free, Ha. }
  rewrite (sub_count_insert _ _ _ _ Hs), Hf. unfold sub_free at 1. simpl.
  pose proof (sub_count_bounds (subscribers (rf w))) as Hbd.
  pose proof (sub_count_insert _ _ s (s{{ s_addrHi := 0; s_addrLo := 0 }}) Hs) as Hci.
  pose proof (sub_count_bounds (<[Z.to_nat (subId - 1) := s{{ s_addrHi := 0; s_addrLo := 0 }}]>
    (subscribers (rf w)))) as Hb2.
  rewrite Hci, Hf in Hb2. unfold sub_free in Hb2. simpl in Hb2.
  rewrite Hl in Hbd. unfold RF_MAX_SUBS in Hbd. unfold u8. lia.
Qed.

Lemma check_node_ok i w :
  rworld_ok w -> 0 <= i < Z.of_nat RF_MAX_NODES ->
  wp (check_node i) (fun _ w' => kept w w') w.
Proof.
  intros Hw Hi. pose proof Hw as (Hb & Hns & Hs & Hc). pose proof Hns as (Hl & Hf & _).
  unfold check_node, get_node. rewrite !wp_bind, wp_rget. apply wp_aget_any; [lia|].
  intros n Hn. assert (Hno : node_ok n) by (by eapply (Forall_lookup_1 _ _ _ _ Hf Hn)).
  destruct (negb (n_addrHi n =? 0) && _) eqn:Eu; [|by apply kept_refl].
  rewrite wp_bind. apply wp_time_get; [done|]. intros b' Hb' Hw' _.
  set (w1 := w{{ rx := (rx w){{ brd := b' }} }}).
  assert (K1 : kept w w1) by (by apply below_kept).
  destruct ((0 <? aliveTime n) && _).
  - rewrite wp_bind, wp_rlog, wp_bind. apply wp_has_cb; [done|]. intros c.
    rewrite wp_bind, wp_when_upcall. eapply wp_set_node; simpl; [lia|exact Hn|].
    eapply kept_trans; [exact K1|]. split_and!; [|done|done|done]. split; [done|].
    split_and!; simpl; [|done|done].
    eapply nodes_ok_update; [done|exact Hn| |].
    + split; [apply Hno|simpl; lia].
    + unfold node_used. simpl. intros []. done.
  - destruct (_ <? _); [|by rewrite wp_ret].
    rewrite wp_bind. eapply wp_set_node; simpl; [lia|exact Hn|].
    match goal with |- wp _ _ ?w2 => assert (K2 : kept w w2) end.
    { split_and!; [|done|done|done]. split; [done|]. split_and!; simpl; [|done|done].
      eapply nodes_ok_update; [done|exact Hn|exact Hno|done]. }
    eapply wp_mono; [apply wp_send_kept; [apply K2|simpl; lia]|].
    intros [] w3 K3. exact (kept_trans _ _ _ K2 K3).
Qed.

Lemma checkIfNodesAlive_ok w :
  rworld_ok w -> wp checkIfNodesAlive (fun _ w' => kept w w') w.
Proof.
  intros Hw. unfold checkIfNodesAlive.
  apply (wp_range _ _ (fun _ w' => kept w w')); [by apply kept_refl|].
  intros j w' Hj K. eapply wp_mono; [apply check_node_ok; [apply K|lia]|].
  intros [] w2 K2. by eapply kept_trans.
Qed.

Lemma wp_when_kept (b : bool) m w :
  rworld_ok w -> wp m (fun _ w' => kept w w') w -> wp (when b m) (fun _ w' => kept w w') w.
Proof. destruct b; [done|]. intros. by apply kept_refl. Qed.

End Kept.

(** C2: Whatever bytes a peer sends, from whatever address, handling them raises no fault and
    keeps the board, the node table and the subscription table well formed: addresses stay
    unique and capability counts stay within the arrays.  The role and the application's
    callbacks never change.  The number of subscriptions stays the number of entries in use
    unless the peer's address is 0:0, which marks free entries. *)
Theorem xbeeData_safe hi lo rssi buf len w :
  rworld_ok w -> Forall byte_ok buf -> 0 <= len < 256 -> len <= Z.of_nat (length buf) -> (4 <= length buf)%nat ->
  wp (xbeeData hi lo rssi buf len) (fun _ w' => rworld_ok w' /\
    rf_isCoordinator (rf w') = rf_isCoordinator (rf w) /\ rf_cb (rf w') = rf_cb (rf w) /\
    (addr_used hi lo -> counted (rf w) -> counted (rf w'))) w.
Proof.
  intros Hw Hbs Hlen Hbl Hb4. set (cond := addr_used hi lo). assert (Ha : cond -> addr_used hi lo) by done.
  change (wp (xbeeData hi lo rssi buf len) (fun _ w' => kept cond w w') w).
  unfold xbeeData. destruct (Z.ltb_spec len 1); [by apply kept_refl|].
  assert (Hd : length (drop 1 buf) = (length buf - 1)%nat) by (by rewrite length_drop).
  rewrite wp_bind. apply wp_aget_any; [lia|]. intros b0 _.
  rewrite wp_bind, wp_rget. cbn zeta.
  repeat match goal with |- wp (if ?c then _ else _) _ _ => destruct c end.
  - apply wp_when_kept; [done|]. by apply getValue_ok.
  - apply wp_when_kept; [done|]. apply setValue_ok; [done|lia].
  - rewrite wp_bind. apply wp_aget_any; [lia|]. intros b1 _. by apply handleSubscribeResponse_ok.
  - apply wp_when_kept; [done|]. apply handleSubscribe_ok; [done..|lia].
  - rewrite wp_bind. apply wp_aget_any; [lia|]. intros b1 Hb1.
    apply handleUnsubscribe_ok; [done..|]. by apply (Forall_lookup_1 _ _ _ _ Hbs Hb1).
  - by apply kept_refl.
  - by apply handleValueUpdate_ok.
  - by apply handlePollResponse_ok.
  - unfold sendPollResponse. apply wp_send_kept; [done|simpl; lia].
  - apply wp_when_kept; [done|]. apply handlePublish_ok; [done|]. unfold u8. lia.
  - apply wp_when_kept; [done|]. unfold sendPublish. apply wp_send_kept; [done|simpl; lia].
  - rewrite wp_rlog. apply below_kept; [done|]. split; [apply Hw|done].
Qed.

(** From the address 0:0 a peer cancels a subscription that nobody made: the number of
    subscriptions wraps to 255 while no entry is in use. *)
Theorem zero_address_uncounts w old :
  subscribers (rf w) !! 0%nat = Some old -> sub_free old = true -> subNumRegistered (rf w) = 0 -> counted (rf w) ->
  exists w', handleUnsubscribe 0 0 1 w = Ok (tt, w') /\ subNumRegistered (rf w') = 255 /\
    sub_count (subscribers (rf w')) = 0.
Proof.
  intros Hs Hf Hn Hc. pose proof Hf as [E1%Z.eqb_eq E2%Z.eqb_eq]%andb_true_iff.
  pose proof (lookup_lt_Some _ _ _ Hs) as Hlt.
  assert (wp (handleUnsubscribe 0 0 1) (fun _ w' => subNumRegistered (rf w') = 255 /\
    sub_count (subscribers (rf w')) = 0) w) as ([] & w' & E & H)%wp_run; [|by exists w'].
  unfold handleUnsubscribe. cbn [Z.eqb]. change (Z.of_nat RF_MAX_SUBS <=? 1 - 1) with false. cbn iota.
  unfold get_sub. rewrite !wp_bind, wp_rget. eapply wp_aget; [lia|exact Hs|]. rewrite E1, E2. cbn [Z.eqb andb].
  rewrite wp_bind, wp_rst. eapply wp_set_sub; simpl; [lia|exact Hs|]. rewrite Hn. split; [done|].
  rewrite (sub_count_insert _ _ _ _ Hs), Hf. unfold counted in Hc. unfold sub_free. simpl. lia.
Qed.

(** ** Registration and queries *)

(** A publish message from an unknown node registers it in the first free entry,
    with at most 12 capabilities, and reports it; its number and its capabilities
    can then be read back (an address with a half equal to 0 is not listed). *)
Theorem publish_then_query hi lo buf len old w out n :
  brd_ok w -> rf_cb (rf w) <> None -> 0 <= len <= Z.of_nat (length buf) ->
  ~ known hi lo (nodes (rf w)) -> hi <> 0 -> lo <> 0 ->
  let i := find_idx node_free (nodes (rf w)) in
  (i < RF_MAX_NODES)%nat ->
  nodes (rf w) !! i = Some old -> length (caps old) = RF_NODE_MAX_CAPS ->
  0 < n -> (12 <= length out)%nat ->
  exists w', handlePublish hi lo buf len w = Ok (tt, w') /\
    (exists now, word_ok now /\ attached i (new_node hi lo now buf len old) w w') /\
    rf_getNodeCaps (Z.of_nat i + 1) (Some out) n true w' =
      Ok ((ERR_OK, take (Z.to_nat (Z.min n (Z.min len 12))) buf), w').
Proof.
  intros Hb Hcb Hlen Hnew Hhi Hlo i Hi Hold Hcaps Hn Hout.
  pose proof (publish_new_ok hi lo buf len w old Hb Hcb Hlen Hnew Hold Hcaps) as Hp.
  apply wp_run in Hp as ([] & w' & E & now & Hnow & Ha). exists w'.
  split; [exact E|]. split; [by exists now|]. destruct Ha as (_ & Hrf & _).
  fold i in Hrf. unfold rf_getNodeCaps.
  destruct (Z.eqb_spec n 0); [lia|]. cbn [negb orb].
  unfold RF_MAX_NODES in Hi.
  destruct (Z.ltb_spec 0 (Z.of_nat i + 1)), (Z.leb_spec (Z.of_nat i + 1) (Z.of_nat 10));
    try lia.
  change (Z.of_nat RF_MAX_NODES) with 10. destruct (Z.leb_spec (Z.of_nat i + 1) 10); [|lia].
  cbn [andb]. unfold get_node.
  assert (Eg : rget nodes w' = Ok (nodes (rf w'), w')) by (by destruct w').
  unfold mbind, M_bind. rewrite Eg, Hrf. simpl nodes.
  replace (Z.of_nat i + 1 - 1) with (Z.of_nat i) by lia.
  erewrite aget_ok; [|lia|rewrite Nat2Z.id; apply list_lookup_insert_eq;
    by eapply lookup_lt_Some].
  unfold node_listed, new_node. cbn [n_addrHi n_addrLo numCaps caps].
  apply Z.eqb_neq in Hhi, Hlo. rewrite Hhi, Hlo. cbn [negb andb].
  set (k := Nat.min RF_NODE_MAX_CAPS (Z.to_nat len)).
  assert (Hk : k = Z.to_nat (Z.min len 12)) by (unfold k, RF_NODE_MAX_CAPS; lia).
  assert (Et : take (Nat.min (Z.to_nat n) (Z.to_nat (Z.of_nat k)))
      (take k buf ++ drop k (caps old)) = take (Z.to_nat (Z.min n (Z.min len 12))) buf).
  { rewrite Nat2Z.id, take_app_le by (rewrite length_take; lia).
    rewrite take_take. f_equal. lia. }
  rewrite Et. unfold guard. rewrite length_take.
  destruct (Nat.leb_spec (Nat.min (Z.to_nat (Z.min n (Z.min len 12))) (length buf))
    (length out)); [done|lia].
Qed.

(** A node whose address has exactly one half equal to 0 occupies an entry that
    is never polled, never expires and is never listed. *)
Theorem half_zero_never_expires i w n :
  0 <= i < Z.of_nat RF_MAX_NODES -> nodes (rf w) !! Z.to_nat i = Some n ->
  (n_addrHi n = 0 /\ n_addrLo n <> 0) \/ (n_addrHi n <> 0 /\ n_addrLo n = 0) ->
  check_node i w = Ok (tt, w) /\ node_free n = false /\ node_listed n = false.
Proof.
  intros Hi Hn Hz. unfold check_node, get_node, mbind, M_bind.
  assert (Eg : rget nodes w = Ok (nodes (rf w), w)) by (by destruct w).
  rewrite Eg. erewrite aget_ok; [|lia|exact Hn].
  unfold node_free, node_listed. destruct Hz as [[H1 H2]|[H1 H2]].
  all: destruct (Z.eqb_spec (n_addrHi n) 0), (Z.eqb_spec (n_addrLo n) 0); try done.
Qed.

(** What the next read of the clock returns. *)
Definition clock (w : rworld) : Z :=
  u32 (timeMs (brd (rx w)) + ticks (next_irqs (brd (rx w)))).

Lemma wp_time_get_at (Q : Z -> rworld -> Prop) w :
  brd_ok w ->
  (forall b', board_ok b' -> word_ok (timeMs b') -> irq_frame (brd (rx w)) b' ->
    Q (clock w) (w{{ rx := (rx w){{ brd := b' }} }})) ->
  wp (on_board time_get) Q w.
Proof.
  intros [Hb Hw] HQ. rewrite wp_on_board.
  destruct (time_get_ok _ Hb Hw) as (b' & E & Hb' & Hw' & Hf & _ & Ht).
  unfold wp. rewrite E. by apply HQ.
Qed.

(** A listed node that has been silent for more than three seconds is reported
    and its entry freed; one that answered in time is kept, and polled when the
    last poll is more than a second old. *)
Theorem check_node_expiry i w n :
  brd_ok w -> 0 <= i < Z.of_nat RF_MAX_NODES ->
  nodes (rf w) !! Z.to_nat i = Some n -> node_listed n = true ->
  from_option has_nodeDetached false (rf_cb (rf w)) = true ->
  0 < aliveTime n -> aliveTime n + RF_NODE_ALIVE_TIME < 4294967296 ->
  wp (check_node i) (fun _ w' =>
    if aliveTime n + 3000 <? clock w
    then upcalls w' = upcalls w ++ [nodeDetached (i + 1)] /\
         nodes (rf w') = <[Z.to_nat i :=
           n{{ n_addrHi := 0; n_addrLo := 0; numCaps := 0 }}]> (nodes (rf w))
    else upcalls w' = upcalls w /\
         nodes (rf w') =
           if u32 (lastPoll n + 1000) <? clock w
           then <[Z.to_nat i := n{{ lastPoll := clock w }}]> (nodes (rf w))
           else nodes (rf w)) w.
Proof.
  intros Hb Hi Hn Hl Hcb Ha Hw. unfold check_node, get_node. rewrite !wp_bind, wp_rget.
  assert (Hil : 0 <= i < Z.of_nat (length (nodes (rf w))))
    by (apply lookup_lt_Some in Hn; lia).
  eapply wp_aget; [lia|exact Hn|]. unfold node_listed in Hl. rewrite Hl.
  rewrite wp_bind. apply wp_time_get_at; [done|]. intros b' Hb' Hw' _.
  destruct (rf_cb (rf w)) as [c|] eqn:Ec; [|done]. simpl in Hcb.
  destruct (Z.ltb_spec 0 (aliveTime n)); [|lia]. cbn [andb].
  unfold RF_NODE_ALIVE_TIME in *. unfold u32 at 1. rewrite Z.mod_small by lia.
  destruct (Z.ltb_spec (aliveTime n + 3000) (clock w)).
  - rewrite wp_bind, wp_rlog, wp_bind. eapply wp_has_cb_eq; [simpl; exact Ec|].
    rewrite wp_bind, wp_when_upcall, Hcb. eapply wp_set_node; simpl; [lia|exact Hn|].
    done.
  - unfold RF_NODE_POLL_TIME. destruct (_ <? _).
    + rewrite wp_bind. eapply wp_set_node; simpl; [lia|exact Hn|].
      rewrite wp_ignore. apply wp_send; [done|simpl; lia|].
      intros e w' [_ Hrf] Hu _. by rewrite Hrf, Hu.
    + rewrite wp_ret. done.
Qed.

(** ** Roles *)

(** What a coordinator must not let a peer change. *)
Definition inert (w w' : rworld) : Prop :=
  ports (brd (rx w')) = ports (brd (rx w)) /\
  subscribers (rf w') = subscribers (rf w) /\
  subNumRegistered (rf w') = subNumRegistered (rf w).

#[export] Instance inert_preorder : PreOrder inert.
Proof.
  split; unfold inert; [done|]. intros x y z (? & ? & ?) (? & ? & ?).
  split_and!; congruence.
Qed.

Definition same_ports (x x' : xworld) : Prop := ports (brd x') = ports (brd x).
#[export] Instance same_ports_preorder : PreOrder same_ports.
Proof. split; unfold same_ports; congruence. Qed.

Lemma keeps_ports_xb {A} (m : M xbee_st A) : keeps same_ports (zoom m : M xworld A).
Proof.
  intros x a x'. unfold zoom. simpl. destruct (m (xb x)) as [[? ?]|]; [|done].
  by intros [= _ <-].
Qed.

Lemma keeps_ports_uart bs : keeps same_ports (zoom (rf_uart_send bs) : M xworld Z).
Proof.
  intros x a x'. unfold zoom, rf_uart_send, zoom. simpl.
  destruct (UART_Send bs (uart1 (brd x))) as [[? ?]|]; [|done]. by intros [= _ <-].
Qed.

Lemma keeps_ports_checksum buf n : keeps same_ports (checksum buf n).
Proof. unfold checksum. keeps. Qed.
#[export] Hint Resolve keeps_ports_xb keeps_ports_uart keeps_ports_checksum : keeps.

Lemma keeps_inert_send hi lo buf : keeps inert (send hi lo buf).
Proof.
  assert (K : keeps same_ports (xbee_send hi lo buf (Z.of_nat (length buf)))).
  { unfold xbee_send, apiTx64. keeps. }
  unfold send. keeps. intros w a w'. unfold zoom. simpl.
  destruct (xbee_send _ _ _ _ (rx w)) as [[? x']|] eqn:E; [|done].
  intros [= _ <-]. apply K in E. unfold inert, same_ports in *. done.
Qed.

Lemma keeps_inert_rget {A} (f : rfpt_st -> A) : keeps inert (rget f).
Proof. apply keeps_pure; [exact _|]. intros w w' a. destruct w. by intros [= _ <-]. Qed.

Lemma keeps_inert_nodes (f : rfpt_st -> list node_t) :
  keeps inert (rst (fun s => s{{ nodes := f s }})).
Proof. intros w a w'. by intros [= _ <-]. Qed.

Lemma keeps_inert_time : keeps inert (on_board time_get).
Proof.
  intros w a w'. unfold on_board, zoom. simpl.
  destruct (time_get (brd (rx w))) as [[t b']|] eqn:E; [|done]. intros [= _ <-].
  apply keeps_time_get in E as (E & _). done.
Qed.

Lemma keeps_inert_rlog fmt args : keeps inert (rlog fmt args).
Proof. intros w a w'. by intros [= _ <-]. Qed.

Lemma keeps_inert_upcall e : keeps inert (upcall e).
Proof. intros w a w'. by intros [= _ <-]. Qed.

#[export] Hint Resolve keeps_inert_send keeps_inert_rget keeps_inert_nodes keeps_inert_time
  keeps_inert_rlog keeps_inert_upcall : keeps.

Lemma keeps_inert_set_node i f : keeps inert (set_node i f).
Proof. unfold set_node. keeps. Qed.

Lemma keeps_inert_get_node i : keeps inert (get_node i).
Proof. unfold get_node. keeps. Qed.

Lemma keeps_inert_has_cb f : keeps inert (has_cb f).
Proof. unfold has_cb. keeps. Qed.

Lemma keeps_inert_find_node hi lo : keeps inert (find_node hi lo).
Proof. unfold find_node. keeps. Qed.

#[export] Hint Resolve keeps_inert_set_node keeps_inert_get_node keeps_inert_has_cb
  keeps_inert_find_node : keeps.

(** A peer cannot drive the LEDs of a coordinator, nor make it a publisher of
    values: no received message changes its pins or its subscription table. *)
Theorem coordinator_not_served hi lo rssi buf len w w' :
  rf_isCoordinator (rf w) = true ->
  xbeeData hi lo rssi buf len w = Ok (tt, w') ->
  ports (brd (rx w')) = ports (brd (rx w)) /\
  subscribers (rf w') = subscribers (rf w) /\
  subNumRegistered (rf w') = subNumRegistered (rf w).
Proof.
  intros Hc. change (xbeeData hi lo rssi buf len w = Ok (tt, w') -> inert w w').
  unfold xbeeData. destruct (len <? 1); [by intros [= <-]|].
  unfold mbind at 1 2, M_bind at 1 2.
  destruct (aget buf 0 w) as [[b0 w1]|] eqn:E0; [|done].
  assert (w1 = w) as -> by
    (revert E0; unfold aget; destruct (_ <? _); [done|]; destruct (_ !! _); by intros [= _ <-]).
  assert (Eg : rget rf_isCoordinator w = Ok (true, w)) by (destruct w; simpl in *; by rewrite <- Hc).
  rewrite Eg. cbn zeta. cbn [negb when].
  assert (K : forall m : M rworld unit, keeps inert m -> m w = Ok (tt, w') -> inert w w')
    by (intros m Hm E; by apply Hm in E).
  repeat match goal with |- (if ?c then _ else _) _ = _ -> _ => destruct c end; apply K.
  all: unfold handleSubscribeResponse, handleValueUpdate, handlePollResponse,
    handlePublish, sendPollResponse, ignore; keeps.
Qed.

(** ** Subscriptions *)

(** A device that can send: the module is up and the transmitter ready. *)
Definition can_send (w : rworld) : Prop :=
  initialized (xb (rx w)) = true /\ uart_ready (uart1 (brd (rx w))).

Definition sent_frame (hi lo : Z) (data : list Z) (w : rworld) : list Z :=
  let p := tx64_payload (next_frame_id (rfFrameId (xb (rx w)))) hi lo data in
  frame_bytes p (cksum p).

Lemma send_ready hi lo buf w :
  can_send w -> Z.of_nat (length buf) <= 20 ->
  exists x', send hi lo buf w = Ok (ERR_OK, w{{ rx := x' }}) /\
    thr (uart1 (brd x')) = thr (uart1 (brd (rx w))) ++ sent_frame hi lo buf w.
Proof.
  intros [Hi Hu] Hl. pose proof (apiTx64_sends hi lo buf (rx w) Hu) as Hs.
  destruct (Z.ltb_spec 20 (Z.of_nat (length buf))); [lia|].
  destruct Hs as (x' & E & Ht & _). exists x'. split; [|done].
  unfold send, xbee_send, zoom, mbind, M_bind, gets. simpl. rewrite Hi. cbn [negb].
  rewrite xworld_eta, E. done.
Qed.

Lemma btn_get_run w : exists c, on_board btn_get w = Ok (c, w) /\ 0 <= c < 4.
Proof.
  destruct w as [[b x] s u]. unfold on_board, zoom, btn_get, GPIO_ReadValue, gets.
  unfold mbind, M_bind, mret, M_ret. simpl.
  destruct (_ =? 0), (_ =? 0); eexists; (split; [reflexivity|]); vm_compute; split; congruence.
Qed.

(** A subscription to the button takes the first free entry and is confirmed to
    the subscriber with its number; unsubscribing with that number frees the
    entry, so that as many subscriptions remain as before. *)
Theorem subscribe_unsubscribe hi lo action v tl w :
  rworld_ok w -> counted (rf w) -> addr_used hi lo -> can_send w -> v = 0 \/ v = 1 ->
  (forall s, s ∈ subscribers (rf w) -> sub_is hi lo action RFPT_MSG_DEV_BTN v s = false) ->
  let i := find_idx sub_free (subscribers (rf w)) in
  (i < RF_MAX_SUBS)%nat ->
  exists c w1 w2,
    handleSubscribe hi lo action (RFPT_MSG_DEV_BTN :: v :: tl) 2 w = Ok (tt, w1) /\
    subscribers (rf w1) =
      <[i := mk_sub hi lo RFPT_MSG_DEV_BTN action v c]> (subscribers (rf w)) /\
    thr (uart1 (brd (rx w1))) = thr (uart1 (brd (rx w))) ++
      sent_frame hi lo [0xF3; Z.of_nat i + 1] w /\
    handleUnsubscribe hi lo (Z.of_nat i + 1) w1 = Ok (tt, w2) /\
    map sub_free (subscribers (rf w2)) = map sub_free (subscribers (rf w)) /\
    subNumRegistered (rf w2) = subNumRegistered (rf w).
Proof.
  intros Hw Hn Ha Hc Hv Hnew i Hi. pose proof Hw as (_ & _ & Hl & _). unfold subs_ok, counted in *.
  destruct (find_idx_lt sub_free (subscribers (rf w))) as (old & Ho & Hf); [fold i; lia|].
  fold i in Ho. destruct (btn_get_run w) as (c & Ec & _).
  assert (Hu : u32 v = v) by (unfold u32; lia).
  set (sb := mk_sub hi lo RFPT_MSG_DEV_BTN action v c).
  set (w0 := subscribed i sb w).
  destruct (send_ready hi lo [0xF3; Z.of_nat i + 1] w0) as (x' & Es & Ht); [done|simpl; lia|].
  exists c, (w0{{ rx := x' }}).
  assert (E1 : wp (handleSubscribe hi lo action (RFPT_MSG_DEV_BTN :: v :: tl) 2)
    (fun _ w' => w' = w0{{ rx := x' }}) w).
  { unfold handleSubscribe. change (2 <? 2) with false. cbn iota. rewrite wp_bind.
    unfold parse_sub. rewrite wp_bind. eapply wp_aget; [lia|reflexivity|].
    change (RFPT_MSG_DEV_BTN =? RFPT_MSG_DEV_TEMP) with false. rewrite Z.eqb_refl.
    rewrite wp_bind. eapply wp_aget; [lia|reflexivity|].
    replace ((v =? 0) || (v =? 1)) with true by (destruct Hv as [-> | ->]; done).
    rewrite wp_bind. eapply wp_exact; [exact Ec|]. rewrite wp_ret.
    change (RFPT_MSG_DEV_BTN =? 0) with false. cbn iota.
    rewrite wp_bind. apply wp_subscriptionExists. cbn zeta. rewrite Hu.
    rewrite (proj2 (find_idx_none _ _) Hnew), Nat.ltb_irrefl. cbn [negb Z.eqb].
    rewrite wp_bind, wp_rget. fold i. cbn zeta.
    destruct (Nat.ltb_spec i RF_MAX_SUBS); [|lia].
    rewrite wp_bind. eapply wp_set_sub; [lia|by rewrite Nat2Z.id|]. rewrite Nat2Z.id.
    rewrite wp_bind, wp_rst, wp_ignore. eapply wp_exact; [exact Es|]. done. }
  apply wp_run in E1 as ([] & w1 & E1 & ->).
  assert (E2 : wp (handleUnsubscribe hi lo (Z.of_nat i + 1)) (fun _ w' =>
    map sub_free (subscribers (rf w')) = map sub_free (subscribers (rf w)) /\
    subNumRegistered (rf w') = subNumRegistered (rf w)) (w0{{ rx := x' }})).
  { unfold handleUnsubscribe. destruct (Z.eqb_spec (Z.of_nat i + 1) 0); [lia|]. cbn zeta.
    destruct (Z.leb_spec (Z.of_nat RF_MAX_SUBS) (Z.of_nat i + 1 - 1)); [lia|].
    replace (Z.of_nat i + 1 - 1) with (Z.of_nat i) by lia.
    assert (Hi0 : (i < length (subscribers (rf w)))%nat) by lia.
    unfold get_sub. rewrite !wp_bind, wp_rget.
    eapply wp_aget; [lia|rewrite Nat2Z.id; by apply list_lookup_insert_eq|].
    simpl s_addrHi. simpl s_addrLo. rewrite !Z.eqb_refl. cbn [andb].
    rewrite wp_bind, wp_rst. eapply wp_set_sub; simpl.
    - rewrite length_insert. lia.
    - rewrite Nat2Z.id. by apply list_lookup_insert_eq.
    - rewrite Nat2Z.id, list_insert_insert_eq, list_fmap_insert. split.
      + apply list_insert_id. rewrite list_lookup_fmap, Ho. simpl. by rewrite Hf.
      + pose proof (sub_count_bounds (subscribers (rf w))) as Hbd.
        rewrite Hl in Hbd. unfold RF_MAX_SUBS in Hbd. unfold u8. lia. }
  apply wp_run in E2 as ([] & w2 & E2 & H2 & H3). exists w2.
  split_and!; done.
Qed.

(** A subscription request made on one node is what the other node's receiver
    decodes: same peripheral, same action, same value bytes. *)
Theorem subscribe_request_decodes nodeId periph subAct val tl hi lo rssi w wd n :
  (1 <= nodeId <= 10) -> nodes (rf w) !! Z.to_nat (nodeId - 1) = Some n ->
  RFPT_MSG_DEV_TEMP <= periph <= RFPT_MSG_DEV_LED ->
  subAct = RFPT_MSG_SUB_GTE \/ subAct = RFPT_MSG_SUB_LTE \/ subAct = RFPT_MSG_SUB_DIF ->
  Z.of_nat (length val) <= 4 -> rf_isCoordinator (rf wd) = false ->
  exists msg,
    rf_subscribe nodeId periph subAct val (Z.of_nat (length val)) w =
      send (n_addrHi n) (n_addrLo n) msg w /\
    xbeeData hi lo rssi (msg ++ tl) (Z.of_nat (length msg)) wd =
      handleSubscribe hi lo subAct (periph :: val ++ tl) (1 + Z.of_nat (length val)) wd.
Proof.
  intros Hid Hn Hp Ha Hl Hc. exists (Z.lor RFPT_MSG_SUB subAct :: periph :: val). split.
  - unfold rf_subscribe.
    destruct (Z.ltb_spec periph RFPT_MSG_DEV_TEMP), (Z.ltb_spec RFPT_MSG_DEV_LED periph);
      try lia. cbn [orb].
    replace ((subAct <? RFPT_MSG_SUB_GTE) || (RFPT_MSG_SUB_DIF <? subAct)) with false
      by (destruct Ha as [-> | [-> | ->]]; done).
    destruct (Z.ltb_spec 4 (Z.of_nat (length val))); [lia|].
    unfold guard. rewrite Z.leb_refl. unfold mbind, M_bind, mret, M_ret.
    unfold getAddress. destruct (Z.ltb_spec 0 nodeId); [|lia].
    change (Z.of_nat RF_MAX_NODES) with 10. destruct (Z.leb_spec nodeId 10); [|lia].
    cbn [andb]. unfold get_node, mbind, M_bind, mret, M_ret.
    assert (Eg : rget nodes w = Ok (nodes (rf w), w)) by (by destruct w).
    rewrite Eg. erewrite aget_ok; [|lia|exact Hn]. cbn [fst snd].
    by rewrite Nat2Z.id, firstn_all.
  - unfold xbeeData. destruct (Z.ltb_spec (Z.of_nat (length (Z.lor RFPT_MSG_SUB subAct :: periph :: val))) 1);
      [simpl in *; lia|].
    unfold mbind, M_bind. erewrite (aget_ok _ 0); [|lia|reflexivity].
    assert (Eg : rget rf_isCoordinator wd = Ok (false, wd)) by (destruct wd; simpl in *; by rewrite <- Hc).
    rewrite Eg. cbn zeta. cbn [negb when drop app].
    replace (Z.of_nat (length (Z.lor RFPT_MSG_SUB subAct :: periph :: val)) - 1)
      with (1 + Z.of_nat (length val)) by (simpl; lia).
    destruct Ha as [-> | [-> | ->]]; reflexivity.
Qed.

(** *** Notifications *)

Lemma rget_run {A} (f : rfpt_st -> A) w : rget f w = Ok (f (rf w), w).
Proof. by destruct w. Qed.

Lemma trimpot_run dr rest w :
  adc (brd (rx w)) = dr :: rest ->
  on_board trimpot_get w = Ok (u16 (ADC_DR_RESULT dr),
    w{{ rx := (rx w){{ brd := (brd (rx w)){{ adc := rest }} }} }}).
Proof. intros Ha. unfold on_board, zoom, trimpot_get. simpl. by rewrite Ha. Qed.

Definition temp_msg (v : Z) : list Z := [0x15; Z.land (Z.shiftr v 8) 0xff; Z.land v 0xff].

(** A temperature subscription, at each pass of the task: one conversion decides
    whether the subscriber is due, and a second one is the value it is sent. *)
Theorem notify_temp i read0 s dr1 dr2 rest w :
  0 <= i -> subscribers (rf w) !! Z.to_nat i = Some s ->
  s_addrHi s <> 0 -> s_addrLo s <> 0 -> periphId s = RFPT_MSG_DEV_TEMP ->
  adc (brd (rx w)) = dr1 :: dr2 :: rest -> can_send w ->
  let v1 := u16 (ADC_DR_RESULT dr1) in
  let v2 := u16 (ADC_DR_RESULT dr2) in
  let '(due, keep) := sub_due (act s) (last s) (value s) v1 in
  exists w', notify_sub read0 i w = Ok (v1, w') /\
    thr (uart1 (brd (rx w'))) = thr (uart1 (brd (rx w))) ++
      (if due then sent_frame (s_addrHi s) (s_addrLo s) (temp_msg v2) w else []) /\
    subscribers (rf w') =
      if keep then <[Z.to_nat i := s{{ last := v1 }}]> (subscribers (rf w))
      else subscribers (rf w).
Proof.
  intros Hi Hs Hhi Hlo Hp Ha Hc v1 v2.
  destruct (sub_due (act s) (last s) (value s) v1) as [due keep] eqn:Ed.
  apply Z.eqb_neq in Hhi, Hlo.
  set (w1 := w{{ rx := (rx w){{ brd := (brd (rx w)){{ adc := dr2 :: rest }} }} }}).
  assert (Hlt : 0 <= i < Z.of_nat (length (subscribers (rf w))))
    by (apply lookup_lt_Some in Hs; lia).
  assert (G : wp (notify_sub read0 i) (fun r w' => r = v1 /\
    thr (uart1 (brd (rx w'))) = thr (uart1 (brd (rx w))) ++
      (if due then sent_frame (s_addrHi s) (s_addrLo s) (temp_msg v2) w else []) /\
    subscribers (rf w') =
      if keep then <[Z.to_nat i := s{{ last := v1 }}]> (subscribers (rf w))
      else subscribers (rf w)) w).
  { unfold notify_sub, get_sub. rewrite !wp_bind, wp_rget. eapply wp_aget; [lia|exact Hs|].
    rewrite Hhi, Hlo, Hp, Z.eqb_refl. cbn [negb andb]. rewrite wp_bind.
    eapply wp_exact; [by apply trimpot_run|]. fold w1 v1. rewrite Ed, wp_bind.
    set (w2 := if keep then w1{{ rf := (rf w1){{ subscribers :=
      <[Z.to_nat i := s{{ last := v1 }}]> (subscribers (rf w1)) }} }} else w1).
    assert (H2 : wp (when keep (set_sub i (fun s => s{{ last := v1 }}))) (fun _ w' => w' = w2) w1).
    { unfold w2. destruct keep; [|done]. eapply wp_set_sub; [exact Hlt|exact Hs|done]. }
    eapply wp_mono; [exact H2|]. intros [] w' ->. rewrite wp_bind.
    assert (Hsub : subscribers (rf w2) = if keep then <[Z.to_nat i := s{{ last := v1 }}]>
      (subscribers (rf w)) else subscribers (rf w)) by (unfold w2; by destruct keep).
    assert (Hx : rx w2 = rx w1) by (unfold w2; by destruct keep).
    destruct due.
    - cbn [when]. rewrite wp_ignore. unfold sendTemperature. rewrite wp_bind.
      eapply wp_exact; [apply (trimpot_run dr2 rest); by rewrite Hx|]. fold v2.
      set (w3 := w2{{ rx := (rx w2){{ brd := (brd (rx w2)){{ adc := rest }} }} }}).
      assert (Hc3 : can_send w3) by (unfold can_send, w3; simpl; by rewrite Hx).
      destruct (send_ready (s_addrHi s) (s_addrLo s) (temp_msg v2) w3 Hc3)
        as (x' & E & Ht); [simpl; lia|].
      eapply wp_exact; [exact E|]. rewrite wp_ret. split_and!; [done| |done].
      simpl. rewrite Ht. unfold w3, sent_frame. simpl. by rewrite Hx.
    - cbn [when]. rewrite !wp_ret. rewrite Hx, app_nil_r. split_and!; done. }
  apply wp_run in G as (r & w' & E & -> & ? & ?). by exists w'.
Qed.

(** The notifications of one subscription over a run of readings. *)
Fixpoint due_run (action value last : Z) (reads : list Z) : list bool :=
  match reads with
  | [] => []
  | r :: rs =>
      let '(due, keep) := sub_due action last value r in
      due :: due_run action value (if keep then r else last) rs
  end.

Lemma due_run_gte value last reads j r :
  reads !! j = Some r ->
  due_run RFPT_MSG_SUB_GTE value last reads !! j =
    Some ((match j with O => last | S k => default 0 (reads !! k) end <? value) && (value <=? r)).
Proof.
  revert last j. induction reads as [|r0 rs IH]; intros last j; [done|].
  destruct j as [|j]; simpl; [by intros [= ->]|]. intros Hr. rewrite (IH r0 j Hr).
  by destruct j.
Qed.

(** A subscription on "greater than or equal" reports crossings, not levels:
    between two notifications the value was read below the threshold. *)
Theorem gte_reports_crossings value last reads i j :
  (i < j)%nat ->
  due_run RFPT_MSG_SUB_GTE value last reads !! i = Some true ->
  due_run RFPT_MSG_SUB_GTE value last reads !! j = Some true ->
  exists k r, (i < k < j)%nat /\ reads !! k = Some r /\ r < value.
Proof.
  intros Hij Hi Hj.
  assert (Hlen : forall a l rs, length (due_run RFPT_MSG_SUB_GTE a l rs) = length rs).
  { intros a l rs. revert l. induction rs as [|r0 rs IH]; intros l; simpl; [done|]. by rewrite IH. }
  destruct (lookup_lt_is_Some_2 reads j) as [rj Hrj];
    [rewrite <- (Hlen value last); by eapply lookup_lt_Some|].
  destruct (lookup_lt_is_Some_2 reads i) as [ri Hri];
    [rewrite <- (Hlen value last); by eapply lookup_lt_Some|].
  rewrite (due_run_gte _ _ _ _ _ Hrj) in Hj. rewrite (due_run_gte _ _ _ _ _ Hri) in Hi.
  destruct j as [|k]; [lia|].
  destruct (lookup_lt_is_Some_2 reads k) as [rk Hrk]; [apply lookup_lt_Some in Hrj; lia|].
  rewrite Hrk in Hj. simpl in Hj. injection Hi as Hi. injection Hj as Hj.
  apply andb_true_iff in Hi as [_ Hi%Z.leb_le], Hj as [Hj%Z.ltb_lt _].
  exists k, rk. split_and!; [|lia|done|done].
  destruct (decide (i = k)) as [->|]; [|lia]. rewrite Hri in Hrk. injection Hrk as ->. lia.
Qed.

(** The value a subscriber on differences knows after a run of readings: the
    last one it was sent, [last] at first. *)
Fixpoint dif_known (value last : Z) (reads : list Z) : Z :=
  match reads with
  | [] => last
  | r :: rs =>
      let '(due, keep) := sub_due RFPT_MSG_SUB_DIF last value r in
      dif_known value (if keep then r else last) rs
  end.

(** A subscription on differences never lets the reading drift from the value
    that was last sent by more than the threshold. *)
Theorem dif_bounds_drift value last reads r :
  0 <= value -> word_ok last -> Forall word_ok (reads ++ [r]) ->
  let known := dif_known value last (reads ++ [r]) in
  Z.abs (r - known) <= value /\ (known = last \/ known ∈ reads ++ [r]).
Proof.
  intros Hv. revert last. induction reads as [|r0 rs IH]; intros last Hl Hf; cbn [dif_known app] in *.
  - apply Forall_cons in Hf as [Hr _]. unfold sub_due, word_ok, u32 in *. simpl.
    destruct (Z.ltb_spec r last), (Z.ltb_spec last r); cbn [andb orb]; try lia.
    + destruct (Z.ltb_spec value ((last - r) mod 4294967296)); cbn [orb]; (split; [lia|]);
        first [by left|right; by left].
    + destruct (Z.ltb_spec value ((r - last) mod 4294967296)); (split; [lia|]);
        first [by left|right; by left].
  - apply Forall_cons in Hf as [Hr Hf].
    destruct (sub_due RFPT_MSG_SUB_DIF last value r0) as [due keep].
    destruct (IH (if keep then r0 else last)) as [H1 H2]; [by destruct keep|done|].
    split; [done|]. destruct H2 as [-> |H2]; [|right; by right].
    destruct keep; [right; by left|by left].
Qed.

(** A change by exactly the threshold is not reported. *)
Theorem dif_excludes_threshold value last :
  word_ok last -> word_ok (last + value) -> 0 <= value ->
  sub_due RFPT_MSG_SUB_DIF last value (last + value) = (false, false).
Proof.
  unfold sub_due, word_ok, u32. simpl. intros Hl Hv H0.
  destruct (Z.ltb_spec (last + value) last); [lia|]. cbn [andb orb].
  replace (last + value - last) with value by lia. rewrite Z.mod_small by lia.
  rewrite Z.ltb_irrefl, andb_false_r. done.
Qed.

(** ** The message at the protocol *)

#[export] Instance lens_rx_laws : LensLaws xworld rworld.
Proof. split; intros; by repeat match goal with w : rworld |- _ => destruct w end. Qed.

Lemma xbeeData_publish hi lo rssi buf len w :
  rf_isCoordinator (rf w) = true -> 1 <= len < 256 ->
  xbeeData hi lo rssi (RFPT_MSG_PUBLISH :: buf) len w = handlePublish hi lo buf (len - 1) w.
Proof.
  intros Hc Hl. unfold xbeeData. destruct (Z.ltb_spec len 1); [lia|].
  unfold mbind, M_bind. erewrite (aget_ok _ 0); [|lia|reflexivity]. rewrite rget_run, Hc.
  cbn zeta. cbn [negb when drop].
  replace (u8 (len - 1)) with (len - 1) by (unfold u8; lia). reflexivity.
Qed.

(** ** The properties at concrete inputs *)

Definition rf_world (coord : bool) : rworld := mk_rworld
  (mk_xworld (board_reset []) (xbee_reset{{ _cb := true; initialized := true }}))
  (rfpt_reset{{ rf_isCoordinator := coord; rf_cb := Some (mk_rfpt_callb true true true true) }})
  [].

Lemma reset_brd_ok coord : brd_ok (rf_world coord).
Proof.
  unfold brd_ok, board_ok, rxq_wf, word_ok.
  split_and!; vm_compute; try reflexivity; discriminate.
Qed.

Lemma reset_nodes_ok : nodes_ok (nodes rfpt_reset).
Proof.
  split_and!; [reflexivity| |].
  - cbn [nodes rfpt_reset]. apply Forall_replicate. split; [reflexivity|simpl; lia].
  - intros i j n m Hi _ Hu. cbn [nodes rfpt_reset] in Hi. apply lookup_replicate_1 in Hi as [-> _].
    exfalso. apply Hu. done.
Qed.

Lemma rf_world_ok coord : rworld_ok (rf_world coord).
Proof.
  split; [apply reset_brd_ok|]. split_and!; [apply reset_nodes_ok|reflexivity|done].
Qed.

Lemma nobody_known hi lo coord : hi <> 0 -> ~ known hi lo (nodes (rf (rf_world coord))).
Proof.
  intros Hhi. rewrite known_iff. intros (j & m & Hj & E & _).
  change (nodes (rf (rf_world coord))) with (nodes rfpt_reset) in Hj. unfold rfpt_reset in Hj.
  cbn [nodes] in Hj. apply lookup_replicate_1 in Hj as [-> _]. simpl in E. lia.
Qed.

Lemma xbeeData_safe_witness :
  wp (xbeeData 1 2 40 [RFPT_MSG_PUBLISH; 0x10; 0x30; 0xAA] 3) (fun _ w' => rworld_ok w' /\
    rf_isCoordinator (rf w') = true /\ rf_cb (rf w') <> None /\ counted (rf w')) (rf_world true).
Proof.
  eapply wp_mono.
  - apply (xbeeData_safe 1 2 40 [RFPT_MSG_PUBLISH; 0x10; 0x30; 0xAA] 3 (rf_world true)
      (rf_world_ok true)).
    + repeat constructor; vm_compute; discriminate.
    + lia.
    + simpl. lia.
    + simpl. lia.
  - intros [] w' (H1 & H2 & H3 & H4). rewrite H2, H3. split_and!; try done.
    apply H4; [unfold addr_used; lia|reflexivity].
Defined.

Lemma publish_then_query_witness : exists w',
  handlePublish 1 2 [0x10; 0x30; 0xAA] 2 (rf_world true) = Ok (tt, w') /\
  rf_getNodeCaps 1 (Some (replicate 12 0)) 5 true w' = Ok ((ERR_OK, [0x10; 0x30]), w').
Proof.
  destruct (publish_then_query 1 2 [0x10; 0x30; 0xAA] 2
    (mk_node 0 0 0 0 (replicate 12 0) 0) (rf_world true) (replicate 12 0) 5)
    as (w' & E & _ & E2); try (simpl; unfold RF_MAX_NODES; lia); try reflexivity.
  - apply reset_brd_ok.
  - discriminate.
  - apply nobody_known. lia.
  - exists w'. split; [exact E|exact E2].
Defined.

(** The world with one registered node. *)
Definition with_node (n : node_t) : rworld :=
  (rf_world true){{ rf := (rf (rf_world true)){{ nodes :=
    <[0%nat := n]> (nodes (rf (rf_world true))) }} }}.

Lemma half_zero_never_expires_witness :
  let n := mk_node 0 7 1 0 (replicate 12 0) 0 in
  check_node 0 (with_node n) = Ok (tt, with_node n) /\ node_free n = false /\
  node_listed n = false.
Proof.
  apply (half_zero_never_expires 0 (with_node (mk_node 0 7 1 0 (replicate 12 0) 0))
    (mk_node 0 7 1 0 (replicate 12 0) 0)).
  - unfold RF_MAX_NODES. lia.
  - reflexivity.
  - left. simpl. lia.
Defined.

Definition late : rworld :=
  let w := with_node (mk_node 3 7 1 0 (replicate 12 0) 0) in
  w{{ rx := (rx w){{ brd := (brd (rx w)){{ timeMs := 3002 }} }} }}.

Lemma check_node_expiry_witness :
  wp (check_node 0) (fun _ w' => upcalls w' = [nodeDetached 1]) late.
Proof.
  eapply wp_mono.
  - apply (check_node_expiry 0 late (mk_node 3 7 1 0 (replicate 12 0) 0)).
    + unfold brd_ok, board_ok, rxq_wf, word_ok.
      split_and!; vm_compute; try reflexivity; discriminate.
    + unfold RF_MAX_NODES. lia.
    + reflexivity.
    + reflexivity.
    + reflexivity.
    + simpl. lia.
    + unfold RF_NODE_ALIVE_TIME. simpl. lia.
  - intros [] w' H. exact (proj1 H).
Defined.

Lemma coordinator_not_served_witness : exists w',
  xbeeData 1 2 40 [0x42; 7; 1; 0] 3 (rf_world true) = Ok (tt, w') /\
  ports (brd (rx w')) = ports (brd (rx (rf_world true))).
Proof.
  exists (rf_world true). split; [reflexivity|].
  apply (coordinator_not_served 1 2 40 [0x42; 7; 1; 0] 3 (rf_world true) (rf_world true));
    reflexivity.
Defined.

Lemma subscribe_unsubscribe_witness : exists c w1 w2,
  handleSubscribe 1 2 RFPT_MSG_SUB_GTE [RFPT_MSG_DEV_BTN; 1; 0] 2 (rf_world false) = Ok (tt, w1) /\
  subscribers (rf w1) !! 0%nat = Some (mk_sub 1 2 RFPT_MSG_DEV_BTN RFPT_MSG_SUB_GTE 1 c) /\
  handleUnsubscribe 1 2 1 w1 = Ok (tt, w2) /\ subNumRegistered (rf w2) = 0.
Proof.
  destruct (subscribe_unsubscribe 1 2 RFPT_MSG_SUB_GTE 1 [0] (rf_world false))
    as (c & w1 & w2 & E1 & Es & _ & E2 & _ & En).
  - apply rf_world_ok.
  - reflexivity.
  - unfold addr_used. lia.
  - split; [reflexivity|constructor].
  - by right.
  - intros s Hs. change (subscribers (rf (rf_world false))) with (subscribers rfpt_reset) in Hs.
    unfold rfpt_reset in Hs. cbn [subscribers] in Hs. apply elem_of_replicate in Hs as [-> _]. reflexivity.
  - vm_compute. lia.
  - exists c, w1, w2. rewrite Es, En. split; [exact E1|]. split; [reflexivity|].
    split; [exact E2|reflexivity].
Defined.

Lemma subscribe_request_decodes_witness : exists msg,
  rf_subscribe 1 RFPT_MSG_DEV_TEMP RFPT_MSG_SUB_LTE [0; 20] 2
    (with_node (mk_node 3 7 1 0 (replicate 12 0) 0)) =
  send 3 7 msg (with_node (mk_node 3 7 1 0 (replicate 12 0) 0)) /\
  xbeeData 8 9 40 (msg ++ [0]) (Z.of_nat (length msg)) (rf_world false) =
  handleSubscribe 8 9 RFPT_MSG_SUB_LTE [RFPT_MSG_DEV_TEMP; 0; 20; 0] 3 (rf_world false).
Proof.
  apply (subscribe_request_decodes 1 RFPT_MSG_DEV_TEMP RFPT_MSG_SUB_LTE [0; 20] [0] 8 9 40
    (with_node (mk_node 3 7 1 0 (replicate 12 0) 0)) (rf_world false)
    (mk_node 3 7 1 0 (replicate 12 0) 0)).
  - lia.
  - reflexivity.
  - unfold RFPT_MSG_DEV_TEMP, RFPT_MSG_DEV_LED. lia.
  - right. left. reflexivity.
  - simpl. lia.
  - reflexivity.
Defined.

(** A device with one temperature subscription and two conversions to come. *)
Definition measuring : rworld :=
  let w := rf_world false in
  w{{ rx := (rx w){{ brd := (brd (rx w)){{ adc := [0x500; 0x600] }} }};
      rf := (rf w){{ subscribers := <[0%nat := mk_sub 3 7 RFPT_MSG_DEV_TEMP RFPT_MSG_SUB_GTE 0x50 0]>
        (subscribers (rf w)) }} }}.

Lemma notify_temp_witness : exists w',
  notify_sub 0 0 measuring = Ok (0x50, w') /\
  thr (uart1 (brd (rx w'))) = sent_frame 3 7 (temp_msg 0x60) measuring.
Proof.
  assert (Hc : can_send measuring) by (split; [reflexivity|constructor]).
  pose proof (notify_temp 0 0 (mk_sub 3 7 RFPT_MSG_DEV_TEMP RFPT_MSG_SUB_GTE 0x50 0)
    0x500 0x600 [] measuring ltac:(lia) ltac:(reflexivity) ltac:(simpl; lia)
    ltac:(simpl; lia) ltac:(reflexivity) ltac:(reflexivity) Hc) as H.
  destruct H as (w' & E & Ht & _). exists w'. split; [exact E|exact Ht].
Defined.

Lemma gte_reports_crossings_witness : exists k r,
  (1 < k < 4)%nat /\ [10; 30; 30; 5; 40] !! k = Some r /\ r < 20.
Proof.
  apply (gte_reports_crossings 20 0 [10; 30; 30; 5; 40] 1 4);
    [lia|reflexivity|reflexivity].
Defined.

Lemma dif_bounds_drift_witness :
  let known := dif_known 10 100 ([105; 111] ++ [120]) in
  Z.abs (120 - known) <= 10 /\ (known = 100 \/ known ∈ [105; 111] ++ [120]).
Proof.
  apply (dif_bounds_drift 10 100 [105; 111] 120);
    [lia|unfold word_ok; lia|repeat constructor; vm_compute; discriminate].
Defined.

Lemma dif_excludes_threshold_witness :
  sub_due RFPT_MSG_SUB_DIF 10 100 (100 + 10) = (false, false).
Proof. apply (dif_excludes_threshold 10 100); unfold word_ok; lia. Defined.
