(* ===== verification/RfptLink.v ===== *)
(** * From the wire to the application

    The coordinator's way of a message, whole: the UART interrupt puts the bytes
    into the receive queue (board.c), [xbee_task] takes them out one at a time
    and assembles the frame (xbee.c), and the protocol registers the node and
    calls the application (rfpt.c).  Interrupts and turns of the main loop come
    in any order. *)

From S2P Require Import Prelude Ring Board BoardFacts Xbee XbeeFacts Rfpt RfptFacts.

(** ** What happens *)

(** UART1 interrupts with bytes it received, or the main loop calls [xbee_task]. *)
Inductive event : Type :=
| Arrive (bs : list Z)
| Turn.

Definition happen (e : event) : M rworld unit :=
  match e with
  | Arrive bs => on_board (UART1_IRQHandler bs)
  | Turn => xbee_task callbacks
  end.

Definition play (evs : list event) : M rworld unit := foreach evs happen.

(** The bytes of the interrupts, in order. *)
Definition arrived (evs : list event) : list Z :=
  concat (map (fun e => match e with Arrive bs => bs | Turn => [] end) evs).

(** Between messages: nothing in the UART or its queue, no frame begun. *)
Definition idle (x : xworld) : Prop :=
  between_frames x /\ _cb (xb x) = true /\ rfFrameTimer (xb x) = 0 /\
  rxq_inv (rxq_s (brd x)) [] /\ rbr (uart1 (brd x)) = [].

(** The interrupts inside the reads of the clock are ticks of the timer. *)
Definition ticking (l : list (list irq)) : Prop := Forall (Forall (eq IrqTimer1)) l.

(** During the run no more time passes than the receiver allows a frame, and the
    clock does not wrap. *)
Definition in_time (b : board) : Prop :=
  ticking (sched b) /\ ticks (concat (sched b)) <= XBEE_RECV_FRAME_TO /\
  timeMs b + ticks (concat (sched b)) + XBEE_RECV_FRAME_TO < 4294967296.

(** What a publish message with the capabilities [cs] does: nothing for a known
    node or with all entries in use; else the first free entry is the node's, and
    the application is told. *)
Definition registered (hi lo : Z) (cs : list Z) (w w' : rworld) : Prop :=
  let i := find_idx node_free (nodes (rf w)) in
  ((known hi lo (nodes (rf w)) \/ (length (nodes (rf w)) <= i)%nat) /\
     rf w' = rf w /\ upcalls w' = upcalls w) \/
  (~ known hi lo (nodes (rf w)) /\ (i < length (nodes (rf w)))%nat /\
     exists n, rf w' = (rf w){{ nodes := <[i := n]> (nodes (rf w)) }} /\
     n_addrHi n = hi /\ n_addrLo n = lo /\
     take (Z.to_nat (numCaps n)) (caps n) = take RF_NODE_MAX_CAPS cs /\
     upcalls w' = upcalls w ++
       (if (from_option has_nodeAttached false (rf_cb (rf w)) : bool)
        then [nodeAttached (Z.of_nat i + 1)] else [])).

(** ** The queue and the clock in between *)

(** The board with [q] queued, and the clock at [T] when the run is over. *)
Definition serving (q : list Z) (T : Z) (b : board) : Prop :=
  rxq_inv (rxq_s b) q /\ rbr (uart1 b) = [] /\ ticking (sched b) /\
  0 <= timeMs b /\ timeMs b + ticks (concat (sched b)) = T /\
  T <= timeMs b + XBEE_RECV_FRAME_TO.

Lemma serving_ok q T b : T < 4294967296 -> serving q T b -> board_ok b /\ word_ok (timeMs b) /\
  timeMs b <= T.
Proof.
  intros HT ((H1 & H2 & H3 & _) & _ & _ & H0 & E & _). pose proof (ticks_nonneg (concat (sched b))).
  unfold board_ok, rxq_wf, word_ok. split_and!; done || lia.
Qed.

Lemma ticks_run l b :
  Forall (eq IrqTimer1) l -> 0 <= timeMs b -> timeMs b + ticks l < 4294967296 ->
  foreach l handle_irq b = Ok (tt, b{{ timeMs := timeMs b + ticks l }}).
Proof.
  intros Hl. revert b. induction Hl as [|i l <- _ IH]; intros b H0 Hb; cbn [foreach ticks] in *.
  { rewrite Z.add_0_r. by destruct b. }
  pose proof (ticks_nonneg l). unfold mbind, M_bind. cbn [handle_irq].
  unfold TIMER1_IRQHandler, modify.
  replace (u32 (timeMs b + 1)) with (timeMs b + 1) by (unfold u32; lia).
  rewrite IH by (simpl; lia). simpl. by rewrite Z.add_assoc.
Qed.

Lemma time_get_serving q T b :
  T < 4294967296 -> serving q T b ->
  exists b', time_get b = Ok (timeMs b', b') /\ serving q T b'.
Proof.
  intros HT (Hq & Hr & Ht & H0 & E & HS). unfold time_get, preempt, mbind, M_bind, gets.
  destruct (sched b) as [|l rest] eqn:Es.
  { exists b. unfold serving. rewrite Es. split_and!; done || lia. }
  cbn [concat] in E. rewrite ticks_app in E.
  pose proof (ticks_nonneg l). pose proof (ticks_nonneg (concat rest)).
  apply Forall_cons in Ht as [Hl Ht].
  rewrite ticks_run by (simpl; done || lia). eexists. split; [reflexivity|].
  unfold serving. simpl. split_and!; done || lia.
Qed.

Lemma recvCb_serving bs q T fuel b :
  serving q T (b{{ uart1 := (uart1 b){{ rbr := [] }} }}) -> rbr (uart1 b) = bs ->
  (length bs < fuel)%nat -> Z.of_nat (length q + length bs) <= 255 ->
  exists b', rf_uartRecvCb_loop fuel b = Ok (tt, b') /\ serving (q ++ bs) T b'.
Proof.
  revert q fuel b. induction bs as [|d bs IH]; intros q fuel b Hs Hb Hf Hl;
    (destruct fuel as [|fuel]; [simpl in *; lia|]); cbn [rf_uartRecvCb_loop];
    unfold mbind, M_bind, zoom at 1; simpl; unfold UART_Receive1; rewrite Hb.
  { eexists. split; [reflexivity|]. rewrite app_nil_r.
    destruct b as [? ? ? [? ? ?] ? ? ?]. simpl in *. by subst. }
  destruct Hs as (Hq & Hs). cbn [length] in *. simpl in Hq.
  destruct (rxq_put_ok (rxq_s b) q d Hq) as (q' & Eq & Hq'); [lia|].
  unfold zoom. simpl. rewrite Eq.
  match goal with |- context [rf_uartRecvCb_loop fuel ?b1] =>
    destruct (IH (q ++ [d]) fuel b1) as (b' & E & Hb') end.
  - unfold serving. simpl. done.
  - done.
  - lia.
  - rewrite length_app. cbn [length]. lia.
  - exists b'. rewrite E, <- app_assoc in *. done.
Qed.

Lemma arrive_serving bs q T b :
  serving q T b -> Z.of_nat (length q + length bs) <= 255 ->
  exists b', UART1_IRQHandler bs b = Ok (tt, b') /\ serving (q ++ bs) T b'.
Proof.
  intros Hs Hl. unfold UART1_IRQHandler, rf_uartRecvCb, mbind, M_bind, zoom at 1, modify.
  cbn -[rf_uartRecvCb_loop]. apply recvCb_serving; simpl;
    [|by destruct Hs as (_ & -> & _)|rewrite length_app; lia|done].
  destruct b as [? ? ? [? ? ?] ? ? ?]. destruct Hs as (? & Hr & ?). simpl in Hr. by subst.
Qed.

Lemma receive_serving d q T b :
  serving (d :: q) T b ->
  exists b', rf_uart_receive 1 b = Ok ([d], b') /\ serving q T b'.
Proof.
  intros (Hq & Hs). simpl. unfold mbind, M_bind, gets.
  destruct (rxq_isEmpty (rxq_s b)) eqn:Ee; [by apply (rxq_isEmpty_iff _ _ Hq) in Ee|].
  destruct (rxq_get_cons _ _ _ Hq) as (q' & Eq & Hq'). unfold zoom. simpl. rewrite Eq.
  eexists. split; [reflexivity|]. unfold serving. simpl. done.
Qed.

(** ** The receiver inside a frame *)

(** The receiver's variables after the first [k] bytes of the frame with payload [p]. *)
Definition partway (p : list Z) (k : nat) (s : xbee_st) : Prop :=
  let n := Z.of_nat (length p) in
  _cb s = true /\ length (rfBuf s) = 200%nat /\
  match k with
  | O => rfState s = XBEE_FRAME
  | S O => rfState s = XBEE_LENGTH /\ rfFrameLen s = 0 /\ rfPos s = 0
  | S (S O) => rfState s = XBEE_LENGTH /\ rfFrameLen s = n / 256 * 256 /\ rfPos s = 1
  | S (S (S j)) => rfState s = XBEE_DATA /\ rfFrameLen s = n /\ rfPos s = Z.of_nat j /\
      take j (rfBuf s) = take j p
  end.

Lemma deadline_fits T : T + XBEE_RECV_FRAME_TO < 4294967296 -> T < 4294967296.
Proof. unfold XBEE_RECV_FRAME_TO. lia. Qed.

Section message.
Context (p : list Z) (T : Z) (w0 : rworld).
Context (Hlen : Z.of_nat (length p) < XBEE_BUF_SZ).
Context (HT : T + XBEE_RECV_FRAME_TO < 4294967296).
Let frame := frame_bytes p (cksum p).

(** [k] bytes of the frame are read, [q] are queued, and the protocol has seen nothing. *)
Definition under_way (k : nat) (q : list Z) (w : rworld) : Prop :=
  serving q T (brd (rx w)) /\ partway p k (xb (rx w)) /\
  (if (k =? 0)%nat then rfFrameTimer (xb (rx w)) = 0 else T <= rfFrameTimer (xb (rx w))) /\
  rf w = rf w0 /\ upcalls w = upcalls w0.

Lemma frame_length : length frame = (length p + 4)%nat.
Proof. unfold frame, frame_bytes. simpl. rewrite length_app. simpl. lia. Qed.

Lemma frame_start_step q w :
  under_way 0 q w ->
  exists w', processByte callbacks XBEE_START_DEL w = Ok (tt, w') /\ under_way 1 q w'.
Proof.
  intros (Hs & (Hc & Hb & Hst) & Htm & Hrf & Hu).
  destruct (time_get_serving _ _ _ (deadline_fits T HT) Hs) as (b' & E & Hs').
  destruct (serving_ok q T b' (deadline_fits T HT) Hs') as (_ & Hw & Hle).
  pose proof Hs' as (_ & _ & _ & _ & _ & Hspan).
  unfold processByte. mrun. rewrite Hst. mrun.
  unfold xw at 1, zoom at 1 2. simpl. rewrite E. mrun.
  eexists. split; [reflexivity|]. unfold under_way, partway. simpl.
  split_and!; try done.
  unfold u32, word_ok, XBEE_RECV_FRAME_TO in *. lia.
Qed.

Lemma byte_step k q d w :
  under_way k q w -> frame !! k = Some d -> (S k < length frame)%nat ->
  exists w', processByte callbacks d w = Ok (tt, w') /\ under_way (S k) q w'.
Proof.
  intros Hw Hd Hk. rewrite frame_length in Hk. unfold frame, frame_bytes in Hd.
  unfold XBEE_BUF_SZ in Hlen. set (n := Z.of_nat (length p)) in *.
  destruct k as [|[|[|j]]]; [injection Hd as <-; by apply frame_start_step|..];
    destruct Hw as (Hs & (Hc & Hb & Hp) & Htm & Hrf & Hu); simpl in Hd;
    destruct w as [[b [c st l pos buf fid tm co ini]] r u]; simpl in *; destruct_and! Hp; subst.
  - injection Hd as <-. eexists. split.
    { exact (recv_hi callbacks b true buf fid tm co ini (n / 256) (mk_rworld (rx w0) (rf w0) (upcalls w0))
        ltac:(unfold byte_ok; lia)). }
    done.
  - injection Hd as <-. eexists. split.
    { exact (recv_lo callbacks b true buf fid tm co ini (n / 256) (n mod 256)
        (mk_rworld (rx w0) (rf w0) (upcalls w0)) ltac:(unfold byte_ok; lia) ltac:(unfold byte_ok; lia)). }
    unfold XBEE_BUF_SZ. destruct (Z.ltb_spec 200 (n / 256 * 256 + n mod 256)); [lia|].
    unfold under_way, partway. simpl. split_and!; try done. lia.
  - assert (Hj : p !! j = Some d) by (rewrite lookup_app_l in Hd by lia; done).
    eexists. split.
    { exact (recv_data1 callbacks b true n (Z.of_nat j) buf fid tm co ini d
        (mk_rworld (rx w0) (rf w0) (upcalls w0)) ltac:(lia) ltac:(lia) ltac:(unfold XBEE_BUF_SZ; lia)). }
    unfold under_way, partway. simpl. rewrite Nat2Z.id, length_insert.
    split_and!; try done; try lia.
    rewrite (take_S_r (<[j := d]> buf) j d) by (apply list_lookup_insert_eq; lia).
    rewrite (take_S_r p j d Hj). f_equal. by rewrite take_insert_ge by lia.
Qed.

Lemma xw_board_run {A} (m : M board A) w a b' :
  m (brd (rx w)) = Ok (a, b') ->
  xw (zoom m) w = Ok (a, w{{ rx := (rx w){{ brd := b' }} }}).
Proof. intros E. unfold xw, zoom. simpl. by rewrite E. Qed.

Lemma eta_rx (w : rworld) : w{{ rx := (rx w){{ brd := brd (rx w) }} }} = w.
Proof. by destruct w as [[] ? ?]. Qed.

Lemma under_way_board k q q' w b' :
  under_way k q w -> serving q' T b' ->
  under_way k q' (w{{ rx := (rx w){{ brd := b' }} }}).
Proof. intros (_ & H) Hs. done. Qed.

(** The frame timer does not expire: a turn of the task looks at the queue only. *)
Lemma turn_timer k q w :
  under_way k q w ->
  exists w1, under_way k q w1 /\ xbee_task callbacks w =
    (empty ← xw (zoom (gets rf_uart_recvIsEmpty));
     if negb (empty : bool) then
       ds ← xw (zoom (rf_uart_receive 1));
       match ds with
       | data :: _ => processByte callbacks data
       | [] => mret tt
       end
     else mret tt) w1.
Proof.
  intros Hw. pose proof Hw as (Hs & _ & Htm & _).
  destruct (time_get_serving q T _ (deadline_fits T HT) Hs) as (b' & E & Hs').
  destruct (serving_ok q T b' (deadline_fits T HT) Hs') as (_ & _ & HleT).
  unfold xbee_task. mrun. destruct (Z.ltb_spec 0 (rfFrameTimer (xb (rx w)))).
  - exists (w{{ rx := (rx w){{ brd := b' }} }}). split; [by eapply under_way_board|].
    destruct k as [|k]; simpl in Htm; [lia|].
    unfold xw at 1, zoom at 1 2. simpl. rewrite E. mrun.
    destruct (Z.ltb_spec (rfFrameTimer (xb (rx w))) (timeMs b')); [lia|]. by mrun.
  - exists w. split; [done|]. by mrun.
Qed.

Lemma turn_empty k w :
  under_way k [] w -> exists w', xbee_task callbacks w = Ok (tt, w') /\ under_way k [] w'.
Proof.
  intros Hw. destruct (turn_timer k [] w Hw) as (w1 & Hw1 & ->). exists w1. split; [|done].
  pose proof Hw1 as ((Hq & _) & _). apply rxq_isEmpty_iff in Hq as [_ He].
  unfold mbind, M_bind. rewrite (xw_board_run _ _ _ (brd (rx w1)) eq_refl).
  unfold rf_uart_recvIsEmpty. rewrite He by done. by destruct w1 as [[] ? ?].
Qed.

Lemma turn_takes k d q w :
  under_way k (d :: q) w ->
  exists w1, under_way k q w1 /\ xbee_task callbacks w = processByte callbacks d w1.
Proof.
  intros Hw. destruct (turn_timer _ _ w Hw) as (w1 & Hw1 & ->).
  pose proof Hw1 as (Hs & _). destruct (receive_serving d q T _ Hs) as (b' & E & Hs').
  exists (w1{{ rx := (rx w1){{ brd := b' }} }}). split; [by eapply under_way_board|].
  unfold mbind, M_bind. rewrite (xw_board_run _ _ _ (brd (rx w1)) eq_refl).
  unfold rf_uart_recvIsEmpty.
  destruct (rxq_isEmpty (rxq_s (brd (rx w1)))) eqn:Ee;
    [by apply (rxq_isEmpty_iff _ _ (proj1 Hs)) in Ee|].
  cbn [negb]. rewrite eta_rx. by rewrite (xw_board_run _ _ [d] b' E).
Qed.

(** The last byte hands the frame to [processFrame], with the receiver ready for the next. *)
Lemma last_byte q d w :
  under_way (length p + 3) q w -> frame !! (length p + 3)%nat = Some d ->
  exists w1 tl, serving q T (brd (rx w1)) /\ between_frames (rx w1) /\
    _cb (xb (rx w1)) = true /\ rfFrameTimer (xb (rx w1)) = 0 /\
    rf w1 = rf w0 /\ upcalls w1 = upcalls w0 /\
    processByte callbacks d w =
      processFrame callbacks (p ++ [cksum p] ++ tl) (Z.of_nat (length p) + 1) w1.
Proof.
  intros Hw Hd. unfold frame, frame_bytes in Hd. unfold XBEE_BUF_SZ in Hlen.
  replace (length p + 3)%nat with (S (S (S (length p)))) in * by lia.
  destruct Hw as (Hs & (Hc & Hb & Hp) & Htm & Hrf & Hu); simpl in Hd.
  rewrite lookup_app_r, Nat.sub_diag in Hd by lia. injection Hd as <-.
  destruct w as [[b [c st l pos buf fid tm co ini]] r u]; simpl in *; destruct_and! Hp; subst.
  set (n := Z.of_nat (length p)) in *.
  destruct (serving_ok q T b (deadline_fits T HT) Hs) as (Hbo & Hw & _).
  set (buf' := <[Z.to_nat n := cksum p]> buf).
  exists (mk_rworld (mk_xworld b (mk_xbee true XBEE_FRAME n (n + 1) buf' fid 0 co ini))
    (rf w0) (upcalls w0)), (drop (length p + 1) buf').
  split_and!; try done.
  { unfold between_frames. simpl. split_and!; try done. unfold buf'. by rewrite length_insert. }
  assert (Hbuf : p ++ [cksum p] ++ drop (length p + 1) buf' = buf').
  { rewrite app_assoc. rewrite <- (take_drop (length p + 1) buf') at 2. f_equal.
    replace (length p + 1)%nat with (S (length p)) by lia. unfold buf', n. rewrite Nat2Z.id.
    rewrite (take_S_r _ _ (cksum p)) by (apply list_lookup_insert_eq; lia).
    rewrite take_insert_ge by lia. replace (take (length p) buf) with p; [done|].
    by rewrite H3, firstn_all. }
  cbn [app] in Hbuf |- *. rewrite Hbuf.
  exact (recv_last callbacks b true n buf fid tm co ini (cksum p)
    (mk_rworld (rx w0) (rf w0) (upcalls w0)) ltac:(unfold XBEE_BUF_SZ; lia) Hb).
Qed.
End message.

(** ** The protocol leaves the receiver alone *)

(** Registering a node reads the clock, and touches neither queue nor receiver. *)
Definition calm (w w' : rworld) : Prop :=
  xb (rx w') = xb (rx w) /\
  (forall T, T < 4294967296 -> serving [] T (brd (rx w)) -> serving [] T (brd (rx w'))).

#[export] Instance calm_preorder : PreOrder calm.
Proof.
  split; unfold calm; [done|]. intros x y z (? & ?) (? & ?).
  split_and!; [congruence|auto].
Qed.

Lemma keeps_calm_rget {A} (f : rfpt_st -> A) : keeps calm (rget f).
Proof. apply keeps_pure; [exact _|]. intros w w' a. destruct w. by intros [= _ <-]. Qed.

Lemma keeps_calm_nodes (f : rfpt_st -> list node_t) :
  keeps calm (rst (fun s => s{{ nodes := f s }})).
Proof. intros w a w'. by intros [= _ <-]. Qed.

Lemma keeps_calm_time : keeps calm (on_board time_get).
Proof.
  intros w a w'. unfold on_board, zoom. simpl.
  destruct (time_get (brd (rx w))) as [[t b']|] eqn:E; [|done]. intros [= _ <-].
  split; [done|]. simpl. intros T HT Hs.
  destruct (time_get_serving [] T _ HT Hs) as (b1 & E1 & Hs1). congruence.
Qed.

Lemma keeps_calm_rlog fmt args : keeps calm (rlog fmt args).
Proof. intros w a w'. by intros [= _ <-]. Qed.

Lemma keeps_calm_upcall e : keeps calm (upcall e).
Proof. intros w a w'. by intros [= _ <-]. Qed.

#[export] Hint Resolve keeps_calm_rget keeps_calm_nodes keeps_calm_time keeps_calm_rlog
  keeps_calm_upcall : keeps.

Lemma keeps_calm_publish hi lo buf len : keeps calm (handlePublish hi lo buf len).
Proof. unfold handlePublish, set_node, get_node, has_cb. keeps. Qed.

(** A publish message, new or old, at the protocol. *)
Lemma publish_registers hi lo rssi cs tl w :
  rf_isCoordinator (rf w) = true -> rf_cb (rf w) <> None -> nodes_ok (nodes (rf w)) ->
  brd_ok w -> Z.of_nat (length cs) < 188 ->
  exists w', xbeeData hi lo rssi ((RFPT_MSG_PUBLISH :: cs) ++ tl)
      (Z.of_nat (length (RFPT_MSG_PUBLISH :: cs))) w = Ok (tt, w') /\
    calm w w' /\ registered hi lo cs w w' /\ rx_quiet (rx w) (rx w').
Proof.
  intros Hco Hcb (Hn & Hok & _) Hb Hl. cbn [app length].
  rewrite xbeeData_publish by (done || lia).
  replace (Z.of_nat (S (length cs)) - 1) with (Z.of_nat (length cs)) by lia.
  set (i := find_idx node_free (nodes (rf w))).
  assert (Hold : known hi lo (nodes (rf w)) \/ (length (nodes (rf w)) <= i)%nat ->
    exists w', handlePublish hi lo (cs ++ tl) (Z.of_nat (length cs)) w = Ok (tt, w') /\
      calm w w' /\ registered hi lo cs w w' /\ rx_quiet (rx w) (rx w')).
  { intros Hc. exists w. split; [|split_and!; [done|by left|destruct Hb; done..]].
    apply publish_old_ok. destruct Hc as [Hc|Hc]; [by left|]. right. apply find_idx_none.
    fold i. pose proof (find_idx_le node_free (nodes (rf w))). fold i in H. lia. }
  destruct (existsb (node_is hi lo) (nodes (rf w))) eqn:Ek.
  { apply Hold. left. apply existsb_exists in Ek as (n & Hin & Hi). exists n.
    split; [by apply list_elem_of_In|done]. }
  assert (Hnew : ~ known hi lo (nodes (rf w))).
  { intros (n & Hin & Hi). assert (X : existsb (node_is hi lo) (nodes (rf w)) = true).
    { apply existsb_exists. exists n. split; [by apply list_elem_of_In|done]. } congruence. }
  destruct (decide (i < length (nodes (rf w)))%nat) as [Hlt|Hge]; [|apply Hold; right; lia].
  destruct (lookup_lt_is_Some_2 _ _ Hlt) as [old Ho].
  assert (Hcaps : length (caps old) = RF_NODE_MAX_CAPS).
  { eapply Forall_lookup_1 in Hok as [Hc _]; [exact Hc|exact Ho]. }
  pose proof (publish_new_ok hi lo (cs ++ tl) (Z.of_nat (length cs)) w old Hb Hcb
    ltac:(rewrite length_app; lia) Hnew Ho Hcaps) as G.
  apply wp_run in G as ([] & w' & E & now & _ & (Hq & Hrf & Hup)). exists w'. rewrite E.
  split; [done|]. split; [by apply keeps_calm_publish in E|]. split; [|done].
  right. split; [done|]. split; [done|]. eexists. split; [exact Hrf|].
  split_and!; [done|done| |done]. cbn [numCaps caps new_node].
  rewrite !Nat2Z.id. rewrite take_app_le by (rewrite length_take, length_app; lia).
  rewrite take_take, take_app_le by lia. unfold RF_NODE_MAX_CAPS.
  destruct (decide (length cs <= 12)%nat); [by rewrite !take_ge by lia|f_equal; lia].
Qed.

(** ** The whole way *)

Lemma arrived_cons e evs :
  arrived (e :: evs) = (match e with Arrive bs => bs | Turn => [] end) ++ arrived evs.
Proof. done. Qed.

Lemma arrived_turns n : arrived (replicate n Turn) = [].
Proof. by induction n. Qed.

Section publish.
Context (hi lo rssi opt : Z) (cs : list Z) (T : Z) (w0 : rworld).
Let p := rx64_payload hi lo rssi opt (RFPT_MSG_PUBLISH :: cs).
Let frame := frame_bytes p (cksum p).
Context (Hhi : word_ok hi) (Hlo : word_ok lo) (Hcs : Z.of_nat (length cs) < 188).
Context (HT : T + XBEE_RECV_FRAME_TO < 4294967296).
Context (Hco : rf_isCoordinator (rf w0) = true) (Hcb : rf_cb (rf w0) <> None).
Context (Hnodes : nodes_ok (nodes (rf w0))).

Lemma payload_fits : Z.of_nat (length p) < XBEE_BUF_SZ.
Proof. unfold p, XBEE_BUF_SZ. rewrite length_rx64. simpl. lia. Qed.

Lemma queue_fits k q bs fut :
  q ++ bs ++ fut = drop k frame -> Z.of_nat (length q + length bs) <= 255.
Proof.
  intros E%(f_equal length). rewrite !length_app, length_drop in E.
  pose proof (frame_length p). fold frame in H. pose proof payload_fits.
  unfold XBEE_BUF_SZ in *. lia.
Qed.

Definition finished (w : rworld) : Prop :=
  serving [] T (brd (rx w)) /\ between_frames (rx w) /\ _cb (xb (rx w)) = true /\
  rfFrameTimer (xb (rx w)) = 0 /\ registered hi lo cs w0 w.

Lemma finished_idle w : finished w -> idle (rx w) /\ registered hi lo cs w0 w.
Proof. intros ((Hq & Hr & _) & Hb & Hc & Htm & Hreg). done. Qed.

(** The last byte registers the node. *)
Lemma last_step w d :
  under_way p T w0 (length p + 3) [] w -> frame !! (length p + 3)%nat = Some d ->
  exists w', processByte callbacks d w = Ok (tt, w') /\ finished w'.
Proof.
  intros Hw Hd. pose proof (deadline_fits T HT) as HT'.
  destruct (last_byte p T w0 payload_fits HT [] d w Hw Hd)
    as (w1 & tl & Hs & Hb & Hc & Htm & Hrf & Hup & E).
  destruct (publish_registers hi lo rssi cs (cksum p :: tl) w1)
    as (w' & E' & (Hxb & Hcalm) & Hreg & Hq); rewrite ?Hrf; try done.
  { destruct (serving_ok _ _ _ HT' Hs) as (? & ? & _). done. }
  exists w'. split.
  - rewrite E. unfold p at 1 2. rewrite (processFrame_rx64 callbacks xbeeData); try done.
    + simpl. lia.
    + unfold p. rewrite length_rx64. lia.
  - specialize (Hcalm T HT' Hs). destruct (serving_ok _ _ _ HT' Hcalm) as (Hbo & Hwo & _).
    unfold finished, between_frames in *. rewrite Hxb. destruct_and! Hb. split_and!; try done.
    unfold registered in *. by rewrite Hrf, Hup in Hreg.
Qed.

(** One event of the run: the frame advances, or is complete. *)
Lemma event_step e fut k q w :
  under_way p T w0 k q w -> (k < length frame)%nat ->
  q ++ arrived [e] ++ fut = drop k frame ->
  exists w', happen e w = Ok (tt, w') /\
    ((finished w' /\ fut = []) \/
     exists k' q', under_way p T w0 k' q' w' /\ (k' < length frame)%nat /\
       q' ++ fut = drop k' frame /\ (k <= k')%nat /\ (e = Turn -> q = [] \/ k' = S k)).
Proof.
  intros Hw Hk Hq. pose proof (frame_length p) as HN. fold frame in HN. destruct e as [bs|].
  - pose proof Hw as (Hs & _). unfold arrived in Hq. simpl in Hq. rewrite app_nil_r in Hq.
    destruct (arrive_serving bs q T _ Hs) as (b' & E & Hs'); [by eapply queue_fits|].
    exists (w{{ rx := (rx w){{ brd := b' }} }}). split.
    { unfold happen, on_board, zoom. simpl. by rewrite E. }
    right. exists k, (q ++ bs). split; [by eapply under_way_board|].
    rewrite <- app_assoc. done.
  - change (q ++ fut = drop k frame) in Hq. cbn [happen]. destruct q as [|d q].
    { destruct (turn_empty p T w0 HT k w Hw) as (w' & E & Hw'). exists w'. split; [done|].
      right. exists k, []. split_and!; try done; try lia; by left. }
    destruct (turn_takes p T w0 HT k d q w Hw) as (w1 & Hw1 & ->).
    assert (Hd : frame !! k = Some d).
    { pose proof (lookup_drop frame k 0) as L. rewrite <- Hq, Nat.add_0_r in L. by rewrite <- L. }
    assert (Hq' : q ++ fut = drop (S k) frame).
    { replace (S k) with (k + 1)%nat by lia. by rewrite <- drop_drop, <- Hq. }
    destruct (decide (S k < length frame)%nat) as [Hlt|Hge].
    + destruct (byte_step p T w0 payload_fits HT k q d w1 Hw1 Hd Hlt) as (w' & E & Hw').
      exists w'. split; [done|]. right. exists (S k), q. split_and!; try done; try lia; by right.
    + rewrite drop_ge in Hq' by lia. apply app_nil in Hq' as [-> ->].
      replace k with (length p + 3)%nat in * by lia.
      destruct (last_step w1 d Hw1 Hd) as (w' & E & Hw'). exists w'. split; [done|]. by left.
Qed.

(** Afterwards the turns find nothing to do. *)
Lemma finished_step e w :
  finished w -> arrived [e] = [] -> exists w', happen e w = Ok (tt, w') /\ finished w'.
Proof.
  intros Hf He. pose proof Hf as (Hs & Hb & Hc & Htm & Hreg). pose proof Hs as (Hq & _).
  destruct e as [bs|]; cbn [happen].
  - unfold arrived in He. simpl in He. rewrite app_nil_r in He. subst bs.
    destruct (arrive_serving [] [] T _ Hs) as (b' & E & Hs'); [simpl; lia|].
    exists (w{{ rx := (rx w){{ brd := b' }} }}). split.
    { unfold on_board, zoom. simpl. by rewrite E. }
    destruct (serving_ok _ _ _ (deadline_fits T HT) Hs') as (? & ? & _).
    unfold finished, between_frames in *. destruct_and! Hb. split_and!; done.
  - exists w. split; [|done]. unfold xbee_task. mrun. rewrite Htm. mrun.
    unfold rf_uart_recvIsEmpty. rewrite (proj2 (rxq_isEmpty_iff _ _ Hq) eq_refl).
    by destruct w as [[] ? ?].
Qed.

Lemma finished_play evs w :
  finished w -> arrived evs = [] -> exists w', play evs w = Ok (tt, w') /\ finished w'.
Proof.
  revert w. induction evs as [|e evs IH]; intros w Hf He; [by exists w|].
  rewrite arrived_cons in He. apply app_nil in He as [He1 He2].
  destruct (finished_step e w Hf) as (w1 & E & Hf1).
  { rewrite arrived_cons, He1. done. }
  destruct (IH w1 Hf1 He2) as (w' & E' & Hf'). exists w'. split; [|done].
  unfold play. cbn [foreach]. unfold mbind, M_bind. by rewrite E.
Qed.

Lemma play_progress evs k q w :
  under_way p T w0 k q w -> (k < length frame)%nat -> q ++ arrived evs = drop k frame ->
  exists w', play evs w = Ok (tt, w') /\
    (finished w' \/ exists k', under_way p T w0 k' (drop k' frame) w' /\ (k' < length frame)%nat).
Proof.
  revert k q w. induction evs as [|e evs IH]; intros k q w Hw Hk Hq.
  { exists w. split; [done|]. right. exists k. unfold arrived in Hq. simpl in Hq.
    rewrite app_nil_r in Hq. by subst. }
  destruct (event_step e (arrived evs) k q w Hw Hk) as (w1 & E & H).
  { rewrite arrived_cons in *. by rewrite app_nil_r. }
  assert (Hrun : forall w', play evs w1 = Ok (tt, w') -> play (e :: evs) w = Ok (tt, w')).
  { intros w' E'. unfold play. cbn [foreach]. unfold mbind, M_bind. by rewrite E. }
  destruct H as [[Hf He]|(k' & q' & Hw' & Hk' & Hq' & _)].
  - destruct (finished_play evs w1 Hf He) as (w' & E' & Hf'). eauto.
  - destruct (IH k' q' w1 Hw' Hk' Hq') as (w' & E' & H'). eauto.
Qed.

Lemma play_drains n k w :
  under_way p T w0 k (drop k frame) w -> (k < length frame)%nat -> (length frame <= n + k)%nat ->
  exists w', play (replicate n Turn) w = Ok (tt, w') /\ finished w'.
Proof.
  revert k w. induction n as [|n IH]; intros k w Hw Hk Hn; [lia|].
  destruct (event_step Turn [] k (drop k frame) w Hw Hk) as (w1 & E & H).
  { unfold arrived. simpl. by rewrite app_nil_r. }
  assert (Hrun : forall w', play (replicate n Turn) w1 = Ok (tt, w') ->
    play (replicate (S n) Turn) w = Ok (tt, w')).
  { intros w' E'. unfold play. cbn [replicate foreach]. unfold mbind, M_bind. by rewrite E. }
  destruct H as [[Hf _]|(k' & q' & Hw' & Hk' & Hq' & _ & Hadv)].
  - destruct (finished_play (replicate n Turn) w1 Hf (arrived_turns n)) as (w' & E' & Hf'). eauto.
  - rewrite app_nil_r in Hq'. subst q'.
    destruct (Hadv eq_refl) as [He| ->].
    { apply (f_equal length) in He. rewrite length_drop in He. cbn [length] in He. lia. }
    destruct (IH (S k) w1 Hw' Hk' ltac:(lia)) as (w' & E' & H'). eauto.
Qed.
End publish.

(** C14: A publish message on its way through the coordinator, from the UART to the
    application.  Its frame arrives in interrupts, cut and interleaved with turns of the main
    loop in any way; after as many more turns as the frame has bytes the receiver is idle
    again, and the message has had its effect exactly once: a node the coordinator knows, or
    one for which there is no free entry, changes nothing; any other gets the first free entry,
    with its address and its capabilities (the first twelve), and the application is told, if
    it has a callback for it.  The receiver was idle before, only timer ticks interrupt the
    reads of the clock, and the whole takes at most the two seconds a frame is given, without
    a wrap of the clock. *)
Theorem publish_frame_registers evs hi lo rssi opt cs w :
  idle (rx w) -> in_time (brd (rx w)) -> 0 <= timeMs (brd (rx w)) ->
  rf_isCoordinator (rf w) = true -> rf_cb (rf w) <> None -> nodes_ok (nodes (rf w)) ->
  word_ok hi -> word_ok lo -> Z.of_nat (length cs) < 188 ->
  let p := rx64_payload hi lo rssi opt (RFPT_MSG_PUBLISH :: cs) in
  arrived evs = frame_bytes p (cksum p) ->
  exists w', play (evs ++ replicate (length (arrived evs)) Turn) w = Ok (tt, w') /\
    idle (rx w') /\ registered hi lo cs w w'.
Proof.
  intros (Hb & Hc & Htm & Hq & Hr) (Ht & Hsp & Hnw) H0 Hco Hcb Hn Hhi Hlo Hcs p Ha.
  set (T := timeMs (brd (rx w)) + ticks (concat (sched (brd (rx w))))).
  assert (Hw : under_way p T w 0 [] w).
  { destruct Hb as (_ & _ & Hst & Hbuf). unfold under_way, serving, partway, T.
    split_and!; try done. lia. }
  destruct (play_progress hi lo rssi opt cs T w Hhi Hlo Hcs Hnw Hco Hcb Hn evs 0 [] w Hw)
    as (w1 & E & H); [unfold frame_bytes; simpl; lia|by rewrite drop_0|].
  assert (Hend : exists w', play (replicate (length (arrived evs)) Turn) w1 = Ok (tt, w') /\
    finished hi lo cs T w w').
  { destruct H as [Hf|(k & Hw1 & Hk)].
    - apply (finished_play hi lo cs T w Hnw); [done|apply arrived_turns].
    - apply (play_drains hi lo rssi opt cs T w Hhi Hlo Hcs Hnw Hco Hcb Hn _ k); [done..|].
      rewrite Ha. unfold p. lia. }
  destruct Hend as (w' & E' & Hf). exists w'. split; [|by eapply finished_idle].
  unfold play in *. rewrite foreach_app. unfold mbind, M_bind. by rewrite E.
Qed.

(** ** The property at a concrete input *)

(** A coordinator, and the timer ticking while a frame comes in. *)
Definition listening : rworld :=
  let w := rf_world true in
  w{{ rx := (rx w){{ brd := (brd (rx w)){{ sched :=
    [[IrqTimer1]; []; [IrqTimer1; IrqTimer1]] }} }} }}.

Lemma listening_idle : idle (rx listening).
Proof.
  unfold idle, between_frames, board_ok, rxq_wf, rxq_inv, word_ok.
  split_and!; try (by apply ring_nil); vm_compute; try reflexivity; discriminate.
Qed.

Lemma listening_in_time : in_time (brd (rx listening)).
Proof. split_and!; [by repeat constructor|vm_compute; discriminate|vm_compute; reflexivity]. Qed.

(** The frame in two pieces, with turns between them and one too early. *)
Definition in_pieces (bs : list Z) : list event :=
  [Turn; Arrive (take 5 bs); Turn; Turn; Arrive (drop 5 bs); Turn].

Lemma publish_frame_registers_witness :
  let p := rx64_payload 5 6 40 0 (RFPT_MSG_PUBLISH :: [0x10; 0x30]) in
  let bs := frame_bytes p (cksum p) in
  exists w', play (in_pieces bs ++ replicate (length (arrived (in_pieces bs))) Turn) listening =
      Ok (tt, w') /\
    idle (rx w') /\ upcalls w' = [nodeAttached 1].
Proof.
  intros p bs.
  destruct (publish_frame_registers (in_pieces bs) 5 6 40 0 [0x10; 0x30] listening
    listening_idle listening_in_time ltac:(vm_compute; discriminate) ltac:(reflexivity)
    ltac:(discriminate) reset_nodes_ok ltac:(unfold word_ok; lia) ltac:(unfold word_ok; lia)
    ltac:(vm_compute; reflexivity) ltac:(reflexivity)) as (w' & E & Hi & Hreg).
  exists w'. split; [exact E|]. split; [exact Hi|].
  destruct Hreg as [([Hk|Hf] & _)|(_ & _ & n & _ & _ & _ & _ & Hu)].
  - exfalso. by apply (nobody_known 5 6 true).
  - exfalso. vm_compute in Hf. lia.
  - exact Hu.
Defined.
