(* ===== verification/Clkpwr.v ===== *)
(** * Clocks and power of the peripherals

    Lib_MCU/src/lpc17xx_clkpwr.c: the divider of the clock of each peripheral and
    its power bit, and the operations on words that the register accesses of
    the drivers share. *)

From S2P Require Import Prelude.

(** The clock and power registers. *)
Record sc_st : Type := mk_sc {
  SystemCoreClock : Z; PCLKSEL0 : Z; PCLKSEL1 : Z; PCONP : Z
}.
#[export] Instance eta_sc_st : Settable sc_st :=
  fun s => mk_sc (SystemCoreClock s) (PCLKSEL0 s) (PCLKSEL1 s) (PCONP s).

Definition clear_bits (v bits : Z) : Z := Z.land v (Z.lnot bits).

(** Shifts by a register on the Cortex-M3: the amount is its low byte, and 32 or
    more leaves 0 (C leaves such a shift undefined). *)
Definition lsl (x n : Z) : Z := if n mod 256 <? 32 then u32 (Z.shiftl x (n mod 256)) else 0.
Definition lsr (x n : Z) : Z := if n mod 256 <? 32 then Z.shiftr x (n mod 256) else 0.

(** ** The clock functions *)

Definition CLKPWR_PCONP_PCAN1 : Z := Z.shiftl 1 13.
Definition CLKPWR_PCONP_PCAN2 : Z := Z.shiftl 1 14.
Definition CLKPWR_PCONP_PCI2C0 : Z := Z.shiftl 1 7.
Definition CLKPWR_PCONP_PCI2C1 : Z := Z.shiftl 1 19.
Definition CLKPWR_PCONP_PCI2C2 : Z := Z.shiftl 1 26.
Definition CLKPWR_PCLKSEL_I2C0 : Z := 14.
Definition CLKPWR_PCLKSEL_I2C1 : Z := 38.
Definition CLKPWR_PCLKSEL_I2C2 : Z := 52.
Definition CLKPWR_PCLKSEL_CCLK_DIV_4 : Z := 0.
Definition CLKPWR_PCLKSEL_CCLK_DIV_2 : Z := 2.
Definition CLKPWR_PCONP_BITMASK : Z := 0xEFEFF7DE.

Definition CLKPWR_SetPCLKDiv (ClkType DivVal : Z) : M sc_st unit :=
  let bitpos := if ClkType <? 32 then ClkType else ClkType - 32 in
  if ClkType <? 32 then
    modify (fun s : sc_st => s{{ PCLKSEL0 :=
      Z.lor (clear_bits (PCLKSEL0 s) (lsl 3 bitpos)) (lsl DivVal bitpos) }})
  else
    modify (fun s : sc_st => s{{ PCLKSEL1 :=
      Z.lor (clear_bits (PCLKSEL1 s) (lsl 3 bitpos)) (lsl DivVal bitpos) }}).

Definition CLKPWR_GetPCLKSEL (ClkType : Z) : M sc_st Z :=
  s ← get;
  mret (if ClkType <? 32 then Z.land (lsr (PCLKSEL0 s) ClkType) 3
        else Z.land (lsr (PCLKSEL1 s) (ClkType - 32)) 3).

Definition CLKPWR_GetPCLK (ClkType : Z) : M sc_st Z :=
  clk ← gets SystemCoreClock;
  div ← CLKPWR_GetPCLKSEL ClkType;
  let div := if div =? 0 then 4 else if div =? 1 then 1 else if div =? 2 then 2
             else if div =? 3 then 8 else div in
  mret (clk / div).

Definition CLKPWR_ConfigPPWR (PPType : Z) (enable : bool) : M sc_st unit :=
  modify (fun s : sc_st => s{{ PCONP :=
    if enable then Z.lor (PCONP s) (Z.land PPType CLKPWR_PCONP_BITMASK)
    else Z.land (PCONP s) (Z.land (Z.lnot PPType) CLKPWR_PCONP_BITMASK) }}).
