(* ===== verification/Demo.v ===== *)
(** * The demo program

    demo_aoa_can/src: main.c (the RGB fade that runs on the board), pwm.c, timer.c and
    GPIO.c, with the pin block, the pulse width unit, the timers and the system tick
    they drive. *)

From S2P Require Import Prelude Clkpwr.

(** ** Registers *)

(** [PMR] is the seven match registers MR0..MR6. *)
Record pwm_regs : Type := mk_pwm {
  PIR : Z; PTCR : Z; PPR : Z; PMCR : Z; PMR : list Z; PPCR : Z; PLER : Z
}.
#[export] Instance eta_pwm_regs : Settable pwm_regs :=
  fun s => mk_pwm (PIR s) (PTCR s) (PPR s) (PMCR s) (PMR s) (PPCR s) (PLER s).

Record tim_regs : Type := mk_tim {
  TIR : Z; TTCR : Z; TTC : Z; TPR : Z; TMCR : Z; TMR0 : Z; TMR1 : Z; TEMR : Z
}.
#[export] Instance eta_tim_regs : Settable tim_regs :=
  fun s => mk_tim (TIR s) (TTCR s) (TTC s) (TPR s) (TMCR s) (TMR0 s) (TMR1 s) (TEMR s).

(** The counters of one timer: match 0 and 1, capture 0 and 1. *)
Record tim_counts : Type := mk_counts { cnt_m0 : Z; cnt_m1 : Z; cnt_c0 : Z; cnt_c1 : Z }.
#[export] Instance eta_tim_counts : Settable tim_counts :=
  fun s => mk_counts (cnt_m0 s) (cnt_m1 s) (cnt_c0 s) (cnt_c1 s).

Record systick_st : Type := mk_systick { LOAD : Z; CTRL : Z }.

(** [pincon] is the words of the pin block from PINSEL0 on, [fiodir] the direction
    registers of the ports.  [polls] lists, poll by poll, what passes before a poll in a
    waiting loop: system ticks, or clocks of the timers.  [duty] records each compare
    value written, with the number of ticks served before. *)
Record dworld : Type := mk_dworld {
  dsc : sc_st;
  pincon : list Z;
  fiodir : list Z;
  pwm : pwm_regs;
  tims : list tim_regs;
  counts : list tim_counts;
  match_counter1 : Z;
  irqs : list Z;
  systick : systick_st;
  msTicks : Z;
  polls : list nat;
  ticked : Z;
  duty : list (Z * Z * Z)
}.
#[export] Instance eta_dworld : Settable dworld :=
  fun s => mk_dworld (dsc s) (pincon s) (fiodir s) (pwm s) (tims s) (counts s)
    (match_counter1 s) (irqs s) (systick s) (msTicks s) (polls s) (ticked s) (duty s).

Definition dset (f : dworld -> dworld) : M dworld unit := modify f.
Definition pwm_set (f : pwm_regs -> pwm_regs) : M dworld unit :=
  dset (fun w : dworld => w{{ pwm := f (pwm w) }}).
Definition pin_get (i : Z) : M dworld Z := ps ← gets pincon; aget ps i.
Definition pin_set (i v : Z) : M dworld unit :=
  ps ← gets pincon;
  ps' ← aset ps i v;
  dset (fun w : dworld => w{{ pincon := ps' }}).
Definition NVIC_EnableIRQ (irq : Z) : M dworld unit :=
  dset (fun w : dworld => w{{ irqs := irq :: irqs w }}).

Definition PINSEL0 : Z := 0.
Definition PINSEL3 : Z := 3.
Definition PINSEL4 : Z := 4.
Definition PINMODE0 : Z := 16.
Definition PINMODE_OD0 : Z := 26.
Definition PWM1_IRQn : Z := 9.
Definition TIMER0_IRQn : Z := 1.

(** ** pwm.c *)

Definition MR0_INT : Z := Z.shiftl 1 0.
Definition TCR_CNT_EN : Z := 0x00000001.
Definition TCR_RESET : Z := 0x00000002.
Definition TCR_PWM_EN : Z := 0x00000008.
Definition PWMMR0I : Z := Z.shiftl 1 0.
Definition PWMENA (n : Z) : Z := Z.shiftl 1 (8 + n).
Definition LER_EN (n : Z) : Z := Z.shiftl 1 n.

Definition or_all (l : list Z) : Z := foldr Z.lor 0 l.

(** A one written to a flag of the interrupt register clears it. *)
Definition PWM1_IRQHandler : M dworld unit :=
  regVal ← gets (fun w => PIR (pwm w));
  when (negb (Z.land regVal MR0_INT =? 0))
    (dset (fun w : dworld => w{{ match_counter1 := u32 (match_counter1 w + 1) }})) ;;
  pwm_set (fun p => p{{ PIR := clear_bits (PIR p) (Z.lor (PIR p) regVal) }}).

Definition PWM_Init (ChannelNum PWMPortNum cycle : Z) : M dworld bool :=
  if ChannelNum =? 1 then
    dset (fun w : dworld => w{{ match_counter1 := 0 }}) ;;
    when ((1 <=? PWMPortNum) && (PWMPortNum <=? 6))
      (v ← pin_get PINSEL4;
       pin_set PINSEL4 (Z.lor v (Z.shiftl 1 (2 * (PWMPortNum - 1))))) ;;
    mr ← gets (fun w => PMR (pwm w));
    mr ← aset mr 0 cycle;
    pwm_set (fun p => p{{ PTCR := TCR_RESET; PPR := 0; PMCR := PWMMR0I; PMR := mr;
                          PLER := or_all (LER_EN <$> range 7) }}) ;;
    NVIC_EnableIRQ PWM1_IRQn ;;
    mret true
  else mret false.

Definition PWM_Set (ChannelNum PWMPortNum offset : Z) : M dworld unit :=
  if ChannelNum =? 1 then
    when ((1 <=? PWMPortNum) && (PWMPortNum <=? 6))
      (mr ← gets (fun w => PMR (pwm w));
       mr ← aset mr PWMPortNum offset;
       pwm_set (fun p => p{{ PMR := mr; PLER := LER_EN PWMPortNum }}) ;;
       dset (fun w : dworld => w{{ duty := duty w ++ [(ticked w, PWMPortNum, offset)] }}))
  else mret tt.

Definition PWM_Start (channelNum : Z) : M dworld unit :=
  when (channelNum =? 1)
    (pwm_set (fun p => p{{ PPCR := or_all (PWMENA <$> [1; 2; 3; 4; 5; 6]);
                           PTCR := Z.lor TCR_CNT_EN TCR_PWM_EN }})).

Definition PWM_Stop (channelNum : Z) : M dworld unit :=
  when (channelNum =? 1) (pwm_set (fun p => p{{ PPCR := 0; PTCR := 0 }})).

(** ** main.c *)

Definition SysTick_LOAD_RELOAD_Msk : Z := 0xffffff.

Definition SysTick_Config (ticks : Z) : M dworld Z :=
  if SysTick_LOAD_RELOAD_Msk <? ticks then mret 1
  else
    dset (fun w : dworld => w{{ systick :=
      mk_systick (u32 (Z.land ticks SysTick_LOAD_RELOAD_Msk - 1)) 7 }}) ;;
    mret 0.

Definition SysTick_Handler : M dworld unit :=
  t ← gets msTicks;
  when (negb (t =? 0)) (dset (fun w : dworld => w{{ msTicks := u32 (msTicks w - 1) }})).

(** The system ticks that come before a poll. *)
Definition next_poll : M dworld nat := fun w =>
  match polls w with
  | [] => Ok (0%nat, w)
  | n :: ps => Ok (n, w{{ polls := ps }})
  end.

Definition tick_served : M dworld unit :=
  SysTick_Handler ;; dset (fun w : dworld => w{{ ticked := ticked w + 1 }}).

Definition wait_ms (fuel : nat) : M dworld unit :=
  dset (fun w : dworld => w{{ msTicks := 1 }}) ;;
  while fuel (fun _ =>
    n ← next_poll;
    foreach (replicate n tt) (fun _ => tick_served) ;;
    t ← gets msTicks;
    mret (if t =? 0 then Break tt else Continue tt)) tt.

Definition PWM_CYCLE_MAIN : Z := 1000.

(** [for (c = 1000; c > 1; c--)] and [for (c = 0; c < 1000; c++)]. *)
Definition fade_on (fuel : nat) (port : Z) : M dworld unit :=
  while 1001 (fun c =>
    if 1 <? c then
      PWM_Set 1 port c ;; wait_ms fuel ;; mret (Continue (u32 (c - 1)))
    else mret (Break tt)) 1000.

Definition fade_off (fuel : nat) (port : Z) : M dworld unit :=
  while 1001 (fun c =>
    if c <? 1000 then
      PWM_Set 1 port c ;; wait_ms fuel ;; mret (Continue (u32 (c + 1)))
    else mret (Break tt)) 0.

(** One turn of the endless loop. *)
Definition fade_round (fuel : nat) : M dworld unit :=
  foreach [4; 5; 6] (fade_on fuel) ;; foreach [4; 5; 6] (fade_off fuel).

Definition main_init : M dworld unit :=
  clk ← gets (fun w => SystemCoreClock (dsc w));
  _ ← SysTick_Config (clk / 1000);
  foreach [4; 5; 6] (fun port => _ ← PWM_Init 1 port PWM_CYCLE_MAIN; mret tt) ;;
  foreach [4; 5; 6] (fun port => PWM_Set 1 port 1000) ;;
  PWM_Start 1.

(** The program up to the end of the given turn. *)
Definition main (fuel rounds : nat) : M dworld unit :=
  main_init ;; foreach (replicate rounds tt) (fun _ => fade_round fuel).

(** ** timer.c *)

Definition tim_get (n : Z) : M dworld tim_regs := ts ← gets tims; aget ts n.
Definition tim_set (n : Z) (f : tim_regs -> tim_regs) : M dworld unit :=
  ts ← gets tims;
  t ← aget ts n;
  ts' ← aset ts n (f t);
  dset (fun w : dworld => w{{ tims := ts' }}).
Definition count_set (n : Z) (f : tim_counts -> tim_counts) : M dworld unit :=
  cs ← gets counts;
  c ← aget cs n;
  cs' ← aset cs n (f c);
  dset (fun w : dworld => w{{ counts := cs' }}).

(** A write to the control register: the reset bit holds the counter at 0. *)
Definition write_TCR (v : Z) (t : tim_regs) : tim_regs :=
  let t := t{{ TTCR := v }} in if Z.testbit v 1 then t{{ TTC := 0 }} else t.

(** A one written to a flag clears it. *)
Definition write_IR (v : Z) (t : tim_regs) : tim_regs := t{{ TIR := clear_bits (TIR t) v }}.

(** One clock of a running timer without prescaler: at the match it does what the
    match control register says (interrupt, reset, stop), else it counts. *)
Definition tim_clock (t : tim_regs) : tim_regs :=
  if negb (TTCR t =? 1) then t
  else if TTC t =? TMR0 t then
    t{{ TIR := if Z.testbit (TMCR t) 0 then Z.lor (TIR t) 1 else TIR t;
        TTC := if Z.testbit (TMCR t) 1 then 0
               else if Z.testbit (TMCR t) 2 then TTC t else u32 (TTC t + 1);
        TTCR := if Z.testbit (TMCR t) 2 then 0 else TTCR t }}
  else t{{ TTC := u32 (TTC t + 1) }}.

Definition udiv (a b : Z) : M dworld Z := if b =? 0 then fail DivByZero else mret (a / b).

Definition is_timer (n : Z) : bool := (0 <=? n) && (n <=? 3).

(** [while (LPC_TIMn->TCR & 0x01);] *)
Definition wait_timer (fuel : nat) (n : Z) : M dworld unit :=
  while fuel (fun _ =>
    k ← next_poll;
    dset (fun w : dworld => w{{ tims := fmap (Nat.iter k tim_clock) (tims w) }}) ;;
    t ← tim_get n;
    mret (if Z.land (TTCR t) 1 =? 0 then Break tt else Continue tt)) tt.

(** The four branches differ in the timer only, but all of them set the match value of
    timer 0. *)
Definition delayMs (fuel : nat) (timer_num delayInMs : Z) : M dworld unit :=
  if is_timer timer_num then
    tim_set timer_num (write_TCR 2) ;;
    tim_set timer_num (fun t => t{{ TPR := 0 }}) ;;
    clk ← gets (fun w => SystemCoreClock (dsc w));
    q ← udiv 1000 delayInMs;
    m ← udiv (clk / 4) q;
    tim_set 0 (fun t => t{{ TMR0 := m }}) ;;
    tim_set timer_num (write_IR 0xff) ;;
    tim_set timer_num (fun t => t{{ TMCR := 4 }}) ;;
    tim_set timer_num (write_TCR 1) ;;
    wait_timer fuel timer_num
  else mret tt.

(** Each flag is read again after the one before was cleared. *)
Definition TIMER_flag (n bit : Z) (count : tim_counts -> tim_counts) : M dworld unit :=
  t ← tim_get n;
  when (negb (Z.land (TIR t) (Z.shiftl 1 bit) =? 0))
    (tim_set n (write_IR (Z.shiftl 1 bit)) ;; count_set n count).

Definition TIMER_interrupt (n : Z) : M dworld unit :=
  TIMER_flag n 0 (fun c => c{{ cnt_m0 := u32 (cnt_m0 c + 1) }}) ;;
  TIMER_flag n 1 (fun c => c{{ cnt_m1 := u32 (cnt_m1 c + 1) }}) ;;
  TIMER_flag n 4 (fun c => c{{ cnt_c0 := u32 (cnt_c0 c + 1) }}) ;;
  TIMER_flag n 5 (fun c => c{{ cnt_c1 := u32 (cnt_c1 c + 1) }}).

Definition TIMER0_interrupt : M dworld unit := TIMER_interrupt 0.
Definition TIMER1_interrupt : M dworld unit := TIMER_interrupt 1.
Definition TIMER2_interrupt : M dworld unit := TIMER_interrupt 2.
Definition TIMER3_interrupt : M dworld unit := TIMER_interrupt 3.

Definition enable_timer (timer_num : Z) : M dworld unit :=
  when (is_timer timer_num) (tim_set timer_num (write_TCR 1)).

(** For timer 3 the code stops timer 2. *)
Definition disable_timer (timer_num : Z) : M dworld unit :=
  when (is_timer timer_num)
    (tim_set (if timer_num =? 3 then 2 else timer_num) (write_TCR 0)).

Definition reset_timer (timer_num : Z) : M dworld unit :=
  when (is_timer timer_num)
    (t ← tim_get timer_num; tim_set timer_num (write_TCR (Z.lor (TTCR t) 2))).

(** The power bits of the timers and the bits of PINSEL3 set for each. *)
Definition tim_power (n : Z) : Z :=
  if n =? 0 then 1 else if n =? 1 then 2 else if n =? 2 then 22 else 23.
Definition tim_pins (n : Z) : Z :=
  if n =? 0 then Z.lor (Z.shiftl 3 24) (Z.shiftl 3 26)
  else Z.lor (Z.shiftl 3 12) (Z.shiftl 3 18).

(** Built with TIMER_MATCH. *)
Definition TimerInit (timer_num TimerInterval : Z) : M dworld bool :=
  if is_timer timer_num then
    count_set timer_num (fun _ => mk_counts 0 0 0 0) ;;
    dset (fun w : dworld => w{{ dsc := (dsc w){{ PCONP :=
      Z.lor (PCONP (dsc w)) (Z.shiftl 1 (tim_power timer_num)) }} }}) ;;
    v ← pin_get PINSEL3;
    pin_set PINSEL3 (clear_bits v (tim_pins timer_num)) ;;
    v ← pin_get PINSEL3;
    pin_set PINSEL3 (Z.lor v (tim_pins timer_num)) ;;
    tim_set timer_num (write_IR 0x0f) ;;
    tim_set timer_num (fun t => t{{ TPR := 0; TMR0 := TimerInterval / 4;
      TMR1 := TimerInterval / 4;
      TEMR := Z.lor (clear_bits (TEMR t) (Z.shiftl 0xff 4)) (Z.lor (Z.shiftl 3 4) (Z.shiftl 3 6));
      TMCR := Z.lor 3 (Z.shiftl 3 3) }}) ;;
    NVIC_EnableIRQ (TIMER0_IRQn + timer_num) ;;
    mret true
  else mret false.

(** ** GPIO.c *)

Definition GPIO_SetPinFunc (portNum pinNum func : Z) : M dworld unit :=
  let pinNum_t := if 16 <=? pinNum then pinNum - 16 else pinNum in
  let idx := if 16 <=? pinNum then 2 * portNum + 1 else 2 * portNum in
  v ← pin_get (PINSEL0 + idx);
  pin_set (PINSEL0 + idx) (clear_bits v (Z.shiftl 3 (pinNum_t * 2))) ;;
  v ← pin_get (PINSEL0 + idx);
  pin_set (PINSEL0 + idx) (Z.lor v (Z.shiftl func (pinNum_t * 2))).

Definition GPIO_SetResistorMode (portNum pinNum resMode : Z) : M dworld unit :=
  if (portNum =? 0) && (27 <=? pinNum) && (pinNum <=? 30) then mret tt
  else
    let pinNum_t := if 16 <=? pinNum then pinNum - 16 else pinNum in
    let idx := if 16 <=? pinNum then 2 * portNum + 1 else 2 * portNum in
    v ← pin_get (PINMODE0 + idx);
    pin_set (PINMODE0 + idx) (clear_bits v (Z.shiftl 3 (pinNum_t * 2))) ;;
    v ← pin_get (PINMODE0 + idx);
    pin_set (PINMODE0 + idx) (Z.lor v (Z.shiftl resMode (pinNum_t * 2))).

Definition OPEN_DRAIN : Z := 1.

Definition GPIO_SetOpenDrainMode (portNum pinNum odMode : Z) : M dworld unit :=
  if (portNum =? 0) && (27 <=? pinNum) && (pinNum <=? 28) then mret tt
  else
    v ← pin_get (PINMODE_OD0 + portNum);
    pin_set (PINMODE_OD0 + portNum)
      (if odMode =? OPEN_DRAIN then Z.lor v (Z.shiftl 1 pinNum)
       else clear_bits v (Z.shiftl 1 pinNum)).

Definition DIR_IN : Z := 0.

Definition GPIO_SETpINdIR (portNum pinNum dir : Z) : M dworld unit :=
  ds ← gets fiodir;
  v ← aget ds portNum;
  ds' ← aset ds portNum (if dir =? DIR_IN then clear_bits v (Z.shiftl 1 pinNum)
                         else Z.lor v (Z.shiftl 1 pinNum));
  dset (fun w : dworld => w{{ fiodir := ds' }}).

Definition DAFAULT_FUNC : Z := 0.

Definition GPIO_InitPinAsGPIO (portNum pinNum dir resMode odMode : Z) : M dworld unit :=
  GPIO_SetPinFunc portNum pinNum DAFAULT_FUNC ;;
  GPIO_SETpINdIR portNum pinNum dir ;;
  GPIO_SetResistorMode portNum pinNum resMode ;;
  GPIO_SetOpenDrainMode portNum pinNum odMode.

Definition GPIO_InitPinNotAsGPIO (portNum pinNum func resMode odMode : Z) : M dworld unit :=
  GPIO_SetPinFunc portNum pinNum func ;;
  GPIO_SetResistorMode portNum pinNum resMode ;;
  GPIO_SetOpenDrainMode portNum pinNum odMode.
