(* ===== verification/DemoFacts.v ===== *)
(** * The demo program: theorems

    The fade writes the ramps it is meant to write and lets a system tick pass between
    two steps; a delay on timer 0 is never short; a pin is configured without touching
    another. *)

From S2P Require Import Prelude Clkpwr Demo.

(** ** Steps *)

Lemma dset_run f w : dset f w = Ok (tt, f w).
Proof. reflexivity. Qed.

Lemma pin_get_run i v (w : dworld) :
  0 <= i -> pincon w !! Z.to_nat i = Some v -> pin_get i w = Ok (v, w).
Proof. intros Hi Hv. unfold pin_get. erewrite bind_ok; [|reflexivity]. by apply aget_ok. Qed.

Lemma pin_set_run i v (w : dworld) :
  0 <= i < Z.of_nat (length (pincon w)) ->
  pin_set i v w = Ok (tt, w{{ pincon := <[Z.to_nat i := v]> (pincon w) }}).
Proof.
  intros Hi. unfold pin_set. erewrite bind_ok; [|reflexivity].
  erewrite bind_ok; [|by apply aset_ok]. reflexivity.
Qed.

(** ** Waiting for a tick *)

(** The polls hold the ticks for [n] waits: each ends within [fuel] polls. *)
Inductive lively (fuel : nat) : nat -> list nat -> Prop :=
| lively_O ps : lively fuel 0 ps
| lively_S n zs m ps :
    Forall (eq 0%nat) zs -> (length zs < fuel)%nat -> m <> 0%nat -> lively fuel n ps ->
    lively fuel (S n) (zs ++ m :: ps).

Definition tick_body (_ : unit) : M dworld (ctl unit unit) :=
  n ← next_poll;
  foreach (replicate n tt) (fun _ => tick_served) ;;
  t ← gets msTicks;
  mret (if t =? 0 then Break tt else Continue tt).

(** What ticks change. *)
Definition tick_w (t : Z) (k : Z) (ps : list nat) (w : dworld) : dworld :=
  w{{ msTicks := t; ticked := k; polls := ps }}.

Lemma tick_served_1 (w : dworld) :
  msTicks w = 1 -> tick_served w = Ok (tt, tick_w 0 (ticked w + 1) (polls w) w).
Proof. intros H. unfold tick_served, SysTick_Handler. destruct w; simpl in *. by subst. Qed.

Lemma tick_served_0 (w : dworld) :
  msTicks w = 0 -> tick_served w = Ok (tt, tick_w 0 (ticked w + 1) (polls w) w).
Proof. intros H. unfold tick_served, SysTick_Handler. destruct w; simpl in *. by subst. Qed.

Lemma ticks_served n (w : dworld) :
  msTicks w = 0 ->
  foreach (replicate n tt) (fun _ => tick_served) w =
  Ok (tt, tick_w 0 (ticked w + Z.of_nat n) (polls w) w).
Proof.
  revert w. induction n as [|n IH]; intros w H.
  - simpl. destruct w; simpl in *. subst. unfold tick_w. simpl. by rewrite Z.add_0_r.
  - cbn [replicate foreach]. erewrite bind_ok; [|by apply tick_served_0]. rewrite IH by done.
    destruct w; simpl. unfold tick_w. simpl. do 3 f_equal. lia.
Qed.

Lemma tick_body_idle ps (w : dworld) :
  polls w = 0%nat :: ps -> msTicks w = 1 ->
  tick_body tt w = Ok (Continue tt, tick_w 1 (ticked w) ps w).
Proof. intros Hp Ht. unfold tick_body, next_poll. destruct w; simpl in *. by subst. Qed.

Lemma tick_body_tick m ps (w : dworld) :
  polls w = S m :: ps -> msTicks w = 1 ->
  tick_body tt w = Ok (Break tt, tick_w 0 (ticked w + Z.of_nat (S m)) ps w).
Proof.
  intros Hp Ht. unfold tick_body. erewrite bind_ok; [|unfold next_poll; by rewrite Hp].
  erewrite bind_ok; [|cbn [replicate foreach]; erewrite bind_ok;
    [apply ticks_served|by apply tick_served_1]; done].
  erewrite bind_ok; [|reflexivity]. destruct w; simpl. unfold tick_w, mret, M_ret. simpl.
  do 3 f_equal. lia.
Qed.

Lemma wait_polls fuel zs m ps (w : dworld) :
  Forall (eq 0%nat) zs -> (length zs < fuel)%nat -> polls w = zs ++ S m :: ps ->
  msTicks w = 1 ->
  while fuel tick_body tt w = Ok (tt, tick_w 0 (ticked w + Z.of_nat (S m)) ps w).
Proof.
  intros Hz. revert fuel w. induction Hz as [|z zs <- Hz IH]; intros fuel w Hf Hp Ht;
    (destruct fuel as [|fuel]; [simpl in Hf; lia|]); cbn [while].
  - erewrite bind_ok; [|by apply tick_body_tick]. reflexivity.
  - erewrite bind_ok; [|by apply tick_body_idle]. cbv beta iota. rewrite IH; [|simpl in *; lia|done|done].
    by destruct w.
Qed.

(** ** A step of the fade *)

(** The compare values written, with their ticks, from [lo] on and a tick apart. *)
Fixpoint spaced (lo : Z) (d : list (Z * Z * Z)) (hi : Z) : Prop :=
  match d with
  | [] => lo <= hi
  | (t, _, _) :: d' => lo <= t /\ spaced (t + 1) d' hi
  end.

Definition shown (x : Z * Z * Z) : Z * Z := (x.1.2, x.2).

Definition pwm_ok (w : dworld) : Prop :=
  length (PMR (pwm w)) = 7%nat /\ PMR (pwm w) !! 0%nat = Some PWM_CYCLE_MAIN.

(** The run from [w] to [w'] writes the compare values [l], a tick between them, and
    leaves ticks for [n] more waits. *)
Definition plays (fuel n : nat) (l : list (Z * Z)) (w w' : dworld) : Prop :=
  exists d, duty w' = duty w ++ d /\ shown <$> d = l /\
    spaced (ticked w) d (ticked w') /\ pwm_ok w' /\ lively fuel n (polls w').

Lemma spaced_app lo mid hi d1 d2 :
  spaced lo d1 mid -> spaced mid d2 hi -> spaced lo (d1 ++ d2) hi.
Proof.
  revert lo. induction d1 as [|[[t p] o] d1 IH]; intros lo; simpl.
  - intros H. destruct d2 as [|[[t p] o] d2]; simpl; [lia|]. intros [? ?]. split; [lia|done].
  - intros [? ?] H2. split; [done|]. by apply IH.
Qed.

Lemma plays_trans fuel n1 n2 l1 l2 w w1 w2 :
  plays fuel n1 l1 w w1 -> plays fuel n2 l2 w1 w2 -> plays fuel n2 (l1 ++ l2) w w2.
Proof.
  intros (d1 & H1 & <- & Hs1 & _) (d2 & H2 & <- & Hs2 & Hok & Hl).
  exists (d1 ++ d2). rewrite H2, H1, app_assoc, fmap_app.
  split; [done|]. split; [done|]. split; [by eapply spaced_app|done].
Qed.

Lemma plays_nil fuel n w : pwm_ok w -> lively fuel n (polls w) -> plays fuel n [] w w.
Proof. intros. exists []. rewrite app_nil_r. simpl. auto with lia. Qed.

Lemma step_plays fuel n port c w :
  pwm_ok w -> lively fuel (S n) (polls w) -> 1 <= port <= 6 ->
  exists w', (PWM_Set 1 port c ;; wait_ms fuel) w = Ok (tt, w') /\
    plays fuel n [(port, c)] w w'.
Proof.
  intros [Hl H0] Hlv Hp. inversion Hlv as [|? zs m ps Hz Hf Hm Hn Hn' Hps]; subst.
  destruct m as [|m]; [done|].
  assert (PWM_Set 1 port c w = Ok (tt, w{{ pwm := (pwm w){{ PMR := <[Z.to_nat port := c]> (PMR (pwm w));
    PLER := LER_EN port }}; duty := duty w ++ [(ticked w, port, c)] }})) as Hset.
  { unfold PWM_Set. simpl. replace ((1 <=? port) && (port <=? 6)) with true by lia. cbn [when].
    erewrite bind_ok; [|reflexivity]. erewrite bind_ok; [|apply aset_ok; lia]. reflexivity. }
  erewrite bind_ok; [|exact Hset]. unfold wait_ms. erewrite bind_ok; [|reflexivity].
  fold tick_body. erewrite wait_polls; [|exact Hz|exact Hf|symmetry; exact Hps|done].
  eexists. split; [reflexivity|]. exists [(ticked w, port, c)]. destruct w as [? ? ? pw].
  destruct pw. simpl in *.
  split; [done|]. split; [done|]. split; [lia|]. split; [|done]. split; simpl.
  - by rewrite length_insert.
  - rewrite list_lookup_insert_ne by lia. done.
Qed.

(** ** The ramps *)

Fixpoint ramp (port c step : Z) (k : nat) : list (Z * Z) :=
  match k with O => [] | S k' => (port, c) :: ramp port (c + step) step k' end.

Definition ramp_on (port : Z) : list (Z * Z) := ramp port 1000 (-1) 999.
Definition ramp_off (port : Z) : list (Z * Z) := ramp port 0 1 1000.
Definition round_spec : list (Z * Z) :=
  ramp_on 4 ++ ramp_on 5 ++ ramp_on 6 ++ ramp_off 4 ++ ramp_off 5 ++ ramp_off 6.
Definition round_waits : nat := (999 + (999 + (999 + 0))) + (1000 + (1000 + (1000 + 0))).

Section Ramps.
Variable fuel : nat.

(** A run that plays [l], whatever waits come after. *)
Definition performs (m : M dworld unit) (k : nat) (l : list (Z * Z)) : Prop :=
  forall n w, pwm_ok w -> lively fuel (k + n) (polls w) ->
  exists w', m w = Ok (tt, w') /\ plays fuel n l w w'.

Lemma performs_bind m1 m2 k1 k2 l1 l2 :
  performs m1 k1 l1 -> performs m2 k2 l2 -> performs (m1 ;; m2) (k1 + k2) (l1 ++ l2).
Proof.
  intros H1 H2 n w Hok Hl. rewrite <- Nat.add_assoc in Hl.
  destruct (H1 _ _ Hok Hl) as (w1 & Hr1 & Hp1). pose proof Hp1 as (_ & _ & _ & _ & Hok1 & Hl1).
  destruct (H2 _ _ Hok1 Hl1) as (w2 & Hr2 & Hp2). exists w2.
  split; [by rewrite (bind_ok _ _ _ _ _ Hr1)|]. by eapply plays_trans.
Qed.

Lemma performs_ret : performs (mret tt) 0 [].
Proof. intros n w Hok Hl. exists w. split; [done|]. by apply plays_nil. Qed.

(** A counted loop that shows one value a turn. *)
Lemma performs_loop (port step : Z) (cond : Z -> bool) (next : Z -> Z) :
  1 <= port <= 6 ->
  forall k turns c,
  (k < turns)%nat ->
  (forall i, (i < k)%nat -> cond (c + step * Z.of_nat i) = true /\
    next (c + step * Z.of_nat i) = c + step * Z.of_nat (S i)) ->
  cond (c + step * Z.of_nat k) = false ->
  performs (while turns (fun c =>
    if cond c then PWM_Set 1 port c ;; wait_ms fuel ;; mret (Continue (next c))
    else mret (Break tt)) c) k (ramp port c step k).
Proof.
  intros Hp. induction k as [|k IH]; intros turns c Ht Hc He n w Hok Hl;
    (destruct turns as [|turns]; [lia|]); cbn [while ramp].
  - rewrite Z.mul_0_r, Z.add_0_r in He. rewrite He. exists w.
    split; [done|]. by apply plays_nil.
  - destruct (Hc 0%nat) as [H0 Hn]; [lia|]. rewrite Z.mul_0_r, Z.add_0_r in H0, Hn. rewrite H0.
    destruct (step_plays fuel (k + n) port c w Hok Hl Hp) as (w1 & Hr1 & Hp1).
    pose proof Hp1 as (_ & _ & _ & _ & Hok1 & Hl1).
    replace (c + step * Z.of_nat 1) with (c + step) in Hn by lia.
    destruct (IH turns (c + step)) with (n := n) (w := w1) as (w2 & Hr2 & Hp2);
      [lia| | |exact Hok1|exact Hl1|].
    + intros i Hi. destruct (Hc (S i)) as [Hci Hni]; [lia|].
      replace (c + step + step * Z.of_nat i) with (c + step * Z.of_nat (S i)) by lia.
      rewrite Hci, Hni. split; [done|]. lia.
    + rewrite <- He. f_equal. lia.
    + exists w2. split; [|by eapply (plays_trans _ _ _ [_])].
      rewrite <- Hr2, <- Hn. clear -Hr1.
      unfold mbind, M_bind, mret, M_ret in *.
      destruct (PWM_Set 1 port c w) as [[? ?]|]; [|done]. by rewrite Hr1.
Qed.

Lemma fade_on_performs port : 1 <= port <= 6 -> performs (fade_on fuel port) 999 (ramp_on port).
Proof.
  intros Hp. apply (performs_loop port (-1) (fun c => 1 <? c) (fun c => u32 (c - 1)) Hp);
    [lia| |done].
  intros i Hi. unfold u32. rewrite Z.mod_small by lia. split; lia.
Qed.

Lemma fade_off_performs port : 1 <= port <= 6 -> performs (fade_off fuel port) 1000 (ramp_off port).
Proof.
  intros Hp. apply (performs_loop port 1 (fun c => c <? 1000) (fun c => u32 (c + 1)) Hp);
    [lia| |done].
  intros i Hi. unfold u32. rewrite Z.mod_small by lia. split; lia.
Qed.

Lemma round_performs : performs (fade_round fuel) round_waits round_spec.
Proof.
  unfold fade_round, round_spec. cbn [foreach].
  unfold round_waits.
  replace (ramp_on 4 ++ _) with ((ramp_on 4 ++ ramp_on 5 ++ ramp_on 6 ++ []) ++
    (ramp_off 4 ++ ramp_off 5 ++ ramp_off 6 ++ [])) by (by rewrite !app_nil_r, <- !app_assoc).
  repeat match goal with
  | |- performs (fade_on _ _) _ _ => by apply fade_on_performs
  | |- performs (fade_off _ _) _ _ => by apply fade_off_performs
  | |- performs (mret tt) _ _ => apply performs_ret
  | |- performs _ _ _ => apply performs_bind
  end.
Qed.

Lemma rounds_perform r :
  performs (foreach (replicate r tt) (fun _ => fade_round fuel)) (r * round_waits)
    (concat (replicate r round_spec)).
Proof.
  induction r as [|r IH]; [apply performs_ret|]. cbn [replicate foreach concat Nat.mul].
  apply performs_bind; [apply round_performs|exact IH].
Qed.
End Ramps.

(** ** The program *)

Definition demo_ready (w : dworld) : Prop :=
  length (pincon w) = 32%nat /\ length (PMR (pwm w)) = 7%nat /\ duty w = [].

Lemma PWM_Init_run port cycle w :
  1 <= port <= 6 -> length (pincon w) = 32%nat -> length (PMR (pwm w)) = 7%nat ->
  exists w', PWM_Init 1 port cycle w = Ok (true, w') /\
    length (pincon w') = 32%nat /\ length (PMR (pwm w')) = 7%nat /\
    PMR (pwm w') !! 0%nat = Some cycle /\ duty w' = duty w /\ polls w' = polls w /\
    ticked w' = ticked w.
Proof.
  intros Hp Hpin Hmr. unfold PWM_Init. simpl. erewrite bind_ok; [|reflexivity].
  replace ((1 <=? port) && (port <=? 6)) with true by lia. cbn [when].
  destruct (lookup_lt_is_Some_2 (pincon w) (Z.to_nat PINSEL4)) as [v Hv];
    [rewrite Hpin; by vm_compute; lia|].
  erewrite bind_ok; [|erewrite bind_ok; [|by apply pin_get_run]; apply pin_set_run; destruct w; simpl in *; rewrite Hpin; by vm_compute].
  erewrite bind_ok; [|reflexivity]. erewrite bind_ok; [|apply aset_ok; simpl; lia].
  eexists. split; [reflexivity|]. destruct w as [? ? ? pw]. destruct pw. simpl in *.
  rewrite !length_insert. repeat split; try done. apply list_lookup_insert_eq. lia.
Qed.

Lemma PWM_Set_run port c w :
  1 <= port <= 6 -> pwm_ok w ->
  exists w', PWM_Set 1 port c w = Ok (tt, w') /\ pwm_ok w' /\
    duty w' = duty w ++ [(ticked w, port, c)] /\ polls w' = polls w /\ ticked w' = ticked w.
Proof.
  intros Hp [Hl H0]. unfold PWM_Set. simpl.
  replace ((1 <=? port) && (port <=? 6)) with true by lia. cbn [when].
  erewrite bind_ok; [|reflexivity]. erewrite bind_ok; [|apply aset_ok; lia].
  eexists. split; [reflexivity|]. destruct w as [? ? ? pw]. destruct pw. simpl in *.
  repeat split; simpl; [by rewrite length_insert|]. by rewrite list_lookup_insert_ne by lia.
Qed.

Lemma main_init_run w :
  demo_ready w ->
  exists w', main_init w = Ok (tt, w') /\ pwm_ok w' /\
    duty w' = [(ticked w, 4, 1000); (ticked w, 5, 1000); (ticked w, 6, 1000)] /\
    polls w' = polls w /\ ticked w' = ticked w.
Proof.
  intros (Hpin & Hmr & Hd). unfold main_init. erewrite bind_ok; [|reflexivity].
  assert (exists r w0, SysTick_Config (SystemCoreClock (dsc w) / 1000) w = Ok (r, w0) /\
    length (pincon w0) = 32%nat /\ length (PMR (pwm w0)) = 7%nat /\ duty w0 = duty w /\
    polls w0 = polls w /\ ticked w0 = ticked w) as (r & w0 & Hr & Hp0 & Hm0 & Hd0 & Hq0 & Ht0).
  { unfold SysTick_Config. destruct (_ <? _); (do 2 eexists; split; [reflexivity|]);
      by destruct w. }
  erewrite bind_ok; [|exact Hr]. cbn [foreach].
  destruct (PWM_Init_run 4 PWM_CYCLE_MAIN w0) as (w1 & H1 & Hp1 & Hm1 & _ & Hd1 & Hq1 & Ht1); [lia|done|done|].
  destruct (PWM_Init_run 5 PWM_CYCLE_MAIN w1) as (w2 & H2 & Hp2 & Hm2 & _ & Hd2 & Hq2 & Ht2); [lia|done|done|].
  destruct (PWM_Init_run 6 PWM_CYCLE_MAIN w2) as (w3 & H3 & Hp3 & Hm3 & Hc3 & Hd3 & Hq3 & Ht3); [lia|done|done|].
  erewrite bind_ok.
  2:{ erewrite bind_ok; [|erewrite bind_ok; [|exact H1]; reflexivity].
      erewrite bind_ok; [|erewrite bind_ok; [|exact H2]; reflexivity].
      erewrite bind_ok; [|erewrite bind_ok; [|exact H3]; reflexivity]. reflexivity. }
  destruct (PWM_Set_run 4 1000 w3) as (w4 & H4 & Ho4 & Hd4 & Hq4 & Ht4); [lia|done|].
  destruct (PWM_Set_run 5 1000 w4) as (w5 & H5 & Ho5 & Hd5 & Hq5 & Ht5); [lia|done|].
  destruct (PWM_Set_run 6 1000 w5) as (w6 & H6 & Ho6 & Hd6 & Hq6 & Ht6); [lia|done|].
  erewrite bind_ok.
  2:{ erewrite bind_ok; [|exact H4]. erewrite bind_ok; [|exact H5].
      erewrite bind_ok; [|exact H6]. reflexivity. }
  eexists. split; [reflexivity|]. destruct Ho6 as [Hl6 Hc6].
  split; [by split|]. split; [|split]; simpl.
  - rewrite Hd6, Hd5, Hd4, Hd3, Hd2, Hd1, Hd0, Hd, Ht5, Ht4, Ht3, Ht2, Ht1, Ht0. reflexivity.
  - by rewrite Hq6, Hq5, Hq4, Hq3, Hq2, Hq1.
  - by rewrite Ht6, Ht5, Ht4, Ht3, Ht2, Ht1.
Qed.

(** The demo program plays its fade: after switching the three colours off, each
    turn of the endless loop writes the ramps of green, blue and red from off to on and
    then from on to off, value by value in this order, and a system tick passes between
    two values, however the ticks fall between the polls of the waiting loops.  The
    period of the pulses stays as it was set. *)
Theorem main_fades fuel rounds w :
  demo_ready w -> lively fuel (rounds * round_waits) (polls w) ->
  exists w' d,
    main fuel rounds w = Ok (tt, w') /\
    duty w' = [(ticked w, 4, 1000); (ticked w, 5, 1000); (ticked w, 6, 1000)] ++ d /\
    shown <$> d = concat (replicate rounds round_spec) /\
    spaced (ticked w) d (ticked w') /\
    PMR (pwm w') !! 0%nat = Some PWM_CYCLE_MAIN.
Proof.
  intros Hr Hl. destruct (main_init_run w Hr) as (w0 & H0 & Hok & Hd & Hq & Ht).
  destruct (rounds_perform fuel rounds 0%nat w0 Hok) as (w1 & H1 & d & Hd1 & Hs & Hsp & [_ Hc] & _).
  { by rewrite Nat.add_0_r, Hq. }
  exists w1, d. split; [unfold main; by rewrite (bind_ok _ _ _ _ _ H0)|].
  rewrite Hd1, Hd. rewrite Ht in Hsp. done.
Qed.

(** ** Delays *)

Definition clocks (ps : list nat) : Z := foldr (fun n acc => Z.of_nat n + acc) 0 ps.

(** The timer of a delay, running for [c] clocks; stopped after its match. *)
Definition delay_tim (m c : Z) (t : tim_regs) : tim_regs :=
  if c <=? m then t{{ TTCR := 1; TTC := c }} else t{{ TTCR := 0; TTC := m }}.

Lemma tim_clock_delay m c t :
  TMR0 t = m -> TMCR t = 4 -> 0 <= c -> 0 <= m < 4294967295 ->
  tim_clock (delay_tim m c t) = delay_tim m (c + 1) t.
Proof.
  intros Hm Hc H0 Hb. unfold delay_tim, tim_clock. destruct t. simpl in *. subst.
  destruct (c <=? _) eqn:E, (c + 1 <=? _) eqn:E'; simpl; try lia; try done.
  - destruct (c =? _) eqn:E2; [lia|]. unfold u32. rewrite Z.mod_small by lia. done.
  - destruct (c =? _) eqn:E2; [|lia]. simpl. do 2 f_equal. lia.
Qed.

Lemma tim_clocks_delay m c t k :
  TMR0 t = m -> TMCR t = 4 -> 0 <= c -> 0 <= m < 4294967295 ->
  Nat.iter k tim_clock (delay_tim m c t) = delay_tim m (c + Z.of_nat k) t.
Proof.
  intros. induction k as [|k IH]; [simpl; by rewrite Z.add_0_r|].
  change (Nat.iter (S k) tim_clock (delay_tim m c t))
    with (tim_clock (Nat.iter k tim_clock (delay_tim m c t))).
  rewrite IH, tim_clock_delay by (done || lia). f_equal. lia.
Qed.

Lemma tim_get_run n t (w : dworld) :
  0 <= n -> tims w !! Z.to_nat n = Some t -> tim_get n w = Ok (t, w).
Proof. intros Hn Ht. unfold tim_get. erewrite bind_ok; [|reflexivity]. by apply aget_ok. Qed.

Lemma tim_set_run n f t (w : dworld) :
  0 <= n -> tims w !! Z.to_nat n = Some t ->
  tim_set n f w = Ok (tt, w{{ tims := <[Z.to_nat n := f t]> (tims w) }}).
Proof.
  intros Hn Ht. pose proof (lookup_lt_Some _ _ _ Ht). unfold tim_set.
  erewrite bind_ok; [|reflexivity]. erewrite bind_ok; [|by apply aget_ok].
  erewrite bind_ok; [|apply aset_ok; lia]. reflexivity.
Qed.

(** The wait ends with the poll that finds the match passed. *)
Lemma wait_timer_run fuel n t m c (w : dworld) :
  0 <= n -> TMR0 t = m -> TMCR t = 4 -> 0 <= c <= m -> m < 4294967295 ->
  tims w !! Z.to_nat n = Some (delay_tim m c t) -> m < c + clocks (take fuel (polls w)) ->
  exists j w', wait_timer fuel n w = Ok (tt, w') /\ polls w' = drop (S j) (polls w) /\
    c + clocks (take j (polls w)) <= m < c + clocks (take (S j) (polls w)).
Proof.
  intros Hn Hm Hc. revert c w. induction fuel as [|fuel IH]; intros c w Hcm Hb Ht Hf.
  { simpl in Hf. lia. }
  destruct (polls w) as [|k ps] eqn:Hp; [simpl in Hf; lia|]. unfold wait_timer. cbn [while].
  set (w1 := w{{ polls := ps; tims := fmap (Nat.iter k tim_clock) (tims w) }}).
  assert (tims w1 !! Z.to_nat n = Some (delay_tim m (c + Z.of_nat k) t)) as Ht1.
  { subst w1. simpl. rewrite list_lookup_fmap, Ht. simpl. f_equal.
    apply tim_clocks_delay; [done|done|lia|lia]. }
  rewrite (bind_ok _ _ _ (if Z.land (TTCR (delay_tim m (c + Z.of_nat k) t)) 1 =? 0
                          then Break tt else Continue tt) w1).
  2:{ erewrite bind_ok; [|unfold next_poll; by rewrite Hp].
      erewrite bind_ok; [|reflexivity].
      erewrite bind_ok; [reflexivity|]. exact (tim_get_run n _ w1 Hn Ht1). }
  unfold delay_tim at 1. destruct (c + Z.of_nat k <=? m) eqn:E.
  - replace (Z.land (TTCR t{{ TTCR := 1; TTC := c + Z.of_nat k }}) 1 =? 0) with false by done.
    cbn [take clocks foldr] in Hf.
    destruct (IH (c + Z.of_nat k) w1) as (j & w' & Hr & Hps & Hj); [lia|done|done| |].
    { subst w1. simpl. unfold clocks. lia. }
    exists (S j), w'. split; [exact Hr|]. split; [exact Hps|].
    subst w1. cbn [take]. unfold clocks in *. simpl in Hj |- *. lia.
  - replace (Z.land (TTCR t{{ TTCR := 0; TTC := m }}) 1 =? 0) with true by done.
    exists 0%nat, w1. split; [reflexivity|]. split; [done|]. simpl. lia.
Qed.

(** The match value for a delay. *)
Definition delay_match (clk d : Z) : Z := clk / 4 / (1000 / d).

Lemma delay_match_bound clk d :
  0 <= clk < 4294967296 -> 1 <= d <= 1000 ->
  0 <= delay_match clk d < 4294967295 /\ clk / 4 * d < 1000 * (delay_match clk d + 1).
Proof.
  intros Hc Hd. unfold delay_match. set (A := clk / 4).
  assert (0 <= A < 1073741824) by (unfold A; Z.div_mod_to_equations; lia). clearbody A.
  assert (1 <= 1000 / d /\ d * (1000 / d) <= 1000) as [H1 H2].
  { split; [apply Z.div_le_lower_bound; lia|apply Z.mul_div_le; lia]. }
  set (q := 1000 / d) in *. clearbody q.
  pose proof (Z.mod_pos_bound A q). pose proof (Z.div_mod A q).
  split; [split; [apply Z.div_pos; lia|]|].
  - apply Z.le_lt_trans with A; [apply Z.div_le_upper_bound; nia|lia].
  - set (m := A / q) in *. clearbody m. nia.
Qed.

(** What setting a timer's registers leaves. *)
Definition set_at (n : Z) (t' : tim_regs) (w w' : dworld) : Prop :=
  tims w' = <[Z.to_nat n := t']> (tims w) /\ polls w' = polls w /\ dsc w' = dsc w.

Lemma tim_set_at n f t (w : dworld) :
  0 <= n -> tims w !! Z.to_nat n = Some t ->
  exists w', tim_set n f w = Ok (tt, w') /\ set_at n (f t) w w' /\
    tims w' !! Z.to_nat n = Some (f t).
Proof.
  intros Hn Ht. eexists. split; [by apply tim_set_run|]. split; [by split|].
  apply list_lookup_insert_eq. by apply lookup_lt_Some in Ht.
Qed.

(** The delay on any timer waits for that timer's own match value [m]. *)
Lemma timer_delay_run fuel n d m t t0 (w : dworld) :
  0 <= n <= 3 -> 1 <= d <= 1000 ->
  tims w !! Z.to_nat n = Some t -> tims w !! 0%nat = Some t0 ->
  m = (if n =? 0 then delay_match (SystemCoreClock (dsc w)) d else TMR0 t) ->
  0 <= m < 4294967295 -> m < clocks (take fuel (polls w)) ->
  exists j w', delayMs fuel n d w = Ok (tt, w') /\ polls w' = drop (S j) (polls w) /\
    clocks (take j (polls w)) <= m < clocks (take (S j) (polls w)).
Proof.
  intros Hn Hd Ht Ht0 Hm Hmb Hf. unfold delayMs.
  replace (is_timer n) with true by (unfold is_timer; lia).
  destruct (tim_set_at n (write_TCR 2) t w) as (w1 & R1 & (E1 & P1 & C1) & H1); [lia|done|].
  rewrite (bind_ok _ _ _ _ _ R1).
  destruct (tim_set_at n (fun t => t{{ TPR := 0 }}) _ w1 ltac:(lia) H1)
    as (w2 & R2 & (E2 & P2 & C2) & H2). rewrite (bind_ok _ _ _ _ _ R2).
  assert (1 <= 1000 / d) by (apply Z.div_le_lower_bound; lia).
  erewrite bind_ok; [|reflexivity]. rewrite C2, C1.
  erewrite bind_ok; [|unfold udiv; replace (d =? 0) with false by lia; reflexivity].
  erewrite bind_ok; [|unfold udiv; replace (1000 / d =? 0) with false by lia; reflexivity].
  fold (delay_match (SystemCoreClock (dsc w)) d).
  destruct (lookup_lt_is_Some_2 (tims w2) 0) as [t02 H02].
  { rewrite E2, E1, !length_insert. by apply lookup_lt_Some in Ht0. }
  destruct (tim_set_at 0 (fun t => t{{ TMR0 := delay_match (SystemCoreClock (dsc w)) d }}) t02 w2)
    as (w3 & R3 & (E3 & P3 & C3) & H3); [lia|done|]. rewrite (bind_ok _ _ _ _ _ R3).
  assert (exists t3, tims w3 !! Z.to_nat n = Some t3 /\ TMR0 t3 = m /\ TTC t3 = 0)
    as (t3 & T3 & M3 & Z3).
  { destruct (n =? 0) eqn:E.
    - apply Z.eqb_eq in E. subst n. eexists. split; [exact H3|]. change (Z.to_nat 0) with 0%nat in H2.
      rewrite H2 in H02. injection H02 as <-. destruct t. by simpl.
    - rewrite E3, list_lookup_insert_ne by lia. eexists. split; [exact H2|]. destruct t. by simpl in *. }
  destruct (tim_set_at n (write_IR 0xff) t3 w3) as (w4 & R4 & (E4 & P4 & C4) & H4); [lia|done|].
  rewrite (bind_ok _ _ _ _ _ R4).
  destruct (tim_set_at n (fun t => t{{ TMCR := 4 }}) _ w4 ltac:(lia) H4)
    as (w5 & R5 & (E5 & P5 & C5) & H5). rewrite (bind_ok _ _ _ _ _ R5).
  destruct (tim_set_at n (write_TCR 1) _ w5 ltac:(lia) H5)
    as (w6 & R6 & (E6 & P6 & C6) & H6). rewrite (bind_ok _ _ _ _ _ R6).
  set (t6 := write_TCR 1 _) in H6.
  assert (polls w6 = polls w) as Hp by congruence. rewrite <- Hp in Hf |- *.
  destruct (wait_timer_run fuel n t6 m 0 w6) as (j & w' & Hr & Hps & Hj);
    [lia| | |lia|lia| |lia|].
  - subst t6. destruct t3. exact M3.
  - subst t6. by destruct t3.
  - rewrite H6. f_equal. subst t6. unfold delay_tim. replace (0 <=? m) with true by lia.
    destruct t3. simpl in *. by subst.
  - exists j, w'. split; [exact Hr|]. split; [exact Hps|]. lia.
Qed.

(** A delay on timer 0 returns, and never early: the clocks passed before its last
    poll are at most the match value [clk / 4 / (1000 / d)], those passed when it
    returns are more, and they last at least the [d] milliseconds asked for. *)
Theorem delayMs_never_short fuel d t0 (w : dworld) :
  1 <= d <= 1000 -> tims w !! 0%nat = Some t0 ->
  0 <= SystemCoreClock (dsc w) < 4294967296 ->
  delay_match (SystemCoreClock (dsc w)) d < clocks (take fuel (polls w)) ->
  exists j w', delayMs fuel 0 d w = Ok (tt, w') /\ polls w' = drop (S j) (polls w) /\
    clocks (take j (polls w)) <= delay_match (SystemCoreClock (dsc w)) d /\
    SystemCoreClock (dsc w) / 4 * d < 1000 * clocks (take (S j) (polls w)).
Proof.
  intros Hd Ht Hclk Hf. destruct (delay_match_bound _ d Hclk Hd) as [Hb Hlong].
  destruct (timer_delay_run fuel 0 d (delay_match (SystemCoreClock (dsc w)) d) t0 t0 w)
    as (j & w' & Hr & Hp & Hj); try done.
  exists j, w'. split; [done|]. split; [done|]. split; [lia|].
  apply Z.lt_le_trans with (1 := Hlong). lia.
Qed.

(** A delay on another timer lasts as long as the match value that timer happens to
    hold, whatever time is asked for: the new one went to timer 0. *)
Lemma delayMs_other_timer fuel n d t t0 (w : dworld) :
  1 <= n <= 3 -> 1 <= d <= 1000 -> tims w !! Z.to_nat n = Some t -> tims w !! 0%nat = Some t0 ->
  0 <= TMR0 t < 4294967295 -> TMR0 t < clocks (take fuel (polls w)) ->
  exists j w', delayMs fuel n d w = Ok (tt, w') /\ polls w' = drop (S j) (polls w) /\
    clocks (take j (polls w)) <= TMR0 t < clocks (take (S j) (polls w)).
Proof.
  intros Hn Hd Ht Ht0 Hb Hf. apply (timer_delay_run fuel n d (TMR0 t) t t0 w); try done; [lia|].
  by replace (n =? 0) with false by lia.
Qed.

(** Above a second the division that gives the match value is by 0. *)
Lemma delayMs_divides_by_zero fuel d t0 (w : dworld) :
  1000 < d -> tims w !! 0%nat = Some t0 -> delayMs fuel 0 d w = Fault DivByZero.
Proof.
  intros Hd Ht. unfold delayMs.
  destruct (tim_set_at 0 (write_TCR 2) t0 w) as (w1 & R1 & (E1 & P1 & C1) & H1); [lia|done|].
  change (is_timer 0) with true. cbv iota. rewrite (bind_ok _ _ _ _ _ R1).
  destruct (tim_set_at 0 (fun t => t{{ TPR := 0 }}) _ w1 ltac:(lia) H1)
    as (w2 & R2 & _ & H2). rewrite (bind_ok _ _ _ _ _ R2).
  erewrite bind_ok; [|reflexivity].
  erewrite bind_ok; [|unfold udiv; replace (d =? 0) with false by lia; reflexivity].
  rewrite (Z.div_small 1000 d) by lia. reflexivity.
Qed.

(** ** Pins *)

Lemma two_bits x j : 0 <= x < 4 -> 2 <= j -> Z.testbit x j = false.
Proof.
  intros Hx Hj. destruct (decide (x = 0)) as [->|H]; [apply Z.testbit_0_l|].
  apply Z.bits_above_log2; [lia|]. apply Z.lt_le_trans with 2; [|lia].
  apply Z.log2_lt_pow2; simpl; lia.
Qed.

(** A field of two bits at [2 k] takes the value, the other bits stay. *)
Lemma field_set v k x i :
  0 <= k -> 0 <= x < 4 -> 0 <= i ->
  Z.testbit (Z.lor (clear_bits v (Z.shiftl 3 (k * 2))) (Z.shiftl x (k * 2))) i =
  if (2 * k <=? i) && (i <=? 2 * k + 1) then Z.testbit x (i - 2 * k) else Z.testbit v i.
Proof.
  intros Hk Hx Hi. unfold clear_bits.
  rewrite Z.lor_spec, Z.land_spec, Z.lnot_spec by lia.
  rewrite (Z.shiftl_spec 3), (Z.shiftl_spec x) by lia. replace (k * 2) with (2 * k) by lia.
  destruct (2 * k <=? i) eqn:E1; cbn [andb].
  - destruct (i <=? 2 * k + 1) eqn:E2.
    + assert (i - 2 * k = 0 \/ i - 2 * k = 1) as [-> | ->] by lia; simpl; by rewrite andb_false_r.
    + rewrite (two_bits 3), (two_bits x) by lia. by rewrite andb_true_r, orb_false_r.
  - rewrite (Z.testbit_neg_r 3), (Z.testbit_neg_r x) by lia. by rewrite andb_true_r, orb_false_r.
Qed.

Lemma pin_field_run (b idx k x v : Z) (w : dworld) :
  0 <= b + idx -> pincon w !! Z.to_nat (b + idx) = Some v ->
  (v ← pin_get (b + idx);
   pin_set (b + idx) (clear_bits v (Z.shiftl 3 (k * 2))) ;;
   v ← pin_get (b + idx);
   pin_set (b + idx) (Z.lor v (Z.shiftl x (k * 2)))) w =
  Ok (tt, w{{ pincon := <[Z.to_nat (b + idx) :=
    Z.lor (clear_bits v (Z.shiftl 3 (k * 2))) (Z.shiftl x (k * 2))]> (pincon w) }}).
Proof.
  intros Hi Hv. pose proof (lookup_lt_Some _ _ _ Hv) as Hlt.
  erewrite bind_ok; [|by apply pin_get_run]. erewrite bind_ok; [|apply pin_set_run; lia].
  erewrite bind_ok.
  2:{ apply pin_get_run; [lia|]. simpl. by apply list_lookup_insert_eq. }
  rewrite pin_set_run by (simpl; rewrite length_insert; lia). simpl.
  by rewrite list_insert_insert_eq.
Qed.

Definition field (v k x : Z) : Z := Z.lor (clear_bits v (Z.shiftl 3 (k * 2))) (Z.shiftl x (k * 2)).

Lemma field_bit v k x i :
  0 <= k -> 0 <= x < 4 -> 0 <= i ->
  Z.testbit (field v k x) i = if i / 2 =? k then Z.testbit x (i mod 2) else Z.testbit v i.
Proof.
  intros. unfold field. rewrite field_set by done.
  replace (i / 2 =? k) with ((2 * k <=? i) && (i <=? 2 * k + 1)) by (Z.div_mod_to_equations; lia).
  destruct (_ && _) eqn:E; [|done]. f_equal. Z.div_mod_to_equations; lia.
Qed.

(** The word of a pin's field among those of its port, and its place there. *)
Lemma pin_half port pin :
  0 <= pin < 32 ->
  (if 16 <=? pin then pin - 16 else pin) = pin mod 16 /\
  (if 16 <=? pin then 2 * port + 1 else 2 * port) = 2 * port + pin / 16.
Proof. intros H. destruct (16 <=? pin) eqn:E; Z.div_mod_to_equations; lia. Qed.

Lemma SetPinFunc_run port pin func v (w : dworld) :
  0 <= port -> 0 <= pin < 32 -> pincon w !! Z.to_nat (2 * port + pin / 16) = Some v ->
  GPIO_SetPinFunc port pin func w =
  Ok (tt, w{{ pincon := <[Z.to_nat (2 * port + pin / 16) := field v (pin mod 16) func]> (pincon w) }}).
Proof.
  intros Hp Hb Hv. unfold GPIO_SetPinFunc. destruct (pin_half port pin Hb) as [-> ->].
  apply (pin_field_run PINSEL0); [|exact Hv]. unfold PINSEL0. Z.div_mod_to_equations; lia.
Qed.

Lemma SetResistorMode_run port pin res v (w : dworld) :
  0 <= port -> 0 <= pin < 32 -> (port <> 0 \/ pin < 27 \/ 30 < pin) ->
  pincon w !! Z.to_nat (16 + (2 * port + pin / 16)) = Some v ->
  GPIO_SetResistorMode port pin res w =
  Ok (tt, w{{ pincon := <[Z.to_nat (16 + (2 * port + pin / 16)) := field v (pin mod 16) res]>
    (pincon w) }}).
Proof.
  intros Hp Hb Hx Hv. unfold GPIO_SetResistorMode.
  replace ((port =? 0) && (27 <=? pin) && (pin <=? 30)) with false by lia.
  destruct (pin_half port pin Hb) as [-> ->].
  apply (pin_field_run PINMODE0); [|exact Hv]. unfold PINMODE0. Z.div_mod_to_equations; lia.
Qed.

Definition flag_bit (v pin od : Z) : Z :=
  if od =? OPEN_DRAIN then Z.lor v (Z.shiftl 1 pin) else clear_bits v (Z.shiftl 1 pin).

Lemma flag_bit_bit v pin od i :
  0 <= pin -> 0 <= i ->
  Z.testbit (flag_bit v pin od) i = if i =? pin then od =? OPEN_DRAIN else Z.testbit v i.
Proof.
  intros Hp Hi. unfold flag_bit, clear_bits. rewrite (Z.shiftl_1_l pin).
  destruct (od =? OPEN_DRAIN); rewrite ?Z.lor_spec, ?Z.land_spec, ?Z.lnot_spec by lia;
    (destruct (i =? pin) eqn:E; [apply Z.eqb_eq in E; subst; rewrite Z.pow2_bits_true by lia
                                |rewrite Z.pow2_bits_false by lia]).
  - apply orb_true_r.
  - apply orb_false_r.
  - apply andb_false_r.
  - apply andb_true_r.
Qed.

Lemma SetOpenDrainMode_run port pin od v (w : dworld) :
  0 <= port -> (port <> 0 \/ pin < 27 \/ 30 < pin) ->
  pincon w !! Z.to_nat (26 + port) = Some v ->
  GPIO_SetOpenDrainMode port pin od w =
  Ok (tt, w{{ pincon := <[Z.to_nat (26 + port) := flag_bit v pin od]> (pincon w) }}).
Proof.
  intros Hp Hx Hv. unfold GPIO_SetOpenDrainMode.
  replace ((port =? 0) && (27 <=? pin) && (pin <=? 28)) with false by lia.
  erewrite bind_ok; [|apply (pin_get_run (PINMODE_OD0 + port)); [unfold PINMODE_OD0; lia|exact Hv]].
  apply lookup_lt_Some in Hv. apply (pin_set_run (PINMODE_OD0 + port)).
  unfold PINMODE_OD0. lia.
Qed.

(** Configuring a pin as a general purpose pin clears the two function bits of the
    pin and sets its two resistor bits and its open drain bit, each in the word of its
    port half; no other bit of the pin block changes. *)
Theorem pin_configured port pin dir res od w :
  length (pincon w) = 32%nat -> length (fiodir w) = 5%nat ->
  0 <= port <= 4 -> 0 <= pin < 32 -> 0 <= res < 4 ->
  (port <> 0 \/ pin < 27 \/ 30 < pin) ->
  exists w', GPIO_InitPinAsGPIO port pin dir res od w = Ok (tt, w') /\
    forall r v v' i, pincon w !! Z.to_nat r = Some v -> pincon w' !! Z.to_nat r = Some v' ->
      0 <= r -> 0 <= i ->
      Z.testbit v' i =
      if (r =? 2 * port + pin / 16) && (i / 2 =? pin mod 16) then false
      else if (r =? 16 + (2 * port + pin / 16)) && (i / 2 =? pin mod 16)
      then Z.testbit res (i mod 2)
      else if (r =? 26 + port) && (i =? pin) then od =? OPEN_DRAIN
      else Z.testbit v i.
Proof.
  intros Hl Hd Hp Hb Hr Hx. unfold GPIO_InitPinAsGPIO.
  assert (0 <= pin / 16 <= 1) by (Z.div_mod_to_equations; lia).
  assert (0 <= pin mod 16) by (apply Z.mod_pos_bound; lia).
  set (idx := 2 * port + pin / 16). assert (0 <= idx <= 9) by lia.
  destruct (lookup_lt_is_Some_2 (pincon w) (Z.to_nat idx)) as [v1 L1]; [lia|].
  destruct (lookup_lt_is_Some_2 (pincon w) (Z.to_nat (16 + idx))) as [v2 L2]; [lia|].
  destruct (lookup_lt_is_Some_2 (pincon w) (Z.to_nat (26 + port))) as [v3 L3]; [lia|].
  destruct (lookup_lt_is_Some_2 (fiodir w) (Z.to_nat port)) as [v4 L4]; [lia|].
  erewrite bind_ok; [|by apply SetPinFunc_run; [lia| |exact L1]].
  erewrite bind_ok.
  2:{ unfold GPIO_SETpINdIR. erewrite bind_ok; [|reflexivity].
      erewrite bind_ok; [|apply aget_ok; [lia|exact L4]].
      erewrite bind_ok; [|apply aset_ok; simpl; lia]. reflexivity. }
  erewrite bind_ok.
  2:{ apply (SetResistorMode_run _ _ _ v2); [lia|done|done|].
      simpl. rewrite list_lookup_insert_ne by lia. exact L2. }
  rewrite (SetOpenDrainMode_run _ _ _ v3); [|lia|done|].
  2:{ simpl. rewrite !list_lookup_insert_ne by lia. exact L3. }
  eexists. split; [reflexivity|]. simpl. intros r v v' i Hv Hv' Hr0 Hi.
  revert Hv'. rewrite !list_lookup_insert, !length_insert, Hl. fold idx.
  destruct (r =? idx) eqn:E1, (r =? 16 + idx) eqn:E2, (r =? 26 + port) eqn:E3;
    try lia; cbn [andb].
  - rewrite 2!decide_False by lia. rewrite decide_True by lia. intros [= <-].
    assert (v = v1) as -> by (apply Z.eqb_eq in E1; subst r; congruence).
    rewrite field_bit by (unfold DAFAULT_FUNC; lia). destruct (i / 2 =? pin mod 16); [|done]. apply Z.testbit_0_l.
  - rewrite decide_False by lia. rewrite decide_True by lia. intros [= <-].
    assert (v = v2) as -> by (apply Z.eqb_eq in E2; subst r; congruence).
    by rewrite field_bit by lia.
  - rewrite decide_True by lia. intros [= <-].
    assert (v = v3) as -> by (apply Z.eqb_eq in E3; subst r; congruence).
    by rewrite flag_bit_bit by lia.
  - rewrite 3!decide_False by lia. congruence.
Qed.

(** ** Witnesses *)

Definition demo_world (ps : list nat) : dworld :=
  mk_dworld (mk_sc 100000000 0 0 0) (replicate 32 0) (replicate 5 0)
    (mk_pwm 0 0 0 0 (replicate 7 0) 0 0)
    (replicate 4 (mk_tim 0 0 0 0 0 7 0 0)) (replicate 4 (mk_counts 0 0 0 0)) 0 []
    (mk_systick 0 0) 0 ps 0 [].

Lemma lively_ones n : lively 2 n (replicate n 1%nat).
Proof.
  induction n as [|n IH]; [constructor|]. by apply (lively_S 2 n [] 1 (replicate n 1%nat)); auto.
Qed.

Lemma main_fades_witness :
  exists w' d, main 2 1 (demo_world (replicate (1 * round_waits) 1%nat)) = Ok (tt, w') /\
    shown <$> d = concat (replicate 1 round_spec).
Proof.
  destruct (main_fades 2 1 (demo_world (replicate (1 * round_waits) 1%nat)))
    as (w' & d & Hr & _ & Hd & _); [by repeat split|apply lively_ones|].
  exists w', d. split; [exact Hr|exact Hd].
Defined.

Lemma delayMs_never_short_witness :
  exists j w', delayMs 2 0 600 (demo_world [Z.to_nat 100; Z.to_nat 25000000]) = Ok (tt, w') /\
    polls w' = drop (S j) [Z.to_nat 100; Z.to_nat 25000000].
Proof.
  destruct (delayMs_never_short 2 600 (mk_tim 0 0 0 0 0 7 0 0)
    (demo_world [Z.to_nat 100; Z.to_nat 25000000])) as (j & w' & Hr & Hp & _).
  - lia.
  - reflexivity.
  - simpl. lia.
  - cbn [demo_world polls dsc SystemCoreClock take]. unfold clocks. cbn [foldr].
    rewrite !Z2Nat.id by lia. change (delay_match 100000000 600) with 25000000. lia.
  - exists j, w'. split; [exact Hr|exact Hp].
Defined.

Lemma pin_configured_witness :
  exists w', GPIO_InitPinAsGPIO 2 20 1 3 1 (demo_world []) = Ok (tt, w').
Proof.
  destruct (pin_configured 2 20 1 3 1 (demo_world [])) as (w' & H & _);
    [reflexivity|reflexivity|lia|lia|lia|lia|]. by exists w'.
Defined.

(** Stopping timer 3 stops timer 2. *)
Lemma disable_timer_3 (w : dworld) t2 :
  tims w !! 2%nat = Some t2 ->
  disable_timer 3 w = Ok (tt, w{{ tims := <[2%nat := write_TCR 0 t2]> (tims w) }}).
Proof. intros H. by apply (tim_set_run 2 (write_TCR 0) t2). Qed.

(** The pulse width timer is not reset at the end of its period. *)
Lemma PWM_Init_no_reset w w' r :
  PWM_Init 1 4 1000 w = Ok (r, w') -> Z.testbit (PMCR (pwm w')) 1 = false.
Proof.
  unfold PWM_Init. cbn. unfold mbind, M_bind, dset, modify, pwm_set, gets. simpl.
  destruct (pin_get PINSEL4 _) as [[v w1]|]; [|done].
  destruct (pin_set PINSEL4 _ w1) as [[u w2]|]; [|done].
  destruct (aset _ 0 1000 w2) as [[mr w3]|]; [|done]. simpl. by intros [= <- <-].
Qed.
