(* ===== verification/UsbMem.v ===== *)
(** * The memory pool of the USB stack

    nxpUSBlib/Drivers/USB/Core/USBMemory.c: first-fit allocation in a fixed buffer.
    The pool is the headers of its blocks, by their offset in the buffer; a block's
    data follow its header of four bytes.  Reading a header where none was written
    is a fault. *)

From stdpp Require Import gmap.
From S2P Require Import Prelude.

(** The header: bit fields of 15, 1 and 16 bits.  [next] counts headers: [head + next]
    is pointer arithmetic on [PMemBlockInfo]. *)
Record sMemBlockInfo : Type := mk_blk { size : Z; isFree : Z; next : Z }.
#[export] Instance eta_sMemBlockInfo : Settable sMemBlockInfo :=
  fun s => mk_blk (size s) (isFree s) (next s).

Definition pool : Type := gmap Z sMemBlockInfo.

Definition HEADER_SIZE : Z := 4.
Definition ALIGN_FOUR_BYTES : Z := 4.
Definition USBRAM_BUFFER_SIZE : Z := 2 * 1024.
Definition u15 (z : Z) : Z := z mod 32768.

(** The turns given to a walk over the list of blocks: one more than the headers the
    buffer can hold. *)
Definition walk : nat := 513.

Definition hget (o : Z) : M pool sMemBlockInfo := fun p =>
  match p !! o with Some h => Ok (h, p) | None => Fault OutOfBounds end.
Definition hput (o : Z) (h : sMemBlockInfo) : M pool unit := modify <[o := h]>.

(** [NEXT_BLOCK], [None] for NULL. *)
Definition NEXT_BLOCK (h : sMemBlockInfo) : option Z :=
  if next h =? 0 then None else Some (HEADER_SIZE * next h).
Definition LINK_TO_THIS_BLOCK (o : Z) : Z := o / HEADER_SIZE.

Definition USB_Memory_Init (Memory_Pool_Size : Z) : M pool unit :=
  hput 0 (mk_blk (u15 (u32 (Z.land Memory_Pool_Size 0xfffffffc - HEADER_SIZE))) 1 0).

Definition align4 (size : Z) : Z :=
  if negb (size mod ALIGN_FOUR_BYTES =? 0)
  then u32 (u32 (Z.shiftl (Z.shiftr size 2) 2) + ALIGN_FOUR_BYTES) else size.

(** The first free block that is large enough. *)
Definition first_fit (sz : Z) : M pool (option Z) :=
  while walk (fun freeBlock : option Z =>
    match freeBlock with
    | None => mret (Break None)
    | Some o =>
        h ← hget o;
        if (isFree h =? 1) && (sz <=? size h) then mret (Break (Some o))
        else mret (Continue (NEXT_BLOCK h))
    end) (Some 0).

(** The block at [o] is taken, whole or without what is left behind [sz] bytes. *)
Definition take_block (o sz : Z) : M pool Z :=
  blk ← hget o;
  (if size blk <=? u32 (HEADER_SIZE + sz) then hput o (blk{{ isFree := 0 }})
   else
     let freeBlock := o + sz + HEADER_SIZE in
     hput freeBlock (mk_blk (u15 (u32 (size blk - u32 (HEADER_SIZE + sz)))) 1 (next blk)) ;;
     hput o (mk_blk (u15 sz) 0 (u16 (LINK_TO_THIS_BLOCK freeBlock)))) ;;
  mret (o + HEADER_SIZE).

Definition USB_Memory_Alloc (sz : Z) : M pool (option Z) :=
  let sz := align4 sz in
  blk_ptr ← first_fit sz;
  match blk_ptr with
  | None => mret None
  | Some o => ptr ← take_block o sz; mret (Some ptr)
  end.

(** The block takes in the one behind it when that is free. *)
Definition merge_next (o : Z) : M pool unit :=
  blk ← hget o;
  match NEXT_BLOCK blk with
  | None => mret tt
  | Some n =>
      nb ← hget n;
      when (isFree nb =? 1)
        (hput o (blk{{ size := u15 (size blk + size nb + HEADER_SIZE); next := next nb }}))
  end.

(** The block in front takes it in when that is free; the block it is part of then. *)
Definition merge_prev (o : Z) : M pool Z :=
  while walk (fun prev : option Z =>
    match prev with
    | None => mret (Break o)
    | Some q =>
        ph ← hget q;
        if bool_decide (NEXT_BLOCK ph = Some o) then
          if isFree ph =? 1 then
            blk ← hget o;
            hput q (ph{{ size := u15 (size ph + size blk + HEADER_SIZE); next := next blk }}) ;;
            mret (Break q)
          else mret (Break o)
        else mret (Continue (NEXT_BLOCK ph))
    end) (Some 0).

Definition USB_Memory_Free (ptr : option Z) : M pool unit :=
  match ptr with
  | None => mret tt
  | Some a =>
      let blk_ptr := a - HEADER_SIZE in
      merge_next blk_ptr ;;
      blk_ptr ← merge_prev blk_ptr;
      blk ← hget blk_ptr;
      hput blk_ptr (blk{{ isFree := 1 }})
  end.
