(* ===== verification/UsbMemFacts.v ===== *)
(** * The memory pool of the USB stack: theorems

    The pool is abstracted to the list of its blocks in address order.  Allocation is
    a first-fit split of that list and freeing marks a block and merges neighbouring
    free blocks; both are shown to compute exactly these functions, and from them the
    safety of the addresses handed out and the round trip are derived. *)

From stdpp Require Import gmap.
From S2P Require Import Prelude UsbMem.

(** ** The abstract pool *)

(** The size of the data, and whether the block is free. *)
Definition block : Type := Z * bool.

Definition flag (b : bool) : Z := if b then 1 else 0.
Definition after (o : Z) (b : block) : Z := o + 4 + b.1.
Definition link (o : Z) (b : block) (l : list block) (nx : Z) : Z :=
  match l with [] => nx | _ => after o b / 4 end.

(** The bytes of the blocks with their headers. *)
Fixpoint span (l : list block) : Z :=
  match l with [] => 0 | b :: l' => 4 + b.1 + span l' end.

Definition sized (b : block) : Prop := 0 <= b.1 /\ b.1 mod 4 = 0.

(** The headers from [o] on describe the blocks [l]; the last one's link is [nx]. *)
Fixpoint seg (p : pool) (o : Z) (l : list block) (nx : Z) : Prop :=
  match l with
  | [] => True
  | b :: l' =>
      p !! o = Some (mk_blk b.1 (flag b.2) (link o b l' nx)) /\ seg p (after o b) l' nx
  end.

(** No two neighbouring blocks are both free. *)
Fixpoint apart (l : list block) : Prop :=
  match l with
  | (_, true) :: ((_, true) :: _) => False
  | _ :: l' => apart l'
  | [] => True
  end.

Definition rep (p : pool) (l : list block) : Prop :=
  l <> [] /\ Forall sized l /\ span l <= USBRAM_BUFFER_SIZE /\ seg p 0 l 0.

Definition fits (sz : Z) (b : block) : bool := b.2 && (sz <=? b.1).

(** The block is split, or taken whole where a rest could hold no data. *)
Definition split_block (sz : Z) (b : block) : list block :=
  if b.1 <=? 4 + sz then [(b.1, false)] else [(sz, false); (b.1 - (4 + sz), true)].

Definition alloc_spec (sz : Z) (l : list block) : option (Z * list block) :=
  let i := find_idx (fits sz) l in
  match drop i l with
  | [] => None
  | b :: l2 => Some (4 + span (take i l), take i l ++ split_block sz b ++ l2)
  end.

(** Neighbouring free blocks become one. *)
Fixpoint pack (l : list block) : list block :=
  match l with
  | [] => []
  | (s, f) :: l' =>
      match f, pack l' with
      | true, (s', true) :: t => (s + (4 + s'), true) :: t
      | _, t => (s, f) :: t
      end
  end.

(** ** Lists of blocks *)

Lemma span_app l1 l2 : span (l1 ++ l2) = span l1 + span l2.
Proof. induction l1 as [|b l IH]; simpl; lia. Qed.

Lemma span_sized l :
  Forall sized l -> 4 * Z.of_nat (length l) <= span l /\ span l mod 4 = 0.
Proof.
  induction 1 as [|b l [? ?] _ [? ?]]; simpl; [done|].
  split; [lia|]. Z.div_mod_to_equations; lia.
Qed.

Lemma seg_app p o l1 b l2 nx :
  seg p o (l1 ++ b :: l2) nx <->
  seg p o l1 ((o + span l1) / 4) /\ seg p (o + span l1) (b :: l2) nx.
Proof.
  revert o. induction l1 as [|c l1 IH]; intros o.
  - simpl. rewrite Z.add_0_r. tauto.
  - change ((c :: l1) ++ b :: l2) with (c :: (l1 ++ b :: l2)).
    cbn [seg]. rewrite IH. cbn [span].
    replace (after o c + span l1) with (o + (4 + c.1 + span l1)) by (unfold after; lia).
    assert (link o c (l1 ++ b :: l2) nx = link o c l1 ((o + (4 + c.1 + span l1)) / 4)) as ->.
    { destruct l1; simpl; [|done]. unfold after. f_equal. lia. }
    cbn [seg]. tauto.
Qed.

Lemma pool_get (p : pool) o h : (<[o := h]> p : pool) !! o = Some h.
Proof. apply (lookup_insert_eq (M := gmap Z)). Qed.

Lemma pool_get_ne (p : pool) o x h : x <> o -> (<[x := h]> p : pool) !! o = p !! o.
Proof. apply (lookup_insert_ne (M := gmap Z)). Qed.

(** A header written elsewhere leaves the segment. *)
Lemma seg_put p o l nx x h :
  Forall sized l -> x < o \/ o + span l <= x -> seg p o l nx -> seg (<[x := h]> p) o l nx.
Proof.
  revert o. induction l as [|b l IH]; intros o Hs Hx; simpl; [done|].
  inversion Hs as [|? ? [? ?] Hl]; subst. simpl in Hx.
  destruct (span_sized l Hl) as [? _]. intros [Hb Hr]. split.
  - rewrite pool_get_ne; [done|]. lia.
  - apply IH; [done| |done]. unfold after. lia.
Qed.

Lemma hget_run p o h : p !! o = Some h -> hget o p = Ok (h, p).
Proof. unfold hget. by intros ->. Qed.

(** The link of a header that is not the last is the offset of the following block. *)
Lemma next_of p o b c l nx :
  seg p o (b :: c :: l) nx -> 0 <= o -> o mod 4 = 0 -> sized b ->
  exists h, p !! o = Some h /\ isFree h = flag b.2 /\ size h = b.1 /\
    NEXT_BLOCK h = Some (after o b).
Proof.
  intros [Hb _] Ho Hm [? ?]. eexists. split; [exact Hb|]. simpl. split; [done|]. split; [done|].
  unfold NEXT_BLOCK, HEADER_SIZE. simpl. unfold after.
  destruct (_ =? 0) eqn:E.
  - exfalso. Z.div_mod_to_equations; lia.
  - f_equal. Z.div_mod_to_equations; lia.
Qed.

(** ** The walk for a free block *)

Definition fit_body (sz : Z) (freeBlock : option Z) : M pool (ctl (option Z) (option Z)) :=
  match freeBlock with
  | None => mret (Break None)
  | Some o =>
      h ← hget o;
      if (isFree h =? 1) && (sz <=? size h) then mret (Break (Some o))
      else mret (Continue (NEXT_BLOCK h))
  end.

Lemma fit_body_run sz p o h :
  p !! o = Some h ->
  fit_body sz (Some o) p =
  Ok (if (isFree h =? 1) && (sz <=? size h) then Break (Some o)
      else Continue (NEXT_BLOCK h), p).
Proof.
  intros H. unfold fit_body. erewrite bind_ok; [|by apply hget_run]. by destruct (_ && _).
Qed.

Lemma flag_1 b : (flag b =? 1) = b.
Proof. by destruct b. Qed.

Lemma first_fit_loop sz p l o n :
  l <> [] -> Forall sized l -> 0 <= o -> o mod 4 = 0 -> (length l < n)%nat -> seg p o l 0 ->
  while n (fit_body sz) (Some o) p =
  Ok (match drop (find_idx (fits sz) l) l with
      | [] => None | _ => Some (o + span (take (find_idx (fits sz) l) l)) end, p).
Proof.
  intros Hne. revert o n. induction l as [|b l IH]; [done|]. clear Hne.
  intros o n Hs Ho Hm Hn Hseg. inversion Hs as [|? ? Hb Hl]; subst.
  destruct n as [|n]; [lia|]. cbn [while]. pose proof Hseg as [Hh Hr].
  erewrite bind_ok; [|by apply fit_body_run].
  cbn [isFree size find_idx]. rewrite flag_1. change (b.2 && (sz <=? b.1)) with (fits sz b).
  destruct (fits sz b) eqn:E.
  - simpl. rewrite Z.add_0_r. reflexivity.
  - destruct l as [|c l].
    + simpl in Hn. destruct n as [|n]; [lia|]. reflexivity.
    + destruct (next_of _ _ _ _ _ _ Hseg Ho Hm Hb) as (h & Hh' & _ & _ & Hx).
      rewrite Hh in Hh'. injection Hh' as <-. cbn [link]. rewrite Hx.
      destruct Hb. erewrite IH; [|done|done|unfold after; lia| |simpl in *; lia|exact Hr].
      2:{ unfold after. Z.div_mod_to_equations; lia. }
      cbn [drop take span]. destruct (drop _ (c :: l)); [done|].
      unfold after. do 3 f_equal. lia.
Qed.

Lemma first_fit_ok sz p l :
  rep p l ->
  first_fit sz p =
  Ok (match drop (find_idx (fits sz) l) l with
      | [] => None | _ => Some (span (take (find_idx (fits sz) l) l)) end, p).
Proof.
  intros (Hne & Hs & Hsp & Hseg). pose proof (span_sized l Hs). unfold USBRAM_BUFFER_SIZE in *.
  apply (first_fit_loop sz p l 0 walk); unfold walk; first [done | lia].
Qed.

(** ** Allocation *)

Lemma align4_ok sz :
  0 <= sz < 4294967293 ->
  0 <= align4 sz /\ align4 sz mod 4 = 0 /\ sz <= align4 sz < sz + 4.
Proof.
  intros H. unfold align4, ALIGN_FOUR_BYTES, u32.
  rewrite Z.shiftl_mul_pow2, Z.shiftr_div_pow2 by lia. change (2 ^ 2) with 4.
  destruct (sz mod 4 =? 0) eqn:E; cbn [negb]; Z.div_mod_to_equations; lia.
Qed.

(** Every 32-bit size is rounded up, modulo 2^32. *)
Lemma align4_total sz :
  0 <= sz < 2 ^ 32 ->
  0 <= align4 sz /\ align4 sz mod 4 = 0 /\ (4294967293 <= sz -> align4 sz = 0).
Proof.
  intros H. destruct (Z.ltb_spec sz 4294967293) as [Hs|Hs].
  - destruct (align4_ok sz) as (? & ? & _); [lia|]. split; [done|]. split; [done|lia].
  - assert (sz = 4294967293 \/ sz = 4294967294 \/ sz = 4294967295) as [-> | [-> | ->]] by lia;
      repeat split; done.
Qed.

Lemma take_block_ok p l1 s l2 sz :
  rep p (l1 ++ (s, true) :: l2) -> 0 <= sz <= s -> sz mod 4 = 0 ->
  exists p', take_block (span l1) sz p = Ok (span l1 + 4, p') /\
    rep p' (l1 ++ split_block sz (s, true) ++ l2).
Proof.
  intros (_ & Hs & Hsp & Hseg) Hsz Hm. unfold USBRAM_BUFFER_SIZE in *.
  apply seg_app in Hseg as [H1 [Hb H2]]. apply Forall_app in Hs as [Hs1 Hs2].
  inversion Hs2 as [|? ? [Hs0 Hsm] Hs2']; subst. simpl in Hs0, Hsm, Hb.
  destruct (span_sized _ Hs1) as [? Ho]. destruct (span_sized _ Hs2') as [? _].
  rewrite span_app in Hsp. simpl in Hsp.
  unfold take_block, split_block. erewrite bind_ok; [|by apply hget_run]. cbn [size fst].
  unfold HEADER_SIZE, u32. rewrite (Z.mod_small (4 + sz)) by lia.
  destruct (s <=? 4 + sz) eqn:E; (eexists; split; [reflexivity|]); split.
  1, 3: by destruct l1.
  - split; [apply Forall_app; split; [done|]; simpl; constructor; done|].
    rewrite span_app. simpl. split; [unfold USBRAM_BUFFER_SIZE; lia|].
    apply seg_app. split; [apply seg_put; [done|lia|exact H1]|]. split.
    + rewrite pool_get. reflexivity.
    + apply seg_put; [done|unfold after; simpl; lia|exact H2].
  - assert (Hd : s - (4 + sz) > 0 /\ (s - (4 + sz)) mod 4 = 0).
    { split; [lia|]. Z.div_mod_to_equations; lia. }
    assert (Hu : u15 (s - (4 + sz)) = s - (4 + sz)) by (unfold u15; apply Z.mod_small; lia).
    assert (Hv : u15 sz = sz) by (unfold u15; apply Z.mod_small; lia).
    split; [apply Forall_app; split; [done|]; simpl; repeat constructor; simpl; first [done|lia]|].
    rewrite span_app. simpl. split; [unfold USBRAM_BUFFER_SIZE; lia|].
    apply seg_app. split; [apply seg_put; [done|lia|]; apply seg_put; [done|lia|exact H1]|].
    split; [|split].
    + rewrite pool_get. rewrite Hv. simpl. unfold after, LINK_TO_THIS_BLOCK, HEADER_SIZE. simpl.
      do 2 f_equal. unfold u16. rewrite Z.mod_small by (Z.div_mod_to_equations; lia).
      f_equal. lia.
    + rewrite pool_get_ne by (unfold after; simpl; lia).
      replace (after (0 + span l1) (sz, false)) with (span l1 + sz + 4) by (unfold after; simpl; lia).
      rewrite pool_get. simpl. rewrite (Z.mod_small (s - (4 + sz)) 4294967296) by lia. rewrite Hu.
      do 2 f_equal. destruct l2; simpl; [done|]. unfold after. simpl. f_equal. lia.
    + replace (after (after (0 + span l1) (sz, false)) (s - (4 + sz), true))
        with (after (0 + span l1) (s, true)) by (unfold after; simpl; lia).
      apply seg_put; [done|unfold after; simpl; lia|].
      apply seg_put; [done|unfold after; simpl; lia|exact H2].
Qed.

Lemma alloc_run sz p l :
  rep p l -> 0 <= align4 sz -> align4 sz mod 4 = 0 ->
  match alloc_spec (align4 sz) l with
  | None => USB_Memory_Alloc sz p = Ok (None, p)
  | Some (a, l') => exists p', USB_Memory_Alloc sz p = Ok (Some a, p') /\ rep p' l'
  end.
Proof.
  intros Hrep H0 Hm. unfold alloc_spec, USB_Memory_Alloc.
  set (i := find_idx (fits (align4 sz)) l). pose proof (first_fit_ok (align4 sz) p l Hrep) as Hf.
  fold i in Hf. destruct (drop i l) as [|[s f] l2] eqn:E.
  - rewrite (bind_ok _ _ _ _ _ Hf). reflexivity.
  - assert (Hi : (i < length l)%nat).
    { apply Nat.nle_gt. intros Hl. apply drop_ge in Hl. congruence. }
    destruct (find_idx_lt _ _ Hi) as (b & Hb & Hfit). fold i in Hb.
    pose proof (take_drop i l) as Hl. rewrite E in Hl.
    assert (b = (s, f)) as ->.
    { apply (drop_S l) in Hb. rewrite E in Hb. congruence. }
    unfold fits in Hfit. apply andb_prop in Hfit as [Hff Hfs]. simpl in Hff, Hfs. subst f.
    rewrite <- Hl in Hrep. destruct (take_block_ok _ _ _ _ (align4 sz) Hrep) as (p' & Ht & Hr');
      [lia|done|].
    exists p'. split; [|exact Hr'].
    rewrite (bind_ok _ _ _ _ _ Hf), (bind_ok _ _ _ _ _ Ht).
    rewrite (Z.add_comm 4). reflexivity.
Qed.

(** ** Freeing *)

(** The size of a block that takes in the free block behind it, and what follows. *)
Definition absorb (s : Z) (l : list block) : Z * list block :=
  match l with (s2, true) :: t => (s + s2 + 4, t) | _ => (s, l) end.

Lemma merge_next_ok p l1 s f l2 :
  rep p (l1 ++ (s, f) :: l2) ->
  exists p', merge_next (span l1) p = Ok (tt, p') /\
    rep p' (l1 ++ ((absorb s l2).1, f) :: (absorb s l2).2).
Proof.
  intros Hrep. pose proof Hrep as (_ & Hs & Hsp & Hseg). unfold USBRAM_BUFFER_SIZE in *.
  apply seg_app in Hseg as [H1 Hseg]. apply Forall_app in Hs as [Hs1 Hs2].
  inversion Hs2 as [|? ? [Hs0 Hsm] Hs2']; subst. simpl in Hs0, Hsm.
  destruct (span_sized _ Hs1) as [? Ho]. rewrite span_app in Hsp. simpl in Hsp.
  destruct l2 as [|[s2 f2] l2].
  { destruct Hseg as [Hb _]. exists p. split; [|exact Hrep].
    unfold merge_next. erewrite bind_ok; [|by apply hget_run]. reflexivity. }
  destruct (next_of _ _ _ _ _ _ Hseg) as (h & Hh & _ & _ & Hx); [lia|done|done|].
  destruct Hseg as [Hb [Hc H2]]. rewrite Hb in Hh. injection Hh as <-. cbn [link fst snd] in Hb, Hx.
  inversion Hs2' as [|? ? [Ht0 Htm] Hs3]; subst. simpl in Ht0, Htm.
  destruct (span_sized _ Hs3) as [? _]. simpl in Hsp.
  unfold merge_next. erewrite bind_ok; [|by apply hget_run]. rewrite Hx.
  erewrite bind_ok; [|by apply hget_run]. cbn [isFree snd]. rewrite flag_1.
  destruct f2; cbn [absorb fst snd when]; [|by exists p].
  eexists. split; [reflexivity|]. split; [by destruct l1|]. split; [|split].
  - apply Forall_app. split; [done|]. constructor; [|done]. split; simpl; [lia|].
    Z.div_mod_to_equations; lia.
  - rewrite span_app. simpl. unfold USBRAM_BUFFER_SIZE. lia.
  - apply seg_app. split; [apply seg_put; [done|lia|exact H1]|]. split.
    + rewrite pool_get. simpl. unfold u15, HEADER_SIZE. rewrite Z.mod_small by lia.
      do 2 f_equal. destruct l2; simpl; [done|]. unfold after. simpl. f_equal. lia.
    + apply seg_put; [done|unfold after; simpl; lia|].
      replace (after (0 + span l1) (s + s2 + 4, f))
        with (after (after (0 + span l1) (s, f)) (s2, true)) by (unfold after; simpl; lia).
      exact H2.
Qed.

Definition prev_body (o : Z) (prev : option Z) : M pool (ctl (option Z) Z) :=
  match prev with
  | None => mret (Break o)
  | Some q =>
      ph ← hget q;
      if bool_decide (NEXT_BLOCK ph = Some o) then
        if isFree ph =? 1 then
          blk ← hget o;
          hput q (ph{{ size := u15 (size ph + size blk + HEADER_SIZE); next := next blk }}) ;;
          mret (Break q)
        else mret (Break o)
      else mret (Continue (NEXT_BLOCK ph))
  end.

(** The walk passes the blocks that are not in front of [o]. *)
Lemma prev_pass p o q l0 b l n :
  Forall sized l0 -> 0 <= q -> q mod 4 = 0 -> o <= q \/ q + span l0 < o ->
  seg p q (l0 ++ b :: l) 0 ->
  while (length l0 + n) (prev_body o) (Some q) p = while n (prev_body o) (Some (q + span l0)) p.
Proof.
  intros Hs. revert q. induction Hs as [|c l0 [Hc Hcm] Hl IH]; intros q Hq Hm Ho Hseg.
  - cbn [span]. by rewrite Z.add_0_r.
  - destruct (span_sized _ Hl) as [? _]. simpl in Ho. cbn [length Nat.add while].
    assert (exists h, p !! q = Some h /\ NEXT_BLOCK h = Some (after q c)) as (h & Hh & Hx).
    { destruct l0 as [|d l0]; (destruct (next_of _ _ _ _ _ _ Hseg) as (h & ? & _ & _ & ?);
        [done|done|done|by exists h]). }
    destruct Hseg as [_ Hr]. cbn [span].
    assert (prev_body o (Some q) p = Ok (Continue (Some (after q c)), p)) as Hb.
    { unfold prev_body. erewrite bind_ok; [|by apply hget_run]. rewrite Hx.
      rewrite bool_decide_false; [done|]. intros [= E]. unfold after in E. lia. }
    rewrite (bind_ok _ _ _ _ _ Hb). cbn [length app] in *.
    rewrite IH; [|unfold after; lia| |unfold after; lia|exact Hr].
    + do 2 f_equal. unfold after. lia.
    + unfold after. Z.div_mod_to_equations; lia.
Qed.

(** No block is in front of the first one. *)
Lemma merge_prev_first p l : rep p l -> merge_prev 0 p = Ok (0, p).
Proof.
  intros (Hne & Hs & Hsp & Hseg). destruct (span_sized _ Hs) as [Hlen _].
  unfold USBRAM_BUFFER_SIZE in *. unfold merge_prev. fold (prev_body 0).
  destruct (exists_last Hne) as (l0 & b & ->). rewrite length_app in Hlen. simpl in Hlen.
  replace walk with (length l0 + S (S (walk - 2 - length l0)))%nat by (unfold walk; lia).
  apply Forall_app in Hs as [Hs0 _]. destruct (span_sized _ Hs0).
  rewrite (prev_pass p 0 0 l0 b []); [|done|done|done|lia|done].
  apply seg_app in Hseg as [_ [Hb _]]. cbn [while].
  rewrite (bind_ok _ _ _ (Continue None) p); [reflexivity|].
  unfold prev_body. erewrite bind_ok; [|by apply hget_run]. reflexivity.
Qed.

Lemma merge_prev_ok p l0 s0 f0 s f l2 :
  rep p (l0 ++ (s0, f0) :: (s, f) :: l2) ->
  if f0 then
    exists p', merge_prev (span l0 + 4 + s0) p = Ok (span l0, p') /\
      rep p' (l0 ++ (s0 + s + 4, true) :: l2)
  else merge_prev (span l0 + 4 + s0) p = Ok (span l0 + 4 + s0, p).
Proof.
  intros (_ & Hs & Hsp & Hseg). unfold USBRAM_BUFFER_SIZE in *.
  pose proof (span_sized _ Hs) as [Hlen _]. rewrite length_app in Hlen. simpl in Hlen.
  apply Forall_app in Hs as [Hs0 Hs2]. inversion Hs2 as [|? ? [Ha Ham] Hs3]; subst.
  inversion Hs3 as [|? ? [Hc Hcm] Hs4]; subst. simpl in Ha, Ham, Hc, Hcm.
  destruct (span_sized _ Hs0) as [? Ho]. destruct (span_sized _ Hs4) as [? _].
  rewrite span_app in Hsp, Hlen. simpl in Hsp, Hlen.
  set (o := span l0 + 4 + s0). unfold merge_prev. fold (prev_body o).
  replace walk with (length l0 + S (walk - 1 - length l0))%nat by (unfold walk; lia).
  rewrite (prev_pass p o 0 l0 (s0, f0) ((s, f) :: l2)); [|done|done|done|unfold o; lia|done].
  apply seg_app in Hseg as [H1 Hseg].
  destruct (next_of _ _ _ _ _ _ Hseg) as (h & Hh & _ & _ & Hx); [lia|done|done|].
  destruct Hseg as [Hb [Hd H2]]. rewrite Hb in Hh. injection Hh as <-. cbn [link fst snd] in Hb, Hx. cbn [while].
  assert (after (0 + span l0) (s0, f0) = o) as Eo by (unfold after, o; simpl; lia).
  rewrite Eo in Hb, Hx, Hd, H2. destruct f0.
  - eexists. split.
    + rewrite (bind_ok _ _ _ (Break (span l0)) (<[0 + span l0 := mk_blk (s0 + s + 4) 1
        (link o (s, f) l2 0)]> p)); [reflexivity|].
      unfold prev_body. erewrite bind_ok; [|by apply hget_run]. rewrite Hx.
      rewrite bool_decide_true by done. cbn [isFree fst snd]. rewrite flag_1.
      erewrite bind_ok; [|by apply hget_run]. cbn [size next fst snd].
      unfold u15, HEADER_SIZE. simpl. rewrite Z.mod_small by lia. reflexivity.
    + split; [by destruct l0|]. split; [|split].
      * apply Forall_app. split; [done|]. constructor; [|done]. split; simpl; [lia|].
        Z.div_mod_to_equations; lia.
      * rewrite span_app. simpl. unfold USBRAM_BUFFER_SIZE. lia.
      * apply seg_app. split; [apply seg_put; [done|lia|exact H1]|]. split.
        -- rewrite pool_get. simpl. do 2 f_equal. destruct l2; simpl; [done|].
           unfold after, o. simpl. f_equal. lia.
        -- apply seg_put; [done|unfold after; simpl; lia|].
           replace (after (0 + span l0) (s0 + s + 4, true)) with (after o (s, f))
             by (unfold after, o; simpl; lia). exact H2.
  - rewrite (bind_ok _ _ _ (Break o) p); [reflexivity|].
    unfold prev_body. erewrite bind_ok; [|by apply hget_run]. rewrite Hx.
    rewrite bool_decide_true by done. reflexivity.
Qed.

Lemma mark_free p l1 s f l2 :
  rep p (l1 ++ (s, f) :: l2) ->
  exists h, p !! span l1 = Some h /\
    rep (<[span l1 := h{{ isFree := 1 }}]> p) (l1 ++ (s, true) :: l2).
Proof.
  intros (_ & Hs & Hsp & Hseg). apply seg_app in Hseg as [H1 [Hb H2]].
  apply Forall_app in Hs as [Hs1 Hs2]. inversion Hs2 as [|? ? Hs0 Hs3]; subst.
  eexists. split; [exact Hb|]. split; [by destruct l1|].
  destruct Hs0 as [? ?]. simpl in *. destruct (span_sized _ Hs1).
  split; [apply Forall_app; split; [done|]; by constructor|].
  rewrite span_app in Hsp |- *. split; [exact Hsp|].
  apply seg_app. split; [apply seg_put; [done|lia|exact H1]|]. split.
  - rewrite pool_get. reflexivity.
  - apply seg_put; [done|unfold after; simpl; lia|exact H2].
Qed.

(** ** Merging neighbours on the abstract pool *)

Lemma pack_id l : apart l -> pack l = l.
Proof.
  induction l as [|[s f] l IH]; [done|]. intros H. cbn [pack].
  destruct f; cbn [apart] in H.
  - destruct l as [|[s' []] l]; [done|done|]. by rewrite IH.
  - by rewrite IH.
Qed.

Lemma pack_apart l : apart (pack l).
Proof.
  induction l as [|[s f] l IH]; [done|]. cbn [pack].
  destruct f; [|by destruct (pack l)]. by destruct (pack l) as [|[s' []] t].
Qed.

Lemma apart_tail t m : apart (t ++ m) -> apart t /\ apart m.
Proof.
  induction t as [|[s f] t IH]; [done|]. cbn [app].
  destruct f; [|exact IH]. destruct t as [|[s1 []] t]; cbn [app apart] in *; [|done|tauto].
  by destruct m as [|[s2 []] m].
Qed.

(** Merging does not reach past a block that keeps its flag. *)
Lemma pack_front l0 b m b' t :
  apart (l0 ++ [b]) -> pack m = b' :: t -> b'.2 = b.2 -> pack (l0 ++ m) = l0 ++ b' :: t.
Proof.
  revert b. induction l0 as [|[s f] l0 IH]; intros b Ha Hm Hb; [done|].
  cbn [app pack]. erewrite IH; [| |exact Hm|exact Hb].
  - destruct f; [|done]. destruct l0 as [|[s1 f1] l0]; cbn [app] in *.
    + destruct b' as [s' f'], b as [s1 f1]. simpl in Hb. subst. by destruct f1.
    + by destruct f1.
  - by apply (apart_tail [(s, f)]) in Ha as [_ Ha].
Qed.

Lemma apart_split t x m : apart (t ++ (x, false) :: m) <-> apart t /\ apart m.
Proof.
  induction t as [|[s f] t IH]; [simpl; tauto|]. cbn [app].
  destruct f; [|exact IH]. destruct t as [|[s1 []] t]; cbn [app apart] in *; tauto.
Qed.

Lemma pack_absorb s l2 :
  apart l2 -> pack ((s, true) :: l2) = ((absorb s l2).1, true) :: (absorb s l2).2.
Proof.
  intros H. cbn [pack]. rewrite (pack_id l2 H). destruct l2 as [|[s2 []] l2]; cbn; [done| |done].
  by replace (s + (4 + s2)) with (s + s2 + 4) by lia.
Qed.

(** Freeing the block behind [l1] merges it with both neighbours. *)
Lemma free_run p l1 s l2 :
  rep p (l1 ++ (s, false) :: l2) -> apart (l1 ++ (s, false) :: l2) ->
  exists p', USB_Memory_Free (Some (span l1 + 4)) p = Ok (tt, p') /\
    rep p' (pack (l1 ++ (s, true) :: l2)).
Proof.
  intros Hrep Ha. apply apart_split in Ha as [Ha1 Ha2]. unfold USB_Memory_Free, HEADER_SIZE.
  replace (span l1 + 4 - 4) with (span l1) by lia.
  destruct (merge_next_ok _ _ _ _ _ Hrep) as (p1 & H1 & Hr1). rewrite (bind_ok _ _ _ _ _ H1).
  pose proof (pack_absorb s l2 Ha2) as Hp. destruct (absorb s l2) as [s' t]. cbn [fst snd] in *.
  destruct (decide (l1 = [])) as [->|Hne].
  - rewrite (bind_ok _ _ _ _ _ (merge_prev_first _ _ Hr1)).
    destruct (mark_free _ [] _ _ _ Hr1) as (h & Hh & Hr). cbn [span app] in *.
    rewrite Hp. eexists. split; [|exact Hr]. by erewrite bind_ok; [|by apply hget_run].
  - destruct (exists_last Hne) as (l0 & [s0 f0] & ->). rewrite <- app_assoc in Hr1.
    pose proof (merge_prev_ok _ _ _ _ _ _ _ Hr1) as Hprev.
    assert (span (l0 ++ [(s0, f0)]) = span l0 + 4 + s0) as Hsp by (rewrite span_app; simpl; lia).
    rewrite <- app_assoc. rewrite Hsp. cbn [app] in *. destruct f0.
    + destruct Hprev as (p2 & H2 & Hr2). rewrite (bind_ok _ _ _ _ _ H2).
      destruct (mark_free _ _ _ _ _ Hr2) as (h & Hh & Hr).
      rewrite (pack_front _ _ _ (s0 + (4 + s'), true) t Ha1);
        [|cbn [pack] in *; by rewrite Hp|done].
      replace (s0 + (4 + s')) with (s0 + s' + 4) by lia.
      eexists. split; [|exact Hr]. by erewrite bind_ok; [|by apply hget_run].
    + rewrite (bind_ok _ _ _ _ _ Hprev).
      rewrite cons_middle, app_assoc in Hr1.
      destruct (mark_free _ _ _ _ _ Hr1) as (h & Hh & Hr). rewrite Hsp in Hh, Hr.
      rewrite (pack_front _ _ _ (s0, false) ((s', true) :: t) Ha1);
        [|cbn [pack] in *; by rewrite Hp|done].
      rewrite <- app_assoc in Hr.
      eexists. split; [|exact Hr]. by erewrite bind_ok; [|by apply hget_run].
Qed.

(** ** The blocks in use *)

(** The address and size of the data of the blocks in use. *)
Fixpoint lives (o : Z) (l : list block) : list (Z * Z) :=
  match l with
  | [] => []
  | (s, f) :: l' => (if f then [] else [(o + 4, s)]) ++ lives (o + 4 + s) l'
  end.

Lemma lives_app o l1 l2 : lives o (l1 ++ l2) = lives o l1 ++ lives (o + span l1) l2.
Proof.
  revert o. induction l1 as [|[s f] l1 IH]; intros o; simpl; [by rewrite Z.add_0_r|].
  rewrite IH, <- app_assoc. do 3 f_equal. lia.
Qed.

Lemma pack_span l : span (pack l) = span l.
Proof.
  induction l as [|[s f] l IH]; [done|]. cbn [pack span].
  destruct f, (pack l) as [|[s' []] t]; simpl in *; lia.
Qed.

Lemma lives_pack o l : lives o (pack l) = lives o l.
Proof.
  revert o. induction l as [|[s f] l IH]; intros o; [done|]. cbn [pack lives].
  rewrite <- IH. destruct f, (pack l) as [|[s' []] t]; simpl; try done.
  f_equal. lia.
Qed.

Lemma lives_split o l a s :
  (a, s) ∈ lives o l ->
  exists l1 l2, l = l1 ++ (s, false) :: l2 /\ a = o + span l1 + 4.
Proof.
  revert o. induction l as [|[s1 f] l IH]; intros o; simpl; [by rewrite elem_of_nil|].
  rewrite elem_of_app. intros [H|H].
  - destruct f; [by apply elem_of_nil in H|]. apply list_elem_of_singleton in H as [= -> ->].
    exists [], l. simpl. split; [done|lia].
  - apply IH in H as (l1 & l2 & -> & ->). exists ((s1, f) :: l1), l2. simpl. split; [done|lia].
Qed.

(** In address order, each block in use ends before the header of the next. *)
Lemma lives_ordered o l :
  Forall sized l ->
  ForallOrdPairs (fun x y => x.1 + x.2 + 4 <= y.1) (lives o l) /\
  Forall (fun x => o + 4 <= x.1 /\ x.1 + x.2 <= o + span l /\ x.1 mod 4 = o mod 4) (lives o l).
Proof.
  intros Hs. revert o. induction Hs as [|[s f] l [? Hm] Hs IH]; intros o; simpl.
  { split; constructor. }
  destruct (IH (o + 4 + s)) as [Ho Hf]. simpl in *. destruct (span_sized _ Hs) as [? _].
  assert (Forall (fun x => o + 4 <= x.1 /\ x.1 + x.2 <= o + (4 + s + span l) /\
                           x.1 mod 4 = o mod 4) (lives (o + 4 + s) l)) as Hf'.
  { eapply Forall_impl; [exact Hf|]. intros x (? & ? & ?). split; [lia|]. split; [lia|].
    Z.div_mod_to_equations; lia. }
  destruct f; simpl; [done|]. split; constructor; try done.
  - eapply Forall_impl; [exact Hf|]. intros x (? & _). simpl. lia.
  - simpl. split; [lia|]. split; [lia|]. Z.div_mod_to_equations; lia.
Qed.

(** ** Runs of the allocator *)

(** The clients' view: the pool, and the ranges they hold: the addresses they were given
    with the sizes they asked for, rounded up as the code does.  A client may ask for any
    size and frees what it holds. *)
Inductive reach : pool -> list (Z * Z) -> Prop :=
| reach_init p :
    USB_Memory_Init USBRAM_BUFFER_SIZE ∅ = Ok (tt, p) -> reach p []
| reach_alloc p own sz a p' :
    reach p own -> 0 <= sz < 2 ^ 32 -> USB_Memory_Alloc sz p = Ok (Some a, p') ->
    reach p' ((a, align4 sz) :: own)
| reach_full p own sz p' :
    reach p own -> 0 <= sz < 2 ^ 32 -> USB_Memory_Alloc sz p = Ok (None, p') ->
    reach p' own
| reach_free p own1 a sz own2 p' :
    reach p (own1 ++ (a, sz) :: own2) -> USB_Memory_Free (Some a) p = Ok (tt, p') ->
    reach p' (own1 ++ own2).

(** What is held is what is in use, each with at least the size asked for. *)
Definition holds (own : list (Z * Z)) (l : list block) : Prop :=
  exists blks, blks ≡ₚ lives 0 l /\
    Forall2 (fun x y : Z * Z => x.1 = y.1 /\ 0 <= x.2 <= y.2) own blks.

Definition pool_inv (p : pool) (own : list (Z * Z)) : Prop :=
  exists l, rep p l /\ apart l /\ span l = USBRAM_BUFFER_SIZE /\ holds own l.

Lemma fit_split sz l b l2 :
  drop (find_idx (fits sz) l) l = b :: l2 ->
  b.2 = true /\ sz <= b.1 /\ l = take (find_idx (fits sz) l) l ++ b :: l2.
Proof.
  set (i := find_idx (fits sz) l). intros E.
  assert (Hi : (i < length l)%nat).
  { apply Nat.nle_gt. intros Hl. apply drop_ge in Hl. congruence. }
  destruct (find_idx_lt _ _ Hi) as (c & Hc & Hfit). fold i in Hc.
  pose proof (drop_S l c i Hc) as Hd. rewrite E in Hd. injection Hd as -> _.
  unfold fits in Hfit. apply andb_prop in Hfit as [? ?].
  split; [done|]. split; [lia|]. by rewrite <- E, take_drop.
Qed.

(** A split block is one in use followed by what may still be free. *)
Lemma split_shape sz s l2 :
  0 <= sz <= s ->
  exists s' r, split_block sz (s, true) ++ l2 = (s', false) :: r /\ sz <= s' /\
    s' + span r = s + span l2 /\ (forall o, lives (o + s') r = lives (o + s) l2) /\
    (apart ((s, true) :: l2) -> apart r) /\ pack ((s', true) :: r) = pack ((s, true) :: l2).
Proof.
  intros H. unfold split_block. cbn [fst]. destruct (s <=? 4 + sz) eqn:E.
  - exists s, l2. split; [done|]. split; [lia|]. do 2 (split; [done|]). split; [|done]. by apply (apart_tail [_]).
  - exists sz, ((s - (4 + sz), true) :: l2). split; [done|]. split; [lia|]. simpl.
    split; [lia|]. split; [intros o; f_equal; lia|]. split; [done|].
    destruct (pack l2) as [|[s2 []] t]; do 2 f_equal; lia.
Qed.

Lemma holds_alloc own l sz sz' a l' :
  holds own l -> 0 <= sz' <= sz -> alloc_spec sz l = Some (a, l') ->
  holds ((a, sz') :: own) l' /\ span l' = span l /\ (apart l -> apart l').
Proof.
  intros (blks & Hp & Hf) Hsz. unfold alloc_spec.
  destruct (drop _ l) as [|[s f] l2] eqn:E; [done|]. intros [= <- <-].
  apply fit_split in E as (Hff & Hs & Hl). set (t := take _ l) in *. clearbody t.
  simpl in Hff, Hs. subst f l. rewrite lives_app in Hp. cbn [lives app] in Hp.
  destruct (split_shape sz s l2) as (s' & r & -> & Hs' & Hspan & Hlv & Ha & _); [lia|].
  rewrite !span_app. simpl. split; [|split; [lia|]].
  - exists ((span t + 4, s') :: blks). split.
    + rewrite lives_app, Hp. simpl. rewrite Hlv. apply Permutation_middle.
    + constructor; [|done]. simpl. lia.
  - rewrite apart_split. intros H. destruct (apart_tail _ _ H). auto.
Qed.

Lemma holds_free own1 a sz own2 l :
  holds (own1 ++ (a, sz) :: own2) l ->
  exists l1 s l2, l = l1 ++ (s, false) :: l2 /\ a = span l1 + 4 /\
    holds (own1 ++ own2) (pack (l1 ++ (s, true) :: l2)).
Proof.
  intros (blks & Hp & Hf). apply Forall2_app_inv_l in Hf as (b1 & b2 & Hf1 & Hf2 & ->).
  inversion Hf2 as [|? [a' s] ? b2' [Ha _] Hf2']; subst. simpl in Ha. subst a'.
  assert ((a, s) ∈ lives 0 l) as Hin.
  { rewrite <- Hp. apply elem_of_app. right. apply list_elem_of_here. }
  destruct (lives_split _ _ _ _ Hin) as (l1 & l2 & -> & ->). exists l1, s, l2.
  split; [done|]. split; [done|]. exists (b1 ++ b2'). split.
  - rewrite lives_pack, !lives_app in *. cbn [lives app] in *.
    replace (0 + span l1 + 4) with (span l1 + 4) in * by lia.
    by apply (Permutation_app_inv _ _ _ _ (span l1 + 4, s)).
  - by apply Forall2_app.
Qed.

Lemma init_inv p : USB_Memory_Init USBRAM_BUFFER_SIZE ∅ = Ok (tt, p) -> pool_inv p [].
Proof.
  intros [= <-]. exists [(2044, true)]. split; [|split; [done|split; [done|by exists []]]].
  split; [done|]. split; [by repeat constructor|]. split; [done|]. split; [|done]. reflexivity.
Qed.

Lemma reach_inv p own : reach p own -> pool_inv p own.
Proof.
  induction 1 as [p Hi|p own sz a p' _ IH Hsz Hr|p own sz p' _ IH Hsz Hr
                 |p own1 a sz own2 p' _ IH Hr].
  - by apply init_inv.
  - destruct IH as (l & Hrep & Ha & Hsp & Hh). destruct (align4_total sz Hsz) as (H0 & Hm & _).
    pose proof (alloc_run sz p l Hrep H0 Hm) as Hal.
    destruct (alloc_spec (align4 sz) l) as [[a1 l']|] eqn:E; [|congruence].
    destruct Hal as (p1 & Hr1 & Hrep1). rewrite Hr in Hr1. injection Hr1 as <- <-.
    destruct (holds_alloc _ _ (align4 sz) (align4 sz) _ _ Hh ltac:(lia) E) as (? & ? & ?).
    exists l'. split; [done|]. split; [auto|]. split; [lia|done].
  - destruct IH as (l & Hrep & Ha & Hsp & Hh). destruct (align4_total sz Hsz) as (H0 & Hm & _).
    pose proof (alloc_run sz p l Hrep H0 Hm) as Hal.
    destruct (alloc_spec (align4 sz) l) as [[a1 l']|].
    { destruct Hal as (p1 & Hr1 & _). congruence. }
    rewrite Hr in Hal. injection Hal as ->. by exists l.
  - destruct IH as (l & Hrep & Ha & Hsp & Hh).
    destruct (holds_free _ _ _ _ _ Hh) as (l1 & s & l2 & -> & -> & Hh').
    destruct (free_run _ _ _ _ Hrep Ha) as (p1 & Hr1 & Hrep1).
    rewrite Hr in Hr1. injection Hr1 as <-. eexists. split; [exact Hrep1|].
    split; [apply pack_apart|]. split; [|done]. rewrite pack_span, <- Hsp, !span_app. done.
Qed.

(** Two ranges of the pool that share no byte, a header between them. *)
Definition disjoint (x y : Z * Z) : Prop :=
  x.1 + x.2 + 4 <= y.1 \/ y.1 + y.2 + 4 <= x.1.

Lemma pairs_perm (l l' : list (Z * Z)) :
  l ≡ₚ l' -> ForallOrdPairs disjoint l -> ForallOrdPairs disjoint l'.
Proof.
  induction 1 as [|x l l' Hp IH|x y l|l1 l2 l3 _ IH1 _ IH2]; intros H; auto.
  - inversion H as [|? ? Hx Hl]; subst. constructor; [|auto]. by rewrite <- Hp.
  - inversion H as [|? ? Hx Hl]; subst. inversion Hl as [|? ? Hy Hl']; subst.
    inversion Hx as [|? ? Hxy Hx']; subst. constructor; [constructor; [|done]|by constructor].
    unfold disjoint in *. lia.
Qed.

Lemma pairs_shrink (own blks : list (Z * Z)) :
  Forall2 (fun x y : Z * Z => x.1 = y.1 /\ 0 <= x.2 <= y.2) own blks ->
  ForallOrdPairs disjoint blks -> ForallOrdPairs disjoint own.
Proof.
  induction 1 as [|x y own blks [Hx Hxs] Hf IH]; intros H; [constructor|].
  inversion H as [|? ? Hy Hl]; subst. constructor; [|auto]. clear IH H Hl.
  induction Hf as [|x' y' own blks [? ?] Hf IH]; [done|].
  inversion Hy; subst. constructor; [|auto]. unfold disjoint in *. lia.
Qed.

(** ** Theorems *)

(** C12: [USB_Memory_Alloc] is the first-fit split of the list of blocks: it hands out
    the data of the first free block that holds the size rounded up to four (in 32 bits, so
    that the last three sizes round to 0), splitting off what is left, or NULL with the pool untouched when there is none. *)
Theorem alloc_first_fit p l sz :
  rep p l -> 0 <= sz < 2 ^ 32 ->
  match alloc_spec (align4 sz) l with
  | None => USB_Memory_Alloc sz p = Ok (None, p)
  | Some (a, l') => exists p', USB_Memory_Alloc sz p = Ok (Some a, p') /\ rep p' l'
  end.
Proof.
  intros Hrep Hsz. destruct (align4_total sz Hsz) as (? & ? & _). by apply alloc_run.
Qed.

(** Freeing what was just allocated gives back the pool there was before, the split
    undone. *)
Theorem alloc_free_roundtrip p l sz a p1 :
  rep p l -> apart l -> 0 <= sz < 4294967293 -> USB_Memory_Alloc sz p = Ok (Some a, p1) ->
  exists p2, USB_Memory_Free (Some a) p1 = Ok (tt, p2) /\ rep p2 l.
Proof.
  intros Hrep Ha Hsz Hr. destruct (align4_ok sz Hsz) as (H0 & Hm & _).
  pose proof (alloc_run sz p l Hrep H0 Hm) as Hal. unfold alloc_spec in Hal.
  destruct (drop _ l) as [|[s f] l2] eqn:E; [congruence|].
  apply fit_split in E as (Hf & Hs & Hl). set (t := take _ l) in *. clearbody t.
  simpl in Hf, Hs. subst f l. destruct Hal as (p' & Hr' & Hrep1).
  rewrite Hr in Hr'. injection Hr' as -> <-.
  destruct (split_shape (align4 sz) s l2) as (s' & r & Hsh & _ & _ & _ & Hra & Hpk); [lia|].
  rewrite Hsh in Hrep1. destruct (apart_tail _ _ Ha) as [Ht Hb].
  destruct (free_run _ _ _ _ Hrep1) as (p2 & Hf2 & Hrep2); [apply apart_split; auto|].
  exists p2. rewrite Z.add_comm. split; [exact Hf2|].
  pose proof (eq_trans Hpk (pack_id _ Hb)) as Hpk'.
  rewrite (pack_front t (s, true) _ (s, true) l2) in Hrep2; [done| |done|done].
  rewrite cons_middle, app_assoc in Ha. by apply apart_tail in Ha as [Ha _].
Qed.

(** C11: Whatever the clients allocate, of any 32-bit size, and free, in any order, the
    ranges they hold are inside the pool, word-aligned and without a common byte, and
    neither a call to allocate any size nor one to free what is held faults or loops.  A
    range is the size that was asked for rounded up to a multiple of 4, which holds it,
    except for the last three sizes below 2^32: these round to 0, and the range handed out
    for them is empty. *)
Theorem held_ranges_disjoint p own :
  reach p own ->
  Forall (fun x => 4 <= x.1 /\ x.1 mod 4 = 0 /\ x.1 + x.2 <= USBRAM_BUFFER_SIZE) own /\
  ForallOrdPairs disjoint own /\
  (forall sz, 0 <= sz < 2 ^ 32 -> exists r p', USB_Memory_Alloc sz p = Ok (r, p') /\
     (forall a, r = Some a -> reach p' ((a, align4 sz) :: own)) /\
     (sz < 2 ^ 32 - 3 -> sz <= align4 sz < sz + 4) /\ (2 ^ 32 - 3 <= sz -> align4 sz = 0)) /\
  (forall a sz, (a, sz) ∈ own -> exists p', USB_Memory_Free (Some a) p = Ok (tt, p')).
Proof.
  intros H. destruct (reach_inv p own H) as (l & Hrep & Ha & Hsp & Hh).
  pose proof Hh as (blks & Hp & Hf). pose proof Hrep as (_ & Hs & _).
  destruct (lives_ordered 0 l Hs) as [Ho Hin]. rewrite Hsp in Hin.
  split; [|split; [|split]].
  - rewrite <- Hp in Hin. clear -Hf Hin. induction Hf as [|x y own blks [Hx Hxs] Hf IH]; [done|].
    inversion Hin as [|? ? (? & ? & ?) Hin']; subst. constructor; [|auto].
    rewrite Hx. split; [lia|]. split; [done|lia].
  - apply (pairs_shrink _ _ Hf). apply (pairs_perm (lives 0 l)); [done|].
    clear -Ho. induction Ho as [|x k Hx Hk IH]; [constructor|]. constructor; [|done].
    eapply Forall_impl; [exact Hx|]. intros y Hy. by left.
  - intros sz Hsz. destruct (align4_total sz Hsz) as (H0 & Hm & Hz).
    pose proof (alloc_run sz p l Hrep H0 Hm) as Hal.
    assert (sz < 2 ^ 32 - 3 -> sz <= align4 sz < sz + 4) as Hk by (intros ?; apply align4_ok; lia).
    destruct (alloc_spec _ l) as [[a l']|].
    + destruct Hal as (p' & Hr & _). exists (Some a), p'. split; [done|]. split; [|done].
      intros ? [= <-]. by eapply reach_alloc.
    + exists None, p. by split.
  - intros a sz Hx. apply list_elem_of_split in Hx as (o1 & o2 & ->).
    destruct (holds_free _ _ _ _ _ Hh) as (l1 & s & l2 & -> & -> & _).
    destruct (free_run _ _ _ _ Hrep Ha) as (p' & Hr & _). by exists p'.
Qed.

(** Nothing is lost: when the clients hold nothing, the pool is one free block
    again, and any size up to the whole of it is handed out at its start. *)
Theorem all_freed_is_whole p sz :
  reach p [] -> 0 <= sz <= USBRAM_BUFFER_SIZE - HEADER_SIZE ->
  exists p', USB_Memory_Alloc sz p = Ok (Some HEADER_SIZE, p').
Proof.
  intros H Hsz. unfold USBRAM_BUFFER_SIZE, HEADER_SIZE in Hsz.
  destruct (reach_inv p [] H) as (l & Hrep & Ha & Hsp & blks & Hp & Hf).
  inversion Hf; subst. symmetry in Hp. apply Permutation_nil_r in Hp.
  assert (l = [(2044, true)]) as ->.
  { unfold USBRAM_BUFFER_SIZE in Hsp. destruct l as [|[s []] [|[s2 []] l]]; try done.
    simpl in Hsp. do 2 f_equal. lia. }
  destruct (align4_ok sz) as (H0 & Hm & Hb); [lia|].
  assert (align4 sz <= 2044) by (Z.div_mod_to_equations; lia).
  pose proof (alloc_run sz p _ Hrep H0 Hm) as Hal. unfold alloc_spec in Hal.
  simpl in Hal. unfold fits in Hal. cbn [fst snd andb] in Hal.
  rewrite (proj2 (Z.leb_le _ _)) in Hal by lia. simpl in Hal.
  destruct Hal as (p' & Hr & _). by exists p'.
Qed.

(** ** Witnesses *)

Definition pool_of {A} (m : M pool A) (p : pool) : pool :=
  match m p with Ok (_, p') => p' | Fault _ => p end.

Definition whole_pool : pool := pool_of (USB_Memory_Init USBRAM_BUFFER_SIZE) ∅.
Definition one_held : pool := pool_of (USB_Memory_Alloc 10) whole_pool.
Definition two_held : pool := pool_of (USB_Memory_Alloc 20) one_held.
Definition none_held : pool :=
  pool_of (USB_Memory_Free (Some 20)) (pool_of (USB_Memory_Free (Some 4)) two_held).

Lemma whole_rep : rep whole_pool [(2044, true)].
Proof. split; [done|]. split; [by repeat constructor|]. split; [done|]. by split. Qed.

Lemma two_reach : reach two_held [(20, 20); (4, 12)].
Proof.
  apply (reach_alloc one_held [(4, 12)] 20 20); [|done|by vm_compute].
  apply (reach_alloc whole_pool [] 10 4); [|done|by vm_compute]. by apply reach_init.
Qed.

Lemma alloc_first_fit_witness :
  exists p', USB_Memory_Alloc 10 whole_pool = Ok (Some 4, p') /\
    rep p' [(12, false); (2028, true)].
Proof. exact (alloc_first_fit whole_pool [(2044, true)] 10 whole_rep ltac:(lia)). Defined.

Lemma alloc_free_roundtrip_witness :
  exists p2, USB_Memory_Free (Some 4) one_held = Ok (tt, p2) /\ rep p2 [(2044, true)].
Proof.
  apply (alloc_free_roundtrip whole_pool [(2044, true)] 10 4 one_held whole_rep);
    [done|lia|by vm_compute].
Defined.

Lemma held_ranges_disjoint_witness : ForallOrdPairs disjoint [(20, 20); (4, 12)].
Proof. apply (held_ranges_disjoint two_held [(20, 20); (4, 12)] two_reach). Defined.

Lemma all_freed_is_whole_witness :
  exists p', USB_Memory_Alloc 2000 none_held = Ok (Some HEADER_SIZE, p').
Proof.
  apply (all_freed_is_whole none_held 2000); [|done].
  apply (reach_free (pool_of (USB_Memory_Free (Some 4)) two_held) [] 20 20 []);
    [|by vm_compute].
  apply (reach_free two_held [(20, 20)] 4 12 []); [exact two_reach|by vm_compute].
Defined.

(** A size within three of the largest rounds up to nothing: the call succeeds and the
    caller is handed a block without data. *)
Lemma alloc_huge_succeeds :
  exists p', USB_Memory_Alloc 4294967295 whole_pool = Ok (Some 4, p') /\
    p' !! 0 = Some (mk_blk 0 0 1).
Proof. eexists. by vm_compute. Qed.
