(* ===== verification/Usb.v ===== *)
(** * USB host: pipes, control requests and descriptors

    nxpUSBlib/Drivers/USB/Core: LPC/Pipe_LPC.c and Pipe_LPC.h, LPC/PipeStream_LPC.c,
    HostStandardReq.c and ConfigDescriptor.c.  The host controller with the device
    behind it is an interface; the buffers of the pipes come from the memory pool of
    [UsbMem]. *)

From stdpp Require Import gmap.
From S2P Require Import Prelude UsbMem.

(** ** The host controller

    What the library asks of the controller's driver.  A pipe is opened for a device
    address, a speed, an endpoint, a transfer type and direction and a packet size, and
    is known by its handle from then on.  A control transfer takes the request and the
    bytes to send, and gives a status (0 for success) and the bytes received.  A transfer
    of data is started ([HcdDataOut], [HcdDataIn]) and goes on by itself; the status of
    the pipe says when it is over, and with it come the bytes that arrived. *)

Record USB_Request_Header_t : Type := mk_req {
  bmRequestType : Z; bRequest : Z; wValue : Z; wIndex : Z; wLength : Z
}.
#[export] Instance eta_USB_Request_Header_t : Settable USB_Request_Header_t :=
  fun s => mk_req (bmRequestType s) (bRequest s) (wValue s) (wIndex s) (wLength s).

Class Hcd (D : Type) : Type := {
  HcdInitDriver : D -> bool * D;
  HcdDeInitDriver : D -> D;
  HcdOpenPipe : Z -> Z -> Z -> Z -> Z -> Z -> D -> option Z * D;
  HcdClosePipe : Z -> D -> D;
  HcdGetPipeStatus : Z -> D -> Z * option (list Z) * D;
  HcdControlTransfer : Z -> USB_Request_Header_t -> list Z -> D -> Z * list Z * D;
  HcdDataOut : Z -> list Z -> D -> D;
  HcdDataIn : Z -> Z -> D -> D;
  HcdGetDeviceSpeed : D -> Z * D;
  HcdRhPortReset : D -> D
}.

Definition HCD_STATUS_OK : Z := 0.
Definition HCD_STATUS_TRANSFER_Stall : Z := 4.
Definition HCD_ENDPOINT_MAXPACKET_XFER_LEN : Z := 0xFFEEFFEE.

(** ** State *)

Definition MAX_USB_CORE : nat := 1.
Definition PIPE_TOTAL_PIPES : nat := 8.
Definition PIPE_MAX_SIZE : Z := 512.
Definition PIPE_CONTROLPIPE : Z := 0.

(** [Buffer] is an offset in the USB RAM, [None] for NULL. *)
Record USB_Pipe_Data_t : Type := mk_pipe {
  PipeHandle : Z;
  Buffer : option Z;
  BufferSize : Z;
  StartIdx : Z;
  ByteTransfered : Z;
  EndponitAddress : Z
}.
#[export] Instance eta_USB_Pipe_Data_t : Settable USB_Pipe_Data_t :=
  fun s => mk_pipe (PipeHandle s) (Buffer s) (BufferSize s) (StartIdx s) (ByteTransfered s)
    (EndponitAddress s).

(** The host states used by the library. *)
Definition HOST_STATE_WaitForDevice : Z := 0.
Definition HOST_STATE_Unattached : Z := 1.
Definition HOST_STATE_Powered : Z := 2.
Definition HOST_STATE_Powered_WaitForDeviceSettle : Z := 3.
Definition HOST_STATE_Powered_WaitForConnect : Z := 4.
Definition HOST_STATE_Powered_DoReset : Z := 5.
Definition HOST_STATE_Powered_ConfigPipe : Z := 6.
Definition HOST_STATE_Default : Z := 7.
Definition HOST_STATE_Default_PostReset : Z := 8.
Definition HOST_STATE_Default_PostAddressSet : Z := 9.
Definition HOST_STATE_Addressed : Z := 10.
Definition HOST_STATE_Configured : Z := 11.

(** [ram] is the data of the USB RAM, whose block headers are [upool]; [stack] is what
    an array on the stack holds before it is written. *)
Record uworld (D : Type) : Type := mk_uworld {
  ram : list Z;
  upool : pool;
  PipeInfo : list (list USB_Pipe_Data_t);
  pipeselected : list Z;
  USB_HostState : list Z;
  USB_ControlRequest : USB_Request_Header_t;
  USB_Host_ConfigurationNumber : Z;
  USB_Host_ControlPipeSize : list Z;
  hostportspeed : list Z;
  WaitMSRemaining : Z;
  PostWaitState : Z;
  USB_IsInitialized : bool;
  stack : list Z;
  dev : D
}.
Arguments mk_uworld {D}.
Arguments ram {D}. Arguments upool {D}. Arguments PipeInfo {D}. Arguments pipeselected {D}.
Arguments USB_HostState {D}. Arguments USB_ControlRequest {D}.
Arguments USB_Host_ConfigurationNumber {D}. Arguments USB_Host_ControlPipeSize {D}.
Arguments hostportspeed {D}.
Arguments WaitMSRemaining {D}. Arguments PostWaitState {D}. Arguments USB_IsInitialized {D}.
Arguments stack {D}. Arguments dev {D}.
#[export] Instance eta_uworld D : Settable (uworld D) :=
  fun s => mk_uworld (ram s) (upool s) (PipeInfo s) (pipeselected s) (USB_HostState s)
    (USB_ControlRequest s) (USB_Host_ConfigurationNumber s) (USB_Host_ControlPipeSize s)
    (hostportspeed s) (WaitMSRemaining s) (PostWaitState s) (USB_IsInitialized s) (stack s) (dev s).

#[export] Instance lens_upool D : Lens pool (uworld D) :=
  {| view := upool; put := fun p w => w{{ upool := p }} |}.

(** A byte of memory at [i], as the part of a structure. *)
Definition le16 (lo hi : Z) : Z := lo + 256 * hi.

Definition EP_TYPE_CONTROL : Z := 0x00.
Definition EP_TYPE_BULK : Z := 0x02.
Definition EP_TYPE_MASK : Z := 0x03.
Definition ENDPOINT_DIR_MASK : Z := 0x80.
Definition ENDPOINT_DIR_IN : Z := 0x80.
Definition PIPE_TOKEN_SETUP : Z := 0.
Definition PIPE_TOKEN_IN : Z := 1.
Definition PIPE_TOKEN_OUT : Z := 2.
Definition PIPE_EPDIR_MASK : Z := 0x80.
Definition USB_HOST_DEVICEADDRESS : Z := 1.
Definition CONTROL_REQTYPE_DIRECTION : Z := 0x80.
Definition REQDIR_HOSTTODEVICE : Z := Z.shiftl 0 7.
Definition REQDIR_DEVICETOHOST : Z := Z.shiftl 1 7.
Definition REQTYPE_STANDARD : Z := Z.shiftl 0 5.
Definition REQTYPE_VENDOR : Z := Z.shiftl 2 5.
Definition REQREC_DEVICE : Z := Z.shiftl 0 0.
Definition REQREC_INTERFACE : Z := Z.shiftl 1 0.
Definition REQREC_ENDPOINT : Z := Z.shiftl 2 0.
Definition REQ_GetStatus : Z := 0.
Definition REQ_ClearFeature : Z := 1.
Definition REQ_SetAddress : Z := 5.
Definition REQ_GetDescriptor : Z := 6.
Definition REQ_SetConfiguration : Z := 9.
Definition REQ_SetInterface : Z := 11.
Definition FEATURE_SEL_EndpointHalt : Z := 0.
Definition DTYPE_Device : Z := 1.
Definition DTYPE_Configuration : Z := 2.
Definition DTYPE_String : Z := 3.
Definition DTYPE_Interface : Z := 4.
Definition DTYPE_Endpoint : Z := 5.
Definition HOST_SENDCONTROL_Successful : Z := 0.
Definition HOST_SENDCONTROL_PipeError : Z := 2.
Definition HOST_GETCONFIG_Successful : Z := 0.
Definition HOST_GETCONFIG_BuffOverflow : Z := 5.
Definition HOST_GETCONFIG_InvalidData : Z := 6.

Section Usb.
Context {D : Type} `{Hcd D}.
#[local] Abbreviation U := (M (uworld D)).

(** The controller's driver works on its own part of the world. *)
Definition hcd {A} (f : D -> A * D) : U A := fun w =>
  let '(a, d) := f (dev w) in Ok (a, w{{ dev := d }}).

(** ** Pipes *)

Definition pipe_at (corenum n : Z) : U USB_Pipe_Data_t :=
  ps ← gets PipeInfo; row ← aget ps corenum; aget row n.
Definition set_pipe_at (corenum n : Z) (f : USB_Pipe_Data_t -> USB_Pipe_Data_t) : U unit :=
  ps ← gets PipeInfo;
  row ← aget ps corenum;
  p ← aget row n;
  row' ← aset row n (f p);
  ps' ← aset ps corenum row';
  modify (fun w : uworld D => w{{ PipeInfo := ps' }}).

Definition selected (corenum : Z) : U Z := ss ← gets pipeselected; aget ss corenum.
(** [PipeInfo[corenum][pipeselected[corenum]]]. *)
Definition cur_pipe (corenum : Z) : U USB_Pipe_Data_t :=
  n ← selected corenum; pipe_at corenum n.
Definition set_cur (corenum : Z) (f : USB_Pipe_Data_t -> USB_Pipe_Data_t) : U unit :=
  n ← selected corenum; set_pipe_at corenum n f.

Definition host_state (corenum : Z) : U Z := ss ← gets USB_HostState; aget ss corenum.
Definition set_host_state (corenum v : Z) : U unit :=
  ss ← gets USB_HostState;
  ss' ← aset ss corenum v;
  modify (fun w : uworld D => w{{ USB_HostState := ss' }}).

(** [Buffer[i]], through a pointer that may be NULL. *)
Definition buf_get (b : option Z) (i : Z) : U Z :=
  match b with
  | None => fail NullDeref
  | Some a => r ← gets ram; aget r (a + i)
  end.
Definition buf_set (b : option Z) (i v : Z) : U unit :=
  match b with
  | None => fail NullDeref
  | Some a =>
      r ← gets ram;
      r' ← aset r (a + i) v;
      modify (fun w : uworld D => w{{ ram := r' }})
  end.

Definition Pipe_BytesInPipe (corenum : Z) : U Z :=
  p ← cur_pipe corenum; mret (u16 (ByteTransfered p - StartIdx p)).

Definition Pipe_SelectPipe (corenum PipeNumber : Z) : U unit :=
  ss ← gets pipeselected;
  ss' ← aset ss corenum PipeNumber;
  modify (fun w : uworld D => w{{ pipeselected := ss' }}).

Definition Pipe_ResetPipe (corenum PipeNumber : Z) : U unit :=
  set_cur corenum (fun p => p{{ StartIdx := 0; ByteTransfered := 0 }}).

Definition Pipe_GetPipeToken (corenum : Z) : U Z :=
  p ← cur_pipe corenum;
  mret (if Z.land (EndponitAddress p) PIPE_EPDIR_MASK =? 0 then PIPE_TOKEN_OUT
        else PIPE_TOKEN_IN).

(** The driver puts the bytes received into the pipe's buffer. *)
Definition buf_store (b : option Z) (l : list Z) : U unit :=
  if (length l =? 0)%nat then mret tt else
  match b with
  | None => fail NullDeref
  | Some a =>
      r ← gets ram;
      guard (a + Z.of_nat (length l) <=? Z.of_nat (length r)) OutOfBounds ;;
      modify (fun w : uworld D => w{{ ram := blit r (Z.to_nat a) l }})
  end.

(** The status of the selected pipe; bytes that have arrived are in its buffer then. *)
Definition pipe_status (corenum : Z) : U Z :=
  p ← cur_pipe corenum;
  r ← hcd (HcdGetPipeStatus (PipeHandle p));
  match snd r with
  | None => mret (fst r)
  | Some l =>
      buf_store (Buffer p) l ;;
      set_cur corenum (fun p => p{{ ByteTransfered := u16 (Z.of_nat (length l)) }}) ;;
      mret (fst r)
  end.

Definition Pipe_IsOUTReady (corenum : Z) : U bool :=
  st ← pipe_status corenum;
  p ← cur_pipe corenum;
  mret ((st =? HCD_STATUS_OK) && (ByteTransfered p <? BufferSize p)).

Definition Pipe_IsReadWriteAllowed (corenum : Z) : U bool :=
  t ← Pipe_GetPipeToken corenum;
  if t =? PIPE_TOKEN_IN then
    st ← pipe_status corenum;
    n ← Pipe_BytesInPipe corenum;
    mret ((HCD_STATUS_OK =? st) && negb (n =? 0))
  else Pipe_IsOUTReady corenum.

Definition Pipe_IsStalled (corenum : Z) : U bool :=
  st ← pipe_status corenum; mret (st =? HCD_STATUS_TRANSFER_Stall).

(** A transfer from the device is started when nothing is left to read. *)
Definition Pipe_IsINReceived (corenum : Z) : U bool :=
  st ← pipe_status corenum;
  if negb (HCD_STATUS_OK =? st) then mret false
  else
    n ← Pipe_BytesInPipe corenum;
    if negb (n =? 0) then mret true
    else
      p ← cur_pipe corenum;
      hcd (fun d => (tt, HcdDataIn (PipeHandle p) HCD_ENDPOINT_MAXPACKET_XFER_LEN d)) ;;
      mret false.

Definition Pipe_ClearIN (corenum : Z) : U unit :=
  set_cur corenum (fun p => p{{ StartIdx := 0; ByteTransfered := 0 }}).

(** [n] bytes from the start of a buffer. *)
Definition buf_bytes (b : option Z) (n : Z) : U (list Z) :=
  if n <=? 0 then mret [] else
  match b with
  | None => fail NullDeref
  | Some a =>
      r ← gets ram;
      guard (a + n <=? Z.of_nat (length r)) OutOfBounds ;;
      mret (take (Z.to_nat n) (drop (Z.to_nat a) r))
  end.

Definition Pipe_ClearOUT (corenum : Z) : U unit :=
  p ← cur_pipe corenum;
  l ← buf_bytes (Buffer p) (ByteTransfered p);
  hcd (fun d => (tt, HcdDataOut (PipeHandle p) l d)) ;;
  set_cur corenum (fun p => p{{ StartIdx := 0; ByteTransfered := 0 }}).

Definition Pipe_Read_8 (corenum : Z) : U Z :=
  p ← cur_pipe corenum;
  if StartIdx p <? ByteTransfered p then
    temp ← buf_get (Buffer p) (StartIdx p);
    set_cur corenum (fun p => p{{ StartIdx := u16 (StartIdx p + 1) }}) ;;
    mret temp
  else mret 0.

Definition Pipe_Write_8 (corenum Data : Z) : U unit :=
  p ← cur_pipe corenum;
  when (ByteTransfered p <? BufferSize p)
    (buf_set (Buffer p) (ByteTransfered p) Data ;;
     set_cur corenum (fun p => p{{ ByteTransfered := u16 (ByteTransfered p + 1) }})).

Definition Pipe_Read_16_LE (corenum : Z) : U Z :=
  tem1 ← Pipe_Read_8 corenum; tem2 ← Pipe_Read_8 corenum;
  mret (u16 (Z.lor (Z.shiftl tem2 8) tem1)).
Definition Pipe_Read_16_BE (corenum : Z) : U Z :=
  tem1 ← Pipe_Read_8 corenum; tem2 ← Pipe_Read_8 corenum;
  mret (u16 (Z.lor (Z.shiftl tem1 8) tem2)).
Definition Pipe_Write_16_LE (corenum Data : Z) : U unit :=
  Pipe_Write_8 corenum (Z.land Data 0xff) ;;
  Pipe_Write_8 corenum (Z.land (Z.shiftr Data 8) 0xff).
Definition Pipe_Write_16_BE (corenum Data : Z) : U unit :=
  Pipe_Write_8 corenum (Z.land (Z.shiftr Data 8) 0xff) ;;
  Pipe_Write_8 corenum (Z.land Data 0xff).

(** The streams are used without [BytesProcessed]. *)
Definition Pipe_Write_Stream_LE (corenum : Z) (DataStream : list Z) : U unit :=
  foreach DataStream (Pipe_Write_8 corenum).

(** A wait ends when the pipe may be used, is stalled, or the device has gone. *)
Definition PIPE_READYWAIT_NoError : Z := 0.
Definition PIPE_READYWAIT_PipeStalled : Z := 1.
Definition PIPE_READYWAIT_DeviceDisconnected : Z := 2.

Definition Pipe_WaitUntilReady (fuel : nat) (corenum : Z) : U Z :=
  while fuel (fun _ : unit =>
    ok ← Pipe_IsReadWriteAllowed corenum;
    if ok : bool then mret (Break PIPE_READYWAIT_NoError) else
    stalled ← Pipe_IsStalled corenum;
    if stalled : bool then mret (Break PIPE_READYWAIT_PipeStalled) else
    st ← host_state corenum;
    mret (if st =? HOST_STATE_Unattached then Break PIPE_READYWAIT_DeviceDisconnected
          else Continue tt)) tt.

(** [Length] bytes are read, packet by packet; those read so far with the code. *)
Definition Pipe_Read_Stream_LE (fuel : nat) (corenum Length : Z) : U (Z * list Z) :=
  e ← Pipe_WaitUntilReady fuel corenum;
  if negb (e =? PIPE_READYWAIT_NoError) then mret (e, []) else
  while fuel (fun st : Z * list Z =>
    let '(Length, got) := st in
    if Length =? 0 then mret (Break (PIPE_READYWAIT_NoError, got)) else
    ok ← Pipe_IsReadWriteAllowed corenum;
    if ok : bool then
      b ← Pipe_Read_8 corenum;
      mret (Continue (Length - 1, got ++ [b]))
    else
      Pipe_ClearIN corenum ;;
      p ← cur_pipe corenum;
      hcd (fun d => (tt, HcdDataIn (PipeHandle p)
        (if Length <? BufferSize p then Length else BufferSize p) d)) ;;
      e ← Pipe_WaitUntilReady fuel corenum;
      mret (if negb (e =? PIPE_READYWAIT_NoError) then Break (e, got)
            else Continue (Length, got))) (Length, []).

Definition Pipe_IsEndpointBound (EndpointAddress : Z) : bool := false.

Definition Pipe_ConfigurePipe (corenum Number Type_ Token EndpointNumber Size : Z) : U bool :=
  st ← host_state corenum;
  speeds ← gets hostportspeed;
  speed ← aget speeds corenum;
  r ← hcd (HcdOpenPipe
    (if (Type_ =? EP_TYPE_CONTROL) && (st <? HOST_STATE_Default_PostAddressSet) then 0
     else USB_HOST_DEVICEADDRESS) speed EndpointNumber Type_ Token Size);
  match r with
  | None => mret false
  | Some handle =>
      let sz := if (Type_ =? EP_TYPE_BULK) || (Type_ =? EP_TYPE_CONTROL)
                then PIPE_MAX_SIZE else Size in
      set_pipe_at corenum Number (fun p => p{{ PipeHandle := handle; ByteTransfered := 0;
        StartIdx := 0; BufferSize := sz }}) ;;
      b ← zoom (USB_Memory_Alloc sz);
      set_pipe_at corenum Number (fun p => p{{ Buffer := b;
        EndponitAddress := EndpointNumber }}) ;;
      mret (match b with None => false | Some _ => true end)
  end.

Definition Pipe_ClosePipe (corenum pipenum : Z) : U unit :=
  when (pipenum <? Z.of_nat PIPE_TOTAL_PIPES)
    (p ← pipe_at corenum pipenum;
     hcd (fun d => (tt, HcdClosePipe (PipeHandle p) d)) ;;
     zoom (USB_Memory_Free (Buffer p)) ;;
     set_pipe_at corenum pipenum (fun p => p{{ PipeHandle := 0; Buffer := None;
       BufferSize := 0 }})).

(** ** Control requests *)

Definition set_request (r : USB_Request_Header_t) : U unit :=
  modify (fun w : uworld D => w{{ USB_ControlRequest := r }}).

Definition is_dir (r : USB_Request_Header_t) (dir : Z) : bool :=
  Z.land (bmRequestType r) CONTROL_REQTYPE_DIRECTION =? dir.

Fixpoint read_bytes (corenum : Z) (n : nat) : U (list Z) :=
  match n with
  | O => mret []
  | S n' => b ← Pipe_Read_8 corenum; l ← read_bytes corenum n'; mret (b :: l)
  end.

(** [out] is what the caller's buffer holds; the bytes read into it are returned. *)
Definition USB_Host_SendControlRequest (corenum : Z) (out : list Z) : U (Z * list Z) :=
  r ← gets USB_ControlRequest;
  let DataLen := wLength r in
  when (is_dir r REQDIR_HOSTTODEVICE)
    (guard (DataLen <=? Z.of_nat (length out)) OutOfBounds ;;
     Pipe_Write_Stream_LE corenum (take (Z.to_nat DataLen) out)) ;;
  p ← cur_pipe corenum;
  l ← buf_bytes (Buffer p) (if is_dir r REQDIR_HOSTTODEVICE then DataLen else 0);
  res ← hcd (HcdControlTransfer (PipeHandle p) r l);
  let '(ret, inb) := res in
  buf_store (Buffer p) inb ;;
  if u8 ret =? HOST_SENDCONTROL_Successful then
    got ← (if is_dir r REQDIR_DEVICETOHOST then
             set_cur corenum (fun p => p{{ ByteTransfered := DataLen }}) ;;
             read_bytes corenum (Z.to_nat DataLen)
           else mret []);
    set_cur corenum (fun p => p{{ StartIdx := 0; ByteTransfered := 0 }}) ;;
    mret (HOST_SENDCONTROL_Successful, got)
  else mret (HOST_SENDCONTROL_PipeError, []).

(** The common shape of the requests: on the control pipe, with the given header. *)
Definition control (corenum : Z) (r : USB_Request_Header_t) (out : list Z) : U (Z * list Z) :=
  set_request r ;;
  Pipe_SelectPipe corenum PIPE_CONTROLPIPE ;;
  USB_Host_SendControlRequest corenum out.

Definition std_in : Z := Z.lor (Z.lor REQDIR_DEVICETOHOST REQTYPE_STANDARD) REQREC_DEVICE.
Definition std_out : Z := Z.lor (Z.lor REQDIR_HOSTTODEVICE REQTYPE_STANDARD) REQREC_DEVICE.

Definition USB_Host_SetDeviceConfiguration (corenum ConfigNumber : Z) : U Z :=
  r ← control corenum (mk_req std_out REQ_SetConfiguration ConfigNumber 0 0) [];
  when (fst r =? HOST_SENDCONTROL_Successful)
    (modify (fun w : uworld D => w{{ USB_Host_ConfigurationNumber := ConfigNumber }}) ;;
     set_host_state corenum
       (if ConfigNumber =? 0 then HOST_STATE_Addressed else HOST_STATE_Configured)) ;;
  mret (fst r).

Definition USB_Host_GetDeviceDescriptor (corenum : Z) : U (Z * list Z) :=
  control corenum (mk_req std_in REQ_GetDescriptor (Z.shiftl DTYPE_Device 8) 0 18) [].

Definition USB_Host_GetDeviceStringDescriptor (corenum Index BufferLength : Z) : U (Z * list Z) :=
  control corenum (mk_req std_in REQ_GetDescriptor (Z.lor (Z.shiftl DTYPE_String 8) Index)
    0 BufferLength) [].

Definition USB_Host_GetDeviceStatus (corenum : Z) : U (Z * list Z) :=
  control corenum (mk_req std_in REQ_GetStatus 0 0 0) [].

Definition USB_Host_ClearEndpointStall (corenum EndpointAddress : Z) : U Z :=
  r ← control corenum (mk_req (Z.lor (Z.lor REQDIR_HOSTTODEVICE REQTYPE_STANDARD) REQREC_ENDPOINT)
    REQ_ClearFeature FEATURE_SEL_EndpointHalt EndpointAddress 0) [];
  mret (fst r).

Definition USB_Host_SetInterfaceAltSetting (corenum InterfaceIndex AltSetting : Z) : U Z :=
  r ← control corenum (mk_req (Z.lor (Z.lor REQDIR_HOSTTODEVICE REQTYPE_STANDARD) REQREC_INTERFACE)
    REQ_SetInterface AltSetting InterfaceIndex 0) [];
  mret (fst r).

(** The size and the bytes of the configuration descriptor. *)
Definition USB_Host_GetDeviceConfigDescriptor (corenum ConfigNumber BufferSize : Z)
    : U (Z * Z * list Z) :=
  r ← control corenum (mk_req std_in REQ_GetDescriptor
    (Z.lor (Z.shiftl DTYPE_Configuration 8) (ConfigNumber - 1)) 0 9) [];
  if negb (fst r =? HOST_SENDCONTROL_Successful) then mret (fst r, 0, [])
  else
    lo ← aget (snd r) 2; hi ← aget (snd r) 3;
    let ConfigSize := le16 lo hi in
    if BufferSize <? ConfigSize then mret (HOST_GETCONFIG_BuffOverflow, ConfigSize, [])
    else
      modify (fun w : uworld D => w{{ USB_ControlRequest :=
        (USB_ControlRequest w){{ wLength := ConfigSize }} }}) ;;
      r ← USB_Host_SendControlRequest corenum [];
      if negb (fst r =? HOST_SENDCONTROL_Successful) then mret (fst r, ConfigSize, snd r)
      else
        st ← gets stack;
        t ← aget (snd r ++ drop (length (snd r)) st) 1;
        mret (if t =? DTYPE_Configuration then HOST_GETCONFIG_Successful
              else HOST_GETCONFIG_InvalidData, ConfigSize, snd r).
End Usb.

(** ** Walking over descriptors

    The position is an index in the buffer with the bytes that remain. *)

Inductive search_t : Type := DESCRIPTOR_SEARCH_Found | DESCRIPTOR_SEARCH_Fail
| DESCRIPTOR_SEARCH_NotFound.

Inductive comp_t : Type := DESCRIPTOR_SEARCH_COMP_Found | DESCRIPTOR_SEARCH_COMP_Fail
| DESCRIPTOR_SEARCH_COMP_EndOfDescriptor.

Section Walk.
Context {W : Type}.
Variable buf : list Z.

(** What a pointer into the buffer points to, as far as the buffer goes. *)
Definition at_loc (loc : Z) : list Z := drop (Z.to_nat loc) buf.

Definition USB_GetNextDescriptor (pos : Z * Z) : M W (Z * Z) :=
  let '(BytesRem, loc) := pos in
  size ← aget (at_loc loc) 0;
  let size := if BytesRem <? size then BytesRem else size in
  mret (BytesRem - size, loc + size).

Definition USB_GetNextDescriptorOfType (fuel : nat) (pos : Z * Z) (Type_ : Z) : M W (Z * Z) :=
  while fuel (fun pos : Z * Z =>
    if fst pos =? 0 then mret (Break pos)
    else
      pos ← USB_GetNextDescriptor pos;
      t ← aget (at_loc (snd pos)) 1;
      mret (if t =? Type_ then Break pos else Continue pos)) pos.

Definition USB_GetNextDescriptorOfTypeBefore (fuel : nat) (pos : Z * Z) (Type_ BeforeType : Z)
    : M W (Z * Z) :=
  while fuel (fun pos : Z * Z =>
    if fst pos =? 0 then mret (Break pos)
    else
      pos ← USB_GetNextDescriptor pos;
      t ← aget (at_loc (snd pos)) 1;
      mret (if t =? Type_ then Break pos
            else if t =? BeforeType then Break (0, snd pos) else Continue pos)) pos.

Definition USB_GetNextDescriptorOfTypeAfter (fuel : nat) (pos : Z * Z) (Type_ AfterType : Z)
    : M W (Z * Z) :=
  pos ← USB_GetNextDescriptorOfType fuel pos AfterType;
  if fst pos =? 0 then mret pos else USB_GetNextDescriptorOfType fuel pos Type_.

Definition USB_GetNextDescriptorComp (fuel : nat) (pos : Z * Z)
    (ComparatorRoutine : list Z -> M W search_t) : M W (comp_t * (Z * Z)) :=
  while fuel (fun pos : Z * Z =>
    if fst pos =? 0 then mret (Break (DESCRIPTOR_SEARCH_COMP_EndOfDescriptor, pos))
    else
      pos' ← USB_GetNextDescriptor pos;
      c ← ComparatorRoutine (at_loc (snd pos'));
      mret (match c with
            | DESCRIPTOR_SEARCH_Found => Break (DESCRIPTOR_SEARCH_COMP_Found, pos')
            | DESCRIPTOR_SEARCH_Fail => Break (DESCRIPTOR_SEARCH_COMP_Fail, pos)
            | DESCRIPTOR_SEARCH_NotFound => Continue pos'
            end)) pos.
End Walk.
