(* ===== verification/UsbFacts.v ===== *)
(** * USB host: theorems

    The walk over descriptors follows their list; control requests carry the caller's
    bytes to the device and the device's back. *)

From stdpp Require Import gmap.
From S2P Require Import Prelude UsbMem Usb.

(** ** The walk over descriptors

    The buffer is the descriptors [ds] one after the other and the bytes [rest] behind
    them.  Positions are counted in descriptors; the one behind the last is [rest]. *)

(** A descriptor starts with its length. *)
Definition desc_ok (d : list Z) : Prop :=
  (2 <= length d)%nat /\ d !! 0%nat = Some (Z.of_nat (length d)).

Section Walk.
Context {W : Type}.
Variables (ds : list (list Z)) (rest : list Z).
Hypothesis ds_ok : Forall desc_ok ds.
Let buf := concat ds ++ rest.

Definition off (k : nat) : Z := Z.of_nat (length (concat (take k ds))).

(** The position in front of descriptor [k]: bytes remaining, index. *)
Definition place (k : nat) : Z * Z := (Z.of_nat (length (concat ds)) - off k, off k).

Lemma at_place k : at_loc buf (off k) = concat (drop k ds) ++ rest.
Proof.
  unfold at_loc, off, buf. rewrite Nat2Z.id.
  rewrite <- (take_drop k ds) at 2. rewrite concat_app, <- app_assoc.
  by rewrite drop_app_length.
Qed.

Lemma off_S k d : ds !! k = Some d -> off (S k) = off k + Z.of_nat (length d).
Proof.
  intros Hd. unfold off. rewrite (take_S_r _ _ _ Hd), concat_app, length_app. simpl.
  rewrite app_nil_r. lia.
Qed.

Lemma off_bound k d :
  ds !! k = Some d -> off k + Z.of_nat (length d) <= Z.of_nat (length (concat ds)).
Proof.
  intros Hd. rewrite <- (off_S k d Hd). unfold off.
  rewrite <- (take_drop (S k) ds) at 2. rewrite concat_app, length_app. lia.
Qed.

Lemma off_all : off (length ds) = Z.of_nat (length (concat ds)).
Proof. unfold off. by rewrite firstn_all. Qed.

(** One step goes from a descriptor to the next. *)
Lemma next_place k (w : W) :
  (k < length ds)%nat ->
  fst (place k) <> 0 /\ USB_GetNextDescriptor buf (place k) w = Ok (place (S k), w).
Proof.
  intros Hk. destruct (lookup_lt_is_Some_2 ds k Hk) as [d Hd].
  pose proof (Forall_lookup_1 _ _ _ _ ds_ok Hd) as [Hl H0].
  pose proof (off_bound k d Hd). unfold place. cbn [fst]. split; [lia|].
  unfold USB_GetNextDescriptor. cbn [fst snd]. rewrite at_place.
  rewrite (drop_S _ _ _ Hd). cbn [concat].
  erewrite bind_ok.
  2:{ apply aget_ok; [lia|]. rewrite <- app_assoc, lookup_app_l by (simpl; lia). exact H0. }
  replace (Z.of_nat (length (concat ds)) - off k <? Z.of_nat (length d)) with false by lia.
  unfold place. rewrite (off_S k d Hd). unfold mret, M_ret. do 3 f_equal. lia.
Qed.

(** What the comparator says of descriptor [k]. *)
Variable cmp : list Z -> M W search_t.
Variable verdict : nat -> search_t.
Variable w : W.
Hypothesis cmp_runs :
  forall k, (k <= length ds)%nat -> cmp (concat (drop k ds) ++ rest) w = Ok (verdict k, w).

(** The search from descriptor [k], [m] descriptors from the end. *)
Fixpoint outcome (k m : nat) : comp_t * nat :=
  match m with
  | O => (DESCRIPTOR_SEARCH_COMP_EndOfDescriptor, k)
  | S m' =>
      match verdict (S k) with
      | DESCRIPTOR_SEARCH_Found => (DESCRIPTOR_SEARCH_COMP_Found, S k)
      | DESCRIPTOR_SEARCH_Fail => (DESCRIPTOR_SEARCH_COMP_Fail, k)
      | DESCRIPTOR_SEARCH_NotFound => outcome (S k) m'
      end
  end.

Lemma comp_run m k fuel :
  (k + m = length ds)%nat -> (m < fuel)%nat ->
  USB_GetNextDescriptorComp buf fuel (place k) cmp w =
  Ok ((fst (outcome k m), place (snd (outcome k m))), w).
Proof.
  revert k fuel. induction m as [|m IH]; intros k fuel Hk Hf;
    (destruct fuel as [|fuel]; [lia|]); unfold USB_GetNextDescriptorComp; cbn [while].
  - assert (fst (place k) = 0) as H0.
    { unfold place. cbn [fst]. rewrite Nat.add_0_r in Hk. subst k. rewrite off_all. lia. }
    rewrite (bind_ok _ _ _ (Break (DESCRIPTOR_SEARCH_COMP_EndOfDescriptor, place k)) w);
      [reflexivity|]. by rewrite H0.
  - destruct (next_place k w) as [H0 Hn]; [lia|].
    rewrite (bind_ok _ _ _ (match verdict (S k) with
      | DESCRIPTOR_SEARCH_Found => Break (DESCRIPTOR_SEARCH_COMP_Found, place (S k))
      | DESCRIPTOR_SEARCH_Fail => Break (DESCRIPTOR_SEARCH_COMP_Fail, place k)
      | DESCRIPTOR_SEARCH_NotFound => Continue (place (S k)) end) w).
    2:{ replace (fst (place k) =? 0) with false by lia.
        erewrite bind_ok; [|exact Hn]. erewrite bind_ok; [reflexivity|].
        cbn [snd place]. rewrite at_place. apply cmp_runs. lia. }
    cbn [outcome]. destruct (verdict (S k)); [reflexivity|reflexivity|].
    apply IH; lia.
Qed.
End Walk.

(** A descriptor that gives its length as 0 keeps the search where it is, for ever:
    whatever the number of turns, they are used up. *)
Theorem zero_length_never_ends {W} (buf : list Z) (BytesRem loc : Z)
    (cmp : list Z -> M W search_t) (w : W) fuel :
  0 < BytesRem -> at_loc buf loc !! 0%nat = Some 0 ->
  cmp (at_loc buf loc) w = Ok (DESCRIPTOR_SEARCH_NotFound, w) ->
  USB_GetNextDescriptorComp buf fuel (BytesRem, loc) cmp w = Fault OutOfFuel.
Proof.
  intros Hr H0 Hc. unfold USB_GetNextDescriptorComp. induction fuel as [|fuel IH]; [done|].
  cbn [while]. rewrite (bind_ok _ _ _ (Continue (BytesRem, loc)) w); [exact IH|].
  cbn [fst]. replace (BytesRem =? 0) with false by lia. unfold USB_GetNextDescriptor.
  rewrite (bind_ok _ _ _ (BytesRem, loc) w).
  - cbn [snd]. by rewrite (bind_ok _ _ _ _ _ Hc).
  - erewrite bind_ok; [|by apply aget_ok].
    replace (BytesRem <? 0) with false by lia. unfold mret, M_ret. do 3 f_equal; lia.
Qed.

(** ** Memory of the pipes *)

Section Pipes.
Context {D : Type} `{Hcd D}.
Implicit Types u : uworld D.

(** The control pipe has a buffer of its full size at [a] and is empty. *)
Definition control_pipe (u : uworld D) (a : Z) (h : Z) : Prop :=
  exists row e,
    PipeInfo u = [row] /\
    row !! 0%nat = Some (mk_pipe h (Some a) PIPE_MAX_SIZE 0 0 e) /\
    length row = PIPE_TOTAL_PIPES /\ length (pipeselected u) = 1%nat /\
    0 <= a /\ a + PIPE_MAX_SIZE <= Z.of_nat (length (ram u)).

(** The world with the control pipe selected, its indices at [i] and [n], and the
    given memory. *)
Definition with_pipe (u : uworld D) (row : list USB_Pipe_Data_t) (r : list Z) : uworld D :=
  u{{ PipeInfo := [row]; ram := r }}.

Lemma pipe_at_run u row n p :
  PipeInfo u = [row] -> row !! n = Some p -> pipe_at 0 (Z.of_nat n) u = Ok (p, u).
Proof.
  intros Hi Hp. unfold pipe_at. erewrite bind_ok; [|reflexivity]. rewrite Hi.
  erewrite bind_ok; [|by apply aget_ok]. apply aget_ok; [lia|]. by rewrite Nat2Z.id.
Qed.

Lemma set_pipe_at_run u row n p f :
  PipeInfo u = [row] -> row !! n = Some p ->
  set_pipe_at 0 (Z.of_nat n) f u = Ok (tt, u{{ PipeInfo := [<[n := f p]> row] }}).
Proof.
  intros Hi Hp. pose proof (lookup_lt_Some _ _ _ Hp). unfold set_pipe_at.
  erewrite bind_ok; [|reflexivity]. rewrite Hi. erewrite bind_ok; [|by apply aget_ok].
  erewrite bind_ok; [|apply aget_ok; [lia|rewrite Nat2Z.id; exact Hp]].
  erewrite bind_ok; [|apply aset_ok; lia].
  erewrite bind_ok; [|by apply aset_ok]. rewrite Nat2Z.id. reflexivity.
Qed.

Lemma selected_run u n : pipeselected u = [n] -> selected 0 u = Ok (n, u).
Proof. intros Hs. unfold selected. erewrite bind_ok; [|reflexivity]. rewrite Hs. by apply aget_ok. Qed.

Lemma cur_pipe_run u row n p :
  pipeselected u = [Z.of_nat n] -> PipeInfo u = [row] -> row !! n = Some p ->
  cur_pipe 0 u = Ok (p, u).
Proof.
  intros Hs Hi Hp. unfold cur_pipe. erewrite bind_ok; [|by apply selected_run].
  by eapply pipe_at_run.
Qed.

Lemma set_cur_run u row n p f :
  pipeselected u = [Z.of_nat n] -> PipeInfo u = [row] -> row !! n = Some p ->
  set_cur 0 f u = Ok (tt, u{{ PipeInfo := [<[n := f p]> row] }}).
Proof.
  intros Hs Hi Hp. unfold set_cur. erewrite bind_ok; [|by apply selected_run].
  by apply set_pipe_at_run.
Qed.

(** A byte read from the pipe. *)
Lemma Pipe_Read_8_run u row n p a x :
  pipeselected u = [Z.of_nat n] -> PipeInfo u = [row] -> row !! n = Some p ->
  Buffer p = Some a -> 0 <= StartIdx p < ByteTransfered p -> ByteTransfered p < 65536 ->
  0 <= a -> ram u !! Z.to_nat (a + StartIdx p) = Some x ->
  Pipe_Read_8 0 u = Ok (x, u{{ PipeInfo := [<[n := p{{ StartIdx := StartIdx p + 1 }}]> row] }}).
Proof.
  intros Hs Hi Hp Hb Hix Hbt Ha Hx. unfold Pipe_Read_8.
  erewrite bind_ok; [|by eapply cur_pipe_run].
  replace (StartIdx p <? ByteTransfered p) with true by lia. unfold buf_get. rewrite Hb.
  erewrite bind_ok; [|erewrite bind_ok; [|reflexivity]; apply aget_ok; [lia|exact Hx]].
  erewrite bind_ok; [|by eapply set_cur_run]. unfold u16. rewrite Z.mod_small by lia.
  reflexivity.
Qed.

Lemma read_bytes_run m u row n p a i :
  pipeselected u = [Z.of_nat n] -> PipeInfo u = [row] -> row !! n = Some p ->
  Buffer p = Some a -> StartIdx p = i -> 0 <= i -> i + Z.of_nat m = ByteTransfered p ->
  ByteTransfered p < 65536 -> 0 <= a -> a + ByteTransfered p <= Z.of_nat (length (ram u)) ->
  read_bytes 0 m u = Ok (take m (drop (Z.to_nat (a + i)) (ram u)),
    u{{ PipeInfo := [<[n := p{{ StartIdx := ByteTransfered p }}]> row] }}).
Proof.
  revert u row p i. induction m as [|m IH];
    intros u row p i Hs Hi Hp Hb Hsi H0 Hm Hbt Ha Hr.
  - cbn [read_bytes take]. unfold mret, M_ret. do 2 f_equal.
    replace (p{{ StartIdx := ByteTransfered p }}) with p by (destruct p; simpl in *; f_equal; lia).
    rewrite list_insert_id by done. destruct u. simpl in *. by rewrite Hi.
  - destruct (lookup_lt_is_Some_2 (ram u) (Z.to_nat (a + i))) as [x Hx]; [lia|].
    cbn [read_bytes]. erewrite bind_ok.
    2:{ eapply Pipe_Read_8_run; try done; [lia|]. by rewrite Hsi. }
    set (u' := u{{ PipeInfo := _ }}).
    erewrite bind_ok.
    2:{ apply (IH u' (<[n := p{{ StartIdx := StartIdx p + 1 }}]> row) (p{{ StartIdx := StartIdx p + 1 }}) (i + 1));
          try done; simpl; try lia.
        rewrite list_lookup_insert_eq; [done|]. by apply lookup_lt_Some in Hp. }
    subst u'. simpl. unfold mret, M_ret. rewrite list_insert_insert_eq.
    rewrite (drop_S _ _ _ Hx). cbn [take].
    replace (Z.to_nat (a + (i + 1))) with (S (Z.to_nat (a + i))) by lia. reflexivity.
Qed.

(** Bytes written to the pipe, as far as its buffer goes. *)
Lemma Pipe_Write_8_run u row n p a x :
  pipeselected u = [Z.of_nat n] -> PipeInfo u = [row] -> row !! n = Some p ->
  Buffer p = Some a -> 0 <= ByteTransfered p < BufferSize p -> BufferSize p < 65536 ->
  0 <= a -> a + BufferSize p <= Z.of_nat (length (ram u)) ->
  Pipe_Write_8 0 x u = Ok (tt, u{{ ram := <[Z.to_nat (a + ByteTransfered p) := x]> (ram u);
    PipeInfo := [<[n := p{{ ByteTransfered := ByteTransfered p + 1 }}]> row] }}).
Proof.
  intros Hs Hi Hp Hb Hix Hbt Ha Hx. unfold Pipe_Write_8.
  erewrite bind_ok; [|by eapply cur_pipe_run].
  replace (ByteTransfered p <? BufferSize p) with true by lia. cbn [when].
  unfold buf_set. rewrite Hb.
  erewrite bind_ok.
  2:{ erewrite bind_ok; [|reflexivity]. erewrite bind_ok; [|apply aset_ok; lia]. reflexivity. }
  rewrite (set_cur_run _ row n p) by done. unfold u16. rewrite Z.mod_small by lia.
  reflexivity.
Qed.

Lemma write_stream_run l u row n p a i :
  pipeselected u = [Z.of_nat n] -> PipeInfo u = [row] -> row !! n = Some p ->
  Buffer p = Some a -> ByteTransfered p = i -> 0 <= i ->
  i + Z.of_nat (length l) <= BufferSize p -> BufferSize p < 65536 ->
  0 <= a -> a + BufferSize p <= Z.of_nat (length (ram u)) ->
  Pipe_Write_Stream_LE 0 l u = Ok (tt, u{{ ram := blit (ram u) (Z.to_nat (a + i)) l;
    PipeInfo := [<[n := p{{ ByteTransfered := i + Z.of_nat (length l) }}]> row] }}).
Proof.
  revert u row p i. unfold Pipe_Write_Stream_LE. induction l as [|x l IH];
    intros u row p i Hs Hi Hp Hb Hbt H0 Hl Hsz Ha Hr.
  - cbn [foreach length]. unfold mret, M_ret. rewrite blit_nil. do 2 f_equal.
    replace (p{{ ByteTransfered := i + Z.of_nat 0 }}) with p by (destruct p; simpl in *; f_equal; lia).
    rewrite list_insert_id by done. destruct u. simpl in *. by rewrite Hi.
  - cbn [foreach length] in *. erewrite bind_ok; [|eapply Pipe_Write_8_run; try done; lia].
    set (u' := u{{ ram := _; PipeInfo := _ }}).
    rewrite (IH u' (<[n := p{{ ByteTransfered := ByteTransfered p + 1 }}]> row)
      (p{{ ByteTransfered := ByteTransfered p + 1 }}) (i + 1)); try done; simpl; try lia.
    + rewrite list_insert_insert_eq, Hbt, blit_cons by lia.
      replace (Z.to_nat (a + (i + 1))) with (S (Z.to_nat (a + i))) by lia.
      replace (i + 1 + Z.of_nat (length l)) with (i + Z.of_nat (S (length l))) by lia.
      reflexivity.
    + rewrite list_lookup_insert_eq; [done|]. by apply lookup_lt_Some in Hp.
    + rewrite length_insert. lia.
Qed.

(** ** Control requests *)

(** What a request leaves: the control pipe empty and selected, everything else but the
    memory, the request and the device as it was. *)
Definition requested (u u' : uworld D) (r : USB_Request_Header_t) (d : D) : Prop :=
  PipeInfo u' = PipeInfo u /\ pipeselected u' = [0] /\ dev u' = d /\
  USB_ControlRequest u' = r /\ length (ram u') = length (ram u) /\
  upool u' = upool u /\ USB_HostState u' = USB_HostState u /\ stack u' = stack u /\
  USB_Host_ConfigurationNumber u' = USB_Host_ConfigurationNumber u /\
  hostportspeed u' = hostportspeed u /\
  USB_Host_ControlPipeSize u' = USB_Host_ControlPipeSize u.

Lemma control_pipe_requested u u' a h r d :
  control_pipe u a h -> requested u u' r d -> control_pipe u' a h.
Proof.
  intros (row & e & Hi & Hp & Hl & Hs & Ha & Hr) (Hi' & Hs' & _ & _ & Hr' & _).
  exists row, e. rewrite Hi', Hs', Hr'. done.
Qed.

Lemma hcd_run {A} (f : D -> A * D) u x d : f (dev u) = (x, d) -> hcd f u = Ok (x, u{{ dev := d }}).
Proof. unfold hcd. by intros ->. Qed.

Lemma take_drop_blit {A} (buf l : list A) p :
  (p + length l <= length buf)%nat -> take (length l) (drop p (blit buf p l)) = l.
Proof.
  intros Hp. unfold blit. rewrite drop_app_ge by (rewrite length_take; lia).
  rewrite length_take, Nat.min_l, Nat.sub_diag by lia. simpl. apply take_app_length.
Qed.

(** A request for data that the device answers in full. *)
Lemma send_request_in u a h r l d :
  control_pipe u a h -> pipeselected u = [0] -> USB_ControlRequest u = r ->
  is_dir r REQDIR_DEVICETOHOST = true -> is_dir r REQDIR_HOSTTODEVICE = false ->
  wLength r <= PIPE_MAX_SIZE -> wLength r = Z.of_nat (length l) ->
  HcdControlTransfer h r [] (dev u) = (0, l, d) ->
  exists u', USB_Host_SendControlRequest 0 [] u = Ok ((HOST_SENDCONTROL_Successful, l), u') /\
    requested u u' r d.
Proof.
  intros (row & e & Hi & Hp & Hl & _ & Ha & Hr) Hs Hreq Hin Hout Hlen Hll Hc.
  unfold PIPE_MAX_SIZE in *. unfold USB_Host_SendControlRequest.
  erewrite bind_ok; [|reflexivity]. rewrite Hreq, Hin, Hout. cbn [when].
  erewrite bind_ok; [|reflexivity].
  erewrite bind_ok; [|by apply (cur_pipe_run u row 0 _ Hs Hi Hp)]. cbn [Buffer PipeHandle].
  erewrite bind_ok; [|reflexivity].
  erewrite bind_ok; [|by apply hcd_run]. cbv beta iota.
  set (u1 := u{{ ram := blit (ram u) (Z.to_nat a) l; dev := d }}).
  rewrite (bind_ok _ _ _ tt u1).
  2:{ unfold buf_store. destruct (length l =? 0)%nat eqn:E.
      - apply Nat.eqb_eq in E. destruct l; [|done]. subst u1. rewrite blit_nil.
        destruct u. reflexivity.
      - erewrite bind_ok; [|reflexivity]. simpl ram.
        replace (a + Z.of_nat (length l) <=? Z.of_nat (length (ram u))) with true by lia.
        reflexivity. }
  change (u8 0 =? HOST_SENDCONTROL_Successful) with true. cbv iota.
  set (p0 := mk_pipe h (Some a) 512 0 0 e) in *.
  assert (length (ram u1) = length (ram u)) as Hr1 by (apply length_blit; lia).
  rewrite (bind_ok _ _ _ l (u1{{ PipeInfo := [<[0%nat := p0{{ StartIdx := wLength r;
    ByteTransfered := wLength r }}]> row] }})).
  2:{ erewrite bind_ok; [|by apply (set_cur_run u1 row 0 p0 _ Hs Hi Hp)].
      erewrite (read_bytes_run _ _ _ 0 (p0{{ ByteTransfered := wLength r }}) a 0);
        try done; simpl; try lia.
      - rewrite list_insert_insert_eq, Z.add_0_r. do 2 f_equal.
        rewrite Hll, Nat2Z.id. apply take_drop_blit. lia.
      - rewrite list_lookup_insert_eq; [done|]. by apply lookup_lt_Some in Hp.
      - rewrite length_blit by lia. lia. }
  erewrite bind_ok.
  2:{ eapply (set_cur_run _ _ 0); [exact Hs|reflexivity|].
      apply list_lookup_insert_eq. by apply lookup_lt_Some in Hp. }
  eexists. split; [reflexivity|]. unfold requested. simpl. rewrite list_insert_insert_eq.
  rewrite list_insert_id by exact Hp. rewrite Hi. by rewrite length_blit by lia.
Qed.

(** The control pipe with [n] bytes waiting in its buffer. *)
Definition pending_pipe (u : uworld D) (a h : Z) (old : list Z) : Prop :=
  exists row e,
    PipeInfo u = [row] /\
    row !! 0%nat = Some (mk_pipe h (Some a) PIPE_MAX_SIZE 0 (Z.of_nat (length old)) e) /\
    pipeselected u = [0] /\ 0 <= a /\ a + PIPE_MAX_SIZE <= Z.of_nat (length (ram u)) /\
    exists r0, ram u = blit r0 (Z.to_nat a) old /\ (Z.to_nat a + length old <= length r0)%nat.

(** What the device is sent are the first bytes of the buffer, where the caller's bytes
    come behind those that wait there. *)
Lemma send_out_gen u a h r old out st d :
  pending_pipe u a h old -> USB_ControlRequest u = r ->
  is_dir r REQDIR_DEVICETOHOST = false -> is_dir r REQDIR_HOSTTODEVICE = true ->
  wLength r = Z.of_nat (length out) ->
  Z.of_nat (length old) + Z.of_nat (length out) <= PIPE_MAX_SIZE ->
  HcdControlTransfer h r (take (length out) (old ++ out)) (dev u) = (st, [], d) ->
  exists u' row e, let n := if u8 st =? 0 then 0 else Z.of_nat (length (old ++ out)) in
    USB_Host_SendControlRequest 0 out u =
      Ok (if u8 st =? 0 then HOST_SENDCONTROL_Successful else HOST_SENDCONTROL_PipeError, [], u') /\
    u' = u{{ ram := blit (ram u) (Z.to_nat a + length old) out; PipeInfo :=
      [<[0%nat := mk_pipe h (Some a) PIPE_MAX_SIZE 0 n e]> row]; dev := d }} /\
    PipeInfo u = [row] /\
    row !! 0%nat = Some (mk_pipe h (Some a) PIPE_MAX_SIZE 0 (Z.of_nat (length old)) e).
Proof.
  intros (row & e & Hi & Hp & Hs & Ha & Hr & r0 & Hram & Hfit) Hreq Hin Hout Hll Hlen Hc.
  unfold PIPE_MAX_SIZE in *. unfold USB_Host_SendControlRequest.
  erewrite bind_ok; [|reflexivity]. rewrite Hreq, Hin, Hout. cbn [when].
  set (p0 := mk_pipe h (Some a) 512 0 (Z.of_nat (length old)) e) in *.
  set (p1 := p0{{ ByteTransfered := Z.of_nat (length old) + Z.of_nat (length out) }}).
  set (u1 := u{{ ram := blit (ram u) (Z.to_nat a + length old) out; PipeInfo := [<[0%nat := p1]> row] }}).
  rewrite (bind_ok _ _ _ tt u1).
  2:{ replace (wLength r <=? Z.of_nat (length out)) with true by lia.
      erewrite bind_ok; [|reflexivity]. rewrite Hll, Nat2Z.id, firstn_all.
      rewrite (write_stream_run out u row 0 p0 a (Z.of_nat (length old))) by (done || simpl; lia).
      by rewrite Z2Nat.inj_add, Nat2Z.id by lia. }
  assert (Hp1 : <[0%nat := p1]> row !! 0%nat = Some p1)
    by (apply list_lookup_insert_eq; by apply lookup_lt_Some in Hp).
  assert (Hl0 : (Z.to_nat a + length old + length out <= length r0)%nat)
    by (rewrite Hram, length_blit in Hr; lia).
  assert (length (ram u1) = length (ram u)) as Hr1.
  { apply length_blit. rewrite Hram, length_blit by lia. lia. }
  erewrite bind_ok; [|by apply (cur_pipe_run u1 _ 0 p1 Hs eq_refl Hp1)].
  change (Buffer p1) with (Some a). change (PipeHandle p1) with h.
  rewrite (bind_ok _ _ _ (take (length out) (old ++ out)) u1).
  2:{ unfold buf_bytes. destruct (wLength r <=? 0) eqn:E.
      - destruct out; [done|simpl in Hll; lia].
      - erewrite bind_ok; [|reflexivity]. rewrite Hr1.
        replace (a + wLength r <=? Z.of_nat (length (ram u))) with true by lia.
        rewrite Hll, Nat2Z.id. unfold mbind, M_bind. simpl. unfold mret, M_ret.
        do 2 f_equal. rewrite Hram, blit_app by lia.
        rewrite <- (take_drop_blit r0 (old ++ out) (Z.to_nat a)) at 2
          by (rewrite length_app; lia).
        rewrite take_take. f_equal. rewrite length_app. lia. }
  erewrite bind_ok; [|by apply hcd_run]. cbv beta iota. erewrite bind_ok; [|reflexivity].
  unfold HOST_SENDCONTROL_Successful, HOST_SENDCONTROL_PipeError.
  destruct (u8 st =? 0) eqn:Est.
  - erewrite bind_ok; [|reflexivity].
    erewrite bind_ok; [|by eapply (set_cur_run _ _ 0); [exact Hs|reflexivity|exact Hp1]].
    eexists _, row, e. split; [reflexivity|]. split; [|done]. subst u1 p1 p0. simpl.
    by rewrite list_insert_insert_eq.
  - eexists _, row, e. split; [reflexivity|]. split; [|done]. subst u1 p1 p0. simpl.
    rewrite length_app, Nat2Z.inj_add. reflexivity.
Qed.

Lemma control_pending u a h :
  control_pipe u a h -> pipeselected u = [0] -> pending_pipe u a h [].
Proof.
  intros (row & e & Hi & Hp & Hl & _ & Ha & Hr) Hs. exists row, e. do 5 (split; [done|]).
  exists (ram u). rewrite blit_nil. unfold PIPE_MAX_SIZE in *. simpl. split; [done|lia].
Qed.

(** A request that sends data, accepted by the device. *)
Lemma send_request_out u a h r out d :
  control_pipe u a h -> pipeselected u = [0] -> USB_ControlRequest u = r ->
  is_dir r REQDIR_DEVICETOHOST = false -> is_dir r REQDIR_HOSTTODEVICE = true ->
  wLength r <= PIPE_MAX_SIZE -> wLength r = Z.of_nat (length out) ->
  HcdControlTransfer h r out (dev u) = (0, [], d) ->
  exists u', USB_Host_SendControlRequest 0 out u = Ok ((HOST_SENDCONTROL_Successful, []), u') /\
    requested u u' r d.
Proof.
  intros Hcp Hs Hreq Hin Hout Hlen Hll Hc.
  pose proof Hcp as (row0 & e0 & Hi0 & Hp0 & _ & _ & Ha0 & Hr0). unfold PIPE_MAX_SIZE in *.
  destruct (send_out_gen u a h r [] out 0 d) as (u' & row & e & Hrun & Hu & Hi & Hp);
    [by apply control_pending|done|done|done|done|simpl; unfold PIPE_MAX_SIZE; lia| |].
  { simpl. by rewrite firstn_all. }
  exists u'. split; [exact Hrun|]. subst u'. unfold requested. simpl.
  rewrite Nat.add_0_r, length_blit by lia. simpl in Hp.
  rewrite list_insert_id by exact Hp. by rewrite Hi.
Qed.

(** C37: A request that fails leaves its bytes in the pipe, and the next request sends
    them in place of its own: the device gets the start of the old data. *)
Theorem failed_request_resends u a h r1 r2 out1 out2 st d1 d2 :
  control_pipe u a h -> pipeselected u = [0] -> USB_ControlRequest u = r1 ->
  is_dir r1 REQDIR_HOSTTODEVICE = true -> is_dir r2 REQDIR_HOSTTODEVICE = true ->
  wLength r1 = Z.of_nat (length out1) -> wLength r2 = Z.of_nat (length out2) ->
  (length out2 <= length out1)%nat ->
  Z.of_nat (length out1) + Z.of_nat (length out2) <= PIPE_MAX_SIZE ->
  HcdControlTransfer h r1 out1 (dev u) = (st, [], d1) -> u8 st <> 0 ->
  HcdControlTransfer h r2 (take (length out2) out1) d1 = (0, [], d2) ->
  exists u1 u2,
    USB_Host_SendControlRequest 0 out1 u = Ok ((HOST_SENDCONTROL_PipeError, []), u1) /\
    control 0 r2 out2 u1 = Ok ((HOST_SENDCONTROL_Successful, []), u2) /\ dev u2 = d2.
Proof.
  intros Hcp Hs Hreq Ho1 Ho2 Hl1 Hl2 Hle Hlen Hc1 Hst Hc2.
  assert (forall r, is_dir r REQDIR_HOSTTODEVICE = true -> is_dir r REQDIR_DEVICETOHOST = false) as Hdir.
  { intros r. unfold is_dir. change REQDIR_HOSTTODEVICE with 0. change REQDIR_DEVICETOHOST with 128. lia. }
  pose proof Hcp as (_ & _ & _ & _ & _ & _ & Ha & Hr). unfold PIPE_MAX_SIZE in *.
  destruct (send_out_gen u a h r1 [] out1 st d1) as (u1 & row & e & Hrun1 & Hu1 & Hi & Hp);
    [by apply control_pending|done|auto|done|done|simpl; unfold PIPE_MAX_SIZE; lia| |].
  { simpl. by rewrite firstn_all. }
  replace (u8 st =? 0) with false in * by lia. simpl app in *. simpl length in *.
  rewrite Nat.add_0_r in Hu1.
  set (u1' := u1{{ USB_ControlRequest := r2; pipeselected := [0] }}).
  destruct (send_out_gen u1' a h r2 out1 out2 0 d2) as (u2 & row2 & e2 & Hrun2 & Hu2 & _);
    [|done|auto|done|done|unfold PIPE_MAX_SIZE; lia| |].
  { exists (<[0%nat := mk_pipe h (Some a) 512 0 (Z.of_nat (length out1)) e]> row), e.
    subst u1' u1. simpl. split; [done|].
    split; [apply list_lookup_insert_eq; by apply lookup_lt_Some in Hp|]. split; [done|].
    split; [done|]. split; [rewrite length_blit by lia; unfold PIPE_MAX_SIZE; lia|].
    exists (ram u). split; [done|lia]. }
  { subst u1' u1. simpl. rewrite take_app_le by done. exact Hc2. }
  exists u1, u2. split; [exact Hrun1|]. split; [|by subst u2].
  unfold control. erewrite bind_ok; [|reflexivity]. erewrite bind_ok.
  2:{ unfold Pipe_SelectPipe. erewrite bind_ok; [|reflexivity].
      erewrite bind_ok; [|apply aset_ok; subst u1; simpl; rewrite Hs; simpl; lia]. reflexivity. }
  etransitivity; [|exact Hrun2]. subst u1' u1. simpl. by rewrite Hs.
Qed.
End Pipes.

(** ** A device to try the theorems on

    A phone with the descriptors of an accessory: it answers requests for descriptors,
    reports protocol 2, changes its mode when it is told to, refuses as many requests as
    [refuses] says, and keeps what it is sent. *)
Module Phone.
Record phone : Type := mk_phone { accessory : bool; refuses : nat; log : list (list Z) }.

Definition device (m : bool) : list Z :=
  [18; 1; 0; 2; 0; 0; 0; 64; 0xD1; 0x18; 0; if m then 0x2D else 0x4E; 0; 1; 1; 2; 3; 1].
Definition config : list (list Z) :=
  [[9; 2; 32; 0; 1; 1; 0; 0x80; 50]; [9; 4; 0; 0; 2; 0xFF; 0xFF; 0; 0];
   [7; 5; 0x81; 2; 64; 0; 0]; [7; 5; 0x02; 2; 64; 0; 0]].

Definition answer (r : USB_Request_Header_t) (m : bool) : list Z :=
  take (Z.to_nat (wLength r))
    (if bRequest r =? REQ_GetDescriptor then
       if wValue r =? Z.shiftl DTYPE_Device 8 then device m
       else if wValue r =? Z.shiftl DTYPE_Configuration 8 then concat config else []
     else if bRequest r =? 51 then [2; 0] else []).

#[global] Instance hcd_phone : Hcd phone := {|
  HcdInitDriver d := (true, d);
  HcdDeInitDriver d := d;
  HcdOpenPipe _ _ ep _ _ _ d := (Some ep, d);
  HcdClosePipe _ d := d;
  HcdGetPipeStatus _ d := (HCD_STATUS_OK, None, d);
  HcdControlTransfer _ r out d :=
    match refuses d with
    | S n => (4, [], mk_phone (accessory d) n (log d))
    | O => (0, answer r (accessory d),
            mk_phone (accessory d || (bRequest r =? 53)) 0 (log d ++ [out]))
    end;
  HcdDataOut _ l d := mk_phone (accessory d) (refuses d) (log d ++ [l]);
  HcdDataIn _ _ d := d;
  HcdGetDeviceSpeed d := (0, d);
  HcdRhPortReset d := d
|}.

(** The library after the control pipe has been set up. *)
Definition pool0 : pool :=
  <[0 := mk_blk 512 0 129]> (<[516 := mk_blk 1528 1 0]> ∅).
Definition nopipe : USB_Pipe_Data_t := mk_pipe 0 None 0 0 0 0.
Definition world (m : bool) (n : nat) (r : USB_Request_Header_t) : uworld phone :=
  mk_uworld (repeat 0 2048) pool0
    [mk_pipe 7 (Some 4) PIPE_MAX_SIZE 0 0 0 :: repeat nopipe 7] [0]
    [HOST_STATE_Addressed] r 0 [64] [0] 0 0 true (repeat 0xA5 512) (mk_phone m n []).

Lemma world_pipe m n r : control_pipe (world m n r) 4 7.
Proof.
  exists (mk_pipe 7 (Some 4) PIPE_MAX_SIZE 0 0 0 :: repeat nopipe 7), 0.
  split; [reflexivity|]. split; [reflexivity|]. split; [reflexivity|]. split; [reflexivity|].
  split; [lia|]. vm_compute. discriminate.
Qed.
End Phone.

Lemma zero_length_never_ends_witness :
  USB_GetNextDescriptorComp [9; 2; 18; 0; 1; 1; 0; 128; 50; 0; 4; 0; 0; 2] 100 (5, 9)
    (fun _ => mret DESCRIPTOR_SEARCH_NotFound) tt = Fault OutOfFuel.
Proof. apply zero_length_never_ends; [lia|reflexivity|reflexivity]. Defined.

Lemma failed_request_resends_witness :
  exists u1 u2,
    USB_Host_SendControlRequest 0 [1; 2; 3; 4] (Phone.world false 1 (mk_req 64 52 0 0 4)) =
      Ok ((HOST_SENDCONTROL_PipeError, []), u1) /\
    control 0 (mk_req 64 52 0 1 2) [8; 9] u1 = Ok ((HOST_SENDCONTROL_Successful, []), u2) /\
    dev u2 = Phone.mk_phone false 0 [[1; 2]].
Proof.
  apply (failed_request_resends _ 4 7 (mk_req 64 52 0 0 4) _ _ _ 4 (Phone.mk_phone false 0 []));
    first [reflexivity | apply Phone.world_pipe | vm_compute; discriminate
          | unfold PIPE_MAX_SIZE; simpl; lia].
Defined.
