(* ===== verification/AoaHost.v ===== *)
(** * Android accessory host: enumeration

    Lib_AOA/src (AndroidAccessoryCommands.c, DeviceDescriptor.c, ConfigDescriptor.c) and
    the event handlers of demo_aoa_can/src/AndroidAccessoryHost.c: telling an Android
    device that is in accessory mode, and setting its pipes up, from one that has to be
    switched to it. *)

From S2P Require Import Prelude UsbMem Usb.

Definition ANDROID_Req_GetAccessoryProtocol : Z := 51.
Definition ANDROID_Req_SendString : Z := 52.
Definition ANDROID_Req_StartAccessoryMode : Z := 53.
Definition ANDROID_STRING_Manufacturer : Z := 0.
Definition ANDROID_STRING_Model : Z := 1.
Definition ANDROID_STRING_Description : Z := 2.
Definition ANDROID_STRING_Version : Z := 3.
Definition ANDROID_STRING_URI : Z := 4.
Definition ANDROID_STRING_Serial : Z := 5.
Definition ANDROID_PROTOCOL_Accessory : Z := 2.
Definition ANDROID_DATA_IN_PIPE : Z := 1.
Definition ANDROID_DATA_OUT_PIPE : Z := 2.
Definition ANDROID_INTERFACE_CLASS : Z := 0xFF.
Definition ANDROID_INTERFACE_SUBCLASS : Z := 0xFF.
Definition ANDROID_INTERFACE_PROTOCOL : Z := 0x00.
Definition ANDROID_VENDOR_ID : Z := 0x18D1.
Definition ANDROID_ACCESSORY_PRODUCT_ID : Z := 0x2D00.
Definition ANDROID_ACCESSORY_ADB_PRODUCT_ID : Z := 0x2D01.

(** The results of reading the configuration descriptor. *)
Inductive config_code : Type := SuccessfulConfigRead | DevControlError | DescriptorTooLarge
| InvalidConfigDataReturned | NoCompatibleInterfaceFound.

(** The results of reading the device descriptor. *)
Inductive device_code : Type := SuccessfulDeviceRead | ControlError
| InvalidDeviceDataReturned | IncorrectAndroidDevice | NonAccessoryModeAndroidDevice
| AccessoryModeAndroidDevice.

(** The state of the application: what it remembers of the device, and what it prints. *)
Record aworld (D : Type) : Type := mk_aworld {
  usb : uworld D;
  connected : Z;
  scheduleDisconnect : Z;
  attachedCoreNum : Z;
  now_ms : Z;
  console : list string
}.
Arguments mk_aworld {D}. Arguments usb {D}. Arguments connected {D}.
Arguments scheduleDisconnect {D}. Arguments attachedCoreNum {D}. Arguments now_ms {D}.
Arguments console {D}.
#[export] Instance eta_aworld D : Settable (aworld D) :=
  fun s => mk_aworld (usb s) (connected s) (scheduleDisconnect s) (attachedCoreNum s)
    (now_ms s) (console s).

#[export] Instance lens_usb D : Lens (uworld D) (aworld D) :=
  {| view := usb; put := fun u w => w{{ usb := u }} |}.

(** ** Comparators *)

Section Comparators.
Context {W : Type}.

Definition DCOMP_NextAndroidAccessoryInterface (d : list Z) : M W search_t :=
  t ← aget d 1;
  if t =? DTYPE_Interface then
    cls ← aget d 5;
    if negb (cls =? ANDROID_INTERFACE_CLASS) then mret DESCRIPTOR_SEARCH_NotFound else
    sub ← aget d 6;
    if negb (sub =? ANDROID_INTERFACE_SUBCLASS) then mret DESCRIPTOR_SEARCH_NotFound else
    pro ← aget d 7;
    mret (if pro =? ANDROID_INTERFACE_PROTOCOL then DESCRIPTOR_SEARCH_Found
          else DESCRIPTOR_SEARCH_NotFound)
  else mret DESCRIPTOR_SEARCH_NotFound.

Definition DCOMP_NextInterfaceBulkEndpoint (d : list Z) : M W search_t :=
  t ← aget d 1;
  if t =? DTYPE_Endpoint then
    attr ← aget d 3;
    if negb (Z.land attr EP_TYPE_MASK =? EP_TYPE_BULK) then mret DESCRIPTOR_SEARCH_NotFound else
    adr ← aget d 2;
    mret (if negb (Pipe_IsEndpointBound adr) then DESCRIPTOR_SEARCH_Found
          else DESCRIPTOR_SEARCH_NotFound)
  else mret (if t =? DTYPE_Interface then DESCRIPTOR_SEARCH_Fail else DESCRIPTOR_SEARCH_NotFound).

(** The endpoint descriptors found, by their place in the buffer. *)
Definition find_endpoints (fuel : nat) (buf : list Z) (pos : Z * Z) : M W (option (Z * Z)) :=
  while fuel (fun st : Z * Z * option Z * option Z =>
    let '(pos, DataIN, DataOUT) := st in
    match DataIN, DataOUT with
    | Some i, Some o => mret (Break (Some (i, o)))
    | _, _ =>
        r ← USB_GetNextDescriptorComp buf fuel pos DCOMP_NextInterfaceBulkEndpoint;
        let '(c, pos) := r in
        match c with
        | DESCRIPTOR_SEARCH_COMP_Found =>
            adr ← aget (at_loc buf (snd pos)) 2;
            mret (Continue (if Z.land adr ENDPOINT_DIR_MASK =? ENDPOINT_DIR_IN
                            then (pos, Some (snd pos), DataOUT)
                            else (pos, DataIN, Some (snd pos))))
        | _ => mret (Break None)
        end
    end) (pos, None, None).
End Comparators.

Section Aoa.
Context {D : Type} `{Hcd D}.

(** ** AndroidAccessoryCommands.c *)

Definition vendor_in : Z := Z.lor (Z.lor REQDIR_DEVICETOHOST REQTYPE_VENDOR) REQREC_DEVICE.
Definition vendor_out : Z := Z.lor (Z.lor REQDIR_HOSTTODEVICE REQTYPE_VENDOR) REQREC_DEVICE.

Definition Android_GetAccessoryProtocol (corenum : Z) : M (uworld D) (Z * list Z) :=
  control corenum (mk_req vendor_in ANDROID_Req_GetAccessoryProtocol 0 0 2) [].

(** The string with its terminating 0. *)
Definition c_string (s : string) : list Z :=
  ((fun c => Z.of_nat (Ascii.nat_of_ascii c)) <$> String.list_ascii_of_string s) ++ [0].

Definition Android_SendString (corenum StringIndex : Z) (s : string) : M (uworld D) Z :=
  r ← control corenum (mk_req vendor_out ANDROID_Req_SendString 0 StringIndex
        (u16 (Z.of_nat (String.length s) + 1))) (c_string s);
  mret (fst r).

Definition Android_StartAccessoryMode (corenum : Z) : M (uworld D) Z :=
  r ← control corenum (mk_req vendor_out ANDROID_Req_StartAccessoryMode 0 0 0) [];
  mret (fst r).

(** ** DeviceDescriptor.c

    A failed request gives [DevControlError] of the other enumeration, whose value is
    that of [ControlError]. *)

Definition ProcessDeviceDescriptor (corenum : Z) : M (uworld D) device_code :=
  r ← USB_Host_GetDeviceDescriptor corenum;
  if negb (fst r =? HOST_SENDCONTROL_Successful) then mret ControlError
  else
    let d := snd r in
    t ← aget d 1;
    if negb (t =? DTYPE_Device) then mret InvalidDeviceDataReturned
    else
      v0 ← aget d 8; v1 ← aget d 9;
      if negb (le16 v0 v1 =? ANDROID_VENDOR_ID) then mret NonAccessoryModeAndroidDevice
      else
        p0 ← aget d 10; p1 ← aget d 11;
        mret (if negb (le16 p0 p1 =? ANDROID_ACCESSORY_PRODUCT_ID) &&
                 negb (le16 p0 p1 =? ANDROID_ACCESSORY_ADB_PRODUCT_ID)
              then NonAccessoryModeAndroidDevice else AccessoryModeAndroidDevice).

(** ** ConfigDescriptor.c *)

Definition CONFIG_BUFFER : Z := 512.

(** The turns given to the searches: more than the descriptors 512 bytes can hold. *)
Definition search_fuel : nat := 514.

(** The array on the stack: what was read, then what was there before. *)
Definition config_data (got st : list Z) : list Z := got ++ drop (length got) st.

Definition endpoint_pipe (corenum Number Token : Z) (d : list Z) : M (uworld D) unit :=
  adr ← aget d 2; s0 ← aget d 4; s1 ← aget d 5;
  _ ← Pipe_ConfigurePipe corenum Number EP_TYPE_BULK Token adr (le16 s0 s1);
  mret tt.

Definition ProcessConfigurationDescriptor (corenum : Z) : M (uworld D) config_code :=
  st ← gets stack;
  r ← USB_Host_GetDeviceConfigDescriptor corenum 1 CONFIG_BUFFER;
  let '(code, BytesRem, got) := r in
  if code =? HOST_GETCONFIG_InvalidData then mret InvalidConfigDataReturned
  else if code =? HOST_GETCONFIG_BuffOverflow then mret DescriptorTooLarge
  else if negb (code =? HOST_GETCONFIG_Successful) then mret DevControlError
  else
    let data := config_data got st in
    r ← USB_GetNextDescriptorComp data search_fuel (BytesRem, 0)
          DCOMP_NextAndroidAccessoryInterface;
    let '(c, pos) := r in
    match c with
    | DESCRIPTOR_SEARCH_COMP_Found =>
        e ← find_endpoints search_fuel data pos;
        match e with
        | None => mret NoCompatibleInterfaceFound
        | Some (i, o) =>
            endpoint_pipe corenum ANDROID_DATA_IN_PIPE PIPE_TOKEN_IN (at_loc data i) ;;
            endpoint_pipe corenum ANDROID_DATA_OUT_PIPE PIPE_TOKEN_OUT (at_loc data o) ;;
            mret SuccessfulConfigRead
        end
    | _ => mret NoCompatibleInterfaceFound
    end.

(** ** The events *)

Definition say (s : string) : M (aworld D) unit :=
  modify (fun w : aworld D => w{{ console := console w ++ [s] }}).

(** The console gets the texts without line ends and without the numbers that [sprintf]
    puts into them. *)
Definition EVENT_USB_Host_DeviceAttached (corenum : Z) : M (aworld D) unit :=
  say "Device Attached" ;;
  modify (fun w : aworld D => w{{ attachedCoreNum := corenum }}).

Definition EVENT_USB_Host_DeviceUnattached (corenum : Z) : M (aworld D) unit :=
  say "Device Unattached" ;;
  modify (fun w : aworld D => w{{ connected := 0 }}) ;;
  modify (fun w : aworld D => w{{ scheduleDisconnect := u32 (now_ms w + 1000) }}).

(** The strings sent, the manufacturer twice. *)
Definition aoa_strings : list (Z * string) := [
  (ANDROID_STRING_Manufacturer, "Embedded Artists AB");
  (ANDROID_STRING_Manufacturer, "Embedded Artists AB");
  (ANDROID_STRING_Model, "AOA Board - Nodes");
  (ANDROID_STRING_Description, "Demo - AOA Nodes");
  (ANDROID_STRING_Version, "1.0");
  (ANDROID_STRING_URI, "http://www.embeddedartists.com/_aoa/Demo_AOA_Nodes.apk");
  (ANDROID_STRING_Serial, "N/A")]%string.

Definition switch_mode (corenum : Z) : M (aworld D) unit :=
  r ← zoom (Android_GetAccessoryProtocol corenum);
  if negb (fst r =? HOST_SENDCONTROL_Successful) then say "Control Error (Get Protocol)."
  else
    b0 ← aget (snd r) 0; b1 ← aget (snd r) 1;
    let AndroidProtocol := le16 b0 b1 in
    if (AndroidProtocol =? 0) || (ANDROID_PROTOCOL_Accessory <? AndroidProtocol) then
      say "Unsupported AOA protocol version"
    else
      foreach aoa_strings (fun x =>
        _ ← zoom (Android_SendString corenum (fst x) (snd x)); mret tt) ;;
      _ ← zoom (Android_StartAccessoryMode corenum);
      mret tt.

Definition setup_accessory (corenum : Z) : M (aworld D) unit :=
  say "Getting Config Data." ;;
  c ← zoom (ProcessConfigurationDescriptor corenum);
  match c with
  | SuccessfulConfigRead =>
      e ← zoom (USB_Host_SetDeviceConfiguration corenum 1);
      if negb (e =? HOST_SENDCONTROL_Successful) then say "Control Error (Set Configuration)."
      else say "Accessory Mode Android Enumerated."
  | DevControlError => say "Control Error (Get Configuration)." ;; say "Error Code"
  | _ => say "Invalid Device." ;; say "Error Code"
  end.

Definition EVENT_USB_Host_DeviceEnumerationComplete (corenum : Z) : M (aworld D) unit :=
  say "Getting Device Data" ;;
  c ← zoom (ProcessDeviceDescriptor corenum);
  match c with
  | ControlError => say "Control Error (Get Device)." ;; say "Error Code"
  | NonAccessoryModeAndroidDevice =>
      say "Android Device Detected - Non-Accessory mode." ;; switch_mode corenum
  | AccessoryModeAndroidDevice =>
      say "Android Device Detected - Accessory mode." ;; setup_accessory corenum
  | _ => say "Invalid Device." ;; say "Error Code"
  end.

(** ** Sending to the device *)

Definition sendCommand (corenum cmd : Z) (data : list Z) : M (uworld D) unit :=
  st ← host_state corenum;
  if negb (st =? HOST_STATE_Configured) then mret tt
  else
    Pipe_SelectPipe corenum ANDROID_DATA_OUT_PIPE ;;
    ok ← Pipe_IsReadWriteAllowed corenum;
    when ok
      (Pipe_Write_8 corenum cmd ;;
       Pipe_Write_Stream_LE corenum data ;;
       Pipe_ClearOUT corenum).

Definition CMD_NODE_ADD : Z := 0.
Definition CMD_NODE_REMOVE : Z := 1.
Definition CMD_NODE_VALUE : Z := 2.

(** The buffer has two bytes and twelve capabilities. *)
Definition sendNodeAttached (corenum reqId : Z) (caps : list Z) : M (uworld D) unit :=
  let caps := take 12 caps in
  sendCommand corenum CMD_NODE_ADD (reqId :: Z.of_nat (length caps) :: caps).

Definition sendNodeDetached (corenum reqId : Z) : M (uworld D) unit :=
  sendCommand corenum CMD_NODE_REMOVE [reqId].

(** Always two bytes of value, a single one after a 0. *)
Definition valueUpdate (reqId periphId : Z) (buf : list Z) (len : Z) : M (aworld D) unit :=
  c ← gets connected;
  if c =? 0 then mret tt
  else
    data ← (if len <? 2 then b ← aget buf 0; mret [reqId; periphId; 0; b]
            else b0 ← aget buf 0; b1 ← aget buf 1; mret [reqId; periphId; b0; b1]);
    core ← gets attachedCoreNum;
    zoom (sendCommand core CMD_NODE_VALUE data).
End Aoa.
