(* ===== verification/AoaFacts.v ===== *)
(** * Android accessory host: theorems

    The configuration descriptor is searched for what a reference function on its list of
    descriptors finds; the enumeration of a device ends in the requests and pipes it is
    meant to end in. *)

From stdpp Require Import gmap.
From S2P Require Import Prelude UsbMem UsbMemFacts Usb UsbFacts AoaHost.

(** ** The reference search *)

Definition byte (l : list Z) (i : nat) : Z := nth i l 0.

Definition iface_verdict (l : list Z) : search_t :=
  if (byte l 1 =? DTYPE_Interface) && (byte l 5 =? ANDROID_INTERFACE_CLASS) &&
     (byte l 6 =? ANDROID_INTERFACE_SUBCLASS) && (byte l 7 =? ANDROID_INTERFACE_PROTOCOL)
  then DESCRIPTOR_SEARCH_Found else DESCRIPTOR_SEARCH_NotFound.

Definition endpoint_verdict (l : list Z) : search_t :=
  if byte l 1 =? DTYPE_Endpoint then
    if Z.land (byte l 3) EP_TYPE_MASK =? EP_TYPE_BULK
    then DESCRIPTOR_SEARCH_Found else DESCRIPTOR_SEARCH_NotFound
  else if byte l 1 =? DTYPE_Interface then DESCRIPTOR_SEARCH_Fail
  else DESCRIPTOR_SEARCH_NotFound.

Definition is_in (l : list Z) : bool := Z.land (byte l 2) ENDPOINT_DIR_MASK =? ENDPOINT_DIR_IN.

Lemma aget_byte {W} (l : list Z) (i : nat) (w : W) :
  (i < length l)%nat -> aget l (Z.of_nat i) w = Ok (byte l i, w).
Proof.
  intros Hi. apply aget_ok; [lia|]. rewrite Nat2Z.id. unfold byte.
  destruct (lookup_lt_is_Some_2 l i Hi) as [x Hx]. rewrite Hx. f_equal.
  symmetry. by apply nth_lookup_Some.
Qed.

Ltac get_byte i :=
  erewrite bind_ok; [|apply (aget_byte _ i); lia].

Lemma iface_runs {W} (l : list Z) (w : W) :
  (8 <= length l)%nat -> DCOMP_NextAndroidAccessoryInterface l w = Ok (iface_verdict l, w).
Proof.
  intros Hl. unfold DCOMP_NextAndroidAccessoryInterface, iface_verdict.
  get_byte 1%nat. destruct (byte l 1 =? DTYPE_Interface); [|done].
  get_byte 5%nat. destruct (byte l 5 =? ANDROID_INTERFACE_CLASS); [|done].
  cbn [negb andb]. get_byte 6%nat. destruct (byte l 6 =? ANDROID_INTERFACE_SUBCLASS); [|done].
  cbn [negb andb]. get_byte 7%nat. by destruct (byte l 7 =? ANDROID_INTERFACE_PROTOCOL).
Qed.

Lemma endpoint_runs {W} (l : list Z) (w : W) :
  (8 <= length l)%nat -> DCOMP_NextInterfaceBulkEndpoint l w = Ok (endpoint_verdict l, w).
Proof.
  intros Hl. unfold DCOMP_NextInterfaceBulkEndpoint, endpoint_verdict.
  get_byte 1%nat. destruct (byte l 1 =? DTYPE_Endpoint); [|done].
  get_byte 3%nat. destruct (Z.land (byte l 3) EP_TYPE_MASK =? EP_TYPE_BULK); [|done].
  cbn [negb]. by get_byte 2%nat.
Qed.

Section Search.
Variables (ds : list (list Z)) (rest : list Z).
Hypothesis ds_ok : Forall desc_ok ds.
Hypothesis rest_long : (8 <= length rest)%nat.

(** The bytes from descriptor [k] on. *)
Definition tail (k : nat) : list Z := concat (drop k ds) ++ rest.

Lemma tail_long k : (8 <= length (tail k))%nat.
Proof. unfold tail. rewrite length_app. lia. Qed.

(** The first accessory interface behind descriptor [k], [m] from the end. *)
Fixpoint find_iface (k m : nat) : option nat :=
  match m with
  | O => None
  | S m' =>
      match iface_verdict (tail (S k)) with
      | DESCRIPTOR_SEARCH_Found => Some (S k)
      | _ => find_iface (S k) m'
      end
  end.

(** The endpoints of an interface: the bulk endpoints before the next interface, until
    there is one in each direction. *)
Fixpoint scan (k m : nat) (i o : option nat) : option (nat * nat) :=
  match i, o with
  | Some a, Some b => Some (a, b)
  | _, _ =>
      match m with
      | O => None
      | S m' =>
          match endpoint_verdict (tail (S k)) with
          | DESCRIPTOR_SEARCH_Found =>
              if is_in (tail (S k)) then scan (S k) m' (Some (S k)) o
              else scan (S k) m' i (Some (S k))
          | DESCRIPTOR_SEARCH_Fail => None
          | DESCRIPTOR_SEARCH_NotFound => scan (S k) m' i o
          end
      end
  end.

Lemma find_iface_run {W} m k fuel (w : W) :
  (k + m = length ds)%nat -> (m < fuel)%nat ->
  exists c pos, USB_GetNextDescriptorComp (concat ds ++ rest) fuel (place ds k)
      DCOMP_NextAndroidAccessoryInterface w = Ok ((c, pos), w) /\
    match find_iface k m with
    | Some j => c = DESCRIPTOR_SEARCH_COMP_Found /\ pos = place ds j /\ (k < j <= length ds)%nat
    | None => c <> DESCRIPTOR_SEARCH_COMP_Found
    end.
Proof.
  intros Hk Hf. eexists _, _. split.
  { apply (comp_run ds rest ds_ok _ (fun k => iface_verdict (tail k)) w); [|exact Hk|exact Hf].
    intros j _. apply iface_runs, tail_long. }
  clear Hf fuel. revert k Hk. induction m as [|m IH]; intros k Hk; cbn [outcome find_iface fst snd].
  - done.
  - unfold iface_verdict. destruct (_ && _); cbn [fst snd].
    + split; [done|]. split; [done|lia].
    + specialize (IH (S k) ltac:(lia)). destruct (find_iface (S k) m); [|exact IH].
      destruct IH as (? & ? & ?). split; [done|]. split; [done|lia].
Qed.

(** The outcome of one search for an endpoint, in the scan. *)
Lemma scan_outcome m k i o :
  (k + m = length ds)%nat -> i = None \/ o = None ->
  let r := outcome (fun k => endpoint_verdict (tail k)) k m in
  match fst r with
  | DESCRIPTOR_SEARCH_COMP_Found =>
      (k < snd r <= length ds)%nat /\
      scan k m i o =
        if is_in (tail (snd r)) then scan (snd r) (length ds - snd r) (Some (snd r)) o
        else scan (snd r) (length ds - snd r) i (Some (snd r))
  | _ => scan k m i o = None
  end.
Proof.
  intros Hk Hio. revert k Hk. induction m as [|m IH]; intros k Hk; cbn [outcome].
  - cbn [fst scan]. by destruct i, o, Hio.
  - assert (scan k (S m) i o = match endpoint_verdict (tail (S k)) with
      | DESCRIPTOR_SEARCH_Found =>
          if is_in (tail (S k)) then scan (S k) m (Some (S k)) o
          else scan (S k) m i (Some (S k))
      | DESCRIPTOR_SEARCH_Fail => None
      | DESCRIPTOR_SEARCH_NotFound => scan (S k) m i o
      end) as -> by (by destruct i, o, Hio).
    destruct (endpoint_verdict (tail (S k))); cbn [fst snd].
    + split; [lia|]. by replace (length ds - S k)%nat with m by lia.
    + done.
    + specialize (IH (S k) ltac:(lia)). cbv zeta in IH.
      destruct (fst (outcome _ (S k) m)); [|exact IH|exact IH].
      destruct IH as [? ?]. split; [lia|done].
Qed.

Definition place_of (k : nat) : Z := snd (place ds k).

Lemma find_endpoints_run {W} fuel turns m k i o (w : W) :
  (k + m = length ds)%nat -> (length ds < fuel)%nat -> (S m < turns)%nat ->
  while turns (fun st : Z * Z * option Z * option Z =>
    let '(pos, DataIN, DataOUT) := st in
    match DataIN, DataOUT with
    | Some i, Some o => mret (Break (Some (i, o)))
    | _, _ =>
        r ← USB_GetNextDescriptorComp (concat ds ++ rest) fuel pos DCOMP_NextInterfaceBulkEndpoint;
        let '(c, pos) := r in
        match c with
        | DESCRIPTOR_SEARCH_COMP_Found =>
            adr ← aget (at_loc (concat ds ++ rest) (snd pos)) 2;
            mret (Continue (if Z.land adr ENDPOINT_DIR_MASK =? ENDPOINT_DIR_IN
                            then (pos, Some (snd pos), DataOUT)
                            else (pos, DataIN, Some (snd pos))))
        | _ => mret (Break None)
        end
    end) (place ds k, place_of <$> i, place_of <$> o) w =
  Ok ((fun x => (place_of (fst x), place_of (snd x))) <$> scan k m i o, w).
Proof.
  intros Hk Hf Ht. revert m k i o Hk Ht. induction turns as [|turns IH]; intros m k i o Hk Ht;
    [lia|]. cbn [while].
  destruct (decide (i <> None /\ o <> None)) as [[Hi Ho]|Hio].
  { destruct i as [i|], o as [o|]; try done. destruct m; reflexivity. }
  assert (i = None \/ o = None) as Hio' by (destruct i, o; auto; destruct Hio; done).
  pose proof (scan_outcome m k i o Hk Hio') as Hs. cbv zeta in Hs.
  pose proof (comp_run ds rest ds_ok DCOMP_NextInterfaceBulkEndpoint
    (fun k => endpoint_verdict (tail k)) w (fun j _ => endpoint_runs _ w (tail_long j))
    m k fuel Hk ltac:(lia)) as Hrun.
  destruct (outcome _ k m) as [c j]. cbn [fst snd] in *.
  rewrite (bind_ok _ _ _ (match c with
    | DESCRIPTOR_SEARCH_COMP_Found => Continue (if is_in (tail j)
        then (place ds j, place_of <$> Some j, place_of <$> o)
        else (place ds j, place_of <$> i, place_of <$> Some j))
    | _ => Break None end) w).
  - destruct c; [|by rewrite Hs..]. destruct Hs as [Hj ->].
    destruct (is_in (tail j)); apply IH; lia.
  - destruct i, o, Hio'; try done; cbn [fmap option_fmap option_map];
      (rewrite (bind_ok _ _ _ _ _ Hrun); cbv beta iota; destruct c; [|done..];
       change (snd (place ds j)) with (off ds j); rewrite at_place; fold (tail j); pose proof (tail_long j);
       erewrite bind_ok; [|apply (aget_byte _ 2); lia]; unfold mret, M_ret, is_in;
       by destruct (_ =? _)).
Qed.
End Search.

(** ** Requests *)

Section Events.
Context {D : Type} `{Hcd D}.
Implicit Types (u : uworld D) (w : aworld D).

Lemma select_run u n :
  length (pipeselected u) = 1%nat -> Pipe_SelectPipe 0 n u = Ok (tt, u{{ pipeselected := [n] }}).
Proof.
  intros Hl. unfold Pipe_SelectPipe. erewrite bind_ok; [|reflexivity].
  erewrite bind_ok; [|apply aset_ok; lia]. destruct (pipeselected u) as [|x [|]]; [done| |done].
  reflexivity.
Qed.

Lemma requested_trans u u1 u2 r1 r2 d1 d2 :
  requested u u1 r1 d1 -> requested u1 u2 r2 d2 -> requested u u2 r2 d2.
Proof.
  intros (?&?&?&?&?&?&?&?&?&?&?) (?&?&?&?&?&?&?&?&?&?&?). unfold requested.
  repeat split; congruence.
Qed.

Lemma control_in_ok u a h r l d :
  control_pipe u a h -> is_dir r REQDIR_DEVICETOHOST = true ->
  wLength r <= PIPE_MAX_SIZE -> wLength r = Z.of_nat (length l) ->
  HcdControlTransfer h r [] (dev u) = (0, l, d) ->
  exists u', control 0 r [] u = Ok ((HOST_SENDCONTROL_Successful, l), u') /\ requested u u' r d.
Proof.
  intros Hcp Hin Hlen Hl Hc. pose proof Hcp as (row & e & Hi & Hp & Hlr & Hs & Ha & Hr).
  set (u1 := u{{ USB_ControlRequest := r; pipeselected := [PIPE_CONTROLPIPE] }}).
  assert (control_pipe u1 a h) as Hcp1 by (exists row, e; done).
  assert (is_dir r REQDIR_HOSTTODEVICE = false) as Hout.
  { unfold is_dir in *. change REQDIR_HOSTTODEVICE with 0. change REQDIR_DEVICETOHOST with 128 in Hin. lia. }
  destruct (send_request_in u1 a h r l d Hcp1 eq_refl eq_refl Hin Hout Hlen Hl Hc) as (u2 & Hrun & Hq).
  exists u2. split; [|exact Hq]. unfold control. erewrite bind_ok; [|reflexivity].
  erewrite bind_ok; [|apply select_run; exact Hs]. exact Hrun.
Qed.

Lemma control_out_ok u a h r out d :
  control_pipe u a h -> is_dir r REQDIR_HOSTTODEVICE = true ->
  wLength r <= PIPE_MAX_SIZE -> wLength r = Z.of_nat (length out) ->
  HcdControlTransfer h r out (dev u) = (0, [], d) ->
  exists u', control 0 r out u = Ok ((HOST_SENDCONTROL_Successful, []), u') /\ requested u u' r d.
Proof.
  intros Hcp Hout Hlen Hl Hc. pose proof Hcp as (row & e & Hi & Hp & Hlr & Hs & Ha & Hr).
  set (u1 := u{{ USB_ControlRequest := r; pipeselected := [PIPE_CONTROLPIPE] }}).
  assert (control_pipe u1 a h) as Hcp1 by (exists row, e; done).
  assert (is_dir r REQDIR_DEVICETOHOST = false) as Hin.
  { unfold is_dir in *. change REQDIR_DEVICETOHOST with 128. change REQDIR_HOSTTODEVICE with 0 in Hout. lia. }
  destruct (send_request_out u1 a h r out d Hcp1 eq_refl eq_refl Hin Hout Hlen Hl Hc) as (u2 & Hrun & Hq).
  exists u2. split; [|exact Hq]. unfold control. erewrite bind_ok; [|reflexivity].
  erewrite bind_ok; [|apply select_run; exact Hs]. exact Hrun.
Qed.

Definition device_request : USB_Request_Header_t :=
  mk_req std_in REQ_GetDescriptor (Z.shiftl DTYPE_Device 8) 0 18.
Definition protocol_request : USB_Request_Header_t :=
  mk_req vendor_in ANDROID_Req_GetAccessoryProtocol 0 0 2.
Definition string_request (x : Z * string) : USB_Request_Header_t * list Z :=
  (mk_req vendor_out ANDROID_Req_SendString 0 (fst x) (Z.of_nat (length (c_string (snd x)))),
   c_string (snd x)).
Definition start_request : USB_Request_Header_t :=
  mk_req vendor_out ANDROID_Req_StartAccessoryMode 0 0 0.
Definition config_request (n : Z) : USB_Request_Header_t :=
  mk_req std_in REQ_GetDescriptor (Z.shiftl DTYPE_Configuration 8) 0 n.
Definition set_config_request : USB_Request_Header_t := mk_req std_out REQ_SetConfiguration 1 0 0.

(** The device takes these requests, one after the other. *)
Fixpoint takes (h : Z) (l : list (USB_Request_Header_t * list Z)) (d d' : D) : Prop :=
  match l with
  | [] => d = d'
  | (r, out) :: l' => exists d1, HcdControlTransfer h r out d = (0, [], d1) /\ takes h l' d1 d'
  end.

(** What the device descriptor says. *)
Definition device_verdict (l : list Z) : device_code :=
  if negb (byte l 1 =? DTYPE_Device) then InvalidDeviceDataReturned
  else if negb (le16 (byte l 8) (byte l 9) =? ANDROID_VENDOR_ID) then NonAccessoryModeAndroidDevice
  else if negb (le16 (byte l 10) (byte l 11) =? ANDROID_ACCESSORY_PRODUCT_ID) &&
          negb (le16 (byte l 10) (byte l 11) =? ANDROID_ACCESSORY_ADB_PRODUCT_ID)
  then NonAccessoryModeAndroidDevice else AccessoryModeAndroidDevice.

Lemma device_run u a h l d :
  control_pipe u a h -> length l = 18%nat ->
  HcdControlTransfer h device_request [] (dev u) = (0, l, d) ->
  exists u', ProcessDeviceDescriptor 0 u = Ok (device_verdict l, u') /\
    requested u u' device_request d.
Proof.
  intros Hcp Hl Hc.
  destruct (control_in_ok u a h device_request l d Hcp eq_refl) as (u' & Hrun & Hq);
    [done|by rewrite Hl|done|].
  exists u'. split; [|exact Hq]. unfold ProcessDeviceDescriptor, USB_Host_GetDeviceDescriptor.
  rewrite (bind_ok _ _ _ _ _ Hrun). cbn [fst snd].
  change (negb (HOST_SENDCONTROL_Successful =? HOST_SENDCONTROL_Successful)) with false.
  cbv beta iota zeta. unfold device_verdict. get_byte 1%nat. destruct (byte l 1 =? DTYPE_Device); [|done]. cbn [negb].
  get_byte 8%nat. get_byte 9%nat. destruct (le16 _ _ =? ANDROID_VENDOR_ID); [|done]. cbn [negb].
  get_byte 10%nat. by get_byte 11%nat.
Qed.

Lemma length_c_string s : length (c_string s) = (String.length s + 1)%nat.
Proof.
  unfold c_string. rewrite length_app, length_fmap. simpl. f_equal.
  induction s as [|c s IH]; [done|]. simpl. by rewrite IH.
Qed.

Lemma string_run u a h x d :
  control_pipe u a h -> (String.length (snd x) < 512)%nat ->
  HcdControlTransfer h (string_request x).1 (string_request x).2 (dev u) = (0, [], d) ->
  exists u', Android_SendString 0 (fst x) (snd x) u = Ok (0, u') /\
    requested u u' (string_request x).1 d.
Proof.
  intros Hcp Hl Hc. pose proof (length_c_string (snd x)) as Hs.
  destruct (control_out_ok u a h (string_request x).1 (c_string (snd x)) d Hcp eq_refl)
    as (u' & Hrun & Hq); [simpl; unfold PIPE_MAX_SIZE; lia|done|exact Hc|].
  exists u'. split; [|exact Hq]. unfold Android_SendString.
  replace (u16 (Z.of_nat (String.length (snd x)) + 1)) with (Z.of_nat (length (c_string (snd x)))).
  { by rewrite (bind_ok _ _ _ _ _ Hrun). }
  rewrite Hs. unfold u16. rewrite Z.mod_small by lia. lia.
Qed.

Lemma zoom_usb {A} (m : M (uworld D) A) w x u :
  m (usb w) = Ok (x, u) -> zoom m w = Ok (x, w{{ usb := u }}).
Proof. intros Hm. unfold zoom. simpl. by rewrite Hm. Qed.

(** What requests leave apart from the device: no more than one of them does. *)
Definition quiet u u' : Prop :=
  PipeInfo u' = PipeInfo u /\ length (pipeselected u') = 1%nat /\
  length (ram u') = length (ram u) /\ upool u' = upool u /\
  USB_HostState u' = USB_HostState u /\ stack u' = stack u /\
  hostportspeed u' = hostportspeed u.

Lemma requested_quiet u u' r d : requested u u' r d -> quiet u u' /\ dev u' = d.
Proof.
  intros (? & Hs & ? & ? & ? & ? & ? & ? & ? & ? & _). unfold quiet. by rewrite Hs.
Qed.

Lemma quiet_trans u u1 u2 : quiet u u1 -> quiet u1 u2 -> quiet u u2.
Proof.
  intros (?&?&?&?&?&?&?) (?&?&?&?&?&?&?). unfold quiet. repeat split; congruence.
Qed.

Lemma control_pipe_quiet u u' a h : control_pipe u a h -> quiet u u' -> control_pipe u' a h.
Proof.
  intros (row & e & Hi & Hp & Hl & Hs & Ha & Hr) (Hi' & Hs' & Hr' & _).
  exists row, e. rewrite Hi', Hr'. done.
Qed.

Lemma quiet_refl u a h : control_pipe u a h -> quiet u u.
Proof. intros (row & e & _ & _ & _ & Hs & _). unfold quiet. done. Qed.

Lemma strings_run l w a h d :
  control_pipe (usb w) a h -> Forall (fun x => (String.length (snd x) < 512)%nat) l ->
  takes h (string_request <$> l) (dev (usb w)) d ->
  exists u, foreach l (fun x => _ ← zoom (Android_SendString 0 (fst x) (snd x)); mret tt) w =
      Ok (tt, w{{ usb := u }}) /\ quiet (usb w) u /\ dev u = d.
Proof.
  intros Hcp Hl. revert w Hcp. induction Hl as [|x l Hx Hl IH]; intros w Hcp Ht.
  - simpl in Ht. exists (usb w). split; [by destruct w|]. split; [by eapply quiet_refl|done].
  - destruct Ht as (d1 & Hc & Ht). destruct (string_run _ a h x d1 Hcp Hx Hc) as (u1 & Hr & Hq).
    apply requested_quiet in Hq as [Hq Hd1].
    destruct (IH (w{{ usb := u1 }})) as (u2 & Hr2 & Hq2 & Hd2).
    { simpl. by eapply control_pipe_quiet. }
    { simpl. by rewrite Hd1. }
    simpl in Hr2, Hq2. exists u2. split; [|split; [by eapply quiet_trans|done]].
    cbn [foreach]. erewrite bind_ok; [exact Hr2|].
    erewrite bind_ok; [|by apply zoom_usb]. reflexivity.
Qed.

Lemma say_run s w : say s w = Ok (tt, w{{ console := console w ++ [s] }}).
Proof. reflexivity. Qed.

(** C30: A device that is not in accessory mode is switched to it: the event sends the
    strings that identify the accessory, in order, and the request to start, and nothing
    else; the state of the host and its pipes stay. *)
Theorem mode_switched w a h l p0 p1 d1 d2 d3 :
  control_pipe (usb w) a h ->
  HcdControlTransfer h device_request [] (dev (usb w)) = (0, l, d1) -> length l = 18%nat ->
  device_verdict l = NonAccessoryModeAndroidDevice ->
  HcdControlTransfer h protocol_request [] d1 = (0, [p0; p1], d2) ->
  1 <= le16 p0 p1 <= ANDROID_PROTOCOL_Accessory ->
  takes h ((string_request <$> aoa_strings) ++ [(start_request, [])]) d2 d3 ->
  exists w', EVENT_USB_Host_DeviceEnumerationComplete 0 w = Ok (tt, w') /\
    dev (usb w') = d3 /\ quiet (usb w) (usb w').
Proof.
  intros Hcp Hdev Hl Hv Hpro Hver Ht. unfold EVENT_USB_Host_DeviceEnumerationComplete.
  rewrite (bind_ok _ _ _ _ _ (say_run _ w)). set (w1 := w{{ console := _ }}).
  destruct (device_run (usb w1) a h l d1 Hcp Hl Hdev) as (u1 & Hr1 & Hq1).
  rewrite (bind_ok _ _ _ _ _ (zoom_usb _ w1 _ _ Hr1)), Hv.
  rewrite (bind_ok _ _ _ _ _ (say_run _ _)). apply requested_quiet in Hq1 as [Hq1 Hd1].
  set (w2 := (w1{{ usb := u1 }}){{ console := _ }}). unfold switch_mode.
  assert (control_pipe u1 a h) as Hcp1 by (by eapply control_pipe_quiet).
  destruct (control_in_ok u1 a h protocol_request [p0; p1] d2 Hcp1 eq_refl) as (u2 & Hr2 & Hq2);
    [done|done|by rewrite Hd1|].
  rewrite (bind_ok _ _ _ _ _ (zoom_usb _ w2 _ _ Hr2)). cbn [fst snd].
  change (negb (HOST_SENDCONTROL_Successful =? HOST_SENDCONTROL_Successful)) with false. cbv iota.
  erewrite bind_ok; [|by apply aget_ok]. erewrite bind_ok; [|by apply aget_ok].
  replace ((le16 p0 p1 =? 0) || (ANDROID_PROTOCOL_Accessory <? le16 p0 p1)) with false by lia.
  apply requested_quiet in Hq2 as [Hq2 Hd2].
  assert (exists d, takes h (string_request <$> aoa_strings) d2 d /\
    HcdControlTransfer h start_request [] d = (0, [], d3)) as (d & Hts & Hstart).
  { revert Ht. generalize (string_request <$> aoa_strings). clear. intros l. revert d2.
    induction l as [|[r out] l IH]; intros d2.
    - intros (d & Hd & Hd'). simpl in Hd'. subst. by exists d2.
    - intros (d1 & Hd1 & Ht). destruct (IH d1 Ht) as (d & ? & ?). exists d. split; [|done].
      by exists d1. }
  set (w3 := w2{{ usb := u2 }}).
  destruct (strings_run aoa_strings w3 a h d) as (u3 & Hr3 & Hq3 & Hd3).
  { by eapply control_pipe_quiet. }
  { unfold aoa_strings. repeat constructor; simpl; lia. }
  { simpl. by rewrite Hd2. }
  rewrite (bind_ok _ _ _ _ _ Hr3).
  assert (control_pipe u3 a h) as Hcp3 by (eapply control_pipe_quiet; [|exact Hq3]; by eapply control_pipe_quiet).
  destruct (control_out_ok u3 a h start_request [] d3 Hcp3 eq_refl) as (u4 & Hr4 & Hq4);
    [done|done|by rewrite Hd3|].
  apply requested_quiet in Hq4 as [Hq4 Hd4]. exists (w3{{ usb := u4 }}).
  split; [|split; [exact Hd4|]].
  - rewrite (bind_ok _ _ _ 0 (w3{{ usb := u4 }})); [reflexivity|].
    change (w3{{ usb := u4 }}) with ((w3{{ usb := u3 }}){{ usb := u4 }}). apply zoom_usb.
    unfold Android_StartAccessoryMode. by rewrite (bind_ok _ _ _ _ _ Hr4).
  - simpl. eapply quiet_trans; [exact Hq1|]. eapply quiet_trans; [exact Hq2|].
    eapply quiet_trans; [exact Hq3|exact Hq4].
Qed.

(** The configuration descriptor is read in two requests: its header, then all of it. *)
Lemma config_read u a h hd cfg d1 d2 :
  control_pipe u a h -> length (stack u) = 512%nat -> length hd = 9%nat ->
  (2 <= length cfg <= 512)%nat ->
  le16 (byte hd 2) (byte hd 3) = Z.of_nat (length cfg) -> byte cfg 1 = DTYPE_Configuration ->
  HcdControlTransfer h (config_request 9) [] (dev u) = (0, hd, d1) ->
  HcdControlTransfer h (config_request (Z.of_nat (length cfg))) [] d1 = (0, cfg, d2) ->
  exists u', USB_Host_GetDeviceConfigDescriptor 0 1 CONFIG_BUFFER u =
      Ok ((HOST_GETCONFIG_Successful, Z.of_nat (length cfg), cfg), u') /\
    quiet u u' /\ dev u' = d2.
Proof.
  intros Hcp Hst Hh Hl Hsz Ht H1 H2.
  destruct (control_in_ok u a h (config_request 9) hd d1 Hcp eq_refl) as (u1 & Hr1 & Hq1);
    [done|by rewrite Hh|done|].
  pose proof Hq1 as (_ & Hs1 & Hd1 & Hreq & _). pose proof (control_pipe_requested _ _ _ _ _ _ Hcp Hq1) as Hcp1.
  unfold USB_Host_GetDeviceConfigDescriptor. rewrite (bind_ok _ _ _ _ _ Hr1). cbn [fst snd].
  change (negb (HOST_SENDCONTROL_Successful =? HOST_SENDCONTROL_Successful)) with false. cbv iota.
  get_byte 2%nat. get_byte 3%nat. cbv zeta. rewrite Hsz. unfold CONFIG_BUFFER.
  replace (512 <? Z.of_nat (length cfg)) with false by lia.
  erewrite bind_ok; [|reflexivity]. rewrite Hreq.
  change ((config_request 9){{ wLength := Z.of_nat (length cfg) }})
    with (config_request (Z.of_nat (length cfg))).
  set (u1' := u1{{ USB_ControlRequest := config_request (Z.of_nat (length cfg)) }}).
  destruct (send_request_in u1' a h (config_request (Z.of_nat (length cfg))) cfg d2)
    as (u2 & Hr2 & Hq2); try done; [unfold PIPE_MAX_SIZE; simpl; lia|subst u1'; simpl; by rewrite Hd1|].
  rewrite (bind_ok _ _ _ _ _ Hr2). cbn [fst snd].
  change (negb (HOST_SENDCONTROL_Successful =? HOST_SENDCONTROL_Successful)) with false. cbv iota.
  erewrite bind_ok; [|reflexivity].
  erewrite bind_ok; [|apply (aget_byte _ 1); rewrite length_app; lia].
  assert (byte (cfg ++ drop (length cfg) (stack u2)) 1 = byte cfg 1) as ->.
  { unfold byte. apply app_nth1. lia. }
  rewrite Ht. exists u2. split; [reflexivity|].
  apply requested_quiet in Hq1 as [Hq1 _]. apply requested_quiet in Hq2 as [Hq2 ?].
  split; [|done]. eapply quiet_trans; [exact Hq1|exact Hq2].
Qed.

(** A pipe is opened and gets the first block that holds 512 bytes. *)
Lemma configure_run u row n q st spd ty tok ep sz hdl d bl a bl' :
  (ty =? EP_TYPE_BULK) || (ty =? EP_TYPE_CONTROL) = true -> PipeInfo u = [row] -> row !! n = Some q -> USB_HostState u = [st] -> hostportspeed u = [spd] ->
  HcdOpenPipe (if (ty =? EP_TYPE_CONTROL) && (st <? HOST_STATE_Default_PostAddressSet) then 0
    else USB_HOST_DEVICEADDRESS) spd ep ty tok sz (dev u) = (Some hdl, d) ->
  rep (upool u) bl -> alloc_spec 512 bl = Some (a, bl') ->
  exists pl, Pipe_ConfigurePipe 0 (Z.of_nat n) ty tok ep sz u =
      Ok (true, u{{ dev := d; upool := pl;
        PipeInfo := [<[n := mk_pipe hdl (Some a) 512 0 0 ep]> row] }}) /\
    rep pl bl'.
Proof.
  intros Hty Hi Hn Hst Hsp Ho Hrep Ha. pose proof (lookup_lt_Some _ _ _ Hn) as Hlt.
  pose proof (alloc_run 512 (upool u) bl Hrep ltac:(done) ltac:(done)) as Hal.
  change (align4 512) with 512 in Hal. rewrite Ha in Hal. destruct Hal as (pl & Hal & Hrep').
  exists pl. split; [|exact Hrep']. unfold Pipe_ConfigurePipe.
  erewrite bind_ok; [|unfold host_state; erewrite bind_ok; [|reflexivity]; rewrite Hst; by apply aget_ok].
  erewrite bind_ok; [|reflexivity]. rewrite Hsp. erewrite bind_ok; [|by apply aget_ok].
  rewrite Hty. cbv iota zeta.
  erewrite bind_ok; [|by apply hcd_run]. cbv beta iota zeta. unfold PIPE_MAX_SIZE.
  erewrite bind_ok; [|eapply set_pipe_at_run; [exact Hi|exact Hn]]. cbv beta.
  set (q1 := q{{ PipeHandle := _; ByteTransfered := _; StartIdx := _; BufferSize := _ }}).
  erewrite bind_ok; [|unfold zoom; simpl; rewrite Hal; reflexivity].
  erewrite bind_ok.
  2:{ apply (set_pipe_at_run _ (<[n := q1]> row) n q1); [reflexivity|].
      by apply list_lookup_insert_eq. }
  unfold mret, M_ret. rewrite list_insert_insert_eq. destruct u, q. reflexivity.
Qed.

(** The address and packet size of an endpoint descriptor, and the pipe it gets. *)
Definition ep_addr (l : list Z) : Z := byte l 2.
Definition ep_size (l : list Z) : Z := le16 (byte l 4) (byte l 5).
Definition bulk_pipe (hdl a : Z) (l : list Z) : USB_Pipe_Data_t :=
  mk_pipe hdl (Some a) 512 0 0 (ep_addr l).

Lemma endpoint_pipe_run u row n q st spd tok l hdl d bl a bl' :
  (8 <= length l)%nat ->
  PipeInfo u = [row] -> row !! n = Some q -> USB_HostState u = [st] -> hostportspeed u = [spd] ->
  HcdOpenPipe USB_HOST_DEVICEADDRESS spd (ep_addr l) EP_TYPE_BULK tok (ep_size l) (dev u) = (Some hdl, d) ->
  rep (upool u) bl -> alloc_spec 512 bl = Some (a, bl') ->
  exists pl, endpoint_pipe 0 (Z.of_nat n) tok l u =
      Ok (tt, u{{ dev := d; upool := pl; PipeInfo := [<[n := bulk_pipe hdl a l]> row] }}) /\
    rep pl bl'.
Proof.
  intros Hl Hi Hn Hst Hsp Ho Hrep Ha.
  destruct (configure_run u row n q st spd EP_TYPE_BULK tok _ _ hdl d bl a bl' eq_refl Hi Hn Hst Hsp Ho Hrep Ha) as (pl & Hr & ?).
  exists pl. split; [|done]. unfold endpoint_pipe. get_byte 2%nat. get_byte 4%nat. get_byte 5%nat.
  by rewrite (bind_ok _ _ _ _ _ Hr).
Qed.

Lemma set_pair {A} (row : list A) n1 n2 x y :
  n1 <> n2 -> (n1 < length row)%nat -> (n2 < length row)%nat ->
  <[n2 := y]> (<[n1 := x]> row) !! n1 = Some x /\ <[n2 := y]> (<[n1 := x]> row) !! n2 = Some y.
Proof.
  intros Hn H1 H2. rewrite list_lookup_insert_ne by done.
  split; apply list_lookup_insert_eq; [done|by rewrite length_insert].
Qed.

(** Both endpoints get their pipes, with the buffers behind the control pipe's. *)
Lemma both_pipes u row st spd li lo hi ho d1 d2 :
  (8 <= length li)%nat -> (8 <= length lo)%nat ->
  PipeInfo u = [row] -> length row = PIPE_TOTAL_PIPES -> USB_HostState u = [st] ->
  hostportspeed u = [spd] -> rep (upool u) [(512, false); (1528, true)] ->
  HcdOpenPipe USB_HOST_DEVICEADDRESS spd (ep_addr li) EP_TYPE_BULK PIPE_TOKEN_IN (ep_size li) (dev u) = (Some hi, d1) ->
  HcdOpenPipe USB_HOST_DEVICEADDRESS spd (ep_addr lo) EP_TYPE_BULK PIPE_TOKEN_OUT (ep_size lo) d1 = (Some ho, d2) ->
  exists pl row', (endpoint_pipe 0 ANDROID_DATA_IN_PIPE PIPE_TOKEN_IN li ;;
      endpoint_pipe 0 ANDROID_DATA_OUT_PIPE PIPE_TOKEN_OUT lo ;; mret SuccessfulConfigRead) u =
      Ok (SuccessfulConfigRead, u{{ dev := d2; upool := pl; PipeInfo := [row'] }}) /\
    length row' = PIPE_TOTAL_PIPES /\ row' !! 0%nat = row !! 0%nat /\
    row' !! 1%nat = Some (bulk_pipe hi 520 li) /\ row' !! 2%nat = Some (bulk_pipe ho 1036 lo).
Proof.
  intros Hli Hlo Hi Hl Hst Hsp Hrep Ho1 Ho2. unfold PIPE_TOTAL_PIPES in *.
  destruct (lookup_lt_is_Some_2 row 1) as [q1 Hq1]; [lia|].
  destruct (lookup_lt_is_Some_2 row 2) as [q2 Hq2]; [lia|].
  destruct (endpoint_pipe_run u row 1 q1 st spd PIPE_TOKEN_IN li hi d1 _ 520
    [(512, false); (512, false); (1012, true)] Hli Hi Hq1 Hst Hsp Ho1 Hrep eq_refl) as (pl1 & Hr1 & Hrep1).
  set (u1 := u{{ dev := d1; upool := pl1; PipeInfo := _ }}) in *.
  destruct (endpoint_pipe_run u1 (<[1%nat := bulk_pipe hi 520 li]> row) 2 q2 st spd PIPE_TOKEN_OUT lo ho d2
    [(512, false); (512, false); (1012, true)] 1036
    [(512, false); (512, false); (512, false); (496, true)] Hlo eq_refl) as (pl2 & Hr2 & _);
    [by rewrite list_lookup_insert_ne|exact Hst|exact Hsp|exact Ho2|exact Hrep1|reflexivity|].
  exists pl2, (<[2%nat := bulk_pipe ho 1036 lo]> (<[1%nat := bulk_pipe hi 520 li]> row)).
  split; [|split; [by rewrite !length_insert|split]].
  - change ANDROID_DATA_IN_PIPE with (Z.of_nat 1). change ANDROID_DATA_OUT_PIPE with (Z.of_nat 2).
    rewrite (bind_ok _ _ _ _ _ Hr1), (bind_ok _ _ _ _ _ Hr2). reflexivity.
  - by rewrite !list_lookup_insert_ne.
  - apply set_pair; lia.
Qed.

(** The configuration with these descriptors has an accessory interface at [j] with the
    endpoints [i] and [o]. *)
Definition offers (ds : list (list Z)) (rest : list Z) (j i o : nat) : Prop :=
  find_iface ds rest 0 (length ds) = Some j /\
  scan ds rest j (length ds - j) None None = Some (i, o).

(** The two searches give what [offers] says. *)
Lemma searches {W} ds rest j i o (w : W) :
  Forall desc_ok ds -> (8 <= length rest)%nat -> (length ds < search_fuel - 1)%nat ->
  offers ds rest j i o ->
  USB_GetNextDescriptorComp (concat ds ++ rest) search_fuel (Z.of_nat (length (concat ds)), 0)
    DCOMP_NextAndroidAccessoryInterface w = Ok ((DESCRIPTOR_SEARCH_COMP_Found, place ds j), w) /\
  find_endpoints search_fuel (concat ds ++ rest) (place ds j) w =
    Ok (Some (off ds i, off ds o), w).
Proof.
  intros Hds Hrest Hn [Hj Hs]. unfold search_fuel in *. change (514 - 1)%nat with 513%nat in Hn.
  destruct (find_iface_run ds rest Hds Hrest (length ds) 0 514 w) as (c & pos & Hr & Hm); [lia|lia|].
  rewrite Hj in Hm. destruct Hm as (-> & -> & Hjl). split.
  - rewrite <- Hr. do 2 f_equal. unfold place, off. by rewrite Z.sub_0_r.
  - pose proof (find_endpoints_run ds rest Hds Hrest 514 514 (length ds - j) j None None w) as Hf.
    rewrite Hs in Hf. apply Hf; lia.
Qed.

Lemma concat_count ds : Forall desc_ok ds -> (2 * length ds <= length (concat ds))%nat.
Proof.
  induction 1 as [|d ds [Hd _] _ IH]; [done|]. simpl. rewrite length_app. lia.
Qed.

(** The host goes to the configured state when the device takes the configuration. *)
Lemma set_config_run u a h d :
  control_pipe u a h -> length (USB_HostState u) = 1%nat ->
  HcdControlTransfer h set_config_request [] (dev u) = (0, [], d) ->
  exists u', USB_Host_SetDeviceConfiguration 0 1 u = Ok (HOST_SENDCONTROL_Successful, u') /\
    USB_HostState u' = [HOST_STATE_Configured] /\ dev u' = d /\ PipeInfo u' = PipeInfo u /\
    control_pipe u' a h.
Proof.
  intros Hcp Hl Hc.
  destruct (control_out_ok u a h set_config_request [] d Hcp eq_refl) as (u1 & Hr & Hq); [done..|].
  pose proof (control_pipe_requested _ _ _ _ _ _ Hcp Hq) as Hcp'.
  apply requested_quiet in Hq as [Hq Hd]. destruct Hq as (Hpi & _ & _ & _ & Hho & _).
  exists (u1{{ USB_Host_ConfigurationNumber := 1; USB_HostState := [HOST_STATE_Configured] }}).
  split; [|done]. unfold USB_Host_SetDeviceConfiguration. rewrite (bind_ok _ _ _ _ _ Hr).
  rewrite (bind_ok _ _ _ tt (u1{{ USB_Host_ConfigurationNumber := 1;
    USB_HostState := [HOST_STATE_Configured] }})); [reflexivity|].
  cbn [fst when]. change (HOST_SENDCONTROL_Successful =? HOST_SENDCONTROL_Successful) with true.
  change (1 =? 0) with false. cbn [when]. erewrite bind_ok; [|reflexivity].
  unfold set_host_state. erewrite bind_ok; [|reflexivity]. simpl USB_HostState.
  destruct (USB_HostState u) as [|st [|]]; [done| |done]. rewrite Hho.
  erewrite bind_ok; [|by apply aset_ok]. reflexivity.
Qed.

(** The configuration is read and both pipes are set up. *)
Lemma process_config u h spd hd ds j i o hi ho d2 d3 d4 d5 :
  let rest := drop (length (concat ds)) (stack u) in
  let di := concat (drop i ds) ++ rest in
  let dou := concat (drop o ds) ++ rest in
  control_pipe u 4 h -> rep (upool u) [(512, false); (1528, true)] ->
  length (USB_HostState u) = 1%nat -> hostportspeed u = [spd] ->
  length (stack u) = 512%nat ->
  HcdControlTransfer h (config_request 9) [] (dev u) = (0, hd, d2) -> length hd = 9%nat ->
  le16 (byte hd 2) (byte hd 3) = Z.of_nat (length (concat ds)) ->
  HcdControlTransfer h (config_request (Z.of_nat (length (concat ds)))) [] d2 = (0, concat ds, d3) ->
  Forall desc_ok ds -> (2 <= length (concat ds) <= 504)%nat ->
  byte (concat ds) 1 = DTYPE_Configuration -> offers ds rest j i o ->
  HcdOpenPipe USB_HOST_DEVICEADDRESS spd (ep_addr di) EP_TYPE_BULK PIPE_TOKEN_IN (ep_size di) d3 = (Some hi, d4) ->
  HcdOpenPipe USB_HOST_DEVICEADDRESS spd (ep_addr dou) EP_TYPE_BULK PIPE_TOKEN_OUT (ep_size dou) d4 = (Some ho, d5) ->
  exists u' row, ProcessConfigurationDescriptor 0 u = Ok (SuccessfulConfigRead, u') /\
    control_pipe u' 4 h /\ dev u' = d5 /\ length (USB_HostState u') = 1%nat /\
    PipeInfo u' = [row] /\ row !! 1%nat = Some (bulk_pipe hi 520 di) /\
    row !! 2%nat = Some (bulk_pipe ho 1036 dou).
Proof.
  intros rest di dou Hcp Hrep Hst Hsp Hstk Hc1 Hhd Hsz Hc2 Hds Hlen Hty Hof Ho1 Ho2.
  assert (8 <= length rest)%nat as Hrest by (subst rest; rewrite length_drop; lia).
  destruct (config_read u 4 h hd (concat ds) d2 d3 Hcp) as (u2 & Hr2 & Hq2 & Hd2); try done; [lia|].
  destruct (searches ds rest j i o u2 Hds Hrest) as [Hsi Hse];
    [pose proof (concat_count ds Hds); unfold search_fuel; lia|exact Hof|].
  pose proof (control_pipe_quiet _ _ _ _ Hcp Hq2) as (row & e & Hi2 & Hp2 & Hl2 & Hs2 & Ha2 & Hr2').
  destruct Hq2 as (_ & _ & _ & Hpool2 & Hhost2 & _ & Hsp2).
  destruct (USB_HostState u) as [|st [|]]; [done| |done].
  destruct (both_pipes u2 row st spd di dou hi ho d4 d5) as (pl & row' & Hrp & Hl' & H0' & H1' & H2');
    try done; [unfold di; rewrite length_app; lia|unfold dou; rewrite length_app; lia
              |by rewrite Hsp2|by rewrite Hpool2|by rewrite Hd2|].
  exists (u2{{ dev := d5; upool := pl; PipeInfo := [row'] }}), row'.
  split; [|split; [exists row', e; simpl; by rewrite H0'|simpl; by rewrite Hhost2]].
  unfold ProcessConfigurationDescriptor. erewrite bind_ok; [|reflexivity].
  rewrite (bind_ok _ _ _ _ _ Hr2). cbv beta iota.
  change (HOST_GETCONFIG_Successful =? HOST_GETCONFIG_InvalidData) with false.
  change (HOST_GETCONFIG_Successful =? HOST_GETCONFIG_BuffOverflow) with false.
  change (negb (HOST_GETCONFIG_Successful =? HOST_GETCONFIG_Successful)) with false. cbv iota zeta.
  unfold config_data. fold rest. rewrite (bind_ok _ _ _ _ _ Hsi). cbv beta iota.
  rewrite (bind_ok _ _ _ _ _ Hse). cbv beta iota. rewrite !at_place. exact Hrp.
Qed.

(** A configuration the host can use: with an accessory interface at descriptor [j] and
    its endpoints at [i] and [o], and short enough to be searched within its buffer. *)
Definition config_ok (ds : list (list Z)) (rest : list Z) (j i o : nat) : Prop :=
  Forall desc_ok ds /\ (2 <= length (concat ds) <= 504)%nat /\
  byte (concat ds) 1 = DTYPE_Configuration /\ offers ds rest j i o.

(** The device is an accessory with the configuration [ds]: what it answers to the
    requests of the host, one after the other, and the pipes that are opened to it. *)
Definition accessory (h spd : Z) (ds : list (list Z)) (di dou : list Z) (hi ho : Z) (d d' : D) : Prop :=
  exists l hd d1 d2 d3 d4 d5,
    HcdControlTransfer h device_request [] d = (0, l, d1) /\ length l = 18%nat /\
    device_verdict l = AccessoryModeAndroidDevice /\
    HcdControlTransfer h (config_request 9) [] d1 = (0, hd, d2) /\ length hd = 9%nat /\
    le16 (byte hd 2) (byte hd 3) = Z.of_nat (length (concat ds)) /\
    HcdControlTransfer h (config_request (Z.of_nat (length (concat ds)))) [] d2 = (0, concat ds, d3) /\
    HcdOpenPipe USB_HOST_DEVICEADDRESS spd (ep_addr di) EP_TYPE_BULK PIPE_TOKEN_IN (ep_size di) d3 =
      (Some hi, d4) /\
    HcdOpenPipe USB_HOST_DEVICEADDRESS spd (ep_addr dou) EP_TYPE_BULK PIPE_TOKEN_OUT (ep_size dou) d4 =
      (Some ho, d5) /\
    HcdControlTransfer h set_config_request [] d5 = (0, [], d').

(** The event for a device that has been enumerated takes an accessory into use. *)
Lemma accessory_run w h spd ds j i o hi ho d' :
  let u := usb w in
  let rest := drop (length (concat ds)) (stack u) in
  let di := concat (drop i ds) ++ rest in
  let dou := concat (drop o ds) ++ rest in
  control_pipe u 4 h -> rep (upool u) [(512, false); (1528, true)] ->
  length (USB_HostState u) = 1%nat -> hostportspeed u = [spd] -> length (stack u) = 512%nat ->
  config_ok ds rest j i o -> accessory h spd ds di dou hi ho (dev u) d' ->
  exists w' row, EVENT_USB_Host_DeviceEnumerationComplete 0 w = Ok (tt, w') /\
    USB_HostState (usb w') = [HOST_STATE_Configured] /\ dev (usb w') = d' /\
    control_pipe (usb w') 4 h /\
    PipeInfo (usb w') = [row] /\ row !! 1%nat = Some (bulk_pipe hi 520 di) /\
    row !! 2%nat = Some (bulk_pipe ho 1036 dou).
Proof.
  intros u rest di dou Hcp Hrep Hst Hsp Hstk (Hds & Hlen & Hty & Hof)
    (l & hd & d1 & d2 & d3 & d4 & d5 & Hdev & Hl & Hv & Hc1 & Hhd & Hsz & Hc2 & Ho1 & Ho2 & Hset).
  unfold EVENT_USB_Host_DeviceEnumerationComplete.
  rewrite (bind_ok _ _ _ _ _ (say_run _ w)). set (w1 := w{{ console := _ }}).
  destruct (device_run (usb w1) 4 h l d1 Hcp Hl Hdev) as (u1 & Hr1 & Hq1).
  rewrite (bind_ok _ _ _ _ _ (zoom_usb _ w1 _ _ Hr1)), Hv.
  rewrite (bind_ok _ _ _ _ _ (say_run _ _)). apply requested_quiet in Hq1 as [Hq1 Hd1].
  set (w2 := (w1{{ usb := u1 }}){{ console := _ }}). unfold setup_accessory.
  rewrite (bind_ok _ _ _ _ _ (say_run _ w2)). set (w3 := w2{{ console := _ }}).
  pose proof (control_pipe_quiet _ _ _ _ Hcp Hq1) as Hcp1.
  destruct Hq1 as (_ & _ & _ & Hpool1 & Hhost1 & Hstk1 & Hsp1).
  pose proof (process_config u1 h spd hd ds j i o hi ho d2 d3 d4 d5) as Hpc. cbv zeta in Hpc.
  rewrite Hstk1, Hpool1, Hhost1, Hsp1, Hd1 in Hpc.
  destruct Hpc as (u3 & row & Hpc & Hcp3 & Hd3 & Hho3 & Hpi3 & Hrow); try assumption.
  rewrite (bind_ok _ _ _ _ _ (zoom_usb _ w3 _ _ Hpc)). cbv beta iota.
  rewrite <- Hd3 in Hset.
  destruct (set_config_run u3 4 h d' Hcp3 Hho3 Hset) as (u4 & Hr4 & Hs4 & Hd4 & Hpi4 & Hcp4).
  set (w4 := w3{{ usb := u3 }}). rewrite (bind_ok _ _ _ _ _ (zoom_usb _ w4 _ _ Hr4)).
  change (negb (HOST_SENDCONTROL_Successful =? HOST_SENDCONTROL_Successful)) with false. cbv iota.
  eexists _, row. split; [apply say_run|]. simpl. rewrite Hpi4. done.
Qed.

(** ** Sending *)

(** The pipe to the device, set up and empty. *)
Definition out_pipe (u : uworld D) (row : list USB_Pipe_Data_t) (hdl a e : Z) : Prop :=
  PipeInfo u = [row] /\ row !! 2%nat = Some (mk_pipe hdl (Some a) PIPE_MAX_SIZE 0 0 e) /\
  Z.land e PIPE_EPDIR_MASK = 0 /\ length (pipeselected u) = 1%nat /\
  0 <= a /\ a + PIPE_MAX_SIZE <= Z.of_nat (length (ram u)).

Lemma out_allowed u row hdl a e d :
  out_pipe u row hdl a e -> pipeselected u = [2] ->
  HcdGetPipeStatus hdl (dev u) = (HCD_STATUS_OK, None, d) ->
  Pipe_IsReadWriteAllowed 0 u = Ok (true, u{{ dev := d }}).
Proof.
  intros (Hi & Hp & He & _) Hs Hst. unfold Pipe_IsReadWriteAllowed, Pipe_GetPipeToken, Pipe_IsOUTReady.
  pose proof (cur_pipe_run u row 2 _ Hs Hi Hp) as Hcur.
  erewrite bind_ok; [|erewrite bind_ok; [|exact Hcur]; reflexivity].
  cbn [EndponitAddress]. rewrite He. cbn [Z.eqb PIPE_TOKEN_OUT PIPE_TOKEN_IN Pos.eqb].
  rewrite (bind_ok _ _ _ HCD_STATUS_OK (u{{ dev := d }})).
  2:{ unfold pipe_status. erewrite bind_ok; [|exact Hcur]. erewrite bind_ok; [|by apply hcd_run]. reflexivity. }
  erewrite bind_ok; [|eapply (cur_pipe_run _ row 2); [exact Hs|exact Hi|exact Hp]]. reflexivity.
Qed.

(** The bytes in the pipe go to the device, and the pipe is empty. *)
Lemma clear_out_run u row q l a :
  pipeselected u = [2] -> PipeInfo u = [row] -> row !! 2%nat = Some q -> Buffer q = Some a ->
  0 <= a -> ByteTransfered q = Z.of_nat (length l) -> (0 < length l)%nat ->
  (Z.to_nat a + length l <= length (ram u))%nat ->
  take (length l) (drop (Z.to_nat a) (ram u)) = l ->
  exists u', Pipe_ClearOUT 0 u = Ok (tt, u') /\ dev u' = HcdDataOut (PipeHandle q) l (dev u) /\
    PipeInfo u' = [<[2%nat := q{{ StartIdx := 0; ByteTransfered := 0 }}]> row].
Proof.
  intros Hs Hi Hq Hb Ha Hn Hl Hr Hbytes. unfold Pipe_ClearOUT.
  erewrite bind_ok; [|by apply (cur_pipe_run u row 2 q)].
  rewrite (bind_ok _ _ _ l u).
  2:{ unfold buf_bytes. rewrite Hb, Hn. replace (Z.of_nat (length l) <=? 0) with false by lia.
      erewrite bind_ok; [|reflexivity].
      replace (a + Z.of_nat (length l) <=? Z.of_nat (length (ram u))) with true by lia.
      cbn [guard]. rewrite (bind_ok _ _ _ tt u) by reflexivity. rewrite Nat2Z.id, Hbytes. reflexivity. }
  erewrite bind_ok; [|by apply hcd_run].
  eexists. split; [by apply (set_cur_run _ row 2 q)|]. done.
Qed.

(** A command to a configured device arrives as one packet, the command's byte and
    its data, and leaves the pipe empty for the next. *)
Theorem command_sent u row hdl a e cmd data d :
  out_pipe u row hdl a e -> USB_HostState u = [HOST_STATE_Configured] ->
  HcdGetPipeStatus hdl (dev u) = (HCD_STATUS_OK, None, d) ->
  Z.of_nat (length data) < PIPE_MAX_SIZE ->
  exists u', sendCommand 0 cmd data u = Ok (tt, u') /\
    dev u' = HcdDataOut hdl (cmd :: data) d /\ PipeInfo u' = PipeInfo u.
Proof.
  intros Ho Hst Hstat Hl. pose proof Ho as (Hi & Hp & He & Hsl & Ha & Hr). unfold PIPE_MAX_SIZE in *.
  set (q := mk_pipe hdl (Some a) 512 0 0 e) in *.
  set (u1 := u{{ pipeselected := [2] }}). set (u2 := u1{{ dev := d }}).
  set (q' := q{{ ByteTransfered := 0 + Z.of_nat (length (cmd :: data)) }}).
  set (u3 := u2{{ ram := blit (ram u) (Z.to_nat (a + 0)) (cmd :: data);
                  PipeInfo := [<[2%nat := q']> row] }}).
  assert (Pipe_Write_Stream_LE 0 (cmd :: data) u2 = Ok (tt, u3)) as Hw.
  { apply (write_stream_run (cmd :: data) u2 row 2 q a 0); try done; simpl; lia. }
  pose proof (lookup_lt_Some _ _ _ Hp) as Hlt.
  destruct (clear_out_run u3 (<[2%nat := q']> row) q' (cmd :: data) a) as (u4 & Hc & Hd & Hpi);
    try done; [by apply list_lookup_insert_eq|simpl; lia| | |].
  { simpl ram. rewrite length_blit; [simpl; lia|]. rewrite Z.add_0_r. simpl. lia. }
  { simpl ram. rewrite Z.add_0_r. apply take_drop_blit. simpl. lia. }
  exists u4. split; [|split; [exact Hd|]].
  - unfold sendCommand, host_state. erewrite bind_ok.
    2:{ erewrite bind_ok; [|reflexivity]. rewrite Hst. by apply aget_ok. }
    change (negb (HOST_STATE_Configured =? HOST_STATE_Configured)) with false. cbv iota.
    erewrite bind_ok; [|by apply (select_run u 2)].
    erewrite bind_ok; [|by eapply out_allowed]. cbn [when].
    unfold Pipe_Write_Stream_LE in Hw. cbn [foreach] in Hw. unfold Pipe_Write_Stream_LE.
    destruct (Pipe_Write_8 0 cmd u2) as [[[] v]|] eqn:E.
    + rewrite (bind_ok _ _ _ _ _ E) in Hw. rewrite (bind_ok _ _ _ _ _ E), (bind_ok _ _ _ _ _ Hw).
      exact Hc.
    + unfold mbind, M_bind in Hw. by rewrite E in Hw.
  - rewrite Hpi, list_insert_insert_eq, Hi. f_equal. by apply list_insert_id.
Qed.
End Events.

(** ** The phone of [UsbFacts] *)

Definition start (m : bool) : aworld Phone.phone :=
  mk_aworld (Phone.world m 0 device_request) 1 0 0 0 [].

Lemma pool0_rep : rep Phone.pool0 [(512, false); (1528, true)].
Proof.
  split; [done|]. split; [repeat constructor; simpl; lia|]. split; [vm_compute; discriminate|].
  split; [reflexivity|]. split; [reflexivity|exact I].
Qed.

Lemma mode_switched_witness :
  exists w', EVENT_USB_Host_DeviceEnumerationComplete 0 (start false) = Ok (tt, w') /\
    dev (usb w') = Phone.mk_phone true 0
      ([[]; []] ++ ((fun x => c_string (snd x)) <$> aoa_strings) ++ [[]]) /\
    quiet (usb (start false)) (usb w').
Proof.
  eapply (mode_switched (start false) 4 7 (Phone.device false) 2 0);
    [apply Phone.world_pipe|reflexivity|reflexivity|reflexivity|reflexivity|vm_compute; split; discriminate|].
  repeat (eexists; split; [reflexivity|]). reflexivity.
Defined.

(** The phone in accessory mode. *)
Lemma phone_config : config_ok Phone.config (repeat 0xA5 480) 1 2 3.
Proof.
  split; [repeat constructor; simpl; lia|]. split; [simpl; lia|]. split; [reflexivity|].
  split; reflexivity.
Qed.

(** The phone after its enumeration. *)
Definition running : uworld Phone.phone :=
  (Phone.world true 0 device_request){{ USB_HostState := [HOST_STATE_Configured];
    PipeInfo := [[mk_pipe 7 (Some 4) PIPE_MAX_SIZE 0 0 0;
      mk_pipe 0x81 (Some 520) 512 0 0 0x81; mk_pipe 0x02 (Some 1036) 512 0 0 0x02]
      ++ repeat Phone.nopipe 5] }}.

Lemma command_sent_witness :
  exists u', sendCommand 0 CMD_NODE_VALUE [3; 1; 0; 42] running = Ok (tt, u') /\
    dev u' = Phone.mk_phone true 0 [[CMD_NODE_VALUE; 3; 1; 0; 42]] /\
    PipeInfo u' = PipeInfo running.
Proof.
  change (Phone.mk_phone true 0 [[CMD_NODE_VALUE; 3; 1; 0; 42]])
    with (HcdDataOut 0x02 [CMD_NODE_VALUE; 3; 1; 0; 42] (Phone.mk_phone true 0 [])).
  apply (command_sent running (concat (PipeInfo running)) 0x02 1036 0x02 CMD_NODE_VALUE [3; 1; 0; 42]
    (Phone.mk_phone true 0 []));
    [|reflexivity|reflexivity|vm_compute; reflexivity].
  split; [reflexivity|]. do 3 (split; [reflexivity|]). split; vm_compute; discriminate.
Defined.
