(* ===== verification/HostTask.v ===== *)
(** * USB host: the task that enumerates a device

    nxpUSBlib/Drivers/USB/Core: LPC/Host_LPC.c (the state machine and the handlers of
    the controller's interrupt), USBTask.c and the host part of LPC/USBController_LPC.c,
    with the error events of demo_aoa_can/src/AndroidAccessoryHost.c. *)

From S2P Require Import Prelude UsbMem Usb AoaHost.

Definition HOST_DEVICE_SETTLE_DELAY_MS : Z := 1000.
Definition PIPE_CONTROLPIPE_DEFAULT_SIZE : Z := 8.
Definition ENDPOINT_CONTROLEP : Z := 0.
Definition HOST_ENUMERROR_NoError : Z := 0.
Definition HOST_ENUMERROR_WaitStage : Z := 1.
Definition HOST_ENUMERROR_ControlError : Z := 3.
Definition HOST_ENUMERROR_PipeConfigError : Z := 4.
Definition HOST_WAITERROR_Successful : Z := 0.
Definition USB_PORT_SELECTED : Z := 0.

Section Host.
Context {D : Type} `{Hcd D}.

Definition USB_Host_WaitMS (MS : Z) : Z := HOST_WAITERROR_Successful.

(** [HOST_TASK_NONBLOCK_WAIT]. *)
Definition nonblock_wait (corenum Duration NextState : Z) : M (uworld D) unit :=
  set_host_state corenum HOST_STATE_WaitForDevice ;;
  modify (fun u : uworld D => u{{ WaitMSRemaining := Duration; PostWaitState := NextState }}).

Definition USB_Host_SetDeviceSpeed (hostid speed : Z) : M (uworld D) unit :=
  l ← gets hostportspeed;
  l' ← aset l hostid speed;
  modify (fun u : uworld D => u{{ hostportspeed := l' }}).

Definition set_control_size (corenum n : Z) : M (uworld D) unit :=
  l ← gets USB_Host_ControlPipeSize;
  l' ← aset l corenum n;
  modify (fun u : uworld D => u{{ USB_Host_ControlPipeSize := l' }}).
Definition get_control_size (corenum : Z) : M (uworld D) Z :=
  l ← gets USB_Host_ControlPipeSize; aget l corenum.

Definition control_config (corenum size : Z) : M (uworld D) bool :=
  Pipe_ConfigurePipe corenum PIPE_CONTROLPIPE EP_TYPE_CONTROL PIPE_TOKEN_SETUP
    ENDPOINT_CONTROLEP size.

(** What a state does: whether the enumeration is complete, or the codes of an error. *)
Inductive turn : Type := Going | Complete | Error (ErrorCode SubErrorCode : Z).

Definition wait_for_device (corenum : Z) : M (uworld D) turn :=
  n ← gets WaitMSRemaining;
  if n =? 0 then mret Going else
  let SubErrorCode := USB_Host_WaitMS 1 in
  if negb (SubErrorCode =? HOST_WAITERROR_Successful) then
    post ← gets PostWaitState;
    set_host_state corenum post ;;
    mret (Error HOST_ENUMERROR_WaitStage SubErrorCode)
  else
    modify (fun u : uworld D => u{{ WaitMSRemaining := u16 (n - 1) }}) ;;
    when (u16 (n - 1) =? 0)
      (post ← gets PostWaitState; set_host_state corenum post) ;;
    mret Going.

(** [Delay_MS] only takes time; the functions that switch the bus voltage are empty. *)
Definition settle (corenum : Z) : M (uworld D) turn :=
  n ← gets WaitMSRemaining;
  modify (fun u : uworld D => u{{ WaitMSRemaining := u16 (n - 1) }}) ;;
  when (n =? 0) (set_host_state corenum HOST_STATE_Powered_WaitForConnect) ;;
  mret Going.

Definition do_reset (corenum : Z) : M (uworld D) turn :=
  hcd (fun d => (tt, HcdRhPortReset d)) ;;
  speed ← hcd HcdGetDeviceSpeed;
  USB_Host_SetDeviceSpeed corenum speed ;;
  nonblock_wait corenum 200 HOST_STATE_Powered_ConfigPipe ;;
  mret Going.

Definition config_pipe (corenum : Z) : M (uworld D) turn :=
  ok ← control_config corenum PIPE_CONTROLPIPE_DEFAULT_SIZE;
  if negb ok then mret (Error HOST_ENUMERROR_PipeConfigError 0)
  else set_host_state corenum HOST_STATE_Default ;; mret Going.

(** The size of the control endpoint is the eighth byte of the descriptor. *)
Definition read_control_size (corenum : Z) : M (uworld D) turn :=
  set_request (mk_req std_in REQ_GetDescriptor (Z.shiftl DTYPE_Device 8) 0 8) ;;
  r ← USB_Host_SendControlRequest corenum [];
  if negb (fst r =? HOST_SENDCONTROL_Successful) then
    mret (Error HOST_ENUMERROR_ControlError (fst r))
  else
    n ← aget (snd r) 7;
    set_control_size corenum n ;;
    Pipe_ClosePipe corenum PIPE_CONTROLPIPE ;;
    hcd (fun d => (tt, HcdRhPortReset d)) ;;
    nonblock_wait corenum 200 HOST_STATE_Default_PostReset ;;
    mret Going.

Definition set_address (corenum : Z) : M (uworld D) turn :=
  n ← get_control_size corenum;
  ok ← control_config corenum n;
  if negb ok then mret (Error HOST_ENUMERROR_PipeConfigError 0)
  else
    set_request (mk_req std_out REQ_SetAddress USB_HOST_DEVICEADDRESS 0 0) ;;
    r ← USB_Host_SendControlRequest corenum [];
    if negb (fst r =? HOST_SENDCONTROL_Successful) then
      mret (Error HOST_ENUMERROR_ControlError (fst r))
    else
      Pipe_ClosePipe corenum PIPE_CONTROLPIPE ;;
      nonblock_wait corenum 100 HOST_STATE_Default_PostAddressSet ;;
      mret Going.

(** The pipe is opened for the new address; whether that succeeds is not looked at. *)
Definition address_set (corenum : Z) : M (uworld D) turn :=
  n ← get_control_size corenum;
  _ ← control_config corenum n;
  set_host_state corenum HOST_STATE_Addressed ;;
  mret Complete.

Definition host_turn (corenum : Z) : M (uworld D) turn :=
  st ← host_state corenum;
  if st =? HOST_STATE_WaitForDevice then wait_for_device corenum
  else if st =? HOST_STATE_Powered then
    modify (fun u : uworld D => u{{ WaitMSRemaining := HOST_DEVICE_SETTLE_DELAY_MS }}) ;;
    set_host_state corenum HOST_STATE_Powered_WaitForDeviceSettle ;;
    mret Going
  else if st =? HOST_STATE_Powered_WaitForDeviceSettle then settle corenum
  else if st =? HOST_STATE_Powered_WaitForConnect then
    nonblock_wait corenum 100 HOST_STATE_Powered_DoReset ;; mret Going
  else if st =? HOST_STATE_Powered_DoReset then do_reset corenum
  else if st =? HOST_STATE_Powered_ConfigPipe then config_pipe corenum
  else if st =? HOST_STATE_Default then read_control_size corenum
  else if st =? HOST_STATE_Default_PostReset then set_address corenum
  else if st =? HOST_STATE_Default_PostAddressSet then address_set corenum
  else mret Going.

(** The controller is started again; interrupts are enabled when it runs. *)
Definition USB_Init_Host (corenum : Z) : M (uworld D) unit :=
  Pipe_SelectPipe corenum PIPE_CONTROLPIPE ;;
  ok ← hcd HcdInitDriver;
  modify (fun u : uworld D => u{{ USB_IsInitialized := ok }}) ;;
  when (negb ok) (hcd (fun d => (tt, HcdDeInitDriver d))) ;;
  set_host_state corenum HOST_STATE_Unattached ;;
  set_control_size corenum PIPE_CONTROLPIPE_DEFAULT_SIZE.

Definition EVENT_USB_Host_DeviceEnumerationFailed (corenum ErrorCode SubErrorCode : Z)
    : M (aworld D) unit := say "Dev Enum Error".

(** In host mode. *)
Definition USB_Disable : M (uworld D) unit :=
  modify (fun u : uworld D => u{{ USB_IsInitialized := false }}) ;;
  hcd (fun d => (tt, HcdDeInitDriver d)).

(** The handler ends in an endless loop. *)
Definition EVENT_USB_Host_HostError (corenum ErrorCode : Z) : M (aworld D) unit :=
  zoom USB_Disable ;;
  say "Host Mode Error" ;;
  fail OutOfFuel.

(** [USB_ResetInterface] is [USB_Init_Host] in host mode. *)
Definition USB_Host_ProcessNextHostState (corenum : Z) : M (aworld D) unit :=
  r ← zoom (host_turn corenum);
  match r with
  | Going => mret tt
  | Complete => EVENT_USB_Host_DeviceEnumerationComplete corenum
  | Error ErrorCode SubErrorCode =>
      st ← zoom (host_state corenum);
      when (negb (ErrorCode =? HOST_ENUMERROR_NoError) && negb (st =? HOST_STATE_Unattached))
        (EVENT_USB_Host_DeviceEnumerationFailed corenum ErrorCode SubErrorCode ;;
         EVENT_USB_Host_DeviceUnattached corenum ;;
         zoom (USB_Init_Host corenum))
  end.

Definition USB_HostTask : M (aworld D) unit :=
  let i := USB_PORT_SELECTED in
  PrevPipe ← zoom (selected i);
  zoom (Pipe_SelectPipe i PIPE_CONTROLPIPE) ;;
  USB_Host_ProcessNextHostState i ;;
  zoom (Pipe_SelectPipe i PrevPipe).

(** The handlers of the controller's interrupt for a device that comes or goes. *)
Definition USB_Host_Enumerate (HostId : Z) : M (aworld D) unit :=
  EVENT_USB_Host_DeviceAttached HostId ;;
  zoom (set_host_state HostId HOST_STATE_Powered).

Definition USB_Host_DeEnumerate (HostId : Z) : M (aworld D) unit :=
  zoom (Pipe_ClosePipe HostId PIPE_CONTROLPIPE ;;
        foreach (Z.of_nat <$> seq 1 (PIPE_TOTAL_PIPES - 1)) (fun i =>
          p ← pipe_at HostId i;
          when (negb (PipeHandle p =? 0)) (Pipe_ClosePipe HostId i))) ;;
  EVENT_USB_Host_DeviceUnattached HostId ;;
  zoom (set_host_state HostId HOST_STATE_Unattached).
End Host.
