(* ===== verification/HostTaskFacts.v ===== *)
(** * USB host: from the attachment of a device to its use

    The task of the host leads a device that answers from its attachment to the
    configured state in a fixed number of turns, and the pool of the pipes is back to
    one block whenever the control pipe is closed on the way. *)

From stdpp Require Import gmap.
From S2P Require Import Prelude UsbMem UsbMemFacts Usb UsbFacts AoaHost AoaFacts HostTask.

Section Host.
Context {D : Type} `{Hcd D}.
Implicit Types (u : uworld D) (w : aworld D).

(** ** Turns *)

Lemma host_state_run u st : USB_HostState u = [st] -> host_state 0 u = Ok (st, u).
Proof.
  intros Hs. unfold host_state. erewrite bind_ok; [|reflexivity]. rewrite Hs. by apply aget_ok.
Qed.

Lemma set_host_state_run u st v :
  USB_HostState u = [st] -> set_host_state 0 v u = Ok (tt, u{{ USB_HostState := [v] }}).
Proof.
  intros Hs. unfold set_host_state. erewrite bind_ok; [|reflexivity]. rewrite Hs.
  erewrite bind_ok; [|by apply aset_ok]. reflexivity.
Qed.

Lemma nonblock_run u st n post :
  USB_HostState u = [st] ->
  nonblock_wait 0 n post u =
  Ok (tt, u{{ USB_HostState := [HOST_STATE_WaitForDevice]; WaitMSRemaining := n; PostWaitState := post }}).
Proof.
  intros Hs. unfold nonblock_wait. rewrite (bind_ok _ _ _ _ _ (set_host_state_run u st _ Hs)).
  reflexivity.
Qed.

(** The branch of the state. *)
Ltac in_state Hs :=
  unfold host_turn; rewrite (bind_ok _ _ _ _ _ (host_state_run _ _ Hs));
  repeat match goal with
  | |- context [if ?a =? ?b then _ else _] =>
      let v := eval vm_compute in (a =? b) in change (a =? b) with v; cbv iota
  end.

(** [n] turns of the task. *)
Fixpoint tasks (n : nat) : M (aworld D) unit :=
  match n with O => mret tt | S n' => USB_HostTask ;; tasks n' end.

Lemma tasks_app n m w w' : tasks n w = Ok (tt, w') -> tasks (n + m) w = tasks m w'.
Proof.
  revert w. induction n as [|n IH]; intros w; cbn [tasks Nat.add].
  - intros Hn. unfold mret, M_ret in Hn. injection Hn as <-. reflexivity.
  - intros Hn. destruct (USB_HostTask w) as [[[] w1]|] eqn:E.
    + rewrite (bind_ok _ _ _ _ _ E) in Hn. rewrite (bind_ok _ _ _ _ _ E). exact (IH w1 Hn).
    + unfold mbind, M_bind in Hn. by rewrite E in Hn.
Qed.

(** The world of the library during a turn: the control pipe is selected. *)
Definition sel w : uworld D := (usb w){{ pipeselected := [0] }}.

(** A turn that leaves the pipes selected as it finds them. *)
Lemma task_going w ps u' :
  pipeselected (usb w) = [ps] ->
  host_turn 0 (sel w) = Ok (Going, u') -> pipeselected u' = [0] ->
  USB_HostTask w = Ok (tt, w{{ usb := u'{{ pipeselected := [ps] }} }}).
Proof.
  intros Hps Ht Hu'. unfold USB_HostTask. unfold USB_PORT_SELECTED.
  rewrite (bind_ok _ _ _ ps w).
  2:{ rewrite (zoom_usb (selected 0) w ps (usb w)); [by destruct w|]. by apply selected_run. }
  assert (length (pipeselected (usb w)) = 1%nat) as Hl by by rewrite Hps.
  rewrite (bind_ok _ _ _ _ _ (zoom_usb _ w _ _ (select_run (usb w) 0 Hl))).
  set (w1 := w{{ usb := (usb w){{ pipeselected := [0] }} }}).
  unfold USB_Host_ProcessNextHostState.
  rewrite (bind_ok _ _ _ tt (w1{{ usb := u' }})).
  - change (w{{ usb := u'{{ pipeselected := [ps] }} }})
      with ((w1{{ usb := u' }}){{ usb := u'{{ pipeselected := [ps] }} }}).
    apply zoom_usb. apply select_run. simpl. by rewrite Hu'.
  - rewrite (bind_ok _ _ _ _ _ (zoom_usb _ w1 _ _ Ht)). reflexivity.
Qed.

(** ** Waiting *)

Lemma wait_last u post :
  USB_HostState u = [HOST_STATE_WaitForDevice] -> WaitMSRemaining u = 1 -> PostWaitState u = post ->
  host_turn 0 u = Ok (Going, u{{ WaitMSRemaining := 0; USB_HostState := [post] }}).
Proof.
  intros Hs Hn Hp. in_state Hs. unfold wait_for_device. erewrite bind_ok; [|reflexivity].
  rewrite Hn. change (negb (USB_Host_WaitMS 1 =? HOST_WAITERROR_Successful)) with false.
  change (1 =? 0) with false. cbv iota zeta. erewrite bind_ok; [|reflexivity].
  change (u16 (1 - 1)) with 0. change (0 =? 0) with true. cbn [when].
  rewrite (bind_ok _ _ _ tt (u{{ WaitMSRemaining := 0; USB_HostState := [post] }})); [reflexivity|].
  erewrite bind_ok; [|reflexivity]. simpl PostWaitState. rewrite Hp.
  by apply (set_host_state_run (u{{ WaitMSRemaining := 0 }}) HOST_STATE_WaitForDevice).
Qed.

Lemma wait_more u n :
  USB_HostState u = [HOST_STATE_WaitForDevice] -> WaitMSRemaining u = n -> 1 < n < 65536 ->
  host_turn 0 u = Ok (Going, u{{ WaitMSRemaining := n - 1 }}).
Proof.
  intros Hs Hn Hb. in_state Hs. unfold wait_for_device. erewrite bind_ok; [|reflexivity].
  rewrite Hn. change (negb (USB_Host_WaitMS 1 =? HOST_WAITERROR_Successful)) with false.
  replace (n =? 0) with false by lia. cbv iota zeta. erewrite bind_ok; [|reflexivity].
  unfold u16. rewrite Z.mod_small by lia. replace (n - 1 =? 0) with false by lia. reflexivity.
Qed.

(** A wait takes as many turns as its number says. *)
Lemma wait_run n w ps post :
  pipeselected (usb w) = [ps] -> USB_HostState (usb w) = [HOST_STATE_WaitForDevice] ->
  WaitMSRemaining (usb w) = Z.of_nat (S n) -> Z.of_nat (S n) < 65536 -> PostWaitState (usb w) = post ->
  tasks (S n) w = Ok (tt, w{{ usb := (usb w){{ WaitMSRemaining := 0; USB_HostState := [post] }} }}).
Proof.
  revert w. induction n as [|n IH]; intros w Hps Hs Hn Hb Hp; cbn [tasks].
  - rewrite (bind_ok _ _ _ _ _ (task_going w ps _ Hps (wait_last (sel w) post Hs Hn Hp) ltac:(reflexivity))).
    destruct w as [u ? ? ? ? ?], u. simpl in *. subst. reflexivity.
  - rewrite (bind_ok _ _ _ _ _ (task_going w ps _ Hps (wait_more (sel w) _ Hs Hn ltac:(lia)) ltac:(reflexivity))).
    cbn [tasks] in IH. rewrite IH; [|reflexivity|exact Hs|simpl; lia|lia|exact Hp].
    destruct w as [u ? ? ? ? ?], u. simpl in *. subst. reflexivity.
Qed.

Lemma settle_more u n :
  USB_HostState u = [HOST_STATE_Powered_WaitForDeviceSettle] -> WaitMSRemaining u = n -> 0 < n < 65536 ->
  host_turn 0 u = Ok (Going, u{{ WaitMSRemaining := n - 1 }}).
Proof.
  intros Hs Hn Hb. in_state Hs. unfold settle. erewrite bind_ok; [|reflexivity].
  erewrite bind_ok; [|reflexivity]. rewrite Hn. replace (n =? 0) with false by lia.
  unfold u16. rewrite Z.mod_small by lia. reflexivity.
Qed.

Lemma settle_last u :
  USB_HostState u = [HOST_STATE_Powered_WaitForDeviceSettle] -> WaitMSRemaining u = 0 ->
  host_turn 0 u = Ok (Going, u{{ WaitMSRemaining := 65535; USB_HostState := [HOST_STATE_Powered_WaitForConnect] }}).
Proof.
  intros Hs Hn. in_state Hs. unfold settle. erewrite bind_ok; [|reflexivity].
  erewrite bind_ok; [|reflexivity]. rewrite Hn. change (0 =? 0) with true. cbn [when].
  erewrite bind_ok; [reflexivity|]. change (u16 (0 - 1)) with 65535.
  by apply (set_host_state_run (u{{ WaitMSRemaining := 65535 }}) HOST_STATE_Powered_WaitForDeviceSettle).
Qed.

Lemma settle_run n w ps :
  pipeselected (usb w) = [ps] -> USB_HostState (usb w) = [HOST_STATE_Powered_WaitForDeviceSettle] ->
  WaitMSRemaining (usb w) = Z.of_nat n -> Z.of_nat n < 65536 ->
  tasks (S n) w = Ok (tt, w{{ usb := (usb w){{ WaitMSRemaining := 65535;
    USB_HostState := [HOST_STATE_Powered_WaitForConnect] }} }}).
Proof.
  revert w. induction n as [|n IH]; intros w Hps Hs Hn Hb; cbn [tasks].
  - rewrite (bind_ok _ _ _ _ _ (task_going w ps _ Hps (settle_last (sel w) Hs Hn) ltac:(reflexivity))).
    destruct w as [u ? ? ? ? ?], u. simpl in *. subst. reflexivity.
  - rewrite (bind_ok _ _ _ _ _ (task_going w ps _ Hps (settle_more (sel w) _ Hs Hn ltac:(lia)) ltac:(reflexivity))).
    cbn [tasks] in IH. rewrite IH; [|reflexivity|exact Hs|simpl; lia|lia].
    destruct w as [u ? ? ? ? ?], u. simpl in *. subst. reflexivity.
Qed.

(** ** Stages

    What holds of the library between two turns: the state of the host, the speed and
    the size of the control endpoint it knows, the device, and whether the control pipe
    is open (then it holds the first block of the pool) or no pipe is. *)

Definition no_pipe u : Prop :=
  rep (upool u) [(2044, true)] /\
  exists row, PipeInfo u = [row] /\ length row = PIPE_TOTAL_PIPES.

Definition open_pipe u (h : Z) : Prop :=
  rep (upool u) [(512, false); (1528, true)] /\
  exists row, PipeInfo u = [row] /\ length row = PIPE_TOTAL_PIPES /\
    row !! 0%nat = Some (mk_pipe h (Some 4) PIPE_MAX_SIZE 0 0 ENDPOINT_CONTROLEP).

Record at_stage (st spd sz : Z) (d : D) (sk : list Z) (pipe : option Z) u : Prop := mk_stage {
  s_state : USB_HostState u = [st];
  s_speed : hostportspeed u = [spd];
  s_size : USB_Host_ControlPipeSize u = [sz];
  s_dev : dev u = d;
  s_stack : stack u = sk;
  s_ram : 516 <= Z.of_nat (length (ram u));
  s_pipes : match pipe with None => no_pipe u | Some h => open_pipe u h end
}.

(** The stage with pipe [ps] selected. *)
Definition host_in (ps st spd sz : Z) (d : D) (sk : list Z) (pipe : option Z) w : Prop :=
  pipeselected (usb w) = [ps] /\ at_stage st spd sz d sk pipe (usb w).

Definition waiting (n post : Z) w : Prop :=
  WaitMSRemaining (usb w) = n /\ PostWaitState (usb w) = post.

(** [n] turns lead from [P] to [Q]. *)
Definition leads (n : nat) (P Q : aworld D -> Prop) : Prop :=
  forall w, P w -> exists w', tasks n w = Ok (tt, w') /\ Q w'.

Lemma leads_trans n m P Q R : leads n P Q -> leads m Q R -> leads (n + m) P R.
Proof.
  intros H1 H2 w Hw. destruct (H1 w Hw) as (w1 & Hr1 & Hw1).
  destruct (H2 w1 Hw1) as (w2 & Hr2 & Hw2). exists w2. split; [|exact Hw2].
  by rewrite (tasks_app _ _ _ _ Hr1).
Qed.

Lemma open_control u h :
  open_pipe u h -> length (pipeselected u) = 1%nat -> 516 <= Z.of_nat (length (ram u)) ->
  control_pipe u 4 h.
Proof.
  intros (_ & row & Hi & Hl & Hp) Hs Hr. exists row, ENDPOINT_CONTROLEP.
  unfold PIPE_MAX_SIZE in *. do 4 (split; [done|]). lia.
Qed.

(** A turn that goes on, as a turn of the task. *)
Lemma turn_leads ps st spd sz d sk pipe st' spd' sz' d' pipe' (E : Z -> Z -> Prop) (F : Z -> Z -> Prop) :
  (forall u, pipeselected u = [0] -> at_stage st spd sz d sk pipe u ->
     E (WaitMSRemaining u) (PostWaitState u) ->
     exists u', host_turn 0 u = Ok (Going, u') /\ pipeselected u' = [0] /\
       at_stage st' spd' sz' d' sk pipe' u' /\ F (WaitMSRemaining u') (PostWaitState u')) ->
  leads 1
    (fun w => host_in ps st spd sz d sk pipe w /\ E (WaitMSRemaining (usb w)) (PostWaitState (usb w)))
    (fun w => host_in ps st' spd' sz' d' sk pipe' w /\ F (WaitMSRemaining (usb w)) (PostWaitState (usb w))).
Proof.
  intros Hturn w [[Hps Hw] HE]. destruct (Hturn (sel w)) as (u' & Hr & Hs & Hu & HF).
  - reflexivity.
  - destruct Hw. by constructor.
  - exact HE.
  - eexists. cbn [tasks].
    split; [rewrite (bind_ok _ _ _ _ _ (task_going w ps u' Hps Hr Hs)); reflexivity|].
    split; [|exact HF]. split; [reflexivity|]. destruct Hu. by constructor.
Qed.

Lemma wait_leads n ps spd sz d sk pipe post :
  0 < n < 65536 ->
  leads (Z.to_nat n)
    (fun w => host_in ps HOST_STATE_WaitForDevice spd sz d sk pipe w /\ waiting n post w)
    (host_in ps post spd sz d sk pipe).
Proof.
  intros Hn w [[Hps Hw] [Hr Hp]]. destruct (Z.to_nat n) as [|k] eqn:Ek; [lia|].
  eexists. split; [apply (wait_run k w ps post Hps (s_state _ _ _ _ _ _ _ Hw)); [lia|lia|exact Hp]|].
  split; [exact Hps|]. destruct Hw. by constructor.
Qed.

(** ** The control pipe *)

Lemma control_open u st spd sz d sk sz' h d' :
  at_stage st spd sz d sk None u ->
  HcdOpenPipe (if st <? HOST_STATE_Default_PostAddressSet then 0 else USB_HOST_DEVICEADDRESS)
    spd ENDPOINT_CONTROLEP EP_TYPE_CONTROL PIPE_TOKEN_SETUP sz' d = (Some h, d') ->
  exists u', control_config 0 sz' u = Ok (true, u') /\ pipeselected u' = pipeselected u /\
    at_stage st spd sz d' sk (Some h) u'.
Proof.
  intros [Hst Hsp Hsz <- Hsk Hr (Hrep & row & Hi & Hl)] Ho. unfold PIPE_TOTAL_PIPES in *.
  destruct (lookup_lt_is_Some_2 row 0) as [q Hq]; [lia|].
  destruct (configure_run u row 0 q st spd EP_TYPE_CONTROL PIPE_TOKEN_SETUP ENDPOINT_CONTROLEP sz' h d'
    [(2044, true)] 4 [(512, false); (1528, true)] eq_refl Hi Hq Hst Hsp Ho Hrep eq_refl) as (pl & Hrun & Hrep').
  eexists. split; [exact Hrun|]. split; [reflexivity|]. constructor; try done.
  split; [exact Hrep'|]. eexists. split; [reflexivity|]. split; [by rewrite length_insert|].
  apply list_lookup_insert_eq. lia.
Qed.

Lemma control_close u st spd sz d sk h :
  at_stage st spd sz d sk (Some h) u ->
  exists u', Pipe_ClosePipe 0 PIPE_CONTROLPIPE u = Ok (tt, u') /\ pipeselected u' = pipeselected u /\
    at_stage st spd sz (HcdClosePipe h d) sk None u'.
Proof.
  intros [Hst Hsp Hsz <- Hsk Hr (Hrep & row & Hi & Hl & Hp)].
  destruct (free_run (upool u) [] 512 [(1528, true)]) as (pl & Hfree & Hrep'); [exact Hrep|done|].
  unfold Pipe_ClosePipe. change (PIPE_CONTROLPIPE <? Z.of_nat PIPE_TOTAL_PIPES) with true. cbn [when].
  change PIPE_CONTROLPIPE with (Z.of_nat 0).
  rewrite (bind_ok _ _ _ _ _ (pipe_at_run u row 0 _ Hi Hp)).
  erewrite bind_ok; [|reflexivity]. cbn [PipeHandle Buffer].
  rewrite (bind_ok _ _ _ tt (u{{ dev := HcdClosePipe h (dev u); upool := pl }})).
  2:{ etransitivity; [apply (zoom_ok (USB_Memory_Free (Some 4)) _ tt pl); exact Hfree|reflexivity]. }
  eexists. split; [eapply (set_pipe_at_run _ row 0); [exact Hi|exact Hp]|]. split; [reflexivity|].
  constructor; try done. split; [exact Hrep'|]. eexists. split; [reflexivity|].
  by rewrite length_insert.
Qed.

(** A request on the open control pipe, in either direction. *)
Lemma stage_request u st spd sz d sk h r out got d' :
  at_stage st spd sz d sk (Some h) u -> pipeselected u = [0] ->
  (is_dir r REQDIR_DEVICETOHOST = true /\ out = [] /\ wLength r = Z.of_nat (length got)) \/
  (is_dir r REQDIR_HOSTTODEVICE = true /\ got = [] /\ wLength r = Z.of_nat (length out)) ->
  wLength r <= PIPE_MAX_SIZE -> HcdControlTransfer h r out d = (0, got, d') ->
  exists u', (set_request r ;; USB_Host_SendControlRequest 0 out) u =
      Ok ((HOST_SENDCONTROL_Successful, got), u') /\
    pipeselected u' = [0] /\ at_stage st spd sz d' sk (Some h) u'.
Proof.
  intros Hw Hs Hdir Hlen Hc. destruct Hw as [Hst Hsp Hsz <- Hsk Hr Hop].
  assert (control_pipe (u{{ USB_ControlRequest := r }}) 4 h) as Hcp.
  { apply (open_control (u{{ USB_ControlRequest := r }})); [exact Hop|simpl; by rewrite Hs|exact Hr]. }
  assert (exists u', USB_Host_SendControlRequest 0 out (u{{ USB_ControlRequest := r }}) =
      Ok ((HOST_SENDCONTROL_Successful, got), u') /\ requested (u{{ USB_ControlRequest := r }}) u' r d')
    as (u' & Hrun & Hq).
  { destruct Hdir as [(Hd & -> & Hl)|(Hd & -> & Hl)].
    - eapply send_request_in; try done. unfold is_dir in *. change REQDIR_HOSTTODEVICE with 0.
      change REQDIR_DEVICETOHOST with 128 in Hd. lia.
    - eapply send_request_out; try done. unfold is_dir in *. change REQDIR_HOSTTODEVICE with 0 in Hd.
      change REQDIR_DEVICETOHOST with 128. lia. }
  exists u'. split; [by rewrite (bind_ok _ _ _ tt (u{{ USB_ControlRequest := r }}))|].
  destruct Hq as (Hpi & Hs' & Hd' & _ & Hlr & Hpool & Hho & Hsk' & _ & Hsp' & Hsz').
  split; [exact Hs'|]. simpl in *. constructor; try congruence. destruct Hop as (Hrep & row & Hop).
  split; [by rewrite Hpool|]. exists row. by rewrite Hpi.
Qed.

(** ** The stages of an enumeration *)

Definition anything (_ _ : Z) : Prop := True.
Definition wait_for (n post : Z) (n' post' : Z) : Prop := n' = n /\ post' = post.

(** A state that starts a wait. *)
Lemma stage_wait u st spd sz d sk pipe n post :
  at_stage st spd sz d sk pipe u ->
  exists u', nonblock_wait 0 n post u = Ok (tt, u') /\ pipeselected u' = pipeselected u /\
    at_stage HOST_STATE_WaitForDevice spd sz d sk pipe u' /\
    wait_for n post (WaitMSRemaining u') (PostWaitState u').
Proof.
  intros Hu. eexists. split; [apply (nonblock_run u st); apply Hu|]. split; [reflexivity|].
  split; [destruct Hu; by constructor|done].
Qed.

Section Steps.
Variables (ps : Z) (sk : list Z).

Lemma powered_leads spd sz d pipe :
  leads 1 (fun w => host_in ps HOST_STATE_Powered spd sz d sk pipe w /\
                    anything (WaitMSRemaining (usb w)) (PostWaitState (usb w)))
    (fun w => host_in ps HOST_STATE_Powered_WaitForDeviceSettle spd sz d sk pipe w /\
              WaitMSRemaining (usb w) = 1000).
Proof.
  apply (turn_leads _ _ _ _ _ _ _ _ _ _ _ _ anything (fun n _ => n = 1000)).
  intros u Hs Hu _. pose proof (s_state _ _ _ _ _ _ _ Hu) as Hst. in_state Hst.
  erewrite bind_ok; [|reflexivity].
  erewrite bind_ok; [|by apply (set_host_state_run _ HOST_STATE_Powered)].
  eexists. split; [reflexivity|]. split; [exact Hs|]. split; [|reflexivity].
  destruct Hu. by constructor.
Qed.

Lemma settle_leads spd sz d pipe :
  leads 1001 (fun w => host_in ps HOST_STATE_Powered_WaitForDeviceSettle spd sz d sk pipe w /\
                       WaitMSRemaining (usb w) = 1000)
    (host_in ps HOST_STATE_Powered_WaitForConnect spd sz d sk pipe).
Proof.
  intros w [[Hps Hw] Hn]. eexists.
  split; [apply (settle_run 1000 w ps Hps (s_state _ _ _ _ _ _ _ Hw)); [exact Hn|done]|].
  split; [exact Hps|]. destruct Hw. by constructor.
Qed.

(** A turn that ends in a wait, and the wait. *)
Lemma then_wait st spd sz d pipe spd' sz' d' pipe' n post :
  0 < n < 65536 ->
  (forall u, pipeselected u = [0] -> at_stage st spd sz d sk pipe u ->
     exists u', host_turn 0 u = Ok (Going, u') /\ pipeselected u' = [0] /\
       at_stage HOST_STATE_WaitForDevice spd' sz' d' sk pipe' u' /\
       wait_for n post (WaitMSRemaining u') (PostWaitState u')) ->
  leads (1 + Z.to_nat n) (host_in ps st spd sz d sk pipe) (host_in ps post spd' sz' d' sk pipe').
Proof.
  intros Hn Hturn. eapply leads_trans; [|by apply wait_leads]. intros w Hw.
  apply (turn_leads ps st spd sz d sk pipe _ spd' sz' d' pipe' anything (wait_for n post)).
  - intros u Hs Hu _. by apply Hturn.
  - split; [exact Hw|exact I].
Qed.

Lemma connect_leads spd sz d pipe :
  leads 101 (host_in ps HOST_STATE_Powered_WaitForConnect spd sz d sk pipe)
    (host_in ps HOST_STATE_Powered_DoReset spd sz d sk pipe).
Proof.
  apply (then_wait _ spd sz d pipe spd sz d pipe 100); [done|]. intros u Hs Hu.
  destruct (stage_wait u _ _ _ _ _ _ 100 HOST_STATE_Powered_DoReset Hu) as (u' & Hr & Hs' & Hu' & Hw).
  pose proof (s_state _ _ _ _ _ _ _ Hu) as Hst. in_state Hst.
  rewrite (bind_ok _ _ _ _ _ Hr). exists u'. rewrite Hs'. done.
Qed.

Lemma reset_leads spd0 sz d spd d' pipe :
  HcdGetDeviceSpeed (HcdRhPortReset d) = (spd, d') ->
  leads 201 (host_in ps HOST_STATE_Powered_DoReset spd0 sz d sk pipe)
    (host_in ps HOST_STATE_Powered_ConfigPipe spd sz d' sk pipe).
Proof.
  intros Hd. apply (then_wait _ _ _ _ _ spd sz d' pipe 200); [done|]. intros u Hs Hu.
  pose proof (s_state _ _ _ _ _ _ _ Hu) as Hst. in_state Hst. unfold do_reset.
  erewrite bind_ok; [|reflexivity].
  rewrite (bind_ok _ _ _ spd (u{{ dev := d' }})).
  2:{ unfold hcd. simpl. by rewrite (s_dev _ _ _ _ _ _ _ Hu), Hd. }
  set (u1 := u{{ dev := d'; hostportspeed := [spd] }}).
  rewrite (bind_ok _ _ _ tt u1).
  2:{ unfold USB_Host_SetDeviceSpeed. erewrite bind_ok; [|reflexivity].
      simpl hostportspeed. rewrite (s_speed _ _ _ _ _ _ _ Hu).
      erewrite bind_ok; [|by apply aset_ok]. reflexivity. }
  destruct (stage_wait u1 HOST_STATE_Powered_DoReset spd sz d' sk pipe 200 HOST_STATE_Powered_ConfigPipe) as (u' & Hr & Hs' & Hu' & Hw).
  { destruct Hu. by constructor. }
  rewrite (bind_ok _ _ _ _ _ Hr). exists u'. rewrite Hs'. done.
Qed.

Lemma config_leads spd sz d h d' :
  HcdOpenPipe 0 spd ENDPOINT_CONTROLEP EP_TYPE_CONTROL PIPE_TOKEN_SETUP PIPE_CONTROLPIPE_DEFAULT_SIZE d =
    (Some h, d') ->
  leads 1 (host_in ps HOST_STATE_Powered_ConfigPipe spd sz d sk None)
    (host_in ps HOST_STATE_Default spd sz d' sk (Some h)).
Proof.
  intros Ho w Hw.
  destruct (turn_leads ps HOST_STATE_Powered_ConfigPipe spd sz d sk None HOST_STATE_Default spd sz d' (Some h)
    anything anything) with (w := w) as (w' & Hr & Hw' & _); [|done|by exists w'].
  intros u Hs Hu _. destruct (control_open u _ _ _ _ _ PIPE_CONTROLPIPE_DEFAULT_SIZE h d' Hu Ho) as (u1 & Hr1 & Hs1 & Hu1).
  pose proof (s_state _ _ _ _ _ _ _ Hu) as Hst. in_state Hst. unfold config_pipe.
  rewrite (bind_ok _ _ _ _ _ Hr1). cbn [negb].
  erewrite bind_ok; [|apply (set_host_state_run u1 HOST_STATE_Powered_ConfigPipe); apply Hu1].
  eexists. split; [reflexivity|]. split; [simpl; by rewrite Hs1|]. split; [|done].
  destruct Hu1. by constructor.
Qed.

Definition size_request : USB_Request_Header_t :=
  mk_req std_in REQ_GetDescriptor (Z.shiftl DTYPE_Device 8) 0 8.
Definition address_request : USB_Request_Header_t :=
  mk_req std_out REQ_SetAddress USB_HOST_DEVICEADDRESS 0 0.

(** Reading the size of the control endpoint closes the pipe again. *)
Lemma read_leads spd sz d h l d1 :
  HcdControlTransfer h size_request [] d = (0, l, d1) -> length l = 8%nat ->
  leads 201 (host_in ps HOST_STATE_Default spd sz d sk (Some h))
    (host_in ps HOST_STATE_Default_PostReset spd (byte l 7) (HcdRhPortReset (HcdClosePipe h d1)) sk None).
Proof.
  intros Hc Hl. apply (then_wait _ _ _ _ _ spd (byte l 7) _ None 200); [done|]. intros u Hs Hu.
  destruct (stage_request u _ _ _ _ _ _ size_request [] l d1 Hu Hs) as (u1 & Hr1 & Hs1 & Hu1);
    [left; split; [done|split; [done|by rewrite Hl]]|done|exact Hc|].
  pose proof (s_state _ _ _ _ _ _ _ Hu) as Hst. in_state Hst. unfold read_control_size.
  fold size_request. rewrite (bind_bind_ok _ _ _ _ _ _ Hr1). cbn [fst snd].
  change (negb (HOST_SENDCONTROL_Successful =? HOST_SENDCONTROL_Successful)) with false. cbv iota.
  get_byte 7%nat. set (u2 := u1{{ USB_Host_ControlPipeSize := [byte l 7] }}).
  rewrite (bind_ok _ _ _ tt u2).
  2:{ unfold set_control_size. erewrite bind_ok; [|reflexivity]. rewrite (s_size _ _ _ _ _ _ _ Hu1).
      erewrite bind_ok; [|by apply aset_ok]. reflexivity. }
  destruct (control_close u2 HOST_STATE_Default spd (byte l 7) d1 sk h) as (u3 & Hr3 & Hs3 & Hu3).
  { destruct Hu1. by constructor. }
  rewrite (bind_ok _ _ _ _ _ Hr3). erewrite bind_ok; [|reflexivity].
  destruct (stage_wait (u3{{ dev := HcdRhPortReset (dev u3) }}) HOST_STATE_Default spd (byte l 7)
    (HcdRhPortReset (HcdClosePipe h d1)) sk None 200 HOST_STATE_Default_PostReset) as (u' & Hr & Hs' & Hu' & Hw).
  { destruct Hu3 as [? ? ? Hd3 ? ? ?]. constructor; try done. simpl. by rewrite Hd3. }
  rewrite (bind_ok _ _ _ _ _ Hr). exists u'. split; [reflexivity|].
  split; [rewrite Hs'; simpl; by rewrite Hs3|done].
Qed.

Lemma get_size_run u st spd sz d pipe :
  at_stage st spd sz d sk pipe u -> get_control_size 0 u = Ok (sz, u).
Proof.
  intros Hu. unfold get_control_size. erewrite bind_ok; [|reflexivity].
  rewrite (s_size _ _ _ _ _ _ _ Hu). by apply aget_ok.
Qed.

Lemma address_leads spd sz d h d1 d2 :
  HcdOpenPipe 0 spd ENDPOINT_CONTROLEP EP_TYPE_CONTROL PIPE_TOKEN_SETUP sz d = (Some h, d1) ->
  HcdControlTransfer h address_request [] d1 = (0, [], d2) ->
  leads 101 (host_in ps HOST_STATE_Default_PostReset spd sz d sk None)
    (host_in ps HOST_STATE_Default_PostAddressSet spd sz (HcdClosePipe h d2) sk None).
Proof.
  intros Ho Hc. apply (then_wait _ _ _ _ _ spd sz _ None 100); [done|]. intros u Hs Hu.
  destruct (control_open u _ _ _ _ _ sz h d1 Hu Ho) as (u1 & Hr1 & Hs1 & Hu1). rewrite Hs in Hs1.
  destruct (stage_request u1 _ _ _ _ _ _ address_request [] [] d2 Hu1 Hs1) as (u2 & Hr2 & Hs2 & Hu2);
    [by right|done|exact Hc|].
  destruct (control_close u2 _ _ _ _ _ h Hu2) as (u3 & Hr3 & Hs3 & Hu3).
  destruct (stage_wait u3 _ _ _ _ _ _ 100 HOST_STATE_Default_PostAddressSet Hu3) as (u' & Hr & Hs' & Hu' & Hw).
  pose proof (s_state _ _ _ _ _ _ _ Hu) as Hst. in_state Hst. unfold set_address.
  rewrite (bind_ok _ _ _ _ _ (get_size_run u _ _ _ _ _ Hu)), (bind_ok _ _ _ _ _ Hr1). cbn [negb].
  fold address_request. rewrite (bind_bind_ok _ _ _ _ _ _ Hr2). cbn [fst].
  change (negb (HOST_SENDCONTROL_Successful =? HOST_SENDCONTROL_Successful)) with false. cbv iota.
  rewrite (bind_ok _ _ _ _ _ Hr3), (bind_ok _ _ _ _ _ Hr). exists u'. split; [reflexivity|].
  by rewrite Hs', Hs3.
Qed.

(** The last turn: the pipe is open for the new address. *)
Lemma addressed_turn u spd sz d h d1 :
  pipeselected u = [0] -> at_stage HOST_STATE_Default_PostAddressSet spd sz d sk None u ->
  HcdOpenPipe USB_HOST_DEVICEADDRESS spd ENDPOINT_CONTROLEP EP_TYPE_CONTROL PIPE_TOKEN_SETUP sz d = (Some h, d1) ->
  exists u', host_turn 0 u = Ok (Complete, u') /\ pipeselected u' = [0] /\
    at_stage HOST_STATE_Addressed spd sz d1 sk (Some h) u'.
Proof.
  intros Hs Hu Ho.
  destruct (control_open u _ _ _ _ _ sz h d1 Hu Ho) as (u1 & Hr1 & Hs1 & Hu1).
  pose proof (s_state _ _ _ _ _ _ _ Hu) as Hst. in_state Hst. unfold address_set.
  rewrite (bind_ok _ _ _ _ _ (get_size_run u _ _ _ _ _ Hu)), (bind_ok _ _ _ _ _ Hr1).
  erewrite bind_ok; [|apply (set_host_state_run u1 HOST_STATE_Default_PostAddressSet); apply Hu1].
  eexists. split; [reflexivity|]. split; [simpl; by rewrite Hs1|]. destruct Hu1. by constructor.
Qed.
End Steps.

(** ** The whole enumeration *)

(** The device answers while it is enumerated: its speed, the size of its control
    endpoint, and its address; the control pipe is opened three times. *)
Definition answers (spd sz h : Z) (d d' : D) : Prop :=
  exists d1 h1 d2 l d3 h2 d4 d5,
    HcdGetDeviceSpeed (HcdRhPortReset d) = (spd, d1) /\
    HcdOpenPipe 0 spd ENDPOINT_CONTROLEP EP_TYPE_CONTROL PIPE_TOKEN_SETUP
      PIPE_CONTROLPIPE_DEFAULT_SIZE d1 = (Some h1, d2) /\
    HcdControlTransfer h1 size_request [] d2 = (0, l, d3) /\ length l = 8%nat /\ byte l 7 = sz /\
    HcdOpenPipe 0 spd ENDPOINT_CONTROLEP EP_TYPE_CONTROL PIPE_TOKEN_SETUP sz
      (HcdRhPortReset (HcdClosePipe h1 d3)) = (Some h2, d4) /\
    HcdControlTransfer h2 address_request [] d4 = (0, [], d5) /\
    HcdOpenPipe USB_HOST_DEVICEADDRESS spd ENDPOINT_CONTROLEP EP_TYPE_CONTROL PIPE_TOKEN_SETUP sz
      (HcdClosePipe h2 d5) = (Some h, d').

(** Up to the turn that completes the enumeration. *)
Lemma enumeration_leads ps sk spd0 sz0 spd sz h d0 d :
  answers spd sz h d0 d ->
  exists d7, leads 1607 (host_in ps HOST_STATE_Powered spd0 sz0 d0 sk None)
      (host_in ps HOST_STATE_Default_PostAddressSet spd sz d7 sk None) /\
    HcdOpenPipe USB_HOST_DEVICEADDRESS spd ENDPOINT_CONTROLEP EP_TYPE_CONTROL PIPE_TOKEN_SETUP sz d7 =
      (Some h, d).
Proof.
  intros (d1 & h1 & d2 & l & d3 & h2 & d4 & d5 & Hspd & Ho1 & Hc1 & Hl & <- & Ho2 & Hc2 & Ho3).
  eexists. split; [|exact Ho3].
  change 1607%nat with (1 + (1001 + (101 + (201 + (1 + (201 + 101))))))%nat.
  eapply leads_trans; [intros w Hw; apply powered_leads; split; [exact Hw|exact I]|].
  eapply leads_trans; [apply settle_leads|]. eapply leads_trans; [apply connect_leads|].
  eapply leads_trans; [by apply reset_leads|]. eapply leads_trans; [by apply config_leads|].
  eapply leads_trans; [by apply read_leads|]. by eapply address_leads.
Qed.

(** The turn that completes the enumeration runs the event. *)
Lemma complete_task w ps u' w1 :
  pipeselected (usb w) = [ps] -> host_turn 0 (sel w) = Ok (Complete, u') ->
  EVENT_USB_Host_DeviceEnumerationComplete 0 (w{{ usb := u' }}) = Ok (tt, w1) ->
  length (pipeselected (usb w1)) = 1%nat ->
  USB_HostTask w = Ok (tt, w1{{ usb := (usb w1){{ pipeselected := [ps] }} }}).
Proof.
  intros Hps Ht He Hl1. unfold USB_HostTask, USB_PORT_SELECTED.
  rewrite (bind_ok _ _ _ ps w).
  2:{ rewrite (zoom_usb (selected 0) w ps (usb w)); [by destruct w|]. by apply selected_run. }
  assert (length (pipeselected (usb w)) = 1%nat) as Hl by by rewrite Hps.
  rewrite (bind_ok _ _ _ _ _ (zoom_usb _ w _ _ (select_run (usb w) 0 Hl))). fold (sel w).
  set (w0 := w{{ usb := sel w }}). unfold USB_Host_ProcessNextHostState.
  rewrite (bind_ok _ _ _ tt w1); [by apply zoom_usb, select_run|].
  rewrite (bind_ok _ _ _ _ _ (zoom_usb _ w0 _ _ Ht)). exact He.
Qed.

(** C29: A device that is attached, answers, and is an accessory is in use after 1608 turns
    of the task of the host: its address is set, the control pipe was opened anew each
    time the pool was whole, its accessory interface and endpoints are found as the
    reference search finds them, its two pipes have buffers of their own behind the
    control pipe's, its configuration is set and the pipe the program had selected is
    selected again. *)
Theorem attached_accessory_configured w ps st spd0 sz0 d0 sk spd sz h d ds j i o hi ho d' :
  let rest := drop (length (concat ds)) sk in
  let di := concat (drop i ds) ++ rest in
  let dou := concat (drop o ds) ++ rest in
  host_in ps st spd0 sz0 d0 sk None w -> length sk = 512%nat ->
  answers spd sz h d0 d -> config_ok ds rest j i o -> accessory h spd ds di dou hi ho d d' ->
  exists w' row, (USB_Host_Enumerate 0 ;; tasks 1608) w = Ok (tt, w') /\
    USB_HostState (usb w') = [HOST_STATE_Configured] /\ pipeselected (usb w') = [ps] /\
    dev (usb w') = d' /\ PipeInfo (usb w') = [row] /\
    row !! 1%nat = Some (bulk_pipe hi 520 di) /\ row !! 2%nat = Some (bulk_pipe ho 1036 dou).
Proof.
  intros rest di dou [Hps Hw] Hsk Hans Hcfg Hacc.
  destruct (enumeration_leads ps sk spd0 sz0 _ _ _ _ _ Hans) as (d7 & Hleads & Ho).
  unfold USB_Host_Enumerate, EVENT_USB_Host_DeviceAttached.
  set (w0 := (w{{ console := console w ++ ["Device Attached"%string]; attachedCoreNum := 0;
    usb := (usb w){{ USB_HostState := [HOST_STATE_Powered] }} }})).
  rewrite (bind_ok _ _ _ tt w0).
  2:{ erewrite bind_ok; [|erewrite bind_ok; [reflexivity|apply say_run]].
      etransitivity; [apply zoom_usb, (set_host_state_run _ st); apply Hw|reflexivity]. }
  destruct (Hleads w0) as (w1 & Hr1 & Hps1 & Hw1).
  { split; [exact Hps|]. destruct Hw. by constructor. }
  destruct (addressed_turn sk (sel w1) spd sz d7 h d eq_refl) as (u2 & Hr2 & Hs2 & Hu2).
  { destruct Hw1. by constructor. }
  { exact Ho. }
  destruct Hu2 as [Hst2 Hsp2 _ Hd2 Hsk2 Hram2 Hop2]. set (w2 := w1{{ usb := u2 }}).
  assert (control_pipe (usb w2) 4 h) as Hcp2.
  { apply open_control; [exact Hop2|simpl; by rewrite Hs2|exact Hram2]. }
  pose proof (accessory_run w2 h spd ds j i o hi ho d') as Hrun. cbv zeta in Hrun.
  change (usb w2) with u2 in Hrun. rewrite Hsk2, Hd2 in Hrun.
  destruct Hrun as (w3 & row & Hr3 & Hst3 & Hd3 & Hcp3 & Hpi3 & Hrow1 & Hrow2);
    [exact Hcp2|apply Hop2|by rewrite Hst2|exact Hsp2|exact Hsk|exact Hcfg|exact Hacc|].
  pose proof Hcp3 as (_ & _ & _ & _ & _ & Hl3 & _).
  eexists _, row. split.
  - change 1608%nat with (1607 + 1)%nat. rewrite (tasks_app _ _ _ _ Hr1). cbn [tasks].
    rewrite (bind_ok _ _ _ _ _ (complete_task w1 ps u2 w3 Hps1 Hr2 Hr3 Hl3)). reflexivity.
  - done.
Qed.
End Host.

(** ** The phone of [UsbFacts], attached *)

Definition detached : aworld Phone.phone :=
  mk_aworld (mk_uworld (repeat 0 2048) (<[0 := mk_blk 2044 1 0]> ∅) [repeat Phone.nopipe 8] [2]
    [HOST_STATE_Unattached] size_request 0 [8] [0] 0 0 true (repeat 0xA5 512)
    (Phone.mk_phone true 0 [])) 0 0 0 0 [].

Lemma detached_in :
  host_in 2 HOST_STATE_Unattached 0 8 (Phone.mk_phone true 0 []) (repeat 0xA5 512) None detached.
Proof.
  split; [reflexivity|]. constructor; try reflexivity; [vm_compute; discriminate|]. split.
  - split; [done|]. split; [repeat constructor; simpl; lia|]. split; [vm_compute; discriminate|].
    split; [reflexivity|exact I].
  - exists (repeat Phone.nopipe 8). split; reflexivity.
Qed.

Lemma attached_accessory_configured_witness :
  exists w' row, (USB_Host_Enumerate 0 ;; tasks 1608) detached = Ok (tt, w') /\
    USB_HostState (usb w') = [HOST_STATE_Configured] /\ pipeselected (usb w') = [2] /\
    dev (usb w') = Phone.mk_phone true 0 [[]; []; []; []; []; []] /\
    PipeInfo (usb w') = [row] /\
    row !! 1%nat = Some (mk_pipe 0x81 (Some 520) 512 0 0 0x81) /\
    row !! 2%nat = Some (mk_pipe 0x02 (Some 1036) 512 0 0 0x02).
Proof.
  apply (attached_accessory_configured detached 2 HOST_STATE_Unattached 0 8
    (Phone.mk_phone true 0 []) (repeat 0xA5 512) 0 64 0 (Phone.mk_phone true 0 [[]; []]) Phone.config 1 2 3).
  - exact detached_in.
  - reflexivity.
  - do 8 eexists. repeat (split; [reflexivity|]). reflexivity.
  - exact phone_config.
  - do 7 eexists. repeat (split; [reflexivity|]). reflexivity.
Defined.
