(* ===== verification/I2c.v ===== *)
(** * The I2C masters

    Lib_MCU/src/lpc17xx_i2c.c: the functions that drive an I2C controller as a
    master, polling or by interrupt, and those that configure it.  The slave
    functions are in [I2cSlave].

    What is wired to the bus is behind the interface [Slave].  The controller
    itself, as the user manual describes it, is [bus_action]: what it does on the
    bus when its interrupt flag SI has been cleared, decided by STA, STO and the
    phase of the transfer.  Time is counted in turns of the driver's polling and
    delay loops: the action takes place once [lag] of them have gone by. *)

From S2P Require Import Prelude Clkpwr.

(** ** What is wired to the bus *)

Class Slave (D : Type) : Type := {
  sl_addr : Z -> D -> bool * D;      (* an address byte after a START; is it acknowledged? *)
  sl_write : Z -> D -> bool * D;     (* a data byte of the master; is it acknowledged? *)
  sl_read : bool -> D -> Z * D;      (* a byte for the master, which acknowledges it or not *)
  sl_stop : D -> D;                  (* a STOP *)
  sl_elapse : D -> D                 (* a turn of a loop goes by *)
}.

(** Where a transfer is: what the next byte on the bus is. *)
Inductive phase_t : Type :=
| Idle                               (* the bus is free *)
| Address                            (* after a START: the address *)
| Transmit                           (* a byte of the master *)
| Receive                            (* a byte of the slave *)
| Over.                              (* nothing but a START or a STOP *)

Inductive LPC_I2C : Type := LPC_I2C0 | LPC_I2C1 | LPC_I2C2.

(** ** Constants *)

Definition I2C_I2CONSET_AA : Z := 0x04.
Definition I2C_I2CONSET_SI : Z := 0x08.
Definition I2C_I2CONSET_STO : Z := 0x10.
Definition I2C_I2CONSET_STA : Z := 0x20.
Definition I2C_I2CONSET_I2EN : Z := 0x40.
Definition I2C_I2CONCLR_AAC : Z := Z.shiftl 1 2.
Definition I2C_I2CONCLR_SIC : Z := Z.shiftl 1 3.
Definition I2C_I2CONCLR_STAC : Z := Z.shiftl 1 5.
Definition I2C_I2CONCLR_I2ENC : Z := Z.shiftl 1 6.
Definition I2C_STAT_CODE_BITMASK : Z := 0xF8.
Definition I2C_I2STAT_NO_INF : Z := 0xF8.
Definition I2C_I2STAT_M_TX_START : Z := 0x08.
Definition I2C_I2STAT_M_TX_RESTART : Z := 0x10.
Definition I2C_I2STAT_M_TX_SLAW_ACK : Z := 0x18.
Definition I2C_I2STAT_M_TX_SLAW_NACK : Z := 0x20.
Definition I2C_I2STAT_M_TX_DAT_ACK : Z := 0x28.
Definition I2C_I2STAT_M_TX_DAT_NACK : Z := 0x30.
Definition I2C_I2STAT_M_TX_ARB_LOST : Z := 0x38.
Definition I2C_I2STAT_M_RX_START : Z := 0x08.
Definition I2C_I2STAT_M_RX_RESTART : Z := 0x10.
Definition I2C_I2STAT_M_RX_ARB_LOST : Z := 0x38.
Definition I2C_I2STAT_M_RX_SLAR_ACK : Z := 0x40.
Definition I2C_I2STAT_M_RX_SLAR_NACK : Z := 0x48.
Definition I2C_I2STAT_M_RX_DAT_ACK : Z := 0x50.
Definition I2C_I2STAT_M_RX_DAT_NACK : Z := 0x58.
Definition I2C_I2DAT_BITMASK : Z := 0xFF.
Definition I2C_I2MMCTRL_MM_ENA : Z := Z.shiftl 1 0.
Definition I2C_I2MMCTRL_BITMASK : Z := 0x07.
Definition I2C_I2ADR_BITMASK : Z := 0xFF.
Definition I2C_SETUP_STATUS_ARBF : Z := Z.shiftl 1 8.
Definition I2C_SETUP_STATUS_NOACKF : Z := Z.shiftl 1 9.
Definition I2C_SETUP_STATUS_DONE : Z := Z.shiftl 1 10.

(** ** The data of a transfer

    The buffers are the arrays behind the pointers, [None] for NULL; the
    callback is known by a number. *)

Record I2C_M_SETUP_Type : Type := mk_setup {
  sl_addr7bit : Z;
  tx_data : option (list Z);
  tx_length : Z;
  tx_count : Z;
  rx_data : option (list Z);
  rx_length : Z;
  rx_count : Z;
  retransmissions_max : Z;
  retransmissions_count : Z;
  status : Z;
  callback : option Z
}.
#[export] Instance eta_I2C_M_SETUP_Type : Settable I2C_M_SETUP_Type :=
  fun s => mk_setup (sl_addr7bit s) (tx_data s) (tx_length s) (tx_count s) (rx_data s)
    (rx_length s) (rx_count s) (retransmissions_max s) (retransmissions_count s) (status s)
    (callback s).

(** The driver's record of a transfer by interrupt.  [txrx_setup] is the address
    of the caller's structure, here the structure itself; [inthandler] is always
    [I2C_MasterHandler] here. *)
Record I2C_CFG_T : Type := mk_cfg { txrx_setup : option I2C_M_SETUP_Type; dir : Z }.
#[export] Instance eta_I2C_CFG_T : Settable I2C_CFG_T :=
  fun s => mk_cfg (txrx_setup s) (dir s).

Record I2C_OWNSLAVEADDR_CFG_Type : Type := mk_own {
  SlaveAddrChannel : Z;
  SlaveAddr_7bit : Z;
  GeneralCallState : bool;
  SlaveAddrMaskValue : Z
}.

Inductive I2C_TRANSFER_OPT_Type : Type := I2C_TRANSFER_POLLING | I2C_TRANSFER_INTERRUPT.

(** ** A controller and what is wired to it *)

Record i2c_ctl (D : Type) : Type := mk_i2c {
  I2CON : Z;                         (* read at I2CONSET *)
  I2STAT : Z; I2DAT : Z; I2SCLH : Z; I2SCLL : Z;
  I2ADR : list Z; I2MASK : list Z; MMCTRL : Z; I2DATA_BUFFER : Z;
  irq_enabled : bool;                (* in the NVIC *)
  phase : phase_t;
  waited : nat;                      (* turns since SI was cleared *)
  lag : nat;                         (* turns an action on the bus takes *)
  dev : D
}.
Arguments mk_i2c {D}.
Arguments I2CON {D}. Arguments I2STAT {D}. Arguments I2DAT {D}. Arguments I2SCLH {D}.
Arguments I2SCLL {D}. Arguments I2ADR {D}. Arguments I2MASK {D}. Arguments MMCTRL {D}.
Arguments I2DATA_BUFFER {D}. Arguments irq_enabled {D}. Arguments phase {D}.
Arguments waited {D}. Arguments lag {D}. Arguments dev {D}.
#[export] Instance eta_i2c_ctl D : Settable (i2c_ctl D) :=
  fun s => mk_i2c (I2CON s) (I2STAT s) (I2DAT s) (I2SCLH s) (I2SCLL s) (I2ADR s) (I2MASK s)
    (MMCTRL s) (I2DATA_BUFFER s) (irq_enabled s) (phase s) (waited s) (lag s) (dev s).

(** [i2ccalled] records the callbacks that were called. *)
Record i2c_st (D : Type) : Type := mk_i2cs {
  i2c0 : i2c_ctl D; i2c1 : i2c_ctl D; i2c2 : i2c_ctl D;
  i2cdat : list I2C_CFG_T;
  i2csc : sc_st;
  i2ccalled : list Z
}.
Arguments mk_i2cs {D}. Arguments i2c0 {D}. Arguments i2c1 {D}. Arguments i2c2 {D}.
Arguments i2cdat {D}. Arguments i2csc {D}. Arguments i2ccalled {D}.
#[export] Instance eta_i2c_st D : Settable (i2c_st D) :=
  fun s => mk_i2cs (i2c0 s) (i2c1 s) (i2c2 s) (i2cdat s) (i2csc s) (i2ccalled s).

#[export] Instance lens_i2csc D : Lens sc_st (i2c_st D) :=
  {| view := i2csc; put := fun a s => s{{ i2csc := a }} |}.

Definition ctl_of {D} (I2Cx : LPC_I2C) (s : i2c_st D) : i2c_ctl D :=
  match I2Cx with LPC_I2C0 => i2c0 s | LPC_I2C1 => i2c1 s | LPC_I2C2 => i2c2 s end.
Definition put_ctl {D} (I2Cx : LPC_I2C) (c : i2c_ctl D) (s : i2c_st D) : i2c_st D :=
  match I2Cx with
  | LPC_I2C0 => s{{ i2c0 := c }}
  | LPC_I2C1 => s{{ i2c1 := c }}
  | LPC_I2C2 => s{{ i2c2 := c }}
  end.

Definition i2c_reset {D} (n : nat) (d : D) : i2c_ctl D := {|
  I2CON := 0; I2STAT := 0xF8; I2DAT := 0; I2SCLH := 4; I2SCLL := 4;
  I2ADR := [0; 0; 0; 0]; I2MASK := [0; 0; 0; 0]; MMCTRL := 0; I2DATA_BUFFER := 0;
  irq_enabled := false; phase := Idle; waited := 0; lag := n; dev := d
|}.

Section Driver.
Context {D : Type} `{Slave D}.

(** *** The hardware *)

Definition bit_set (v b : Z) : bool := negb (Z.land v b =? 0).

(** The result of an action: the status is in place and SI set. *)
Definition raise_SI (st : Z) (p : phase_t) (d : D) (c : i2c_ctl D) : i2c_ctl D :=
  c{{ I2STAT := st; I2CON := Z.lor (I2CON c) I2C_I2CONSET_SI; phase := p; dev := d }}.

(** What the controller does once SI is clear. *)
Definition bus_action (c : i2c_ctl D) : i2c_ctl D :=
  if bit_set (I2CON c) I2C_I2CONSET_SI || negb (bit_set (I2CON c) I2C_I2CONSET_I2EN) then c
  else if bit_set (I2CON c) I2C_I2CONSET_STO then
    c{{ I2CON := clear_bits (I2CON c) I2C_I2CONSET_STO; I2STAT := I2C_I2STAT_NO_INF;
        phase := Idle; dev := sl_stop (dev c) }}
  else if bit_set (I2CON c) I2C_I2CONSET_STA then
    raise_SI (match phase c with
              | Idle => I2C_I2STAT_M_TX_START
              | _ => I2C_I2STAT_M_TX_RESTART
              end) Address (dev c) c
  else match phase c with
  | Address =>
      let '(ack, d) := sl_addr (I2DAT c) (dev c) in
      if Z.testbit (I2DAT c) 0 then
        if (ack : bool) then raise_SI I2C_I2STAT_M_RX_SLAR_ACK Receive d c
        else raise_SI I2C_I2STAT_M_RX_SLAR_NACK Over d c
      else raise_SI (if (ack : bool) then I2C_I2STAT_M_TX_SLAW_ACK
                     else I2C_I2STAT_M_TX_SLAW_NACK) Transmit d c
  | Transmit =>
      let '(ack, d) := sl_write (I2DAT c) (dev c) in
      raise_SI (if (ack : bool) then I2C_I2STAT_M_TX_DAT_ACK
                else I2C_I2STAT_M_TX_DAT_NACK) Transmit d c
  | Receive =>
      let ack := bit_set (I2CON c) I2C_I2CONSET_AA in
      let '(b, d) := sl_read ack (dev c) in
      raise_SI (if ack then I2C_I2STAT_M_RX_DAT_ACK else I2C_I2STAT_M_RX_DAT_NACK)
        (if ack then Receive else Over) d (c{{ I2DAT := b }})
  | Idle | Over => c
  end.

(** A turn of a loop goes by. *)
Definition tick (c : i2c_ctl D) : i2c_ctl D :=
  let c := c{{ dev := sl_elapse (dev c) }} in
  if (waited c <? lag c)%nat then c{{ waited := S (waited c) }}
  else bus_action (c{{ waited := 0%nat }}).

(** *** Register accesses *)

Definition ireg {A} (I2Cx : LPC_I2C) (f : i2c_ctl D -> A) : M (i2c_st D) A :=
  gets (fun s => f (ctl_of I2Cx s)).
Definition iset (I2Cx : LPC_I2C) (f : i2c_ctl D -> i2c_ctl D) : M (i2c_st D) unit :=
  modify (fun s => put_ctl I2Cx (f (ctl_of I2Cx s)) s).

Definition CONSET (I2Cx : LPC_I2C) (v : Z) : M (i2c_st D) unit :=
  iset I2Cx (fun c => c{{ I2CON := Z.lor (I2CON c) v }}).
(** The wait starts anew when SI is cleared. *)
Definition CONCLR (I2Cx : LPC_I2C) (v : Z) : M (i2c_st D) unit :=
  iset I2Cx (fun c => c{{ I2CON := clear_bits (I2CON c) v;
                          waited := if bit_set v I2C_I2CONCLR_SIC then 0%nat else waited c }}).

(** [while (!(I2Cx->I2CONSET & I2C_I2CONSET_SI));] *)
Definition wait_SI (fuel : nat) (I2Cx : LPC_I2C) : M (i2c_st D) unit :=
  while fuel (fun _ : unit =>
    con ← ireg I2Cx I2CON;
    if bit_set con I2C_I2CONSET_SI then mret (Break tt)
    else iset I2Cx tick ;; mret (Continue tt)) tt.

Definition stat_code (I2Cx : LPC_I2C) : M (i2c_st D) Z :=
  st ← ireg I2Cx I2STAT;
  mret (Z.land st I2C_STAT_CODE_BITMASK).

(** ** Private functions *)

Definition I2C_getNum (I2Cx : LPC_I2C) : Z :=
  match I2Cx with LPC_I2C0 => 0 | LPC_I2C1 => 1 | LPC_I2C2 => 2 end.

Definition I2C_Start (fuel : nat) (I2Cx : LPC_I2C) : M (i2c_st D) Z :=
  CONCLR I2Cx I2C_I2CONCLR_SIC ;;
  CONSET I2Cx I2C_I2CONSET_STA ;;
  wait_SI fuel I2Cx ;;
  CONCLR I2Cx I2C_I2CONCLR_STAC ;;
  stat_code I2Cx.

(** Make sure the start bit is not active. *)
Definition drop_STA (I2Cx : LPC_I2C) : M (i2c_st D) unit :=
  con ← ireg I2Cx I2CON;
  when (bit_set con I2C_I2CONSET_STA) (CONCLR I2Cx I2C_I2CONCLR_STAC).

Definition I2C_Stop (I2Cx : LPC_I2C) : M (i2c_st D) unit :=
  drop_STA I2Cx ;;
  CONSET I2Cx I2C_I2CONSET_STO ;;
  CONCLR I2Cx I2C_I2CONCLR_SIC.

Definition I2C_SendByte (fuel : nat) (I2Cx : LPC_I2C) (databyte : Z) : M (i2c_st D) Z :=
  drop_STA I2Cx ;;
  iset I2Cx (fun c => c{{ I2DAT := Z.land (u8 databyte) I2C_I2DAT_BITMASK }}) ;;
  CONCLR I2Cx I2C_I2CONCLR_SIC ;;
  wait_SI fuel I2Cx ;;
  stat_code I2Cx.

Definition I2C_GetByte (fuel : nat) (I2Cx : LPC_I2C) (ack : bool) : M (i2c_st D) (Z * Z) :=
  (if ack then CONSET I2Cx I2C_I2CONSET_AA else CONCLR I2Cx I2C_I2CONCLR_AAC) ;;
  CONCLR I2Cx I2C_I2CONCLR_SIC ;;
  wait_SI fuel I2Cx ;;
  d ← ireg I2Cx I2DAT;
  st ← stat_code I2Cx;
  mret (st, u8 (Z.land d I2C_I2DAT_BITMASK)).

Definition I2C_IntCmd (I2Cx : LPC_I2C) (enable : bool) : M (i2c_st D) unit :=
  iset I2Cx (fun c => c{{ irq_enabled := enable }}).

(** ** Transfers by polling

    A stage of a transfer leaves the transfer's data and, when the bus did not
    answer as it should, the status to be kept if the transfer is given up. *)

Definition stage : Type := M (i2c_st D) (I2C_M_SETUP_Type * option Z).

Definition and_then (m : stage) (k : I2C_M_SETUP_Type -> stage) : stage :=
  r ← m;
  match r with
  | (c, None) => k c
  | (c, Some st) => mret (c, Some st)
  end.

Definition is_Some_b {A} (x : option A) : bool :=
  match x with Some _ => true | None => false end.
Definition has_tx (c : I2C_M_SETUP_Type) : bool :=
  negb (tx_length c =? 0) && is_Some_b (tx_data c).
Definition has_rx (c : I2C_M_SETUP_Type) : bool :=
  negb (rx_length c =? 0) && is_Some_b (rx_data c).

(** [p[i]] and [p[i] = x] through a pointer that may be NULL. *)
Definition pget {W} (p : option (list Z)) (i : Z) : M W Z :=
  match p with Some l => aget l i | None => fail NullDeref end.
Definition pset {W} (p : option (list Z)) (i x : Z) : M W (option (list Z)) :=
  match p with
  | Some l => l' ← aset l i x; mret (Some l')
  | None => fail NullDeref
  end.

(** The data bytes, from [tx_count] on. *)
Fixpoint send_data (n fuel : nat) (I2Cx : LPC_I2C) (c : I2C_M_SETUP_Type) : stage :=
  match n with
  | O => mret (c, None)
  | S n' =>
      b ← pget (tx_data c) (tx_count c);
      st ← I2C_SendByte fuel I2Cx b;
      if negb (st =? I2C_I2STAT_M_TX_DAT_ACK) then
        mret (c, Some (Z.lor st I2C_SETUP_STATUS_NOACKF))
      else send_data n' fuel I2Cx (c{{ tx_count := u32 (tx_count c + 1) }})
  end.

Fixpoint receive_data (n fuel : nat) (I2Cx : LPC_I2C) (c : I2C_M_SETUP_Type) : stage :=
  match n with
  | O => mret (c, None)
  | S n' =>
      let more := rx_count c <? u32 (rx_length c - 1) in
      r ← I2C_GetByte fuel I2Cx more;
      let '(st, tmp) := r in
      if negb (st =? (if more then I2C_I2STAT_M_RX_DAT_ACK else I2C_I2STAT_M_RX_DAT_NACK))
      then mret (c, Some st)
      else
        d ← pset (rx_data c) (rx_count c) tmp;
        receive_data n' fuel I2Cx (c{{ rx_data := d; rx_count := u32 (rx_count c + 1) }})
  end.

Definition start_stage (fuel : nat) (I2Cx : LPC_I2C) (c : I2C_M_SETUP_Type) : stage :=
  st ← I2C_Start fuel I2Cx;
  if negb (st =? I2C_I2STAT_M_TX_START) && negb (st =? I2C_I2STAT_M_TX_RESTART)
  then mret (c, Some st) else mret (c, None).

Definition tx_stage (fuel : nat) (I2Cx : LPC_I2C) (c : I2C_M_SETUP_Type) : stage :=
  if has_tx c then
    st ← I2C_SendByte fuel I2Cx (Z.shiftl (sl_addr7bit c) 1);
    if negb (st =? I2C_I2STAT_M_TX_SLAW_ACK) then
      mret (c, Some (Z.lor st I2C_SETUP_STATUS_NOACKF))
    else send_data (Z.to_nat (tx_length c - tx_count c)) fuel I2Cx c
  else mret (c, None).

Definition restart_stage (fuel : nat) (I2Cx : LPC_I2C) (c : I2C_M_SETUP_Type) : stage :=
  if has_tx c && has_rx c then start_stage fuel I2Cx c else mret (c, None).

Definition rx_stage (fuel : nat) (I2Cx : LPC_I2C) (c : I2C_M_SETUP_Type) : stage :=
  if has_rx c then
    st ← I2C_SendByte fuel I2Cx (Z.lor (Z.shiftl (sl_addr7bit c) 1) 0x01);
    if negb (st =? I2C_I2STAT_M_RX_SLAR_ACK) then
      mret (c, Some (Z.lor st I2C_SETUP_STATUS_NOACKF))
    else receive_data (Z.to_nat (rx_length c - rx_count c)) fuel I2Cx c
  else mret (c, None).

(** From the label [retry] to the STOP. *)
Definition attempt (fuel : nat) (I2Cx : LPC_I2C) (c : I2C_M_SETUP_Type) : stage :=
  and_then (start_stage fuel I2Cx (c{{ tx_count := 0; rx_count := 0 }}))
    (fun c => and_then (tx_stage fuel I2Cx c)
    (fun c => and_then (restart_stage fuel I2Cx c)
    (fun c => rx_stage fuel I2Cx c))).

(** One attempt, and what follows it: the STOP, or another attempt. *)
Definition one_attempt (fuel : nat) (I2Cx : LPC_I2C) (c : I2C_M_SETUP_Type)
    : M (i2c_st D) (ctl I2C_M_SETUP_Type (Status * I2C_M_SETUP_Type)) :=
  r ← attempt fuel I2Cx c;
  match r with
  | (c, None) => I2C_Stop I2Cx ;; mret (Break (SUCCESS, c))
  | (c, Some st) =>
      let c := c{{ retransmissions_count := u32 (retransmissions_count c + 1) }} in
      if retransmissions_max c <? retransmissions_count c then
        I2C_Stop I2Cx ;; mret (Break (ERROR, c{{ status := st }}))
      else mret (Continue c)
  end.

(** The attempts until one succeeds or too many have failed. *)
Definition attempts (fuel : nat) (I2Cx : LPC_I2C) (c : I2C_M_SETUP_Type)
    : M (i2c_st D) (Status * I2C_M_SETUP_Type) :=
  while (S (Z.to_nat (retransmissions_max c))) (one_attempt fuel I2Cx) c.

(** ** Transfers by interrupt *)

Definition cfg_get (I2Cx : LPC_I2C) : M (i2c_st D) I2C_CFG_T :=
  l ← gets i2cdat; aget l (I2C_getNum I2Cx).
Definition cfg_put (I2Cx : LPC_I2C) (g : I2C_CFG_T) : M (i2c_st D) unit :=
  l ← gets i2cdat;
  l' ← aset l (I2C_getNum I2Cx) g;
  modify (fun s : i2c_st D => s{{ i2cdat := l' }}).
Definition setup_get (I2Cx : LPC_I2C) : M (i2c_st D) I2C_M_SETUP_Type :=
  g ← cfg_get I2Cx;
  match txrx_setup g with Some t => mret t | None => fail NullDeref end.
Definition setup_mod (I2Cx : LPC_I2C) (f : I2C_M_SETUP_Type -> I2C_M_SETUP_Type)
    : M (i2c_st D) unit :=
  g ← cfg_get I2Cx;
  t ← setup_get I2Cx;
  cfg_put I2Cx (g{{ txrx_setup := Some (f t) }}).
Definition or_status (I2Cx : LPC_I2C) (b : Z) : M (i2c_st D) unit :=
  setup_mod I2Cx (fun t => t{{ status := Z.lor (status t) b }}).

Definition I2C_MasterTransferData (fuel : nat) (I2Cx : LPC_I2C) (TransferCfg : I2C_M_SETUP_Type)
    (Opt : I2C_TRANSFER_OPT_Type) : M (i2c_st D) (Status * I2C_M_SETUP_Type) :=
  let c := TransferCfg{{ tx_count := 0; rx_count := 0; status := 0 }} in
  match Opt with
  | I2C_TRANSFER_POLLING => attempts fuel I2Cx (c{{ retransmissions_count := 0 }})
  | I2C_TRANSFER_INTERRUPT =>
      cfg_put I2Cx (mk_cfg (Some c) 0) ;;
      CONCLR I2Cx I2C_I2CONCLR_SIC ;;
      CONSET I2Cx I2C_I2CONSET_STA ;;
      I2C_IntCmd I2Cx true ;;
      mret (SUCCESS, c)
  end.

(** The label [end_stage]. *)
Definition end_stage (I2Cx : LPC_I2C) : M (i2c_st D) unit :=
  I2C_IntCmd I2Cx false ;;
  I2C_Stop I2Cx ;;
  t ← setup_get I2Cx;
  match callback t with
  | Some f => modify (fun s : i2c_st D => s{{ i2ccalled := i2ccalled s ++ [f] }})
  | None => mret tt
  end.

(** The label [retry]. *)
Definition retry (I2Cx : LPC_I2C) : M (i2c_st D) unit :=
  t ← setup_get I2Cx;
  if retransmissions_count t <? retransmissions_max t then
    setup_mod I2Cx (fun t => t{{ tx_count := 0 }}) ;;
    CONSET I2Cx I2C_I2CONSET_STA ;;
    CONCLR I2Cx (Z.lor I2C_I2CONCLR_AAC I2C_I2CONCLR_SIC) ;;
    setup_mod I2Cx (fun t => t{{ retransmissions_count := u32 (retransmissions_count t + 1) }})
  else end_stage I2Cx.

(** The label [send_slar]. *)
Definition send_slar (I2Cx : LPC_I2C) : M (i2c_st D) unit :=
  t ← setup_get I2Cx;
  iset I2Cx (fun c => c{{ I2DAT := Z.lor (Z.shiftl (sl_addr7bit t) 1) 0x01 }}) ;;
  CONCLR I2Cx I2C_I2CONCLR_SIC.

(** The label [next_stage]. *)
Definition next_stage (I2Cx : LPC_I2C) : M (i2c_st D) unit :=
  g ← cfg_get I2Cx;
  cfg_put I2Cx (g{{ dir := 1 }}) ;;
  t ← setup_get I2Cx;
  if has_rx t then
    if has_tx t then
      CONSET I2Cx I2C_I2CONSET_STA ;;
      CONCLR I2Cx (Z.lor I2C_I2CONCLR_AAC I2C_I2CONCLR_SIC)
    else send_slar I2Cx
  else
    or_status I2Cx I2C_SETUP_STATUS_DONE ;;
    end_stage I2Cx.

(** Answer the next byte with an ACK, unless it is the last. *)
Definition set_ack (I2Cx : LPC_I2C) : M (i2c_st D) unit :=
  t ← setup_get I2Cx;
  if rx_count t <? u32 (rx_length t - 1) then CONSET I2Cx I2C_I2CONSET_AA
  else CONCLR I2Cx I2C_I2CONSET_AA.

(** Save a received byte. *)
Definition save_byte (I2Cx : LPC_I2C) : M (i2c_st D) unit :=
  t ← setup_get I2Cx;
  when (is_Some_b (rx_data t) && (rx_count t <? rx_length t)) (
    b ← ireg I2Cx I2DAT;
    d ← pset (rx_data t) (rx_count t) (u8 (Z.land b I2C_I2DAT_BITMASK));
    setup_mod I2Cx (fun t => t{{ rx_data := d; rx_count := u32 (rx_count t + 1) }})).

Definition transmit_phase (I2Cx : LPC_I2C) (returnCode : Z) : M (i2c_st D) unit :=
  t ← setup_get I2Cx;
  if (returnCode =? I2C_I2STAT_M_TX_START) || (returnCode =? I2C_I2STAT_M_TX_RESTART) then
    CONCLR I2Cx I2C_I2CONCLR_STAC ;;
    if has_tx t then
      iset I2Cx (fun c => c{{ I2DAT := u32 (Z.shiftl (sl_addr7bit t) 1) }}) ;;
      CONCLR I2Cx I2C_I2CONCLR_SIC
    else next_stage I2Cx
  else if (returnCode =? I2C_I2STAT_M_TX_SLAW_ACK) || (returnCode =? I2C_I2STAT_M_TX_DAT_ACK) then
    if (tx_count t <? tx_length t) && is_Some_b (tx_data t) then
      b ← pget (tx_data t) (tx_count t);
      iset I2Cx (fun c => c{{ I2DAT := b }}) ;;
      setup_mod I2Cx (fun t => t{{ tx_count := u32 (tx_count t + 1) }}) ;;
      CONCLR I2Cx I2C_I2CONCLR_SIC
    else next_stage I2Cx
  else if (returnCode =? I2C_I2STAT_M_TX_SLAW_NACK) || (returnCode =? I2C_I2STAT_M_TX_DAT_NACK) then
    or_status I2Cx I2C_SETUP_STATUS_NOACKF ;;
    retry I2Cx
  else if returnCode =? I2C_I2STAT_M_TX_ARB_LOST then
    or_status I2Cx I2C_SETUP_STATUS_ARBF ;;
    retry I2Cx
  else retry I2Cx.

Definition receive_phase (I2Cx : LPC_I2C) (returnCode : Z) : M (i2c_st D) unit :=
  t ← setup_get I2Cx;
  if (returnCode =? I2C_I2STAT_M_RX_START) || (returnCode =? I2C_I2STAT_M_RX_RESTART) then
    CONCLR I2Cx I2C_I2CONCLR_STAC ;;
    if has_rx t then send_slar I2Cx
    else
      or_status I2Cx I2C_SETUP_STATUS_DONE ;;
      end_stage I2Cx
  else if returnCode =? I2C_I2STAT_M_RX_SLAR_ACK then
    set_ack I2Cx ;;
    CONCLR I2Cx I2C_I2CONCLR_SIC
  else if returnCode =? I2C_I2STAT_M_RX_DAT_ACK then
    save_byte I2Cx ;;
    set_ack I2Cx ;;
    CONCLR I2Cx I2C_I2CONCLR_SIC
  else if returnCode =? I2C_I2STAT_M_RX_DAT_NACK then
    save_byte I2Cx ;;
    or_status I2Cx I2C_SETUP_STATUS_DONE ;;
    end_stage I2Cx
  else if returnCode =? I2C_I2STAT_M_RX_SLAR_NACK then
    or_status I2Cx I2C_SETUP_STATUS_NOACKF ;;
    retry I2Cx
  else if returnCode =? I2C_I2STAT_M_RX_ARB_LOST then
    or_status I2Cx I2C_SETUP_STATUS_ARBF ;;
    retry I2Cx
  else retry I2Cx.

Definition I2C_MasterHandler (I2Cx : LPC_I2C) : M (i2c_st D) unit :=
  returnCode ← stat_code I2Cx;
  setup_mod I2Cx (fun t => t{{ status := returnCode }}) ;;
  if returnCode =? I2C_I2STAT_NO_INF then CONCLR I2Cx I2C_I2CONCLR_SIC
  else
    g ← cfg_get I2Cx;
    if dir g =? 0 then transmit_phase I2Cx returnCode
    else if dir g =? 1 then receive_phase I2Cx returnCode
    else mret tt.

(** The standard interrupt handlers call [inthandler]; before the first transfer it is NULL,
    as [txrx_setup] is. *)
Definition I2C0_StdIntHandler : M (i2c_st D) unit := I2C_MasterHandler LPC_I2C0.
Definition I2C1_StdIntHandler : M (i2c_st D) unit := I2C_MasterHandler LPC_I2C1.
Definition I2C2_StdIntHandler : M (i2c_st D) unit := I2C_MasterHandler LPC_I2C2.

(** [n] turns of a loop of the program, interrupted when the interrupt is
    enabled in the NVIC and SI is set. *)
Fixpoint run_irq (n : nat) (I2Cx : LPC_I2C) : M (i2c_st D) unit :=
  match n with
  | O => mret tt
  | S n' =>
      c ← ireg I2Cx (fun c => c);
      when (irq_enabled c && bit_set (I2CON c) I2C_I2CONSET_SI) (I2C_MasterHandler I2Cx) ;;
      iset I2Cx tick ;;
      run_irq n' I2Cx
  end.

(** A delay loop: nothing but time goes by. *)
Definition delay_loop (n : nat) (I2Cx : LPC_I2C) : M (i2c_st D) unit :=
  iset I2Cx (Nat.iter n tick).

(** ** Configuration *)

Definition I2C_SetClock (I2Cx : LPC_I2C) (target_clock : Z) : M (i2c_st D) unit :=
  pclk ← zoom (CLKPWR_GetPCLK (match I2Cx with
                                | LPC_I2C0 => CLKPWR_PCLKSEL_I2C0
                                | LPC_I2C1 => CLKPWR_PCLKSEL_I2C1
                                | LPC_I2C2 => CLKPWR_PCLKSEL_I2C1
                                end));
  guard (negb (target_clock =? 0)) DivByZero ;;
  let temp := pclk / target_clock in
  (* the registers hold 16 bits *)
  iset I2Cx (fun c => c{{ I2SCLH := u16 (temp / 2) }}) ;;
  iset I2Cx (fun c => c{{ I2SCLL := u16 (u32 (temp - I2SCLH c)) }}).

Definition I2C_DeInit (I2Cx : LPC_I2C) : M (i2c_st D) unit :=
  CONCLR I2Cx I2C_I2CONCLR_I2ENC ;;
  zoom (CLKPWR_ConfigPPWR (match I2Cx with
                            | LPC_I2C0 => CLKPWR_PCONP_PCI2C0
                            | LPC_I2C1 => CLKPWR_PCONP_PCI2C1
                            | LPC_I2C2 => CLKPWR_PCONP_PCI2C2
                            end) false).

Definition I2C_Init (I2Cx : LPC_I2C) (clockrate : Z) : M (i2c_st D) unit :=
  (match I2Cx with
   | LPC_I2C0 =>
       zoom (CLKPWR_ConfigPPWR CLKPWR_PCONP_PCI2C0 true) ;;
       zoom (CLKPWR_SetPCLKDiv CLKPWR_PCLKSEL_I2C0 CLKPWR_PCLKSEL_CCLK_DIV_2)
   | LPC_I2C1 =>
       zoom (CLKPWR_ConfigPPWR CLKPWR_PCONP_PCI2C1 true) ;;
       zoom (CLKPWR_SetPCLKDiv CLKPWR_PCLKSEL_I2C1 CLKPWR_PCLKSEL_CCLK_DIV_2)
   | LPC_I2C2 =>
       zoom (CLKPWR_ConfigPPWR CLKPWR_PCONP_PCI2C2 true) ;;
       zoom (CLKPWR_SetPCLKDiv CLKPWR_PCLKSEL_I2C2 CLKPWR_PCLKSEL_CCLK_DIV_2)
   end : M (i2c_st D) unit) ;;
  I2C_SetClock I2Cx clockrate ;;
  CONCLR I2Cx (Z.lor (Z.lor I2C_I2CONCLR_AAC I2C_I2CONCLR_STAC) I2C_I2CONCLR_I2ENC).

Definition I2C_Cmd (I2Cx : LPC_I2C) (enable : bool) : M (i2c_st D) unit :=
  if enable then CONSET I2Cx I2C_I2CONSET_I2EN else CONCLR I2Cx I2C_I2CONCLR_I2ENC.

Definition I2C_SetOwnSlaveAddr (I2Cx : LPC_I2C) (o : I2C_OWNSLAVEADDR_CFG_Type)
    : M (i2c_st D) unit :=
  CHECK_PARAM ((0 <=? SlaveAddrChannel o) && (SlaveAddrChannel o <=? 3)) ;;
  let tmp := Z.land (Z.lor (u32 (Z.shiftl (SlaveAddr_7bit o) 1))
                           (if GeneralCallState o then 0x01 else 0x00)) I2C_I2ADR_BITMASK in
  c ← ireg I2Cx (fun c => c);
  adr ← aset (I2ADR c) (SlaveAddrChannel o) tmp;
  msk ← aset (I2MASK c) (SlaveAddrChannel o) (Z.land (SlaveAddrMaskValue o) 0xFE);
  iset I2Cx (fun c => c{{ I2ADR := adr; I2MASK := msk }}).

(** [PARAM_I2C_MONITOR_CFG] is true of every value. *)
Definition I2C_MonitorModeConfig (I2Cx : LPC_I2C) (MonitorCfgType : Z) (enable : bool)
    : M (i2c_st D) unit :=
  iset I2Cx (fun c => c{{ MMCTRL :=
    if enable then Z.lor (MMCTRL c) MonitorCfgType
    else Z.land (MMCTRL c) (Z.land (Z.lnot MonitorCfgType) I2C_I2MMCTRL_BITMASK) }}).

Definition I2C_MonitorModeCmd (I2Cx : LPC_I2C) (enable : bool) : M (i2c_st D) unit :=
  iset I2Cx (fun c => c{{ MMCTRL :=
    if enable then Z.lor (MMCTRL c) I2C_I2MMCTRL_MM_ENA
    else Z.land (MMCTRL c) (Z.land (Z.lnot I2C_I2MMCTRL_MM_ENA) I2C_I2MMCTRL_BITMASK) }}).

Definition I2C_MonitorGetDatabuffer (I2Cx : LPC_I2C) : M (i2c_st D) Z :=
  b ← ireg I2Cx I2DATA_BUFFER;
  mret (u8 b).

End Driver.
