(* ===== verification/I2cFacts.v ===== *)
(** * The I2C masters: a transfer by polling is a transaction on the bus

    [transaction] says what a transfer means for the slaves, without registers,
    flags or polling.  [I2C_MasterTransferData] implements it: for every slave
    that does not change while the master waits ([QuietSlave]), and whatever
    number of turns an action of the controller takes. *)

From S2P Require Import Prelude Clkpwr I2c.

(** ** Transactions *)

Section Transactions.
Context {D : Type} `{Slave D}.

Fixpoint send_all (l : list Z) (d : D) : option D :=
  match l with
  | [] => Some d
  | b :: l' => let '(ack, d') := sl_write (u8 b) d in if (ack : bool) then send_all l' d' else None
  end.

(** All bytes but the last are acknowledged. *)
Fixpoint read_all (n : nat) (d : D) : list Z * D :=
  match n with
  | O => ([], d)
  | S n' =>
      let '(b, d') := sl_read (match n' with O => false | _ => true end) d in
      let '(l, d'') := read_all n' d' in (u8 b :: l, d'')
  end.

Definition bus_write (a : Z) (l : list Z) (d : D) : option D :=
  let '(ack, d') := sl_addr (u8 (2 * a)) d in if (ack : bool) then send_all l d' else None.
Definition bus_read (a : Z) (n : nat) (d : D) : option (list Z * D) :=
  let '(ack, d') := sl_addr (u8 (2 * a + 1)) d in
  if (ack : bool) then Some (read_all n d') else None.

(** [tx] and [n] are what is sent and how much is read; nothing when empty. *)
Definition transaction (a : Z) (tx : list Z) (n : nat) (d : D) : option (list Z * D) :=
  d' ← (match tx with [] => Some d | _ => bus_write a tx d end);
  match n with O => Some ([], d') | _ => bus_read a n d' end.

(** The same with what happens when a byte is not acknowledged: how many data bytes were,
    or the status code of the byte that was not. *)
Inductive outcome : Type :=
| Done (r : list Z)
| Refused (code : Z) (sent : nat).

Fixpoint send_upto (l : list Z) (d : D) : nat * bool * D :=
  match l with
  | [] => (0%nat, true, d)
  | b :: l' =>
      let '(ack, d1) := sl_write (u8 b) d in
      if ack : bool then let '(k, ok, d2) := send_upto l' d1 in (S k, ok, d2) else (0%nat, false, d1)
  end.

Definition try_write (a : Z) (tx : list Z) (d : D) : option (Z * nat) * D :=
  match tx with
  | [] => (None, d)
  | _ =>
      let '(ack, d1) := sl_addr (u8 (2 * a)) d in
      if ack : bool then
        let '(k, ok, d2) := send_upto tx d1 in
        (if ok : bool then None else Some (I2C_I2STAT_M_TX_DAT_NACK, k), d2)
      else (Some (I2C_I2STAT_M_TX_SLAW_NACK, 0%nat), d1)
  end.

Definition try_read (a : Z) (tx : list Z) (n : nat) (d : D) : outcome * D :=
  match n with
  | O => (Done [], d)
  | _ =>
      let '(ack, d1) := sl_addr (u8 (2 * a + 1)) d in
      if ack : bool then let '(r, d2) := read_all n d1 in (Done r, d2)
      else (Refused I2C_I2STAT_M_RX_SLAR_NACK (length tx), d1)
  end.

Definition try_transaction (a : Z) (tx : list Z) (n : nat) (d : D) : outcome * D :=
  match try_write a tx d with
  | (Some (code, k), d1) => (Refused code k, d1)
  | (None, d1) => try_read a tx n d1
  end.

(** A transaction that is refused is begun again from its start, without a STOP between,
    at most [m] times; the number says how often it was refused. *)
Fixpoint transactions (m k : nat) (a : Z) (tx : list Z) (n : nat) (d : D) : nat * outcome * D :=
  match try_transaction a tx n d with
  | (Done r, d1) => (k, Done r, d1)
  | (Refused code j, d1) =>
      match m with
      | O => (S k, Refused code j, d1)
      | S m' => transactions m' (S k) a tx n d1
      end
  end.

End Transactions.

(** Slaves that do not change by themselves while in the states [P]. *)
Class QuietSlave (D : Type) `{Slave D} (P : D -> Prop) : Prop := {
  quiet_elapse : forall d, P d -> sl_elapse d = d;
  quiet_addr : forall b d, P d -> P (snd (sl_addr b d));
  quiet_write : forall b d, P d -> P (snd (sl_write b d));
  quiet_read : forall ack d, P d -> P (snd (sl_read ack d))
}.

(** ** Register accesses *)

Section Registers.
Context {D : Type} `{Slave D}.
Implicit Types (c : i2c_ctl D) (s : i2c_st D).

Lemma ctl_of_put x c s : ctl_of x (put_ctl x c s) = c.
Proof. by destruct x. Qed.

Lemma put_ctl_twice x c c' s : put_ctl x c (put_ctl x c' s) = put_ctl x c s.
Proof. by destruct x. Qed.

Lemma put_ctl_same x s : put_ctl x (ctl_of x s) s = s.
Proof. by destruct x, s. Qed.

Lemma ireg_run {A} x (f : i2c_ctl D -> A) c s :
  ireg x f (put_ctl x c s) = Ok (f c, put_ctl x c s).
Proof. unfold ireg, gets. by rewrite ctl_of_put. Qed.

Lemma iset_run x f c s : iset x f (put_ctl x c s) = Ok (tt, put_ctl x (f c) s).
Proof. unfold iset, modify. by rewrite ctl_of_put, put_ctl_twice. Qed.

Lemma stat_code_run x c s :
  stat_code x (put_ctl x c s) = Ok (Z.land (I2STAT c) I2C_STAT_CODE_BITMASK, put_ctl x c s).
Proof. unfold stat_code. by erewrite bind_ok by apply ireg_run. Qed.

Definition conset (v : Z) (c : i2c_ctl D) : i2c_ctl D := c{{ I2CON := Z.lor (I2CON c) v }}.
Definition conclr (v : Z) (c : i2c_ctl D) : i2c_ctl D :=
  c{{ I2CON := clear_bits (I2CON c) v;
      waited := if bit_set v I2C_I2CONCLR_SIC then 0%nat else waited c }}.

Lemma CONSET_run x v c s : CONSET x v (put_ctl x c s) = Ok (tt, put_ctl x (conset v c) s).
Proof. apply iset_run. Qed.

Lemma CONCLR_run x v c s : CONCLR x v (put_ctl x c s) = Ok (tt, put_ctl x (conclr v c) s).
Proof. apply iset_run. Qed.

Lemma drop_STA_run x c s :
  drop_STA x (put_ctl x c s) =
    Ok (tt, put_ctl x (if bit_set (I2CON c) I2C_I2CONSET_STA then conclr I2C_I2CONCLR_STAC c else c) s).
Proof.
  unfold drop_STA. erewrite bind_ok by apply ireg_run. cbn [when].
  destruct (bit_set (I2CON c) I2C_I2CONSET_STA); [apply CONCLR_run|done].
Qed.

(** ** Waiting for the flag *)

Definition SI_clear (c : i2c_ctl D) : Prop := bit_set (I2CON c) I2C_I2CONSET_SI = false.

Lemma wait_SI_done x c s fuel : ~ SI_clear c ->
  wait_SI (S fuel) x (put_ctl x c s) = Ok (tt, put_ctl x c s).
Proof.
  unfold SI_clear. intros Hsi%not_false_is_true. unfold wait_SI. cbn [while].
  erewrite bind_ok; [|erewrite bind_ok by apply ireg_run; by rewrite Hsi]. done.
Qed.

Lemma wait_SI_step x c s fuel : SI_clear c ->
  wait_SI (S fuel) x (put_ctl x c s) = wait_SI fuel x (put_ctl x (tick c) s).
Proof.
  unfold SI_clear. intros Hsi. unfold wait_SI. cbn [while].
  erewrite bind_ok; [|erewrite bind_ok by apply ireg_run; rewrite Hsi; by erewrite bind_ok by apply iset_run].
  done.
Qed.

(** The turns before the action change nothing but their count. *)
Lemma wait_SI_act x c s fuel : SI_clear c -> sl_elapse (dev c) = dev c ->
  (waited c <= lag c)%nat -> (lag c - waited c < fuel)%nat ->
  wait_SI fuel x (put_ctl x c s) =
  wait_SI (fuel - S (lag c - waited c)) x (put_ctl x (bus_action (c{{ waited := 0%nat }})) s).
Proof.
  intros Hsi He Hw Hf.
  remember (lag c - waited c)%nat as n eqn:En. revert c fuel Hsi He Hw Hf En.
  induction n as [|n IH]; intros c fuel Hsi He Hw Hf En.
  all: destruct fuel as [|fuel]; [lia|]; rewrite (wait_SI_step x c s fuel Hsi).
  all: assert (Ed : c{{ dev := sl_elapse (dev c) }} = c) by (rewrite He; by destruct c).
  all: unfold tick; rewrite Ed; destruct (Nat.ltb_spec (waited c) (lag c)); try lia.
  - by replace (S fuel - 1)%nat with fuel by lia.
  - rewrite IH; [done|done|done|simpl; lia|lia|simpl; lia].
Qed.

End Registers.

(** ** The functions on bytes

    [at_phase p d c]: in the middle of a transfer, SI is set and the next byte is
    that of [p]; [released d c]: no transfer is going on, or its STOP is due. *)

Section Bytes.
Context {D : Type} `{Slave D} (P : D -> Prop) `{!QuietSlave D P}.
Implicit Types (c : i2c_ctl D) (s : i2c_st D).

Definition at_phase (p : phase_t) (d : D) (c : i2c_ctl D) : Prop :=
  phase c = p /\ dev c = d /\ (I2CON c = 0x48 \/ I2CON c = 0x4C).

Definition released (d : D) (c : i2c_ctl D) : Prop :=
  (waited c <= lag c)%nat /\
  ((I2CON c = 0x40 \/ I2CON c = 0x44) /\ phase c = Idle /\ dev c = d \/
   (I2CON c = 0x50 \/ I2CON c = 0x54) /\ P (dev c) /\ sl_stop (dev c) = d).

(** The registers a transfer does not write. *)
Definition fixed (c : i2c_ctl D) :=
  (I2SCLH c, I2SCLL c, I2ADR c, I2MASK c, MMCTRL c, I2DATA_BUFFER c, irq_enabled c, lag c).

Lemma fixed_lag c c' : fixed c' = fixed c -> lag c' = lag c.
Proof. unfold fixed. by intros [=]. Qed.

(** [m] returns [r] and takes the controller from [c] to a state of [Q]. *)
Definition reaches {A} (x : LPC_I2C) (s : i2c_st D) (m : M (i2c_st D) A) c (r : A)
    (Q : i2c_ctl D -> Prop) : Prop :=
  exists c', m (put_ctl x c s) = Ok (r, put_ctl x c' s) /\ fixed c' = fixed c /\ Q c'.

Lemma reaches_bind {A B} x s (m : M (i2c_st D) A) (k : A -> M (i2c_st D) B) c a b Q R :
  reaches x s m c a Q ->
  (forall c', fixed c' = fixed c -> Q c' -> reaches x s (k a) c' b R) ->
  reaches x s (m ≫= k) c b R.
Proof.
  intros (c1 & E & F & HQ) Hk. destruct (Hk c1 F HQ) as (c2 & E2 & F2 & HR).
  exists c2. split; [by erewrite bind_ok by apply E|]. split; [congruence|done].
Qed.

Lemma reaches_ret {A} x s (a : A) c (Q : i2c_ctl D -> Prop) : Q c -> reaches x s (mret a) c a Q.
Proof. intros HQ. by exists c. Qed.

(** A wait that ends with one action, and the reading of the status. *)
Lemma reaches_wait x s fuel c p st d c2 :
  SI_clear c -> P (dev c) -> (waited c <= lag c)%nat -> (S (lag c - waited c) < fuel)%nat ->
  bus_action (c{{ waited := 0%nat }}) = raise_SI st p d c2 -> fixed c2 = fixed c ->
  reaches x s (wait_SI fuel x) c tt (fun c' => c' = raise_SI st p d c2).
Proof.
  intros Hsi HP Hw Hf E Hc2. eexists. split; [|split; [|reflexivity]]; [|exact Hc2].
  rewrite wait_SI_act, E by (done || lia || by apply quiet_elapse).
  destruct (fuel - S (lag c - waited c))%nat eqn:En; [lia|]. apply wait_SI_done.
  unfold SI_clear, raise_SI, bit_set. simpl. rewrite Z.land_lor_distr_l. simpl (Z.land I2C_I2CONSET_SI _).
  intros Hz%negb_false_iff%Z.eqb_eq%Z.lor_eq_0_iff. by destruct Hz.
Qed.

Definition addr_phase (b : Z) (ack : bool) : phase_t :=
  if Z.testbit b 0 then if ack then Receive else Over else Transmit.
Definition addr_code (b : Z) (ack : bool) : Z :=
  if Z.testbit b 0 then if ack then I2C_I2STAT_M_RX_SLAR_ACK else I2C_I2STAT_M_RX_SLAR_NACK
  else if ack then I2C_I2STAT_M_TX_SLAW_ACK else I2C_I2STAT_M_TX_SLAW_NACK.

Lemma land_mask b : Z.land b I2C_I2DAT_BITMASK = u8 b.
Proof. unfold I2C_I2DAT_BITMASK, u8. change 0xFF with (Z.ones 8). by rewrite Z.land_ones by lia. Qed.

Lemma u8_u8 b : u8 (u8 b) = u8 b.
Proof. unfold u8. apply Z.mod_mod. lia. Qed.

Lemma land_u8 b : Z.land (u8 b) I2C_I2DAT_BITMASK = u8 b.
Proof. by rewrite land_mask, u8_u8. Qed.

(** The state in which [I2C_SendByte] waits. *)
Lemma reaches_sent x s fuel c p d b p' st d' :
  at_phase p d c -> P d -> (S (lag c) < fuel)%nat ->
  Z.land st I2C_STAT_CODE_BITMASK = st ->
  (forall c1, phase c1 = p -> dev c1 = d -> I2DAT c1 = u8 b ->
     I2CON c1 = 0x40 \/ I2CON c1 = 0x44 -> bus_action c1 = raise_SI st p' d' c1) ->
  reaches x s (I2C_SendByte fuel x b) c st (at_phase p' d').
Proof.
  intros (Hp & Hd & Hcon) HP Hf Hst Hact. unfold I2C_SendByte.
  eapply (reaches_bind _ _ _ _ _ _ _ (fun c1 => c1 = c)).
  { exists c. split; [|done]. rewrite drop_STA_run. by destruct Hcon as [-> | ->]. }
  intros c1 _ ->.
  eapply (reaches_bind _ _ _ _ _ _ _ (fun c1 => c1 = c{{ I2DAT := u8 b }})).
  { eexists. split; [apply iset_run|]. by rewrite land_u8. }
  intros c1 _ ->.
  eapply (reaches_bind _ _ _ _ _ _ _ (fun c1 => c1 = conclr I2C_I2CONCLR_SIC (c{{ I2DAT := u8 b }}))).
  { eexists. split; [apply CONCLR_run|]. done. }
  intros c1 _ ->.
  eapply reaches_bind.
  { eapply (reaches_wait _ _ _ _ p' st d'); unfold SI_clear; simpl; rewrite ?Hd; try done; try lia.
    - by destruct Hcon as [-> | ->].
    - apply Hact; simpl; rewrite ?Hp, ?Hd; try done.
      destruct Hcon as [-> | ->]; [by left|by right]. }
  intros c1 _ ->. eexists. split; [|split; [done|]].
  - rewrite stat_code_run. simpl. by rewrite Hst.
  - split; [done|]. split; [done|]. simpl. destruct Hcon as [-> | ->]; [by left|by right].
Qed.

Lemma SendByte_addr x s fuel c d b ack d' :
  at_phase Address d c -> P d -> (S (lag c) < fuel)%nat -> sl_addr (u8 b) d = (ack, d') ->
  reaches x s (I2C_SendByte fuel x b) c (addr_code (u8 b) ack)
    (at_phase (addr_phase (u8 b) ack) d').
Proof.
  intros Hc HP Hf E. eapply reaches_sent; [done|done|done| |].
  - unfold addr_code. by destruct (Z.testbit (u8 b) 0), ack.
  - intros c1 Hp Hd Hb Hcon. unfold bus_action, addr_code, addr_phase. rewrite Hp, Hd, Hb, E.
    destruct Hcon as [-> | ->], (Z.testbit (u8 b) 0), ack; reflexivity.
Qed.

Lemma SendByte_data x s fuel c d b ack d' :
  at_phase Transmit d c -> P d -> (S (lag c) < fuel)%nat -> sl_write (u8 b) d = (ack, d') ->
  reaches x s (I2C_SendByte fuel x b) c
    (if ack then I2C_I2STAT_M_TX_DAT_ACK else I2C_I2STAT_M_TX_DAT_NACK) (at_phase Transmit d').
Proof.
  intros Hc HP Hf E. eapply reaches_sent; [done|done|done| |].
  - destruct ack; reflexivity.
  - intros c1 Hp Hd Hb Hcon. unfold bus_action. rewrite Hp, Hd, Hb, E.
    destruct Hcon as [-> | ->]; simpl; by destruct ack.
Qed.

Lemma GetByte_ok x s fuel c d (ack : bool) b d' :
  at_phase Receive d c -> P d -> (S (lag c) < fuel)%nat -> sl_read ack d = (b, d') ->
  reaches x s (I2C_GetByte fuel x ack) c
    (if ack then I2C_I2STAT_M_RX_DAT_ACK else I2C_I2STAT_M_RX_DAT_NACK, u8 b)
    (at_phase (if ack then Receive else Over) d').
Proof.
  intros (Hp & Hd & Hcon) HP Hf E. unfold I2C_GetByte.
  set (con1 := if ack then 0x4C else 0x48).
  eapply (reaches_bind _ _ _ _ _ _ _ (fun c1 => c1 = c{{ I2CON := con1 }})).
  { eexists. split; [|split; [|reflexivity]]; [|done].
    destruct ack; [rewrite CONSET_run|rewrite CONCLR_run]; unfold conset, conclr; simpl;
      by destruct Hcon as [-> | ->]. }
  intros c1 _ ->.
  eapply (reaches_bind _ _ _ _ _ _ _ (fun c1 => c1 = conclr I2C_I2CONCLR_SIC (c{{ I2CON := con1 }}))).
  { eexists. split; [apply CONCLR_run|]. done. }
  intros c1 _ ->.
  set (st := if ack then I2C_I2STAT_M_RX_DAT_ACK else I2C_I2STAT_M_RX_DAT_NACK).
  set (c2 := conclr I2C_I2CONCLR_SIC (c{{ I2CON := con1 }})).
  eapply (reaches_bind _ _ _ _ _ _ _
    (fun c1 => c1 = raise_SI st (if ack then Receive else Over) d' (c2{{ waited := 0%nat; I2DAT := b }}))).
  { apply reaches_wait; subst c2 con1 st; unfold SI_clear; simpl; rewrite ?Hd; try done; try lia.
    - by destruct ack.
    - unfold bus_action, bit_set. destruct ack; simpl; by rewrite Hp, E. }
  intros c1 _ ->. eexists. split; [|split; [done|]].
  - erewrite bind_ok by apply ireg_run. erewrite bind_ok by apply stat_code_run.
    unfold st. destruct ack; simpl; by rewrite land_mask, u8_u8.
  - split; [done|]. split; [done|]. subst con1. simpl. destruct ack; [by right|by left].
Qed.

(** Waiting for a START when the bus is free. *)
Lemma wait_START x s fuel c d :
  (I2CON c = 0x60 \/ I2CON c = 0x64) -> phase c = Idle -> dev c = d -> P d ->
  (waited c <= lag c)%nat -> (S (lag c) < fuel)%nat ->
  reaches x s (wait_SI fuel x) c tt (fun c1 =>
    I2STAT c1 = I2C_I2STAT_M_TX_START /\ phase c1 = Address /\ dev c1 = d /\
    (I2CON c1 = 0x68 \/ I2CON c1 = 0x6C)).
Proof.
  intros Hcon Hp Hd HP Hw Hf.
  destruct (reaches_wait x s fuel c Address I2C_I2STAT_M_TX_START d (c{{ waited := 0%nat }}))
    as (c1 & E & F & ->); [| |done|lia| |done|].
  - unfold SI_clear. by destruct Hcon as [-> | ->].
  - by rewrite Hd.
  - unfold bus_action, bit_set. simpl. rewrite Hp, Hd. by destruct Hcon as [-> | ->].
  - eexists. split; [exact E|]. split; [done|]. simpl.
    destruct Hcon as [-> | ->]; simpl; auto 6.
Qed.

(** The same when a STOP is due before it. *)
Lemma wait_STOP_START x s fuel c d :
  (I2CON c = 0x70 \/ I2CON c = 0x74) -> P (dev c) -> sl_stop (dev c) = d -> P d ->
  waited c = 0%nat -> (S (S (2 * lag c)) < fuel)%nat ->
  reaches x s (wait_SI fuel x) c tt (fun c1 =>
    I2STAT c1 = I2C_I2STAT_M_TX_START /\ phase c1 = Address /\ dev c1 = d /\
    (I2CON c1 = 0x68 \/ I2CON c1 = 0x6C)).
Proof.
  intros Hcon HP1 Hd HP Hw Hf.
  destruct (wait_START x s (fuel - S (lag c)) (bus_action (c{{ waited := 0%nat }})) d)
    as (c1 & E & F & Hc1).
  1-6: unfold bus_action, bit_set; simpl; destruct Hcon as [E | E]; rewrite ?E; simpl; auto; lia.
  exists c1. split; [|split; [|done]].
  - rewrite wait_SI_act, Hw, Nat.sub_0_r; [exact E| | |lia|lia].
    + unfold SI_clear. by destruct Hcon as [-> | ->].
    + by apply quiet_elapse.
  - rewrite F. unfold bus_action, bit_set. simpl. by destruct Hcon as [-> | ->].
Qed.

(** A START, with the STOP that was due before it. *)
Lemma Start_ok x s fuel c d :
  released d c -> P d -> (S (S (2 * lag c)) < fuel)%nat ->
  reaches x s (I2C_Start fuel x) c I2C_I2STAT_M_TX_START (at_phase Address d).
Proof.
  intros (Hw & Hr) HP Hf. unfold I2C_Start.
  eapply (reaches_bind _ _ _ _ _ _ _ (fun c1 => c1 = conclr I2C_I2CONCLR_SIC c)).
  { eexists. split; [apply CONCLR_run|]. done. }
  intros c1 _ ->.
  eapply (reaches_bind _ _ _ _ _ _ _ (fun c1 => c1 = conset I2C_I2CONSET_STA (conclr I2C_I2CONCLR_SIC c))).
  { eexists. split; [apply CONSET_run|]. done. }
  intros c1 _ ->. eapply reaches_bind.
  { destruct Hr as [(Hcon & Hp & Hd)|(Hcon & HP1 & Hd)];
      [eapply (wait_START _ _ _ _ d)|eapply (wait_STOP_START _ _ _ _ d)]; simpl; try done; try lia.
    all: destruct Hcon as [-> | ->]; auto. }
  intros c1 _ (Hst & Hp & Hd & Hcon).
  eapply (reaches_bind _ _ _ _ _ _ _ (fun c2 => c2 = conclr I2C_I2CONCLR_STAC c1)).
  { eexists. split; [apply CONCLR_run|]. done. }
  intros c2 _ ->. exists (conclr I2C_I2CONCLR_STAC c1). split; [|split; [done|]].
  - rewrite stat_code_run. simpl. by rewrite Hst.
  - unfold at_phase. simpl. rewrite Hp, Hd. destruct Hcon as [-> | ->]; auto.
Qed.

(** A repeated START. *)
Lemma Restart_ok x s fuel c p d :
  at_phase p d c -> p <> Idle -> P d -> (S (lag c) < fuel)%nat ->
  reaches x s (I2C_Start fuel x) c I2C_I2STAT_M_TX_RESTART (at_phase Address d).
Proof.
  intros (Hp & Hd & Hcon) Hni HP Hf. unfold I2C_Start.
  eapply (reaches_bind _ _ _ _ _ _ _ (fun c1 => c1 = conclr I2C_I2CONCLR_SIC c)).
  { eexists. split; [apply CONCLR_run|]. done. }
  intros c1 _ ->.
  set (c0 := conset I2C_I2CONSET_STA (conclr I2C_I2CONCLR_SIC c)).
  eapply (reaches_bind _ _ _ _ _ _ _ (fun c1 => c1 = c0)).
  { eexists. split; [apply CONSET_run|]. done. }
  intros c1 _ ->. eapply reaches_bind.
  { eapply (reaches_wait _ _ _ c0 Address I2C_I2STAT_M_TX_RESTART d (c0{{ waited := 0%nat }}));
      subst c0; unfold SI_clear; simpl; rewrite ?Hd; try done; try lia.
    - by destruct Hcon as [-> | ->].
    - unfold bus_action, bit_set. simpl. rewrite ?Hp, ?Hd.
      destruct Hcon as [-> | ->]; simpl; by destruct p. }
  intros c1 _ ->.
  eapply (reaches_bind _ _ _ _ _ _ _ (fun c2 => c2 = conclr I2C_I2CONCLR_STAC _)).
  { eexists. split; [apply CONCLR_run|]. split; [|reflexivity]. done. }
  intros c2 _ ->. eexists. split; [apply stat_code_run|]. split; [done|].
  unfold at_phase. simpl. destruct Hcon as [-> | ->]; auto.
Qed.

(** A STOP is due after [I2C_Stop]. *)
Lemma Stop_ok x s c p d :
  at_phase p d c -> P d -> reaches x s (I2C_Stop x) c tt (released (sl_stop d)).
Proof.
  intros (Hp & Hd & Hcon) HP. unfold I2C_Stop.
  eapply (reaches_bind _ _ _ _ _ _ _ (fun c1 => c1 = c)).
  { exists c. split; [|done]. rewrite drop_STA_run. by destruct Hcon as [-> | ->]. }
  intros c1 _ ->.
  eapply (reaches_bind _ _ _ _ _ _ _ (fun c1 => c1 = conset I2C_I2CONSET_STO c)).
  { eexists. split; [apply CONSET_run|]. done. }
  intros c1 _ ->. eexists. split; [apply CONCLR_run|]. split; [done|].
  split; [simpl; lia|]. right. simpl. rewrite Hd. destruct Hcon as [-> | ->]; auto.
Qed.

(** ** The stages of a transfer *)

Lemma send_all_quiet l d d' : P d -> send_all l d = Some d' -> P d'.
Proof.
  revert d. induction l as [|b l IH]; intros d HP; simpl; [congruence|].
  pose proof (quiet_write (u8 b) d HP) as HP1. destruct (sl_write (u8 b) d) as [[] d1]; [|done].
  by apply IH.
Qed.

Lemma read_all_quiet n d : P d -> P (snd (read_all n d)).
Proof.
  revert d. induction n as [|n IH]; intros d HP; simpl; [done|].
  pose proof (quiet_read (match n with O => false | _ => true end) d HP) as HP1.
  destruct sl_read as [b d1]. specialize (IH d1 HP1). by destruct (read_all n d1).
Qed.

Lemma read_all_length n (d : D) : length (fst (read_all n d)) = n.
Proof.
  revert d. induction n as [|n IH]; intros d; simpl; [done|].
  destruct sl_read as [b d1]. specialize (IH d1). destruct (read_all n d1). simpl in *. congruence.
Qed.

Lemma send_data_ok x s fuel l : forall g c d d' pre,
  at_phase Transmit d c -> P d -> (S (lag c) < fuel)%nat ->
  (exists post, tx_data g = Some (pre ++ l ++ post)) ->
  tx_count g = Z.of_nat (length pre) -> Z.of_nat (length pre + length l) < 2 ^ 32 ->
  send_all l d = Some d' ->
  reaches x s (send_data (length l) fuel x g) c
    (g{{ tx_count := Z.of_nat (length pre + length l) }}, None) (at_phase Transmit d').
Proof.
  induction l as [|b l IH]; intros g c d d' pre Hc HP Hf [post Hg] Hn Hb E; cbn [length send_data].
  - rewrite Nat.add_0_r, <- Hn. simpl in E. injection E as <-. destruct g. by apply reaches_ret.
  - simpl in E. destruct (sl_write (u8 b) d) as [[] d1] eqn:E1; [|done].
    rewrite Hg. cbn [pget].
    eapply (reaches_bind _ _ _ _ _ b _ (fun c1 => c1 = c)).
    { exists c. split; [|done]. apply aget_ok; [lia|]. rewrite Hn, Nat2Z.id.
      by rewrite lookup_app_r, Nat.sub_diag by lia. }
    intros c1 _ ->. eapply reaches_bind; [by eapply SendByte_data|].
    intros c1 F Hc1. simpl.
    pose proof (quiet_write (u8 b) d HP) as HP1. rewrite E1 in HP1. apply fixed_lag in F.
    pose proof (IH (g{{ tx_count := u32 (tx_count g + 1) }}) c1 d1 d' (pre ++ [b]) Hc1 HP1) as IH1.
    rewrite length_app in IH1. simpl in IH1, Hb.
    rewrite <- Nat.add_assoc in IH1. simpl in IH1. apply IH1; [lia| | |lia|done].
    + exists post. by rewrite <- app_assoc.
    + rewrite Hn. unfold u32. rewrite Z.mod_small; lia.
Qed.

Lemma pset_blit {W} buf pre b (w : W) : (length pre < length buf)%nat ->
  pset (Some (blit buf 0 pre)) (Z.of_nat (length pre)) b w = Ok (Some (blit buf 0 (pre ++ [b])), w).
Proof.
  intros Hl. cbn [pset]. erewrite bind_ok by (apply aset_ok; rewrite length_blit by (simpl; lia); lia).
  by rewrite Nat2Z.id, blit_snoc by lia.
Qed.

Lemma receive_data_1 x fuel g :
  receive_data 1 fuel x g =
    ((let more := rx_count g <? u32 (rx_length g - 1) in
     r ← (I2C_GetByte fuel x more : M (i2c_st D) _);
     let '(st, tmp) := r in
     if negb (st =? (if more then I2C_I2STAT_M_RX_DAT_ACK else I2C_I2STAT_M_RX_DAT_NACK))
     then mret (g, Some st)
     else (d ← pset (rx_data g) (rx_count g) tmp;
           mret (g{{ rx_data := d; rx_count := u32 (rx_count g + 1) }}, None))) : @stage D).
Proof. done. Qed.

Lemma receive_data_ok x s fuel n : forall g c d pre buf,
  at_phase Receive d c -> P d -> (S (lag c) < fuel)%nat ->
  rx_data g = Some (blit buf 0 pre) -> rx_count g = Z.of_nat (length pre) ->
  rx_length g = Z.of_nat (length pre + S n) -> rx_length g < 2 ^ 32 ->
  (length pre + S n <= length buf)%nat ->
  reaches x s (receive_data (S n) fuel x g) c
    (g{{ rx_data := Some (blit buf 0 (pre ++ fst (read_all (S n) d))); rx_count := rx_length g }},
     None) (at_phase Over (snd (read_all (S n) d))).
Proof.
  induction n as [|n IH]; intros g c d pre buf Hc HP Hf Hg Hk Hl Hlt Hb.
  - rewrite receive_data_1.
    assert ((rx_count g <? u32 (rx_length g - 1)) = false) as ->.
    { apply Z.ltb_ge. unfold u32. rewrite Z.mod_small; lia. }
    cbv zeta. simpl (read_all 1 d). destruct (sl_read false d) as [b d1] eqn:E1.
    eapply reaches_bind; [by eapply GetByte_ok|]. intros c1 F Hc1. simpl.
    eapply (reaches_bind _ _ _ _ _ (Some (blit buf 0 (pre ++ [u8 b]))) _ (at_phase Over d1)).
    { exists c1. split; [|done]. rewrite Hg, Hk. apply pset_blit. lia. }
    intros c2 _ Hc2. replace (u32 (rx_count g + 1)) with (rx_length g); [by apply reaches_ret|].
    unfold u32. rewrite Z.mod_small; lia.
  - remember (S n) as m. cbn [receive_data].
    assert ((rx_count g <? u32 (rx_length g - 1)) = true) as ->.
    { apply Z.ltb_lt. unfold u32. rewrite Z.mod_small; lia. }
    cbv zeta. cbn [read_all]. replace (match m with O => false | _ => true end) with true by (by subst m).
    pose proof (quiet_read true d HP) as HP1. destruct (sl_read true d) as [b d1] eqn:E1.
    eapply reaches_bind; [by eapply GetByte_ok|]. intros c1 F Hc1. simpl (negb _). cbv iota.
    eapply (reaches_bind _ _ _ _ _ (Some (blit buf 0 (pre ++ [u8 b]))) _ (at_phase Receive d1)).
    { exists c1. split; [|done]. rewrite Hg, Hk. apply pset_blit. lia. }
    intros c2 F2 Hc2. apply fixed_lag in F. apply fixed_lag in F2.
    destruct (IH (g{{ rx_data := Some (blit buf 0 (pre ++ [u8 b])); rx_count := u32 (rx_count g + 1) }})
      c2 d1 (pre ++ [u8 b]) buf Hc2 HP1) as (c3 & E3 & F3 & Hc3); simpl.
    1: lia. 1: done. 1: rewrite length_app, Hk; unfold u32; rewrite Z.mod_small; simpl; lia.
    1: rewrite length_app, Hl; simpl; lia. 1: done. 1: rewrite length_app; simpl; lia.
    destruct (read_all m d1) as [l d2]. simpl in *. exists c3.
    split; [|by split]. rewrite E3. by rewrite <- app_assoc.
Qed.

(** The caller's data: [tx] is sent, then [n] bytes are read into [buf]. *)
Record setup_ok (g : I2C_M_SETUP_Type) (tx : list Z) (n : nat) (buf : list Z) : Prop := {
  so_tx : if bool_decide (tx = []) then has_tx g = false
          else (exists post, tx_data g = Some (tx ++ post)) /\ tx_length g = Z.of_nat (length tx);
  so_rx : if bool_decide (n = 0%nat) then has_rx g = false
          else rx_data g = Some buf /\ rx_length g = Z.of_nat n;
  so_txlen : Z.of_nat (length tx) < 2 ^ 32;
  so_rxlen : Z.of_nat n < 2 ^ 32;
  so_buf : (n <= length buf)%nat
}.

Lemma addr_even a : u8 (Z.shiftl a 1) = u8 (2 * a) /\ Z.testbit (u8 (2 * a)) 0 = false.
Proof.
  rewrite Z.shiftl_mul_pow2, Z.mul_comm by lia. split; [done|].
  rewrite Z.bit0_odd. unfold u8. rewrite Zodd_mod.
  replace ((2 * a) mod 256 mod 2) with 0 by lia. done.
Qed.

Lemma addr_odd a :
  u8 (Z.lor (Z.shiftl a 1) 0x01) = u8 (2 * a + 1) /\ Z.testbit (u8 (2 * a + 1)) 0 = true.
Proof.
  split.
  - f_equal. apply Z.bits_inj'. intros i Hi. rewrite Z.lor_spec.
    destruct (decide (i = 0)) as [->|].
    + rewrite Z.shiftl_spec_low by lia. by rewrite !Z.bit0_odd, Z.odd_odd.
    + rewrite Z.shiftl_spec by lia. replace i with (Z.succ (i - 1)) at 3 by lia.
      rewrite Z.testbit_odd_succ by lia. replace (Z.testbit 0x01 i) with false; [by rewrite orb_false_r|].
      symmetry. change 1 with (2 ^ 0). apply Z.pow2_bits_false. lia.
  - rewrite Z.bit0_odd. unfold u8. rewrite Zodd_mod.
    by replace ((2 * a + 1) mod 256 mod 2) with 1 by lia.
Qed.

(** What a successful transfer leaves in the caller's data. *)
Definition after_transfer (g : I2C_M_SETUP_Type) (tx : list Z) (r : list Z) : I2C_M_SETUP_Type :=
  g{{ tx_count := Z.of_nat (length tx);
      rx_data := match r, rx_data g with
                 | _ :: _, Some buf => Some (blit buf 0 r)
                 | _, d => d
                 end;
      rx_count := Z.of_nat (length r) }}.

Lemma has_tx_ok g tx n buf : setup_ok g tx n buf -> has_tx g = negb (bool_decide (tx = [])).
Proof.
  intros [Ht _ _ _ _]. case_bool_decide as E; [done|]. destruct Ht as [[post Hp] Hl].
  unfold has_tx. rewrite Hp, Hl. by destruct tx.
Qed.

Lemma has_rx_ok g tx n buf : setup_ok g tx n buf -> has_rx g = negb (bool_decide (n = 0%nat)).
Proof.
  intros [_ Hr _ _ _]. case_bool_decide as E; [done|]. destruct Hr as [Hd Hl].
  unfold has_rx. rewrite Hd, Hl. by destruct n.
Qed.

Lemma tx_stage_ok x s fuel g tx n buf c d d1 :
  setup_ok g tx n buf -> tx_count g = 0 -> at_phase Address d c -> P d -> (S (lag c) < fuel)%nat ->
  match tx with [] => Some d | _ => bus_write (sl_addr7bit g) tx d end = Some d1 ->
  reaches x s (tx_stage fuel x g) c (g{{ tx_count := Z.of_nat (length tx) }}, None)
    (fun c' => at_phase (if bool_decide (tx = []) then Address else Transmit) d1 c' /\ P d1).
Proof.
  intros Hg H0 Hc HP Hf E. unfold tx_stage. rewrite (has_tx_ok _ _ _ _ Hg).
  destruct tx as [|b0 l0]; simpl negb; cbv iota.
  - injection E as <-. change (Z.of_nat (length [])) with 0. rewrite <- H0. destruct g.
    by apply reaches_ret.
  - set (tx := b0 :: l0) in *. unfold bus_write in E. destruct (addr_even (sl_addr7bit g)) as [Eb Eo].
    destruct (sl_addr (u8 (2 * sl_addr7bit g)) d) as [[] d2] eqn:E2; [|done].
    eapply reaches_bind; [eapply SendByte_addr; [done|done|done|by rewrite Eb]|].
    intros c1 F Hc1. rewrite Eb in *. unfold addr_code. unfold addr_phase in Hc1. rewrite Eo in *. simpl.
    pose proof (quiet_addr (u8 (2 * sl_addr7bit g)) d HP) as HP2. rewrite E2 in HP2.
    pose proof (so_tx _ _ _ _ Hg) as Ht. simpl in Ht. destruct Ht as [Hpost Hl].
    pose proof (so_txlen _ _ _ _ Hg) as Hlt. apply fixed_lag in F.
    replace (Z.to_nat (tx_length g - tx_count g)) with (length tx) by (simpl in *; lia).
    destruct (send_data_ok x s fuel tx g c1 d2 d1 []) as (c3 & E3 & F3 & Hc3); try done; try lia.
    exists c3. split; [exact E3|]. split; [done|]. split; [done|]. by eapply send_all_quiet, E.
Qed.

Lemma restart_stage_ok x s fuel g tx n buf c d :
  setup_ok g tx n buf -> at_phase (if bool_decide (tx = []) then Address else Transmit) d c ->
  P d -> (S (lag c) < fuel)%nat ->
  reaches x s (restart_stage fuel x g) c (g, None)
    (at_phase (if bool_decide (tx = []) || bool_decide (n <> 0%nat) then Address else Transmit) d).
Proof.
  intros Hg Hc HP Hf. unfold restart_stage.
  rewrite (has_tx_ok _ _ _ _ Hg), (has_rx_ok _ _ _ _ Hg).
  destruct (bool_decide (tx = [])); [by apply reaches_ret|].
  destruct n as [|n]; [by apply reaches_ret|]. simpl. unfold start_stage.
  eapply reaches_bind; [by eapply Restart_ok|]. intros c1 F Hc1. by apply reaches_ret.
Qed.

Lemma rx_stage_ok x s fuel g tx n buf c d r d' p :
  setup_ok g tx n buf -> rx_count g = 0 -> at_phase p d c -> (n <> 0%nat -> p = Address) ->
  P d -> (S (lag c) < fuel)%nat ->
  match n with O => Some ([], d) | _ => bus_read (sl_addr7bit g) n d end = Some (r, d') ->
  reaches x s (rx_stage fuel x g) c
    (g{{ rx_data := match r, rx_data g with
                    | _ :: _, Some buf => Some (blit buf 0 r)
                    | _, d => d
                    end;
         rx_count := Z.of_nat (length r) }}, None)
    (fun c' => at_phase (if bool_decide (n = 0%nat) then p else Over) d' c' /\ P d').
Proof.
  intros Hg H0 Hc Hp HP Hf E. unfold rx_stage. rewrite (has_rx_ok _ _ _ _ Hg).
  destruct n as [|n]; simpl negb; cbv iota.
  - injection E as <- <-. change (Z.of_nat (length [])) with 0. rewrite <- H0. destruct g.
    by apply reaches_ret.
  - specialize (Hp ltac:(done)) as ->. unfold bus_read in E.
    destruct (addr_odd (sl_addr7bit g)) as [Eb Eo].
    destruct (sl_addr (u8 (2 * sl_addr7bit g + 1)) d) as [[] d2] eqn:E2; [|done].
    eapply reaches_bind; [eapply SendByte_addr; [done|done|done|by rewrite Eb]|].
    intros c1 F Hc1. rewrite Eb in *. unfold addr_code. unfold addr_phase in Hc1. rewrite Eo in *. simpl.
    pose proof (quiet_addr (u8 (2 * sl_addr7bit g + 1)) d HP) as HP2. rewrite E2 in HP2.
    pose proof (so_rx _ _ _ _ Hg) as Hr. simpl in Hr. destruct Hr as [Hd Hl].
    pose proof (so_rxlen _ _ _ _ Hg) as Hlt. pose proof (so_buf _ _ _ _ Hg) as Hb.
    apply fixed_lag in F. replace (Z.to_nat (rx_length g - rx_count g)) with (S n) by lia.
    destruct (receive_data_ok x s fuel n g c1 d2 [] buf) as (c3 & E3 & F3 & Hc3);
      rewrite ?blit_nil; try done; try (simpl; lia).
    assert (E1 : read_all (S n) d2 = (r, d')) by congruence. pose proof (read_all_length (S n) d2) as Hlen.
    pose proof (read_all_quiet (S n) d2 HP2) as HP3. rewrite E1 in E3, Hc3, Hlen, HP3.
    exists c3. split; [|by split]. cbn [fst] in Hlen.
    rewrite E3. destruct r; [discriminate Hlen|]. rewrite Hd, Hlen, <- Hl. done.
Qed.

Lemma attempt_ok x s fuel g tx n buf c d r d' :
  setup_ok g tx n buf -> released d c -> P d -> (S (S (2 * lag c)) < fuel)%nat ->
  transaction (sl_addr7bit g) tx n d = Some (r, d') ->
  reaches x s (attempt fuel x g) c (after_transfer g tx r, None)
    (fun c' => P d' /\ exists p, at_phase p d' c').
Proof.
  intros Hg Hc HP Hf E. unfold attempt, and_then.
  set (g0 := g{{ tx_count := 0; rx_count := 0 }}).
  assert (Hg0 : setup_ok g0 tx n buf) by (by destruct Hg).
  unfold transaction in E.
  destruct (match tx with [] => Some d | _ => bus_write (sl_addr7bit g) tx d end) as [d1|] eqn:E1;
    [|done]. simpl in E.
  eapply (reaches_bind _ _ _ _ _ (g0, None)).
  { unfold start_stage. eapply reaches_bind; [by eapply Start_ok|]. intros c1 F Hc1.
    simpl. apply (reaches_ret _ _ _ c1 (at_phase Address d)). done. }
  intros c1 F1%fixed_lag Hc1. cbv iota beta.
  eapply reaches_bind; [eapply (tx_stage_ok _ _ _ g0 _ _ _ _ d d1); [done|done|done|done|lia|done]|].
  intros c2 F2%fixed_lag [Hc2 HP1]. cbv iota beta. set (g1 := g0{{ tx_count := _ }}).
  assert (Hg1 : setup_ok g1 tx n buf) by (by destruct Hg0).
  eapply reaches_bind; [eapply (restart_stage_ok _ _ _ g1 _ _ _ _ d1); [done|done|done|lia]|].
  intros c3 F3%fixed_lag Hc3. cbv iota beta.
  destruct (rx_stage_ok x s fuel g1 tx n buf c3 d1 r d'
    (if bool_decide (tx = []) || bool_decide (n <> 0%nat) then Address else Transmit))
    as (c4 & E4 & F4 & Hc4 & HP4); [done|done|done| |done|lia|done|].
  - intros Hn. rewrite (bool_decide_true (n <> 0%nat)), orb_true_r by done. done.
  - exists c4. split; [exact E4|]. split; [done|]. split; [done|]. by eexists.
Qed.

Lemma transfer_run x s fuel g tx n buf c d r d' :
  setup_ok g tx n buf -> released d c -> P d -> (S (S (2 * lag c)) < fuel)%nat ->
  transaction (sl_addr7bit g) tx n d = Some (r, d') ->
  reaches x s (I2C_MasterTransferData fuel x g I2C_TRANSFER_POLLING) c
    (SUCCESS, after_transfer (g{{ status := 0; retransmissions_count := 0 }}) tx r)
    (released (sl_stop d')).
Proof.
  intros Hg Hc HP Hf E. unfold I2C_MasterTransferData, attempts.
  set (g0 := (g{{ tx_count := 0; rx_count := 0; status := 0 }}){{ retransmissions_count := 0 }}).
  assert (Hg0 : setup_ok g0 tx n buf) by (by destruct Hg).
  cbn [while]. eapply (reaches_bind _ _ _ _ _ (Break (SUCCESS, after_transfer g0 tx r))).
  - eapply reaches_bind; [by eapply (attempt_ok _ _ _ g0)|].
    intros c1 _ [HP1 [p Hc1]]. cbv iota beta.
    eapply reaches_bind; [by eapply Stop_ok|]. intros c2 _ Hc2. by apply reaches_ret.
  - intros c1 _ Hc1. by apply reaches_ret.
Qed.

(** *** Whatever is acknowledged *)

Lemma send_upto_quiet l d : P d -> P (snd (send_upto l d)).
Proof.
  revert d. induction l as [|b l IH]; intros d HP; simpl; [done|].
  pose proof (quiet_write (u8 b) d HP) as HP1. destruct (sl_write (u8 b) d) as [[] d1]; [|done].
  specialize (IH d1 HP1). by destruct (send_upto l d1) as [[k ok] d2].
Qed.

Lemma send_upto_all l d d' k : send_upto l d = (k, true, d') -> send_all l d = Some d' /\ k = length l.
Proof.
  revert d k. induction l as [|b l IH]; intros d k; simpl; [by intros [= <- <-]|].
  destruct (sl_write (u8 b) d) as [[] d1]; [|done].
  destruct (send_upto l d1) as [[k1 ok] d2] eqn:E. intros [= <- -> ->].
  destruct (IH d1 k1 E) as [H1 ->]. done.
Qed.

(** The data bytes up to one that is not acknowledged. *)
Lemma send_data_nack x s fuel l : forall g c d k d' pre,
  at_phase Transmit d c -> P d -> (S (lag c) < fuel)%nat ->
  (exists post, tx_data g = Some (pre ++ l ++ post)) ->
  tx_count g = Z.of_nat (length pre) -> Z.of_nat (length pre + length l) < 2 ^ 32 ->
  send_upto l d = (k, false, d') ->
  reaches x s (send_data (length l) fuel x g) c
    (g{{ tx_count := Z.of_nat (length pre + k) }},
     Some (Z.lor I2C_I2STAT_M_TX_DAT_NACK I2C_SETUP_STATUS_NOACKF)) (at_phase Transmit d').
Proof.
  induction l as [|b l IH]; intros g c d k d' pre Hc HP Hf [post Hg] Hn Hb E; cbn [length send_data];
    simpl in E; [done|].
  destruct (sl_write (u8 b) d) as [ack d1] eqn:E1. rewrite Hg. cbn [pget].
  eapply (reaches_bind _ _ _ _ _ b _ (fun c1 => c1 = c)).
  { exists c. split; [|done]. apply aget_ok; [lia|]. rewrite Hn, Nat2Z.id.
    by rewrite lookup_app_r, Nat.sub_diag by lia. }
  intros c1 _ ->. eapply reaches_bind; [by eapply SendByte_data|]. intros c1 F Hc1.
  destruct ack; simpl.
  - destruct (send_upto l d1) as [[k1 ok] d2] eqn:E2. injection E as <- -> ->.
    pose proof (quiet_write (u8 b) d HP) as HP1. rewrite E1 in HP1. apply fixed_lag in F.
    pose proof (IH (g{{ tx_count := u32 (tx_count g + 1) }}) c1 d1 k1 d' (pre ++ [b]) Hc1 HP1) as IH1.
    rewrite length_app in IH1. simpl in IH1, Hb. rewrite <- !Nat.add_assoc in IH1. simpl in IH1.
    apply IH1; [lia| | |lia|done].
    + exists post. by rewrite <- app_assoc.
    + rewrite Hn. unfold u32. rewrite Z.mod_small; lia.
  - injection E as <- <-. rewrite Nat.add_0_r, <- Hn. destruct g. by apply reaches_ret.
Qed.

(** Something is going on on the bus, with the slave in state [d]. *)
Definition busy_bus (d : D) (c : i2c_ctl D) : Prop := P d /\ exists p, p <> Idle /\ at_phase p d c.

(** The status that is kept of a byte that was not acknowledged. *)
Definition refusal (code : Z) : Z := Z.lor code I2C_SETUP_STATUS_NOACKF.

Lemma tx_stage_refused x s fuel g tx n buf c d code k d1 :
  setup_ok g tx n buf -> tx_count g = 0 -> at_phase Address d c -> P d -> (S (lag c) < fuel)%nat ->
  try_write (sl_addr7bit g) tx d = (Some (code, k), d1) ->
  reaches x s (tx_stage fuel x g) c (g{{ tx_count := Z.of_nat k }}, Some (refusal code))
    (busy_bus d1).
Proof.
  intros Hg H0 Hc HP Hf E. unfold tx_stage. rewrite (has_tx_ok _ _ _ _ Hg).
  destruct tx as [|b0 l0]; [done|]. simpl negb. cbv iota. set (tx := b0 :: l0) in *. cbn [try_write] in E.
  destruct (addr_even (sl_addr7bit g)) as [Eb Eo].
  unfold try_write in E. fold tx in E. subst tx. cbv iota in E. set (tx := b0 :: l0) in *.
  destruct (sl_addr (u8 (2 * sl_addr7bit g)) d) as [ack d2] eqn:E2.
  eapply reaches_bind; [eapply SendByte_addr; [done|done|done|by rewrite Eb]|].
  intros c1 F Hc1. rewrite Eb in *. unfold addr_code. unfold addr_phase in Hc1. rewrite Eo in *. simpl.
  pose proof (quiet_addr (u8 (2 * sl_addr7bit g)) d HP) as HP2. rewrite E2 in HP2. simpl in HP2.
  destruct ack.
  - destruct (send_upto tx d2) as [[k1 ok] d3] eqn:E3. destruct ok; [done|]. injection E as <- <- <-.
    pose proof (so_tx _ _ _ _ Hg) as Ht. simpl in Ht. destruct Ht as [Hpost Hl].
    pose proof (so_txlen _ _ _ _ Hg) as Hlt. apply fixed_lag in F.
    pose proof (send_upto_quiet tx d2 HP2) as HP3. rewrite E3 in HP3. simpl.
    replace (Z.to_nat (tx_length g - tx_count g)) with (length tx) by (simpl in *; lia).
    destruct (send_data_nack x s fuel tx g c1 d2 k1 d3 []) as (c3 & E4 & F3 & Hc3); try done; try lia.
    exists c3. split; [exact E4|]. split; [done|]. split; [done|by exists Transmit].
  - injection E as <- <- <-. simpl. change (Z.of_nat 0) with 0. rewrite <- H0.
    exists c1. split; [by destruct g|]. split; [done|]. split; [done|by exists Transmit].
Qed.

Lemma rx_stage_refused x s fuel g tx n buf c d code k d1 :
  setup_ok g tx n buf -> at_phase Address d c -> P d -> (S (lag c) < fuel)%nat ->
  try_read (sl_addr7bit g) tx n d = (Refused code k, d1) ->
  k = length tx /\ n <> 0%nat /\ reaches x s (rx_stage fuel x g) c (g, Some (refusal code)) (busy_bus d1).
Proof.
  intros Hg Hc HP Hf E. unfold rx_stage. rewrite (has_rx_ok _ _ _ _ Hg).
  destruct n as [|n]; [done|]. unfold try_read in E.
  destruct (addr_odd (sl_addr7bit g)) as [Eb Eo].
  destruct (sl_addr (u8 (2 * sl_addr7bit g + 1)) d) as [ack d2] eqn:E2.
  destruct ack; [by destruct (read_all (S n) d2)|]. injection E as <- <- <-.
  split; [done|]. split; [done|]. simpl negb. cbv iota.
  eapply reaches_bind; [eapply SendByte_addr; [done|done|done|by rewrite Eb]|].
  intros c1 F Hc1. rewrite Eb in *. unfold addr_code. unfold addr_phase in Hc1. rewrite Eo in *. simpl.
  pose proof (quiet_addr (u8 (2 * sl_addr7bit g + 1)) d HP) as HP2. rewrite E2 in HP2. simpl in HP2.
  exists c1. split; [done|]. split; [done|]. split; [done|by exists Over].
Qed.

(** The START of an attempt, the first one or a repeated one. *)
Lemma start_stage_ok x s fuel g c d : (released d c /\ P d) \/ busy_bus d c ->
  (S (S (2 * lag c)) < fuel)%nat ->
  reaches x s (start_stage fuel x g) c (g, None) (at_phase Address d).
Proof.
  intros Hc Hf. unfold start_stage. destruct Hc as [[Hc HP]|[HP (p & Hp & Hc)]].
  - eapply reaches_bind; [by eapply Start_ok|]. intros c1 F Hc1. simpl. by apply reaches_ret.
  - eapply reaches_bind; [eapply Restart_ok; [done|done|done|lia]|].
    intros c1 F Hc1. simpl. by apply reaches_ret.
Qed.

Lemma try_write_ok a tx d d1 : try_write a tx d = (None, d1) ->
  match tx with [] => Some d | _ => bus_write a tx d end = Some d1.
Proof.
  unfold try_write, bus_write. destruct tx as [|b l]; [by intros [= ->]|].
  destruct (sl_addr (u8 (2 * a)) d) as [[] d2]; [|done].
  destruct (send_upto (b :: l) d2) as [[k []] d3] eqn:E; [|done]. intros [= <-].
  by apply send_upto_all in E as [-> _].
Qed.

Lemma try_read_ok a tx n d r d1 : try_read a tx n d = (Done r, d1) ->
  match n with O => Some ([], d) | _ => bus_read a n d end = Some (r, d1) /\ length r = n.
Proof.
  unfold try_read, bus_read. destruct n as [|n]; [by intros [= <- <-]|].
  destruct (sl_addr (u8 (2 * a + 1)) d) as [[] d2]; [|done].
  pose proof (read_all_length (S n) d2) as Hl. destruct (read_all (S n) d2) as [r2 d3].
  by intros [= <- <-].
Qed.

(** One attempt: the transaction, done or refused. *)
Definition after_attempt (g : I2C_M_SETUP_Type) (tx : list Z) (o : outcome)
    : I2C_M_SETUP_Type * option Z :=
  match o with
  | Done r => (after_transfer g tx r, None)
  | Refused code k => (g{{ tx_count := Z.of_nat k; rx_count := 0 }}, Some (refusal code))
  end.

Lemma attempt_any x s fuel g tx n buf c d o d' :
  setup_ok g tx n buf -> (released d c /\ P d) \/ busy_bus d c -> (S (S (2 * lag c)) < fuel)%nat ->
  try_transaction (sl_addr7bit g) tx n d = (o, d') ->
  reaches x s (attempt fuel x g) c (after_attempt g tx o) (busy_bus d').
Proof.
  intros Hg Hc Hf E. assert (P d) as HP by (destruct Hc as [[_ ?]|[? _]]; done).
  unfold attempt, and_then. set (g0 := g{{ tx_count := 0; rx_count := 0 }}).
  assert (Hg0 : setup_ok g0 tx n buf) by (by destruct Hg).
  eapply reaches_bind; [by apply (start_stage_ok _ _ _ g0 _ d)|].
  intros c1 F1%fixed_lag Hc1. cbv iota beta. unfold try_transaction in E.
  destruct (try_write (sl_addr7bit g) tx d) as [[[code k]|] d1] eqn:E1.
  - injection E as <- <-.
    eapply reaches_bind; [eapply (tx_stage_refused _ _ _ g0 tx n buf); [done|done|done|done|lia|done]|].
    intros c2 F2 Hc2. by apply reaches_ret.
  - apply try_write_ok in E1 as Ew.
    eapply reaches_bind; [eapply (tx_stage_ok _ _ _ g0 _ _ _ _ d d1); [done|done|done|done|lia|done]|].
    intros c2 F2%fixed_lag [Hc2 HP1]. cbv iota beta. set (g1 := g0{{ tx_count := _ }}).
    assert (Hg1 : setup_ok g1 tx n buf) by (by destruct Hg0).
    eapply reaches_bind; [eapply (restart_stage_ok _ _ _ g1 _ _ _ _ d1); [done|done|done|lia]|].
    intros c3 F3%fixed_lag Hc3. cbv iota beta. set (p3 := if _ || _ then Address else Transmit) in Hc3.
    assert (n <> 0%nat -> p3 = Address) as Hp3.
    { intros Hn. unfold p3. rewrite (bool_decide_true (n <> 0%nat)), orb_true_r by done. done. }
    destruct o as [r|code k].
    + destruct (try_read_ok _ _ _ _ _ _ E) as [Er _].
      destruct (rx_stage_ok x s fuel g1 tx n buf c3 d1 r d' p3) as (c4 & E4 & F4 & Hc4 & HP4);
        [done|done|done|done|done|lia|done|].
      exists c4. split; [exact E4|]. split; [done|]. split; [done|].
      eexists. split; [|exact Hc4]. unfold p3. destruct (bool_decide (n = 0%nat)); [|done].
      by destruct (_ || _).
    + assert (n <> 0%nat) as Hn by (by intros ->).
      rewrite (Hp3 Hn) in Hc3.
      destruct (rx_stage_refused x s fuel g1 tx n buf c3 d1 code k d') as (-> & _ & Hrun);
        [done|done|done|lia|done|]. exact Hrun.
Qed.

(** What the whole transfer leaves in the caller's data. *)
Definition transfer_result (g : I2C_M_SETUP_Type) (tx : list Z) (k : nat) (o : outcome)
    : Status * I2C_M_SETUP_Type :=
  match o with
  | Done r => (SUCCESS, after_transfer (g{{ status := 0; retransmissions_count := Z.of_nat k }}) tx r)
  | Refused code j => (ERROR, g{{ tx_count := Z.of_nat j; rx_count := 0; status := refusal code;
                                  retransmissions_count := Z.of_nat k }})
  end.

Lemma attempts_any x s fuel g tx n buf :
  setup_ok g tx n buf -> 0 <= retransmissions_max g < 2 ^ 32 - 1 ->
  forall m k c d j i k' o d', m = (Z.to_nat (retransmissions_max g) - k)%nat ->
  Z.of_nat k <= retransmissions_max g -> (S (S (2 * lag c)) < fuel)%nat ->
  (released d c /\ P d) \/ busy_bus d c ->
  transactions m k (sl_addr7bit g) tx n d = (k', o, d') ->
  reaches x s (while (S m) (one_attempt fuel x)
      (g{{ tx_count := j; rx_count := i; status := 0; retransmissions_count := Z.of_nat k }})) c
    (transfer_result g tx k' o) (released (sl_stop d')).
Proof.
  intros Hg Hmax. induction m as [|m IH]; intros k c d j i k' o d' Hm Hk Hf Hc E.
  all: set (gk := g{{ tx_count := j; rx_count := i; status := 0; retransmissions_count := Z.of_nat k }}).
  all: assert (Hgk : setup_ok gk tx n buf) by (by destruct Hg).
  all: assert (Hwrap : u32 (Z.of_nat k + 1) = Z.of_nat k + 1) by (unfold u32; rewrite Z.mod_small; lia).
  all: cbn [transactions] in E; destruct (try_transaction (sl_addr7bit g) tx n d) as [o1 d1] eqn:E1.
  all: cbn [while]; unfold one_attempt at 1.
  all: pose proof (attempt_any x s fuel gk tx n buf c d o1 d1 Hgk Hc Hf E1) as Hat.
  all: destruct o1 as [r|code i'].
  1, 3: injection E as <- <- <-;
    eapply (reaches_bind _ _ _ _ _ (Break (transfer_result g tx k (Done r)))); [|by intros; apply reaches_ret];
    eapply reaches_bind; [exact Hat|]; intros c2 F2 [HP2 (p & Hp & Hc2)]; cbv iota beta zeta;
    eapply reaches_bind; [by eapply Stop_ok|]; intros c3 _ Hc3; by apply reaches_ret.
  - injection E as <- <- <-.
    eapply (reaches_bind _ _ _ _ _ (Break (transfer_result g tx (S k) (Refused code i')))); [|by intros; apply reaches_ret].
    eapply reaches_bind; [exact Hat|]. intros c2 F2 [HP2 (p & Hp & Hc2)]. cbv iota beta zeta. simpl. rewrite Hwrap.
    destruct (Z.ltb_spec (retransmissions_max g) (Z.of_nat k + 1)); [|lia].
    eapply reaches_bind; [by eapply Stop_ok|]. intros c3 _ Hc3.
    replace (Z.of_nat k + 1) with (Z.of_nat (S k)) by lia. by apply reaches_ret.
  - eapply (reaches_bind _ _ _ _ _ (Continue (g{{ tx_count := Z.of_nat i'; rx_count := 0; status := 0;
      retransmissions_count := Z.of_nat (S k) }})) _ (busy_bus d1)).
    + eapply reaches_bind; [exact Hat|]. intros c2 F2 Hc2. cbv iota beta zeta. simpl. rewrite Hwrap.
      destruct (Z.ltb_spec (retransmissions_max g) (Z.of_nat k + 1)); [lia|].
      replace (Z.of_nat k + 1) with (Z.of_nat (S k)) by lia. by apply reaches_ret.
    + intros c3 F3%fixed_lag Hc3. apply (IH (S k) c3 d1); [lia|lia|lia|by right|exact E].
Qed.

Lemma transfer_any x s fuel g tx n buf c d k o d' :
  setup_ok g tx n buf -> released d c -> P d -> (S (S (2 * lag c)) < fuel)%nat ->
  0 <= retransmissions_max g < 2 ^ 32 - 1 ->
  transactions (Z.to_nat (retransmissions_max g)) 0 (sl_addr7bit g) tx n d = (k, o, d') ->
  reaches x s (I2C_MasterTransferData fuel x g I2C_TRANSFER_POLLING) c
    (transfer_result g tx k o) (released (sl_stop d')).
Proof.
  intros Hg Hc HP Hf Hmax E. unfold I2C_MasterTransferData, attempts.
  apply (attempts_any x s fuel g tx n buf Hg Hmax _ 0 c d 0 0 k o d');
    [simpl; lia|lia|done|by left|exact E].
Qed.

(** *** Nobody answers *)

Definition nobody_at (a : Z) (d : D) : Prop :=
  sl_addr (u8 (2 * a)) d = (false, d) /\ sl_addr (u8 (2 * a + 1)) d = (false, d).

Lemma attempt_nack x s fuel g tx n buf c d :
  setup_ok g tx n buf -> (tx <> [] \/ n <> 0%nat) ->
  nobody_at (sl_addr7bit g) d -> P d -> (S (S (2 * lag c)) < fuel)%nat ->
  (released d c \/ exists p, p <> Idle /\ at_phase p d c) ->
  reaches x s (attempt fuel x g) c
    (g{{ tx_count := 0; rx_count := 0 }},
     Some (Z.lor I2C_SETUP_STATUS_NOACKF (if bool_decide (tx = []) then I2C_I2STAT_M_RX_SLAR_NACK
                                          else I2C_I2STAT_M_TX_SLAW_NACK)))
    (fun c' => exists p, p <> Idle /\ at_phase p d c').
Proof.
  intros Hg Hne Hno HP Hf Hc. unfold attempt, and_then.
  set (g0 := g{{ tx_count := 0; rx_count := 0 }}).
  assert (Hg0 : setup_ok g0 tx n buf) by (by destruct Hg).
  eapply (reaches_bind _ _ _ _ _ (g0, None) _ (at_phase Address d)).
  { unfold start_stage. destruct Hc as [Hc|(p & Hp & Hc)].
    - eapply reaches_bind; [by eapply Start_ok|]. intros c1 F Hc1. simpl. by apply reaches_ret.
    - eapply reaches_bind; [eapply Restart_ok; [done|done|done|lia]|].
      intros c1 F Hc1. simpl. by apply reaches_ret. }
  intros c1 F1%fixed_lag Hc1. cbv iota beta. case_bool_decide as Ht.
  - destruct Hne as [|Hn]; [done|].
    eapply (reaches_bind _ _ _ _ _ (g0, None) _ (at_phase Address d)).
    { unfold tx_stage. rewrite (has_tx_ok _ _ _ _ Hg0), bool_decide_true by done. by apply reaches_ret. }
    intros c2 F2%fixed_lag Hc2. cbv iota beta.
    eapply (reaches_bind _ _ _ _ _ (g0, None) _ (at_phase Address d)).
    { unfold restart_stage. rewrite (has_tx_ok _ _ _ _ Hg0), bool_decide_true by done.
      by apply reaches_ret. }
    intros c3 F3%fixed_lag Hc3. cbv iota beta. unfold rx_stage.
    rewrite (has_rx_ok _ _ _ _ Hg0), bool_decide_false by done. cbn [negb].
    destruct (addr_odd (sl_addr7bit g0)) as [Eb Eo].
    eapply reaches_bind; [eapply SendByte_addr; [done|done|lia|rewrite Eb; apply Hno]|].
    intros c4 F4 Hc4. rewrite Eb in *. unfold addr_code. unfold addr_phase in Hc4. rewrite Eo in *.
    apply reaches_ret. by exists Over.
  - eapply (reaches_bind _ _ _ _ _ (g0, Some _) _ (at_phase Transmit d)).
    + unfold tx_stage. rewrite (has_tx_ok _ _ _ _ Hg0), bool_decide_false by done. cbn [negb].
      destruct (addr_even (sl_addr7bit g0)) as [Eb Eo].
      eapply reaches_bind; [eapply SendByte_addr; [done|done|lia|rewrite Eb; apply Hno]|].
      intros c4 F4 Hc4. rewrite Eb in *. unfold addr_code. unfold addr_phase in Hc4. rewrite Eo in *.
      by apply reaches_ret.
    + intros c4 F4 Hc4. apply reaches_ret. by exists Transmit.
Qed.

(** What a transfer that nobody answers leaves in the caller's data. *)
Definition unanswered (g : I2C_M_SETUP_Type) (tx : list Z) : I2C_M_SETUP_Type :=
  g{{ tx_count := 0; rx_count := 0; retransmissions_count := retransmissions_max g + 1;
      status := Z.lor I2C_SETUP_STATUS_NOACKF
        (if bool_decide (tx = []) then I2C_I2STAT_M_RX_SLAR_NACK else I2C_I2STAT_M_TX_SLAW_NACK) }}.

(** The loop, [k] attempts having failed. *)
Lemma attempts_nack x s fuel g tx n buf d :
  setup_ok g tx n buf -> (tx <> [] \/ n <> 0%nat) -> nobody_at (sl_addr7bit g) d -> P d ->
  0 <= retransmissions_max g < 2 ^ 32 - 1 ->
  forall m k c st, m = (Z.to_nat (retransmissions_max g) - k)%nat ->
  Z.of_nat k <= retransmissions_max g -> (S (S (2 * lag c)) < fuel)%nat ->
  (released d c \/ exists p, p <> Idle /\ at_phase p d c) ->
  reaches x s (while (S m) (one_attempt fuel x)
      (g{{ tx_count := 0; rx_count := 0; status := st; retransmissions_count := Z.of_nat k }})) c
    (ERROR, unanswered g tx) (released (sl_stop d)).
Proof.
  intros Hg Hne Hno HP Hmax. induction m as [|m IH]; intros k c st Hm Hk Hf Hc.
  all: set (gk := g{{ tx_count := 0; rx_count := 0; status := st; retransmissions_count := Z.of_nat k }}).
  all: assert (Hgk : setup_ok gk tx n buf) by (by destruct Hg).
  all: assert (Hwrap : u32 (Z.of_nat k + 1) = Z.of_nat k + 1) by (unfold u32; rewrite Z.mod_small; lia).
  all: cbn [while]; unfold one_attempt at 1.
  - eapply (reaches_bind _ _ _ _ _ (Break (ERROR, unanswered g tx)) _ (released (sl_stop d))).
    + eapply reaches_bind; [by eapply (attempt_nack _ _ _ gk)|].
      intros c2 F2 (p & Hp & Hc2). cbv iota beta zeta. simpl. rewrite Hwrap.
      destruct (Z.ltb_spec (retransmissions_max g) (Z.of_nat k + 1)); [|lia].
      eapply reaches_bind; [by eapply Stop_ok|]. intros c3 _ Hc3.
      unfold unanswered. replace (retransmissions_max g + 1) with (Z.of_nat k + 1) by lia.
      by apply reaches_ret.
    + intros c3 _ Hc3. by apply reaches_ret.
  - eapply (reaches_bind _ _ _ _ _ (Continue (gk{{ retransmissions_count := Z.of_nat (S k) }})) _
      (fun c' => exists p, p <> Idle /\ at_phase p d c')).
    + eapply reaches_bind; [by eapply (attempt_nack _ _ _ gk)|].
      intros c2 F2 Hc2. cbv iota beta zeta. simpl. rewrite Hwrap.
      destruct (Z.ltb_spec (retransmissions_max g) (Z.of_nat k + 1)); [lia|].
      replace (Z.of_nat k + 1) with (Z.of_nat (S k)) by lia. by apply reaches_ret.
    + intros c3 F3%fixed_lag Hc3. apply (IH (S k) c3 st); [lia|lia|lia|by right].
Qed.

Lemma transfer_nack x s fuel g tx n buf c d :
  setup_ok g tx n buf -> (tx <> [] \/ n <> 0%nat) -> nobody_at (sl_addr7bit g) d -> P d ->
  (S (S (2 * lag c)) < fuel)%nat -> 0 <= retransmissions_max g < 2 ^ 32 - 1 -> released d c ->
  reaches x s (I2C_MasterTransferData fuel x g I2C_TRANSFER_POLLING) c
    (ERROR, unanswered g tx) (released (sl_stop d)).
Proof.
  intros Hg Hne Hno HP Hf Hmax Hc. unfold I2C_MasterTransferData, attempts.
  apply (attempts_nack x s fuel g tx n buf d Hg Hne Hno HP Hmax _ 0 c 0);
    [simpl; lia|lia|done|by left].
Qed.

End Bytes.

(** What [reaches] says of a run from a state. *)
Lemma reaches_run {D} `{Slave D} {A} x s (m : M (i2c_st D) A) r Q :
  reaches x s m (ctl_of x s) r Q ->
  exists c', m s = Ok (r, put_ctl x c' s) /\ fixed c' = fixed (ctl_of x s) /\ Q c'.
Proof. unfold reaches. by rewrite put_ctl_same. Qed.

(** ** Transfers by polling *)

(** C6: A transfer by polling carries out its transaction, for every slave that changes only
    by what it sees on the bus and however long an action of the controller takes: the
    transaction is tried until every address and data byte of it is acknowledged, each time
    from its start, behind a repeated START, or until it was refused [retransmissions_max + 1]
    times.  In the first case the call succeeds and the bytes that were read are in the
    caller's buffer; in the second one it fails with the status of the byte that was not
    acknowledged and the number of those that were.  Then the slave is in the state that
    these attempts and one STOP leave, and nothing but this controller has changed. *)
Theorem transfer_is_transaction {D} `{Slave D} (P : D -> Prop) `{!QuietSlave D P}
    x (s : i2c_st D) fuel g tx n buf d k o d'
    (Hg : setup_ok g tx n buf) (Hfree : released P d (ctl_of x s)) (HP : P d)
    (Hfuel : (S (S (2 * lag (ctl_of x s))) < fuel)%nat)
    (Hmax : 0 <= retransmissions_max g < 2 ^ 32 - 1)
    (Ht : transactions (Z.to_nat (retransmissions_max g)) 0 (sl_addr7bit g) tx n d = (k, o, d')) :
  exists c', I2C_MasterTransferData fuel x g I2C_TRANSFER_POLLING s =
      Ok (transfer_result g tx k o, put_ctl x c' s) /\
    released P (sl_stop d') c' /\ fixed c' = fixed (ctl_of x s).
Proof.
  destruct (reaches_run x s _ _ _ (transfer_any P x s fuel g tx n buf _ d k o d' Hg Hfree HP Hfuel Hmax Ht))
    as (c' & E' & F & Hc').
  by exists c'.
Qed.

(** A transfer that no slave answers ends: after [retransmissions_max + 1] attempts the
    call fails, with the status of the address byte that was not acknowledged, and the
    slaves have only seen a STOP. *)
Theorem transfer_unanswered {D} `{Slave D} (P : D -> Prop) `{!QuietSlave D P}
    x (s : i2c_st D) fuel g tx n buf d
    (Hg : setup_ok g tx n buf) (Hne : tx <> [] \/ n <> 0%nat)
    (Hfree : released P d (ctl_of x s)) (HP : P d) (Hno : nobody_at (sl_addr7bit g) d)
    (Hfuel : (S (S (2 * lag (ctl_of x s))) < fuel)%nat)
    (Hmax : 0 <= retransmissions_max g < 2 ^ 32 - 1) :
  exists c', I2C_MasterTransferData fuel x g I2C_TRANSFER_POLLING s =
      Ok ((ERROR, unanswered g tx), put_ctl x c' s) /\ released P (sl_stop d) c' /\
    retransmissions_count (unanswered g tx) = retransmissions_max g + 1.
Proof.
  destruct (reaches_run x s _ _ _ (transfer_nack P x s fuel g tx n buf _ d Hg Hne Hno HP Hfuel Hmax Hfree))
    as (c' & E & F & Hc').
  by exists c'.
Qed.

(** *** A slave to try it on: a queue of bytes at the address 0x20 *)

#[export] Instance queue_slave : Slave (list Z) := {|
  sl_addr := fun b q => (Z.shiftr b 1 =? 0x20, q);
  sl_write := fun b q => (true, q ++ [b]);
  sl_read := fun _ q => match q with [] => (0xFF, []) | b :: q' => (b, q') end;
  sl_stop := fun q => q;
  sl_elapse := fun q => q
|}.

#[export] Instance queue_quiet : QuietSlave (list Z) (fun _ => True).
Proof. by split. Qed.

(** The first controller after [I2C_Cmd]. *)
Definition i2c_ready {D} (n : nat) (d : D) : i2c_st D :=
  mk_i2cs (i2c_reset n d){{ I2CON := 0x40 }} (i2c_reset n d) (i2c_reset n d)
    (replicate 3 (mk_cfg None 0)) (mk_sc 100000000 0 0 0) [].

Lemma i2c_ready_released {D} `{Slave D} P n (d : D) : released P d (ctl_of LPC_I2C0 (i2c_ready n d)).
Proof. split; [simpl; lia|]. left. auto. Qed.

Definition setup_of (a : Z) (tx : list Z) (buf : list Z) : I2C_M_SETUP_Type :=
  mk_setup a (Some tx) (Z.of_nat (length tx)) 0 (Some buf) (Z.of_nat (length buf)) 0 3 0 0 None.

(** A slave that is busy for a while: it does not acknowledge its address the first times. *)
Definition busy_queue : Type := nat * list Z.
#[export] Instance busy_slave : Slave busy_queue := {|
  sl_addr := fun b (q : busy_queue) => match q with
                        | (S n, l) => (false, (n, l))
                        | (O, l) => (Z.shiftr b 1 =? 0x20, (0%nat, l))
                        end;
  sl_write := fun b q => ((length q.2 <? 3)%nat, (q.1, q.2 ++ [b]));
  sl_read := fun _ q => match q.2 with [] => (0xFF, q) | b :: l => (b, (q.1, l)) end;
  sl_stop := fun q => q;
  sl_elapse := fun q => q
|}.

#[export] Instance busy_quiet : QuietSlave busy_queue (fun _ => True).
Proof. by split. Qed.

Definition busy_once : busy_queue := (1%nat, []).
Definition busy_never : busy_queue := (0%nat, []).

(** Three bytes are sent, at the second attempt, and two of them are read back; of four
    bytes the last one is refused. *)
Lemma transfer_is_transaction_witness :
  (let g := setup_of 0x20 [1; 2; 3] [0; 0] in
   exists c', I2C_MasterTransferData 20 LPC_I2C0 g I2C_TRANSFER_POLLING (i2c_ready 5 busy_once) =
      Ok (transfer_result g [1; 2; 3] 1 (Done [1; 2]),
          put_ctl LPC_I2C0 c' (i2c_ready 5 busy_once)) /\
    released (fun _ => True) (sl_stop ((0%nat, [3]) : busy_queue)) c' /\
    fixed c' = fixed (ctl_of LPC_I2C0 (i2c_ready 5 busy_once))) /\
  (let g := setup_of 0x20 [1; 2; 3; 4] [] in
   exists c', I2C_MasterTransferData 20 LPC_I2C0 g I2C_TRANSFER_POLLING (i2c_ready 5 busy_never) =
      Ok (transfer_result g [1; 2; 3; 4] 4 (Refused I2C_I2STAT_M_TX_DAT_NACK 0),
          put_ctl LPC_I2C0 c' (i2c_ready 5 busy_never)) /\
    released (fun _ => True) (sl_stop ((0%nat, [1; 2; 3; 4; 1; 1; 1]) : busy_queue)) c' /\
    fixed c' = fixed (ctl_of LPC_I2C0 (i2c_ready 5 busy_never))).
Proof.
  split.
  - apply (transfer_is_transaction (fun _ => True) LPC_I2C0 (i2c_ready 5 busy_once) 20
      (setup_of 0x20 [1; 2; 3] [0; 0]) [1; 2; 3] 2 [0; 0] busy_once 1 (Done [1; 2]) (0%nat, [3]));
      [|apply i2c_ready_released|exact I|simpl; lia|simpl; lia|reflexivity].
    split; simpl; [split; [exists []; reflexivity|reflexivity]|split; reflexivity|lia|lia|lia].
  - apply (transfer_is_transaction (fun _ => True) LPC_I2C0 (i2c_ready 5 busy_never) 20
      (setup_of 0x20 [1; 2; 3; 4] []) [1; 2; 3; 4] 0 [] busy_never 4 (Refused I2C_I2STAT_M_TX_DAT_NACK 0)
      (0%nat, [1; 2; 3; 4; 1; 1; 1]));
      [|apply i2c_ready_released|exact I|simpl; lia|simpl; lia|reflexivity].
    split; simpl; [split; [exists []; reflexivity|reflexivity]|reflexivity|lia|lia|lia].
Defined.

(** Nothing answers at the address 0x21. *)
Lemma transfer_unanswered_witness :
  let g := setup_of 0x21 [1] [] in
  exists c', I2C_MasterTransferData 20 LPC_I2C0 g I2C_TRANSFER_POLLING (i2c_ready 5 ([] : list Z)) =
      Ok ((ERROR, unanswered g [1]), put_ctl LPC_I2C0 c' (i2c_ready 5 ([] : list Z))) /\
    released (fun _ => True) (sl_stop []) c' /\ retransmissions_count (unanswered g [1]) = 3 + 1.
Proof.
  apply (transfer_unanswered (fun _ => True) LPC_I2C0 (i2c_ready 5 ([] : list Z)) 20
    (setup_of 0x21 [1] []) [1] 0 []);
    [|by left|apply i2c_ready_released|exact I|split; reflexivity|simpl; lia|simpl; lia].
  split; simpl; [split; [exists []; reflexivity|reflexivity]|reflexivity|lia|lia|lia].
Defined.
