(* ===== verification/Eeprom.v ===== *)
(** * The EEPROM

    Lib_Board/src/eeprom.c on the I2C master, and the memory chips it is written
    for.  A chip, as the data sheets of the 24LC32A and the 24AA02E48 describe it,
    is a slave: an address pointer of one or two bytes, writes collected in a page
    buffer whose address wraps at the end of the page and committed by the STOP, a
    write cycle during which the chip does not answer, and reads that run on over
    the whole memory. *)

From S2P Require Import Prelude Clkpwr I2c.

(** ** The driver *)

Definition EEPROM_I2C_ADDR : Z := 0x50.
Definition EEPROM_24AA_TOTAL_SIZE : Z := 128.
Definition EEPROM_24AA_PAGE_SIZE : Z := 8.
Definition EEPROM_24LC_TOTAL_SIZE : Z := 4096.
Definition EEPROM_24LC_PAGE_SIZE : Z := 32.
Definition EUI48_ORG_ID_SZ : Z := 3.
Definition eui48_org_id : list Z := [0x00; 0x04; 0xA3].
Definition I2CDEV : LPC_I2C := LPC_I2C0.

Record eeprom_st (D : Type) : Type := mk_eeprom {
  ei2c : i2c_st D;
  eeprom_total_size : Z;
  eeprom_page_size : Z;
  eeprom_24aa02e48t : bool
}.
Arguments mk_eeprom {D}. Arguments ei2c {D}. Arguments eeprom_total_size {D}.
Arguments eeprom_page_size {D}. Arguments eeprom_24aa02e48t {D}.
#[export] Instance eta_eeprom_st D : Settable (eeprom_st D) :=
  fun s => mk_eeprom (ei2c s) (eeprom_total_size s) (eeprom_page_size s) (eeprom_24aa02e48t s).
#[export] Instance lens_ei2c D : Lens (i2c_st D) (eeprom_st D) :=
  {| view := ei2c; put := fun a s => s{{ ei2c := a }} |}.

(** The delay loops, in turns; the second one counts a uint16_t. *)
Definition write_turns : nat := Z.to_nat 0x20000.
Definition read_turns : nat := Z.to_nat 0x2000.

(** [memcpy(&dst[i], &src[j], n)]. *)
Definition memcpy {W} (dst : list Z) (i : Z) (src : list Z) (j n : Z) : M W (list Z) :=
  guard ((0 <=? i) && (i + n <=? Z.of_nat (length dst)) &&
         (0 <=? j) && (j + n <=? Z.of_nat (length src))) OutOfBounds ;;
  mret (blit dst (Z.to_nat i) (take (Z.to_nat n) (drop (Z.to_nat j) src))).

Section Driver.
Context {D : Type} `{Slave D}.
(** How often a wait for the flag SI polls before it is given up as endless. *)
Variable fuel : nat.

Definition eepromDelay : M (eeprom_st D) unit := zoom (delay_loop write_turns I2CDEV).
Definition readDelay : M (eeprom_st D) unit := zoom (delay_loop read_turns I2CDEV).

Definition I2CRead (addr : Z) (buf : list Z) (len : Z) : M (eeprom_st D) (Z * list Z) :=
  let rxsetup := mk_setup addr None 0 0 (Some buf) len 0 3 0 0 None in
  r ← zoom (I2C_MasterTransferData fuel I2CDEV rxsetup I2C_TRANSFER_POLLING);
  let buf := default buf (rx_data (snd r)) in
  match fst r with
  | SUCCESS => mret (0, buf)
  | ERROR => mret (-1, buf)
  end.

Definition I2CWrite (addr : Z) (buf : list Z) (len : Z) : M (eeprom_st D) Z :=
  let txsetup := mk_setup addr (Some buf) len 0 None 0 0 3 0 0 None in
  r ← zoom (I2C_MasterTransferData fuel I2CDEV txsetup I2C_TRANSFER_POLLING);
  match fst r with
  | SUCCESS => mret 0
  | ERROR => mret (-1)
  end.

Definition eeprom_readEui48 (buf : list Z) : M (eeprom_st D) (bool * list Z) :=
  _ ← I2CWrite EEPROM_I2C_ADDR [0xFA] 1;
  readDelay ;;
  r ← I2CRead EEPROM_I2C_ADDR buf 6;
  let buf := snd r in
  guard (EUI48_ORG_ID_SZ <=? Z.of_nat (length buf)) OutOfBounds ;;
  mret (bool_decide (take (Z.to_nat EUI48_ORG_ID_SZ) buf = eui48_org_id), buf).

(** [eui] is a local array, whose contents are indeterminate until they are read
    into. *)
Definition eeprom_init (eui : list Z) : M (eeprom_st D) unit :=
  r ← eeprom_readEui48 eui;
  when (fst r) (modify (fun s : eeprom_st D => s{{ eeprom_24aa02e48t := true }})) ;;
  aa ← gets eeprom_24aa02e48t;
  modify (fun s : eeprom_st D =>
    if (aa : bool) then s{{ eeprom_total_size := EEPROM_24AA_TOTAL_SIZE;
                            eeprom_page_size := EEPROM_24AA_PAGE_SIZE }}
    else s{{ eeprom_total_size := EEPROM_24LC_TOTAL_SIZE;
             eeprom_page_size := EEPROM_24LC_PAGE_SIZE }}).

(** The address bytes of an offset. *)
Definition offset_bytes (aa : bool) (off : Z) : list Z :=
  if aa then [Z.land off 0xff] else [Z.land (Z.shiftr off 8) 0xff; Z.land off 0xff].

Definition eeprom_read (buf : list Z) (offset len : Z) : M (eeprom_st D) (Z * list Z) :=
  s ← get;
  if (eeprom_total_size s <? len) || (eeprom_total_size s <? offset + len) then mret (-1, buf)
  else
    let off := offset_bytes (eeprom_24aa02e48t s) offset in
    _ ← I2CWrite EEPROM_I2C_ADDR off (Z.of_nat (length off));
    readDelay ;;
    r ← I2CRead EEPROM_I2C_ADDR buf len;
    mret (s16 len, snd r).

(** The locals of the loop of [eeprom_write]. *)
Record wlocals : Type := mk_wl { w_tmp : list Z; w_len : Z; w_written : Z; w_off : Z; w_wLen : Z }.

(** One turn: what is left of a page, or the next page. *)
Definition write_chunk (buf : list Z) (l : wlocals) : M (eeprom_st D) (ctl wlocals Z) :=
  if w_len l =? 0 then mret (Break (w_written l)) else
  s ← get;
  let head := offset_bytes (eeprom_24aa02e48t s) (w_off l) in
  tmp ← memcpy (w_tmp l) 0 head 0 (Z.of_nat (length head));
  tmp ← memcpy tmp (Z.of_nat (length head)) buf (w_written l) (w_wLen l);
  _ ← I2CWrite EEPROM_I2C_ADDR tmp (w_wLen l + Z.of_nat (length head));
  eepromDelay ;;
  let len := u16 (w_len l - w_wLen l) in
  mret (Continue (mk_wl tmp len (s16 (w_written l + w_wLen l)) (u16 (w_off l + w_wLen l))
                    (u16 (Z.min (eeprom_page_size s) len)))).

(** [tmp] is an array of [eeprom_page_size + 2] bytes. *)
Definition eeprom_write (buf : list Z) (offset len : Z) : M (eeprom_st D) Z :=
  s ← get;
  if (eeprom_total_size s <? len) || (eeprom_total_size s <? offset + len) then mret (-1)
  else
    guard (negb (eeprom_page_size s =? 0)) DivByZero ;;
    let wLen := u16 (eeprom_page_size s - offset mod eeprom_page_size s) in
    let wLen := Z.min wLen len in
    let tmp := replicate (Z.to_nat (eeprom_page_size s + 2)) 0 in
    while (S (Z.to_nat len)) (write_chunk buf) (mk_wl tmp len 0 offset wLen).

End Driver.

(** ** The chips *)

Record geometry : Type := mk_geo {
  g_addr : nat;                      (* address bytes *)
  g_size : Z;                        (* bytes of memory *)
  g_page : Z;                        (* bytes of a page *)
  g_writable : Z;                    (* the bytes from here on are read only *)
  g_cycle : nat                      (* turns a write cycle takes *)
}.

Inductive chip_mode : Type :=
| Standby
| Pointer (left : nat) (acc : Z)     (* address bytes are to come *)
| Writing
| Reading.

Record chip : Type := mk_chip {
  geo : geometry;
  cells : list Z;
  pointer : Z;
  cmode : chip_mode;
  page_buf : list (Z * Z);           (* the bytes to be written, with their addresses *)
  cycle : nat                        (* turns left of the write cycle *)
}.
#[export] Instance eta_chip : Settable chip :=
  fun s => mk_chip (geo s) (cells s) (pointer s) (cmode s) (page_buf s) (cycle s).

(** The next address of a page. *)
Definition next_in_page (page a : Z) : Z := a - a mod page + (a + 1) mod page.

Definition commit (writable : Z) (m : list Z) (p : list (Z * Z)) : list Z :=
  foldl (fun m '(a, b) => if a <? writable then <[Z.to_nat a := b]> m else m) m p.

Definition chip_addr (b : Z) (c : chip) : bool * chip :=
  let c := c{{ cmode := Standby; page_buf := [] }} in
  if (cycle c =? 0)%nat && (Z.shiftr b 1 =? 0x50) then
    (true, c{{ cmode := if Z.testbit b 0 then Reading else Pointer (g_addr (geo c)) 0 }})
  else (false, c).

Definition chip_write (b : Z) (c : chip) : bool * chip :=
  match cmode c with
  | Pointer (S (S n)) acc => (true, c{{ cmode := Pointer (S n) (acc * 256 + b) }})
  | Pointer _ acc => (true, c{{ pointer := (acc * 256 + b) mod g_size (geo c); cmode := Writing }})
  | Writing => (true, c{{ page_buf := page_buf c ++ [(pointer c, b)];
                          pointer := next_in_page (g_page (geo c)) (pointer c) }})
  | Standby | Reading => (false, c)
  end.

Definition chip_read (ack : bool) (c : chip) : Z * chip :=
  match cmode c with
  | Reading => (default 0xFF (cells c !! Z.to_nat (pointer c)),
                c{{ pointer := (pointer c + 1) mod g_size (geo c);
                    cmode := if ack then Reading else Standby }})
  | _ => (0xFF, c)
  end.

Definition chip_stop (c : chip) : chip :=
  match page_buf c with
  | [] => c{{ cmode := Standby }}
  | p => c{{ cells := commit (g_writable (geo c)) (cells c) p; cmode := Standby; page_buf := [];
             cycle := g_cycle (geo c) }}
  end.

#[export] Instance chip_slave : Slave chip := {|
  sl_addr := chip_addr;
  sl_write := chip_write;
  sl_read := chip_read;
  sl_stop := chip_stop;
  sl_elapse := fun c => c{{ cycle := pred (cycle c) }}
|}.

(** The two chips of the board, for a write cycle of [n] turns. *)
Definition chip_24LC32A (n : nat) : geometry := mk_geo 2 4096 32 4096 n.
Definition chip_24AA02E48 (n : nat) : geometry := mk_geo 1 256 8 128 n.
