(* ===== verification/EepromFacts.v ===== *)
(** * The EEPROM: what is written is what is read

    The driver splits a write at the page borders, so that the chip's page buffer
    never wraps; the chip, the controller and the driver together store and give
    back the bytes of the caller. *)

From S2P Require Import Prelude Clkpwr I2c I2cFacts Eeprom.

(** The delays are only counted, never run through. *)
Lemma turns_are : Z.of_nat write_turns = 0x20000 /\ Z.of_nat read_turns = 0x2000.
Proof. unfold write_turns, read_turns. by rewrite !Z2Nat.id. Qed.

#[global] Opaque write_turns read_turns.

(** ** The chip *)

Definition chip_ready (c : chip) : Prop := cycle c = 0%nat.

#[export] Instance chip_quiet : QuietSlave chip chip_ready.
Proof.
  unfold chip_ready. split; simpl.
  - intros [] ?. simpl in *. by subst.
  - intros b c ?. unfold chip_addr. by destruct (_ && _).
  - intros b c ?. unfold chip_write. by destruct (cmode c) as [|[|[]]| |].
  - intros ack c ?. unfold chip_read. by destruct (cmode c).
Qed.

(** The bytes of a page with their addresses. *)
Fixpoint addressed (a : Z) (l : list Z) : list (Z * Z) :=
  match l with [] => [] | b :: l' => (a, b) :: addressed (a + 1) l' end.

Lemma next_in_page_inside page a :
  0 < page -> a mod page + 1 < page -> next_in_page page a = a + 1.
Proof.
  intros Hp Ha. unfold next_in_page.
  rewrite <- (Z.add_mod_idemp_l a 1) by lia. rewrite (Z.mod_small (a mod page + 1)); lia.
Qed.

Lemma mod_next page a : 0 < page -> a mod page + 1 < page -> (a + 1) mod page = a mod page + 1.
Proof.
  intros Hp Ha. rewrite <- (Z.add_mod_idemp_l a 1) by lia. apply Z.mod_small. lia.
Qed.

Lemma u16_small z : 0 <= z < 65536 -> u16 z = z.
Proof. apply Z.mod_small. Qed.

Lemma s16_small z : 0 <= z < 32768 -> s16 z = z.
Proof. intros. unfold s16. rewrite Z.mod_small; lia. Qed.

Lemma u8_small b : byte_ok b -> u8 b = b.
Proof. apply Z.mod_small. Qed.

Lemma chip_data l : forall c a, cmode c = Writing -> pointer c = a ->
  0 < g_page (geo c) -> a mod g_page (geo c) + Z.of_nat (length l) <= g_page (geo c) ->
  Forall byte_ok l ->
  exists p, send_all l c =
    Some (c{{ page_buf := page_buf c ++ addressed a l; pointer := p }}).
Proof.
  induction l as [|b l IH]; intros c a Hm Ha Hp Hl Hb.
  - exists (pointer c). simpl. rewrite app_nil_r. by destruct c.
  - apply Forall_cons in Hb as [Hb Hbs]. cbn [send_all addressed]. rewrite u8_small by done.
    change (sl_write b c) with (chip_write b c). unfold chip_write. rewrite Hm, Ha.
    destruct l as [|b' l'].
    { simpl. eexists. done. }
    set (l := b' :: l') in *. cbn [length] in Hl.
    assert (1 <= length l)%nat by (subst l; simpl; lia).
    clearbody l. assert (Hin : a mod g_page (geo c) + 1 < g_page (geo c)) by lia.
    edestruct (IH (c{{ page_buf := page_buf c ++ [(a, b)];
                       pointer := next_in_page (g_page (geo c)) a }}) (a + 1)) as [p E]; simpl;
      [done|by apply next_in_page_inside|done|rewrite mod_next by done; lia|done|].
    exists p. etransitivity; [exact E|]. simpl. by rewrite <- app_assoc.
Qed.

Lemma commit_addressed w l : forall m a, 0 <= a ->
  a + Z.of_nat (length l) <= w -> (Z.to_nat a + length l <= length m)%nat ->
  commit w m (addressed a l) = blit m (Z.to_nat a) l.
Proof.
  unfold commit. induction l as [|b l IH]; intros m a Ha Hw Hm; simpl in *; [by rewrite blit_nil|].
  destruct (Z.ltb_spec a w); [|lia]. rewrite IH by (rewrite ?length_insert; lia).
  rewrite blit_cons by lia. f_equal. lia.
Qed.

(** The address bytes set the pointer. *)
Definition geometry_of (aa : bool) (n : nat) : geometry :=
  if aa then chip_24AA02E48 n else chip_24LC32A n.

Lemma chip_pointer aa n off l c : geo c = geometry_of aa n -> cycle c = 0%nat ->
  0 <= off < g_size (geo c) ->
  bus_write 0x50 (offset_bytes aa off ++ l) c =
    send_all l (c{{ cmode := Writing; page_buf := []; pointer := off }}).
Proof.
  intros Hg Hc Ho. unfold bus_write. change (u8 (2 * 0x50)) with 0xA0.
  change (sl_addr 0xA0 c) with (chip_addr 0xA0 c). unfold chip_addr. simpl. rewrite Hc. simpl.
  assert (Hlo : u8 (Z.land off 0xff) = off mod 256).
  { change 0xff with (Z.ones 8). rewrite Z.land_ones by lia. apply u8_u8. }
  destruct aa; rewrite Hg in *; simpl in Ho |- *; unfold chip_write; simpl.
  - rewrite Hlo. by replace ((0 * 256 + off mod 256) mod 256) with off by lia.
  - assert (Hhi : u8 (Z.land (Z.shiftr off 8) 0xff) = off / 256 mod 256).
    { change 0xff with (Z.ones 8). rewrite Z.land_ones, Z.shiftr_div_pow2 by lia. apply u8_u8. }
    rewrite Hlo, Hhi. by replace (((0 * 256 + off / 256 mod 256) * 256 + off mod 256) mod 4096) with off by lia.
Qed.

Record chip_ok (aa : bool) (n : nat) (c : chip) : Prop := {
  ck_geo : geo c = geometry_of aa n;
  ck_len : Z.of_nat (length (cells c)) = g_size (geo c)
}.

Lemma geometry_page aa n : 0 < g_page (geometry_of aa n).
Proof. by destruct aa. Qed.

Lemma chip_stop_pages c : page_buf c <> [] ->
  chip_stop c = c{{ cells := commit (g_writable (geo c)) (cells c) (page_buf c); cmode := Standby;
                    page_buf := []; cycle := g_cycle (geo c) }}.
Proof. unfold chip_stop. by destruct (page_buf c). Qed.

(** The transaction of a page write, and its STOP. *)
Lemma write_page aa n c off l :
  chip_ok aa n c -> cycle c = 0%nat -> l <> [] -> Forall byte_ok l -> 0 <= off ->
  off + Z.of_nat (length l) <= g_writable (geometry_of aa n) ->
  off mod g_page (geometry_of aa n) + Z.of_nat (length l) <= g_page (geometry_of aa n) ->
  exists c', transaction 0x50 (offset_bytes aa off ++ l) 0 c = Some ([], c') /\
    cycle c' = 0%nat /\ chip_ok aa n (chip_stop c') /\
    cells (chip_stop c') = blit (cells c) (Z.to_nat off) l /\ cycle (chip_stop c') = n.
Proof.
  intros [Hg Hlen] Hc Hl Hb Ho Hw Hp.
  assert (Hws : g_writable (geo c) <= g_size (geo c)) by (rewrite Hg; by destruct aa).
  assert (1 <= length l)%nat by (destruct l; [done|simpl; lia]).
  rewrite <- Hg in Hw, Hp.
  destruct (chip_data l (c{{ cmode := Writing; page_buf := []; pointer := off }}) off)
    as [p E]; simpl; [done|done|rewrite Hg; apply geometry_page|done|done|].
  eexists. split; [|split; [|split; [|split]]].
  - unfold transaction. replace (match offset_bytes aa off ++ l with [] => Some c | _ :: _ => _ end)
      with (bus_write 0x50 (offset_bytes aa off ++ l) c) by (by destruct aa).
    rewrite (chip_pointer aa n) by (done || lia). rewrite E. simpl. reflexivity.
  - done.
  - rewrite chip_stop_pages by (destruct l; done). split; simpl; [done|]. rewrite <- Hlen. f_equal.
    rewrite commit_addressed by lia. apply length_blit. lia.
  - rewrite chip_stop_pages by (destruct l; done). simpl. by rewrite commit_addressed by lia.
  - rewrite chip_stop_pages by (destruct l; done). simpl. by rewrite Hg; destruct aa.
Qed.

Lemma read_all_S k c :
  read_all (S k) c =
    let '(b, c1) := chip_read (match k with O => false | _ => true end) c in
    let '(l, c2) := read_all k c1 in (u8 b :: l, c2).
Proof. done. Qed.

(** Reading from the pointer on. *)
Lemma read_cells k : forall c, cmode c = Reading -> 0 <= pointer c ->
  Z.of_nat (length (cells c)) = g_size (geo c) -> Forall byte_ok (cells c) ->
  pointer c + Z.of_nat k <= g_size (geo c) ->
  exists c', read_all k c = (take k (drop (Z.to_nat (pointer c)) (cells c)), c') /\
    cells c' = cells c /\ geo c' = geo c /\ cycle c' = cycle c /\ page_buf c' = page_buf c.
Proof.
  induction k as [|k IH]; intros c Hm Hp Hl Hb Hk; [by exists c|].
  destruct (lookup_lt_is_Some_2 (cells c) (Z.to_nat (pointer c))) as [b E]; [lia|].
  assert (byte_ok b) by (by eapply Forall_lookup_1).
  rewrite read_all_S. unfold chip_read. rewrite Hm, E. simpl default. rewrite u8_small by done.
  rewrite (drop_S _ _ _ E). cbn [take].
  destruct k as [|k]; [by eexists|].
  set (c1 := c{{ pointer := (pointer c + 1) mod g_size (geo c); cmode := Reading }}).
  assert (Hp1 : (pointer c + 1) mod g_size (geo c) = pointer c + 1) by (apply Z.mod_small; lia).
  destruct (IH c1) as (c' & E' & Hc');
    [done|simpl; rewrite Hp1; lia|done|done|simpl; rewrite Hp1; lia|].
  exists c'. split; [|done].
  transitivity (let '(l, c2) := read_all (S k) c1 in (b :: l, c2)); [done|]. rewrite E'. simpl. rewrite Hp1.
  by replace (Z.to_nat (pointer c + 1)) with (S (Z.to_nat (pointer c))) by lia.
Qed.

(** The transactions of a read: the pointer is set, then the bytes come. *)
Lemma set_pointer aa n c off :
  chip_ok aa n c -> cycle c = 0%nat -> 0 <= off < g_size (geometry_of aa n) ->
  transaction 0x50 (offset_bytes aa off) 0 c =
    Some ([], c{{ cmode := Writing; page_buf := []; pointer := off }}).
Proof.
  intros [Hg Hlen] Hc Ho. unfold transaction.
  replace (match offset_bytes aa off with [] => Some c | _ :: _ => _ end)
    with (bus_write 0x50 (offset_bytes aa off ++ []) c) by (rewrite app_nil_r; by destruct aa).
  rewrite (chip_pointer aa n) by (done || by rewrite Hg). done.
Qed.

Lemma chip_addr_write c : cycle c = 0%nat ->
  chip_addr 0xA0 c = (true, c{{ cmode := Pointer (g_addr (geo c)) 0; page_buf := [] }}).
Proof. destruct c. simpl. by intros ->. Qed.

Lemma chip_addr_read c : cycle c = 0%nat ->
  chip_addr 0xA1 c = (true, c{{ cmode := Reading; page_buf := [] }}).
Proof. destruct c. simpl. by intros ->. Qed.

Lemma read_memory c k off :
  cycle c = 0%nat -> pointer c = off -> 0 <= off -> (0 < k)%nat ->
  Z.of_nat (length (cells c)) = g_size (geo c) -> Forall byte_ok (cells c) ->
  off + Z.of_nat k <= g_size (geo c) ->
  exists c', transaction 0x50 [] k c = Some (take k (drop (Z.to_nat off) (cells c)), c') /\
    cells c' = cells c /\ geo c' = geo c /\ cycle c' = 0%nat /\ page_buf c' = [].
Proof.
  intros Hc Hp Ho Hk Hl Hb Hs. unfold transaction. destruct k as [|k]; [lia|]. cbn [mbind option_bind].
  unfold bus_read. change (u8 (2 * 0x50 + 1)) with 0xA1.
  change (sl_addr 0xA1 c) with (chip_addr 0xA1 c). rewrite chip_addr_read by done.
  destruct (read_cells (S k) (c{{ cmode := Reading; page_buf := [] }})) as (c' & E & H1 & H2 & H3 & H4);
    [done|simpl; lia|done|done|simpl; lia|].
  exists c'. split; [|by rewrite H1, H2, H3, H4]. rewrite E. simpl pointer. by rewrite Hp.
Qed.

(** ** The driver on the bus *)

Section Bus.
Context {D : Type} `{Slave D} (P : D -> Prop) `{!QuietSlave D P}.

Lemma setup_tx a buf tx post n : buf = tx ++ post -> tx <> [] -> n = Z.of_nat (length tx) -> n < 2 ^ 32 ->
  setup_ok (mk_setup a (Some buf) n 0 None 0 0 3 0 0 None) tx 0 [].
Proof.
  intros -> Ht -> Hn. split; simpl; [|done|done|lia|lia].
  rewrite bool_decide_false by done. by split; [exists post|].
Qed.

Lemma setup_rx a buf n : (0 < n <= length buf)%nat -> Z.of_nat n < 2 ^ 32 ->
  setup_ok (mk_setup a None 0 0 (Some buf) (Z.of_nat n) 0 3 0 0 None) [] n buf.
Proof.
  intros Hn Hl. split; simpl; [done| |lia|done|lia].
  by rewrite bool_decide_false by lia.
Qed.

(** [ei2c] with another first controller. *)
Definition put_i2c0 (c : i2c_ctl D) (s : eeprom_st D) : eeprom_st D :=
  s{{ ei2c := put_ctl LPC_I2C0 c (ei2c s) }}.

Lemma I2CWrite_run fuel s a buf tx post d d' :
  buf = tx ++ post -> tx <> [] -> Z.of_nat (length tx) < 2 ^ 32 ->
  released P d (i2c0 (ei2c s)) -> P d -> (S (S (2 * lag (i2c0 (ei2c s)))) < fuel)%nat ->
  transaction a tx 0 d = Some ([], d') ->
  exists c', I2CWrite fuel a buf (Z.of_nat (length tx)) s = Ok (0, put_i2c0 c' s) /\
    released P (sl_stop d') c' /\ lag c' = lag (i2c0 (ei2c s)).
Proof.
  intros Hb Ht Hn Hr HP Hf E. unfold I2CWrite, I2CDEV.
  destruct (reaches_run LPC_I2C0 (ei2c s) _ _ _ (transfer_run P LPC_I2C0 (ei2c s) fuel _ tx 0 [] _ d [] d'
    (setup_tx a buf tx post _ Hb Ht eq_refl Hn) Hr HP Hf E)) as (c' & Er & F & Hc').
  exists c'. split; [|split; [done|by apply fixed_lag]].
  erewrite bind_ok by (apply zoom_ok; exact Er). done.
Qed.

Lemma I2CRead_run fuel s a buf n d r d' :
  (0 < n <= length buf)%nat -> Z.of_nat n < 2 ^ 32 ->
  released P d (i2c0 (ei2c s)) -> P d -> (S (S (2 * lag (i2c0 (ei2c s)))) < fuel)%nat ->
  transaction a [] n d = Some (r, d') -> length r = n ->
  exists c', I2CRead fuel a buf (Z.of_nat n) s = Ok ((0, blit buf 0 r), put_i2c0 c' s) /\
    released P (sl_stop d') c' /\ lag c' = lag (i2c0 (ei2c s)).
Proof.
  intros Hn Hl Hr HP Hf E Hlen. unfold I2CRead, I2CDEV.
  destruct (reaches_run LPC_I2C0 (ei2c s) _ _ _ (transfer_run P LPC_I2C0 (ei2c s) fuel _ [] n buf _ d r d'
    (setup_rx a buf n Hn Hl) Hr HP Hf E)) as (c' & Er & F & Hc').
  exists c'. split; [|split; [done|by apply fixed_lag]].
  erewrite bind_ok by (apply zoom_ok; exact Er). destruct r; [simpl in Hlen; lia|]. done.
Qed.

(** *** Time going by *)

Definition idle (c : i2c_ctl D) : Prop :=
  (I2CON c = 0x40 \/ I2CON c = 0x44) /\ phase c = Idle /\ (waited c <= lag c)%nat.

Lemma ticks_idle k c : idle c ->
  idle (Nat.iter k tick c) /\ dev (Nat.iter k tick c) = Nat.iter k sl_elapse (dev c) /\
  lag (Nat.iter k tick c) = lag c.
Proof.
  intros Hc. induction k as [|k ((Hcon & Hp & Hw) & Hd & Hl)]; [done|]. simpl.
  set (c1 := Nat.iter k tick c) in *. unfold tick, bus_action, bit_set, idle. simpl.
  destruct (Nat.ltb_spec (waited c1) (lag c1)); simpl; [rewrite Hp, Hd; auto with lia|].
  destruct Hcon as [E | E]; rewrite E; simpl; rewrite ?Hp; simpl; rewrite ?E, ?Hd, ?Hp; auto with lia.
Qed.

Lemma ticks_wait k c : SI_clear c -> P (dev c) -> (waited c + k <= lag c)%nat ->
  Nat.iter k tick c = c{{ waited := (waited c + k)%nat }}.
Proof.
  intros Hsi HP Hk. induction k as [|k IH]; [rewrite Nat.add_0_r; by destruct c|].
  simpl. rewrite IH by lia. unfold tick. simpl. rewrite quiet_elapse by done.
  destruct (Nat.ltb_spec (waited c + k) (lag c)); [|lia].
  by replace (waited c + S k)%nat with (S (waited c + k)) by lia.
Qed.

(** A delay that is long enough lets the STOP go out; the rest of it goes by for the
    slave. *)
Lemma delay_settles k c d : released P d c -> (S (lag c) <= k)%nat ->
  exists j, (k - S (lag c) <= j)%nat /\ idle (Nat.iter k tick c) /\
    dev (Nat.iter k tick c) = Nat.iter j sl_elapse d /\ lag (Nat.iter k tick c) = lag c.
Proof.
  intros (Hw & [(Hcon & Hp & Hd)|(Hcon & HP & Hd)]) Hk.
  - exists k. split; [lia|]. rewrite <- Hd. apply ticks_idle. done.
  - set (m := (lag c - waited c)%nat). exists (k - S m)%nat. split; [lia|].
    assert (Ek : Nat.iter k tick c = Nat.iter (k - S m) tick (Nat.iter (S m) tick c)).
    { rewrite <- Nat.iter_add. f_equal. lia. }
    rewrite Ek.
    assert (E : Nat.iter (S m) tick c = c{{ I2CON := clear_bits (I2CON c) I2C_I2CONSET_STO;
      I2STAT := I2C_I2STAT_NO_INF; phase := Idle; waited := 0%nat; dev := d }}).
    { change (Nat.iter (S m) tick c) with (tick (Nat.iter m tick c)). rewrite ticks_wait.
      - unfold tick, bus_action, bit_set. simpl. rewrite quiet_elapse by done.
        destruct (Nat.ltb_spec (waited c + m) (lag c)); [lia|]. simpl.
        destruct Hcon as [-> | ->]; simpl; by rewrite Hd.
      - unfold SI_clear. by destruct Hcon as [-> | ->].
      - done.
      - lia. }
    rewrite E.
    edestruct (ticks_idle (k - S m)) as (H1 & H2 & H3); [|split; [exact H1|split; [exact H2|exact H3]]].
    unfold idle. simpl. destruct Hcon as [-> | ->]; simpl; auto with lia.
Qed.

Lemma idle_released c : idle c -> released P (dev c) c.
Proof. intros (Hcon & Hp & Hw). split; [done|]. by left. Qed.

Lemma delay_run k s : zoom (delay_loop k I2CDEV) s = Ok (tt, put_i2c0 (Nat.iter k tick (i2c0 (ei2c s))) s).
Proof. reflexivity. Qed.
End Bus.

(** ** The memory behind the driver *)

(** [n] is the length of a write cycle, in turns of the delay loops. *)
Record memory_is (aa : bool) (n fuel : nat) (m : list Z) (s : eeprom_st chip) : Prop := {
  mi_aa : eeprom_24aa02e48t s = aa;
  mi_total : eeprom_total_size s = g_writable (geometry_of aa n);
  mi_page : eeprom_page_size s = g_page (geometry_of aa n);
  mi_chip : exists c, released chip_ready c (i2c0 (ei2c s)) /\ cycle c = 0%nat /\
              chip_ok aa n c /\ cells c = m;
  mi_bytes : Forall byte_ok m;
  mi_fuel : (S (S (2 * lag (i2c0 (ei2c s)))) < fuel)%nat;
  mi_delay : (S (lag (i2c0 (ei2c s))) <= read_turns)%nat;
  mi_cycle : (n + S (lag (i2c0 (ei2c s))) <= write_turns)%nat
}.

Lemma elapse_iter j (c : chip) : Nat.iter j sl_elapse c = c{{ cycle := (cycle c - j)%nat }}.
Proof.
  induction j as [|j IH]; [rewrite Nat.sub_0_r; by destruct c|].
  change (Nat.iter (S j) sl_elapse c) with (sl_elapse (Nat.iter j sl_elapse c)). rewrite IH. simpl.
  by replace (cycle c - S j)%nat with (pred (cycle c - j)) by lia.
Qed.

Lemma delay_ready k s c d : released chip_ready d c -> (cycle d + S (lag c) <= k)%nat ->
  exists c', zoom (delay_loop k I2CDEV) (put_i2c0 c s) = Ok (tt, put_i2c0 c' s) /\
    released chip_ready (d{{ cycle := 0%nat }}) c' /\ lag c' = lag c.
Proof.
  intros Hr Hk. destruct (delay_settles chip_ready k c d Hr) as (j & Hj & Hidle & Hdev & Hl); [lia|].
  exists (Nat.iter k tick c). split; [exact (delay_run k (put_i2c0 c s))|]. split; [|done].
  replace (d{{ cycle := 0%nat }}) with (dev (Nat.iter k tick c)); [by apply idle_released|].
  rewrite Hdev, elapse_iter. by replace (cycle d - j)%nat with 0%nat by lia.
Qed.

Lemma memory_set aa n fuel m m' s c d :
  memory_is aa n fuel m s -> lag c = lag (i2c0 (ei2c s)) -> released chip_ready d c ->
  cycle d = 0%nat -> chip_ok aa n d -> cells d = m' -> Forall byte_ok m' ->
  memory_is aa n fuel m' (put_i2c0 c s).
Proof.
  intros [] Hl Hr Hc Hok Hm Hb. split; simpl; rewrite ?Hl; try done. by exists d.
Qed.

Lemma offset_bytes_length aa off : length (offset_bytes aa off) = if aa then 1%nat else 2%nat.
Proof. by destruct aa. Qed.

Lemma memcpy_ok {W} dst i src j n (w : W) :
  0 <= i -> 0 <= j -> 0 <= n -> i + n <= Z.of_nat (length dst) -> j + n <= Z.of_nat (length src) ->
  memcpy dst i src j n w = Ok (blit dst (Z.to_nat i) (take (Z.to_nat n) (drop (Z.to_nat j) src)), w).
Proof.
  intros. unfold memcpy. erewrite bind_ok; [done|]. unfold guard.
  destruct (Z.leb_spec 0 i), (Z.leb_spec (i + n) (Z.of_nat (length dst))), (Z.leb_spec 0 j),
    (Z.leb_spec (j + n) (Z.of_nat (length src))); try lia. done.
Qed.

(** The bytes that a turn of the loop sends. *)
Lemma packet_ok {W} tmp head chunk buf k n (w : W) :
  chunk = take (Z.to_nat n) (drop (Z.to_nat k) buf) -> 0 <= k -> 0 <= n ->
  k + n <= Z.of_nat (length buf) -> Z.of_nat (length head) + n <= Z.of_nat (length tmp) ->
  exists post, (tmp' ← memcpy tmp 0 head 0 (Z.of_nat (length head));
                memcpy tmp' (Z.of_nat (length head)) buf k n) w = Ok ((head ++ chunk) ++ post, w) /\
    length ((head ++ chunk) ++ post) = length tmp /\ Z.of_nat (length chunk) = n.
Proof.
  intros -> Hk Hn Hb Ht. set (chunk := take (Z.to_nat n) (drop (Z.to_nat k) buf)).
  assert (Hc : length chunk = Z.to_nat n) by (unfold chunk; rewrite length_take, length_drop; lia).
  assert (Hbl : blit (blit tmp 0 head) (length head) chunk = blit tmp 0 (head ++ chunk))
    by (apply (blit_app tmp head chunk 0); lia).
  exists (drop (length head + length chunk) tmp). split; [|split; [|lia]].
  - erewrite bind_ok by (apply memcpy_ok; lia). rewrite Nat2Z.id, take_ge by (rewrite length_drop; lia).
    change (blit tmp (Z.to_nat 0) (drop (Z.to_nat 0) head)) with (blit tmp 0 head).
    rewrite memcpy_ok by (rewrite ?length_blit; lia). rewrite Nat2Z.id. fold chunk. simpl drop.
    rewrite Hbl. unfold blit. simpl. by rewrite length_app.
  - rewrite !length_app, length_drop. lia.
Qed.

Lemma write_chunk_ok aa n fuel m s buf l :
  memory_is aa n fuel m s -> 0 <= w_off l -> 0 < w_wLen l <= w_len l -> 0 <= w_written l ->
  w_off l + w_len l <= g_writable (geometry_of aa n) ->
  w_off l mod g_page (geometry_of aa n) + w_wLen l <= g_page (geometry_of aa n) ->
  w_written l + w_len l <= Z.of_nat (length buf) -> w_written l + w_len l <= 4096 ->
  Z.of_nat (length (w_tmp l)) = g_page (geometry_of aa n) + 2 -> Forall byte_ok buf ->
  exists tmp s', write_chunk fuel buf l s =
      Ok (Continue (mk_wl tmp (w_len l - w_wLen l) (w_written l + w_wLen l) (w_off l + w_wLen l)
                      (Z.min (g_page (geometry_of aa n)) (w_len l - w_wLen l))), s') /\
    length tmp = length (w_tmp l) /\
    memory_is aa n fuel
      (blit m (Z.to_nat (w_off l)) (take (Z.to_nat (w_wLen l)) (drop (Z.to_nat (w_written l)) buf))) s'.
Proof.
  intros Hm Ho Hw Hk Hr Hp Hbuf Hbig Ht Hb.
  pose proof Hm as [Haa _ Hpage (c & Hrel & Hc & Hok & Hcells) Hbytes Hfuel _ Hcycle].
  assert (Hg : g_page (geometry_of aa n) <= 32 /\ g_writable (geometry_of aa n) <= 4096) by (by destruct aa).
  set (head := offset_bytes aa (w_off l)). set (chunk := take _ (drop _ buf)).
  unfold write_chunk. destruct (Z.eqb_spec (w_len l) 0); [lia|]. erewrite bind_ok by done. cbv zeta.
  rewrite Haa. fold head.
  destruct (packet_ok (w_tmp l) head chunk buf (w_written l) (w_wLen l) s) as (post & E & Hlen & Hcl);
    [done|done|lia|lia|subst head; rewrite offset_bytes_length; destruct aa; lia|].
  rewrite (bind_bind_ok _ _ _ _ _ _ E).
  assert (Hchunk : chunk <> []) by (intros Ec; rewrite Ec in Hcl; simpl in Hcl; lia).
  destruct (write_page aa n c (w_off l) chunk) as (c' & Et & Hc' & Hok' & Hcells' & Hcyc'); try done; try lia.
  { apply Forall_take, Forall_drop, Hb. }
  assert (Hhl : length (head ++ chunk) = (length head + length chunk)%nat) by apply length_app.
  destruct (I2CWrite_run chip_ready fuel s 0x50 ((head ++ chunk) ++ post) (head ++ chunk) post c c')
    as (c1 & Ew & Hr1 & Hl1); try done.
  { intros Ea. by apply app_eq_nil in Ea as [_ Ea]. }
  { rewrite Hhl. subst head. rewrite offset_bytes_length. destruct aa; lia. }
  replace (w_wLen l + Z.of_nat (length head)) with (Z.of_nat (length (head ++ chunk))) by lia.
  erewrite bind_ok by exact Ew. unfold eepromDelay.
  destruct (delay_ready write_turns s c1 (chip_stop c') Hr1) as (c2 & Ed & Hr2 & Hl2);
    [rewrite Hcyc', Hl1; exact Hcycle|].
  erewrite bind_ok by exact Ed.
  exists ((head ++ chunk) ++ post), (put_i2c0 c2 s). split; [|split; [by rewrite Hlen|]].
  - rewrite Hpage, s16_small, (u16_small (w_len l - w_wLen l)), (u16_small (w_off l + w_wLen l)) by lia.
    by rewrite (u16_small (Z.min _ _)) by lia.
  - apply (memory_set aa n fuel m _ s c2 ((chip_stop c'){{ cycle := 0%nat }}) Hm);
      [rewrite Hl2; exact Hl1|exact Hr2|reflexivity| | |].
    + destruct Hok'. split; assumption.
    + simpl. rewrite Hcells', Hcells. reflexivity.
    + apply Forall_app. split; [by apply Forall_take|]. apply Forall_app. split; [|by apply Forall_drop].
      apply Forall_take, Forall_drop, Hb.
Qed.

Lemma memory_length aa n fuel m s : memory_is aa n fuel m s ->
  g_writable (geometry_of aa n) <= Z.of_nat (length m).
Proof.
  intros [_ _ _ (c & _ & _ & [Hg Hl] & <-) _ _ _ _]. rewrite Hl, Hg. by destruct aa.
Qed.

Lemma drop_blit {A} (m : list A) p l : (p <= length m)%nat -> drop p (blit m p l) = l ++ drop (p + length l) m.
Proof. intros Hp. unfold blit. by rewrite drop_app_length' by (rewrite length_take; lia). Qed.

Lemma blit_take {A} (m : list A) p a b x : (a <= b <= length x)%nat -> (p + b <= length m)%nat ->
  blit (blit m p (take a x)) (p + a) (take (b - a) (drop a x)) = blit m p (take b x).
Proof.
  intros Hab Hm. replace (take b x) with (take a x ++ take (b - a) (drop a x)).
  - rewrite <- blit_app; rewrite !length_take, ?length_drop; [|lia].
    by rewrite Nat.min_l by lia.
  - rewrite take_take_drop. f_equal. lia.
Qed.

(** The loop: the rest of the buffer goes to the memory, page by page. *)
Lemma write_loop_ok aa n fuel buf : Forall byte_ok buf ->
  forall k m s l, memory_is aa n fuel m s -> w_len l < Z.of_nat k -> 0 <= w_off l ->
  0 <= w_len l -> 0 <= w_written l ->
  (0 < w_len l -> 0 < w_wLen l <= w_len l /\
     w_off l mod g_page (geometry_of aa n) + w_wLen l <= g_page (geometry_of aa n) /\
     (w_wLen l = w_len l \/ (w_off l + w_wLen l) mod g_page (geometry_of aa n) = 0)) ->
  w_off l + w_len l <= g_writable (geometry_of aa n) ->
  w_written l + w_len l <= Z.of_nat (length buf) -> w_written l + w_len l <= 4096 ->
  Z.of_nat (length (w_tmp l)) = g_page (geometry_of aa n) + 2 ->
  exists s', while k (write_chunk fuel buf) l s = Ok (w_written l + w_len l, s') /\
    memory_is aa n fuel
      (blit m (Z.to_nat (w_off l)) (take (Z.to_nat (w_len l)) (drop (Z.to_nat (w_written l)) buf))) s'.
Proof.
  intros Hb. induction k as [|k IH]; intros m s l Hm Hk Ho Hlen Hwr Hch Hr Hbuf Hbig Ht; [lia|].
  cbn [while]. destruct (decide (w_len l = 0)) as [E0|Hne].
  - exists s. split.
    + erewrite bind_ok; [|unfold write_chunk; by rewrite E0]. by rewrite E0, Z.add_0_r.
    + rewrite E0. change (Z.to_nat 0) with 0%nat. by rewrite take_0, blit_nil.
  - destruct Hch as (Hw & Hp & Hnext); [lia|].
    destruct (write_chunk_ok aa n fuel m s buf l) as (tmp & s1 & E & Hl1 & Hm1); try done.
    erewrite bind_ok by exact E. pose proof (geometry_page aa n) as Hpage.
    edestruct (IH _ s1 (mk_wl tmp (w_len l - w_wLen l) (w_written l + w_wLen l) (w_off l + w_wLen l)
      (Z.min (g_page (geometry_of aa n)) (w_len l - w_wLen l))) Hm1) as (s2 & E2 & Hm2);
      cbn [w_len w_off w_written w_wLen w_tmp] in *; try lia.
    { intros Hpos. destruct Hnext as [?|Hnext]; [lia|]. rewrite Hnext.
      split; [lia|]. split; [lia|].
      destruct (Z.min_spec (g_page (geometry_of aa n)) (w_len l - w_wLen l)) as [[? ->]|[? ->]]; [|by left].
      right. rewrite <- (Z.add_mod_idemp_l (w_off l + w_wLen l)), Hnext by lia. by rewrite Z.add_0_l, Z.mod_same by lia. }
    exists s2. split; [rewrite E2; do 2 f_equal; lia|]. revert Hm2.
    pose proof (memory_length aa n fuel m s Hm) as Hml.
    rewrite <- (blit_take m _ (Z.to_nat (w_wLen l)) (Z.to_nat (w_len l)))
      by (rewrite ?length_drop; lia).
    rewrite drop_drop. replace (Z.to_nat (w_off l + w_wLen l)) with (Z.to_nat (w_off l) + Z.to_nat (w_wLen l))%nat by lia.
    replace (Z.to_nat (w_len l - w_wLen l)) with (Z.to_nat (w_len l) - Z.to_nat (w_wLen l))%nat by lia.
    by replace (Z.to_nat (w_written l + w_wLen l)) with (Z.to_nat (w_written l) + Z.to_nat (w_wLen l))%nat by lia.
Qed.

(** ** What the driver does to the memory *)

Lemma eeprom_write_run aa n fuel m s buf off len :
  memory_is aa n fuel m s -> Forall byte_ok buf -> 0 <= off -> 0 <= len ->
  off + len <= g_writable (geometry_of aa n) -> len <= Z.of_nat (length buf) ->
  exists s', eeprom_write fuel buf off len s = Ok (len, s') /\
    memory_is aa n fuel (blit m (Z.to_nat off) (take (Z.to_nat len) buf)) s'.
Proof.
  intros Hm Hb Ho Hl Hr Hbuf. pose proof (geometry_page aa n) as Hp.
  assert (Hg : g_page (geometry_of aa n) <= 32 /\ g_writable (geometry_of aa n) <= 4096) by (by destruct aa).
  unfold eeprom_write. erewrite bind_ok by done.
  rewrite (mi_total _ _ _ _ _ Hm), (mi_page _ _ _ _ _ Hm).
  destruct (Z.ltb_spec (g_writable (geometry_of aa n)) len); [lia|].
  destruct (Z.ltb_spec (g_writable (geometry_of aa n)) (off + len)); [lia|]. cbn [orb].
  destruct (Z.eqb_spec (g_page (geometry_of aa n)) 0); [lia|]. erewrite bind_ok by done. cbv zeta.
  pose proof (Z.mod_pos_bound off (g_page (geometry_of aa n)) Hp) as Hmod.
  assert (Hu : forall r, 0 <= r < g_page (geometry_of aa n) ->
    u16 (g_page (geometry_of aa n) - r) = g_page (geometry_of aa n) - r)
    by (intros; unfold u16; apply Z.mod_small; lia).
  rewrite Hu by done.
  destruct (write_loop_ok aa n fuel buf Hb (S (Z.to_nat len)) m s
    (mk_wl (replicate (Z.to_nat (g_page (geometry_of aa n) + 2)) 0) len 0 off
       (Z.min (g_page (geometry_of aa n) - off mod g_page (geometry_of aa n)) len)) Hm)
    as (s' & E & Hm'); cbn [w_len w_off w_written w_wLen w_tmp]; try lia.
  - intros Hpos. split; [lia|]. split; [lia|].
    destruct (Z.min_spec (g_page (geometry_of aa n) - off mod g_page (geometry_of aa n)) len)
      as [[? ->]|[? ->]]; [right|by left].
    rewrite <- (Z.add_mod_idemp_l off), Zplus_minus by lia. apply Z.mod_same. lia.
  - rewrite length_replicate. lia.
  - exists s'. split; [exact E|]. exact Hm'.
Qed.

Lemma eeprom_read_run aa n fuel m s buf off len :
  memory_is aa n fuel m s -> 0 <= off -> 0 < len ->
  off + len <= g_writable (geometry_of aa n) -> len <= Z.of_nat (length buf) ->
  exists s', eeprom_read fuel buf off len s =
      Ok ((len, blit buf 0 (take (Z.to_nat len) (drop (Z.to_nat off) m))), s') /\
    memory_is aa n fuel m s'.
Proof.
  intros Hm Ho Hl Hr Hbuf. pose proof (memory_length aa n fuel m s Hm) as Hml.
  pose proof Hm as [Haa Htot _ (c & Hrel & Hc & Hok & Hcells) Hbytes Hfuel Hdelay _].
  assert (Hg : g_writable (geometry_of aa n) <= 4096 /\
               g_writable (geometry_of aa n) <= g_size (geometry_of aa n)) by (by destruct aa).
  unfold eeprom_read. erewrite bind_ok by done. rewrite Htot, Haa.
  destruct (Z.ltb_spec (g_writable (geometry_of aa n)) len); [lia|].
  destruct (Z.ltb_spec (g_writable (geometry_of aa n)) (off + len)); [lia|]. cbn [orb]. cbv zeta.
  set (d1 := c{{ cmode := Writing; page_buf := []; pointer := off }}).
  destruct (I2CWrite_run chip_ready fuel s 0x50 (offset_bytes aa off) (offset_bytes aa off) [] c d1)
    as (c1 & Ew & Hr1 & Hl1); try done.
  { by rewrite app_nil_r. }
  { by destruct aa. }
  { rewrite offset_bytes_length. by destruct aa. }
  { apply (set_pointer aa n); [done|done|lia]. }
  erewrite bind_ok by exact Ew. unfold readDelay.
  destruct (delay_ready read_turns s c1 (chip_stop d1) Hr1) as (c2 & Ed & Hr2 & Hl2);
    [simpl; rewrite Hc, Hl1; exact Hdelay|].
  erewrite bind_ok by exact Ed. set (d2 := (chip_stop d1){{ cycle := 0%nat }}) in *.
  assert (Hcel : cells d2 = m) by done. assert (Hgs : geo d2 = geometry_of aa n) by apply Hok.
  assert (Hlen2 : Z.of_nat (length m) = g_size (geo d2)) by (rewrite <- Hcells; apply Hok).
  destruct (read_memory d2 (Z.to_nat len) off) as (d3 & Et & H1 & H2 & H3 & H4);
    [reflexivity|reflexivity|exact Ho|lia|rewrite Hcel; exact Hlen2|rewrite Hcel; exact Hbytes|
     rewrite Hgs; lia|].
  destruct (I2CRead_run chip_ready fuel (put_i2c0 c2 s) 0x50 buf (Z.to_nat len) d2
    (take (Z.to_nat len) (drop (Z.to_nat off) m)) d3) as (c4 & Er & Hr4 & Hl4);
    [lia|lia|exact Hr2|reflexivity|simpl; rewrite Hl2, Hl1; exact Hfuel|rewrite <- Hcel; exact Et|
     rewrite length_take, length_drop; lia|].
  rewrite Z2Nat.id in Er by lia. erewrite bind_ok by exact Er. simpl snd.
  exists (put_i2c0 c4 s). split.
  - by rewrite s16_small by lia.
  - apply (memory_set aa n fuel m m s c4 (chip_stop d3) Hm);
      [rewrite Hl4; simpl; rewrite Hl2; exact Hl1|exact Hr4| | | |exact Hbytes].
    + unfold chip_stop. by rewrite H4.
    + unfold chip_stop. rewrite H4. split; simpl; rewrite ?H1, ?H2; [done|]. by rewrite Hcel, Hlen2.
    + unfold chip_stop. rewrite H4. simpl. by rewrite H1.
Qed.

(** *** Detection of the chip *)

Definition eui_address : Z := 0xFA.

(** The three bytes that [eeprom_init] looks at: on the chip with one address byte those of
    its identifier; on the other one, for which the address is incomplete, those at its
    pointer. *)
Definition seen_id (aa : bool) (c : chip) : list Z :=
  take 3 (drop (Z.to_nat (if aa then eui_address else pointer c)) (cells c)).

Lemma eui_address_sent aa n c : chip_ok aa n c -> cycle c = 0%nat ->
  exists c', transaction 0x50 [0xFA] 0 c = Some ([], c') /\ cycle c' = 0%nat /\
    chip_stop c' = c{{ cmode := Standby; page_buf := [];
                       pointer := if aa then eui_address else pointer c }}.
Proof.
  intros [Hg Hl] Hc. unfold transaction, bus_write. change (u8 (2 * 0x50)) with 0xA0.
  change (sl_addr 0xA0 c) with (chip_addr 0xA0 c). rewrite chip_addr_write by done.
  cbn [send_all]. change (sl_write (u8 0xFA)) with (chip_write 0xFA). unfold chip_write. simpl.
  rewrite Hg. destruct aa; simpl; (eexists; split; [reflexivity|split; [done|]]); by destruct c.
Qed.

Lemma eeprom_readEui48_run aa n fuel c s eui :
  released chip_ready c (i2c0 (ei2c s)) -> cycle c = 0%nat -> chip_ok aa n c ->
  Forall byte_ok (cells c) -> 0 <= pointer c -> pointer c + 6 <= g_size (geo c) ->
  (S (S (2 * lag (i2c0 (ei2c s)))) < fuel)%nat -> (S (lag (i2c0 (ei2c s))) <= read_turns)%nat ->
  (n + S (lag (i2c0 (ei2c s))) <= write_turns)%nat -> length eui = 6%nat ->
  exists r c' d', eeprom_readEui48 fuel eui s =
      Ok ((bool_decide (seen_id aa c = eui48_org_id), r), put_i2c0 c' s) /\
    released chip_ready d' c' /\ cells d' = cells c /\ geo d' = geo c /\ cycle d' = 0%nat /\
    lag c' = lag (i2c0 (ei2c s)).
Proof.
  intros Hrel Hc Hok Hbytes Hp0 Hp Hfuel Hdelay Hcycle Heui. unfold eeprom_readEui48.
  destruct (eui_address_sent aa n c Hok Hc) as (d1 & Et & Hd1 & Hstop).
  destruct (I2CWrite_run chip_ready fuel s 0x50 [0xFA] [0xFA] [] c d1)
    as (c1 & Ew & Hr1 & Hl1); [done|done|done|done|done|done|done|].
  simpl length in Ew. change (Z.of_nat 1) with 1 in Ew. change (sl_stop d1) with (chip_stop d1) in Hr1.
  rewrite Hstop in Hr1.
  destruct (delay_ready read_turns s c1 _ Hr1) as (c2 & Ed & Hr2 & Hl2);
    [simpl; rewrite Hc, Hl1; exact Hdelay|].
  match type of Hr2 with released _ ?d _ => set (d2 := d) in * end.
  destruct (read_memory d2 6 (pointer d2)) as (d3 & Et3 & H1 & H2 & H3 & H4);
    [reflexivity|reflexivity| |lia|apply Hok|exact Hbytes| |].
  { simpl. by destruct aa. }
  { simpl. destruct aa; [|exact Hp]. rewrite (ck_geo _ _ _ Hok). simpl. unfold eui_address. lia. }
  set (r := take 6 (drop (Z.to_nat (pointer d2)) (cells d2))) in *.
  assert (Hl6 : length r = 6%nat).
  { unfold r. rewrite length_take, length_drop. pose proof (ck_len _ _ _ Hok) as Hlen. simpl.
    destruct aa; [|lia]. rewrite (ck_geo _ _ _ Hok) in Hlen. simpl in Hlen. unfold eui_address. lia. }
  destruct (I2CRead_run chip_ready fuel (put_i2c0 c2 s) 0x50 eui 6 d2 r d3) as (c4 & Er & Hr4 & Hl4);
    [lia|done|exact Hr2|reflexivity|simpl; rewrite Hl2, Hl1; exact Hfuel|exact Et3|exact Hl6|].
  assert (Hblit : blit eui 0 r = r).
  { unfold blit. simpl. rewrite drop_ge by lia. apply app_nil_r. }
  exists r, c4, (chip_stop d3). split; [|split; [exact Hr4|]].
  - erewrite bind_ok by exact Ew. unfold readDelay. erewrite bind_ok by exact Ed.
    erewrite bind_ok by exact Er. cbv zeta. simpl snd. rewrite Hblit.
    erewrite bind_ok by (rewrite Hl6; reflexivity).
    unfold r. change (Z.to_nat EUI48_ORG_ID_SZ) with 3%nat. rewrite take_take. reflexivity.
  - unfold chip_stop. rewrite H4. simpl. rewrite H1, H2, H3, Hl4. simpl. rewrite Hl2, Hl1. split_and!; reflexivity.
Qed.

Lemma eeprom_init_run aa n fuel c s eui :
  released chip_ready c (i2c0 (ei2c s)) -> cycle c = 0%nat -> chip_ok aa n c ->
  Forall byte_ok (cells c) -> 0 <= pointer c -> pointer c + 6 <= g_size (geo c) ->
  (S (S (2 * lag (i2c0 (ei2c s)))) < fuel)%nat -> (S (lag (i2c0 (ei2c s))) <= read_turns)%nat ->
  (n + S (lag (i2c0 (ei2c s))) <= write_turns)%nat -> length eui = 6%nat ->
  eeprom_24aa02e48t s = false -> bool_decide (seen_id aa c = eui48_org_id) = aa ->
  exists s', eeprom_init fuel eui s = Ok (tt, s') /\ memory_is aa n fuel (cells c) s'.
Proof.
  intros Hrel Hc Hok Hbytes Hp0 Hp Hfuel Hdelay Hcycle Heui Haa0 Hid.
  destruct (eeprom_readEui48_run aa n fuel c s eui) as (r & c' & d' & E & Hr & Hcel & Hgeo & Hcyc & Hl);
    try assumption.
  rewrite Hid in E. unfold eeprom_init. erewrite bind_ok by exact E.
  assert (Hok' : chip_ok aa n d').
  { destruct Hok as [Hg Hlen]. split; rewrite ?Hcel, Hgeo; assumption. }
  destruct s as [i2c total page aa0]. simpl in *. subst aa0.
  destruct aa; eexists; (split; [reflexivity|]).
  all: split; simpl; rewrite ?Hl; try assumption; try reflexivity.
  all: exists d'; auto.
Qed.

(** ** Correctness *)

(** Initialisation finds out which of the two chips is mounted from three bytes it reads,
    and sets the sizes that the driver works with accordingly; the memory is as it was. *)
Theorem eeprom_init_detects aa n fuel c s eui
    (Hrel : released chip_ready c (i2c0 (ei2c s))) (Hc : cycle c = 0%nat) (Hok : chip_ok aa n c)
    (Hbytes : Forall byte_ok (cells c)) (Hp : 0 <= pointer c <= g_size (geo c) - 6)
    (Hfuel : (S (S (2 * lag (i2c0 (ei2c s)))) < fuel)%nat)
    (Hdelay : (S (lag (i2c0 (ei2c s))) <= read_turns)%nat)
    (Hcycle : (n + S (lag (i2c0 (ei2c s))) <= write_turns)%nat) (Heui : length eui = 6%nat)
    (Haa : eeprom_24aa02e48t s = false) (Hid : bool_decide (seen_id aa c = eui48_org_id) = aa) :
  exists s', eeprom_init fuel eui s = Ok (tt, s') /\ memory_is aa n fuel (cells c) s'.
Proof. apply (eeprom_init_run aa n fuel c s eui); (assumption || lia). Qed.

(** C5: A write outside the memory is refused without touching the bus.  Any other one, however
    long and wherever it starts, stores exactly the caller's bytes at their addresses and
    nothing else: no page of the chip wraps, and each page is written after the write cycle
    of the one before. *)
Theorem eeprom_write_stores aa n fuel m s buf off len
    (Hm : memory_is aa n fuel m s) (Hb : Forall byte_ok buf) (Ho : 0 <= off) (Hl : 0 <= len)
    (Hbuf : len <= Z.of_nat (length buf)) :
  if off + len <=? g_writable (geometry_of aa n) then
    exists s', eeprom_write fuel buf off len s = Ok (len, s') /\
      memory_is aa n fuel (blit m (Z.to_nat off) (take (Z.to_nat len) buf)) s'
  else eeprom_write fuel buf off len s = Ok (-1, s).
Proof.
  destruct (Z.leb_spec (off + len) (g_writable (geometry_of aa n))).
  - by apply eeprom_write_run.
  - unfold eeprom_write. erewrite bind_ok by done. rewrite (mi_total _ _ _ _ _ Hm).
    destruct (Z.ltb_spec (g_writable (geometry_of aa n)) (off + len)); [|lia].
    by rewrite orb_true_r.
Qed.

(** What has been written is read back, also across page borders, and reading changes
    nothing. *)
Theorem eeprom_roundtrip aa n fuel m s buf dst off len
    (Hm : memory_is aa n fuel m s) (Hb : Forall byte_ok buf) (Ho : 0 <= off) (Hl : 0 < len)
    (Hr : off + len <= g_writable (geometry_of aa n))
    (Hbuf : len = Z.of_nat (length buf)) (Hdst : len = Z.of_nat (length dst)) :
  exists s', (_ ← eeprom_write fuel buf off len; eeprom_read fuel dst off len) s = Ok ((len, buf), s') /\
    memory_is aa n fuel (blit m (Z.to_nat off) buf) s'.
Proof.
  destruct (eeprom_write_run aa n fuel m s buf off len) as (s1 & E1 & Hm1); try (assumption || lia).
  rewrite take_ge in Hm1 by lia.
  destruct (eeprom_read_run aa n fuel _ s1 dst off len Hm1) as (s2 & E2 & Hm2); try (assumption || lia).
  exists s2. split; [|exact Hm2]. erewrite bind_ok by exact E1. rewrite E2. do 3 f_equal.
  pose proof (memory_length aa n fuel m s Hm) as Hlen.
  rewrite (drop_blit m), Hbuf, Nat2Z.id, take_app_length by lia.
  unfold blit. simpl. rewrite drop_ge by lia. apply app_nil_r.
Qed.

(** *** No chip *)

#[export] Instance no_slave : Slave unit := {|
  sl_addr := fun _ d => (false, d);
  sl_write := fun _ d => (false, d);
  sl_read := fun _ d => (0xFF, d);
  sl_stop := fun d => d;
  sl_elapse := fun d => d
|}.

#[export] Instance no_quiet : QuietSlave unit (fun _ => True).
Proof. split; simpl; try done. Qed.

Record unwired (fuel : nat) (s : eeprom_st unit) : Prop := {
  un_free : released (fun _ => True) tt (i2c0 (ei2c s));
  un_fuel : (S (S (2 * lag (i2c0 (ei2c s)))) < fuel)%nat;
  un_delay : (S (lag (i2c0 (ei2c s))) <= write_turns)%nat /\ (S (lag (i2c0 (ei2c s))) <= read_turns)%nat;
  un_page : 0 < eeprom_page_size s <= 32
}.

Lemma nobody_anywhere a : nobody_at a tt.
Proof. done. Qed.

Lemma unwired_set fuel s c : unwired fuel s -> released (fun _ => True) tt c ->
  lag c = lag (i2c0 (ei2c s)) -> unwired fuel (put_i2c0 c s).
Proof. intros [] Hr Hl. split; simpl; rewrite ?Hl; assumption. Qed.

Lemma I2CWrite_unwired fuel s buf tx post :
  unwired fuel s -> buf = tx ++ post -> tx <> [] -> Z.of_nat (length tx) < 2 ^ 32 ->
  exists c', I2CWrite fuel 0x50 buf (Z.of_nat (length tx)) s = Ok (-1, put_i2c0 c' s) /\
    unwired fuel (put_i2c0 c' s).
Proof.
  intros Hs Hb Ht Hn. unfold I2CWrite, I2CDEV.
  pose proof (transfer_nack (fun _ => True) LPC_I2C0 (ei2c s) fuel _ tx 0 [] _ tt
    (setup_tx 0x50 buf tx post _ Hb Ht eq_refl Hn) (or_introl Ht) (nobody_anywhere _) I
    (un_fuel _ _ Hs)) as T.
  destruct (reaches_run LPC_I2C0 (ei2c s) _ _ _ (T ltac:(simpl; lia) (un_free _ _ Hs)))
    as (c' & Er & F & Hc').
  exists c'. split; [|apply (unwired_set fuel s c' Hs Hc'); by apply fixed_lag].
  erewrite bind_ok by (apply zoom_ok; exact Er). reflexivity.
Qed.

Lemma I2CRead_unwired fuel s buf n :
  unwired fuel s -> (0 < n <= length buf)%nat -> Z.of_nat n < 2 ^ 32 ->
  exists c', I2CRead fuel 0x50 buf (Z.of_nat n) s = Ok ((-1, buf), put_i2c0 c' s).
Proof.
  intros Hs Hn Hl. unfold I2CRead, I2CDEV.
  assert (Hn0 : n <> 0%nat) by lia.
  pose proof (transfer_nack (fun _ => True) LPC_I2C0 (ei2c s) fuel _ [] n buf _ tt
    (setup_rx 0x50 buf n Hn Hl) (or_intror Hn0) (nobody_anywhere _) I (un_fuel _ _ Hs)) as T.
  destruct (reaches_run LPC_I2C0 (ei2c s) _ _ _ (T ltac:(simpl; lia) (un_free _ _ Hs)))
    as (c' & Er & F & Hc').
  exists c'. erewrite bind_ok by (apply zoom_ok; exact Er). reflexivity.
Qed.

Lemma delay_unwired fuel k s : unwired fuel s -> (S (lag (i2c0 (ei2c s))) <= k)%nat ->
  exists c', zoom (delay_loop k I2CDEV) s = Ok (tt, put_i2c0 c' s) /\ unwired fuel (put_i2c0 c' s).
Proof.
  intros Hs Hk.
  destruct (delay_settles (fun _ => True) k _ tt (un_free _ _ Hs) Hk) as (j & _ & Hidle & Hdev & Hl).
  eexists. split; [apply delay_run|]. apply unwired_set; [done| |exact Hl].
  pose proof (idle_released (fun _ => True) _ Hidle) as Hr. by destruct (dev _).
Qed.

Lemma write_loop_unwired fuel buf : forall k s l, unwired fuel s -> w_len l < Z.of_nat k ->
  0 <= w_len l -> 0 <= w_written l -> (0 < w_len l -> 0 < w_wLen l <= w_len l) ->
  w_wLen l <= eeprom_page_size s -> w_written l + w_len l <= Z.of_nat (length buf) ->
  w_written l + w_len l <= 4096 -> Z.of_nat (length (w_tmp l)) = eeprom_page_size s + 2 ->
  exists s', while k (write_chunk fuel buf) l s = Ok (w_written l + w_len l, s').
Proof.
  induction k as [|k IH]; intros s l Hs Hk Hlen Hwr Hch Hp Hbuf Hbig Ht; [lia|].
  cbn [while]. destruct (Z.eqb_spec (w_len l) 0) as [E0|Hne].
  { exists s. erewrite bind_ok; [|unfold write_chunk; by rewrite E0]. by rewrite E0, Z.add_0_r. }
  specialize (Hch ltac:(lia)).
  set (head := offset_bytes (eeprom_24aa02e48t s) (w_off l)).
  set (chunk := take (Z.to_nat (w_wLen l)) (drop (Z.to_nat (w_written l)) buf)).
  assert (Hhead : (length head <= 2)%nat) by (subst head; rewrite offset_bytes_length; destruct (eeprom_24aa02e48t s); lia).
  destruct (packet_ok (w_tmp l) head chunk buf (w_written l) (w_wLen l) s) as (post & E & Hpl & Hcl);
    [done|lia|lia|lia|lia|].
  destruct (I2CWrite_unwired fuel s ((head ++ chunk) ++ post) (head ++ chunk) post Hs eq_refl)
    as (c1 & Ew & Hs1).
  { intros Ea. apply app_eq_nil in Ea as [_ Ea]. rewrite Ea in Hcl. simpl in Hcl. lia. }
  { rewrite length_app. lia. }
  destruct (delay_unwired fuel write_turns _ Hs1 (proj1 (un_delay _ _ Hs1))) as (c2 & Ed & Hs2).
  assert (Echunk : write_chunk fuel buf l s = Ok (Continue (mk_wl ((head ++ chunk) ++ post)
      (w_len l - w_wLen l) (w_written l + w_wLen l) (u16 (w_off l + w_wLen l))
      (Z.min (eeprom_page_size s) (w_len l - w_wLen l))), put_i2c0 c2 (put_i2c0 c1 s))).
  { unfold write_chunk. destruct (Z.eqb_spec (w_len l) 0); [lia|]. erewrite bind_ok by done. cbv zeta.
    fold head. rewrite (bind_bind_ok _ _ _ _ _ _ E).
    replace (w_wLen l + Z.of_nat (length head)) with (Z.of_nat (length (head ++ chunk)))
      by (rewrite length_app; lia).
    erewrite bind_ok by exact Ew. unfold eepromDelay. erewrite bind_ok by exact Ed.
    pose proof (un_page _ _ Hs). rewrite s16_small, (u16_small (w_len l - w_wLen l)) by lia.
    by rewrite (u16_small (Z.min _ _)) by lia. }
  erewrite bind_ok by exact Echunk. pose proof (un_page _ _ Hs).
  destruct (IH _ (mk_wl ((head ++ chunk) ++ post)
      (w_len l - w_wLen l) (w_written l + w_wLen l) (u16 (w_off l + w_wLen l))
      (Z.min (eeprom_page_size s) (w_len l - w_wLen l))) Hs2) as (s3 & E3);
    cbn [w_len w_off w_written w_wLen w_tmp]; try lia; try (simpl; lia).
  exists s3. rewrite E3. do 2 f_equal. cbn [w_len w_written]. lia.
Qed.

(** The results of the bus are ignored: with no chip on it, a write and a read report the
    full length, and the read leaves the caller's buffer as it was. *)
Theorem eeprom_absent_succeeds fuel s buf dst off len
    (Hs : unwired fuel s) (Ho : 0 <= off) (Hl : 0 < len)
    (Hr : off + len <= eeprom_total_size s) (Hbig : len <= 4096)
    (Hbuf : len <= Z.of_nat (length buf)) (Hdst : len <= Z.of_nat (length dst)) :
  (exists s', eeprom_write fuel buf off len s = Ok (len, s')) /\
  (exists s', eeprom_read fuel dst off len s = Ok ((len, dst), s')).
Proof.
  assert (Hguard : (eeprom_total_size s <? len) || (eeprom_total_size s <? off + len) = false).
  { destruct (Z.ltb_spec (eeprom_total_size s) len), (Z.ltb_spec (eeprom_total_size s) (off + len)); lia. }
  pose proof (un_page _ _ Hs) as Hp. split.
  - unfold eeprom_write. erewrite bind_ok by done. rewrite Hguard.
    destruct (Z.eqb_spec (eeprom_page_size s) 0); [lia|]. erewrite bind_ok by done. cbv zeta.
    pose proof (Z.mod_pos_bound off (eeprom_page_size s) ltac:(lia)) as Hmod.
    set (r := off mod eeprom_page_size s) in *. clearbody r. rewrite u16_small by lia.
    apply (write_loop_unwired fuel buf (S (Z.to_nat len)) s (mk_wl _ len 0 off _) Hs);
      cbn [w_len w_off w_written w_wLen w_tmp]; rewrite ?length_replicate; lia.
  - unfold eeprom_read. erewrite bind_ok by done. rewrite Hguard. cbv zeta.
    set (head := offset_bytes (eeprom_24aa02e48t s) off).
    destruct (I2CWrite_unwired fuel s head head [] Hs) as (c1 & Ew & Hs1);
      [by rewrite app_nil_r|by subst head; destruct (eeprom_24aa02e48t s)| |].
    { subst head. rewrite offset_bytes_length. by destruct (eeprom_24aa02e48t s). }
    erewrite bind_ok by exact Ew. unfold readDelay.
    destruct (delay_unwired fuel read_turns _ Hs1 (proj2 (un_delay _ _ Hs1))) as (c2 & Ed & Hs2).
    erewrite bind_ok by exact Ed.
    destruct (I2CRead_unwired fuel _ dst (Z.to_nat len) Hs2) as (c3 & Er); [lia|lia|].
    rewrite Z2Nat.id in Er by lia. eexists. erewrite bind_ok by exact Er. by rewrite s16_small by lia.
Qed.

(** ** Witnesses *)

Definition board_chip (aa : bool) : chip :=
  mk_chip (geometry_of aa 5000) (replicate (Z.to_nat (g_size (geometry_of aa 5000))) 0) 0 Standby [] 0.

Definition board_eeprom (aa : bool) : eeprom_st chip :=
  mk_eeprom (i2c_ready 10 (board_chip aa)) (g_writable (geometry_of aa 5000))
    (g_page (geometry_of aa 5000)) aa.

Lemma board_chip_ok aa : chip_ok aa 5000 (board_chip aa).
Proof. split; [done|]. simpl. rewrite length_replicate. by destruct aa. Qed.

Lemma board_bytes aa : Forall byte_ok (cells (board_chip aa)).
Proof. apply Forall_replicate. unfold byte_ok. lia. Qed.

Lemma board_turns : (11 <= read_turns)%nat /\ (5000 + 11 <= write_turns)%nat.
Proof. pose proof turns_are. lia. Qed.

Lemma board_memory aa : memory_is aa 5000 30 (cells (board_chip aa)) (board_eeprom aa).
Proof.
  split; try reflexivity; try apply board_bytes; try apply board_turns.
  - exists (board_chip aa). split; [apply i2c_ready_released|]. split; [done|]. split; [apply board_chip_ok|done].
  - simpl. lia.
Qed.

Lemma eeprom_init_detects_witness :
  exists s', eeprom_init 30 [0; 0; 0; 0; 0; 0] (board_eeprom false) = Ok (tt, s') /\
    memory_is false 5000 30 (cells (board_chip false)) s'.
Proof.
  apply (eeprom_init_detects false 5000 30 (board_chip false) (board_eeprom false));
    [apply i2c_ready_released|reflexivity|apply board_chip_ok|apply board_bytes|simpl; lia|simpl; lia
    |apply board_turns|apply board_turns|reflexivity|reflexivity|reflexivity].
Defined.

(** 40 bytes from 20 on, over one page border of the 24LC32A and four of the 24AA02E48. *)
Lemma eeprom_write_stores_witness :
  (exists s', eeprom_write 30 (replicate 40 7) 20 40 (board_eeprom true) = Ok (40, s') /\
    memory_is true 5000 30
      (blit (cells (board_chip true)) (Z.to_nat 20) (take (Z.to_nat 40) (replicate 40 7))) s') /\
  eeprom_write 30 (replicate 40 7) 100 40 (board_eeprom true) = Ok (-1, board_eeprom true).
Proof.
  assert (Hb : Forall byte_ok (replicate 40 7)) by (apply Forall_replicate; unfold byte_ok; lia).
  split.
  - apply (eeprom_write_stores true 5000 30 _ (board_eeprom true) (replicate 40 7) 20 40
      (board_memory true) Hb); rewrite ?length_replicate; lia.
  - apply (eeprom_write_stores true 5000 30 _ (board_eeprom true) (replicate 40 7) 100 40
      (board_memory true) Hb); rewrite ?length_replicate; lia.
Defined.

Lemma eeprom_roundtrip_witness :
  exists s', (_ ← eeprom_write 30 (replicate 40 7) 20 40;
              eeprom_read 30 (replicate 40 0) 20 40) (board_eeprom false) = Ok ((40, replicate 40 7), s') /\
    memory_is false 5000 30 (blit (cells (board_chip false)) (Z.to_nat 20) (replicate 40 7)) s'.
Proof.
  assert (Hb : Forall byte_ok (replicate 40 7)) by (apply Forall_replicate; unfold byte_ok; lia).
  apply (eeprom_roundtrip false 5000 30 _ (board_eeprom false) (replicate 40 7) (replicate 40 0) 20 40
    (board_memory false) Hb); rewrite ?length_replicate; simpl; lia.
Defined.

Lemma eeprom_absent_succeeds_witness :
  let s := mk_eeprom (i2c_ready 10 tt) 4096 32 false in
  (exists s', eeprom_write 30 [1; 2; 3] 0 3 s = Ok (3, s')) /\
  (exists s', eeprom_read 30 [9; 9; 9] 0 3 s = Ok ((3, [9; 9; 9]), s')).
Proof.
  apply (eeprom_absent_succeeds 30 (mk_eeprom (i2c_ready 10 tt) 4096 32 false)); simpl; try lia.
  split; simpl; [apply i2c_ready_released|lia| |lia]. pose proof board_turns. lia.
Defined.
