(* ===== verification/I2cSlave.v ===== *)
(** * The I2C slave

    The slave functions of Lib_MCU/src/lpc17xx_i2c.c, by polling and by interrupt.  The
    registers of the controller are the interface [SlavePort]: time passes at the reads of
    CONSET.  [slave_hw] is a controller in slave mode with a master on the bus: the events
    of the bus come in order, each a number of reads after the one before it was served. *)

From S2P Require Import Prelude I2c.

Class SlavePort (P : Type) : Type := {
  rd_CONSET : P -> Z * P;
  rd_STAT : P -> Z * P;
  rd_DAT : P -> Z * P;
  wr_DAT : Z -> P -> P;
  wr_CONSET : Z -> P -> P;
  wr_CONCLR : Z -> P -> P;
  irq_cmd : bool -> P -> P
}.

Definition I2C_I2STAT_S_RX_SLAW_ACK : Z := 0x60.
Definition I2C_I2STAT_S_RX_GENCALL_ACK : Z := 0x70.
Definition I2C_I2STAT_S_RX_PRE_SLA_DAT_ACK : Z := 0x80.
Definition I2C_I2STAT_S_RX_PRE_SLA_DAT_NACK : Z := 0x88.
Definition I2C_I2STAT_S_RX_PRE_GENCALL_DAT_ACK : Z := 0x90.
Definition I2C_I2STAT_S_RX_PRE_GENCALL_DAT_NACK : Z := 0x98.
Definition I2C_I2STAT_S_RX_STA_STO_SLVREC_SLVTRX : Z := 0xA0.
Definition I2C_I2STAT_S_TX_SLAR_ACK : Z := 0xA8.
Definition I2C_I2STAT_S_TX_DAT_ACK : Z := 0xB8.
Definition I2C_I2STAT_S_TX_DAT_NACK : Z := 0xC0.
Definition I2C_I2STAT_S_TX_LAST_DAT_ACK : Z := 0xC8.
Definition I2C_SLAVE_TIME_OUT : Z := 0x10000.

(** The data of a transfer, as in [I2C_M_SETUP_Type]. *)
Record I2C_S_SETUP_Type : Type := mk_s_setup {
  tx_data : option (list Z);
  tx_length : Z;
  tx_count : Z;
  rx_data : option (list Z);
  rx_length : Z;
  rx_count : Z;
  status : Z;
  callback : option Z
}.
#[export] Instance eta_I2C_S_SETUP_Type : Settable I2C_S_SETUP_Type :=
  fun c => mk_s_setup (tx_data c) (tx_length c) (tx_count c) (rx_data c) (rx_length c) (rx_count c)
    (status c) (callback c).

(** The locals of the polling loop. *)
Record poll_st : Type := mk_poll {
  cfg : I2C_S_SETUP_Type;
  CodeStatus : Z;
  time_en : bool;
  timeout : Z
}.
#[export] Instance eta_poll_st : Settable poll_st :=
  fun p => mk_poll (cfg p) (CodeStatus p) (time_en p) (timeout p).

(** How the polling loop goes on: with its locals, to [s_end_stage] or to [s_error]. *)
Inductive next : Type := Poll (p : poll_st) | EndStage (p : poll_st) | SError (p : poll_st).

(** A transfer by interrupt: [i2cdat[tmp].txrx_setup], the controller, and the calls of the
    callback. *)
Record slave_st (P : Type) : Type := mk_slave {
  s_setup : option I2C_S_SETUP_Type;
  s_port : P;
  s_called : list Z
}.
Arguments mk_slave {P}. Arguments s_setup {P}. Arguments s_port {P}. Arguments s_called {P}.
#[export] Instance eta_slave_st P : Settable (slave_st P) :=
  fun s => mk_slave (s_setup s) (s_port s) (s_called s).
#[export] Instance lens_s_port P : Lens P (slave_st P) :=
  {| view := s_port; put := fun p s => s{{ s_port := p }} |}.

Section Slave.
Context {P : Type} `{SlavePort P}.

(** ** Registers *)

Definition access {A} (f : P -> A * P) : M P A := fun s => Ok (f s).
Definition SCONSET (v : Z) : M P unit := modify (wr_CONSET v).
Definition SCONCLR (v : Z) : M P unit := modify (wr_CONCLR v).
Definition S_IntCmd (enable : bool) : M P unit := modify (irq_cmd enable).
Definition s_stat_code : M P Z := st ← access rd_STAT; mret (Z.land st I2C_STAT_CODE_BITMASK).

(** ** Data *)

(** A byte of the master, if there is room for it. *)
Definition store_byte (c : I2C_S_SETUP_Type) : M P I2C_S_SETUP_Type :=
  if (rx_count c <? rx_length c) && is_Some_b (rx_data c) then
    b ← access rd_DAT;
    d ← pset (rx_data c) (rx_count c) (u8 b);
    mret (c{{ rx_data := d; rx_count := u32 (rx_count c + 1) }})
  else mret c.

(** A byte for the master, if there is one left. *)
Definition load_byte (c : I2C_S_SETUP_Type) : M P I2C_S_SETUP_Type :=
  if (tx_count c <? tx_length c) && is_Some_b (tx_data c) then
    b ← pget (tx_data c) (tx_count c);
    modify (wr_DAT b) ;;
    mret (c{{ tx_count := u32 (tx_count c + 1) }})
  else mret c.

(** Ready for the next byte, which is acknowledged. *)
Definition go_on : M P unit := SCONSET I2C_I2CONSET_AA ;; SCONCLR I2C_I2CONCLR_SIC.

Definition is_receive (code : Z) : bool :=
  (code =? I2C_I2STAT_S_RX_PRE_SLA_DAT_ACK) || (code =? I2C_I2STAT_S_RX_PRE_GENCALL_DAT_ACK).
Definition is_receive_nack (code : Z) : bool :=
  (code =? I2C_I2STAT_S_RX_PRE_SLA_DAT_NACK) || (code =? I2C_I2STAT_S_RX_PRE_GENCALL_DAT_NACK).
Definition is_addressed (code : Z) : bool :=
  (code =? I2C_I2STAT_S_RX_SLAW_ACK) || (code =? I2C_I2STAT_S_RX_GENCALL_ACK).
Definition is_transmit (code : Z) : bool :=
  (code =? I2C_I2STAT_S_TX_SLAR_ACK) || (code =? I2C_I2STAT_S_TX_DAT_ACK).

(** ** Transfers by polling *)

(** The cases of the switch. *)
Definition s_event (p : poll_st) : M P next :=
  let code := CodeStatus p in
  if code =? I2C_I2STAT_NO_INF then go_on ;; mret (Poll p)
  else if is_addressed code then go_on ;; mret (Poll p)
  else if is_receive code then c ← store_byte (cfg p); go_on ;; mret (Poll (p{{ cfg := c }}))
  else if is_receive_nack code then SCONCLR I2C_I2CONCLR_SIC ;; mret (Poll p)
  else if code =? I2C_I2STAT_S_RX_STA_STO_SLVREC_SLVTRX then
    SCONCLR I2C_I2CONCLR_SIC ;; mret (Poll (p{{ time_en := true; timeout := 0 }}))
  else if is_transmit code then c ← load_byte (cfg p); go_on ;; mret (Poll (p{{ cfg := c }}))
  else if code =? I2C_I2STAT_S_TX_DAT_NACK then
    go_on ;; mret (Poll (p{{ time_en := true; timeout := 0 }}))
  else SCONCLR I2C_I2CONCLR_SIC ;; mret (SError p).

(** A turn of [while (1)]. *)
Definition s_turn (p : poll_st) : M P next :=
  con ← access rd_CONSET;
  if bit_set con I2C_I2CONSET_SI then
    code ← s_stat_code;
    s_event (p{{ time_en := false; CodeStatus := code }})
  else if time_en p then
    let t := timeout p in
    let p := p{{ timeout := u32 (t + 1) }} in
    mret (if I2C_SLAVE_TIME_OUT <? t then EndStage p else Poll p)
  else mret (Poll p).

(** The labels [s_end_stage] and [s_error]. *)
Definition s_body (p : poll_st) : M P (ctl poll_st (Status * I2C_S_SETUP_Type)) :=
  r ← s_turn p;
  match r with
  | Poll p => mret (Continue p)
  | EndStage p =>
      SCONCLR I2C_I2CONCLR_AAC ;;
      mret (Break (SUCCESS, (cfg p){{ status := Z.lor (CodeStatus p) I2C_SETUP_STATUS_DONE }}))
  | SError p =>
      SCONCLR I2C_I2CONCLR_AAC ;;
      mret (Break (ERROR, (cfg p){{ status := CodeStatus p }}))
  end.

(** [CodeStatus] is assigned before it is read. *)
Definition s_poll (fuel : nat) (c : I2C_S_SETUP_Type) : M P (Status * I2C_S_SETUP_Type) :=
  SCONSET I2C_I2CONSET_AA ;;
  SCONCLR (Z.lor I2C_I2CONCLR_SIC I2C_I2CONCLR_STAC) ;;
  while fuel s_body (mk_poll c 0 false 0).

(** ** Transfers by interrupt *)

#[local] Abbreviation SW := (slave_st P).

Definition s_get : M SW I2C_S_SETUP_Type :=
  o ← gets s_setup;
  match o with Some c => mret c | None => fail NullDeref end.
Definition s_put (c : I2C_S_SETUP_Type) : M SW unit := modify (fun s : SW => s{{ s_setup := Some c }}).

Definition I2C_SlaveTransferData (fuel : nat) (TransferCfg : I2C_S_SETUP_Type)
    (Opt : I2C_TRANSFER_OPT_Type) : M SW (Status * I2C_S_SETUP_Type) :=
  let c := TransferCfg{{ tx_count := 0; rx_count := 0; status := 0 }} in
  match Opt with
  | I2C_TRANSFER_POLLING => zoom (s_poll fuel c)
  | I2C_TRANSFER_INTERRUPT =>
      s_put c ;;
      zoom (SCONSET I2C_I2CONSET_AA ;; SCONCLR (Z.lor I2C_I2CONCLR_SIC I2C_I2CONCLR_STAC) ;;
            S_IntCmd true) ;;
      mret (SUCCESS, c)
  end.

(** The label [s_int_end]. *)
Definition s_int_end : M SW unit :=
  zoom (S_IntCmd false) ;;
  zoom (SCONCLR (Z.lor (Z.lor I2C_I2CONCLR_AAC I2C_I2CONCLR_SIC) I2C_I2CONCLR_STAC)) ;;
  c ← s_get;
  match callback c with
  | Some f => modify (fun s : SW => s{{ s_called := s_called s ++ [f] }})
  | None => mret tt
  end.

(** The wait behind a STOP or a repeated START: has the time run out? *)
Definition stop_body (t : Z) : M P (ctl Z bool) :=
  con ← access rd_CONSET;
  if bit_set con I2C_I2CONSET_SI then S_IntCmd true ;; mret (Break false)
  else
    let t := u32 (t - 1) in
    mret (if t =? 0 then Break true else Continue t).

Definition s_done : M SW unit :=
  c ← s_get; s_put (c{{ status := Z.lor (status c) I2C_SETUP_STATUS_DONE }}).

(** The cases of the switch. *)
Definition s_switch (fuel : nat) (code : Z) : M SW unit :=
  if is_addressed code then zoom go_on
  else if is_receive code then
    c ← s_get; c ← zoom (store_byte c); s_put c ;; zoom go_on
  else if is_receive_nack code then zoom (SCONCLR I2C_I2CONCLR_SIC)
  else if code =? I2C_I2STAT_S_RX_STA_STO_SLVREC_SLVTRX then
    zoom (S_IntCmd false) ;;
    zoom (SCONCLR I2C_I2CONCLR_SIC) ;;
    over ← zoom (while fuel stop_body I2C_SLAVE_TIME_OUT);
    when over (s_done ;; s_int_end)
  else if is_transmit code then
    c ← s_get; c ← zoom (load_byte c); s_put c ;; zoom go_on
  else if code =? I2C_I2STAT_S_TX_DAT_NACK then
    zoom go_on ;;
    s_done ;;
    s_int_end
  else s_int_end.

(** The case without information returns before the switch. *)
Definition I2C_SlaveHandler (fuel : nat) : M SW unit :=
  code ← zoom s_stat_code;
  c ← s_get;
  s_put (c{{ status := code }}) ;;
  if code =? I2C_I2STAT_NO_INF then zoom (SCONCLR I2C_I2CONCLR_SIC) else s_switch fuel code.
End Slave.
