(* ===== verification/I2cSlaveFacts.v ===== *)
(** * The I2C slave serves the sessions of a master

    A controller in slave mode with a master on the bus ([slave_hw]); a master's sessions
    write or read bytes.  [I2C_SlaveTransferData] by polling and [I2C_SlaveHandler] serve
    them: what is written goes to the receive buffer as far as it reaches, what is read
    comes from the transmit buffer. *)

From S2P Require Import Prelude Clkpwr I2c I2cFacts I2cSlave.

(** ** The bus *)

Inductive bus_event : Type :=
| EvWrite (general : bool) (a : Z)   (* SLA+W or a general call *)
| EvByte (b : Z)                     (* a byte of the master *)
| EvRead (a : Z)                     (* SLA+R *)
| EvTake (ack : bool)                (* the master takes a byte, and acknowledges it or not *)
| EvStop.                            (* a STOP or a repeated START behind a write *)

Inductive role : Type := NotAddressed | Receiver (general : bool) | Transmitter.

(** [h_script]: the events, each with the number of reads of CONSET it comes after;
    [h_taken]: the bytes that the master took. *)
Record slave_hw : Type := mk_hw {
  h_con : Z; h_stat : Z; h_dat : Z; h_irq : bool;
  h_role : role;
  h_script : list (nat * bus_event);
  h_taken : list Z
}.
#[export] Instance eta_slave_hw : Settable slave_hw :=
  fun h => mk_hw (h_con h) (h_stat h) (h_dat h) (h_irq h) (h_role h) (h_script h) (h_taken h).

Definition signal (st : Z) (r : role) (d : Z) (h : slave_hw) : slave_hw :=
  h{{ h_con := Z.lor (h_con h) I2C_I2CONSET_SI; h_stat := st; h_role := r; h_dat := d }}.

(** What the user manual says of each event. *)
Definition occurs (e : bus_event) (h : slave_hw) : slave_hw :=
  let aa := bit_set (h_con h) I2C_I2CONSET_AA in
  match e, h_role h with
  | EvWrite g a, _ =>
      if aa then signal (if g then I2C_I2STAT_S_RX_GENCALL_ACK else I2C_I2STAT_S_RX_SLAW_ACK) (Receiver g) a h
      else h{{ h_role := NotAddressed }}
  | EvRead a, _ =>
      if aa then signal I2C_I2STAT_S_TX_SLAR_ACK Transmitter a h else h{{ h_role := NotAddressed }}
  | EvByte b, Receiver g =>
      if aa then signal (if g then I2C_I2STAT_S_RX_PRE_GENCALL_DAT_ACK else I2C_I2STAT_S_RX_PRE_SLA_DAT_ACK)
                   (Receiver g) b h
      else signal (if g then I2C_I2STAT_S_RX_PRE_GENCALL_DAT_NACK else I2C_I2STAT_S_RX_PRE_SLA_DAT_NACK)
             NotAddressed b h
  | EvTake ack, Transmitter =>
      signal (if ack then if aa then I2C_I2STAT_S_TX_DAT_ACK else I2C_I2STAT_S_TX_LAST_DAT_ACK
              else I2C_I2STAT_S_TX_DAT_NACK)
        (if ack && aa then Transmitter else NotAddressed) (h_dat h)
        (h{{ h_taken := h_taken h ++ [h_dat h] }})
  | EvStop, Receiver _ => signal I2C_I2STAT_S_RX_STA_STO_SLVREC_SLVTRX NotAddressed (h_dat h) h
  | _, _ => h
  end.

(** The clock is held while SI is set. *)
Definition elapse (h : slave_hw) : slave_hw :=
  if bit_set (h_con h) I2C_I2CONSET_SI then h
  else match h_script h with
       | [] => h
       | (S n, e) :: l => h{{ h_script := (n, e) :: l }}
       | (O, e) :: l => occurs e (h{{ h_script := l }})
       end.

#[export] Instance port_hw : SlavePort slave_hw := {|
  rd_CONSET h := (h_con (elapse h), elapse h);
  rd_STAT h := (h_stat h, h);
  rd_DAT h := (h_dat h, h);
  wr_DAT v h := h{{ h_dat := u8 v }};
  wr_CONSET v h := h{{ h_con := Z.lor (h_con h) v }};
  wr_CONCLR v h := h{{ h_con := clear_bits (h_con h) v }};
  irq_cmd b h := h{{ h_irq := b }}
|}.

(** ** Sessions *)

(** A master writes bytes, or reads [n + 1] of them, of which it does not acknowledge the
    last. *)
Inductive session : Type :=
| Writes (general : bool) (a : Z) (l : list Z)
| Reads (a : Z) (n : nat).

Definition events (s : session) : list bus_event :=
  match s with
  | Writes g a l => EvWrite g a :: (EvByte <$> l) ++ [EvStop]
  | Reads a n => EvRead a :: replicate n (EvTake true) ++ [EvTake false]
  end.

Definition last_code (s : session) : Z :=
  match s with
  | Writes _ _ _ => I2C_I2STAT_S_RX_STA_STO_SLVREC_SLVTRX
  | Reads _ _ => I2C_I2STAT_S_TX_DAT_NACK
  end.

(** What the buffers of a transfer hold and take. *)
Definition supply (c : I2C_S_SETUP_Type) : list Z :=
  match tx_data c with Some l => take (Z.to_nat (tx_length c)) (u8 <$> l) | None => [] end.
Definition room (c : I2C_S_SETUP_Type) : nat :=
  match rx_data c with Some _ => Z.to_nat (rx_length c) | None => O end.

(** The lengths are those of the buffers, or less. *)
Record fits (c : I2C_S_SETUP_Type) : Prop := {
  ft_tx : 0 <= tx_length c < 4294967296;
  ft_rx : 0 <= rx_length c < 4294967296;
  ft_tx_data : forall l, tx_data c = Some l -> tx_length c <= Z.of_nat (length l);
  ft_rx_data : forall l, rx_data c = Some l -> rx_length c <= Z.of_nat (length l)
}.

(** [n] bytes of [left]; behind its end the last byte on the bus once more: of [left], or
    the address. *)
Definition answered (a : Z) (n : nat) (left : list Z) : list Z :=
  take n left ++ replicate (n - length left) (default a (last left)).

(** The progress of a transfer: bytes sent, bytes received, and what the master took. *)
Definition progress : Type := nat * list Z * list Z.

Definition serve (c : I2C_S_SETUP_Type) (p : progress) (s : session) : progress :=
  let '(i, got, tk) := p in
  match s with
  | Writes _ _ l => (i, take (room c) (got ++ (u8 <$> l)), tk)
  | Reads a n => ((i + S n) `min` length (supply c), got, tk ++ answered a (S n) (drop i (supply c)))%nat
  end.

Definition serve_all (c : I2C_S_SETUP_Type) (ss : list session) (tk : list Z) : progress :=
  foldl (serve c) (O, [], tk) ss.

(** The structure of the transfer with this progress. *)
Definition cfg_at (c : I2C_S_SETUP_Type) (i : nat) (got : list Z) : I2C_S_SETUP_Type :=
  c{{ tx_count := Z.of_nat i; rx_data := (fun buf => blit buf 0 got) <$> rx_data c;
      rx_count := Z.of_nat (length got) }}.

(** The events of [ss] come in order; between two sessions no more time passes than the
    driver waits behind a session. *)
Definition patience : Z := I2C_SLAVE_TIME_OUT + 1.
Definition addressing (e : bus_event) : bool :=
  match e with EvWrite _ _ | EvRead _ => true | _ => false end.
Definition plays (ss : list session) (scr : list (nat * bus_event)) : Prop :=
  snd <$> scr = concat (events <$> ss) /\
  Forall (fun x => addressing (snd x) = true -> Z.of_nat (fst x) <= patience) (tail scr).

(** The turns that the events take. *)
Definition cost (scr : list (nat * bus_event)) : nat := sum_list ((fun x => S (fst x)) <$> scr).

(** ** The bits of the control register *)

Lemma bit_set_lor v m b : bit_set (Z.lor v m) b = bit_set v b || bit_set m b.
Proof.
  unfold bit_set. rewrite Z.land_lor_distr_l.
  destruct (Z.eqb_spec (Z.land v b) 0) as [E|E], (Z.eqb_spec (Z.land m b) 0) as [E'|E']; rewrite ?E, ?E'; try done;
    apply negb_true_iff, Z.eqb_neq; by intros [? ?]%Z.lor_eq_0_iff.
Qed.

Lemma bit_set_clear v m b : bit_set (clear_bits v m) b = bit_set v (Z.land b (Z.lnot m)).
Proof. unfold bit_set, clear_bits. by rewrite <- Z.land_assoc, (Z.land_comm (Z.lnot m)). Qed.

Lemma bit_set_none v : bit_set v 0 = false.
Proof. unfold bit_set. by rewrite Z.land_0_r. Qed.

(** ** One event *)

(** The controller waits for the next event. *)
Record quiet (r : role) (scr : list (nat * bus_event)) (tk : list Z) (h : slave_hw) : Prop := {
  q_aa : bit_set (h_con h) I2C_I2CONSET_AA = true;
  q_si : bit_set (h_con h) I2C_I2CONSET_SI = false;
  q_role : h_role h = r;
  q_script : h_script h = scr;
  q_taken : h_taken h = tk
}.

(** An event has occurred and is to be served. *)
Record pending (code : Z) (r : role) (scr : list (nat * bus_event)) (tk : list Z) (h : slave_hw) : Prop := {
  pd_aa : bit_set (h_con h) I2C_I2CONSET_AA = true;
  pd_si : bit_set (h_con h) I2C_I2CONSET_SI = true;
  pd_code : h_stat h = code;
  pd_role : h_role h = r;
  pd_script : h_script h = scr;
  pd_taken : h_taken h = tk
}.

Definition cleared (h : slave_hw) : slave_hw := wr_CONCLR I2C_I2CONCLR_SIC h.
Definition acked (h : slave_hw) : slave_hw := cleared (wr_CONSET I2C_I2CONSET_AA h).

Lemma go_on_run h : go_on h = Ok (tt, acked h).
Proof. done. Qed.

Lemma quiet_acked code r scr tk h : pending code r scr tk h -> quiet r scr tk (acked h).
Proof.
  intros []. constructor; try done; simpl; rewrite bit_set_clear, bit_set_lor.
  - change (Z.land _ _) with I2C_I2CONSET_AA. by rewrite pd_aa0.
  - change (Z.land I2C_I2CONSET_SI _) with 0. by rewrite !bit_set_none.
Qed.

Lemma quiet_cleared code r scr tk h : pending code r scr tk h -> quiet r scr tk (cleared h).
Proof.
  intros []. constructor; try done; simpl; rewrite bit_set_clear.
  - change (Z.land _ _) with I2C_I2CONSET_AA. by rewrite pd_aa0.
  - change (Z.land _ _) with 0. by rewrite bit_set_none.
Qed.

Lemma pending_dat code r scr tk h d : pending code r scr tk h -> pending code r scr tk (wr_DAT d h).
Proof. intros []. by constructor. Qed.

Lemma pending_irq code r scr tk h b : pending code r scr tk h -> pending code r scr tk (irq_cmd b h).
Proof. intros []. by constructor. Qed.

Lemma signal_pending st r d scr tk h : bit_set (h_con h) I2C_I2CONSET_AA = true -> h_script h = scr ->
  h_taken h = tk -> pending st r scr tk (signal st r d h).
Proof.
  intros Ha Hs Ht. constructor; try done; simpl; rewrite bit_set_lor; [by rewrite Ha|]. apply orb_true_r.
Qed.

(** The event at the head of the script: its status, the role and the byte it leaves, and
    what the master took by it. *)
Definition effect (r : role) (e : bus_event) (d : Z) : option (Z * role * Z * list Z) :=
  match e, r with
  | EvWrite g a, _ => Some (if g then I2C_I2STAT_S_RX_GENCALL_ACK else I2C_I2STAT_S_RX_SLAW_ACK, Receiver g, a, [])
  | EvRead a, _ => Some (I2C_I2STAT_S_TX_SLAR_ACK, Transmitter, a, [])
  | EvByte b, Receiver g =>
      Some (if g then I2C_I2STAT_S_RX_PRE_GENCALL_DAT_ACK else I2C_I2STAT_S_RX_PRE_SLA_DAT_ACK, Receiver g, b, [])
  | EvTake true, Transmitter => Some (I2C_I2STAT_S_TX_DAT_ACK, Transmitter, d, [d])
  | EvTake false, Transmitter => Some (I2C_I2STAT_S_TX_DAT_NACK, NotAddressed, d, [d])
  | EvStop, Receiver _ => Some (I2C_I2STAT_S_RX_STA_STO_SLVREC_SLVTRX, NotAddressed, d, [])
  | _, _ => None
  end.

Lemma elapse_event r e scr tk h code r' d new : quiet r ((O, e) :: scr) tk h ->
  effect r e (h_dat h) = Some (code, r', d, new) ->
  pending code r' scr (tk ++ new) (elapse h) /\ h_dat (elapse h) = d /\ h_irq (elapse h) = h_irq h.
Proof.
  intros [Ha Hs Hr Hsc Ht] He. unfold elapse. rewrite Hs, Hsc. unfold occurs. simpl. rewrite Ha, Hr.
  destruct e as [g a|b|a|[]|], r; simpl in He; try done; injection He as <- <- <- <-;
    (split; [|done]); apply signal_pending; simpl; rewrite ?Ht, ?app_nil_r; done.
Qed.

Lemma elapse_idle r n e scr tk h : quiet r ((S n, e) :: scr) tk h -> quiet r ((n, e) :: scr) tk (elapse h) /\
  h_dat (elapse h) = h_dat h /\ h_irq (elapse h) = h_irq h.
Proof. intros [Ha Hs Hr Hsc Ht]. unfold elapse. rewrite Hs, Hsc. done. Qed.

Lemma elapse_end r tk h : quiet r [] tk h -> elapse h = h.
Proof. intros [Ha Hs Hr Hsc Ht]. unfold elapse. by rewrite Hs, Hsc. Qed.

(** ** Bytes *)

Section Transfer.
Context (c : I2C_S_SETUP_Type) (Hfit : fits c).

Lemma supply_length l : tx_data c = Some l -> length (supply c) = Z.to_nat (tx_length c).
Proof.
  intros E. pose proof (ft_tx_data c Hfit l E). unfold supply. rewrite E, length_take, length_fmap. lia.
Qed.

Lemma load_byte_some i got x h : supply c !! i = Some x ->
  load_byte (cfg_at c i got) h = Ok (cfg_at c (S i) got, wr_DAT x h).
Proof.
  intros Hx. pose proof (ft_tx c Hfit). pose proof (lookup_lt_Some _ _ _ Hx) as Hi. unfold load_byte. simpl.
  unfold supply in Hx. destruct (tx_data c) as [l|] eqn:E; [|done]. rewrite (supply_length l E) in Hi.
  apply lookup_take_Some in Hx as [Hx _]. rewrite list_lookup_fmap in Hx.
  destruct (l !! i) as [b|] eqn:Eb; [|done]. injection Hx as <-.
  destruct (Z.ltb_spec (Z.of_nat i) (tx_length c)); [|lia]. cbn [andb is_Some_b pget].
  erewrite bind_ok by (apply aget_ok; [lia|by rewrite Nat2Z.id]).
  erewrite bind_ok by done. unfold cfg_at, mret, M_ret. simpl. rewrite u8_u8.
  assert (u32 (Z.of_nat i + 1) = Z.of_nat (S i)) as -> by (unfold u32; lia). by rewrite E.
Qed.

Lemma load_byte_none i got h : supply c !! i = None -> load_byte (cfg_at c i got) h = Ok (cfg_at c i got, h).
Proof.
  intros Hx%lookup_ge_None. pose proof (ft_tx c Hfit). unfold load_byte. simpl.
  destruct (tx_data c) as [l|] eqn:E; [|by rewrite andb_false_r]. rewrite (supply_length l E) in Hx.
  destruct (Z.ltb_spec (Z.of_nat i) (tx_length c)); [lia|done].
Qed.

Lemma store_byte_run i got h : (length got <= room c)%nat ->
  store_byte (cfg_at c i got) h = Ok (cfg_at c i (take (room c) (got ++ [u8 (h_dat h)])), h).
Proof.
  intros Hg. pose proof (ft_rx c Hfit). unfold store_byte, room in *. simpl.
  destruct (rx_data c) as [buf|] eqn:E; simpl.
  - pose proof (ft_rx_data c Hfit buf E). rewrite andb_true_r.
    destruct (Z.ltb_spec (Z.of_nat (length got)) (rx_length c)).
    + rewrite (bind_ok _ _ _ (h_dat h) h) by done.
      erewrite bind_ok by exact (pset_blit buf got (u8 (h_dat h)) h ltac:(lia)).
      rewrite (take_ge _ (Z.to_nat _)) by (rewrite length_app; simpl; lia).
      unfold cfg_at, mret, M_ret. simpl. rewrite E, length_app.
      assert (u32 (Z.of_nat (length got) + 1) = Z.of_nat (length got + length [u8 (h_dat h)])) as -> by (simpl; unfold u32; lia).
      done.
    + rewrite take_app_le by lia. rewrite take_ge by lia. done.
  - rewrite andb_false_r. destruct got; [|simpl in Hg; lia]. done.
Qed.
End Transfer.

(** ** The polling loop *)

Section Polling.
Context (c : I2C_S_SETUP_Type) (Hfit : fits c).
#[local] Abbreviation BODY := (s_body (P := slave_hw)).

(** [n] turns lead from one state to the other. *)
Definition leads (n : nat) (p : poll_st) (h : slave_hw) (p' : poll_st) (h' : slave_hw) : Prop :=
  forall m, while (n + m) BODY p h = while m BODY p' h'.

Lemma turns_refl p h : leads 0 p h p h.
Proof. by intros m. Qed.

Lemma turns_one p h p' h' : s_turn p h = Ok (Poll p', h') -> leads 1 p h p' h'.
Proof.
  intros E m. cbn [Nat.add while]. assert (BODY p h = Ok (Continue p', h')) as E'.
  { unfold s_body. by rewrite (bind_ok _ _ _ _ _ E). }
  by rewrite (bind_ok _ _ _ _ _ E').
Qed.

Lemma turns_trans n n' p h p1 h1 p2 h2 : leads n p h p1 h1 -> leads n' p1 h1 p2 h2 -> leads (n + n') p h p2 h2.
Proof. intros H1 H2 m. by rewrite <- Nat.add_assoc, H1. Qed.

Lemma s_turn_event p h code r scr tk : pending code r scr tk (elapse h) ->
  s_turn p h = s_event (p{{ time_en := false; CodeStatus := Z.land code I2C_STAT_CODE_BITMASK }}) (elapse h).
Proof.
  intros Hp. unfold s_turn. rewrite (bind_ok (access rd_CONSET) _ h (h_con (elapse h)) (elapse h)) by done.
  rewrite (pd_si _ _ _ _ _ Hp).
  rewrite (bind_ok s_stat_code _ (elapse h) (Z.land code I2C_STAT_CODE_BITMASK) (elapse h)); [done|].
  rewrite <- (pd_code _ _ _ _ _ Hp). done.
Qed.

Lemma idle_turn x cd te t n e r scr tk h : quiet r ((S n, e) :: scr) tk h ->
  (te = true -> 0 <= t <= I2C_SLAVE_TIME_OUT) ->
  leads 1 (mk_poll x cd te t) h (mk_poll x cd te (if te then t + 1 else t)) (elapse h).
Proof.
  intros Hq Ht. destruct (elapse_idle r n e scr tk h Hq) as ([_ Hsi _ _ _] & _). apply turns_one. unfold s_turn.
  rewrite (bind_ok (access rd_CONSET) _ h (h_con (elapse h)) (elapse h)) by done. rewrite Hsi.
  destruct te; [|done]. specialize (Ht eq_refl). unfold I2C_SLAVE_TIME_OUT in *. simpl.
  destruct (Z.ltb_spec 0x10000 t); [lia|]. unfold mret, M_ret. do 3 f_equal.
  assert (u32 (t + 1) = t + 1) as -> by (unfold u32; lia). done.
Qed.

(** The turns before an event. *)
Lemma delay x cd te n e r scr tk h : quiet r ((n, e) :: scr) tk h ->
  forall t, (te = true -> 0 <= t /\ t + Z.of_nat n <= patience) ->
  exists t' h', leads n (mk_poll x cd te t) h (mk_poll x cd te t') h' /\
    quiet r ((O, e) :: scr) tk h' /\ h_dat h' = h_dat h.
Proof.
  revert h. induction n as [|n IH]; intros h Hq t Ht.
  - exists t, h. by split; [apply turns_refl|].
  - destruct (elapse_idle r n e scr tk h Hq) as (Hq' & Ed & _). unfold patience in *.
    destruct (IH (elapse h) Hq' (if te then t + 1 else t)) as (t' & h' & Hl & Hq2 & Ed2).
    { destruct te; [|done]. intros _. specialize (Ht eq_refl). lia. }
    exists t', h'. split; [|split; [done|congruence]].
    apply (turns_trans 1 n _ _ _ _ _ _ (idle_turn x cd te t n e r scr tk h Hq ltac:(intros E; specialize (Ht E); lia)) Hl).
Qed.

Definition byte_code (g : bool) : Z :=
  if g then I2C_I2STAT_S_RX_PRE_GENCALL_DAT_ACK else I2C_I2STAT_S_RX_PRE_SLA_DAT_ACK.

Lemma s_event_receive g x te t h : s_event (mk_poll x (byte_code g) te t) h =
  (x ← store_byte x; go_on ;; mret (Poll (mk_poll x (byte_code g) te t))) (h : slave_hw).
Proof. by destruct g. Qed.

Lemma s_event_transmit code x te t h : code = I2C_I2STAT_S_TX_SLAR_ACK \/ code = I2C_I2STAT_S_TX_DAT_ACK ->
  s_event (mk_poll x code te t) h =
  (x ← load_byte x; go_on ;; mret (Poll (mk_poll x code te t))) (h : slave_hw).
Proof. by intros [-> | ->]. Qed.

(** An address, a byte and the end of a session that writes. *)
Lemma turn_write x cd te t g a r scr tk h : quiet r ((O, EvWrite g a) :: scr) tk h ->
  exists code h', leads 1 (mk_poll x cd te t) h (mk_poll x code false t) h' /\ quiet (Receiver g) scr tk h'.
Proof.
  intros Hq. destruct (elapse_event _ _ _ _ _ _ _ _ _ Hq eq_refl) as (Hp & _ & _). rewrite app_nil_r in Hp.
  exists (if g then I2C_I2STAT_S_RX_GENCALL_ACK else I2C_I2STAT_S_RX_SLAW_ACK), (acked (elapse h)).
  split; [|by eapply quiet_acked].
  apply turns_one. rewrite (s_turn_event _ _ _ _ _ _ Hp). unfold s_event. cbn [CodeStatus].
  destruct g; reflexivity.
Qed.

Lemma turn_byte i got cd te t g b scr tk h : quiet (Receiver g) ((O, EvByte b) :: scr) tk h -> (length got <= room c)%nat ->
  exists code h', leads 1 (mk_poll (cfg_at c i got) cd te t) h
    (mk_poll (cfg_at c i (take (room c) (got ++ [u8 b]))) code false t) h' /\ quiet (Receiver g) scr tk h'.
Proof.
  intros Hq Hg. destruct (elapse_event _ _ _ _ _ _ _ _ _ Hq eq_refl) as (Hp & Ed & _). rewrite app_nil_r in Hp.
  pose proof (store_byte_run c Hfit i got (elapse h) Hg) as Es. rewrite Ed in Es.
  exists (byte_code g), (acked (elapse h)).
  split; [|by eapply quiet_acked].
  apply turns_one. rewrite (s_turn_event _ _ _ _ _ _ Hp).
  assert (Z.land (byte_code g) I2C_STAT_CODE_BITMASK = byte_code g) as Ec by (by destruct g).
  change (s_event (mk_poll (cfg_at c i got) (Z.land (byte_code g) I2C_STAT_CODE_BITMASK) false t) (elapse h) =
    Ok (Poll (mk_poll (cfg_at c i (take (room c) (got ++ [u8 b]))) (byte_code g) false t), acked (elapse h))).
  rewrite Ec, s_event_receive. by rewrite (bind_ok _ _ _ _ _ Es).
Qed.

Lemma turn_stop x cd te t g scr tk h : quiet (Receiver g) ((O, EvStop) :: scr) tk h ->
  exists h', leads 1 (mk_poll x cd te t) h (mk_poll x I2C_I2STAT_S_RX_STA_STO_SLVREC_SLVTRX true 0) h' /\
    quiet NotAddressed scr tk h'.
Proof.
  intros Hq. destruct (elapse_event _ _ _ _ _ _ _ _ _ Hq eq_refl) as (Hp & _ & _). rewrite app_nil_r in Hp.
  exists (cleared (elapse h)). split; [|by eapply quiet_cleared].
  apply turns_one. by rewrite (s_turn_event _ _ _ _ _ _ Hp).
Qed.

(** A byte is loaded, if there is one left. *)
Lemma load_next code r scr tk i got h : pending code r scr tk h -> (i <= length (supply c))%nat ->
  exists h', load_byte (cfg_at c i got) h = Ok (cfg_at c (S i `min` length (supply c)) got, h') /\
    pending code r scr tk h' /\ h_dat h' = default (h_dat h) (supply c !! i) /\ h_irq h' = h_irq h.
Proof.
  intros Hp Hi. destruct (supply c !! i) as [x|] eqn:E.
  - exists (wr_DAT x h). pose proof (lookup_lt_Some _ _ _ E). rewrite (load_byte_some c Hfit i got x h E).
    rewrite Nat.min_l by lia. split; [done|]. split; [by apply pending_dat|]. split; [|done]. simpl.
    unfold supply in E. destruct (tx_data c); [|done]. apply lookup_take_Some in E as [E _].
    rewrite list_lookup_fmap in E. destruct (l !! i); [|done]. injection E as <-. apply u8_u8.
  - exists h. pose proof (lookup_ge_None_1 _ _ E). rewrite (load_byte_none c Hfit i got h E).
    rewrite Nat.min_r by lia. assert (i = length (supply c)) as -> by lia. done.
Qed.

(** The address of a session that reads, and the bytes that the master takes. *)
Lemma turn_read i got cd te t a r scr tk h : quiet r ((O, EvRead a) :: scr) tk h -> (i <= length (supply c))%nat ->
  exists code h', leads 1 (mk_poll (cfg_at c i got) cd te t) h
    (mk_poll (cfg_at c (S i `min` length (supply c)) got) code false t) h' /\
    quiet Transmitter scr tk h' /\ h_dat h' = default a (supply c !! i).
Proof.
  intros Hq Hi. destruct (elapse_event _ _ _ _ _ _ _ _ _ Hq eq_refl) as (Hp & Ed & _). rewrite app_nil_r in Hp.
  destruct (load_next _ _ _ _ i got _ Hp Hi) as (h1 & El & Hp1 & Ed1 & _). rewrite Ed in Ed1.
  eexists _, (acked h1). split; [|split; [by eapply quiet_acked|done]].
  apply turns_one. rewrite (s_turn_event _ _ _ _ _ _ Hp).
  etransitivity; [by apply (s_event_transmit I2C_I2STAT_S_TX_SLAR_ACK (cfg_at c i got) false t); left|].
  by rewrite (bind_ok _ _ _ _ _ El).
Qed.

Lemma turn_take i got cd te t scr tk h : quiet Transmitter ((O, EvTake true) :: scr) tk h -> (i <= length (supply c))%nat ->
  exists code h', leads 1 (mk_poll (cfg_at c i got) cd te t) h
    (mk_poll (cfg_at c (S i `min` length (supply c)) got) code false t) h' /\
    quiet Transmitter scr (tk ++ [h_dat h]) h' /\ h_dat h' = default (h_dat h) (supply c !! i).
Proof.
  intros Hq Hi. destruct (elapse_event _ _ _ _ _ _ _ _ _ Hq eq_refl) as (Hp & Ed & _).
  destruct (load_next _ _ _ _ i got _ Hp Hi) as (h1 & El & Hp1 & Ed1 & _). rewrite Ed in Ed1.
  eexists _, (acked h1). split; [|split; [by eapply quiet_acked|done]].
  apply turns_one. rewrite (s_turn_event _ _ _ _ _ _ Hp).
  etransitivity; [by apply (s_event_transmit I2C_I2STAT_S_TX_DAT_ACK (cfg_at c i got) false t); right|].
  by rewrite (bind_ok _ _ _ _ _ El).
Qed.

Lemma turn_last x cd te t scr tk h : quiet Transmitter ((O, EvTake false) :: scr) tk h ->
  exists h', leads 1 (mk_poll x cd te t) h (mk_poll x I2C_I2STAT_S_TX_DAT_NACK true 0) h' /\
    quiet NotAddressed scr (tk ++ [h_dat h]) h'.
Proof.
  intros Hq. destruct (elapse_event _ _ _ _ _ _ _ _ _ Hq eq_refl) as (Hp & _ & _).
  exists (acked (elapse h)). split; [|by eapply quiet_acked].
  apply turns_one. by rewrite (s_turn_event _ _ _ _ _ _ Hp).
Qed.

(** ** Sessions *)

Definition prompt (x : nat * bus_event) : Prop := addressing (snd x) = true -> Z.of_nat (fst x) <= patience.

Lemma leads_event n p h p1 h1 p2 h2 m : leads n p h p1 h1 -> leads 1 p1 h1 p2 h2 -> m = S n -> leads m p h p2 h2.
Proof. intros H1 H2 ->. rewrite <- Nat.add_1_r. by eapply turns_trans. Qed.

Lemma snd_cons (n : nat) (e e' : bus_event) scr es : ((n, e) :: scr).*2 = e' :: es -> e = e' /\ scr.*2 = es.
Proof. intros E. by injection E. Qed.

Lemma cost_cons n e scr : cost ((n, e) :: scr) = (S n + cost scr)%nat.
Proof. done. Qed.

Lemma cost_app a b : cost (a ++ b) = (cost a + cost b)%nat.
Proof. unfold cost. by rewrite fmap_app, sum_list_with_app || (rewrite fmap_app; induction (_ <$> a); simpl; lia). Qed.

Lemma take_take_app {A} n (a b : list A) : take n (take n a ++ b) = take n (a ++ b).
Proof.
  destruct (decide (length a <= n)%nat); [by rewrite (take_ge a)|].
  rewrite !take_app_le by (rewrite ?length_take; lia). by rewrite take_take, Nat.min_id.
Qed.

Lemma bytes_lead l i g scr tk : forall scr1 got cd t h, quiet (Receiver g) (scr1 ++ scr) tk h ->
  snd <$> scr1 = EvByte <$> l -> (length got <= room c)%nat ->
  exists code t' h', leads (cost scr1) (mk_poll (cfg_at c i got) cd false t) h
    (mk_poll (cfg_at c i (take (room c) (got ++ (u8 <$> l)))) code false t') h' /\ quiet (Receiver g) scr tk h'.
Proof.
  induction l as [|b l IH]; intros scr1 got cd t h Hq Hs Hg.
  - apply fmap_nil_inv in Hs as ->. exists cd, t, h. simpl. rewrite app_nil_r, take_ge by lia.
    split; [apply turns_refl|done].
  - destruct scr1 as [|[n e] scr1]; [done|]. apply snd_cons in Hs as [-> Hs]. simpl in Hq.
    destruct (delay (cfg_at c i got) cd false n _ _ _ _ _ Hq t) as (t1 & h1 & L1 & Hq1 & _); [done|].
    destruct (turn_byte i got cd false t1 g b _ _ _ Hq1 Hg) as (c1 & h2 & L2 & Hq2).
    destruct (IH scr1 (take (room c) (got ++ [u8 b])) c1 t1 h2 Hq2 Hs) as (c2 & t2 & h3 & L3 & Hq3); [rewrite length_take; lia|].
    exists c2, t2, h3. split; [|done]. rewrite take_take_app, <- app_assoc in L3.
    rewrite cost_cons. eapply turns_trans; [|exact L3]. by apply (leads_event n _ _ _ _ _ _ _ L1 L2).
Qed.

Lemma writes_lead g a l i scr r tk scr1 got cd te t h : quiet r (scr1 ++ scr) tk h ->
  snd <$> scr1 = events (Writes g a l) -> (te = true -> t = 0 /\ Forall prompt scr1) -> (length got <= room c)%nat ->
  exists h', leads (cost scr1) (mk_poll (cfg_at c i got) cd te t) h
    (mk_poll (cfg_at c i (take (room c) (got ++ (u8 <$> l)))) I2C_I2STAT_S_RX_STA_STO_SLVREC_SLVTRX true 0) h' /\
    quiet NotAddressed scr tk h'.
Proof.
  intros Hq Hs Ht Hg. destruct scr1 as [|[n e] scr1]; [done|]. apply snd_cons in Hs as [-> Hs]. simpl in Hq.
  destruct (delay (cfg_at c i got) cd te n _ _ _ _ _ Hq t) as (t1 & h1 & L1 & Hq1 & _).
  { intros E. destruct (Ht E) as [-> Hp]. apply Forall_cons in Hp as [Hp _]. specialize (Hp eq_refl). simpl in Hp. lia. }
  destruct (turn_write (cfg_at c i got) cd te t1 g a _ _ _ _ Hq1) as (c1 & h2 & L2 & Hq2).
  apply fmap_app_inv in Hs as (sb & se & Hsb & Hse & ->). destruct se as [|[m e] [|? ?]]; try done.
  symmetry in Hse, Hsb; apply snd_cons in Hse as [-> _]. rewrite <- app_assoc in Hq2.
  destruct (bytes_lead l i g _ tk sb got c1 t1 h2 Hq2 Hsb Hg) as (c3 & t3 & h3 & L3 & Hq3). simpl in Hq3.
  destruct (delay (cfg_at c i (take (room c) (got ++ (u8 <$> l)))) c3 false m _ _ _ _ _ Hq3 t3) as (t4 & h4 & L4 & Hq4 & _); [done|].
  destruct (turn_stop (cfg_at c i (take (room c) (got ++ (u8 <$> l)))) c3 false t4 g _ _ _ Hq4) as (h5 & L5 & Hq5).
  exists h5. split; [|done]. rewrite cost_cons, cost_app.
  eapply turns_trans; [by apply (leads_event n _ _ _ _ _ _ _ L1 L2)|]. eapply turns_trans; [exact L3|].
  apply (leads_event m _ _ _ _ _ _ _ L4 L5). unfold cost. simpl. lia.
Qed.

Lemma answered_S a n left : answered a (S n) left =
  default a (head left) :: answered (default a (head left)) n (tail left).
Proof.
  unfold answered. destruct left as [|x left]; [simpl; by rewrite take_nil, Nat.sub_0_r|].
  cbn [take length head tail default Nat.sub app]. by rewrite last_cons; destruct (last left).
Qed.

Lemma head_drop {A} (l : list A) i : head (drop i l) = l !! i.
Proof. rewrite head_lookup, lookup_drop. by rewrite Nat.add_0_r. Qed.

Lemma tail_drop {A} (l : list A) i : (i <= length l)%nat -> tail (drop i l) = drop (S i `min` length l) l.
Proof.
  intros Hi. destruct (decide (i < length l)%nat).
  - rewrite Nat.min_l by lia. destruct (lookup_lt_is_Some_2 l i) as [x Hx]; [lia|]. by rewrite (drop_S l x i Hx).
  - rewrite Nat.min_r by lia. by rewrite !drop_ge by lia.
Qed.

Lemma takes_lead n got scr : forall scr1 tk i cd t h, quiet Transmitter (scr1 ++ scr) tk h ->
  snd <$> scr1 = replicate n (EvTake true) ++ [EvTake false] -> (i <= length (supply c))%nat ->
  exists h', leads (cost scr1) (mk_poll (cfg_at c i got) cd false t) h
    (mk_poll (cfg_at c ((i + n) `min` length (supply c)) got) I2C_I2STAT_S_TX_DAT_NACK true 0) h' /\
    quiet NotAddressed scr (tk ++ h_dat h :: answered (h_dat h) n (drop i (supply c))) h'.
Proof.
  induction n as [|n IH]; intros scr1 tk i cd t h Hq Hs Hi; destruct scr1 as [|[m e] scr1]; try done; apply snd_cons in Hs as [-> Hs];
    simpl in Hq; (destruct (delay (cfg_at c i got) cd false m _ _ _ _ _ Hq t) as (t1 & h1 & L1 & Hq1 & Ed1); [done|]).
  - apply fmap_nil_inv in Hs as ->.
    destruct (turn_last (cfg_at c i got) cd false t1 _ _ _ Hq1) as (h2 & L2 & Hq2). exists h2.
    rewrite Nat.add_0_r, Nat.min_l by lia. rewrite Ed1 in Hq2. split; [|done].
    apply (leads_event m _ _ _ _ _ _ _ L1 L2). unfold cost. simpl. lia.
  - destruct (turn_take i got cd false t1 _ _ _ Hq1 Hi) as (c2 & h2 & L2 & Hq2 & Ed2).
    destruct (IH scr1 (tk ++ [h_dat h1]) (S i `min` length (supply c))%nat c2 t1 h2 Hq2 Hs) as (h3 & L3 & Hq3); [lia|]. exists h3. rewrite Ed1 in *.
    rewrite answered_S, head_drop, tail_drop by done. rewrite Ed2, <- app_assoc in Hq3. split; [|done].
    replace ((i + S n) `min` length (supply c))%nat with ((S i `min` length (supply c) + n) `min` length (supply c))%nat by lia.
    rewrite cost_cons. eapply turns_trans; [|exact L3]. by apply (leads_event m _ _ _ _ _ _ _ L1 L2).
Qed.

Lemma reads_lead a n i scr r tk scr1 got cd te t h : quiet r (scr1 ++ scr) tk h ->
  snd <$> scr1 = events (Reads a n) -> (te = true -> t = 0 /\ Forall prompt scr1) -> (i <= length (supply c))%nat ->
  exists h', leads (cost scr1) (mk_poll (cfg_at c i got) cd te t) h
    (mk_poll (cfg_at c ((i + S n) `min` length (supply c)) got) I2C_I2STAT_S_TX_DAT_NACK true 0) h' /\
    quiet NotAddressed scr (tk ++ answered a (S n) (drop i (supply c))) h'.
Proof.
  intros Hq Hs Ht Hi. destruct scr1 as [|[m e] scr1]; [done|]. apply snd_cons in Hs as [-> Hs]. simpl in Hq.
  destruct (delay (cfg_at c i got) cd te m _ _ _ _ _ Hq t) as (t1 & h1 & L1 & Hq1 & _).
  { intros E. destruct (Ht E) as [-> Hp]. apply Forall_cons in Hp as [Hp _]. specialize (Hp eq_refl). simpl in Hp. lia. }
  destruct (turn_read i got cd te t1 a _ _ _ _ Hq1 Hi) as (c2 & h2 & L2 & Hq2 & Ed2).
  destruct (takes_lead n got scr scr1 tk (S i `min` length (supply c))%nat c2 t1 h2 Hq2 Hs) as (h3 & L3 & Hq3); [lia|].
  exists h3. rewrite answered_S, head_drop, tail_drop by done. rewrite Ed2 in Hq3. split; [|done].
  replace ((i + S n) `min` length (supply c))%nat with ((S i `min` length (supply c) + n) `min` length (supply c))%nat by lia.
  rewrite cost_cons. eapply turns_trans; [|exact L3]. by apply (leads_event m _ _ _ _ _ _ _ L1 L2).
Qed.

(** The progress stays within the buffers. *)
Definition within (p : progress) : Prop :=
  (p.1.1 <= length (supply c))%nat /\ (length p.1.2 <= room c)%nat.

Lemma serve_within s p : within p -> within (serve c p s).
Proof. destruct p as [[i got] tk], s; intros [H1 H2]; split; simpl in *; rewrite ?length_take; lia. Qed.

Lemma session_leads s i got tk scr r scr1 cd te t h : quiet r (scr1 ++ scr) tk h -> snd <$> scr1 = events s ->
  (te = true -> t = 0 /\ Forall prompt scr1) -> within (i, got, tk) ->
  exists h', leads (cost scr1) (mk_poll (cfg_at c i got) cd te t) h
    (mk_poll (cfg_at c (serve c (i, got, tk) s).1.1 (serve c (i, got, tk) s).1.2) (last_code s) true 0) h' /\
    quiet NotAddressed scr (serve c (i, got, tk) s).2 h'.
Proof.
  intros Hq Hs Ht [Hi Hg]. destruct s as [g a l|a n].
  - by apply (writes_lead g a l i scr r tk).
  - by apply (reads_lead a n i scr r tk).
Qed.

Lemma Forall_tail_app {A} (P : A -> Prop) a b : a <> [] -> Forall P (tail (a ++ b)) -> Forall P (tail a) /\ Forall P b.
Proof. destruct a; [done|]. intros _. simpl. by rewrite Forall_app. Qed.

Lemma events_not_nil s : events s <> [].
Proof. by destruct s. Qed.

Lemma sessions_lead ss : forall s i got tk r scr cd te t h, quiet r scr tk h ->
  snd <$> scr = concat (events <$> s :: ss) -> (te = true -> t = 0 /\ Forall prompt scr) ->
  Forall prompt (tail scr) -> within (i, got, tk) ->
  exists h', leads (cost scr) (mk_poll (cfg_at c i got) cd te t) h
    (mk_poll (cfg_at c (foldl (serve c) (i, got, tk) (s :: ss)).1.1 (foldl (serve c) (i, got, tk) (s :: ss)).1.2)
       (last_code (default s (last ss))) true 0) h' /\
    quiet NotAddressed [] (foldl (serve c) (i, got, tk) (s :: ss)).2 h'.
Proof.
  induction ss as [|s' ss IH]; intros s i got tk r scr cd te t h Hq Hs Ht Hp Hin.
  - simpl in Hs. rewrite app_nil_r in Hs. rewrite <- (app_nil_r scr) in Hq.
    apply (session_leads s i got tk [] r scr cd te t h Hq Hs Ht Hin).
  - rewrite fmap_cons in Hs. cbn [concat] in Hs.
    apply fmap_app_inv in Hs as (sa & sb & Ha & Hb & ->). symmetry in Ha, Hb.
    assert (sa <> []) as Hne by (intros ->; by apply (events_not_nil s)).
    destruct (Forall_tail_app _ _ _ Hne Hp) as [_ Hpb].
    destruct (session_leads s i got tk sb r sa cd te t h Hq Ha) as (h1 & L1 & Hq1); [|done|].
    { intros E. destruct (Ht E) as [-> H1]. by apply Forall_app in H1 as [H1 _]. }
    pose proof (serve_within s (i, got, tk) Hin) as Hin1.
    set (q := serve c (i, got, tk) s) in *.
    assert (q = (q.1.1, q.1.2, q.2)) as Eq by (by destruct q as [[? ?] ?]).
    destruct (IH s' q.1.1 q.1.2 q.2 NotAddressed sb (last_code s) true 0 h1 Hq1 Hb) as (h2 & L2 & Hq2);
      [done|by destruct sb; [|apply Forall_cons in Hpb as [_ ?]]|by rewrite <- Eq|].
    rewrite <- Eq in L2, Hq2. exists h2. rewrite cost_app.
    change (foldl (serve c) (i, got, tk) (s :: s' :: ss)) with (foldl (serve c) q (s' :: ss)).
    assert (default s (last (s' :: ss)) = default s' (last ss)) as -> by (rewrite last_cons; by destruct (last ss)).
    split; [by eapply turns_trans|done].
Qed.

(** Without a further event the driver gives up. *)
Lemma gives_up x cd r tk h k : quiet r [] tk h -> forall t m, 0 <= t -> t + Z.of_nat k = patience -> (k < m)%nat ->
  while m BODY (mk_poll x cd true t) h =
    Ok ((SUCCESS, x{{ status := Z.lor cd I2C_SETUP_STATUS_DONE }}), wr_CONCLR I2C_I2CONCLR_AAC h).
Proof.
  intros Hq. pose proof (elapse_end r tk h Hq) as Eh. pose proof (q_si _ _ _ _ Hq) as Hsi.
  induction k as [|k IH]; intros t m Ht0 Ht Hm; (destruct m as [|m]; [lia|]); cbn [while];
    unfold patience, I2C_SLAVE_TIME_OUT in *.
  - rewrite (bind_ok _ _ h (Break (SUCCESS, x{{ status := Z.lor cd I2C_SETUP_STATUS_DONE }})) (wr_CONCLR I2C_I2CONCLR_AAC h)); [done|].
    unfold s_body. rewrite (bind_ok _ _ h (EndStage (mk_poll x cd true (u32 (t + 1)))) h); [done|].
    unfold s_turn. rewrite (bind_ok (access rd_CONSET) _ h (h_con h) h) by (unfold access; simpl; by rewrite Eh).
    rewrite Hsi. unfold I2C_SLAVE_TIME_OUT. simpl. destruct (Z.ltb_spec 0x10000 t); [done|lia].
  - rewrite (bind_ok _ _ h (Continue (mk_poll x cd true (t + 1))) h); [apply IH; lia|].
    unfold s_body. rewrite (bind_ok _ _ h (Poll (mk_poll x cd true (t + 1))) h); [done|].
    unfold s_turn. rewrite (bind_ok (access rd_CONSET) _ h (h_con h) h) by (unfold access; simpl; by rewrite Eh).
    rewrite Hsi. unfold I2C_SLAVE_TIME_OUT. simpl. destruct (Z.ltb_spec 0x10000 t); [lia|].
    assert (u32 (t + 1) = t + 1) as -> by (unfold u32; lia). done.
Qed.
End Polling.

(** ** A transfer by polling *)

(** The transfer's data when the sessions are over. *)
Definition after_sessions (c : I2C_S_SETUP_Type) (ss : list session) (tk : list Z) : I2C_S_SETUP_Type :=
  (cfg_at c (serve_all c ss tk).1.1 (serve_all c ss tk).1.2)
    {{ status := Z.lor (default 0 (last_code <$> last ss)) I2C_SETUP_STATUS_DONE }}.

Lemma last_code_cons s ss : default 0 (last_code <$> last (s :: ss)) = last_code (default s (last ss)).
Proof. rewrite last_cons. by destruct (last ss). Qed.

Lemma cfg_start c : cfg_at (c{{ tx_count := 0; rx_count := 0; status := 0 }}) 0 [] = c{{ tx_count := 0; rx_count := 0; status := 0 }}.
Proof. unfold cfg_at. simpl. destruct c as [a b d e f g i j]. simpl. do 2 f_equal. by destruct e. Qed.

Lemma quiet_start h : quiet (h_role h) (h_script h) (h_taken h)
  (wr_CONCLR (Z.lor I2C_I2CONCLR_SIC I2C_I2CONCLR_STAC) (wr_CONSET I2C_I2CONSET_AA h)).
Proof.
  constructor; try done; simpl; rewrite bit_set_clear, bit_set_lor.
  - change (Z.land _ _) with I2C_I2CONSET_AA. apply orb_true_r.
  - change (Z.land I2C_I2CONSET_SI _) with 0. by rewrite !bit_set_none.
Qed.

(** The turns that the sessions and the wait behind the last one take. *)
Definition poll_turns (scr : list (nat * bus_event)) : nat := (cost scr + Z.to_nat patience + 1)%nat.

(** C23: whatever a master does in its sessions, writing or reading any number of bytes, each
    at any speed and the next session begun before the slave's time-out (65536 looks at the
    bus) is over: [I2C_SlaveTransferData] by polling returns, stores what it wrote in the
    receive buffer as far as it reaches, and gives it the bytes of the transmit buffer in
    order; behind their end it is given the last byte on the bus once more, and not the idle
    character that the comment above the function promises. *)
Theorem slave_serves o h called ss c fuel : ss <> [] -> plays ss (h_script h) -> fits c ->
  (poll_turns (h_script h) <= fuel)%nat ->
  exists h', I2C_SlaveTransferData fuel c I2C_TRANSFER_POLLING (mk_slave o h called) =
      Ok ((SUCCESS, after_sessions c ss (h_taken h)), mk_slave o h' called) /\
    h_taken h' = (serve_all c ss (h_taken h)).2 /\ h_script h' = [].
Proof.
  intros Hne [Hs Hp] Hf Hfuel. destruct ss as [|s ss]; [done|]. set (c0 := c{{ tx_count := 0; rx_count := 0; status := 0 }}).
  assert (fits c0) as Hf0 by (destruct Hf; by constructor).
  set (h0 := wr_CONCLR (Z.lor I2C_I2CONCLR_SIC I2C_I2CONCLR_STAC) (wr_CONSET I2C_I2CONSET_AA h)).
  destruct (sessions_lead c0 Hf0 ss s O [] (h_taken h) _ _ 0 false 0 h0 (quiet_start h) Hs) as (h1 & L1 & Hq1);
    [done|done|split; simpl; lia|].
  unfold poll_turns, patience in *.
  exists (wr_CONCLR I2C_I2CONCLR_AAC h1). split; [|by destruct Hq1].
  assert (s_poll fuel c0 h = Ok ((SUCCESS, after_sessions c (s :: ss) (h_taken h)), wr_CONCLR I2C_I2CONCLR_AAC h1)) as E.
  { unfold s_poll, after_sessions. rewrite last_code_cons.
    rewrite (bind_ok (SCONSET _) _ _ tt (wr_CONSET I2C_I2CONSET_AA h)) by done.
    rewrite (bind_ok (SCONCLR _) _ _ tt h0) by done.
    assert (cfg_at c0 0 [] = c0) as Ec by apply cfg_start. rewrite Ec in L1.
    assert (fuel = (cost (h_script h) + (fuel - cost (h_script h)))%nat) as -> by lia. rewrite L1.
    rewrite (gives_up _ _ _ _ _ (Z.to_nat patience) Hq1 0) by (unfold patience, I2C_SLAVE_TIME_OUT in *; lia). done. }
  unfold I2C_SlaveTransferData, zoom. fold c0. cbn [view lens_s_port s_port]. by rewrite E.
Qed.

(** ** A transfer by interrupt *)

(** A turn of the program: time passes, and the handler runs if it has to. *)
Definition irq_turn (fuel : nat) : M (slave_st slave_hw) unit :=
  modify (fun w : slave_st slave_hw => w{{ s_port := elapse (s_port w) }}) ;;
  h ← gets s_port;
  when (h_irq h && bit_set (h_con h) I2C_I2CONSET_SI) (I2C_SlaveHandler fuel).
Fixpoint run_slave (n fuel : nat) : M (slave_st slave_hw) unit :=
  match n with
  | O => mret tt
  | S n' => irq_turn fuel ;; run_slave n' fuel
  end.

Section Handler.
Context (c : I2C_S_SETUP_Type) (Hfit : fits c) (called : list Z) (fuel : nat).
#[local] Abbreviation W x h := (mk_slave (Some x) h called).

(** The structure with this progress, and the last status. *)
Definition cfg_with (i : nat) (got : list Z) (st : Z) : I2C_S_SETUP_Type := (cfg_at c i got){{ status := st }}.

Lemma zoom_port {A} (m : M slave_hw A) x h a h' : m h = Ok (a, h') -> zoom m (W x h) = Ok (a, W x h').
Proof. intros E. unfold zoom. cbn [view lens_s_port s_port]. by rewrite E. Qed.

Lemma handler_run x h code r scr tk : pending code r scr tk h -> Z.land code I2C_STAT_CODE_BITMASK = code ->
  code <> I2C_I2STAT_NO_INF -> I2C_SlaveHandler fuel (W x h) = s_switch fuel code (W (x{{ status := code }}) h).
Proof.
  intros Hp Ec Hn. unfold I2C_SlaveHandler.
  rewrite (bind_ok (zoom s_stat_code) _ _ code (W x h)).
  - rewrite (bind_ok s_get _ _ x (W x h)) by done.
    rewrite (bind_ok (s_put _) _ _ tt (W (x{{ status := code }}) h)) by done.
    by destruct (Z.eqb_spec code I2C_I2STAT_NO_INF).
  - apply zoom_port. rewrite <- Ec, <- (pd_code _ _ _ _ _ Hp). done.
Qed.

Lemma cfg_with_at i got st st' : (cfg_with i got st){{ status := st' }} = cfg_at (c{{ status := st' }}) i got.
Proof. done. Qed.

Lemma fits_status st : fits (c{{ status := st }}).
Proof. destruct Hfit. by constructor. Qed.

Lemma handle_address (x : I2C_S_SETUP_Type) (g : bool) r scr tk h :
  pending (if g then I2C_I2STAT_S_RX_GENCALL_ACK else I2C_I2STAT_S_RX_SLAW_ACK) r scr tk h ->
  I2C_SlaveHandler fuel (W x h) =
    Ok (tt, W (x{{ status := if g then I2C_I2STAT_S_RX_GENCALL_ACK else I2C_I2STAT_S_RX_SLAW_ACK }}) (acked h)).
Proof. intros Hp. rewrite (handler_run _ _ _ _ _ _ Hp) by (by destruct g). by destruct g. Qed.

Lemma handle_byte i got st g r scr tk h : pending (byte_code g) r scr tk h -> (length got <= room c)%nat ->
  I2C_SlaveHandler fuel (W (cfg_with i got st) h) =
    Ok (tt, W (cfg_with i (take (room c) (got ++ [u8 (h_dat h)])) (byte_code g)) (acked h)).
Proof.
  intros Hp Hg. rewrite (handler_run _ _ _ _ _ _ Hp) by (by destruct g). rewrite cfg_with_at.
  pose proof (store_byte_run (c{{ status := byte_code g }}) (fits_status _) i got h Hg) as Es.
  change (room (c{{ status := byte_code g }})) with (room c) in Es.
  assert (forall w, s_switch fuel (byte_code g) w =
    (x ← s_get; x ← zoom (store_byte x); s_put x ;; zoom go_on) (w : slave_st slave_hw)) as -> by (by destruct g).
  rewrite (bind_ok s_get _ _ (cfg_at (c{{ status := byte_code g }}) i got) (W (cfg_at (c{{ status := byte_code g }}) i got) h)) by done.
  rewrite (bind_ok _ _ _ _ _ (zoom_port _ _ _ _ _ Es)). done.
Qed.

Lemma handle_transmit i got st code r scr tk h : pending code r scr tk h ->
  code = I2C_I2STAT_S_TX_SLAR_ACK \/ code = I2C_I2STAT_S_TX_DAT_ACK -> (i <= length (supply c))%nat ->
  exists h', I2C_SlaveHandler fuel (W (cfg_with i got st) h) =
      Ok (tt, W (cfg_with (S i `min` length (supply c)) got code) (acked h')) /\
    pending code r scr tk h' /\ h_dat h' = default (h_dat h) (supply c !! i) /\ h_irq h' = h_irq h.
Proof.
  intros Hp Hc Hi. rewrite (handler_run _ _ _ _ _ _ Hp) by (by destruct Hc as [-> | ->]). rewrite cfg_with_at.
  destruct (load_next (c{{ status := code }}) (fits_status _) _ _ _ _ i got h Hp Hi) as (h' & El & Hp' & Ed & Ei).
  exists h'. split; [|done].
  assert (forall w, s_switch fuel code w =
    (x ← s_get; x ← zoom (load_byte x); s_put x ;; zoom go_on) (w : slave_st slave_hw)) as -> by (by destruct Hc as [-> | ->]).
  rewrite (bind_ok s_get _ _ (cfg_at (c{{ status := code }}) i got) (W (cfg_at (c{{ status := code }}) i got) h)) by done.
  rewrite (bind_ok _ _ _ _ _ (zoom_port _ _ _ _ _ El)). done.
Qed.

(** The end of the transfer: no more interrupts, no more ACK, and the callback. *)
Definition ended (x : I2C_S_SETUP_Type) (h : slave_hw) : slave_st slave_hw :=
  mk_slave (Some x)
    (wr_CONCLR (Z.lor (Z.lor I2C_I2CONCLR_AAC I2C_I2CONCLR_SIC) I2C_I2CONCLR_STAC) (irq_cmd false h))
    (called ++ match callback x with Some f => [f] | None => [] end).

Lemma s_int_end_run x h : s_int_end (W x h) = Ok (tt, ended x h).
Proof.
  unfold s_int_end, ended. rewrite (bind_ok (zoom _) _ _ tt (W x (irq_cmd false h))) by done.
  rewrite (bind_ok (zoom _) _ _ tt (W x (wr_CONCLR (Z.lor (Z.lor I2C_I2CONCLR_AAC I2C_I2CONCLR_SIC) I2C_I2CONCLR_STAC)
    (irq_cmd false h)))) by done.
  rewrite (bind_ok s_get _ _ x (W x (wr_CONCLR (Z.lor (Z.lor I2C_I2CONCLR_AAC I2C_I2CONCLR_SIC) I2C_I2CONCLR_STAC)
    (irq_cmd false h)))) by done.
  destruct (callback x); [done|]. by rewrite app_nil_r.
Qed.

Definition over (x : I2C_S_SETUP_Type) : I2C_S_SETUP_Type := x{{ status := Z.lor (status x) I2C_SETUP_STATUS_DONE }}.

Lemma handle_last x r scr tk h : pending I2C_I2STAT_S_TX_DAT_NACK r scr tk h ->
  I2C_SlaveHandler fuel (W x h) = Ok (tt, ended (over (x{{ status := I2C_I2STAT_S_TX_DAT_NACK }})) (acked h)).
Proof.
  intros Hp. rewrite (handler_run _ _ _ _ _ _ Hp) by done.
  change (s_switch fuel I2C_I2STAT_S_TX_DAT_NACK) with (zoom go_on ;; s_done ;; s_int_end : M (slave_st slave_hw) unit).
  rewrite (bind_ok (zoom go_on) _ _ tt (W (x{{ status := I2C_I2STAT_S_TX_DAT_NACK }}) (acked h))) by done.
  rewrite (bind_ok s_done _ _ tt (W (over (x{{ status := I2C_I2STAT_S_TX_DAT_NACK }})) (acked h))) by done.
  apply s_int_end_run.
Qed.

(** *** The wait behind a STOP *)

Definition irq_patience : Z := I2C_SLAVE_TIME_OUT - 1.

Lemma stop_body_idle t h : bit_set (h_con (elapse h)) I2C_I2CONSET_SI = false -> 1 < t <= I2C_SLAVE_TIME_OUT ->
  stop_body t h = Ok (Continue (t - 1), elapse h).
Proof.
  unfold I2C_SLAVE_TIME_OUT. intros Hs Ht. unfold stop_body.
  rewrite (bind_ok (access rd_CONSET) _ h (h_con (elapse h)) (elapse h)) by done. rewrite Hs.
  assert (u32 (t - 1) = t - 1) as -> by (unfold u32; lia). by destruct (Z.eqb_spec (t - 1) 0); [lia|].
Qed.

Lemma wait_event n e r scr tk code r' d new : forall m t h, quiet r ((n, e) :: scr) tk h ->
  effect r e (h_dat h) = Some (code, r', d, new) -> Z.of_nat n < t <= I2C_SLAVE_TIME_OUT -> (n < m)%nat ->
  exists h', while m stop_body t h = Ok (false, irq_cmd true h') /\ pending code r' scr (tk ++ new) h' /\ h_dat h' = d.
Proof.
  induction n as [|n IH]; intros m t h Hq He Ht Hm; (destruct m as [|m]; [lia|]); cbn [while].
  - destruct (elapse_event _ _ _ _ _ _ _ _ _ Hq He) as (Hp & Ed & _). exists (elapse h). split; [|done].
    rewrite (bind_ok _ _ h (Break false) (irq_cmd true (elapse h))); [done|]. unfold stop_body.
    rewrite (bind_ok (access rd_CONSET) _ h (h_con (elapse h)) (elapse h)) by done.
    by rewrite (pd_si _ _ _ _ _ Hp).
  - destruct (elapse_idle r n e scr tk h Hq) as (Hq1 & Ed & _).
    rewrite (bind_ok _ _ _ _ _ (stop_body_idle t h (q_si _ _ _ _ Hq1) ltac:(lia))).
    apply IH; [done|by rewrite Ed|lia|lia].
Qed.

Lemma wait_end r tk h k : quiet r [] tk h -> forall m t, t = Z.of_nat (S k) -> t <= I2C_SLAVE_TIME_OUT -> (k < m)%nat ->
  while m stop_body t h = Ok (true, h).
Proof.
  intros Hq. pose proof (elapse_end r tk h Hq) as Eh. pose proof (q_si _ _ _ _ Hq) as Hsi.
  induction k as [|k IH]; intros m t -> Ht Hm; (destruct m as [|m]; [lia|]); cbn [while].
  - rewrite (bind_ok _ _ h (Break true) h); [done|]. unfold stop_body.
    rewrite (bind_ok (access rd_CONSET) _ h (h_con h) h) by (unfold access; simpl; by rewrite Eh). by rewrite Hsi.
  - pose proof (stop_body_idle (Z.of_nat (S (S k))) h) as E. rewrite Eh in E.
    rewrite (bind_ok _ _ _ _ _ (E Hsi ltac:(lia))). apply IH; lia.
Qed.

Context (Hfuel : (Z.to_nat I2C_SLAVE_TIME_OUT <= fuel)%nat).
#[local] Abbreviation STOP := I2C_I2STAT_S_RX_STA_STO_SLVREC_SLVTRX.

Lemma stop_unfold w : s_switch fuel STOP w =
  (zoom (S_IntCmd false) ;; zoom (SCONCLR I2C_I2CONCLR_SIC) ;;
   o ← zoom (while fuel stop_body I2C_SLAVE_TIME_OUT);
   when o (s_done ;; s_int_end)) (w : slave_st slave_hw).
Proof. done. Qed.

(** With an event to come the interrupt is enabled again; otherwise the transfer ends. *)
Lemma handle_stop_more x r n e scr tk h code r' d new : pending STOP r ((n, e) :: scr) tk h ->
  effect r e (h_dat h) = Some (code, r', d, new) -> Z.of_nat n <= irq_patience ->
  exists h', I2C_SlaveHandler fuel (W x h) = Ok (tt, W (x{{ status := STOP }}) h') /\
    pending code r' scr (tk ++ new) h' /\ h_dat h' = d /\ h_irq h' = true.
Proof.
  unfold irq_patience. intros Hp He Hn. rewrite (handler_run _ _ _ _ _ _ Hp) by done. rewrite stop_unfold.
  pose proof (quiet_cleared _ _ _ _ _ (pending_irq _ _ _ _ _ false Hp)) as Hq.
  destruct (wait_event n e r scr tk code r' d new fuel I2C_SLAVE_TIME_OUT _ Hq He) as (h1 & Ew & Hp1 & Ed); [lia|lia|].
  exists (irq_cmd true h1). split; [|split; [by apply pending_irq|done]].
  rewrite (bind_ok (zoom (S_IntCmd false)) _ _ tt (W (x{{ status := STOP }}) (irq_cmd false h))) by done.
  rewrite (bind_ok (zoom (SCONCLR _)) _ _ tt (W (x{{ status := STOP }}) (cleared (irq_cmd false h)))) by done.
  by rewrite (bind_ok _ _ _ _ _ (zoom_port _ _ _ _ _ Ew)).
Qed.

Lemma handle_stop_end x r tk h : pending STOP r [] tk h -> exists h1, quiet r [] tk h1 /\
  I2C_SlaveHandler fuel (W x h) = Ok (tt, ended (over (x{{ status := STOP }})) h1).
Proof.
  intros Hp. rewrite (handler_run _ _ _ _ _ _ Hp) by done. rewrite stop_unfold.
  pose proof (quiet_cleared _ _ _ _ _ (pending_irq _ _ _ _ _ false Hp)) as Hq.
  exists (cleared (irq_cmd false h)). split; [done|].
  pose proof (wait_end r tk _ (Z.to_nat (I2C_SLAVE_TIME_OUT - 1)) Hq fuel I2C_SLAVE_TIME_OUT) as Ew.
  rewrite (bind_ok (zoom (S_IntCmd false)) _ _ tt (W (x{{ status := STOP }}) (irq_cmd false h))) by done.
  rewrite (bind_ok (zoom (SCONCLR _)) _ _ tt (W (x{{ status := STOP }}) (cleared (irq_cmd false h)))) by done.
  rewrite (bind_ok _ _ _ _ _ (zoom_port _ _ _ _ _ (Ew ltac:(unfold I2C_SLAVE_TIME_OUT; lia) ltac:(lia) ltac:(unfold I2C_SLAVE_TIME_OUT in *; lia)))).
  cbn [when]. rewrite (bind_ok s_done _ _ tt (W (over (x{{ status := STOP }})) (cleared (irq_cmd false h)))) by done.
  apply s_int_end_run.
Qed.

(** *** Turns of the program *)

(** In at most [k] turns the program gets from one world to the other. *)
Definition gets_to (k : nat) (w w' : slave_st slave_hw) : Prop :=
  exists j, (j <= k)%nat /\ forall m, run_slave (j + m) fuel w = run_slave m fuel w'.

Lemma gets_trans k k' w w1 w2 : gets_to k w w1 -> gets_to k' w1 w2 -> gets_to (k + k') w w2.
Proof.
  intros (j & Hj & E) (j' & Hj' & E'). exists (j + j')%nat. split; [lia|]. intros m. by rewrite <- Nat.add_assoc, E.
Qed.

Lemma gets_weaken k k' w w' : gets_to k w w' -> (k <= k')%nat -> gets_to k' w w'.
Proof. intros (j & Hj & E) Hk. exists j. split; [lia|done]. Qed.

Lemma gets_turn w w' : irq_turn fuel w = Ok (tt, w') -> gets_to 1 w w'.
Proof. intros E. exists 1%nat. split; [lia|]. intros m. cbn [Nat.add run_slave]. by rewrite (bind_ok _ _ _ _ _ E). Qed.

Lemma turn_handles x h : bit_set (h_con (elapse h)) I2C_I2CONSET_SI = true -> h_irq (elapse h) = true ->
  irq_turn fuel (W x h) = I2C_SlaveHandler fuel (W x (elapse h)).
Proof.
  intros Hs Hi. unfold irq_turn. rewrite (bind_ok (modify _) _ _ tt (W x (elapse h))) by done.
  rewrite (bind_ok (gets _) _ _ (elapse h) (W x (elapse h))) by done. by rewrite Hs, Hi.
Qed.

Lemma pending_elapse code r scr tk h : pending code r scr tk h -> elapse h = h.
Proof. intros []. unfold elapse. by rewrite pd_si0. Qed.

(** The turns up to an event. *)
Lemma to_event x r n e scr tk h code r' d new : quiet r ((n, e) :: scr) tk h -> h_irq h = true ->
  effect r e (h_dat h) = Some (code, r', d, new) ->
  exists h1, pending code r' scr (tk ++ new) h1 /\ h_dat h1 = d /\ h_irq h1 = true /\
    forall w', I2C_SlaveHandler fuel (W x h1) = Ok (tt, w') -> gets_to (S n) (W x h) w'.
Proof.
  revert h. induction n as [|n IH]; intros h Hq Hi He.
  - destruct (elapse_event _ _ _ _ _ _ _ _ _ Hq He) as (Hp & Ed & Ei). exists (elapse h). rewrite Ei.
    do 3 (split; [done|]). intros w' E. apply gets_turn. rewrite turn_handles; [done|apply Hp|congruence].
  - destruct (elapse_idle r n e scr tk h Hq) as (Hq1 & Ed & Ei).
    destruct (IH (elapse h) Hq1) as (h1 & Hp & Ed1 & Hi1 & Hg); [congruence|congruence|].
    exists h1. do 3 (split; [done|]). intros w' E. apply (gets_trans 1 (S n) _ (W x (elapse h))); [|by apply Hg].
    apply gets_turn. unfold irq_turn. rewrite (bind_ok (modify _) _ _ tt (W x (elapse h))) by done.
    rewrite (bind_ok (gets _) _ _ (elapse h) (W x (elapse h))) by done.
    by rewrite (q_si _ _ _ _ Hq1), andb_false_r.
Qed.

(** *** Sessions *)

(** A session can start: its address is to come, or has come while the handler waited
    behind the session before. *)
Definition starts (scr : list (nat * bus_event)) (tk : list Z) (h : slave_hw) : Prop :=
  h_irq h = true /\
  ((exists r, quiet r scr tk h) \/
   exists n e scr' code r d, scr = (n, e) :: scr' /\ effect NotAddressed e 0 = Some (code, r, d, []) /\
     pending code r scr' tk h /\ h_dat h = d).

Lemma effect_address e r d : addressing e = true -> effect r e d = effect NotAddressed e 0.
Proof. by destruct e. Qed.

Lemma to_address x n e scr tk h code r d : starts ((n, e) :: scr) tk h -> addressing e = true ->
  effect NotAddressed e 0 = Some (code, r, d, []) ->
  exists h1, pending code r scr tk h1 /\ h_dat h1 = d /\ h_irq h1 = true /\
    forall w', I2C_SlaveHandler fuel (W x h1) = Ok (tt, w') -> gets_to (S n) (W x h) w'.
Proof.
  intros [Hi [[r0 Hq]|(n' & e' & scr' & code' & r' & d' & [= <- <- <-] & He' & Hp & Ed)]] Ha He.
  - rewrite <- (effect_address e r0 (h_dat h) Ha) in He.
    destruct (to_event x r0 n e scr tk h code r d [] Hq Hi He) as (h1 & Hp & H1 & H2 & H3).
    rewrite app_nil_r in Hp. by exists h1.
  - rewrite He in He'. injection He' as <- <- <-. exists h. do 3 (split; [done|]). intros w' E.
    apply (gets_weaken 1); [|lia]. apply gets_turn.
    rewrite turn_handles; rewrite (pending_elapse _ _ _ _ _ Hp); [done|apply Hp|done].
Qed.

Lemma bytes_irq l i g scr tk : forall scr1 got st h, quiet (Receiver g) (scr1 ++ scr) tk h -> h_irq h = true ->
  scr1.*2 = EvByte <$> l -> (length got <= room c)%nat ->
  exists st' h', gets_to (cost scr1) (W (cfg_with i got st) h) (W (cfg_with i (take (room c) (got ++ (u8 <$> l))) st') h') /\
    quiet (Receiver g) scr tk h' /\ h_irq h' = true.
Proof.
  induction l as [|b l IH]; intros scr1 got st h Hq Hi Hs Hg.
  - apply fmap_nil_inv in Hs as ->. exists st, h. simpl. rewrite app_nil_r, take_ge by lia.
    split; [by exists 0%nat|done].
  - destruct scr1 as [|[n e] scr1]; [done|]. apply snd_cons in Hs as [-> Hs]. simpl in Hq.
    destruct (to_event (cfg_with i got st) _ n _ _ _ h _ _ _ _ Hq Hi eq_refl) as (h1 & Hp & Ed & Hi1 & Hgo).
    rewrite app_nil_r in Hp. specialize (Hgo _ (handle_byte i got st g _ _ _ h1 Hp Hg)). rewrite Ed in Hgo.
    destruct (IH scr1 (take (room c) (got ++ [u8 b])) (byte_code g) (acked h1)) as (st2 & h2 & Hg2 & Hq2 & Hi2);
      [by eapply quiet_acked|done|exact Hs|rewrite length_take; lia|].
    exists st2, h2. split; [|done]. rewrite take_take_app, <- app_assoc in Hg2.
    rewrite cost_cons. by eapply gets_trans.
Qed.

(** A session that writes, up to its STOP. *)
Lemma write_irq g a l i scr tk scr1 got st h : starts (scr1 ++ scr) tk h -> scr1.*2 = events (Writes g a l) ->
  (length got <= room c)%nat ->
  exists st' h1, pending STOP NotAddressed scr tk h1 /\
    forall w', I2C_SlaveHandler fuel (W (cfg_with i (take (room c) (got ++ (u8 <$> l))) st') h1) = Ok (tt, w') ->
      gets_to (cost scr1) (W (cfg_with i got st) h) w'.
Proof.
  intros Hst Hs Hg. destruct scr1 as [|[n e] scr1]; [done|]. apply snd_cons in Hs as [-> Hs]. simpl in Hst.
  destruct (to_address (cfg_with i got st) _ _ _ _ _ _ _ _ Hst eq_refl eq_refl) as (h1 & Hp & _ & Hi1 & Hgo).
  specialize (Hgo _ (handle_address (cfg_with i got st) g _ _ _ h1 Hp)).
  apply fmap_app_inv in Hs as (sb & se & Hsb & Hse & ->). destruct se as [|[m e] [|? ?]]; try done.
  symmetry in Hse, Hsb; apply snd_cons in Hse as [-> _].
  pose proof (quiet_acked _ _ _ _ _ Hp) as Hq. rewrite <- app_assoc in Hq.
  destruct (bytes_irq l i g _ tk sb got (if g then I2C_I2STAT_S_RX_GENCALL_ACK else I2C_I2STAT_S_RX_SLAW_ACK) (acked h1) Hq Hi1 Hsb Hg)
    as (st2 & h2 & Hg2 & Hq2 & Hi2).
  destruct (to_event (cfg_with i (take (room c) (got ++ (u8 <$> l))) st2) _ m _ _ _ h2 _ _ _ _ Hq2 Hi2 eq_refl)
    as (h3 & Hp3 & _ & _ & Hgo3). rewrite app_nil_r in Hp3.
  exists st2, h3. split; [done|]. intros w' E. specialize (Hgo3 w' E). rewrite cost_cons, cost_app.
  eapply gets_trans; [exact Hgo|]. eapply gets_trans; [exact Hg2|].
  eapply gets_weaken; [exact Hgo3|]. unfold cost. simpl. lia.
Qed.

Lemma takes_irq n got scr : forall scr1 tk i st h, quiet Transmitter (scr1 ++ scr) tk h -> h_irq h = true ->
  scr1.*2 = replicate n (EvTake true) ++ [EvTake false] -> (i <= length (supply c))%nat ->
  exists h', gets_to (cost scr1) (W (cfg_with i got st) h)
    (ended (over (cfg_with ((i + n) `min` length (supply c)) got I2C_I2STAT_S_TX_DAT_NACK)) h') /\
    quiet NotAddressed scr (tk ++ h_dat h :: answered (h_dat h) n (drop i (supply c))) h'.
Proof.
  induction n as [|n IH]; intros scr1 tk i st h Hq Hi Hs Hle; (destruct scr1 as [|[m e] scr1]; [done|]); apply snd_cons in Hs as [-> Hs];
    simpl in Hq; destruct (to_event (cfg_with i got st) _ m _ _ _ h _ _ _ _ Hq Hi eq_refl) as (h1 & Hp & Ed & Hi1 & Hgo).
  - apply fmap_nil_inv in Hs as ->. specialize (Hgo _ (handle_last (cfg_with i got st) _ _ _ h1 Hp)).
    exists (acked h1). rewrite Nat.add_0_r, Nat.min_l by lia. split; [|by eapply quiet_acked].
    eapply gets_weaken; [exact Hgo|]. unfold cost. simpl. lia.
  - destruct (handle_transmit i got st _ _ _ _ h1 Hp) as (h2 & Eh & Hp2 & Ed2 & Hi2); [by right|done|].
    specialize (Hgo _ Eh). rewrite Ed in Ed2.
    destruct (IH scr1 (tk ++ [h_dat h]) (S i `min` length (supply c))%nat I2C_I2STAT_S_TX_DAT_ACK (acked h2)) as (h3 & Hg3 & Hq3);
      [by eapply quiet_acked|simpl; congruence|exact Hs|lia|].
    exists h3. rewrite answered_S, head_drop, tail_drop by done.
    change (h_dat (acked h2)) with (h_dat h2) in Hq3. rewrite Ed2, <- app_assoc in Hq3. split; [|done].
    replace ((i + S n) `min` length (supply c))%nat with ((S i `min` length (supply c) + n) `min` length (supply c))%nat by lia.
    rewrite cost_cons. by eapply gets_trans.
Qed.

Lemma read_irq a n i scr tk scr1 got st h : starts (scr1 ++ scr) tk h -> scr1.*2 = events (Reads a n) ->
  (i <= length (supply c))%nat ->
  exists h', gets_to (cost scr1) (W (cfg_with i got st) h)
    (ended (over (cfg_with ((i + S n) `min` length (supply c)) got I2C_I2STAT_S_TX_DAT_NACK)) h') /\
    quiet NotAddressed scr (tk ++ answered a (S n) (drop i (supply c))) h'.
Proof.
  intros Hst Hs Hi. destruct scr1 as [|[m e] scr1]; [done|]. apply snd_cons in Hs as [-> Hs]. simpl in Hst.
  destruct (to_address (cfg_with i got st) _ _ _ _ _ _ _ _ Hst eq_refl eq_refl) as (h1 & Hp & Ed & Hi1 & Hgo).
  destruct (handle_transmit i got st _ _ _ _ h1 Hp) as (h2 & Eh & Hp2 & Ed2 & Hi2); [by left|done|].
  specialize (Hgo _ Eh). rewrite Ed in Ed2.
  destruct (takes_irq n got scr scr1 tk (S i `min` length (supply c))%nat I2C_I2STAT_S_TX_SLAR_ACK (acked h2)) as (h3 & Hg3 & Hq3);
    [by eapply quiet_acked|simpl; congruence|exact Hs|lia|].
  exists h3. rewrite answered_S, head_drop, tail_drop by done.
  change (h_dat (acked h2)) with (h_dat h2) in Hq3. rewrite Ed2 in Hq3. split; [|done].
  replace ((i + S n) `min` length (supply c))%nat with ((S i `min` length (supply c) + n) `min` length (supply c))%nat by lia.
  rewrite cost_cons. by eapply gets_trans.
Qed.

Definition irq_prompt (x : nat * bus_event) : Prop := addressing (snd x) = true -> Z.of_nat (fst x) <= irq_patience.
Definition writing (s : session) : Prop := match s with Writes _ _ _ => True | Reads _ _ => False end.

(** The last session ends the transfer. *)
Lemma last_irq s i got tk scr st h : starts scr tk h -> scr.*2 = events s -> within c (i, got, tk) ->
  exists h', gets_to (cost scr) (W (cfg_with i got st) h)
    (ended (over (cfg_with (serve c (i, got, tk) s).1.1 (serve c (i, got, tk) s).1.2 (last_code s))) h') /\
    quiet NotAddressed [] (serve c (i, got, tk) s).2 h'.
Proof.
  intros Hst Hs [Hi Hg]. rewrite <- (app_nil_r scr) in Hst. destruct s as [g a l|a n].
  - destruct (write_irq g a l i [] tk scr got st h Hst Hs Hg) as (st' & h1 & Hp & Hgo).
    destruct (handle_stop_end (cfg_with i (take (room c) (got ++ (u8 <$> l))) st') _ _ h1 Hp) as (h2 & Hq & E).
    exists h2. split; [by apply Hgo|done].
  - by apply (read_irq a n i [] tk).
Qed.

Lemma addresses s ss (scr : list (nat * bus_event)) : scr.*2 = concat (events <$> s :: ss) -> exists n e scr', scr = (n, e) :: scr' /\ addressing e = true /\
  exists code r d, effect NotAddressed e 0 = Some (code, r, d, []).
Proof.
  intros Hs. destruct scr as [|[n e] scr]; [by destruct s|]. exists n, e, scr. split; [done|].
  destruct s; simpl in Hs; injection Hs as -> _; (split; [done|]); by eexists _, _, _.
Qed.

Lemma sessions_irq s ss : forall scr i got tk st h, starts scr tk h -> scr.*2 = concat (events <$> ss ++ [s]) ->
  Forall irq_prompt (tail scr) -> Forall writing ss -> within c (i, got, tk) ->
  exists h', gets_to (cost scr) (W (cfg_with i got st) h)
    (ended (over (cfg_with (foldl (serve c) (i, got, tk) (ss ++ [s])).1.1 (foldl (serve c) (i, got, tk) (ss ++ [s])).1.2
       (last_code s))) h') /\
    quiet NotAddressed [] (foldl (serve c) (i, got, tk) (ss ++ [s])).2 h'.
Proof.
  induction ss as [|s0 ss IH]; intros scr i got tk st h Hst Hs Hp Hw Hin.
  - simpl in Hs. rewrite app_nil_r in Hs. by apply last_irq.
  - apply Forall_cons in Hw as [Hw0 Hw]. destruct s0 as [g a l|]; [|done].
    rewrite <- app_comm_cons, fmap_cons in Hs. cbn [concat] in Hs.
    apply fmap_app_inv in Hs as (sa & sb & Ha & Hb & ->). symmetry in Ha, Hb.
    assert (sa <> []) as Hne by (intros ->; by apply (events_not_nil (Writes g a l))).
    destruct (Forall_tail_app _ _ _ Hne Hp) as [_ Hpb].
    destruct (write_irq g a l i sb tk sa got st h Hst Ha (proj2 Hin)) as (st' & h1 & Hp1 & Hgo).
    assert (exists s1 ss1, ss ++ [s] = s1 :: ss1) as (s1 & ss1 & Es) by (destruct ss; by eexists _, _).
    rewrite Es in Hb. destruct (addresses s1 ss1 sb Hb) as (n & e & scr' & -> & Hae & code & r & d & He).
    assert (effect NotAddressed e (h_dat h1) = Some (code, r, d, [])) as He1 by (by rewrite effect_address).
    destruct (handle_stop_more (cfg_with i (take (room c) (got ++ (u8 <$> l))) st') _ n e scr' tk h1 _ _ _ _ Hp1 He1)
      as (h2 & Eh & Hp2 & Ed2 & Hi2).
    { apply Forall_cons in Hpb as [Hpb _]. by apply Hpb. }
    rewrite app_nil_r in Hp2. rewrite <- Es in Hb.
    destruct (IH ((n, e) :: scr') i (take (room c) (got ++ (u8 <$> l))) tk STOP h2) as (h3 & Hg3 & Hq3);
      [|exact Hb|by apply Forall_cons in Hpb as [_ ?]|done|by apply (serve_within c (Writes g a l) (i, got, tk))|].
    + split; [done|]. right. by exists n, e, scr', code, r, d.
    + exists h3. split; [|done]. rewrite cost_app. eapply gets_trans; [by apply Hgo|exact Hg3].
Qed.

(** After the end nothing happens any more. *)
Lemma ended_stays x h tk n : quiet NotAddressed [] tk h -> run_slave n fuel (ended x h) = Ok (tt, ended x h).
Proof.
  intros Hq. induction n as [|n IH]; [done|]. cbn [run_slave]. rewrite (bind_ok (irq_turn fuel) _ _ tt (ended x h)); [done|].
  assert (elapse (s_port (ended x h)) = s_port (ended x h)) as Ee.
  { unfold elapse. simpl. rewrite bit_set_clear. change (Z.land I2C_I2CONSET_SI _) with 0. rewrite bit_set_none.
    by rewrite (q_script _ _ _ _ Hq). }
  unfold irq_turn. rewrite (bind_ok (modify _) _ _ tt (ended x h)).
  - by rewrite (bind_ok (gets _) _ _ (s_port (ended x h)) (ended x h)).
  - unfold modify. by rewrite Ee.
Qed.
End Handler.

(** C24: the same sessions served by interrupt, when all but the last are writes and each is
    begun before the handler, waiting behind the one before, times out: however the events are
    spread in time otherwise, the handler leaves the structure that the transfer by polling leaves, calls the callback once, at the end, and
    switches the interrupt off.  (A session that reads ends the transfer, so that a later one
    would not be served, as it is by polling.) *)
Theorem handler_serves o h called ss s c fuel n :
  (h_script h).*2 = concat (events <$> ss ++ [s]) -> Forall irq_prompt (tail (h_script h)) ->
  Forall writing ss -> fits c -> (Z.to_nat I2C_SLAVE_TIME_OUT <= fuel)%nat -> (cost (h_script h) <= n)%nat ->
  exists h', (I2C_SlaveTransferData fuel c I2C_TRANSFER_INTERRUPT ;; run_slave n fuel) (mk_slave o h called) =
      Ok (tt, mk_slave (Some (after_sessions c (ss ++ [s]) (h_taken h))) h' (called ++ option_list (callback c))) /\
    h_taken h' = (serve_all c (ss ++ [s]) (h_taken h)).2 /\ h_script h' = [] /\ h_irq h' = false.
Proof.
  intros Hs Hp Hw Hf Hfuel Hn. set (c0 := c{{ tx_count := 0; rx_count := 0; status := 0 }}).
  assert (fits c0) as Hf0 by (destruct Hf; by constructor).
  set (h0 := irq_cmd true (wr_CONCLR (Z.lor I2C_I2CONCLR_SIC I2C_I2CONCLR_STAC) (wr_CONSET I2C_I2CONSET_AA h))).
  assert (I2C_SlaveTransferData fuel c I2C_TRANSFER_INTERRUPT (mk_slave o h called) =
    Ok ((SUCCESS, c0), mk_slave (Some c0) h0 called)) as E0 by done.
  rewrite (bind_ok _ _ _ _ _ E0).
  assert (starts (h_script h) (h_taken h) h0) as Hst.
  { split; [done|]. left. exists (h_role h). destruct (quiet_start h). by constructor. }
  destruct (sessions_irq c0 Hf0 called fuel Hfuel s ss (h_script h) 0%nat [] (h_taken h) 0 h0 Hst Hs Hp Hw)
    as (h1 & (j & Hj & Ej) & Hq); [split; simpl; lia|].
  assert (cfg_with c0 0 [] 0 = c0) as Ec by (unfold cfg_with, c0; by rewrite (cfg_start c)). rewrite Ec in Ej.
  eexists. split.
  - assert (n = (j + (n - j))%nat) as -> by lia. rewrite Ej. rewrite (ended_stays called fuel _ _ _ _ Hq).
    unfold ended, after_sessions, serve_all. rewrite last_snoc. cbn [fmap option_fmap option_map default from_option].
    assert (forall x : I2C_S_SETUP_Type, match callback x with Some f => [f] | None => [] end = option_list (callback x)) as ->
      by (intros x; by destruct (callback x)).
    reflexivity.
  - split; [|split; [|done]]; apply Hq.
Qed.

(** ** A slave with two buffers *)

Definition sample_slave : I2C_S_SETUP_Type :=
  mk_s_setup (Some [10; 20; 30]) 3 0 (Some (replicate 4 0)) 4 0 0 (Some 5).
Definition sample_sessions : list session := [Writes false 0x40 [1; 2; 3]; Writes true 0 [4; 5; 6]; Reads 0x41 4].
Definition sample_script : list (nat * bus_event) :=
  (fun e => (7%nat, e)) <$> concat (events <$> sample_sessions).
Definition sample_bus : slave_hw := mk_hw 0x40 0xF8 0 false NotAddressed sample_script [].

Lemma sample_fits : fits sample_slave.
Proof. constructor; [simpl; lia|simpl; lia| |]; intros l [= <-]; simpl; lia. Qed.

(** Five bytes are taken of three, and four of six are stored. *)
Lemma slave_serves_witness :
  serve_all sample_slave sample_sessions [] = (3%nat, [1; 2; 3; 4], [10; 20; 30; 30; 30]) /\
  exists h', I2C_SlaveTransferData (poll_turns sample_script) sample_slave I2C_TRANSFER_POLLING (mk_slave None sample_bus []) =
      Ok ((SUCCESS, after_sessions sample_slave sample_sessions []), mk_slave None h' []) /\
    h_taken h' = (serve_all sample_slave sample_sessions []).2 /\ h_script h' = [].
Proof.
  split; [vm_compute; reflexivity|].
  apply (slave_serves None sample_bus [] sample_sessions sample_slave).
  - discriminate.
  - split; [vm_compute; reflexivity|]. repeat constructor; intros _; vm_compute; discriminate.
  - exact sample_fits.
  - constructor.
Defined.

Lemma handler_serves_witness :
  exists h', (I2C_SlaveTransferData (Z.to_nat I2C_SLAVE_TIME_OUT) sample_slave I2C_TRANSFER_INTERRUPT ;;
      run_slave 200 (Z.to_nat I2C_SLAVE_TIME_OUT)) (mk_slave None sample_bus []) =
      Ok (tt, mk_slave (Some (after_sessions sample_slave sample_sessions [])) h' [5]) /\
    h_taken h' = (serve_all sample_slave sample_sessions []).2 /\ h_script h' = [] /\ h_irq h' = false.
Proof.
  apply (handler_serves None sample_bus [] [Writes false 0x40 [1; 2; 3]; Writes true 0 [4; 5; 6]] (Reads 0x41 4) sample_slave).
  - vm_compute. reflexivity.
  - repeat constructor; intros _; vm_compute; discriminate.
  - repeat constructor.
  - exact sample_fits.
  - constructor.
  - apply (bool_decide_unpack _). vm_compute. exact I.
Defined.
