(* ===== verification/CanAf.v ===== *)
(** * The CAN acceptance filter table

    Lib_MCU/src/lpc17xx_can.c, the functions that keep the acceptance filter's
    look-up table: a RAM of 512 words with five sections one after the other
    (FullCAN identifiers, explicit standard, standard groups, explicit extended,
    extended groups), the FullCAN objects behind them, the registers with the
    sections' addresses and the counters with their sizes. *)

From S2P Require Import Prelude.

(** ** Types (lpc17xx_can.h) *)

Inductive LPC_CAN : Type := LPC_CAN1 | LPC_CAN2.
#[export] Instance LPC_CAN_dec : EqDecision LPC_CAN.
Proof. solve_decision. Defined.

Inductive CAN_ERROR : Type :=
| CAN_OK
| CAN_OBJECTS_FULL_ERROR
| CAN_FULL_OBJ_NOT_RCV
| CAN_NO_RECEIVE_DATA
| CAN_AF_ENTRY_ERROR
| CAN_CONFLICT_ID_ERROR
| CAN_ENTRY_NOT_EXIT_ERROR.

Inductive AFLUT_ENTRY_Type : Type :=
| FULLCAN_ENTRY
| EXPLICIT_STANDARD_ENTRY
| GROUP_STANDARD_ENTRY
| EXPLICIT_EXTEND_ENTRY
| GROUP_EXTEND_ENTRY.

Definition STD_ID_FORMAT : Z := 0.
Definition EXT_ID_FORMAT : Z := 1.

(** ** State *)

Record af_st : Type := mk_af {
  AFMR : Z;
  SFF_sa : Z;
  SFF_GRP_sa : Z;
  EFF_sa : Z;
  EFF_GRP_sa : Z;
  ENDofTable : Z;
  FCANIE : Z;
  FCANIC0 : Z;
  FCANIC1 : Z;
  mask : list Z;                (* LPC_CANAF_RAM->mask *)
  FULLCAN_ENABLE : bool;
  CANAF_FullCAN_cnt : Z;
  CANAF_std_cnt : Z;
  CANAF_gstd_cnt : Z;
  CANAF_ext_cnt : Z;
  CANAF_gext_cnt : Z
}.
#[export] Instance eta_af_st : Settable af_st :=
  fun s => mk_af (AFMR s) (SFF_sa s) (SFF_GRP_sa s) (EFF_sa s) (EFF_GRP_sa s) (ENDofTable s)
    (FCANIE s) (FCANIC0 s) (FCANIC1 s) (mask s) (FULLCAN_ENABLE s) (CANAF_FullCAN_cnt s)
    (CANAF_std_cnt s) (CANAF_gstd_cnt s) (CANAF_ext_cnt s) (CANAF_gext_cnt s).

Definition af_reset : af_st := {|
  AFMR := 1; SFF_sa := 0; SFF_GRP_sa := 0; EFF_sa := 0; EFF_GRP_sa := 0; ENDofTable := 0;
  FCANIE := 0; FCANIC0 := 0; FCANIC1 := 0; mask := replicate 512 0; FULLCAN_ENABLE := false;
  CANAF_FullCAN_cnt := 0; CANAF_std_cnt := 0; CANAF_gstd_cnt := 0; CANAF_ext_cnt := 0;
  CANAF_gext_cnt := 0
|}.

(** Every loop below visits a new word of the RAM in each iteration, or counts
    down a section, so 1024 iterations are enough for it to end or to leave the
    array. *)
Definition AF_FUEL : nat := 1024.

Definition aget_s {A} (f : af_st -> A) : M af_st A := gets f.
Definition aset_s (f : af_st -> af_st) : M af_st unit := modify f.
Definition set_AFMR (v : Z) : M af_st unit := modify (fun s : af_st => s{{ AFMR := v }}).

Definition mget (i : Z) : M af_st Z := m ← gets mask; aget m i.
Definition mset (i v : Z) : M af_st unit :=
  m ← gets mask;
  m' ← aset m i (u32 v);
  modify (fun s : af_st => s{{ mask := m' }}).

Definition half (n : Z) : Z := Z.shiftr (n + 1) 1.

(** The words in use, FullCAN objects included. *)
Definition total_words (s : af_st) : Z :=
  s16 (half (CANAF_FullCAN_cnt s) + CANAF_FullCAN_cnt s * 3 + half (CANAF_std_cnt s)
       + CANAF_gstd_cnt s + CANAF_ext_cnt s + Z.shiftl (CANAF_gext_cnt s) 1).

Definition ctrl_no (CANx : LPC_CAN) : Z :=
  match CANx with LPC_CAN1 => 0 | LPC_CAN2 => 1 end.

(** [while (bound1--) { cnt1++; buf1 = mask[cnt1]; mask[cnt1] = buf0; buf0 = buf1; }] *)
Definition shift_up (cnt1 bound1 buf0 : Z) : M af_st unit :=
  while AF_FUEL (fun '(cnt1, bound1, buf0) =>
    if bound1 =? 0 then mret (Break tt)
    else
      let cnt1 := cnt1 + 1 in
      buf1 ← mget cnt1;
      mset cnt1 buf0 ;;
      mret (Continue (cnt1, bound1 - 1, buf1))) (cnt1, bound1, buf0).

Definition hi16 (w : Z) : Z := Z.shiftr w 16.
Definition lo16 (w : Z) : Z := Z.land w 0x0000FFFF.

(** Two standard identifiers are kept in a word, the first in its upper half.
    The search for the place of a new one, over the words [cnt1] to [bound1 - 1]:
    its word and half. *)
Definition find_std (id bound1 cnt1 cnt2 : Z) : M af_st (Z * Z) :=
  while AF_FUEL (fun cnt1 =>
    if negb (cnt1 <? bound1) then mret (Break (cnt1, cnt2))
    else
      w ← mget cnt1;
      if id <? hi16 w then mret (Break (cnt1, cnt1 * 2))
      else if id <? lo16 w then mret (Break (cnt1, cnt1 * 2 + 1))
      else mret (Continue (cnt1 + 1))) cnt1.

(** Move the identifiers behind the inserted one by half a word, up to the word
    [bound1]; the result is where it ended and the word last read. *)
Definition push_halves (cnt1 bound1 buf0 : Z) : M af_st (Z * Z) :=
  while AF_FUEL (fun '(cnt1, buf0) =>
    if negb (cnt1 <? bound1) then mret (Break (cnt1, buf0))
    else
      let cnt1 := cnt1 + 1 in
      buf1 ← mget cnt1;
      mset cnt1 (Z.lor (hi16 buf1) (u32 (Z.shiftl buf0 16))) ;;
      mret (Continue (cnt1, buf1))) (cnt1, buf0).

(** ** Explicit entries *)

(** The identifier goes to its place among the standard ones. *)
Definition insert_std (id : Z) : M af_st unit :=
  s ← get;
  let fc := half (CANAF_FullCAN_cnt s) in
  let n := CANAF_std_cnt s in
  if n =? 0 then mset fc (Z.lor 0x0000FFFF (u32 (Z.shiftl id 16)))
  else if n =? 1 then
    w ← mget fc;
    (if id <? hi16 w then mset fc (Z.lor (hi16 w) (u32 (Z.shiftl id 16)))
     else mset fc (Z.lor (Z.land w 0xFFFF0000) id))
  else
    let bound1 := fc + half n in
    r ← find_std id bound1 fc n;
    let '(cnt1, cnt2) := r in
    if cnt1 =? bound1 then
      if Z.land n 1 =? 0 then mset cnt1 (Z.lor 0x0000FFFF (u32 (Z.shiftl id 16)))
      else
        w ← mget cnt1;
        mset cnt1 (Z.lor (Z.land w 0xFFFF0000) id)
    else
      buf0 ← mget cnt1;
      let buf1 := if Z.land cnt2 1 =? 0 then Z.lor (u32 (Z.shiftl id 16)) (hi16 buf0)
                  else Z.lor (Z.land buf0 0xFFFF0000) id in
      mset cnt1 buf1 ;;
      r ← push_halves cnt1 (bound1 - 1) buf0;
      let '(cnt1, buf0) := r in
      when (Z.land n 1 =? 0)
        (mset (cnt1 + 1) (Z.lor (u32 (Z.shiftl buf0 16)) 0x0000FFFF)).

Definition load_std (CANx : LPC_CAN) (total id : Z) : M af_st unit :=
  let id := Z.lor (Z.land id 0x07FF) (u32 (Z.shiftl (ctrl_no CANx) 13)) in
  s ← get;
  (if Z.land (CANAF_std_cnt s) 1 =? 0 then
     let cnt1 := half (CANAF_FullCAN_cnt s) + half (CANAF_std_cnt s) in
     buf0 ← mget cnt1;
     shift_up cnt1 (total - cnt1) buf0
   else mret tt) ;;
  insert_std id ;;
  modify (fun s : af_st => s{{
    CANAF_std_cnt := u16 (CANAF_std_cnt s + 1);
    SFF_GRP_sa := u32 (SFF_GRP_sa s + 4);
    EFF_sa := u32 (EFF_sa s + 4);
    EFF_GRP_sa := u32 (EFF_GRP_sa s + 4);
    ENDofTable := u32 (ENDofTable s + 4) }}).

(** The search of the place of a new extended identifier: its word, and how many
    entries are before it. *)
Definition find_ext (id n cnt1 : Z) : M af_st (Z * Z) :=
  while AF_FUEL (fun '(cnt1, cnt2) =>
    if negb (cnt2 <? n) then mret (Break (cnt1, cnt2))
    else
      w ← mget cnt1;
      if id <? w then mret (Break (cnt1, cnt2))
      else mret (Continue (cnt1 + 1, cnt2 + 1))) (cnt1, 0).

Definition load_ext (CANx : LPC_CAN) (total id : Z) : M af_st unit :=
  let id := Z.lor id (u32 (Z.shiftl (ctrl_no CANx) 29)) in
  s ← get;
  let cnt1 := half (CANAF_FullCAN_cnt s) + (half (CANAF_std_cnt s) + CANAF_gstd_cnt s) in
  r ← find_ext id (CANAF_ext_cnt s) cnt1;
  let '(cnt1, cnt2) := r in
  buf0 ← mget cnt1;
  mset cnt1 id ;;
  modify (fun s : af_st => s{{ CANAF_ext_cnt := u16 (CANAF_ext_cnt s + 1) }}) ;;
  shift_up cnt1 (Z.max 0 (total - cnt2)) buf0 ;;
  modify (fun s : af_st => s{{
    EFF_GRP_sa := u32 (EFF_GRP_sa s + 4);
    ENDofTable := u32 (ENDofTable s + 4) }}).

Definition CAN_LoadExplicitEntry (CANx : LPC_CAN) (id format : Z) : M af_st CAN_ERROR :=
  CHECK_PARAM ((format =? STD_ID_FORMAT) || (format =? EXT_ID_FORMAT)) ;;
  total ← gets total_words;
  if 512 <=? total then mret CAN_OBJECTS_FULL_ERROR
  else
    set_AFMR 1 ;;
    (if format =? STD_ID_FORMAT then load_std CANx total id else load_ext CANx total id) ;;
    fc ← gets CANAF_FullCAN_cnt;
    set_AFMR (if fc =? 0 then 0 else 4) ;;
    mret CAN_OK.

(** ** FullCAN entries *)

(** The search among the FullCAN identifiers; [bound1] is the last word. *)
Definition find_fc (id bound1 cnt2 : Z) : M af_st (Z * Z) :=
  while AF_FUEL (fun cnt1 =>
    if negb (cnt1 <=? bound1) then mret (Break (cnt1, cnt2))
    else
      w ← mget cnt1;
      if id <? hi16 w then mret (Break (cnt1, cnt1 * 2))
      else if id <? lo16 w then mret (Break (cnt1, cnt1 * 2 + 1))
      else mret (Continue (cnt1 + 1))) 0.

(** The identifier goes to its place; the result is [cnt2]. *)
Definition insert_fc (id : Z) : M af_st Z :=
  n ← gets CANAF_FullCAN_cnt;
  if n =? 0 then mset 0 (Z.lor 0x0000FFFF (u32 (Z.shiftl id 16))) ;; mret 0
  else if n =? 1 then
    w ← mget 0;
    (if id <? hi16 w then mset 0 (Z.lor (hi16 w) (u32 (Z.shiftl id 16)))
     else mset 0 (Z.lor (Z.land w 0xFFFF0000) id)) ;;
    mret 0
  else
    let bound1 := Z.shiftr (n - 1) 1 in
    r ← find_fc id bound1 n;
    let '(cnt1, cnt2) := r in
    (if bound1 <? cnt1 then
       if Z.land n 1 =? 0 then mset cnt1 (Z.lor 0x0000FFFF (u32 (Z.shiftl id 16)))
       else
         w ← mget cnt1;
         mset cnt1 (Z.lor (Z.land w 0xFFFF0000) id)
     else
       buf0 ← mget cnt1;
       let buf1 := if Z.land cnt2 1 =? 0 then Z.lor (u32 (Z.shiftl id 16)) (hi16 buf0)
                   else Z.lor (Z.land buf0 0xFFFF0000) id in
       mset cnt1 buf1 ;;
       r ← push_halves cnt1 (Z.shiftr n 1) buf0;
       let '(cnt1, _) := r in
       when (Z.land n 1 =? 0)
         (w ← mget cnt1; mset cnt1 (Z.lor (Z.land w 0xFFFF0000) 0x0000FFFF))) ;;
    mret cnt2.

(** Insert an empty FullCAN object (three words) at the word [cnt1]: the
    [bound1] objects behind move up. *)
Definition push_objects (cnt1 bound1 : Z) : M af_st unit :=
  buf0 ← mget cnt1; buf1 ← mget (cnt1 + 1); buf2 ← mget (cnt1 + 2);
  mset (cnt1 + 2) 0 ;; mset (cnt1 + 1) 0 ;; mset cnt1 0 ;;
  while AF_FUEL (fun '(cnt1, bound1, buf0, buf1, buf2) =>
    if bound1 =? 0 then mret (Break tt)
    else
      tmp0 ← mget cnt1; tmp1 ← mget (cnt1 + 1); tmp2 ← mget (cnt1 + 2);
      mset cnt1 buf0 ;; mset (cnt1 + 1) buf1 ;; mset (cnt1 + 2) buf2 ;;
      mret (Continue (cnt1 + 3, bound1 - 1, tmp0, tmp1, tmp2)))
    (cnt1 + 3, bound1, buf0, buf1, buf2).

Definition CAN_LoadFullCANEntry (CANx : LPC_CAN) (id : Z) : M af_st CAN_ERROR :=
  total ← gets total_words;
  n ← gets CANAF_FullCAN_cnt;
  if (508 <=? total) || (64 <=? n) then mret CAN_OBJECTS_FULL_ERROR
  else
    set_AFMR 1 ;;
    let id := u16 (Z.lor (Z.land id 0x07FF)
                         (Z.lor (Z.shiftl (ctrl_no CANx) 13) (Z.shiftl 1 11))) in
    (if (Z.land n 1 =? 0) && negb (total =? 0) then
       let cnt1 := Z.shiftr n 1 in
       buf0 ← mget cnt1;
       shift_up cnt1 total buf0
     else mret tt) ;;
    cnt2 ← insert_fc id;
    push_objects (s16 (total - n * 3 + cnt2 * 3 + 1)) (s16 (n - cnt2)) ;;
    modify (fun s : af_st => s{{
      CANAF_FullCAN_cnt := u16 (CANAF_FullCAN_cnt s + 1);
      SFF_sa := u32 (SFF_sa s + 4);
      SFF_GRP_sa := u32 (SFF_GRP_sa s + 4);
      EFF_sa := u32 (EFF_sa s + 4);
      EFF_GRP_sa := u32 (EFF_GRP_sa s + 4);
      ENDofTable := u32 (ENDofTable s + 4) }}) ;;
    set_AFMR 4 ;;
    mret CAN_OK.

(** ** Group entries *)

(** Where a new standard group goes, over the words [cnt1] to [bound1 - 1]:
    before an entry (its word and its old contents, already replaced), behind the
    last one, or nowhere because it overlaps an entry. *)
Inductive grp_pos : Type :=
| GrpBefore (cnt1 buf0 : Z)
| GrpBehind (cnt1 : Z)
| GrpConflict.

Definition find_gstd (lowerID upperID entry1 bound1 cnt1 : Z) : M af_st grp_pos :=
  while AF_FUEL (fun cnt1 =>
    if negb (cnt1 <? bound1) then mret (Break (GrpBehind cnt1))
    else
      buf0 ← mget cnt1;
      let LID := Z.land (hi16 buf0) 0x7FF in
      let UID := Z.land buf0 0x7FF in
      if upperID <=? LID then
        mset cnt1 entry1 ;;
        mret (Break (GrpBefore cnt1 buf0))
      else if UID <=? lowerID then mret (Continue (cnt1 + 1))
      else mret (Break GrpConflict)) cnt1.

Definition load_gstd (CANx : LPC_CAN) (total lowerID upperID : Z) : M af_st CAN_ERROR :=
  let lowerID := Z.land lowerID 0x7FF in
  let upperID := Z.land upperID 0x7FF in
  let tmp := ctrl_no CANx in
  let entry1 := Z.lor (Z.lor (Z.lor (Z.shiftl tmp 29) (Z.shiftl lowerID 16))
                             (Z.shiftl tmp 13)) upperID in
  s ← get;
  let cnt1 := half (CANAF_FullCAN_cnt s) + half (CANAF_std_cnt s) in
  let done_ :=
    modify (fun s : af_st => s{{
      CANAF_gstd_cnt := u16 (CANAF_gstd_cnt s + 1);
      EFF_sa := u32 (EFF_sa s + 4);
      EFF_GRP_sa := u32 (EFF_GRP_sa s + 4);
      ENDofTable := u32 (ENDofTable s + 4) }}) ;;
    set_AFMR 4 ;;
    mret CAN_OK in
  if CANAF_gstd_cnt s =? 0 then mset cnt1 entry1 ;; done_
  else
    r ← find_gstd lowerID upperID entry1 (cnt1 + CANAF_gstd_cnt s) cnt1;
    match r with
    | GrpConflict => mret CAN_CONFLICT_ID_ERROR
    | GrpBefore cnt1 buf0 => shift_up cnt1 (total - cnt1) buf0 ;; done_
    | GrpBehind cnt1 =>
        buf0 ← mget cnt1;
        mset cnt1 entry1 ;;
        shift_up cnt1 (total - cnt1) buf0 ;;
        done_
    end.

(** The same for extended groups, of two words: [GrpBefore2] carries the second
    word's place and the old contents of both.  (An entry that is replaced is
    before [bound1], so that the code's [cnt1 >= bound1] tells the cases apart.) *)
Inductive grp_pos2 : Type :=
| GrpBefore2 (cnt1 buf0 buf1 : Z)
| GrpBehind2 (cnt1 : Z)
| GrpConflict2.

Definition find_gext (lowerID upperID entry1 entry2 bound1 cnt1 : Z) : M af_st grp_pos2 :=
  while AF_FUEL (fun cnt1 =>
    if negb (cnt1 <? bound1) then mret (Break (GrpBehind2 cnt1))
    else
      buf0 ← mget cnt1;
      buf1 ← mget (cnt1 + 1);
      let LID := Z.land buf0 0x1FFFFFFF in
      let UID := Z.land buf1 0x1FFFFFFF in
      if upperID <=? LID then
        mset cnt1 entry1 ;;
        mset (cnt1 + 1) entry2 ;;
        mret (Break (GrpBefore2 (cnt1 + 1) buf0 buf1))
      else if UID <=? lowerID then mret (Continue (cnt1 + 2))
      else mret (Break GrpConflict2)) cnt1.

(** [while (bound1 > 0)]: move what follows two words up. *)
Definition shift_up2 (cnt1 bound1 buf0 buf1 : Z) : M af_st unit :=
  while AF_FUEL (fun '(cnt1, bound1, buf0, buf1) =>
    if negb (0 <? bound1) then mret (Break tt)
    else
      entry1 ← mget cnt1;
      entry2 ← mget (cnt1 + 1);
      mset cnt1 buf0 ;;
      mset (cnt1 + 1) buf1 ;;
      mret (Continue (cnt1 + 2, bound1 - 2, entry1, entry2))) (cnt1, bound1, buf0, buf1).

Definition load_gext (CANx : LPC_CAN) (total lowerID upperID : Z) : M af_st CAN_ERROR :=
  let lowerID := Z.land lowerID 0x1FFFFFFF in
  let upperID := Z.land upperID 0x1FFFFFFF in
  let entry1 := Z.lor (Z.shiftl (ctrl_no CANx) 29) lowerID in
  let entry2 := Z.lor (Z.shiftl (ctrl_no CANx) 29) upperID in
  s ← get;
  let cnt1 := half (CANAF_FullCAN_cnt s) + half (CANAF_std_cnt s)
              + CANAF_gstd_cnt s + CANAF_ext_cnt s in
  let done_ :=
    modify (fun s : af_st => s{{
      CANAF_gext_cnt := u16 (CANAF_gext_cnt s + 1);
      ENDofTable := u32 (ENDofTable s + 8) }}) ;;
    set_AFMR 4 ;;
    mret CAN_OK in
  if CANAF_gext_cnt s =? 0 then
    mset cnt1 entry1 ;; mset (cnt1 + 1) entry2 ;; done_
  else
    r ← find_gext lowerID upperID entry1 entry2
          (cnt1 + Z.shiftl (CANAF_gext_cnt s) 1) cnt1;
    match r with
    | GrpConflict2 => mret CAN_CONFLICT_ID_ERROR
    | GrpBefore2 cnt1 buf0 buf1 =>
        shift_up2 (cnt1 + 1) (total - cnt1 + 1) buf0 buf1 ;;
        done_
    | GrpBehind2 cnt1 =>
        buf0 ← mget cnt1;
        buf1 ← mget (cnt1 + 1);
        mset cnt1 entry1 ;;
        mset (cnt1 + 1) entry2 ;;
        shift_up2 (cnt1 + 2) (total - (cnt1 + 1) + 1) buf0 buf1 ;;
        done_
    end.

Definition CAN_LoadGroupEntry (CANx : LPC_CAN) (lowerID upperID format : Z)
    : M af_st CAN_ERROR :=
  CHECK_PARAM ((format =? STD_ID_FORMAT) || (format =? EXT_ID_FORMAT)) ;;
  if upperID <? lowerID then mret CAN_CONFLICT_ID_ERROR
  else
    total ← gets total_words;
    set_AFMR 1 ;;
    if format =? STD_ID_FORMAT then
      if 512 <=? total then mret CAN_OBJECTS_FULL_ERROR
      else load_gstd CANx total lowerID upperID
    else
      if 511 <=? total then mret CAN_OBJECTS_FULL_ERROR
      else load_gext CANx total lowerID upperID.

(** ** Removal *)

(** [while (bound > cnt) { mask[cnt-1] = mask[cnt]; cnt++; } mask[cnt-1] = 0] *)
Definition shift_down (cnt bound : Z) : M af_st unit :=
  cnt ← while AF_FUEL (fun cnt =>
    if negb (cnt <? bound) then mret (Break cnt)
    else
      w ← mget cnt;
      mset (cnt - 1) w ;;
      mret (Continue (cnt + 1))) cnt;
  mset (cnt - 1) 0.

(** Close the gap of half a word at [position], [bound] times. *)
Definition pull_halves (even_ : bool) (cnt bound buf0 : Z) : M af_st (Z * Z) :=
  while AF_FUEL (fun '(cnt, bound, buf0) =>
    if bound =? 0 then mret (Break (cnt, buf0))
    else
      buf1 ← mget (cnt + 1);
      if even_ then
        mset cnt (Z.lor (hi16 buf1) (u32 (Z.shiftl buf0 16))) ;;
        mret (Continue (cnt + 1, bound - 1, buf1))
      else
        mset cnt (Z.lor (Z.land buf0 0xFFFF0000) (hi16 buf1)) ;;
        w ← mget (cnt + 1);
        mset (cnt + 1) (Z.shiftl w 16) ;;
        mret (Continue (cnt + 1, bound - 1, u32 (Z.shiftl buf1 16)))) (cnt, bound, buf0).

(** Remove the identifier [position] of the [n] kept two to a word from the word
    [first] on; when that frees a word, [free] is run. *)
Definition remove_half (n position first : Z) (free : M af_st unit) : M af_st unit :=
  let cnt := first + Z.shiftr position 1 in
  buf0 ← mget cnt;
  r ← pull_halves (Z.land position 1 =? 0) cnt (Z.shiftr (n - position - 1) 1) buf0;
  let '(cnt, buf0) := r in
  if Z.land n 1 =? 0 then
    if Z.land position 1 =? 0 then mset cnt (Z.lor (u32 (Z.shiftl buf0 16)) 0x0000FFFF)
    else mset cnt (Z.lor buf0 0x0000FFFF)
  else free.

(** Delete the FullCAN object of [position]: [bound] words from [cnt] on move
    three places down. *)
Definition pull_objects (cnt bound : Z) : M af_st unit :=
  while AF_FUEL (fun '(cnt, bound) =>
    if bound =? 0 then mret (Break tt)
    else
      a ← mget (cnt + 3); mset cnt a ;;
      b ← mget (cnt + 4); mset (cnt + 1) b ;;
      c ← mget (cnt + 5); mset (cnt + 2) c ;;
      mret (Continue (cnt + 3, bound - 3))) (cnt, bound).

Definition shift_down2 (cnt bound : Z) : M af_st unit :=
  while AF_FUEL (fun cnt =>
    if negb (cnt <? bound) then mret (Break tt)
    else
      a ← mget (cnt + 2); mset cnt a ;;
      b ← mget (cnt + 3); mset (cnt + 1) b ;;
      mret (Continue (cnt + 2))) cnt.

(** The registers with a 0 are not written. *)
Definition moved_by (d a : Z) : Z := if d =? 0 then a else u32 (a - d).
Definition move_addresses (fc std gstd ext gext : Z) : M af_st unit :=
  modify (fun s : af_st => s{{
    SFF_sa := moved_by fc (SFF_sa s);
    SFF_GRP_sa := moved_by std (SFF_GRP_sa s);
    EFF_sa := moved_by gstd (EFF_sa s);
    EFF_GRP_sa := moved_by ext (EFF_GRP_sa s);
    ENDofTable := moved_by gext (ENDofTable s) }}).

Definition remove_fc (s : af_st) (total position : Z) : M af_st unit :=
  let n := CANAF_FullCAN_cnt s in
  remove_half n position 0
    (shift_down (half n) (total + n * 3) ;; move_addresses 4 4 4 4 4) ;;
  modify (fun s : af_st => s{{ CANAF_FullCAN_cnt := u16 (CANAF_FullCAN_cnt s - 1) }}) ;;
  pull_objects (total + position * 3) ((n - 1 - position + 1) * 3).

Definition remove_std (s : af_st) (total position : Z) : M af_st unit :=
  let first := half (CANAF_FullCAN_cnt s) in
  let n := CANAF_std_cnt s in
  remove_half n position first
    (shift_down (first + half n) (total + CANAF_FullCAN_cnt s * 3) ;;
     move_addresses 0 4 4 4 4) ;;
  modify (fun s : af_st => s{{ CANAF_std_cnt := u16 (CANAF_std_cnt s - 1) }}).

Definition remove_gstd (s : af_st) (total position : Z) : M af_st unit :=
  shift_down (half (CANAF_FullCAN_cnt s) + half (CANAF_std_cnt s) + position + 1)
    (total + CANAF_FullCAN_cnt s * 3) ;;
  modify (fun s : af_st => s{{ CANAF_gstd_cnt := u16 (CANAF_gstd_cnt s - 1) }}) ;;
  move_addresses 0 0 4 4 4.

Definition remove_ext (s : af_st) (total position : Z) : M af_st unit :=
  shift_down (half (CANAF_FullCAN_cnt s) + half (CANAF_std_cnt s) + CANAF_gstd_cnt s
              + position + 1) (total + CANAF_FullCAN_cnt s * 3) ;;
  modify (fun s : af_st => s{{ CANAF_ext_cnt := u16 (CANAF_ext_cnt s - 1) }}) ;;
  move_addresses 0 0 0 4 4.

Definition remove_gext (s : af_st) (total position : Z) : M af_st unit :=
  shift_down2 (total - Z.shiftl (CANAF_gext_cnt s) 1 + Z.shiftl position 1)
    (total + CANAF_FullCAN_cnt s * 3) ;;
  modify (fun s : af_st => s{{ CANAF_gext_cnt := u16 (CANAF_gext_cnt s - 1) }}) ;;
  move_addresses 0 0 0 0 8.

Definition section_size (s : af_st) (t : AFLUT_ENTRY_Type) : Z :=
  match t with
  | FULLCAN_ENTRY => CANAF_FullCAN_cnt s
  | EXPLICIT_STANDARD_ENTRY => CANAF_std_cnt s
  | GROUP_STANDARD_ENTRY => CANAF_gstd_cnt s
  | EXPLICIT_EXTEND_ENTRY => CANAF_ext_cnt s
  | GROUP_EXTEND_ENTRY => CANAF_gext_cnt s
  end.

Definition CAN_RemoveEntry (EntryType : AFLUT_ENTRY_Type) (position : Z) : M af_st CAN_ERROR :=
  CHECK_PARAM ((0 <=? position) && (position <? 512)) ;;
  set_AFMR 1 ;;
  s ← get;
  let total := u16 (half (CANAF_FullCAN_cnt s) + half (CANAF_std_cnt s) + CANAF_gstd_cnt s
                    + CANAF_ext_cnt s + Z.shiftl (CANAF_gext_cnt s) 1) in
  if (section_size s EntryType =? 0) || (section_size s EntryType <=? position)
  then mret CAN_ENTRY_NOT_EXIT_ERROR
  else
    (match EntryType with
     | FULLCAN_ENTRY => remove_fc s total position
     | EXPLICIT_STANDARD_ENTRY => remove_std s total position
     | GROUP_STANDARD_ENTRY => remove_gstd s total position
     | EXPLICIT_EXTEND_ENTRY => remove_ext s total position
     | GROUP_EXTEND_ENTRY => remove_gext s total position
     end) ;;
    set_AFMR 4 ;;
    mret CAN_OK.

(** ** The whole table at once

    [CAN_SetupAFLUT] reads the sections of an [AF_SectionDef] through pointers
    that it moves along the caller's arrays; here a section is [None] (NULL) or
    the array, with the number of entries to read.  The moved pointers are not
    part of the result. *)

Record FullCAN_Entry : Type := mk_fc { fc_controller : Z; fc_disable : Z; fc_id_11 : Z }.
Record SFF_Entry : Type := mk_sff { sff_controller : Z; sff_disable : Z; sff_id_11 : Z }.
Record SFF_GPR_Entry : Type := mk_sffg {
  sffg_controller1 : Z; sffg_disable1 : Z; sffg_lowerID : Z;
  sffg_controller2 : Z; sffg_disable2 : Z; sffg_upperID : Z
}.
Record EFF_Entry : Type := mk_eff { eff_controller : Z; eff_ID_29 : Z }.
Record EFF_GPR_Entry : Type := mk_effg {
  effg_controller1 : Z; effg_controller2 : Z; effg_lowerEID : Z; effg_upperEID : Z
}.

Record AF_SectionDef : Type := mk_section {
  FullCAN_Sec : option (list FullCAN_Entry); FC_NumEntry : Z;
  SFF_Sec : option (list SFF_Entry); SFF_NumEntry : Z;
  SFF_GPR_Sec : option (list SFF_GPR_Entry); SFF_GPR_NumEntry : Z;
  EFF_Sec : option (list EFF_Entry); EFF_NumEntry : Z;
  EFF_GPR_Sec : option (list EFF_GPR_Entry); EFF_GPR_NumEntry : Z
}.

(** A section's loop: [count] is the next free word; [inr] is an early return. *)
Fixpoint each_entry {E} (n : nat) (sec : list E) (count limit size : Z)
    (body : E -> Z -> M af_st (Z + CAN_ERROR)) : M af_st (Z + CAN_ERROR) :=
  match n with
  | O => mret (inl count)
  | S n' =>
      if limit <? count + size then mret (inr CAN_OBJECTS_FULL_ERROR)
      else
        match sec with
        | [] => fail OutOfBounds
        | e :: sec' =>
            r ← body e count;
            match r with
            | inl count' => each_entry n' sec' count' limit size body
            | inr err => mret (inr err)
            end
        end
  end.

Definition PARAM_CTRL (n : Z) : bool := (n =? 0) || (n =? 1).
Definition PARAM_MSG_DISABLE (n : Z) : bool := (n =? 0) || (n =? 1).
Definition PARAM_ID_11 (n : Z) : bool := Z.shiftr n 11 =? 0.
Definition PARAM_ID_29 (n : Z) : bool := Z.shiftr n 29 =? 0.

(** Write one half of the word [count]. *)
Definition put_hi (count entry : Z) : M af_st unit :=
  w ← mget count; mset count (Z.lor (Z.land w 0x0000FFFF) entry).
Definition put_lo (count entry : Z) : M af_st unit :=
  w ← mget count; mset count (Z.lor (Z.land w 0xFFFF0000) entry).

Definition setup_fc (e : FullCAN_Entry) (count : Z) : M af_st (Z + CAN_ERROR) :=
  let ctrl1 := fc_controller e in
  let SID := fc_id_11 e in
  let dis1 := fc_disable e in
  CHECK_PARAM (PARAM_CTRL ctrl1) ;;
  CHECK_PARAM (PARAM_ID_11 SID) ;;
  CHECK_PARAM (PARAM_MSG_DISABLE dis1) ;;
  n ← gets CANAF_FullCAN_cnt;
  let count_it := modify (fun s : af_st => s{{ CANAF_FullCAN_cnt := u16 (CANAF_FullCAN_cnt s + 1) }}) in
  if Z.land n 1 =? 0 then
    bad ← (if count =? 0 then mret false
           else buf ← mget (count - 1); mret (SID <? Z.land buf 0x000003FF));
    if (bad : bool) then mret (inr CAN_AF_ENTRY_ERROR)
    else
      put_hi count (Z.lor (Z.lor (Z.lor (Z.shiftl ctrl1 29) (Z.shiftl dis1 28))
                                 (Z.shiftl SID 16)) (Z.shiftl 1 27)) ;;
      count_it ;;
      mret (inl count)
  else
    buf ← mget count;
    if SID <? Z.shiftr (Z.land buf 0x03FF0000) 16 then mret (inr CAN_AF_ENTRY_ERROR)
    else
      put_lo count (Z.lor (Z.lor (Z.lor (Z.shiftl ctrl1 13) (Z.shiftl dis1 12)) SID)
                          (Z.shiftl 1 11)) ;;
      count_it ;;
      mret (inl (count + 1)).

Definition setup_sff (e : SFF_Entry) (count : Z) : M af_st (Z + CAN_ERROR) :=
  let ctrl1 := sff_controller e in
  let SID := sff_id_11 e in
  let dis1 := sff_disable e in
  CHECK_PARAM (PARAM_CTRL ctrl1) ;;
  CHECK_PARAM (PARAM_ID_11 SID) ;;
  CHECK_PARAM (PARAM_MSG_DISABLE dis1) ;;
  n ← gets CANAF_std_cnt;
  let count_it := modify (fun s : af_st => s{{ CANAF_std_cnt := u16 (CANAF_std_cnt s + 1) }}) in
  if Z.land n 1 =? 0 then
    bad ← (if n =? 0 then mret false
           else buf ← mget (count - 1); mret (SID <? Z.land buf 0x00000FFF));
    if (bad : bool) then mret (inr CAN_AF_ENTRY_ERROR)
    else
      put_hi count (Z.lor (Z.lor (Z.shiftl ctrl1 29) (Z.shiftl dis1 28)) (Z.shiftl SID 16)) ;;
      count_it ;;
      mret (inl count)
  else
    buf ← mget count;
    if SID <? Z.shiftr (Z.land buf 0x0FFF0000) 16 then mret (inr CAN_AF_ENTRY_ERROR)
    else
      put_lo count (Z.lor (Z.lor (Z.shiftl ctrl1 13) (Z.shiftl dis1 12)) SID) ;;
      count_it ;;
      mret (inl (count + 1)).

Definition setup_sffg (e : SFF_GPR_Entry) (count : Z) : M af_st (Z + CAN_ERROR) :=
  let ctrl1 := sffg_controller1 e in
  let ctrl2 := sffg_controller2 e in
  let dis1 := sffg_disable1 e in
  let dis2 := sffg_disable2 e in
  let lowerSID := sffg_lowerID e in
  let upperSID := sffg_upperID e in
  CHECK_PARAM (PARAM_CTRL ctrl1) ;;
  CHECK_PARAM (PARAM_CTRL ctrl2) ;;
  CHECK_PARAM (PARAM_MSG_DISABLE dis1) ;;
  CHECK_PARAM (PARAM_MSG_DISABLE dis2) ;;
  CHECK_PARAM (PARAM_ID_11 lowerSID) ;;
  CHECK_PARAM (PARAM_ID_11 upperSID) ;;
  n ← gets CANAF_gstd_cnt;
  bad ← (if n =? 0 then mret false
         else buf ← mget (count - 1); mret (lowerSID <? Z.land buf 0x00000FFF));
  if (bad : bool) then mret (inr CAN_AF_ENTRY_ERROR)
  else
    mset count (Z.lor (Z.lor (Z.lor (Z.shiftl ctrl1 29) (Z.shiftl dis1 28))
                             (Z.shiftl lowerSID 16))
                      (Z.lor (Z.lor (Z.shiftl ctrl2 13) (Z.shiftl dis2 12)) upperSID)) ;;
    modify (fun s : af_st => s{{ CANAF_gstd_cnt := u16 (CANAF_gstd_cnt s + 1) }}) ;;
    mret (inl (count + 1)).

Definition setup_eff (e : EFF_Entry) (count : Z) : M af_st (Z + CAN_ERROR) :=
  let EID := eff_ID_29 e in
  let ctrl1 := eff_controller e in
  CHECK_PARAM (PARAM_ID_29 EID) ;;
  CHECK_PARAM (PARAM_CTRL ctrl1) ;;
  n ← gets CANAF_ext_cnt;
  bad ← (if n =? 0 then mret false
         else buf ← mget (count - 1); mret (EID <? Z.land buf 0x0FFFFFFF));
  if (bad : bool) then mret (inr CAN_AF_ENTRY_ERROR)
  else
    mset count (Z.lor (Z.shiftl ctrl1 29) EID) ;;
    modify (fun s : af_st => s{{ CANAF_ext_cnt := u16 (CANAF_ext_cnt s + 1) }}) ;;
    mret (inl (count + 1)).

Definition setup_effg (e : EFF_GPR_Entry) (count : Z) : M af_st (Z + CAN_ERROR) :=
  let ctrl1 := effg_controller1 e in
  let ctrl2 := effg_controller2 e in
  let lowerEID := effg_lowerEID e in
  let upperEID := effg_upperEID e in
  CHECK_PARAM (PARAM_CTRL ctrl1) ;;
  CHECK_PARAM (PARAM_CTRL ctrl2) ;;
  CHECK_PARAM (PARAM_ID_29 lowerEID) ;;
  CHECK_PARAM (PARAM_ID_29 upperEID) ;;
  n ← gets CANAF_gext_cnt;
  bad ← (if n =? 0 then mret false
         else buf ← mget (count - 1); mret (lowerEID <? Z.land buf 0x0FFFFFFF));
  if (bad : bool) then mret (inr CAN_AF_ENTRY_ERROR)
  else
    mset count (Z.lor (Z.shiftl ctrl1 29) lowerEID) ;;
    mset (count + 1) (Z.lor (Z.shiftl ctrl2 29) upperEID) ;;
    modify (fun s : af_st => s{{ CANAF_gext_cnt := u16 (CANAF_gext_cnt s + 1) }}) ;;
    mret (inl (count + 2)).

(** Run a section, then the rest, unless it returned early. *)
Definition section {E} (sec : option (list E)) (num count limit size : Z)
    (body : E -> Z -> M af_st (Z + CAN_ERROR)) (rest : Z -> M af_st CAN_ERROR)
    : M af_st CAN_ERROR :=
  match sec with
  | None => rest count
  | Some es =>
      r ← each_entry (Z.to_nat num) es count limit size body;
      match r with
      | inl count' => rest count'
      | inr err => mret err
      end
  end.

Definition update_addresses : M af_st unit :=
  modify (fun s : af_st =>
    let sff := Z.shiftl (half (CANAF_FullCAN_cnt s)) 2 in
    let grp := sff + Z.shiftl (half (CANAF_std_cnt s)) 2 in
    let eff := grp + Z.shiftl (CANAF_gstd_cnt s) 2 in
    let egrp := eff + Z.shiftl (CANAF_ext_cnt s) 2 in
    s{{ SFF_sa := sff; SFF_GRP_sa := grp; EFF_sa := eff; EFF_GRP_sa := egrp;
        ENDofTable := egrp + Z.shiftl (CANAF_gext_cnt s) 3 }}).

Definition CAN_SetupAFLUT (AFSection : AF_SectionDef) : M af_st CAN_ERROR :=
  set_AFMR 1 ;;
  modify (fun s : af_st => s{{ FULLCAN_ENABLE :=
    match FullCAN_Sec AFSection with None => false | Some _ => true end }}) ;;
  section (FullCAN_Sec AFSection) (FC_NumEntry AFSection) 0 64 1 setup_fc (fun count =>
  section (SFF_Sec AFSection) (SFF_NumEntry AFSection) count 512 1 setup_sff (fun count =>
  section (SFF_GPR_Sec AFSection) (SFF_GPR_NumEntry AFSection) count 512 1 setup_sffg (fun count =>
  section (EFF_Sec AFSection) (EFF_NumEntry AFSection) count 512 1 setup_eff (fun count =>
  section (EFF_GPR_Sec AFSection) (EFF_GPR_NumEntry AFSection) count 512 2 setup_effg (fun _ =>
    update_addresses ;;
    fe ← gets FULLCAN_ENABLE;
    set_AFMR (if (fe : bool) then 4 else 0) ;;
    mret CAN_OK))))).
