(* ===== verification/CanAfFacts.v ===== *)
(** * The acceptance filter table: what the operations do to it

    The words of the filter RAM represent a [table]: the identifiers of the five
    sections and the FullCAN objects.  The operations of [CanAf] are shown to
    implement insertion into and deletion from the lists of the table. *)

From Stdlib Require Import Sorting.Sorted.
From S2P Require Import Prelude CanAf.

(** ** The table and its layout *)

(** Standard identifiers are 16-bit values, two to a word; a half that is not
    used is 0xFFFF. *)
Fixpoint pack (l : list Z) : list Z :=
  match l with
  | [] => []
  | [a] => [Z.lor (Z.shiftl a 16) 0xFFFF]
  | a :: b :: l' => Z.lor (Z.shiftl a 16) b :: pack l'
  end.

Record table : Type := mk_table {
  t_fc : list Z;
  t_std : list Z;
  t_gstd : list Z;
  t_ext : list Z;
  t_gext : list Z;       (* two words for a group *)
  t_objs : list Z        (* three words for a FullCAN object *)
}.
#[export] Instance eta_table : Settable table :=
  fun s => mk_table (t_fc s) (t_std s) (t_gstd s) (t_ext s) (t_gext s) (t_objs s).

Definition layout (t : table) : list Z :=
  pack (t_fc t) ++ pack (t_std t) ++ t_gstd t ++ t_ext t ++ t_gext t ++ t_objs t.

(** An identifier of a standard section: 0xFFFF marks the unused half. *)
Definition half_ok (z : Z) : Prop := 0 <= z < 0xFFFF.

Record models (s : af_st) (t : table) : Prop := {
  m_mask : exists k, mask s = layout t ++ replicate k 0;
  m_len : length (mask s) = 512%nat;
  m_words : Forall word_ok (mask s);
  m_halves : Forall half_ok (t_fc t) /\ Forall half_ok (t_std t);
  m_fc : CANAF_FullCAN_cnt s = Z.of_nat (length (t_fc t));
  m_std : CANAF_std_cnt s = Z.of_nat (length (t_std t));
  m_gstd : CANAF_gstd_cnt s = Z.of_nat (length (t_gstd t));
  m_ext : CANAF_ext_cnt s = Z.of_nat (length (t_ext t));
  m_gext : 2 * CANAF_gext_cnt s = Z.of_nat (length (t_gext t));
  m_objs : 3 * CANAF_FullCAN_cnt s = Z.of_nat (length (t_objs t))
}.

(** Insert before the first larger identifier. *)
Definition linsert (p : nat) (x : Z) (l : list Z) : list Z := take p l ++ x :: drop p l.
Definition place (x : Z) (l : list Z) : nat := find_idx (fun y => x <? y) l.
Definition sorted_ins (x : Z) (l : list Z) : list Z := linsert (place x l) x l.

(** ** Lemmas: words and halves *)

Lemma half_ok_bound a : half_ok a -> 0 <= a < 2 ^ 16.
Proof. unfold half_ok. lia. Qed.

Lemma join_halves a b : half_ok a -> 0 <= b < 2 ^ 16 ->
  Z.lor (Z.shiftl a 16) b = a * 65536 + b.
Proof.
  intros Ha Hb. rewrite Z_lor_shiftl_small by (unfold half_ok in *; lia).
  rewrite Z.shiftl_mul_pow2 by lia. lia.
Qed.

Lemma hi16_join a b : half_ok a -> 0 <= b < 2 ^ 16 -> hi16 (Z.lor (Z.shiftl a 16) b) = a.
Proof.
  intros Ha Hb. rewrite join_halves by done. unfold hi16.
  rewrite Z.shiftr_div_pow2 by lia. lia.
Qed.

Lemma land_FFFF x : Z.land x 0xFFFF = x mod 65536.
Proof. replace 0xFFFF with (Z.ones 16) by done. by rewrite Z.land_ones by lia. Qed.

Lemma lo16_join a b : half_ok a -> 0 <= b < 2 ^ 16 -> lo16 (Z.lor (Z.shiftl a 16) b) = b.
Proof.
  intros Ha Hb. rewrite join_halves by done. unfold lo16. rewrite land_FFFF. lia.
Qed.

Lemma u32_shl16 b : 0 <= b -> u32 (Z.shiftl b 16) = Z.shiftl (b mod 65536) 16.
Proof. intros Hb. unfold u32. rewrite !Z.shiftl_mul_pow2 by lia. lia. Qed.

Lemma mod_join a b : half_ok a -> 0 <= b < 2 ^ 16 ->
  Z.lor (Z.shiftl a 16) b mod 65536 = b.
Proof. intros. rewrite join_halves by done. lia. Qed.

Lemma keep_hi a b : half_ok a -> 0 <= b < 2 ^ 16 ->
  Z.land (Z.lor (Z.shiftl a 16) b) 0xFFFF0000 = Z.shiftl a 16.
Proof.
  intros Ha Hb. rewrite Z.land_lor_distr_l.
  replace (Z.land b 0xFFFF0000) with 0.
  2: { symmetry. replace 0xFFFF0000 with (Z.shiftl 0xFFFF 16) by done.
       apply Z.bits_inj'; intros i Hi. rewrite Z.land_spec, Z.bits_0.
       destruct (Z.ltb_spec i 16).
       - rewrite (Z.shiftl_spec_low _ 16 i) by lia. apply andb_false_r.
       - replace b with (b mod 2 ^ 16) by (apply Z.mod_small; lia).
         by rewrite Z.mod_pow2_bits_high by lia. }
  rewrite Z.lor_0_r. replace 0xFFFF0000 with (Z.shiftl 0xFFFF 16) by done.
  rewrite <- Z.shiftl_land, land_FFFF. f_equal. unfold half_ok in Ha. lia.
Qed.

Lemma word_join a b : half_ok a -> 0 <= b < 2 ^ 16 -> word_ok (Z.lor (Z.shiftl a 16) b).
Proof. intros. rewrite join_halves by done. unfold word_ok, half_ok in *. lia. Qed.

Lemma u32_word z : word_ok z -> u32 z = z.
Proof. unfold word_ok, u32. intros. apply Z.mod_small. lia. Qed.

Lemma pack_ind2 (P : list Z -> Prop) :
  P [] -> (forall a, P [a]) -> (forall a b l, P l -> P (a :: b :: l)) -> forall l, P l.
Proof.
  intros H0 H1 H2 l. enough (P l /\ forall a, P (a :: l)) as [? _] by done.
  induction l as [|a l [IH IH']]; [split; auto|]. split; [apply IH'|]. intros b. auto.
Qed.

Lemma length_pack l : Z.of_nat (length (pack l)) = half (Z.of_nat (length l)).
Proof.
  unfold half. rewrite Z.shiftr_div_pow2 by lia.
  induction l as [|a|a b l IH] using pack_ind2; [done..|].
  change (length (pack (a :: b :: l))) with (S (length (pack l))).
  change (length (a :: b :: l)) with (S (S (length l))). lia.
Qed.

Lemma pack_words l : Forall half_ok l -> Forall word_ok (pack l).
Proof.
  induction l as [|a|a b l IH] using pack_ind2; intros H; [constructor| |].
  - apply Forall_cons in H as [Ha _].
    constructor; [apply word_join; [done|lia]|constructor].
  - apply Forall_cons in H as [Ha [Hb Hl]%Forall_cons].
    constructor; [apply word_join; [done|by apply half_ok_bound]|auto].
Qed.

(** ** Lemmas: accesses to the RAM *)

Definition with_mask (m : list Z) (s : af_st) : af_st := s{{ mask := m }}.

Lemma wp_mget i w s Q :
  mask s !! i = Some w -> Q w s -> wp (mget (Z.of_nat i)) Q s.
Proof.
  intros Hw HQ. unfold mget. rewrite wp_bind. unfold wp at 1. simpl.
  eapply wp_exact; [|exact HQ]. apply aget_ok; [lia|]. by rewrite Nat2Z.id.
Qed.

Lemma wp_mset i v s Q :
  (i < length (mask s))%nat -> Q tt (with_mask (<[i := u32 v]> (mask s)) s) ->
  wp (mset (Z.of_nat i) v) Q s.
Proof.
  intros Hi HQ. unfold mset. rewrite wp_bind. unfold wp at 1. simpl. rewrite wp_bind.
  eapply wp_exact; [apply aset_ok; lia|]. rewrite Nat2Z.id. exact HQ.
Qed.

Lemma lookup_mid {A} (a b : list A) x : (a ++ x :: b) !! length a = Some x.
Proof. by rewrite list_lookup_middle. Qed.

Lemma insert_mid {A} (a b : list A) x y : <[length a := y]> (a ++ x :: b) = a ++ y :: b.
Proof. by rewrite insert_app_r_alt, Nat.sub_diag by lia. Qed.

Lemma with_mask_twice m m' s : with_mask m (with_mask m' s) = with_mask m s.
Proof. done. Qed.

(** The words behind [a] move up by one, [x] taking the first place. *)
Lemma shift_up_ok fuel n (a : list Z) x l r s Q :
  mask s = a ++ l ++ r -> length l = n -> (n < fuel)%nat -> Forall word_ok (x :: mask s) ->
  (0 < length a)%nat ->
  Q tt (with_mask (a ++ take n (x :: l) ++ r) s) ->
  wp (while fuel (fun '(cnt1, bound1, buf0) =>
    if bound1 =? 0 then mret (Break tt)
    else
      let cnt1 := cnt1 + 1 in
      buf1 ← mget cnt1;
      mset cnt1 buf0 ;;
      mret (Continue (cnt1, bound1 - 1, buf1))) (Z.of_nat (length a) - 1, Z.of_nat n, x)) Q s.
Proof.
  revert a x l s n. induction fuel as [|fuel IH]; intros a x l s n Hm Hl Hf Hw Ha HQ; [lia|].
  apply Forall_cons in Hw as [Hx Hw].
  destruct l as [|y l]; simpl in Hl; subst n; cbn [while]; rewrite wp_bind.
  { simpl in HQ. rewrite <- (app_nil_l r), <- Hm in HQ. by destruct s. }
  destruct (Z.eqb_spec (Z.of_nat (S (length l))) 0); [lia|]. cbv zeta. cbn [app] in Hm.
  rewrite wp_bind. replace (_ - 1 + 1) with (Z.of_nat (length a)) by lia.
  eapply wp_mget; [by rewrite Hm, lookup_mid|].
  rewrite wp_bind. eapply wp_mset; [rewrite Hm, !length_app; simpl; lia|].
  rewrite wp_ret. rewrite Hm, (u32_word x) by done. rewrite insert_mid.
  assert (Hy : word_ok y /\ Forall word_ok (a ++ l ++ r)).
  { rewrite Hm in Hw. apply Forall_app in Hw as [? [? ?]%Forall_cons].
    split; [done|]. by apply Forall_app. }
  specialize (IH (a ++ [x]) y l (with_mask (a ++ x :: l ++ r) s) (length l)).
  replace (Z.of_nat (length a)) with (Z.of_nat (length (a ++ [x])) - 1)
    by (rewrite length_app; simpl; lia).
  replace (Z.of_nat (S (length l)) - 1) with (Z.of_nat (length l)) by lia.
  apply IH.
  - simpl. by rewrite <- app_assoc.
  - done.
  - lia.
  - simpl. constructor; [tauto|]. destruct Hy as [_ [??]%Forall_app].
    apply Forall_app. split; [done|]. by constructor.
  - rewrite length_app. simpl. lia.
  - rewrite with_mask_twice. rewrite <- app_assoc. exact HQ.
Qed.

(** The word [x] at [length a] stays; what was there and behind, [b] and zeros,
    moves up, and one of the zeros is overwritten. *)
Lemma shift_up_section n k (a : list Z) x y tl b s Q :
  mask s = a ++ x :: tl -> y :: tl = b ++ replicate (S k) 0 ->
  (length b <= n <= length b + k)%nat -> (n < AF_FUEL)%nat ->
  Forall word_ok (y :: mask s) ->
  Q tt (with_mask (a ++ x :: b ++ replicate k 0) s) ->
  wp (shift_up (Z.of_nat (length a)) (Z.of_nat n) y) Q s.
Proof.
  intros Hm Hy Hn Hf Hw HQ. unfold shift_up.
  assert (Htl : length tl = (length b + k)%nat).
  { apply (f_equal length) in Hy. rewrite length_app, length_replicate in Hy. simpl in Hy. lia. }
  replace (Z.of_nat (length a)) with (Z.of_nat (length (a ++ [x])) - 1)
    by (rewrite length_app; simpl; lia).
  eapply (shift_up_ok _ n (a ++ [x]) y (take n tl) (drop n tl)).
  - by rewrite take_drop, <- app_assoc.
  - rewrite length_take. lia.
  - done.
  - done.
  - rewrite length_app. simpl. lia.
  - rewrite <- app_assoc. simpl.
    replace (take n (y :: take n tl) ++ drop n tl) with (b ++ replicate k 0); [exact HQ|].
    replace (take n (y :: take n tl)) with (take n (y :: tl))
      by (destruct n; [done|]; simpl; f_equal; rewrite take_take; f_equal; lia).
    change (drop n tl) with (drop (S n) (y :: tl)). rewrite Hy.
    rewrite take_app_ge, drop_app_ge by lia. rewrite take_replicate, drop_replicate.
    rewrite <- app_assoc, <- replicate_add. do 2 f_equal. lia.
Qed.

(** The place among the words [l] of a section is found. *)
Lemma find_ext_ok fuel id (a l r : list Z) s k n :
  mask s = a ++ l ++ r -> k + Z.of_nat (length l) = n -> (length l < fuel)%nat ->
  while fuel (fun '(cnt1, cnt2) =>
    if negb (cnt2 <? n) then mret (Break (cnt1, cnt2))
    else
      w ← mget cnt1;
      if id <? w then mret (Break (cnt1, cnt2))
      else mret (Continue (cnt1 + 1, cnt2 + 1))) (Z.of_nat (length a), k) s =
  Ok ((Z.of_nat (length a + place id l), k + Z.of_nat (place id l)), s).
Proof.
  revert a l k. induction fuel as [|fuel IH]; intros a l k Hm Hk Hf; [lia|].
  unfold place. destruct l as [|y l]; simpl in *.
  - destruct (Z.ltb_spec k n); [lia|]. unfold mbind, M_bind; simpl.
    by rewrite Z.add_0_r, Nat.add_0_r.
  - destruct (Z.ltb_spec k n); [|lia]. unfold mbind, M_bind; simpl.
    assert (E : mget (Z.of_nat (length a)) s = Ok (y, s)).
    { assert (H' : wp (mget (Z.of_nat (length a))) (fun w s' => (w, s') = (y, s)) s)
        by (eapply wp_mget; [by rewrite Hm, lookup_mid|done]).
      apply wp_run in H' as (w & s' & -> & [= -> ->]). done. }
    unfold mbind, M_bind. rewrite E. destruct (id <? y) eqn:Ey; simpl.
    { by rewrite Z.add_0_r, Nat.add_0_r. }
    specialize (IH (a ++ [y]) l (k + 1)). unfold mbind, M_bind in IH.
    replace (Z.of_nat (length a) + 1) with (Z.of_nat (length (a ++ [y])))
      by (rewrite length_app; simpl; lia).
    rewrite IH; [|by rewrite <- app_assoc|lia|lia].
    fold (place id l). rewrite length_app. simpl. do 3 f_equal; lia.
Qed.

Lemma place_le x l : (place x l <= length l)%nat.
Proof. apply find_idx_le. Qed.

Lemma linsert_app_l p x a b : (p <= length a)%nat ->
  linsert p x (a ++ b) = linsert p x a ++ b.
Proof.
  intros Hp. unfold linsert. rewrite take_app_le, drop_app_le by done.
  by rewrite <- app_assoc.
Qed.

Lemma length_linsert p x l : length (linsert p x l) = S (length l).
Proof.
  unfold linsert. rewrite length_app, length_take. simpl. rewrite length_drop. lia.
Qed.

(** ** Lemmas: tables *)

Lemma linsert_perm p x l : linsert p x l ≡ₚ x :: l.
Proof. unfold linsert. by rewrite <- Permutation_middle, take_drop. Qed.

Lemma linsert_sorted x l : StronglySorted Z.le l -> StronglySorted Z.le (sorted_ins x l).
Proof.
  unfold sorted_ins, linsert, place.
  induction 1 as [|y l Hl IH Hy]; simpl; [by repeat constructor|].
  destruct (Z.ltb_spec x y); simpl.
  - constructor; [by constructor|]. constructor; [lia|].
    eapply List.Forall_impl; [|exact Hy]. intros; lia.
  - constructor; [exact IH|].
    change (Forall (Z.le y) (linsert (find_idx (fun y => x <? y) l) x l)).
    rewrite linsert_perm. by constructor; [lia|].
Qed.

Lemma length_half (l : list Z) : half (Z.of_nat (length l)) = Z.of_nat (length (pack l)).
Proof. by rewrite length_pack. Qed.

(** The words in front of a section. *)
Definition before_std (t : table) : list Z := pack (t_fc t).
Definition before_gstd (t : table) : list Z := before_std t ++ pack (t_std t).
Definition before_ext (t : table) : list Z := before_gstd t ++ t_gstd t.
Definition before_gext (t : table) : list Z := before_ext t ++ t_ext t.
Definition behind_std (t : table) : list Z := t_gstd t ++ t_ext t ++ t_gext t ++ t_objs t.
Definition behind_gstd (t : table) : list Z := t_ext t ++ t_gext t ++ t_objs t.
Definition behind_ext (t : table) : list Z := t_gext t ++ t_objs t.

Ltac offsets := unfold before_gext, before_ext, before_gstd, before_std,
  behind_std, behind_gstd, behind_ext, layout; rewrite ?length_app; simpl.

Lemma layout_ext t : layout t = before_ext t ++ t_ext t ++ behind_ext t.
Proof. unfold before_ext, before_gstd, before_std, behind_ext, layout. by rewrite !app_assoc. Qed.
Lemma layout_gstd t : layout t = before_gstd t ++ t_gstd t ++ behind_gstd t.
Proof. unfold before_gstd, before_std, behind_gstd, layout. by rewrite !app_assoc. Qed.
Lemma layout_std t : layout t = before_std t ++ pack (t_std t) ++ behind_std t.
Proof. done. Qed.

Section models.
Context (s : af_st) (t : table) (Hs : models s t).

Lemma models_total : (length (layout t) <= 512)%nat.
Proof.
  destruct Hs. destruct m_mask0 as [k Hk]. rewrite Hk, length_app in m_len0. lia.
Qed.

Lemma models_mask : mask s = layout t ++ replicate (512 - length (layout t)) 0.
Proof.
  destruct Hs. destruct m_mask0 as [k Hk]. rewrite Hk in *.
  rewrite length_app, length_replicate in m_len0. do 2 f_equal. lia.
Qed.

Lemma models_total_words : total_words s = Z.of_nat (length (layout t)).
Proof.
  pose proof models_total. destruct Hs. unfold total_words.
  rewrite m_fc0 at 1. rewrite m_std0, !length_half. rewrite m_gstd0, m_ext0.
  rewrite Z.shiftl_mul_pow2 by lia. unfold s16, layout in *.
  rewrite !length_app in *. lia.
Qed.

Lemma models_base_ext :
  half (CANAF_FullCAN_cnt s) + (half (CANAF_std_cnt s) + CANAF_gstd_cnt s) =
  Z.of_nat (length (before_ext t)).
Proof. destruct Hs. rewrite m_fc0, m_std0, m_gstd0, !length_half. offsets. lia. Qed.
End models.

Lemma ctrl_bits CANx id : 0 <= id < 2 ^ 29 ->
  word_ok (Z.lor id (u32 (Z.shiftl (ctrl_no CANx) 29))).
Proof.
  intros Hid. rewrite Z.lor_comm.
  replace (u32 (Z.shiftl (ctrl_no CANx) 29)) with (Z.shiftl (ctrl_no CANx) 29)
    by (by destruct CANx).
  rewrite Z_lor_shiftl_small by (destruct CANx; simpl; lia).
  destruct CANx; simpl ctrl_no; unfold word_ok; rewrite Z.shiftl_mul_pow2 by lia; lia.
Qed.

Lemma word_app (a b : list Z) x :
  Forall word_ok (a ++ b) -> word_ok x -> Forall word_ok (a ++ x :: b).
Proof. rewrite !Forall_app, Forall_cons. tauto. Qed.

(** ** Explicit extended identifiers *)

Definition ext_id (CANx : LPC_CAN) (id : Z) : Z := Z.lor id (u32 (Z.shiftl (ctrl_no CANx) 29)).
Definition std_id (CANx : LPC_CAN) (id : Z) : Z :=
  Z.lor (Z.land id 0x07FF) (u32 (Z.shiftl (ctrl_no CANx) 13)).

Lemma load_ext_ok CANx id s t Q :
  models s t -> (length (layout t) + length (before_ext t) < 512)%nat -> 0 <= id < 2 ^ 29 ->
  (forall s', models s' (t{{ t_ext := sorted_ins (ext_id CANx id) (t_ext t) }}) ->
     s' = (with_mask (mask s') s){{ CANAF_ext_cnt := CANAF_ext_cnt s + 1;
            EFF_GRP_sa := u32 (EFF_GRP_sa s + 4); ENDofTable := u32 (ENDofTable s + 4) }} ->
     Q tt s') ->
  wp (load_ext CANx (Z.of_nat (length (layout t))) id) Q s.
Proof.
  intros Hs Hroom Hid HQ. unfold load_ext. rewrite wp_bind. unfold wp at 1. simpl.
  rewrite (models_base_ext s t Hs).
  pose proof (models_mask s t Hs) as Hm. pose proof Hs as [_ Hlen Hw _ _ _ _ Hext _ _].
  set (x := Z.lor id _). set (p := place x (t_ext t)).
  pose proof (place_le x (t_ext t)) as Hp. fold p in Hp.
  pose proof Hm as Hm'. rewrite layout_ext, <- !app_assoc in Hm'.
  rewrite wp_bind. unfold find_ext. unfold AF_FUEL.
  assert (Hl : (length (layout t) = length (before_ext t) +
    (length (t_ext t) + length (behind_ext t)))%nat) by (rewrite layout_ext, !length_app; done).
  eapply wp_exact.
  { eapply (find_ext_ok _ x (before_ext t) (t_ext t)); [exact Hm'|by rewrite Hext|lia]. }
  fold p. rewrite Z.add_0_l. cbv beta iota.
  set (a := before_ext t ++ take p (t_ext t)).
  set (b := drop p (t_ext t) ++ behind_ext t).
  assert (Ha : length a = (length (before_ext t) + p)%nat).
  { unfold a. rewrite length_app, length_take. lia. }
  assert (Hb : length b = (length (t_ext t) - p + length (behind_ext t))%nat).
  { unfold b. by rewrite length_app, length_drop. }
  set (k := (511 - length (layout t))%nat).
  assert (Hab : mask s = a ++ b ++ replicate (S k) 0).
  { rewrite Hm'. unfold a, b. rewrite <- !app_assoc, (app_assoc (take _ _)), take_drop.
    
    replace (512 - length _)%nat with (S k); [done|]. rewrite !length_app. unfold k. lia. }
  rewrite <- Ha.
  destruct (b ++ replicate (S k) 0) as [|y tl] eqn:Ez.
  { apply (f_equal length) in Ez. rewrite length_app in Ez. simpl in Ez. lia. }
  assert (Hx : word_ok x) by (by apply ctrl_bits).
  assert (Hy : word_ok y /\ Forall word_ok (a ++ tl)).
  { rewrite Hab in Hw. apply Forall_app in Hw as [? [? ?]%Forall_cons].
    split; [done|]. by apply Forall_app. }
  rewrite wp_bind. eapply wp_mget; [by rewrite Hab, lookup_mid|].
  rewrite wp_bind. eapply wp_mset; [rewrite Hab, length_app; simpl; lia|].
  rewrite Hab, insert_mid, (u32_word x) by done.
  rewrite wp_bind. unfold wp at 1. simpl. rewrite wp_bind.
  replace (Z.max 0 _) with (Z.of_nat (length (layout t) - p)) by lia.
  eapply (shift_up_section _ k a x y tl b); [done|done|lia|unfold AF_FUEL; lia| |].
  { simpl. constructor; [tauto|]. apply word_app; tauto. }
  unfold wp. simpl. unfold u16. rewrite Z.mod_small by (rewrite Hext; lia).
  apply HQ; [|done]. destruct Hs. split; simpl; try done.
  - exists k. unfold ext_id. fold x. unfold layout, sorted_ins. simpl. fold p.
    unfold linsert, a, b, before_ext, before_gstd, before_std, behind_ext.
    by rewrite <- ?app_assoc; simpl; rewrite <- ?app_assoc.
  - rewrite Hab in Hlen. rewrite length_app in *. simpl in *.
    apply (f_equal length) in Ez. rewrite !length_app, !length_replicate in *. simpl in *. lia.
  - rewrite Hab in Hw. rewrite <- Ez in Hw.
    apply Forall_app in Hw as [? [? ?]%Forall_app].
    apply Forall_app; split; [done|]. constructor; [done|]. apply Forall_app; split; [done|].
    eapply Forall_replicate. unfold word_ok; lia.
  - unfold sorted_ins. rewrite length_linsert. lia.
Qed.

(** ** Explicit standard identifiers *)

Lemma land_1 n : Z.land n 1 = n mod 2.
Proof. replace 1 with (Z.ones 1) at 1 by done. by rewrite Z.land_ones by lia. Qed.

Lemma pack_app_even a b : Nat.even (length a) = true -> pack (a ++ b) = pack a ++ pack b.
Proof.
  induction a as [|x|x y a IH] using pack_ind2; [done|done|]. intros H.
  simpl. f_equal. by apply IH.
Qed.

Lemma place_cons id x l :
  place id (x :: l) = if id <? x then 0%nat else S (place id l).
Proof. done. Qed.

(** Where the search ends: the word and the half of the place, but for a place
    behind all of an even number of identifiers. *)
Definition std_place (base : nat) (id cnt2 : Z) (l : list Z) : Z * Z :=
  let p := place id l in
  let w := Z.of_nat (base + p / 2) in
  if Nat.eqb p (length l) && Nat.even p then (w, cnt2)
  else (w, w * 2 + Z.of_nat (p mod 2)).

Lemma std_place_step base id cnt2 x y l :
  (id <? x) = false -> (id <? y) = false ->
  std_place base id cnt2 (x :: y :: l) = std_place (S base) id cnt2 l.
Proof.
  intros Hx Hy. unfold std_place. rewrite !place_cons, Hx, Hy.
  change (S (S (place id l)) =? length (x :: y :: l))%nat with (place id l =? length l)%nat.
  change (Nat.even (S (S (place id l)))) with (Nat.even (place id l)).
  replace (S (S (place id l)) mod 2)%nat with (place id l mod 2)%nat
    by (replace (S (S (place id l))) with (place id l + 1 * 2)%nat by lia;
        by rewrite Nat.Div0.mod_add).
  replace (S (S (place id l)) / 2)%nat with (S (place id l / 2))%nat
    by (replace (S (S (place id l))) with (place id l + 1 * 2)%nat by lia;
        rewrite Nat.div_add by done; lia).
  rewrite Nat.add_succ_r. done.
Qed.

Lemma run_mget i w s : mask s !! i = Some w -> mget (Z.of_nat i) s = Ok (w, s).
Proof.
  intros Hw. assert (H : wp (mget (Z.of_nat i)) (fun w' s' => (w', s') = (w, s)) s)
    by (by eapply wp_mget).
  apply wp_run in H as (w' & s' & -> & [= -> ->]). done.
Qed.

Lemma find_std_ok fuel id cnt2 (a l r : list Z) s Q :
  mask s = a ++ pack l ++ r -> (length l < fuel)%nat -> Forall half_ok l -> half_ok id ->
  Q (std_place (length a) id cnt2 l) s ->
  wp (while fuel (fun cnt1 =>
    if negb (cnt1 <? Z.of_nat (length a + length (pack l))) then mret (Break (cnt1, cnt2))
    else
      w ← mget cnt1;
      if id <? hi16 w then mret (Break (cnt1, cnt1 * 2))
      else if id <? lo16 w then mret (Break (cnt1, cnt1 * 2 + 1))
      else mret (Continue (cnt1 + 1))) (Z.of_nat (length a))) Q s.
Proof.
  revert a l. induction fuel as [|fuel IH]; intros a l Hm Hf Hl Hid HQ; [lia|].
  cbn [while]. rewrite wp_bind. destruct l as [|x l].
  { simpl. destruct (Z.ltb_spec (Z.of_nat (length a)) (Z.of_nat (length a + 0))); [lia|].
    cbn [negb]. rewrite !wp_ret. unfold std_place in HQ. simpl in HQ. by rewrite Nat.add_0_r in HQ. }
  apply Forall_cons in Hl as [Hx Hl].
  destruct (Z.ltb_spec (Z.of_nat (length a)) (Z.of_nat (length a + length (pack (x :: l)))));
    [|destruct l; simpl in *; lia].
  cbn [negb]. rewrite wp_bind.
  assert (Hget : exists y tl, pack (x :: l) = Z.lor (Z.shiftl x 16) y :: pack tl /\
    0 <= y < 2 ^ 16 /\ (l = [] /\ tl = [] /\ y = 0xFFFF \/ l = y :: tl)).
  { destruct l as [|y l]; [exists 0xFFFF, []|exists y, l].
    - split; [done|]. split; [lia|]. by left.
    - apply Forall_cons in Hl as [Hy _]. split; [done|]. split; [by apply half_ok_bound|]. by right. }
  destruct Hget as (y & tl & Hp & Hy & Hcase). rewrite Hp in Hm |- *. cbn [app] in Hm.
  eapply wp_mget; [by rewrite Hm, lookup_mid|].
  rewrite hi16_join, lo16_join by done. destruct (id <? x) eqn:Ex; [|destruct (id <? y) eqn:Ey]; cbv iota beta.
  - rewrite !wp_ret. unfold std_place in HQ. rewrite place_cons, Ex in HQ.
    simpl in HQ. by rewrite Nat.add_0_r, Z.add_0_r in HQ.
  - rewrite !wp_ret. unfold std_place in HQ. rewrite place_cons, Ex in HQ.
    replace (place id l) with 0%nat in HQ.
    + simpl in HQ. by rewrite Nat.add_0_r, andb_false_r in HQ.
    + destruct Hcase as [(-> & _)| ->]; [done|]. by rewrite place_cons, Ey.
  - destruct Hcase as [(-> & -> & ->)| ->]; [unfold half_ok in Hid; lia|].
    apply Forall_cons in Hl as [_ Hl]. rewrite wp_ret. rewrite std_place_step in HQ by done.
    specialize (IH (a ++ [Z.lor (Z.shiftl x 16) y]) tl).
    rewrite length_app in IH. simpl in IH.
    replace (Z.of_nat (length a) + 1) with (Z.of_nat (length a + 1)) by lia.
    replace (length a + length (_ :: pack tl))%nat with (length a + 1 + length (pack tl))%nat
      by (simpl; lia).
    apply IH; [by rewrite <- app_assoc|simpl in Hf; lia|done|done|].
    by rewrite Nat.add_1_r.
Qed.

Lemma u32_shl_join w v : 0 <= w -> w mod 65536 = v -> u32 (Z.shiftl w 16) = Z.shiftl v 16.
Proof. intros Hw <-. by rewrite u32_shl16. Qed.

(** The halves behind the inserted one move by half a word: [v], the lower half of
    the word [b0], goes in front of [l]. *)
Lemma push_halves_ok fuel even_ b0 v l (a : list Z) j r s Q :
  mask s = a ++ pack l ++ j ++ r -> (0 < length a)%nat -> (length l < fuel)%nat ->
  Forall half_ok (v :: l) -> 0 <= b0 -> b0 mod 65536 = v ->
  even_ = Nat.even (length l) -> length j = (if even_ then 1%nat else 0%nat) ->
  Q tt (with_mask (a ++ pack (v :: l) ++ r) s) ->
  wp (r ← while fuel (fun '(cnt1, buf0) =>
        if negb (cnt1 <? Z.of_nat (length a + length (pack l)) - 1) then mret (Break (cnt1, buf0))
        else
          let cnt1 := cnt1 + 1 in
          buf1 ← mget cnt1;
          mset cnt1 (Z.lor (hi16 buf1) (u32 (Z.shiftl buf0 16))) ;;
          mret (Continue (cnt1, buf1))) (Z.of_nat (length a) - 1, b0);
      let '(cnt1, buf0) := r in
      when even_ (mset (cnt1 + 1) (Z.lor (u32 (Z.shiftl buf0 16)) 0x0000FFFF))) Q s.
Proof.
  revert a b0 v l s. induction fuel as [|fuel IH]; intros a b0 v l s Hm Ha Hf Hl Hb Hv He Hj HQ; [lia|].
  cbn [while]. rewrite !wp_bind. destruct l as [|x l].
  - simpl in He. subst even_. simpl in Hm, HQ.
    destruct (Z.ltb_spec (Z.of_nat (length a) - 1) (Z.of_nat (length a + length (pack [])) - 1));
      [simpl in *; lia|].
    cbn [negb]. rewrite !wp_ret. destruct j as [|j0 [|]]; try done. simpl in Hm.
    cbn [when]. replace (Z.of_nat (length a) - 1 + 1) with (Z.of_nat (length a)) by lia.
    eapply wp_mset; [rewrite Hm, length_app; simpl; lia|].
    apply Forall_cons in Hl as [Hv' _].
    rewrite (u32_shl_join b0 v), Hm, insert_mid, u32_word by (done || apply word_join; (done || lia)).
    done.
  - destruct (Z.ltb_spec (Z.of_nat (length a) - 1)
      (Z.of_nat (length a + length (pack (x :: l))) - 1)); [|destruct l; simpl in *; lia].
    cbn [negb]. cbv zeta. rewrite wp_bind.
    replace (Z.of_nat (length a) - 1 + 1) with (Z.of_nat (length a)) by lia.
    apply Forall_cons in Hl as [Hv' [Hx Hl]%Forall_cons].
    destruct l as [|y l].
    + simpl in He. subst even_. destruct j; [|done]. simpl in Hm.
      eapply wp_mget; [by rewrite Hm, lookup_mid|].
      rewrite wp_bind. eapply wp_mset; [rewrite Hm, length_app; simpl; lia|].
      rewrite !wp_ret, hi16_join, (u32_shl_join b0 v), (Z.lor_comm x) by (done || lia).
      rewrite Hm, insert_mid, u32_word by (apply word_join; [done|by apply half_ok_bound]).
      destruct fuel as [|fuel]; [simpl in Hf; lia|]. cbn [while]. rewrite wp_bind.
      destruct (Z.ltb_spec (Z.of_nat (length a)) (Z.of_nat (length a + length (pack [x])) - 1));
        [simpl in *; lia|].
      cbn [negb]. rewrite !wp_ret. exact HQ.
    + simpl in Hm. apply Forall_cons in Hl as [Hy Hl].
      eapply wp_mget; [by rewrite Hm, lookup_mid|].
      rewrite wp_bind. eapply wp_mset; [rewrite Hm, length_app; simpl; lia|].
      rewrite wp_ret, hi16_join, (u32_shl_join b0 v), (Z.lor_comm x)
        by (done || by apply half_ok_bound).
      rewrite Hm, insert_mid, u32_word by (apply word_join; [done|by apply half_ok_bound]).
      set (w := Z.lor (Z.shiftl v 16) x). set (b1 := Z.lor (Z.shiftl x 16) y).
      replace (Z.of_nat (length a)) with (Z.of_nat (length (a ++ [w])) - 1)
        by (rewrite length_app; simpl; lia).
      replace (length a + length (pack (x :: y :: l)))%nat
        with (length (a ++ [w]) + length (pack l))%nat by (rewrite length_app; simpl; lia).
      rewrite <- (wp_bind _ (fun r => let '(cnt1, buf0) := r in
        when even_ (mset (cnt1 + 1) (Z.lor (u32 (Z.shiftl buf0 16)) 0x0000FFFF)))).
      eapply (IH (a ++ [w]) b1 y l).
      * simpl. by rewrite <- app_assoc.
      * rewrite length_app. simpl. lia.
      * simpl in Hf. lia.
      * by constructor.
      * unfold b1. rewrite join_halves by (done || by apply half_ok_bound).
        unfold half_ok in *. lia.
      * apply mod_join; [done|by apply half_ok_bound].
      * done.
      * done.
      * rewrite with_mask_twice, <- app_assoc. exact HQ.
Qed.

(** The part of [insert_std] that puts the identifier into a word in use, in front
    of its first half or between its halves, and moves the rest. *)
Definition put_half (id n cnt1 cnt2 bound1 : Z) : M af_st unit :=
  buf0 ← mget cnt1;
  let buf1 := if Z.land cnt2 1 =? 0 then Z.lor (u32 (Z.shiftl id 16)) (hi16 buf0)
              else Z.lor (Z.land buf0 0xFFFF0000) id in
  mset cnt1 buf1 ;;
  r ← push_halves cnt1 (bound1 - 1) buf0;
  let '(cnt1, buf0) := r in
  when (Z.land n 1 =? 0)
    (mset (cnt1 + 1) (Z.lor (u32 (Z.shiftl buf0 16)) 0x0000FFFF)).

(** The identifiers with [id] in front of the first or behind it. *)
Definition put_in (odd : bool) (id u : Z) (l : list Z) : list Z :=
  if odd then u :: id :: l else id :: u :: l.

Lemma buf1_ok (odd : bool) id u y :
  half_ok id -> half_ok u -> 0 <= y < 2 ^ 16 ->
  (if negb odd then Z.lor (u32 (Z.shiftl id 16)) (hi16 (Z.lor (Z.shiftl u 16) y))
   else Z.lor (Z.land (Z.lor (Z.shiftl u 16) y) 0xFFFF0000) id) =
  Z.lor (Z.shiftl (if odd then u else id) 16) (if odd then id else u).
Proof.
  intros Hid Hu Hy. rewrite hi16_join, keep_hi by done.
  rewrite (u32_shl_join id id) by (unfold half_ok in *; lia). by destruct odd.
Qed.

Lemma put_half_ok (odd : bool) id u l (a : list Z) j r n cnt2 s Q :
  mask s = a ++ pack (u :: l) ++ j ++ r -> Forall half_ok (id :: u :: l) ->
  (length l < 1023)%nat ->
  (Z.land cnt2 1 =? 0) = negb odd ->
  (Z.land n 1 =? 0) = Nat.even (S (length l)) ->
  length j = (if Nat.even (S (length l)) then 1%nat else 0%nat) ->
  Q tt (with_mask (a ++ pack (put_in odd id u l) ++ r) s) ->
  wp (put_half id n (Z.of_nat (length a)) cnt2
        (Z.of_nat (length a + length (pack (u :: l))))) Q s.
Proof.
  intros Hm Hl Hlen Hodd Hn Hj HQ. unfold put_half. rewrite Hn, Hodd.
  apply Forall_cons in Hl as [Hid [Hu Hl]%Forall_cons].
  set (c := if odd then u else id). set (d := if odd then id else u).
  assert (Hc : half_ok c) by (by destruct odd).
  assert (Hd : half_ok d) by (by destruct odd).
  assert (Hw : word_ok (Z.lor (Z.shiftl c 16) d))
    by (apply word_join; [done|by apply half_ok_bound]).
  rewrite wp_bind. destruct l as [|v l].
  - destruct j; [|done]. simpl in Hm.
    eapply wp_mget; [by rewrite Hm, lookup_mid|]. cbv zeta. rewrite wp_bind.
    eapply wp_mset; [rewrite Hm, length_app; simpl; lia|].
    rewrite Hm, insert_mid, buf1_ok by (done || lia). fold c d. rewrite u32_word by done.
    rewrite wp_bind. unfold push_halves, AF_FUEL. cbn [while].
    destruct (Z.ltb_spec (Z.of_nat (length a)) (Z.of_nat (length a + length (pack [u])) - 1));
      [simpl in *; lia|].
    cbn [negb]. rewrite wp_bind, !wp_ret. simpl Nat.even. cbn [when]. 
    replace (Z.lor (Z.shiftl c 16) d :: r) with (pack (put_in odd id u []) ++ r)
      by (unfold c, d; by destruct odd).
    done.
  - simpl in Hm. apply Forall_cons in Hl as [Hv Hl].
    eapply wp_mget; [by rewrite Hm, lookup_mid|]. cbv zeta. rewrite wp_bind.
    eapply wp_mset; [rewrite Hm, length_app; simpl; lia|].
    rewrite Hm, insert_mid, buf1_ok by (done || by apply half_ok_bound). fold c d.
    rewrite u32_word by done. unfold push_halves.
    set (x := Z.lor (Z.shiftl c 16) d).
    replace (Z.of_nat (length a)) with (Z.of_nat (length (a ++ [x])) - 1)
      by (rewrite length_app; simpl; lia).
    replace (length a + length (pack (u :: v :: l)))%nat
      with (length (a ++ [x]) + length (pack l))%nat by (rewrite length_app; simpl; lia).
    eapply (push_halves_ok _ _ _ v l (a ++ [x]) j r).
    + simpl. by rewrite <- app_assoc.
    + rewrite length_app. simpl. lia.
    + unfold AF_FUEL. simpl in Hlen. lia.
    + by constructor.
    + rewrite join_halves by (done || by apply half_ok_bound). unfold half_ok in *. lia.
    + apply mod_join; [done|by apply half_ok_bound].
    + done.
    + done.
    + rewrite with_mask_twice, <- app_assoc. cbn [app].
      replace (x :: pack (v :: l) ++ r) with (pack (put_in odd id u (v :: l)) ++ r)
        by (unfold x, c, d; by destruct odd).
      done.
Qed.

Lemma mod2_odd n : (n mod 2)%nat = (if Nat.odd n then 1 else 0)%nat.
Proof.
  pose proof (Nat.div_mod_eq n 2). pose proof (Nat.mod_upper_bound n 2).
  destruct (Nat.odd n) eqn:E.
  - apply Nat.odd_spec in E as [k E]. lia.
  - rewrite <- Nat.negb_even in E. apply negb_false_iff, Nat.even_spec in E as [k E]. lia.
Qed.

(** A list is cut in front of the word that holds its place [p]. *)
Lemma place_cut id l : let p := place id l in let q := (p / 2)%nat in
  exists pre suf, l = pre ++ suf /\ length pre = (2 * q)%nat /\
    match suf with
    | [] => p = length l /\ Nat.even p = true
    | u :: l' => Nat.eqb p (length l) && Nat.even p = false /\
        sorted_ins id l = pre ++ put_in (Nat.odd p) id u l' /\
        (p mod 2)%nat = (if Nat.odd p then 1 else 0)%nat
    end.
Proof.
  intros p q. pose proof (place_le id l) as Hp. fold p in Hp.
  pose proof (Nat.div_mod_eq p 2) as Hdm. fold q in Hdm.
  pose proof (Nat.mod_upper_bound p 2) as Hub.
  pose proof (Nat.odd_spec p) as Hos. pose proof (Nat.even_spec p) as Hes.
  exists (take (2 * q) l), (drop (2 * q) l). rewrite take_drop.
  split; [done|]. rewrite length_take. split; [lia|].
  pose proof (mod2_odd p) as Hpar.
  destruct (drop (2 * q) l) as [|u l'] eqn:E.
  - apply (f_equal length) in E. rewrite length_drop in E. simpl in E.
    assert (p mod 2 = 0)%nat by lia. split; [lia|]. apply Hes. exists q. lia.
  - pose proof (f_equal length E) as E'. rewrite length_drop in E'. simpl in E'.
    split; [|split; [|done]].
    + rewrite <- Nat.negb_odd. destruct (Nat.eqb_spec p (length l)); [|done]. simpl.
      destruct (Nat.odd p); [done|]. lia.
    + unfold sorted_ins, linsert. fold p. set (pre := take (2 * q) l).
      assert (El : l = pre ++ u :: l') by (unfold pre; rewrite <- E; by rewrite take_drop).
      assert (Hpre : length pre = (2 * q)%nat) by (unfold pre; rewrite length_take; lia).
      clearbody q p pre. rewrite El. destruct (Nat.odd p).
      * rewrite take_app_ge, drop_app_ge by lia.
        replace (p - length pre)%nat with 1%nat by lia. simpl. by rewrite <- app_assoc.
      * rewrite take_app_ge, drop_app_ge by lia.
        replace (p - length pre)%nat with 0%nat by lia. simpl. by rewrite app_nil_r.
Qed.

Lemma even_count (l : list Z) : (Z.land (Z.of_nat (length l)) 1 =? 0) = Nat.even (length l).
Proof.
  rewrite land_1. replace 2 with (Z.of_nat 2) by done.
  rewrite <- Nat2Z.inj_mod, mod2_odd, <- Nat.negb_odd. by destruct (Nat.odd (length l)).
Qed.

(** At most one identifier is there. *)
Lemma insert_std_few id l (a j r : list Z) s Q :
  mask s = a ++ pack l ++ j ++ r -> half (CANAF_FullCAN_cnt s) = Z.of_nat (length a) ->
  CANAF_std_cnt s = Z.of_nat (length l) -> Forall half_ok (id :: l) -> (length l < 2)%nat ->
  length j = (if Nat.even (length l) then 1%nat else 0%nat) ->
  Q tt (with_mask (a ++ pack (sorted_ins id l) ++ r) s) ->
  wp (insert_std id) Q s.
Proof.
  intros Hm Ha Hn [Hid Hl]%Forall_cons Hlen Hj HQ.
  unfold insert_std. rewrite wp_bind. unfold wp at 1. simpl. rewrite Ha, Hn.
  destruct l as [|x1 [|x2 l]]; [| |simpl in Hlen; lia].
  - simpl in *. destruct j as [|j0 [|]]; try done. simpl in Hm.
    eapply wp_mset; [rewrite Hm, length_app; simpl; lia|].
    rewrite (u32_shl_join id id), Z.lor_comm, Hm, insert_mid by (unfold half_ok in *; lia).
    rewrite u32_word by (apply word_join; [done|lia]). done.
  - simpl in Hj. destruct j; [|done]. simpl in Hm.
    replace (Z.of_nat (length [x1]) =? 0) with false by done.
    replace (Z.of_nat (length [x1]) =? 1) with true by done. cbv iota.
    rewrite wp_bind. eapply wp_mget; [by rewrite Hm, lookup_mid|].
    apply Forall_cons in Hl as [Hx _].
    rewrite hi16_join, keep_hi by (done || lia).
    unfold sorted_ins, linsert in HQ. rewrite place_cons in HQ.
    destruct (id <? x1); simpl in HQ;
      (eapply wp_mset; [rewrite Hm, length_app; simpl; lia|]).
    + rewrite (u32_shl_join id id), Z.lor_comm, Hm, insert_mid by (unfold half_ok in *; lia).
      by rewrite u32_word by (apply word_join; [done|by apply half_ok_bound]).
    + rewrite Hm, insert_mid. by rewrite u32_word by (apply word_join; [done|by apply half_ok_bound]).
Qed.

Lemma insert_std_many id l (a j r : list Z) s Q :
  mask s = a ++ pack l ++ j ++ r -> half (CANAF_FullCAN_cnt s) = Z.of_nat (length a) ->
  CANAF_std_cnt s = Z.of_nat (length l) -> Forall half_ok (id :: l) -> (2 <= length l < 1023)%nat ->
  length j = (if Nat.even (length l) then 1%nat else 0%nat) ->
  Q tt (with_mask (a ++ pack (sorted_ins id l) ++ r) s) ->
  wp (insert_std id) Q s.
Proof.
  intros Hm Ha Hn [Hid Hl]%Forall_cons Hlen Hj HQ.
  unfold insert_std. rewrite wp_bind. unfold wp at 1. simpl. rewrite Ha, Hn, length_half.
  destruct (Z.eqb_spec (Z.of_nat (length l)) 0); [lia|].
  destruct (Z.eqb_spec (Z.of_nat (length l)) 1); [lia|].
  rewrite <- Nat2Z.inj_add, wp_bind.
  eapply find_std_ok; [exact Hm|unfold AF_FUEL; lia|done|done|].
  destruct (place_cut id l) as (pre & suf & El & Hpre & Hcut).
  unfold std_place. set (p := place id l) in *. set (q := (p / 2)%nat) in *.
  assert (Hq : length (pack pre) = q).
  { apply Nat2Z.inj. rewrite length_pack, Hpre. unfold half. rewrite Z.shiftr_div_pow2; lia. }
  assert (Hpack : pack l = pack pre ++ pack suf).
  { rewrite El. apply pack_app_even. rewrite Hpre. by rewrite Nat.even_mul. }
  destruct suf as [|u l'].
  - destruct Hcut as [Hp He]. rewrite He, Hp, Nat.eqb_refl. simpl. rewrite app_nil_r in Hpack.
    rewrite Hpack, Hq, Z.eqb_refl, even_count, <- Hp, He.
    rewrite <- Hp, He in Hj. destruct j as [|j0 [|]]; try done. rewrite Hpack in Hm.
    rewrite <- Hq, <- length_app. simpl in Hm. rewrite app_assoc in Hm.
    eapply wp_mset; [rewrite Hm, !length_app; simpl; lia|].
    rewrite (u32_shl_join id id), Z.lor_comm, Hm, insert_mid by (unfold half_ok in *; lia).
    rewrite u32_word by (apply word_join; [done|lia]).
    rewrite app_nil_r in El. subst pre. unfold sorted_ins, linsert in HQ. fold p in HQ.
    rewrite Hp, take_ge, drop_ge, pack_app_even in HQ by (done || by rewrite <- Hp).
    by rewrite <- !app_assoc in HQ |- *.
  - destruct Hcut as (Hne & Hins & Hmod). rewrite Hne, Hmod.
    rewrite Hpack, length_app, Hq.
    assert (0 < length (pack (u :: l')))%nat by (destruct l'; simpl; lia).
    destruct (Z.eqb_spec (Z.of_nat (length a + q)) (Z.of_nat (length a + (q + length (pack (u :: l'))))));
      [lia|].
    rewrite <- Hq, Nat.add_assoc, <- length_app.
    assert (Hlen' : (length l = 2 * q + S (length l'))%nat)
      by (rewrite El, length_app, Hpre; done).
    assert (Hev : Nat.even (length l) = Nat.even (S (length l'))).
    { by rewrite Hlen', Nat.add_comm, Nat.even_add_mul_2. }
    eapply (put_half_ok (Nat.odd p) id u l' (a ++ pack pre) j r).
    + by rewrite Hm, Hpack, <- !app_assoc.
    + rewrite El in Hl. apply Forall_app in Hl as [_ Hl]. by constructor.
    + lia.
    + rewrite land_1. rewrite Z.add_comm, Z_mod_plus_full, Z.mod_small by (destruct Nat.odd; simpl; lia).
      by destruct (Nat.odd p).
    + by rewrite even_count.
    + by rewrite <- Hev.
    + rewrite Hins, pack_app_even in HQ by (rewrite Hpre; by rewrite Nat.even_mul).
      by rewrite <- !app_assoc in HQ |- *.
Qed.

Lemma insert_std_ok id l (a j r : list Z) s Q :
  mask s = a ++ pack l ++ j ++ r -> half (CANAF_FullCAN_cnt s) = Z.of_nat (length a) ->
  CANAF_std_cnt s = Z.of_nat (length l) -> Forall half_ok (id :: l) -> (length l < 1023)%nat ->
  length j = (if Nat.even (length l) then 1%nat else 0%nat) ->
  Q tt (with_mask (a ++ pack (sorted_ins id l) ++ r) s) ->
  wp (insert_std id) Q s.
Proof.
  intros. destruct (decide (length l < 2)%nat).
  - by eapply insert_std_few.
  - eapply insert_std_many; try done. lia.
Qed.

Lemma std_id_ok CANx id : half_ok (std_id CANx id).
Proof.
  unfold std_id. replace 0x07FF with (Z.ones 11) by done. rewrite Z.land_ones by lia.
  rewrite Z.lor_comm. unfold half_ok. pose proof (Z.mod_pos_bound id (2 ^ 11)).
  replace (u32 (Z.shiftl (ctrl_no CANx) 13)) with (Z.shiftl (ctrl_no CANx) 13)
    by (by destruct CANx).
  rewrite Z_lor_shiftl_small by (destruct CANx; simpl ctrl_no; lia).
  rewrite Z.shiftl_mul_pow2 by lia. destruct CANx; simpl ctrl_no; lia.
Qed.

Lemma length_layout t : length (layout t) =
  (length (pack (t_fc t)) + (length (pack (t_std t)) + (length (t_gstd t) +
    (length (t_ext t) + (length (t_gext t) + length (t_objs t))))))%nat.
Proof. unfold layout. by rewrite !length_app. Qed.

(** A new word is freed for an identifier that finds all words full. *)
Definition free_std (s : af_st) (total : Z) : M af_st unit :=
  if Z.land (CANAF_std_cnt s) 1 =? 0 then
    let cnt1 := half (CANAF_FullCAN_cnt s) + half (CANAF_std_cnt s) in
    buf0 ← mget cnt1;
    shift_up cnt1 (total - cnt1) buf0
  else mret tt.

Lemma models_zeros s t : models s t ->
  exists k, mask s = layout t ++ replicate k 0 /\ (length (layout t) + k = 512)%nat.
Proof.
  intros Hs. destruct (m_mask _ _ Hs) as [k Hk]. exists k. split; [done|].
  pose proof (m_len _ _ Hs) as Hl. by rewrite Hk, length_app, length_replicate in Hl.
Qed.

Lemma free_std_ok s t Q :
  models s t -> (length (layout t) < 512)%nat ->
  (forall j k, length j = (if Nat.even (length (t_std t)) then 1%nat else 0%nat) ->
     (length j + k = 512 - length (layout t))%nat -> Forall word_ok j ->
     Q tt (with_mask (before_std t ++ pack (t_std t) ++ j ++ behind_std t ++ replicate k 0) s)) ->
  wp (free_std s (Z.of_nat (length (layout t)))) Q s.
Proof.
  intros Hs Hroom HQ. unfold free_std.
  destruct (models_zeros s t Hs) as (k & Hm & Hk). pose proof (m_words _ _ Hs) as Hw.
  pose proof (f_equal length (layout_std t)) as Hlen. rewrite !length_app in Hlen.
  rewrite layout_std, <- !app_assoc in Hm.
  rewrite (m_std _ _ Hs), even_count.
  destruct (Nat.even (length (t_std t))) eqn:He.
  - rewrite (m_fc _ _ Hs), !length_half, <- Nat2Z.inj_add, <- length_app. cbv zeta.
    rewrite app_assoc in Hm. fold (before_std t). fold (before_gstd t) in Hm |- *.
    destruct k as [|k]; [lia|].
    destruct (behind_std t ++ replicate (S k) 0) as [|y tl] eqn:Ez.
    { apply (f_equal length) in Ez. rewrite length_app in Ez. simpl in Ez. lia. }
    rewrite wp_bind. eapply wp_mget; [by rewrite Hm, lookup_mid|].
    assert (Hy : word_ok y) by (rewrite Hm in Hw; by apply Forall_app in Hw as [_ [? _]%Forall_cons]).
    replace (_ - _) with (Z.of_nat (length (behind_std t)))
      by (unfold before_gstd; rewrite length_app; lia).
    eapply (shift_up_section _ k _ y y tl (behind_std t)); [done|done|lia|unfold AF_FUEL; lia| |].
    + by constructor.
    + specialize (HQ [y] k). simpl in HQ. unfold before_gstd. rewrite <- app_assoc.
      apply HQ; [done|lia|by constructor].
  - specialize (HQ [] k). simpl in HQ. rewrite <- Hm in HQ. destruct s. apply HQ; [done|lia|done].
Qed.

Lemma load_std_ok CANx id s t Q :
  models s t -> (length (layout t) < 512)%nat ->
  (forall s', models s' (t{{ t_std := sorted_ins (std_id CANx id) (t_std t) }}) ->
     s' = (with_mask (mask s') s){{ CANAF_std_cnt := CANAF_std_cnt s + 1;
            SFF_GRP_sa := u32 (SFF_GRP_sa s + 4); EFF_sa := u32 (EFF_sa s + 4);
            EFF_GRP_sa := u32 (EFF_GRP_sa s + 4); ENDofTable := u32 (ENDofTable s + 4) }} ->
     Q tt s') ->
  wp (load_std CANx (Z.of_nat (length (layout t))) id) Q s.
Proof.
  intros Hs Hroom HQ. unfold load_std. fold (std_id CANx id). rewrite wp_bind.
  unfold wp at 1. simpl. fold (free_std s (Z.of_nat (length (layout t)))).
  rewrite wp_bind. eapply free_std_ok; [done|done|]. intros j k Hj Hk Hjw.
  pose proof (length_layout t) as Hlen. pose proof (length_pack (t_std t)) as Hlp.
  destruct (models_zeros s t Hs) as (k0 & Hm & Hk0). pose proof (m_words _ _ Hs) as Hw.
  assert (Hstd : (length (t_std t) < 1023)%nat)
    by (unfold half in Hlp; rewrite Z.shiftr_div_pow2 in Hlp; lia).
  rewrite Hm, layout_std in Hw.
  apply Forall_app in Hw as [[Hw1 [_ Hw2]%Forall_app]%Forall_app _].
  pose proof (std_id_ok CANx id) as Hid. set (x := std_id CANx id) in *.
  pose proof (m_halves _ _ Hs) as [Hfc Hstds].
  assert (Hins : Forall half_ok (sorted_ins x (t_std t)))
    by (unfold sorted_ins; rewrite linsert_perm; by constructor).
  rewrite wp_bind. eapply (insert_std_ok x (t_std t) (before_std t) j (behind_std t ++ replicate k 0)).
  - done.
  - simpl. by rewrite (m_fc _ _ Hs), length_half.
  - simpl. by apply m_std.
  - by constructor.
  - done.
  - done.
  - unfold wp. simpl. unfold u16. rewrite (m_std _ _ Hs), Z.mod_small by lia.
    rewrite <- (m_std _ _ Hs). apply HQ; [|done]. destruct Hs. split; simpl; try done.
    + exists k. unfold layout, before_std, behind_std. simpl. by rewrite <- !app_assoc.
    + apply Nat2Z.inj. unfold behind_std, before_std.
      rewrite !length_app, length_replicate, !Nat2Z.inj_add, (length_pack (sorted_ins _ _)).
      unfold sorted_ins. rewrite length_linsert.
      unfold half in *. rewrite Z.shiftr_div_pow2 in * by lia.
      destruct (Nat.even (length (t_std t))) eqn:E; rewrite Hj in Hk.
      * apply Nat.even_spec in E as [q E]. lia.
      * rewrite <- Nat.negb_odd in E. apply negb_false_iff, Nat.odd_spec in E as [q E]. lia.
    + rewrite !Forall_app. split_and!; [done|by apply pack_words|done|].
      apply Forall_replicate. unfold word_ok; lia.
    + unfold sorted_ins. rewrite length_linsert. lia.
Qed.

(** ** The operations on the table *)

Definition addresses (s : af_st) : list Z :=
  [SFF_sa s; SFF_GRP_sa s; EFF_sa s; EFF_GRP_sa s; ENDofTable s].

(** The filter is switched off during an operation. *)
Lemma models_AFMR s t v : models s t -> models (s{{ AFMR := v }}) t.
Proof. by intros []. Qed.

Definition fc_mode (t : table) : Z := match t_fc t with [] => 0 | _ => 4 end.

Lemma fc_mode_ok s t : models s t -> (if CANAF_FullCAN_cnt s =? 0 then 0 else 4) = fc_mode t.
Proof. intros Hs. rewrite (m_fc _ _ Hs). unfold fc_mode. by destruct (t_fc t). Qed.

(** The common frame of the two cases of [CAN_LoadExplicitEntry]. *)
Lemma wp_load_explicit CANx id format s t (Q : CAN_ERROR -> af_st -> Prop) :
  models s t -> (length (layout t) < 512)%nat -> (format = STD_ID_FORMAT \/ format = EXT_ID_FORMAT) ->
  wp (if format =? STD_ID_FORMAT then load_std CANx (Z.of_nat (length (layout t))) id
      else load_ext CANx (Z.of_nat (length (layout t))) id)
    (fun _ s' => Q CAN_OK (s'{{ AFMR := if CANAF_FullCAN_cnt s' =? 0 then 0 else 4 }}))
    (s{{ AFMR := 1 }}) ->
  wp (CAN_LoadExplicitEntry CANx id format) Q s.
Proof.
  intros Hs Hroom Hf H. unfold CAN_LoadExplicitEntry. rewrite wp_bind.
  assert (E : (format =? STD_ID_FORMAT) || (format =? EXT_ID_FORMAT) = true)
    by (by destruct Hf as [-> | ->]).
  rewrite E. unfold wp at 1. simpl.
  rewrite wp_bind. unfold wp at 1. simpl. rewrite (models_total_words s t Hs).
  destruct (Z.leb_spec 512 (Z.of_nat (length (layout t)))); [lia|].
  rewrite wp_bind. unfold wp at 1. simpl. rewrite wp_bind.
  eapply wp_mono; [exact H|]. intros [] s' HQ. exact HQ.
Qed.

Lemma load_ext_run CANx id s t
  (Hs : models s t) (Hid : 0 <= id < 2 ^ 29)
  (Hroom : (length (layout t) + length (before_ext t) < 512)%nat) :
  exists s', CAN_LoadExplicitEntry CANx id EXT_ID_FORMAT s = Ok (CAN_OK, s') /\
    models s' (t{{ t_ext := sorted_ins (ext_id CANx id) (t_ext t) }}) /\
    (StronglySorted Z.le (t_ext t) ->
     StronglySorted Z.le (sorted_ins (ext_id CANx id) (t_ext t))) /\
    AFMR s' = fc_mode t /\
    addresses s' = [SFF_sa s; SFF_GRP_sa s; EFF_sa s; u32 (EFF_GRP_sa s + 4);
                    u32 (ENDofTable s + 4)].
Proof.
  apply wp_returns. eapply wp_load_explicit; [done|lia|by right|]. simpl.
  apply load_ext_ok; [by apply models_AFMR|done|done|]. intros s' Hs' Es'.
  rewrite (fc_mode_ok _ _ Hs'). split_and!; [done|by apply models_AFMR|apply linsert_sorted|done|].
  by rewrite Es'.
Qed.


Lemma load_std_run CANx id s t
  (Hs : models s t) (Hroom : (length (layout t) < 512)%nat) :
  exists s', CAN_LoadExplicitEntry CANx id STD_ID_FORMAT s = Ok (CAN_OK, s') /\
    models s' (t{{ t_std := sorted_ins (std_id CANx id) (t_std t) }}) /\
    (StronglySorted Z.le (t_std t) ->
     StronglySorted Z.le (sorted_ins (std_id CANx id) (t_std t))) /\
    AFMR s' = fc_mode t /\
    addresses s' = [SFF_sa s; u32 (SFF_GRP_sa s + 4); u32 (EFF_sa s + 4);
                    u32 (EFF_GRP_sa s + 4); u32 (ENDofTable s + 4)].
Proof.
  apply wp_returns. eapply wp_load_explicit; [done|lia|by left|]. simpl.
  apply load_std_ok; [by apply models_AFMR|done|]. intros s' Hs' Es'.
  rewrite (fc_mode_ok _ _ Hs'). split_and!; [done|by apply models_AFMR|apply linsert_sorted|done|].
  by rewrite Es'.
Qed.


(** The addresses of the sections, as [CAN_SetupAFLUT] computes them. *)
Definition addresses_of (t : table) : list Z :=
  map (fun l : list Z => 4 * Z.of_nat (length l))
    [before_std t; before_gstd t; before_ext t; before_gext t; before_gext t ++ t_gext t].

(** ** Removal *)

Lemma shift_down_loop fuel (a : list Z) x b r s Q :
  mask s = a ++ x :: b ++ r -> (length b < fuel)%nat -> Forall word_ok (mask s) ->
  (forall y, Q (Z.of_nat (length (a ++ b) + 1)) (with_mask (a ++ b ++ y :: r) s)) ->
  wp (while fuel (fun cnt =>
    if negb (cnt <? Z.of_nat (length (a ++ b) + 1)) then mret (Break cnt)
    else
      w ← mget cnt;
      mset (cnt - 1) w ;;
      mret (Continue (cnt + 1))) (Z.of_nat (length a + 1))) Q s.
Proof.
  revert a x b s. induction fuel as [|fuel IH]; intros a x b s Hm Hf Hw HQ; [lia|].
  cbn [while]. rewrite wp_bind.
  destruct (Z.ltb_spec (Z.of_nat (length a + 1)) (Z.of_nat (length (a ++ b) + 1)));
    rewrite length_app in *; cbn [negb].
  - destruct b as [|y b]; [simpl in *; lia|]. simpl in Hm.
    rewrite wp_bind. eapply wp_mget.
    { rewrite Hm. replace (length a + 1)%nat with (length (a ++ [x])) by (rewrite length_app; done).
      replace (a ++ x :: y :: b ++ r) with ((a ++ [x]) ++ y :: b ++ r) by (by rewrite <- app_assoc).
      apply lookup_mid. }
    assert (Hy : word_ok y /\ Forall word_ok (a ++ y :: y :: b ++ r)).
    { rewrite Hm in Hw. rewrite !Forall_app, !Forall_cons in *. tauto. }
    rewrite wp_bind. replace (Z.of_nat (length a + 1) - 1) with (Z.of_nat (length a)) by lia.
    eapply wp_mset; [rewrite Hm, length_app; simpl; lia|].
    rewrite wp_ret, Hm, insert_mid, u32_word by tauto.
    replace (Z.of_nat (length a + 1) + 1) with (Z.of_nat (length (a ++ [y]) + 1))
      by (rewrite length_app; simpl; lia).
    specialize (IH (a ++ [y]) y b (with_mask (a ++ y :: y :: b ++ r) s)).
    replace (length a + length (y :: b))%nat with (length ((a ++ [y]) ++ b))
      by (rewrite !length_app; simpl; lia).
    apply IH; [simpl; by rewrite <- app_assoc|simpl in Hf; lia|tauto|].
    intros z. rewrite with_mask_twice, !length_app, <- !app_assoc.
    replace (length a + length [y] + length b + 1)%nat with (length a + length (y :: b) + 1)%nat
      by (simpl; lia).
    apply HQ.
  - destruct b; [|simpl in *; lia]. rewrite !wp_ret. simpl in Hm.
    specialize (HQ x). simpl in HQ. rewrite <- Hm in HQ. rewrite Nat.add_0_r in HQ.
    by destruct s.
Qed.

(** The word at [length a] disappears. *)
Lemma shift_down_ok (a : list Z) x b r s Q :
  mask s = a ++ x :: b ++ r -> length (mask s) = 512%nat -> Forall word_ok (mask s) ->
  Q tt (with_mask (a ++ b ++ 0 :: r) s) ->
  wp (shift_down (Z.of_nat (length a + 1)) (Z.of_nat (length (a ++ b) + 1))) Q s.
Proof.
  intros Hm Hl Hw HQ. unfold shift_down. rewrite wp_bind.
  assert (length (mask s) = length a + S (length b + length r))%nat as Hlen
    by (rewrite Hm, length_app; simpl; by rewrite length_app).
  eapply (shift_down_loop _ a x b r); [done|unfold AF_FUEL; lia|done|]. intros y.
  replace (Z.of_nat (length (a ++ b) + 1) - 1) with (Z.of_nat (length (a ++ b))) by lia.
  eapply wp_mset.
  { change (length (a ++ b) < length (a ++ b ++ y :: r))%nat.
    rewrite !length_app. simpl. lia. }
  change (mask (with_mask (a ++ b ++ y :: r) s)) with (a ++ b ++ y :: r).
  by rewrite with_mask_twice, app_assoc, insert_mid, <- app_assoc.
Qed.

(** The two sections whose entries are words. *)
Definition word_entry (ty : AFLUT_ENTRY_Type) : bool :=
  match ty with GROUP_STANDARD_ENTRY | EXPLICIT_EXTEND_ENTRY => true | _ => false end.
Definition entries (ty : AFLUT_ENTRY_Type) (t : table) : list Z :=
  match ty with GROUP_STANDARD_ENTRY => t_gstd t | _ => t_ext t end.
Definition set_entries (ty : AFLUT_ENTRY_Type) (l : list Z) (t : table) : table :=
  match ty with GROUP_STANDARD_ENTRY => t{{ t_gstd := l }} | _ => t{{ t_ext := l }} end.

Lemma remove_word_ok (a l b : list Z) pos s t Q :
  models s t -> layout t = a ++ l ++ b -> (pos < length l)%nat ->
  (forall k, (length (layout t) + k = 513)%nat ->
     length (a ++ delete pos l ++ b ++ replicate k 0) = 512%nat ->
     Forall word_ok (a ++ delete pos l ++ b ++ replicate k 0) ->
     Q tt (with_mask (a ++ delete pos l ++ b ++ replicate k 0) s)) ->
  wp (shift_down (Z.of_nat (length a + pos + 1)) (Z.of_nat (length (layout t)))) Q s.
Proof.
  intros Hs Hlay Hpos HQ. destruct (models_zeros s t Hs) as (k & Hm & Hk).
  pose proof (m_len _ _ Hs) as Hlen. pose proof (m_words _ _ Hs) as Hw.
  destruct (lookup_lt_is_Some_2 l pos Hpos) as [x Hx].
  pose proof (take_drop_middle _ _ _ Hx) as El.
  assert (Hp : length (take pos l) = pos) by (rewrite length_take; lia).
  assert (Hm' : mask s = (a ++ take pos l) ++ x :: (drop (S pos) l ++ b) ++ replicate k 0).
  { rewrite Hm, Hlay. rewrite <- El at 1. by rewrite <- ?app_assoc; simpl; rewrite <- ?app_assoc. }
  assert (HL : length (layout t) = (length a + (length l + length b))%nat)
    by (by rewrite Hlay, !length_app).
  replace (length a + pos + 1)%nat with (length (a ++ take pos l) + 1)%nat
    by (rewrite length_app; lia).
  replace (length (layout t)) with (length ((a ++ take pos l) ++ drop (S pos) l ++ b) + 1)%nat
    by (rewrite !length_app, length_drop; lia).
  eapply shift_down_ok; [exact Hm'|done|done|].
  assert (E : (a ++ take pos l) ++ (drop (S pos) l ++ b) ++ 0 :: replicate k 0 =
              a ++ delete pos l ++ b ++ replicate (S k) 0).
  { rewrite delete_take_drop. by rewrite <- !app_assoc. }
  rewrite E. apply HQ; [lia|..].
  - rewrite Hm' in Hlen. rewrite <- E. rewrite !length_app in *. simpl in *.
    rewrite !length_app in *. lia.
  - rewrite Hm' in Hw. rewrite <- E. rewrite !Forall_app, !Forall_cons in *.
    rewrite !Forall_app in *. split_and!; try tauto. unfold word_ok. lia.
Qed.

Lemma section_size_entries ty s t : models s t -> word_entry ty = true ->
  section_size s ty = Z.of_nat (length (entries ty t)).
Proof. intros [] ?. by destruct ty. Qed.

(** [CAN_RemoveEntry] around the removal. *)
Lemma wp_remove_entry ty (pos : nat) s t (Q : CAN_ERROR -> af_st -> Prop) :
  models s t -> word_entry ty = true -> (pos < length (entries ty t))%nat ->
  let total := Z.of_nat (length (layout t)) - CANAF_FullCAN_cnt s * 3 in
  wp (match ty with
      | GROUP_STANDARD_ENTRY => remove_gstd (s{{ AFMR := 1 }}) total (Z.of_nat pos)
      | _ => remove_ext (s{{ AFMR := 1 }}) total (Z.of_nat pos)
      end) (fun _ s' => Q CAN_OK (s'{{ AFMR := 4 }})) (s{{ AFMR := 1 }}) ->
  wp (CAN_RemoveEntry ty (Z.of_nat pos)) Q s.
Proof.
  intros Hs Hty Hpos total H. unfold CAN_RemoveEntry.
  pose proof (models_total s t Hs). pose proof (length_layout t) as HL.
  assert (length (entries ty t) <= length (layout t))%nat by (destruct ty; simpl in *; lia).
  rewrite wp_bind. unfold wp at 1. simpl.
  destruct (Z.leb_spec 0 (Z.of_nat pos)), (Z.ltb_spec (Z.of_nat pos) 512); try lia. simpl.
  rewrite wp_bind. unfold wp at 1. simpl. rewrite wp_bind. unfold wp at 1. simpl.
  assert (Hsz : section_size (s{{ AFMR := 1 }}) ty = Z.of_nat (length (entries ty t)))
    by (apply section_size_entries; [by apply models_AFMR|done]).
  simpl in Hsz. rewrite Hsz.
  destruct (Z.eqb_spec (Z.of_nat (length (entries ty t))) 0); [lia|].
  destruct (Z.leb_spec (Z.of_nat (length (entries ty t))) (Z.of_nat pos)); [lia|]. simpl.
  replace (u16 _) with total.
  2: { unfold total, u16. destruct Hs. rewrite m_fc0, m_std0, !length_half, m_gstd0, m_ext0.
       rewrite Z.shiftl_mul_pow2 by lia. lia. }
  rewrite wp_bind. destruct ty; try done; (eapply wp_mono; [exact H|]);
    intros [] s' HQ; exact HQ.
Qed.

Lemma length_delete_list (l : list Z) pos : (pos < length l)%nat ->
  Z.of_nat (length (delete pos l)) = Z.of_nat (length l) - 1.
Proof. intros H. rewrite delete_take_drop, length_app, length_take, length_drop. lia. Qed.

Lemma remove_gstd_ok (pos : nat) s t Q :
  models s t -> (pos < length (t_gstd t))%nat ->
  (forall s', models s' (t{{ t_gstd := delete pos (t_gstd t) }}) ->
     addresses s' = [SFF_sa s; SFF_GRP_sa s; u32 (EFF_sa s - 4);
                     u32 (EFF_GRP_sa s - 4); u32 (ENDofTable s - 4)] -> Q tt s') ->
  wp (remove_gstd s (Z.of_nat (length (layout t)) - CANAF_FullCAN_cnt s * 3) (Z.of_nat pos)) Q s.
Proof.
  intros Hs Hpos HQ. unfold remove_gstd. rewrite wp_bind.
  pose proof (length_delete_list (t_gstd t) pos Hpos) as Hdel.
  rewrite (m_fc _ _ Hs) at 1. rewrite (m_std _ _ Hs), !length_half.
  replace (_ - _ + _) with (Z.of_nat (length (layout t))) by lia.
  replace (_ + 1) with (Z.of_nat (length (before_gstd t) + pos + 1))
    by (unfold before_gstd, before_std; rewrite length_app; lia).
  eapply remove_word_ok; [done|apply layout_gstd|done|]. intros k Hk Hl Hw.
  unfold wp. simpl. unfold u16.
  rewrite Z.mod_small by (rewrite (m_gstd _ _ Hs); pose proof (models_total s t Hs);
    pose proof (length_layout t); lia).
  apply HQ; [|done]. destruct Hs. split; simpl; try done; [|lia].
  exists k. unfold layout, before_gstd, before_std, behind_gstd. simpl. by rewrite <- !app_assoc.
Qed.

Lemma remove_ext_ok (pos : nat) s t Q :
  models s t -> (pos < length (t_ext t))%nat ->
  (forall s', models s' (t{{ t_ext := delete pos (t_ext t) }}) ->
     addresses s' = [SFF_sa s; SFF_GRP_sa s; EFF_sa s;
                     u32 (EFF_GRP_sa s - 4); u32 (ENDofTable s - 4)] -> Q tt s') ->
  wp (remove_ext s (Z.of_nat (length (layout t)) - CANAF_FullCAN_cnt s * 3) (Z.of_nat pos)) Q s.
Proof.
  intros Hs Hpos HQ. unfold remove_ext. rewrite wp_bind.
  pose proof (length_delete_list (t_ext t) pos Hpos) as Hdel.
  replace (_ - _ + _) with (Z.of_nat (length (layout t))) by lia.
  replace (_ + 1) with (Z.of_nat (length (before_ext t) + pos + 1))
    by (pose proof (models_base_ext s t Hs); lia).
  eapply remove_word_ok; [done|apply layout_ext|done|]. intros k Hk Hl Hw.
  unfold wp. simpl. unfold u16.
  rewrite Z.mod_small by (rewrite (m_ext _ _ Hs); pose proof (models_total s t Hs);
    pose proof (length_layout t); lia).
  apply HQ; [|done]. destruct Hs. split; simpl; try done; [|lia].
  exists k. unfold layout, before_ext, before_gstd, before_std, behind_ext. simpl.
  by rewrite <- !app_assoc.
Qed.

Lemma remove_entry_run ty (pos : nat) s t
  (Hs : models s t) (Hty : word_entry ty = true) (Hpos : (pos < length (entries ty t))%nat) :
  exists s', CAN_RemoveEntry ty (Z.of_nat pos) s = Ok (CAN_OK, s') /\
    models s' (set_entries ty (delete pos (entries ty t)) t) /\ AFMR s' = 4 /\
    addresses s' = [SFF_sa s; SFF_GRP_sa s;
      match ty with GROUP_STANDARD_ENTRY => u32 (EFF_sa s - 4) | _ => EFF_sa s end;
      u32 (EFF_GRP_sa s - 4); u32 (ENDofTable s - 4)].
Proof.
  apply wp_returns. eapply wp_remove_entry; [done..|].
  change (CANAF_FullCAN_cnt s) with (CANAF_FullCAN_cnt (s{{ AFMR := 1 }})).
  destruct ty; try done; [apply (remove_gstd_ok pos _ t)|apply (remove_ext_ok pos _ t)];
    try done; try (by apply models_AFMR); intros s' Hs' Ha;
    (split_and!; [done|by apply models_AFMR|done|exact Ha]).
Qed.

(** An entry of the standard groups or of the explicit extended section is taken out,
    all other entries staying as they were; the addresses behind it move. *)
Theorem remove_entry_deletes ty (pos : nat) s t
  (Hs : models s t) (Hty : word_entry ty = true) (Hpos : (pos < length (entries ty t))%nat) :
  exists s', CAN_RemoveEntry ty (Z.of_nat pos) s = Ok (CAN_OK, s') /\
    models s' (set_entries ty (delete pos (entries ty t)) t) /\ AFMR s' = 4 /\
    addresses s' = [SFF_sa s; SFF_GRP_sa s;
      match ty with GROUP_STANDARD_ENTRY => u32 (EFF_sa s - 4) | _ => EFF_sa s end;
      u32 (EFF_GRP_sa s - 4); u32 (ENDofTable s - 4)].
Proof. by apply remove_entry_run. Qed.

Lemma delete_linsert p x l : (p <= length l)%nat -> delete p (linsert p x l) = l.
Proof.
  intros Hp. unfold linsert. rewrite delete_take_drop.
  assert (E : length (take p l) = p) by (rewrite length_take; lia).
  rewrite take_app_le, drop_app_ge by lia. rewrite take_take, E, Nat.min_id.
  replace (S p - p)%nat with 1%nat by lia. simpl. rewrite drop_0. apply take_drop.
Qed.

Lemma models_same_mask s s' t : models s t -> models s' t -> mask s = mask s'.
Proof. intros H H'. by rewrite (models_mask s t H), (models_mask s' t H'). Qed.

(** Removing an extended identifier right after it was loaded gives back the filter
    RAM, the counters and the addresses as they were. *)
Theorem load_remove_ext CANx id s t
  (Hs : models s t) (Hid : 0 <= id < 2 ^ 29)
  (Hroom : (length (layout t) + length (before_ext t) < 512)%nat)
  (Haddr : Forall word_ok (addresses s)) :
  exists s1 s2, CAN_LoadExplicitEntry CANx id EXT_ID_FORMAT s = Ok (CAN_OK, s1) /\
    CAN_RemoveEntry EXPLICIT_EXTEND_ENTRY (Z.of_nat (place (ext_id CANx id) (t_ext t))) s1
      = Ok (CAN_OK, s2) /\
    models s2 t /\ mask s2 = mask s /\ addresses s2 = addresses s.
Proof.
  destruct (load_ext_run CANx id s t Hs Hid Hroom) as (s1 & E1 & Hs1 & _ & _ & A1).
  set (x := ext_id CANx id) in *. set (l := t_ext t) in *.
  destruct (remove_entry_run EXPLICIT_EXTEND_ENTRY (place x l) s1 _ Hs1)
    as (s2 & E2 & Hs2 & _ & A2); [done|..].
  { simpl. unfold sorted_ins. rewrite length_linsert. pose proof (place_le x l). lia. }
  change (models s2 (t{{ t_ext := delete (place x l) (linsert (place x l) x l) }})) in Hs2.
  rewrite delete_linsert in Hs2 by apply place_le.
  assert (Hs2' : models s2 t) by (by destruct t).
  exists s1, s2. split_and!; [done|done|done|by eapply models_same_mask|].
  unfold addresses in *. rewrite A2. injection A1 as -> -> -> -> ->.
  rewrite !Forall_cons in Haddr. unfold word_ok in Haddr. unfold u32. repeat f_equal; lia.
Qed.

(** The addresses of the sections, as [CAN_SetupAFLUT] computes them, stay right
    exactly when the new standard identifier takes a new word. *)
Theorem load_std_addresses CANx id s t
  (Hs : models s t) (Hroom : (length (layout t) < 512)%nat)
  (Haddr : addresses s = addresses_of t) :
  exists s', CAN_LoadExplicitEntry CANx id STD_ID_FORMAT s = Ok (CAN_OK, s') /\
    (addresses s' = addresses_of (t{{ t_std := sorted_ins (std_id CANx id) (t_std t) }}) <->
     Nat.even (length (t_std t)) = true).
Proof.
  destruct (load_std_run CANx id s t Hs Hroom) as (s' & E & _ & _ & _ & A).
  exists s'. split; [done|]. rewrite A. injection Haddr as -> -> -> -> ->.
  pose proof (length_layout t) as HL. pose proof (length_pack (t_std t)) as Hp.
  pose proof (length_pack (sorted_ins (std_id CANx id) (t_std t))) as Hp'.
  unfold sorted_ins at 2 in Hp'. rewrite length_linsert in Hp'.
  assert (Hb : forall l : list Z, addresses_of (t{{ t_std := l }}) =
    let f := Z.of_nat (length (pack (t_fc t))) in let p := Z.of_nat (length (pack l)) in
    let g := Z.of_nat (length (t_gstd t)) in let e := Z.of_nat (length (t_ext t)) in
    [4 * f; 4 * (f + p); 4 * (f + p + g); 4 * (f + p + g + e);
     4 * (f + p + g + e + Z.of_nat (length (t_gext t)))]).
  { intros l. unfold addresses_of, before_gext, before_ext, before_gstd, before_std. simpl map.
    rewrite !length_app. repeat f_equal; simpl; lia. }
  assert (Ht : addresses_of t = addresses_of (t{{ t_std := t_std t }})) by (by destruct t).
  rewrite Hb. cbv zeta.
  unfold before_gext, before_ext, before_gstd, before_std. rewrite !length_app.
  unfold u32, half in *. rewrite Z.shiftr_div_pow2 in * by lia.
  destruct (Nat.even (length (t_std t))) eqn:Ev.
  - apply Nat.even_spec in Ev as [q Ev]. split; [done|]. intros _. repeat f_equal; lia.
  - split; [|done]. intros [= H1 _ _ _].
    rewrite <- Nat.negb_odd in Ev. apply negb_false_iff, Nat.odd_spec in Ev as [q Ev]. lia.
Qed.

Lemma run_mset i v s :
  (i < length (mask s))%nat ->
  mset (Z.of_nat i) v s = Ok (tt, with_mask (<[i := u32 v]> (mask s)) s).
Proof.
  intros Hi. assert (H : wp (mset (Z.of_nat i) v)
    (fun a s' => (a, s') = (tt, with_mask (<[i := u32 v]> (mask s)) s)) s) by (by apply wp_mset).
  apply wp_run in H as ([] & s' & -> & [= ->]). done.
Qed.

Lemma shift_up_faults fuel (c n : nat) x s :
  length (mask s) = 512%nat -> (c < 512)%nat -> (512 <= c + n)%nat -> (512 - c <= fuel)%nat ->
  while fuel (fun '(cnt1, bound1, buf0) =>
    if bound1 =? 0 then mret (Break tt)
    else
      let cnt1 := cnt1 + 1 in
      buf1 ← mget cnt1;
      mset cnt1 buf0 ;;
      mret (Continue (cnt1, bound1 - 1, buf1))) (Z.of_nat c, Z.of_nat n, x) s =
  Fault OutOfBounds.
Proof.
  revert c n x s. induction fuel as [|fuel IH]; intros c n x s Hl Hc Hn Hf; [lia|].
  cbn [while]. destruct (Z.eqb_spec (Z.of_nat n) 0); [lia|]. cbv zeta.
  replace (Z.of_nat c + 1) with (Z.of_nat (S c)) by lia.
  replace (Z.of_nat n - 1) with (Z.of_nat (n - 1)) by lia.
  destruct (decide (c = 511%nat)) as [-> |].
  { unfold mbind, M_bind, mget, mbind, M_bind, gets. by rewrite aget_out by (rewrite Hl; lia). }
  destruct (lookup_lt_is_Some_2 (mask s) (S c)) as [w Hw]; [lia|].
  specialize (IH (S c) (n - 1)%nat w (with_mask (<[S c := u32 x]> (mask s)) s)).
  unfold mbind, M_bind in IH |- *. rewrite (run_mget _ _ _ Hw), run_mset by lia.
  apply IH; [|lia..]. simpl. by rewrite length_insert.
Qed.

Lemma load_ext_faults CANx id s t :
  models s t -> (length (layout t) < 512)%nat ->
  (512 <= length (layout t) + length (before_ext t))%nat ->
  load_ext CANx (Z.of_nat (length (layout t))) id s = Fault OutOfBounds.
Proof.
  intros Hs Hfree Hroom. unfold load_ext. fold (ext_id CANx id).
  destruct (models_zeros s t Hs) as (k & Hm & Hk). pose proof (m_len _ _ Hs) as Hlen.
  pose proof (f_equal length (layout_ext t)) as Hl. rewrite !length_app in Hl.
  set (x := ext_id CANx id). pose proof (place_le x (t_ext t)) as Hp.
  erewrite bind_ok by done. rewrite (models_base_ext s t Hs).
  erewrite bind_ok.
  2: { unfold find_ext, AF_FUEL. eapply (find_ext_ok _ x (before_ext t) (t_ext t)).
       - by rewrite Hm, layout_ext, <- !app_assoc.
       - by rewrite (m_ext _ _ Hs).
       - lia. }
  cbv beta iota. set (c := (length (before_ext t) + place x (t_ext t))%nat).
  destruct (lookup_lt_is_Some_2 (mask s) c) as [w Hw]; [lia|].
  erewrite bind_ok by (by apply run_mget).
  erewrite bind_ok by (apply run_mset; lia).
  erewrite bind_ok by done. apply bind_fault.
  replace (Z.max 0 _) with (Z.of_nat (length (layout t) - place x (t_ext t))) by lia.
  unfold shift_up, AF_FUEL. apply shift_up_faults; [|lia..]. simpl. by rewrite length_insert.
Qed.

(** Without that room the move runs past the end of the filter RAM. *)
Theorem load_ext_overruns CANx id s t
  (Hs : models s t) (Hfree : (length (layout t) < 512)%nat)
  (Hroom : (512 <= length (layout t) + length (before_ext t))%nat) :
  CAN_LoadExplicitEntry CANx id EXT_ID_FORMAT s = Fault OutOfBounds.
Proof.
  unfold CAN_LoadExplicitEntry. erewrite bind_ok by done. erewrite bind_ok by done.
  rewrite (models_total_words s t Hs).
  destruct (Z.leb_spec 512 (Z.of_nat (length (layout t)))); [lia|].
  erewrite bind_ok by done. apply bind_fault.
  apply (load_ext_faults _ _ (s{{ AFMR := 1 }}) t); [by apply models_AFMR|done|done].
Qed.

(** ** Witnesses *)

(** Two standard identifiers of the first controller, a group and two extended
    identifiers. *)
Definition table3 : table :=
  mk_table [] [0x010; 0x020; 0x030] [0x00050006] [0x1000; 0x2000] [] [].
Definition af3 : af_st := (with_mask (layout table3 ++ replicate 507 0) af_reset){{
  CANAF_std_cnt := 3; CANAF_gstd_cnt := 1; CANAF_ext_cnt := 2;
  SFF_GRP_sa := 8; EFF_sa := 12; EFF_GRP_sa := 20; ENDofTable := 20 }}.

Lemma af3_models : models af3 table3.
Proof.
  split; try done.
  - by exists 507%nat.
  - apply Forall_app; split; [|apply Forall_replicate; done].
    repeat constructor; done.
  - split; repeat constructor; done.
Qed.



Lemma remove_entry_deletes_witness :
  exists s', CAN_RemoveEntry EXPLICIT_EXTEND_ENTRY 0 af3 = Ok (CAN_OK, s') /\
    take 4 (mask s') = layout (table3{{ t_ext := [0x2000] }}).
Proof.
  destruct (remove_entry_deletes EXPLICIT_EXTEND_ENTRY 0 af3 table3 af3_models eq_refl
    ltac:(vm_compute; lia)) as (s' & E & Hs' & _).
  exists s'. split; [exact E|]. rewrite (models_mask _ _ Hs'). reflexivity.
Defined.

Lemma load_remove_ext_witness :
  exists s1 s2, CAN_LoadExplicitEntry LPC_CAN2 0x1800 EXT_ID_FORMAT af3 = Ok (CAN_OK, s1) /\
    CAN_RemoveEntry EXPLICIT_EXTEND_ENTRY 2 s1 = Ok (CAN_OK, s2) /\ mask s2 = mask af3.
Proof.
  assert (Hr : (length (layout table3) + length (before_ext table3) < 512)%nat)
    by (vm_compute; lia).
  destruct (load_remove_ext LPC_CAN2 0x1800 af3 table3 af3_models ltac:(lia) Hr
    ltac:(repeat constructor; done)) as (s1 & s2 & E1 & E2 & _ & Hm & _).
  exists s1, s2. split; [exact E1|]. split; [exact E2|exact Hm].
Defined.

Lemma load_std_addresses_witness :
  exists s', CAN_LoadExplicitEntry LPC_CAN1 0x018 STD_ID_FORMAT af3 = Ok (CAN_OK, s') /\
    addresses s' <> addresses_of (table3{{ t_std := [0x010; 0x018; 0x020; 0x030] }}).
Proof.
  destruct (load_std_addresses LPC_CAN1 0x018 af3 table3 af3_models ltac:(vm_compute; lia)
    eq_refl) as (s' & E & H).
  exists s'. split; [exact E|]. intros A. apply (proj1 H) in A. discriminate A.
Defined.

(** 300 standard groups and nothing else. *)
Definition table300 : table := mk_table [] [] (replicate 300 0x00050006) [] [] [].
Definition af300 : af_st := (with_mask (layout table300 ++ replicate 212 0) af_reset){{
  CANAF_gstd_cnt := 300; EFF_sa := 1200; EFF_GRP_sa := 1200; ENDofTable := 1200 }}.

Lemma af300_models : models af300 table300.
Proof.
  split; try done.
  - by exists 212%nat.
  - change (Forall word_ok ((replicate 300 0x00050006 ++ []) ++ replicate 212 0)).
    rewrite !Forall_app. by split_and!; try apply Forall_replicate.
Qed.

Lemma load_ext_overruns_witness :
  CAN_LoadExplicitEntry LPC_CAN1 0x1800 EXT_ID_FORMAT af300 = Fault OutOfBounds.
Proof.
  refine (load_ext_overruns LPC_CAN1 0x1800 af300 table300 af300_models _ _); vm_compute; lia.
Defined.

(** An identifier in the lower half of a word, of an odd number of them: the last one
    is removed in its place. *)
Example remove_std_odd : exists s',
  CAN_RemoveEntry EXPLICIT_STANDARD_ENTRY 1 af3 = Ok (CAN_OK, s') /\
  CANAF_std_cnt s' = 2 /\ take 1 (mask s') = pack [0x010; 0x020].
Proof. eexists. by vm_compute. Qed.
