(* ===== verification/Can.v ===== *)
(** * The CAN controllers

    Lib_MCU/src/lpc17xx_can.c, the functions that drive the two controllers.  What the controllers do
    by themselves, as the user manual describes it, is limited to the effect of
    a command ([CMR_write]), the clearing of the interrupt register by a read
    ([ICR_read]) and the events of [hw_event]. *)

From S2P Require Import Prelude Clkpwr CanAf.

(** ** State *)

(** One of the three transmit buffers of a controller. *)
Record tbuf : Type := mk_tbuf { TFI : Z; TID : Z; TDA : Z; TDB : Z }.
#[export] Instance eta_tbuf : Settable tbuf :=
  fun s => mk_tbuf (TFI s) (TID s) (TDA s) (TDB s).

Record can_regs : Type := mk_regs {
  MOD : Z; GSR : Z; ICR : Z; IER : Z; BTR : Z; EWL : Z; SR : Z;
  RFS : Z; RID : Z; RDA : Z; RDB : Z;
  TB1 : tbuf; TB2 : tbuf; TB3 : tbuf;
  requested : list tbuf          (* the frames whose transmission was requested *)
}.
#[export] Instance eta_can_regs : Settable can_regs :=
  fun s => mk_regs (MOD s) (GSR s) (ICR s) (IER s) (BTR s) (EWL s) (SR s)
    (RFS s) (RID s) (RDA s) (RDB s) (TB1 s) (TB2 s) (TB3 s) (requested s).

(** [cbs] is [_apfnCANCbs], a callback being known by a number; [called] records
    the calls. *)
Record can_st : Type := mk_can {
  can1 : can_regs;
  can2 : can_regs;
  af : af_st;
  sc : sc_st;
  cbs : list (option Z);
  called : list Z
}.
#[export] Instance eta_can_st : Settable can_st :=
  fun s => mk_can (can1 s) (can2 s) (af s) (sc s) (cbs s) (called s).

#[export] Instance lens_af : Lens af_st can_st :=
  {| view := af; put := fun a s => s{{ af := a }} |}.
#[export] Instance lens_sc : Lens sc_st can_st :=
  {| view := sc; put := fun a s => s{{ sc := a }} |}.

Definition regs_reset : can_regs := {|
  MOD := 1; GSR := 0xC; ICR := 0; IER := 0; BTR := 0x1C0000; EWL := 0x60; SR := 0x0C0C0C;
  RFS := 0; RID := 0; RDA := 0; RDB := 0;
  TB1 := mk_tbuf 0 0 0 0; TB2 := mk_tbuf 0 0 0 0; TB3 := mk_tbuf 0 0 0 0;
  requested := []
|}.

Definition can_reset (clock : Z) : can_st := {|
  can1 := regs_reset; can2 := regs_reset; af := af_reset;
  sc := mk_sc clock 0 0 0; cbs := replicate 12 None; called := []
|}.

Definition regs_of (CANx : LPC_CAN) (s : can_st) : can_regs :=
  match CANx with LPC_CAN1 => can1 s | LPC_CAN2 => can2 s end.
Definition reg {A} (CANx : LPC_CAN) (f : can_regs -> A) : M can_st A :=
  gets (fun s => f (regs_of CANx s)).
Definition set_regs (CANx : LPC_CAN) (f : can_regs -> can_regs) : M can_st unit :=
  modify (fun s : can_st =>
    match CANx with
    | LPC_CAN1 => s{{ can1 := f (can1 s) }}
    | LPC_CAN2 => s{{ can2 := f (can2 s) }}
    end).

(** *** The hardware *)

(** The command register: TR (bit 0) with STB1..3 (bits 5..7) requests the
    transmission of those buffers, which are busy from then on; RRB (bit 2)
    releases the receive buffer and its interrupt. *)
Definition CMR_write (v : Z) (r : can_regs) : can_regs :=
  let tr := Z.testbit v 0 in
  let stb1 := tr && Z.testbit v 5 in
  let stb2 := tr && Z.testbit v 6 in
  let stb3 := tr && Z.testbit v 7 in
  let r := r{{
    requested := requested r ++ (if stb1 then [TB1 r] else []) ++ (if stb2 then [TB2 r] else [])
                 ++ (if stb3 then [TB3 r] else []);
    SR := clear_bits (SR r) (Z.lor (Z.lor (if stb1 then 0xC else 0) (if stb2 then 0xC00 else 0))
                                   (if stb3 then 0xC0000 else 0));
    GSR := if stb1 || stb2 || stb3 then clear_bits (GSR r) 0xC else GSR r }} in
  if Z.testbit v 2 then
    r{{ SR := clear_bits (SR r) 0x010101; GSR := clear_bits (GSR r) 1;
        ICR := clear_bits (ICR r) 1 }}
  else r.

Definition set_CMR (CANx : LPC_CAN) (v : Z) : M can_st unit := set_regs CANx (CMR_write v).

(** A read of the interrupt register clears all of it but the receive bit. *)
Definition ICR_read (CANx : LPC_CAN) : M can_st Z :=
  v ← reg CANx ICR;
  set_regs CANx (fun r => r{{ ICR := Z.land (ICR r) 1 }}) ;;
  mret v.

(** ** Initialisation *)

Definition CAN_BIT_TIME : list Z :=
  [0; 0; 0; 0; 0x0001C000; 0; 0x0012C000; 0; 0x0023C000; 0; 0x0025C000; 0; 0x0036C000;
   0; 0; 0x0048C000; 0x0049C000].

Definition pconp_of (CANx : LPC_CAN) : Z :=
  match CANx with LPC_CAN1 => CLKPWR_PCONP_PCAN1 | LPC_CAN2 => CLKPWR_PCONP_PCAN2 end.

Definition CAN_SetBaudRate (CANx : LPC_CAN) (baudrate : Z) : M can_st unit :=
  CANPclk ← zoom (CLKPWR_GetPCLK (pconp_of CANx));
  let nominal_time :=
    if baudrate <=? 500000 then 12
    else if (CANPclk / 1000000) mod 15 =? 0 then 15
    else if (CANPclk / 1000000) mod 16 =? 0 then 16
    else 10 in
  guard (negb (baudrate =? 0)) DivByZero ;;
  let result := u32 (CANPclk / nominal_time / baudrate - 1) in
  let result := Z.land result 0x000003FF in
  t ← aget CAN_BIT_TIME nominal_time;
  let result := Z.lor result t in
  set_regs CANx (fun r => r{{ MOD := 1 }}) ;;
  set_regs CANx (fun r => r{{ BTR := result }}) ;;
  set_regs CANx (fun r => r{{ MOD := 0 }}).

(** The filter table is emptied, its counters are not. *)
Definition clear_af : M af_st unit :=
  set_AFMR 1 ;;
  foreach (range 512) (fun i => mset i 0) ;;
  modify (fun s : af_st => s{{ SFF_sa := 0; SFF_GRP_sa := 0; EFF_sa := 0; EFF_GRP_sa := 0;
                               ENDofTable := 0 }}) ;;
  set_AFMR 0.

Definition CAN_Init (CANx : LPC_CAN) (baudrate : Z) : M can_st unit :=
  zoom (CLKPWR_ConfigPPWR (pconp_of CANx) true) ;;
  zoom (CLKPWR_SetPCLKDiv (pconp_of CANx) CLKPWR_PCLKSEL_CCLK_DIV_4) ;;
  (* the status bits of GSR cannot be written, its error counters can *)
  set_regs CANx (fun r => r{{ MOD := 1; IER := 0; GSR := Z.land (GSR r) 0xFFFF }}) ;;
  set_CMR CANx (Z.lor (Z.lor (Z.shiftl 1 1) (Z.shiftl 1 2)) (Z.shiftl 1 3)) ;;
  _ ← ICR_read CANx;
  set_regs CANx (fun r => r{{ MOD := 0 }}) ;;
  zoom clear_af ;;
  CAN_SetBaudRate CANx baudrate.

Definition CAN_DeInit (CANx : LPC_CAN) : M can_st unit :=
  zoom (CLKPWR_ConfigPPWR (pconp_of CANx) false).

(** ** Messages *)

Definition DATA_FRAME : Z := 0.
Definition REMOTE_FRAME : Z := 1.

Record CAN_MSG_Type : Type := mk_msg {
  id : Z;
  dataA : list Z;
  dataB : list Z;
  len : Z;
  format : Z;
  type : Z
}.
#[export] Instance eta_CAN_MSG_Type : Settable CAN_MSG_Type :=
  fun s => mk_msg (id s) (dataA s) (dataB s) (len s) (format s) (type s).

(** The four bytes of a data field as a word, lowest byte first, and back. *)
Definition pack_data {W} (d : list Z) : M W Z :=
  d0 ← aget d 0; d1 ← aget d 1; d2 ← aget d 2; d3 ← aget d 3;
  mret (u32 (Z.lor (Z.lor (Z.lor d0 (Z.shiftl d1 8)) (Z.shiftl d2 16)) (Z.shiftl d3 24))).

Definition unpack_data (data : Z) : list Z :=
  [ Z.land data 0x000000FF;
    Z.shiftr (Z.land data 0x0000FF00) 8;
    Z.shiftr (Z.land data 0x00FF0000) 16;
    Z.shiftr (Z.land data 0xFF000000) 24 ].

(** Fill a transmit buffer. *)
Definition fill_tbuf {W} (m : CAN_MSG_Type) (b : tbuf) : M W tbuf :=
  let TFI := clear_bits (TFI b) 0x00F0000 in
  let TFI := Z.lor TFI (Z.shiftl (len m) 16) in
  let TFI := if type m =? REMOTE_FRAME then Z.lor TFI (Z.shiftl 1 30)
             else clear_bits TFI (Z.shiftl 1 30) in
  let TFI := if format m =? EXT_ID_FORMAT then Z.lor TFI (Z.shiftl 1 31)
             else clear_bits TFI (Z.shiftl 1 31) in
  a ← pack_data (dataA m);
  b ← pack_data (dataB m);
  mret (mk_tbuf TFI (id m) a b).

Definition CAN_SendMsg (CANx : LPC_CAN) (m : CAN_MSG_Type) : M can_st Status :=
  CHECK_PARAM ((format m =? STD_ID_FORMAT) || (format m =? EXT_ID_FORMAT)) ;;
  CHECK_PARAM (if format m =? STD_ID_FORMAT then PARAM_ID_11 (id m) else PARAM_ID_29 (id m)) ;;
  CHECK_PARAM (Z.shiftr (len m) 4 =? 0) ;;
  CHECK_PARAM ((type m =? DATA_FRAME) || (type m =? REMOTE_FRAME)) ;;
  sr ← reg CANx SR;
  if negb (Z.shiftr (Z.land sr 4) 2 =? 0) then
    b ← reg CANx TB1;
    b' ← fill_tbuf m b;
    set_regs CANx (fun r => r{{ TB1 := b' }}) ;;
    set_CMR CANx 0x21 ;;
    mret SUCCESS
  else if negb (Z.shiftr (Z.land sr 4) 10 =? 0) then
    b ← reg CANx TB2;
    b' ← fill_tbuf m b;
    set_regs CANx (fun r => r{{ TB2 := b' }}) ;;
    set_CMR CANx 0x41 ;;
    mret SUCCESS
  else if negb (Z.shiftr (Z.land sr 4) 18 =? 0) then
    b ← reg CANx TB3;
    b' ← fill_tbuf m b;
    set_regs CANx (fun r => r{{ TB3 := b' }}) ;;
    set_CMR CANx 0x81 ;;
    mret SUCCESS
  else mret ERROR.

(** The message is the caller's, updated in place. *)
Definition CAN_ReceiveMsg (CANx : LPC_CAN) (m : CAN_MSG_Type)
    : M can_st (Status * CAN_MSG_Type) :=
  r ← reg CANx (fun r => r);
  if negb (Z.land (SR r) 1 =? 0) then
    let m := m{{ format := u8 (Z.shiftr (Z.land (RFS r) 0x80000000) 31);
                 type := u8 (Z.shiftr (Z.land (RFS r) 0x40000000) 30);
                 len := u8 (Z.shiftr (Z.land (RFS r) 0x000F0000) 16);
                 id := RID r }} in
    if type m =? DATA_FRAME then
      let m := m{{ dataA := unpack_data (RDA r); dataB := unpack_data (RDB r) }} in
      set_CMR CANx 0x04 ;;
      mret (SUCCESS, m)
    else mret (SUCCESS, m)
  else mret (ERROR, m).

(** ** FullCAN objects *)

(** Copy the object at the word [p] of the filter RAM, if it was updated and is
    not being updated while it is read. *)
Definition read_obj (p : Z) (m : CAN_MSG_Type) : M af_st (bool * CAN_MSG_Type) :=
  w ← mget p;
  if Z.land w 0x03000000 =? 0x03000000 then
    mset p (Z.land w 0xFCFFFFFF) ;;
    a ← mget (p + 1);
    b ← mget (p + 2);
    w ← mget p;
    let m := m{{ dataA := unpack_data a; dataB := unpack_data b;
                 id := Z.land w 0x7FF; len := Z.land (u8 (Z.shiftr w 16)) 0x0F;
                 format := 0; type := Z.land (u8 (Z.shiftr w 30)) 1 }} in
    w ← mget p;
    mret (Z.land w 0x03000000 =? 0, m)
  else mret (false, m).

Fixpoint scan_objs (n : nat) (msg_idx word base : Z) (m : CAN_MSG_Type)
    : M af_st (CAN_ERROR * CAN_MSG_Type) :=
  match n with
  | O => mret (CAN_FULL_OBJ_NOT_RCV, m)
  | S n' =>
      if Z.testbit word 0 then
        r ← read_obj (base + msg_idx * 3) m;
        let '(ok, m) := r in
        if (ok : bool) then mret (CAN_OK, m)
        else scan_objs n' (msg_idx + 1) (Z.shiftr word 1) base m
      else scan_objs n' (msg_idx + 1) (Z.shiftr word 1) base m
  end.

(** The objects start at the byte [ENDofTable] of the RAM, a multiple of 4. *)
Definition FCAN_ReadObj (m : CAN_MSG_Type) : M af_st (CAN_ERROR * CAN_MSG_Type) :=
  s ← get;
  let base := ENDofTable s / 4 in
  if negb (FCANIC0 s =? 0) then scan_objs 32 0 (FCANIC0 s) base m
  else if negb (FCANIC1 s =? 0) then scan_objs 32 32 (FCANIC1 s) base m
  else mret (CAN_FULL_OBJ_NOT_RCV, m).

(** ** Status, interrupts and modes *)

Inductive CAN_CTRL_STS_Type : Type :=
| CANCTRL_GLOBAL_STS | CANCTRL_INT_CAP | CANCTRL_ERR_WRN | CANCTRL_STS.

Definition CAN_GetCTRLStatus (CANx : LPC_CAN) (arg : CAN_CTRL_STS_Type) : M can_st Z :=
  match arg with
  | CANCTRL_GLOBAL_STS => reg CANx GSR
  | CANCTRL_INT_CAP => ICR_read CANx
  | CANCTRL_ERR_WRN => reg CANx EWL
  | CANCTRL_STS => reg CANx SR
  end.

(** The central registers collect the status bits of both controllers; they are read only. *)
Record cancr_regs : Type := mk_cancr { CANTxSR : Z; CANRxSR : Z; CANMSR : Z }.
Inductive CAN_CR_STS_Type : Type := CANCR_TX_STS | CANCR_RX_STS | CANCR_MS.
Definition CAN_GetCRStatus (CANCRx : cancr_regs) (arg : CAN_CR_STS_Type) : Z :=
  match arg with
  | CANCR_TX_STS => CANTxSR CANCRx
  | CANCR_RX_STS => CANRxSR CANCRx
  | CANCR_MS => CANMSR CANCRx
  end.

Definition CANINT_RIE : Z := 0.
Definition CANINT_FCE : Z := 11.

Definition CAN_IRQCmd (CANx : LPC_CAN) (arg : Z) (enable : bool) : M can_st unit :=
  CHECK_PARAM ((0 <=? arg) && (arg <=? 11)) ;;
  if arg =? CANINT_FCE then
    zoom (set_AFMR 1) ;;
    zoom (modify (fun s : af_st => s{{ FCANIE := 1 }})) ;;
    zoom (set_AFMR (if enable then 4 else 0))
  else set_regs CANx (fun r => r{{ IER :=
    if enable then Z.lor (IER r) (Z.shiftl 1 arg)
    else clear_bits (IER r) (Z.shiftl 1 arg) }}).

Definition CAN_SetupCBS (arg : Z) (pnCANCbs : option Z) : M can_st unit :=
  CHECK_PARAM ((0 <=? arg) && (arg <=? 11)) ;;
  c ← gets cbs;
  c' ← aset c arg pnCANCbs;
  modify (fun s : can_st => s{{ cbs := c' }}).

Inductive CAN_AFMODE_Type : Type := CAN_Normal | CAN_AccOff | CAN_AccBP | CAN_eFCAN.

Definition CAN_SetAFMode (AFMode : CAN_AFMODE_Type) : M can_st unit :=
  zoom (set_AFMR match AFMode with
                 | CAN_Normal => 0 | CAN_AccOff => 1 | CAN_AccBP => 2 | CAN_eFCAN => 4
                 end).

Inductive CAN_MODE_Type : Type :=
| CAN_OPERATING_MODE | CAN_RESET_MODE | CAN_LISTENONLY_MODE | CAN_SELFTEST_MODE
| CAN_TXPRIORITY_MODE | CAN_SLEEP_MODE | CAN_RXPOLARITY_MODE | CAN_TEST_MODE.

Definition CAN_MOD_RM : Z := 1.
Definition CAN_MOD_LOM : Z := Z.shiftl 1 1.
Definition CAN_MOD_STM : Z := Z.shiftl 1 2.
Definition CAN_MOD_TPM : Z := Z.shiftl 1 3.
Definition CAN_MOD_SM : Z := Z.shiftl 1 4.
Definition CAN_MOD_RPM : Z := Z.shiftl 1 5.
Definition CAN_MOD_TM : Z := Z.shiftl 1 7.

Definition CAN_ModeConfig (CANx : LPC_CAN) (mode : CAN_MODE_Type) (enable : bool)
    : M can_st unit :=
  let bit b := set_regs CANx (fun r => r{{ MOD :=
    if enable then Z.lor (MOD r) b else clear_bits (MOD r) b }}) in
  let reset := set_regs CANx (fun r => r{{ MOD := Z.lor (MOD r) CAN_MOD_RM }}) in
  match mode with
  | CAN_OPERATING_MODE => set_regs CANx (fun r => r{{ MOD := 0 }})
  | CAN_RESET_MODE => bit CAN_MOD_RM
  | CAN_LISTENONLY_MODE => reset ;; bit CAN_MOD_LOM
  | CAN_SELFTEST_MODE => reset ;; bit CAN_MOD_STM
  | CAN_TXPRIORITY_MODE => bit CAN_MOD_TPM
  | CAN_SLEEP_MODE => bit CAN_MOD_SM
  | CAN_RXPOLARITY_MODE => bit CAN_MOD_RPM
  | CAN_TEST_MODE => bit CAN_MOD_TM
  end.

(** [_apfnCANCbs[t]()]. *)
Definition call_cb (t : Z) : M can_st unit :=
  c ← gets cbs;
  f ← aget c t;
  match f with
  | Some n => modify (fun s : can_st => s{{ called := called s ++ [n] }})
  | None => fail NullDeref
  end.

(** The interrupt register is read again for each bit. *)
Definition CAN_IntHandler (CANx : LPC_CAN) : M can_st unit :=
  ie ← gets (fun s => FCANIE (af s));
  when (negb (ie =? 0)) (call_cb 11) ;;
  foreach (range 11) (fun t =>
    icr ← ICR_read CANx;
    when (negb (Z.land (Z.shiftr icr t) 1 =? 0)) (call_cb t)).

(** ** Events on the bus *)

Record frame : Type := mk_frame { f_info : Z; f_id : Z; f_a : Z; f_b : Z }.

(** A frame that passed the filter of a controller arrives; a request of the
    first transmit buffer completes. *)
Inductive hw_event : Type :=
| FrameArrives (CANx : LPC_CAN) (f : frame)
| TransmitDone (CANx : LPC_CAN).

(** A frame that finds the receive buffer occupied is lost. *)
Definition receive_frame (f : frame) (r : can_regs) : can_regs :=
  if Z.testbit (SR r) 0 then r
  else r{{ RFS := f_info f; RID := f_id f; RDA := f_a f; RDB := f_b f;
           SR := Z.lor (SR r) 1; GSR := Z.lor (GSR r) 1;
           ICR := if Z.testbit (IER r) 0 then Z.lor (ICR r) 1 else ICR r }}.

Definition transmit_done (r : can_regs) : can_regs :=
  r{{ SR := Z.lor (SR r) 0xC; GSR := Z.lor (GSR r) 0xC }}.

Definition hw_step (e : hw_event) : M can_st unit :=
  match e with
  | FrameArrives CANx f => set_regs CANx (receive_frame f)
  | TransmitDone CANx => set_regs CANx transmit_done
  end.
