(* ===== verification/CanFacts.v ===== *)
(** * The CAN controllers: messages, bit rate, interrupt callbacks *)

From S2P Require Import Prelude Clkpwr CanAf Can.

(** ** Fields of a register *)

Lemma bit_field x n : 0 <= n -> Z.shiftr (Z.land x (2 ^ n)) n = Z.b2z (Z.testbit x n).
Proof.
  intros Hn. apply Z.bits_inj'. intros i Hi.
  rewrite Z.shiftr_spec, Z.land_spec, Z.pow2_bits_eqb by lia.
  destruct (Z.eqb_spec n (i + n)) as [E|].
  - assert (i = 0) as -> by lia. simpl. rewrite andb_true_r. by destruct Z.testbit.
  - rewrite andb_false_r. symmetry. destruct (Z.testbit x n); simpl; [|by rewrite Z.bits_0].
    by rewrite (Z.bits_above_log2 1 i) by (simpl; lia).
Qed.

Lemma byte_field x n : 0 <= n ->
  Z.shiftr (Z.land x (Z.shiftl 0xFF n)) n = x / 2 ^ n mod 256.
Proof.
  intros Hn. rewrite Z.shiftr_land, Z.shiftr_shiftl_l, Z.sub_diag, Z.shiftl_0_r by lia.
  replace 0xFF with (Z.ones 8) by done. by rewrite Z.land_ones, Z.shiftr_div_pow2 by lia.
Qed.

Lemma lor_high a b n : 0 <= n -> 0 <= b -> 0 <= a < 2 ^ n ->
  Z.lor a (Z.shiftl b n) = a + b * 2 ^ n.
Proof.
  intros. rewrite Z.lor_comm, Z_lor_shiftl_small, Z.shiftl_mul_pow2 by lia. lia.
Qed.

(** ** Data bytes *)

Lemma pack_unpack d0 d1 d2 d3 :
  byte_ok d0 -> byte_ok d1 -> byte_ok d2 -> byte_ok d3 ->
  let w := u32 (Z.lor (Z.lor (Z.lor d0 (Z.shiftl d1 8)) (Z.shiftl d2 16)) (Z.shiftl d3 24)) in
  unpack_data w = [d0; d1; d2; d3].
Proof.
  unfold byte_ok. intros H0 H1 H2 H3. cbv zeta.
  rewrite (lor_high d0 d1) by lia. rewrite (lor_high _ d2) by lia. rewrite (lor_high _ d3) by lia.
  unfold unpack_data, u32.
  change 0xFF000000 with (Z.shiftl 0xFF 24). change 0x00FF0000 with (Z.shiftl 0xFF 16).
  change 0x0000FF00 with (Z.shiftl 0xFF 8).
  rewrite !byte_field by lia. change 0xFF with (Z.ones 8). rewrite Z.land_ones by lia.
  repeat f_equal; lia.
Qed.

(** ** Sending and receiving *)

Definition data_ok (d : list Z) : Prop := length d = 4%nat /\ Forall byte_ok d.

Record msg_ok (m : CAN_MSG_Type) : Prop := {
  ok_A : data_ok (dataA m);
  ok_B : data_ok (dataB m);
  ok_len : 0 <= len m < 16;
  ok_id : format m = STD_ID_FORMAT /\ 0 <= id m < 2 ^ 11 \/
          format m = EXT_ID_FORMAT /\ 0 <= id m < 2 ^ 29;
  ok_type : type m = DATA_FRAME \/ type m = REMOTE_FRAME
}.

(** The frame information word of a message, in a buffer that held [old]. *)
Definition frame_info (old : Z) (m : CAN_MSG_Type) : Z :=
  let TFI := clear_bits old 0x00F0000 in
  let TFI := Z.lor TFI (Z.shiftl (len m) 16) in
  let TFI := if type m =? REMOTE_FRAME then Z.lor TFI (Z.shiftl 1 30)
             else clear_bits TFI (Z.shiftl 1 30) in
  if format m =? EXT_ID_FORMAT then Z.lor TFI (Z.shiftl 1 31)
  else clear_bits TFI (Z.shiftl 1 31).

Definition word_of (d : list Z) : Z :=
  match d with
  | [d0; d1; d2; d3] =>
      u32 (Z.lor (Z.lor (Z.lor d0 (Z.shiftl d1 8)) (Z.shiftl d2 16)) (Z.shiftl d3 24))
  | _ => 0
  end.

Definition tbuf_of (old : tbuf) (m : CAN_MSG_Type) : tbuf :=
  mk_tbuf (frame_info (TFI old) m) (id m) (word_of (dataA m)) (word_of (dataB m)).

(** What a receiver sees of a frame that was sent. *)
Definition frame_of (b : tbuf) : frame := mk_frame (TFI b) (TID b) (TDA b) (TDB b).

Lemma pack_data_ok {W} d (w : W) : data_ok d -> pack_data d w = Ok (word_of d, w).
Proof.
  intros [Hl _]. destruct d as [|d0 [|d1 [|d2 [|d3 [|]]]]]; try done.
Qed.

Lemma unpack_word d : data_ok d -> unpack_data (word_of d) = d.
Proof.
  intros [Hl Hd]. destruct d as [|d0 [|d1 [|d2 [|d3 [|]]]]]; try done.
  rewrite !Forall_cons in Hd. destruct Hd as (?&?&?&?&_). by apply pack_unpack.
Qed.

Lemma fill_tbuf_ok {W} m b (w : W) : msg_ok m -> fill_tbuf m b w = Ok (tbuf_of b m, w).
Proof.
  intros [HA HB _ _ _]. unfold fill_tbuf.
  erewrite bind_ok by (apply pack_data_ok; exact HA).
  erewrite bind_ok by (apply pack_data_ok; exact HB). done.
Qed.

Lemma testbit_clear v b i : 0 <= i ->
  Z.testbit (clear_bits v b) i = Z.testbit v i && negb (Z.testbit b i).
Proof. intros Hi. unfold clear_bits. by rewrite Z.land_spec, Z.lnot_spec. Qed.

Lemma testbit_cleared v b i : 0 <= i -> Z.testbit b i = true ->
  Z.testbit (clear_bits v b) i = false.
Proof. intros Hi Hb. by rewrite testbit_clear, Hb, andb_false_r by done. Qed.

(** Compute a bit of a word built with [Z.lor] and [clear_bits]. *)
Ltac bits := repeat first [rewrite testbit_clear by lia | rewrite Z.lor_spec];
  rewrite ?(Z.shiftl_spec (len _)) by lia; simpl;
  rewrite ?orb_true_r, ?andb_false_r, ?andb_true_r, ?orb_false_r.

Lemma frame_info_format old m : format m = 0 \/ format m = 1 ->
  u8 (Z.shiftr (Z.land (frame_info old m) 0x80000000) 31) = format m.
Proof.
  intros Hf. change 0x80000000 with (2 ^ 31). rewrite bit_field by lia. unfold frame_info.
  destruct Hf as [-> | ->];
    [change (0 =? EXT_ID_FORMAT) with false|change (1 =? EXT_ID_FORMAT) with true]; cbv iota;
    by bits.
Qed.

Lemma frame_info_type old m : type m = 0 \/ type m = 1 -> 0 <= len m < 16 ->
  u8 (Z.shiftr (Z.land (frame_info old m) 0x40000000) 30) = type m.
Proof.
  intros Hf Hl. change 0x40000000 with (2 ^ 30). rewrite bit_field by lia. unfold frame_info.
  assert (Hb : Z.testbit (len m) 14 = false).
  { apply Z.bits_above_log2; [lia|].
    destruct (decide (len m = 0)) as [-> |]; [done|]. apply Z.log2_lt_pow2; lia. }
  destruct Hf as [-> | ->];
    [change (0 =? REMOTE_FRAME) with false|change (1 =? REMOTE_FRAME) with true]; cbv iota;
    destruct (format m =? EXT_ID_FORMAT); bits; by rewrite ?Hb, ?orb_true_r, ?andb_false_r.
Qed.

Lemma frame_info_len old m : 0 <= len m < 16 ->
  u8 (Z.shiftr (Z.land (frame_info old m) 0x000F0000) 16) = len m.
Proof.
  intros Hl. change 0x000F0000 with (Z.shiftl 0xF 16).
  rewrite Z.shiftr_land, Z.shiftr_shiftl_l, Z.sub_diag, Z.shiftl_0_r by lia.
  assert (E : Z.land (Z.shiftr (frame_info old m) 16) 0xF = len m);
    [|rewrite E; unfold u8; lia].
  apply Z.bits_inj'. intros i Hi. rewrite Z.land_spec, Z.shiftr_spec by lia.
  destruct (Z.ltb_spec i 4).
  - assert (i = 0 \/ i = 1 \/ i = 2 \/ i = 3) as Hi4 by lia. unfold frame_info.
    destruct (type m =? REMOTE_FRAME), (format m =? EXT_ID_FORMAT),
      Hi4 as [-> |[-> |[-> | ->]]]; by bits.
  - replace (Z.testbit 0xF i) with false.
    2: { symmetry. apply Z.bits_above_log2; [lia|]. simpl. lia. }
    rewrite andb_false_r. symmetry. apply Z.bits_above_log2; [lia|].
    destruct (decide (len m = 0)) as [-> |]; [simpl; lia|].
    apply Z.lt_le_trans with 4; [apply Z.log2_lt_pow2; lia|lia].
Qed.

(** *** [CAN_SendMsg] *)

Lemma msg_ok_params m : msg_ok m ->
  (format m =? STD_ID_FORMAT) || (format m =? EXT_ID_FORMAT) = true /\
  (if format m =? STD_ID_FORMAT then PARAM_ID_11 (id m) else PARAM_ID_29 (id m)) = true /\
  (Z.shiftr (len m) 4 =? 0) = true /\
  (type m =? DATA_FRAME) || (type m =? REMOTE_FRAME) = true.
Proof.
  intros [_ _ Hl Hid Ht]. unfold PARAM_ID_11, PARAM_ID_29.
  rewrite !Z.shiftr_div_pow2 by lia. rewrite (Z.div_small (len m)) by lia.
  destruct Hid as [[-> H]|[-> H]]; destruct Ht as [-> | ->]; cbn [STD_ID_FORMAT EXT_ID_FORMAT Z.eqb];
    simpl; rewrite ?Z.div_small by lia; done.
Qed.

Definition set_regs_of (CANx : LPC_CAN) (r : can_regs) (s : can_st) : can_st :=
  match CANx with LPC_CAN1 => s{{ can1 := r }} | LPC_CAN2 => s{{ can2 := r }} end.

Lemma regs_of_set CANx r s : regs_of CANx (set_regs_of CANx r s) = r.
Proof. by destruct CANx. Qed.

Lemma run_set_regs CANx f s :
  set_regs CANx f s = Ok (tt, set_regs_of CANx (f (regs_of CANx s)) s).
Proof. by destruct CANx. Qed.

Lemma run_ICR_read c s :
  ICR_read c s = Ok (ICR (regs_of c s),
    set_regs_of c ((regs_of c s){{ ICR := Z.land (ICR (regs_of c s)) 1 }}) s).
Proof. unfold ICR_read. erewrite bind_ok by done. by erewrite bind_ok by apply run_set_regs. Qed.

Lemma set_regs_of_twice CANx r r' s :
  set_regs_of CANx r (set_regs_of CANx r' s) = set_regs_of CANx r s.
Proof. by destruct CANx. Qed.

(** Bit 2 of the status register: the first buffer is free. *)
Definition tx_free (r : can_regs) : bool := Z.testbit (SR r) 2.

Lemma sr_bit2 sr : negb (Z.shiftr (Z.land sr 4) 2 =? 0) = Z.testbit sr 2.
Proof. change 4 with (2 ^ 2). rewrite bit_field by lia. by destruct Z.testbit. Qed.

Lemma sr_bit_none sr n : 3 <= n -> (Z.shiftr (Z.land sr 4) n =? 0) = true.
Proof.
  intros Hn. apply Z.eqb_eq. apply Z.bits_inj'. intros i Hi.
  rewrite Z.shiftr_spec, Z.land_spec, Z.bits_0 by lia. change 4 with (2 ^ 2).
  rewrite Z.pow2_bits_false by lia. apply andb_false_r.
Qed.

Definition sent (m : CAN_MSG_Type) (r : can_regs) : can_regs :=
  CMR_write 0x21 (r{{ TB1 := tbuf_of (TB1 r) m }}).

Lemma CAN_SendMsg_run CANx m s : msg_ok m ->
  CAN_SendMsg CANx m s =
    if tx_free (regs_of CANx s)
    then Ok (SUCCESS, set_regs_of CANx (sent m (regs_of CANx s)) s)
    else Ok (ERROR, s).
Proof.
  intros Hm. unfold CAN_SendMsg. destruct (msg_ok_params m Hm) as (-> & -> & -> & ->).
  do 4 (erewrite bind_ok by done). erewrite bind_ok by done. rewrite sr_bit2.
  unfold tx_free. destruct (Z.testbit (SR (regs_of CANx s)) 2).
  - erewrite bind_ok by done. erewrite bind_ok by (by apply fill_tbuf_ok).
    erewrite bind_ok by apply run_set_regs. unfold set_CMR.
    erewrite bind_ok by apply run_set_regs. by rewrite regs_of_set, set_regs_of_twice.
  - by rewrite !sr_bit_none by lia.
Qed.

(** A message is sent through the first transmit buffer, and only through it: when it
    is busy the call fails, whatever the state of the two others.  Otherwise exactly
    the frame of the message is requested, and the buffer is busy. *)
Theorem CAN_SendMsg_spec CANx m s (Hm : msg_ok m) :
  let r := regs_of CANx s in
  if tx_free r then
    exists s', CAN_SendMsg CANx m s = Ok (SUCCESS, s') /\
      requested (regs_of CANx s') = requested r ++ [tbuf_of (TB1 r) m] /\
      tx_free (regs_of CANx s') = false /\
      Z.testbit (GSR (regs_of CANx s')) 3 = false /\
      TB2 (regs_of CANx s') = TB2 r /\ TB3 (regs_of CANx s') = TB3 r
  else CAN_SendMsg CANx m s = Ok (ERROR, s).
Proof.
  cbv zeta. pose proof (CAN_SendMsg_run CANx m s Hm) as E.
  destruct (tx_free (regs_of CANx s)); [|done].
  eexists. split; [exact E|]. rewrite regs_of_set. unfold sent, tx_free, CMR_write. simpl.
  split; [done|]. split; [|split; [|done]].
  - by apply (testbit_cleared _ _ 2).
  - by apply (testbit_cleared _ _ 3).
Qed.

(** *** Round trip *)

Lemma CAN_ReceiveMsg_run CANx m s :
  Z.testbit (SR (regs_of CANx s)) 0 = true ->
  let r := regs_of CANx s in
  u8 (Z.shiftr (Z.land (RFS r) 0x40000000) 30) = DATA_FRAME ->
  CAN_ReceiveMsg CANx m s =
    Ok ((SUCCESS, mk_msg (RID r) (unpack_data (RDA r)) (unpack_data (RDB r))
           (u8 (Z.shiftr (Z.land (RFS r) 0x000F0000) 16))
           (u8 (Z.shiftr (Z.land (RFS r) 0x80000000) 31)) DATA_FRAME),
        set_regs_of CANx (CMR_write 0x04 r) s).
Proof.
  intros Hsr r Ht. unfold CAN_ReceiveMsg. erewrite bind_ok by done. fold r.
  assert (E : negb (Z.land (SR r) 1 =? 0) = true).
  { pose proof (bit_field (SR r) 0) as Hb. rewrite Z.shiftr_0_r in Hb.
    change (2 ^ 0) with 1 in Hb. rewrite Hb by lia. unfold r. by rewrite Hsr. }
  rewrite E. rewrite Ht. simpl (_ =? _). cbv iota zeta. unfold set_CMR.
  erewrite bind_ok by apply run_set_regs. done.
Qed.

Lemma frame_roundtrip m b c s old :
  msg_ok m -> type m = DATA_FRAME -> Z.testbit (SR (regs_of c s)) 0 = false ->
  exists s', (hw_step (FrameArrives c (frame_of (tbuf_of b m))) ;; CAN_ReceiveMsg c old) s =
      Ok ((SUCCESS, m), s') /\
    Z.testbit (SR (regs_of c s')) 0 = false.
Proof.
  intros Hm Ht Hfree. unfold hw_step. erewrite bind_ok by apply run_set_regs.
  set (r := receive_frame _ _).
  assert (Hr : RFS r = frame_info (TFI b) m /\ RID r = id m /\ RDA r = word_of (dataA m) /\
    RDB r = word_of (dataB m) /\ Z.testbit (SR r) 0 = true).
  { unfold r, receive_frame. rewrite Hfree. split_and!; try done.
    change (Z.testbit (Z.lor (SR (regs_of c s)) 1) 0 = true). by rewrite Z.lor_spec, orb_true_r. }
  destruct Hr as (E1 & E2 & E3 & E4 & E5). destruct Hm as [HA HB Hl Hid Hty].
  assert (Hf : format m = 0 \/ format m = 1)
    by (destruct Hid as [[-> _]|[-> _]]; [left|right]; done).
  eexists. split.
  - rewrite CAN_ReceiveMsg_run; rewrite regs_of_set; [|done|].
    + rewrite E1, E2, E3, E4, !unpack_word, frame_info_len, frame_info_format by done.
      rewrite <- Ht. by destruct m.
    + rewrite E1, frame_info_type by (try lia; left; done). done.
  - rewrite regs_of_set. unfold CMR_write. simpl. by apply (testbit_cleared _ _ 0).
Qed.

(** C13: The data frame that [CAN_SendMsg] requests for a data message, arriving at a
    controller with a free receive buffer, is read by [CAN_ReceiveMsg] as the message that was
    sent, and the buffer is free again.  (A remote frame is read too, but without its data and
    without the buffer being released: lpc17xx_can.c leaves both to data frames.) *)
Theorem send_receive_roundtrip CANx c m s s2 old
  (Hm : msg_ok m) (Hdata : type m = DATA_FRAME)
  (Htx : tx_free (regs_of CANx s) = true) (Hrx : Z.testbit (SR (regs_of c s2)) 0 = false) :
  exists s' b, CAN_SendMsg CANx m s = Ok (SUCCESS, s') /\
    requested (regs_of CANx s') = requested (regs_of CANx s) ++ [b] /\
    exists s2', (hw_step (FrameArrives c (frame_of b)) ;; CAN_ReceiveMsg c old) s2 =
        Ok ((SUCCESS, m), s2') /\
      Z.testbit (SR (regs_of c s2')) 0 = false.
Proof.
  pose proof (CAN_SendMsg_run CANx m s Hm) as E. rewrite Htx in E.
  exists (set_regs_of CANx (sent m (regs_of CANx s)) s), (tbuf_of (TB1 (regs_of CANx s)) m).
  split; [exact E|]. split; [by rewrite regs_of_set|]. by apply frame_roundtrip.
Qed.

(** ** Interrupt callbacks *)

Lemma set_regs_of_same CANx s : set_regs_of CANx (regs_of CANx s) s = s.
Proof. by destruct s, CANx. Qed.

(** One step of the loop of [CAN_IntHandler]. *)
Definition int_step (CANx : LPC_CAN) (t : Z) : M can_st unit :=
  icr ← ICR_read CANx;
  when (negb (Z.land (Z.shiftr icr t) 1 =? 0)) (call_cb t).

Lemma int_step_later CANx t s :
  1 <= t -> ICR (regs_of CANx s) = Z.land (ICR (regs_of CANx s)) 1 ->
  int_step CANx t s = Ok (tt, s).
Proof.
  intros Ht Hv. unfold int_step.
  assert (E : ICR_read CANx s = Ok (ICR (regs_of CANx s), s)).
  { unfold ICR_read. erewrite bind_ok by done. erewrite bind_ok by apply run_set_regs.
    cbv beta. simpl. rewrite <- Hv. unfold mret, M_ret. do 2 f_equal.
    etransitivity; [|apply (set_regs_of_same CANx)]. f_equal. by destruct (regs_of CANx s). }
  erewrite bind_ok by exact E. rewrite Hv.
  replace (Z.land (Z.shiftr _ t) 1) with 0; [done|].
  symmetry. apply Z.bits_inj'. intros i Hi.
  rewrite Z.land_spec, Z.shiftr_spec, Z.land_spec, Z.bits_0 by done.
  destruct (Z.eqb_spec i 0) as [-> |].
  - replace (Z.testbit 1 (0 + t)) with false; [by rewrite andb_false_r|].
    symmetry. apply Z.bits_above_log2; simpl; lia.
  - replace (Z.testbit 1 i) with false; [by rewrite andb_false_r|].
    symmetry. apply Z.bits_above_log2; simpl; lia.
Qed.

Lemma int_steps_later CANx l s :
  Forall (fun t => 1 <= t) l -> ICR (regs_of CANx s) = Z.land (ICR (regs_of CANx s)) 1 ->
  foreach l (int_step CANx) s = Ok (tt, s).
Proof.
  induction l as [|t l IH]; intros Hl Hv; [done|]. apply Forall_cons in Hl as [Ht Hl]. simpl.
  erewrite bind_ok by (by apply int_step_later). by apply IH.
Qed.

(** The first read of the interrupt register clears it, but for the receive bit, and
    the handler reads it again for each of its bits: of the callbacks installed for
    the eleven interrupts of a controller, only the one of the receive interrupt is
    ever called. *)
Theorem CAN_IntHandler_only_receive CANx s cb
  (Hie : FCANIE (af s) = 0) (Hcb : cbs s !! 0%nat = Some (Some cb)) :
  exists s', CAN_IntHandler CANx s = Ok (tt, s') /\
    called s' = called s ++ (if Z.testbit (ICR (regs_of CANx s)) 0 then [cb] else []) /\
    ICR (regs_of CANx s') = Z.land (ICR (regs_of CANx s)) 1.
Proof.
  unfold CAN_IntHandler. erewrite bind_ok by done. rewrite Hie. simpl negb. cbn [when].
  erewrite bind_ok by done.
  change (range 11) with (0 :: tl (range 11)). cbn [foreach].
  set (v := ICR (regs_of CANx s)). fold (int_step CANx 0). fold (int_step CANx).
  set (s1 := set_regs_of CANx ((regs_of CANx s){{ ICR := Z.land v 1 }}) s).
  set (s2 := if Z.testbit v 0 then s1{{ called := called s1 ++ [cb] }} else s1).
  assert (E : int_step CANx 0 s = Ok (tt, s2)).
  { unfold int_step. erewrite bind_ok.
    2: { unfold ICR_read. erewrite bind_ok by done. by erewrite bind_ok by apply run_set_regs. }
    fold v. fold s1. rewrite Z.shiftr_0_r.
    pose proof (bit_field v 0) as Hb. rewrite Z.shiftr_0_r in Hb. change (2 ^ 0) with 1 in Hb.
    rewrite Hb by lia. unfold s2. destruct (Z.testbit v 0); [|done]. simpl.
    unfold call_cb. erewrite bind_ok by done.
    erewrite bind_ok by (apply (aget_ok _ _ (Some cb)); [done|]; by destruct CANx). done. }
  erewrite bind_ok by exact E.
  assert (Hr : regs_of CANx s2 = (regs_of CANx s){{ ICR := Z.land v 1 }})
    by (unfold s2, s1; destruct (Z.testbit v 0); by destruct CANx).
  exists s2. split; [|split].
  - apply int_steps_later; [repeat constructor; lia|]. rewrite Hr. simpl.
    by rewrite <- Z.land_assoc.
  - unfold s2, s1. destruct (Z.testbit v 0); destruct CANx; simpl; by rewrite ?app_nil_r.
  - by rewrite Hr.
Qed.

(** ** Bit rate *)

(** The fields of the bit timing register. *)
Definition BRP (btr : Z) : Z := Z.land btr 0x3FF.
Definition TSEG1 (btr : Z) : Z := Z.land (Z.shiftr btr 16) 0xF.
Definition TSEG2 (btr : Z) : Z := Z.land (Z.shiftr btr 20) 0x7.
(** The clocks of a bit: the time quanta of its three segments, times the prescaler. *)
Definition bit_clocks (btr : Z) : Z :=
  (BRP btr + 1) * (1 + (TSEG1 btr + 1) + (TSEG2 btr + 1)).

Lemma CLKPWR_GetPCLK_can CANx s :
  CLKPWR_GetPCLK (pconp_of CANx) s = Ok (SystemCoreClock s / 4, s).
Proof. by destruct CANx. Qed.

(** The value programmed at the clock [pclk]. *)
Definition btr_of (pclk baudrate : Z) : Z :=
  Z.lor (Z.land (u32 (pclk / 12 / baudrate - 1)) 0x3FF) 0x0036C000.

Lemma CAN_SetBaudRate_run CANx baudrate s : 0 < baudrate <= 500000 ->
  CAN_SetBaudRate CANx baudrate s =
    Ok (tt, set_regs_of CANx ((regs_of CANx s){{ MOD := 0;
      BTR := btr_of (SystemCoreClock (sc s) / 4) baudrate }}) s).
Proof.
  intros Hb. unfold CAN_SetBaudRate.
  assert (E : zoom (CLKPWR_GetPCLK (pconp_of CANx)) s = Ok (SystemCoreClock (sc s) / 4, s)).
  { unfold zoom. rewrite CLKPWR_GetPCLK_can. simpl. by destruct s. }
  erewrite bind_ok by exact E.
  destruct (Z.leb_spec baudrate 500000); [|lia].
  destruct (Z.eqb_spec baudrate 0); [lia|]. cbn [negb guard].
  erewrite bind_ok by done.
  erewrite bind_ok by (by apply (aget_ok CAN_BIT_TIME 12 0x0036C000)).
  do 2 (erewrite bind_ok by apply run_set_regs). rewrite run_set_regs.
  rewrite !regs_of_set, !set_regs_of_twice. done.
Qed.

Lemma btr_clocks pclk baudrate : 1 <= pclk / 12 / baudrate <= 1024 ->
  bit_clocks (btr_of pclk baudrate) = 12 * (pclk / 12 / baudrate).
Proof.
  intros Hk. unfold btr_of. set (k := pclk / 12 / baudrate) in *.
  unfold u32. rewrite (Z.mod_small (k - 1)) by lia.
  change 0x3FF with (Z.ones 10) at 1. rewrite Z.land_ones, Z.mod_small by lia.
  change 0x0036C000 with (Z.shiftl 0xDB0 10). rewrite lor_high by lia.
  unfold bit_clocks, BRP, TSEG1, TSEG2.
  change 0x3FF with (Z.ones 10). change 0xF with (Z.ones 4). change 7 with (Z.ones 3).
  rewrite !Z.land_ones, !Z.shiftr_div_pow2 by lia.
  replace ((k - 1 + 0xDB0 * 2 ^ 10) mod 2 ^ 10) with (k - 1) by lia.
  replace ((k - 1 + 0xDB0 * 2 ^ 10) / 2 ^ 16 mod 2 ^ 4) with 6 by lia.
  replace ((k - 1 + 0xDB0 * 2 ^ 10) / 2 ^ 20 mod 2 ^ 3) with 3 by lia. lia.
Qed.

(** For rates up to 500 kbit/s the bit timing register is programmed for bits of
    twelve quanta, with the largest prescaler for which the bit rate does not fall
    below the one asked for, at a quarter of the core clock: the divider selected
    for the controller is not looked at. *)
Theorem CAN_SetBaudRate_spec CANx baudrate s
  (Hb : 0 < baudrate <= 500000) (Hc : 0 <= SystemCoreClock (sc s) < 2 ^ 32)
  (Hk : 1 <= SystemCoreClock (sc s) / 4 / 12 / baudrate <= 1024) :
  let pclk := SystemCoreClock (sc s) / 4 in
  exists s', CAN_SetBaudRate CANx baudrate s = Ok (tt, s') /\ sc s' = sc s /\
    MOD (regs_of CANx s') = 0 /\
    let clocks := bit_clocks (BTR (regs_of CANx s')) in
    baudrate * clocks <= pclk < baudrate * (clocks + 12).
Proof.
  cbv zeta. set (pclk := SystemCoreClock (sc s) / 4) in *.
  rewrite CAN_SetBaudRate_run by done. eexists. split; [done|]. rewrite !regs_of_set.
  split; [by destruct CANx|]. split; [done|].
  change (BTR _) with (btr_of pclk baudrate). rewrite btr_clocks by done.
  rewrite Z.div_div in * by lia. pose proof (Z.mul_div_le pclk (12 * baudrate)).
  pose proof (Z.mul_succ_div_gt pclk (12 * baudrate)). lia.
Qed.

(** ** Initialisation *)

Lemma CLKPWR_SetPCLKDiv_can CANx d s : exists s', CLKPWR_SetPCLKDiv (pconp_of CANx) d s = Ok (tt, s').
Proof. destruct CANx; by eexists. Qed.

Lemma regs_put_sc c (v : sc_st) s : regs_of c (put v s) = regs_of c s.
Proof. by destruct c. Qed.
Lemma regs_put_af c (v : af_st) s : regs_of c (put v s) = regs_of c s.
Proof. by destruct c. Qed.

(** What [CAN_Init] does to the registers of the controller, but for its bit rate. *)
Definition init_regs (r : can_regs) : can_regs :=
  let r := CMR_write 0xE (r{{ MOD := 1; IER := 0; GSR := Z.land (GSR r) 0xFFFF }}) in
  r{{ ICR := Z.land (ICR r) 1; MOD := 0 }}.

Lemma init_regs_ok r :
  Z.testbit (SR (init_regs r)) 0 = false /\ Z.testbit (ICR (init_regs r)) 0 = false /\
  IER (init_regs r) = 0 /\ requested (init_regs r) = requested r /\
  tx_free (init_regs r) = tx_free r.
Proof.
  split_and!; [| |done|by apply app_nil_r|].
  - change (Z.testbit (clear_bits (clear_bits (SR r) 0) 0x010101) 0 = false).
    by rewrite testbit_cleared.
  - change (Z.testbit (Z.land (clear_bits (ICR r) 1) 1) 0 = false).
    by rewrite Z.land_spec, testbit_cleared.
  - change (Z.testbit (clear_bits (clear_bits (SR r) 0) 0x010101) 2 = Z.testbit (SR r) 2).
    by rewrite !testbit_clear, !andb_true_r by lia.
Qed.

Lemma CAN_Init_run CANx baudrate s a :
  0 < baudrate <= 500000 -> clear_af (af s) = Ok (tt, a) ->
  exists s', CAN_Init CANx baudrate s = Ok (tt, s') /\ af s' = a /\
    (forall c, c <> CANx -> regs_of c s' = regs_of c s) /\
    let r := regs_of CANx s' in
    Z.testbit (SR r) 0 = false /\ Z.testbit (ICR r) 0 = false /\ IER r = 0 /\
    requested r = requested (regs_of CANx s) /\
    tx_free r = tx_free (regs_of CANx s).
Proof.
  intros Hb Ha. unfold CAN_Init.
  erewrite bind_ok by (by apply zoom_ok).
  destruct (CLKPWR_SetPCLKDiv_can CANx CLKPWR_PCLKSEL_CCLK_DIV_4 (view (put (S := sc_st)
    ((view s){{ PCONP := Z.lor (PCONP (view s)) (Z.land (pconp_of CANx) CLKPWR_PCONP_BITMASK) }}) s)))
    as [sc' Esc].
  erewrite bind_ok by (by apply zoom_ok).
  erewrite bind_ok by apply run_set_regs. unfold set_CMR.
  erewrite bind_ok by apply run_set_regs.
  erewrite bind_ok by apply run_ICR_read.
  erewrite bind_ok by apply run_set_regs.
  rewrite !regs_of_set, !set_regs_of_twice.
  erewrite bind_ok by (apply zoom_ok; destruct CANx; exact Ha).
  rewrite CAN_SetBaudRate_run by done. eexists. split; [done|].
  split; [by destruct CANx|]. split; [intros c Hne; by destruct c, CANx|].
  cbv zeta. rewrite regs_of_set, regs_put_af, regs_of_set, !regs_put_sc.
  exact (init_regs_ok (regs_of CANx s)).
Qed.

(** ** Witnesses *)

Definition msg3 : CAN_MSG_Type := mk_msg 0x20000 [1; 2; 3; 4] [5; 6; 7; 8] 8 EXT_ID_FORMAT DATA_FRAME.

Lemma msg3_ok : msg_ok msg3.
Proof.
  split; try (split; [done|]; repeat constructor; done); try done.
  - right. done.
  - by left.
Qed.

(** The first buffer busy, the others free. *)
Definition busy3 : can_st := (can_reset 100000000){{ can2 := regs_reset{{ SR := 0x0C0C08 }} }}.

Lemma CAN_SendMsg_spec_witness : CAN_SendMsg LPC_CAN2 msg3 busy3 = Ok (ERROR, busy3).
Proof. exact (CAN_SendMsg_spec LPC_CAN2 msg3 busy3 msg3_ok). Defined.

Lemma send_receive_roundtrip_witness :
  exists s' b, CAN_SendMsg LPC_CAN2 msg3 (can_reset 100000000) = Ok (SUCCESS, s') /\
    requested (can2 s') = [b] /\
    exists s2', (hw_step (FrameArrives LPC_CAN1 (frame_of b)) ;; CAN_ReceiveMsg LPC_CAN1 msg3)
      (can_reset 100000000) = Ok ((SUCCESS, msg3), s2') /\ Z.testbit (SR (can1 s2')) 0 = false.
Proof.
  exact (send_receive_roundtrip LPC_CAN2 LPC_CAN1 msg3 (can_reset 100000000)
    (can_reset 100000000) msg3 msg3_ok eq_refl eq_refl eq_refl).
Defined.

(** A receive and an error interrupt (bit 2) at once. *)
Definition st3 : can_st := (can_reset 100000000){{
  can1 := regs_reset{{ ICR := 5 }}; cbs := [Some 10; None; Some 12] ++ replicate 9 None }}.

Lemma CAN_IntHandler_only_receive_witness :
  exists s', CAN_IntHandler LPC_CAN1 st3 = Ok (tt, s') /\ called s' = [10] /\
    ICR (can1 s') = 1.
Proof. exact (CAN_IntHandler_only_receive LPC_CAN1 st3 10 eq_refl eq_refl). Defined.

Lemma CAN_SetBaudRate_spec_witness :
  exists s', CAN_SetBaudRate LPC_CAN1 33333 (can_reset 100000000) = Ok (tt, s') /\
    33333 * bit_clocks (BTR (can1 s')) <= 25000000.
Proof.
  destruct (CAN_SetBaudRate_spec LPC_CAN1 33333 (can_reset 100000000) ltac:(lia)
    ltac:(simpl; lia) ltac:(simpl; lia)) as (s' & E & _ & _ & H & _).
  exists s'. split; [exact E|exact H].
Defined.
