(* ===== verification/Canpt.v ===== *)
(** * The CAN gateway and protocol

    Lib_Board/src/canpt.c: messages received on either controller are queued by
    the interrupt handler and sent on through CAN2 by [canpt_task]; the node
    protocol (publish, poll, value, subscribe) that the file also holds; the
    requests, whose sending is commented out in the source.

    CAN interrupts are delivered at the reads of the clock, with those of the
    board. *)

From S2P Require Import Prelude Ring Board Xbee Clkpwr CanAf Can.

(** ** Constants (canpt.h, canpt.c) *)

Definition CANPT_NODE_UNIQUE_ID : Z := 0x10.
Definition CANPT_CAN2_ID : Z := 0x20.
Definition CANPT_CAN1_BAUDRATE : Z := 33333.
Definition CANPT_CAN2_BAUDRATE : Z := 33333.
Definition CANPT_MSG_CMN_MASK : Z := 0x7F0.
Definition CANPT_MSG_CMN_ID_DISC : Z := 0x01.
Definition CANPT_MSG_TYPE_MASK : Z := 0x0F.
Definition CANPT_MSG_GET : Z := 0x01.
Definition CANPT_MSG_SET : Z := 0x02.
Definition CANPT_MSG_SUB : Z := 0x03.
Definition CANPT_MSG_UNSUB : Z := 0x04.
Definition CANPT_MSG_VAL : Z := 0x05.
Definition CANPT_MSG_POLL : Z := 0x06.
Definition CANPT_MSG_PUBLISH : Z := 0x07.
Definition CANPT_MSG_POLL_RESP : Z := 0x80.
Definition CANPT_MSG_SUB_GTE : Z := 0x10.
Definition CANPT_MSG_SUB_DIF : Z := 0x30.
Definition CANPT_MSG_SUB_RESP : Z := 0xF0.
Definition CANPT_MSG_DEV_MASK : Z := 0xF0.
Definition CANPT_MSG_DEV_TEMP : Z := 0x10.
Definition CANPT_MSG_DEV_LIGHT : Z := 0x20.
Definition CANPT_MSG_DEV_BTN : Z := 0x30.
Definition CANPT_MSG_DEV_RGB : Z := 0x40.
Definition CANPT_MSG_DEV_LED : Z := 0x50.

Definition NODE_MAX_NUM : nat := 10.
Definition NODE_MAX_CAPS : nat := 12.
Definition NODE_POLL_TIME : Z := 2500.
Definition NODE_ALIVE_TIME : Z := 500.
Definition NUM_RX_MSGS : Z := 5.
Definition CAN_GSR_TCS : Z := Z.shiftl 1 3.

(** ** State *)

Record node_t : Type := mk_node {
  reqId : Z;
  aliveTime : Z;
  lastPoll : Z;
  caps : list Z
}.
#[export] Instance eta_node_t : Settable node_t :=
  fun s => mk_node (reqId s) (aliveTime s) (lastPoll s) (caps s).

(** Which entries of the [canpt_callb_t] are not NULL. *)
Record canpt_callb_t : Type := mk_canpt_callb {
  has_nodeAttached : bool;
  has_nodeDetached : bool;
  has_value : bool;
  has_subStarted : bool
}.

Inductive can_event : Type :=
| nodeAttached (reqId : Z)
| nodeDetached (reqId : Z)
| valueUpdate (reqId periphId : Z) (valbuf : list Z) (len : Z)
| subStarted (reqId subId : Z).

(** The static variables; [cp_cb] is [_cb], [None] for NULL. *)
Record canpt_st : Type := mk_canpt {
  txMsg : CAN_MSG_Type;
  rxMsg : CAN_MSG_Type;
  cp_cb : option canpt_callb_t;
  nodes : list node_t;
  numNodes : Z;
  rxMsgs : list CAN_MSG_Type;
  rxMsgIn : Z;
  rxMsgOut : Z
}.
#[export] Instance eta_canpt_st : Settable canpt_st :=
  fun s => mk_canpt (txMsg s) (rxMsg s) (cp_cb s) (nodes s) (numNodes s) (rxMsgs s)
    (rxMsgIn s) (rxMsgOut s).

Definition msg0 : CAN_MSG_Type := mk_msg 0 [0; 0; 0; 0] [0; 0; 0; 0] 0 0 0.

Definition canpt_reset : canpt_st := {|
  txMsg := msg0; rxMsg := msg0; cp_cb := None;
  nodes := replicate NODE_MAX_NUM (mk_node 0 0 0 (replicate NODE_MAX_CAPS 0));
  numNodes := 0; rxMsgs := replicate 5 msg0; rxMsgIn := 0; rxMsgOut := 0
|}.

(** [csched] lists, clock read by clock read, what happens on the bus before. *)
Record cworld : Type := mk_cworld {
  cbrd : board;
  hw : can_st;
  cp : canpt_st;
  csched : list (list hw_event);
  cevents : list can_event
}.
#[export] Instance eta_cworld : Settable cworld :=
  fun s => mk_cworld (cbrd s) (hw s) (cp s) (csched s) (cevents s).

#[export] Instance lens_cbrd : Lens board cworld :=
  {| view := cbrd; put := fun b w => w{{ cbrd := b }} |}.
#[export] Instance lens_hw : Lens can_st cworld :=
  {| view := hw; put := fun s w => w{{ hw := s }} |}.
#[export] Instance lens_cp : Lens canpt_st cworld :=
  {| view := cp; put := fun s w => w{{ cp := s }} |}.

Definition cget {A} (f : canpt_st -> A) : M cworld A := zoom (gets f : M canpt_st A).
Definition cst (f : canpt_st -> canpt_st) : M cworld unit :=
  zoom (modify f : M canpt_st unit).

(** ** The message queue *)

(** The queue copies the message into its slot. *)
Definition q_put (d : CAN_MSG_Type) : M canpt_st unit :=
  s ← get;
  if rxMsgOut s =? (rxMsgIn s + 1) mod NUM_RX_MSGS then mret tt
  else
    ms ← aset (rxMsgs s) (rxMsgIn s) d;
    modify (fun s : canpt_st => s{{ rxMsgs := ms;
      rxMsgIn := u8 ((rxMsgIn s + 1) mod NUM_RX_MSGS) }}).

(** The result points into the queue: it is the slot, [None] for NULL. *)
Definition q_get : M canpt_st (option Z) :=
  s ← get;
  if rxMsgIn s =? rxMsgOut s then mret None
  else
    let m := rxMsgOut s in
    modify (fun s : canpt_st => s{{
      rxMsgOut := u8 ((rxMsgOut s + 1) mod NUM_RX_MSGS) }}) ;;
    mret (Some m).

Definition q_isEmpty (s : canpt_st) : bool := rxMsgIn s =? rxMsgOut s.

(** ** Interrupts and the clock *)

Definition receive_into_queue (CANx : LPC_CAN) : M cworld unit :=
  m ← cget rxMsg;
  r ← zoom (CAN_ReceiveMsg CANx m);
  cst (fun s => s{{ rxMsg := snd r }}) ;;
  m ← cget rxMsg;
  zoom (q_put m).

Definition CAN_IRQHandler : M cworld unit :=
  intStatus1 ← zoom (ICR_read LPC_CAN1);
  intStatus2 ← zoom (ICR_read LPC_CAN2);
  if negb (Z.land intStatus1 1 =? 0) then receive_into_queue LPC_CAN1
  else if negb (Z.land intStatus2 1 =? 0) then receive_into_queue LPC_CAN2
  else mret tt.

(** The interrupt line stays active while a controller has a receive interrupt
    pending, so that the handler is entered again when it returns. *)
Definition irq_pending (w : cworld) : bool :=
  Z.testbit (ICR (can1 (hw w))) 0 || Z.testbit (ICR (can2 (hw w))) 0.

Fixpoint serve_irqs (fuel : nat) : M cworld unit :=
  p ← gets irq_pending;
  if (p : bool) then
    match fuel with
    | O => fail OutOfFuel
    | S fuel' => CAN_IRQHandler ;; serve_irqs fuel'
    end
  else mret tt.

(** At most two interrupts can be pending at once, one for each controller. *)
Definition bus_event (e : hw_event) : M cworld unit :=
  zoom (hw_step e) ;; serve_irqs 2.

Definition can_preempt : M cworld unit := fun w =>
  match csched w with
  | [] => Ok (tt, w)
  | evs :: rest => foreach evs bus_event (w{{ csched := rest }})
  end.

Definition ctime_get : M cworld Z := can_preempt ;; zoom time_get.

(** ** Node protocol *)

Definition set_cnode (i : Z) (f : node_t -> node_t) : M cworld unit :=
  ns ← cget nodes;
  n ← aget ns i;
  ns' ← aset ns i (f n);
  cst (fun s => s{{ nodes := ns' }}).
Definition get_cnode (i : Z) : M cworld node_t := ns ← cget nodes; aget ns i.

Definition cupcall (e : can_event) : M cworld unit :=
  modify (fun w : cworld => w{{ cevents := cevents w ++ [e] }}).
(** [_cb != NULL && _cb->f != NULL]. *)
Definition chas (f : canpt_callb_t -> bool) : M cworld bool :=
  cget (fun s => from_option f false (cp_cb s)).

Definition node_is (id : Z) (n : node_t) : bool := reqId n =? id.

(** The capabilities come two to a byte. *)
Fixpoint publish_caps (fuel : nat) (i j : Z) (buf : list Z) (blen : Z) : M cworld unit :=
  match fuel with
  | O => fail OutOfFuel
  | S fuel' =>
      if negb (j <? blen) then mret tt
      else if Z.of_nat NODE_MAX_CAPS <=? j then mret tt
      else
        b ← aget buf j;
        n ← get_cnode i;
        cs ← aset (caps n) (j * 2) (Z.land b 0xf0);
        set_cnode i (fun n => n{{ caps := cs }}) ;;
        if Z.of_nat NODE_MAX_CAPS <=? j + 1 then mret tt
        else
          n ← get_cnode i;
          cs ← aset (caps n) (j * 2 + 1) (Z.land (Z.shiftl (Z.land b 0x0f) 4) 0xff);
          set_cnode i (fun n => n{{ caps := cs }}) ;;
          publish_caps fuel' i (j + 1) buf blen
  end.

Definition handlePublish (req : Z) (buf : list Z) (blen : Z) : M cworld unit :=
  ns ← cget nodes;
  if (find_idx (node_is req) ns <? NODE_MAX_NUM)%nat then mret tt
  else
    let i := find_idx (node_is 0) ns in
    if (i <? NODE_MAX_NUM)%nat then
      let i := Z.of_nat i in
      set_cnode i (fun n => n{{ reqId := req }}) ;;
      now ← ctime_get;
      set_cnode i (fun n => n{{ aliveTime := now }}) ;;
      cst (fun s => s{{ numNodes := u8 (numNodes s + 1) }}) ;;
      publish_caps 13 i 0 buf blen ;;
      has ← chas has_nodeAttached;
      when has (cupcall (nodeAttached req))
    else mret tt.

Definition handleValue (req periphId : Z) (buf : list Z) (blen : Z) : M cworld unit :=
  has ← chas has_value;
  when has (cupcall (valueUpdate req periphId buf blen)).

Definition handlePollResponse (req : Z) : M cworld unit :=
  ns ← cget nodes;
  let i := find_idx (node_is req) ns in
  if (i <? NODE_MAX_NUM)%nat then
    now ← ctime_get;
    set_cnode (Z.of_nat i) (fun n => n{{ aliveTime := now }})
  else mret tt.

Definition handleSubscribeResponse (req subId : Z) : M cworld unit :=
  has ← chas has_subStarted;
  when has (cupcall (subStarted req subId)).

(** The bytes of a message from [dataA[i]] on: the structure's fields follow each
    other. *)
Definition bytes_from (i : nat) (m : CAN_MSG_Type) : list Z :=
  drop i (dataA m ++ dataB m ++ [len m; format m; type m]).

Definition processCmnMessage (m : CAN_MSG_Type) : M cworld unit :=
  let mid := u8 (clear_bits (id m) CANPT_MSG_CMN_MASK) in
  if mid =? CANPT_MSG_CMN_ID_DISC then
    if 2 <? len m then
      d1 ← aget (dataA m) 1;
      if d1 =? CANPT_MSG_PUBLISH then
        d0 ← aget (dataA m) 0;
        handlePublish d0 (bytes_from 2 m) (u8 (len m - 2))
      else mret tt
    else mret tt
  else mret tt.

Definition processMessage (m : CAN_MSG_Type) : M cworld unit :=
  req ← aget (dataA m) 0;
  d1 ← aget (dataA m) 1;
  let t := Z.land d1 CANPT_MSG_TYPE_MASK in
  if t =? CANPT_MSG_VAL then
    handleValue req (Z.land d1 CANPT_MSG_DEV_MASK) (bytes_from 2 m) (u8 (len m - 2))
  else if t =? CANPT_MSG_PUBLISH then
    handlePublish req (bytes_from 2 m) (u8 (len m - 2))
  else if t =? CANPT_MSG_POLL then
    when (negb (Z.land d1 CANPT_MSG_POLL_RESP =? 0)) (handlePollResponse req)
  else if t =? CANPT_MSG_SUB then
    if negb (Z.land d1 CANPT_MSG_SUB_RESP =? 0) then
      d2 ← aget (dataA m) 2;
      handleSubscribeResponse req d2
    else mret tt
  else mret tt.

(** ** Requests

    [set_tx i v] is [txMsg.dataA[i] = v].  A function whose [return] is commented
    out ends without a value ([None]); using that value is a fault. *)

Definition set_tx (i v : Z) : M cworld unit :=
  m ← cget txMsg;
  d ← aset (dataA m) i v;
  cst (fun s => s{{ txMsg := (txMsg s){{ dataA := d }} }}).

Definition value_of {W A} (m : M W (option A)) : M W A :=
  r ← m;
  match r with
  | Some a => mret a
  | None => fail NoReturnValue
  end.

(** Wait until the transmission is complete or [to] is reached. *)
Definition wait_TCS (fuel : nat) (CANx : LPC_CAN) (to : Z) : M cworld unit :=
  while fuel (fun _ =>
    s ← zoom (CAN_GetCTRLStatus CANx CANCTRL_GLOBAL_STS);
    if negb (Z.land s CAN_GSR_TCS =? 0) then mret (Break tt)
    else
      now ← ctime_get;
      if now <? to then mret (Continue tt) else mret (Break tt)) tt.

(** Send a message and wait for its transmission: the common part of
    [sendMessage] and [canpt_task]. *)
Definition send_and_wait (fuel : nat) (CANx : LPC_CAN) (to : Z) (m : CAN_MSG_Type)
    : M cworld error_t :=
  status ← zoom (CAN_SendMsg CANx m);
  match status with
  | ERROR => mret ERR_CAN_SEND
  | SUCCESS =>
      wait_TCS fuel CANx to ;;
      now ← ctime_get;
      mret (if to <=? now then ERR_TIMEOUT else ERR_OK)
  end.

Definition sendMessage (fuel : nat) (CANx : LPC_CAN) (req dataLen : Z) : M cworld error_t :=
  cst (fun s => s{{ txMsg := (txMsg s){{ id := 0x20000; format := EXT_ID_FORMAT }} }}) ;;
  set_tx 0 CANPT_NODE_UNIQUE_ID ;;
  cst (fun s => s{{ txMsg := (txMsg s){{ len := u8 (dataLen + 1) }} }}) ;;
  now ← ctime_get;
  m ← cget txMsg;
  send_and_wait fuel CANx (u32 (now + 500)) m.

Definition canpt_poll (req : Z) : M cworld (option error_t) :=
  set_tx 1 CANPT_MSG_POLL ;; mret None.

Definition check_cnode (i : Z) : M cworld unit :=
  n ← get_cnode i;
  if negb (reqId n =? 0) then
    time ← ctime_get;
    if u32 (aliveTime n + NODE_ALIVE_TIME + NODE_POLL_TIME) <? time then
      has ← chas has_nodeDetached;
      when has (cupcall (nodeDetached (reqId n))) ;;
      set_cnode i (fun n => n{{ reqId := 0 }})
    else if u32 (lastPoll n + NODE_POLL_TIME) <? time then
      set_cnode i (fun n => n{{ lastPoll := time }}) ;;
      _ ← canpt_poll (reqId n);
      mret tt
    else mret tt
  else mret tt.

Definition checkIfNodesAlive : M cworld unit := foreach (range NODE_MAX_NUM) check_cnode.

Definition canpt_getValue (req periphId : Z) : M cworld (option error_t) :=
  if (periphId <? CANPT_MSG_DEV_TEMP) || (CANPT_MSG_DEV_LED <? periphId)
  then mret (Some ERR_ARGUMENT)
  else set_tx 1 (Z.lor CANPT_MSG_GET periphId) ;; mret None.

Definition canpt_discover : M cworld (option error_t) := mret None.

Definition canpt_getTemperature (req : Z) : M cworld error_t :=
  value_of (canpt_getValue req CANPT_MSG_DEV_TEMP).
Definition canpt_getLight (req : Z) : M cworld error_t :=
  value_of (canpt_getValue req CANPT_MSG_DEV_LIGHT).
Definition canpt_getButton (req : Z) : M cworld error_t :=
  value_of (canpt_getValue req CANPT_MSG_DEV_BTN).

Definition canpt_setRgb (req msk on : Z) : M cworld (option error_t) :=
  set_tx 1 (Z.lor CANPT_MSG_SET CANPT_MSG_DEV_RGB) ;;
  set_tx 2 msk ;; set_tx 3 on ;; mret None.

Definition canpt_setLed (req on : Z) : M cworld (option error_t) :=
  set_tx 1 (Z.lor CANPT_MSG_SET CANPT_MSG_DEV_LED) ;;
  set_tx 2 on ;; mret None.

(** The value bytes go to [dataA[3]] and then to [dataB]. *)
Definition put_value (valBuf : list Z) (i : Z) : M cworld unit :=
  b ← aget valBuf i;
  if i =? 0 then set_tx 3 b
  else
    m ← cget txMsg;
    d ← aset (dataB m) (i - 1) b;
    cst (fun s => s{{ txMsg := (txMsg s){{ dataB := d }} }}).

Definition canpt_subscribe (req periphId subAct : Z) (valBuf : list Z) (blen : Z)
    : M cworld (option error_t) :=
  if (periphId <? CANPT_MSG_DEV_TEMP) || (CANPT_MSG_DEV_LED <? periphId)
  then mret (Some ERR_ARGUMENT)
  else if (subAct <? CANPT_MSG_SUB_GTE) || (CANPT_MSG_SUB_DIF <? subAct)
  then mret (Some ERR_ARGUMENT)
  else if 4 <? blen then mret (Some ERR_ARGUMENT)
  else
    set_tx 1 (Z.lor CANPT_MSG_SUB subAct) ;;
    set_tx 2 periphId ;;
    foreach (range (Z.to_nat blen)) (put_value valBuf) ;;
    mret None.

Definition canpt_unsubscribe (req subId : Z) : M cworld (option error_t) :=
  set_tx 1 CANPT_MSG_UNSUB ;;
  set_tx 2 subId ;; mret None.

(** ** Queries *)

Fixpoint list_ids (ns : list node_t) (room : Z) : list Z :=
  match ns with
  | [] => []
  | n :: ns' =>
      if negb (reqId n =? 0) && (0 <? room) then reqId n :: list_ids ns' (room - 1)
      else list_ids ns' room
  end.

Definition canpt_getNodes (nodeIdBuf : option (list Z)) (blen : Z) (numNodes_ : bool)
    : M cworld (error_t * list Z) :=
  match nodeIdBuf with
  | Some buf =>
      if negb numNodes_ || (blen =? 0) then mret (ERR_ARGUMENT, [])
      else
        ns ← cget nodes;
        let ids := list_ids ns blen in
        guard (length ids <=? length buf)%nat OutOfBounds ;;
        mret (ERR_OK, ids)
  | None => mret (ERR_ARGUMENT, [])
  end.

(** The capabilities up to the first 0. *)
Fixpoint list_caps (cs : list Z) (room : Z) : list Z :=
  match cs with
  | [] => []
  | c :: cs' =>
      if room <=? 0 then [] else if c =? 0 then [] else c :: list_caps cs' (room - 1)
  end.

Definition canpt_getNodeCaps (nodeId : Z) (nodeCapBuf : option (list Z)) (blen : Z)
    (numCaps : bool) : M cworld (error_t * list Z) :=
  match nodeCapBuf with
  | Some buf =>
      if negb numCaps || (blen =? 0) then mret (ERR_ARGUMENT, [])
      else
        ns ← cget nodes;
        match ns !! find_idx (node_is nodeId) ns with
        | None => mret (ERR_ARGUMENT, [])
        | Some n =>
            let ids := list_caps (caps n) blen in
            guard (length ids <=? length buf)%nat OutOfBounds ;;
            mret (ERR_OK, ids)
        end
  | None => mret (ERR_ARGUMENT, [])
  end.

(** ** Initialisation and task *)

Definition canpt_init : M cworld unit :=
  zoom (CAN_Init LPC_CAN1 CANPT_CAN1_BAUDRATE) ;;
  zoom (CAN_Init LPC_CAN2 CANPT_CAN2_BAUDRATE) ;;
  _ ← zoom (zoom (CAN_LoadExplicitEntry LPC_CAN2 CANPT_CAN2_ID STD_ID_FORMAT) : M can_st CAN_ERROR);
  _ ← zoom (zoom (CAN_LoadGroupEntry LPC_CAN2 0x000 0x00F STD_ID_FORMAT) : M can_st CAN_ERROR);
  _ ← zoom (zoom (CAN_LoadExplicitEntry LPC_CAN1 0x20000 EXT_ID_FORMAT) : M can_st CAN_ERROR);
  _ ← zoom (zoom (CAN_LoadGroupEntry LPC_CAN1 0x1FFFF 0x20001 EXT_ID_FORMAT) : M can_st CAN_ERROR);
  zoom (zoom (set_AFMR 4) : M can_st unit) ;;
  cst (fun s => s{{ txMsg := (txMsg s){{ format := STD_ID_FORMAT; type := DATA_FRAME }};
                    rxMsg := (rxMsg s){{ id := 0; format := 0; type := 0; len := 0 }} }}) ;;
  zoom (CAN_IRQCmd LPC_CAN1 CANINT_RIE true) ;;
  zoom (CAN_IRQCmd LPC_CAN2 CANINT_RIE true).

(** The message is read through the pointer into the queue when it is sent, after
    the clock was read. *)
Definition canpt_task (fuel : nat) : M cworld unit :=
  e ← cget q_isEmpty;
  if negb e then
    p ← zoom q_get;
    match p with
    | None => fail NullDeref
    | Some slot =>
        now ← ctime_get;
        ms ← cget rxMsgs;
        m ← aget ms slot;
        _ ← send_and_wait fuel LPC_CAN2 (u32 (now + 500)) m;
        mret tt
    end
  else mret tt.
