(* ===== verification/CanptFacts.v ===== *)
(** * The CAN gateway: the message queue and what is forwarded *)

From S2P Require Import Prelude Ring Board BoardFacts Xbee Clkpwr CanAf CanAfFacts Can CanFacts Canpt.

(** ** The queue of received messages *)

Lemma take4_app (l a b : list CAN_MSG_Type) : take 4 (take 4 (l ++ a) ++ b) = take 4 (l ++ a ++ b).
Proof.
  rewrite app_assoc. destruct (decide (length (l ++ a) <= 4)%nat).
  - by rewrite (take_ge (l ++ a)) by lia.
  - rewrite (take_app_le (take 4 _)), (take_app_le (l ++ a)) by (rewrite ?length_take; lia).
    by rewrite take_take.
Qed.

Definition cq_inv (s : canpt_st) (l : list CAN_MSG_Type) : Prop :=
  length (rxMsgs s) = 5%nat /\ 0 <= rxMsgIn s < 5 /\ 0 <= rxMsgOut s < 5 /\
  ring_rep 5 (rxMsgs s) (rxMsgIn s) (rxMsgOut s) l.

(** The message read through the pointer right away. *)
Definition q_take : M canpt_st (option CAN_MSG_Type) := fun s =>
  match q_get s with
  | Ok (Some slot, s') => Ok (rxMsgs s !! Z.to_nat slot, s')
  | Ok (None, s') => Ok (None, s')
  | Fault f => Fault f
  end.

Lemma q_put_run s l d : cq_inv s l ->
  q_put d s = Ok (tt, if (length l <? 4)%nat
    then s{{ rxMsgs := <[Z.to_nat (rxMsgIn s) := d]> (rxMsgs s);
             rxMsgIn := (rxMsgIn s + 1) mod 5 }}
    else s).
Proof.
  intros (Hl & Hi & Ho & Hr). unfold q_put, NUM_RX_MSGS. erewrite bind_ok by done.
  pose proof (ring_full_iff 5 _ _ _ _ Hi Ho Hr) as Hfull.
  pose proof (ring_length_lt 5 _ _ _ _ ltac:(lia) Hr) as Hlt.
  destruct (Nat.ltb_spec (length l) 4);
    destruct (Z.eqb_spec (rxMsgOut s) ((rxMsgIn s + 1) mod 5)); try lia; [|done].
  erewrite bind_ok by (apply aset_ok; lia). unfold modify, u8. do 2 f_equal.
  rewrite (Z.mod_small _ 256) by lia. done.
Qed.

Lemma cq_put_ok s l d : cq_inv s l ->
  exists s', q_put d s = Ok (tt, s') /\ cq_inv s' (take 4 (l ++ [d])) /\
    txMsg s' = txMsg s /\ rxMsg s' = rxMsg s /\
    (forall slot, slot <> Z.to_nat (rxMsgIn s) -> rxMsgs s' !! slot = rxMsgs s !! slot).
Proof.
  intros Hs. rewrite (q_put_run s l d Hs). eexists. split; [done|].
  destruct Hs as (Hl & Hi & Ho & Hr).
  pose proof (ring_length_lt 5 _ _ _ _ ltac:(lia) Hr) as Hlt.
  destruct (Nat.ltb_spec (length l) 4).
  - rewrite take_ge by (rewrite length_app; simpl; lia). simpl.
    split_and!; try done; [|intros slot Hne; by rewrite list_lookup_insert_ne].
    unfold cq_inv. simpl. rewrite length_insert. split_and!; try lia. apply ring_put; lia || done.
  - rewrite take_app_le, take_ge by lia. done.
Qed.

Lemma cq_get_cons s m l : cq_inv s (m :: l) ->
  q_get s = Ok (Some (rxMsgOut s), s{{ rxMsgOut := (rxMsgOut s + 1) mod 5 }}) /\
  rxMsgs s !! Z.to_nat (rxMsgOut s) = Some m /\
  cq_inv (s{{ rxMsgOut := (rxMsgOut s + 1) mod 5 }}) l.
Proof.
  intros (Hl & Hi & Ho & Hr). unfold q_get, NUM_RX_MSGS. erewrite bind_ok by done.
  pose proof (ring_empty_iff 5 _ _ _ _ Hi Ho Hr) as Hemp.
  destruct (ring_get 5 _ _ _ _ _ Hi Ho Hr) as [Hd Hr'].
  destruct (Z.eqb_spec (rxMsgIn s) (rxMsgOut s)) as [e|_]; [apply Hemp in e; done|].
  split; [|split; [done|]].
  - unfold modify, u8. cbv beta zeta. erewrite bind_ok by done.
    rewrite (Z.mod_small _ 256) by lia. done.
  - unfold cq_inv. simpl. split_and!; try lia. done.
Qed.

Lemma cq_isEmpty_iff s l : cq_inv s l -> (q_isEmpty s = true <-> l = []).
Proof.
  intros (_ & Hi & Ho & Hr). unfold q_isEmpty. rewrite Z.eqb_eq.
  by apply (ring_empty_iff 5 _ _ _ _ Hi Ho Hr).
Qed.

#[export] Program Instance canpt_fifo : BoundedFifo canpt_st CAN_MSG_Type := {|
  fifo_inv := cq_inv;
  fifo_cap := 4;
  fifo_put := q_put;
  fifo_get := q_take;
  fifo_isEmpty := q_isEmpty
|}.
Next Obligation.
  intros s l d Hs Hlt. destruct (cq_put_ok s l d Hs) as (s' & E & Hs' & _).
  exists s'. split; [done|]. by rewrite take_ge in Hs' by (rewrite length_app; simpl; lia).
Qed.
Next Obligation.
  intros s Hs. unfold q_take, q_get. erewrite bind_ok by done.
  pose proof (proj2 (cq_isEmpty_iff s [] Hs) eq_refl) as E. unfold q_isEmpty in E. by rewrite E.
Qed.
Next Obligation.
  intros s d l Hs. destruct (cq_get_cons s d l Hs) as (E & Hd & Hs').
  unfold q_take. rewrite E, Hd. eauto.
Qed.
Next Obligation. intros. by apply cq_isEmpty_iff. Qed.

(** The slot that [q_get] handed out last still holds the message [m]. *)
Definition holds (slot : Z) (m : CAN_MSG_Type) (s : canpt_st) : Prop :=
  0 <= slot < 5 /\ rxMsgOut s = (slot + 1) mod 5 /\ rxMsgs s !! Z.to_nat slot = Some m.

Lemma q_put_holds s l d s' slot m :
  cq_inv s l -> q_put d s = Ok (tt, s') -> holds slot m s -> holds slot m s'.
Proof.
  intros Hs E (Hslot & Hout & Hm). rewrite (q_put_run s l d Hs) in E. injection E as <-.
  destruct (Nat.ltb_spec (length l) 4); [|done]. split; [done|]. split; [done|]. simpl.
  rewrite list_lookup_insert_ne; [done|]. destruct Hs as (_ & Hi & Ho & Hr).
  pose proof (ring_full_iff 5 _ _ _ _ Hi Ho Hr). intros Heq.
  assert (Hin : rxMsgIn s = slot) by lia. rewrite Hin in *. lia.
Qed.

(** With more messages put the queue holds the first of them, four in all, and the
    slot handed out still holds its message. *)
Lemma q_puts_hold ds s l slot m :
  cq_inv s l -> holds slot m s ->
  exists s', foreach ds q_put s = Ok (tt, s') /\ cq_inv s' (take 4 (l ++ ds)) /\ holds slot m s'.
Proof.
  revert s l. induction ds as [|d ds IH]; intros s l Hs Hm; simpl.
  - exists s. pose proof (ring_length_lt 5 _ _ _ _ ltac:(lia) (proj2 (proj2 (proj2 Hs)))).
    rewrite app_nil_r, take_ge by lia. done.
  - destruct (cq_put_ok s l d Hs) as (s1 & E1 & Hs1 & _).
    pose proof (q_put_holds s l d s1 slot m Hs E1 Hm) as Hm1.
    destruct (IH s1 _ Hs1 Hm1) as (s2 & E2 & Hs2 & Hm2).
    exists s2. erewrite bind_ok by exact E1. split_and!; [done| |done].
    by rewrite take4_app in Hs2.
Qed.

(** C3: [q_get] returns a pointer into the queue.  However many messages the interrupt
    handler puts after it, the message stays where the pointer points, and the queue
    holds those that were there and the first of the new ones, four in all. *)
Theorem q_get_slot_stable s m l ds (Hs : cq_inv s (m :: l)) :
  exists slot s1 s2, q_get s = Ok (Some slot, s1) /\ foreach ds q_put s1 = Ok (tt, s2) /\
    rxMsgs s2 !! Z.to_nat slot = Some m /\ cq_inv s2 (take 4 (l ++ ds)).
Proof.
  destruct (cq_get_cons s m l Hs) as (E & Hm & Hs1).
  edestruct (q_puts_hold ds _ l (rxMsgOut s) m Hs1) as (s2 & E2 & Hs2 & Hm2);
    [by destruct Hs as (_ & _ & ? & _)|].
  exists (rxMsgOut s). eexists _, s2. split_and!; [exact E|done|apply Hm2|done].
Qed.

(** ** Reception *)

(** The message a data frame is read as. *)
Definition msg_of_frame (f : frame) : CAN_MSG_Type :=
  mk_msg (f_id f) (unpack_data (f_a f)) (unpack_data (f_b f))
    (u8 (Z.shiftr (Z.land (f_info f) 0x000F0000) 16))
    (u8 (Z.shiftr (Z.land (f_info f) 0x80000000) 31)) DATA_FRAME.

Definition is_remote (f : frame) : bool := Z.testbit (f_info f) 30.

(** A data frame, with an identifier of its format. *)
Definition frame_ok (f : frame) : Prop :=
  is_remote f = false /\ 0 <= f_id f < 2 ^ (if Z.testbit (f_info f) 31 then 29 else 11).

Lemma type_field x :
  u8 (Z.shiftr (Z.land x 0x40000000) 30) = Z.b2z (Z.testbit x 30).
Proof.
  change 0x40000000 with (2 ^ 30). rewrite bit_field by lia. by destruct Z.testbit.
Qed.

Lemma format_field x :
  u8 (Z.shiftr (Z.land x 0x80000000) 31) = Z.b2z (Z.testbit x 31).
Proof.
  change 0x80000000 with (2 ^ 31). rewrite bit_field by lia. by destruct Z.testbit.
Qed.

Lemma len_field x :
  u8 (Z.shiftr (Z.land x 0x000F0000) 16) = Z.shiftr x 16 mod 16.
Proof.
  change 0x000F0000 with (Z.shiftl 0xF 16).
  rewrite Z.shiftr_land, Z.shiftr_shiftl_l, Z.sub_diag, Z.shiftl_0_r by lia.
  change 0xF with (Z.ones 4). rewrite Z.land_ones by lia. unfold u8. lia.
Qed.

Lemma unpack_data_ok w : data_ok (unpack_data w).
Proof.
  split; [done|]. unfold unpack_data.
  change 0xFF000000 with (Z.shiftl 0xFF 24). change 0x00FF0000 with (Z.shiftl 0xFF 16).
  change 0x0000FF00 with (Z.shiftl 0xFF 8).
  rewrite !byte_field by lia. change 0xFF with (Z.ones 8). rewrite Z.land_ones by lia.
  unfold byte_ok. repeat constructor; lia.
Qed.

Lemma msg_of_frame_ok f : frame_ok f -> msg_ok (msg_of_frame f).
Proof.
  intros [Hr Hid]. split; simpl; try apply unpack_data_ok.
  - rewrite len_field. lia.
  - rewrite format_field. destruct (Z.testbit (f_info f) 31); [right|left]; done.
  - by left.
Qed.

(** A controller between two receptions: its buffer is free and the receive
    interrupt enabled. *)
Definition rx_idle (r : can_regs) : Prop :=
  Z.testbit (SR r) 0 = false /\ Z.testbit (ICR r) 0 = false /\ Z.testbit (IER r) 0 = true.

(** The gateway between two interrupts: [l] waits in the queue. *)
Record gw_ok (w : cworld) (l : list CAN_MSG_Type) : Prop := {
  gw_rx : forall c, rx_idle (regs_of c (hw w));
  gw_q : cq_inv (cp w) l;
  gw_msgs : Forall msg_ok l
}.

(** Nothing is sent, and a free first buffer stays free. *)
Definition tx_kept (r r' : can_regs) : Prop :=
  requested r' = requested r /\ TB1 r' = TB1 r /\ (tx_free r = true -> tx_free r' = true).

#[export] Instance tx_kept_preorder : PreOrder tx_kept.
Proof.
  split; [done|]. intros r1 r2 r3 (A1 & B1 & C1) (A2 & B2 & C2).
  split_and!; [congruence|congruence|auto].
Qed.

(** What reception leaves alone. *)
Definition rx_frame (w w' : cworld) : Prop :=
  (forall c, tx_kept (regs_of c (hw w)) (regs_of c (hw w'))) /\
  cbrd w' = cbrd w /\ csched w' = csched w /\
  (forall slot m, holds slot m (cp w) -> holds slot m (cp w')).

Lemma regs_of_set_ne c c' r s : c <> c' -> regs_of c (set_regs_of c' r s) = regs_of c s.
Proof. by destruct c, c'. Qed.

Lemma bit0_land x : negb (Z.land x 1 =? 0) = Z.testbit x 0.
Proof.
  pose proof (bit_field x 0) as H. rewrite Z.shiftr_0_r in H. change (2 ^ 0) with 1 in H.
  rewrite H by lia. by destruct Z.testbit.
Qed.

(** The handler, when controller [c] has its receive interrupt pending and the first
    controller does not come before it. *)
Lemma CAN_IRQHandler_run c w :
  Z.testbit (ICR (regs_of c (hw w))) 0 = true ->
  (c = LPC_CAN2 -> Z.testbit (ICR (can1 (hw w))) 0 = false) ->
  exists hw1, CAN_IRQHandler w = receive_into_queue c (w{{ hw := hw1 }}) /\
    (forall c', regs_of c' hw1 = (regs_of c' (hw w)){{ ICR := Z.land (ICR (regs_of c' (hw w))) 1 }}).
Proof.
  intros Hc H1. unfold CAN_IRQHandler.
  erewrite bind_ok by (apply zoom_ok, run_ICR_read).
  erewrite bind_ok by (apply zoom_ok, run_ICR_read). rewrite !bit0_land.
  set (hw2 := set_regs_of LPC_CAN2 _ _). exists hw2. split.
  - destruct c.
    + simpl in Hc |- *. by rewrite Hc.
    + specialize (H1 eq_refl). simpl in H1, Hc |- *. by rewrite H1, Hc.
  - by intros [].
Qed.

Lemma cget_run {A} (f : canpt_st -> A) w : cget f w = Ok (f (cp w), w).
Proof. by destruct w. Qed.

Lemma receive_into_queue_run c w l :
  cq_inv (cp w) l -> Z.testbit (SR (regs_of c (hw w))) 0 = true ->
  Z.testbit (RFS (regs_of c (hw w))) 30 = false ->
  let r := regs_of c (hw w) in
  let m := msg_of_frame (mk_frame (RFS r) (RID r) (RDA r) (RDB r)) in
  exists cp', receive_into_queue c w =
      Ok (tt, w{{ hw := set_regs_of c (CMR_write 0x04 r) (hw w); cp := cp' }}) /\
    cq_inv cp' (take 4 (l ++ [m])) /\
    (forall slot m, holds slot m (cp w) -> holds slot m cp').
Proof.
  intros Hq Hsr Ht r m. unfold receive_into_queue.
  erewrite bind_ok by apply cget_run.
  erewrite bind_ok.
  2: { apply zoom_ok, CAN_ReceiveMsg_run; [done|]. rewrite type_field.
       change (@view can_st cworld _ w) with (hw w). by rewrite Ht. }
  erewrite bind_ok by (by apply zoom_ok). erewrite bind_ok by apply cget_run.
  assert (Hq1 : cq_inv ((cp w){{ rxMsg := m }}) l) by exact Hq.
  destruct (cq_put_ok ((cp w){{ rxMsg := m }}) l m Hq1) as (cp' & E & Hq' & _).
  exists cp'. split; [|split; [done|]].
  2: { intros slot m' H. by eapply (q_put_holds ((cp w){{ rxMsg := m }}) l m). }
  pose proof (zoom_ok (q_put m) (w{{ hw := set_regs_of c (CMR_write 0x04 r) (hw w);
    cp := (cp w){{ rxMsg := m }} }}) tt cp' E) as E'.
  exact E'.
Qed.

(** ** One event on the bus *)

Definition arrival (e : hw_event) : list CAN_MSG_Type :=
  match e with FrameArrives _ f => [msg_of_frame f] | TransmitDone _ => [] end.
Definition event_ok (e : hw_event) : Prop :=
  match e with FrameArrives _ f => frame_ok f | TransmitDone _ => True end.

Lemma not_pending w l : gw_ok w l -> irq_pending w = false.
Proof.
  intros [Hrx _ _]. unfold irq_pending.
  destruct (Hrx LPC_CAN1) as (_ & H1 & _), (Hrx LPC_CAN2) as (_ & H2 & _).
  cbn [regs_of] in H1, H2. by rewrite H1, H2.
Qed.

Lemma serve_none n w l : gw_ok w l -> serve_irqs n w = Ok (tt, w).
Proof.
  intros Hw. pose proof (not_pending w l Hw) as E.
  destruct n; simpl; (erewrite bind_ok by done); by rewrite E.
Qed.

(** A buffer that the frame [f] has reached, its interrupt pending. *)
Definition rx_pending (f : frame) (r0 r : can_regs) : Prop :=
  Z.testbit (SR r) 0 = true /\ Z.testbit (ICR r) 0 = true /\ Z.testbit (IER r) 0 = true /\
  mk_frame (RFS r) (RID r) (RDA r) (RDB r) = f /\
  tx_kept r0 r.

Lemma receive_frame_pending f r : rx_idle r -> rx_pending f r (receive_frame f r).
Proof.
  intros (Hs & Hi & He). unfold receive_frame. rewrite Hs, He.
  assert (H : forall x, Z.testbit (Z.lor x 1) 0 = true)
    by (intros; by rewrite Z.lor_spec, orb_true_r).
  split; [apply H|]. split; [apply H|]. split_and!; try done; [by destruct f|].
  split_and!; try done. unfold tx_free. intros H2.
  change (Z.testbit (Z.lor (SR r) 1) 2 = true). by rewrite Z.lor_spec, H2.
Qed.

Lemma transmit_done_kept r : tx_kept r (transmit_done r).
Proof.
  split_and!; try done. intros _. unfold tx_free.
  change (Z.testbit (Z.lor (SR r) 0xC) 2 = true). by rewrite Z.lor_spec, orb_true_r.
Qed.

Lemma transmit_done_idle r : rx_idle r -> rx_idle (transmit_done r).
Proof.
  intros (Hs & Hi & He). split; [|done]. unfold transmit_done. 
  change (Z.testbit (Z.lor (SR r) 0xC) 0 = false). by rewrite Z.lor_spec, Hs.
Qed.

Lemma released_idle r : Z.testbit (IER r) 0 = true -> rx_idle (CMR_write 0x04 r).
Proof.
  intros He. split; [|split; [|done]].
  - unfold CMR_write. simpl. by apply (testbit_cleared _ _ 0).
  - unfold CMR_write. simpl. by apply (testbit_cleared _ _ 0).
Qed.

Lemma CMR_release_kept r : tx_kept r (CMR_write 0x04 r).
Proof.
  split_and!; [by apply app_nil_r|done|]. unfold tx_free. intros H.
  change (Z.testbit (clear_bits (clear_bits (SR r) 0) 0x010101) 2 = true).
  by rewrite !testbit_clear, H by lia.
Qed.

(** A pending frame is taken into the queue, and nothing is pending afterwards. *)
Lemma serve_one n c f w0 w l :
  frame_ok f -> gw_ok w0 l ->
  rx_pending f (regs_of c (hw w0)) (regs_of c (hw w)) ->
  (forall c', c' <> c -> regs_of c' (hw w) = regs_of c' (hw w0)) ->
  cp w = cp w0 -> cbrd w = cbrd w0 -> csched w = csched w0 ->
  exists w', serve_irqs (S n) w = Ok (tt, w') /\
    gw_ok w' (take 4 (l ++ [msg_of_frame f])) /\ rx_frame w0 w'.
Proof.
  intros [Hrem Hid] [Hrx Hq Hms] (Hs & Hi & He & Hf & Hk) Hne Ecp Eb Es.
  assert (Hpend : irq_pending w = true).
  { unfold irq_pending. destruct c; cbn [regs_of] in Hi; by rewrite Hi, ?orb_true_r. }
  cbn [serve_irqs]. erewrite bind_ok by done. rewrite Hpend.
  destruct (CAN_IRQHandler_run c w Hi) as (hw1 & E1 & Hh1).
  { intros ->. specialize (Hne LPC_CAN1 ltac:(done)). cbn [regs_of] in Hne. rewrite Hne.
    apply (Hrx LPC_CAN1). }
  destruct (receive_into_queue_run c (w{{ hw := hw1 }}) l) as (cp' & E2 & Hq' & Hh).
  { simpl. by rewrite Ecp. }
  { simpl. rewrite Hh1. exact Hs. }
  { simpl. rewrite Hh1. rewrite <- Hf in Hrem. exact Hrem. }
  rewrite E2 in E1. change (hw (w{{ hw := hw1 }})) with hw1 in *.
  assert (Hm : mk_frame (RFS (regs_of c hw1)) (RID (regs_of c hw1)) (RDA (regs_of c hw1))
    (RDB (regs_of c hw1)) = f) by (rewrite Hh1; exact Hf).
  rewrite Hm in Hq'. erewrite bind_ok by exact E1.
  set (w' := (w{{ hw := hw1 }}){{ hw := set_regs_of c (CMR_write 0x04 (regs_of c hw1)) hw1;
                                  cp := cp' }}).
  assert (Hc : regs_of c (hw w') = CMR_write 0x04 (regs_of c hw1)) by apply regs_of_set.
  assert (Hc' : forall c', c' <> c -> regs_of c' (hw w') =
    (regs_of c' (hw w0)){{ ICR := Z.land (ICR (regs_of c' (hw w0))) 1 }}).
  { intros c' H. transitivity (regs_of c' hw1); [by apply regs_of_set_ne|].
    by rewrite Hh1, Hne. }
  assert (Hgw : gw_ok w' (take 4 (l ++ [msg_of_frame f]))).
  { split; [|done|].
    - intros c'. destruct (decide (c' = c)) as [-> | H].
      + rewrite Hc. apply released_idle. by rewrite Hh1.
      + rewrite (Hc' c' H). destruct (Hrx c') as (H1 & H2 & H3). split_and!; [done| |done].
        change (Z.testbit (Z.land (ICR (regs_of c' (hw w0))) 1) 0 = false).
        by rewrite Z.land_spec, H2.
    - apply Forall_take, Forall_app. split; [done|]. constructor; [by apply msg_of_frame_ok|done]. }
  exists w'. split_and!; [by apply (serve_none n w' _ Hgw)|done|].
  split; [|split_and!; [done|done|]; rewrite <- Ecp; exact Hh].
  intros c'. destruct (decide (c' = c)) as [-> | H].
  - rewrite Hc. etransitivity; [|apply CMR_release_kept]. rewrite Hh1.
    etransitivity; [exact Hk|done].
  - by rewrite (Hc' c' H).
Qed.

#[export] Instance rx_frame_preorder : PreOrder rx_frame.
Proof.
  split; [done|]. intros w1 w2 w3 (R1 & B1 & S1 & E1) (R2 & B2 & S2 & E2).
  split; [|split_and!; try congruence; intros; apply E2, E1; done].
  intros c. etransitivity; [apply R1|apply R2].
Qed.

Lemma bus_event_run e w l :
  gw_ok w l -> event_ok e ->
  exists w', bus_event e w = Ok (tt, w') /\ gw_ok w' (take 4 (l ++ arrival e)) /\ rx_frame w w'.
Proof.
  intros Hw He. unfold bus_event. destruct e as [c f|c]; cbn [hw_step].
  - erewrite bind_ok by (apply zoom_ok, run_set_regs).
    set (w1 := put _ w).
    assert (Hc : regs_of c (hw w1) = receive_frame f (regs_of c (hw w))) by apply regs_of_set.
    eapply (serve_one 1 c f w w1 l); try done.
    + rewrite Hc. apply receive_frame_pending. apply Hw.
    + intros c' H. by apply regs_of_set_ne.
  - erewrite bind_ok by (apply zoom_ok, run_set_regs).
    set (w1 := put _ w).
    assert (Hc : regs_of c (hw w1) = transmit_done (regs_of c (hw w))) by apply regs_of_set.
    assert (Hc' : forall c', c' <> c -> regs_of c' (hw w1) = regs_of c' (hw w))
      by (intros c' H; by apply regs_of_set_ne).
    destruct Hw as [Hrx Hq Hms].
    pose proof (ring_length_lt 5 _ _ _ _ ltac:(lia) (proj2 (proj2 (proj2 Hq)))).
    assert (Hw1 : gw_ok w1 (take 4 (l ++ []))).
    { rewrite app_nil_r, take_ge by lia. split; [|done|done]. intros c'.
      destruct (decide (c' = c)) as [-> |H']; [rewrite Hc; by apply transmit_done_idle|].
      by rewrite Hc'. }
    exists w1. split_and!; [by eapply serve_none|done|]. split; [|done].
    intros c'. destruct (decide (c' = c)) as [-> |H']; [rewrite Hc; apply transmit_done_kept|by rewrite Hc'].
Qed.

(** C32: A frame that reaches a controller is in the queue when the interrupt handler has
    returned, behind those that were waiting, or dropped when four were waiting; the
    receive buffer is free again, and nothing is pending. *)
Theorem frame_is_queued c f w l (Hw : gw_ok w l) (Hf : frame_ok f) :
  exists w', bus_event (FrameArrives c f) w = Ok (tt, w') /\
    gw_ok w' (take 4 (l ++ [msg_of_frame f])).
Proof.
  destruct (bus_event_run (FrameArrives c f) w l Hw Hf) as (w' & E & Hw' & _). eauto.
Qed.

(** The frames of a list of events. *)
Definition arrivals (es : list hw_event) : list CAN_MSG_Type := concat (map arrival es).

Lemma gw_short w l : gw_ok w l -> take 4 l = l.
Proof.
  intros [_ (_ & _ & _ & Hr) _]. pose proof (ring_length_lt 5 _ _ _ _ ltac:(lia) Hr).
  apply take_ge. lia.
Qed.

Lemma bus_events_run es w l :
  gw_ok w l -> Forall event_ok es ->
  exists w', foreach es bus_event w = Ok (tt, w') /\ gw_ok w' (take 4 (l ++ arrivals es)) /\
    rx_frame w w'.
Proof.
  revert w l. induction es as [|e es IH]; intros w l Hw He; simpl.
  - exists w. unfold arrivals. simpl. by rewrite app_nil_r, (gw_short w l Hw).
  - apply Forall_cons in He as [He Hes].
    destruct (bus_event_run e w l Hw He) as (w1 & E1 & Hw1 & Hf1).
    destruct (IH w1 _ Hw1 Hes) as (w2 & E2 & Hw2 & Hf2).
    exists w2. erewrite bind_ok by exact E1. split_and!; [done| |by etransitivity].
    by rewrite take4_app in Hw2.
Qed.

Definition next_events (w : cworld) : list hw_event := default [] (head (csched w)).

(** A read of the clock by canpt.c. *)
Lemma ctime_get_run n w l :
  gw_ok w l -> Forall event_ok (next_events w) ->
  board_ok (cbrd w) -> word_ok (timeMs (cbrd w)) ->
  word_ok (timeMs (cbrd w) + ticks_in (S n) (cbrd w)) ->
  exists w', ctime_get w = Ok (timeMs (cbrd w'), w') /\
    gw_ok w' (take 4 (l ++ arrivals (next_events w))) /\
    board_ok (cbrd w') /\ word_ok (timeMs (cbrd w')) /\
    timeMs (cbrd w') = timeMs (cbrd w) + ticks_in 1 (cbrd w) /\
    (forall k, timeMs (cbrd w') + ticks_in k (cbrd w') =
       timeMs (cbrd w) + ticks_in (S k) (cbrd w)) /\
    csched w' = tail (csched w) /\
    (forall c, tx_kept (regs_of c (hw w)) (regs_of c (hw w'))) /\
    (forall slot m, holds slot m (cp w) -> holds slot m (cp w')).
Proof.
  intros Hw He Hb Hwd Hn.
  assert (exists w1, can_preempt w = Ok (tt, w1) /\
    gw_ok w1 (take 4 (l ++ arrivals (next_events w))) /\ cbrd w1 = cbrd w /\
    csched w1 = tail (csched w) /\
    (forall c, tx_kept (regs_of c (hw w)) (regs_of c (hw w1))) /\
    (forall slot m, holds slot m (cp w) -> holds slot m (cp w1)))
    as (w1 & E1 & Hw1 & Hb1 & Hs1 & Hr1 & Hh1).
  { unfold can_preempt, next_events in *. destruct (csched w) as [|evs rest] eqn:Es.
    - exists w. unfold arrivals. simpl. rewrite app_nil_r, (gw_short w l Hw). done.
    - destruct (bus_events_run evs (w{{ csched := rest }}) l) as (w1 & E1 & Hw1 & Hf1);
        [by destruct Hw|done|].
      exists w1. destruct Hf1 as (Hr & Hb1 & Hs1 & Hh). done. }
  destruct (time_get_nowrap n (cbrd w)) as (b1 & E2 & Hb2 & Hw2 & Ht2 & Hn2); [done..|].
  exists (w1{{ cbrd := b1 }}). unfold ctime_get. erewrite bind_ok by exact E1.
  rewrite <- Hb1 in E2. split_and!; try done.
  - exact (zoom_ok time_get w1 _ b1 E2).
  - by destruct Hw1.
Qed.

(** ** The gateway task *)

(** The world as the gateway's task meets it: the clock has [n] more reads before it
    wraps, and only data frames come. *)
Record clock_ok (n : nat) (w : cworld) : Prop := {
  ck_board : board_ok (cbrd w);
  ck_time : word_ok (timeMs (cbrd w));
  ck_ticks : word_ok (timeMs (cbrd w) + ticks_in n (cbrd w));
  ck_events : Forall (Forall event_ok) (csched w)
}.

Definition same_tx (w w' : cworld) : Prop :=
  forall c, tx_kept (regs_of c (hw w)) (regs_of c (hw w')).

Lemma next_events_ok w : Forall (Forall event_ok) (csched w) -> Forall event_ok (next_events w).
Proof. unfold next_events. by destruct 1. Qed.

Lemma clock_read n w l :
  gw_ok w l -> clock_ok (S n) w ->
  exists w' xs, ctime_get w = Ok (timeMs (cbrd w'), w') /\ gw_ok w' (take 4 (l ++ xs)) /\
    clock_ok n w' /\
    (forall k, timeMs (cbrd w') + ticks_in k (cbrd w') =
       timeMs (cbrd w) + ticks_in (S k) (cbrd w)) /\
    timeMs (cbrd w') = timeMs (cbrd w) + ticks_in 1 (cbrd w) /\
    same_tx w w' /\
    (forall slot m, holds slot m (cp w) -> holds slot m (cp w')).
Proof.
  intros Hw [Hb Ht Hn He].
  destruct (ctime_get_run n w l Hw (next_events_ok w He) Hb Ht Hn)
    as (w' & E & Hw' & Hb' & Ht' & E1 & En & Hs & Hr & Hh).
  exists w', (arrivals (next_events w)). split_and!; try done.
  - split; try done; [by rewrite En|]. rewrite Hs. by destruct He.
Qed.

Lemma ticks_in_mono n b : ticks_in n b <= ticks_in (S n) b.
Proof.
  unfold ticks_in. revert n. induction (sched b) as [|x l IH]; intros n.
  - by rewrite !take_nil.
  - destruct n as [|n]; simpl; [apply (ticks_nonneg _)|].
    rewrite !ticks_app. specialize (IH n). lia.
Qed.

Lemma clock_ok_1 n w : clock_ok (S n) w -> clock_ok 1 w.
Proof.
  intros [Hb Ht Hn He]. split; try done.
  enough (ticks_in 1 (cbrd w) <= ticks_in (S n) (cbrd w)).
  { pose proof (ticks_in_nonneg 1 (cbrd w)). unfold word_ok in *. lia. }
  clear Hn. induction n as [|n IHn]; [done|].
  pose proof (ticks_in_mono (S n) (cbrd w)). lia.
Qed.

(** The wait for the end of a transmission ends, at the latest after the reads of
    the clock that bring it to the limit. *)
Lemma wait_TCS_returns n fuel c to w l :
  gw_ok w l -> clock_ok (S n) w -> to <= timeMs (cbrd w) + ticks_in n (cbrd w) ->
  (0 < n <= fuel)%nat ->
  exists w' xs, wait_TCS fuel c to w = Ok (tt, w') /\ gw_ok w' (take 4 (l ++ xs)) /\
    clock_ok 1 w' /\ same_tx w w'.
Proof.
  unfold wait_TCS.
  revert n w l. induction fuel as [|fuel IH]; intros n w l Hw Hc Hto Hf; [lia|].
  pose proof (clock_ok_1 n w Hc) as H1.
  cbn [while].
  set (s := GSR (regs_of c (hw w))).
  assert (Es : zoom (CAN_GetCTRLStatus c CANCTRL_GLOBAL_STS) w = Ok (s, w)).
  { erewrite zoom_ok by done. by destruct w. }
  destruct (negb (Z.land s CAN_GSR_TCS =? 0)) eqn:Etcs.
  { erewrite bind_ok.
    2: { erewrite bind_ok by exact Es. by rewrite Etcs. }
    exists w, []. rewrite app_nil_r, (gw_short w l Hw). split_and!; try done. }
  destruct n as [|n]; [lia|].
  destruct (clock_read (S n) w l Hw Hc) as (w1 & xs & E1 & Hw1 & Hc1 & Hn1 & Ht1 & Htx & _).
  pose proof (ticks_in_mono n (cbrd w1)) as Hmono.
  destruct (Z.ltb_spec (timeMs (cbrd w1)) to) as [Hlt|Hge].
  - erewrite bind_ok.
    2: { erewrite bind_ok by exact Es. rewrite Etcs. erewrite bind_ok by exact E1.
         destruct (Z.ltb_spec (timeMs (cbrd w1)) to); [done|lia]. }
    cbv beta iota.
    pose proof (Hn1 0%nat) as H0. unfold ticks_in at 1 in H0. simpl in H0.
    destruct n as [|n]; [lia|].
    destruct (IH (S n) w1 _ Hw1 Hc1) as (w2 & ys & E2 & Hw2 & Hc2 & Htx2);
      [rewrite Hn1; lia|lia|].
    exists w2, (xs ++ ys). rewrite take4_app in Hw2. split_and!; try done.
    intros c'. etransitivity; [apply Htx|apply Htx2].
  - erewrite bind_ok.
    2: { erewrite bind_ok by exact Es. rewrite Etcs. erewrite bind_ok by exact E1.
         destruct (Z.ltb_spec (timeMs (cbrd w1)) to); [lia|done]. }
    exists w1, xs. split_and!; try done. by apply (clock_ok_1 n).
Qed.

Lemma requested_sent m r : requested (sent m r) = requested r ++ [tbuf_of (TB1 r) m].
Proof. done. Qed.

Lemma sent_idle m r : rx_idle r -> rx_idle (sent m r).
Proof.
  intros (Hs & Hi & He). split; [|done]. unfold sent.
  change (Z.testbit (clear_bits (SR r) (Z.lor (Z.lor 0xC 0) 0)) 0 = false).
  by rewrite testbit_clear, Hs by lia.
Qed.

(** Sending on [c] from a world between two interrupts. *)
Lemma send_and_wait_returns n fuel c to m w l :
  gw_ok w l -> clock_ok (S n) w -> to <= timeMs (cbrd w) + ticks_in n (cbrd w) ->
  (0 < n <= fuel)%nat -> msg_ok m ->
  exists e w' xs, send_and_wait fuel c to m w = Ok (e, w') /\
    gw_ok w' (take 4 (l ++ xs)) /\
    requested (regs_of c (hw w')) = requested (regs_of c (hw w)) ++
      (if tx_free (regs_of c (hw w)) then [tbuf_of (TB1 (regs_of c (hw w))) m] else []) /\
    (forall c', c' <> c -> requested (regs_of c' (hw w')) = requested (regs_of c' (hw w))).
Proof.
  intros Hw Hc Hto Hf Hm. unfold send_and_wait.
  pose proof (CAN_SendMsg_run c m (hw w) Hm) as E.
  destruct (tx_free (regs_of c (hw w))) eqn:Htx.
  2:{ erewrite bind_ok by (apply zoom_ok, E). exists ERR_CAN_SEND, w, [].
      rewrite !app_nil_r. split_and!; [by destruct w| |done..].
      destruct Hw as [Hrx Hq Hms]. pose proof Hq as (_ & _ & _ & Hr).
      apply ring_length_lt in Hr; [|lia]. by rewrite take_ge by lia. }
  erewrite bind_ok by (apply zoom_ok, E). set (w1 := put _ w).
  assert (Hr1 : regs_of c (hw w1) = sent m (regs_of c (hw w))) by apply regs_of_set.
  assert (Hr1' : forall c', c' <> c -> regs_of c' (hw w1) = regs_of c' (hw w))
    by (intros c' H; by apply regs_of_set_ne).
  assert (Hw1 : gw_ok w1 l).
  { destruct Hw as [Hrx Hq Hms]. split; [|done|done]. intros c'.
    destruct (decide (c' = c)) as [-> |H]; [rewrite Hr1; by apply sent_idle|by rewrite Hr1']. }
  assert (Hc1 : clock_ok (S n) w1) by (by destruct Hc).
  destruct (wait_TCS_returns n fuel c to w1 l Hw1 Hc1 Hto Hf) as (w2 & xs & E2 & Hw2 & Hc2 & Hk2).
  cbv beta iota. erewrite bind_ok by exact E2.
  destruct (clock_read 0 w2 _ Hw2 Hc2) as (w3 & ys & E3 & Hw3 & _ & _ & _ & Hk3 & _).
  erewrite bind_ok by exact E3. rewrite take4_app in Hw3.
  eexists _, w3, (xs ++ ys). split; [done|]. split_and!; [done| |].
  - destruct (Hk3 c) as [-> _], (Hk2 c) as [-> _]. by rewrite Hr1, requested_sent.
  - intros c' H. destruct (Hk3 c') as [-> _], (Hk2 c') as [-> _]. by rewrite Hr1'.
Qed.

(** C1: The message at the head of the queue goes out on the second controller, and
    nothing else goes out: [canpt_task] returns, whatever data frames arrive on either
    controller while it waits, and whether the transmission completes or the clock
    runs into the limit.  Only if the first transmit buffer was busy at the start may the
    message be lost.  The messages behind stay in order, with the new ones behind
    them, four in all.  The clock delivers the 500 ms of the limit within [n] looks at it and
    does not wrap, and no remote frame comes, which would keep the interrupt handler for ever
    ([remote_frame_never_served]). *)
Theorem canpt_task_forwards n fuel w m l
  (Hw : gw_ok w (m :: l)) (Hclock : clock_ok (S (S n)) w)
  (Hlimit : 500 <= ticks_in (S n) (cbrd w) - ticks_in 1 (cbrd w)) (Hfuel : (0 < n <= fuel)%nat) :
  exists w' xs out, canpt_task fuel w = Ok (tt, w') /\ gw_ok w' (take 4 (l ++ xs)) /\
    requested (can2 (hw w')) = requested (can2 (hw w)) ++ out /\
    (out = [tbuf_of (TB1 (can2 (hw w))) m] \/ (out = [] /\ tx_free (can2 (hw w)) = false)) /\
    requested (can1 (hw w')) = requested (can1 (hw w)).
Proof.
  pose proof Hw as [Hrx Hq Hms]. apply Forall_cons in Hms as [Hm Hms].
  destruct (cq_get_cons (cp w) m l Hq) as (Eget & Hslot & Hq1).
  unfold canpt_task. erewrite bind_ok by apply cget_run.
  assert (Ene : q_isEmpty (cp w) = false).
  { destruct (q_isEmpty (cp w)) eqn:E; [|done]. by apply (cq_isEmpty_iff _ _ Hq) in E. }
  rewrite Ene. cbn [negb]. erewrite bind_ok by (by apply zoom_ok). set (w1 := put _ w).
  assert (Hw1 : gw_ok w1 l) by (by split).
  assert (Hc1 : clock_ok (S (S n)) w1) by (by destruct Hclock).
  assert (Hh : holds (rxMsgOut (cp w)) m (cp w1))
    by (split; [by destruct Hq as (_ & _ & ? & _)|done]).
  destruct (clock_read (S n) w1 l Hw1 Hc1)
    as (w2 & xs & E2 & Hw2 & Hc2 & Hn2 & Ht2 & Hk2 & Hh2).
  cbv beta iota. erewrite bind_ok by exact E2. erewrite bind_ok by apply cget_run.
  destruct (Hh2 _ _ Hh) as (Hs2 & _ & Hm2).
  erewrite bind_ok by (apply aget_ok; [lia|exact Hm2]).
  change (cbrd w1) with (cbrd w) in *.
  pose proof (Hn2 n) as Hn2n. pose proof (Hn2 (S n)) as Hn2S.
  assert (Hto : u32 (timeMs (cbrd w2) + 500) = timeMs (cbrd w2) + 500).
  { destruct Hc2 as [_ Ht _ _], Hclock as [_ _ Hn _].
    pose proof (ticks_in_mono (S n) (cbrd w)). unfold u32, word_ok in *. lia. }
  rewrite Hto.
  destruct (send_and_wait_returns n fuel LPC_CAN2 (timeMs (cbrd w2) + 500) m w2 _ Hw2 Hc2)
    as (e & w3 & ys & E3 & Hw3 & Hr3 & Hr3'); [lia|done|done|].
  erewrite bind_ok by exact E3. rewrite take4_app in Hw3.
  destruct (Hk2 LPC_CAN2) as (Hq2 & Ht2' & Hfr2), (Hk2 LPC_CAN1) as (Hq1' & _).
  specialize (Hr3' LPC_CAN1 ltac:(done)). cbn [regs_of] in *.
  eexists w3, (xs ++ ys), _. split_and!; [done|done|by rewrite Hr3, Hq2, Ht2'| |].
  - destruct (tx_free (can2 (hw w2))); [by left|]. right. split; [done|].
    destruct (tx_free (can2 (hw w))) eqn:E; [|done]. specialize (Hfr2 E). congruence.
  - by rewrite Hr3', Hq1'.
Qed.

(** ** Remote frames *)

(** A remote frame is in the receive buffer of [c], its interrupt pending. *)
Definition stuck (c : LPC_CAN) (w : cworld) : Prop :=
  let r := regs_of c (hw w) in
  Z.testbit (SR r) 0 = true /\ Z.testbit (ICR r) 0 = true /\ Z.testbit (RFS r) 30 = true /\
  (c = LPC_CAN2 -> Z.testbit (ICR (can1 (hw w))) 0 = false) /\
  exists l, cq_inv (cp w) l.

Lemma CAN_ReceiveMsg_remote c m s :
  Z.testbit (SR (regs_of c s)) 0 = true -> Z.testbit (RFS (regs_of c s)) 30 = true ->
  exists m', CAN_ReceiveMsg c m s = Ok ((SUCCESS, m'), s).
Proof.
  intros Hs Ht. unfold CAN_ReceiveMsg. erewrite bind_ok by done.
  rewrite bit0_land, Hs, type_field, Ht. eexists. reflexivity.
Qed.

Lemma stuck_step c w : stuck c w -> exists w', CAN_IRQHandler w = Ok (tt, w') /\ stuck c w'.
Proof.
  intros (Hs & Hi & Ht & H1 & l & Hq).
  destruct (CAN_IRQHandler_run c w Hi H1) as (hw1 & E & Hh).
  set (w1 := w{{ hw := hw1 }}) in *.
  assert (Hbit : forall x, Z.testbit (Z.land x 1) 0 = Z.testbit x 0)
    by (intros x; by rewrite Z.land_spec, andb_true_r).
  destruct (CAN_ReceiveMsg_remote c (rxMsg (cp w1)) (hw w1)) as (m' & Em);
    [change (hw w1) with hw1; by rewrite Hh..|].
  set (cp1 := (cp w){{ rxMsg := m' }}).
  destruct (cq_put_ok cp1 l m' Hq) as (cp2 & Ep & Hq2 & _).
  exists (w1{{ cp := cp2 }}). split.
  - rewrite E. unfold receive_into_queue. erewrite bind_ok by apply cget_run.
    erewrite bind_ok by (apply zoom_ok, Em). erewrite bind_ok by (by apply zoom_ok).
    erewrite bind_ok by apply cget_run. exact (zoom_ok (q_put m') (w1{{ cp := cp1 }}) tt cp2 Ep).
  - unfold stuck. change (hw (w1{{ cp := cp2 }})) with hw1. rewrite Hh. split_and!; try done.
    + rewrite <- (Hbit (ICR (regs_of c (hw w)))) in Hi. exact Hi.
    + intros Hc. specialize (Hh LPC_CAN1). cbn [regs_of] in Hh. rewrite Hh.
      specialize (H1 Hc). rewrite <- (Hbit (ICR (can1 (hw w)))) in H1. exact H1.
    + by exists (take 4 (l ++ [m'])).
Qed.

Lemma stuck_forever c n w : stuck c w -> serve_irqs n w = Fault OutOfFuel.
Proof.
  revert w. induction n as [|n IH]; intros w Hw.
  all: assert (Hp : irq_pending w = true) by
    (destruct Hw as (_ & Hi & _); unfold irq_pending; destruct c; cbn [regs_of] in Hi;
     by rewrite Hi, ?orb_true_r).
  all: cbn [serve_irqs]; erewrite bind_ok by done; rewrite Hp.
  { done. }
  destruct (stuck_step c w Hw) as (w' & E & Hw'). erewrite bind_ok by exact E. by apply IH.
Qed.

(** The receive buffer is released only for data frames.  After a remote frame the
    interrupt stays pending when the handler has read the message, so that the handler
    is entered again for ever: no number of entries is enough. *)
Theorem remote_frame_never_served c f w l n (Hw : gw_ok w l) (Hf : is_remote f = true) :
  (zoom (hw_step (FrameArrives c f)) ;; serve_irqs n) w = Fault OutOfFuel.
Proof.
  cbn [hw_step]. erewrite bind_ok by (apply zoom_ok, run_set_regs). set (w1 := put _ w).
  assert (Hc : regs_of c (hw w1) = receive_frame f (regs_of c (hw w))) by apply regs_of_set.
  apply (stuck_forever c). unfold stuck. rewrite Hc.
  destruct (receive_frame_pending f (regs_of c (hw w)) (gw_rx _ _ Hw c))
    as (Hs & Hi & _ & Hfr & _).
  split_and!; [exact Hs|exact Hi| | |exists l; apply Hw].
  - apply (f_equal f_info) in Hfr. cbn [f_info] in Hfr. by rewrite Hfr.
  - intros ->. assert (E : can1 (hw w1) = can1 (hw w)) by done. rewrite E.
    apply (gw_rx _ _ Hw LPC_CAN1).
Qed.

(** ** A published node *)

(** The capabilities that the bytes of a publish message stand for. *)
Definition caps_of (b : Z) : list Z := [Z.land b 0xf0; Z.land (Z.shiftl (Z.land b 0x0f) 4) 0xff].

Definition with_nodes (ns : list node_t) (w : cworld) : cworld :=
  w{{ cp := (cp w){{ nodes := ns }} }}.

Lemma set_cnode_run i f w n : nodes (cp w) !! i = Some n ->
  set_cnode (Z.of_nat i) f w = Ok (tt, with_nodes (<[i := f n]> (nodes (cp w))) w).
Proof.
  intros Hn. unfold set_cnode. erewrite bind_ok by apply cget_run.
  erewrite bind_ok by (apply aget_ok; [lia|by rewrite Nat2Z.id]).
  apply lookup_lt_Some in Hn as Hlt.
  erewrite bind_ok by (apply aset_ok; lia). by rewrite Nat2Z.id.
Qed.

Lemma get_cnode_run i w n : nodes (cp w) !! i = Some n ->
  get_cnode (Z.of_nat i) w = Ok (n, w).
Proof.
  intros Hn. unfold get_cnode. erewrite bind_ok by apply cget_run.
  apply aget_ok; [lia|by rewrite Nat2Z.id].
Qed.

Definition with_caps (i : nat) (n : node_t) (cs : list Z) (w : cworld) : cworld :=
  with_nodes (<[i := n{{ caps := cs }}]> (nodes (cp w))) w.

Lemma with_caps_lookup i n cs w : (i < length (nodes (cp w)))%nat ->
  nodes (cp (with_caps i n cs w)) !! i = Some (n{{ caps := cs }}).
Proof. intros H. by apply list_lookup_insert_eq. Qed.

Lemma with_caps_set i n cs cs' w : (i < length (nodes (cp w)))%nat ->
  set_cnode (Z.of_nat i) (fun n => n{{ caps := cs' }}) (with_caps i n cs w) =
    Ok (tt, with_caps i n cs' w).
Proof.
  intros H. erewrite set_cnode_run by (by apply with_caps_lookup).
  do 2 f_equal. unfold with_caps, with_nodes. simpl. do 2 f_equal. by rewrite list_insert_insert_eq.
Qed.

(** The bytes before [j] are done. *)
Lemma publish_caps_loop fuel i n (cs : list Z) (done_ rest : list Z) w :
  (i < length (nodes (cp w)))%nat -> length cs = 12%nat ->
  (length done_ <= 6)%nat -> (7 - length done_ <= fuel)%nat ->
  publish_caps fuel (Z.of_nat i) (Z.of_nat (length done_)) (done_ ++ rest)
    (Z.of_nat (length (done_ ++ rest)))
    (with_caps i n (blit cs 0 (concat (map caps_of done_))) w) =
  if (length (done_ ++ rest) <=? 6)%nat
  then Ok (tt, with_caps i n (blit cs 0 (concat (map caps_of (done_ ++ rest)))) w)
  else Fault OutOfBounds.
Proof.
  intros Hi Hcs. revert done_ rest. induction fuel as [|fuel IH]; intros done_ rest Hd Hf; [lia|].
  assert (Hcl : forall l, length (concat (map caps_of l)) = (2 * length l)%nat).
  { induction l as [|x l IHl]; simpl; [done|]. rewrite IHl. lia. }
  assert (Hbl : forall l, (length l <= 6)%nat -> length (blit cs 0 (concat (map caps_of l))) = 12%nat).
  { intros l Hl. rewrite length_blit; [done|]. rewrite Hcl. lia. }
  cbn [publish_caps]. rewrite length_app.
  destruct rest as [|b rest].
  - destruct (Z.ltb_spec (Z.of_nat (length done_)) (Z.of_nat (length done_ + length (@nil Z))));
      [simpl in *; lia|].
    cbn [negb]. rewrite app_nil_r. simpl. rewrite Nat.add_0_r.
    destruct (Nat.leb_spec (length done_) 6); [done|lia].
  - destruct (Z.ltb_spec (Z.of_nat (length done_)) (Z.of_nat (length done_ + length (b :: rest))));
      [|simpl in *; lia].
    cbn [negb]. unfold NODE_MAX_CAPS.
    destruct (Z.leb_spec (Z.of_nat 12) (Z.of_nat (length done_))); [lia|].
    erewrite bind_ok by (apply aget_ok; [lia|]; by rewrite Nat2Z.id, list_lookup_middle).
    erewrite bind_ok by (apply get_cnode_run, with_caps_lookup; done).
    destruct (decide (length done_ = 6%nat)) as [E6|].
    { erewrite bind_fault by (apply aset_out; simpl caps; rewrite Hbl by lia; lia).
      simpl. destruct (Nat.leb_spec (length done_ + S (length rest)) 6); [lia|done]. }
    erewrite bind_ok by (apply aset_ok; simpl caps; rewrite Hbl by lia; lia).
    erewrite bind_ok by (by apply with_caps_set).
    destruct (Z.leb_spec (Z.of_nat 12) (Z.of_nat (length done_) + 1)); [lia|].
    erewrite bind_ok by (apply get_cnode_run, with_caps_lookup; done).
    erewrite bind_ok by (apply aset_ok; simpl caps; rewrite length_insert, Hbl by lia; lia).
    erewrite bind_ok by (by apply with_caps_set).
    specialize (IH (done_ ++ [b]) rest). rewrite <- !app_assoc, length_app in IH.
    cbn [app length] in IH. rewrite length_app in IH. cbn [length] in IH.
    replace (Z.of_nat (length done_) + 1) with (Z.of_nat (length done_ + 1)) by lia.
    cbn [length]. rewrite <- IH by lia. f_equal. f_equal.
    rewrite map_app, concat_app. simpl.
    set (c := concat (map caps_of done_)).
    assert (Hc : length c = (2 * length done_)%nat) by apply Hcl.
    replace (Z.to_nat (Z.of_nat (length done_) * 2)) with (length c) by lia.
    replace (Z.to_nat (Z.of_nat (length done_) * 2 + 1)) with (length (c ++ [Z.land b 240]))
      by (rewrite length_app; simpl; lia).
    rewrite blit_snoc, blit_snoc, <- app_assoc by (rewrite ?length_app; simpl; lia). done.
Qed.

(** The loop of [handlePublish] writes two capabilities for each byte, in order; there
    is room for six bytes, and a seventh makes it write behind the array. *)
Theorem publish_caps_spec i n buf w
  (Hn : nodes (cp w) !! i = Some n) (Hc : length (caps n) = NODE_MAX_CAPS) :
  publish_caps 13 (Z.of_nat i) 0 buf (Z.of_nat (length buf)) w =
  if (length buf <=? 6)%nat
  then Ok (tt, with_nodes (<[i := n{{ caps := blit (caps n) 0 (concat (map caps_of buf)) }}]>
                             (nodes (cp w))) w)
  else Fault OutOfBounds.
Proof.
  apply lookup_lt_Some in Hn as Hlt.
  pose proof (publish_caps_loop 13 i n (caps n) [] buf w Hlt Hc) as H.
  simpl app in H. etransitivity; [|apply H; simpl; lia]. f_equal.
  unfold with_caps, with_nodes.
  change (concat (map caps_of [])) with (@nil Z). rewrite blit_nil.
  replace (n{{ caps := caps n }}) with n by (by destruct n).
  rewrite list_insert_id by done. by destruct w as [? ? [] ? ?].
Qed.

(** ** Initialisation *)




Definition with_af (a : af_st) (w : cworld) : cworld := w{{ hw := (hw w){{ af := a }} }}.



Lemma regs_with_af c a w : regs_of c (hw (with_af a w)) = regs_of c (hw w).
Proof. by destruct c. Qed.

Definition enable_rx (r : can_regs) : can_regs := r{{ IER := Z.lor (IER r) 1 }}.



Lemma empty_queue s : length (rxMsgs s) = 5%nat -> rxMsgIn s = 0 -> rxMsgOut s = 0 -> cq_inv s [].
Proof.
  intros Hl Hi Ho. unfold cq_inv. rewrite Hi, Ho. split_and!; try lia. apply ring_nil. lia.
Qed.


(** ** Witnesses *)

Definition one_queued : canpt_st := canpt_reset{{
  rxMsgs := [msg3; msg0; msg0; msg0; msg0]; rxMsgIn := 1 }}.

Lemma one_queued_inv : cq_inv one_queued [msg3].
Proof.
  unfold cq_inv. split; [done|]. split; [by vm_compute|]. split; [by vm_compute|].
  split; [done|]. intros j Hj. simpl in Hj. by assert (j = 0%nat) as -> by lia.
Qed.

Lemma q_get_slot_stable_witness :
  exists slot s1 s2, q_get one_queued = Ok (Some slot, s1) /\
    foreach (replicate 6 msg0) q_put s1 = Ok (tt, s2) /\
    rxMsgs s2 !! Z.to_nat slot = Some msg3 /\ cq_inv s2 (replicate 4 msg0).
Proof. exact (q_get_slot_stable one_queued msg3 [] (replicate 6 msg0) one_queued_inv). Defined.

(** Both receive interrupts are enabled and the clock ticks a hundred times between
    its reads. *)
Definition ready_regs : can_regs := enable_rx regs_reset.
Definition ready (cp : canpt_st) : cworld :=
  mk_cworld (board_reset (replicate 20 (replicate 100 IrqTimer1)))
    ((can_reset 100000000){{ can1 := ready_regs; can2 := ready_regs }}) cp [] [].

Lemma ready_ok cp l : cq_inv cp l -> Forall msg_ok l -> gw_ok (ready cp) l.
Proof. intros Hq Hl. split; [|done|done]. by intros []. Qed.

Lemma ready_empty : gw_ok (ready canpt_reset) [].
Proof. by apply ready_ok; [apply empty_queue|constructor]. Qed.

Definition frame3 : frame := frame_of (tbuf_of (TB1 regs_reset) msg3).

Lemma frame_is_queued_witness :
  exists w', bus_event (FrameArrives LPC_CAN1 frame3) (ready canpt_reset) = Ok (tt, w') /\
    gw_ok w' [msg_of_frame frame3].
Proof.
  refine (frame_is_queued LPC_CAN1 frame3 (ready canpt_reset) [] ready_empty _).
  split; [reflexivity|]. vm_compute. split; [discriminate|reflexivity].
Defined.

Lemma remote_frame_never_served_witness :
  (zoom (hw_step (FrameArrives LPC_CAN2 (mk_frame (Z.shiftl 1 30) 5 0 0))) ;; serve_irqs 100)
    (ready canpt_reset) = Fault OutOfFuel.
Proof.
  exact (remote_frame_never_served LPC_CAN2 (mk_frame (Z.shiftl 1 30) 5 0 0)
    (ready canpt_reset) [] 100 ready_empty eq_refl).
Defined.

Lemma canpt_task_forwards_witness :
  exists w' xs, canpt_task 8 (ready one_queued) = Ok (tt, w') /\ gw_ok w' (take 4 xs) /\
    requested (can2 (hw w')) = [tbuf_of (TB1 regs_reset) msg3] /\ requested (can1 (hw w')) = [].
Proof.
  destruct (canpt_task_forwards 6 8 (ready one_queued) msg3 [])
    as (w' & xs & out & E & Hw & H2 & Hout & H1).
  - apply ready_ok; [apply one_queued_inv|]. constructor; [exact msg3_ok|constructor].
  - split; [|split; vm_compute; [discriminate|reflexivity]..|constructor].
    unfold board_ok, rxq_wf. split; [reflexivity|]. vm_compute. intuition discriminate.
  - vm_compute. discriminate.
  - lia.
  - exists w', xs. repeat (split; [assumption|]). split; [|exact H1].
    rewrite H2. destruct Hout as [-> |[_ Hf]]; [reflexivity|discriminate Hf].
Defined.

Lemma publish_caps_spec_witness :
  publish_caps 13 3 0 (replicate 7 0x12) 7 (ready canpt_reset) = Fault OutOfBounds.
Proof.
  exact (publish_caps_spec 3 (mk_node 0 0 0 (replicate NODE_MAX_CAPS 0)) (replicate 7 0x12)
    (ready canpt_reset) eq_refl eq_refl).
Defined.
