(* ===== verification/AoaTask.v ===== *)
(** * Android accessory host: the task

    The rest of demo_aoa_can/src/AndroidAccessoryHost.c: the table of subscriptions, the
    callbacks for the CAN protocol, the packets from the device, and the task that serves
    them, over the USB side of [AoaHost] and the CAN side of [Canpt]. *)

From S2P Require Import Prelude Board Xbee Can UsbMem Usb AoaHost Canpt.

Definition CMD_SET_VALUE : Z := 10.
Definition CMD_CONNECT : Z := 98.
Definition CMD_DISCONNECT : Z := 99.
Definition MAX_NUM_SUBSCRIPTIONS : nat := 50.

Record subscription_t : Type := mk_subscription { sub_reqId : Z; sub_subId : Z }.

Definition no_sub : subscription_t := mk_subscription 0 0.

(** What the file's functions reach: the accessory, the CAN protocol, and the variables
    of the task. *)
Record tworld (D : Type) : Type := mk_tworld {
  aoa : aworld D;
  can : cworld;
  subs : list subscription_t;
  doDisconnect : Z
}.
Arguments mk_tworld {D}. Arguments aoa {D}. Arguments can {D}. Arguments subs {D}.
Arguments doDisconnect {D}.
#[export] Instance eta_tworld D : Settable (tworld D) :=
  fun s => mk_tworld (aoa s) (can s) (subs s) (doDisconnect s).

#[export] Instance lens_aoa D : Lens (aworld D) (tworld D) :=
  {| view := aoa; put := fun u w => w{{ aoa := u }} |}.
#[export] Instance lens_can D : Lens cworld (tworld D) :=
  {| view := can; put := fun u w => w{{ can := u }} |}.

Definition sub_free (s : subscription_t) : bool := sub_reqId s =? 0.

Section Task.
Context {D : Type} `{Hcd D}.

Definition on_usb {A} (m : M (uworld D) A) : M (tworld D) A := zoom (zoom m : M (aworld D) A).
Definition on_can {A} (m : M cworld A) : M (tworld D) A := zoom m.
Definition print (s : string) : M (tworld D) unit := zoom (say s : M (aworld D) unit).
Definition aoa_get {A} (f : aworld D -> A) : M (tworld D) A := gets (fun w => f (aoa w)).

Definition setNodeValue (nodeId devId d0 d1 : Z) : M (tworld D) unit :=
  if devId =? CANPT_MSG_DEV_RGB then
    print "setNodeValue: RGB" ;;
    _ ← on_can (canpt_setRgb nodeId d0 (if d1 =? 0 then 0 else 1));
    mret tt
  else if devId =? CANPT_MSG_DEV_LED then
    print "setNodeValue: LED" ;;
    _ ← on_can (canpt_setLed nodeId d1);
    mret tt
  else mret tt.

(** What is subscribed to for a capability of a node. *)
Definition subscribe_cap (reqId cap : Z) : M cworld unit :=
  if cap =? CANPT_MSG_DEV_TEMP then
    _ ← canpt_getTemperature reqId;
    _ ← canpt_subscribe reqId cap CANPT_MSG_SUB_DIF [0; 50] 2;
    mret tt
  else if cap =? CANPT_MSG_DEV_LIGHT then
    _ ← canpt_getLight reqId;
    _ ← canpt_subscribe reqId cap CANPT_MSG_SUB_DIF [0; 10] 2;
    mret tt
  else if cap =? CANPT_MSG_DEV_BTN then
    _ ← canpt_getButton reqId;
    _ ← canpt_subscribe reqId cap CANPT_MSG_SUB_DIF [0] 1;
    mret tt
  else mret tt.

Definition handleNodeAttached (corenum reqId : Z) : M (tworld D) unit :=
  r ← on_can (canpt_getNodeCaps reqId (Some (replicate 12 0)) 12 true);
  match r with
  | (ERR_OK, buf) =>
      when (negb (length buf =? 0)%nat && (length buf <=? 12)%nat)
        (on_can (foreach buf (subscribe_cap reqId)) ;;
         on_usb (sendNodeAttached corenum reqId buf))
  | _ => mret tt
  end.

(** Every subscription is cleared, not only those of the node. *)
Definition handleNodeDetached (corenum reqId : Z) : M (tworld D) unit :=
  modify (fun w : tworld D => w{{ subs :=
    (fun s => if sub_free s then s else no_sub) <$> subs w }}) ;;
  on_usb (sendNodeDetached corenum reqId).

(** The callbacks for the CAN protocol. *)
Definition nodeAttached (reqId : Z) : M (tworld D) unit :=
  print "nodeAttached" ;;
  c ← aoa_get connected;
  if c =? 0 then mret tt
  else core ← aoa_get attachedCoreNum; handleNodeAttached core reqId.

Definition nodeDetached (reqId : Z) : M (tworld D) unit :=
  print "nodeDetached" ;;
  c ← aoa_get connected;
  if c =? 0 then mret tt
  else core ← aoa_get attachedCoreNum; handleNodeDetached core reqId.

Definition subStarted (reqId subId : Z) : M (tworld D) unit :=
  ss ← gets subs;
  let i := find_idx sub_free ss in
  if (i <? MAX_NUM_SUBSCRIPTIONS)%nat then
    ss' ← aset ss (Z.of_nat i) (mk_subscription reqId subId);
    modify (fun w : tworld D => w{{ subs := ss' }})
  else mret tt.

(** The table of callbacks: the function an event of the CAN protocol is for. *)
Definition callbacks (e : can_event) : M (tworld D) unit :=
  match e with
  | Canpt.nodeAttached reqId => nodeAttached reqId
  | Canpt.nodeDetached reqId => nodeDetached reqId
  | Canpt.valueUpdate reqId periphId buf len =>
      zoom (AoaHost.valueUpdate reqId periphId buf len : M (aworld D) unit)
  | Canpt.subStarted reqId subId => subStarted reqId subId
  end.

Definition handleDeviceConnected (corenum : Z) : M (tworld D) unit :=
  r ← on_can (canpt_getNodes (Some (replicate 10 0)) 10 true);
  match r with
  | (ERR_OK, nodeIds) => foreach nodeIds (handleNodeAttached corenum)
  | _ => mret tt
  end.

Definition cancel_sub (i : nat) : M (tworld D) unit :=
  ss ← gets subs;
  s ← aget ss (Z.of_nat i);
  if sub_free s then mret tt
  else
    _ ← on_can (canpt_unsubscribe (sub_reqId s) (sub_subId s));
    ss' ← aset ss (Z.of_nat i) no_sub;
    modify (fun w : tworld D => w{{ subs := ss' }}).

Definition handleDeviceDisconnected : M (tworld D) unit :=
  print "handleDeviceDisconnected" ;;
  foreach (seq 0 MAX_NUM_SUBSCRIPTIONS) cancel_sub.

Definition monitor_task : M (tworld D) unit :=
  sched ← aoa_get scheduleDisconnect;
  now ← aoa_get now_ms;
  when ((0 <? sched) && (sched <? now))
    (modify (fun w : tworld D => w{{ aoa := (aoa w){{ scheduleDisconnect := 0 }} }}) ;;
     handleDeviceDisconnected) ;;
  c ← aoa_get connected;
  if c =? 0 then mret tt
  else
    d ← gets doDisconnect;
    if d =? 0 then mret tt
    else
      modify (fun w : tworld D => w{{ doDisconnect := 0 }}) ;;
      core ← aoa_get attachedCoreNum;
      on_usb (sendCommand core CMD_DISCONNECT []) ;;
      modify (fun w : tworld D => w{{ aoa := (aoa w){{ connected := 0 }} }}).

Definition androidHost_init : M (tworld D) unit :=
  on_can canpt_init ;;
  modify (fun w : tworld D => w{{ subs := (fun s => mk_subscription 0 (sub_subId s)) <$> subs w }}).

(** The four reads that are the arguments of [setNodeValue] happen in an order that C
    leaves open: [order] gives for each argument the number of its read. *)
Variable order : nat * nat * nat * nat.

Definition read_value (corenum : Z) : M (tworld D) unit :=
  bs ← on_usb (read_bytes corenum 4);
  let '(i0, i1, i2, i3) := order in
  b0 ← aget bs (Z.of_nat i0); b1 ← aget bs (Z.of_nat i1);
  b2 ← aget bs (Z.of_nat i2); b3 ← aget bs (Z.of_nat i3);
  setNodeValue b0 b1 b2 b3.

(** A packet from the device: its first byte is the command. *)
Definition handle_packet (corenum numBytes : Z) : M (tworld D) unit :=
  c ← on_usb (Pipe_Read_8 corenum);
  let numBytes := u8 (numBytes - 1) in
  if c =? CMD_SET_VALUE then when (numBytes =? 4) (read_value corenum)
  else if c =? CMD_CONNECT then
    modify (fun w : tworld D => w{{ aoa := (aoa w){{ connected := 1 }} }}) ;;
    core ← aoa_get attachedCoreNum;
    handleDeviceConnected core
  else if c =? CMD_DISCONNECT then modify (fun w : tworld D => w{{ doDisconnect := 1 }})
  else _ ← on_usb (read_bytes corenum (Z.to_nat numBytes)); mret tt.

(** [attachedCoreNum == -1] compares an 8-bit number with -1 and never holds. *)
Definition androidHost_task : M (tworld D) unit :=
  monitor_task ;;
  core ← aoa_get attachedCoreNum;
  if core =? -1 then mret tt else
  st ← on_usb (host_state core);
  if negb (st =? HOST_STATE_Configured) then mret tt else
  on_usb (Pipe_SelectPipe core ANDROID_DATA_IN_PIPE) ;;
  received ← on_usb (Pipe_IsINReceived core);
  when received
    (ok ← on_usb (Pipe_IsReadWriteAllowed core);
     when ok
       (n ← on_usb (Pipe_BytesInPipe core);
        when (0 <? u8 n) (handle_packet core (u8 n))) ;;
     on_usb (Pipe_ClearIN core)).
End Task.
