(* ===== verification/AoaTaskFacts.v ===== *)
(** * Android accessory host: properties of the task

    What each packet from the device does, when the accessory is told to go, and what
    becomes of the subscriptions. *)

From S2P Require Import Prelude Board Xbee Can UsbMem UsbMemFacts Usb UsbFacts AoaHost AoaFacts Canpt AoaTask.

Section Packets.
Context {D : Type} `{Hcd D}.
Implicit Types (u : uworld D) (w : tworld D).

Lemma on_usb_ok {A} (m : M (uworld D) A) w x u :
  m (usb (aoa w)) = Ok (x, u) -> on_usb m w = Ok (x, w{{ aoa := (aoa w){{ usb := u }} }}).
Proof.
  intros Hm. unfold on_usb.
  pose proof (zoom_usb m (aoa w) x u Hm) as Hz. exact (zoom_ok (zoom m) w x _ Hz).
Qed.

(** ** The pipe from the device *)

Variables (u : uworld D) (row : list USB_Pipe_Data_t) (h a e : Z).

(** The pipe with [n] bytes, of which the first [i] have been read. *)
Definition in_data (i n : Z) : USB_Pipe_Data_t := mk_pipe h (Some a) PIPE_MAX_SIZE i n e.

(** The pipe from the device, set up and empty. *)
Definition in_pipe : Prop :=
  PipeInfo u = [row] /\ row !! 1%nat = Some (in_data 0 0) /\
  Z.land e PIPE_EPDIR_MASK <> 0 /\ length (pipeselected u) = 1%nat /\
  0 <= a /\ a + PIPE_MAX_SIZE <= Z.of_nat (length (ram u)).

(** While a packet is served: the pipe is selected, [r] the memory, [d] the device. *)
Definition serving (i n : Z) (r : list Z) (d : D) : uworld D :=
  u{{ pipeselected := [1]; PipeInfo := [<[1%nat := in_data i n]> row]; ram := r; dev := d }}.

Hypothesis Hin : in_pipe.

Lemma serving_pipe i n r d :
  cur_pipe 0 (serving i n r d) = Ok (in_data i n, serving i n r d).
Proof.
  destruct Hin as (Hi & Hp & _). eapply (cur_pipe_run _ (<[1%nat := in_data i n]> row) 1); try done.
  apply list_lookup_insert_eq. by eapply lookup_lt_Some.
Qed.

Lemma serving_set i n r d f i' n' :
  f (in_data i n) = in_data i' n' ->
  set_cur 0 f (serving i n r d) = Ok (tt, serving i' n' r d).
Proof.
  intros Hf. destruct Hin as (Hi & Hp & _).
  rewrite (set_cur_run _ (<[1%nat := in_data i n]> row) 1 (in_data i n)); try done.
  - by rewrite Hf, list_insert_insert_eq.
  - apply list_lookup_insert_eq. by eapply lookup_lt_Some.
Qed.

Lemma serving_bytes i n r d :
  0 <= i <= n -> n < 65536 ->
  Pipe_BytesInPipe 0 (serving i n r d) = Ok (n - i, serving i n r d).
Proof.
  intros Hi Hn. unfold Pipe_BytesInPipe. rewrite (bind_ok _ _ _ _ _ (serving_pipe i n r d)).
  cbn [in_data ByteTransfered StartIdx]. unfold u16. by rewrite Z.mod_small by lia.
Qed.

Lemma serving_status i n r d d' st :
  HcdGetPipeStatus h d = (st, None, d') ->
  pipe_status 0 (serving i n r d) = Ok (st, serving i n r d').
Proof.
  intros Hs. unfold pipe_status. rewrite (bind_ok _ _ _ _ _ (serving_pipe i n r d)).
  cbn [in_data PipeHandle]. rewrite (bind_ok _ _ _ _ _ (hcd_run _ (serving i n r d) _ _ Hs)).
  reflexivity.
Qed.

(** A status that comes with a packet. *)
Lemma serving_arrived r d d' l :
  HcdGetPipeStatus h d = (HCD_STATUS_OK, Some l, d') -> (0 < length l <= 512)%nat ->
  (Z.to_nat a + 512 <= length r)%nat ->
  Pipe_IsINReceived 0 (serving 0 0 r d) =
    Ok (true, serving 0 (Z.of_nat (length l)) (blit r (Z.to_nat a) l) d').
Proof.
  intros Hs Hl Hr. destruct Hin as (_ & _ & _ & _ & Ha & _). unfold PIPE_MAX_SIZE in *.
  unfold Pipe_IsINReceived.
  rewrite (bind_ok _ _ _ HCD_STATUS_OK (serving 0 (Z.of_nat (length l)) (blit r (Z.to_nat a) l) d')).
  2:{ unfold pipe_status. rewrite (bind_ok _ _ _ _ _ (serving_pipe 0 0 r d)).
      cbn [in_data PipeHandle Buffer].
      rewrite (bind_ok _ _ _ _ _ (hcd_run _ (serving 0 0 r d) _ _ Hs)). cbn [snd fst].
      rewrite (bind_ok _ _ _ tt (serving 0 0 (blit r (Z.to_nat a) l) d')).
      2:{ unfold buf_store. replace (length l =? 0)%nat with false by (symmetry; apply Nat.eqb_neq; lia).
          erewrite bind_ok; [|reflexivity]. change (ram (serving 0 0 r d){{ dev := d' }}) with r.
          replace (a + Z.of_nat (length l) <=? Z.of_nat (length r)) with true by (symmetry; lia).
          reflexivity. }
      erewrite bind_ok; [reflexivity|]. apply serving_set.
      cbn [in_data]. unfold u16. rewrite Z.mod_small by lia. reflexivity. }
  change (HCD_STATUS_OK =? HCD_STATUS_OK) with true. cbn [negb].
  rewrite (bind_ok _ _ _ _ _ (serving_bytes 0 (Z.of_nat (length l)) (blit r (Z.to_nat a) l) d' ltac:(lia) ltac:(lia))).
  rewrite Z.sub_0_r. replace (Z.of_nat (length l) =? 0) with false by lia. reflexivity.
Qed.

Lemma serving_allowed i n r d d' :
  HcdGetPipeStatus h d = (HCD_STATUS_OK, None, d') -> 0 <= i < n -> n < 65536 ->
  Pipe_IsReadWriteAllowed 0 (serving i n r d) = Ok (true, serving i n r d').
Proof.
  intros Hs Hi Hn. destruct Hin as (_ & _ & He & _). unfold Pipe_IsReadWriteAllowed, Pipe_GetPipeToken.
  rewrite (bind_ok _ _ _ PIPE_TOKEN_IN (serving i n r d)).
  2:{ rewrite (bind_ok _ _ _ _ _ (serving_pipe i n r d)). cbn [in_data EndponitAddress].
      by replace (Z.land e PIPE_EPDIR_MASK =? 0) with false by lia. }
  change (PIPE_TOKEN_IN =? PIPE_TOKEN_IN) with true. cbv iota.
  rewrite (bind_ok _ _ _ _ _ (serving_status i n r d d' _ Hs)).
  rewrite (bind_ok _ _ _ _ _ (serving_bytes i n r d' ltac:(lia) ltac:(lia))).
  replace (n - i =? 0) with false by lia. reflexivity.
Qed.

Lemma serving_read i l r d x :
  l !! i = Some x -> (length l <= 512)%nat -> (Z.to_nat a + 512 <= length r)%nat ->
  Pipe_Read_8 0 (serving (Z.of_nat i) (Z.of_nat (length l)) (blit r (Z.to_nat a) l) d) =
    Ok (x, serving (Z.of_nat i + 1) (Z.of_nat (length l)) (blit r (Z.to_nat a) l) d).
Proof.
  intros Hx Hl Hr. pose proof (lookup_lt_Some _ _ _ Hx).
  destruct Hin as (Hi & Hp & _ & _ & Ha & _).
  rewrite (Pipe_Read_8_run _ (<[1%nat := in_data (Z.of_nat i) (Z.of_nat (length l))]> row) 1
    (in_data (Z.of_nat i) (Z.of_nat (length l))) a x); try done; cbn [in_data StartIdx ByteTransfered];
    try lia.
  - rewrite list_insert_insert_eq. reflexivity.
  - apply list_lookup_insert_eq. by eapply lookup_lt_Some.
  - change (ram _) with (blit r (Z.to_nat a) l).
    rewrite <- (take_drop_blit r l (Z.to_nat a)) in Hx by lia.
    rewrite lookup_take_lt, lookup_drop in Hx by lia. rewrite <- Hx. f_equal. lia.
Qed.

Lemma serving_reads m i l r d :
  (i + m = length l)%nat -> (length l <= 512)%nat -> (Z.to_nat a + 512 <= length r)%nat ->
  read_bytes 0 m (serving (Z.of_nat i) (Z.of_nat (length l)) (blit r (Z.to_nat a) l) d) =
    Ok (drop i l, serving (Z.of_nat (length l)) (Z.of_nat (length l)) (blit r (Z.to_nat a) l) d).
Proof.
  revert i. induction m as [|m IH]; intros i Hm Hl Hr.
  - rewrite drop_ge by lia. replace i with (length l) by lia. reflexivity.
  - destruct (lookup_lt_is_Some_2 l i) as [x Hx]; [lia|]. cbn [read_bytes].
    rewrite (bind_ok _ _ _ _ _ (serving_read i l r d x Hx Hl Hr)).
    replace (Z.of_nat i + 1) with (Z.of_nat (S i)) by lia.
    rewrite (bind_ok _ _ _ _ _ (IH (S i) ltac:(lia) Hl Hr)).
    by rewrite (drop_S _ _ _ Hx).
Qed.

Lemma serving_select r d :
  row !! 1%nat = Some (in_data 0 0) ->
  Pipe_SelectPipe 0 ANDROID_DATA_IN_PIPE (u{{ ram := r; dev := d }}) = Ok (tt, serving 0 0 r d).
Proof.
  intros Hp. destruct Hin as (Hi & _ & _ & Hs & _).
  rewrite (select_run (u{{ ram := r; dev := d }}) 1) by exact Hs.
  unfold serving. rewrite (list_insert_id row 1 _ Hp), <- Hi. reflexivity.
Qed.
End Packets.

(** ** What a packet asks for *)

Inductive request : Type :=
| SetValue (nodeId devId d0 d1 : Z)
| Connect
| Disconnect
| Nothing.

(** The arguments of a set command are its four bytes in the order of their reads. *)
Definition request_of (order : nat * nat * nat * nat) (l : list Z) : request :=
  match l with
  | [] => Nothing
  | c :: args =>
      if c =? CMD_SET_VALUE then
        if (length args =? 4)%nat then
          let '(i0, i1, i2, i3) := order in
          SetValue (nth i0 args 0) (nth i1 args 0) (nth i2 args 0) (nth i3 args 0)
        else Nothing
      else if c =? CMD_CONNECT then Connect
      else if c =? CMD_DISCONNECT then Disconnect
      else Nothing
  end.

(** The message that is prepared for a value; the node is not put into it. *)
Definition value_msg (devId d0 d1 : Z) (m : CAN_MSG_Type) : CAN_MSG_Type :=
  if devId =? CANPT_MSG_DEV_RGB then
    m{{ dataA := <[3%nat := if d1 =? 0 then 0 else 1]> (<[2%nat := d0]> (<[1%nat := 0x42]> (dataA m))) }}
  else if devId =? CANPT_MSG_DEV_LED then
    m{{ dataA := <[2%nat := d1]> (<[1%nat := 0x52]> (dataA m)) }}
  else m.

Definition value_text (devId : Z) : list string :=
  if devId =? CANPT_MSG_DEV_RGB then ["setNodeValue: RGB"%string]
  else if devId =? CANPT_MSG_DEV_LED then ["setNodeValue: LED"%string] else [].

Section Requests.
Context {D : Type} `{Hcd D}.
Implicit Types w : tworld D.

Definition with_tx (f : CAN_MSG_Type -> CAN_MSG_Type) (c : cworld) : cworld :=
  c{{ cp := (cp c){{ txMsg := f (txMsg (cp c)) }} }}.

Definition granted (r : request) w : tworld D :=
  match r with
  | SetValue nodeId devId d0 d1 =>
      w{{ aoa := (aoa w){{ console := console (aoa w) ++ value_text devId }};
          can := with_tx (value_msg devId d0 d1) (can w) }}
  | Connect => w{{ aoa := (aoa w){{ connected := 1 }} }}
  | Disconnect => w{{ doDisconnect := 1 }}
  | Nothing => w
  end.

Lemma set_tx_run i v (c : cworld) :
  (i < length (dataA (txMsg (cp c))))%nat ->
  set_tx (Z.of_nat i) v c = Ok (tt, with_tx (fun m => m{{ dataA := <[i := v]> (dataA m) }}) c).
Proof.
  intros Hi. unfold set_tx. rewrite (bind_ok _ _ _ (txMsg (cp c)) c) by (by destruct c).
  erewrite bind_ok; [|apply aset_ok; lia]. rewrite Nat2Z.id. reflexivity.
Qed.

Lemma print_run s w :
  print s w = Ok (tt, w{{ aoa := (aoa w){{ console := console (aoa w) ++ [s] }} }}).
Proof. reflexivity. Qed.

Lemma on_can_ok {A} (m : M cworld A) w x c :
  m (can w) = Ok (x, c) -> on_can m w = Ok (x, w{{ can := c }}).
Proof. intros Hm. exact (zoom_ok m w x c Hm). Qed.

Lemma set_rgb_run nodeId msk on (c : cworld) :
  length (dataA (txMsg (cp c))) = 4%nat ->
  canpt_setRgb nodeId msk on c = Ok (None, with_tx (fun m => m{{ dataA :=
    <[3%nat := on]> (<[2%nat := msk]> (<[1%nat := 0x42]> (dataA m))) }}) c).
Proof.
  intros Hl. unfold canpt_setRgb.
  erewrite bind_ok; [|apply (set_tx_run 1); unfold with_tx; simpl; rewrite ?length_insert; lia].
  erewrite bind_ok; [|apply (set_tx_run 2); unfold with_tx; simpl; rewrite ?length_insert; lia].
  erewrite bind_ok; [|apply (set_tx_run 3); unfold with_tx; simpl; rewrite ?length_insert; lia].
  reflexivity.
Qed.

Lemma set_led_run nodeId on (c : cworld) :
  length (dataA (txMsg (cp c))) = 4%nat ->
  canpt_setLed nodeId on c = Ok (None, with_tx (fun m => m{{ dataA :=
    <[2%nat := on]> (<[1%nat := 0x52]> (dataA m)) }}) c).
Proof.
  intros Hl. unfold canpt_setLed.
  erewrite bind_ok; [|apply (set_tx_run 1); unfold with_tx; simpl; rewrite ?length_insert; lia].
  erewrite bind_ok; [|apply (set_tx_run 2); unfold with_tx; simpl; rewrite ?length_insert; lia].
  reflexivity.
Qed.

Lemma set_value_run w nodeId devId d0 d1 :
  length (dataA (txMsg (cp (can w)))) = 4%nat ->
  setNodeValue nodeId devId d0 d1 w = Ok (tt, granted (SetValue nodeId devId d0 d1) w).
Proof.
  intros Hl. unfold setNodeValue, granted, value_text, value_msg.
  destruct (devId =? CANPT_MSG_DEV_RGB); [|destruct (devId =? CANPT_MSG_DEV_LED)].
  - rewrite (bind_ok _ _ _ _ _ (print_run _ w)).
    erewrite bind_ok; [reflexivity|]. apply (on_can_ok _ (w{{ aoa := _ }})), set_rgb_run, Hl.
  - rewrite (bind_ok _ _ _ _ _ (print_run _ w)).
    erewrite bind_ok; [reflexivity|]. apply (on_can_ok _ (w{{ aoa := _ }})), set_led_run, Hl.
  - rewrite app_nil_r. destruct w as [[] [? ? []] ? ?]. reflexivity.
Qed.

(** With no node there is nothing to subscribe to. *)
Lemma connected_run corenum w :
  list_ids (nodes (cp (can w))) 10 = [] -> handleDeviceConnected corenum w = Ok (tt, w).
Proof.
  intros Hn. unfold handleDeviceConnected.
  rewrite (bind_ok _ _ _ (ERR_OK, []) w); [reflexivity|].
  assert (canpt_getNodes (Some (replicate 10 0)) 10 true (can w) = Ok ((ERR_OK, []), can w)) as Hr.
  { unfold canpt_getNodes. cbn [negb orb Z.eqb]. rewrite (bind_ok _ _ _ (nodes (cp (can w))) (can w)).
    - rewrite Hn. reflexivity.
    - by destruct (can w). }
  rewrite (on_can_ok _ w _ _ Hr). by destruct w.
Qed.

(** Nothing is due. *)
Definition calm w : Prop :=
  scheduleDisconnect (aoa w) = 0 /\ (connected (aoa w) = 0 \/ doDisconnect w = 0).

Lemma monitor_calm w : calm w -> monitor_task w = Ok (tt, w).
Proof.
  intros [Hs Hc]. unfold monitor_task. rewrite (bind_ok _ _ _ 0 w) by (by rewrite <- Hs).
  erewrite bind_ok; [|reflexivity]. cbn [Z.ltb Z.compare andb when].
  rewrite (bind_ok _ _ _ tt w) by reflexivity.
  erewrite bind_ok; [|reflexivity].
  destruct Hc as [->|Hd]; [reflexivity|]. destruct (connected (aoa w) =? 0); [reflexivity|].
  rewrite (bind_ok _ _ _ 0 w) by (by rewrite <- Hd). reflexivity.
Qed.

(** ** Serving a packet *)

Definition order_ok (order : nat * nat * nat * nat) : Prop :=
  let '(i0, i1, i2, i3) := order in (i0 < 4 /\ i1 < 4 /\ i2 < 4 /\ i3 < 4)%nat.

Definition serve w (u : uworld D) : tworld D := w{{ aoa := (aoa w){{ usb := u }} }}.

(** The state of the CAN protocol that the request [r] relies on: for the nodes that are known a
    connection queries their values, with functions that return none. *)
Definition can_ready (r : request) w : Prop :=
  length (dataA (txMsg (cp (can w)))) = 4%nat /\
  (r = Connect -> list_ids (nodes (cp (can w))) 10 = []).

Section Serve.
Variables (u : uworld D) (row : list USB_Pipe_Data_t) (h a e : Z).
Hypothesis Hin : in_pipe u row h a e.
#[local] Abbreviation srv := (serving u row h a e).

Lemma aget_nth {W} (l : list Z) (i : nat) (x : W) :
  (i < length l)%nat -> aget l (Z.of_nat i) x = Ok (nth i l 0, x).
Proof.
  intros Hi. apply aget_ok; [lia|]. rewrite Nat2Z.id, nth_lookup.
  destruct (lookup_lt_is_Some_2 _ _ Hi) as [y ->]. done.
Qed.

Lemma packet_run order w l r d :
  order_ok order -> can_ready (request_of order l) w -> attachedCoreNum (aoa w) = 0 ->
  (0 < length l <= 255)%nat -> (Z.to_nat a + 512 <= length r)%nat ->
  exists i, handle_packet order 0 (Z.of_nat (length l))
      (serve w (srv 0 (Z.of_nat (length l)) (blit r (Z.to_nat a) l) d)) =
    Ok (tt, granted (request_of order l)
      (serve w (srv i (Z.of_nat (length l)) (blit r (Z.to_nat a) l) d))).
Proof.
  intros Hord [Htx Hno] Hcore Hl Hr. set (m := blit r (Z.to_nat a) l).
  destruct l as [|c args]; [simpl in Hl; lia|]. set (n := Z.of_nat (length (c :: args))) in *.
  unfold handle_packet.
  pose proof (serving_read u row h a e Hin 0 (c :: args) r d c eq_refl ltac:(lia) Hr) as Hc.
  rewrite (bind_ok _ _ _ _ _ (on_usb_ok _ (serve w (srv 0 n m d)) _ _ Hc)).
  change (Z.of_nat 0 + 1) with 1. fold n m. fold (serve w (srv 1 n m d)).
  change ((serve w (srv 0 n m d)){{ aoa := _ }}) with (serve w (srv 1 n m d)).
  replace (u8 (n - 1)) with (Z.of_nat (length args)) by (unfold n, u8; cbn [length] in *; rewrite Z.mod_small; lia).
  pose proof (serving_reads u row h a e Hin (length args) 1 (c :: args) r d eq_refl ltac:(lia) Hr) as Hall.
  fold n m in Hall. change (Z.of_nat 1) with 1 in Hall. change (drop 1 (c :: args)) with args in Hall.
  pose proof (on_usb_ok _ (serve w (srv 1 n m d)) _ _ Hall) as Hall'.
  change ((serve w (srv 1 n m d)){{ aoa := _ }}) with (serve w (srv n n m d)) in Hall'.
  cbn [request_of] in Hno |- *.
  destruct (c =? CMD_SET_VALUE).
  { destruct (Nat.eqb_spec (length args) 4) as [E4|N4].
    - exists n. replace (Z.of_nat (length args) =? 4) with true by lia. cbn [when]. unfold read_value.
      rewrite E4 in Hall'. rewrite (bind_ok _ _ _ _ _ Hall').
      destruct order as [[[i0 i1] i2] i3]. destruct Hord as (?&?&?&?).
      do 4 (erewrite bind_ok; [|apply aget_nth; lia]). by apply set_value_run.
    - exists 1. replace (Z.of_nat (length args) =? 4) with false by lia. reflexivity. }
  destruct (c =? CMD_CONNECT).
  { exists 1. erewrite bind_ok; [|reflexivity].
    rewrite (bind_ok _ _ _ 0 (granted Connect (serve w (srv 1 n m d)))) by (by rewrite <- Hcore).
    by apply connected_run, Hno. }
  destruct (c =? CMD_DISCONNECT); [by exists 1|].
  exists n. rewrite Nat2Z.id. by rewrite (bind_ok _ _ _ _ _ Hall').
Qed.
End Serve.

Lemma granted_serve r w u : granted r (serve w u) = serve (granted r w) u.
Proof. by destruct r. Qed.

(** C35: A packet of 1 to 255 bytes from a configured device, with no other one behind it yet,
    when no disconnection is due: the task reads it, does what its first byte asks for and
    nothing else, and leaves the pipe empty.  A value goes into the CAN message, the arguments
    in the order of their reads; a connection (of a gateway that knows no nodes yet) or a
    disconnection is noted; any other packet, and a value of another length, is dropped. *)
Theorem packet_served order w row h a e l d1 d2 :
  let u := usb (aoa w) in
  in_pipe u row h a e -> USB_HostState u = [HOST_STATE_Configured] ->
  attachedCoreNum (aoa w) = 0 -> calm w -> can_ready (request_of order l) w -> order_ok order ->
  HcdGetPipeStatus h (dev u) = (HCD_STATUS_OK, Some l, d1) ->
  HcdGetPipeStatus h d1 = (HCD_STATUS_OK, None, d2) -> (0 < length l <= 255)%nat ->
  androidHost_task order w = Ok (tt, granted (request_of order l)
    (serve w (u{{ pipeselected := [1]; ram := blit (ram u) (Z.to_nat a) l; dev := d2 }}))).
Proof.
  intros u Hin Hst Hcore Hcalm Hcan Hord H1 H2 Hl. unfold androidHost_task.
  pose proof Hin as (Hi & Hp & He & Hs & Ha & Hr). unfold PIPE_MAX_SIZE in Hr.
  rewrite (bind_ok _ _ _ _ _ (monitor_calm w Hcalm)).
  rewrite (bind_ok _ _ _ 0 w) by (by rewrite <- Hcore). change (0 =? -1) with false. cbv iota.
  rewrite (bind_ok _ _ _ HOST_STATE_Configured w).
  2:{ rewrite (on_usb_ok _ w HOST_STATE_Configured u); [by destruct w as [[] ? ? ?]|].
      unfold host_state. rewrite (bind_ok _ _ _ (USB_HostState u) u) by reflexivity. by rewrite Hst. }
  change (negb (HOST_STATE_Configured =? HOST_STATE_Configured)) with false. cbv iota.
  set (srv := serving u row h a e). set (n := Z.of_nat (length l)).
  set (m := blit (ram u) (Z.to_nat a) l).
  rewrite (bind_ok _ _ _ tt (serve w (srv 0 0 (ram u) (dev u)))).
  2:{ apply on_usb_ok. rewrite <- (serving_select u row h a e Hin _ _ Hp).
      fold u. by destruct u. }
  assert (on_usb (Pipe_IsINReceived 0) (serve w (srv 0 0 (ram u) (dev u))) =
    Ok (true, serve w (srv 0 n m d1))) as Hrec.
  { refine (on_usb_ok _ (serve w (srv 0 0 (ram u) (dev u))) true (srv 0 n m d1) _).
    apply (serving_arrived u row h a e Hin); [exact H1|lia|lia]. }
  rewrite (bind_ok _ _ _ _ _ Hrec). cbn [when].
  assert (on_usb (Pipe_IsReadWriteAllowed 0) (serve w (srv 0 n m d1)) =
    Ok (true, serve w (srv 0 n m d2))) as Hok.
  { refine (on_usb_ok _ (serve w (srv 0 n m d1)) true (srv 0 n m d2) _).
    apply (serving_allowed u row h a e Hin); [exact H2|lia|lia]. }
  assert (on_usb (Pipe_BytesInPipe 0) (serve w (srv 0 n m d2)) =
    Ok (n, serve w (srv 0 n m d2))) as Hb.
  { refine (on_usb_ok _ (serve w (srv 0 n m d2)) n (srv 0 n m d2) _).
    refine (eq_trans (serving_bytes u row h a e Hin 0 n m d2 _ _) _); [lia|lia|by rewrite Z.sub_0_r]. }
  destruct (packet_run u row h a e Hin order w l (ram u) d2 Hord Hcan Hcore Hl ltac:(lia)) as [i Hpk].
  fold srv n m in Hpk.
  rewrite (bind_ok _ _ _ _ _ Hok). cbn [when].
  rewrite (bind_ok _ _ _ tt (granted (request_of order l) (serve w (srv i n m d2)))).
  2:{ rewrite (bind_ok _ _ _ _ _ Hb).
      replace (u8 n) with n by (unfold u8, n; rewrite Z.mod_small; lia).
      replace (0 <? n) with true by lia. exact Hpk. }
  rewrite !granted_serve.
  refine (eq_trans (on_usb_ok _ (serve (granted (request_of order l) w) (srv i n m d2)) tt
    (srv 0 0 m d2) _) _).
  - by apply (serving_set u row h a e Hin).
  - unfold srv, serving. rewrite (list_insert_id row 1 _ Hp), <- Hi. reflexivity.
Qed.
End Requests.

(** ** Values from the nodes *)

Section Values.
Context {D : Type} `{Hcd D}.
Implicit Types w : tworld D.

(** The two bytes of a value: a single one comes after a 0. *)
Definition value_bytes (m : CAN_MSG_Type) (b0 b1 : Z) : Z * Z :=
  if (2 <=? len m) && (len m <=? 3) then (0, b0) else (b0, b1).

Definition value_event (m : CAN_MSG_Type) (req periphId : Z) : can_event :=
  Canpt.valueUpdate req periphId (bytes_from 2 m) (u8 (len m - 2)).

Lemma value_type periphId :
  0 <= periphId < 16 ->
  Z.land (Z.lor CANPT_MSG_VAL (16 * periphId)) CANPT_MSG_TYPE_MASK = CANPT_MSG_VAL /\
  Z.land (Z.lor CANPT_MSG_VAL (16 * periphId)) CANPT_MSG_DEV_MASK = 16 * periphId.
Proof.
  intros Hp. assert (exists n, periphId = Z.of_nat n /\ (n < 16)%nat) as (n & -> & Hn)
    by (exists (Z.to_nat periphId); lia).
  do 16 (destruct n as [|n]; [split; reflexivity|]). lia.
Qed.

Lemma process_value (c : cworld) m req p b0 b1 :
  dataA m = [req; Z.lor CANPT_MSG_VAL (16 * p); b0; b1] -> 0 <= p < 16 ->
  processMessage m c = Ok (tt,
    if from_option has_value false (cp_cb (cp c))
    then c{{ cevents := cevents c ++ [value_event m req (16 * p)] }} else c).
Proof.
  intros Hd Hp. destruct (value_type p Hp) as [Ht Hdev]. unfold processMessage. rewrite Hd.
  do 2 (erewrite bind_ok; [|by apply aget_ok]). rewrite Ht, Hdev.
  change (CANPT_MSG_VAL =? CANPT_MSG_VAL) with true. cbv iota. unfold handleValue.
  rewrite (bind_ok _ _ _ (from_option has_value false (cp_cb (cp c))) c) by (by destruct c).
  by destruct (from_option has_value false (cp_cb (cp c))).
Qed.

(** C34: A value message of a node, as [processMessage] gets it.  If the application has
    registered its callback for values it is called, and the value reaches the accessory as one
    packet: the command, the node, the peripheral and always two bytes of value.  If not, and
    that is how [canpt_init] leaves it, the message changes nothing. *)
Theorem value_forwarded w row hdl a e d m req p b0 b1 :
  let u := usb (aoa w) in
  out_pipe u row hdl a e -> USB_HostState u = [HOST_STATE_Configured] ->
  HcdGetPipeStatus hdl (dev u) = (HCD_STATUS_OK, None, d) ->
  connected (aoa w) <> 0 -> attachedCoreNum (aoa w) = 0 ->
  dataA m = [req; Z.lor CANPT_MSG_VAL (16 * p); b0; b1] -> 0 <= p < 16 -> 0 <= len m <= 8 ->
  if from_option has_value false (cp_cb (cp (can w)))
  then exists ev u', processMessage m (can w) = Ok (tt, (can w){{ cevents := cevents (can w) ++ [ev] }}) /\
    callbacks ev w = Ok (tt, serve w u') /\ PipeInfo u' = PipeInfo u /\
    dev u' = HcdDataOut hdl [CMD_NODE_VALUE; req; 16 * p; fst (value_bytes m b0 b1);
                             snd (value_bytes m b0 b1)] d
  else processMessage m (can w) = Ok (tt, can w).
Proof.
  intros u Ho Hst Hs Hc Hcore Hd Hp Hlen. pose proof (process_value (can w) m req p b0 b1 Hd Hp) as Hm.
  destruct (from_option has_value false (cp_cb (cp (can w)))); [|exact Hm].
  set (v := value_bytes m b0 b1).
  destruct (command_sent u row hdl a e CMD_NODE_VALUE [req; 16 * p; fst v; snd v] d) as (u' & Hrun & Hdev & Hpi);
    [done..|unfold PIPE_MAX_SIZE; simpl; lia|].
  exists (value_event m req (16 * p)), u'. split; [exact Hm|].
  split; [|done]. cbn [value_event callbacks].
  refine (zoom_ok _ w tt ((aoa w){{ usb := u' }}) _). cbn [view lens_aoa]. unfold AoaHost.valueUpdate.
  erewrite bind_ok; [|reflexivity]. replace (connected (aoa w) =? 0) with false by lia.
  rewrite (bind_ok _ _ _ [req; 16 * p; fst v; snd v] (aoa w)).
  2:{ unfold v, value_bytes, bytes_from, u8. rewrite Hd.
      assert (len m = 0 \/ len m = 1 \/ len m = 2 \/ len m = 3 \/ 4 <= len m <= 8) as Hcase by lia.
      destruct Hcase as [->|[->|[->|[->|Hl]]]]; [reflexivity..|].
      rewrite Z.mod_small by lia. replace (len m - 2 <? 2) with false by lia.
      replace (len m <=? 3) with false by lia. rewrite andb_false_r. reflexivity. }
  rewrite (bind_ok _ _ _ 0 (aoa w)) by (by rewrite <- Hcore).
  by apply zoom_usb.
Qed.

(** ** The end of a connection *)

(** Cancelling one entry: an entry in use has its request for the end of the subscription built
    in the transmit message, whose sending is commented out in canpt.c, and is cleared. *)
Definition unsub_built (c : cworld) (s : subscription_t) : cworld :=
  if sub_free s then c
  else with_tx (fun m => m{{ dataA := <[2%nat := sub_subId s]>
    (<[1%nat := CANPT_MSG_UNSUB]> (dataA m)) }}) c.

Definition cleared (s : subscription_t) : subscription_t := if sub_free s then s else no_sub.

Lemma cleared_free s : sub_free (cleared s) = true.
Proof. unfold cleared. by destruct (sub_free s) eqn:E. Qed.

Lemma unsub_built_length c s :
  length (dataA (txMsg (cp (unsub_built c s)))) = length (dataA (txMsg (cp c))).
Proof. unfold unsub_built. destruct (sub_free s); [done|]. simpl. by rewrite !length_insert. Qed.

Lemma cancel_run w i s :
  subs w !! i = Some s -> length (dataA (txMsg (cp (can w)))) = 4%nat ->
  exists w', cancel_sub i w = Ok (tt, w') /\ aoa w' = aoa w /\
    can w' = unsub_built (can w) s /\ subs w' = <[i := cleared s]> (subs w).
Proof.
  intros Hs Hl. unfold cancel_sub. erewrite bind_ok; [|reflexivity].
  erewrite bind_ok; [|apply aget_ok; [lia|rewrite Nat2Z.id; exact Hs]].
  unfold cleared, unsub_built.
  destruct (sub_free s); [eexists; split; [reflexivity|by rewrite list_insert_id]|].
  set (c := with_tx _ (can w)).
  assert (canpt_unsubscribe (sub_reqId s) (sub_subId s) (can w) = Ok (None, c)) as Hu.
  { unfold canpt_unsubscribe. erewrite bind_ok; [|apply (set_tx_run 1); lia].
    erewrite bind_ok; [|apply (set_tx_run 2); unfold with_tx; simpl; rewrite ?length_insert; lia].
    reflexivity. }
  rewrite (bind_ok _ _ _ _ _ (on_can_ok _ _ _ _ Hu)).
  pose proof (lookup_lt_Some _ _ _ Hs).
  erewrite bind_ok; [|apply aset_ok; lia]. rewrite Nat2Z.id.
  eexists. split; [reflexivity|]. done.
Qed.

Lemma cancel_all n k w :
  (k + n = length (subs w))%nat -> length (dataA (txMsg (cp (can w)))) = 4%nat ->
  exists w', foreach (seq k n) cancel_sub w = Ok (tt, w') /\ aoa w' = aoa w /\
    can w' = fold_left unsub_built (drop k (subs w)) (can w) /\
    subs w' = take k (subs w) ++ (cleared <$> drop k (subs w)).
Proof.
  revert k w. induction n as [|n IH]; intros k w Hn Hl.
  - exists w. rewrite drop_ge, firstn_all2 by lia. simpl. by rewrite app_nil_r.
  - destruct (lookup_lt_is_Some_2 (subs w) k) as [s Hs]; [lia|].
    destruct (cancel_run w k s Hs Hl) as (w1 & Hr & Ha & Hc & Hsub).
    destruct (IH (S k) w1) as (w2 & Hr2 & Ha2 & Hc2 & Hs2).
    { rewrite Hsub, length_insert. lia. }
    { by rewrite Hc, unsub_built_length. }
    exists w2. cbn [seq foreach]. rewrite (bind_ok _ _ _ _ _ Hr).
    assert (Hd : drop (S k) (subs w1) = drop (S k) (subs w))
      by (rewrite Hsub; apply drop_insert_lt; lia).
    rewrite Hd in Hc2, Hs2. rewrite (drop_S _ _ _ Hs). cbn [fold_left fmap list_fmap].
    rewrite <- Hc. split_and!; [done|congruence|done|]. rewrite Hs2, Hsub.
    rewrite (take_S_r _ k (cleared s))
      by (apply list_lookup_insert_eq; lia).
    rewrite take_insert_ge by lia. by rewrite <- app_assoc.
Qed.

(** C36: When the device has gone, the deadline for the clean-up is a second away, in the
    clock's 32 bits, and the next run of the task after the deadline ends every subscription,
    in the order of the table: each entry in use has its unsubscribe message built and is
    cleared.  Until then nothing happens.  The messages stay in the driver's transmit buffer,
    each over the one before: sending them is commented out.  A deadline that the wrap of the
    clock makes small is taken for one that has passed, and 0 for none. *)
Theorem unattached_cleans w core t :
  length (subs w) = MAX_NUM_SUBSCRIPTIONS -> length (dataA (txMsg (cp (can w)))) = 4%nat ->
  let due := u32 (now_ms (aoa w) + 1000) in
  exists w', (zoom (EVENT_USB_Host_DeviceUnattached core : M (aworld D) unit) ;;
      modify (fun w : tworld D => w{{ aoa := (aoa w){{ now_ms := t }} }}) ;;
      monitor_task) w = Ok (tt, w') /\
    connected (aoa w') = 0 /\ usb (aoa w') = usb (aoa w) /\
    if (0 <? due) && (due <? t)
    then can w' = fold_left unsub_built (subs w) (can w) /\
         subs w' = cleared <$> subs w /\ Forall (fun s => sub_free s = true) (subs w') /\
         scheduleDisconnect (aoa w') = 0
    else can w' = can w /\ subs w' = subs w /\ scheduleDisconnect (aoa w') = due.
Proof.
  intros Hs Hl due. set (t0 := now_ms (aoa w)) in *.
  set (a1 := (aoa w){{ console := console (aoa w) ++ ["Device Unattached"%string];
    connected := 0; scheduleDisconnect := due; now_ms := t }}).
  set (w1 := w{{ aoa := a1 }}).
  rewrite (bind_ok _ _ _ tt (w{{ aoa := a1{{ now_ms := t0 }} }})).
  2:{ refine (zoom_ok _ w tt (a1{{ now_ms := t0 }}) _). unfold EVENT_USB_Host_DeviceUnattached.
      erewrite bind_ok; [|apply say_run]. erewrite bind_ok; [|reflexivity]. reflexivity. }
  rewrite (bind_ok _ _ _ tt w1) by reflexivity.
  unfold monitor_task. rewrite (bind_ok _ _ _ due w1) by reflexivity.
  rewrite (bind_ok _ _ _ t w1) by reflexivity.
  destruct ((0 <? due) && (due <? t)); cbn [when].
  - set (w2 := w1{{ aoa := a1{{ scheduleDisconnect := 0;
      console := console a1 ++ ["handleDeviceDisconnected"%string] }} }}).
    destruct (cancel_all MAX_NUM_SUBSCRIPTIONS 0 w2) as (w3 & Hr & Ha & Hc & Hsub); [done..|].
    rewrite drop_0 in Hc, Hsub. cbn [take app] in Hsub.
    exists w3. rewrite (bind_ok _ _ _ tt w3).
    2:{ erewrite bind_ok; [|reflexivity]. unfold handleDeviceDisconnected.
        rewrite (bind_ok _ _ _ tt w2) by reflexivity. exact Hr. }
    rewrite Ha. split; [rewrite (bind_ok _ _ _ 0 w3); [reflexivity|]|].
    { unfold aoa_get, gets. by rewrite Ha. }
    split_and!; try done. rewrite Hsub. apply Forall_fmap, Forall_true. exact cleared_free.
  - exists w1. done.
Qed.
End Values.

(** Before a device was attached [attachedCoreNum] is 255, the value of -1 in 8 bits, and
    the test for -1 does not hold: the task reads behind [USB_HostState]. *)
Lemma task_before_attach {D} `{Hcd D} order (w : tworld D) :
  calm w -> attachedCoreNum (aoa w) = 255 -> length (USB_HostState (usb (aoa w))) = MAX_USB_CORE ->
  androidHost_task order w = Fault OutOfBounds.
Proof.
  intros Hc Ha Hl. unfold androidHost_task. rewrite (bind_ok _ _ _ _ _ (monitor_calm w Hc)).
  rewrite (bind_ok _ _ _ 255 w) by (by rewrite <- Ha). change (255 =? -1) with false. cbv iota.
  apply bind_fault. unfold on_usb, zoom, host_state. cbn [view lens_aoa lens_usb].
  rewrite (bind_ok _ _ _ (USB_HostState (usb (aoa w))) (usb (aoa w))) by reflexivity.
  rewrite aget_out; [done|]. rewrite Hl. unfold MAX_USB_CORE. lia.
Qed.

(** ** A device that has sent one packet *)

Module Sender.
Record sender : Type := mk_sender { waiting : option (list Z); sent : list (list Z) }.

#[global] Instance hcd_sender : Hcd sender := {|
  HcdInitDriver d := (true, d);
  HcdDeInitDriver d := d;
  HcdOpenPipe _ _ ep _ _ _ d := (Some ep, d);
  HcdClosePipe _ d := d;
  HcdGetPipeStatus h d :=
    (HCD_STATUS_OK, if h =? 0x81 then waiting d else None,
     if h =? 0x81 then mk_sender None (sent d) else d);
  HcdControlTransfer _ r out d := (0, [], d);
  HcdDataOut _ l d := mk_sender (waiting d) (sent d ++ [l]);
  HcdDataIn _ _ d := d;
  HcdGetDeviceSpeed d := (0, d);
  HcdRhPortReset d := d
|}.

Definition row : list USB_Pipe_Data_t :=
  [mk_pipe 7 (Some 4) PIPE_MAX_SIZE 0 0 0; mk_pipe 0x81 (Some 520) 512 0 0 0x81;
   mk_pipe 0x02 (Some 1036) 512 0 0 0x02] ++ repeat Phone.nopipe 5.

Definition gateway (l : option (list Z)) (cb : option canpt_callb_t) : tworld sender :=
  mk_tworld
    (mk_aworld (mk_uworld (repeat 0 2048) Phone.pool0 [row] [0] [HOST_STATE_Configured]
      (mk_req 0 0 0 0 0) 0 [64] [0] 0 0 true [] (mk_sender l [])) 1 0 0 5000 [])
    (mk_cworld (board_reset []) (can_reset 100000000) (canpt_reset{{ cp_cb := cb }}) [] [])
    (mk_subscription 3 7 :: repeat no_sub 49) 0.
End Sender.

Lemma packet_served_witness :
  androidHost_task (0, 1, 2, 3)%nat (Sender.gateway (Some [10; 3; 0x40; 2; 1]) None) =
  Ok (tt, granted (SetValue 3 0x40 2 1) (serve (Sender.gateway None None)
    ((usb (aoa (Sender.gateway None None))){{ pipeselected := [1];
      ram := blit (repeat 0 2048) 520 [10; 3; 0x40; 2; 1]; dev := Sender.mk_sender None [] }}))).
Proof.
  apply (packet_served (0, 1, 2, 3)%nat (Sender.gateway (Some [10; 3; 0x40; 2; 1]) None) Sender.row
    0x81 520 0x81 [10; 3; 0x40; 2; 1] (Sender.mk_sender None []) (Sender.mk_sender None []));
    try reflexivity.
  - repeat (split; [vm_compute; first [reflexivity|discriminate]|]). vm_compute. discriminate.
  - split; [reflexivity|]. by right.
  - split; reflexivity.
  - vm_compute. lia.
  - simpl. lia.
Defined.

Lemma value_forwarded_witness :
  let w := Sender.gateway None (Some (mk_canpt_callb true true true true)) in
  exists ev u', processMessage (mk_msg 0x10 [3; 0x15; 21; 50] [0; 0; 0; 0] 4 0 0) (can w) =
      Ok (tt, (can w){{ cevents := [ev] }}) /\
    callbacks ev w = Ok (tt, serve w u') /\ PipeInfo u' = PipeInfo (usb (aoa w)) /\
    dev u' = Sender.mk_sender None [[CMD_NODE_VALUE; 3; 16; 21; 50]].
Proof.
  intros w.
  destruct (value_forwarded w Sender.row 0x02 1036 0x02 (Sender.mk_sender None [])
    (mk_msg 0x10 [3; 0x15; 21; 50] [0; 0; 0; 0] 4 0 0) 3 1 21 50)
    as (ev & u' & Hp & Hc & Hi & Hd); try reflexivity.
  - repeat (split; [vm_compute; first [reflexivity|discriminate]|]). vm_compute. discriminate.
  - discriminate.
  - lia.
  - vm_compute. split; discriminate.
  - exists ev, u'. exact (conj Hp (conj Hc (conj Hi Hd))).
Defined.

Lemma unattached_cleans_witness :
  exists w', (zoom (EVENT_USB_Host_DeviceUnattached 0 : M (aworld Sender.sender) unit) ;;
      modify (fun w : tworld Sender.sender => w{{ aoa := (aoa w){{ now_ms := 6001 }} }}) ;;
      monitor_task) (Sender.gateway None None) = Ok (tt, w') /\
    connected (aoa w') = 0 /\ usb (aoa w') = usb (aoa (Sender.gateway None None)) /\
    dataA (txMsg (cp (can w'))) = [0; CANPT_MSG_UNSUB; 7; 0] /\
    Forall (fun s => sub_free s = true) (subs w') /\ scheduleDisconnect (aoa w') = 0.
Proof.
  destruct (unattached_cleans (Sender.gateway None None) 0 6001) as (w' & Hr & Hc & Hu & H);
    [reflexivity|reflexivity|].
  change ((0 <? u32 (now_ms (aoa (Sender.gateway None None)) + 1000)) &&
    (u32 (now_ms (aoa (Sender.gateway None None)) + 1000) <? 6001)) with true in H. cbv iota in H.
  destruct H as (Hcan & _ & Hf & Hd).
  exists w'. repeat split; [exact Hr|exact Hc|exact Hu| |exact Hf|exact Hd].
  rewrite Hcan. vm_compute. reflexivity.
Defined.
