(* ===== verification/Inet.v ===== *)
(** * lwIP: checksums and addresses

    Lib_lwip/src/core/ipv4/inet_chksum.c with the three checksum algorithms it offers,
    ipv4/ip_addr.c and the byte order functions of def.c, as they are compiled for the
    board (port/arch/cc.h: little endian, the second algorithm). *)

From S2P Require Import Prelude.

(** ** Byte order (def.c) *)

Definition lwip_htons (n : Z) : Z :=
  u16 (Z.lor (Z.shiftl (Z.land n 0xff) 8) (Z.shiftr (Z.land n 0xff00) 8)).
Definition lwip_ntohs (n : Z) : Z := lwip_htons n.
Definition lwip_htonl (n : Z) : Z :=
  u32 (Z.lor (Z.lor (Z.lor (Z.shiftl (Z.land n 0xff) 24) (Z.shiftl (Z.land n 0xff00) 8))
    (Z.shiftr (Z.land n 0xff0000) 8)) (Z.shiftr (Z.land n 0xff000000) 24)).
Definition lwip_ntohl (n : Z) : Z := lwip_htonl n.

(** ** The checksum of a piece of memory

    [dataptr] is the address of the data, on which the order of the additions depends.
    Where [len] is a [u16_t] the memory from there on and the [len] that is passed are
    arguments; where it is an [int] the data are the [len] bytes there. *)

Definition FOLD_U32T (u : Z) : Z := u32 (Z.shiftr u 16 + Z.land u 0xffff).
Definition SWAP_BYTES_IN_WORD (w : Z) : Z :=
  Z.lor (Z.shiftl (Z.land w 0xff) 8) (Z.shiftr (Z.land w 0xff00) 8).

(** A 16-bit and a 32-bit word read from memory. *)
Definition read16 (b0 b1 : Z) : Z := b0 + 256 * b1.
Definition read32 (b0 b1 b2 b3 : Z) : Z := b0 + 256 * (b1 + 256 * (b2 + 256 * b3)).

(** Version 1: octets as they come, most significant first. *)
Fixpoint octets_1 (acc : Z) (l : list Z) : Z :=
  match l with
  | b0 :: b1 :: l' => octets_1 (u32 (acc + Z.lor (u16 (Z.shiftl b0 8)) b1)) l'
  | [b0] => u32 (acc + u16 (Z.shiftl b0 8))
  | [] => acc
  end.

Definition lwip_standard_chksum_1 (dataptr : Z) (mem : list Z) (len : Z) : Z :=
  let len := u16 len in
  let acc := octets_1 0 (take (Z.to_nat len) mem) in
  let acc := u32 (Z.shiftr acc 16 + Z.land acc 0xffff) in
  let acc := if negb (Z.land acc 0xffff0000 =? 0)
             then u32 (Z.shiftr acc 16 + Z.land acc 0xffff) else acc in
  lwip_htons (u16 acc).

(** The bulk of the data, word by word: the sum and the bytes left over. *)
Fixpoint add_words (sum : Z) (l : list Z) : Z * list Z :=
  match l with
  | b0 :: b1 :: l' => add_words (u32 (sum + read16 b0 b1)) l'
  | _ => (sum, l)
  end.

(** [t], whose bytes are the first one of data at an odd address and the last one. *)
Definition first_byte (odd : bool) (data : list Z) : Z * list Z :=
  match data with
  | b :: l => if odd then (Z.shiftl b 8, l) else (0, data)
  | [] => (0, data)
  end.
Definition last_byte (t : Z) (l : list Z) : Z :=
  match l with
  | b :: _ => Z.lor (Z.land t 0xff00) b
  | [] => t
  end.

(** What the versions 2 and 3 end with. *)
Definition fold_sum (odd : bool) (sum : Z) : Z :=
  let sum := FOLD_U32T (FOLD_U32T sum) in
  u16 (if odd then SWAP_BYTES_IN_WORD sum else sum).

(** Version 2, the one that is compiled. *)
Definition lwip_standard_chksum (dataptr : Z) (data : list Z) : Z :=
  let odd := Z.odd dataptr in
  let '(t, l) := first_byte odd data in
  let '(sum, l) := add_words 0 l in
  fold_sum odd (u32 (sum + last_byte t l)).

(** Version 3: 8 bytes at a time, with the carry added back. *)
Definition add_carry (sum w : Z) : Z :=
  let tmp := u32 (sum + w) in if tmp <? sum then u32 (tmp + 1) else tmp.

Fixpoint add_longs (sum : Z) (l : list Z) : Z * list Z :=
  match l with
  | b0 :: b1 :: b2 :: b3 :: b4 :: b5 :: b6 :: b7 :: l' =>
      add_longs (add_carry (add_carry sum (read32 b0 b1 b2 b3)) (read32 b4 b5 b6 b7)) l'
  | _ => (sum, l)
  end.

Definition first_word (ps : Z) (l : list Z) : Z * list Z :=
  match l with
  | b0 :: b1 :: l' => if negb (Z.land ps 3 =? 0) then (read16 b0 b1, l') else (0, l)
  | _ => (0, l)
  end.

Definition lwip_standard_chksum_3 (dataptr : Z) (data : list Z) : Z :=
  let odd := Z.odd dataptr in
  let '(t, l) := first_byte odd data in
  let ps := if odd && negb (length data =? 0)%nat then dataptr + 1 else dataptr in
  let '(sum, l) := first_word ps l in
  let '(sum, l) := add_longs sum l in
  let '(sum, l) := add_words (FOLD_U32T sum) l in
  fold_sum odd (u32 (sum + last_byte t l)).

(** [len] is a [u16_t]. *)
Definition inet_chksum (dataptr : Z) (mem : list Z) (len : Z) : Z :=
  let len := u16 len in
  65535 - lwip_standard_chksum dataptr (take (Z.to_nat len) mem).

(** ** The checksum of a chain of buffers *)

(** A buffer of a chain: where its payload is, and the [len] bytes there. *)
Record pbuf : Type := mk_pbuf { payload : Z; data : list Z }.

Fixpoint chain_sum (acc : Z) (swapped : bool) (p : list pbuf) : Z * bool :=
  match p with
  | [] => (acc, swapped)
  | q :: p' =>
      let acc := FOLD_U32T (u32 (acc + lwip_standard_chksum (payload q) (data q))) in
      if negb (Z.of_nat (length (data q)) mod 2 =? 0)
      then chain_sum (SWAP_BYTES_IN_WORD acc) (negb swapped) p'
      else chain_sum acc swapped p'
  end.

Definition unswap (r : Z * bool) : Z :=
  let '(acc, swapped) := r in if (swapped : bool) then SWAP_BYTES_IN_WORD acc else acc.

(** [(u16_t)~(acc & 0xffffUL)]. *)
Definition inverted (acc : Z) : Z := 65535 - Z.land acc 0xffff.

Definition inet_chksum_pbuf (p : list pbuf) : Z := inverted (unswap (chain_sum 0 false p)).

(** Both halves of an address. *)
Definition add_addr (acc addr : Z) : Z :=
  u32 (u32 (acc + Z.land addr 0xffff) + Z.land (Z.shiftr addr 16) 0xffff).

Definition add_pseudo (acc src dest proto proto_len : Z) : Z :=
  let acc := add_addr (add_addr acc src) dest in
  let acc := u32 (u32 (acc + lwip_htons proto) + lwip_htons proto_len) in
  inverted (FOLD_U32T (FOLD_U32T acc)).

Definition inet_chksum_pseudo (p : list pbuf) (src dest proto proto_len : Z) : Z :=
  add_pseudo (unswap (chain_sum 0 false p)) src dest proto proto_len.

(** Only the first [chksum_len] bytes; whether the sum is swapped depends on the whole
    length of a buffer. *)
Fixpoint chain_sum_partial (acc : Z) (swapped : bool) (chksum_len : Z) (p : list pbuf) : Z * bool :=
  match p with
  | [] => (acc, swapped)
  | q :: p' =>
      if negb (0 <? chksum_len) then (acc, swapped)
      else
        let len := Z.of_nat (length (data q)) in
        let chklen := if chksum_len <? len then chksum_len else len in
        let acc := u32 (acc + lwip_standard_chksum (payload q) (take (Z.to_nat chklen) (data q))) in
        let chksum_len := u16 (chksum_len - chklen) in
        let acc := FOLD_U32T acc in
        if negb (len mod 2 =? 0)
        then chain_sum_partial (SWAP_BYTES_IN_WORD acc) (negb swapped) chksum_len p'
        else chain_sum_partial acc swapped chksum_len p'
  end.

Definition inet_chksum_pseudo_partial (p : list pbuf) (src dest proto proto_len chksum_len : Z) : Z :=
  add_pseudo (unswap (chain_sum_partial 0 false chksum_len p)) src dest proto proto_len.

(** ** Addresses (ip_addr.c)

    An address is a number in network order: its bytes in memory are those of the dotted
    form. *)

Definition IPADDR_NONE : Z := 0xffffffff.
Definition IPADDR_ANY : Z := 0.
Definition IPADDR_BROADCAST : Z := 0xffffffff.
Definition NETIF_FLAG_BROADCAST : Z := 0x02.

Record netif : Type := mk_netif { flags : Z; ip_addr : Z; netmask : Z }.

Definition IP4_ADDR (a b c d : Z) : Z :=
  Z.lor (Z.lor (Z.lor (Z.shiftl (Z.land d 0xff) 24) (Z.shiftl (Z.land c 0xff) 16))
    (Z.shiftl (Z.land b 0xff) 8)) (Z.land a 0xff).

Definition ip_addr_netcmp (addr1 addr2 mask : Z) : bool := Z.land addr1 mask =? Z.land addr2 mask.

(** [~x] of 32 bits. *)
Definition not32 (x : Z) : Z := u32 (Z.lnot x).

Definition ip4_addr_isbroadcast (addr : Z) (n : netif) : bool :=
  if (not32 addr =? IPADDR_ANY) || (addr =? IPADDR_ANY) then true
  else if Z.land (flags n) NETIF_FLAG_BROADCAST =? 0 then false
  else if addr =? ip_addr n then false
  else ip_addr_netcmp addr (ip_addr n) (netmask n) &&
       (Z.land addr (not32 (netmask n)) =? Z.land IPADDR_BROADCAST (not32 (netmask n))).

(** The first loop stops at the first zero, the second one looks for a one behind it. *)
Fixpoint first_zero (turns : nat) (mask nm : Z) : Z :=
  match turns with
  | O => mask
  | S turns' =>
      if mask =? 0 then mask
      else if Z.land nm mask =? 0 then mask
      else first_zero turns' (Z.shiftr mask 1) nm
  end.
Fixpoint no_ones (turns : nat) (mask nm : Z) : bool :=
  match turns with
  | O => true
  | S turns' =>
      if mask =? 0 then true
      else if negb (Z.land nm mask =? 0) then false
      else no_ones turns' (Z.shiftr mask 1) nm
  end.
Definition ip4_addr_netmask_valid (nm : Z) : bool :=
  let nm_hostorder := lwip_htonl nm in
  no_ones 33 (first_zero 33 (Z.shiftl 1 31) nm_hostorder) nm_hostorder.

(** *** Reading the dotted form

    A string is the list of its characters before the terminating 0. *)

Definition in_range (c lo up : Z) : bool := (lo <=? c) && (c <=? up).
Definition isdigit (c : Z) : bool := in_range c 48 57.
Definition isxdigit (c : Z) : bool := isdigit c || (in_range c 97 102 || in_range c 65 70).
Definition islower (c : Z) : bool := in_range c 97 122.
Definition isspace (c : Z) : bool :=
  (c =? 32) || (c =? 12) || (c =? 10) || (c =? 13) || (c =? 9) || (c =? 11).

Definition cur (cp : list Z) : Z := match cp with c :: _ => c | [] => 0 end.

(** [0x] is hexadecimal and [0] octal. *)
Definition number_base (cp : list Z) : Z * list Z :=
  if cur cp =? 48 then
    let cp := tl cp in
    if (cur cp =? 120) || (cur cp =? 88) then (16, tl cp) else (8, cp)
  else (10, cp).

Fixpoint digits (base val : Z) (cp : list Z) : Z * list Z :=
  match cp with
  | [] => (val, [])
  | c :: cp' =>
      if isdigit c then digits base (u32 (val * base + (c - 48))) cp'
      else if (base =? 16) && isxdigit c then
        digits base (Z.lor (u32 (Z.shiftl val 4)) (c + 10 - (if islower c then 97 else 65))) cp'
      else (val, cp)
  end.

(** The numbers before the last one, the last one and what follows it; [room] is how many
    more fit into [parts]. *)
Fixpoint collect (room : nat) (parts : list Z) (cp : list Z) : option (list Z * Z * list Z) :=
  if negb (isdigit (cur cp)) then None
  else
    let '(base, cp) := number_base cp in
    let '(val, cp) := digits base 0 cp in
    if cur cp =? 46 then
      match room with
      | O => None
      | S room' => collect room' (parts ++ [val]) (tl cp)
      end
    else Some (parts, val, cp).

Definition concoct (parts : list Z) (val : Z) : option Z :=
  match parts with
  | [] => Some val
  | [p0] => if 0xffffff <? val then None else Some (Z.lor val (u32 (Z.shiftl p0 24)))
  | [p0; p1] => if 0xffff <? val then None
      else Some (Z.lor val (Z.lor (u32 (Z.shiftl p0 24)) (u32 (Z.shiftl p1 16))))
  | [p0; p1; p2] => if 0xff <? val then None
      else Some (Z.lor val (Z.lor (Z.lor (u32 (Z.shiftl p0 24)) (u32 (Z.shiftl p1 16)))
                                  (u32 (Z.shiftl p2 8))))
  | _ => Some val
  end.

Definition ipaddr_aton (cp : list Z) : option Z :=
  match collect 3 [] cp with
  | None => None
  | Some (parts, val, rest) =>
      if negb (cur rest =? 0) && negb (isspace (cur rest)) then None
      else lwip_htonl <$> concoct parts val
  end.

Definition ipaddr_addr (cp : list Z) : Z := default IPADDR_NONE (ipaddr_aton cp).

(** *** Writing the dotted form

    The state is the caller's array; the result is whether it was long enough. *)

(** The decimal digits of a byte, last one first, into [inv]. *)
Definition inv_digits (b : Z) : M (list Z) (Z * list Z) :=
  while 4 (fun st : Z * Z * list Z =>
    let '(ap, i, inv) := st in
    let rem := ap mod 10 in
    let ap := ap / 10 in
    inv ← aset inv i (48 + rem);
    mret (if ap =? 0 then Break (i + 1, inv) else Continue (ap, i + 1, inv))) (b, 0, [0; 0; 0]).

(** One character, unless the array is full. *)
Definition put_char (buflen len c : Z) : M (list Z) (option Z) :=
  if buflen <=? len then mret None
  else
    buf ← get;
    buf' ← aset buf len c;
    modify (fun _ => buf') ;;
    mret (Some (len + 1)).

(** [while(i--)]. *)
Fixpoint put_digits (buflen len : Z) (i : nat) (inv : list Z) : M (list Z) (option Z) :=
  match i with
  | O => mret (Some len)
  | S i' =>
      c ← aget inv (Z.of_nat i');
      r ← put_char buflen len c;
      match r with
      | None => mret None
      | Some len => put_digits buflen len i' inv
      end
  end.

Definition put_byte (buflen len b : Z) : M (list Z) (option Z) :=
  d ← inv_digits b;
  let '(i, inv) := d in
  r ← put_digits buflen len (Z.to_nat i) inv;
  match r with
  | None => mret None
  | Some len => put_char buflen len 46
  end.

Fixpoint put_bytes (buflen len : Z) (bs : list Z) : M (list Z) (option Z) :=
  match bs with
  | [] => mret (Some len)
  | b :: bs' =>
      r ← put_byte buflen len b;
      match r with
      | None => mret None
      | Some len => put_bytes buflen len bs'
      end
  end.

Definition addr_bytes (a : Z) : list Z :=
  [Z.land a 0xff; Z.land (Z.shiftr a 8) 0xff; Z.land (Z.shiftr a 16) 0xff; Z.shiftr a 24].

(** The last point is overwritten by the terminating 0. *)
Definition ipaddr_ntoa_r (addr buflen : Z) : M (list Z) bool :=
  r ← put_bytes buflen 0 (addr_bytes addr);
  match r with
  | None => mret false
  | Some len =>
      buf ← get;
      buf' ← aset buf (len - 1) 0;
      modify (fun _ => buf') ;;
      mret true
  end.

(** Into the static array of 16 characters. *)
Definition ipaddr_ntoa (addr : Z) : M (list Z) bool := ipaddr_ntoa_r addr 16.
