(* ===== verification/InetFacts.v ===== *)
(** * lwIP: properties of checksums and addresses

    The three algorithms against the sum of RFC 1071, chains of buffers against their
    contents, and the two directions of the dotted form. *)

From S2P Require Import Prelude Inet.

(** ** Ones' complement sums *)

(** RFC 1071: the 16-bit words of the data, the last one filled up with 0, added with the
    carry brought round. *)
Definition ones_add (a b : Z) : Z := if a + b <? 65536 then a + b else a + b - 65535.
Fixpoint words (l : list Z) : list Z :=
  match l with
  | b0 :: b1 :: l' => read16 b0 b1 :: words l'
  | _ => l
  end.
Definition rfc1071 (l : list Z) : Z := foldr ones_add 0 (words l).

(** The same as a number: the data as one little-endian number, reduced modulo 65535 to
    1..65535, and 0 for 0. *)
Fixpoint le_num (l : list Z) : Z :=
  match l with
  | [] => 0
  | b :: l' => b + 256 * le_num l'
  end.
Definition oc (a : Z) : Z := if a =? 0 then 0 else (a - 1) mod 65535 + 1.

Abbreviation bytes := (Forall byte_ok).

Lemma oc_range a : 0 <= oc a <= 65535.
Proof. unfold oc. destruct (a =? 0); lia. Qed.

Lemma oc_small a : 0 <= a <= 65535 -> oc a = a.
Proof. intros Ha. unfold oc. destruct (Z.eqb_spec a 0); [lia|]. rewrite Z.mod_small; lia. Qed.

Lemma oc_eq a b k : 0 <= a -> 0 <= b -> a = b + 65535 * k -> (a = 0 <-> b = 0) -> oc a = oc b.
Proof.
  intros Ha Hb Hk Hz. unfold oc.
  destruct (Z.eqb_spec a 0), (Z.eqb_spec b 0); [done|lia|lia|]. f_equal.
  replace (a - 1) with (b - 1 + k * 65535) by lia. apply Z.mod_add. lia.
Qed.

Lemma oc_spec a : 0 <= a -> exists k, oc a = a + 65535 * k /\ (oc a = 0 <-> a = 0).
Proof.
  intros Ha. unfold oc. destruct (Z.eqb_spec a 0) as [->|Hn]; [exists 0; lia|].
  exists (- ((a - 1) / 65535)). pose proof (Z.div_mod (a - 1) 65535 ltac:(lia)).
  pose proof (Z.mod_pos_bound (a - 1) 65535 ltac:(lia)). lia.
Qed.

Lemma oc_add a b : 0 <= a -> 0 <= b -> oc (a + b) = oc (oc a + oc b).
Proof.
  intros Ha Hb. destruct (oc_spec a Ha) as (k & Hk & Hz), (oc_spec b Hb) as (k' & Hk' & Hz').
  pose proof (oc_range a). pose proof (oc_range b). apply (oc_eq _ _ (- k - k')); lia.
Qed.

Lemma oc_mul n a : 0 < n -> 0 <= a -> oc (n * a) = oc (n * oc a).
Proof.
  intros Hn Ha. destruct (oc_spec a Ha) as (k & Hk & Hz). pose proof (oc_range a).
  apply (oc_eq _ _ (- n * k)); nia.
Qed.

Lemma oc_swap2 a : 0 <= a -> oc (65536 * a) = oc a.
Proof. intros Ha. apply (oc_eq _ _ a); lia. Qed.

Lemma oc_add_r a b c : 0 <= a -> 0 <= b -> 0 <= c -> oc b = oc c -> oc (a + b) = oc (a + c).
Proof. intros Ha Hb Hc He. by rewrite (oc_add a b), (oc_add a c), He. Qed.
Lemma oc_add_l a b c : 0 <= a -> 0 <= b -> 0 <= c -> oc b = oc c -> oc (b + a) = oc (c + a).
Proof. intros. rewrite !(Z.add_comm _ a). by apply oc_add_r. Qed.
Lemma oc_mul_r n a b : 0 < n -> 0 <= a -> 0 <= b -> oc a = oc b -> oc (n * a) = oc (n * b).
Proof. intros Hn Ha Hb He. by rewrite (oc_mul n a), (oc_mul n b), He. Qed.

Lemma ones_add_oc a b : 0 <= a <= 65535 -> 0 <= b <= 65535 -> ones_add a b = oc (a + b).
Proof.
  intros Ha Hb. unfold ones_add. destruct (Z.ltb_spec (a + b) 65536).
  - rewrite oc_small; lia.
  - rewrite (oc_eq _ (a + b - 65535) 1) by lia. rewrite oc_small; lia.
Qed.

(** ** Data as numbers *)

Lemma le_num_nonneg l : bytes l -> 0 <= le_num l.
Proof. induction 1 as [|b l Hb _ IH]; simpl; [lia|]. unfold byte_ok in Hb. lia. Qed.

Lemma le_num_app l l' :
  le_num (l ++ l') = le_num l + 256 ^ Z.of_nat (length l) * le_num l'.
Proof.
  induction l as [|b l IH]; [simpl; lia|]. simpl app. cbn [le_num length].
  rewrite IH, Nat2Z.inj_succ, Z.pow_succ_r by lia. ring.
Qed.

(** The weight of what follows data of a given length. *)
Definition weight (n : nat) : Z := if Nat.even n then 1 else 256.

Lemma oc_pow n a : 0 <= a -> oc (256 ^ Z.of_nat n * a) = oc (weight n * a).
Proof.
  intros Ha. revert a Ha. induction n as [n IH] using lt_wf_ind. intros a Ha.
  destruct n as [|[|n]]; [f_equal; change (256 ^ Z.of_nat 0) with 1; simpl; lia|done|].
  replace (256 ^ Z.of_nat (S (S n)) * a) with (256 ^ Z.of_nat n * (65536 * a))
    by (rewrite !Nat2Z.inj_succ, !Z.pow_succ_r by lia; ring).
  rewrite (IH n) by lia. change (weight (S (S n))) with (weight n).
  apply oc_mul_r; [unfold weight; destruct (Nat.even n); lia|lia|lia|by apply oc_swap2].
Qed.

Lemma oc_app l l' : bytes l -> bytes l' ->
  oc (le_num (l ++ l')) = oc (le_num l + weight (length l) * le_num l').
Proof.
  intros Hl Hl'. pose proof (le_num_nonneg l Hl). pose proof (le_num_nonneg l' Hl').
  rewrite le_num_app. apply oc_add_r; [lia|nia|unfold weight; destruct (Nat.even _); lia|].
  by apply oc_pow.
Qed.

(** Induction by words. *)
Lemma pair_ind {A} (P : list A -> Prop) :
  P [] -> (forall x, P [x]) -> (forall x y l, P l -> P (x :: y :: l)) -> forall l, P l.
Proof.
  intros H0 H1 H2. fix IH 1. intros [|x [|y l]]; [exact H0|apply H1|apply H2, IH].
Qed.

Lemma read16_range x y : byte_ok x -> byte_ok y -> 0 <= read16 x y <= 65535.
Proof. unfold byte_ok, read16. lia. Qed.

Lemma rfc1071_num l : bytes l -> rfc1071 l = oc (le_num l).
Proof.
  unfold rfc1071. induction l as [|x|x y l IH] using pair_ind; intros Hl.
  - reflexivity.
  - inversion Hl as [|? ? Hx]. unfold byte_ok in Hx. simpl. unfold ones_add.
    rewrite oc_small by lia. replace (x + 0 <? 65536) with true by (symmetry; lia). lia.
  - inversion Hl as [|? ? Hx Hl']. inversion Hl' as [|? ? Hy Hl'']. subst.
    cbn [words foldr le_num]. rewrite IH by done. pose proof (le_num_nonneg l Hl'').
    pose proof (read16_range x y Hx Hy). pose proof (oc_range (le_num l)).
    rewrite ones_add_oc by lia. rewrite <- (oc_small (read16 x y)) at 1 by lia.
    rewrite <- oc_add by lia. rewrite (oc_add_r _ (le_num l) (65536 * le_num l)); [|lia..|].
    + f_equal. unfold read16. ring.
    + symmetry. by apply oc_swap2.
Qed.

(** ** Folding and swapping *)

Lemma fold_value u : 0 <= u < 2 ^ 32 -> FOLD_U32T u = u / 65536 + u mod 65536.
Proof.
  intros Hu. unfold FOLD_U32T, u32. change 0xffff with (Z.ones 16).
  rewrite Z.land_ones, Z.shiftr_div_pow2 by lia. change (2 ^ 16) with 65536.
  rewrite Z.mod_small; lia.
Qed.

Lemma fold_oc u : 0 <= u < 2 ^ 32 -> oc (FOLD_U32T u) = oc u.
Proof.
  intros Hu. rewrite fold_value by done. pose proof (Z.div_mod u 65536 ltac:(lia)).
  apply (oc_eq _ _ (- (u / 65536))); lia.
Qed.

Lemma fold_once u : 0 <= u <= 131070 -> 0 <= FOLD_U32T u <= 65535.
Proof. intros Hu. rewrite fold_value by lia. lia. Qed.

Lemma fold_twice u : 0 <= u < 2 ^ 32 -> FOLD_U32T (FOLD_U32T u) = oc u.
Proof.
  intros Hu. assert (0 <= FOLD_U32T u <= 131070) as H1 by (rewrite fold_value by done; lia).
  rewrite <- (fold_oc u), <- (fold_oc (FOLD_U32T u)) by lia. symmetry. apply oc_small.
  by apply fold_once.
Qed.

Lemma swap_value w : 0 <= w <= 65535 -> SWAP_BYTES_IN_WORD w = 256 * (w mod 256) + w / 256.
Proof.
  intros Hw. unfold SWAP_BYTES_IN_WORD. change 0xff with (Z.ones 8). rewrite Z.land_ones by lia.
  replace (Z.shiftr (Z.land w 0xff00) 8) with (w / 256).
  - rewrite Z_lor_shiftl_small by lia. rewrite Z.shiftl_mul_pow2 by lia. lia.
  - rewrite Z.shiftr_land. change (Z.shiftr 0xff00 8) with (Z.ones 8).
    rewrite Z.land_ones, Z.shiftr_div_pow2 by lia. rewrite Z.mod_small; lia.
Qed.

Lemma swap_oc w : 0 <= w <= 65535 -> SWAP_BYTES_IN_WORD w = oc (256 * w).
Proof.
  intros Hw. rewrite swap_value by done. pose proof (Z.div_mod w 256 ltac:(lia)).
  rewrite <- (oc_small (256 * (w mod 256) + w / 256)) by lia.
  apply (oc_eq _ _ (- (w / 256))); lia.
Qed.

Lemma fold_sum_oc (odd : bool) sum :
  0 <= sum < 2 ^ 32 -> fold_sum odd sum = oc (if odd then 256 * sum else sum).
Proof.
  intros Hs. unfold fold_sum, u16. rewrite fold_twice by done. pose proof (oc_range sum).
  destruct odd; [|rewrite Z.mod_small; lia].
  rewrite swap_oc, <- oc_mul by lia. pose proof (oc_range (256 * sum)). rewrite Z.mod_small; lia.
Qed.

(** ** The loops *)

Lemma oc_read16 s x y l :
  0 <= s -> byte_ok x -> byte_ok y -> bytes l ->
  oc (s + read16 x y + le_num l) = oc (s + le_num (x :: y :: l)).
Proof.
  intros Hs Hx Hy Hl. pose proof (le_num_nonneg l Hl). pose proof (read16_range x y Hx Hy).
  unfold byte_ok in *. apply (oc_eq _ _ (- le_num l)); cbn [le_num]; unfold read16; lia.
Qed.

Lemma add_words_spec l sum :
  bytes l -> 0 <= sum -> 2 * sum + 65535 * Z.of_nat (length l) < 2 * 2 ^ 32 ->
  let '(s, r) := add_words sum l in
  oc (s + le_num r) = oc (sum + le_num l) /\ 0 <= s /\ bytes r /\ (length r <= 1)%nat /\
  2 * s + 65535 * Z.of_nat (length r) <= 2 * sum + 65535 * Z.of_nat (length l).
Proof.
  revert sum. induction l as [|x|x y l IH] using pair_ind; intros sum Hl Hs Hb.
  - simpl. repeat split; [lia|done|lia|lia].
  - simpl in *. repeat split; [lia|done|lia|lia].
  - apply Forall_cons_1 in Hl as [Hx [Hy Hl]%Forall_cons_1].
    pose proof (read16_range x y Hx Hy). cbn [add_words length] in *.
    unfold u32. rewrite Z.mod_small by lia.
    specialize (IH (sum + read16 x y) Hl ltac:(lia) ltac:(lia)).
    destruct (add_words (sum + read16 x y) l) as [s r]. destruct IH as (He & H0 & Hr & Hlen & Hle).
    rewrite He, oc_read16 by done. repeat split; [done|done|done|lia].
Qed.

Lemma last_byte_value (odd : bool) b0 r :
  byte_ok b0 -> bytes r -> (length r <= 1)%nat ->
  last_byte (if odd then Z.shiftl b0 8 else 0) r = (if odd then 256 * b0 else 0) + le_num r.
Proof.
  unfold byte_ok. intros Hb Hr Hl. replace (Z.shiftl b0 8) with (256 * b0) by (rewrite Z.shiftl_mul_pow2 by lia; lia).
  destruct r as [|b [|? ?]]; [destruct odd; simpl; lia| |simpl in Hl; lia].
  apply Forall_cons_1 in Hr as [Hbr _]. unfold byte_ok in Hbr. cbn [last_byte le_num].
  destruct odd; [|rewrite Z.land_0_l, Z.lor_0_l; lia].
  replace (Z.land (256 * b0) 0xff00) with (Z.shiftl b0 8).
  - rewrite Z_lor_shiftl_small by lia. rewrite Z.shiftl_mul_pow2 by lia. lia.
  - change 0xff00 with (Z.shiftl (Z.ones 8) 8). replace (256 * b0) with (Z.shiftl b0 8) by (rewrite Z.shiftl_mul_pow2 by lia; lia).
    rewrite <- Z.shiftl_land, Z.land_ones by lia. f_equal. rewrite Z.mod_small; lia.
Qed.

(** What the versions 2 and 3 do after the bulk of the data: [t] is the first byte of
    data at an odd address, [s] and [r] the sum and the rest of what follows it. *)
Lemma finish (odd : bool) b0 s r v :
  byte_ok b0 -> bytes r -> (length r <= 1)%nat -> 0 <= s -> 0 <= v ->
  s + 255 * Z.of_nat (length r) + 65280 < 2 ^ 32 -> oc (s + le_num r) = oc v ->
  fold_sum odd (u32 (s + last_byte (if odd then Z.shiftl b0 8 else 0) r)) =
  oc (if odd then b0 + 256 * v else v).
Proof.
  intros Hb Hr Hl Hs Hv Hmax He. rewrite last_byte_value by done.
  assert (0 <= le_num r <= 255 * Z.of_nat (length r)) as Hn.
  { destruct r as [|b [|? ?]]; [simpl; lia| |simpl in Hl; lia].
    apply Forall_cons_1 in Hr as [Hbr _]. unfold byte_ok in Hbr. simpl. lia. }
  unfold byte_ok in Hb. unfold u32. rewrite Z.mod_small by (destruct odd; lia).
  rewrite fold_sum_oc by (destruct odd; lia). destruct odd; [|rewrite Z.add_0_l; exact He].
  rewrite (oc_eq _ (b0 + 256 * (s + le_num r)) b0) by lia.
  apply oc_add_r; [lia..|]. apply oc_mul_r; [lia..|exact He].
Qed.

(** The length that the source gives as the limit of the second version. *)
Definition max_len : Z := 0x20000.

Lemma version_2 dataptr data :
  bytes data -> Z.of_nat (length data) <= max_len -> lwip_standard_chksum dataptr data = rfc1071 data.
Proof.
  intros Hd Hl. rewrite rfc1071_num by done. unfold lwip_standard_chksum, max_len in *.
  assert (forall (odd : bool) b0 l, byte_ok b0 -> bytes l ->
    Z.of_nat (length l) + (if odd then 1 else 0) <= 0x20000 ->
    (let '(sum, r) := add_words 0 l in
     fold_sum odd (u32 (sum + last_byte (if odd then Z.shiftl b0 8 else 0) r))) =
    oc (if odd then b0 + 256 * le_num l else le_num l)) as Hgo.
  { clear. intros odd b0 l Hb Hl Hlen.
    assert (Z.of_nat (length l) <= 131072) by (destruct odd; lia).
    pose proof (add_words_spec l 0 Hl ltac:(lia) ltac:(lia)) as Hw.
    destruct (add_words 0 l) as [s r]. destruct Hw as (He & H0 & Hr & Hr1 & Hmax).
    apply finish; [done..|by apply le_num_nonneg| |exact He]. destruct odd; lia. }
  destruct data as [|b l].
  { change (first_byte (Z.odd dataptr) []) with (0, @nil Z). cbv iota beta.
    specialize (Hgo (Z.odd dataptr) 0 [] ltac:(unfold byte_ok; lia) Hd).
    destruct (Z.odd dataptr); apply Hgo; simpl; lia. }
  apply Forall_cons_1 in Hd as Hd'. destruct Hd' as [Hb Hl']. cbn [first_byte].
  cbn [length] in Hl. destruct (Z.odd dataptr).
  - apply (Hgo true b l Hb Hl'). lia.
  - apply (Hgo false b (b :: l) Hb Hd). cbn [length]. lia.
Qed.

(** *** The first version *)

Lemma octets_1_spec l acc :
  bytes l -> 0 <= acc -> 2 * acc + 65535 * (Z.of_nat (length l) + 1) < 2 * 2 ^ 32 ->
  oc (256 * octets_1 acc l) = oc (256 * acc + le_num l) /\ 0 <= octets_1 acc l < 2 ^ 32.
Proof.
  revert acc. induction l as [|x|x y l IH] using pair_ind; intros acc Hl Ha Hb.
  - simpl. split; [f_equal; lia|simpl in Hb; lia].
  - apply Forall_cons_1 in Hl as [Hx _]. unfold byte_ok in Hx. cbn [octets_1 length le_num] in *.
    unfold u32, u16. rewrite Z.shiftl_mul_pow2 by lia. change (2 ^ 8) with 256.
    rewrite (Z.mod_small (x * 256)) by lia. rewrite Z.mod_small by lia. split; [|lia].
    apply (oc_eq _ _ x); lia.
  - apply Forall_cons_1 in Hl as [Hx [Hy Hl]%Forall_cons_1]. pose proof (le_num_nonneg l Hl).
    unfold byte_ok in *. cbn [octets_1 length le_num] in *.
    assert (Z.lor (u16 (Z.shiftl x 8)) y = 256 * x + y) as ->.
    { unfold u16. rewrite Z.mod_small by (rewrite Z.shiftl_mul_pow2; lia).
      rewrite Z_lor_shiftl_small by lia. rewrite Z.shiftl_mul_pow2 by lia. lia. }
    unfold u32. rewrite Z.mod_small by lia.
    destruct (IH (acc + (256 * x + y)) Hl ltac:(lia) ltac:(lia)) as [He Hr]. split; [|exact Hr].
    rewrite He. apply (oc_eq _ _ (x - le_num l)); lia.
Qed.

(** Only the length modulo 2^16 reaches the function. *)
Lemma version_1 dataptr mem len :
  bytes mem -> lwip_standard_chksum_1 dataptr mem len = rfc1071 (take (Z.to_nat (u16 len)) mem).
Proof.
  intros Hm. unfold lwip_standard_chksum_1. cbv zeta. assert (0 <= u16 len < 65536) as Hlen by (unfold u16; lia).
  set (data := take (Z.to_nat (u16 len)) mem). assert (bytes data) as Hd by (by apply Forall_take).
  assert (Z.of_nat (length data) <= 65535) as Hl by (unfold data; rewrite length_take; lia).
  clearbody data. rewrite rfc1071_num by done.
  destruct (octets_1_spec data 0 Hd ltac:(lia) ltac:(lia)) as [He Hr].
  set (acc := octets_1 0 data) in *. pose proof (le_num_nonneg _ Hd).
  change (u32 (Z.shiftr acc 16 + Z.land acc 0xffff)) with (FOLD_U32T acc).
  set (a1 := FOLD_U32T acc). assert (0 <= a1 <= 131070) as H1 by (unfold a1; rewrite fold_value; lia).
  replace (if negb (Z.land a1 0xffff0000 =? 0) then _ else a1) with (oc acc).
  - change (lwip_htons ?n) with (u16 (SWAP_BYTES_IN_WORD n)). pose proof (oc_range acc).
    unfold u16 at 2. rewrite (Z.mod_small (oc acc)) by lia.
    rewrite swap_oc, <- oc_mul, He by lia. pose proof (oc_range (256 * 0 + le_num data)).
    unfold u16. rewrite Z.mod_small by lia. reflexivity.
  - rewrite <- (fold_oc acc) by done. fold a1.
    change (u32 (_ + _)) with (FOLD_U32T a1).
    destruct (Z.eqb_spec (Z.land a1 0xffff0000) 0) as [Hz|]; cbn [negb].
    + apply (f_equal (fun x => Z.shiftr x 16)) in Hz. rewrite Z.shiftr_land in Hz.
      change (Z.shiftr 0xffff0000 16) with (Z.ones 16) in Hz. change (Z.shiftr 0 16) with 0 in Hz.
      rewrite Z.land_ones, Z.shiftr_div_pow2 in Hz by lia. change (2 ^ 16) with 65536 in Hz.
      apply oc_small. lia.
    + rewrite <- fold_oc by lia. apply oc_small. by apply fold_once.
Qed.

(** *** The third version *)

Lemma add_carry_spec s w :
  0 <= s < 2 ^ 32 -> 0 <= w < 2 ^ 32 ->
  0 <= add_carry s w < 2 ^ 32 /\ oc (add_carry s w) = oc (s + w).
Proof.
  intros Hs Hw. unfold add_carry, u32. destruct (Z.ltb_spec (s + w) (2 ^ 32)).
  - rewrite Z.mod_small by lia. replace (s + w <? s) with false by lia. split; [lia|done].
  - replace ((s + w) mod 4294967296) with (s + w - 2 ^ 32)
      by (apply (Z.mod_unique_pos _ _ 1); lia).
    replace (s + w - 2 ^ 32 <? s) with true by lia. rewrite Z.mod_small by lia.
    split; [lia|]. apply (oc_eq _ _ (- 65537)); lia.
Qed.

Lemma read32_range b0 b1 b2 b3 :
  byte_ok b0 -> byte_ok b1 -> byte_ok b2 -> byte_ok b3 -> 0 <= read32 b0 b1 b2 b3 < 2 ^ 32.
Proof. unfold byte_ok, read32. lia. Qed.

Lemma oc_read32 s b0 b1 b2 b3 l :
  0 <= s -> byte_ok b0 -> byte_ok b1 -> byte_ok b2 -> byte_ok b3 -> bytes l ->
  oc (s + read32 b0 b1 b2 b3 + le_num l) = oc (s + le_num (b0 :: b1 :: b2 :: b3 :: l)).
Proof.
  intros Hs H0 H1 H2 H3 Hl. pose proof (le_num_nonneg l Hl). unfold byte_ok in *.
  apply (oc_eq _ _ (- 65537 * le_num l)); cbn [le_num]; unfold read32; lia.
Qed.

Lemma add_longs_spec n l s :
  (length l <= n)%nat -> bytes l -> 0 <= s < 2 ^ 32 ->
  let '(s', r) := add_longs s l in
  oc (s' + le_num r) = oc (s + le_num l) /\ 0 <= s' < 2 ^ 32 /\ bytes r /\ (length r <= 7)%nat.
Proof.
  revert l s. induction n as [n IH] using lt_wf_ind. intros l s Hn Hl Hs.
  destruct l as [|b0 [|b1 [|b2 [|b3 [|b4 [|b5 [|b6 [|b7 l]]]]]]]];
    try (simpl; repeat split; (done || lia)).
  repeat (apply Forall_cons_1 in Hl as [? Hl]). cbn [add_longs].
  pose proof (read32_range b0 b1 b2 b3 ltac:(done) ltac:(done) ltac:(done) ltac:(done)).
  pose proof (read32_range b4 b5 b6 b7 ltac:(done) ltac:(done) ltac:(done) ltac:(done)).
  destruct (add_carry_spec s (read32 b0 b1 b2 b3)) as [Hr1 He1]; [done..|].
  set (s1 := add_carry s _) in *.
  destruct (add_carry_spec s1 (read32 b4 b5 b6 b7)) as [Hr2 He2]; [done..|].
  set (s2 := add_carry s1 _) in *.
  specialize (IH (length l) ltac:(simpl in Hn; lia) l s2 ltac:(lia) Hl Hr2).
  destruct (add_longs s2 l) as [s' r]. destruct IH as (He & Hrest). split; [|exact Hrest].
  pose proof (le_num_nonneg l Hl).
  rewrite He, (oc_add_l _ s2 (s1 + read32 b4 b5 b6 b7)), oc_read32 by (done || lia).
  assert (bytes (b4 :: b5 :: b6 :: b7 :: l)) as Hl4 by (by rewrite !Forall_cons).
  pose proof (le_num_nonneg _ Hl4).
  by rewrite (oc_add_l _ s1 (s + read32 b0 b1 b2 b3)), oc_read32 by (done || lia).
Qed.

Lemma first_word_spec ps l :
  bytes l -> let '(s, r) := first_word ps l in
  oc (s + le_num r) = oc (le_num l) /\ 0 <= s < 65536 /\ bytes r.
Proof.
  intros Hl. unfold first_word.
  destruct l as [|x [|y l]]; try (split; [done|split; [lia|done]]).
  apply Forall_cons_1 in Hl as Hl'. destruct Hl' as [Hx [Hy Hr]%Forall_cons_1].
  pose proof (read16_range x y Hx Hy).
  destruct (negb _); [|split; [done|split; [lia|done]]].
  split; [|split; [lia|done]]. rewrite <- (Z.add_0_l (read16 x y)), oc_read16 by (done || lia). done.
Qed.

Lemma version_3 dataptr data :
  bytes data -> lwip_standard_chksum_3 dataptr data = rfc1071 data.
Proof.
  intros Hd. rewrite rfc1071_num by done. unfold lwip_standard_chksum_3.
  set (ps := if Z.odd dataptr && _ then _ else _). clearbody ps.
  assert (forall (odd : bool) b0 l, byte_ok b0 -> bytes l ->
    (let '(sum, l) := first_word ps l in let '(sum, l) := add_longs sum l in
     let '(sum, r) := add_words (FOLD_U32T sum) l in
     fold_sum odd (u32 (sum + last_byte (if odd then Z.shiftl b0 8 else 0) r))) =
    oc (if odd then b0 + 256 * le_num l else le_num l)) as Hgo.
  { clear. intros odd b0 l Hb Hl.
    pose proof (first_word_spec ps l Hl) as H1. destruct (first_word ps l) as [s1 l1].
    destruct H1 as (He1 & Hs1 & Hl1).
    pose proof (add_longs_spec (length l1) l1 s1 ltac:(lia) Hl1 ltac:(lia)) as H2.
    destruct (add_longs s1 l1) as [s2 l2]. destruct H2 as (He2 & Hs2 & Hl2 & Hlen).
    assert (0 <= FOLD_U32T s2 <= 131070) as Hf by (rewrite fold_value; lia).
    pose proof (add_words_spec l2 (FOLD_U32T s2) Hl2 ltac:(lia) ltac:(lia)) as H3.
    destruct (add_words (FOLD_U32T s2) l2) as [s3 r]. destruct H3 as (He3 & Hs3 & Hr & Hr1 & Hmax).
    apply finish; [done..|by apply le_num_nonneg|lia|]. pose proof (le_num_nonneg l2 Hl2).
    by rewrite He3, (oc_add_l _ _ s2), He2, He1 by (rewrite ?fold_oc; lia || done). }
  destruct data as [|b l].
  { change (first_byte (Z.odd dataptr) []) with (0, @nil Z). cbv iota beta.
    specialize (Hgo (Z.odd dataptr) 0 [] ltac:(unfold byte_ok; lia) Hd).
    destruct (Z.odd dataptr); exact Hgo. }
  apply Forall_cons_1 in Hd as Hd'. destruct Hd' as [Hb Hl']. cbn [first_byte].
  destruct (Z.odd dataptr); [exact (Hgo true b l Hb Hl')|exact (Hgo false b (b :: l) Hb Hd)].
Qed.

(** The whole of a piece of memory that is as long as the argument says. *)
Lemma take_len {A} (l : list A) : Z.of_nat (length l) < 65536 -> take (Z.to_nat (u16 (Z.of_nat (length l)))) l = l.
Proof. intros Hl. unfold u16. rewrite Z.mod_small, Nat2Z.id by lia. apply firstn_all. Qed.

(** C25: The three versions compute the sum of RFC 1071, wherever the data are and with no
    carry lost: the first one for every length that its [u16_t] can hold (of a longer one it
    sees the remainder modulo 2^16), the second one up to and including the 0x20000 bytes
    that are documented, the third one for every length. *)
Theorem versions_agree (p1 p2 p3 : Z) l :
  bytes l ->
  (Z.of_nat (length l) < 65536 -> lwip_standard_chksum_1 p1 l (Z.of_nat (length l)) = rfc1071 l) /\
  (forall len, lwip_standard_chksum_1 p1 l len = rfc1071 (take (Z.to_nat (u16 len)) l)) /\
  (Z.of_nat (length l) <= max_len -> lwip_standard_chksum p2 l = rfc1071 l) /\
  lwip_standard_chksum_3 p3 l = rfc1071 l.
Proof.
  intros Hl. split; [intros Hm; rewrite version_1, take_len; done|]. split; [intros len; by apply version_1|].
  split; [intros Hm; by apply version_2|by apply version_3].
Qed.

(** ** Chains *)

Definition chain_data (p : list pbuf) : list Z := concat (data <$> p).
Definition chain_ok (p : list pbuf) : Prop :=
  Forall (fun q => bytes (data q) /\ Z.of_nat (length (data q)) < 65536) p.

Lemma chain_data_bytes p : chain_ok p -> bytes (chain_data p).
Proof.
  intros Hp. apply Forall_concat, Forall_fmap. eapply Forall_impl; [exact Hp|]. by intros q [? ?].
Qed.

Lemma fold_add s l : 0 <= s <= 65535 -> bytes l ->
  FOLD_U32T (u32 (s + rfc1071 l)) = oc (s + le_num l).
Proof.
  intros Hs Hl. pose proof (oc_range (le_num l)). pose proof (le_num_nonneg l Hl).
  rewrite rfc1071_num by done. unfold u32. rewrite Z.mod_small by lia.
  rewrite <- (oc_small (FOLD_U32T _)) by (apply fold_once; lia). rewrite fold_oc by lia.
  apply oc_add_r; [lia..|]. apply oc_small. lia.
Qed.

(** A sum in the order of the bytes that come after [l]. *)
Definition oriented (l : list Z) : Z := oc (weight (length l) * le_num l).
Definition odd_len (l : list Z) : bool := negb (Nat.even (length l)).

Lemma weight_pos n : weight n = 1 \/ weight n = 256.
Proof. unfold weight. destruct (Nat.even n); auto. Qed.

Lemma oriented_app l m : bytes l -> bytes m ->
  oc (oriented l + le_num m) = oc (weight (length l) * le_num (l ++ m)).
Proof.
  intros Hl Hm. pose proof (le_num_nonneg l Hl). pose proof (le_num_nonneg m Hm).
  pose proof (le_num_nonneg (l ++ m) ltac:(by apply Forall_app)). unfold oriented.
  set (w := weight (length l)).
  assert (w = 1 \/ w = 256) as Hw by apply weight_pos.
  pose proof (oc_range (w * le_num l)).
  rewrite (oc_mul_r w (le_num (l ++ m)) (le_num l + w * le_num m)); [|nia|nia|nia|by apply oc_app].
  rewrite (oc_add_l _ _ (w * le_num l)) by (try apply oc_small; nia).
  destruct Hw as [-> | ->]; [f_equal; lia|]. apply (oc_eq _ _ (- le_num m)); lia.
Qed.

Lemma odd_mod (l : list Z) : negb (Z.of_nat (length l) mod 2 =? 0) = odd_len l.
Proof.
  unfold odd_len. f_equal. induction l as [|x|x y l IH] using pair_ind; [done|done|].
  cbn [length Nat.even]. rewrite <- IH. f_equal. lia.
Qed.

(** A sum turned round when the data are followed by [m]. *)
Lemma oriented_step l m : bytes l -> bytes m ->
  let acc := oc (weight (length l) * le_num (l ++ m)) in
  (if odd_len m then SWAP_BYTES_IN_WORD acc else acc) = oriented (l ++ m) /\
  odd_len (l ++ m) = (if odd_len m then negb (odd_len l) else odd_len l).
Proof.
  intros Hl Hm acc. pose proof (le_num_nonneg (l ++ m) ltac:(by apply Forall_app)) as Hn.
  unfold odd_len, oriented, acc, weight. rewrite length_app, Nat.even_add.
  destruct (Nat.even (length m)) eqn:Em; cbn [negb].
  - by destruct (Nat.even (length l)).
  - rewrite swap_oc by apply oc_range.
    destruct (Nat.even (length l)); cbn [negb Bool.eqb]; (split; [|done]);
      rewrite <- oc_mul by lia; [f_equal; lia|]. rewrite Z.mul_1_l.
    rewrite <- (oc_swap2 (le_num _)) by lia. f_equal. lia.
Qed.

Lemma unswap_oriented l : bytes l -> unswap (oriented l, odd_len l) = rfc1071 l.
Proof.
  intros Hl. pose proof (le_num_nonneg l Hl). rewrite rfc1071_num by done.
  unfold unswap, oriented, odd_len, weight.
  destruct (Nat.even (length l)); cbn [negb]; [f_equal; lia|].
  rewrite swap_oc, <- oc_mul by (apply oc_range || lia). rewrite <- (oc_swap2 (le_num l)) by lia.
  f_equal. lia.
Qed.

Lemma chain_run p l : bytes l -> chain_ok p ->
  chain_sum (oriented l) (odd_len l) p = (oriented (l ++ chain_data p), odd_len (l ++ chain_data p)).
Proof.
  revert l. induction p as [|q p IH]; intros l Hl Hp.
  - cbn. by rewrite app_nil_r.
  - apply Forall_cons_1 in Hp as [[Hq Hlen] Hp]. cbn [chain_sum].
    rewrite version_2 by (unfold max_len; (done || lia)).
    rewrite fold_add, oriented_app by (apply oc_range || done).
    rewrite odd_mod. destruct (oriented_step l (data q) Hl Hq) as [Hs Ho].
    change (chain_data (q :: p)) with (data q ++ chain_data p). rewrite app_assoc.
    rewrite <- IH by (try apply Forall_app; done). rewrite <- Hs, Ho. by destruct (odd_len (data q)).
Qed.

Lemma chain_whole p : chain_ok p -> unswap (chain_sum 0 false p) = rfc1071 (chain_data p).
Proof.
  intros Hp. change 0 with (oriented []) at 1. change false with (odd_len []).
  rewrite chain_run by done. apply unswap_oriented. by apply chain_data_bytes.
Qed.

Lemma rfc1071_range l : bytes l -> 0 <= rfc1071 l <= 65535.
Proof. intros Hl. rewrite rfc1071_num by done. apply oc_range. Qed.

Lemma inverted_value x : 0 <= x <= 65535 -> inverted x = 65535 - x.
Proof.
  intros Hx. unfold inverted. change 0xffff with (Z.ones 16). rewrite Z.land_ones by lia.
  rewrite Z.mod_small; lia.
Qed.

Lemma chain_checksum_run p : chain_ok p -> inet_chksum_pbuf p = 65535 - rfc1071 (chain_data p).
Proof.
  intros Hp. unfold inet_chksum_pbuf. rewrite chain_whole by done. apply inverted_value.
  apply rfc1071_range. by apply chain_data_bytes.
Qed.

(** ** The pseudo header *)

Lemma le_num_addr a : word_ok a -> le_num (addr_bytes a) = a.
Proof.
  unfold word_ok. intros Ha. unfold addr_bytes. change 0xff with (Z.ones 8).
  rewrite !Z.land_ones, !Z.shiftr_div_pow2 by lia. simpl. lia.
Qed.

Lemma addr_bytes_ok a : word_ok a -> bytes (addr_bytes a).
Proof.
  unfold word_ok. intros Ha. unfold addr_bytes, byte_ok. change 0xff with (Z.ones 8).
  rewrite !Z.land_ones, !Z.shiftr_div_pow2 by lia. rewrite !Forall_cons.
  change (2 ^ 24) with 16777216. repeat split; (done || lia).
Qed.

(** Source, destination, 0, protocol and length, in network order. *)
Definition pseudo_header (src dest proto proto_len : Z) : list Z :=
  addr_bytes src ++ addr_bytes dest ++ [0; proto; proto_len / 256; proto_len mod 256].

Lemma add_addr_spec acc a : 0 <= acc <= 10 * 65535 -> word_ok a ->
  oc (add_addr acc a) = oc (acc + a) /\ 0 <= add_addr acc a <= acc + 131070.
Proof.
  unfold word_ok. intros Hacc Ha. unfold add_addr, u32. change 0xffff with (Z.ones 16).
  rewrite !Z.land_ones, Z.shiftr_div_pow2 by lia. change (2 ^ 16) with 65536.
  rewrite (Z.mod_small (acc + _)) by lia. rewrite (Z.mod_small (a / 65536)) by lia.
  rewrite (Z.mod_small (acc + _ + _)) by lia. split; [|lia]. apply (oc_eq _ _ (- (a / 65536))); lia.
Qed.

Lemma htons_value n : 0 <= n <= 65535 -> lwip_htons n = 256 * (n mod 256) + n / 256.
Proof.
  intros Hn. change (lwip_htons n) with (u16 (SWAP_BYTES_IN_WORD n)). rewrite swap_value by done.
  unfold u16. rewrite Z.mod_small; lia.
Qed.

Lemma pseudo_spec l src dest proto plen :
  bytes l -> word_ok src -> word_ok dest -> byte_ok proto -> 0 <= plen <= 65535 ->
  add_pseudo (rfc1071 l) src dest proto plen =
    65535 - rfc1071 (pseudo_header src dest proto plen ++ l).
Proof.
  intros Hl Hs Hd Hp Hn. pose proof (rfc1071_range l Hl) as Hr. unfold add_pseudo.
  destruct (add_addr_spec (rfc1071 l) src ltac:(lia) Hs) as [He1 H1].
  destruct (add_addr_spec (add_addr (rfc1071 l) src) dest ltac:(lia) Hd) as [He2 H2].
  set (a2 := add_addr _ dest) in *. unfold byte_ok in Hp.
  rewrite (htons_value proto), (htons_value plen) by lia.
  rewrite (Z.mod_small proto) by lia. rewrite (Z.div_small proto) by lia. rewrite Z.add_0_r.
  unfold u32. rewrite (Z.mod_small (a2 + _)), Z.mod_small by lia.
  rewrite fold_twice, inverted_value by (apply oc_range || lia). f_equal.
  pose proof (le_num_nonneg l Hl).
  assert (bytes (pseudo_header src dest proto plen)) as Hh.
  { unfold pseudo_header. rewrite !Forall_app, !Forall_cons. unfold byte_ok.
    split; [by apply addr_bytes_ok|]. split; [by apply addr_bytes_ok|]. repeat split; (done || lia). }
  rewrite rfc1071_num by (by apply Forall_app). rewrite oc_app by done.
  set (hi := plen / 256) in *. set (lo := plen mod 256) in *.
  assert (0 <= hi < 256 /\ 0 <= lo < 256) as [Hhi Hlo] by lia.
  assert (le_num (pseudo_header src dest proto plen) =
    src + 2 ^ 32 * (dest + 2 ^ 32 * (256 * proto + 65536 * hi + 2 ^ 24 * lo))) as ->.
  { unfold pseudo_header. fold hi lo. rewrite !le_num_app, !le_num_addr by done.
    change (256 ^ Z.of_nat (length (addr_bytes _))) with (2 ^ 32). cbn [le_num]. lia. }
  clearbody hi lo. change (weight _) with 1. unfold word_ok in *. rewrite Z.mul_1_l.
  set (t := 256 * proto + (256 * lo + hi)). assert (0 <= t <= 131070) as Ht by (unfold t; lia).
  transitivity (oc (le_num l + (src + dest + t))).
  - replace (a2 + 256 * proto + (256 * lo + hi)) with (a2 + t) by (unfold t; lia).
    rewrite (oc_add_l t a2 (add_addr (rfc1071 l) src + dest)) by (done || lia).
    replace (add_addr (rfc1071 l) src + dest + t) with (add_addr (rfc1071 l) src + (dest + t)) by lia.
    rewrite (oc_add_l (dest + t) (add_addr (rfc1071 l) src) (rfc1071 l + src)) by (done || lia).
    replace (rfc1071 l + src + (dest + t)) with (rfc1071 l + (src + dest + t)) by lia.
    apply oc_add_l; [lia|lia|lia|]. rewrite rfc1071_num by done. apply oc_small, oc_range.
  - apply (oc_eq _ _ (- (65537 * dest + 281479271743489 * (256 * proto) + 18447025552981295105 * (hi + 256 * lo)))); unfold t; lia.
Qed.

(** C27: The checksum of TCP and UDP over a chain of buffers is that of RFC 1071 over the
    pseudo header and the data, wherever the chain is cut. *)
Theorem pseudo_checksum p src dest proto plen :
  chain_ok p -> word_ok src -> word_ok dest -> byte_ok proto -> 0 <= plen <= 65535 ->
  inet_chksum_pseudo p src dest proto plen =
    65535 - rfc1071 (pseudo_header src dest proto plen ++ chain_data p).
Proof.
  intros Hp ? ? ? ?. unfold inet_chksum_pseudo. rewrite chain_whole by done.
  apply pseudo_spec; try done. by apply chain_data_bytes.
Qed.

(** *** A part of a chain *)

(** The last part, whether or not it is turned round at its end. *)
Lemma last_part (turn : bool) l m : bytes l -> bytes m ->
  let acc := oc (weight (length l) * le_num (l ++ m)) in
  unswap (if turn then (SWAP_BYTES_IN_WORD acc, negb (odd_len l)) else (acc, odd_len l)) =
    rfc1071 (l ++ m).
Proof.
  intros Hl Hm acc. assert (bytes (l ++ m)) as Hlm by (by apply Forall_app).
  pose proof (le_num_nonneg (l ++ m) Hlm). rewrite rfc1071_num by done.
  assert (oc (256 * oc (256 * le_num (l ++ m))) = oc (le_num (l ++ m))) as Htwice.
  { rewrite <- oc_mul by lia. rewrite <- (oc_swap2 (le_num (l ++ m))) by lia. f_equal. lia. }
  unfold unswap, odd_len, acc, weight.
  destruct turn, (Nat.even (length l)); cbn [negb];
    rewrite ?swap_oc, ?Z.mul_1_l by apply oc_range; try done.
  rewrite (swap_oc (oc (le_num (l ++ m)))), <- oc_mul, swap_oc by (apply oc_range || lia). done.
Qed.

Lemma partial_run p l n : bytes l -> chain_ok p -> 0 <= n < 65536 ->
  unswap (chain_sum_partial (oriented l) (odd_len l) n p) =
    rfc1071 (l ++ take (Z.to_nat n) (chain_data p)).
Proof.
  revert l n. induction p as [|q p IH]; intros l n Hl Hp Hn.
  - cbn. rewrite take_nil, app_nil_r. by apply unswap_oriented.
  - apply Forall_cons_1 in Hp as [[Hq Hlen] Hp]. cbn [chain_sum_partial].
    change (chain_data (q :: p)) with (data q ++ chain_data p).
    destruct (Z.ltb_spec 0 n); cbn [negb].
    2:{ replace (Z.to_nat n) with 0%nat by lia. rewrite app_nil_r. by apply unswap_oriented. }
    rewrite odd_mod. destruct (Z.ltb_spec n (Z.of_nat (length (data q)))).
    + rewrite take_app_le by lia. set (m := take (Z.to_nat n) (data q)).
      assert (bytes m) as Hm by (by apply Forall_take).
      rewrite version_2 by (unfold max_len, m; rewrite ?length_take; (done || lia)).
      rewrite fold_add, oriented_app by (apply oc_range || done).
      replace (u16 (n - n)) with 0 by (by rewrite Z.sub_diag).
      rewrite <- (last_part (odd_len (data q)) l m Hl Hm).
      destruct (odd_len (data q)); by destruct p.
    + rewrite take_app_ge by lia. rewrite firstn_all2 by lia.
      rewrite version_2 by (unfold max_len; (done || lia)).
      rewrite fold_add, oriented_app by (apply oc_range || done).
      destruct (oriented_step l (data q) Hl Hq) as [Hs Ho].
      replace (u16 (n - _)) with (n - Z.of_nat (length (data q))) by (unfold u16; rewrite Z.mod_small; lia).
      replace (Z.to_nat n - length (data q))%nat with (Z.to_nat (n - Z.of_nat (length (data q)))) by lia.
      rewrite app_assoc, <- IH by (try apply Forall_app; (done || lia)).
      rewrite <- Hs, Ho. by destruct (odd_len (data q)).
Qed.

Theorem partial_checksum p src dest proto plen n :
  chain_ok p -> word_ok src -> word_ok dest -> byte_ok proto -> 0 <= plen <= 65535 ->
  0 <= n < 65536 ->
  inet_chksum_pseudo_partial p src dest proto plen n =
    65535 - rfc1071 (pseudo_header src dest proto plen ++ take (Z.to_nat n) (chain_data p)).
Proof.
  intros Hp ? ? ? ? Hn. unfold inet_chksum_pseudo_partial.
  change 0 with (oriented []) at 1. change false with (odd_len []). rewrite partial_run by done.
  apply pseudo_spec; try done. by apply Forall_take, chain_data_bytes.
Qed.

(** ** Checking a packet *)

Lemma le_num_word l x y m :
  Nat.Even (length l) ->
  exists k, le_num (l ++ [x; y] ++ m) =
    le_num (l ++ [0; 0] ++ m) + read16 x y + 65535 * (k * read16 x y) /\ 0 <= k.
Proof.
  intros [h Hh]. assert (exists k, 256 ^ Z.of_nat (length l) = 1 + 65535 * k /\ 0 <= k) as (k & Hk & H0).
  { rewrite Hh. clear. induction h as [|h (k & IH & H0)]; [exists 0; done|].
    exists (65536 * k + 1). replace (Z.of_nat (2 * S h)) with (Z.of_nat (2 * h) + 2) by lia.
    rewrite Z.pow_add_r by lia. change (256 ^ 2) with 65536. lia. }
  exists k. split; [|done]. rewrite !le_num_app, Hk. unfold read16.
  change (256 ^ Z.of_nat (length [x; y])) with 65536. change (256 ^ Z.of_nat (length [0; 0])) with 65536.
  cbn [le_num]. ring.
Qed.

(** How a program may compute the checksum of the data [l]: in one piece by [inet_chksum],
    whose length is a [u16_t], or by the sum itself, or over any chain of buffers. *)
Inductive checksum_of (l : list Z) : Z -> Prop :=
  | by_inet_chksum ptr : Z.of_nat (length l) < 65536 ->
      checksum_of l (inet_chksum ptr l (Z.of_nat (length l)))
  | by_standard_chksum ptr : Z.of_nat (length l) <= max_len ->
      checksum_of l (65535 - lwip_standard_chksum ptr l)
  | by_inet_chksum_pbuf p : chain_ok p -> chain_data p = l -> checksum_of l (inet_chksum_pbuf p).

Lemma checksum_value l c : bytes l -> checksum_of l c -> c = 65535 - oc (le_num l).
Proof.
  intros Hl [ptr Hn|ptr Hn|p Hp Hd].
  - unfold inet_chksum. cbv zeta. rewrite take_len, version_2, rfc1071_num by (unfold max_len; done || lia). done.
  - by rewrite version_2, rfc1071_num.
  - by rewrite chain_checksum_run, Hd, rfc1071_num by done.
Qed.

(** C26: A packet with its checksum, computed over the packet with 0 in the field and stored
    in the field, checks to 0 wherever it is and however the chain is cut. *)
Theorem stored_checksum_checks l m c p :
  bytes l -> bytes m -> Nat.Even (length l) -> chain_ok p ->
  checksum_of (l ++ [0; 0] ++ m) c ->
  chain_data p = l ++ [c mod 256; c / 256] ++ m -> inet_chksum_pbuf p = 0.
Proof.
  intros Hl Hm Hev Hp Hcs Hd. rewrite chain_checksum_run by done. rewrite Hd.
  assert (bytes (l ++ [0; 0] ++ m)) as H0.
  { rewrite !Forall_app, !Forall_cons. unfold byte_ok. repeat split; (done || lia). }
  pose proof (checksum_value _ _ H0 Hcs) as Hc.
  pose proof (oc_range (le_num (l ++ [0; 0] ++ m))). pose proof (le_num_nonneg _ H0).
  assert (bytes (l ++ [c mod 256; c / 256] ++ m)) as Hb.
  { rewrite !Forall_app, !Forall_cons. unfold byte_ok. repeat split; (done || lia). }
  rewrite rfc1071_num by done.
  destruct (le_num_word l (c mod 256) (c / 256) m Hev) as (k & -> & Hk).
  assert (read16 (c mod 256) (c / 256) = c) as -> by (unfold read16; lia).
  rewrite (oc_eq _ (le_num (l ++ [0; 0] ++ m) + c) (k * c)) by nia.
  rewrite oc_add, (oc_small c) by lia. rewrite Hc. rewrite oc_small by lia. lia.
Qed.

(** A packet that checks to 0 does so no more when one word of it is changed, unless
    between 0 and 65535, which ones' complement does not tell apart. *)
Theorem changed_word_detected ptr l x y x' y' m :
  bytes l -> bytes m -> Nat.Even (length l) -> bytes [x; y] -> bytes [x'; y'] ->
  let n := Z.of_nat (length (l ++ [x; y] ++ m)) in n < 65536 ->
  inet_chksum ptr (l ++ [x; y] ++ m) n = 0 -> inet_chksum ptr (l ++ [x'; y'] ++ m) n = 0 ->
  read16 x y = read16 x' y' \/ (read16 x y = 0 /\ read16 x' y' = 65535) \/
  (read16 x y = 65535 /\ read16 x' y' = 0).
Proof.
  intros Hl Hm Hev Hw Hw' n Hlen H1 H2.
  assert (bytes (l ++ [x; y] ++ m) /\ bytes (l ++ [x'; y'] ++ m)) as [Hb1 Hb2]
    by (by rewrite !Forall_app).
  assert (n = Z.of_nat (length (l ++ [x'; y'] ++ m))) as Hn by (unfold n; by rewrite !length_app).
  unfold inet_chksum in H1, H2. cbv zeta in H1, H2. unfold n in H1 at 1. rewrite Hn in H2 at 1.
  rewrite Hn in Hlen at 1.
  rewrite take_len, version_2, rfc1071_num in H1, H2 by (unfold max_len; done || lia).
  pose proof (le_num_nonneg _ Hb1) as Hn1. pose proof (le_num_nonneg _ Hb2) as Hn2.
  destruct (oc_spec _ Hn1) as (a & Ha & _), (oc_spec _ Hn2) as (b & Hb & _).
  destruct (le_num_word l x y m Hev) as (k & Hk & _), (le_num_word l x' y' m Hev) as (k' & Hk' & _).
  rewrite !Forall_cons in Hw, Hw'. destruct Hw as (Hx & Hy & _), Hw' as (Hx' & Hy' & _).
  pose proof (read16_range x y Hx Hy). pose proof (read16_range x' y' Hx' Hy').
  assert (read16 x y - read16 x' y' = 65535 * (k' * read16 x' y' - k * read16 x y + b - a)) as Hd by lia.
  set (q := k' * _ - _ + b - a) in Hd. clearbody q.
  assert (q = 0 \/ q = 1 \/ q = -1) as [-> | [-> | ->]] by lia; lia.
Qed.

(** ** The dotted form *)

(** The decimal digits of a byte, and the dotted form. *)
Definition dec (b : Z) : list Z :=
  if b <? 10 then [48 + b]
  else if b <? 100 then [48 + b / 10; 48 + b mod 10]
  else [48 + b / 100; 48 + b / 10 mod 10; 48 + b mod 10].
Definition with_point (b : Z) : list Z := dec b ++ [46].
Definition dotted (a : Z) : list Z := removelast (concat (with_point <$> addr_bytes a)).

Lemma dec_length b : (1 <= length (dec b) <= 3)%nat.
Proof. unfold dec. destruct (b <? 10), (b <? 100); simpl; lia. Qed.

Lemma inv_digits_run b w : byte_ok b ->
  exists inv, inv_digits b w = Ok (Z.of_nat (length (dec b)), inv, w) /\
    length inv = 3%nat /\ dec b = rev (take (length (dec b)) inv).
Proof.
  unfold byte_ok. intros Hb. unfold inv_digits, dec. cbn [while].
  erewrite bind_ok; [|erewrite bind_ok; [reflexivity|by apply aset_ok]].
  destruct (Z.ltb_spec b 10).
  { replace (b / 10 =? 0) with true by lia. eexists. split; [reflexivity|]. split; [done|].
    simpl. do 2 f_equal. lia. }
  replace (b / 10 =? 0) with false by lia.
  erewrite bind_ok; [|erewrite bind_ok; [reflexivity|by apply aset_ok]].
  destruct (Z.ltb_spec b 100).
  { replace (b / 10 / 10 =? 0) with true by lia. eexists. split; [reflexivity|]. split; [done|].
    simpl. do 2 f_equal. lia. }
  replace (b / 10 / 10 =? 0) with false by lia.
  erewrite bind_ok; [|erewrite bind_ok; [reflexivity|by apply aset_ok]].
  replace (b / 10 / 10 / 10 =? 0) with true by lia. eexists. split; [reflexivity|]. split; [done|].
  simpl. do 2 f_equal. lia.
Qed.

(** *** Writing *)

(** Characters one by one from [len] on, until the array is full. *)
Fixpoint put_all (buflen len : Z) (cs : list Z) : M (list Z) (option Z) :=
  match cs with
  | [] => mret (Some len)
  | c :: cs' =>
      r ← put_char buflen len c;
      match r with
      | None => mret None
      | Some len => put_all buflen len cs'
      end
  end.

Definition and_then_put (m : M (list Z) (option Z)) (k : Z -> M (list Z) (option Z)) : M (list Z) (option Z) :=
  r ← m; match r with None => mret None | Some len => k len end.

Lemma put_all_app n len cs ds w :
  put_all n len (cs ++ ds) w = and_then_put (put_all n len cs) (fun len => put_all n len ds) w.
Proof.
  revert len w. unfold and_then_put. induction cs as [|c cs IH]; intros len w; [done|].
  cbn [app put_all]. unfold mbind, M_bind in *.
  destruct (put_char n len c w) as [[[l|] w1]|]; [apply IH|done|done].
Qed.

Lemma put_all_run n buf len cs :
  Z.of_nat (length buf) = n -> 0 <= len ->
  put_all n len cs buf = Ok (if len + Z.of_nat (length cs) <=? n then Some (len + Z.of_nat (length cs)) else None,
    blit buf (Z.to_nat len) (take (Z.to_nat (n - len)) cs)) \/ n < len.
Proof.
  intros Hn. revert buf len Hn. induction cs as [|c cs IH]; intros buf len Hn Hl.
  - destruct (Z.leb_spec len n); [left|by right]. cbn. rewrite take_nil, blit_nil, Z.add_0_r.
    by replace (len <=? n) with true by lia.
  - destruct (Z.leb_spec len n) as [Hle|]; [left|by right]. cbn [put_all length].
    unfold put_char. destruct (Z.leb_spec n len).
    + destruct (Z.leb_spec (len + Z.of_nat (S (length cs))) n); [lia|].
      replace (Z.to_nat (n - len)) with 0%nat by lia. by rewrite take_0, blit_nil.
    + set (buf1 := <[Z.to_nat len := c]> buf).
      rewrite (bind_ok _ _ _ (Some (len + 1)) buf1).
      2:{ erewrite bind_ok; [|reflexivity]. erewrite bind_ok; [|apply aset_ok; lia]. reflexivity. }
      destruct (IH buf1 (len + 1)) as [-> | ?]; [by unfold buf1; rewrite length_insert|lia| |lia].
      replace (len + 1 + Z.of_nat (length cs)) with (len + Z.of_nat (S (length cs))) by lia.
      replace (Z.to_nat (n - len)) with (S (Z.to_nat (n - (len + 1)))) by lia.
      cbn [take]. rewrite blit_cons by lia.
      by replace (Z.to_nat (len + 1)) with (S (Z.to_nat len)) by lia.
Qed.

Lemma put_digits_all n len i inv w : (i <= length inv)%nat ->
  put_digits n len i inv w = put_all n len (rev (take i inv)) w.
Proof.
  revert len w. induction i as [|i IH]; intros len w Hi; [done|].
  destruct (lookup_lt_is_Some_2 inv i) as [c Hc]; [lia|]. rewrite (take_S_r _ _ _ Hc), rev_app_distr.
  cbn [rev app put_digits put_all].
  erewrite bind_ok; [|apply aget_ok; [lia|rewrite Nat2Z.id; exact Hc]].
  unfold mbind, M_bind. destruct (put_char n len c w) as [[[l|] w1]|]; [apply IH; lia|done|done].
Qed.

Lemma put_byte_all n len b w : byte_ok b -> put_byte n len b w = put_all n len (with_point b) w.
Proof.
  intros Hb. destruct (inv_digits_run b w Hb) as (inv & Hr & Hlen & Hd). unfold put_byte, with_point.
  rewrite (bind_ok _ _ _ _ _ Hr). cbv beta iota. rewrite Nat2Z.id, put_all_app, Hd.
  pose proof (dec_length b). unfold and_then_put, mbind, M_bind. rewrite <- Hd.
  rewrite put_digits_all by lia. rewrite <- Hd.
  destruct (put_all n len (dec b) w) as [[[l|] w1]|]; [|done|done].
  cbn [put_all]. unfold mbind, M_bind. by destruct (put_char n l 46 w1) as [[[]]|].
Qed.

Lemma put_bytes_all n len bs w : bytes bs ->
  put_bytes n len bs w = put_all n len (concat (with_point <$> bs)) w.
Proof.
  intros Hb. revert len w. induction Hb as [|b bs Hb _ IH]; intros len w; [done|].
  cbn [put_bytes fmap list_fmap concat]. rewrite put_all_app. unfold and_then_put, mbind, M_bind.
  rewrite put_byte_all by done.
  destruct (put_all n len (with_point b) w) as [[[l|] w1]|]; [apply IH|done|done].
Qed.

(** *** Reading *)

Lemma lor_add a b n : 0 <= n -> 0 <= a -> 0 <= b < 2 ^ n -> Z.lor (a * 2 ^ n) b = a * 2 ^ n + b.
Proof. intros. rewrite <- Z.shiftl_mul_pow2 by lia. by apply Z_lor_shiftl_small. Qed.

(** A byte of a number, masked in place. *)
Lemma land_byte x k : 0 <= k -> Z.land x (Z.shiftl 255 k) = (x / 2 ^ k) mod 256 * 2 ^ k.
Proof.
  intros Hk. rewrite <- Z.shiftl_mul_pow2, <- Z.shiftr_div_pow2 by lia.
  change 256 with (2 ^ 8). rewrite <- Z.land_ones by lia. change (Z.ones 8) with 255.
  apply Z.bits_inj'. intros n Hn. rewrite Z.land_spec.
  destruct (Z.ltb_spec n k); [by rewrite !Z.shiftl_spec_low, andb_false_r by lia|].
  rewrite !Z.shiftl_spec, Z.land_spec, Z.shiftr_spec by lia. by replace (n - k + k) with n by lia.
Qed.

Lemma htonl_value x : word_ok x ->
  lwip_htonl x = le_num (rev (addr_bytes x)).
Proof.
  unfold word_ok. intros Hx. unfold lwip_htonl, addr_bytes.
  change 0xff00 with (Z.shiftl 255 8). change 0xff0000 with (Z.shiftl 255 16).
  change 0xff000000 with (Z.shiftl 255 24). rewrite !land_byte by lia.
  change 255 with (Z.ones 8). rewrite !Z.land_ones, !Z.shiftl_mul_pow2, !Z.shiftr_div_pow2 by lia.
  change (2 ^ 8) with 256. change (2 ^ 16) with 65536. change (2 ^ 24) with 16777216.
  set (c0 := x mod 256). set (c1 := x / 256 mod 256). set (c2 := x / 65536 mod 256).
  replace (x / 16777216 mod 256) with (x / 16777216) by lia. set (c3 := x / 16777216).
  assert (0 <= c0 < 256 /\ 0 <= c1 < 256 /\ 0 <= c2 < 256 /\ 0 <= c3 < 256) as (?&?&?&?) by lia.
  clearbody c0 c1 c2 c3.
  replace (c1 * 256 * 256) with (c1 * 65536) by lia.
  replace (c2 * 65536 / 256) with (c2 * 256) by lia.
  replace (c3 * 16777216 / 16777216) with c3 by lia.
  replace (c0 * 16777216) with (c0 * 2 ^ 24) by lia.
  rewrite (lor_add c0 (c1 * 65536) 24) by lia.
  replace (c0 * 2 ^ 24 + c1 * 65536) with ((c0 * 256 + c1) * 2 ^ 16) by lia.
  rewrite (lor_add _ (c2 * 256) 16) by lia.
  replace ((c0 * 256 + c1) * 2 ^ 16 + c2 * 256) with ((c0 * 65536 + c1 * 256 + c2) * 2 ^ 8) by lia.
  rewrite (lor_add _ c3 8) by lia. unfold u32. cbn [rev app le_num]. rewrite Z.mod_small; lia.
Qed.

Definition stops (r : list Z) : Prop := r = [] \/ cur r = 46.

Lemma digits_stop base v r : base <> 16 -> stops r -> digits base v r = (v, r).
Proof.
  intros Hb Hr. destruct r as [|c r]; [done|]. destruct Hr as [|Hc]; [done|]. simpl in Hc. subst c.
  cbn [digits]. change (isdigit 46) with false. by replace (base =? 16) with false by lia.
Qed.

Lemma digit_step v d r : 0 <= d <= 9 -> 0 <= v <= 25 ->
  digits 10 v (48 + d :: r) = digits 10 (v * 10 + d) r.
Proof.
  intros Hd Hv. cbn [digits]. unfold isdigit, in_range.
  replace ((48 <=? 48 + d) && (48 + d <=? 57)) with true by lia.
  f_equal. unfold u32. rewrite Z.mod_small; lia.
Qed.

Lemma read_number b r : byte_ok b -> stops r ->
  isdigit (cur (dec b ++ r)) = true /\
  (let '(base, cp) := number_base (dec b ++ r) in digits base 0 cp) = (b, r).
Proof.
  unfold byte_ok. intros Hb Hr.
  assert (forall d l, 1 <= d <= 9 -> isdigit (48 + d) = true /\ number_base (48 + d :: l) = (10, 48 + d :: l)) as Hd.
  { intros d l Hd. unfold isdigit, in_range, number_base. cbn [cur]. split; [lia|].
    by replace (48 + d =? 48) with false by lia. }
  unfold dec. destruct (Z.ltb_spec b 10); [|destruct (Z.ltb_spec b 100)]; cbn [app cur].
  - destruct (Z.eq_dec b 0) as [->|].
    + split; [done|]. unfold number_base. cbn [cur tl Z.add Z.eqb Pos.eqb].
      assert ((cur r =? 120) || (cur r =? 88) = false) as ->
        by (destruct Hr as [->| ->]; reflexivity). by apply digits_stop.
    + destruct (Hd b r ltac:(lia)) as [H1 ->]. split; [done|].
      rewrite digit_step, digits_stop by (done || lia). f_equal; lia.
  - destruct (Hd (b / 10) (48 + b mod 10 :: r) ltac:(lia)) as [H1 ->]. split; [done|].
    rewrite !digit_step, digits_stop by (done || lia). f_equal; lia.
  - destruct (Hd (b / 100) (48 + b / 10 mod 10 :: 48 + b mod 10 :: r) ltac:(lia)) as [H1 ->]. split; [done|].
    rewrite !digit_step, digits_stop by (done || lia). f_equal; lia.
Qed.

Lemma collect_last room parts b : byte_ok b ->
  collect room parts (dec b) = Some (parts, b, []).
Proof.
  intros Hb. destruct (read_number b [] Hb ltac:(by left)) as [Hd Hn]. rewrite app_nil_r in *.
  destruct room; cbn [collect]; rewrite Hd; cbn [negb]; destruct (number_base (dec b)) as [base cp];
    rewrite Hn; reflexivity.
Qed.

Lemma collect_next room parts b r : byte_ok b ->
  collect (S room) parts (dec b ++ 46 :: r) = collect room (parts ++ [b]) r.
Proof.
  intros Hb. destruct (read_number b (46 :: r) Hb ltac:(by right)) as [Hd Hn].
  cbn [collect]. rewrite Hd. cbn [negb]. destruct (number_base (dec b ++ 46 :: r)) as [base cp].
  rewrite Hn. reflexivity.
Qed.

Lemma dotted_eq b0 b1 b2 b3 :
  removelast (concat (with_point <$> [b0; b1; b2; b3])) =
  dec b0 ++ 46 :: dec b1 ++ 46 :: dec b2 ++ 46 :: dec b3.
Proof.
  cbn [fmap list_fmap concat]. unfold with_point. rewrite app_nil_r, !app_assoc.
  rewrite removelast_last. by rewrite <- !app_assoc.
Qed.

Lemma concoct_value b0 b1 b2 b3 : bytes [b0; b1; b2; b3] ->
  concoct [b0; b1; b2] b3 = Some (le_num [b3; b2; b1; b0]).
Proof.
  rewrite !Forall_cons. unfold byte_ok. intros (?&?&?&?&_). cbn [concoct].
  replace (0xff <? b3) with false by lia. f_equal. unfold u32. rewrite !Z.shiftl_mul_pow2 by lia.
  rewrite !Z.mod_small by lia. rewrite (Z.lor_comm b3).
  replace (b1 * 2 ^ 16) with (b1 * 65536) by lia.
  rewrite (lor_add b0 (b1 * 65536) 24) by lia.
  replace (b0 * 2 ^ 24 + b1 * 65536) with ((b0 * 256 + b1) * 2 ^ 16) by lia.
  rewrite (lor_add _ (b2 * 2 ^ 8) 16) by lia.
  replace ((b0 * 256 + b1) * 2 ^ 16 + b2 * 2 ^ 8) with ((b0 * 65536 + b1 * 256 + b2) * 2 ^ 8) by lia.
  rewrite (lor_add _ b3 8) by lia. cbn [le_num]. lia.
Qed.

Lemma addr_bytes_le c0 c1 c2 c3 : bytes [c0; c1; c2; c3] ->
  addr_bytes (le_num [c0; c1; c2; c3]) = [c0; c1; c2; c3] /\ word_ok (le_num [c0; c1; c2; c3]).
Proof.
  rewrite !Forall_cons. unfold byte_ok, word_ok. intros (?&?&?&?&_). unfold addr_bytes.
  change 0xff with (Z.ones 8). rewrite !Z.land_ones, !Z.shiftr_div_pow2 by lia. cbn [le_num].
  change (2 ^ 8) with 256. change (2 ^ 16) with 65536. change (2 ^ 24) with 16777216.
  split; [|lia]. repeat (f_equal; [lia|]). f_equal. lia.
Qed.

Lemma addr_four a : word_ok a -> exists b0 b1 b2 b3, bytes [b0; b1; b2; b3] /\
  a = le_num [b0; b1; b2; b3] /\ addr_bytes a = [b0; b1; b2; b3].
Proof.
  intros Ha. pose proof (addr_bytes_ok a Ha). pose proof (le_num_addr a Ha).
  unfold addr_bytes in *. do 4 eexists. split; [eassumption|]. split; [by symmetry|reflexivity].
Qed.

Lemma aton_dotted a : word_ok a -> ipaddr_aton (dotted a) = Some a.
Proof.
  intros Ha. destruct (addr_four a Ha) as (b0 & b1 & b2 & b3 & Hb & -> & He).
  unfold dotted, ipaddr_aton. rewrite He, dotted_eq.
  pose proof Hb as Hb'. rewrite !Forall_cons in Hb. destruct Hb as (?&?&?&?&_).
  rewrite !collect_next, collect_last by done. cbn [app cur Z.eqb negb andb].
  rewrite concoct_value by done.
  assert (bytes [b3; b2; b1; b0]) as Hr by (by rewrite !Forall_cons).
  destruct (addr_bytes_le b3 b2 b1 b0 Hr) as [Hr1 Hr2]. cbn [fmap option_fmap option_map].
  by rewrite htonl_value, Hr1.
Qed.

Lemma dotted_length a : word_ok a -> (length (dotted a) <= 15)%nat.
Proof.
  intros Ha. destruct (addr_four a Ha) as (b0 & b1 & b2 & b3 & _ & -> & He).
  unfold dotted. rewrite He, dotted_eq. repeat (rewrite length_app; cbn [length]).
  pose proof (dec_length b0). pose proof (dec_length b1). pose proof (dec_length b2).
  pose proof (dec_length b3). lia.
Qed.

Lemma points_dotted a : word_ok a -> concat (with_point <$> addr_bytes a) = dotted a ++ [46].
Proof.
  intros Ha. destruct (addr_four a Ha) as (b0 & b1 & b2 & b3 & _ & -> & He).
  unfold dotted. rewrite He, dotted_eq. cbn [fmap list_fmap concat]. unfold with_point.
  rewrite app_nil_r. repeat (rewrite <- app_assoc; cbn [app]). reflexivity.
Qed.

(** C28: Writing an address never goes behind the caller's array; it succeeds exactly if the
    dotted form and its terminator fit, which 16 characters always do; and reading the
    form gives the address back. *)
Theorem dotted_roundtrip a buf :
  word_ok a ->
  exists ok buf', ipaddr_ntoa_r a (Z.of_nat (length buf)) buf = Ok (ok, buf') /\
    length buf' = length buf /\ (ok = true <-> (length (dotted a) < length buf)%nat) /\
    (ok = true -> buf' = dotted a ++ [0] ++ drop (S (length (dotted a))) buf) /\
    (length (dotted a) < 16)%nat /\ ipaddr_aton (dotted a) = Some a.
Proof.
  intros Ha. pose proof (dotted_length a Ha) as Hlen. set (n := Z.of_nat (length buf)).
  set (cs := dotted a ++ [46]).
  assert (length cs = S (length (dotted a))) as Hcs by (unfold cs; rewrite length_app; simpl; lia).
  assert (put_bytes n 0 (addr_bytes a) buf = put_all n 0 cs buf) as Hput.
  { rewrite put_bytes_all by (by apply addr_bytes_ok). by rewrite points_dotted. }
  destruct (put_all_run n buf 0 cs eq_refl ltac:(lia)) as [Hrun|]; [|lia].
  rewrite Z.add_0_l, Z.sub_0_r in Hrun. change (Z.to_nat 0) with 0%nat in Hrun.
  unfold ipaddr_ntoa_r, mbind at 1, M_bind at 1. rewrite Hput, Hrun.
  destruct (Z.leb_spec (Z.of_nat (length cs)) n).
  - rewrite firstn_all2 by lia.
    assert (blit buf 0 cs = dotted a ++ [46] ++ drop (S (length (dotted a))) buf) as Hb.
    { unfold blit. rewrite take_0, Hcs. unfold cs. by rewrite <- app_assoc. }
    exists true, (dotted a ++ [0] ++ drop (S (length (dotted a))) buf).
    split; [|split; [|split; [lia|split; [done|split; [lia|by apply aton_dotted]]]]].
    + erewrite bind_ok; [|reflexivity].
      erewrite bind_ok; [|apply aset_ok; rewrite length_blit; lia].
      rewrite Hb. replace (Z.to_nat (Z.of_nat (length cs) - 1)) with (length (dotted a)) by lia.
      rewrite insert_app_r_alt, Nat.sub_diag by lia. reflexivity.
    + rewrite !length_app, length_drop. simpl. lia.
  - exists false, (blit buf 0 (take (Z.to_nat n) cs)). split; [reflexivity|].
    split; [apply length_blit; rewrite length_take; lia|]. split; [lia|]. split; [done|].
    split; [lia|by apply aton_dotted].
Qed.

(** ** Netmasks *)

(** The mask when [n] bits are left to look at. *)
Definition msk (n : nat) : Z := match n with O => 0 | S k => 2 ^ Z.of_nat k end.

Lemma msk_shift n : Z.shiftr (msk (S n)) 1 = msk n.
Proof.
  rewrite Z.shiftr_div_pow2 by lia. cbn [msk]. destruct n as [|n]; [done|]. cbn [msk].
  replace (Z.of_nat (S n)) with (Z.of_nat n + 1) by lia. rewrite Z.pow_add_r by lia.
  apply Z.div_mul. lia.
Qed.

Lemma land_msk nm n : (Z.land nm (msk (S n)) =? 0) = negb (Z.testbit nm (Z.of_nat n)).
Proof.
  cbn [msk]. destruct (Z.testbit nm (Z.of_nat n)) eqn:E; cbn [negb].
  - apply Z.eqb_neq. intros Hz. apply (f_equal (fun x => Z.testbit x (Z.of_nat n))) in Hz.
    by rewrite Z.land_spec, E, Z.pow2_bits_true, Z.bits_0 in Hz by lia.
  - apply Z.eqb_eq. apply Z.bits_inj'. intros i Hi. rewrite Z.land_spec, Z.bits_0.
    destruct (Z.eq_dec i (Z.of_nat n)) as [->|]; [by rewrite E|].
    rewrite Z.pow2_bits_false by lia. apply andb_false_r.
Qed.

Lemma msk_zero n : (msk (S n) =? 0) = false.
Proof. cbn [msk]. apply Z.eqb_neq. pose proof (Z.pow_pos_nonneg 2 (Z.of_nat n)). lia. Qed.

Lemma first_zero_spec n turns nm : (n < turns)%nat ->
  exists z, (z <= n)%nat /\ first_zero turns (msk n) nm = msk z /\
    (forall i, (z <= i < n)%nat -> Z.testbit nm (Z.of_nat i) = true) /\
    (z = 0%nat \/ Z.testbit nm (Z.of_nat (z - 1)) = false).
Proof.
  revert turns. induction n as [|n IH]; intros turns Ht; (destruct turns as [|turns]; [lia|]).
  - exists 0%nat. split; [lia|]. split; [done|]. split; [lia|by left].
  - cbn [first_zero]. rewrite msk_zero, land_msk, msk_shift.
    destruct (Z.testbit nm (Z.of_nat n)) eqn:E; cbn [negb].
    + destruct (IH turns ltac:(lia)) as (z & Hz & Hr & Hones & Hstop). exists z.
      split; [lia|]. split; [done|]. split; [|done]. intros i Hi.
      destruct (decide (i = n)) as [->|]; [done|]. apply Hones. lia.
    + exists (S n). split; [done|]. split; [done|]. split; [lia|]. right.
      by replace (S n - 1)%nat with n by lia.
Qed.

Lemma no_ones_spec n turns nm : (n < turns)%nat ->
  no_ones turns (msk n) nm = true <-> forall i, (i < n)%nat -> Z.testbit nm (Z.of_nat i) = false.
Proof.
  revert turns. induction n as [|n IH]; intros turns Ht; (destruct turns as [|turns]; [lia|]).
  - split; [lia|done].
  - cbn [no_ones]. rewrite msk_zero, land_msk, msk_shift.
    destruct (Z.testbit nm (Z.of_nat n)) eqn:E; cbn [negb].
    + split; [done|]. intros Hall. by rewrite Hall in E by lia.
    + rewrite IH by lia. split; intros Hall i Hi; [|apply Hall; lia].
      destruct (decide (i = n)) as [->|]; [done|]. apply Hall. lia.
Qed.

(** The number with the bits from [z] to 31. *)
Lemma prefix_bits z i : (z <= 32)%nat -> 0 <= i ->
  Z.testbit (2 ^ 32 - 2 ^ Z.of_nat z) i = (Z.of_nat z <=? i) && (i <? 32).
Proof.
  intros Hz Hi. replace (2 ^ 32 - 2 ^ Z.of_nat z) with (Z.shiftl (Z.ones (32 - Z.of_nat z)) (Z.of_nat z)).
  - destruct (Z.leb_spec (Z.of_nat z) i); cbn [andb].
    + rewrite Z.shiftl_spec by lia. destruct (Z.ltb_spec i 32).
      * apply Z.ones_spec_low. lia.
      * apply Z.ones_spec_high. lia.
    + apply Z.shiftl_spec_low. lia.
  - rewrite Z.shiftl_mul_pow2, Z.ones_equiv, Z.mul_pred_l, <- Z.pow_add_r by lia.
    by replace (32 - Z.of_nat z + Z.of_nat z) with 32 by lia.
Qed.

(** A netmask is accepted exactly if it is ones followed by zeros. *)
Theorem netmask_valid_spec m :
  word_ok m ->
  ip4_addr_netmask_valid m = true <->
  exists z, (z <= 32)%nat /\ lwip_htonl m = 2 ^ 32 - 2 ^ Z.of_nat z.
Proof.
  intros Hm. assert (word_ok (lwip_htonl m)) as Hnm.
  { destruct (addr_four m Hm) as (b0 & b1 & b2 & b3 & Hb & -> & He). rewrite htonl_value, He by done.
    apply addr_bytes_le. rewrite !Forall_cons in *. tauto. }
  unfold ip4_addr_netmask_valid. set (nm := lwip_htonl m) in *. clearbody nm. unfold word_ok in Hnm.
  change (Z.shiftl 1 31) with (msk 32).
  destruct (first_zero_spec 32 33 nm ltac:(lia)) as (z & Hz & -> & Hones & Hstop).
  rewrite no_ones_spec by lia. split.
  - intros Hzeros. exists z. split; [done|]. apply Z.bits_inj'. intros i Hi.
    rewrite prefix_bits by done.
    destruct (Z.ltb_spec i 32); [|rewrite andb_false_r; apply Z.bits_above_log2; [lia|]].
    + replace i with (Z.of_nat (Z.to_nat i)) at 1 by lia.
      destruct (Z.leb_spec (Z.of_nat z) i); cbn [andb]; [apply Hones; lia|apply Hzeros; lia].
    + destruct (Z.eq_dec nm 0) as [->|]; [simpl; lia|].
      apply Z.lt_le_trans with 32; [apply Z.log2_lt_pow2; lia|lia].
  - intros (z' & Hz' & Heq) i Hi.
    assert (forall i, (i < 32)%nat -> Z.testbit nm (Z.of_nat i) = (z' <=? i)%nat) as Hbits.
    { intros k Hk. rewrite Heq, prefix_bits by lia. replace (Z.of_nat k <? 32) with true by lia.
      rewrite andb_true_r. destruct (Nat.leb_spec z' k), (Z.leb_spec (Z.of_nat z') (Z.of_nat k)); lia. }
    destruct Hstop as [->|Hstop]; [lia|]. rewrite Hbits in Hstop by lia.
    rewrite Hbits by lia. apply Nat.leb_gt. apply Nat.leb_gt in Hstop. lia.
Qed.

(** ** Instances *)

Definition header : list Z := [0x45; 0x00; 0x00; 0x54].
Definition trailer : list Z := [0xC0; 0xA8; 0x0A].

Lemma sample_bytes : bytes header /\ bytes trailer.
Proof. unfold header, trailer, byte_ok. rewrite !Forall_cons. repeat split; (done || lia). Qed.

Lemma versions_agree_witness :
  lwip_standard_chksum_1 0 (header ++ trailer) 7 = rfc1071 (header ++ trailer) /\
  lwip_standard_chksum_1 0 (header ++ trailer) 65539 = rfc1071 [0x45; 0x00; 0x00] /\
  lwip_standard_chksum 1 (header ++ trailer) = rfc1071 (header ++ trailer) /\
  lwip_standard_chksum_3 3 (header ++ trailer) = rfc1071 (header ++ trailer).
Proof.
  destruct (versions_agree 0 1 3 (header ++ trailer)) as (H1 & Hmod & H2 & H3).
  - apply Forall_app. exact sample_bytes.
  - split; [apply H1; vm_compute; reflexivity|]. split; [exact (Hmod 65539)|].
    split; [apply H2; vm_compute; discriminate|exact H3].
Defined.

Lemma pseudo_checksum_witness :
  inet_chksum_pseudo [mk_pbuf 1 trailer; mk_pbuf 8 header] 0x0100000A 0x0200000A 17 7 =
  65535 - rfc1071 ([10; 0; 0; 1; 10; 0; 0; 2; 0; 17; 0; 7] ++ trailer ++ header).
Proof.
  apply (pseudo_checksum [mk_pbuf 1 trailer; mk_pbuf 8 header] 0x0100000A 0x0200000A 17 7);
    [|split; (done || lia)..].
  unfold chain_ok. rewrite !Forall_cons. cbn [data]. repeat split; try done; apply sample_bytes.
Defined.

(** The field is stored in front of the last three bytes and the chain is cut twice at
    odd places, once inside the field. *)
Lemma stored_checksum_checks_witness :
  inet_chksum 0 (header ++ [0; 0] ++ trailer) 9 = 0x02f0 /\
  inet_chksum_pbuf [mk_pbuf 3 [0x45; 0; 0; 0x54; 0xf0]; mk_pbuf 8 [0x02; 0xC0; 0xA8]; mk_pbuf 5 [0x0A]] = 0.
Proof.
  split; [reflexivity|].
  apply (stored_checksum_checks header trailer 0x02f0
    [mk_pbuf 3 [0x45; 0; 0; 0x54; 0xf0]; mk_pbuf 8 [0x02; 0xC0; 0xA8]; mk_pbuf 5 [0x0A]]).
  - apply sample_bytes.
  - apply sample_bytes.
  - exists 2%nat. reflexivity.
  - unfold chain_ok, byte_ok. rewrite !Forall_cons. cbn [data]. rewrite !Forall_cons.
    repeat split; (done || lia).
  - apply (by_inet_chksum (header ++ [0; 0] ++ trailer) 0). vm_compute. reflexivity.
  - reflexivity.
Defined.

Lemma changed_word_detected_witness :
  inet_chksum 0 (header ++ [0xf0; 0x02] ++ trailer) 9 = 0 /\
  (inet_chksum 0 (header ++ [0xf0; 0x03] ++ trailer) 9 = 0 -> False).
Proof.
  split; [reflexivity|]. intros Hsame.
  destruct (changed_word_detected 0 header 0xf0 0x02 0xf0 0x03 trailer) as [Hd|[Hd|Hd]].
  - apply sample_bytes.
  - apply sample_bytes.
  - exists 2%nat. reflexivity.
  - rewrite !Forall_cons. unfold byte_ok. repeat split; (done || lia).
  - rewrite !Forall_cons. unfold byte_ok. repeat split; (done || lia).
  - vm_compute. reflexivity.
  - reflexivity.
  - exact Hsame.
  - vm_compute in Hd. discriminate.
  - vm_compute in Hd. destruct Hd. discriminate.
  - vm_compute in Hd. destruct Hd. discriminate.
Defined.

(** 10.0.255.1 takes eleven characters with its terminator. *)
Lemma dotted_roundtrip_witness :
  exists ok buf', ipaddr_ntoa_r 0x01ff000A 11 (repeat 7 11) = Ok (ok, buf') /\
    length buf' = 11%nat /\ (ok = true <-> (10 < 11)%nat) /\
    (ok = true -> buf' = [49; 48; 46; 48; 46; 50; 53; 53; 46; 49; 0]) /\
    (10 < 16)%nat /\ ipaddr_aton [49; 48; 46; 48; 46; 50; 53; 53; 46; 49] = Some 0x01ff000A.
Proof. apply (dotted_roundtrip 0x01ff000A (repeat 7 11)). split; (done || lia). Defined.

Lemma netmask_valid_spec_witness :
  ip4_addr_netmask_valid 0x00feffff = true <->
  exists z, (z <= 32)%nat /\ lwip_htonl 0x00feffff = 2 ^ 32 - 2 ^ Z.of_nat z.
Proof. apply (netmask_valid_spec 0x00feffff). split; (done || lia). Defined.
