(* ===== verification/Fat.v ===== *)
(** * FatFs: the FAT, cluster chains and files

    Lib_FatFs_SD/src/ff.c as it is configured (ffconf.h: one volume with sectors of 512
    bytes, [_FS_TINY], no long names): the sector window, the entries of FAT12, FAT16 and
    FAT32, allocation and release of clusters, directory positions, and reading, writing,
    seeking and truncating open files.  The drive is an interface. *)

From S2P Require Import Prelude.

(** ** The drive (diskio.h)

    A read gives the bytes that end up in the caller's buffer, also when it fails. *)
Class Disk (D : Type) : Type := {
  disk_initialize : D -> Z * D;
  disk_status : D -> Z;
  disk_read : Z -> Z -> D -> bool * list Z * D;
  disk_write : list Z -> Z -> D -> bool * D;
  disk_sync : D -> bool * D
}.

Definition STA_NOINIT : Z := 0x01.
Definition STA_NODISK : Z := 0x02.
Definition STA_PROTECT : Z := 0x04.
Definition SS : Z := 512.
Definition FS_FAT12 : Z := 1.
Definition FS_FAT16 : Z := 2.
Definition FS_FAT32 : Z := 3.
Definition FA_READ : Z := 0x01.
Definition FA_WRITE : Z := 0x02.
Definition FA__WRITTEN : Z := 0x20.
Definition FA__ERROR : Z := 0x80.
Definition AM_ARC : Z := 0x20.
Definition BS_55AA : Z := 510.
Definition FSI_LeadSig : Z := 0.
Definition FSI_StrucSig : Z := 484.
Definition FSI_Free_Count : Z := 488.
Definition FSI_Nxt_Free : Z := 492.
Definition DIR_Attr : Z := 11.
Definition DIR_FstClusHI : Z := 20.
Definition DIR_WrtTime : Z := 22.
Definition DIR_FstClusLO : Z := 26.
Definition DIR_FileSize : Z := 28.

Inductive FRESULT : Type := FR_OK | FR_DISK_ERR | FR_INT_ERR | FR_NOT_READY | FR_NO_FILE
| FR_NO_PATH | FR_INVALID_NAME | FR_DENIED | FR_EXIST | FR_INVALID_OBJECT
| FR_WRITE_PROTECTED | FR_INVALID_DRIVE | FR_NOT_ENABLED | FR_NO_FILESYSTEM
| FR_MKFS_ABORTED | FR_TIMEOUT.

Definition is_ok (r : FRESULT) : bool := match r with FR_OK => true | _ => false end.

Record FATFS : Type := mk_fatfs {
  fs_type : Z;
  drive : Z;
  csize : Z;
  n_fats : Z;
  wflag : Z;
  fsi_flag : Z;
  fs_id : Z;
  n_rootdir : Z;
  last_clust : Z;
  free_clust : Z;
  fsi_sector : Z;
  sects_fat : Z;
  max_clust : Z;
  fatbase : Z;
  dirbase : Z;
  database : Z;
  winsect : Z;
  win : list Z
}.
#[export] Instance eta_fatfs : Settable FATFS :=
  fun s => mk_fatfs (fs_type s) (drive s) (csize s) (n_fats s) (wflag s) (fsi_flag s) (fs_id s)
    (n_rootdir s) (last_clust s) (free_clust s) (fsi_sector s) (sects_fat s) (max_clust s)
    (fatbase s) (dirbase s) (database s) (winsect s) (win s).

(** The volume, its drive, and the time of the clock that [get_fattime] reads. *)
Record fworld (D : Type) : Type := mk_fworld { fs : FATFS; dsk : D; fattime : Z }.
Arguments mk_fworld {D}. Arguments fs {D}. Arguments dsk {D}. Arguments fattime {D}.
#[export] Instance eta_fworld D : Settable (fworld D) :=
  fun w => mk_fworld (fs w) (dsk w) (fattime w).

(** [mem_cpy] into an array, from index [p]. *)
Definition mem_cpy {W} (dst : list Z) (p : Z) (src : list Z) : M W (list Z) :=
  if (p <? 0) || (Z.of_nat (length dst) <? p + Z.of_nat (length src)) then fail OutOfBounds
  else mret (blit dst (Z.to_nat p) src).
(** [n] bytes of an array, from index [p]. *)
Definition mem_get {W} (src : list Z) (p n : Z) : M W (list Z) :=
  if (p <? 0) || (n <? 0) || (Z.of_nat (length src) <? p + n) then fail OutOfBounds
  else mret (take (Z.to_nat n) (drop (Z.to_nat p) src)).

Section Fat.
Context {D : Type} `{Disk D}.
#[local] Abbreviation F := (M (fworld D)).

Definition fget {A} (f : FATFS -> A) : F A := gets (fun w => f (fs w)).
Definition fset (f : FATFS -> FATFS) : F unit := modify (fun w => w{{ fs := f (fs w) }}).
Definition dsk_op {A} (f : D -> A * D) : F A := fun w =>
  let '(a, d) := f (dsk w) in Ok (a, w{{ dsk := d }}).

(** ** The window *)

Definition win_get (i : Z) : F Z := l ← fget win; aget l i.
Definition win_set (i v : Z) : F unit :=
  l ← fget win; l' ← aset l i (u8 v); fset (fun s => s{{ win := l' }}).

Definition LD_WORD (i : Z) : F Z :=
  b1 ← win_get (i + 1); b0 ← win_get i; mret (Z.lor (Z.shiftl b1 8) b0).
Definition LD_DWORD (i : Z) : F Z :=
  b3 ← win_get (i + 3); b2 ← win_get (i + 2); b1 ← win_get (i + 1); b0 ← win_get i;
  mret (Z.lor (Z.lor (Z.lor (Z.shiftl b3 24) (Z.shiftl b2 16)) (Z.shiftl b1 8)) b0).
Definition ST_WORD (i v : Z) : F unit :=
  win_set i v ;; win_set (i + 1) (Z.shiftr (u16 v) 8).
Definition ST_DWORD (i v : Z) : F unit :=
  win_set i v ;; win_set (i + 1) (Z.shiftr (u16 v) 8) ;;
  win_set (i + 2) (Z.shiftr v 16) ;; win_set (i + 3) (Z.shiftr v 24).

(** The window is written to the other copies of the FAT as well; whether that succeeds
    is not looked at. *)
Fixpoint mirror (nf : nat) (wsect : Z) : F unit :=
  match nf with
  | O => mret tt
  | S nf' =>
      n ← fget sects_fat;
      let wsect := u32 (wsect + n) in
      l ← fget win;
      _ ← dsk_op (disk_write l wsect);
      mirror nf' wsect
  end.

Definition write_back : F bool :=
  s ← fget id;
  if wflag s =? 0 then mret true
  else
    ok ← dsk_op (disk_write (win s) (winsect s));
    if negb ok then mret false
    else
      fset (fun s => s{{ wflag := 0 }}) ;;
      when (winsect s <? u32 (fatbase s + sects_fat s))
        (mirror (Z.to_nat (n_fats s - 1)) (winsect s)) ;;
      mret true.

(** [sector] 0 only writes the window back. *)
Definition move_window (sector : Z) : F FRESULT :=
  wsect ← fget winsect;
  if wsect =? sector then mret FR_OK
  else
    ok ← write_back;
    if negb ok then mret FR_DISK_ERR
    else if sector =? 0 then mret FR_OK
    else
      r ← dsk_op (disk_read sector 1);
      fset (fun s => s{{ win := snd r }}) ;;
      if negb (fst r) then mret FR_DISK_ERR
      else fset (fun s => s{{ winsect := sector }}) ;; mret FR_OK.

(** The FSInfo sector, through the window. *)
Definition write_fsinfo (s : FATFS) : F unit :=
  fset (fun s => s{{ winsect := 0; win := replicate 512 0 }}) ;;
  ST_WORD BS_55AA 0xAA55 ;;
  ST_DWORD FSI_LeadSig 0x41615252 ;;
  ST_DWORD FSI_StrucSig 0x61417272 ;;
  ST_DWORD FSI_Free_Count (free_clust s) ;;
  ST_DWORD FSI_Nxt_Free (last_clust s) ;;
  l ← fget win;
  _ ← dsk_op (disk_write l (fsi_sector s));
  fset (fun s => s{{ fsi_flag := 0 }}).

Definition sync : F FRESULT :=
  res ← move_window 0;
  if negb (is_ok res) then mret res
  else
    s ← fget id;
    when ((fs_type s =? FS_FAT32) && negb (fsi_flag s =? 0)) (write_fsinfo s) ;;
    ok ← dsk_op disk_sync;
    mret (if ok : bool then FR_OK else FR_DISK_ERR).

(** ** Entries of the FAT *)

(** [move_window] to a sector of the FAT, then [k]; an error of the drive is all ones. *)
Definition fat_window (sector : Z) (k : F Z) : F Z :=
  r ← move_window sector;
  if is_ok r then k else mret 0xFFFFFFFF.

Definition get_fat (clst : Z) : F Z :=
  s ← fget id;
  if (clst <? 2) || (max_clust s <=? clst) then mret 1
  else
    let fsect := fatbase s in
    if fs_type s =? FS_FAT12 then
      let bc := clst + clst / 2 in
      fat_window (u32 (fsect + bc / SS))
        (wc ← win_get (Z.land bc (SS - 1));
         let bc := bc + 1 in
         fat_window (u32 (fsect + bc / SS))
           (b ← win_get (Z.land bc (SS - 1));
            let wc := Z.lor wc (Z.shiftl b 8) in
            mret (if Z.odd clst then Z.shiftr wc 4 else Z.land wc 0xFFF)))
    else if fs_type s =? FS_FAT16 then
      fat_window (u32 (fsect + clst / (SS / 2)))
        (LD_WORD (Z.land (u16 clst * 2) (SS - 1)))
    else if fs_type s =? FS_FAT32 then
      fat_window (u32 (fsect + clst / (SS / 4)))
        (v ← LD_DWORD (Z.land (u16 clst * 4) (SS - 1)); mret (Z.land v 0x0FFFFFFF))
    else mret 0xFFFFFFFF.

Definition put_window (sector : Z) (k : F FRESULT) : F FRESULT :=
  r ← move_window sector;
  if is_ok r then k else mret r.

Definition put_entry (s : FATFS) (clst val : Z) : F FRESULT :=
  let fsect := fatbase s in
  if fs_type s =? FS_FAT12 then
    let bc := clst + clst / 2 in
    put_window (u32 (fsect + bc / SS))
      (p ← win_get (Z.land bc (SS - 1));
       win_set (Z.land bc (SS - 1))
         (if Z.odd clst then Z.lor (Z.land p 0x0F) (Z.shiftl (u8 val) 4) else u8 val) ;;
       let bc := bc + 1 in
       fset (fun s => s{{ wflag := 1 }}) ;;
       put_window (u32 (fsect + bc / SS))
         (p ← win_get (Z.land bc (SS - 1));
          win_set (Z.land bc (SS - 1))
            (if Z.odd clst then u8 (Z.shiftr val 4)
             else Z.lor (Z.land p 0xF0) (Z.land (u8 (Z.shiftr val 8)) 0x0F)) ;;
          mret FR_OK))
  else if fs_type s =? FS_FAT16 then
    put_window (u32 (fsect + clst / (SS / 2)))
      (ST_WORD (Z.land (u16 clst * 2) (SS - 1)) (u16 val) ;; mret FR_OK)
  else if fs_type s =? FS_FAT32 then
    put_window (u32 (fsect + clst / (SS / 4)))
      (ST_DWORD (Z.land (u16 clst * 4) (SS - 1)) val ;; mret FR_OK)
  else mret FR_INT_ERR.

(** The window counts as changed also when it could not be moved. *)
Definition put_fat (clst val : Z) : F FRESULT :=
  s ← fget id;
  if (clst <? 2) || (max_clust s <=? clst) then mret FR_INT_ERR
  else
    res ← put_entry s clst val;
    fset (fun s => s{{ wflag := 1 }}) ;;
    mret res.

(** ** Cluster chains *)

Definition remove_chain (fuel : nat) (clst : Z) : F FRESULT :=
  s ← fget id;
  if (clst <? 2) || (max_clust s <=? clst) then mret FR_INT_ERR
  else while fuel (fun clst : Z =>
    s ← fget id;
    if negb (clst <? max_clust s) then mret (Break FR_OK)
    else
      nxt ← get_fat clst;
      if nxt =? 0 then mret (Break FR_OK)
      else if nxt =? 1 then mret (Break FR_INT_ERR)
      else if nxt =? 0xFFFFFFFF then mret (Break FR_DISK_ERR)
      else
        res ← put_fat clst 0;
        if negb (is_ok res) then mret (Break res)
        else
          fset (fun s => if free_clust s =? 0xFFFFFFFF then s
            else s{{ free_clust := u32 (free_clust s + 1); fsi_flag := 1 }}) ;;
          mret (Continue nxt)) clst.

(** The search for a free cluster behind [scl]: the cluster, or 0, 1 or all ones. *)
Definition find_free (fuel : nat) (mcl scl : Z) : F Z :=
  while fuel (fun ncl : Z =>
    let ncl := u32 (ncl + 1) in
    let wrap := mcl <=? ncl in
    let ncl := if wrap then 2 else ncl in
    if wrap && (scl <? ncl) then mret (Break 0)
    else
      cs ← get_fat ncl;
      if cs =? 0 then mret (Break ncl)
      else if (cs =? 0xFFFFFFFF) || (cs =? 1) then mret (Break cs)
      else if ncl =? scl then mret (Break 0)
      else mret (Continue ncl)) scl.

(** A cluster was found: it is marked, linked to the chain and counted. *)
Definition take_cluster (clst ncl : Z) : F Z :=
  r ← put_fat ncl 0x0FFFFFFF;
  if negb (is_ok r) then mret 0xFFFFFFFF
  else
    r ← (if clst =? 0 then mret FR_OK else put_fat clst ncl);
    if negb (is_ok r) then mret 0xFFFFFFFF
    else
      fset (fun s => s{{ last_clust := ncl }}) ;;
      fset (fun s => if free_clust s =? 0xFFFFFFFF then s
        else s{{ free_clust := u32 (free_clust s - 1); fsi_flag := 1 }}) ;;
      mret ncl.

(** Where the search starts, or the result without a search. *)
Definition start_point (clst : Z) : F (Z + Z) :=
  s ← fget id;
  let mcl := max_clust s in
  if clst =? 0 then
    let scl := last_clust s in
    mret (inl (if (scl =? 0) || (mcl <=? scl) then 1 else scl))
  else
    cs ← get_fat clst;
    if cs <? 2 then mret (inr 1)
    else if cs <? mcl then mret (inr cs)
    else mret (inl clst).

Definition create_chain (fuel : nat) (clst : Z) : F Z :=
  mcl ← fget max_clust;
  p ← start_point clst;
  match p with
  | inr r => mret r
  | inl scl =>
      ncl ← find_free fuel mcl scl;
      if (ncl =? 0) || (ncl =? 1) || (ncl =? 0xFFFFFFFF) then mret ncl
      else take_cluster clst ncl
  end.

Definition clust2sect (clst : Z) : F Z :=
  s ← fget id;
  let clst := u32 (clst - 2) in
  mret (if u32 (max_clust s - 2) <=? clst then 0 else u32 (clst * csize s + database s)).
End Fat.
