(* ===== verification/FatTable.v ===== *)
(** * The FAT as a table

    What the functions of [Fat] on entries and chains compute, without window and drive:
    an entry is a number in the bytes of the FAT, a chain is a path in the table. *)

From S2P Require Import Prelude Fat.

(** ** Entries of the FAT as numbers

    The entry of cluster [c] in a FAT of type [ty] whose byte [i] is [f i], little endian:
    12 bits, 16 bits, or the lower 28 of 32 bits. *)
Definition entry_of (ty : Z) (f : Z -> Z) (c : Z) : Z :=
  if ty =? FS_FAT12 then
    let bc := c + c / 2 in
    let v := f bc + 256 * f (bc + 1) in
    if Z.odd c then v / 16 else v mod 4096
  else if ty =? FS_FAT16 then f (2 * c) + 256 * f (2 * c + 1)
  else (f (4 * c) + 256 * f (4 * c + 1) + 65536 * f (4 * c + 2) + 16777216 * f (4 * c + 3))
       mod 268435456.

Definition upd (f : Z -> Z) (i v : Z) : Z -> Z := fun j => if j =? i then v else f j.

(** The bytes after the entry of [c] is set to [v]. *)
Definition set_entry (ty : Z) (f : Z -> Z) (c v : Z) : Z -> Z :=
  if ty =? FS_FAT12 then
    let bc := c + c / 2 in
    if Z.odd c then upd (upd f bc (f bc mod 16 + 16 * (v mod 16))) (bc + 1) (v / 16 mod 256)
    else upd (upd f bc (v mod 256)) (bc + 1) (f (bc + 1) / 16 * 16 + v / 256 mod 16)
  else if ty =? FS_FAT16 then
    upd (upd f (2 * c) (v mod 256)) (2 * c + 1) (v / 256 mod 256)
  else upd (upd (upd (upd f (4 * c) (v mod 256)) (4 * c + 1) (v / 256 mod 256))
                (4 * c + 2) (v / 65536 mod 256)) (4 * c + 3) (v / 16777216 mod 256).

Definition type_mask (ty : Z) : Z :=
  if ty =? FS_FAT12 then 0xFFF else if ty =? FS_FAT16 then 0xFFFF else 0x0FFFFFFF.

Lemma odd_cases c : (Z.odd c = true /\ c mod 2 = 1) \/ (Z.odd c = false /\ c mod 2 = 0).
Proof. rewrite Zmod_odd. destruct (Z.odd c); auto. Qed.

Ltac upd_cases := unfold upd; repeat match goal with
  | |- context [?a =? ?b] => destruct (Z.eqb_spec a b); try lia
  end.

Lemma entry_set ty f c c' v : (forall i, byte_ok (f i)) -> 0 <= c -> 0 <= c' -> word_ok v ->
  entry_of ty (set_entry ty f c v) c' =
  if c' =? c then v mod (type_mask ty + 1) else entry_of ty f c'.
Proof.
  intros Hf Hc Hc' Hv. unfold entry_of, set_entry, type_mask, word_ok in *.
  destruct (ty =? FS_FAT12); [|destruct (ty =? FS_FAT16)].
  - assert (byte_ok (f (c + c / 2)) /\ byte_ok (f (c + c / 2 + 1)) /\
      byte_ok (f (c' + c' / 2)) /\ byte_ok (f (c' + c' / 2 + 1))) as Hb by auto.
    unfold byte_ok in Hb.
    destruct (odd_cases c) as [[-> E]|[-> E]], (odd_cases c') as [[-> E']|[-> E']].
    all: destruct (Z.eqb_spec c' c) as [->|Hn]; upd_cases; try congruence.
    all: try lia.
    all: match goal with
      | e : _ + _ / 2 + 1 = _ |- _ => rewrite e in *; lia
      | e : _ + _ / 2 = _ |- _ => rewrite e in *; lia
      end.
  - assert (byte_ok (f (2 * c')) /\ byte_ok (f (2 * c' + 1))) as Hb by auto.
    unfold byte_ok in Hb. destruct (Z.eqb_spec c' c) as [->|Hn]; upd_cases.
  - assert (byte_ok (f (4 * c')) /\ byte_ok (f (4 * c' + 1))) as Hb by auto.
    destruct (Z.eqb_spec c' c) as [->|Hn]; upd_cases.
Qed.

(** Entries depend on the bytes of the FAT only. *)
Definition table_bytes (ty mcl : Z) : Z :=
  if ty =? FS_FAT12 then mcl + mcl / 2 + 1
  else if ty =? FS_FAT16 then 2 * mcl else 4 * mcl.

Lemma entry_ext ty mcl f g c :
  (forall i, 0 <= i < table_bytes ty mcl -> f i = g i) -> 0 <= c < mcl ->
  entry_of ty f c = entry_of ty g c.
Proof.
  intros E Hc. unfold entry_of, table_bytes in *.
  destruct (ty =? FS_FAT12); [|destruct (ty =? FS_FAT16)]; rewrite !E by lia; done.
Qed.

(** The bit operations of the code. *)
Lemma lor_byte a b n : 0 <= a < 2 ^ n -> 0 <= n -> 0 <= b ->
  Z.lor a (Z.shiftl b n) = a + 2 ^ n * b.
Proof.
  intros Ha Hn Hb. rewrite Z.lor_comm, Z_lor_shiftl_small by done.
  rewrite Z.shiftl_mul_pow2 by done. lia.
Qed.

Lemma le16 a b : byte_ok a -> byte_ok b -> Z.lor (Z.shiftl b 8) a = a + 256 * b.
Proof. unfold byte_ok. intros. rewrite Z.lor_comm, lor_byte by lia. lia. Qed.

Lemma le32 a b c d : byte_ok a -> byte_ok b -> byte_ok c -> byte_ok d ->
  Z.lor (Z.lor (Z.lor (Z.shiftl d 24) (Z.shiftl c 16)) (Z.shiftl b 8)) a =
  a + 256 * b + 65536 * c + 16777216 * d.
Proof.
  unfold byte_ok. intros.
  assert (Z.lor (Z.shiftl d 24) (Z.shiftl c 16) = Z.shiftl (c + 256 * d) 16) as ->.
  { rewrite <- le16 by done. rewrite Z.shiftl_lor, Z.shiftl_shiftl by lia. done. }
  rewrite <- (Z.shiftl_shiftl _ 8 8), <- Z.shiftl_lor by lia.
  rewrite (Z.lor_comm _ b), lor_byte, Z.lor_comm, lor_byte by lia. lia.
Qed.

Lemma land_low v n : 0 <= n -> Z.land v (2 ^ n - 1) = v mod 2 ^ n.
Proof. intros. by rewrite <- Z.land_ones, Z.ones_equiv. Qed.

Lemma land_high v : byte_ok v -> Z.land v 0xF0 = v / 16 * 16.
Proof.
  intros Hv. assert (forallb (fun v => Z.land v 0xF0 =? v / 16 * 16) (seqZ 0 256) = true) as E
    by (vm_compute; done).
  rewrite forallb_forall in E. apply Z.eqb_eq, E, list_elem_of_In, elem_of_seqZ.
  unfold byte_ok in Hv. lia.
Qed.

(** ** Chains

    [path f mcl c l e]: from cluster [c] the links lead through the clusters [l] to [e];
    the entry of each is neither free (0) nor the mark 1. *)
Inductive path (f : Z -> Z) (mcl : Z) : Z -> list Z -> Z -> Prop :=
| path_end c : path f mcl c [] c
| path_link c l e :
    2 <= c < mcl -> 2 <= f c -> path f mcl (f c) l e -> path f mcl c (c :: l) e.

Lemma path_snoc f mcl c l e :
  path f mcl c l e -> 2 <= e < mcl -> 2 <= f e -> path f mcl c (l ++ [e]) (f e).
Proof.
  induction 1; intros He Hf; simpl.
  - apply path_link; [done|done|]. apply path_end.
  - apply path_link; auto.
Qed.

Lemma path_range f mcl c l e : path f mcl c l e -> Forall (fun c => 2 <= c < mcl) l.
Proof. induction 1; constructor; auto. Qed.

(** A list of distinct clusters is no longer than the volume. *)
Lemma clusters_bound l mcl : NoDup l -> Forall (fun c => 2 <= c < mcl) l ->
  (length l <= Z.to_nat (mcl - 2))%nat.
Proof.
  intros Hn Hl.
  assert (l ⊆+ seqZ 2 (mcl - 2)) as Hs.
  { apply NoDup_submseteq; [done|]. intros c Hc. rewrite Forall_forall in Hl.
    apply elem_of_seqZ. specialize (Hl c Hc). lia. }
  apply submseteq_length in Hs. by rewrite length_seqZ in Hs.
Qed.

(** The number of free clusters. *)
Definition count_free (f : Z -> Z) (l : list Z) : Z :=
  Z.of_nat (length (filter (fun c => f c = 0) l)).
Definition free_count (f : Z -> Z) (mcl : Z) : Z := count_free f (seqZ 2 (mcl - 2)).

(** Only whether an entry is free matters. *)
Lemma count_free_iff f g l : (forall c, c ∈ l -> f c = 0 <-> g c = 0) ->
  count_free f l = count_free g l.
Proof.
  unfold count_free. intros E. do 2 f_equal. induction l as [|c l IH]; [done|].
  rewrite !filter_cons, IH by (intros; apply E; by right).
  specialize (E c (list_elem_of_here _ _)).
  destruct (decide (f c = 0)), (decide (g c = 0)); tauto.
Qed.

Lemma count_free_ext f g l : (forall c, c ∈ l -> f c = g c) -> count_free f l = count_free g l.
Proof. intros E. apply count_free_iff. intros c Hc. by rewrite E. Qed.

Lemma count_free_upd f g l c : NoDup l -> c ∈ l ->
  (forall c', c' ∈ l -> g c' = if c' =? c then 0 else f c') -> f c <> 0 ->
  count_free g l = count_free f l + 1.
Proof.
  intros Hn Hc Hg Hf. unfold count_free. induction Hn as [|x l Hx Hn IH]; [by apply elem_of_nil in Hc|].
  rewrite !filter_cons, (Hg x) by (by left). apply elem_of_cons in Hc as [<-|Hc].
  - rewrite Z.eqb_refl, decide_True, decide_False by done. simpl.
    enough (count_free g l = count_free f l) by (unfold count_free in *; lia).
    apply count_free_ext. intros c' Hc'. rewrite Hg by (by right).
    destruct (Z.eqb_spec c' c); [by subst|done].
  - assert (x <> c) by (by intros ->). destruct (Z.eqb_spec x c); [done|].
    destruct (decide (f x = 0)); simpl;
      specialize (IH Hc (fun c' H => Hg c' (list_elem_of_further _ _ _ H))); lia.
Qed.

Lemma free_count_upd f g mcl c : 2 <= c < mcl ->
  (forall c', 2 <= c' < mcl -> g c' = if c' =? c then 0 else f c') -> f c <> 0 ->
  free_count g mcl = free_count f mcl + 1.
Proof.
  intros Hc Hg Hf. apply (count_free_upd f g _ c); [apply NoDup_seqZ| | |done].
  - apply elem_of_seqZ. lia.
  - intros c' Hc'%elem_of_seqZ. apply Hg. lia.
Qed.

Lemma free_count_bound f mcl : 2 <= mcl -> 0 <= free_count f mcl <= mcl - 2.
Proof.
  intros Hm. unfold free_count, count_free.
  pose proof (length_filter (fun c => f c = 0) (seqZ 2 (mcl - 2))) as Hl.
  rewrite length_seqZ in Hl. lia.
Qed.

(** ** The search for a free cluster

    The clusters behind [scl] and then those from 2 to [scl], and the first of them whose
    entry is 0 (free) or 1. *)
Definition candidates (scl mcl : Z) : list Z :=
  seqZ (scl + 1) (mcl - scl - 1) ++ seqZ 2 (scl - 1).
Definition scan (f : Z -> Z) (l : list Z) : Z :=
  match list_find (fun c => f c = 0 \/ f c = 1) l with
  | Some (_, c) => if f c =? 0 then c else 1
  | None => 0
  end.
Definition first_free (f : Z -> Z) (scl mcl : Z) : Z := scan f (candidates scl mcl).

Lemma scan_cons f c l :
  scan f (c :: l) = if f c =? 0 then c else if f c =? 1 then 1 else scan f l.
Proof.
  unfold scan. simpl. destruct (Z.eqb_spec (f c) 0) as [E|E].
  - rewrite decide_True by auto. destruct (Z.eqb_spec (f c) 0); done.
  - destruct (Z.eqb_spec (f c) 1) as [E1|E1].
    + rewrite decide_True by auto. by destruct (Z.eqb_spec (f c) 0).
    + rewrite decide_False by tauto. by destruct (list_find _ l) as [[]|].
Qed.

Lemma scan_ext f g l : (forall c, c ∈ l -> f c = g c) -> scan f l = scan g l.
Proof.
  induction l as [|c l IH]; intros E; [done|]. rewrite !scan_cons, E by (by left).
  by rewrite IH by (intros; apply E; by right).
Qed.

(** What is found is free, and the first such; nothing is found when nothing is free. *)
Lemma scan_found f l n : 2 <= n -> scan f l = n ->
  exists l1 l2, l = l1 ++ n :: l2 /\ f n = 0 /\ Forall (fun c => f c <> 0 /\ f c <> 1) l1.
Proof.
  intros Hn. induction l as [|c l IH]; [unfold scan; simpl; lia|]. rewrite scan_cons.
  destruct (Z.eqb_spec (f c) 0) as [E|E]; [intros <-; by exists [], l|].
  destruct (Z.eqb_spec (f c) 1) as [E1|E1]; [lia|]. intros (l1 & l2 & -> & Hf & Hl)%IH.
  exists (c :: l1), l2. split; [done|]. split; [done|]. by constructor.
Qed.

Lemma scan_none f l : Forall (fun c => 2 <= c) l -> scan f l = 0 ->
  Forall (fun c => f c <> 0) l.
Proof.
  induction 1 as [|c l Hc Hl IH]; [done|]. rewrite scan_cons.
  destruct (Z.eqb_spec (f c) 0) as [E|E]; [lia|].
  destruct (Z.eqb_spec (f c) 1) as [E1|E1]; [done|]. intros. constructor; auto.
Qed.

Lemma candidates_all scl mcl c : 1 <= scl < mcl -> c ∈ candidates scl mcl <-> 2 <= c < mcl.
Proof.
  intros Hs. unfold candidates. rewrite elem_of_app, !elem_of_seqZ. lia.
Qed.

Lemma first_free_range f scl mcl : 1 <= scl < mcl ->
  first_free f scl mcl = 0 \/ first_free f scl mcl = 1 \/
  2 <= first_free f scl mcl < mcl /\ f (first_free f scl mcl) = 0.
Proof.
  intros Hs. unfold first_free.
  assert (forall l, (forall c, c ∈ l -> 2 <= c < mcl) ->
    scan f l = 0 \/ scan f l = 1 \/ 2 <= scan f l < mcl /\ f (scan f l) = 0) as H.
  { induction l as [|c l IH]; intros Hl; [by left|]. rewrite scan_cons.
    destruct (Z.eqb_spec (f c) 0).
    - right; right. split; [apply Hl; by left|done].
    - destruct (f c =? 1); [auto|]. apply IH. intros. apply Hl. by right. }
  apply H. intros c. by apply candidates_all.
Qed.

Lemma seqZ_step a n : 0 < n -> seqZ a n = a :: seqZ (a + 1) (n - 1).
Proof. intros. by rewrite seqZ_cons by lia. Qed.
