(* ===== verification/FatFacts.v ===== *)
(** * Facts about [Fat]

    A drive that works ([WorkingDisk]) and what the volume holds through the window
    ([vsector]): the FAT as a table of entries ([entry]) that [get_fat] reads and [put_fat]
    updates, whatever is dirty in the window and whatever the type of the FAT; the chains
    of clusters in that table. *)

From S2P Require Import Prelude Fat FatTable.

(** ** A drive that works *)

Definition image {D} (contents : D -> Z -> list Z) (d : D) (t n : Z) : list Z :=
  concat (contents d <$> seqZ t n).

(** Sector [k] of a buffer. *)
Definition slice (l : list Z) (k : Z) : list Z :=
  take 512 (drop (Z.to_nat (512 * k)) l).

(** The drive has [sectors] of 512 bytes; what is written is read back.  The count of a
    transfer is a BYTE. *)
Class WorkingDisk (D : Type) `{Disk D} : Type := {
  sectors : D -> Z;
  contents : D -> Z -> list Z;
  contents_ok : forall d t, length (contents d t) = 512%nat /\ Forall byte_ok (contents d t);
  read_works : forall d t n, 0 <= t -> 0 < n < 256 -> t + n <= sectors d ->
    exists d', disk_read t n d = (true, image contents d t n, d') /\
      sectors d' = sectors d /\ forall t', contents d' t' = contents d t';
  write_works : forall d t n l, 0 <= t -> 0 < n < 256 -> t + n <= sectors d ->
    Z.of_nat (length l) = 512 * n -> Forall byte_ok l ->
    exists d', disk_write l t d = (true, d') /\ sectors d' = sectors d /\
      forall t', contents d' t' = if (t <=? t') && (t' <? t + n) then slice l (t' - t)
                                  else contents d t';
  status_works : forall d, 0 < sectors d -> Z.land (disk_status d) STA_NOINIT = 0;
  sync_works : forall d, 0 < sectors d -> exists d', disk_sync d = (true, d') /\
      sectors d' = sectors d /\ forall t', contents d' t' = contents d t'
}.

(** ** What the volume holds *)

Section Volume.
Context {D : Type} `{WorkingDisk D}.
Implicit Types w : fworld D.

(** A sector as the program sees it: the window hides the sector it holds. *)
Definition vsector w (t : Z) : list Z :=
  if (winsect (fs w) =? t) && negb (t =? 0) then win (fs w) else contents (dsk w) t.

Definition fat1 (s : FATFS) (t : Z) : Prop := fatbase s <= t < fatbase s + sects_fat s.
(** The sectors behind all copies of the FAT. *)
Definition behind (s : FATFS) (t : Z) : Prop := fatbase s + n_fats s * sects_fat s <= t.
(** What is not one of the further copies. *)
Definition primary (s : FATFS) (t : Z) : Prop :=
  t < fatbase s + sects_fat s \/ behind s t.

(** What mounting sets, and the three fields of the FSInfo sector. *)
Definition geo (s : FATFS) :=
  (fs_type s, csize s, n_fats s, fs_id s, n_rootdir s, fsi_sector s, sects_fat s,
   max_clust s, fatbase s, dirbase s, database s).
Definition info (s : FATFS) := (last_clust s, free_clust s, fsi_flag s).

(** What mounting a sound volume establishes. *)
Record geometry (s : FATFS) (size : Z) : Prop := {
  g_type : fs_type s = FS_FAT12 \/ fs_type s = FS_FAT16 \/ fs_type s = FS_FAT32;
  g_base : 0 < fatbase s;
  g_fats : 1 <= n_fats s;
  g_sects : 0 < sects_fat s;
  g_size : fatbase s + n_fats s * sects_fat s <= size < 4294967296;
  g_clust : 2 < max_clust s <= type_mask (fs_type s);
  g_fit : table_bytes (fs_type s) (max_clust s) <= 512 * sects_fat s;
  g_fsi : fs_type s = FS_FAT32 -> 0 < fsi_sector s < fatbase s
}.

Definition copies_agree (s : FATFS) (d : D) : Prop :=
  forall k i, 0 <= k < n_fats s -> 0 <= i < sects_fat s ->
    contents d (fatbase s + k * sects_fat s + i) = contents d (fatbase s + i).

Record volume_ok w : Prop := {
  v_geo : geometry (fs w) (sectors (dsk w));
  v_len : length (win (fs w)) = 512%nat;
  v_bytes : Forall byte_ok (win (fs w));
  v_range : 0 <= winsect (fs w) < sectors (dsk w);
  v_dirty : wflag (fs w) <> 0 ->
    fat1 (fs w) (winsect (fs w)) \/ behind (fs w) (winsect (fs w));
  v_clean : wflag (fs w) = 0 -> winsect (fs w) <> 0 ->
    win (fs w) = contents (dsk w) (winsect (fs w));
  v_copies : copies_agree (fs w) (dsk w)
}.

(** The next world shows the same primary sectors, on the same volume. *)
Record same_volume w w' : Prop := {
  sv_ok : volume_ok w';
  sv_geo : geo (fs w') = geo (fs w);
  sv_info : info (fs w') = info (fs w);
  sv_size : sectors (dsk w') = sectors (dsk w);
  sv_time : fattime w' = fattime w;
  sv_view : forall t, primary (fs w) t -> vsector w' t = vsector w t
}.

Lemma geo_inv s s' : geo s' = geo s ->
  fs_type s' = fs_type s /\ n_fats s' = n_fats s /\ sects_fat s' = sects_fat s /\
  max_clust s' = max_clust s /\ fatbase s' = fatbase s /\ fsi_sector s' = fsi_sector s /\
  csize s' = csize s /\ database s' = database s /\ n_rootdir s' = n_rootdir s /\
  dirbase s' = dirbase s /\ fs_id s' = fs_id s.
Proof. unfold geo. intros E. injection E. naive_solver. Qed.

Lemma primary_geo s s' t : geo s' = geo s -> primary s' t <-> primary s t.
Proof.
  intros E%geo_inv. destruct s, s'. simpl in E. destruct_and! E. subst. done.
Qed.

Lemma geometry_geo s s' n : geo s' = geo s -> geometry s n -> geometry s' n.
Proof.
  intros E%geo_inv. destruct s, s'. simpl in E. destruct_and! E. subst. intros [].
  by constructor.
Qed.

Lemma same_volume_refl w : volume_ok w -> same_volume w w.
Proof. by constructor. Qed.

Lemma same_volume_trans w1 w2 w3 :
  same_volume w1 w2 -> same_volume w2 w3 -> same_volume w1 w3.
Proof.
  intros [] []. constructor; try congruence.
  intros t Ht. rewrite sv_view1, sv_view0; [done|done|]. by apply (primary_geo (fs w1)).
Qed.

Lemma vsector_ok w t :
  volume_ok w -> length (vsector w t) = 512%nat /\ Forall byte_ok (vsector w t).
Proof.
  intros []. unfold vsector. destruct (_ && _); [done|]. apply contents_ok.
Qed.

(** The drive may change as long as it holds the same. *)
Lemma same_disk w d' : volume_ok w -> sectors d' = sectors (dsk w) ->
  (forall t, contents d' t = contents (dsk w) t) ->
  same_volume w (mk_fworld (fs w) d' (fattime w)).
Proof.
  intros [] Es Ec. constructor; try done.
  - constructor; simpl; rewrite ?Es, ?Ec; try done. intros k i Hk Hi. rewrite !Ec. auto.
  - intros t Ht. unfold vsector. simpl. by rewrite Ec.
Qed.

(** The window, once it is known which sector it holds. *)
Lemma vsector_window w t : t <> 0 -> winsect (fs w) = t -> vsector w t = win (fs w).
Proof.
  intros Ht E. unfold vsector. rewrite E, Z.eqb_refl.
  by destruct (Z.eqb_spec t 0).
Qed.
(** ** The window *)

(** What can be dirty is on the drive, and is not a copy. *)
Lemma dirty_range w : volume_ok w -> wflag (fs w) <> 0 ->
  0 < winsect (fs w) /\ primary (fs w) (winsect (fs w)).
Proof.
  intros [] Hw. destruct v_geo0. unfold primary, behind, fat1 in *.
  destruct (v_dirty0 Hw); nia.
Qed.

(** The sectors [wsect + sects_fat], ... that [mirror] writes. *)
Definition mirrored (s : FATFS) (nf : nat) (wsect t : Z) : bool :=
  existsb (fun k => t =? wsect + k * sects_fat s) (seqZ 1 (Z.of_nat nf)).

Lemma mirrored_spec s nf wsect t :
  mirrored s nf wsect t = true <->
  exists k, 1 <= k <= Z.of_nat nf /\ t = wsect + k * sects_fat s.
Proof.
  unfold mirrored. rewrite existsb_exists. split.
  - intros (k & Hk & E). apply Z.eqb_eq in E. exists k. split; [|done].
    apply list_elem_of_In, elem_of_seqZ in Hk. lia.
  - intros (k & Hk & E). exists k. split; [|by apply Z.eqb_eq].
    apply list_elem_of_In, elem_of_seqZ. lia.
Qed.

Lemma write_one (d : D) t l : 0 <= t < sectors d -> length l = 512%nat -> Forall byte_ok l ->
  exists d', disk_write l t d = (true, d') /\
    sectors d' = sectors d /\ forall t', contents d' t' = if t' =? t then l else contents d t'.
Proof.
  intros Ht Hl Hb. destruct (write_works d t 1 l) as (d' & E & Es & Ec); try done; [lia..|].
  exists d'. split; [done|]. split; [done|]. intros t'. rewrite Ec.
  destruct (Z.eqb_spec t' t) as [->|].
  - destruct (Z.leb_spec t t), (Z.ltb_spec t (t + 1)); try lia. simpl. unfold slice.
    by rewrite Z.sub_diag, drop_0, firstn_all2 by lia.
  - destruct (Z.leb_spec t t'), (Z.ltb_spec t' (t + 1)); try lia; done.
Qed.

Lemma mirror_spec nf w wsect :
  length (win (fs w)) = 512%nat -> Forall byte_ok (win (fs w)) ->
  0 <= wsect -> 0 < sects_fat (fs w) -> sectors (dsk w) < 4294967296 ->
  wsect + Z.of_nat nf * sects_fat (fs w) < sectors (dsk w) ->
  exists d', mirror nf wsect w = Ok (tt, w{{ dsk := d' }}) /\
    sectors d' = sectors (dsk w) /\
    forall t, contents d' t =
      if mirrored (fs w) nf wsect t then win (fs w) else contents (dsk w) t.
Proof.
  intros Hl Hb. revert w wsect Hl Hb. induction nf as [|nf IH]; intros w wsect Hl Hb Hp Hs Hsz Hm.
  - exists (dsk w). by destruct w.
  - assert (0 < wsect + sects_fat (fs w) < sectors (dsk w)) as Hr by nia.
    assert (u32 (wsect + sects_fat (fs w)) = wsect + sects_fat (fs w)) as Eu
      by (apply Z.mod_small; lia).
    destruct (write_one (dsk w) (wsect + sects_fat (fs w)) (win (fs w)))
      as (d1 & E1 & Es & Ec); [lia|done|done|].
    destruct (IH (w{{ dsk := d1 }}) (wsect + sects_fat (fs w))) as (d' & E & Es' & Ec');
      simpl; rewrite ?Es; try done; [lia|nia|].
    exists d'. split; [|split; [simpl in Es'; congruence|]].
    + simpl. unfold fget. rewrite (bind_ok _ _ _ _ _ eq_refl), (bind_ok _ _ _ _ _ eq_refl).
      unfold dsk_op. rewrite Eu.
      rewrite (bind_ok _ _ _ true (w{{ dsk := d1 }})) by (by rewrite E1).
      rewrite E. by destruct w.
    + intros t. rewrite Ec'. simpl. rewrite Ec.
      destruct (mirrored _ nf _ t) eqn:Em.
      * apply mirrored_spec in Em as (k & Hk & ->). simpl in *.
        rewrite (proj2 (mirrored_spec _ _ _ _)); [done|]. exists (k + 1). lia.
      * destruct (mirrored _ (S nf) _ t) eqn:Em'.
        -- apply mirrored_spec in Em' as (k & Hk & ->).
           destruct (Z.eqb_spec (wsect + k * sects_fat (fs w)) (wsect + sects_fat (fs w)));
             [done|].
           assert (mirrored (fs w) nf (wsect + sects_fat (fs w)) (wsect + k * sects_fat (fs w)) = true);
             [|simpl in *; congruence].
           apply mirrored_spec. exists (k - 1). nia.
        -- destruct (Z.eqb_spec t (wsect + sects_fat (fs w))); [|done].
           assert (mirrored (fs w) (S nf) wsect t = true); [|congruence].
           apply mirrored_spec. exists 1. lia.
Qed.

Lemma stride_inj n i j k k' :
  0 <= i < n -> 0 <= j < n -> k * n + i = k' * n + j -> i = j /\ k = k'.
Proof.
  intros Hi Hj E. assert (k = k'); [|nia].
  destruct (Z.lt_trichotomy k k') as [|[|]]; [nia|done|nia].
Qed.

(** The writes of [write_back]: the dirty sector and, in the FAT, its copies. *)
Definition flushed (s : FATFS) (d : D) (t : Z) : list Z :=
  if mirrored s (Z.to_nat (n_fats s - 1)) (winsect s) t && (winsect s <? fatbase s + sects_fat s)
     || (t =? winsect s)
  then win s else contents d t.

Lemma write_back_run w d1 : wflag (fs w) <> 0 ->
  disk_write (win (fs w)) (winsect (fs w)) (dsk w) = (true, d1) ->
  write_back w =
    (when (winsect (fs w) <? u32 (fatbase (fs w) + sects_fat (fs w)))
       (mirror (Z.to_nat (n_fats (fs w) - 1)) (winsect (fs w))) ;; mret true)
      (mk_fworld ((fs w){{ wflag := 0 }}) d1 (fattime w)).
Proof.
  intros Hw E1. unfold write_back. rewrite (bind_ok (fget id) _ w (fs w) w eq_refl).
  destruct (Z.eqb_spec (wflag (fs w)) 0); [done|].
  rewrite (bind_ok _ _ _ true (w{{ dsk := d1 }})) by (unfold dsk_op; by rewrite E1).
  reflexivity.
Qed.

Lemma write_dirty w : volume_ok w -> wflag (fs w) <> 0 ->
  exists d', write_back w = Ok (true, mk_fworld ((fs w){{ wflag := 0 }}) d' (fattime w)) /\
    sectors d' = sectors (dsk w) /\ forall t, contents d' t = flushed (fs w) (dsk w) t.
Proof.
  intros Hv Hw. destruct (dirty_range w Hv Hw) as [Hp _]. destruct Hv, v_geo0.
  destruct (write_one (dsk w) (winsect (fs w)) (win (fs w))) as (d1 & E1 & Es & Ec);
    [lia|done|done|].
  set (w1 := mk_fworld ((fs w){{ wflag := 0 }}) d1 (fattime w)).
  assert (u32 (fatbase (fs w) + sects_fat (fs w)) = fatbase (fs w) + sects_fat (fs w)) as Eu
    by (apply Z.mod_small; nia).
  rewrite (write_back_run w d1 Hw E1), Eu. fold w1. unfold flushed. destruct (Z.ltb_spec (winsect (fs w)) (fatbase (fs w) + sects_fat (fs w))) as [Hf|Hf].
  - destruct (mirror_spec (Z.to_nat (n_fats (fs w) - 1)) w1 (winsect (fs w)))
      as (d' & E & Es' & Ec'); simpl; try done; [lia|lia| |].
    { rewrite Es, Z2Nat.id by lia. destruct (v_dirty0 Hw) as [Hr|Hr]; unfold fat1, behind in Hr; nia. }
    exists d'. split; [|split; [simpl in Es'; congruence|]].
    + unfold when. by rewrite (bind_ok _ _ _ _ _ E).
    + intros t. rewrite Ec'. simpl. rewrite Ec, andb_true_r. unfold mirrored. simpl.
      by destruct (existsb _ _), (t =? winsect (fs w)).
  - exists d1. split; [done|]. split; [done|]. intros t. by rewrite andb_false_r, Ec.
Qed.

Lemma flushed_primary w t : volume_ok w -> wflag (fs w) <> 0 -> primary (fs w) t ->
  flushed (fs w) (dsk w) t = vsector w t.
Proof.
  intros Hv Hw Ht. destruct (dirty_range w Hv Hw) as [Hp _]. unfold flushed, vsector.
  rewrite (Z.eqb_sym t). destruct (Z.eqb_spec (winsect (fs w)) t) as [<-|Hne].
  - rewrite orb_true_r. by destruct (Z.eqb_spec (winsect (fs w)) 0); [lia|].
  - simpl. rewrite orb_false_r. destruct (mirrored _ _ _ _) eqn:Em; [|done].
    apply mirrored_spec in Em as (k & Hk & ->). destruct (Z.ltb_spec (winsect (fs w)) (fatbase (fs w) + sects_fat (fs w))); [|done].
    destruct Hv, v_geo0. destruct (v_dirty0 Hw) as [Hr|Hr]; unfold primary, fat1, behind in *; nia.
Qed.

Lemma flushed_copies w d' : volume_ok w -> wflag (fs w) <> 0 ->
  (forall t, contents d' t = flushed (fs w) (dsk w) t) -> copies_agree (fs w) d'.
Proof.
  intros Hv Hw Hd k i Hk Hi. rewrite !Hd. destruct Hv, v_geo0. unfold flushed.
  destruct (Z.ltb_spec (winsect (fs w)) (fatbase (fs w) + sects_fat (fs w))) as [Hf|Hf].
  - rewrite !andb_true_r.
    assert (forall k, 0 <= k < n_fats (fs w) ->
      mirrored (fs w) (Z.to_nat (n_fats (fs w) - 1)) (winsect (fs w))
        (fatbase (fs w) + k * sects_fat (fs w) + i)
      || (fatbase (fs w) + k * sects_fat (fs w) + i =? winsect (fs w)) =
      (fatbase (fs w) + i =? winsect (fs w))) as Heq.
    { clear k Hk. intros k Hk. destruct (v_dirty0 Hw) as [Hr|Hr]; unfold fat1, behind in Hr; [|nia].
      apply eq_true_iff_eq. rewrite orb_true_iff, mirrored_spec, !Z.eqb_eq, Z2Nat.id by lia.
      split.
      - intros [(k' & Hk' & E)|E].
        + destruct (stride_inj (sects_fat (fs w)) i (winsect (fs w) - fatbase (fs w)) k k'); lia.
        + destruct (stride_inj (sects_fat (fs w)) i (winsect (fs w) - fatbase (fs w)) k 0); lia.
      - intros E. destruct (decide (k = 0)) as [->|]; [right; lia|].
        left. exists k. lia. }
    rewrite (Heq k Hk). specialize (Heq 0 ltac:(lia)). rewrite Z.mul_0_l, Z.add_0_r in Heq.
    rewrite Heq. by rewrite (v_copies0 k i Hk Hi).
  - rewrite !andb_false_r. simpl.
    destruct (v_dirty0 Hw) as [Hr|Hr]; unfold fat1, behind in Hr; [lia|].
    destruct (Z.eqb_spec (fatbase (fs w) + k * sects_fat (fs w) + i) (winsect (fs w))); [nia|].
    destruct (Z.eqb_spec (fatbase (fs w) + i) (winsect (fs w))); [nia|].
    by apply v_copies0.
Qed.

(** [write_back] makes the window clean; the drive then holds what was visible. *)
Lemma write_back_spec w : volume_ok w ->
  exists w', write_back w = Ok (true, w') /\ same_volume w w' /\
    fs w' = (fs w){{ wflag := 0 }} /\
    forall t, primary (fs w) t -> contents (dsk w') t = vsector w t.
Proof.
  intros Hv. destruct (decide (wflag (fs w) = 0)) as [Hw|Hw].
  - exists w. split; [|split; [by apply same_volume_refl|split]].
    + unfold write_back. rewrite (bind_ok (fget id) _ w (fs w) w eq_refl).
      by rewrite Hw.
    + destruct w as [[]]. simpl in *. by subst.
    + intros t Ht. unfold vsector. destruct (Z.eqb_spec (winsect (fs w)) t) as [<-|]; [|done].
      destruct (Z.eqb_spec (winsect (fs w)) 0); [done|]. by rewrite (v_clean _ Hv).
  - destruct (write_dirty w Hv Hw) as (d' & E & Es & Ec).
    assert (forall t, primary (fs w) t -> contents d' t = vsector w t) as Hc.
    { intros t Ht. by rewrite Ec, flushed_primary. }
    destruct (dirty_range w Hv Hw) as [Hp Hpr].
    assert (contents d' (winsect (fs w)) = win (fs w)) as Ew.
    { rewrite Hc by done. apply vsector_window; [lia|done]. }
    eexists. split; [exact E|]. split; [|done].
    constructor; simpl; try done.
    + pose proof (flushed_copies w d' Hv Hw Ec). destruct Hv.
      constructor; simpl; rewrite ?Es; try done. by apply (geometry_geo (fs w)).
    + intros t Ht. unfold vsector at 1. simpl.
      destruct (Z.eqb_spec (winsect (fs w)) t) as [<-|]; [|by apply Hc].
      destruct (Z.eqb_spec (winsect (fs w)) 0); [lia|]. simpl. rewrite <- Ew. by apply Hc.
Qed.

Lemma image_one d t : image contents d t 1 = contents d t.
Proof. unfold image. simpl. by rewrite app_nil_r. Qed.

Lemma move_window_zero w : volume_ok w ->
  exists w', move_window 0 w = Ok (FR_OK, w') /\ same_volume w w' /\
    (wflag (fs w') = 0) /\ forall t, primary (fs w) t -> contents (dsk w') t = vsector w t.
Proof.
  intros Hv. unfold move_window. unfold fget.
  destruct (Z.eqb_spec (winsect (fs w)) 0) as [E0|E0].
  - exists w. rewrite (bind_ok _ _ _ _ _ eq_refl). rewrite E0. split; [done|].
    split; [by apply same_volume_refl|]. split.
    + destruct (decide (wflag (fs w) = 0)); [done|]. destruct (dirty_range w); [done..|lia].
    + intros t Ht. unfold vsector. rewrite E0. by destruct t.
  - destruct (write_back_spec w Hv) as (w' & E & Hs & Ef & Hc). exists w'.
    rewrite (bind_ok _ _ _ _ _ eq_refl).
    destruct (Z.eqb_spec (winsect (fs w)) 0); [done|].
    rewrite (bind_ok _ _ _ _ _ E), Ef. done.
Qed.

Lemma move_window_spec w t : volume_ok w ->
  0 < t < sectors (dsk w) -> primary (fs w) t ->
  exists w', move_window t w = Ok (FR_OK, w') /\ same_volume w w' /\
    winsect (fs w') = t /\ win (fs w') = vsector w t.
Proof.
  intros Hv Ht Hp. unfold move_window, fget.
  destruct (Z.eqb_spec (winsect (fs w)) t) as [E0|E0].
  - exists w. rewrite (bind_ok _ _ _ _ _ eq_refl), E0, Z.eqb_refl. split; [done|].
    split; [by apply same_volume_refl|]. split; [done|].
    symmetry. apply vsector_window; [lia|done].
  - destruct (write_back_spec w Hv) as (w1 & E & Hs & Ef & Hc).
    destruct (read_works (dsk w1) t 1) as (d2 & E2 & Es & Ec);
      [lia|lia|rewrite (sv_size _ _ Hs); lia|].
    rewrite image_one in E2.
    exists (mk_fworld ((fs w1){{ win := contents (dsk w1) t; winsect := t }}) d2 (fattime w1)).
    rewrite (bind_ok _ _ _ _ _ eq_refl).
    destruct (Z.eqb_spec (winsect (fs w)) t); [done|].
    rewrite (bind_ok _ _ _ _ _ E). destruct (Z.eqb_spec t 0); [lia|].
    split; [|split; [|split; [done|by apply Hc]]].
    + cbn [negb].
      rewrite (bind_ok _ _ w1 (true, contents (dsk w1) t) (w1{{ dsk := d2 }}))
        by (unfold dsk_op; by rewrite E2). reflexivity.
    + apply (same_volume_trans _ w1); [done|].
      destruct Hs as [Hv1 Hg _ Hsz _ Hview]. rewrite <- Hsz in Ht.
      assert (wflag (fs w1) = 0) as Hw1 by (by rewrite Ef).
      constructor; simpl; try done.
      * destruct Hv1. destruct (contents_ok (dsk w1) t) as [Hl Hb].
        constructor; simpl; rewrite ?Es, ?Ec; try done; [|lia|].
        -- by apply (geometry_geo (fs w1)).
        -- intros k i Hk Hi. simpl. rewrite !Ec. by apply v_copies0.
      * intros t' Ht'%(primary_geo (fs w)); [|done].
        rewrite Hview, <- Hc by done. unfold vsector. simpl. rewrite Ec.
        destruct (Z.eqb_spec t t') as [<-|]; [|done]. by destruct (Z.eqb_spec t 0).
Qed.

(** ** Bytes of the FAT *)

Definition byte_at (l : list Z) (i : Z) : Z := default 0 (l !! Z.to_nat i).
(** Byte [i] of the FAT, as the program sees it. *)
Definition fat_byte w (i : Z) : Z := byte_at (vsector w (fatbase (fs w) + i / 512)) (i mod 512).
Definition in_fat (s : FATFS) (i : Z) : Prop := 0 <= i < 512 * sects_fat s.

(** The entry of cluster [c]. *)
Definition entry w (c : Z) : Z := entry_of (fs_type (fs w)) (fat_byte w) c.

Lemma byte_at_ok l i : Forall byte_ok l -> byte_ok (byte_at l i).
Proof.
  intros Hl. unfold byte_at. destruct (l !! Z.to_nat i) eqn:E; [|done].
  by apply (Forall_lookup_1 _ _ _ _ Hl E).
Qed.

Lemma byte_at_some l i : 0 <= i < Z.of_nat (length l) -> l !! Z.to_nat i = Some (byte_at l i).
Proof.
  intros Hi. unfold byte_at. destruct (l !! Z.to_nat i) eqn:E; [done|].
  apply lookup_ge_None in E. lia.
Qed.

Lemma byte_at_set l i j v : 0 <= i < Z.of_nat (length l) -> 0 <= j ->
  byte_at (<[Z.to_nat i := v]> l) j = if j =? i then v else byte_at l j.
Proof.
  intros Hi Hj. unfold byte_at. destruct (Z.eqb_spec j i) as [->|].
  - by rewrite list_lookup_insert_eq by lia.
  - by rewrite list_lookup_insert_ne by lia.
Qed.

Lemma fat_byte_ok w i : volume_ok w -> byte_ok (fat_byte w i).
Proof. intros Hv. apply byte_at_ok. by apply vsector_ok. Qed.

Lemma fat1_sector s i size : geometry s size -> in_fat s i ->
  fat1 s (fatbase s + i / 512) /\ primary s (fatbase s + i / 512) /\
  0 < fatbase s + i / 512 < size /\ u32 (fatbase s + i / 512) = fatbase s + i / 512.
Proof.
  unfold in_fat, fat1, primary, behind, u32. intros [] Hi. rewrite Z.mod_small by nia. nia.
Qed.

Lemma same_fat_byte w w' i : volume_ok w -> same_volume w w' -> in_fat (fs w) i ->
  fat_byte w' i = fat_byte w i.
Proof.
  intros [] [_ E _ _ _ Hv] Hi. unfold fat_byte.
  destruct (fat1_sector (fs w) i (sectors (dsk w))) as (_ & Hp & _); [done|done|].
  apply geo_inv in E as (_ & _ & _ & _ & -> & _). by rewrite Hv.
Qed.

(** ** Reading and changing the window *)

Definition store (i v : Z) w : fworld D :=
  mk_fworld ((fs w){{ win := <[Z.to_nat i := v]> (win (fs w)) }}) (dsk w) (fattime w).
Definition dirty w : fworld D := mk_fworld ((fs w){{ wflag := 1 }}) (dsk w) (fattime w).

Lemma win_get_run i w : 0 <= i < Z.of_nat (length (win (fs w))) ->
  win_get i w = Ok (byte_at (win (fs w)) i, w).
Proof.
  intros Hi. unfold win_get, fget. rewrite (bind_ok _ _ _ (win (fs w)) w eq_refl).
  apply aget_ok; [lia|]. by apply byte_at_some.
Qed.

Lemma win_set_run i v w : 0 <= i < Z.of_nat (length (win (fs w))) ->
  win_set i v w = Ok (tt, store i (u8 v) w).
Proof.
  intros Hi. unfold win_set, fget. rewrite (bind_ok _ _ _ (win (fs w)) w eq_refl).
  by rewrite (bind_ok _ _ _ _ _ (aset_ok _ _ _ _ Hi)).
Qed.

(** The data of the volume is the same; the FAT need not be. *)
Record same_data w w' : Prop := {
  sd_ok : volume_ok w';
  sd_geo : geo (fs w') = geo (fs w);
  sd_info : info (fs w') = info (fs w);
  sd_size : sectors (dsk w') = sectors (dsk w);
  sd_time : fattime w' = fattime w;
  sd_view : forall t, primary (fs w) t -> ~ fat1 (fs w) t -> vsector w' t = vsector w t
}.

Lemma fat1_geo s s' t : geo s' = geo s -> fat1 s' t <-> fat1 s t.
Proof.
  intros E%geo_inv. destruct s, s'. simpl in E. destruct_and! E. subst. done.
Qed.

Lemma same_volume_data w w' : same_volume w w' -> same_data w w'.
Proof. intros []. constructor; auto. Qed.

Lemma same_data_trans w1 w2 w3 : same_data w1 w2 -> same_data w2 w3 -> same_data w1 w3.
Proof.
  intros [] []. constructor; try congruence.
  intros t Ht Hn. rewrite sd_view1, sd_view0; [done..| |].
  - by apply (primary_geo (fs w1)).
  - by rewrite (fat1_geo (fs w1)).
Qed.

(** One byte of the FAT changed in the window. *)
Lemma poke_spec w i v : volume_ok w -> in_fat (fs w) i -> byte_ok v ->
  winsect (fs w) = fatbase (fs w) + i / 512 ->
  let w' := dirty (store (i mod 512) v w) in
  same_data w w' /\ forall j, fat_byte w' j = upd (fat_byte w) i v j.
Proof.
  intros Hv Hi Hb Hw w'. pose proof Hv as [].
  destruct (fat1_sector (fs w) i (sectors (dsk w))) as (Hf & _ & Hr & _); [done|done|].
  assert (winsect (fs w') = fatbase (fs w) + i / 512) as Hw' by done.
  split.
  - constructor; try done.
    + constructor; simpl; try done.
      * by apply (geometry_geo (fs w)).
      * by rewrite length_insert.
      * by apply Forall_insert.
      * intros _. left. by rewrite Hw.
    + intros t _ Ht. unfold vsector. rewrite Hw, Hw'.
      destruct (Z.eqb_spec (fatbase (fs w) + i / 512) t); [by subst|done].
  - intros j. unfold fat_byte, upd. change (fatbase (fs w')) with (fatbase (fs w)).
    unfold vsector. rewrite Hw, Hw'.
    destruct (Z.eqb_spec (fatbase (fs w) + i / 512) (fatbase (fs w) + j / 512)) as [E|E].
    + destruct (Z.eqb_spec (fatbase (fs w) + j / 512) 0); [lia|]. simpl.
      rewrite byte_at_set by (rewrite ?v_len0; lia).
      destruct (Z.eqb_spec (j mod 512) (i mod 512)), (Z.eqb_spec j i); [done|lia|lia|done].
    + destruct (Z.eqb_spec j i); [by subst|done].
Qed.

(** ** [get_fat] and [put_fat] *)

(** The window on the sector of byte [i] of the FAT. *)
Lemma focus w i : volume_ok w -> in_fat (fs w) i ->
  exists w', move_window (u32 (fatbase (fs w) + i / 512)) w = Ok (FR_OK, w') /\
    same_volume w w' /\ winsect (fs w') = fatbase (fs w') + i / 512 /\
    length (win (fs w')) = 512%nat /\
    forall j, j / 512 = i / 512 -> byte_at (win (fs w')) (j mod 512) = fat_byte w j.
Proof.
  intros Hv Hi.
  destruct (fat1_sector (fs w) i (sectors (dsk w))) as (Hf & Hp & Hr & ->);
    [by destruct Hv|done|].
  destruct (move_window_spec w (fatbase (fs w) + i / 512) Hv Hr Hp) as (w' & E & Hs & Ew & El).
  exists w'. split; [exact E|]. split; [exact Hs|]. split.
  - destruct (geo_inv _ _ (sv_geo _ _ Hs)) as (_ & _ & _ & _ & -> & _). done.
  - rewrite El. split; [by apply vsector_ok|]. intros j Hj. unfold fat_byte. by rewrite Hj.
Qed.

Lemma get_focus w i k : volume_ok w -> in_fat (fs w) i ->
  exists w', fat_window (u32 (fatbase (fs w) + i / 512)) k w = k w' /\
    same_volume w w' /\ length (win (fs w')) = 512%nat /\
    forall j, j / 512 = i / 512 -> byte_at (win (fs w')) (j mod 512) = fat_byte w j.
Proof.
  intros Hv Hi. destruct (focus w i Hv Hi) as (w' & E & Hs & _ & Hl & Hb).
  exists w'. unfold fat_window. by rewrite (bind_ok _ _ _ _ _ E).
Qed.

Lemma land_SS i : Z.land i (SS - 1) = i mod 512.
Proof. change (SS - 1) with (2 ^ 9 - 1). by rewrite land_low. Qed.

Lemma win_get_land w i b : length (win (fs w)) = 512%nat ->
  byte_at (win (fs w)) (i mod 512) = b -> win_get (Z.land i (SS - 1)) w = Ok (b, w).
Proof.
  intros Hl <-. rewrite land_SS. apply win_get_run. rewrite Hl. lia.
Qed.

Lemma LD_WORD_run w i a b : length (win (fs w)) = 512%nat -> 0 <= i < 511 ->
  byte_at (win (fs w)) i = a -> byte_at (win (fs w)) (i + 1) = b -> byte_ok a -> byte_ok b ->
  LD_WORD i w = Ok (a + 256 * b, w).
Proof.
  intros Hl Hi Ha Hb Oa Ob. unfold LD_WORD.
  rewrite (bind_ok _ _ _ b w) by (rewrite <- Hb; apply win_get_run; lia).
  rewrite (bind_ok _ _ _ a w) by (rewrite <- Ha; apply win_get_run; lia).
  by rewrite le16.
Qed.

Lemma LD_DWORD_run w i a b c d : length (win (fs w)) = 512%nat -> 0 <= i < 509 ->
  byte_at (win (fs w)) i = a -> byte_at (win (fs w)) (i + 1) = b ->
  byte_at (win (fs w)) (i + 2) = c -> byte_at (win (fs w)) (i + 3) = d ->
  byte_ok a -> byte_ok b -> byte_ok c -> byte_ok d ->
  LD_DWORD i w = Ok (a + 256 * b + 65536 * c + 16777216 * d, w).
Proof.
  intros Hl Hi Ha Hb Hc Hd Oa Ob Oc Od. unfold LD_DWORD.
  rewrite (bind_ok _ _ _ d w) by (rewrite <- Hd; apply win_get_run; lia).
  rewrite (bind_ok _ _ _ c w) by (rewrite <- Hc; apply win_get_run; lia).
  rewrite (bind_ok _ _ _ b w) by (rewrite <- Hb; apply win_get_run; lia).
  rewrite (bind_ok _ _ _ a w) by (rewrite <- Ha; apply win_get_run; lia).
  by rewrite le32.
Qed.

(** Entries fit the FAT. *)
Lemma entry_fits w c i : volume_ok w -> 2 <= c < max_clust (fs w) ->
  0 <= i < table_bytes (fs_type (fs w)) (c + 1) -> in_fat (fs w) i.
Proof.
  intros [[] _ _ _ _ _ _] Hc Hi. unfold in_fat, table_bytes in *.
  destruct (_ =? FS_FAT12); [lia|]. destruct (_ =? FS_FAT16); lia.
Qed.

Lemma get_fat12 w c : volume_ok w -> 2 <= c < max_clust (fs w) -> fs_type (fs w) = FS_FAT12 ->
  exists w', get_fat c w = Ok (entry w c, w') /\ same_volume w w'.
Proof.
  intros Hv Hc Ht. unfold get_fat, fget. rewrite (bind_ok _ _ _ (fs w) w eq_refl).
  destruct (Z.ltb_spec c 2), (Z.leb_spec (max_clust (fs w)) c); try lia. simpl. rewrite Ht. simpl.
  unfold SS at 1 3.
  assert (forall i, 0 <= i <= c + c / 2 + 1 -> in_fat (fs w) i) as Hin.
  { intros i Hi. apply (entry_fits w c); [done|done|]. unfold table_bytes. rewrite Ht.
    change (FS_FAT12 =? FS_FAT12) with true. cbv iota. lia. }
  edestruct (get_focus w (c + c / 2)) as (w1 & -> & Hs1 & Hl1 & Hb1); [done|apply Hin; lia|].
  rewrite (bind_ok _ _ _ (fat_byte w (c + c / 2)) w1) by (apply win_get_land; auto).
  destruct (geo_inv _ _ (sv_geo _ _ Hs1)) as (_ & _ & Esf & _ & Efb & _). rewrite <- Efb.
  edestruct (get_focus w1 (c + c / 2 + 1)) as (w2 & -> & Hs2 & Hl2 & Hb2);
    [by destruct Hs1|unfold in_fat; rewrite Esf; apply Hin; lia|].
  rewrite (bind_ok _ _ _ (fat_byte w (c + c / 2 + 1)) w2).
  2: { apply win_get_land; [done|]. rewrite Hb2 by done. apply same_fat_byte; auto. apply Hin. lia. }
  exists w2. split; [|by apply (same_volume_trans _ w1)].
  unfold entry, entry_of. rewrite Ht. cbn [FS_FAT12 Z.eqb].
  pose proof (fat_byte_ok w (c + c / 2) Hv) as O1. pose proof (fat_byte_ok w (c + c / 2 + 1) Hv) as O2.
  unfold byte_ok in *. rewrite lor_byte by lia.
  destruct (Z.odd c); repeat f_equal; [by rewrite Z.shiftr_div_pow2|by rewrite (land_low _ 12)].
Qed.

(** The sector and the offset of an entry of [n] bytes, [n] a power of two. *)
Lemma entry_sector c n : 0 <= c -> n = 2 \/ n = 4 ->
  c / (SS / n) = n * c / 512 /\ Z.land (u16 c * n) (SS - 1) = (n * c) mod 512.
Proof.
  intros Hc Hn. change (SS - 1) with (2 ^ 9 - 1). rewrite land_low by lia.
  unfold SS, u16. destruct Hn as [-> | ->].
  - change (512 / 2) with 256. change (2 ^ 9) with 512. lia.
  - change (512 / 4) with 128. change (2 ^ 9) with 512. lia.
Qed.

Lemma get_fat16 w c : volume_ok w -> 2 <= c < max_clust (fs w) -> fs_type (fs w) = FS_FAT16 ->
  exists w', get_fat c w = Ok (entry w c, w') /\ same_volume w w'.
Proof.
  intros Hv Hc Ht. unfold get_fat, fget. rewrite (bind_ok _ _ _ (fs w) w eq_refl).
  destruct (Z.ltb_spec c 2), (Z.leb_spec (max_clust (fs w)) c); try lia. simpl. rewrite Ht. simpl.
  destruct (entry_sector c 2) as [-> ->]; [lia|auto|].
  assert (forall i, 0 <= i <= 2 * c + 1 -> in_fat (fs w) i) as Hin.
  { intros i Hi. apply (entry_fits w c); [done|done|]. unfold table_bytes. rewrite Ht.
    cbn [FS_FAT12 FS_FAT16 Z.eqb Pos.eqb]. lia. }
  edestruct (get_focus w (2 * c)) as (w1 & -> & Hs1 & Hl1 & Hb1); [done|apply Hin; lia|].
  exists w1. split; [|done]. unfold entry, entry_of. rewrite Ht.
  apply LD_WORD_run; [done|lia|by apply Hb1| |by apply fat_byte_ok..].
  replace ((2 * c) mod 512 + 1) with ((2 * c + 1) mod 512) by lia. apply Hb1. lia.
Qed.

Lemma get_fat32 w c : volume_ok w -> 2 <= c < max_clust (fs w) -> fs_type (fs w) = FS_FAT32 ->
  exists w', get_fat c w = Ok (entry w c, w') /\ same_volume w w'.
Proof.
  intros Hv Hc Ht. unfold get_fat, fget. rewrite (bind_ok _ _ _ (fs w) w eq_refl).
  destruct (Z.ltb_spec c 2), (Z.leb_spec (max_clust (fs w)) c); try lia. simpl. rewrite Ht. simpl.
  destruct (entry_sector c 4) as [-> ->]; [lia|auto|].
  assert (forall i, 0 <= i <= 4 * c + 3 -> in_fat (fs w) i) as Hin.
  { intros i Hi. apply (entry_fits w c); [done|done|]. unfold table_bytes. rewrite Ht.
    cbn [FS_FAT12 FS_FAT16 FS_FAT32 Z.eqb Pos.eqb]. lia. }
  edestruct (get_focus w (4 * c)) as (w1 & -> & Hs1 & Hl1 & Hb1); [done|apply Hin; lia|].
  exists w1. split; [|done].
  assert (forall k, 0 <= k < 4 ->
    byte_at (win (fs w1)) ((4 * c) mod 512 + k) = fat_byte w (4 * c + k)) as Hk.
  { intros k Hk. replace ((4 * c) mod 512 + k) with ((4 * c + k) mod 512) by lia.
    apply Hb1. lia. }
  erewrite bind_ok.
  2: { apply LD_DWORD_run; [done|lia|rewrite <- (Z.add_0_r (_ mod _)); apply Hk; lia
         |apply Hk; lia|apply Hk; lia|apply Hk; lia|by apply fat_byte_ok..]. }
  unfold entry, entry_of. rewrite Ht. change 0x0FFFFFFF with (2 ^ 28 - 1).
  rewrite land_low by lia. by rewrite Z.add_0_r.
Qed.

(** [get_fat] reads the table, and moves nothing but the window. *)
Lemma get_fat_spec w c : volume_ok w -> 2 <= c < max_clust (fs w) ->
  exists w', get_fat c w = Ok (entry w c, w') /\ same_volume w w'.
Proof.
  intros Hv Hc. destruct (g_type _ _ (v_geo _ Hv)) as [|[|]];
    [by apply get_fat12|by apply get_fat16|by apply get_fat32].
Qed.

(** Several bytes of one sector. *)
Definition pokes (l : list (Z * Z)) w : fworld D :=
  foldl (fun w p => dirty (store (p.1 mod 512) p.2 w)) w l.

Lemma pokes_spec l w sect : volume_ok w -> winsect (fs w) = fatbase (fs w) + sect ->
  Forall (fun p => in_fat (fs w) p.1 /\ byte_ok p.2 /\ p.1 / 512 = sect) l ->
  same_data w (pokes l w) /\
  forall j, fat_byte (pokes l w) j = foldl (fun f p => upd f p.1 p.2) (fat_byte w) l j.
Proof.
  revert w. induction l as [|[i v] l IH]; intros w Hv Hw Hl; simpl.
  - split; [|done]. apply same_volume_data. by apply same_volume_refl.
  - apply Forall_cons in Hl as [(Hi & Hb & <-) Hl].
    destruct (poke_spec w i v Hv Hi Hb Hw) as [Hd Hf]. simpl in Hi.
    destruct (IH (dirty (store (i mod 512) v w)) (sd_ok _ _ Hd)) as [Hd' Hf']; [done|done|].
    split; [by apply (same_data_trans _ _ _ Hd)|].
    intros j. rewrite Hf'. clear -Hf. revert Hf.
    generalize (fat_byte (dirty (store (i mod 512) v w))) (upd (fat_byte w) i v).
    induction l as [|p l IH]; intros f g E; [apply E|]. apply IH. intros k. unfold upd.
    by rewrite E.
Qed.

Lemma ST_WORD_run i v w : length (win (fs w)) = 512%nat -> 0 <= i < 511 ->
  ST_WORD i v w = Ok (tt, store (i + 1) (v / 256 mod 256) (store i (v mod 256) w)).
Proof.
  intros Hl Hi. unfold ST_WORD. rewrite (bind_ok _ _ _ _ _ (win_set_run i v w ltac:(lia))).
  rewrite win_set_run by (simpl; rewrite length_insert; lia).
  do 2 f_equal. f_equal. rewrite Z.shiftr_div_pow2 by lia. unfold u8, u16. lia.
Qed.

Lemma ST_DWORD_run i v w : length (win (fs w)) = 512%nat -> 0 <= i < 509 ->
  ST_DWORD i v w =
  Ok (tt, store (i + 3) (v / 16777216 mod 256) (store (i + 2) (v / 65536 mod 256)
            (store (i + 1) (v / 256 mod 256) (store i (v mod 256) w)))).
Proof.
  intros Hl Hi. unfold ST_DWORD. rewrite (bind_ok _ _ _ _ _ (win_set_run i v w ltac:(lia))).
  erewrite bind_ok by (apply win_set_run; simpl; rewrite length_insert; lia).
  erewrite bind_ok by (apply win_set_run; simpl; rewrite !length_insert; lia).
  rewrite win_set_run by (simpl; rewrite !length_insert; lia).
  rewrite !Z.shiftr_div_pow2 by lia.
  replace (u8 (u16 v / 2 ^ 8)) with (v / 256 mod 256) by (unfold u8, u16; lia). done.
Qed.

(** The table after [put_fat], byte by byte. *)
Definition put_result w (c v : Z) w' : Prop :=
  same_data w w' /\
  forall j, in_fat (fs w) j -> fat_byte w' j = set_entry (fs_type (fs w)) (fat_byte w) c v j.

Lemma put_fat_run w c v w1 : 2 <= c < max_clust (fs w) ->
  put_entry (fs w) c v w = Ok (FR_OK, w1) -> put_fat c v w = Ok (FR_OK, dirty w1).
Proof.
  intros Hc E. unfold put_fat, fget. rewrite (bind_ok _ _ _ (fs w) w eq_refl).
  destruct (Z.ltb_spec c 2), (Z.leb_spec (max_clust (fs w)) c); try lia.
  simpl. by rewrite (bind_ok _ _ _ _ _ E).
Qed.

Lemma put_fat16 w c v : volume_ok w -> 2 <= c < max_clust (fs w) -> word_ok v ->
  fs_type (fs w) = FS_FAT16 ->
  exists w', put_fat c v w = Ok (FR_OK, w') /\ put_result w c v w'.
Proof.
  intros Hv Hc Hw Ht.
  assert (forall i, 0 <= i <= 2 * c + 1 -> in_fat (fs w) i) as Hin.
  { intros i Hi. apply (entry_fits w c); [done|done|]. unfold table_bytes. rewrite Ht.
    cbn [FS_FAT12 FS_FAT16 Z.eqb Pos.eqb]. lia. }
  destruct (focus w (2 * c)) as (w1 & E1 & Hs1 & Hw1 & Hl1 & Hb1); [done|apply Hin; lia|].
  destruct (geo_inv _ _ (sv_geo _ _ Hs1)) as (_ & _ & Esf & _ & Efb & _).
  set (l := [(2 * c, v mod 256); (2 * c + 1, v / 256 mod 256)]).
  destruct (pokes_spec l w1 (2 * c / 512)) as [Hd Hf]; [by destruct Hs1|done| |].
  { unfold l, in_fat, byte_ok. rewrite Esf. rewrite !Forall_cons. simpl.
    pose proof (Hin (2 * c) ltac:(lia)). pose proof (Hin (2 * c + 1) ltac:(lia)).
    unfold in_fat in *. split_and!; try lia. apply Forall_nil_2. }
  exists (pokes l w1). split; [|split; [by apply (same_data_trans _ w1); [apply same_volume_data|]|]].
  - apply (put_fat_run w c v (store ((2 * c + 1) mod 512) (v / 256 mod 256)
      (store ((2 * c) mod 512) (v mod 256) w1))); [done|].
    unfold put_entry. rewrite Ht. simpl. destruct (entry_sector c 2) as [-> ->]; [lia|auto|].
    unfold put_window. rewrite (bind_ok _ _ _ _ _ E1). simpl.
    erewrite bind_ok by (apply ST_WORD_run; [done|lia]). unfold u16.
    replace ((2 * c + 1) mod 512) with ((2 * c) mod 512 + 1) by lia.
    replace (v mod 65536 mod 256) with (v mod 256) by lia.
    by replace (v mod 65536 / 256 mod 256) with (v / 256 mod 256) by lia.
  - intros j Hj. rewrite Hf. unfold l, set_entry. rewrite Ht. simpl.
    unfold upd. by rewrite !(same_fat_byte w w1).
Qed.

Lemma put_fat32 w c v : volume_ok w -> 2 <= c < max_clust (fs w) -> word_ok v ->
  fs_type (fs w) = FS_FAT32 ->
  exists w', put_fat c v w = Ok (FR_OK, w') /\ put_result w c v w'.
Proof.
  intros Hv Hc Hw Ht.
  assert (forall i, 0 <= i <= 4 * c + 3 -> in_fat (fs w) i) as Hin.
  { intros i Hi. apply (entry_fits w c); [done|done|]. unfold table_bytes. rewrite Ht.
    cbn [FS_FAT12 FS_FAT16 FS_FAT32 Z.eqb Pos.eqb]. lia. }
  destruct (focus w (4 * c)) as (w1 & E1 & Hs1 & Hw1 & Hl1 & Hb1); [done|apply Hin; lia|].
  destruct (geo_inv _ _ (sv_geo _ _ Hs1)) as (_ & _ & Esf & _ & Efb & _).
  set (l := [(4 * c, v mod 256); (4 * c + 1, v / 256 mod 256);
             (4 * c + 2, v / 65536 mod 256); (4 * c + 3, v / 16777216 mod 256)]).
  destruct (pokes_spec l w1 (4 * c / 512)) as [Hd Hf]; [by destruct Hs1|done| |].
  { pose proof (Hin (4 * c) ltac:(lia)). pose proof (Hin (4 * c + 3) ltac:(lia)).
    unfold l, in_fat, byte_ok in *. rewrite Esf. rewrite !Forall_cons. simpl.
    split_and!; try lia. apply Forall_nil_2. }
  exists (pokes l w1). split; [|split; [by apply (same_data_trans _ w1); [apply same_volume_data|]|]].
  - apply (put_fat_run w c v (store ((4 * c + 3) mod 512) (v / 16777216 mod 256)
      (store ((4 * c + 2) mod 512) (v / 65536 mod 256)
        (store ((4 * c + 1) mod 512) (v / 256 mod 256)
          (store ((4 * c) mod 512) (v mod 256) w1))))); [done|].
    unfold put_entry. rewrite Ht. simpl. destruct (entry_sector c 4) as [-> ->]; [lia|auto|].
    unfold put_window. rewrite (bind_ok _ _ _ _ _ E1). simpl.
    erewrite bind_ok by (apply ST_DWORD_run; [done|lia]).
    replace ((4 * c + 1) mod 512) with ((4 * c) mod 512 + 1) by lia.
    replace ((4 * c + 2) mod 512) with ((4 * c) mod 512 + 2) by lia.
    by replace ((4 * c + 3) mod 512) with ((4 * c) mod 512 + 3) by lia.
  - intros j Hj. rewrite Hf. unfold l, set_entry. rewrite Ht. simpl.
    unfold upd. by rewrite !(same_fat_byte w w1).
Qed.

(** The two bytes of a 12-bit entry. *)
Definition first12 (p c v : Z) : Z := if Z.odd c then p mod 16 + 16 * (v mod 16) else v mod 256.
Definition second12 (p c v : Z) : Z :=
  if Z.odd c then v / 16 mod 256 else p / 16 * 16 + v / 256 mod 16.

Lemma first12_code p c v : byte_ok p ->
  u8 (if Z.odd c then Z.lor (Z.land p 0x0F) (Z.shiftl (u8 v) 4) else u8 v) = first12 p c v /\
  byte_ok (first12 p c v).
Proof.
  unfold first12, byte_ok, u8. intros Hp. destruct (Z.odd c); [|lia].
  change 0x0F with (2 ^ 4 - 1). rewrite land_low, lor_byte by lia. lia.
Qed.

Lemma second12_code p c v : byte_ok p -> word_ok v ->
  u8 (if Z.odd c then u8 (Z.shiftr v 4)
      else Z.lor (Z.land p 0xF0) (Z.land (u8 (Z.shiftr v 8)) 0x0F)) = second12 p c v /\
  byte_ok (second12 p c v).
Proof.
  intros Hp Hv. rewrite land_high by done. unfold second12, byte_ok, word_ok, u8 in *.
  rewrite !Z.shiftr_div_pow2 by lia.
  destruct (Z.odd c); [lia|]. change 0x0F with (2 ^ 4 - 1).
  rewrite land_low, Z.lor_comm by lia. change 16 with (2 ^ 4) at 2.
  rewrite <- Z.shiftl_mul_pow2, lor_byte by lia. lia.
Qed.

Lemma put_fat12 w c v : volume_ok w -> 2 <= c < max_clust (fs w) -> word_ok v ->
  fs_type (fs w) = FS_FAT12 ->
  exists w', put_fat c v w = Ok (FR_OK, w') /\ put_result w c v w'.
Proof.
  intros Hv Hc Hw Ht.
  assert (forall i, 0 <= i <= c + c / 2 + 1 -> in_fat (fs w) i) as Hin.
  { intros i Hi. apply (entry_fits w c); [done|done|]. unfold table_bytes. rewrite Ht.
    change (FS_FAT12 =? FS_FAT12) with true. cbv iota. lia. }
  set (bc := c + c / 2) in *.
  destruct (focus w bc) as (w1 & E1 & Hs1 & Hw1 & Hl1 & Hb1); [done|apply Hin; lia|].
  destruct (geo_inv _ _ (sv_geo _ _ Hs1)) as (_ & _ & Esf & _ & Efb & _).
  pose proof (fat_byte_ok w bc Hv) as Op. pose proof (fat_byte_ok w (bc + 1) Hv) as Oq.
  destruct (first12_code _ c v Op) as [Ea Oa]. destruct (second12_code _ c v Oq Hw) as [Eb Ob].
  destruct (poke_spec w1 bc (first12 (fat_byte w bc) c v)) as [Hd2 Hf2];
    [by destruct Hs1|unfold in_fat; rewrite Esf; apply Hin; lia|done|done|].
  set (w2 := dirty (store (bc mod 512) (first12 (fat_byte w bc) c v) w1)) in *.
  destruct (geo_inv _ _ (sd_geo _ _ Hd2)) as (_ & _ & Esf2 & _ & Efb2 & _).
  destruct (focus w2 (bc + 1)) as (w3 & E3 & Hs3 & Hw3 & Hl3 & Hb3);
    [by destruct Hd2|unfold in_fat; rewrite Esf2, Esf; apply Hin; lia|].
  assert (in_fat (fs w2) (bc + 1)) as Hin2 by (unfold in_fat; rewrite Esf2, Esf; apply Hin; lia).
  destruct (geo_inv _ _ (sv_geo _ _ Hs3)) as (_ & _ & Esf3 & _ & Efb3 & _).
  destruct (poke_spec w3 (bc + 1) (second12 (fat_byte w (bc + 1)) c v)) as [Hd4 Hf4];
    [by destruct Hs3|unfold in_fat; rewrite Esf3; apply Hin2|done|done|].
  assert (same_data w w3) as Hd3.
  { apply (same_data_trans _ w1); [by apply same_volume_data|].
    apply (same_data_trans _ w2); [done|by apply same_volume_data]. }
  assert (fat_byte w2 (bc + 1) = fat_byte w (bc + 1)) as Eq.
  { rewrite Hf2. unfold upd. destruct (Z.eqb_spec (bc + 1) bc); [lia|].
    apply same_fat_byte; auto. apply Hin. lia. }
  eexists. split; [|split; [by apply (same_data_trans _ w3)|]].
  - apply put_fat_run; [done|]. unfold put_entry. rewrite Ht. simpl. fold bc.
    unfold put_window. rewrite !land_SS. unfold SS. rewrite (bind_ok _ _ _ _ _ E1). cbn [is_ok].
    rewrite (bind_ok _ _ _ (fat_byte w bc) w1)
      by (rewrite <- (Hb1 bc eq_refl); apply win_get_run; lia).
    rewrite (bind_ok _ _ _ _ _ (win_set_run (bc mod 512) _ w1 ltac:(lia))), Ea.
    rewrite (bind_ok _ _ _ tt w2 eq_refl).
    rewrite <- Efb, <- Efb2 at 1. rewrite (bind_ok _ _ _ _ _ E3). cbn [is_ok].
    rewrite (bind_ok _ _ _ (fat_byte w (bc + 1)) w3).
    2: { rewrite <- Eq, <- Hb3 by done. apply win_get_run. lia. }
    rewrite (bind_ok _ _ _ _ _ (win_set_run ((bc + 1) mod 512) _ w3 ltac:(lia))), Eb. reflexivity.
  - intros j Hj. rewrite Hf4. unfold set_entry. rewrite Ht. cbn [FS_FAT12 Z.eqb Pos.eqb]. fold bc.
    unfold upd at 1.
    assert (fat_byte w3 j = upd (fat_byte w) bc (first12 (fat_byte w bc) c v) j) as Ej.
    { rewrite (same_fat_byte w2 w3), Hf2; [|by destruct Hd2|done|unfold in_fat; by rewrite Esf2, Esf].
      unfold upd. by rewrite (same_fat_byte w w1). }
    rewrite Ej. unfold first12, second12, upd. by destruct (Z.odd c).
Qed.

(** [put_fat] changes one entry of the table, and nothing else. *)
Lemma put_fat_spec w c v : volume_ok w -> 2 <= c < max_clust (fs w) -> word_ok v ->
  exists w', put_fat c v w = Ok (FR_OK, w') /\ same_data w w' /\
    forall c', 2 <= c' < max_clust (fs w) ->
      entry w' c' = if c' =? c then v mod (type_mask (fs_type (fs w)) + 1) else entry w c'.
Proof.
  intros Hv Hc Hw.
  assert (exists w', put_fat c v w = Ok (FR_OK, w') /\ put_result w c v w')
    as (w' & E & Hd & Hf).
  { destruct (g_type _ _ (v_geo _ Hv)) as [|[|]];
      [by apply put_fat12|by apply put_fat16|by apply put_fat32]. }
  exists w'. split; [done|]. split; [done|]. intros c' Hc'.
  destruct (geo_inv _ _ (sd_geo _ _ Hd)) as (Ety & _ & _ & Emc & _).
  unfold entry. rewrite Ety.
  rewrite <- entry_set; [|intros i; by apply fat_byte_ok|lia|lia|done].
  apply (entry_ext _ (max_clust (fs w))); [|lia].
  intros i Hi. apply Hf. destruct Hv, v_geo0. unfold in_fat. lia.
Qed.

End Volume.
