(* ===== verification/FatChain.v ===== *)
(** * Chains of clusters

    [remove_chain] and [create_chain] of [Fat] on the table of entries: which clusters are
    released and which one is taken, that both return, and that the count of free clusters
    in the FSInfo fields stays exact. *)

From S2P Require Import Prelude Fat FatTable FatFacts.

Section Chain.
Context {D : Type} `{WorkingDisk D}.
Implicit Types w : fworld D.

(** The table and the FSInfo fields may change, all else on the volume is the same. *)
Record same_store w w' : Prop := {
  ss_ok : volume_ok w';
  ss_geo : geo (fs w') = geo (fs w);
  ss_size : sectors (dsk w') = sectors (dsk w);
  ss_time : fattime w' = fattime w;
  ss_view : forall t, primary (fs w) t -> ~ fat1 (fs w) t -> vsector w' t = vsector w t
}.

Lemma same_data_store w w' : same_data w w' -> same_store w w'.
Proof. intros []. by constructor. Qed.

Lemma same_store_refl w : volume_ok w -> same_store w w.
Proof. by constructor. Qed.

Lemma same_store_trans w1 w2 w3 : same_store w1 w2 -> same_store w2 w3 -> same_store w1 w3.
Proof.
  intros [] []. constructor; try congruence.
  intros t Ht Hn. rewrite ss_view1, ss_view0; [done..| |].
  - by apply (primary_geo (fs w1)).
  - by rewrite (fat1_geo (fs w1)).
Qed.

(** Only the FSInfo fields are set. *)
Definition with_info (lc fc fl : Z) w : fworld D :=
  mk_fworld ((fs w){{ last_clust := lc; free_clust := fc; fsi_flag := fl }}) (dsk w) (fattime w).

Lemma with_info_store lc fc fl w : volume_ok w -> same_store w (with_info lc fc fl w).
Proof.
  intros Hv. constructor; try done. destruct Hv. constructor; simpl; try done.
  by apply (geometry_geo (fs w)).
Qed.

(** The entries of the clusters of the volume. *)
Definition clusters w (c : Z) : Prop := 2 <= c < max_clust (fs w).

Lemma entry_view w w' c : volume_ok w -> geo (fs w') = geo (fs w) ->
  (forall t, fat1 (fs w) t -> vsector w' t = vsector w t) -> clusters w c ->
  entry w' c = entry w c.
Proof.
  intros Hv Hg Hs Hc. unfold entry. destruct (geo_inv _ _ Hg) as (-> & _ & _ & _ & Efb & _).
  apply (entry_ext _ (max_clust (fs w))); [|unfold clusters in Hc; lia].
  intros i Hi. assert (in_fat (fs w) i) as Hin by (destruct (v_geo _ Hv); unfold in_fat; lia).
  destruct (fat1_sector (fs w) i (sectors (dsk w)) (v_geo _ Hv) Hin) as (Hf & _).
  unfold fat_byte. by rewrite Efb, Hs.
Qed.

Lemma same_entry w w' c : volume_ok w -> same_volume w w' -> clusters w c ->
  entry w' c = entry w c.
Proof.
  intros Hv Hs. apply entry_view; [done|apply Hs|]. intros t Ht. apply (sv_view _ _ Hs).
  left. unfold fat1 in Ht. lia.
Qed.

(** The free clusters, and what the FSInfo field says of them: unknown, or their number. *)
Definition frees w : Z := free_count (entry w) (max_clust (fs w)).
Definition counted w : Prop := free_clust (fs w) = 0xFFFFFFFF \/ free_clust (fs w) = frees w.

Lemma frees_ext w w' : max_clust (fs w') = max_clust (fs w) ->
  (forall c, clusters w c -> entry w' c = entry w c) -> frees w' = frees w.
Proof.
  intros E He. unfold frees. rewrite E. apply count_free_ext.
  intros c Hc%elem_of_seqZ. apply He. unfold clusters. lia.
Qed.

Lemma frees_bound w : volume_ok w -> 0 <= frees w < 0x0FFFFFFF.
Proof.
  intros [[] _ _ _ _ _ _]. pose proof (free_count_bound (entry w) (max_clust (fs w))).
  unfold frees, type_mask in *.
  destruct (_ =? FS_FAT12); [lia|]. destruct (_ =? FS_FAT16); lia.
Qed.

(** ** [remove_chain] *)

(** After the clusters [l] were released. *)
Definition released w (l : list Z) w' : Prop :=
  forall c, clusters w c -> entry w' c = if bool_decide (c ∈ l) then 0 else entry w c.

(** Why the loop stops at [e], and the result. *)
Inductive stop w (l : list Z) (e : Z) : FRESULT -> Prop :=
| stop_end : max_clust (fs w) <= e -> stop w l e FR_OK
| stop_cycle : e ∈ l -> stop w l e FR_OK
| stop_free : clusters w e -> e ∉ l -> entry w e = 0 -> stop w l e FR_OK
| stop_mark : clusters w e -> e ∉ l -> entry w e = 1 -> stop w l e FR_INT_ERR.

Definition release_body (clst : Z) : M (fworld D) (ctl Z FRESULT) :=
  s ← fget id;
  if negb (clst <? max_clust s) then mret (Break FR_OK)
  else
    nxt ← get_fat clst;
    if nxt =? 0 then mret (Break FR_OK)
    else if nxt =? 1 then mret (Break FR_INT_ERR)
    else if nxt =? 0xFFFFFFFF then mret (Break FR_DISK_ERR)
    else
      res ← put_fat clst 0;
      if negb (is_ok res) then mret (Break res)
      else
        fset (fun s => if free_clust s =? 0xFFFFFFFF then s
          else s{{ free_clust := u32 (free_clust s + 1); fsi_flag := 1 }}) ;;
        mret (Continue nxt).

Lemma entry_range w c : volume_ok w -> 0 <= entry w c <= 0x0FFFFFFF.
Proof.
  intros Hv. unfold entry, entry_of.
  pose proof (fat_byte_ok w (c + c / 2) Hv) as O1. pose proof (fat_byte_ok w (c + c / 2 + 1) Hv) as O2.
  pose proof (fat_byte_ok w (2 * c) Hv) as O3. pose proof (fat_byte_ok w (2 * c + 1) Hv) as O4.
  unfold byte_ok in *.
  destruct (_ =? FS_FAT12); [destruct (Z.odd c); lia|]. destruct (_ =? FS_FAT16); lia.
Qed.

(** One cluster in use is released. *)
Lemma release_step w c : volume_ok w -> counted w -> clusters w c -> 2 <= entry w c ->
  exists w', release_body c w = Ok (Continue (entry w c), w') /\ same_store w w' /\
    counted w' /\ released w [c] w'.
Proof.
  intros Hv Hn Hc He. pose proof (entry_range w c Hv) as Hr. pose proof Hc as Hcc.
  unfold clusters in Hcc.
  destruct (get_fat_spec w c Hv Hcc) as (w1 & E1 & Hs1).
  pose proof (same_entry w w1) as Hent.
  destruct (geo_inv _ _ (sv_geo _ _ Hs1)) as (Ety & _ & _ & Emc & _).
  assert (info (fs w1) = info (fs w)) as Ei1 by apply Hs1.
  destruct (put_fat_spec w1 c 0) as (w2 & E2 & Hd2 & Ht2);
    [by destruct Hs1|by rewrite Emc|unfold word_ok; lia|].
  destruct (geo_inv _ _ (sd_geo _ _ Hd2)) as (_ & _ & _ & Emc2 & _).
  assert (info (fs w2) = info (fs w1)) as Ei2 by apply Hd2.
  assert (released w [c] w2) as Hrel.
  { intros c' Hc'. rewrite Ht2 by (by rewrite Emc). rewrite Hent by done.
    destruct (Z.eqb_spec c' c) as [->|].
    - rewrite bool_decide_true by (by left). by apply Z.mod_0_l; unfold type_mask; repeat case_match.
    - rewrite bool_decide_false; [done|]. by rewrite list_elem_of_singleton. }
  assert (frees w2 = frees w + 1) as Hfr.
  { unfold frees. rewrite Emc2, Emc. apply (free_count_upd _ _ _ c); [done| |lia].
    intros c' Hc'. rewrite Hrel by done. destruct (Z.eqb_spec c' c) as [->|].
    - by rewrite bool_decide_true by (by left).
    - rewrite bool_decide_false; [done|]. by rewrite list_elem_of_singleton. }
  assert (free_clust (fs w2) = free_clust (fs w)) as Ef by (unfold info in *; congruence).
  set (f := fun s : FATFS => if free_clust s =? 0xFFFFFFFF then s
          else s{{ free_clust := u32 (free_clust s + 1); fsi_flag := 1 }}).
  exists (mk_fworld (f (fs w2)) (dsk w2) (fattime w2)). split; [|split; [|split]].
  - unfold release_body. rewrite (bind_ok _ _ _ (fs w) w eq_refl).
    destruct (Z.ltb_spec c (max_clust (fs w))); [|lia]. cbn [negb].
    rewrite (bind_ok _ _ _ _ _ E1).
    destruct (Z.eqb_spec (entry w c) 0); [lia|]. destruct (Z.eqb_spec (entry w c) 1); [lia|].
    destruct (Z.eqb_spec (entry w c) 0xFFFFFFFF); [lia|].
    rewrite (bind_ok _ _ _ _ _ E2). done.
  - apply (same_store_trans _ w2).
    { apply same_data_store, (same_data_trans _ w1); [by apply same_volume_data|done]. }
    unfold f. destruct (Z.eqb_spec (free_clust (fs w2)) 0xFFFFFFFF).
    + destruct Hd2. destruct w2. by apply same_store_refl.
    + apply (with_info_store (last_clust (fs w2)) (u32 (free_clust (fs w2) + 1)) 1). apply Hd2.
  - pose proof (frees_bound w Hv). unfold counted. simpl.
    unfold f. destruct (Z.eqb_spec (free_clust (fs w2)) 0xFFFFFFFF); simpl; [by left|].
    right. destruct Hn as [Hn|Hn]; [congruence|]. rewrite Ef, Hn. unfold u32.
    rewrite Z.mod_small by lia. symmetry. exact Hfr.
  - intros c' Hc'. rewrite <- Hrel by done. unfold f. by destruct (_ =? 0xFFFFFFFF).
Qed.
(** The world of a loop that only looked at the entry and left. *)
Lemma looked w w' : volume_ok w -> same_volume w w' -> counted w ->
  same_store w w' /\ counted w' /\ released w [] w'.
Proof.
  intros Hv Hs Hn. split; [by apply same_data_store, same_volume_data|].
  assert (forall c, clusters w c -> entry w' c = entry w c) as He by (by intros; apply same_entry).
  destruct (geo_inv _ _ (sv_geo _ _ Hs)) as (_ & _ & _ & Emc & _).
  pose proof (sv_info _ _ Hs) as Ei. unfold info in Ei. split.
  - unfold counted in *. rewrite (frees_ext w w') by done. destruct Hn; [left|right]; congruence.
  - intros c Hc. by apply He.
Qed.

Lemma released_trans w1 w2 w3 l l' : geo (fs w2) = geo (fs w1) ->
  released w1 l w2 -> released w2 l' w3 -> released w1 (l ++ l') w3.
Proof.
  intros Hg H1 H2 c Hc. destruct (geo_inv _ _ Hg) as (_ & _ & _ & Emc & _).
  rewrite H2 by (unfold clusters; by rewrite Emc). rewrite H1 by done.
  destruct (decide (c ∈ l')).
  - rewrite !bool_decide_true; [done|by apply elem_of_app; right|done].
  - rewrite (bool_decide_false (c ∈ l')) by done.
    destruct (decide (c ∈ l)).
    + rewrite !bool_decide_true; [done|by apply elem_of_app; left|done].
    + rewrite !bool_decide_false; [done| |done]. rewrite elem_of_app. by intros [|].
Qed.

(** What [remove_chain] does to the chain of [c0]. *)
Definition chain_removed w c0 (r : FRESULT) w' : Prop :=
  exists l e, path (entry w) (max_clust (fs w)) c0 l e /\ NoDup l /\ stop w l e r /\
    released w l w' /\ same_store w w' /\ counted w'.

Lemma remove_loop fuel w0 w c0 c l :
  counted w -> same_store w0 w -> released w0 l w ->
  path (entry w0) (max_clust (fs w0)) c0 l c -> NoDup l -> 2 <= c ->
  (Z.to_nat (max_clust (fs w0) - 2) - length l < fuel)%nat ->
  exists r w', while fuel release_body c w = Ok (r, w') /\ chain_removed w0 c0 r w'.
Proof.
  revert w c l. induction fuel as [|fuel IH]; intros w c l Hn Hs Hrel Hp Hd Hc Hf; [lia|].
  pose proof (ss_ok _ _ Hs) as Hv.
  destruct (geo_inv _ _ (ss_geo _ _ Hs)) as (_ & _ & _ & Emc & _).
  assert (forall r w', release_body c w = Ok (Break r, w') -> same_volume w w' ->
    stop w0 l c r -> exists r w', while (S fuel) release_body c w = Ok (r, w') /\
      chain_removed w0 c0 r w') as Hbreak.
  { intros r w' E Hsv Hst. destruct (looked w w') as (Hs' & Hn' & Hr'); [done..|].
    exists r, w'. simpl. rewrite (bind_ok _ _ _ _ _ E). split; [done|]. exists l, c.
    split_and!; try done; [|by apply (same_store_trans _ w)].
    rewrite <- (app_nil_r l). apply (released_trans w0 w); [apply Hs|done|done]. }
  destruct (decide (max_clust (fs w0) <= c)) as [Hend|Hend].
  { apply (Hbreak FR_OK w); [|by apply same_volume_refl|by apply stop_end].
    unfold release_body. rewrite (bind_ok _ _ _ (fs w) w eq_refl), Emc.
    by destruct (Z.ltb_spec c (max_clust (fs w0))); [lia|]. }
  assert (clusters w c) as Hcl by (unfold clusters; lia).
  assert (clusters w0 c) as Hcl0 by (unfold clusters in *; lia).
  pose proof (Hrel c Hcl0) as Hent. pose proof (entry_range w c Hv) as Hr.
  destruct (decide (2 <= entry w c)) as [Hu|Hu].
  - assert (c ∉ l) as Hcn by (intros Hin; rewrite bool_decide_true in Hent by done; lia).
    rewrite bool_decide_false in Hent by done.
    destruct (release_step w c Hv Hn Hcl Hu) as (w' & E & Hs' & Hn' & Hr').
    destruct (IH w' (entry w c) (l ++ [c])) as (r & w2 & E2 & Hres); try done.
    + by apply (same_store_trans _ w).
    + apply (released_trans w0 w); [apply Hs|done|done].
    + rewrite Hent. by apply path_snoc; [|unfold clusters in *; lia|lia].
    + apply NoDup_app. split; [done|]. split; [|apply NoDup_singleton].
      intros x Hx ->%list_elem_of_singleton. done.
    + pose proof (clusters_bound (l ++ [c]) (max_clust (fs w0))) as Hb.
      rewrite length_app in *. simpl in *.
      enough (length l + 1 <= Z.to_nat (max_clust (fs w0) - 2))%nat by lia. apply Hb.
      * apply NoDup_app. split; [done|]. split; [|apply NoDup_singleton].
        intros x Hx ->%list_elem_of_singleton. done.
      * apply Forall_app. split; [by apply path_range in Hp|]. by constructor.
    + exists r, w2. simpl. by rewrite (bind_ok _ _ _ _ _ E).
  - destruct (get_fat_spec w c Hv Hcl) as (w1 & E1 & Hs1).
    apply (Hbreak (if entry w c =? 0 then FR_OK else FR_INT_ERR) w1); [|done|].
    + unfold release_body. rewrite (bind_ok _ _ _ (fs w) w eq_refl).
      unfold clusters in Hcl. destruct (Z.ltb_spec c (max_clust (fs w))); [|lia]. cbn [negb].
      rewrite (bind_ok _ _ _ _ _ E1). destruct (Z.eqb_spec (entry w c) 0); [done|].
      by destruct (Z.eqb_spec (entry w c) 1); [|lia].
    + destruct (decide (c ∈ l)) as [Hin|Hin].
      * rewrite bool_decide_true in Hent by done. rewrite Hent. by apply stop_cycle.
      * rewrite bool_decide_false in Hent by done. rewrite Hent in *.
        destruct (Z.eqb_spec (entry w0 c) 0); [by apply stop_free|].
        apply stop_mark; [done|done|lia].
Qed.

(** The fuel that is enough for every loop over the clusters of the volume. *)
Definition enough w : nat := Z.to_nat (max_clust (fs w)).

(** [remove_chain] releases exactly the clusters of the chain, each once. *)
Theorem remove_chain_spec w c fuel : volume_ok w -> counted w -> clusters w c ->
  (enough w <= fuel)%nat ->
  exists r w', remove_chain fuel c w = Ok (r, w') /\ chain_removed w c r w'.
Proof.
  intros Hv Hn Hc Hf. unfold enough, clusters in *.
  destruct (remove_loop fuel w w c c []) as (r & w' & E & Hres); try done.
  - apply path_end.
  - apply NoDup_nil_2.
  - lia.
  - simpl. lia.
  - exists r, w'. split; [|done]. unfold remove_chain, fget.
    rewrite (bind_ok _ _ _ (fs w) w eq_refl).
    by destruct (Z.ltb_spec c 2), (Z.leb_spec (max_clust (fs w)) c); try lia.
Qed.

(** ** [create_chain] *)

Definition probe (scl ncl : Z) : M (fworld D) (ctl Z Z) :=
  cs ← get_fat ncl;
  if cs =? 0 then mret (Break ncl)
  else if (cs =? 0xFFFFFFFF) || (cs =? 1) then mret (Break cs)
  else if ncl =? scl then mret (Break 0)
  else mret (Continue ncl).

Definition search_body (mcl scl ncl : Z) : M (fworld D) (ctl Z Z) :=
  let ncl := u32 (ncl + 1) in
  let wrap := mcl <=? ncl in
  let ncl := if wrap then 2 else ncl in
  if wrap && (scl <? ncl) then mret (Break 0) else probe scl ncl.

Lemma find_free_body fuel mcl scl w : find_free fuel mcl scl w = while fuel (search_body mcl scl) scl w.
Proof. done. Qed.

Lemma probe_spec scl c w : volume_ok w -> clusters w c ->
  exists w', probe scl c w =
    Ok (if entry w c =? 0 then Break c else if entry w c =? 1 then Break 1
        else if c =? scl then Break 0 else Continue c, w') /\ same_volume w w'.
Proof.
  intros Hv Hc. pose proof (entry_range w c Hv) as Hr.
  destruct (get_fat_spec w c Hv Hc) as (w' & E & Hs). exists w'. split; [|done].
  unfold probe. rewrite (bind_ok _ _ _ _ _ E).
  destruct (Z.eqb_spec (entry w c) 0); [done|].
  destruct (Z.eqb_spec (entry w c) 0xFFFFFFFF); [lia|].
  destruct (Z.eqb_spec (entry w c) 1) as [->|]; [done|]. by destruct (c =? scl).
Qed.

(** A turn that tries [c], with [l] still to be tried. *)
Lemma search_turn fuel mcl scl n c l w : volume_ok w -> clusters w c ->
  search_body mcl scl n w = probe scl c w ->
  (c = scl -> l = []) ->
  (forall w1, c <> scl -> same_volume w w1 ->
    exists w', while fuel (search_body mcl scl) c w1 = Ok (scan (entry w) l, w') /\
      same_volume w w') ->
  exists w', while (S fuel) (search_body mcl scl) n w = Ok (scan (entry w) (c :: l), w') /\
    same_volume w w'.
Proof.
  intros Hv Hc Hb Hl Hk. destruct (probe_spec scl c w Hv Hc) as (w1 & E & Hs).
  rewrite scan_cons. cbn [while]. rewrite (bind_ok _ _ _ _ _ (eq_trans Hb E)).
  destruct (entry w c =? 0); [by exists w1|]. destruct (entry w c =? 1); [by exists w1|].
  destruct (Z.eqb_spec c scl) as [Ec|Ec]; [|by apply Hk].
  rewrite (Hl Ec). by exists w1.
Qed.

(** Behind the wrap: the clusters up to [scl]. *)
Lemma search_low fuel scl n w : volume_ok w ->
  2 <= n < scl -> scl < max_clust (fs w) -> (Z.to_nat (scl - n) <= fuel)%nat ->
  exists w', while fuel (search_body (max_clust (fs w)) scl) n w =
    Ok (scan (entry w) (seqZ (n + 1) (scl - n)), w') /\ same_volume w w'.
Proof.
  revert n w. induction fuel as [|fuel IH]; intros n w Hv Hn Hm Hf; [lia|].
  pose proof (g_clust _ _ (v_geo _ Hv)) as Hg.
  assert (type_mask (fs_type (fs w)) < 4294967295) as Htm
    by (unfold type_mask; repeat case_match; lia).
  rewrite seqZ_step by lia. apply search_turn; [done|unfold clusters; lia| | |].
  - unfold search_body. unfold u32. rewrite Z.mod_small by lia.
    by destruct (Z.leb_spec (max_clust (fs w)) (n + 1)); [lia|].
  - intros E. by replace (scl - n - 1) with 0 by lia.
  - intros w1 Hne Hs. destruct (geo_inv _ _ (sv_geo _ _ Hs)) as (_ & _ & _ & Emc & _).
    rewrite <- Emc in *. destruct (IH (n + 1) w1) as (w' & E & Hs'); [apply Hs|lia|lia|lia|].
    exists w'. split; [|by apply (same_volume_trans _ w1)].
    rewrite E. do 2 f_equal. replace (scl - n - 1) with (scl - (n + 1)) by lia.
    apply scan_ext. intros c Hc%elem_of_seqZ. apply same_entry; [done|done|].
    unfold clusters. lia.
Qed.

Lemma search_high fuel scl n w : volume_ok w ->
  1 <= scl <= n -> n < max_clust (fs w) ->
  (Z.to_nat (max_clust (fs w) - n + scl) <= fuel)%nat ->
  exists w', while fuel (search_body (max_clust (fs w)) scl) n w =
    Ok (scan (entry w) (seqZ (n + 1) (max_clust (fs w) - n - 1) ++ seqZ 2 (scl - 1)), w') /\
    same_volume w w'.
Proof.
  revert n w. induction fuel as [|fuel IH]; intros n w Hv Hn Hm Hf; [lia|].
  pose proof (g_clust _ _ (v_geo _ Hv)) as Hg.
  assert (type_mask (fs_type (fs w)) < 4294967295) as Htm
    by (unfold type_mask; repeat case_match; lia).
  assert (u32 (n + 1) = n + 1) as Eu by (unfold u32; rewrite Z.mod_small by lia; done).
  destruct (decide (n + 1 = max_clust (fs w))) as [Hw|Hw].
  - replace (max_clust (fs w) - n - 1) with 0 by lia. cbn [seqZ app].
    change (seqZ (n + 1) 0) with (@nil Z). simpl app.
    destruct (decide (scl = 1)) as [->|].
    + exists w. split; [|by apply same_volume_refl]. cbn [while].
      rewrite (bind_ok _ _ _ (Break 0) w); [done|].
      unfold search_body. rewrite Eu. by destruct (Z.leb_spec (max_clust (fs w)) (n + 1)); [|lia].
    + rewrite (seqZ_step 2) by lia. apply search_turn; [done|unfold clusters; lia| | |].
      * unfold search_body. rewrite Eu.
        destruct (Z.leb_spec (max_clust (fs w)) (n + 1)); [|lia]. simpl.
        by destruct (Z.ltb_spec scl 2); [lia|].
      * by intros <-.
      * intros w1 Hne Hs. destruct (geo_inv _ _ (sv_geo _ _ Hs)) as (_ & _ & _ & Emc & _).
        rewrite <- Emc in *. destruct (search_low fuel scl 2 w1) as (w' & E & Hs');
          [apply Hs|lia|lia|lia|].
        exists w'. split; [|by apply (same_volume_trans _ w1)].
        rewrite E. do 2 f_equal. replace (scl - 1 - 1) with (scl - 2) by lia.
        apply scan_ext. intros c Hc%elem_of_seqZ. apply same_entry; [done|done|].
        unfold clusters. lia.
  - rewrite (seqZ_step (n + 1)) by lia. rewrite <- app_comm_cons.
    apply search_turn; [done|unfold clusters; lia| |lia|].
    + unfold search_body. rewrite Eu.
      by destruct (Z.leb_spec (max_clust (fs w)) (n + 1)); [lia|].
    + intros w1 Hne Hs. destruct (geo_inv _ _ (sv_geo _ _ Hs)) as (_ & _ & _ & Emc & _).
      rewrite <- Emc in *. destruct (IH (n + 1) w1) as (w' & E & Hs'); [apply Hs|lia|lia|lia|].
      exists w'. split; [|by apply (same_volume_trans _ w1)].
      rewrite E. do 2 f_equal.
      replace (max_clust (fs w1) - n - 1 - 1) with (max_clust (fs w1) - (n + 1) - 1) by lia.
      apply scan_ext. intros c Hc. apply same_entry; [done|done|]. unfold clusters.
      apply elem_of_app in Hc. rewrite !elem_of_seqZ in Hc. lia.
Qed.

Lemma find_free_spec fuel scl w : volume_ok w -> 1 <= scl < max_clust (fs w) ->
  (enough w <= fuel)%nat ->
  exists w', find_free fuel (max_clust (fs w)) scl w =
    Ok (first_free (entry w) scl (max_clust (fs w)), w') /\ same_volume w w'.
Proof.
  intros Hv Hs Hf. unfold enough in Hf. rewrite find_free_body.
  apply search_high; [done|lia|lia|lia].
Qed.

(** Where the search for [create_chain clst] starts ([inl]), or its result without one:
    a new chain starts behind the cluster allocated last, a chain is continued behind its
    end; 1 is an error, and a cluster that has a successor is not extended. *)
Definition start w (clst : Z) : Z + Z :=
  let mcl := max_clust (fs w) in
  let last := last_clust (fs w) in
  if clst =? 0 then inl (if (last =? 0) || (mcl <=? last) then 1 else last)
  else if (clst <? 2) || (mcl <=? clst) then inr 1
  else if entry w clst <? 2 then inr 1
  else if entry w clst <? mcl then inr (entry w clst) else inl clst.

Lemma start_point_spec w clst : volume_ok w ->
  exists w', start_point clst w = Ok (start w clst, w') /\ same_volume w w'.
Proof.
  intros Hv. unfold start_point, start, fget. rewrite (bind_ok _ _ _ (fs w) w eq_refl).
  destruct (Z.eqb_spec clst 0); [exists w; split; [done|by apply same_volume_refl]|].
  destruct ((clst <? 2) || (max_clust (fs w) <=? clst)) eqn:Er.
  - exists w. split; [|by apply same_volume_refl].
    rewrite (bind_ok _ _ _ 1 w); [done|]. unfold get_fat, fget.
    rewrite (bind_ok _ _ _ (fs w) w eq_refl). by rewrite Er.
  - apply orb_false_iff in Er as [E1%Z.ltb_ge E2%Z.leb_gt].
    destruct (get_fat_spec w clst Hv) as (w' & E & Hs); [lia|].
    exists w'. split; [|done]. rewrite (bind_ok _ _ _ _ _ E).
    destruct (entry w clst <? 2); [done|]. by destruct (entry w clst <? max_clust (fs w)).
Qed.

(** Cluster [n] was free and now ends the chain of [clst]. *)
Definition taken w clst n w' : Prop :=
  same_store w w' /\ counted w' /\ last_clust (fs w') = n /\
  forall c, clusters w c -> entry w' c =
    if c =? n then type_mask (fs_type (fs w)) else if c =? clst then n else entry w c.

Lemma put_store w c v : volume_ok w -> clusters w c -> word_ok v ->
  exists w', put_fat c v w = Ok (FR_OK, w') /\ same_store w w' /\
    info (fs w') = info (fs w) /\
    forall c', clusters w c' ->
      entry w' c' = if c' =? c then v mod (type_mask (fs_type (fs w)) + 1) else entry w c'.
Proof.
  intros Hv Hc Hw. destruct (put_fat_spec w c v Hv Hc Hw) as (w' & E & Hd & Ht).
  exists w'. split; [done|]. split; [by apply same_data_store|]. by split; [apply Hd|].
Qed.

Lemma mask_bound w v : volume_ok w -> 0 <= v < max_clust (fs w) ->
  word_ok v /\ v mod (type_mask (fs_type (fs w)) + 1) = v.
Proof.
  intros Hv Hr. pose proof (g_clust _ _ (v_geo _ Hv)). unfold word_ok.
  rewrite Z.mod_small; [split; [|done]|lia].
  unfold type_mask in *. repeat case_match; lia.
Qed.

Lemma mark_mask w : 0x0FFFFFFF mod (type_mask (fs_type (fs w)) + 1) = type_mask (fs_type (fs w)).
Proof. unfold type_mask. by repeat case_match. Qed.

(** The two writes to the table. *)
Lemma take_entries w clst n : volume_ok w -> clusters w n -> entry w n = 0 ->
  (clst = 0 \/ clusters w clst) ->
  exists w1 w2, put_fat n 0x0FFFFFFF w = Ok (FR_OK, w1) /\
    (if clst =? 0 then mret FR_OK else put_fat clst n) w1 = Ok (FR_OK, w2) /\
    same_store w w2 /\ info (fs w2) = info (fs w) /\
    forall c, clusters w c -> clst <> n -> entry w2 c =
      if c =? n then type_mask (fs_type (fs w)) else if c =? clst then n else entry w c.
Proof.
  intros Hv Hn He Hc. destruct (put_store w n 0x0FFFFFFF) as (w1 & E1 & Hs1 & Hi1 & Ht1);
    [done|done|unfold word_ok; lia|].
  destruct (geo_inv _ _ (ss_geo _ _ Hs1)) as (Ety & _ & _ & Emc & _).
  destruct (Z.eqb_spec clst 0) as [->|H0'].
  - exists w1, w1. split_and!; try done. intros c Hcc _. rewrite Ht1, mark_mask by done.
    destruct (Z.eqb_spec c n); [done|]. destruct (Z.eqb_spec c 0); [|done].
    unfold clusters in Hcc. lia.
  - destruct Hc as [Hc|Hc]; [done|].
    destruct (mask_bound w1 n) as [Hb1 Hb2]; [apply Hs1|unfold clusters in Hn; lia|].
    destruct (put_store w1 clst n) as (w2 & E2 & Hs2 & Hi2 & Ht2);
      [apply Hs1|unfold clusters in *; lia|done|].
    exists w1, w2. split_and!; try done; [by apply (same_store_trans _ w1)|congruence|].
    intros c Hcc Hne. rewrite Ht2, Hb2, Ht1, mark_mask by (unfold clusters in *; lia).
    destruct (Z.eqb_spec c clst), (Z.eqb_spec c n); try done. congruence.
Qed.

(** The table after a free cluster was taken has one less. *)
Lemma taken_frees w clst n w2 : volume_ok w -> clusters w n -> entry w n = 0 ->
  geo (fs w2) = geo (fs w) -> (clst = 0 \/ clusters w clst /\ entry w clst <> 0) ->
  (forall c, clusters w c -> entry w2 c =
    if c =? n then type_mask (fs_type (fs w)) else if c =? clst then n else entry w c) ->
  frees w = frees w2 + 1.
Proof.
  intros Hv Hn He Hg Hc Ht. destruct (geo_inv _ _ Hg) as (_ & _ & _ & Emc & _).
  unfold frees. rewrite Emc. unfold clusters in *.
  set (f := fun c => if c =? clst then n else entry w c).
  assert (free_count (entry w) (max_clust (fs w)) = free_count (upd f n 0) (max_clust (fs w))) as ->.
  { apply count_free_iff. intros c Hcl%elem_of_seqZ. unfold upd, f.
    destruct (Z.eqb_spec c n) as [->|]; [done|].
    destruct (Z.eqb_spec c clst) as [->|]; [|done]. lia. }
  apply (free_count_upd _ _ _ n); [done| |].
  - intros c Hcl. rewrite Ht by done. unfold upd, f. by destruct (Z.eqb_spec c n).
  - rewrite Ht, Z.eqb_refl by done. unfold type_mask. by repeat case_match.
Qed.

Lemma take_cluster_spec w clst n : volume_ok w -> counted w -> clusters w n -> entry w n = 0 ->
  (clst = 0 \/ clusters w clst /\ entry w clst <> 0) ->
  exists w', take_cluster clst n w = Ok (n, w') /\ taken w clst n w'.
Proof.
  intros Hv Hct Hn He Hc.
  destruct (take_entries w clst n) as (w1 & w2 & E1 & E2 & Hs & Hi & Ht); [done..|tauto|].
  assert (forall c, clusters w c -> entry w2 c =
    if c =? n then type_mask (fs_type (fs w)) else if c =? clst then n else entry w c) as Ht'.
  { intros c Hcc. apply Ht; [done|]. intros ->. destruct Hc as [->|[]]; [|done].
    unfold clusters in Hn. lia. }
  pose proof (taken_frees w clst n w2 Hv Hn He (ss_geo _ _ Hs) Hc Ht') as Hfr.
  pose proof (frees_bound w Hv) as Hfb. pose proof (frees_bound w2 (ss_ok _ _ Hs)) as Hfb2.
  assert (free_clust (fs w2) = free_clust (fs w)) as Ef by (unfold info in Hi; congruence).
  set (f := fun s : FATFS => if free_clust s =? 0xFFFFFFFF then s
              else s{{ free_clust := u32 (free_clust s - 1); fsi_flag := 1 }}).
  exists (mk_fworld (f ((fs w2){{ last_clust := n }})) (dsk w2) (fattime w2)). split.
  - unfold take_cluster. rewrite (bind_ok _ _ _ _ _ E1). cbn [is_ok negb].
    rewrite (bind_ok _ _ _ _ _ E2). done.
  - unfold f. simpl. destruct (Z.eqb_spec (free_clust (fs w2)) 0xFFFFFFFF) as [E|E].
    + split; [|split; [by left|split; [done|exact Ht']]].
      apply (same_store_trans _ w2); [done|].
      apply (with_info_store n (free_clust (fs w2)) (fsi_flag (fs w2))). apply Hs.
    + split; [|split; [right|split; [done|exact Ht']]].
      * apply (same_store_trans _ w2); [done|].
        apply (with_info_store n (u32 (free_clust (fs w2) - 1)) 1). apply Hs.
      * simpl. destruct Hct as [Hct|Hct]; [congruence|]. rewrite Ef, Hct. unfold u32.
        rewrite Z.mod_small by lia. change (frees w - 1 = frees w2). lia.
Qed.

Lemma start_range w clst scl : 0 <= last_clust (fs w) -> volume_ok w ->
  start w clst = inl scl -> 1 <= scl < max_clust (fs w) /\
    (clst = 0 \/ clusters w clst /\ entry w clst <> 0).
Proof.
  intros Hl Hv. pose proof (g_clust _ _ (v_geo _ Hv)). unfold start.
  destruct (Z.eqb_spec clst 0).
  - intros [= <-]. split; [|by left].
    destruct (Z.eqb_spec (last_clust (fs w)) 0), (Z.leb_spec (max_clust (fs w)) (last_clust (fs w)));
      simpl; lia.
  - destruct (Z.ltb_spec clst 2), (Z.leb_spec (max_clust (fs w)) clst); try done. simpl.
    destruct (Z.ltb_spec (entry w clst) 2); [done|].
    destruct (_ <? _); [done|]. intros [= <-]. unfold clusters. lia.
Qed.

(** The volume seen through another window. *)
Lemma same_counted w w' : volume_ok w -> same_volume w w' -> counted w -> counted w'.
Proof. intros Hv Hs Hn. by destruct (looked w w' Hv Hs Hn) as (_ & ? & _). Qed.

Lemma taken_from w w1 clst n w' : volume_ok w -> same_volume w w1 ->
  taken w1 clst n w' -> taken w clst n w'.
Proof.
  intros Hv Hs (Hst & Hn & Hl & Ht).
  destruct (geo_inv _ _ (sv_geo _ _ Hs)) as (Ety & _ & _ & Emc & _).
  split; [|split; [done|split; [done|]]].
  - apply (same_store_trans _ w1); [by apply same_data_store, same_volume_data|done].
  - intros c Hc. rewrite Ht, Ety, (same_entry w w1) by (unfold clusters in *; rewrite ?Emc; done).
    done.
Qed.

(** What [create_chain] returns, and whether it takes a cluster. *)
Definition extends w clst (n : Z) (new : bool) : Prop :=
  match start w clst with
  | inr r => n = r /\ new = false
  | inl scl =>
      n = first_free (entry w) scl (max_clust (fs w)) /\ new = (2 <=? n)
  end.

Theorem create_chain_spec w clst fuel : volume_ok w -> counted w ->
  0 <= last_clust (fs w) -> (enough w <= fuel)%nat ->
  exists n new w', create_chain fuel clst w = Ok (n, w') /\ extends w clst n new /\
    if new : bool then taken w clst n w' else same_volume w w'.
Proof.
  intros Hv Hn Hl Hf. unfold create_chain, fget, extends.
  destruct (start_point_spec w clst Hv) as (w1 & E1 & Hs1).
  destruct (start w clst) as [scl|r] eqn:Est.
  2: { exists r, false, w1. rewrite (bind_ok _ _ _ (max_clust (fs w)) w eq_refl).
       by rewrite (bind_ok _ _ _ _ _ E1). }
  destruct (start_range w clst scl Hl Hv Est) as [Hscl Hclst].
  destruct (geo_inv _ _ (sv_geo _ _ Hs1)) as (Ety & _ & _ & Emc & _).
  destruct (find_free_spec fuel scl w1) as (w2 & E2 & Hs2);
    [apply Hs1|lia|unfold enough in *; by rewrite Emc|].
  assert (first_free (entry w1) scl (max_clust (fs w1)) =
          first_free (entry w) scl (max_clust (fs w))) as Eff.
  { rewrite Emc. apply scan_ext. intros c Hc%candidates_all; [|done]. by apply same_entry. }
  rewrite Eff, Emc in E2. set (n := first_free (entry w) scl (max_clust (fs w))) in *.
  assert (same_volume w w2) as Hs by (by apply (same_volume_trans _ w1)).
  assert (create_chain fuel clst w =
    (if (n =? 0) || (n =? 1) || (n =? 0xFFFFFFFF) then mret n else take_cluster clst n) w2) as Er.
  { unfold create_chain, fget. rewrite (bind_ok _ _ _ (max_clust (fs w)) w eq_refl).
    by rewrite (bind_ok _ _ _ _ _ E1), (bind_ok _ _ _ _ _ E2). }
  unfold create_chain, fget in Er. rewrite Er.
  destruct (first_free_range (entry w) scl (max_clust (fs w)) Hscl) as [E0|[E0|[Hr He]]].
  - exists n, false, w2. unfold n. rewrite E0. done.
  - exists n, false, w2. unfold n. rewrite E0. done.
  - fold n in Hr, He. destruct (mask_bound w n Hv) as [Hw _]; [lia|].
    destruct (geo_inv _ _ (sv_geo _ _ Hs)) as (_ & _ & _ & Emc2 & _).
    destruct (take_cluster_spec w2 clst n) as (w' & E3 & Ht).
    + apply Hs.
    + by apply (same_counted w).
    + unfold clusters. lia.
    + rewrite (same_entry w); done.
    + destruct Hclst as [|[Hc He']]; [by left|right]. rewrite (same_entry w) by done.
      split; [unfold clusters in *; lia|done].
    + exists n, true, w'. split; [|split; [split; [done|by destruct (Z.leb_spec 2 n); [|lia]]|]].
      * pose proof (g_clust _ _ (v_geo _ Hv)).
        assert (type_mask (fs_type (fs w)) < 4294967295) by (unfold type_mask; repeat case_match; lia).
        destruct (Z.eqb_spec n 0), (Z.eqb_spec n 1), (Z.eqb_spec n 0xFFFFFFFF); try lia. exact E3.
      * by apply (taken_from w w2).
Qed.

End Chain.
