(* ===== verification/FatRam.v ===== *)
(** * A drive in memory

    The simplest drive that works: a list of sectors.  The theorems on volumes are applied
    to it. *)

From S2P Require Import Prelude Fat FatTable FatFacts.

(** A sector that is not 512 bytes reads as zeros. *)
Abbreviation ramdisk := (list (list Z)).
Definition sector_ok (l : list Z) : Prop := length l = 512%nat /\ Forall byte_ok l.
#[export] Instance byte_ok_dec z : Decision (byte_ok z).
Proof. unfold byte_ok. apply _. Defined.
#[export] Instance sector_ok_dec l : Decision (sector_ok l).
Proof. unfold sector_ok. apply _. Defined.

Definition zero_sector : list Z := replicate 512 0.
Lemma zero_sector_ok : sector_ok zero_sector.
Proof. split; [done|by apply Forall_replicate]. Qed.

Definition ram_get (d : ramdisk) (t : Z) : list Z :=
  match d !! Z.to_nat t with
  | Some l => if decide (sector_ok l) then l else zero_sector
  | None => zero_sector
  end.

Fixpoint ram_put (d : ramdisk) (t : nat) (l : list Z) (n : nat) : ramdisk :=
  match n with
  | O => d
  | S n' => ram_put (<[t := take 512 l]> d) (S t) (drop 512 l) n'
  end.

Definition ram_size (d : ramdisk) : Z := Z.of_nat (length d).
Definition ram_in (d : ramdisk) (t n : Z) : bool :=
  (0 <=? t) && (0 <? n) && (t + n <=? ram_size d).

#[export] Instance ram : Disk ramdisk := {|
  disk_initialize d := (0, d);
  disk_status _ := 0;
  disk_read t n d := (ram_in d t n, image ram_get d t n, d);
  disk_write l t d :=
    let n := Z.of_nat (length l) / 512 in
    if ram_in d t n then (true, ram_put d (Z.to_nat t) l (Z.to_nat n)) else (false, d);
  disk_sync d := (true, d)
|}.

Lemma ram_get_ok d t : sector_ok (ram_get d t).
Proof.
  pose proof zero_sector_ok. unfold ram_get. destruct (d !! Z.to_nat t); [|done]. by destruct (decide (sector_ok l)).
Qed.

Lemma ram_put_length n d t l : length (ram_put d t l n) = length d.
Proof. revert d t l. induction n; intros; simpl; [done|]. by rewrite IHn, length_insert. Qed.

Lemma ram_put_get n d t l t' : 0 <= t' -> (t + n <= length d)%nat ->
  length l = (512 * n)%nat -> Forall byte_ok l ->
  ram_get (ram_put d t l n) t' =
  if (Z.of_nat t <=? t') && (t' <? Z.of_nat (t + n)) then slice l (t' - Z.of_nat t)
  else ram_get d t'.
Proof.
  intros Ht'. revert d t l. induction n as [|n IH]; intros d t l Hn Hl Hb; simpl.
  - destruct (Z.leb_spec (Z.of_nat t) t'), (Z.ltb_spec t' (Z.of_nat (t + 0))); try lia; done.
  - rewrite IH; [|rewrite length_insert; lia|rewrite length_drop; lia|by apply Forall_drop].
    destruct (Z.eq_dec t' (Z.of_nat t)) as [->|Hne].
    + destruct (Z.leb_spec (Z.of_nat (S t)) (Z.of_nat t)); [lia|]. simpl.
      destruct (Z.leb_spec (Z.of_nat t) (Z.of_nat t)), (Z.ltb_spec (Z.of_nat t) (Z.of_nat (t + S n)));
        try lia. simpl. unfold ram_get, slice. rewrite Nat2Z.id.
      rewrite list_lookup_insert_eq by lia. rewrite decide_True.
      * by rewrite Z.sub_diag.
      * split; [rewrite length_take; lia|by apply Forall_take].
    + replace ((Z.of_nat (S t) <=? t') && (t' <? Z.of_nat (S t + n)))
        with ((Z.of_nat t <=? t') && (t' <? Z.of_nat (t + S n))).
      2: { destruct (Z.leb_spec (Z.of_nat (S t)) t'), (Z.ltb_spec t' (Z.of_nat (S t + n))),
             (Z.leb_spec (Z.of_nat t) t'), (Z.ltb_spec t' (Z.of_nat (t + S n))); try lia; done. }
      destruct (_ && _) eqn:E.
      * apply andb_true_iff in E as [E1%Z.leb_le E2%Z.ltb_lt]. unfold slice.
        rewrite drop_drop. do 2 f_equal. lia.
      * unfold ram_get. by rewrite list_lookup_insert_ne by lia.
Qed.

#[local] Obligation Tactic := idtac.
#[export] Program Instance ram_works : WorkingDisk ramdisk := {|
  sectors := ram_size;
  contents d t := if 0 <=? t then ram_get d t else zero_sector
|}.
Next Obligation.
  intros d t. cbv beta. destruct (0 <=? t); [apply ram_get_ok|apply zero_sector_ok].
Qed.
Next Obligation.
  intros d t n Ht Hn Hs. exists d. split; [|done]. simpl. unfold ram_in.
  destruct (Z.leb_spec 0 t), (Z.ltb_spec 0 n), (Z.leb_spec (t + n) (ram_size d)); try lia.
  simpl. do 2 f_equal. unfold image. f_equal. apply list_fmap_ext.
  intros i x Hx%list_elem_of_lookup_2%elem_of_seqZ. by destruct (Z.leb_spec 0 x); [|lia].
Qed.
Next Obligation.
  intros d t n l Ht Hn Hs Hl Hb. simpl. rewrite Hl.
  replace (512 * n / 512) with n by lia. unfold ram_in, ram_size in *.
  destruct (Z.leb_spec 0 t), (Z.ltb_spec 0 n), (Z.leb_spec (t + n) (Z.of_nat (length d))); try lia.
  eexists. split; [reflexivity|]. split; [by rewrite ram_put_length|].
  intros t'. destruct (Z.leb_spec 0 t').
  - rewrite ram_put_get by (done || lia). rewrite Z2Nat.id by lia.
    by replace (Z.of_nat (Z.to_nat t + Z.to_nat n)) with (t + n) by lia.
  - destruct (Z.leb_spec t t'); [lia|]. done.
Qed.
Next Obligation. done. Qed.
Next Obligation. intros d _. by exists d. Qed.
