(* ===== verification/FatData.v ===== *)
(** * The data of files

    The clusters of a chain as one list of sectors, and what a file holds: the
    concatenation of these sectors as they are visible through the window. *)

From S2P Require Import Prelude Fat FatTable FatFacts FatChain.

(** ** Lists of sectors *)

Definition joined (g : Z -> list Z) (ts : list Z) : list Z := concat (g <$> ts).

Section Joined.
Context (g : Z -> list Z) (Hg : forall t, length (g t) = 512%nat).

Lemma joined_app ts us : joined g (ts ++ us) = joined g ts ++ joined g us.
Proof. unfold joined. by rewrite fmap_app, concat_app. Qed.

Lemma joined_cons t ts : joined g (t :: ts) = g t ++ joined g ts.
Proof. done. Qed.

Lemma joined_length ts : length (joined g ts) = (512 * length ts)%nat.
Proof.
  induction ts as [|t ts IH]; [done|]. rewrite joined_cons, length_app, IH, Hg. simpl. lia.
Qed.

Lemma joined_drop ts k : drop (512 * k) (joined g ts) = joined g (drop k ts).
Proof.
  destruct (decide (k <= length ts)%nat).
  - rewrite <- (take_drop k ts) at 1. rewrite joined_app, drop_app_ge.
    + rewrite joined_length, length_take, Nat.min_l by lia. by rewrite Nat.sub_diag, drop_0.
    + rewrite joined_length, length_take. lia.
  - rewrite !drop_ge; [done|lia|]. rewrite joined_length. lia.
Qed.

Lemma joined_take ts k : take (512 * k) (joined g ts) = joined g (take k ts).
Proof.
  destruct (decide (k <= length ts)%nat).
  - rewrite <- (take_drop k ts) at 1. rewrite joined_app, take_app_le.
    + apply firstn_all2. rewrite joined_length, length_take. lia.
    + rewrite joined_length, length_take. lia.
  - rewrite !take_ge; [done|lia|]. rewrite joined_length. lia.
Qed.

(** From byte [p] of sector [k] on. *)
Lemma joined_from ts k t p : ts !! k = Some t ->
  drop (512 * k + p) (joined g ts) = drop p (g t ++ joined g (drop (S k) ts)).
Proof.
  intros Ht. rewrite <- drop_drop, joined_drop. by rewrite (drop_S ts t k Ht), joined_cons.
Qed.

(** Bytes inside of one sector. *)
Lemma joined_part ts k t p n : ts !! k = Some t -> (p + n <= 512)%nat ->
  take n (drop (512 * k + p) (joined g ts)) = take n (drop p (g t)).
Proof.
  intros Ht Hn. rewrite (joined_from ts k t p Ht), drop_app_le by (rewrite Hg; lia).
  apply take_app_le. rewrite length_drop, Hg. lia.
Qed.

(** Whole sectors. *)
Lemma joined_sectors ts k n :
  take (512 * n) (drop (512 * k) (joined g ts)) = joined g (take n (drop k ts)).
Proof. by rewrite joined_drop, joined_take. Qed.
End Joined.

Lemma blit_middle {A} (a m b x : list A) p : (p + length x <= length m)%nat ->
  blit (a ++ m ++ b) (length a + p) x = a ++ blit m p x ++ b.
Proof.
  intros Hp. unfold blit. rewrite take_app_add, take_app_le, <- !app_assoc by lia.
  rewrite <- Nat.add_assoc, drop_app_add, drop_app_le by lia. done.
Qed.

(** One sector changes. *)
Lemma joined_blit g g' ts k t p b : (forall x, length (g x) = 512%nat) ->
  NoDup ts -> ts !! k = Some t -> (p + length b <= 512)%nat ->
  g' t = blit (g t) p b -> (forall x, x ∈ ts -> x <> t -> g' x = g x) ->
  blit (joined g ts) (512 * k + p) b = joined g' ts.
Proof.
  intros Hg Hn Hk Hp Ht Hx.
  assert (forall us, us ⊆ ts -> t ∉ us -> joined g' us = joined g us) as Hsame.
  { intros us Hus Hnt. unfold joined. f_equal. apply list_fmap_ext.
    intros i x Hi%list_elem_of_lookup_2. apply Hx; [by apply Hus|by intros ->]. }
  pose proof (take_drop_middle _ _ _ Hk) as E. rewrite <- E in Hn.
  apply NoDup_app in Hn as (_ & Hn1 & Hn2). apply NoDup_cons in Hn2 as [Hn2 _].
  rewrite <- E at 1. rewrite joined_app, joined_cons.
  replace (512 * k)%nat with (length (joined g (take k ts))).
  2: { rewrite joined_length by done. apply lookup_lt_Some in Hk. rewrite length_take. lia. }
  rewrite blit_middle by (rewrite Hg; lia). rewrite <- E at 3.
  rewrite joined_app, joined_cons, Ht. f_equal; [|f_equal].
  - symmetry. apply Hsame.
    + intros x Hx'. by apply elem_of_take in Hx' as (i & Hi & _); eapply list_elem_of_lookup_2.
    + intros Hin. apply (Hn1 t Hin). by left.
  - symmetry. apply Hsame; [|done]. intros x Hx'.
    apply list_elem_of_lookup in Hx' as [i Hi]. rewrite lookup_drop in Hi.
    by eapply list_elem_of_lookup_2.
Qed.

(** ** Clusters and chains as sectors *)

Definition first_sect (s : FATFS) (c : Z) : Z := database s + (c - 2) * csize s.
Definition chain_sects (s : FATFS) (l : list Z) : list Z :=
  l ≫= (fun c => seqZ (first_sect s c) (csize s)).

(** The data area is behind the FAT and on the drive. *)
Record data_area (s : FATFS) (size : Z) : Prop := {
  da_csize : 1 <= csize s <= 128;
  da_base : behind s (database s);
  da_size : first_sect s (max_clust s) <= size
}.

Lemma chain_sects_length s l : 0 <= csize s ->
  length (chain_sects s l) = (length l * Z.to_nat (csize s))%nat.
Proof.
  intros Hc. induction l as [|c l IH]; [done|].
  change (chain_sects s (c :: l)) with (seqZ (first_sect s c) (csize s) ++ chain_sects s l).
  rewrite length_app, IH, length_seqZ. simpl. lia.
Qed.

Lemma chain_sects_lookup s l i c j : 0 <= csize s -> l !! i = Some c ->
  0 <= j < csize s ->
  chain_sects s l !! (i * Z.to_nat (csize s) + Z.to_nat j)%nat = Some (first_sect s c + j).
Proof.
  intros Hc. revert i. induction l as [|x l IH]; intros i Hi Hj; [done|].
  change (chain_sects s (x :: l)) with (seqZ (first_sect s x) (csize s) ++ chain_sects s l).
  destruct i as [|i]; simpl in *.
  - injection Hi as ->. rewrite lookup_app_l by (rewrite length_seqZ; lia).
    apply lookup_seqZ. lia.
  - rewrite lookup_app_r by (rewrite length_seqZ; lia). rewrite length_seqZ.
    rewrite <- (IH i) by done. f_equal. lia.
Qed.

(** Consecutive sectors of one cluster. *)
Lemma chain_sects_run s l i c j n : 0 <= csize s -> l !! i = Some c ->
  0 <= j -> 0 <= n -> j + n <= csize s ->
  take (Z.to_nat n) (drop (i * Z.to_nat (csize s) + Z.to_nat j) (chain_sects s l)) =
  seqZ (first_sect s c + j) n.
Proof.
  intros Hc Hi Hj Hn Hjn. apply list_eq. intros k.
  destruct (decide (k < Z.to_nat n)%nat) as [Hk|Hk].
  - rewrite lookup_take_lt, lookup_drop by done.
    replace (i * Z.to_nat (csize s) + Z.to_nat j + k)%nat
      with (i * Z.to_nat (csize s) + Z.to_nat (j + Z.of_nat k))%nat by lia.
    rewrite (chain_sects_lookup s l i c) by (done || lia).
    symmetry. apply lookup_seqZ. lia.
  - rewrite !lookup_ge_None_2; [done| |]; rewrite ?length_seqZ, ?length_take; lia.
Qed.

(** The chain of a file: [l] from [c] on, up to an end mark; no clusters, no chain. *)
Definition whole_chain (f : Z -> Z) (mcl c : Z) (l : list Z) : Prop :=
  (l = [] /\ c = 0) \/ (l <> [] /\ exists e, path f mcl c l e /\ mcl <= e).

Lemma path_lookup f mcl c l e i x : path f mcl c l e -> l !! i = Some x ->
  2 <= x < mcl /\ (i = 0%nat -> x = c) /\ f x = default e (l !! S i).
Proof.
  intros Hp. revert i. induction Hp as [c|c l e Hc Hf Hp IH]; intros i Hi; [done|].
  destruct i as [|i]; simpl in *.
  - injection Hi as <-. split; [done|]. split; [done|].
    inversion Hp; subst; done.
  - destruct (IH i Hi) as (H1 & _ & H3). done.
Qed.

Lemma whole_chain_first f mcl c l x : whole_chain f mcl c l -> l !! 0%nat = Some x -> x = c.
Proof.
  intros [[-> _]|(_ & e & Hp & _)] Hx; [done|].
  by apply (path_lookup _ _ _ _ _ _ _ Hp Hx).
Qed.

Lemma whole_chain_next f mcl c l i x y : whole_chain f mcl c l ->
  l !! i = Some x -> l !! S i = Some y -> f x = y.
Proof.
  intros [[-> _]|(_ & e & Hp & _)] Hx Hy; [done|].
  destruct (path_lookup _ _ _ _ _ _ _ Hp Hx) as (_ & _ & E). by rewrite Hy in E.
Qed.

Lemma whole_chain_range f mcl c l i x : whole_chain f mcl c l ->
  l !! i = Some x -> 2 <= x < mcl.
Proof.
  intros [[-> _]|(_ & e & Hp & _)] Hx; [done|].
  by apply (path_lookup _ _ _ _ _ _ _ Hp Hx).
Qed.

Section Data.
Context {D : Type} `{WorkingDisk D}.
Implicit Types w : fworld D.

(** What the chain [l] holds. *)
Definition file_data w (l : list Z) : list Z := joined (vsector w) (chain_sects (fs w) l).

Lemma vsector_length w t : volume_ok w -> length (vsector w t) = 512%nat.
Proof. intros Hv. by apply vsector_ok. Qed.

(** The sectors of a cluster are on the drive, outside of the FAT. *)
Lemma data_sector w c j : volume_ok w -> data_area (fs w) (sectors (dsk w)) ->
  clusters w c -> 0 <= j < csize (fs w) ->
  let t := first_sect (fs w) c + j in
  primary (fs w) t /\ ~ fat1 (fs w) t /\ 0 < t < sectors (dsk w).
Proof.
  intros [[] _ _ _ _ _ _] [] Hc Hj t. unfold t, clusters, primary, behind, fat1, first_sect in *.
  assert (0 <= (c - 2) * csize (fs w)) by (apply Z.mul_nonneg_nonneg; lia).
  assert ((c - 2) * csize (fs w) <= (max_clust (fs w) - 3) * csize (fs w))
    by (apply Z.mul_le_mono_nonneg_r; lia).
  assert (1 * sects_fat (fs w) <= n_fats (fs w) * sects_fat (fs w))
    by (apply Z.mul_le_mono_nonneg_r; lia).
  split; [right|]; lia.
Qed.

Lemma clust2sect_run w c : volume_ok w -> data_area (fs w) (sectors (dsk w)) ->
  clusters w c -> clust2sect c w = Ok (first_sect (fs w) c, w) /\ first_sect (fs w) c <> 0.
Proof.
  intros Hv Hd Hc. destruct (data_sector w c 0 Hv Hd Hc) as (_ & _ & Ht);
    [destruct Hd; lia|]. rewrite Z.add_0_r in Ht. destruct Hv as [[] _ _ _ _ _ _].
  unfold clusters in Hc. split; [|lia]. unfold clust2sect, fget.
  rewrite (bind_ok _ _ _ (fs w) w eq_refl).
  assert (type_mask (fs_type (fs w)) < 4294967295) by (unfold type_mask; repeat case_match; lia).
  assert (u32 (c - 2) = c - 2) as -> by (apply Z.mod_small; lia).
  assert (u32 (max_clust (fs w) - 2) = max_clust (fs w) - 2) as -> by (apply Z.mod_small; lia).
  assert (u32 ((c - 2) * csize (fs w) + database (fs w)) = first_sect (fs w) c) as ->
    by (unfold u32; rewrite Z.mod_small; unfold first_sect in *; lia).
  by destruct (Z.leb_spec (max_clust (fs w) - 2) (c - 2)); [lia|].
Qed.

Lemma same_file_data w w' l : volume_ok w -> data_area (fs w) (sectors (dsk w)) ->
  same_volume w w' -> Forall (clusters w) l -> file_data w' l = file_data w l.
Proof.
  intros Hv Hd Hs Hl. unfold file_data, joined. f_equal.
  destruct (geo_inv _ _ (sv_geo _ _ Hs)) as (_ & _ & _ & _ & _ & _ & Ecs & Edb & _).
  unfold chain_sects, first_sect. rewrite Ecs, Edb.
  apply list_fmap_ext. intros i t Ht%list_elem_of_lookup_2.
  apply list_elem_of_bind in Ht as (c & Ht & Hc). apply elem_of_seqZ in Ht.
  rewrite Forall_forall in Hl.
  apply (sv_view _ _ Hs). replace t with (first_sect (fs w) c + (t - first_sect (fs w) c)) by lia.
  unfold first_sect in *. apply data_sector; auto; lia.
Qed.
End Data.
