(* ===== verification/FatFile.v ===== *)
(** * FatFs: open files

    [f_read], [f_write], [f_lseek], [f_sync] and [f_close] of ff.c on a file object and the
    volume it was opened on. *)

From S2P Require Import Prelude Fat.

(** A file object; [fil_fs] is its pointer to the volume, an index in the table of volume
    objects, [dir_ptr] the offset of the directory entry in the window. *)
Record FIL : Type := mk_fil {
  fil_fs : option nat;
  fil_id : Z;
  flag : Z;
  csect : Z;
  fptr : Z;
  fsize : Z;
  org_clust : Z;
  curr_clust : Z;
  dsect : Z;
  dir_sect : Z;
  dir_ptr : Z
}.
#[export] Instance eta_fil : Settable FIL :=
  fun f => mk_fil (fil_fs f) (fil_id f) (flag f) (csect f) (fptr f) (fsize f) (org_clust f)
    (curr_clust f) (dsect f) (dir_sect f) (dir_ptr f).

Record file_world (D : Type) : Type := mk_file_world { fil : FIL; vol : fworld D }.
Arguments mk_file_world {D}. Arguments fil {D}. Arguments vol {D}.
#[export] Instance eta_file_world D : Settable (file_world D) :=
  fun w => mk_file_world (fil w) (vol w).
#[export] Instance lens_vol D : Lens (fworld D) (file_world D) :=
  {| view := vol; put v w := w{{ vol := v }} |}.

Section File.
Context {D : Type} `{Disk D}.
#[local] Abbreviation F := (M (fworld D)).
#[local] Abbreviation FW := (M (file_world D)).

Definition fil_get {A} (f : FIL -> A) : FW A := gets (fun w => f (fil w)).
Definition fil_set (f : FIL -> FIL) : FW unit := modify (fun w => w{{ fil := f (fil w) }}).
Definition vol_get {A} (f : FATFS -> A) : FW A := gets (fun w => f (fs (vol w))).

Definition is_err (r : FRESULT) : bool := negb (is_ok r).

Definition validate (mounted : bool) (fid : Z) : F FRESULT :=
  s ← fget id;
  if negb mounted || (fs_type s =? 0) || negb (fs_id s =? fid) then mret FR_INVALID_OBJECT
  else
    st ← gets (fun w => disk_status (dsk w));
    mret (if negb (Z.land st STA_NOINIT =? 0) then FR_NOT_READY else FR_OK).

Definition validate_fil : FW FRESULT :=
  f ← fil_get id; zoom (validate (bool_decide (is_Some (fil_fs f))) (fil_id f)).

(** The error flag of the file is set. *)
Definition abort : FW unit := fil_set (fun f => f{{ flag := Z.lor (flag f) FA__ERROR }}).

(** [curr_clust] is the cluster [clst], unless that is an error. *)
Definition enter_cluster (clst : Z) : FW FRESULT :=
  if clst <=? 1 then mret FR_INT_ERR
  else if clst =? 0xFFFFFFFF then mret FR_DISK_ERR
  else fil_set (fun f => f{{ curr_clust := clst; csect := 0 }}) ;; mret FR_OK.

(** The sector at the file pointer, if the cluster is on the volume. *)
Definition current_sect : FW (option Z) :=
  f ← fil_get id;
  sect ← zoom (clust2sect (curr_clust f));
  mret (if sect =? 0 then None else Some (u32 (sect + csect f))).

(** ** Reading *)

Definition next_read : FW FRESULT :=
  f ← fil_get id; s ← vol_get id;
  if negb (csize s <=? csect f) then mret FR_OK
  else
    clst ← (if fptr f =? 0 then mret (org_clust f) else zoom (get_fat (curr_clust f)));
    enter_cluster clst.

(** [cc] sectors go into the caller's buffer; a dirty one comes from the window. *)
Definition read_direct (sect cc : Z) : FW (bool * list Z) :=
  r ← zoom (dsk_op (disk_read sect (u8 cc)));
  if negb (fst r) then mret (false, [])
  else
    s ← vol_get id;
    let k := u32 (winsect s - sect) in
    data ← (if negb (wflag s =? 0) && (k <? cc) then mem_cpy (snd r) (k * SS) (win s)
            else mret (snd r));
    mret (true, data).

(** The number of bytes to the end of the sector, at most [n]. *)
Definition partial_count (n : Z) : FW Z :=
  f ← fil_get id;
  let cnt := SS - fptr f mod SS in
  mret (if n <? cnt then n else cnt).

(** What a turn of the loops transfers: an error, or the number of bytes and the bytes. *)
Definition turn : Type := FRESULT + Z * list Z.

Definition read_partial (btr : Z) : FW turn :=
  rcnt ← partial_count btr;
  f ← fil_get id;
  r ← zoom (move_window (dsect f));
  if is_err r then mret (inl FR_DISK_ERR)
  else
    l ← vol_get win;
    data ← mem_get l (fptr f mod SS) rcnt;
    mret (inr (rcnt, data)).

(** A direct transfer stops at the end of the cluster. *)
Definition clip_count (n : Z) : FW Z :=
  s ← vol_get id; f ← fil_get id;
  mret (if csize s <? csect f + n then csize s - csect f else n).

(** Whole sectors directly, or a piece of one through the window. *)
Definition read_at (sect btr : Z) : FW turn :=
  let cc := btr / SS in
  if negb (cc =? 0) then
    cc ← clip_count cc;
    r ← read_direct sect cc;
    if negb (fst r) then mret (inl FR_DISK_ERR)
    else
      fil_set (fun f => f{{ csect := u8 (csect f + u8 cc) }}) ;;
      mret (inr (SS * cc, snd r))
  else
    fil_set (fun f => f{{ dsect := sect; csect := u8 (csect f + 1) }}) ;;
    read_partial btr.

Definition read_turn (btr : Z) : FW turn :=
  f ← fil_get id;
  if negb (fptr f mod SS =? 0) then read_partial btr
  else
    r ← next_read;
    if is_err r then mret (inl r)
    else
      o ← current_sect;
      match o with
      | None => mret (inl FR_INT_ERR)
      | Some sect => read_at sect btr
      end.

(** The loop; [out] are the bytes read so far, and [btr] bytes remain. *)
Definition read_body (p : Z * list Z) : FW (ctl (Z * list Z) (FRESULT * list Z)) :=
  let '(btr, out) := p in
  if btr =? 0 then mret (Break (FR_OK, out))
  else
    t ← read_turn btr;
    match t with
    | inl r => abort ;; mret (Break (r, out))
    | inr (rcnt, data) =>
        fil_set (fun f => f{{ fptr := u32 (fptr f + rcnt) }}) ;;
        mret (Continue (btr - rcnt, out ++ data))
    end.

(** The result and the bytes in the buffer, whose number is [*br]. *)
Definition f_read (turns : nat) (btr : Z) : FW (FRESULT * list Z) :=
  res ← validate_fil;
  if is_err res then mret (res, [])
  else
    f ← fil_get id;
    if negb (Z.land (flag f) FA__ERROR =? 0) then mret (FR_INT_ERR, [])
    else if Z.land (flag f) FA_READ =? 0 then mret (FR_DENIED, [])
    else
      let remain := u32 (fsize f - fptr f) in
      let btr := if remain <? btr then remain else btr in
      while turns read_body (btr, []).

(** ** Writing *)

Definition next_write (fuel : nat) : FW FRESULT :=
  f ← fil_get id; s ← vol_get id;
  if negb (csize s <=? csect f) then mret FR_OK
  else
    clst ← (if fptr f =? 0 then
              if org_clust f =? 0 then
                c ← zoom (create_chain fuel 0);
                fil_set (fun f => f{{ org_clust := c }}) ;; mret c
              else mret (org_clust f)
            else zoom (create_chain fuel (curr_clust f)));
    if clst =? 0 then mret FR_DENIED
    else enter_cluster clst.

(** [cc] sectors from the caller's buffer; the window holds what was written. *)
Definition write_direct (sect cc : Z) (wbuff : list Z) : FW bool :=
  data ← mem_get wbuff 0 (SS * cc);
  ok ← zoom (dsk_op (disk_write data sect));
  if negb ok then mret false
  else
    s ← vol_get id;
    let k := u32 (winsect s - sect) in
    when (k <? cc)
      (l ← mem_get wbuff (k * SS) SS;
       zoom (fset (fun s => s{{ win := l; wflag := 0 }}))) ;;
    mret true.

Definition write_partial (btw : Z) (wbuff : list Z) : FW turn :=
  wcnt ← partial_count btw;
  f ← fil_get id;
  r ← zoom (move_window (dsect f));
  if is_err r then mret (inl FR_DISK_ERR)
  else
    data ← mem_get wbuff 0 wcnt;
    l ← vol_get win;
    l ← mem_cpy l (fptr f mod SS) data;
    zoom (fset (fun s => s{{ win := l; wflag := 1 }})) ;;
    mret (inr (wcnt, data)).

(** The window held the data of the file: written back before a direct transfer. *)
Definition flush_data : FW bool :=
  f ← fil_get id; s ← vol_get id;
  if winsect s =? dsect f then r ← zoom (move_window 0); mret (is_ok r) else mret true.

(** At the growing edge the sector is not read. *)
Definition grow_window (sect : Z) : FW bool :=
  f ← fil_get id;
  if fptr f <? fsize f then mret true
  else
    r ← zoom (move_window 0);
    if is_err r then mret false
    else zoom (fset (fun s => s{{ winsect := sect }})) ;; mret true.

Definition write_at (sect btw : Z) (wbuff : list Z) : FW turn :=
  let cc := btw / SS in
  if negb (cc =? 0) then
    cc ← clip_count cc;
    ok ← write_direct sect cc wbuff;
    if negb ok then mret (inl FR_DISK_ERR)
    else
      fil_set (fun f => f{{ csect := u8 (csect f + u8 cc) }}) ;;
      mret (inr (SS * cc, []))
  else
    ok ← grow_window sect;
    if negb ok then mret (inl FR_DISK_ERR)
    else
      fil_set (fun f => f{{ dsect := sect; csect := u8 (csect f + 1) }}) ;;
      write_partial btw wbuff.

(** [FR_DENIED] stands for a full volume, which ends the loop without an error. *)
Definition write_turn (fuel : nat) (btw : Z) (wbuff : list Z) : FW turn :=
  f ← fil_get id;
  if negb (fptr f mod SS =? 0) then write_partial btw wbuff
  else
    r ← next_write fuel;
    if is_err r then mret (inl r)
    else
      ok ← flush_data;
      if negb ok then mret (inl FR_DISK_ERR)
      else
        o ← current_sect;
        match o with
        | None => mret (inl FR_INT_ERR)
        | Some sect => write_at sect btw wbuff
        end.

(** The loop: [btw] bytes of [wbuff] remain, [bw] are written. *)
Definition write_body (fuel : nat) (p : Z * Z * list Z)
    : FW (ctl (Z * Z * list Z) (FRESULT * Z)) :=
  let '(btw, bw, wbuff) := p in
  if btw =? 0 then mret (Break (FR_OK, bw))
  else
    t ← write_turn fuel btw wbuff;
    match t with
    | inl FR_DENIED => mret (Break (FR_OK, bw))
    | inl r => abort ;; mret (Break (r, bw))
    | inr (wcnt, _) =>
        fil_set (fun f => f{{ fptr := u32 (fptr f + wcnt) }}) ;;
        mret (Continue (btw - wcnt, bw + wcnt, drop (Z.to_nat wcnt) wbuff))
    end.

(** The file's size follows the pointer, unless the loop was aborted. *)
Definition f_write (turns fuel : nat) (buff : list Z) (btw : Z) : FW (FRESULT * Z) :=
  res ← validate_fil;
  if is_err res then mret (res, 0)
  else
    f ← fil_get id;
    if negb (Z.land (flag f) FA__ERROR =? 0) then mret (FR_INT_ERR, 0)
    else if Z.land (flag f) FA_WRITE =? 0 then mret (FR_DENIED, 0)
    else
      let btw := if u32 (fsize f + btw) <? fsize f then 0 else btw in
      r ← while turns (write_body fuel) (btw, 0, buff);
      if is_err (fst r) then mret r
      else
        fil_set (fun f => f{{ fsize := if fsize f <? fptr f then fptr f else fsize f;
                              flag := Z.lor (flag f) FA__WRITTEN }}) ;;
        mret r.

(** ** Synchronizing and closing *)

(** The directory entry, in the window at the file's [dir_ptr]. *)
Definition update_entry (f : FIL) : F unit :=
  a ← win_get (dir_ptr f + DIR_Attr);
  win_set (dir_ptr f + DIR_Attr) (Z.lor a AM_ARC) ;;
  ST_DWORD (dir_ptr f + DIR_FileSize) (fsize f) ;;
  ST_WORD (dir_ptr f + DIR_FstClusLO) (org_clust f) ;;
  ST_WORD (dir_ptr f + DIR_FstClusHI) (Z.shiftr (org_clust f) 16) ;;
  tim ← gets fattime;
  ST_DWORD (dir_ptr f + DIR_WrtTime) tim.

Definition f_sync : FW FRESULT :=
  res ← validate_fil;
  f ← fil_get id;
  if is_err res || (Z.land (flag f) FA__WRITTEN =? 0) then mret res
  else
    res ← zoom (move_window (dir_sect f));
    if is_err res then mret res
    else
      zoom (update_entry f) ;;
      fil_set (fun f => f{{ flag := Z.land (flag f) (Z.lnot FA__WRITTEN) }}) ;;
      zoom (fset (fun s => s{{ wflag := 1 }})) ;;
      zoom sync.

Definition f_close : FW FRESULT :=
  res ← f_sync;
  when (is_ok res) (fil_set (fun f => f{{ fil_fs := None }})) ;;
  mret res.

(** ** Seeking *)

(** [while (ofs > bcs)]: the offset that is left in the cluster [clst], or an error. *)
Definition seek_body (fuel : nat) (bcs : Z) (p : Z * Z)
    : FW (ctl (Z * Z) (FRESULT + Z * Z)) :=
  let '(ofs, clst) := p in
  if ofs <=? bcs then mret (Break (inr (ofs, clst)))
  else
    f ← fil_get id;
    let write := negb (Z.land (flag f) FA_WRITE =? 0) in
    clst ← zoom (if write then create_chain fuel clst else get_fat clst);
    s ← vol_get id;
    if write && (clst =? 0) then mret (Break (inr (bcs, clst)))
    else if clst =? 0xFFFFFFFF then mret (Break (inl FR_DISK_ERR))
    else if (clst <=? 1) || (max_clust s <=? clst) then mret (Break (inl FR_INT_ERR))
    else
      fil_set (fun f => f{{ curr_clust := clst; fptr := u32 (fptr f + bcs) }}) ;;
      mret (Continue (ofs - bcs, clst)).

(** The cluster the search starts in and the offset from there; the new position is
    relative to the old one when it is not before the cluster of the old one. *)
Definition seek_start (fuel : nat) (ifptr ofs bcs : Z) : FW (FRESULT + Z * Z) :=
  f ← fil_get id;
  guard ((ifptr <=? 0) || negb (bcs =? 0)) DivByZero ;;
  if (0 <? ifptr) && ((ifptr - 1) / bcs <=? (ofs - 1) / bcs) then
    let base := Z.land (ifptr - 1) (u32 (Z.lnot (bcs - 1))) in
    fil_set (fun f => f{{ fptr := base }}) ;;
    mret (inr (u32 (ofs - base), curr_clust f))
  else if org_clust f =? 0 then
    clst ← zoom (create_chain fuel 0);
    if clst =? 1 then mret (inl FR_INT_ERR)
    else if clst =? 0xFFFFFFFF then mret (inl FR_DISK_ERR)
    else
      fil_set (fun f => f{{ org_clust := clst; curr_clust := clst }}) ;;
      mret (inr (ofs, clst))
  else
    fil_set (fun f => f{{ curr_clust := org_clust f }}) ;;
    mret (inr (ofs, org_clust f)).

(** The position in the last cluster; the result is the sector that holds it, if any. *)
Definition seek_end (ofs clst : Z) : FW (FRESULT + Z) :=
  fil_set (fun f => f{{ fptr := u32 (fptr f + ofs); csect := u8 (ofs / SS) }}) ;;
  if ofs mod SS =? 0 then mret (inr 0)
  else
    nsect ← zoom (clust2sect clst);
    if nsect =? 0 then mret (inl FR_INT_ERR)
    else
      f ← fil_get id;
      fil_set (fun f => f{{ csect := u8 (csect f + 1) }}) ;;
      mret (inr (u32 (nsect + csect f))).

(** From the top of the file or of a cluster to the offset. *)
Definition seek_to (turns fuel : nat) (ifptr ofs : Z) : FW (FRESULT + Z) :=
  s ← vol_get id;
  let bcs := csize s * SS in
  r ← seek_start fuel ifptr ofs bcs;
  match r with
  | inl e => mret (inl e)
  | inr (ofs, clst) =>
      if clst =? 0 then mret (inr 0)
      else
        r ← while turns (seek_body fuel bcs) (ofs, clst);
        match r with
        | inl e => mret (inl e)
        | inr (ofs, clst) => seek_end ofs clst
        end
  end.

Definition f_lseek (turns fuel : nat) (ofs : Z) : FW FRESULT :=
  res ← validate_fil;
  if is_err res then mret res
  else
    f ← fil_get id;
    if negb (Z.land (flag f) FA__ERROR =? 0) then mret FR_INT_ERR
    else
      let ofs := if (fsize f <? ofs) && (Z.land (flag f) FA_WRITE =? 0) then fsize f else ofs in
      fil_set (fun f => f{{ fptr := 0; csect := 255 }}) ;;
      r ← (if 0 <? ofs then seek_to turns fuel (fptr f) ofs else mret (inr 0));
      match r with
      | inl e => abort ;; mret e
      | inr nsect =>
          fil_set (fun f =>
            if negb (fptr f mod SS =? 0) && negb (nsect =? dsect f) then f{{ dsect := nsect }}
            else f) ;;
          fil_set (fun f => if fsize f <? fptr f
            then f{{ fsize := fptr f; flag := Z.lor (flag f) FA__WRITTEN }} else f) ;;
          mret FR_OK
      end.
End File.
