(* ===== verification/FatReadFacts.v ===== *)
(** * Reading files

    [f_read] returns the bytes of the file at its pointer: the data of the chain of
    clusters, whichever part of it is in the window and however the transfer is split in
    whole sectors and pieces. *)

From S2P Require Import Prelude Fat FatTable FatFacts FatChain FatData FatFile.

(** Counting up in base [n]. *)
Lemma count_up n k : 0 < n ->
  (k mod n + 1 < n /\ (k + 1) / n = k / n /\ (k + 1) mod n = k mod n + 1) \/
  (k mod n + 1 = n /\ (k + 1) / n = k / n + 1 /\ (k + 1) mod n = 0).
Proof.
  intros Hn. pose proof (Z.div_mod k n ltac:(lia)) as E. pose proof (Z.mod_pos_bound k n Hn).
  destruct (decide (k mod n + 1 < n)); [left|right]; (split; [lia|]); split.
  - symmetry. apply (Z.div_unique _ _ _ (k mod n + 1)); lia.
  - symmetry. apply (Z.mod_unique _ _ (k / n)); lia.
  - symmetry. apply (Z.div_unique _ _ _ 0); lia.
  - symmetry. apply (Z.mod_unique _ _ (k / n + 1)); lia.
Qed.

Lemma count_bound n k m : 0 < n -> 0 <= k -> k < n * Z.of_nat m -> (Z.to_nat (k / n) < m)%nat.
Proof.
  intros Hn Hk Hm. assert (k / n < Z.of_nat m) by (by apply Z.div_lt_upper_bound).
  assert (0 <= k / n) by (by apply Z.div_pos). lia.
Qed.

Section Read.
Context {D : Type} `{WorkingDisk D}.
Implicit Types v : fworld D.

(** ** The position of a file object in its chain *)

Definition capacity v (l : list Z) : Z := 512 * (csize (fs v) * Z.of_nat (length l)).

(** Sector [k] of the file is sector [csect] of the cluster [curr_clust]. *)
Definition at_sector v (l : list Z) (f : FIL) (k : Z) : Prop :=
  l !! Z.to_nat (k / csize (fs v)) = Some (curr_clust f) /\ csect f = k mod csize (fs v).

Definition back (f : FIL) : FIL := f{{ csect := csect f - 1 }}.

(** Between calls, [csect] is one further: the pointer is behind byte [fptr - 1]. *)
Record positioned v (l : list Z) (f : FIL) : Prop := {
  p_chain : whole_chain (entry v) (max_clust (fs v)) (org_clust f) l;
  p_ptr : 0 <= fptr f < 4294967296;
  p_top : fptr f = 0 -> csize (fs v) <= csect f;
  p_mid : 0 < fptr f -> at_sector v l (back f) ((fptr f - 1) / 512);
  p_sect : fptr f mod 512 <> 0 -> dsect f = first_sect (fs v) (curr_clust f) + csect f - 1
}.

(** What a transfer does not change. *)
Definition fixed (f : FIL) :=
  (fil_fs f, fil_id f, flag f, fptr f, fsize f, org_clust f, dir_sect f, dir_ptr f).

(** The volume and the drive are those of a sound volume. *)
Definition sound v : Prop := volume_ok v /\ data_area (fs v) (sectors (dsk v)).

Lemma sound_geo v v' : sound v -> volume_ok v' -> geo (fs v') = geo (fs v) ->
  sectors (dsk v') = sectors (dsk v) -> sound v'.
Proof.
  intros [Hv []] Hv' Hg Hs. split; [done|].
  destruct (geo_inv _ _ Hg) as (_ & E1 & E2 & E3 & E4 & _ & E5 & E6 & _).
  constructor; unfold behind, first_sect in *; rewrite ?Hs; congruence.
Qed.

Lemma sound_same v v' : sound v -> same_volume v v' -> sound v'.
Proof. intros Hs []. by apply (sound_geo v). Qed.

Lemma chain_same v v' c l : sound v -> same_volume v v' ->
  whole_chain (entry v) (max_clust (fs v)) c l -> whole_chain (entry v') (max_clust (fs v')) c l.
Proof.
  intros [Hv _] Hs. destruct (geo_inv _ _ (sv_geo _ _ Hs)) as (_ & _ & _ & -> & _).
  intros [?|(Hne & e & Hp & He)]; [by left|right]. split; [done|]. exists e. split; [|done].
  clear Hne He. induction Hp as [c|c l e Hc Hf Hp IH]; [by apply path_end|].
  assert (entry v' c = entry v c) as E by (by apply same_entry).
  apply path_link; [done|by rewrite E|by rewrite E].
Qed.

(** Sector [k] of the file, on the drive. *)
Lemma at_sector_sect v l f k : sound v ->
  whole_chain (entry v) (max_clust (fs v)) (org_clust f) l -> at_sector v l f k -> 0 <= k ->
  clusters v (curr_clust f) /\
  chain_sects (fs v) l !! Z.to_nat k = Some (first_sect (fs v) (curr_clust f) + csect f) /\
  0 <= csect f < csize (fs v) /\ k < csize (fs v) * Z.of_nat (length l).
Proof.
  intros [Hv []] Hc [Hl Ec] Hk. pose proof (whole_chain_range _ _ _ _ _ _ Hc Hl) as Hr.
  pose proof (Z.mod_pos_bound k (csize (fs v)) ltac:(lia)) as Hb.
  pose proof (Z.div_mod k (csize (fs v)) ltac:(lia)) as Ed.
  assert (0 <= k / csize (fs v)) by (apply Z.div_pos; lia).
  split; [done|]. split; [|split; [lia|]].
  - rewrite Ec, <- (chain_sects_lookup _ l (Z.to_nat (k / csize (fs v)))); [|lia|done|done].
    f_equal. rewrite <- Z2Nat.inj_mul, <- Z2Nat.inj_add by lia. f_equal. lia.
  - apply lookup_lt_Some in Hl.
    assert (k / csize (fs v) + 1 <= Z.of_nat (length l)) as Hle by lia.
    apply (Z.mul_le_mono_nonneg_l _ _ (csize (fs v))) in Hle; lia.
Qed.

(** An operation of the volume. *)
Lemma vol_run {A} (m : M (fworld D) A) f v a v' : m v = Ok (a, v') ->
  zoom m (mk_file_world f v) = Ok (a, mk_file_world f v').
Proof. intros E. by rewrite (zoom_ok m _ a v'). Qed.

Lemma fil_run f v : fil_get id (mk_file_world f v) = Ok (f, mk_file_world f v).
Proof. done. Qed.
Lemma fs_run f v : vol_get id (mk_file_world f v) = Ok (fs v, mk_file_world f v).
Proof. done. Qed.

Lemma enter_cluster_run f v c : clusters v c -> sound v ->
  enter_cluster c (mk_file_world f v) =
  Ok (FR_OK, mk_file_world (f{{ curr_clust := c; csect := 0 }}) v).
Proof.
  intros Hc [Hv _]. pose proof (g_clust _ _ (v_geo _ Hv)). unfold clusters in Hc.
  assert (type_mask (fs_type (fs v)) < 4294967295) by (unfold type_mask; repeat case_match; lia).
  unfold enter_cluster.
  by destruct (Z.leb_spec c 1), (Z.eqb_spec c 0xFFFFFFFF); try lia.
Qed.

(** At a sector boundary: the next sector, in the same cluster or in the next one. *)
Lemma next_read_spec v l f : sound v -> positioned v l f ->
  fptr f mod 512 = 0 -> fptr f < capacity v l ->
  exists f' v', next_read (mk_file_world f v) = Ok (FR_OK, mk_file_world f' v') /\
    same_volume v v' /\ fixed f' = fixed f /\ dsect f' = dsect f /\
    at_sector v l f' (fptr f / 512).
Proof.
  intros Hs [Hc Hp Htop Hmid _] Hb Hcap. pose proof Hs as [Hv Hd].
  pose proof (da_csize _ _ Hd) as Hcs. unfold capacity in Hcap.
  set (k := fptr f / 512) in *.
  assert (0 <= k /\ fptr f = 512 * k) as [Hk Ek] by (unfold k; lia).
  assert (Z.to_nat (k / csize (fs v)) < length l)%nat as Hlt by (apply count_bound; lia).
  destruct (lookup_lt_is_Some_2 l _ Hlt) as [c Hlc].
  pose proof (whole_chain_range _ _ _ _ _ _ Hc Hlc) as Hcr.
  destruct (decide (fptr f = 0)) as [E0|E0].
  - assert (k = 0) as Hk0 by lia. rewrite Hk0, Z.div_0_l in Hlc by lia.
    pose proof (whole_chain_first _ _ _ _ _ Hc Hlc) as ->.
    exists (f{{ curr_clust := org_clust f; csect := 0 }}), v.
    split; [|split; [by apply same_volume_refl|split; [done|split; [done|]]]].
    + unfold next_read. rewrite (bind_ok _ _ _ _ _ (fil_run f v)).
      rewrite (bind_ok _ _ _ _ _ (fs_run f v)).
      destruct (Z.leb_spec (csize (fs v)) (csect f)); [|specialize (Htop E0); lia].
      rewrite E0. cbn [negb Z.eqb].
      rewrite (bind_ok (mret (org_clust f)) _ _ _ (mk_file_world f v) eq_refl).
      by apply enter_cluster_run.
    + rewrite Hk0. unfold at_sector. simpl. rewrite Z.div_0_l, Z.mod_0_l by lia. done.
  - destruct (Hmid ltac:(lia)) as [Hl Ec]. simpl in Hl, Ec.
    replace ((fptr f - 1) / 512) with (k - 1) in * by lia.
    destruct (count_up (csize (fs v)) (k - 1)) as [(H1 & H2 & H3)|(H1 & H2 & H3)]; [lia| |];
      replace (k - 1 + 1) with k in * by lia.
    + exists f, v. split; [|split; [by apply same_volume_refl|split; [done|split; [done|]]]].
      * unfold next_read. rewrite (bind_ok _ _ _ _ _ (fil_run f v)).
        rewrite (bind_ok _ _ _ _ _ (fs_run f v)).
        by destruct (Z.leb_spec (csize (fs v)) (csect f)); [lia|].
      * split; [by rewrite H2|lia].
    + assert (clusters v (curr_clust f)) as Hcc by (by apply (whole_chain_range _ _ _ _ _ _ Hc Hl)).
      destruct (get_fat_spec v (curr_clust f) Hv Hcc) as (v' & E & Hsv).
      assert (0 <= (k - 1) / csize (fs v)) by (apply Z.div_pos; lia).
      assert (entry v (curr_clust f) = c) as Een.
      { apply (whole_chain_next _ _ _ _ _ _ _ Hc Hl). rewrite <- Hlc, H2. f_equal. lia. }
      destruct (geo_inv _ _ (sv_geo _ _ Hsv)) as (_ & _ & _ & Emc & _).
      exists (f{{ curr_clust := c; csect := 0 }}), v'.
      split; [|split; [done|split; [done|split; [done|]]]].
      * unfold next_read. rewrite (bind_ok _ _ _ _ _ (fil_run f v)).
        rewrite (bind_ok _ _ _ _ _ (fs_run f v)).
        destruct (Z.leb_spec (csize (fs v)) (csect f)); [|lia].
        destruct (Z.eqb_spec (fptr f) 0); [done|]. cbn [negb].
        rewrite (bind_ok _ _ _ (entry v (curr_clust f)) (mk_file_world f v')) by (by apply vol_run).
        rewrite Een. apply enter_cluster_run; [unfold clusters; lia|by apply (sound_same v)].
      * split; simpl; [done|lia].
Qed.

(** ** The transfers *)

Lemma partial_count_run n f v : 0 < n ->
  exists m, partial_count n (mk_file_world f v) = Ok (m, mk_file_world f v) /\
    0 < m <= n /\ fptr f mod 512 + m <= 512.
Proof.
  intros Hn. unfold partial_count. rewrite (bind_ok _ _ _ _ _ (fil_run f v)). unfold SS.
  eexists. split; [reflexivity|]. destruct (Z.ltb_spec n (512 - fptr f mod 512)); lia.
Qed.

(** The window as a source of bytes. *)
Lemma mem_get_run {W} (l : list Z) p n (w : W) : 0 <= p -> 0 <= n ->
  p + n <= Z.of_nat (length l) ->
  mem_get l p n w = Ok (take (Z.to_nat n) (drop (Z.to_nat p) l), w).
Proof.
  intros. unfold mem_get.
  by destruct (Z.ltb_spec p 0), (Z.ltb_spec n 0), (Z.ltb_spec (Z.of_nat (length l)) (p + n)); try lia.
Qed.

Lemma read_partial_spec v f btr t : sound v -> 0 < btr -> dsect f = t ->
  primary (fs v) t -> 0 < t < sectors (dsk v) ->
  exists m v', read_partial btr (mk_file_world f v) =
    Ok (inr (m, take (Z.to_nat m) (drop (Z.to_nat (fptr f mod 512)) (vsector v t))),
        mk_file_world f v') /\
    0 < m <= btr /\ fptr f mod 512 + m <= 512 /\ same_volume v v'.
Proof.
  intros [Hv _] Hb Et Hpr Ht.
  destruct (partial_count_run btr f v Hb) as (m & Em & Hm & Hm').
  destruct (move_window_spec v t Hv Ht Hpr) as (v' & E & Hs & _ & Ew).
  exists m, v'. split; [|done]. unfold read_partial.
  rewrite (bind_ok _ _ _ _ _ Em), (bind_ok _ _ _ _ _ (fil_run f v)), Et.
  rewrite (bind_ok _ _ _ FR_OK (mk_file_world f v')) by (by apply vol_run).
  cbn [is_err is_ok negb].
  rewrite (bind_ok (vol_get win) _ _ (vsector v t) (mk_file_world f v'))
    by (unfold vol_get, gets; simpl; by rewrite Ew).
  unfold SS. erewrite bind_ok; [reflexivity|].
  apply mem_get_run; [lia|lia|]. rewrite vsector_length by done. lia.
Qed.


(** A dirty sector among those read is found, and no other. *)
Lemma window_offset v t cc : volume_ok v -> 0 <= t -> 0 <= cc -> t + cc <= sectors (dsk v) ->
  (u32 (winsect (fs v) - t) <? cc) = (t <=? winsect (fs v)) && (winsect (fs v) <? t + cc) /\
  (t <= winsect (fs v) < t + cc -> u32 (winsect (fs v) - t) = winsect (fs v) - t).
Proof.
  intros [[] _ _ Hr _ _ _] Ht Hc Hs. unfold u32.
  destruct (Z.leb_spec t (winsect (fs v))).
  - rewrite Z.mod_small by lia. split; [|done].
    destruct (Z.ltb_spec (winsect (fs v) - t) cc), (Z.ltb_spec (winsect (fs v)) (t + cc)); try lia; done.
  - split; [|lia]. simpl. apply Z.ltb_ge.
    rewrite <- (Z.mod_unique (winsect (fs v) - t) 4294967296 (-1) (winsect (fs v) - t + 4294967296)); lia.
Qed.

Lemma read_direct_spec v f t cc : sound v -> 0 < cc <= 128 ->
  (forall j, 0 <= j < cc -> primary (fs v) (t + j) /\ 0 < t + j < sectors (dsk v)) ->
  exists v', read_direct t cc (mk_file_world f v) =
    Ok ((true, joined (vsector v) (seqZ t cc)), mk_file_world f v') /\ same_volume v v'.
Proof.
  intros [Hv _] Hc Ht. pose proof (Ht 0 ltac:(lia)) as [_ Ht0].
  pose proof (Ht (cc - 1) ltac:(lia)) as [_ Ht1].
  destruct (read_works (dsk v) t cc) as (d' & E & Es & Ec); [lia..|].
  exists (mk_fworld (fs v) d' (fattime v)). split; [|by apply same_disk].
  unfold read_direct. assert (u8 cc = cc) as -> by (unfold u8; lia).
  rewrite (bind_ok _ _ _ (true, image contents (dsk v) t cc)
    (mk_file_world f (mk_fworld (fs v) d' (fattime v))))
    by (apply vol_run; unfold dsk_op; by rewrite E).
  cbn [fst snd negb]. rewrite (bind_ok _ _ _ _ _ (fs_run f _)). simpl.
  change (image contents (dsk v) t cc) with (joined (contents (dsk v)) (seqZ t cc)).
  destruct (window_offset v t cc Hv) as [Ew Ek]; [lia..|]. rewrite Ew.
  destruct (negb (wflag (fs v) =? 0) && _) eqn:Ed.
  - apply andb_true_iff in Ed as [Hwf Hr]. apply andb_true_iff in Hr as [H1%Z.leb_le H2%Z.ltb_lt].
    rewrite Ek by lia. erewrite bind_ok; [reflexivity|]. unfold mem_cpy, SS.
    rewrite joined_length by (intros; apply contents_ok). rewrite length_seqZ, (v_len _ Hv).
    destruct (Z.ltb_spec ((winsect (fs v) - t) * 512) 0); [lia|].
    destruct (Z.ltb_spec (Z.of_nat (512 * Z.to_nat cc)) ((winsect (fs v) - t) * 512 + Z.of_nat 512)); [lia|].
    cbn [orb]. unfold mret, M_ret. f_equal. f_equal.
    replace (Z.to_nat ((winsect (fs v) - t) * 512)) with (512 * Z.to_nat (winsect (fs v) - t) + 0)%nat by lia.
    apply (joined_blit _ _ _ _ (winsect (fs v))).
    + intros. apply contents_ok.
    + apply NoDup_seqZ.
    + rewrite lookup_seqZ. lia.
    + rewrite (v_len _ Hv). lia.
    + rewrite vsector_window by (done || lia). unfold blit. simpl. destruct (contents_ok (dsk v) (winsect (fs v))) as [El _].
      rewrite (v_len _ Hv), drop_ge by lia. by rewrite app_nil_r.
    + intros x _ Hx. unfold vsector. by destruct (Z.eqb_spec (winsect (fs v)) x); [congruence|].
  - assert (joined (contents (dsk v)) (seqZ t cc) = joined (vsector v) (seqZ t cc)) as <-;
      [|done]. unfold joined. f_equal. apply list_fmap_ext. intros i x Hx%list_elem_of_lookup_2%elem_of_seqZ.
    unfold vsector. destruct (Z.eqb_spec (winsect (fs v)) x) as [E1|]; [|done].
    destruct (Z.eqb_spec x 0); [done|]. simpl. apply andb_false_iff in Ed as [Hwf|Hr].
    + apply negb_false_iff, Z.eqb_eq in Hwf. symmetry. rewrite <- E1. apply (v_clean _ Hv); [done|lia].
    + apply andb_false_iff in Hr as [H1%Z.leb_gt|H1%Z.ltb_ge]; lia.
Qed.

Lemma at_sector_same v v' l f k : same_volume v v' -> at_sector v l f k -> at_sector v' l f k.
Proof.
  intros Hs. destruct (geo_inv _ _ (sv_geo _ _ Hs)) as (_ & _ & _ & _ & _ & _ & Ecs & _).
  unfold at_sector. by rewrite Ecs.
Qed.

(** A file object that was moved on. *)
Lemma moved_on v v' l f : sound v -> same_volume v v' ->
  whole_chain (entry v) (max_clust (fs v)) (org_clust f) l ->
  0 < fptr f < 4294967296 -> at_sector v l (back f) ((fptr f - 1) / 512) ->
  (fptr f mod 512 <> 0 -> dsect f = first_sect (fs v) (curr_clust f) + csect f - 1) ->
  positioned v' l f.
Proof.
  intros Hs Hsv Hc Hp Hat Hd.
  destruct (geo_inv _ _ (sv_geo _ _ Hsv)) as (_ & _ & _ & _ & _ & _ & Ecs & Edb & _).
  constructor; [by apply (chain_same v)|lia|lia| |].
  - intros _. by apply (at_sector_same v).
  - unfold first_sect in *. by rewrite Ecs, Edb.
Qed.

(** The sector at the file pointer. *)
Lemma current_sect_run v l f k : sound v ->
  whole_chain (entry v) (max_clust (fs v)) (org_clust f) l -> at_sector v l f k -> 0 <= k ->
  current_sect (mk_file_world f v) =
  Ok (Some (first_sect (fs v) (curr_clust f) + csect f), mk_file_world f v).
Proof.
  intros Hs Hc Hat Hk. destruct (at_sector_sect v l f k Hs Hc Hat Hk) as (Hcl & _ & Hcs & _).
  destruct Hs as [Hv Hd]. destruct (clust2sect_run v (curr_clust f) Hv Hd Hcl) as [E Hne].
  destruct (data_sector v (curr_clust f) (csect f) Hv Hd Hcl Hcs) as (_ & _ & Ht).
  pose proof (g_size _ _ (v_geo _ Hv)).
  unfold current_sect. rewrite (bind_ok _ _ _ _ _ (fil_run f v)).
  rewrite (bind_ok _ _ _ _ _ (vol_run _ f v _ _ E)).
  destruct (Z.eqb_spec (first_sect (fs v) (curr_clust f)) 0); [done|].
  unfold mret, M_ret. do 3 f_equal. apply Z.mod_small. lia.
Qed.

(** What one turn of the loop of [f_read] does. *)
Definition read_step v l f btr : Prop :=
  exists n f' v', read_turn btr (mk_file_world f v) =
    Ok (inr (n, take (Z.to_nat n) (drop (Z.to_nat (fptr f)) (file_data v l))),
        mk_file_world f' v') /\
  0 < n <= btr /\ same_volume v v' /\ fixed f' = fixed f /\
  positioned v' l (f'{{ fptr := fptr f + n }}).

Lemma file_part v l p n t : volume_ok v -> 0 <= p -> 0 <= n ->
  chain_sects (fs v) l !! Z.to_nat (p / 512) = Some t -> p mod 512 + n <= 512 ->
  take (Z.to_nat n) (drop (Z.to_nat (p mod 512)) (vsector v t)) =
  take (Z.to_nat n) (drop (Z.to_nat p) (file_data v l)).
Proof.
  intros Hv Hp Hn Ht Hm. unfold file_data.
  rewrite <- (joined_part _ (fun t => vsector_length v t Hv) _ _ _ _ _ Ht) by lia.
  do 2 f_equal. lia.
Qed.

Lemma read_inside v l f btr : sound v -> positioned v l f -> fptr f mod 512 <> 0 ->
  0 < btr -> fptr f + btr < 4294967296 -> read_step v l f btr.
Proof.
  intros Hs Hpos Hm Hb Hov. pose proof Hpos as [Hc Hp _ Hmid Hsec].
  pose proof (Hmid ltac:(lia)) as Hat.
  replace ((fptr f - 1) / 512) with (fptr f / 512) in Hat by lia.
  destruct (at_sector_sect v l (back f) _ Hs Hc Hat) as (Hcl & Hlk & Hcs & _); [lia|].
  simpl in Hcl, Hlk, Hcs. pose proof Hs as [Hv Hd].
  destruct (data_sector v (curr_clust f) (csect f - 1) Hv Hd Hcl Hcs) as (Hpr & _ & Ht).
  rewrite Z.add_sub_assoc in *. rewrite <- Hsec in * by done.
  destruct (read_partial_spec v f btr (dsect f) Hs Hb eq_refl Hpr Ht)
    as (m & v' & E & Hm1 & Hm2 & Hsv).
  exists m, f, v'. split; [|split; [done|split; [done|split; [done|]]]].
  - unfold read_turn. rewrite (bind_ok _ _ _ _ _ (fil_run f v)). unfold SS.
    destruct (Z.eqb_spec (fptr f mod 512) 0); [done|]. cbn [negb].
    rewrite E. by rewrite (file_part v l (fptr f) m (dsect f)) by (done || lia).
  - apply (moved_on v); simpl; [done|done|done|lia| |].
    + replace ((fptr f + m - 1) / 512) with (fptr f / 512) by lia. done.
    + intros _. by apply Hsec.
Qed.

(** The division of a later sector of the same cluster. *)
Lemma same_cluster n k j : 0 < n -> 0 <= j -> k mod n + j < n ->
  (k + j) / n = k / n /\ (k + j) mod n = k mod n + j.
Proof.
  intros Hn Hj Hb. pose proof (Z.div_mod k n ltac:(lia)). pose proof (Z.mod_pos_bound k n Hn).
  split; symmetry.
  - apply (Z.div_unique _ _ _ (k mod n + j)); lia.
  - apply (Z.mod_unique _ _ (k / n)); lia.
Qed.

Lemma clip_count_run n f v : exists m,
  clip_count n (mk_file_world f v) = Ok (m, mk_file_world f v) /\
  (0 < n -> csect f < csize (fs v) -> 0 < m <= n /\ csect f + m <= csize (fs v)).
Proof.
  unfold clip_count. eexists. split; [reflexivity|]. intros. simpl.
  destruct (Z.ltb_spec (csize (fs v)) (csect f + n)); lia.
Qed.

(** The turn on a sector boundary, from the sector that [next_read] found. *)
Lemma read_whole v l f btr k : sound v ->
  whole_chain (entry v) (max_clust (fs v)) (org_clust f) l -> at_sector v l f k ->
  0 <= k -> fptr f = 512 * k -> 512 <= btr -> fptr f + btr < 4294967296 ->
  exists n v', read_at (first_sect (fs v) (curr_clust f) + csect f) btr (mk_file_world f v) =
    Ok (inr (512 * n, take (Z.to_nat (512 * n)) (drop (Z.to_nat (fptr f)) (file_data v l))),
        mk_file_world (f{{ csect := csect f + n }}) v') /\
    0 < n /\ 512 * n <= btr /\ same_volume v v' /\
    positioned v' l (f{{ csect := csect f + n; fptr := fptr f + 512 * n }}).
Proof.
  intros Hs Hc Hat Hk Ef Hb Hov. pose proof Hs as [Hv Hd]. pose proof (da_csize _ _ Hd) as Hcz.
  destruct (at_sector_sect v l f k Hs Hc Hat Hk) as (Hcl & Hlk & Hcs & _).
  destruct (clip_count_run (btr / SS) f v) as (n & En & Hn). unfold SS in *.
  destruct (Hn ltac:(lia) ltac:(lia)) as [Hn1 Hn2].
  destruct (read_direct_spec v f (first_sect (fs v) (curr_clust f) + csect f) n Hs ltac:(lia))
    as (v' & E & Hsv).
  { intros j Hj. rewrite <- Z.add_assoc.
    destruct (data_sector v (curr_clust f) (csect f + j) Hv Hd Hcl) as (? & _ & ?); [lia|done]. }
  exists n, v'. split; [|split; [lia|split; [lia|split; [done|]]]].
  - unfold read_at, SS. destruct (Z.eqb_spec (btr / 512) 0); [lia|]. cbn [negb].
    rewrite (bind_ok _ _ _ _ _ En), (bind_ok _ _ _ _ _ E). cbn [fst snd negb].
    rewrite (bind_ok _ _ _ tt (mk_file_world (f{{ csect := csect f + n }}) v')).
    2: { unfold fil_set, modify. simpl. do 4 f_equal. unfold u8. lia. }
    unfold mret, M_ret. do 4 f_equal. destruct Hat as [Hl Ecs].
    rewrite <- (chain_sects_run (fs v) l (Z.to_nat (k / csize (fs v))) (curr_clust f)) by (done || lia).
    unfold file_data. replace (Z.to_nat (512 * n)) with (512 * Z.to_nat n)%nat by lia.
    replace (Z.to_nat (fptr f)) with (512 * Z.to_nat k)%nat by lia.
    rewrite joined_sectors by (intros; by apply vsector_length). do 3 f_equal.
    pose proof (Z.div_mod k (csize (fs v)) ltac:(lia)).
    assert (0 <= k / csize (fs v)) by (apply Z.div_pos; lia).
    rewrite <- Z2Nat.inj_mul, <- Z2Nat.inj_add by lia. f_equal. lia.
  - apply (moved_on v); simpl; [done|done|done|lia| |lia].
    replace ((fptr f + 512 * n - 1) / 512) with (k + (n - 1)) by lia.
    destruct Hat as [Hl Ecs]. destruct (same_cluster (csize (fs v)) k (n - 1)) as [E1 E2]; [lia..|].
    split; simpl; [by rewrite E1|lia].
Qed.

Lemma read_piece v l f btr k : sound v ->
  whole_chain (entry v) (max_clust (fs v)) (org_clust f) l -> at_sector v l f k ->
  0 <= k -> fptr f = 512 * k -> 0 < btr -> fptr f + btr < 4294967296 ->
  btr < 512 ->
  let f' := f{{ dsect := first_sect (fs v) (curr_clust f) + csect f; csect := csect f + 1 }} in
  exists n v', read_at (first_sect (fs v) (curr_clust f) + csect f) btr (mk_file_world f v) =
    Ok (inr (n, take (Z.to_nat n) (drop (Z.to_nat (fptr f)) (file_data v l))),
        mk_file_world f' v') /\
    0 < n <= btr /\ same_volume v v' /\ positioned v' l (f'{{ fptr := fptr f + n }}).
Proof.
  intros Hs Hc Hat Hk Ef Hb Hov Hlt f'. pose proof Hs as [Hv Hd]. pose proof (da_csize _ _ Hd).
  destruct (at_sector_sect v l f k Hs Hc Hat Hk) as (Hcl & Hlk & Hcs & _).
  destruct (data_sector v (curr_clust f) (csect f) Hv Hd Hcl Hcs) as (Hpr & _ & Ht).
  destruct (read_partial_spec v f' btr _ Hs Hb eq_refl Hpr Ht) as (n & v' & E & Hn1 & Hn2 & Hsv).
  simpl in E, Hn2. exists n, v'. split; [|split; [done|split; [done|]]].
  - unfold read_at, SS. destruct (Z.eqb_spec (btr / 512) 0); [|lia]. cbn [negb].
    assert (u8 (csect f + 1) = csect f + 1) as Eu by (unfold u8; lia).
    rewrite (bind_ok _ _ _ tt (mk_file_world f' v)) by (unfold fil_set, modify; simpl; by rewrite Eu).
    rewrite E. rewrite (file_part v l (fptr f) n); [done|done|lia|lia| |done].
    replace (fptr f / 512) with k by lia. done.
  - destruct Hat as [Hl Ecs].
    apply (moved_on v); simpl; [done|done|done|lia| |lia].
    replace ((fptr f + n - 1) / 512) with k by lia. split; simpl; [done|lia].
Qed.

Lemma read_turn_spec v l f btr : sound v -> positioned v l f ->
  0 < btr -> fptr f + btr <= capacity v l -> fptr f + btr < 4294967296 ->
  read_step v l f btr.
Proof.
  intros Hs Hpos Hb Hcap Hov.
  destruct (decide (fptr f mod 512 = 0)) as [Hm|Hm]; [|by apply read_inside].
  destruct (next_read_spec v l f Hs Hpos Hm ltac:(lia)) as (f1 & v1 & E1 & Hsv & Hfix & Hds & Hat).
  assert (fptr f1 = fptr f /\ org_clust f1 = org_clust f) as [Efp Eoc] by (by injection Hfix).
  pose proof (sound_same v v1 Hs Hsv) as Hs1.
  assert (whole_chain (entry v1) (max_clust (fs v1)) (org_clust f1) l) as Hc1.
  { rewrite Eoc. apply (chain_same v); [done|done|apply Hpos]. }
  apply (at_sector_same v v1) in Hat; [|done].
  assert (0 <= fptr f / 512) as Hk by (destruct Hpos; lia).
  assert (file_data v1 l = file_data v l) as Edata.
  { destruct Hs. apply same_file_data; [done|done|done|].
    apply Forall_lookup. intros i x Hx. by apply (whole_chain_range _ _ _ _ _ _ (p_chain _ _ _ Hpos) Hx). }
  pose proof (current_sect_run v1 l f1 (fptr f / 512) Hs1 Hc1 Hat Hk) as Ecs.
  assert (read_turn btr (mk_file_world f v) =
    read_at (first_sect (fs v1) (curr_clust f1) + csect f1) btr (mk_file_world f1 v1)) as Eturn.
  { unfold read_turn. rewrite (bind_ok _ _ _ _ _ (fil_run f v)). unfold SS.
    rewrite Hm. cbn [Z.eqb negb]. rewrite (bind_ok _ _ _ _ _ E1). cbn [is_err is_ok negb].
    by rewrite (bind_ok _ _ _ _ _ Ecs). }
  unfold read_step. rewrite Eturn, <- Edata.
  destruct (decide (btr < 512)) as [E0|E0].
  - destruct (read_piece v1 l f1 btr (fptr f / 512)) as (n & v' & E & Hn & Hsv' & Hpos');
      [done|done|done|done|lia|lia|lia|lia|].
    exists n. do 2 eexists. rewrite E, Efp. split; [done|].
    split; [done|split; [by apply (same_volume_trans _ v1)|]].
    split; [unfold fixed in *; simpl; congruence|by rewrite Efp in Hpos'].
  - destruct (read_whole v1 l f1 btr (fptr f / 512)) as (n & v' & E & Hn & Hnb & Hsv' & Hpos');
      [done|done|done|done|lia|lia|lia|].
    exists (512 * n). do 2 eexists. rewrite E, Efp. split; [done|].
    split; [lia|split; [by apply (same_volume_trans _ v1)|]].
    split; [unfold fixed in *; simpl; congruence|by rewrite Efp in Hpos'].
Qed.

(** ** [f_read] *)

(** An open file: its volume is the mounted one, and its data are in its chain. *)
Record open_file v (l : list Z) (f : FIL) : Prop := {
  o_sound : sound v;
  o_pos : positioned v l f;
  o_size : fptr f <= fsize f /\ fsize f < 4294967296 /\ fsize f <= capacity v l;
  o_fs : is_Some (fil_fs f) /\ fs_id (fs v) = fil_id f;
  o_flag : Z.land (flag f) FA__ERROR = 0
}.

Lemma open_file_type v : sound v -> (fs_type (fs v) =? 0) = false.
Proof.
  intros [Hv _]. apply Z.eqb_neq. destruct (g_type _ _ (v_geo _ Hv)) as [E|[E|E]]; by rewrite E.
Qed.

Lemma validate_fil_ok v l f : open_file v l f ->
  Z.land (disk_status (dsk v)) STA_NOINIT = 0 ->
  validate_fil (mk_file_world f v) = Ok (FR_OK, mk_file_world f v).
Proof.
  intros [Hs _ _ [Hf Hid] _] Hst. unfold validate_fil. rewrite (bind_ok _ _ _ _ _ (fil_run f v)).
  apply vol_run. unfold validate, fget. rewrite (bind_ok _ _ _ (fs v) v eq_refl).
  rewrite bool_decide_true by done. cbn [negb orb]. rewrite (open_file_type v Hs), Hid, Z.eqb_refl.
  cbn [negb orb]. rewrite (bind_ok _ _ _ (disk_status (dsk v)) v eq_refl). by rewrite Hst.
Qed.

Lemma read_body_run btr out n data f v f1 v1 : btr <> 0 ->
  read_turn btr (mk_file_world f v) = Ok (inr (n, data), mk_file_world f1 v1) ->
  0 <= fptr f1 + n < 4294967296 ->
  read_body (btr, out) (mk_file_world f v) =
  Ok (Continue (btr - n, out ++ data), mk_file_world (f1{{ fptr := fptr f1 + n }}) v1).
Proof.
  intros Hb E Hr. unfold read_body. destruct (Z.eqb_spec btr 0); [done|].
  rewrite (bind_ok _ _ _ _ _ E). unfold fil_set, modify, mbind, M_bind. simpl.
  unfold u32. by rewrite Z.mod_small.
Qed.

Lemma read_loop turns v l f btr out : sound v -> positioned v l f ->
  0 <= btr -> fptr f + btr <= capacity v l -> fptr f + btr < 4294967296 ->
  (Z.to_nat btr < turns)%nat ->
  exists f' v', while turns read_body (btr, out) (mk_file_world f v) =
    Ok ((FR_OK, out ++ take (Z.to_nat btr) (drop (Z.to_nat (fptr f)) (file_data v l))),
        mk_file_world f' v') /\
    same_volume v v' /\ positioned v' l f' /\
    fixed f' = fixed (f{{ fptr := fptr f + btr }}).
Proof.
  revert v f btr out. induction turns as [|turns IH]; intros v f btr out Hs Hpos Hb Hcap Hov Ht; [lia|].
  cbn [while]. destruct (decide (btr = 0)) as [->|Hne].
  - rewrite (bind_ok _ _ _ (Break (FR_OK, out)) (mk_file_world f v) eq_refl). exists f, v. split; [|split; [apply same_volume_refl, Hs|split; [done|]]].
    + unfold mret, M_ret. by rewrite app_nil_r.
    + rewrite Z.add_0_r. by destruct f.
  - assert (read_step v l f btr) as (n & f1 & v1 & E & Hn & Hsv & Hfix & Hpos')
      by (apply read_turn_spec; (done || lia)).
    pose proof (p_ptr _ _ _ Hpos) as Hptr.
    assert (fptr f1 = fptr f) as Ep by (by injection Hfix).
    destruct (IH v1 (f1{{ fptr := fptr f + n }}) (btr - n)
      (out ++ take (Z.to_nat n) (drop (Z.to_nat (fptr f)) (file_data v l))))
      as (f' & v' & E' & Hsv' & Hp' & Hfix').
    + by apply (sound_same v).
    + done.
    + lia.
    + simpl. unfold capacity in *. destruct (geo_inv _ _ (sv_geo _ _ Hsv)) as (_ & _ & _ & _ & _ & _ & -> & _). lia.
    + simpl. lia.
    + lia.
    + exists f', v'. split; [|split; [by apply (same_volume_trans _ v1)|split; [done|]]].
      * rewrite (bind_ok _ _ _ _ _ (read_body_run btr out n _ f v f1 v1 Hne E ltac:(lia))).
        rewrite Ep, E'. do 3 f_equal. rewrite <- app_assoc. f_equal.
        assert (file_data v1 l = file_data v l) as ->.
        { destruct Hs. apply same_file_data; [done|done|done|]. apply Forall_lookup.
          intros i x Hx. by apply (whole_chain_range _ _ _ _ _ _ (p_chain _ _ _ Hpos) Hx). }
        change (fptr (f1{{ fptr := fptr f + n }})) with (fptr f + n). rewrite Z2Nat.inj_add by lia. rewrite <- drop_drop.
        replace (Z.to_nat btr) with (Z.to_nat n + Z.to_nat (btr - n))%nat by lia.
        by rewrite take_take_drop.
      * rewrite Hfix'. unfold fixed in *. simpl.
        replace (fptr f + n + (btr - n)) with (fptr f + btr) by lia. injection Hfix. congruence.
Qed.

(** The number of bytes a call transfers. *)
Definition readable (f : FIL) (btr : Z) : Z := Z.min btr (fsize f - fptr f).

(** The file object [f'] is [f] with the pointer [n] bytes further. *)
Definition advanced (f : FIL) (n : Z) (f' : FIL) : Prop :=
  fixed f' = fixed (f{{ fptr := fptr f + n }}).

Lemma f_read_spec v l f btr turns : open_file v l f ->
  Z.land (flag f) FA_READ <> 0 -> Z.land (disk_status (dsk v)) STA_NOINIT = 0 ->
  0 <= btr -> (Z.to_nat btr < turns)%nat ->
  let n := readable f btr in
  exists f' v', f_read turns btr (mk_file_world f v) =
    Ok ((FR_OK, take (Z.to_nat n) (drop (Z.to_nat (fptr f)) (file_data v l))),
        mk_file_world f' v') /\
    advanced f n f' /\ same_volume v v' /\ open_file v' l f'.
Proof.
  intros Ho Hr Hst Hb Ht n. pose proof Ho as [Hs Hpos [Hsz1 [Hsz2 Hsz3]] Hfs Hfl].
  pose proof (p_ptr _ _ _ Hpos) as Hp.
  destruct (read_loop turns v l f n []) as (f' & v' & E & Hsv & Hp' & Hfix);
    [done|done|unfold n, readable; lia..|].
  exists f', v'. split; [|split; [done|split; [done|]]].
  - unfold f_read. rewrite (bind_ok _ _ _ _ _ (validate_fil_ok v l f Ho Hst)).
    cbn [is_err is_ok negb]. rewrite (bind_ok _ _ _ _ _ (fil_run f v)), Hfl. cbn [Z.eqb negb].
    destruct (Z.eqb_spec (Z.land (flag f) FA_READ) 0); [done|].
    assert (u32 (fsize f - fptr f) = fsize f - fptr f) as -> by (apply Z.mod_small; lia).
    replace (if fsize f - fptr f <? btr then fsize f - fptr f else btr) with n; [exact E|].
    unfold n, readable. destruct (Z.ltb_spec (fsize f - fptr f) btr); lia.
  - injection Hfix as E1 E2 E3 E4 E5 E6 E7 E8.
    destruct (geo_inv _ _ (sv_geo _ _ Hsv)) as (_ & _ & _ & _ & _ & _ & Ecs & _ & _ & _ & Eid).
    constructor; [by apply (sound_same v)|done| | |].
    + unfold capacity in *. rewrite Ecs. simpl in *. rewrite E4, E5. unfold n, readable. lia.
    + rewrite E1, E2, Eid. done.
    + by rewrite E3.
Qed.
End Read.
