(* ===== verification/FatWriteFacts.v ===== *)
(** * Writing files

    [f_write] overwrites the bytes of the file at its pointer and lets the file grow, with
    new clusters for its chain, as far as the volume has free ones; nothing else on the
    volume changes. *)

From S2P Require Import Prelude Fat FatTable FatFacts FatChain FatData FatFile FatReadFacts.

(** ** Bytes by their index *)

Lemma joined_lookup g ts i : (forall x, length (g x) = 512%nat) ->
  joined g ts !! i = ts !! (i / 512)%nat ≫= fun t => g t !! (i mod 512)%nat.
Proof.
  intros Hg. revert i. induction ts as [|t ts IH]; intros i; [done|]. rewrite joined_cons.
  destruct (decide (i < 512)%nat).
  - rewrite lookup_app_l by (rewrite Hg; lia).
    by rewrite Nat.div_small, Nat.mod_small by lia.
  - rewrite lookup_app_r by (rewrite Hg; lia). rewrite Hg, IH.
    assert (i / 512 = S ((i - 512) / 512) /\ i mod 512 = (i - 512) mod 512)%nat as [-> ->].
    { pose proof (Nat.div_add (i - 512) 1 512). pose proof (Nat.Div0.mod_add (i - 512) 1 512).
      replace (i - 512 + 1 * 512)%nat with i in * by lia. lia. }
    done.
Qed.

Lemma blit_lookup {A} (c x : list A) p i : (p <= length c)%nat ->
  blit c p x !! i = if decide (p <= i < p + length x)%nat then x !! (i - p)%nat else c !! i.
Proof.
  intros Hp. unfold blit. destruct (decide (p <= i < p + length x)%nat).
  - rewrite lookup_app_r by (rewrite length_take; lia).
    rewrite length_take, Nat.min_l by lia. apply lookup_app_l. lia.
  - destruct (decide (i < p)%nat).
    + rewrite lookup_app_l by (rewrite length_take; lia). apply lookup_take_lt. lia.
    + rewrite lookup_app_r by (rewrite length_take; lia).
      rewrite length_take, Nat.min_l by lia.
      rewrite lookup_app_r by lia. rewrite lookup_drop. f_equal. lia.
Qed.

Lemma slice_lookup l k i : (i < 512)%nat -> 0 <= k ->
  slice l k !! i = l !! (512 * Z.to_nat k + i)%nat.
Proof.
  intros Hi Hk. unfold slice. rewrite lookup_take_lt, lookup_drop by done. f_equal. lia.
Qed.

(** The sectors of a chain are distinct. *)
Lemma chain_sects_nodup s l : 0 < csize s -> NoDup l -> NoDup (chain_sects s l).
Proof.
  intros Hc Hn. apply NoDup_bind; [|intros; apply NoDup_seqZ|done].
  intros c1 c2 t _ _ H1%elem_of_seqZ H2%elem_of_seqZ. unfold first_sect in *.
  destruct (Z.lt_trichotomy c1 c2) as [|[|]]; [nia|done|nia].
Qed.

(** ** A chain that grows *)

Lemma path_app_inv f mcl c l1 l2 e : path f mcl c (l1 ++ l2) e ->
  exists d, path f mcl c l1 d /\ path f mcl d l2 e.
Proof.
  revert c. induction l1 as [|x l1 IH]; intros c Hp; simpl in *.
  - exists c. split; [apply path_end|done].
  - inversion Hp as [|? ? ? H1 H2 H3]; subst. destruct (IH _ H3) as (d & H5 & H6).
    exists d. split; [|done]. by apply path_link.
Qed.

Lemma path_ext f g mcl c l e : (forall x, x ∈ l -> g x = f x) ->
  path f mcl c l e -> path g mcl c l e.
Proof.
  intros Hx Hp. induction Hp as [c|c l e Hc Hf Hp IH]; [apply path_end|].
  assert (g c = f c) as E by (apply Hx; by left).
  apply path_link; [done|by rewrite E|]. rewrite E. apply IH. intros. apply Hx. by right.
Qed.

Lemma whole_chain_extend f g mcl c l x n : whole_chain f mcl c (l ++ [x]) ->
  (forall y, y ∈ l -> g y = f y) -> g x = n -> 2 <= n < mcl -> mcl <= g n ->
  whole_chain g mcl c ((l ++ [x]) ++ [n]).
Proof.
  intros [[E _]|(_ & e & Hp & He)] Hg Hx Hn Hm; [by destruct l|]. right. split; [by destruct l|].
  exists (g n). split; [|done].
  apply path_app_inv in Hp as (d & H1 & H2). inversion H2; subst.
  apply path_snoc; [|done|lia]. apply path_snoc; [by apply (path_ext f)|done|lia].
Qed.

Section Write.
Context {D : Type} `{WorkingDisk D}.
Implicit Types v : fworld D.

(** ** What a call may change *)

(** A volume that can be written to: the table has no error marks, the FSInfo is exact. *)
Record healthy v : Prop := {
  h_sound : sound v;
  h_counted : counted v;
  h_last : 0 <= last_clust (fs v);
  h_marks : forall c, clusters v c -> entry v c <> 1
}.

(** From the file with chain [l] to the file with chain [l']: all clusters outside of it
    keep their entries and their data. *)
Record only_file v (l : list Z) v' (l' : list Z) : Prop := {
  of_geo : geo (fs v') = geo (fs v);
  of_size : sectors (dsk v') = sectors (dsk v);
  of_time : fattime v' = fattime v;
  of_prefix : l `prefix_of` l';
  of_fresh : forall c, c ∈ l' -> c ∉ l -> clusters v c /\ entry v c = 0;
  of_entry : forall c, clusters v c -> c ∉ l' -> entry v' c = entry v c;
  of_view : forall t, primary (fs v) t -> ~ fat1 (fs v) t -> t ∉ chain_sects (fs v) l' ->
    vsector v' t = vsector v t
}.

Lemma same_only_file v v' l : volume_ok v -> same_volume v v' -> only_file v l v' l.
Proof.
  intros Hv Hs. constructor; try apply Hs; try done.
  - intros c Hc _. by apply same_entry.
  - intros t Ht _ _. by apply (sv_view _ _ Hs).
Qed.

Lemma chain_sects_geo s s' l : geo s' = geo s -> chain_sects s' l = chain_sects s l.
Proof.
  intros Hg. destruct (geo_inv _ _ Hg) as (_ & _ & _ & _ & _ & _ & Ecs & Edb & _).
  unfold chain_sects, first_sect. by rewrite Ecs, Edb.
Qed.

Lemma only_file_trans v1 l1 v2 l2 v3 l3 :
  only_file v1 l1 v2 l2 -> only_file v2 l2 v3 l3 -> only_file v1 l1 v3 l3.
Proof.
  intros [] []. pose proof (geo_inv _ _ of_geo0) as (_ & _ & _ & Emc & _).
  assert (forall c, clusters v2 c <-> clusters v1 c) as Hcl by (intros; unfold clusters; by rewrite Emc).
  assert (forall c, c ∉ l3 -> c ∉ l2) as Hsub.
  { intros c Hc Hin. apply Hc. destruct of_prefix1 as [k ->]. apply elem_of_app. by left. }
  constructor; try congruence.
  - by etransitivity.
  - intros c Hc Hn. destruct (decide (c ∈ l2)); [by apply of_fresh0|].
    destruct (of_fresh1 c) as [H1 H2]; [done|done|]. rewrite of_entry0 in H2; [|by apply Hcl|done].
    by rewrite <- Hcl.
  - intros c Hc Hn. rewrite of_entry1 by (done || by apply Hcl). apply of_entry0; auto.
  - intros t Hp Hf Hn. rewrite of_view1; [apply of_view0; [done|done|]| | |].
    + intros Hin. apply Hn. destruct of_prefix1 as [k ->]. unfold chain_sects.
      rewrite bind_app. apply elem_of_app. by left.
    + by apply (primary_geo (fs v1)).
    + by rewrite (fat1_geo (fs v1)).
    + by rewrite (chain_sects_geo (fs v1)).
Qed.

Lemma type_mask_value ty : type_mask ty = 0xFFF \/ type_mask ty = 0xFFFF \/ type_mask ty = 0x0FFFFFFF.
Proof. unfold type_mask. repeat case_match; auto. Qed.

Lemma healthy_same v v' : healthy v -> same_volume v v' -> healthy v'.
Proof.
  intros [Hs Hc Hl Hm] Hsv. pose proof Hs as [Hv _].
  destruct (geo_inv _ _ (sv_geo _ _ Hsv)) as (_ & _ & _ & Emc & _).
  constructor; [by apply (sound_same v)|by apply (same_counted v)| |].
  - pose proof (sv_info _ _ Hsv) as Ei. unfold info in Ei. congruence.
  - intros c Hcl. assert (clusters v c) by (unfold clusters in *; by rewrite <- Emc).
    rewrite (same_entry v) by done. auto.
Qed.

Lemma healthy_taken v x n v' : healthy v -> clusters v n -> taken v x n v' -> healthy v'.
Proof.
  intros [Hs Hc Hl Hm] Hn (Hst & Hct & Hla & Ht).
  destruct (geo_inv _ _ (ss_geo _ _ Hst)) as (_ & _ & _ & Emc & _). unfold clusters in *.
  constructor; [|done|lia|].
  - destruct Hst. by apply (sound_geo v).
  - intros c Hcl. unfold clusters in Hcl. rewrite Emc in Hcl. rewrite Ht by done.
    destruct (c =? n); [destruct (type_mask_value (fs_type (fs v))) as [E|[E|E]]; by rewrite E|].
    destruct (c =? x); [lia|by apply Hm].
Qed.

Lemma taken_only_file v x n v' l : clusters v n -> entry v n = 0 -> (x = 0 \/ x ∈ l) ->
  taken v x n v' -> only_file v l v' (l ++ [n]).
Proof.
  intros Hn He Hx (Hst & _ & _ & Ht). destruct Hst. constructor; try done.
  - by exists [n].
  - intros c Hc Hnl. apply elem_of_app in Hc as [|Hc]; [done|].
    by apply list_elem_of_singleton in Hc as ->.
  - intros c Hc Hnl. rewrite Ht by done.
    destruct (Z.eqb_spec c n) as [->|]; [exfalso; apply Hnl, elem_of_app; right; by left|].
    destruct (Z.eqb_spec c x) as [->|]; [|done]. destruct Hx as [->|Hx].
    + unfold clusters in Hc. lia.
    + exfalso. apply Hnl, elem_of_app. by left.
  - intros t Hp Hf _. auto.
Qed.

(** The chain after a cluster was put behind its end. *)
Lemma taken_chain v c l x n v' : healthy v -> NoDup (l ++ [x]) ->
  whole_chain (entry v) (max_clust (fs v)) c (l ++ [x]) ->
  clusters v n -> entry v n = 0 -> taken v x n v' ->
  whole_chain (entry v') (max_clust (fs v')) c ((l ++ [x]) ++ [n]) /\ NoDup ((l ++ [x]) ++ [n]).
Proof.
  intros Hh Hnd Hc Hn He (Hst & _ & _ & Ht).
  assert (forall y, y ∈ l ++ [x] -> clusters v y /\ 2 <= entry v y) as Hall.
  { destruct Hc as [[E _]|(_ & e & Hp & _)]; [by destruct l|].
    clear -Hp. intros y Hy. induction Hp; [by apply elem_of_nil in Hy|].
    apply elem_of_cons in Hy as [->|]; auto. }
  assert (n ∉ l ++ [x]) as Hnin by (intros Hin; destruct (Hall n Hin); lia).
  assert (forall y, y ∈ l ++ [x] -> y <> n) as Hyn by (by intros y Hy ->).
  destruct (geo_inv _ _ (ss_geo _ _ Hst)) as (_ & _ & _ & Emc & _). rewrite Emc.
  pose proof Hnd as (_ & Hd & _)%NoDup_app.
  assert (x ∈ l ++ [x]) as Hx by (apply elem_of_app; right; by left).
  split.
  - apply (whole_chain_extend (entry v)); [done| | |done|].
    + intros y Hy. assert (y ∈ l ++ [x]) as Hy' by (apply elem_of_app; by left).
      rewrite Ht by (by apply Hall). destruct (Z.eqb_spec y n); [by destruct (Hyn y)|].
      destruct (Z.eqb_spec y x) as [->|]; [|done]. destruct (Hd x Hy). by left.
    + rewrite Ht by (by apply Hall). destruct (Z.eqb_spec x n); [by destruct (Hyn x)|].
      by rewrite Z.eqb_refl.
    + rewrite Ht, Z.eqb_refl by done. apply Hh.
  - apply NoDup_app. split; [done|split; [|apply NoDup_singleton]].
    intros y Hy ->%list_elem_of_singleton. done.
Qed.


(** ** The next cluster *)

(** No cluster is free. *)
Definition full v : Prop := forall c, clusters v c -> entry v c <> 0.

Lemma first_free_none v scl : healthy v -> 1 <= scl < max_clust (fs v) ->
  let n := first_free (entry v) scl (max_clust (fs v)) in
  (n = 0 /\ full v) \/ (clusters v n /\ entry v n = 0).
Proof.
  intros Hh Hs n. destruct (first_free_range (entry v) scl (max_clust (fs v)) Hs) as [E|[E|E]].
  - left. split; [done|]. intros c Hc. apply (candidates_all scl) in Hc; [|done].
    pose proof (scan_none (entry v) (candidates scl (max_clust (fs v)))) as Hnone.
    rewrite Forall_forall in Hnone. rewrite Forall_forall in Hnone. apply Hnone; [|exact E|done].
    intros x Hx. apply candidates_all in Hx; [lia|done].
  - exfalso. unfold first_free, scan in E.
    destruct (list_find _ _) as [[i c]|] eqn:Ef; [|done].
    apply list_find_Some in Ef as (Hi & Hc & _). apply list_elem_of_lookup_2 in Hi.
    apply candidates_all in Hi; [|done]. destruct (Z.eqb_spec (entry v c) 0); [lia|].
    destruct Hc; [done|]. by apply (h_marks _ Hh c).
  - right. unfold clusters. tauto.
Qed.

(** [create_chain] at the end of a chain: a new cluster, or the volume is full. *)
Lemma extend_chain v x fuel : healthy v -> (enough v <= fuel)%nat ->
  (x = 0 \/ clusters v x /\ max_clust (fs v) <= entry v x) ->
  exists n v', create_chain fuel x v = Ok (n, v') /\
    ((n = 0 /\ full v /\ same_volume v v') \/
     (clusters v n /\ entry v n = 0 /\ taken v x n v')).
Proof.
  intros Hh Hf Hx. pose proof Hh as [[Hv Hd] Hc Hl Hm].
  pose proof (g_clust _ _ (v_geo _ Hv)) as Hg.
  destruct (create_chain_spec v x fuel Hv Hc Hl Hf) as (n & new & v' & E & He & Hr).
  exists n, v'. split; [done|]. unfold extends in He.
  assert (exists scl, start v x = inl scl) as [scl Es].
  { unfold start. destruct (Z.eqb_spec x 0); [by eexists|]. destruct Hx as [|[Hx Hex]]; [done|].
    unfold clusters in Hx.
    destruct (Z.ltb_spec x 2), (Z.leb_spec (max_clust (fs v)) x), (Z.ltb_spec (entry v x) 2),
      (Z.ltb_spec (entry v x) (max_clust (fs v))); try lia. by eexists. }
  rewrite Es in He. destruct He as [En Enew].
  destruct (start_range v x scl Hl Hv Es) as [Hsc _].
  destruct (first_free_none v scl Hh Hsc) as [[E0 Hfull]|[Hcl He0]].
  - left. rewrite <- En in E0. subst n. rewrite E0 in Enew. subst new. simpl in Hr. by rewrite E0.
  - right. rewrite <- En in Hcl, He0. unfold clusters in Hcl.
    destruct (Z.leb_spec 2 n); [|lia]. by subst new.
Qed.

(** [create_chain] inside of a chain follows it. *)
Lemma follow_chain v x fuel : healthy v -> (enough v <= fuel)%nat -> clusters v x ->
  clusters v (entry v x) ->
  exists v', create_chain fuel x v = Ok (entry v x, v') /\ same_volume v v'.
Proof.
  intros Hh Hf Hx He. pose proof Hh as [[Hv Hd] Hc Hl Hm].
  destruct (create_chain_spec v x fuel Hv Hc Hl Hf) as (n & new & v' & E & Hext & Hr).
  unfold extends in Hext. assert (start v x = inr (entry v x)) as Es.
  { unfold start, clusters in *. destruct (Z.eqb_spec x 0), (Z.ltb_spec x 2),
      (Z.leb_spec (max_clust (fs v)) x), (Z.ltb_spec (entry v x) 2),
      (Z.ltb_spec (entry v x) (max_clust (fs v))); try lia. done. }
  rewrite Es in Hext. destruct Hext as [-> ->]. by exists v'.
Qed.


(** What writing does not change in the file object. *)
Definition fixed_w (f : FIL) :=
  (fil_fs f, fil_id f, flag f, fptr f, fsize f, dir_sect f, dir_ptr f).

Definition data_kept v v' : Prop :=
  forall t, primary (fs v) t -> ~ fat1 (fs v) t -> vsector v' t = vsector v t.

(** The next sector was found, in the chain [l'] of the file. *)
Definition found_sector v l f k v' l' f' : Prop :=
  healthy v' /\ NoDup l' /\ whole_chain (entry v') (max_clust (fs v')) (org_clust f') l' /\
  at_sector v' l' f' k /\ only_file v l v' l' /\ data_kept v v' /\
  fixed_w f' = fixed_w f /\ dsect f' = dsect f.

(** What [next_write] can come to. *)
Definition next_result v l f k fuel : Prop :=
  exists r f' v', next_write fuel (mk_file_world f v) = Ok (r, mk_file_world f' v') /\
    ((r = FR_DENIED /\ full v /\ k = csize (fs v) * Z.of_nat (length l) /\ f' = f /\ same_volume v v') \/
     (r = FR_OK /\ exists l', found_sector v l f k v' l' f')).

Lemma found_inside v l f f' v' c k : healthy v -> NoDup l -> same_volume v v' ->
  whole_chain (entry v) (max_clust (fs v)) (org_clust f) l ->
  l !! Z.to_nat (k / csize (fs v)) = Some c -> k mod csize (fs v) = 0 ->
  f' = f{{ curr_clust := c; csect := 0 }} -> found_sector v l f k v' l f'.
Proof.
  intros Hh Hn Hs Hc Hl Hk ->. split; [by apply (healthy_same v)|]. split; [done|].
  split; [by apply (chain_same v); [apply Hh| |]|].
  split; [by apply (at_sector_same v)|]. split; [apply same_only_file; [apply Hh|done]|].
  split; [|done]. intros t Hp _. by apply Hs.
Qed.

(** A write at the end of the last cluster. *)
Lemma next_write_new v l f x fuel m : healthy v -> (enough v <= fuel)%nat -> NoDup l ->
  (x = 0 /\ l = [] \/ exists l0, l = l0 ++ [x]) ->
  (forall n, clusters v n -> m n = f{{ org_clust := if x =? 0 then n else org_clust f }}) ->
  whole_chain (entry v) (max_clust (fs v)) (org_clust f) l ->
  (forall n v', create_chain fuel x v = Ok (n, v') ->
    next_write fuel (mk_file_world f v) =
      if n =? 0 then Ok (FR_DENIED, mk_file_world f v') else enter_cluster n (mk_file_world (m n) v')) ->
  next_result v l f (csize (fs v) * Z.of_nat (length l)) fuel.
Proof.
  intros Hh Hf Hn Hx Hm Hc Hnext.
  destruct (extend_chain v x fuel Hh Hf) as (n & v' & E & Hr).
  { destruct Hx as [[-> _]|[l0 ->]]; [by left|right].
    destruct Hc as [[E _]|(_ & e & Hp & He)]; [by destruct l0|].
    assert ((l0 ++ [x]) !! length l0 = Some x) as Hl by (rewrite lookup_app_r, Nat.sub_diag by done; done).
    destruct (path_lookup _ _ _ _ _ _ _ Hp Hl) as (H1 & _ & H2).
    rewrite lookup_ge_None_2 in H2 by (rewrite length_app; simpl; lia). simpl in H2.
    split; [done|lia]. }
  specialize (Hnext n v' E). destruct Hr as [(-> & Hfull & Hs)|(Hcl & He & Ht)].
  - exists FR_DENIED, f, v'. split; [done|]. by left.
  - pose proof (healthy_taken v x n v' Hh Hcl Ht) as Hh'. pose proof Hcl as Hcl'. unfold clusters in Hcl'.
    destruct (geo_inv _ _ (ss_geo _ _ (proj1 Ht))) as (_ & _ & _ & Emc & _ & _ & Ecs & _).
    destruct (Z.eqb_spec n 0); [lia|].
    rewrite enter_cluster_run in Hnext; [|unfold clusters; lia|apply Hh'].
    do 3 eexists. split; [exact Hnext|]. right. split; [done|]. exists (l ++ [n]).
    rewrite (Hm n Hcl). pose proof (da_csize _ _ (proj2 (h_sound _ Hh))).
    assert (at_sector v' (l ++ [n]) (f{{ org_clust := if x =? 0 then n else org_clust f;
              curr_clust := n; csect := 0 }}) (csize (fs v) * Z.of_nat (length l))) as Hat.
    { split; rewrite Ecs, Z.mul_comm; [|simpl; by rewrite Z.mod_mul by lia].
      rewrite Z.div_mul by lia. rewrite Nat2Z.id, lookup_app_r, Nat.sub_diag by lia. done. }
    assert (data_kept v v') as Hdk by (exact (ss_view _ _ (proj1 Ht))).
    destruct Hx as [[-> ->]|[l0 ->]].
    + split; [done|]. split; [apply NoDup_singleton|].
      split; [|split; [done|split; [|split; [exact Hdk|done]]]].
      * right. split; [done|]. exists (entry v' n). destruct Ht as (_ & _ & _ & Ht).
        assert (entry v' n = type_mask (fs_type (fs v))) as Em by (by rewrite Ht, Z.eqb_refl).
        pose proof (g_clust _ _ (v_geo _ (proj1 (h_sound _ Hh)))). rewrite Emc.
        split; [|lia]. apply path_link; [done|simpl; lia|apply path_end].
      * apply (taken_only_file v 0); [done|done|by left|done].
    + destruct (taken_chain v (org_clust f) l0 x n v' Hh Hn Hc Hcl He Ht) as [Hc' Hn'].
      assert (x <> 0) as Hx0.
      { destruct Hc as [[E' _]|(_ & e & Hp & _)]; [by destruct l0|].
        apply path_range in Hp. apply Forall_app in Hp as [_ Hp]. apply Forall_cons in Hp. lia. }
      destruct (Z.eqb_spec x 0); [done|].
      split; [done|]. split; [done|]. split; [done|]. split; [done|].
      split; [|split; [exact Hdk|done]]. apply (taken_only_file v x); [done|done| |done]. right. apply elem_of_app. right. by left.
Qed.


(** At the top of the file. *)
Lemma next_write_top v l f fuel : healthy v -> (enough v <= fuel)%nat -> NoDup l ->
  positioned v l f -> fptr f = 0 -> next_result v l f 0 fuel.
Proof.
  intros Hh Hf Hn [Hc _ Htop _ _] E0. specialize (Htop E0).
  pose proof (da_csize _ _ (proj2 (h_sound _ Hh))) as Hcz.
  assert (forall k, next_write fuel (mk_file_world f v) = k <->
    (clst ← (if org_clust f =? 0 then
               c ← zoom (create_chain fuel 0);
               fil_set (fun f => f{{ org_clust := c }}) ;; mret c
             else mret (org_clust f));
     if clst =? 0 then mret FR_DENIED else enter_cluster clst) (mk_file_world f v) = k) as Erun.
  { intros k. unfold next_write. rewrite (bind_ok _ _ _ _ _ (fil_run f v)), (bind_ok _ _ _ _ _ (fs_run f v)).
    destruct (Z.leb_spec (csize (fs v)) (csect f)); [|lia]. by rewrite E0. }
  destruct l as [|c l].
  - assert (org_clust f = 0) as Eo by (destruct Hc as [[_ ?]|[? _]]; done).
    replace 0 with (csize (fs v) * Z.of_nat (length (@nil Z))) by (simpl; lia).
    apply (next_write_new v [] f 0 fuel (fun n => f{{ org_clust := n }})); auto.
    intros n v' E. apply Erun. rewrite Eo. cbn [Z.eqb].
    erewrite bind_ok; [|rewrite (bind_ok _ _ _ _ _ (vol_run _ f v _ _ E)); reflexivity].
    destruct (Z.eqb_spec n 0) as [->|]; [|done]. simpl. destruct f; simpl in *. by subst.
  - assert (c = org_clust f) as -> by (by apply (whole_chain_first _ _ _ _ _ Hc)).
    pose proof (whole_chain_range _ _ _ _ 0%nat _ Hc eq_refl) as Hr.
    exists FR_OK. do 2 eexists. split.
    + apply Erun. destruct (Z.eqb_spec (org_clust f) 0); [lia|].
      rewrite (bind_ok (mret (org_clust f)) _ _ _ (mk_file_world f v) eq_refl).
      destruct (Z.eqb_spec (org_clust f) 0); [lia|]. apply enter_cluster_run; [done|apply Hh].
    + right. split; [done|]. exists (org_clust f :: l).
      apply (found_inside _ _ _ _ _ (org_clust f)); auto.
      apply same_volume_refl, Hh.
Qed.

Lemma next_write_spec v l f fuel : healthy v -> (enough v <= fuel)%nat -> NoDup l ->
  positioned v l f -> fptr f mod 512 = 0 -> next_result v l f (fptr f / 512) fuel.
Proof.
  intros Hh Hf Hn Hpos Hb. destruct (decide (fptr f = 0)) as [E0|E0].
  { rewrite E0. by apply next_write_top. }
  destruct Hpos as [Hc Hp _ Hmid _]. pose proof Hh as [[Hv Hd] _ _ _].
  pose proof (da_csize _ _ Hd) as Hcz. set (k := fptr f / 512) in *.
  destruct (Hmid ltac:(lia)) as [Hl Ec]. simpl in Hl, Ec.
  replace ((fptr f - 1) / 512) with (k - 1) in * by lia.
  assert (0 <= (k - 1) / csize (fs v)) as Hdiv by (apply Z.div_pos; lia).
  destruct (count_up (csize (fs v)) (k - 1)) as [(H1 & H2 & H3)|(H1 & H2 & H3)]; [lia| |];
    replace (k - 1 + 1) with k in * by lia.
  - exists FR_OK, f, v. split.
    + unfold next_write. rewrite (bind_ok _ _ _ _ _ (fil_run f v)), (bind_ok _ _ _ _ _ (fs_run f v)).
      by destruct (Z.leb_spec (csize (fs v)) (csect f)); [lia|].
    + right. split; [done|]. exists l. split; [done|]. split; [done|]. split; [done|].
      split; [split; [by rewrite H2|lia]|]. split; [|done].
      apply same_only_file; [done|by apply same_volume_refl].
  - assert (forall n v', create_chain fuel (curr_clust f) v = Ok (n, v') ->
      next_write fuel (mk_file_world f v) =
        if n =? 0 then Ok (FR_DENIED, mk_file_world f v') else enter_cluster n (mk_file_world f v')) as Hrun.
    { intros n v' E. unfold next_write.
      rewrite (bind_ok _ _ _ _ _ (fil_run f v)), (bind_ok _ _ _ _ _ (fs_run f v)).
      destruct (Z.leb_spec (csize (fs v)) (csect f)); [|lia].
      destruct (Z.eqb_spec (fptr f) 0); [done|]. cbn [negb].
      rewrite (bind_ok _ _ _ _ _ (vol_run _ f v _ _ E)). by destruct (n =? 0). }
    pose proof (whole_chain_range _ _ _ _ _ _ Hc Hl) as Hx.
    set (i := Z.to_nat ((k - 1) / csize (fs v))) in *.
    assert (Z.to_nat (k / csize (fs v)) = S i) as Ei by (unfold i; lia).
    destruct (l !! S i) as [y|] eqn:Hy.
    + pose proof (whole_chain_next _ _ _ _ _ _ _ Hc Hl Hy) as Een.
      pose proof (whole_chain_range _ _ _ _ _ _ Hc Hy) as Hyr.
      destruct (follow_chain v (curr_clust f) fuel Hh Hf Hx) as (v' & E & Hs); [by rewrite Een|].
      rewrite Een in E. pose proof (Hrun y v' E) as Hrun'.
      destruct (Z.eqb_spec y 0); [lia|].
      destruct (geo_inv _ _ (sv_geo _ _ Hs)) as (_ & _ & _ & Emc & _).
      rewrite enter_cluster_run in Hrun';
        [|unfold clusters; lia|by apply (sound_same v); [apply Hh|]].
      do 3 eexists. split; [exact Hrun'|]. right. split; [done|]. exists l.
      apply (found_inside _ _ _ _ _ y); auto. by rewrite Ei.
    + assert (l = take i l ++ [curr_clust f]) as El.
      { rewrite <- (take_S_r _ _ _ Hl). symmetry. apply take_ge. by apply lookup_ge_None. }
      assert (k = csize (fs v) * Z.of_nat (length l)) as ->.
      { apply lookup_lt_Some in Hl. apply lookup_ge_None in Hy.
        assert (k / csize (fs v) = Z.of_nat (length l)) as <- by lia.
        pose proof (Z.div_mod k (csize (fs v)) ltac:(lia)). lia. }
      apply (next_write_new v l f (curr_clust f) fuel (fun _ => f)); auto.
      * right. by exists (take i l).
      * intros n _. destruct (Z.eqb_spec (curr_clust f) 0); [lia|]. by destruct f.
Qed.


(** ** The transfers *)

(** Only the sectors [ts] show something else. *)
Record rewritten v v' (ts : list Z) : Prop := {
  rw_ok : volume_ok v';
  rw_geo : geo (fs v') = geo (fs v);
  rw_info : info (fs v') = info (fs v);
  rw_size : sectors (dsk v') = sectors (dsk v);
  rw_time : fattime v' = fattime v;
  rw_view : forall t, primary (fs v) t -> t ∉ ts -> vsector v' t = vsector v t
}.

Lemma same_rewritten v v' ts : same_volume v v' -> rewritten v v' ts.
Proof. intros []. constructor; auto. Qed.

Lemma rewritten_trans v1 v2 v3 ts : rewritten v1 v2 ts -> rewritten v2 v3 ts -> rewritten v1 v3 ts.
Proof.
  intros [] []. constructor; try congruence.
  intros t Hp Hn. rewrite rw_view1, rw_view0; [done|done|done|by apply (primary_geo (fs v1))|done].
Qed.

(** A window that holds new data of sector [t]. *)
Definition with_window (t : Z) (l : list Z) v : fworld D :=
  mk_fworld ((fs v){{ win := l; wflag := 1; winsect := t }}) (dsk v) (fattime v).

Lemma with_window_spec v t l : volume_ok v -> wflag (fs v) = 0 \/ winsect (fs v) = t ->
  behind (fs v) t -> 0 < t < sectors (dsk v) -> length l = 512%nat -> Forall byte_ok l ->
  rewritten v (with_window t l v) [t] /\ vsector (with_window t l v) t = l.
Proof.
  intros Hv Hw Hb Ht Hl Hbl. split.
  - constructor; try done.
    + destruct Hv. constructor; simpl; try done; [by apply (geometry_geo (fs v))|lia|].
      intros _. by right.
    + intros x Hp Hx%not_elem_of_cons. destruct Hx as [Hx _]. unfold vsector. simpl.
      destruct (Z.eqb_spec t x) as [->|]; [done|]. simpl.
      destruct (Z.eqb_spec (winsect (fs v)) x) as [E|]; [|done].
      destruct (Z.eqb_spec x 0); [done|]. simpl. destruct Hw as [Hw|Hw]; [|congruence].
      rewrite <- E. symmetry. apply (v_clean _ Hv); [done|congruence].
  - apply vsector_window; [lia|done].
Qed.

Lemma mem_cpy_run {W} (l : list Z) p b (w : W) : 0 <= p ->
  p + Z.of_nat (length b) <= Z.of_nat (length l) ->
  mem_cpy l p b w = Ok (blit l (Z.to_nat p) b, w).
Proof.
  intros. unfold mem_cpy.
  by destruct (Z.ltb_spec p 0), (Z.ltb_spec (Z.of_nat (length l)) (p + Z.of_nat (length b))); try lia.
Qed.

Lemma win_run f v : vol_get win (mk_file_world f v) = Ok (win (fs v), mk_file_world f v).
Proof. done. Qed.

Lemma write_partial_run f v v1 btw buff t : dsect f = t -> 0 < btw <= Z.of_nat (length buff) ->
  move_window t v = Ok (FR_OK, v1) -> winsect (fs v1) = t -> length (win (fs v1)) = 512%nat ->
  exists m, write_partial btw buff (mk_file_world f v) =
    Ok (inr (m, take (Z.to_nat m) buff),
        mk_file_world f (with_window t (blit (win (fs v1)) (Z.to_nat (fptr f mod 512))
                                         (take (Z.to_nat m) buff)) v1)) /\
    0 < m <= btw /\ fptr f mod 512 + m <= 512.
Proof.
  intros Et Hb E Hw Hl. destruct (partial_count_run btw f v) as (m & Em & Hm & Hm'); [lia|].
  exists m. split; [|done]. unfold write_partial.
  rewrite (bind_ok _ _ _ _ _ Em), (bind_ok _ _ _ _ _ (fil_run f v)), Et.
  rewrite (bind_ok _ _ _ _ _ (vol_run _ f v _ _ E)). cbn [is_err is_ok negb].
  rewrite (bind_ok _ _ _ (take (Z.to_nat m) buff) (mk_file_world f v1))
    by (rewrite mem_get_run by lia; done).
  rewrite (bind_ok _ _ _ _ _ (win_run f v1)).
  unfold SS. erewrite bind_ok by (apply mem_cpy_run; [lia|rewrite length_take; lia]).
  subst t. by rewrite <- Hw.
Qed.

Lemma blit_bytes l p b : Forall byte_ok l -> Forall byte_ok b -> Forall byte_ok (blit l p b).
Proof.
  intros Hl Hb. unfold blit. apply Forall_app. split; [by apply Forall_take|].
  apply Forall_app. split; [done|by apply Forall_drop].
Qed.

Lemma data_behind v c j : sound v -> clusters v c -> 0 <= j -> behind (fs v) (first_sect (fs v) c + j).
Proof.
  intros [_ []] Hc Hj. unfold behind, first_sect, clusters in *.
  assert (0 <= (c - 2) * csize (fs v)) by (apply Z.mul_nonneg_nonneg; lia). lia.
Qed.

(** Over data that is there already: the rest of the sector is kept. *)
Lemma overwrite_spec v f btw buff t : volume_ok v -> dsect f = t ->
  behind (fs v) t -> 0 < t < sectors (dsk v) ->
  0 < btw <= Z.of_nat (length buff) -> Forall byte_ok buff ->
  exists m v', write_partial btw buff (mk_file_world f v) =
    Ok (inr (m, take (Z.to_nat m) buff), mk_file_world f v') /\
    0 < m <= btw /\ fptr f mod 512 + m <= 512 /\ rewritten v v' [t] /\
    vsector v' t = blit (vsector v t) (Z.to_nat (fptr f mod 512)) (take (Z.to_nat m) buff).
Proof.
  intros Hv Et Hbh Ht Hb Hbb.
  destruct (move_window_spec v t Hv Ht (or_intror Hbh)) as (v1 & E & Hs & Ew & El).
  destruct (vsector_ok v t Hv) as [Hl Hlb].
  destruct (write_partial_run f v v1 btw buff t Et Hb E Ew) as (m & Er & Hm & Hm'); [by rewrite El|].
  destruct (with_window_spec v1 t (blit (vsector v t) (Z.to_nat (fptr f mod 512)) (take (Z.to_nat m) buff)))
    as [Hrw Hvs]; [apply Hs|by right| | | | |].
  - destruct (geo_inv _ _ (sv_geo _ _ Hs)) as (_ & E1 & E2 & _ & E3 & _). unfold behind in *. congruence.
  - by rewrite (sv_size _ _ Hs).
  - rewrite length_blit; [done|]. rewrite length_take. lia.
  - apply blit_bytes; [done|by apply Forall_take].
  - exists m. eexists. rewrite El in Er. split; [exact Er|]. split; [done|]. split; [done|].
    split; [|exact Hvs]. by apply (rewritten_trans _ v1); [apply same_rewritten|].
Qed.


Lemma grow_run f v sect : fsize f <= fptr f -> volume_ok v ->
  exists v1, grow_window sect (mk_file_world f v) =
    Ok (true, mk_file_world f (mk_fworld ((fs v1){{ winsect := sect }}) (dsk v1) (fattime v1))) /\
    same_volume v v1 /\ wflag (fs v1) = 0.
Proof.
  intros Hp Hv. destruct (move_window_zero v Hv) as (v1 & E & Hs & Hw & _). exists v1. split; [|done].
  unfold grow_window. rewrite (bind_ok _ _ _ _ _ (fil_run f v)).
  destruct (Z.ltb_spec (fptr f) (fsize f)); [lia|].
  by rewrite (bind_ok _ _ _ _ _ (vol_run _ f v _ _ E)).
Qed.

(** In a sector that is not read first: the bytes behind those written are arbitrary. *)
Lemma extend_spec f v1 sect btw buff : volume_ok v1 -> wflag (fs v1) = 0 ->
  dsect f = sect -> fptr f mod 512 = 0 ->
  behind (fs v1) sect -> 0 < sect < sectors (dsk v1) ->
  0 < btw <= Z.of_nat (length buff) -> Forall byte_ok buff ->
  exists m v', write_partial btw buff
      (mk_file_world f (mk_fworld ((fs v1){{ winsect := sect }}) (dsk v1) (fattime v1))) =
    Ok (inr (m, take (Z.to_nat m) buff), mk_file_world f v') /\
    0 < m <= btw /\ m <= 512 /\ rewritten v1 v' [sect] /\
    take (Z.to_nat m) (vsector v' sect) = take (Z.to_nat m) buff.
Proof.
  intros Hv Hw Et Hp Hbh Ht Hb Hbb.
  set (v2 := mk_fworld ((fs v1){{ winsect := sect }}) (dsk v1) (fattime v1)).
  assert (move_window sect v2 = Ok (FR_OK, v2)) as E.
  { unfold move_window. rewrite (bind_ok (fget winsect) _ v2 sect v2 eq_refl). by rewrite Z.eqb_refl. }
  pose proof (v_len _ Hv) as Hl.
  destruct (write_partial_run f v2 v2 btw buff sect Et Hb E eq_refl Hl) as (m & Er & Hm & Hm').
  rewrite Hp in Er, Hm'.
  assert (length (take (Z.to_nat m) buff) = Z.to_nat m) as Hlt by (rewrite length_take; lia).
  destruct (with_window_spec v1 sect (blit (win (fs v1)) 0 (take (Z.to_nat m) buff)))
    as [Hrw Hvs]; [done|by left|done|done| | |].
  - rewrite length_blit; [done|]. lia.
  - apply blit_bytes; [by destruct Hv|by apply Forall_take].
  - exists m. eexists. split; [exact Er|]. split; [done|]. split; [lia|]. split; [exact Hrw|].
    etransitivity; [apply (f_equal (take (Z.to_nat m))); exact Hvs|].
    rewrite <- Hlt at 1. apply take_blit.
Qed.

(** Whole sectors. *)
Lemma slice_take l n k : 0 <= k < n -> slice (take (Z.to_nat (512 * n)) l) k = slice l k.
Proof.
  intros Hk. unfold slice. rewrite take_drop_commute, take_take, Nat.min_l by lia.
  by rewrite <- take_drop_commute.
Qed.

Lemma slice_ok l k : 0 <= k -> 512 * (k + 1) <= Z.of_nat (length l) -> Forall byte_ok l ->
  length (slice l k) = 512%nat /\ Forall byte_ok (slice l k).
Proof.
  intros Hk Hl Hb. unfold slice. split.
  - rewrite length_take, length_drop. lia.
  - by apply Forall_take, Forall_drop.
Qed.

(** The window after a direct transfer. *)
Definition refill (t n : Z) (buff : list Z) (s : FATFS) : FATFS :=
  if (t <=? winsect s) && (winsect s <? t + n)
  then s{{ win := slice buff (winsect s - t); wflag := 0 }} else s.

Lemma write_direct_run v d' f t n buff : volume_ok v -> 0 <= t -> 0 < n -> t + n <= sectors (dsk v) ->
  512 * n <= Z.of_nat (length buff) ->
  disk_write (take (Z.to_nat (512 * n)) buff) t (dsk v) = (true, d') ->
  write_direct t n buff (mk_file_world f v) =
  Ok (true, mk_file_world f (mk_fworld (refill t n buff (fs v)) d' (fattime v))).
Proof.
  intros Hv Ht Hn Hs Hl E. unfold write_direct, SS.
  rewrite (bind_ok _ _ _ (take (Z.to_nat (512 * n)) buff) (mk_file_world f v))
    by (rewrite mem_get_run by lia; done).
  rewrite (bind_ok _ _ _ true (mk_file_world f (mk_fworld (fs v) d' (fattime v))))
    by (apply vol_run; unfold dsk_op; by rewrite E).
  cbn [negb]. rewrite (bind_ok _ _ _ _ _ (fs_run f _)). simpl.
  destruct (window_offset v t n Hv) as [Ew Ek]; [lia..|]. rewrite Ew. unfold refill, when.
  destruct (_ && _) eqn:Ein; [|done].
  apply andb_true_iff in Ein as [H1%Z.leb_le H2%Z.ltb_lt]. rewrite Ek by lia.
  erewrite bind_ok; [reflexivity|].
  rewrite (bind_ok _ _ _ (slice buff (winsect (fs v) - t)) (mk_file_world f (mk_fworld (fs v) d' (fattime v)))).
  - done.
  - rewrite mem_get_run by lia. unfold slice. do 2 f_equal. f_equal. f_equal. lia.
Qed.


Lemma in_run t n x : (t <=? x) && (x <? t + n) = true <-> t <= x < t + n.
Proof. rewrite andb_true_iff, Z.leb_le, Z.ltb_lt. done. Qed.

Lemma refill_geo t n buff s : geo (refill t n buff s) = geo s /\ info (refill t n buff s) = info s /\
  winsect (refill t n buff s) = winsect s.
Proof. unfold refill. by destruct (_ && _). Qed.

(** The drive and the window after the transfer of sectors behind the FAT. *)
Lemma refill_ok v d' t n buff : volume_ok v -> behind (fs v) t -> 0 < n ->
  512 * n <= Z.of_nat (length buff) -> Forall byte_ok buff -> sectors d' = sectors (dsk v) ->
  (forall x, contents d' x = if (t <=? x) && (x <? t + n) then slice buff (x - t)
                             else contents (dsk v) x) ->
  volume_ok (mk_fworld (refill t n buff (fs v)) d' (fattime v)).
Proof.
  intros Hv Hbh Hn Hl Hb Es Ec. destruct (refill_geo t n buff (fs v)) as (Eg & _ & Ew).
  pose proof (geo_inv _ _ Eg) as (_ & E1 & E2 & _ & E3 & _).
  assert (forall x, ~ (t <= x < t + n) -> contents d' x = contents (dsk v) x) as Hout.
  { intros x Hx. rewrite Ec. destruct (_ && _) eqn:E; [|done]. by apply in_run in E. }
  destruct Hv as [Hg Hlen Hby Hr Hdirty Hclean Hcop].
  assert (copies_agree (refill t n buff (fs v)) d') as Hcop'.
  { intros k i Hk Hi. rewrite E1, E2, E3 in *. destruct Hg. unfold behind in Hbh.
    assert (k * sects_fat (fs v) <= (n_fats (fs v) - 1) * sects_fat (fs v))
      by (apply Z.mul_le_mono_nonneg_r; lia).
    assert (1 * sects_fat (fs v) <= n_fats (fs v) * sects_fat (fs v))
      by (apply Z.mul_le_mono_nonneg_r; lia).
    rewrite !Hout by lia. by apply Hcop. }
  assert (geometry (refill t n buff (fs v)) (sectors d')) as Hg'
    by (rewrite Es; by apply (geometry_geo (fs v))).
  unfold refill in *. destruct (_ && _) eqn:Ein.
  - pose proof Ein as Ein'. apply in_run in Ein.
    destruct (slice_ok buff (winsect (fs v) - t)) as [Hsl Hsb]; [lia|lia|done|].
    constructor; simpl; try done; [by rewrite Es|].
    intros _ _. by rewrite Ec, Ein'.
  - assert (~ (t <= winsect (fs v) < t + n)) as Hnin by (intros Hin; apply in_run in Hin; congruence).
    constructor; simpl; try done; [by rewrite Es|].
    intros Hw Hne. rewrite Hout by done. auto.
Qed.

Lemma write_direct_spec v f t n buff : volume_ok v -> behind (fs v) t -> 0 <= t -> 0 < n <= 128 ->
  t + n <= sectors (dsk v) -> 512 * n <= Z.of_nat (length buff) -> Forall byte_ok buff ->
  exists v', write_direct t n buff (mk_file_world f v) = Ok (true, mk_file_world f v') /\
    rewritten v v' (seqZ t n) /\
    forall x, 0 < x -> t <= x < t + n -> vsector v' x = slice buff (x - t).
Proof.
  intros Hv Hbh Ht Hn Hs Hl Hb.
  destruct (write_works (dsk v) t n (take (Z.to_nat (512 * n)) buff)) as (d' & E & Es & Ec);
    [done|lia|done|rewrite length_take; lia|by apply Forall_take|].
  assert (forall x, contents d' x = if (t <=? x) && (x <? t + n) then slice buff (x - t)
                             else contents (dsk v) x) as Ec'.
  { intros x. rewrite Ec. destruct (_ && _) eqn:Ein; [|done].
    apply in_run in Ein. by rewrite slice_take by lia. }
  destruct (refill_geo t n buff (fs v)) as (Eg & Ei & Ew).
  exists (mk_fworld (refill t n buff (fs v)) d' (fattime v)).
  split; [apply write_direct_run; done || lia|]. split.
  - constructor; try done; [apply refill_ok; done || lia|].
    intros x Hp Hx. rewrite elem_of_seqZ in Hx. unfold vsector. simpl. rewrite Ew, Ec'.
    destruct ((t <=? x) && (x <? t + n)) eqn:Ein; [by apply in_run in Ein|].
    destruct (Z.eqb_spec (winsect (fs v)) x) as [<-|]; [|done]. unfold refill. by rewrite Ein.
  - intros x Hx0 Hx. unfold vsector. simpl. rewrite Ew, Ec'.
    apply in_run in Hx. rewrite Hx.
    destruct (Z.eqb_spec (winsect (fs v)) x) as [<-|]; [|done]. unfold refill. rewrite Hx.
    by destruct (winsect (fs v) =? 0).
Qed.


(** ** One turn *)

Lemma behind_fat1 v t : volume_ok v -> behind (fs v) t -> ~ fat1 (fs v) t.
Proof.
  intros Hv. destruct (v_geo _ Hv). unfold fat1, behind.
  assert (1 * sects_fat (fs v) <= n_fats (fs v) * sects_fat (fs v))
    by (apply Z.mul_le_mono_nonneg_r; lia). lia.
Qed.

Lemma rewritten_entry v v' ts c : volume_ok v -> rewritten v v' ts ->
  (forall t, t ∈ ts -> behind (fs v) t) -> clusters v c -> entry v' c = entry v c.
Proof.
  intros Hv [] Hts. apply entry_view; [done|done|]. intros t Hf. apply rw_view0.
  - left. unfold fat1 in Hf. lia.
  - intros Hin%Hts. by apply (behind_fat1 v t).
Qed.

Lemma healthy_view v v' : healthy v -> volume_ok v' -> geo (fs v') = geo (fs v) ->
  sectors (dsk v') = sectors (dsk v) -> last_clust (fs v') = last_clust (fs v) ->
  free_clust (fs v') = free_clust (fs v) ->
  (forall c, clusters v c -> entry v' c = entry v c) -> healthy v'.
Proof.
  intros [Hs Hc Hl Hm] Hv' Hg Hsz E1 E2 He. destruct (geo_inv _ _ Hg) as (_ & _ & _ & Emc & _).
  constructor.
  - by apply (sound_geo v).
  - unfold counted in *. by rewrite (frees_ext v v'), E2.
  - by rewrite E1.
  - intros c Hcl. assert (clusters v c) by (unfold clusters in *; by rewrite <- Emc).
    rewrite He by done. auto.
Qed.

Lemma rewritten_healthy v v' ts : healthy v -> rewritten v v' ts ->
  (forall t, t ∈ ts -> behind (fs v) t) -> healthy v'.
Proof.
  intros Hh Hr Hts. pose proof (rw_info _ _ _ Hr) as Ei. unfold info in Ei. injection Ei as E1 E2 E3.
  apply (healthy_view v); try apply Hr; try done.
  intros c. apply (rewritten_entry v v' ts); [apply Hh|done..].
Qed.

Lemma chain_view v v' c l : max_clust (fs v') = max_clust (fs v) ->
  (forall x, clusters v x -> entry v' x = entry v x) ->
  whole_chain (entry v) (max_clust (fs v)) c l -> whole_chain (entry v') (max_clust (fs v')) c l.
Proof.
  intros -> He [?|(Hne & e & Hp & Hme)]; [by left|right]. split; [done|]. exists e. split; [|done].
  apply (path_ext (entry v)); [|done]. intros x Hx. apply He.
  apply path_range in Hp. rewrite Forall_forall in Hp. by apply Hp.
Qed.

Lemma rewritten_chain v v' ts c l : volume_ok v -> rewritten v v' ts ->
  (forall t, t ∈ ts -> behind (fs v) t) ->
  whole_chain (entry v) (max_clust (fs v)) c l -> whole_chain (entry v') (max_clust (fs v')) c l.
Proof.
  intros Hv Hr Hts. destruct (geo_inv _ _ (rw_geo _ _ _ Hr)) as (_ & _ & _ & Emc & _).
  apply chain_view; [done|]. intros x. by apply (rewritten_entry v v' ts).
Qed.

Lemma rewritten_only_file v v' ts l : volume_ok v -> rewritten v v' ts ->
  (forall t, t ∈ ts -> behind (fs v) t /\ t ∈ chain_sects (fs v) l) -> only_file v l v' l.
Proof.
  intros Hv Hr Hts. constructor; try apply Hr; try done.
  - intros c Hc _. apply (rewritten_entry v v' ts); [done|done| |done]. intros. by apply Hts.
  - intros t Hp _ Hn. apply (rw_view _ _ _ Hr); [done|]. intros Hin. by destruct (Hts t Hin).
Qed.

(** The bytes of the file after [n] bytes of [buff] were written at [p]; the file has at
    least [size] bytes. *)
Definition written (old : list Z) (p n size : Z) (buff new : list Z) : Prop :=
  forall i, Z.of_nat i < Z.max size (p + n) ->
    new !! i = if decide (p <= Z.of_nat i < p + n) then buff !! (i - Z.to_nat p)%nat else old !! i.

(** A byte of a chain is a byte of one of its sectors. *)
Lemma file_data_lookup v l i : volume_ok v ->
  file_data v l !! i = chain_sects (fs v) l !! (i / 512)%nat ≫= fun t => vsector v t !! (i mod 512)%nat.
Proof. intros Hv. apply joined_lookup. intros. by apply vsector_length. Qed.

(** Sector [k] of the chain changed from byte [p] of the file on. *)
Lemma written_piece v v' l k t p m buff size : volume_ok v -> rewritten v v' [t] ->
  0 < csize (fs v) -> NoDup l -> chain_sects (fs v) l !! k = Some t ->
  (forall x, x ∈ chain_sects (fs v) l -> primary (fs v) x) ->
  0 <= p -> 0 < m -> p / 512 = Z.of_nat k -> p mod 512 + m <= 512 ->
  (forall j, (j < 512)%nat -> Z.of_nat (512 * k + j) < Z.max size (p + m) ->
    vsector v' t !! j = if decide (p mod 512 <= Z.of_nat j < p mod 512 + m)
                        then buff !! (j - Z.to_nat (p mod 512))%nat else vsector v t !! j) ->
  written (file_data v l) p m size buff (file_data v' l).
Proof.
  intros Hv Hr Hcz Hn Hk Hprim Hp Hm Ek Hmod Hsec i Hi.
  pose proof (Nat.div_mod_eq i 512) as Hdm. pose proof (Nat.mod_upper_bound i 512 ltac:(done)) as Hmb.
  rewrite !file_data_lookup by (done || apply Hr). rewrite (chain_sects_geo _ _ l (rw_geo _ _ _ Hr)).
  destruct (decide (i / 512 = k)%nat) as [<-|Hne].
  - rewrite Hk. cbn [mbind option_bind]. rewrite Hsec by lia.
    destruct (decide (p mod 512 <= Z.of_nat (i mod 512) < p mod 512 + m)),
      (decide (p <= Z.of_nat i < p + m)); try lia; [|done]. f_equal. lia.
  - destruct (decide (p <= Z.of_nat i < p + m)); [lia|].
    destruct (chain_sects (fs v) l !! (i / 512)%nat) as [x|] eqn:Hx; [|done]. cbn [mbind option_bind].
    rewrite (rw_view _ _ _ Hr); [done|apply Hprim; by eapply list_elem_of_lookup_2|].
    intros ->%list_elem_of_singleton. apply Hne.
    by apply (NoDup_lookup _ _ _ _ (chain_sects_nodup _ _ Hcz Hn) Hx).
Qed.

(** Whole sectors from sector [k] on changed. *)
Lemma written_sectors v v' l k t n p buff size : volume_ok v -> rewritten v v' (seqZ t n) ->
  0 < csize (fs v) -> NoDup l ->
  (forall j, 0 <= j < n -> chain_sects (fs v) l !! Z.to_nat (k + j) = Some (t + j)) ->
  (forall x, x ∈ chain_sects (fs v) l -> primary (fs v) x) ->
  0 <= k -> 0 < n -> p = 512 * k ->
  (forall x, t <= x < t + n -> vsector v' x = slice buff (x - t)) ->
  written (file_data v l) p (512 * n) size buff (file_data v' l).
Proof.
  intros Hv Hr Hcz Hn Hk Hprim Hk0 Hn0 -> Hsec i Hi.
  pose proof (Nat.div_mod_eq i 512) as Hdm. pose proof (Nat.mod_upper_bound i 512 ltac:(done)) as Hmb.
  rewrite !file_data_lookup by (done || apply Hr). rewrite (chain_sects_geo _ _ l (rw_geo _ _ _ Hr)).
  destruct (decide (512 * k <= Z.of_nat i < 512 * k + 512 * n)) as [Hin|Hout].
  - replace (i / 512)%nat with (Z.to_nat (k + (Z.of_nat i / 512 - k))) by lia.
    rewrite Hk by lia. cbn [mbind option_bind]. rewrite Hsec by lia.
    rewrite slice_lookup by lia. f_equal. lia.
  - destruct (chain_sects (fs v) l !! (i / 512)%nat) as [x|] eqn:Hx; [|done]. cbn [mbind option_bind].
    rewrite (rw_view _ _ _ Hr); [done|apply Hprim; by eapply list_elem_of_lookup_2|].
    intros Hxr%elem_of_seqZ.
    assert (chain_sects (fs v) l !! Z.to_nat (k + (x - t)) = Some x) as Hx'
      by (rewrite Hk by lia; f_equal; lia).
    pose proof (NoDup_lookup _ _ _ _ (chain_sects_nodup _ _ Hcz Hn) Hx Hx'). lia.
Qed.


(** From [v] with the file [f] in chain [l], [n] bytes of [buff] were written at the pointer. *)
Definition wrote v l f n buff v' l' f' : Prop :=
  healthy v' /\ NoDup l' /\ positioned v' l' (f'{{ fptr := fptr f + n }}) /\
  only_file v l v' l' /\ fixed_w f' = fixed_w f /\
  written (file_data v l) (fptr f) n (fsize f) buff (file_data v' l').

Lemma chain_clusters v c l : whole_chain (entry v) (max_clust (fs v)) c l -> Forall (clusters v) l.
Proof.
  intros Hc. apply Forall_lookup. intros i x Hx. by apply (whole_chain_range _ _ _ _ _ _ Hc Hx).
Qed.

Lemma chain_sectors_data v l t : healthy v -> Forall (clusters v) l -> t ∈ chain_sects (fs v) l ->
  primary (fs v) t /\ ~ fat1 (fs v) t /\ 0 < t < sectors (dsk v) /\ behind (fs v) t.
Proof.
  intros [[Hv Hd] _ _ _] Hl Ht. apply list_elem_of_bind in Ht as (c & Ht & Hc).
  apply elem_of_seqZ in Ht. rewrite Forall_forall in Hl. specialize (Hl c Hc).
  replace t with (first_sect (fs v) c + (t - first_sect (fs v) c)) by lia.
  destruct (data_sector v c (t - first_sect (fs v) c) Hv Hd Hl) as (H1 & H2 & H3); [lia|].
  split; [done|]. split; [done|]. split; [done|]. apply data_behind; [by split|done|lia].
Qed.

(** The sectors [ts] of the file were rewritten. *)
Lemma wrote_sectors v v' l f f' n buff k ts : healthy v -> NoDup l ->
  whole_chain (entry v) (max_clust (fs v)) (org_clust f) l ->
  rewritten v v' ts -> (forall t, t ∈ ts -> t ∈ chain_sects (fs v) l) ->
  fixed_w f' = fixed_w f -> org_clust f' = org_clust f ->
  0 < n -> 0 <= fptr f -> fptr f + n < 4294967296 ->
  at_sector v l (back f') k -> k = (fptr f + n - 1) / 512 ->
  ((fptr f + n) mod 512 <> 0 -> dsect f' = first_sect (fs v) (curr_clust f') + csect f' - 1) ->
  written (file_data v l) (fptr f) n (fsize f) buff (file_data v' l) ->
  wrote v l f n buff v' l f'.
Proof.
  intros Hh Hn Hc Hr Hts Hfix Eo Hn0 Hp Hov Hat -> Hds Hw.
  assert (forall t, t ∈ ts -> behind (fs v) t) as Hb.
  { intros t Ht. by apply (chain_sectors_data v l); [|apply (chain_clusters _ _ _ Hc)|apply Hts]. }
  pose proof (proj1 (h_sound _ Hh)) as Hv.
  destruct (geo_inv _ _ (rw_geo _ _ _ Hr)) as (_ & _ & _ & _ & _ & _ & Ecs & Edb & _).
  split; [by apply (rewritten_healthy v _ ts)|]. split; [done|]. split; [|split; [|by split]].
  - constructor; simpl; [|lia|lia| |].
    + rewrite Eo. by apply (rewritten_chain v _ ts).
    + intros _. unfold at_sector in *. rewrite Ecs. exact Hat.
    + unfold first_sect in *. rewrite Ecs, Edb. exact Hds.
  - apply (rewritten_only_file v v' ts); [done|done|]. intros t Ht. split; [by apply Hb|by apply Hts].
Qed.

(** A piece within the sector of the file pointer. *)
Lemma piece_turn v l f f' k buff btw m v' t : healthy v -> NoDup l ->
  whole_chain (entry v) (max_clust (fs v)) (org_clust f) l ->
  fixed_w f' = fixed_w f -> org_clust f' = org_clust f ->
  at_sector v l (back f') k -> 0 <= k -> k = fptr f / 512 -> 0 <= fptr f ->
  t = first_sect (fs v) (curr_clust f') + csect f' - 1 -> dsect f' = t ->
  fptr f + btw < 4294967296 -> 0 < m <= btw -> fptr f mod 512 + m <= 512 ->
  rewritten v v' [t] ->
  (forall j, (j < 512)%nat -> Z.of_nat (512 * Z.to_nat k + j) < Z.max (fsize f) (fptr f + m) ->
    vsector v' t !! j = if decide (fptr f mod 512 <= Z.of_nat j < fptr f mod 512 + m)
      then buff !! (j - Z.to_nat (fptr f mod 512))%nat else vsector v t !! j) ->
  wrote v l f m buff v' l f'.
Proof.
  intros Hh Hn Hc Hfix Eo Hat Hk0 Hk Hp Ht Hds Hov Hm Hmod Hr Hsec.
  pose proof (da_csize _ _ (proj2 (h_sound _ Hh))) as Hcz.
  assert (whole_chain (entry v) (max_clust (fs v)) (org_clust (back f')) l) as Hc'
    by (change (org_clust (back f')) with (org_clust f'); by rewrite Eo).
  destruct (at_sector_sect v l (back f') k (h_sound _ Hh) Hc' Hat Hk0) as (_ & Hlk & _ & _).
  change (csect (back f')) with (csect f' - 1) in Hlk. rewrite Z.add_sub_assoc in Hlk.
  change (curr_clust (back f')) with (curr_clust f') in Hlk. rewrite <- Ht in Hlk.
  apply (wrote_sectors v v' l f f' m buff k [t]); try done; [|lia|lia|lia|by rewrite Hds|].
  - intros x ->%list_elem_of_singleton. by eapply list_elem_of_lookup_2.
  - apply (written_piece v v' l (Z.to_nat k) t); try done; [apply Hh|lia| |lia|lia].
    intros x Hx. by apply (chain_sectors_data v l); [|apply (chain_clusters _ _ _ Hc)|].
Qed.


(** What a turn can come to when there is room. *)
Definition turn_writes v l f btw buff fuel : Prop :=
  exists n data f' v' l', write_turn fuel btw buff (mk_file_world f v) =
    Ok (inr (n, data), mk_file_world f' v') /\ 0 < n <= btw /\ wrote v l f n buff v' l' f'.

(** A sector that was overwritten in part. *)
Lemma blit_sector v v' t p m buff size k : volume_ok v -> 0 <= p -> 0 < m -> p + m <= 512 ->
  m <= Z.of_nat (length buff) ->
  vsector v' t = blit (vsector v t) (Z.to_nat p) (take (Z.to_nat m) buff) ->
  forall j, (j < 512)%nat -> Z.of_nat (512 * k + j) < size ->
    vsector v' t !! j = if decide (p <= Z.of_nat j < p + m)
      then buff !! (j - Z.to_nat p)%nat else vsector v t !! j.
Proof.
  intros Hv Hp Hm Hpm Hl E j Hj _. rewrite E, blit_lookup by (rewrite vsector_length by done; lia).
  rewrite length_take, Nat.min_l by lia.
  destruct (decide (Z.to_nat p <= j < Z.to_nat p + Z.to_nat m)%nat),
    (decide (p <= Z.of_nat j < p + m)); try lia; [|done].
  apply lookup_take_lt. lia.
Qed.

Lemma write_inside v l f btw buff fuel : healthy v -> NoDup l -> positioned v l f ->
  fptr f mod 512 <> 0 -> 0 < btw <= Z.of_nat (length buff) -> Forall byte_ok buff ->
  fptr f + btw < 4294967296 -> turn_writes v l f btw buff fuel.
Proof.
  intros Hh Hn [Hc Hp _ Hmid Hsec] Hm Hb Hbb Hov. pose proof Hh as [[Hv Hd] _ _ _].
  pose proof (Hmid ltac:(lia)) as Hat.
  replace ((fptr f - 1) / 512) with (fptr f / 512) in Hat by lia.
  destruct (at_sector_sect v l (back f) _ (conj Hv Hd) Hc Hat) as (Hcl & _ & Hcs & _); [lia|].
  simpl in Hcl, Hcs. pose proof (Hsec Hm) as Hds.
  destruct (data_sector v (curr_clust f) (csect f - 1) Hv Hd Hcl Hcs) as (_ & _ & Ht).
  pose proof (data_behind v (curr_clust f) (csect f - 1) (conj Hv Hd) Hcl ltac:(lia)) as Hbh.
  rewrite Z.add_sub_assoc, <- Hds in Ht, Hbh.
  destruct (overwrite_spec v f btw buff (dsect f) Hv eq_refl Hbh Ht Hb Hbb)
    as (m & v' & E & Hm1 & Hm2 & Hr & Hvs).
  exists m, (take (Z.to_nat m) buff), f, v', l. split; [|split; [done|]].
  - unfold write_turn. rewrite (bind_ok _ _ _ _ _ (fil_run f v)). unfold SS.
    by destruct (Z.eqb_spec (fptr f mod 512) 0).
  - apply (piece_turn v l f f (fptr f / 512) buff btw m v' (dsect f)); try done; [lia|lia|].
    apply (blit_sector v); [done|lia|lia|lia|lia|done].
Qed.

(** ** A turn on a sector boundary *)

Lemma flush_run f v : healthy v ->
  exists v', flush_data (mk_file_world f v) = Ok (true, mk_file_world f v') /\ same_volume v v'.
Proof.
  intros Hh. pose proof (proj1 (h_sound _ Hh)) as Hv. unfold flush_data.
  rewrite (bind_ok _ _ _ _ _ (fil_run f v)), (bind_ok _ _ _ _ _ (fs_run f v)).
  destruct (winsect (fs v) =? dsect f).
  - destruct (move_window_zero v Hv) as (v' & E & Hs & _). exists v'. split; [|done].
    by rewrite (bind_ok _ _ _ _ _ (vol_run _ f v _ _ E)).
  - exists v. split; [done|by apply same_volume_refl].
Qed.

(** The whole sectors up to the end of the cluster. *)
Lemma write_whole v l f btw buff k : healthy v -> NoDup l ->
  whole_chain (entry v) (max_clust (fs v)) (org_clust f) l -> at_sector v l f k ->
  0 <= k -> fptr f = 512 * k -> 512 <= btw <= Z.of_nat (length buff) -> Forall byte_ok buff ->
  fptr f + btw < 4294967296 ->
  exists n f' v', write_at (first_sect (fs v) (curr_clust f) + csect f) btw buff (mk_file_world f v) =
    Ok (inr (512 * n, []), mk_file_world f' v') /\ 0 < 512 * n <= btw /\
    wrote v l f (512 * n) buff v' l f'.
Proof.
  intros Hh Hn Hc Hat Hk Ef Hb Hbb Hov. pose proof Hh as [[Hv Hd] _ _ _].
  pose proof (da_csize _ _ Hd) as Hcz.
  destruct (at_sector_sect v l f k (conj Hv Hd) Hc Hat Hk) as (Hcl & Hlk & Hcs & _).
  destruct (clip_count_run (btw / SS) f v) as (n & En & Hcn). unfold SS in *.
  destruct (Hcn ltac:(lia) ltac:(lia)) as [Hn1 Hn2].
  pose proof (data_behind v (curr_clust f) (csect f) (conj Hv Hd) Hcl ltac:(lia)) as Hbh.
  destruct (data_sector v (curr_clust f) (csect f) Hv Hd Hcl Hcs) as (_ & _ & Ht).
  destruct (data_sector v (curr_clust f) (csect f + (n - 1)) Hv Hd Hcl) as (_ & _ & Ht'); [lia|].
  set (t := first_sect (fs v) (curr_clust f) + csect f) in *.
  destruct (write_direct_spec v f t n buff Hv Hbh) as (v' & E & Hr & Hvs);
    [lia|lia|unfold t in *; lia|lia|done|].
  destruct Hat as [Hl Ecs].
  destruct (same_cluster (csize (fs v)) k (n - 1)) as [E1 E2]; [lia..|].
  assert (forall j, 0 <= j < n -> chain_sects (fs v) l !! Z.to_nat (k + j) = Some (t + j)) as Hrun.
  { intros j Hj. unfold t. rewrite <- Z.add_assoc.
    destruct (same_cluster (csize (fs v)) k j) as [E3 E4]; [lia..|].
    pose (fj := f{{ csect := csect f + j }}).
    assert (at_sector v l fj (k + j)) as Hat' by (split; simpl; [by rewrite E3|lia]).
    by destruct (at_sector_sect v l fj (k + j) (conj Hv Hd) Hc Hat' ltac:(lia)) as (_ & ? & _). }
  exists n, (f{{ csect := csect f + n }}), v'. split; [|split; [lia|]].
  - unfold write_at, SS. destruct (Z.eqb_spec (btw / 512) 0); [lia|]. cbn [negb].
    rewrite (bind_ok _ _ _ _ _ En), (bind_ok _ _ _ _ _ E). cbn [negb].
    assert (u8 (csect f + u8 n) = csect f + n) as Eu by (unfold u8; lia).
    unfold fil_set, modify, mbind, M_bind. simpl. by rewrite Eu.
  - apply (wrote_sectors v v' l f _ (512 * n) buff (k + (n - 1)) (seqZ t n));
      try done; [|lia|lia|lia|split; simpl; [by rewrite E1|lia]|lia|lia|].
    + intros x Hx%elem_of_seqZ. replace x with (t + (x - t)) by lia.
      apply (list_elem_of_lookup_2 _ (Z.to_nat (k + (x - t)))). apply Hrun. lia.
    + apply (written_sectors v v' l k t n); try done; [lia| |lia|].
      * intros x Hx. by apply (chain_sectors_data v l); [|apply (chain_clusters _ _ _ Hc)|].
      * intros x Hx. apply Hvs; lia.
Qed.


(** ** Steps before the transfer *)

(** What the file held is still there when its chain grew. *)
Lemma file_data_kept v v1 l l1 i : healthy v -> volume_ok v1 -> Forall (clusters v) l ->
  only_file v l v1 l1 -> data_kept v v1 -> Z.of_nat i < capacity v l ->
  file_data v1 l1 !! i = file_data v l !! i.
Proof.
  intros Hh Hv1 Hl Hof Hk Hi. pose proof (proj1 (h_sound _ Hh)) as Hv.
  pose proof (da_csize _ _ (proj2 (h_sound _ Hh))) as Hcz.
  pose proof (Nat.div_mod_eq i 512) as Hdm. pose proof (Nat.mod_upper_bound i 512 ltac:(done)) as Hmb.
  rewrite !file_data_lookup by done. rewrite (chain_sects_geo _ _ l1 (of_geo _ _ _ _ Hof)).
  destruct (of_prefix _ _ _ _ Hof) as [l2 ->].
  assert (chain_sects (fs v) (l ++ l2) = chain_sects (fs v) l ++ chain_sects (fs v) l2) as ->
    by (unfold chain_sects; by rewrite bind_app).
  rewrite lookup_app_l.
  2: { rewrite chain_sects_length by lia. unfold capacity in Hi. nia. }
  destruct (chain_sects (fs v) l !! (i / 512)%nat) as [t|] eqn:Ht; [|done].
  cbn [mbind option_bind]. apply list_elem_of_lookup_2 in Ht.
  destruct (chain_sectors_data v l t Hh Hl Ht) as (Hp & Hf & _). by rewrite Hk.
Qed.

Lemma wrote_after v v1 l l1 f f1 n buff v' f' : healthy v -> volume_ok v1 -> Forall (clusters v) l ->
  only_file v l v1 l1 -> data_kept v v1 -> fixed_w f1 = fixed_w f ->
  fptr f <= capacity v l -> fsize f <= capacity v l -> 0 < n ->
  wrote v1 l1 f1 n buff v' l1 f' -> wrote v l f n buff v' l1 f'.
Proof.
  intros Hh Hv1 Hl Hof Hk Hfix Hc1 Hc2 Hn (H1 & H2 & H3 & H4 & H5 & H6).
  assert (fptr f1 = fptr f /\ fsize f1 = fsize f) as [Ep Es] by (by injection Hfix).
  rewrite Ep in H3, H6. rewrite Es in H6.
  split; [done|]. split; [done|]. split; [done|]. split; [by apply (only_file_trans _ _ v1 l1)|].
  split; [congruence|]. intros i Hi. rewrite H6 by done.
  destruct (decide (fptr f <= Z.of_nat i < fptr f + n)); [done|].
  apply (file_data_kept v v1); try done. lia.
Qed.

Lemma wrote_same v v1 l f n buff v' f' : healthy v -> same_volume v v1 ->
  Forall (clusters v) l -> fptr f <= capacity v l -> fsize f <= capacity v l -> 0 < n ->
  wrote v1 l f n buff v' l f' -> wrote v l f n buff v' l f'.
Proof.
  intros Hh Hs Hl H1 H2 Hn Hw. pose proof (proj1 (h_sound _ Hh)) as Hv.
  apply (wrote_after v v1 l l f f); try done.
  - apply Hs.
  - by apply same_only_file.
  - intros t Hp _. by apply Hs.
Qed.

(** Less than a sector, on a boundary. *)
Lemma write_small v l f btw buff k : healthy v -> NoDup l ->
  whole_chain (entry v) (max_clust (fs v)) (org_clust f) l -> at_sector v l f k ->
  0 <= k -> fptr f = 512 * k -> 0 < btw < 512 -> btw <= Z.of_nat (length buff) ->
  Forall byte_ok buff -> fptr f + btw < 4294967296 ->
  fptr f <= capacity v l -> fsize f <= capacity v l ->
  exists n data f' v', write_at (first_sect (fs v) (curr_clust f) + csect f) btw buff (mk_file_world f v) =
    Ok (inr (n, data), mk_file_world f' v') /\ 0 < n <= btw /\ wrote v l f n buff v' l f'.
Proof.
  intros Hh Hn Hc Hat Hk Ef Hb Hbl Hbb Hov Hc1 Hc2. pose proof Hh as [[Hv Hd] _ _ _].
  pose proof (da_csize _ _ Hd) as Hcz.
  destruct (at_sector_sect v l f k (conj Hv Hd) Hc Hat Hk) as (Hcl & Hlk & Hcs & _).
  pose proof (data_behind v (curr_clust f) (csect f) (conj Hv Hd) Hcl ltac:(lia)) as Hbh.
  destruct (data_sector v (curr_clust f) (csect f) Hv Hd Hcl Hcs) as (_ & _ & Ht).
  set (t := first_sect (fs v) (curr_clust f) + csect f) in *.
  set (f' := f{{ dsect := t; csect := csect f + 1 }} : FIL).
  assert (u8 (csect f + 1) = csect f + 1) as Eu by (unfold u8; lia).
  assert (at_sector v l (back f') k) as Hatb by (destruct Hat; split; simpl; [done|lia]).
  assert (fptr f mod 512 = 0) as Hm0 by lia.
  assert (forall v1, (fil_set (fun f => f{{ dsect := t; csect := u8 (csect f + 1) }}) ;;
      write_partial btw buff) (mk_file_world f v1) = write_partial btw buff (mk_file_world f' v1)) as Erun
    by (intros; unfold fil_set, modify, mbind, M_bind; simpl; by rewrite Eu).
  unfold write_at, SS. destruct (Z.eqb_spec (btw / 512) 0); [|lia]. cbn [negb].
  destruct (decide (fptr f < fsize f)) as [Hin|Hout].
  - destruct (overwrite_spec v f' btw buff t Hv eq_refl Hbh Ht) as (m & v' & E & Hm1 & Hm2 & Hr & Hvs);
      [lia|done|].
    exists m, (take (Z.to_nat m) buff), f', v'. split; [|split; [done|]].
    + rewrite (bind_ok _ _ _ true (mk_file_world f v)).
      * cbn [negb]. by rewrite Erun.
      * unfold grow_window. rewrite (bind_ok _ _ _ _ _ (fil_run f v)).
        by destruct (Z.ltb_spec (fptr f) (fsize f)); [|lia].
    + apply (piece_turn v l f f' k buff btw m v' t); try done; simpl in *; [lia|lia|lia|].
      apply (blit_sector v); [done|lia|lia|lia|lia|done].
  - destruct (grow_run f v t) as (v1 & E1 & Hs & Hw); [lia|done|].
    destruct (geo_inv _ _ (sv_geo _ _ Hs)) as (_ & G1 & G2 & _ & G3 & _ & G4 & G5 & _).
    destruct (extend_spec f' v1 t btw buff) as (m & v' & E & Hm1 & Hm2 & Hr & Hvs);
      [apply Hs|done|done|done|unfold behind in *; congruence|by rewrite (sv_size _ _ Hs)|lia|done|].
    exists m, (take (Z.to_nat m) buff), f', v'. split; [|split; [done|]].
    + rewrite (bind_ok _ _ _ _ _ E1). cbn [negb]. by rewrite Erun.
    + apply (wrote_same v v1); [done|done|by apply (chain_clusters _ _ _ Hc)|done|done|lia|].
      apply (piece_turn v1 l f f' k buff btw m v' t); try done;
        [by apply (healthy_same v)|by apply (chain_same v)|by apply (at_sector_same v)|lia|lia| |lia|].
      * unfold first_sect in *. simpl. rewrite G4, G5. lia.
      * rewrite Hm0. intros j Hj Hj'. destruct (decide (0 <= Z.of_nat j < 0 + m)); [|lia].
        rewrite Nat.sub_0_r. rewrite <- (lookup_take_lt _ (Z.to_nat m)), Hvs by lia.
        apply lookup_take_lt. lia.
Qed.


(** What a turn can come to: bytes are written, or the volume is full. *)
Definition turn_ends v l f btw buff fuel : Prop :=
  turn_writes v l f btw buff fuel \/
  (exists v', write_turn fuel btw buff (mk_file_world f v) = Ok (inl FR_DENIED, mk_file_world f v') /\
    full v /\ fptr f = capacity v l /\ same_volume v v').

Lemma write_at_spec v l f btw buff k : healthy v -> NoDup l ->
  whole_chain (entry v) (max_clust (fs v)) (org_clust f) l -> at_sector v l f k ->
  0 <= k -> fptr f = 512 * k -> 0 < btw <= Z.of_nat (length buff) ->
  Forall byte_ok buff -> fptr f + btw < 4294967296 ->
  fptr f <= capacity v l -> fsize f <= capacity v l ->
  exists n data f' v', write_at (first_sect (fs v) (curr_clust f) + csect f) btw buff (mk_file_world f v) =
    Ok (inr (n, data), mk_file_world f' v') /\ 0 < n <= btw /\ wrote v l f n buff v' l f'.
Proof.
  intros Hh Hn Hc Hat Hk Ef Hb Hbb Hov Hc1 Hc2. destruct (decide (btw < 512)).
  - by apply (write_small v l f btw buff k); try done; lia.
  - destruct (write_whole v l f btw buff k) as (m & f' & v' & E & Hn' & Hw); try done; [lia|].
    by exists (512 * m), [], f', v'.
Qed.

Lemma capacity_prefix v v1 l l1 : geo (fs v1) = geo (fs v) -> 0 <= csize (fs v) ->
  l `prefix_of` l1 -> capacity v l <= capacity v1 l1.
Proof.
  intros Hg Hc [l2 ->]. destruct (geo_inv _ _ Hg) as (_ & _ & _ & _ & _ & _ & Ecs & _).
  unfold capacity. rewrite Ecs, length_app. nia.
Qed.

Lemma write_boundary v l f btw buff fuel : healthy v -> (enough v <= fuel)%nat -> NoDup l ->
  positioned v l f -> fptr f mod 512 = 0 -> 0 < btw <= Z.of_nat (length buff) ->
  Forall byte_ok buff -> fptr f + btw < 4294967296 ->
  fptr f <= capacity v l -> fsize f <= capacity v l -> turn_ends v l f btw buff fuel.
Proof.
  intros Hh Hf Hn Hpos Hm Hb Hbb Hov Hc1 Hc2.
  assert (write_turn fuel btw buff (mk_file_world f v) =
    (r ← next_write fuel;
     if is_err r then mret (inl r)
     else
       ok ← flush_data;
       if negb ok then mret (inl FR_DISK_ERR)
       else
         o ← current_sect;
         match o with
         | None => mret (inl FR_INT_ERR)
         | Some sect => write_at sect btw buff
         end) (mk_file_world f v)) as Et.
  { unfold write_turn. rewrite (bind_ok _ _ _ _ _ (fil_run f v)). unfold SS. by rewrite Hm. }
  destruct (next_write_spec v l f fuel Hh Hf Hn Hpos Hm)
    as (r & f1 & v1 & E & [(-> & Hfull & Ek & -> & Hs)|(-> & l1 & Hh1 & Hn1 & Hch1 & Hat1 & Hof & Hk & Hfix & _)]).
  { right. exists v1. split; [by rewrite Et, (bind_ok _ _ _ _ _ E)|]. split; [done|]. split; [unfold capacity; lia|done]. }
  left. assert (fptr f1 = fptr f /\ fsize f1 = fsize f) as [Ep Es] by (by injection Hfix).
  destruct (flush_run f1 v1 Hh1) as (v2 & E2 & Hs2).
  pose proof (healthy_same v1 v2 Hh1 Hs2) as Hh2.
  assert (whole_chain (entry v2) (max_clust (fs v2)) (org_clust f1) l1) as Hch2
    by (apply (chain_same v1); [apply Hh1|done|done]).
  pose proof (at_sector_same v1 v2 l1 f1 _ Hs2 Hat1) as Hat2.
  assert (0 <= fptr f / 512) as Hk0 by (destruct Hpos; lia).
  pose proof (current_sect_run v2 l1 f1 _ (h_sound _ Hh2) Hch2 Hat2 Hk0) as Ecs.
  pose proof (da_csize _ _ (proj2 (h_sound _ Hh))) as Hcz.
  assert (geo (fs v2) = geo (fs v)) as Hg by (rewrite (sv_geo _ _ Hs2); apply Hof).
  pose proof (capacity_prefix v v2 l l1 Hg ltac:(lia) (of_prefix _ _ _ _ Hof)) as Hcap.
  destruct (write_at_spec v2 l1 f1 btw buff (fptr f / 512) Hh2 Hn1 Hch2 Hat2 Hk0)
    as (n & data & f' & v' & E3 & Hn3 & Hw); [lia|done|done|lia|lia|lia|].
  exists n, data, f', v', l1. split; [|split; [done|]].
  - rewrite Et, (bind_ok _ _ _ _ _ E). cbn [is_err is_ok negb].
    rewrite (bind_ok _ _ _ _ _ E2). cbn [negb]. by rewrite (bind_ok _ _ _ _ _ Ecs).
  - assert (Forall (clusters v) l) as Hcl by (apply (chain_clusters _ (org_clust f)), Hpos).
    apply (wrote_after v v1 l l1 f f1); try done; [apply Hh1|lia|].
    apply (wrote_same v1 v2); try done; [by apply (chain_clusters _ _ _ Hch1)| | |lia].
    + pose proof (capacity_prefix v v1 l l1 (of_geo _ _ _ _ Hof) ltac:(lia) (of_prefix _ _ _ _ Hof)). lia.
    + pose proof (capacity_prefix v v1 l l1 (of_geo _ _ _ _ Hof) ltac:(lia) (of_prefix _ _ _ _ Hof)). lia.
Qed.

(** The pointer is inside of the chain. *)
Lemma positioned_capacity v l f : sound v -> positioned v l f -> fptr f <= capacity v l.
Proof.
  intros Hs [Hc Hp _ Hmid _]. pose proof (da_csize _ _ (proj2 Hs)). unfold capacity.
  destruct (decide (fptr f = 0)) as [->|]; [lia|].
  assert (at_sector v l (back f) ((fptr f - 1) / 512)) as Hat by (apply Hmid; lia).
  destruct (at_sector_sect v l (back f) _ Hs Hc Hat) as (_ & _ & _ & Hk); [lia|]. lia.
Qed.

Lemma write_turn_spec v l f btw buff fuel : healthy v -> (enough v <= fuel)%nat -> NoDup l ->
  positioned v l f -> 0 < btw <= Z.of_nat (length buff) ->
  Forall byte_ok buff -> fptr f + btw < 4294967296 -> fsize f <= capacity v l ->
  turn_ends v l f btw buff fuel.
Proof.
  intros Hh Hf Hn Hpos Hb Hbb Hov Hc2.
  pose proof (positioned_capacity v l f (h_sound _ Hh) Hpos).
  destruct (decide (fptr f mod 512 = 0)); [by apply write_boundary|].
  left. by apply write_inside.
Qed.


(** ** The loop *)

(** The loop from [f] in chain [l] ended after [n] of [btw] bytes. *)
Definition loop_wrote v l f btw n buff v' l' f' : Prop :=
  0 <= n <= btw /\ (n < btw -> full v' /\ fptr f + n = capacity v' l') /\ healthy v' /\ NoDup l' /\ positioned v' l' f' /\
  only_file v l v' l' /\ fixed_w f' = fixed_w (f{{ fptr := fptr f + n }}) /\
  written (file_data v l) (fptr f) n (fsize f) buff (file_data v' l').

Lemma written_nothing old p size buff : written old p 0 size buff old.
Proof. intros i _. destruct (decide (p <= Z.of_nat i < p + 0)); [lia|done]. Qed.

Lemma written_trans old mid new p n m size buff : 0 <= p -> 0 <= n -> 0 <= m ->
  written old p n size buff mid -> written mid (p + n) m size (drop (Z.to_nat n) buff) new ->
  written old p (n + m) size buff new.
Proof.
  intros Hp Hn Hm H1 H2 i Hi. rewrite H2 by lia.
  destruct (decide (p + n <= Z.of_nat i < p + n + m)).
  - destruct (decide (p <= Z.of_nat i < p + (n + m))); [|lia].
    rewrite lookup_drop. f_equal. lia.
  - rewrite H1 by lia.
    destruct (decide (p <= Z.of_nat i < p + n)), (decide (p <= Z.of_nat i < p + (n + m))); (lia || done).
Qed.

Lemma loop_wrote_none v v' l f btw buff : healthy v -> NoDup l -> positioned v l f -> same_volume v v' ->
  0 <= btw -> (0 < btw -> full v /\ fptr f = capacity v l) -> loop_wrote v l f btw 0 buff v' l f.
Proof.
  intros Hh Hn Hpos Hs Hb Hfull. pose proof Hh as [[Hv Hd] _ _ _].
  pose proof (chain_clusters v _ l (p_chain _ _ _ Hpos)) as Hcl.
  destruct (geo_inv _ _ (sv_geo _ _ Hs)) as (_ & _ & _ & Emc & _ & _ & Ecs & Edb & _).
  split; [lia|]. split.
  { intros H1. destruct (Hfull H1) as [Hfl Ecap]. split; [|unfold capacity in *; rewrite Ecs; lia].
    intros c Hc. assert (clusters v c) by (unfold clusters in *; by rewrite <- Emc).
    rewrite (same_entry v) by done. by apply Hfl. }
  split; [by apply (healthy_same v)|]. split; [done|]. split.
  { destruct Hpos. constructor; rewrite ?Ecs; try done; [by apply (chain_same v)| |].
    - intros. apply (at_sector_same v); auto.
    - unfold first_sect in *. by rewrite Ecs, Edb. }
  split; [by apply same_only_file|]. split.
  - rewrite Z.add_0_r. by destruct f.
  - rewrite (same_file_data v v') by done. apply written_nothing.
Qed.

Lemma write_body_run fuel btw bw buff n data f v f1 v1 : btw <> 0 ->
  write_turn fuel btw buff (mk_file_world f v) = Ok (inr (n, data), mk_file_world f1 v1) ->
  0 <= fptr f1 + n < 4294967296 ->
  write_body fuel (btw, bw, buff) (mk_file_world f v) =
  Ok (Continue (btw - n, bw + n, drop (Z.to_nat n) buff), mk_file_world (f1{{ fptr := fptr f1 + n }}) v1).
Proof.
  intros Hb E Hr. unfold write_body. destruct (Z.eqb_spec btw 0); [done|].
  rewrite (bind_ok _ _ _ _ _ E). unfold fil_set, modify, mbind, M_bind. simpl.
  unfold u32. by rewrite Z.mod_small.
Qed.

Lemma loop_wrote_step v l f btw n m buff v1 l1 f1 v' l' f' : 0 < n <= btw -> 0 <= fptr f ->
  wrote v l f n buff v1 l1 f1 ->
  loop_wrote v1 l1 (f1{{ fptr := fptr f1 + n }}) (btw - n) m (drop (Z.to_nat n) buff) v' l' f' ->
  loop_wrote v l f btw (n + m) buff v' l' f'.
Proof.
  intros Hn Hp (H1 & H2 & H3 & H4 & H5 & H6) (L1 & L2 & L3 & L4 & L5 & L6 & L7 & L8).
  assert (fptr f1 = fptr f /\ fsize f1 = fsize f) as [Ep Es] by (by injection H5).
  simpl in L8. rewrite Ep, Es in L8.
  split; [lia|]. split; [intros; destruct L2 as [L2 L2']; [lia|]; simpl in L2'; split; [done|lia]|].
  split; [done|]. split; [done|]. split; [done|].
  split; [by apply (only_file_trans _ _ v1 l1)|]. split.
  - rewrite L7. unfold fixed_w in *. simpl. rewrite Ep. replace (fptr f + n + m) with (fptr f + (n + m)) by lia.
    injection H5. congruence.
  - apply (written_trans _ (file_data v1 l1)); [lia|lia|lia|done|done].
Qed.

Lemma write_loop turns fuel v l f btw bw buff : healthy v -> (enough v <= fuel)%nat -> NoDup l ->
  positioned v l f -> 0 <= btw <= Z.of_nat (length buff) -> Forall byte_ok buff ->
  fptr f + btw < 4294967296 -> fsize f <= capacity v l -> (Z.to_nat btw < turns)%nat ->
  exists n f' v' l', while turns (write_body fuel) (btw, bw, buff) (mk_file_world f v) =
    Ok ((FR_OK, bw + n), mk_file_world f' v') /\ loop_wrote v l f btw n buff v' l' f'.
Proof.
  revert v l f btw bw buff. induction turns as [|turns IH];
    intros v l f btw bw buff Hh Hf Hn Hpos Hb Hbb Hov Hcap Ht; [lia|].
  pose proof (p_ptr _ _ _ Hpos) as Hptr. cbn [while].
  destruct (decide (btw = 0)) as [->|Hne].
  { rewrite (bind_ok _ _ _ (Break (FR_OK, bw)) (mk_file_world f v) eq_refl).
    exists 0, f, v, l. split; [by rewrite Z.add_0_r|].
    apply loop_wrote_none; try done. apply same_volume_refl, Hh. }
  assert (turn_ends v l f btw buff fuel) as [(n & data & f1 & v1 & l1 & E & Hn1 & Hw)|(v' & E & Hfull & Ecap & Hs)]
    by (apply write_turn_spec; (done || lia)).
  - pose proof Hw as (Hh1 & Hnd1 & Hpos1 & Hof & Hfix & _).
    assert (fptr f1 = fptr f /\ fsize f1 = fsize f) as [Ep Es] by (by injection Hfix).
    rewrite (bind_ok _ _ _ _ _ (write_body_run fuel btw bw buff n data f v f1 v1 Hne E ltac:(lia))).
    pose proof (da_csize _ _ (proj2 (h_sound _ Hh))) as Hcz.
    pose proof (capacity_prefix v v1 l l1 (of_geo _ _ _ _ Hof) ltac:(lia) (of_prefix _ _ _ _ Hof)) as Hcp.
    destruct (geo_inv _ _ (of_geo _ _ _ _ Hof)) as (_ & _ & _ & Emc & _).
    destruct (IH v1 l1 (f1{{ fptr := fptr f1 + n }}) (btw - n) (bw + n) (drop (Z.to_nat n) buff))
      as (m & f' & v' & l' & E' & Hl);
      [done|unfold enough in *; by rewrite Emc|done|by rewrite Ep|rewrite length_drop; lia
      |by apply Forall_drop|simpl; lia|simpl; lia|lia|].
    exists (n + m), f', v', l'. split; [rewrite E'; by rewrite Z.add_assoc|].
    apply (loop_wrote_step v l f btw n m buff v1 l1 f1); [done|lia|done|done].
  - exists 0, f, v', l. split.
    + rewrite (bind_ok _ _ _ (Break (FR_OK, bw)) (mk_file_world f v')); [by rewrite Z.add_0_r|].
      unfold write_body. destruct (Z.eqb_spec btw 0); [done|]. by rewrite (bind_ok _ _ _ _ _ E).
    + apply loop_wrote_none; try done. lia.
Qed.


(** ** The room that is left *)

(** What the volume has room for in a file with the chain [l]. *)
Definition room v (l : list Z) : Z := capacity v l + 512 * (csize (fs v) * frees v).

Lemma chain_entries v c l x : whole_chain (entry v) (max_clust (fs v)) c l -> x ∈ l -> entry v x <> 0.
Proof.
  intros [[-> _]|(_ & e & Hp & _)] Hx; [by apply elem_of_nil in Hx|].
  induction Hp as [|c l e Hc Hf Hp IH]; [by apply elem_of_nil in Hx|].
  apply elem_of_cons in Hx as [->|]; [lia|by apply IH].
Qed.

(** The file grows into free clusters: what it gains the volume has less. *)
Lemma only_file_frees v l v' l' c c' : only_file v l v' l' -> NoDup l' ->
  whole_chain (entry v) (max_clust (fs v)) c l -> whole_chain (entry v') (max_clust (fs v')) c' l' ->
  frees v' + Z.of_nat (length l') = frees v + Z.of_nat (length l).
Proof.
  intros [Hg _ _ [k ->] Hfr He _] Hn Hc Hc'. destruct (geo_inv _ _ Hg) as (_ & _ & _ & Emc & _).
  pose proof (chain_clusters _ _ _ Hc') as Hcl. apply NoDup_app in Hn as (_ & Hd & Hk).
  unfold frees, free_count, count_free. rewrite Emc. set (cs := seqZ 2 _).
  assert (filter (fun c => entry v c = 0) cs ≡ₚ filter (fun c => entry v' c = 0) cs ++ k) as ->.
  2: { rewrite !length_app. lia. }
  assert (forall x, x ∈ cs <-> clusters v x) as Hcs
    by (intros x; unfold cs, clusters; rewrite elem_of_seqZ; lia).
  assert (forall x, x ∈ l ++ k -> entry v' x <> 0) as Hne by (intros x; by apply (chain_entries v' c')).
  apply NoDup_Permutation.
  - apply NoDup_filter, NoDup_seqZ.
  - apply NoDup_app. split; [apply NoDup_filter, NoDup_seqZ|]. split; [|done].
    intros x [Hx _]%list_elem_of_filter Hxk. apply (Hne x); [apply elem_of_app; by right|done].
  - intros x. rewrite elem_of_app, !list_elem_of_filter, Hcs. split.
    + intros [Hx Hxc]. destruct (decide (x ∈ k)) as [|Hxk]; [by right|left]. split; [|done].
      rewrite He; [done|done|]. intros [Hl|]%elem_of_app; [|done]. by apply (chain_entries v c l x).
    + intros [[Hx Hxc]|Hx].
      * split; [|done]. rewrite <- He; [done|done|]. intros Hin. by apply (Hne x).
      * assert (x ∉ l) as Hnl by (intros Hl; by apply (Hd x)).
        destruct (Hfr x) as [H1 H2]; [apply elem_of_app; by right|done|]. done.
Qed.

Lemma only_file_room v l v' l' c c' : only_file v l v' l' -> NoDup l' ->
  whole_chain (entry v) (max_clust (fs v)) c l -> whole_chain (entry v') (max_clust (fs v')) c' l' ->
  room v' l' = room v l.
Proof.
  intros Ho Hn Hc Hc'. pose proof (only_file_frees v l v' l' c c' Ho Hn Hc Hc').
  destruct (geo_inv _ _ (of_geo _ _ _ _ Ho)) as (_ & _ & _ & _ & _ & _ & Ecs & _).
  unfold room, capacity. rewrite Ecs, <- !Z.mul_add_distr_l. do 2 f_equal. lia.
Qed.

Lemma full_room v l : full v -> room v l = capacity v l.
Proof.
  intros Hf. unfold room, frees, free_count, count_free.
  destruct (filter _ _) as [|x xs] eqn:E; [simpl; lia|].
  assert (x ∈ filter (fun c => entry v c = 0) (seqZ 2 (max_clust (fs v) - 2))) as Hx
    by (rewrite E; by left).
  apply list_elem_of_filter in Hx as [Hx Hin%elem_of_seqZ]. destruct (Hf x); [unfold clusters; lia|done].
Qed.

Lemma room_capacity v l : sound v -> capacity v l <= room v l.
Proof.
  intros [Hv Hd]. pose proof (frees_bound v Hv). pose proof (da_csize _ _ Hd).
  unfold room. assert (0 <= csize (fs v) * frees v) by (apply Z.mul_nonneg_nonneg; lia). lia.
Qed.

(** ** [f_write] *)

(** What the file holds: the bytes of its chain up to its size. *)
Definition contents_of v (l : list Z) (f : FIL) : list Z :=
  take (Z.to_nat (fsize f)) (file_data v l).

Lemma contents_length v l f : volume_ok v -> 0 <= csize (fs v) -> 0 <= fsize f <= capacity v l ->
  Z.of_nat (length (contents_of v l f)) = fsize f.
Proof.
  intros Hv Hc Hf. unfold contents_of, file_data. rewrite length_take.
  rewrite joined_length by (intros; by apply vsector_length). rewrite chain_sects_length by done.
  unfold capacity in Hf. nia.
Qed.

Lemma written_contents v v' l l' f f' n buff : volume_ok v -> volume_ok v' ->
  0 <= csize (fs v) -> csize (fs v') = csize (fs v) -> fsize f <= capacity v l ->
  0 <= fptr f <= fsize f -> 0 <= n <= Z.of_nat (length buff) ->
  fsize f' = Z.max (fsize f) (fptr f + n) ->
  written (file_data v l) (fptr f) n (fsize f) buff (file_data v' l') ->
  contents_of v' l' f' = blit (contents_of v l f) (Z.to_nat (fptr f)) (take (Z.to_nat n) buff).
Proof.
  intros Hv Hv' Hcz Ecs Hcap Hp Hn Ef Hw.
  pose proof (contents_length v l f Hv Hcz ltac:(lia)) as Hlen.
  apply list_eq. intros i. rewrite blit_lookup, length_take by lia. rewrite Nat.min_l by lia.
  unfold contents_of at 1. destruct (decide (Z.of_nat i < fsize f')) as [Hi|Hi].
  - rewrite lookup_take_lt by lia. rewrite Hw by lia.
    destruct (decide (fptr f <= Z.of_nat i < fptr f + n)),
      (decide (Z.to_nat (fptr f) <= i < Z.to_nat (fptr f) + Z.to_nat n)%nat); try lia.
    + symmetry. apply lookup_take_lt. lia.
    + unfold contents_of. symmetry. apply lookup_take_lt. lia.
  - rewrite lookup_take_ge by lia.
    destruct (decide (Z.to_nat (fptr f) <= i < Z.to_nat (fptr f) + Z.to_nat n)%nat); [lia|].
    symmetry. apply lookup_ge_None. lia.
Qed.

(** After [n] bytes were written the volume is sound, the file open and longer if needed,
    and its bytes at the pointer are those of the buffer. *)
Definition file_written v l f n buff v' l' f' : Prop :=
  healthy v' /\ NoDup l' /\ open_file v' l' f' /\ only_file v l v' l' /\
  fptr f' = fptr f + n /\ fsize f' = Z.max (fsize f) (fptr f + n) /\
  flag f' = Z.lor (flag f) FA__WRITTEN /\ dir_sect f' = dir_sect f /\ dir_ptr f' = dir_ptr f /\
  contents_of v' l' f' = blit (contents_of v l f) (Z.to_nat (fptr f)) (take (Z.to_nat n) buff).

Lemma flag_written fl : Z.land fl FA__ERROR = 0 -> Z.land (Z.lor fl FA__WRITTEN) FA__ERROR = 0.
Proof. intros E. by rewrite Z.land_lor_distr_l, E. Qed.

Lemma loop_file_written v l f btw n buff v' l' f' : healthy v -> open_file v l f ->
  0 <= btw <= Z.of_nat (length buff) -> fsize f + btw < 4294967296 ->
  loop_wrote v l f btw n buff v' l' f' ->
  file_written v l f n buff v' l'
    (f'{{ fsize := if fsize f' <? fptr f' then fptr f' else fsize f';
          flag := Z.lor (flag f') FA__WRITTEN }}).
Proof.
  intros Hh [Hs Hpos (Hsz1 & Hsz2 & Hsz3) [Hfs1 Hfs2] Hfl] Hb Hov (L1 & _ & L3 & L4 & L5 & L6 & L7 & L8).
  pose proof (p_ptr _ _ _ Hpos) as Hptr. pose proof (da_csize _ _ (proj2 Hs)) as Hcz.
  injection L7 as E1 E2 E3 E4 E5 E6 E7. simpl in *.
  pose proof (positioned_capacity v' l' f' (h_sound _ L3) L5) as Hpc.
  pose proof (capacity_prefix v v' l l' (of_geo _ _ _ _ L6) ltac:(lia) (of_prefix _ _ _ _ L6)) as Hcp.
  destruct (geo_inv _ _ (of_geo _ _ _ _ L6)) as (_ & _ & _ & _ & _ & _ & Ecs & _ & _ & _ & Eid).
  assert ((if fsize f' <? fptr f' then fptr f' else fsize f') = Z.max (fsize f) (fptr f + n)) as Esz.
  { rewrite E4, E5. destruct (Z.ltb_spec (fsize f) (fptr f + n)); lia. }
  split; [done|]. split; [done|]. split; [|split; [done|]].
  - constructor; simpl; [apply L3| | | |].
    + destruct L5. by constructor.
    + rewrite Esz, E4. lia.
    + by rewrite E1, E2, Eid.
    + rewrite E3. by apply flag_written.
  - simpl. split; [done|]. split; [exact Esz|]. split; [by rewrite E3|]. split; [done|].
    split; [done|]. apply (written_contents v v' l l' f); try done; [apply Hs|apply L3|lia|lia|lia].
Qed.

Lemma f_write_spec v l f buff btw turns fuel : healthy v -> NoDup l -> open_file v l f ->
  Z.land (flag f) FA_WRITE <> 0 -> Z.land (disk_status (dsk v)) STA_NOINIT = 0 ->
  0 <= btw <= Z.of_nat (length buff) -> Forall byte_ok buff -> fsize f + btw < 4294967296 ->
  (enough v <= fuel)%nat -> (Z.to_nat btw < turns)%nat ->
  exists n f' v' l', f_write turns fuel buff btw (mk_file_world f v) =
    Ok ((FR_OK, n), mk_file_world f' v') /\
    0 <= n <= btw /\ (n < btw -> full v' /\ fptr f' = capacity v' l') /\ file_written v l f n buff v' l' f'.
Proof.
  intros Hh Hn Ho Hfw Hst Hb Hbb Hov Hf Ht.
  pose proof Ho as [Hs Hpos (Hsz1 & Hsz2 & Hsz3) _ Hfl]. pose proof (p_ptr _ _ _ Hpos) as Hptr.
  destruct (write_loop turns fuel v l f btw 0 buff) as (n & f' & v' & l' & E & Hl);
    [done..|lia|done|done|].
  pose proof (loop_file_written v l f btw n buff v' l' f' Hh Ho Hb Hov Hl) as Hw.
  exists n. do 2 eexists. exists l'. split; [|split; [apply Hl|split; [|exact Hw]]].
  - unfold f_write. rewrite (bind_ok _ _ _ _ _ (validate_fil_ok v l f Ho Hst)).
    cbn [is_err is_ok negb]. rewrite (bind_ok _ _ _ _ _ (fil_run f v)), Hfl. cbn [Z.eqb negb].
    destruct (Z.eqb_spec (Z.land (flag f) FA_WRITE) 0); [done|].
    assert (u32 (fsize f + btw) = fsize f + btw) as -> by (apply Z.mod_small; lia).
    destruct (Z.ltb_spec (fsize f + btw) (fsize f)); [lia|].
    rewrite (bind_ok _ _ _ _ _ E). reflexivity.
  - intros Hlt. destruct Hl as (_ & Hl & _), Hw as (_ & _ & _ & _ & -> & _). by apply Hl.
Qed.

End Write.
