(* ===== verification/FatSeekFacts.v ===== *)
(** * Seeking and flushing

    [f_lseek] moves the pointer to any offset in the file, from the current cluster or from
    the start of the chain, so that reading goes on from there; [f_sync] brings the file
    and its directory entry to the drive. *)

From S2P Require Import Prelude Fat FatTable FatFacts FatChain FatData FatFile FatReadFacts FatWriteFacts.

Section Seek.
Context {D : Type} `{WorkingDisk D}.
Implicit Types v : fworld D.

(** [~(bcs - 1)] in 32 bits clears the offset in a cluster. *)
Lemma land_cluster p e : 0 <= p < 4294967296 -> 0 <= e <= 16 ->
  Z.land p (u32 (Z.lnot (2 ^ e - 1))) = 2 ^ e * (p / 2 ^ e).
Proof.
  intros Hp He. assert (0 < 2 ^ e) by (apply Z.pow_pos_nonneg; lia).
  assert (Z.land p (u32 (Z.lnot (2 ^ e - 1))) = Z.ldiff p (Z.ones e)) as ->.
  - apply Z.bits_inj'. intros i Hi. rewrite Z.land_spec, Z.ldiff_spec.
    rewrite Z.ones_equiv, <- Z.sub_1_r. unfold u32. change 4294967296 with (2 ^ 32) in *.
    destruct (Z.ltb_spec i 32).
    + rewrite Z.mod_pow2_bits_low, Z.lnot_spec by lia. done.
    + rewrite Z.mod_pow2_bits_high, andb_false_r by lia.
      rewrite <- (Z.mod_small p (2 ^ 32)), Z.mod_pow2_bits_high by lia. done.
  - rewrite Z.ldiff_ones_r by lia. rewrite Z.shiftl_mul_pow2, Z.shiftr_div_pow2 by lia. lia.
Qed.

(** The pointer stands at the start of cluster [q] of the chain. *)
Record at_cluster v (l : list Z) (f : FIL) (q : Z) : Prop := {
  ac_chain : whole_chain (entry v) (max_clust (fs v)) (org_clust f) l;
  ac_ptr : 0 <= q /\ fptr f = 512 * csize (fs v) * q;
  ac_clust : l !! Z.to_nat q = Some (curr_clust f)
}.

(** What seeking does not change. *)
Definition fixed_s (f : FIL) :=
  (fil_fs f, fil_id f, flag f, fsize f, org_clust f, dsect f, dir_sect f, dir_ptr f).

Lemma at_cluster_same v v' l f q : sound v -> same_volume v v' ->
  at_cluster v l f q -> at_cluster v' l f q.
Proof.
  intros Hs Hsv []. destruct (geo_inv _ _ (sv_geo _ _ Hsv)) as (_ & _ & _ & _ & _ & _ & Ecs & _).
  constructor; [by apply (chain_same v)|by rewrite Ecs|done].
Qed.

(** The loop follows the chain to the cluster that holds the byte before the offset. *)
Lemma seek_loop turns fuel v l f q rem : healthy v -> (enough v <= fuel)%nat ->
  at_cluster v l f q -> 0 < rem -> 512 * csize (fs v) * q + rem <= capacity v l ->
  fptr f + rem < 4294967296 ->
  (length l < turns + Z.to_nat q)%nat ->
  exists q' rem' f' v',
    while turns (seek_body fuel (csize (fs v) * SS)) (rem, curr_clust f) (mk_file_world f v) =
    Ok (inr (rem', curr_clust f'), mk_file_world f' v') /\
    same_volume v v' /\ at_cluster v' l f' q' /\ fixed_s f' = fixed_s f /\ csect f' = csect f /\
    fptr f' + rem' = fptr f + rem /\ 0 < rem' <= 512 * csize (fs v).
Proof.
  revert v f q rem. induction turns as [|turns IH];
    intros v f q rem Hh Hf Ha Hr Hcap Hov Ht; pose proof Ha as [Hc [Hq Hp] Hl].
  { apply lookup_lt_Some in Hl. lia. }
  pose proof Hh as [[Hv Hd] _ _ _]. pose proof (da_csize _ _ Hd) as Hcz.
  cbn [while]. unfold SS in *. destruct (decide (rem <= csize (fs v) * 512)) as [Hend|Hgo].
  - exists q, rem, f, v. split; [|split; [by apply same_volume_refl|split; [done|]]].
    + rewrite (bind_ok _ _ _ (Break (inr (rem, curr_clust f))) (mk_file_world f v)); [done|].
      unfold seek_body. by destruct (Z.leb_spec rem (csize (fs v) * 512)); [|lia].
    + split; [done|]. split; [done|]. lia.
  - assert (Z.to_nat (q + 1) < length l)%nat as Hlt.
    { unfold capacity in Hcap. assert (q + 1 < Z.of_nat (length l)) by nia. lia. }
    destruct (lookup_lt_is_Some_2 l _ Hlt) as [y Hy].
    replace (Z.to_nat (q + 1)) with (S (Z.to_nat q)) in Hy by lia.
    pose proof (whole_chain_range _ _ _ _ _ _ Hc Hl) as Hcl.
    pose proof (whole_chain_range _ _ _ _ _ _ Hc Hy) as Hyr.
    pose proof (whole_chain_next _ _ _ _ _ _ _ Hc Hl Hy) as Een.
    set (write := negb (Z.land (flag f) FA_WRITE =? 0)).
    assert (exists v', (if write then create_chain fuel (curr_clust f) else get_fat (curr_clust f)) v =
      Ok (y, v') /\ same_volume v v') as (v1 & E & Hs).
    { destruct write.
      - destruct (follow_chain v (curr_clust f) fuel Hh Hf Hcl) as (v1 & E & Hs); [by rewrite Een|].
        rewrite Een in E. by exists v1.
      - destruct (get_fat_spec v (curr_clust f) Hv Hcl) as (v1 & E & Hs).
        rewrite Een in E. by exists v1. }
    destruct (geo_inv _ _ (sv_geo _ _ Hs)) as (_ & _ & _ & Emc & _ & _ & Ecs & _).
    pose proof (type_mask_value (fs_type (fs v))) as Hty. pose proof (g_clust _ _ (v_geo _ Hv)) as Hgc.
    assert (u32 (fptr f + csize (fs v) * 512) = fptr f + csize (fs v) * 512) as Eu
      by (apply Z.mod_small; nia).
    set (f1 := f{{ curr_clust := y; fptr := fptr f + csize (fs v) * 512 }}).
    assert (seek_body fuel (csize (fs v) * 512) (rem, curr_clust f) (mk_file_world f v) =
      Ok (Continue (rem - csize (fs v) * 512, y), mk_file_world f1 v1)) as Ebody.
    { unfold seek_body. destruct (Z.leb_spec rem (csize (fs v) * 512)); [lia|].
      rewrite (bind_ok _ _ _ _ _ (fil_run f v)). fold write.
      rewrite (bind_ok _ _ _ _ _ (vol_run _ f v _ _ E)), (bind_ok _ _ _ _ _ (fs_run f v1)), Emc.
      destruct (Z.eqb_spec y 0), (Z.eqb_spec y 0xFFFFFFFF), (Z.leb_spec y 1),
        (Z.leb_spec (max_clust (fs v)) y); try lia. rewrite andb_false_r. cbn [orb].
      unfold fil_set, modify, mbind, M_bind. simpl. by rewrite Eu. }
    rewrite (bind_ok _ _ _ _ _ Ebody).
    destruct (IH v1 f1 (q + 1) (rem - csize (fs v) * 512)) as (q' & rem' & f' & v' & E' & Hs' & Hac & Hfx & Hcx & Hsum & Hrem').
    + by apply (healthy_same v).
    + unfold enough in *. by rewrite Emc.
    + constructor; simpl; [by apply (chain_same v)|rewrite Ecs; lia|].
      replace (Z.to_nat (q + 1)) with (S (Z.to_nat q)) by lia. done.
    + lia.
    + unfold capacity in *. rewrite Ecs. lia.
    + simpl. lia.
    + lia.
    + exists q', rem', f', v'. rewrite Ecs in *. split; [exact E'|].
      split; [by apply (same_volume_trans _ v1)|]. split; [done|]. split; [done|]. split; [done|].
      simpl in Hsum. lia.
Qed.

(** Where the search starts: in the current cluster, or at the top. *)
Lemma seek_start_spec fuel v l f ifptr ofs e : sound v ->
  csize (fs v) = 2 ^ e -> 0 <= e <= 7 -> whole_chain (entry v) (max_clust (fs v)) (org_clust f) l ->
  l <> [] -> fptr f = 0 ->
  0 <= ifptr < 4294967296 -> 0 < ofs < 4294967296 ->
  (0 < ifptr -> l !! Z.to_nat ((ifptr - 1) / 512 / csize (fs v)) = Some (curr_clust f)) ->
  exists q f',
    seek_start fuel ifptr ofs (csize (fs v) * SS) (mk_file_world f v) =
    Ok (inr (ofs - fptr f', curr_clust f'), mk_file_world f' v) /\
    at_cluster v l f' q /\ fixed_s f' = fixed_s f /\ csect f' = csect f /\ fptr f' < ofs.
Proof.
  intros Hs Ee He Hc Hne Hp0 Hi Ho Hl. pose proof (da_csize _ _ (proj2 Hs)) as Hcz.
  unfold SS. set (bcs := csize (fs v) * 512).
  assert (bcs = 2 ^ (e + 9)) as Ebcs by (unfold bcs; rewrite Ee, Z.pow_add_r by lia; lia).
  unfold seek_start. rewrite (bind_ok _ _ _ _ _ (fil_run f v)).
  rewrite (bind_ok (guard ((ifptr <=? 0) || negb (bcs =? 0)) DivByZero) _ _ tt (mk_file_world f v)).
  2: { unfold bcs. destruct (Z.eqb_spec (csize (fs v) * 512) 0); [lia|]. by rewrite orb_true_r. }
  destruct ((0 <? ifptr) && ((ifptr - 1) / bcs <=? (ofs - 1) / bcs)) eqn:Ecase.
  - apply andb_true_iff in Ecase as [E1%Z.ltb_lt E2%Z.leb_le].
    assert (Z.land (ifptr - 1) (u32 (Z.lnot (bcs - 1))) = bcs * ((ifptr - 1) / bcs)) as Eb
      by (rewrite Ebcs; apply land_cluster; lia).
    pose proof (Z.div_pos (ifptr - 1) bcs ltac:(lia) ltac:(lia)) as Hq.
    pose proof (Z.mul_div_le (ofs - 1) bcs ltac:(lia)) as Hle.
    assert (bcs * ((ifptr - 1) / bcs) <= bcs * ((ofs - 1) / bcs))
      by (apply Z.mul_le_mono_nonneg_l; lia).
    exists ((ifptr - 1) / bcs), (f{{ fptr := bcs * ((ifptr - 1) / bcs) }}).
    split; [|split; [constructor; simpl; [done|split; [done|unfold bcs; lia]|]|split; [done|split; [done|simpl; lia]]]].
    + rewrite Eb. unfold fil_set, modify, mbind, M_bind. simpl.
      unfold u32. by rewrite Z.mod_small by lia.
    + rewrite <- (Hl E1). f_equal. rewrite Z.div_div by lia. by rewrite (Z.mul_comm 512).
  - destruct l as [|c l']; [done|]. pose proof (whole_chain_first _ _ _ _ _ Hc eq_refl) as Ec.
    pose proof (whole_chain_range _ _ _ _ 0%nat _ Hc eq_refl) as Hr. subst c.
    destruct (Z.eqb_spec (org_clust f) 0); [lia|].
    exists 0, (f{{ curr_clust := org_clust f }}).
    split; [|split; [constructor; simpl; [done|lia|done]|split; [done|split; [done|simpl; lia]]]].
    unfold fil_set, modify, mbind, M_bind. simpl. by rewrite Hp0, Z.sub_0_r.
Qed.

(** The position in the last cluster. *)
Lemma seek_end_spec v l f q ofs : sound v -> at_cluster v l f q -> 0 < ofs <= 512 * csize (fs v) ->
  fptr f + ofs < 4294967296 ->
  let f1 := f{{ fptr := fptr f + ofs; csect := (ofs - 1) / 512 + 1 }} in
  let nsect := if ofs mod 512 =? 0 then 0
               else first_sect (fs v) (curr_clust f) + (ofs - 1) / 512 in
  seek_end ofs (curr_clust f) (mk_file_world f v) = Ok (inr nsect, mk_file_world f1 v) /\
  at_sector v l (back f1) ((fptr f1 - 1) / 512).
Proof.
  intros Hs [Hc [Hq Hp] Hl] Ho Hov f1 nsect. pose proof Hs as [Hv Hd].
  pose proof (da_csize _ _ Hd) as Hcz. pose proof (whole_chain_range _ _ _ _ _ _ Hc Hl) as Hcl.
  assert (clusters v (curr_clust f)) as Hcl' by done.
  destruct (clust2sect_run v (curr_clust f) Hv Hd Hcl) as [E Hne].
  destruct (data_sector v (curr_clust f) ((ofs - 1) / 512) Hv Hd Hcl) as (_ & _ & Ht); [lia|].
  pose proof (g_size _ _ (v_geo _ Hv)) as Hg.
  pose proof (Z.mul_nonneg_nonneg (csize (fs v)) q ltac:(lia) ltac:(lia)) as Hcq.
  split.
  - unfold seek_end, fil_set, modify, SS, nsect.
    set (f0 := f{{ fptr := u32 (fptr f + ofs); csect := u8 (ofs / 512) }}).
    rewrite (bind_ok _ _ (mk_file_world f v) tt (mk_file_world f0 v) eq_refl). unfold f0.
    assert (u32 (fptr f + ofs) = fptr f + ofs) as -> by (apply Z.mod_small; lia).
    assert (u8 (ofs / 512) = ofs / 512) as -> by (unfold u8; lia).
    destruct (Z.eqb_spec (ofs mod 512) 0) as [E0|E0].
    + unfold f1. replace ((ofs - 1) / 512 + 1) with (ofs / 512) by lia. done.
    + rewrite (bind_ok _ _ _ _ _ (vol_run _ _ v _ _ E)).
      destruct (Z.eqb_spec (first_sect (fs v) (curr_clust f)) 0); [done|].
      unfold f1. replace ((ofs - 1) / 512) with (ofs / 512) in * by lia.
      assert (u8 (ofs / 512 + 1) = ofs / 512 + 1) as Eu by (unfold u8; lia).
      unfold mbind, M_bind, fil_get, gets. simpl. rewrite Eu.
      unfold mret, M_ret. do 4 f_equal. apply Z.mod_small. lia.
  - assert ((fptr f1 - 1) / 512 = csize (fs v) * q + (ofs - 1) / 512) as Ek.
    { unfold f1. simpl. rewrite Hp. replace (512 * csize (fs v) * q + ofs - 1)
        with ((csize (fs v) * q) * 512 + (ofs - 1)) by lia. rewrite Z.div_add_l by lia. lia. }
    rewrite Ek, Z.mul_comm. unfold at_sector.
    rewrite Z.div_add_l, (Z.div_small ((ofs - 1) / 512)), Z.add_0_r by lia. split; [done|].
    rewrite Z.add_comm, Z.mod_add, Z.mod_small by lia. unfold f1. simpl. lia.
Qed.

(** The whole search, with the pointer at 0. *)
Lemma seek_to_spec turns fuel v l f ifptr ofs e : healthy v -> (enough v <= fuel)%nat ->
  csize (fs v) = 2 ^ e -> 0 <= e <= 7 -> whole_chain (entry v) (max_clust (fs v)) (org_clust f) l ->
  fptr f = 0 -> 0 <= ifptr < 4294967296 -> 0 < ofs < 4294967296 -> ofs <= capacity v l ->
  (0 < ifptr -> l !! Z.to_nat ((ifptr - 1) / 512 / csize (fs v)) = Some (curr_clust f)) ->
  (length l < turns)%nat ->
  exists nsect f' v',
    seek_to turns fuel ifptr ofs (mk_file_world f v) = Ok (inr nsect, mk_file_world f' v') /\
    same_volume v v' /\ fixed_s f' = fixed_s f /\ fptr f' = ofs /\
    at_sector v' l (back f') ((ofs - 1) / 512) /\
    (ofs mod 512 <> 0 -> nsect = first_sect (fs v') (curr_clust f') + csect f' - 1).
Proof.
  intros Hh Hf Ee He Hc Hp0 Hi Ho Hcap Hl Ht. pose proof Hh as [Hs _ _ _].
  assert (l <> []) as Hne by (intros ->; unfold capacity in Hcap; simpl in Hcap; lia).
  destruct (seek_start_spec fuel v l f ifptr ofs e) as (q & f1 & E1 & Ha1 & Hfx1 & Hcs1 & Hlt);
    [done..|]. pose proof (ac_ptr _ _ _ _ Ha1) as [Hq Hp1].
  pose proof (da_csize _ _ (proj2 Hs)) as Hcz.
  destruct (seek_loop turns fuel v l f1 q (ofs - fptr f1)) as
    (q' & rem & f2 & v2 & E2 & Hsv & Ha2 & Hfx2 & Hcs2 & Hsum & Hrem); [done|done|done|lia..|].
  assert (fptr f2 + rem = ofs) as Hsum' by lia.
  pose proof (sound_same v v2 Hs Hsv) as Hs2.
  destruct (geo_inv _ _ (sv_geo _ _ Hsv)) as (_ & _ & _ & _ & _ & _ & Ecs & _).
  destruct (seek_end_spec v2 l f2 q' rem) as [E3 Hat]; [done|done|rewrite Ecs; lia|lia|].
  pose proof (whole_chain_range _ _ _ _ _ _ (ac_chain _ _ _ _ Ha1) (ac_clust _ _ _ _ Ha1)) as Hr1.
  assert (0 <= 512 * csize (fs v2) * q') by (apply Z.mul_nonneg_nonneg; [lia|apply Ha2]).
  eexists _, _, v2. split; [|split; [exact Hsv|split; [|split; [|split]]]].
  - unfold seek_to. rewrite (bind_ok _ _ _ _ _ (fs_run f v)), (bind_ok _ _ _ _ _ E1).
    destruct (Z.eqb_spec (curr_clust f1) 0); [lia|]. rewrite (bind_ok _ _ _ _ _ E2). exact E3.
  - unfold fixed_s in *. simpl. congruence.
  - simpl. exact Hsum'.
  - simpl in Hat. rewrite Hsum' in Hat. exact Hat.
  - intros Hm. simpl. destruct (Z.eqb_spec (rem mod 512) 0) as [E0|E0]; [|lia].
    destruct (ac_ptr _ _ _ _ Ha2) as [_ Hp2]. destruct Hm. rewrite <- Hsum', Hp2, <- Z.mul_assoc.
    rewrite Z.mul_comm, Z.add_comm, Z.mod_add by lia. exact E0.
Qed.

(** The file object [f'] is [f] with the pointer at [ofs]. *)
Definition moved (f : FIL) (ofs : Z) (f' : FIL) : Prop := fixed f' = fixed (f{{ fptr := ofs }}).

Lemma f_lseek_spec turns fuel v l f ofs e : healthy v -> (enough v <= fuel)%nat ->
  csize (fs v) = 2 ^ e -> 0 <= e <= 7 -> open_file v l f ->
  Z.land (disk_status (dsk v)) STA_NOINIT = 0 ->
  0 <= ofs <= fsize f -> (length l < turns)%nat ->
  exists f' v', f_lseek turns fuel ofs (mk_file_world f v) = Ok (FR_OK, mk_file_world f' v') /\
    moved f ofs f' /\ same_volume v v' /\ open_file v' l f'.
Proof.
  intros Hh Hfu Ee He Ho Hst Hofs Ht. pose proof Ho as [Hs Hpos [Hsz1 [Hsz2 Hsz3]] Hfs Hfl].
  pose proof (da_csize _ _ (proj2 Hs)) as Hcz.
  pose proof (p_ptr _ _ _ Hpos) as Hp. pose proof (p_chain _ _ _ Hpos) as Hc.
  set (f0 := f{{ fptr := 0; csect := 255 }}).
  assert (exists nsect f' v',
    (if 0 <? ofs then seek_to turns fuel (fptr f) ofs else mret (inr 0)) (mk_file_world f0 v) =
      Ok (inr nsect, mk_file_world f' v') /\
    same_volume v v' /\ fixed_s f' = fixed_s f /\ fptr f' = ofs /\
    (ofs = 0 -> csect f' = 255) /\
    (0 < ofs -> at_sector v' l (back f') ((ofs - 1) / 512)) /\
    (ofs mod 512 <> 0 -> nsect = first_sect (fs v') (curr_clust f') + csect f' - 1))
    as (nsect & f' & v' & E & Hsv & Hfx & Hptr & Htop & Hmid & Hsec).
  { destruct (Z.ltb_spec 0 ofs) as [Hpo|Hpo].
    - destruct (seek_to_spec turns fuel v l f0 (fptr f) ofs e) as
        (nsect & f' & v' & E & Hsv & Hfx & Hptr & Hmid & Hsec);
        [done|done|done|done|done|done|lia|lia|lia| |done|].
      { intros Hi. by destruct (p_mid _ _ _ Hpos Hi) as [Hl _]. }
      exists nsect, f', v'. split; [done|]. split; [done|]. split; [done|]. split; [done|].
      split; [lia|]. done.
    - exists 0, f0, v. assert (ofs = 0) as -> by lia. split; [done|].
      split; [apply same_volume_refl, Hs|]. split; [done|]. split; [done|]. split; [done|].
      split; [lia|done]. }
  set (f1 := if negb (ofs mod 512 =? 0) && negb (nsect =? dsect f') then f'{{ dsect := nsect }} else f').
  assert (fixed f1 = fixed (f{{ fptr := ofs }}) /\ csect f1 = csect f' /\ curr_clust f1 = curr_clust f' /\
    (ofs mod 512 <> 0 -> dsect f1 = nsect)) as (Hfix & Ecs1 & Ecc1 & Eds1).
  { unfold fixed_s, fixed in *. injection Hfx as F1 F2 F3 F4 F5 F6 F7 F8. unfold f1.
    destruct (Z.eqb_spec (ofs mod 512) 0), (Z.eqb_spec nsect (dsect f')); simpl;
      (split; [congruence|]); (split; [done|]); (split; [done|]); done. }
  pose proof Hfix as Hfix'. injection Hfix' as G1 G2 G3 G4 G5 G6 G7 G8. simpl in *.
  destruct (geo_inv _ _ (sv_geo _ _ Hsv)) as (_ & _ & _ & _ & _ & _ & Ecs & _ & _ & _ & Eid).
  exists f1, v'. split; [|split; [done|split; [done|]]].
  - unfold f_lseek. rewrite (bind_ok _ _ _ _ _ (validate_fil_ok v l f Ho Hst)).
    cbn [is_err is_ok negb]. rewrite (bind_ok _ _ _ _ _ (fil_run f v)), Hfl. cbn [Z.eqb negb].
    destruct (Z.ltb_spec (fsize f) ofs); [lia|]. cbn [andb].
    rewrite (bind_ok (fil_set _) _ (mk_file_world f v) tt (mk_file_world f0 v) eq_refl).
    rewrite (bind_ok _ _ _ _ _ E).
    rewrite (bind_ok (fil_set _) _ (mk_file_world f' v') tt (mk_file_world f1 v'));
      [|unfold fil_set, modify, f1, SS; simpl; by rewrite Hptr].
    rewrite (bind_ok (fil_set _) _ (mk_file_world f1 v') tt (mk_file_world f1 v')); [done|].
    unfold fil_set, modify. simpl. by destruct (Z.ltb_spec (fsize f1) (fptr f1)); [lia|].
  - constructor.
    + by apply (sound_same v).
    + constructor.
      * rewrite G6. by apply (chain_same v).
      * rewrite G4. lia.
      * rewrite G4, Ecs1, Ecs. intros E0. rewrite (Htop E0). lia.
      * rewrite G4. unfold at_sector in *. simpl. rewrite Ecs1, Ecc1. exact Hmid.
      * rewrite G4, Ecs1, Ecc1. intros Hm. rewrite (Eds1 Hm). by apply Hsec.
    + unfold capacity in *. rewrite Ecs. rewrite G4, G5. lia.
    + by rewrite G1, G2, Eid.
    + by rewrite G3.
Qed.

End Seek.
