(* ===== verification/FatGrow.v ===== *)
(** * Seeking behind the end

    [f_lseek] on a file opened for writing follows the chain as far as it reaches and lets
    it grow behind its end, up to the offset or until no cluster is free. *)

From S2P Require Import Prelude Fat FatTable FatFacts FatChain FatData FatFile FatReadFacts FatWriteFacts FatSeekFacts.

Section Grow.
Context {D : Type} `{WorkingDisk D}.
Implicit Types v : fworld D.

(** The volume after the cluster [n] was put behind the chain. *)
Lemma grown_file v c l x n v' : healthy v -> NoDup l ->
  (x = 0 /\ l = [] \/ exists l0, l = l0 ++ [x]) ->
  whole_chain (entry v) (max_clust (fs v)) c l ->
  clusters v n -> entry v n = 0 -> taken v x n v' ->
  healthy v' /\ NoDup (l ++ [n]) /\
  whole_chain (entry v') (max_clust (fs v')) (if x =? 0 then n else c) (l ++ [n]) /\
  only_file v l v' (l ++ [n]) /\ data_kept v v'.
Proof.
  intros Hh Hn Hx Hc Hcl He Ht. split; [by apply (healthy_taken v x n)|].
  assert (data_kept v v') as Hdk by exact (ss_view _ _ (proj1 Ht)).
  destruct Hx as [[-> ->]|[l0 ->]].
  - destruct (geo_inv _ _ (ss_geo _ _ (proj1 Ht))) as (_ & _ & _ & Emc & _).
    split; [apply NoDup_singleton|]. split; [|split; [by apply (taken_only_file v 0); auto|done]].
    right. split; [done|]. exists (entry v' n). pose proof Ht as (_ & _ & _ & Hte).
    assert (entry v' n = type_mask (fs_type (fs v))) as Em by (by rewrite Hte, Z.eqb_refl).
    pose proof (g_clust _ _ (v_geo _ (proj1 (h_sound _ Hh)))). unfold clusters in Hcl. rewrite Emc.
    split; [|lia]. apply path_link; [done|simpl; lia|apply path_end].
  - destruct (taken_chain v c l0 x n v' Hh Hn Hc Hcl He Ht) as [Hc' Hn'].
    assert (x ∈ l0 ++ [x]) as Hin by (apply elem_of_app; right; by left).
    pose proof (chain_clusters v c _ Hc) as Hall. rewrite Forall_forall in Hall.
    pose proof (Hall x Hin) as Hxc. unfold clusters in Hxc.
    destruct (Z.eqb_spec x 0); [lia|]. split; [done|]. split; [done|]. split; [|done].
    apply (taken_only_file v x); auto.
Qed.

(** What seeking does not change, when the chain may begin anew. *)
Definition fixed_k (f : FIL) :=
  (fil_fs f, fil_id f, flag f, fsize f, dsect f, dir_sect f, dir_ptr f).

(** From [v] and [l] to [v'] and [l'] the chain grew, and nothing else happened. *)
Definition grew v l v' l' : Prop :=
  healthy v' /\ NoDup l' /\ only_file v l v' l' /\ data_kept v v'.

Lemma grew_refl v l : healthy v -> NoDup l -> grew v l v l.
Proof.
  intros Hh Hn. split; [done|]. split; [done|]. split; [|by intros ? ? ?].
  apply same_only_file; [apply Hh|apply same_volume_refl, Hh].
Qed.

Lemma grew_same v l v' : healthy v -> NoDup l -> same_volume v v' -> grew v l v' l.
Proof.
  intros Hh Hn Hs. split; [by apply (healthy_same v)|]. split; [done|].
  split; [apply same_only_file; [apply Hh|done]|]. intros t Hp _. by apply Hs.
Qed.

Lemma grew_trans v l v1 l1 v' l' : grew v l v1 l1 -> grew v1 l1 v' l' -> grew v l v' l'.
Proof.
  intros (_ & _ & Ho1 & Hk1) (Hh & Hn & Ho2 & Hk2). split; [done|]. split; [done|].
  split; [by apply (only_file_trans _ _ v1 l1)|]. intros t Hp Hf.
  rewrite Hk2, Hk1; [done|done|done| |].
  - by apply (primary_geo (fs v)); [apply Ho1|].
  - by rewrite (fat1_geo (fs v)) by apply Ho1.
Qed.

Lemma at_cluster_last v l f q : at_cluster v l f q -> l !! S (Z.to_nat q) = None ->
  l = take (Z.to_nat q) l ++ [curr_clust f] /\ Z.of_nat (length l) = q + 1 /\
  max_clust (fs v) <= entry v (curr_clust f).
Proof.
  intros [Hc [Hq _] Hl] Hnone. split.
  - rewrite <- (take_S_r _ _ _ Hl). symmetry. apply take_ge. by apply lookup_ge_None.
  - apply lookup_ge_None in Hnone. pose proof (lookup_lt_Some _ _ _ Hl). split; [lia|].
    destruct Hc as [[-> _]|(_ & e & Hp & He)]; [done|].
    destruct (path_lookup _ _ _ _ _ _ _ Hp Hl) as (_ & _ & E).
    rewrite lookup_ge_None_2 in E by lia. simpl in E. lia.
Qed.

(** One turn of the loop: the next cluster of the chain, a new one, or the volume is full. *)
Lemma grow_step fuel v l f q : healthy v -> (enough v <= fuel)%nat -> NoDup l ->
  at_cluster v l f q ->
  exists y v', create_chain fuel (curr_clust f) v = Ok (y, v') /\
    ((y = 0 /\ full v' /\ Z.of_nat (length l) = q + 1 /\ same_volume v v') \/
     (clusters v y /\ exists l', grew v l v' l' /\
       whole_chain (entry v') (max_clust (fs v')) (org_clust f) l' /\ l' !! Z.to_nat (q + 1) = Some y)).
Proof.
  intros Hh Hf Hn Ha. pose proof Ha as [Hc [Hq Hp] Hl].
  pose proof (whole_chain_range _ _ _ _ _ _ Hc Hl) as Hcl.
  replace (Z.to_nat (q + 1)) with (S (Z.to_nat q)) by lia.
  destruct (l !! S (Z.to_nat q)) as [y|] eqn:Hy.
  - pose proof (whole_chain_next _ _ _ _ _ _ _ Hc Hl Hy) as Een.
    pose proof (whole_chain_range _ _ _ _ _ _ Hc Hy) as Hyr.
    destruct (follow_chain v (curr_clust f) fuel Hh Hf Hcl) as (v' & E & Hs); [by rewrite Een|].
    rewrite Een in E. exists y, v'. split; [done|]. right. split; [done|]. exists l.
    split; [by apply grew_same|]. split; [|done]. by apply (chain_same v); [apply Hh| |].
  - destruct (at_cluster_last v l f q Ha Hy) as (El & Hlen & Hend).
    destruct (extend_chain v (curr_clust f) fuel Hh Hf) as (y & v' & E & Hr); [by right|].
    exists y, v'. split; [done|]. destruct Hr as [(-> & Hfull & Hs)|(Hyc & He & Ht)].
    + left. split; [done|]. split; [|done]. intros c Hcc.
      destruct (geo_inv _ _ (sv_geo _ _ Hs)) as (_ & _ & _ & Emc & _).
      assert (clusters v c) by (unfold clusters in *; by rewrite <- Emc).
      rewrite (same_entry v) by (done || apply Hh). by apply Hfull.
    + right. split; [done|]. exists (l ++ [y]).
      destruct (grown_file v (org_clust f) l (curr_clust f) y v') as (H1 & H2 & H3 & H4 & H5);
        [done|done|by right; eexists|done..|].
      destruct (Z.eqb_spec (curr_clust f) 0); [lia|].
      split; [done|]. split; [done|]. rewrite lookup_app_r by lia.
      by replace (S (Z.to_nat q) - length l)%nat with 0%nat by lia.
Qed.

(** The loop in a file for writing: to the cluster of the offset, or to the last one that
    the volume has. *)
Lemma grow_loop turns fuel v l f q rem : healthy v -> (enough v <= fuel)%nat -> NoDup l ->
  Z.land (flag f) FA_WRITE <> 0 -> at_cluster v l f q -> 0 < rem ->
  fptr f + rem < 4294967296 -> (enough v <= turns + Z.to_nat q)%nat ->
  exists q' rem' c f' v' l',
    while turns (seek_body fuel (csize (fs v) * SS)) (rem, curr_clust f) (mk_file_world f v) =
    Ok (inr (rem', c), mk_file_world f' v') /\
    grew v l v' l' /\ at_cluster v' l' f' q' /\ fixed_s f' = fixed_s f /\ csect f' = csect f /\
    0 < rem' <= 512 * csize (fs v) /\ fptr f' + rem' <= fptr f + rem /\
    (c = curr_clust f' /\ fptr f' + rem' = fptr f + rem \/
     rem' = 512 * csize (fs v) /\ full v' /\ fptr f' + rem' = capacity v' l').
Proof.
  revert v l f q rem. induction turns as [|turns IH];
    intros v l f q rem Hh Hf Hn Hw Ha Hr Hov Ht; pose proof Ha as [Hc [Hq Hp] Hl].
  { apply lookup_lt_Some in Hl.
    pose proof (clusters_bound l (max_clust (fs v)) Hn (chain_clusters _ _ _ Hc)).
    unfold enough in Ht. lia. }
  pose proof Hh as [[Hv Hd] _ _ _]. pose proof (da_csize _ _ Hd) as Hcz. cbn [while]. unfold SS in *.
  destruct (decide (rem <= csize (fs v) * 512)) as [Hend|Hgo].
  - exists q, rem, (curr_clust f), f, v, l. split.
    + rewrite (bind_ok _ _ _ (Break (inr (rem, curr_clust f))) (mk_file_world f v)); [done|].
      unfold seek_body. by destruct (Z.leb_spec rem (csize (fs v) * 512)); [|lia].
    + split; [by apply grew_refl|]. split; [done|]. split; [done|]. split; [done|].
      split; [lia|]. split; [lia|by left].
  - destruct (grow_step fuel v l f q Hh Hf Hn Ha) as (y & v1 & E & Hy).
    assert (forall r, seek_body fuel (csize (fs v) * 512) (rem, curr_clust f) (mk_file_world f v) = r <->
      (let clst := y in
       if clst =? 0 then mret (Break (inr (csize (fs v) * 512, clst)))
       else if clst =? 0xFFFFFFFF then mret (Break (inl FR_DISK_ERR))
       else if (clst <=? 1) || (max_clust (fs v1) <=? clst) then mret (Break (inl FR_INT_ERR))
       else
         fil_set (fun f => f{{ curr_clust := clst; fptr := u32 (fptr f + csize (fs v) * 512) }}) ;;
         mret (Continue (rem - csize (fs v) * 512, clst))) (mk_file_world f v1) = r) as Erun.
    { intros r. unfold seek_body. destruct (Z.leb_spec rem (csize (fs v) * 512)); [lia|].
      rewrite (bind_ok _ _ _ _ _ (fil_run f v)). destruct (Z.eqb_spec (Z.land (flag f) FA_WRITE) 0); [done|].
      cbn [negb andb]. rewrite (bind_ok _ _ _ _ _ (vol_run _ f v _ _ E)), (bind_ok _ _ _ _ _ (fs_run f v1)). done. }
    destruct Hy as [(-> & Hfull & Hlen & Hs)|(Hyc & l1 & Hg & Hc1 & Hl1)].
    + destruct (geo_inv _ _ (sv_geo _ _ Hs)) as (_ & _ & _ & _ & _ & _ & Ecs & _).
      exists q, (512 * csize (fs v)), 0, f, v1, l. split.
      * rewrite (bind_ok _ _ _ (Break (inr (csize (fs v) * 512, 0))) (mk_file_world f v1)).
        -- unfold mret, M_ret. do 4 f_equal. lia.
        -- by apply Erun.
      * split; [by apply grew_same|]. split; [by apply (at_cluster_same v)|]. split; [done|]. split; [done|].
        split; [lia|]. split; [lia|right]. split; [done|]. split; [done|].
        unfold capacity. rewrite Ecs, Hlen, Hp. lia.
    + pose proof Hg as (Hh1 & Hn1 & Ho1 & _).
      destruct (geo_inv _ _ (of_geo _ _ _ _ Ho1)) as (_ & _ & _ & Emc & _ & _ & Ecs & _).
      pose proof (type_mask_value (fs_type (fs v))) as Hty. pose proof (g_clust _ _ (v_geo _ Hv)) as Hgc.
      unfold clusters in Hyc.
      assert (u32 (fptr f + csize (fs v) * 512) = fptr f + csize (fs v) * 512) as Eu
        by (apply Z.mod_small; nia).
      set (f1 := f{{ curr_clust := y; fptr := fptr f + csize (fs v) * 512 }}).
      rewrite (bind_ok _ _ _ (Continue (rem - csize (fs v) * 512, y)) (mk_file_world f1 v1)).
      2: { apply Erun. cbv zeta. rewrite Emc. destruct (Z.eqb_spec y 0), (Z.eqb_spec y 0xFFFFFFFF), (Z.leb_spec y 1),
             (Z.leb_spec (max_clust (fs v)) y); try lia. cbn [orb].
           unfold fil_set, modify, mbind, M_bind. simpl. by rewrite Eu. }
      destruct (IH v1 l1 f1 (q + 1) (rem - csize (fs v) * 512)) as
        (q' & rem' & c & f' & v' & l' & E' & Hg' & Ha' & Hfx & Hcx & Hrem' & Hle & Hcase).
      * done.
      * unfold enough in *. by rewrite Emc.
      * done.
      * done.
      * constructor; simpl; [done|rewrite Ecs; lia|done].
      * lia.
      * simpl. lia.
      * unfold enough in *. rewrite Emc. lia.
      * rewrite Ecs in *. simpl in Hle, Hcase. exists q', rem', c, f', v', l'. split; [exact E'|].
        split; [by apply (grew_trans _ _ v1 l1)|]. split; [done|]. split; [done|]. split; [done|].
        split; [done|]. split; [lia|]. destruct Hcase as [[? ?]|?]; [left; split; [done|lia]|by right].
Qed.

(** Where [f_lseek] comes to with a chain that may grow: the position is the offset, or the
    end of the chain of a full volume. *)
Record arrived v l (f : FIL) ofs (nsect : Z) v' l' (f' : FIL) : Prop := {
  ar_grew : grew v l v' l';
  ar_fixed : fixed_k f' = fixed_k f;
  ar_chain : whole_chain (entry v') (max_clust (fs v')) (org_clust f') l';
  ar_ptr : 0 <= fptr f' <= ofs /\ fptr f' <= capacity v' l';
  ar_full : fptr f' < ofs -> full v' /\ fptr f' = capacity v' l';
  ar_top : fptr f' = 0 -> csect f' = csect f;
  ar_mid : 0 < fptr f' -> at_sector v' l' (back f') ((fptr f' - 1) / 512);
  ar_sect : fptr f' mod 512 <> 0 -> nsect = first_sect (fs v') (curr_clust f') + csect f' - 1
}.

(** On a boundary of sectors the cluster does not matter. *)
Lemma seek_end_clust ofs c c' (w : file_world D) : ofs mod 512 = 0 -> seek_end ofs c w = seek_end ofs c' w.
Proof.
  intros Hm. unfold seek_end, SS, fil_set, modify, mbind, M_bind. simpl. by rewrite Hm.
Qed.

(** The rest of the search, from a cluster of the chain on. *)
Lemma grow_from turns fuel v l f q ofs : healthy v -> (enough v <= fuel)%nat -> NoDup l ->
  Z.land (flag f) FA_WRITE <> 0 -> at_cluster v l f q -> fptr f < ofs -> ofs < 4294967296 ->
  (enough v <= turns)%nat ->
  exists nsect f' v' l',
    (r ← while turns (seek_body fuel (csize (fs v) * SS)) (ofs - fptr f, curr_clust f);
     match r with inl e => mret (inl e) | inr (ofs, clst) => seek_end ofs clst end) (mk_file_world f v) =
    Ok (inr nsect, mk_file_world f' v') /\ arrived v l f ofs nsect v' l' f'.
Proof.
  intros Hh Hf Hn Hw Ha Hlt Hov Ht.
  destruct (grow_loop turns fuel v l f q (ofs - fptr f)) as
    (q' & rem & c & f1 & v1 & l1 & E & Hg & Ha1 & Hfx & Hcx & Hrem & Hle & Hcase);
    [done..|lia|lia|lia|]. pose proof Hg as (Hh1 & Hn1 & Ho1 & _).
  pose proof (h_sound _ Hh1) as Hs1. pose proof (da_csize _ _ (proj2 Hs1)) as Hcz.
  destruct (geo_inv _ _ (of_geo _ _ _ _ Ho1)) as (_ & _ & _ & _ & _ & _ & Ecs & _).
  pose proof (ac_ptr _ _ _ _ Ha1) as [Hq1 Hp1].
  assert (0 <= 512 * csize (fs v1) * q') by (apply Z.mul_nonneg_nonneg; lia).
  destruct (seek_end_spec v1 l1 f1 q' rem Hs1 Ha1) as [Ee Hat]; [rewrite Ecs; lia|lia|].
  assert (seek_end rem c (mk_file_world f1 v1) = seek_end rem (curr_clust f1) (mk_file_world f1 v1)) as Ec.
  { destruct Hcase as [[-> _]|(-> & _)]; [done|]. apply seek_end_clust. lia. }
  pose proof (lookup_lt_Some _ _ _ (ac_clust _ _ _ _ Ha1)) as Hlen.
  assert (fptr f1 + rem <= capacity v1 l1) as Hcap.
  { unfold capacity. rewrite Hp1. rewrite <- Ecs in Hrem.
    assert (csize (fs v1) * (q' + 1) <= csize (fs v1) * Z.of_nat (length l1))
      by (apply Z.mul_le_mono_nonneg_l; lia). lia. }
  rewrite (bind_ok _ _ _ _ _ E). cbv beta iota. rewrite Ec, Ee.
  do 2 eexists. exists v1, l1. split; [done|].
  pose proof Hfx as Hfx'. injection Hfx' as F1 F2 F3 F4 F5 F6 F7 F8.
  constructor; simpl; [done| |exact (ac_chain _ _ _ _ Ha1)|lia| |lia|by intros _|].
  - unfold fixed_k. simpl. congruence.
  - intros Hl. destruct Hcase as [[_ ?]|(_ & ? & ?)]; [lia|done].
  - intros Hm. destruct (Z.eqb_spec (rem mod 512) 0) as [E0|E0]; [|lia]. destruct Hm.
    rewrite Hp1, <- Z.mul_assoc, Z.mul_comm, Z.add_comm, Z.mod_add by lia. exact E0.
Qed.

(** The whole search in a file for writing, with the pointer at 0. *)
Lemma seek_to_grows turns fuel v l f ifptr ofs e : healthy v -> (enough v <= fuel)%nat -> NoDup l ->
  Z.land (flag f) FA_WRITE <> 0 -> csize (fs v) = 2 ^ e -> 0 <= e <= 7 ->
  whole_chain (entry v) (max_clust (fs v)) (org_clust f) l ->
  fptr f = 0 -> 0 <= ifptr < 4294967296 -> ifptr <= capacity v l -> 0 < ofs < 4294967296 ->
  (0 < ifptr -> l !! Z.to_nat ((ifptr - 1) / 512 / csize (fs v)) = Some (curr_clust f)) ->
  (enough v <= turns)%nat ->
  exists nsect f' v' l', seek_to turns fuel ifptr ofs (mk_file_world f v) =
    Ok (inr nsect, mk_file_world f' v') /\ arrived v l f ofs nsect v' l' f'.
Proof.
  intros Hh Hf Hn Hw Ee He Hc Hp0 Hi Hcap Ho Hl Ht. pose proof Hh as [Hs _ _ _].
  pose proof (da_csize _ _ (proj2 Hs)) as Hcz.
  assert (forall r, seek_to turns fuel ifptr ofs (mk_file_world f v) = r <->
    (r ← seek_start fuel ifptr ofs (csize (fs v) * SS);
     match r with
     | inl e => mret (inl e)
     | inr (ofs, clst) =>
         if clst =? 0 then mret (inr 0)
         else
           r ← while turns (seek_body fuel (csize (fs v) * SS)) (ofs, clst);
           match r with inl e => mret (inl e) | inr (ofs, clst) => seek_end ofs clst end
     end) (mk_file_world f v) = r) as Erun.
  { intros r. unfold seek_to. by rewrite (bind_ok _ _ _ _ _ (fs_run f v)). }
  destruct l as [|c0 l0].
  - assert (org_clust f = 0) as Eo by (destruct Hc as [[_ ?]|[? _]]; done).
    unfold capacity in Hcap. simpl in Hcap. assert (ifptr = 0) as -> by lia.
    destruct (extend_chain v 0 fuel Hh Hf) as (n & v1 & E & Hr); [by left|].
    set (f1 := f{{ org_clust := n; curr_clust := n }}).
    assert (seek_start fuel 0 ofs (csize (fs v) * SS) (mk_file_world f v) =
      Ok (inr (ofs, n), mk_file_world f1 v1)) as Es.
    { unfold seek_start. rewrite (bind_ok _ _ _ _ _ (fil_run f v)).
      rewrite (bind_ok (guard ((0 <=? 0) || _) DivByZero) _ (mk_file_world f v) tt (mk_file_world f v) eq_refl).
      cbn [Z.ltb Z.compare andb]. rewrite Eo. cbn [Z.eqb].
      rewrite (bind_ok _ _ _ _ _ (vol_run _ f v _ _ E)).
      assert (n = 0 \/ 2 <= n < 0xFFFFFFFF) as Hnr.
      { destruct Hr as [(-> & _)|(Hcl & _)]; [by left|right]. unfold clusters in Hcl.
        pose proof (type_mask_value (fs_type (fs v))). pose proof (g_clust _ _ (v_geo _ (proj1 Hs))). lia. }
      destruct (Z.eqb_spec n 1), (Z.eqb_spec n 0xFFFFFFFF); try lia. done. }
    destruct Hr as [(-> & Hfull & Hsv)|(Hcl & He0 & Htk)].
    + destruct (geo_inv _ _ (sv_geo _ _ Hsv)) as (_ & _ & _ & Emc & _).
      exists 0, f1, v1, []. split.
      * apply Erun. by rewrite (bind_ok _ _ _ _ _ Es).
      * constructor; simpl; rewrite ?Hp0; [by apply grew_same|done|by left| | |done|lia|done].
        -- unfold capacity. simpl. lia.
        -- intros _. split; [|unfold capacity; simpl; lia].
           intros c Hcc. assert (clusters v c) by (unfold clusters in *; by rewrite <- Emc).
           rewrite (same_entry v) by (done || apply Hs). by apply Hfull.
    + destruct (grown_file v 0 [] 0 n v1 Hh Hn) as (H1 & H2 & H3 & H4 & H5);
        [by left|by left|done..|]. simpl in H3.
      pose proof H4 as H4'. destruct (geo_inv _ _ (of_geo _ _ _ _ H4')) as (_ & _ & _ & Emc & _ & _ & Ecs & _).
      unfold clusters in Hcl.
      destruct (grow_from turns fuel v1 [n] f1 0 ofs) as (nsect & f' & v' & l' & E' & Har);
        [done|unfold enough in *; by rewrite Emc|done|done|constructor; [done|simpl; lia|done]|simpl; lia|lia
        |unfold enough in *; by rewrite Emc|].
      exists nsect, f', v', l'. split.
      * apply Erun. rewrite (bind_ok _ _ _ _ _ Es). destruct (Z.eqb_spec n 0); [lia|].
        rewrite Ecs in E'. simpl in E'. rewrite Hp0, Z.sub_0_r in E'. exact E'.
      * destruct Har. constructor; try done. by apply (grew_trans _ _ v1 [n]).
  - destruct (seek_start_spec fuel v (c0 :: l0) f ifptr ofs e) as (q & f1 & E1 & Ha1 & Hfx1 & Hcs1 & Hlt);
      [done..|].
    pose proof Hfx1 as Hfx'. injection Hfx' as F1 F2 F3 F4 F5 F6 F7 F8.
    destruct (grow_from turns fuel v (c0 :: l0) f1 q ofs) as (nsect & f' & v' & l' & E' & Har);
      [done|done|done|by rewrite F3|done|done|lia|done|].
    pose proof (whole_chain_range _ _ _ _ _ _ (ac_chain _ _ _ _ Ha1) (ac_clust _ _ _ _ Ha1)) as Hr1.
    exists nsect, f', v', l'. split.
    + apply Erun. rewrite (bind_ok _ _ _ _ _ E1). destruct (Z.eqb_spec (curr_clust f1) 0); [lia|]. exact E'.
    + destruct Har. constructor; try done; [|by intros Hz; rewrite ar_top0].
      unfold fixed_k in *. congruence.
Qed.

(** Nothing to search for at the top. *)
Lemma arrived_top v l f : healthy v -> NoDup l -> whole_chain (entry v) (max_clust (fs v)) (org_clust f) l ->
  fptr f = 0 -> arrived v l f 0 0 v l f.
Proof.
  intros Hh Hn Hc Hp. pose proof (da_csize _ _ (proj2 (h_sound _ Hh))).
  constructor; rewrite ?Hp; try done; try (by apply grew_refl).
  unfold capacity. lia.
Qed.

(** The position is exact: the offset, if the volume has room for it. *)
Lemma arrived_room v l f ofs nsect v' l' f' c : arrived v l f ofs nsect v' l' f' ->
  whole_chain (entry v) (max_clust (fs v)) c l -> fptr f' = Z.min ofs (room v l).
Proof.
  intros [(Hh & Hn & Ho & _) _ Hc' [Hp Hcap] Hfull _ _ _] Hc.
  pose proof (only_file_room v l v' l' c (org_clust f') Ho Hn Hc Hc') as Er.
  pose proof (room_capacity v' l' (h_sound _ Hh)).
  destruct (decide (fptr f' < ofs)) as [Hlt|]; [|lia].
  destruct (Hfull Hlt) as [Hf E]. rewrite <- Er, (full_room v' l' Hf), <- E. lia.
Qed.

(** A chain that grew still begins with the data of the file. *)
Lemma grew_contents v l v' l' f f' : grew v l v' l' -> healthy v -> Forall (clusters v) l ->
  0 <= fsize f <= capacity v l -> fsize f <= fsize f' ->
  contents_of v l f = take (Z.to_nat (fsize f)) (contents_of v' l' f').
Proof.
  intros (Hh' & _ & Ho & Hk) Hh Hl Hs Hle. unfold contents_of. rewrite take_take, Nat.min_l by lia.
  apply list_eq. intros i. destruct (decide (i < Z.to_nat (fsize f))%nat).
  - rewrite !lookup_take_lt by done. symmetry.
    apply (file_data_kept v v' l l'); [done|apply Hh'|done|done|done|lia].
  - rewrite !lookup_take_ge by lia. done.
Qed.

(** [f_lseek] in a file for writing. *)
Definition sought v l f ofs v' l' f' : Prop :=
  grew v l v' l' /\ open_file v' l' f' /\ fptr f' = Z.min ofs (room v l) /\
  fsize f' = Z.max (fsize f) (fptr f') /\
  flag f' = (if fsize f <? fptr f' then Z.lor (flag f) FA__WRITTEN else flag f) /\
  dir_sect f' = dir_sect f /\ dir_ptr f' = dir_ptr f /\
  contents_of v l f = take (Z.to_nat (fsize f)) (contents_of v' l' f').

Lemma f_lseek_grows turns fuel v l f ofs e : healthy v -> (enough v <= fuel)%nat -> NoDup l ->
  csize (fs v) = 2 ^ e -> 0 <= e <= 7 -> open_file v l f -> Z.land (flag f) FA_WRITE <> 0 ->
  Z.land (disk_status (dsk v)) STA_NOINIT = 0 -> 0 <= ofs < 4294967296 -> (enough v <= turns)%nat ->
  exists f' v' l', f_lseek turns fuel ofs (mk_file_world f v) = Ok (FR_OK, mk_file_world f' v') /\
    sought v l f ofs v' l' f'.
Proof.
  intros Hh Hfu Hn Ee He Ho Hw Hst Hofs Ht. pose proof Ho as [Hs Hpos [Hsz1 [Hsz2 Hsz3]] Hfs Hfl].
  pose proof (p_ptr _ _ _ Hpos) as Hp. pose proof (p_chain _ _ _ Hpos) as Hc.
  set (f0 := f{{ fptr := 0; csect := 255 }}).
  assert (exists nsect f1 v' l',
    (if 0 <? ofs then seek_to turns fuel (fptr f) ofs else mret (inr 0)) (mk_file_world f0 v) =
      Ok (inr nsect, mk_file_world f1 v') /\ arrived v l f0 ofs nsect v' l' f1)
    as (nsect & f1 & v' & l' & E & Har).
  { destruct (Z.ltb_spec 0 ofs) as [Hpo|Hpo].
    - apply (seek_to_grows turns fuel v l f0 (fptr f) ofs e); try done; [lia|lia|].
      intros Hi. by destruct (p_mid _ _ _ Hpos Hi) as [Hl _].
    - assert (ofs = 0) as -> by lia. exists 0, f0, v, l. split; [done|]. by apply arrived_top. }
  pose proof (arrived_room _ _ _ _ _ _ _ _ _ Har Hc) as Hroom.
  destruct Har as [Hg Hfk Hc1 [Hp1 Hcap] _ Htop Hmid Hsect].
  injection Hfk as F1 F2 F3 F4 F5 F6 F7. simpl in *.
  set (f2 := if negb (fptr f1 mod 512 =? 0) && negb (nsect =? dsect f1) then f1{{ dsect := nsect }} else f1).
  set (f3 := if fsize f2 <? fptr f2 then f2{{ fsize := fptr f2; flag := Z.lor (flag f2) FA__WRITTEN }} else f2).
  assert (fil_fs f3 = fil_fs f /\ fil_id f3 = fil_id f /\ fptr f3 = fptr f1 /\ csect f3 = csect f1 /\
    org_clust f3 = org_clust f1 /\ curr_clust f3 = curr_clust f1 /\ dir_sect f3 = dir_sect f /\
    dir_ptr f3 = dir_ptr f /\ fsize f3 = Z.max (fsize f) (fptr f1) /\
    flag f3 = (if fsize f <? fptr f1 then Z.lor (flag f) FA__WRITTEN else flag f) /\
    (fptr f1 mod 512 <> 0 -> dsect f3 = nsect)) as (G1 & G2 & G3 & G4 & G5 & G6 & G7 & G8 & G9 & G10 & G11).
  { unfold f3, f2. destruct (Z.eqb_spec (fptr f1 mod 512) 0), (Z.eqb_spec nsect (dsect f1)); simpl;
      rewrite ?F3, ?F4; destruct (Z.ltb_spec (fsize f) (fptr f1)); simpl;
      rewrite ?F1, ?F2, ?F3, ?F4, ?F6, ?F7; repeat split; first [done|lia]. }
  pose proof Hg as (Hh' & Hn' & Hof & _).
  pose proof (da_csize _ _ (proj2 Hs)) as Hcz.
  pose proof (capacity_prefix v v' l l' (of_geo _ _ _ _ Hof) ltac:(lia) (of_prefix _ _ _ _ Hof)) as Hcp.
  destruct (geo_inv _ _ (of_geo _ _ _ _ Hof)) as (_ & _ & _ & _ & _ & _ & Ecs & _ & _ & _ & Eid).
  exists f3, v', l'. split; [|split; [done|]].
  - unfold f_lseek. rewrite (bind_ok _ _ _ _ _ (validate_fil_ok v l f Ho Hst)).
    cbn [is_err is_ok negb]. rewrite (bind_ok _ _ _ _ _ (fil_run f v)), Hfl. cbn [Z.eqb negb].
    destruct (Z.eqb_spec (Z.land (flag f) FA_WRITE) 0); [done|]. rewrite andb_false_r.
    rewrite (bind_ok (fil_set _) _ (mk_file_world f v) tt (mk_file_world f0 v) eq_refl).
    rewrite (bind_ok _ _ _ _ _ E).
    rewrite (bind_ok (fil_set _) _ (mk_file_world f1 v') tt (mk_file_world f2 v') eq_refl).
    by rewrite (bind_ok (fil_set _) _ (mk_file_world f2 v') tt (mk_file_world f3 v') eq_refl).
  - split; [constructor|].
    + apply Hh'.
    + constructor; rewrite ?G3, ?G4, ?G5, ?G6; [done|lia| | |by intros Hm; rewrite (G11 Hm); apply Hsect].
      * intros Hz. rewrite (Htop Hz), Ecs. lia.
      * unfold at_sector in *. simpl. rewrite G4, G6. exact Hmid.
    + rewrite G3, G9. lia.
    + by rewrite G1, G2, Eid.
    + rewrite G10. destruct (fsize f <? fptr f1); [by apply flag_written|done].
    + rewrite G3, G7, G8, G9, G10. split; [done|]. split; [done|]. split; [done|]. split; [done|]. split; [done|].
      apply (grew_contents v l v' l'); [done|done|by apply (chain_clusters _ _ _ Hc)|lia|lia].
Qed.
End Grow.
