(* ===== verification/FatSyncFacts.v ===== *)
(** * Flushing

    [sync] brings the volume to the drive, in every copy of the FAT, with the FSInfo sector
    of a FAT32 volume; [f_sync] and [f_close] write the directory entry of a file first. *)

From S2P Require Import Prelude Fat FatTable FatFacts FatChain FatData FatFile FatReadFacts FatWriteFacts.

(** Little-endian fields of a sector. *)
Definition ld16 (l : list Z) (i : Z) : Z := byte_at l i + 256 * byte_at l (i + 1).
Definition ld32 (l : list Z) (i : Z) : Z := ld16 l i + 65536 * ld16 l (i + 2).

(** The bytes of fields, with their places. *)
Definition word_at (i v : Z) : list (Z * Z) := [(i, v mod 256); (i + 1, v / 256 mod 256)].
Definition dword_at (i v : Z) : list (Z * Z) := word_at i v ++ word_at (i + 2) (v / 65536).

Definition puts (ps : list (Z * Z)) (l : list Z) : list Z :=
  foldl (fun l p => <[Z.to_nat p.1 := p.2]> l) l ps.

Lemma puts_app ps qs l : puts (ps ++ qs) l = puts qs (puts ps l).
Proof. apply foldl_app. Qed.

Lemma puts_length ps l : length (puts ps l) = length l.
Proof.
  revert l. induction ps as [|p ps IH]; intros l; simpl; [done|]. by rewrite IH, length_insert.
Qed.

Lemma puts_bytes ps l : Forall byte_ok l -> Forall (fun p => byte_ok p.2) ps -> Forall byte_ok (puts ps l).
Proof.
  intros Hl Hp. revert l Hl. induction Hp as [|p ps Hp _ IH]; intros l Hl; simpl; [done|].
  apply IH. by apply Forall_insert.
Qed.

(** Each byte is the last one put there. *)
Lemma byte_at_puts ps l j : 0 <= j -> Forall (fun p => 0 <= p.1 < Z.of_nat (length l)) ps ->
  byte_at (puts ps l) j = foldl (fun b p => if j =? p.1 then p.2 else b) (byte_at l j) ps.
Proof.
  intros Hj. revert l. induction ps as [|p ps IH]; intros l Hp; [done|].
  apply Forall_cons in Hp as [Hp Hps]. cbn [puts foldl].
  change (foldl _ (<[Z.to_nat p.1:=p.2]> l) ps) with (puts ps (<[Z.to_nat p.1:=p.2]> l)).
  rewrite IH by (rewrite length_insert; done). by rewrite byte_at_set by (done || lia).
Qed.

Lemma dword_bytes i v : Forall (fun p => byte_ok p.2) (dword_at i v).
Proof. repeat constructor; simpl; lia. Qed.

(** One field of a structure in the window. *)
Ltac field_step lem :=
  erewrite bind_ok; [|apply lem; [by rewrite ?puts_length|repeat unfold BS_55AA, FSI_LeadSig,
    FSI_StrucSig, FSI_Free_Count, FSI_Nxt_Free, DIR_FileSize, DIR_FstClusLO, DIR_FstClusHI,
    DIR_WrtTime; lia]].

Lemma byte_lor a b : byte_ok a -> byte_ok b -> byte_ok (Z.lor a b).
Proof.
  intros Ha Hb. assert (0 <= Z.lor a b) by (apply Z.lor_nonneg; unfold byte_ok in *; lia).
  destruct (decide (Z.lor a b = 0)) as [E|E]; [unfold byte_ok; lia|]. split; [done|].
  change 256 with (2 ^ 8). apply Z.log2_lt_pow2; [lia|]. unfold byte_ok in *. rewrite Z.log2_lor by lia.
  assert (forall x, 0 <= x < 256 -> Z.log2 x < 8) as Hx.
  { intros x Hx. destruct (decide (x = 0)) as [->|]; [done|]. apply Z.log2_lt_pow2; lia. }
  pose proof (Hx a Ha). pose proof (Hx b Hb). lia.
Qed.

Section Sync.
Context {D : Type} `{WorkingDisk D}.
Implicit Types v w : fworld D.

Definition with_win (l : list Z) w : fworld D := mk_fworld ((fs w){{ win := l }}) (dsk w) (fattime w).

Lemma st_word_at i x l w : length l = 512%nat -> 0 <= i < 511 ->
  ST_WORD i x (with_win l w) = Ok (tt, with_win (puts (word_at i x) l) w).
Proof. intros. by rewrite ST_WORD_run. Qed.

Lemma st_dword_at i x l w : length l = 512%nat -> 0 <= i < 509 ->
  ST_DWORD i x (with_win l w) = Ok (tt, with_win (puts (dword_at i x) l) w).
Proof.
  intros. rewrite ST_DWORD_run by done. do 2 f_equal.
  unfold store, with_win, dword_at, word_at. simpl.
  replace (i + 2 + 1) with (i + 3) by lia. by rewrite Z.div_div.
Qed.

(** ** The FSInfo sector *)

Definition info_bytes (free last : Z) : list (Z * Z) :=
  word_at BS_55AA 0xAA55 ++ dword_at FSI_LeadSig 0x41615252 ++ dword_at FSI_StrucSig 0x61417272 ++
  dword_at FSI_Free_Count free ++ dword_at FSI_Nxt_Free last.
Definition info_sector (free last : Z) : list Z := puts (info_bytes free last) (replicate 512 0).

Lemma info_sector_ok free last :
  length (info_sector free last) = 512%nat /\ Forall byte_ok (info_sector free last).
Proof.
  split; [unfold info_sector; by rewrite puts_length, length_replicate|].
  apply puts_bytes; [by apply Forall_replicate|].
  unfold info_bytes. rewrite !Forall_app. repeat (split; [repeat constructor; simpl; lia|]).
  apply dword_bytes.
Qed.

(** The FSInfo sector is to be written. *)
Definition stale (s : FATFS) : bool := (fs_type s =? FS_FAT32) && negb (fsi_flag s =? 0).

(** Sector [t] after [sync]. *)
Definition synced_sector w (t : Z) : list Z :=
  if stale (fs w) && (t =? fsi_sector (fs w))
  then info_sector (free_clust (fs w)) (last_clust (fs w)) else vsector w t.

(** What [sync] leaves: the drive holds every sector, the FAT and the files are the same. *)
Record synced w w' : Prop := {
  sy_ok : volume_ok w';
  sy_geo : geo (fs w') = geo (fs w);
  sy_size : sectors (dsk w') = sectors (dsk w);
  sy_time : fattime w' = fattime w;
  sy_last : last_clust (fs w') = last_clust (fs w);
  sy_free : free_clust (fs w') = free_clust (fs w);
  sy_flag : stale (fs w') = false;
  sy_view : forall t, primary (fs w) t -> vsector w' t = synced_sector w t;
  sy_drive : forall t, primary (fs w) t -> contents (dsk w') t = vsector w' t
}.

Definition unlinked w : fworld D := mk_fworld ((fs w){{ winsect := 0 }}) (dsk w) (fattime w).

(** The drive takes the FSInfo sector, with its signatures and counters. *)
Lemma write_fsinfo_run w : volume_ok w -> fs_type (fs w) = FS_FAT32 ->
  let l := info_sector (free_clust (fs w)) (last_clust (fs w)) in
  exists d', write_fsinfo (fs w) w =
      Ok (tt, mk_fworld ((fs w){{ winsect := 0; fsi_flag := 0; win := l }}) d' (fattime w)) /\
    sectors d' = sectors (dsk w) /\
    forall t, contents d' t = if t =? fsi_sector (fs w) then l else contents (dsk w) t.
Proof.
  intros Hv Ht l. pose proof (v_geo _ Hv) as Hg. pose proof (g_fsi _ _ Hg Ht) as Hf.
  assert (0 < n_fats (fs w) * sects_fat (fs w)) by (destruct Hg; apply Z.mul_pos_pos; lia).
  pose proof (g_size _ _ Hg) as Hsz.
  destruct (info_sector_ok (free_clust (fs w)) (last_clust (fs w))) as [Hl Hb]. fold l in Hl, Hb.
  destruct (write_one (dsk w) (fsi_sector (fs w)) l) as (d' & E & Es & Ec); [lia|done..|].
  exists d'. split; [|done]. unfold write_fsinfo.
  assert (length (replicate 512 0) = 512%nat) as Hl0 by apply length_replicate.
  rewrite (bind_ok (fset _) _ w tt (with_win (replicate 512 0) (unlinked w)) eq_refl).
  field_step st_word_at. do 4 field_step st_dword_at. rewrite <- !puts_app.
  change (puts _ (replicate 512 0)) with l.
  rewrite (bind_ok (fget win) _ (with_win l (unlinked w)) l (with_win l (unlinked w)) eq_refl).
  rewrite (bind_ok (dsk_op _) _ _ true (mk_fworld (fs (with_win l (unlinked w))) d' (fattime w)));
    [done|].
  unfold dsk_op. cbn [with_win unlinked dsk fs]. by rewrite E.
Qed.

(** A clean volume with a new drive that holds a new FSInfo sector. *)
Lemma info_synced w d' s' l : volume_ok w -> wflag (fs w) = 0 -> stale (fs w) = true ->
  (forall t, primary (fs w) t -> contents (dsk w) t = vsector w t) ->
  sectors d' = sectors (dsk w) -> length l = 512%nat -> Forall byte_ok l ->
  s' = (fs w){{ winsect := 0; fsi_flag := 0; win := l }} ->
  (forall t, contents d' t = if t =? fsi_sector (fs w) then l else contents (dsk w) t) ->
  l = info_sector (free_clust (fs w)) (last_clust (fs w)) ->
  synced w (mk_fworld s' d' (fattime w)).
Proof.
  intros Hv Hw Hst Hd Es Hl Hb -> Ec El. pose proof Hst as [Ht%Z.eqb_eq _]%andb_true_iff.
  pose proof (g_fsi _ _ (v_geo _ Hv) Ht) as Hf.
  constructor; [|reflexivity|exact Es|reflexivity|reflexivity|reflexivity| | |]; simpl.
  - pose proof Hv as []. constructor; simpl; rewrite ?Es; try done; [by apply (geometry_geo (fs w))|lia|].
    intros k i Hk Hi. simpl in Hk, Hi. rewrite !Ec. simpl.
    pose proof (g_sects _ _ v_geo). pose proof (Z.mul_nonneg_nonneg k (sects_fat (fs w)) ltac:(lia) ltac:(lia)).
    destruct (Z.eqb_spec (fatbase (fs w) + k * sects_fat (fs w) + i) (fsi_sector (fs w)));
      destruct (Z.eqb_spec (fatbase (fs w) + i) (fsi_sector (fs w))); try lia. by apply v_copies.
  - unfold stale. simpl. by rewrite andb_false_r.
  - intros t Hp. unfold synced_sector. rewrite Hst, <- El. unfold vsector at 1. simpl. rewrite Ec.
    assert ((match t with 0 => true | _ => false end) && negb (t =? 0) = false) as -> by (by destruct t).
    cbn [andb]. destruct (Z.eqb_spec t (fsi_sector (fs w))); [done|by apply Hd].
  - intros t Hp. unfold vsector. simpl. by destruct t.
Qed.

Lemma sync_spec w : volume_ok w -> exists w', sync w = Ok (FR_OK, w') /\ synced w w'.
Proof.
  intros Hv. destruct (move_window_zero w Hv) as (w1 & E & Hs & Hw1 & Hc).
  pose proof (sv_ok _ _ Hs) as Hv1. pose proof (sv_geo _ _ Hs) as Hg1.
  destruct (geo_inv _ _ Hg1) as (Ety & _ & _ & _ & _ & Efs & _).
  pose proof (sv_info _ _ Hs) as Ei. unfold info in Ei. injection Ei as El Ef Eg.
  assert (stale (fs w1) = stale (fs w)) as Est by (unfold stale; by rewrite Ety, Eg).
  assert (forall t, primary (fs w1) t -> contents (dsk w1) t = vsector w1 t) as Hd1.
  { intros t Ht. apply (primary_geo (fs w)) in Ht; [|done]. by rewrite Hc, (sv_view _ _ Hs). }
  assert (exists w2, synced w1 w2 /\ when (stale (fs w1)) (write_fsinfo (fs w1)) w1 = Ok (tt, w2))
    as (w2 & Hy & E2).
  { destruct (stale (fs w1)) eqn:Hst; unfold when.
    - pose proof Hst as [Ht%Z.eqb_eq _]%andb_true_iff.
      destruct (write_fsinfo_run w1 Hv1 Ht) as (d' & E2 & Es & Ec).
      eexists. split; [|exact E2].
      destruct (info_sector_ok (free_clust (fs w1)) (last_clust (fs w1))). by eapply info_synced.
    - exists w1. split; [|done]. constructor; try done; auto.
      intros t _. unfold synced_sector. by rewrite Hst. }
  assert (0 < sectors (dsk w2)) as Hsz by (destruct (v_range _ (sy_ok _ _ Hy)); lia).
  destruct (sync_works (dsk w2) Hsz) as (d3 & E3 & Es3 & Ec3).
  pose proof (same_disk w2 d3 (sy_ok _ _ Hy) Es3 Ec3) as Hs3.
  exists (mk_fworld (fs w2) d3 (fattime w2)). split.
  - unfold sync. rewrite (bind_ok _ _ _ _ _ E). cbn [is_ok negb].
    unfold fget. rewrite (bind_ok _ _ _ (fs w1) w1 eq_refl). fold (stale (fs w1)).
    rewrite (bind_ok _ _ _ _ _ E2).
    by rewrite (bind_ok _ _ _ true (mk_fworld (fs w2) d3 (fattime w2)))
      by (unfold dsk_op; by rewrite E3).
  - pose proof (sv_size _ _ Hs). pose proof (sv_time _ _ Hs).
    destruct Hy. constructor; simpl; try congruence; [apply Hs3| |].
    + intros t Ht. apply (primary_geo _ _ t Hg1) in Ht as Ht1.
      apply (primary_geo _ _ t sy_geo0) in Ht1 as Ht2. rewrite (sv_view _ _ Hs3), sy_view0 by done.
      unfold synced_sector. rewrite Est, Efs, El, Ef. destruct (_ && _); [done|by apply (sv_view _ _ Hs)].
    + intros t Ht. apply (primary_geo _ _ t Hg1) in Ht as Ht1.
      apply (primary_geo _ _ t sy_geo0) in Ht1 as Ht2. rewrite Ec3, (sv_view _ _ Hs3) by done.
      by apply sy_drive0.
Qed.

(** ** The directory entry *)

(** What [f_sync] stores in an entry whose attributes are [a]; the entry is at [p]. *)
Definition entry_fields (f : FIL) (a tim : Z) : list (Z * Z) :=
  (DIR_Attr, Z.lor a AM_ARC) :: dword_at DIR_FileSize (fsize f) ++
  word_at DIR_FstClusLO (org_clust f) ++
  word_at DIR_FstClusHI (org_clust f / 65536) ++ dword_at DIR_WrtTime tim.
Definition shifted (p : Z) (ps : list (Z * Z)) : list (Z * Z) := (fun q => (p + q.1, q.2)) <$> ps.
Definition with_entry (f : FIL) (tim p : Z) (l : list Z) : list Z :=
  puts (shifted p (entry_fields f (byte_at l (p + DIR_Attr)) tim)) l.

(** The sector [new] is [old] with the entry of the file brought up to date. *)
Record entry_updated (f : FIL) (tim p : Z) (old new : list Z) : Prop := {
  eu_attr : byte_at new (p + 11) = Z.lor (byte_at old (p + 11)) 0x20;
  eu_clust : 65536 * ld16 new (p + 20) + ld16 new (p + 26) = org_clust f;
  eu_time : ld32 new (p + 22) = tim;
  eu_size : ld32 new (p + 28) = fsize f;
  eu_rest : forall i, 0 <= i -> i <> p + 11 -> ~ p + 20 <= i < p + 32 -> byte_at new i = byte_at old i
}.

Lemma with_entry_ok f tim p l : length l = 512%nat -> Forall byte_ok l ->
  length (with_entry f tim p l) = 512%nat /\ Forall byte_ok (with_entry f tim p l).
Proof.
  intros Hl Hb. split; [unfold with_entry; by rewrite puts_length|].
  apply puts_bytes; [done|]. unfold shifted. rewrite Forall_fmap. unfold entry_fields. constructor.
  - simpl. apply byte_lor; [by apply byte_at_ok|unfold byte_ok, AM_ARC; lia].
  - repeat constructor; simpl; lia.
Qed.

Lemma entry_fields_range f a tim : Forall (fun q => 0 <= q.1 < 32) (entry_fields f a tim).
Proof.
  unfold entry_fields, dword_at, word_at, DIR_Attr, DIR_FileSize, DIR_FstClusLO, DIR_FstClusHI, DIR_WrtTime.
  repeat (apply Forall_cons_2; [simpl; lia|]). apply Forall_nil_2.
Qed.

Lemma byte_at_entry f tim p l k : 0 <= p <= 480 -> length l = 512%nat -> 0 <= p + k ->
  byte_at (with_entry f tim p l) (p + k) =
  foldl (fun b q => if k =? q.1 then q.2 else b) (byte_at l (p + k))
    (entry_fields f (byte_at l (p + DIR_Attr)) tim).
Proof.
  intros Hp Hl Hk. unfold with_entry. rewrite byte_at_puts; [|done|].
  - generalize (byte_at l (p + k)). generalize (entry_fields f (byte_at l (p + DIR_Attr)) tim) as ps.
    induction ps as [|q ps IH]; intros b; [done|]. simpl.
    replace (p + k =? p + q.1) with (k =? q.1) by (destruct (Z.eqb_spec k q.1), (Z.eqb_spec (p + k) (p + q.1)); lia).
    apply IH.
  - unfold shifted. rewrite Forall_fmap, Hl. eapply Forall_impl; [apply entry_fields_range|].
    intros q Hq. cbn in *. lia.
Qed.

Ltac closed_tests :=
  unfold entry_fields, dword_at, word_at; cbn [foldl app fst snd];
  repeat match goal with |- context [?a =? ?b] =>
    let c := eval vm_compute in (a =? b) in change (a =? b) with c end; cbv iota.

Lemma with_entry_spec f tim p l : 0 <= p <= 480 -> length l = 512%nat ->
  word_ok (org_clust f) -> word_ok (fsize f) -> word_ok tim ->
  entry_updated f tim p l (with_entry f tim p l).
Proof.
  intros Hp Hl Ho Hs Ht. pose proof (byte_at_entry f tim p l) as E. unfold word_ok in *.
  constructor; unfold ld32, ld16; rewrite <- ?Z.add_assoc.
  - by rewrite E by lia.
  - rewrite !E by lia. closed_tests. lia.
  - rewrite !E by lia. closed_tests. lia.
  - rewrite !E by lia. closed_tests. lia.
  - intros i Hi H1 H2. replace i with (p + (i - p)) by lia. rewrite E by lia.
    assert (i - p <> 11 /\ ~ 20 <= i - p < 32) as Hk by lia. revert Hk.
    generalize (i - p). clear. intros k [H1 H2]. simpl.
    repeat match goal with |- context [k =? ?b] => let c := eval vm_compute in b in
      change (k =? b) with (k =? c); destruct (Z.eqb_spec k c); [lia|] end.
    done.
Qed.

(** ** [f_sync] *)

Lemma shifted_word p i x : shifted p (word_at i x) = word_at (p + i) x.
Proof. unfold shifted, word_at. simpl. by rewrite Z.add_assoc. Qed.

Lemma shifted_dword p i x : shifted p (dword_at i x) = dword_at (p + i) x.
Proof.
  unfold dword_at, shifted. rewrite fmap_app. fold (shifted p (word_at i x)).
  fold (shifted p (word_at (i + 2) (x / 65536))). by rewrite !shifted_word, Z.add_assoc.
Qed.

Lemma with_entry_puts f tim p l :
  with_entry f tim p l =
  puts (dword_at (p + DIR_WrtTime) tim) (puts (word_at (p + DIR_FstClusHI) (org_clust f / 65536))
    (puts (word_at (p + DIR_FstClusLO) (org_clust f)) (puts (dword_at (p + DIR_FileSize) (fsize f))
      (<[Z.to_nat (p + DIR_Attr) := Z.lor (byte_at l (p + DIR_Attr)) AM_ARC]> l)))).
Proof.
  unfold with_entry, entry_fields. generalize (Z.lor (byte_at l (p + DIR_Attr)) AM_ARC) as a. intros a.
  rewrite <- shifted_word, <- shifted_word, <- !shifted_dword, <- !puts_app. unfold shifted.
  by rewrite fmap_cons, !fmap_app.
Qed.

Lemma update_entry_run f v : length (win (fs v)) = 512%nat -> Forall byte_ok (win (fs v)) ->
  0 <= dir_ptr f <= 480 ->
  update_entry f v = Ok (tt, with_win (with_entry f (fattime v) (dir_ptr f) (win (fs v))) v).
Proof.
  intros Hl Hb Hp. unfold update_entry.
  rewrite (bind_ok _ _ _ _ _ (win_get_run (dir_ptr f + DIR_Attr) v ltac:(unfold DIR_Attr; lia))).
  set (l1 := <[Z.to_nat (dir_ptr f + DIR_Attr) :=
    Z.lor (byte_at (win (fs v)) (dir_ptr f + DIR_Attr)) AM_ARC]> (win (fs v))).
  assert (byte_ok (Z.lor (byte_at (win (fs v)) (dir_ptr f + DIR_Attr)) AM_ARC)) as Ha
    by (apply byte_lor; [by apply byte_at_ok|unfold byte_ok, AM_ARC; lia]).
  rewrite (bind_ok _ _ v tt (with_win l1 v)).
  2: { rewrite win_set_run by (unfold DIR_Attr; lia). do 2 f_equal. unfold store, u8.
       by rewrite Z.mod_small. }
  assert (length l1 = 512%nat) as Hl1 by (unfold l1; by rewrite length_insert).
  field_step st_dword_at. do 2 field_step st_word_at.
  erewrite (bind_ok (gets fattime)) by reflexivity.
  rewrite st_dword_at by (rewrite ?puts_length; (done || (unfold DIR_WrtTime; lia))).
  do 2 f_equal. by rewrite with_entry_puts, Z.shiftr_div_pow2 by lia.
Qed.

(** The volume and the file once the entry is written; the drive holds them. *)
Record file_synced v (f : FIL) v' : Prop := {
  fy_ok : volume_ok v';
  fy_geo : geo (fs v') = geo (fs v);
  fy_size : sectors (dsk v') = sectors (dsk v);
  fy_time : fattime v' = fattime v;
  fy_entry : entry_updated f (fattime v) (dir_ptr f) (vsector v (dir_sect f)) (vsector v' (dir_sect f));
  fy_view : forall t, primary (fs v) t -> t <> dir_sect f -> vsector v' t = synced_sector v t;
  fy_drive : forall t, primary (fs v) t -> contents (dsk v') t = vsector v' t;
  fy_info : stale (fs v') = false /\ last_clust (fs v') = last_clust (fs v) /\
    free_clust (fs v') = free_clust (fs v)
}.

(** The flag without the mark that the file was written. *)
Definition clean_flag (f : FIL) : FIL := f{{ flag := Z.land (flag f) (Z.lnot FA__WRITTEN) }}.

Lemma f_sync_spec v l f : open_file v l f -> Z.land (disk_status (dsk v)) STA_NOINIT = 0 ->
  Z.land (flag f) FA__WRITTEN <> 0 -> behind (fs v) (dir_sect f) ->
  0 < dir_sect f < sectors (dsk v) -> 0 <= dir_ptr f <= 480 ->
  word_ok (fattime v) -> word_ok (fsize f) -> word_ok (org_clust f) ->
  exists v', f_sync (mk_file_world f v) = Ok (FR_OK, mk_file_world (clean_flag f) v') /\
    file_synced v f v'.
Proof.
  intros Ho Hst Hfl Hbh Ht Hp Htm Hsz Hoc. pose proof Ho as [[Hv _] _ _ _ _].
  destruct (move_window_spec v (dir_sect f) Hv Ht (or_intror Hbh)) as (v1 & E1 & Hs1 & Ew & El).
  destruct (vsector_ok v (dir_sect f) Hv) as [Hl Hb]. rewrite <- El in Hl, Hb.
  set (l1 := with_entry f (fattime v1) (dir_ptr f) (win (fs v1))).
  destruct (with_entry_ok f (fattime v1) (dir_ptr f) (win (fs v1)) Hl Hb) as [Hl1 Hb1].
  destruct (with_window_spec v1 (dir_sect f) l1) as [Hrw Hvs]; [apply Hs1|by right| | |done|done|].
  { destruct (geo_inv _ _ (sv_geo _ _ Hs1)) as (_ & E2 & E3 & _ & E4 & _). unfold behind in *. congruence. }
  { by rewrite (sv_size _ _ Hs1). }
  destruct (sync_spec _ (rw_ok _ _ _ Hrw)) as (v2 & E2 & Hy).
  exists v2. split.
  - unfold f_sync. rewrite (bind_ok _ _ _ _ _ (validate_fil_ok v l f Ho Hst)).
    rewrite (bind_ok _ _ _ _ _ (fil_run f v)). destruct (Z.eqb_spec (Z.land (flag f) FA__WRITTEN) 0); [done|].
    cbn [is_err is_ok negb orb]. rewrite (bind_ok _ _ _ _ _ (vol_run _ f v _ _ E1)). cbn [is_err is_ok negb].
    rewrite (bind_ok _ _ _ _ _ (vol_run _ f v1 _ _ (update_entry_run f v1 Hl Hb Hp))).
    erewrite (bind_ok (fil_set _)) by reflexivity. erewrite bind_ok; [|by apply vol_run].
    apply vol_run. rewrite <- Ew in E2. exact E2.
  - assert (stale (fs (with_window (dir_sect f) l1 v1)) = stale (fs v) /\
      fsi_sector (fs v1) = fsi_sector (fs v) /\ free_clust (fs v1) = free_clust (fs v) /\
      last_clust (fs v1) = last_clust (fs v)) as (Est & Efs & Efr & Elc).
    { destruct (geo_inv _ _ (sv_geo _ _ Hs1)) as (Ety & _ & _ & _ & _ & -> & _).
      pose proof (sv_info _ _ Hs1) as Ei. unfold info in Ei. injection Ei as -> -> Eg.
      unfold stale. simpl. by rewrite Ety, Eg. }
    assert (forall t, primary (fs v) t -> primary (fs v1) t) as Hp1
      by (intros t; apply primary_geo, Hs1).
    assert (stale (fs v) = true -> dir_sect f <> fsi_sector (fs v)) as Hne.
    { intros [Hty%Z.eqb_eq _]%andb_true_iff. pose proof (v_geo _ Hv) as []. specialize (g_fsi Hty).
      unfold behind in Hbh. pose proof (Z.mul_nonneg_nonneg (n_fats (fs v)) (sects_fat (fs v)) ltac:(lia) ltac:(lia)). lia. }
    pose proof (rw_geo _ _ _ Hrw) as Hg1. pose proof (sy_geo _ _ Hy) as Hg2.
    constructor.
    + apply Hy.
    + rewrite Hg2, Hg1. apply Hs1.
    + rewrite (sy_size _ _ Hy), (rw_size _ _ _ Hrw). apply Hs1.
    + rewrite (sy_time _ _ Hy), (rw_time _ _ _ Hrw). apply Hs1.
    + rewrite (sy_view _ _ Hy) by (apply (Hp1 (dir_sect f)); by right).
      unfold synced_sector. rewrite Est. simpl. rewrite Efs.
      replace (_ && _) with false.
      * rewrite Hvs. unfold l1. rewrite El, (sv_time _ _ Hs1).
        apply with_entry_spec; try done. by rewrite <- El.
      * symmetry. apply andb_false_iff. destruct (stale (fs v)); [right|by left].
        apply Z.eqb_neq. by apply Hne.
    + intros t Ht' Hd. rewrite (sy_view _ _ Hy) by (by apply Hp1).
      unfold synced_sector. rewrite Est. simpl. rewrite Efs, Efr, Elc.
      destruct (_ && _); [done|]. rewrite (rw_view _ _ _ Hrw), (sv_view _ _ Hs1); [done|done|by apply Hp1|].
      rewrite list_elem_of_singleton. done.
    + intros t Ht'. apply (sy_drive _ _ Hy). by apply Hp1.
    + split; [apply Hy|]. rewrite (sy_last _ _ Hy), (sy_free _ _ Hy). simpl. by rewrite Efr, Elc.
Qed.

(** [f_close] is [f_sync], after which the object has no volume. *)
Lemma f_close_run f v f' v' : f_sync (mk_file_world f v) = Ok (FR_OK, mk_file_world f' v') ->
  f_close (mk_file_world f v) = Ok (FR_OK, mk_file_world (f'{{ fil_fs := None }}) v').
Proof. intros E. unfold f_close. by rewrite (bind_ok _ _ _ _ _ E). Qed.

(** ** What flushing keeps *)

(** Behind the FAT only the sector of the entry changes. *)
Lemma synced_behind v f v' t : volume_ok v -> file_synced v f v' ->
  fat1 (fs v) t \/ behind (fs v) t -> t <> dir_sect f -> vsector v' t = vsector v t.
Proof.
  intros Hv [] Ht Hd. pose proof (v_geo _ Hv) as [].
  assert (1 * sects_fat (fs v) <= n_fats (fs v) * sects_fat (fs v))
    by (apply Z.mul_le_mono_nonneg_r; lia).
  assert (primary (fs v) t) as Hp by (destruct Ht; [left|by right]; unfold fat1 in *; lia).
  rewrite fy_view0 by done. unfold synced_sector. destruct (stale (fs v)) eqn:Hs; [|done].
  apply andb_true_iff in Hs as [Hty%Z.eqb_eq _]. specialize (g_fsi Hty).
  destruct (Z.eqb_spec t (fsi_sector (fs v))); [|done]. unfold fat1, behind in *. lia.
Qed.

Lemma synced_entry v f v' c : volume_ok v -> behind (fs v) (dir_sect f) -> file_synced v f v' ->
  clusters v c -> entry v' c = entry v c.
Proof.
  intros Hv Hb Hs. apply entry_view; [done|apply Hs|]. intros t Ht.
  apply (synced_behind v f); [done|done|by left|]. intros ->. by apply (behind_fat1 v (dir_sect f)).
Qed.

Lemma synced_healthy v f v' : healthy v -> behind (fs v) (dir_sect f) -> file_synced v f v' -> healthy v'.
Proof.
  intros Hh Hb Hs. pose proof (fy_info _ _ _ Hs) as (_ & E1 & E2).
  apply (healthy_view v); try apply Hs; try done.
  intros c. apply (synced_entry v f); [apply Hh|done..].
Qed.

Lemma synced_data v l f v' : healthy v -> Forall (clusters v) l -> file_synced v f v' ->
  dir_sect f ∉ chain_sects (fs v) l -> file_data v' l = file_data v l.
Proof.
  intros Hh Hl Hs Hd. unfold file_data. rewrite (chain_sects_geo (fs v)) by apply Hs.
  unfold joined. f_equal. apply list_fmap_ext. intros i t Ht%list_elem_of_lookup_2.
  destruct (chain_sectors_data v l t Hh Hl Ht) as (_ & _ & _ & Hb).
  apply (synced_behind v f); [apply Hh|done|by right|]. by intros ->.
Qed.

Lemma synced_open v l f v' : healthy v -> behind (fs v) (dir_sect f) -> open_file v l f ->
  file_synced v f v' -> open_file v' l (clean_flag f).
Proof.
  intros Hh Hb [Hs [] (H1 & H2 & H3) Hfs Hfl] Hy.
  destruct (geo_inv _ _ (fy_geo _ _ _ Hy)) as (_ & _ & _ & Emc & _ & _ & Ecs & Edb & _ & _ & Eid).
  constructor; simpl.
  - apply (sound_geo v); [done|apply Hy..].
  - constructor; simpl; rewrite ?Ecs; try done.
    + apply (chain_view v); [done| |done]. intros c. by apply (synced_entry v f); [apply Hs|..].
    + unfold at_sector in *. simpl. by rewrite Ecs.
    + unfold first_sect in *. by rewrite Ecs, Edb.
  - unfold capacity in *. by rewrite Ecs.
  - by rewrite Eid.
  - rewrite <- Z.land_assoc, (Z.land_comm (Z.lnot _)), Z.land_assoc, Hfl. done.
Qed.

End Sync.
