(* ===== verification/FatDir.v ===== *)
(** * FatFs: directories

    ff.c from [dir_seek] to [follow_path] in the configuration without long names: the
    position in a directory, searching, listing and creating entries, names in the 8.3
    form, and paths. *)

From S2P Require Import Prelude Fat FatFile.

Definition NS : Z := 11.
Definition NS_LAST : Z := 0x04.
Definition NS_BODY : Z := 0x08.
Definition NS_EXT : Z := 0x10.
Definition AM_VOL : Z := 0x08.
Definition AM_DIR : Z := 0x10.
Definition DIR_Name : Z := 0.
Definition DIR_NTres : Z := 12.
Definition DIR_CrtTime : Z := 14.
Definition DIR_WrtDate : Z := 24.

(** A directory object; [dir] is the offset of the entry in the window, or NULL, [fn] the
    name in the form of an entry with a status byte. *)
Record DIR : Type := mk_dir {
  d_fs : option nat;
  d_id : Z;
  index : Z;
  sclust : Z;
  clust : Z;
  sect : Z;
  dir : option Z;
  fn : list Z
}.
#[export] Instance eta_dir : Settable DIR :=
  fun d => mk_dir (d_fs d) (d_id d) (index d) (sclust d) (clust d) (sect d) (dir d) (fn d).

Record dir_world (D : Type) : Type := mk_dir_world { dj : DIR; dvol : fworld D }.
Arguments mk_dir_world {D}. Arguments dj {D}. Arguments dvol {D}.
#[export] Instance eta_dir_world D : Settable (dir_world D) :=
  fun w => mk_dir_world (dj w) (dvol w).
#[export] Instance lens_dvol D : Lens (fworld D) (dir_world D) :=
  {| view := dvol; put v w := w{{ dvol := v }} |}.

(** The file information that a directory entry gives. *)
Record FILINFO : Type := mk_filinfo {
  fi_size : Z;
  fi_date : Z;
  fi_time : Z;
  fi_attrib : Z;
  fi_name : list Z
}.
#[export] Instance eta_filinfo : Settable FILINFO :=
  fun i => mk_filinfo (fi_size i) (fi_date i) (fi_time i) (fi_attrib i) (fi_name i).

(** [mem_cmp]: the difference of the first bytes that differ. *)
Fixpoint mem_cmp (a b : list Z) (cnt : nat) : Z :=
  match cnt, a, b with
  | S cnt', x :: a', y :: b' => if x - y =? 0 then mem_cmp a' b' cnt' else x - y
  | _, _, _ => 0
  end.

(** [chk_chr]: the character, 0 when the string does not contain it. *)
Fixpoint chk_chr (str : list Z) (chr : Z) : Z :=
  match str with
  | [] => 0
  | c :: str' => if c =? chr then c else chk_chr str' chr
  end.

Section Dir.
Context {D : Type} `{Disk D}.
#[local] Abbreviation F := (M (fworld D)).
#[local] Abbreviation DW := (M (dir_world D)).

Definition dj_get {A} (f : DIR -> A) : DW A := gets (fun w => f (dj w)).
Definition dj_set (f : DIR -> DIR) : DW unit := modify (fun w => w{{ dj := f (dj w) }}).
Definition dvol_get {A} (f : FATFS -> A) : DW A := gets (fun w => f (fs (dvol w))).

(** Byte [i] of the entry at the current index. *)
Definition entry_at (i : Z) : DW Z :=
  o ← dj_get dir;
  match o with
  | None => fail NullDeref
  | Some p => mret (p + i)
  end.
Definition dir_get (i : Z) : DW Z := p ← entry_at i; zoom (win_get p).
Definition dir_put (i v : Z) : DW unit := p ← entry_at i; zoom (win_set p v).

(** ** Positions *)

(** The loop that follows the chain: the index in the last cluster and the cluster. *)
Definition seek_dir_body (ic : Z) (p : Z * Z) : F (ctl (Z * Z) (FRESULT + Z * Z)) :=
  let '(idx, clst) := p in
  if idx <? ic then mret (Break (inr (idx, clst)))
  else
    clst ← get_fat clst;
    s ← fget id;
    if clst =? 0xFFFFFFFF then mret (Break (inl FR_DISK_ERR))
    else if (clst <? 2) || (max_clust s <=? clst) then mret (Break (inl FR_INT_ERR))
    else mret (Continue (u16 (idx - ic), clst)).

Definition set_entry_ptr (idx : Z) : DW unit :=
  dj_set (fun d => d{{ dir := Some (idx mod (SS / 32) * 32) }}).

Definition dir_seek (fuel : nat) (idx : Z) : DW FRESULT :=
  dj_set (fun d => d{{ index := idx }}) ;;
  clst ← dj_get sclust;
  s ← dvol_get id;
  if (clst =? 1) || (max_clust s <=? clst) then mret FR_INT_ERR
  else
    let clst := if (clst =? 0) && (fs_type s =? FS_FAT32) then dirbase s else clst in
    if clst =? 0 then
      dj_set (fun d => d{{ clust := clst }}) ;;
      if n_rootdir s <=? idx then mret FR_INT_ERR
      else
        dj_set (fun d => d{{ sect := u32 (dirbase s + idx / (SS / 32)) }}) ;;
        set_entry_ptr idx ;; mret FR_OK
    else
      let ic := u16 (SS / 32 * csize s) in
      r ← zoom (while fuel (seek_dir_body ic) (idx, clst));
      match r with
      | inl e => mret e
      | inr (idx, clst) =>
          dj_set (fun d => d{{ clust := clst }}) ;;
          sec ← zoom (clust2sect clst);
          dj_set (fun d => d{{ sect := u32 (sec + idx / (SS / 32)) }}) ;;
          set_entry_ptr idx ;; mret FR_OK
      end.

(** The sectors of a new cluster are filled with 0 through the window. *)
Definition clear_sector : F bool :=
  fset (fun s => s{{ wflag := 1 }}) ;;
  r ← move_window 0;
  if negb (is_ok r) then mret false
  else fset (fun s => s{{ winsect := u32 (winsect s + 1) }}) ;; mret true.

Fixpoint clear_sectors (n : nat) : F bool :=
  match n with
  | O => mret true
  | S n' => ok ← clear_sector; if ok : bool then clear_sectors n' else mret false
  end.

Definition clear_cluster (clst : Z) : F FRESULT :=
  r ← move_window 0;
  if negb (is_ok r) then mret FR_DISK_ERR
  else
    sec ← clust2sect clst;
    fset (fun s => s{{ win := replicate 512 0; winsect := sec }}) ;;
    s ← fget id;
    ok ← clear_sectors (Z.to_nat (csize s));
    if negb ok then mret FR_DISK_ERR
    else fset (fun t => t{{ winsect := u32 (winsect t - csize s) }}) ;; mret FR_OK.

(** The table is continued with a new cluster. *)
Definition stretch (fuel : nat) (clst : Z) : F (FRESULT + Z) :=
  clst ← create_chain fuel clst;
  if clst =? 0 then mret (inl FR_DENIED)
  else if clst =? 1 then mret (inl FR_INT_ERR)
  else if clst =? 0xFFFFFFFF then mret (inl FR_DISK_ERR)
  else
    r ← clear_cluster clst;
    mret (if is_ok r then inr clst else inl r).

Definition next_cluster (fuel : nat) (clst : Z) (streach : bool) : F (FRESULT + Z) :=
  nxt ← get_fat clst;
  s ← fget id;
  if nxt <=? 1 then mret (inl FR_INT_ERR)
  else if nxt =? 0xFFFFFFFF then mret (inl FR_DISK_ERR)
  else if max_clust s <=? nxt then
    if negb streach then mret (inl FR_NO_FILE) else stretch fuel clst
  else mret (inr nxt).

(** A new sector of the directory. *)
Definition next_sector (fuel : nat) (i : Z) (streach : bool) : DW FRESULT :=
  dj_set (fun d => d{{ sect := u32 (sect d + 1) }}) ;;
  clst ← dj_get clust;
  s ← dvol_get id;
  if clst =? 0 then mret (if n_rootdir s <=? i then FR_NO_FILE else FR_OK)
  else if negb (Z.land (i / (SS / 32)) (csize s - 1) =? 0) then mret FR_OK
  else
    r ← zoom (next_cluster fuel clst streach);
    match r with
    | inl e => mret e
    | inr clst =>
        dj_set (fun d => d{{ clust := clst }}) ;;
        sec ← zoom (clust2sect clst);
        dj_set (fun d => d{{ sect := sec }}) ;;
        mret FR_OK
    end.

Definition dir_next (fuel : nat) (streach : bool) : DW FRESULT :=
  d ← dj_get id;
  let i := u16 (index d + 1) in
  if (i =? 0) || (sect d =? 0) then mret FR_NO_FILE
  else
    r ← (if i mod (SS / 32) =? 0 then next_sector fuel i streach else mret FR_OK);
    if is_err r then mret r
    else
      dj_set (fun d => d{{ index := i }}) ;;
      set_entry_ptr i ;; mret FR_OK.

(** ** Entries *)

(** [n] bytes of the entry from byte [i]. *)
Definition dir_bytes (i n : Z) : DW (list Z) :=
  p ← entry_at i; l ← dvol_get win; mem_get l p n.

Definition move_to_sect : DW FRESULT := sec ← dj_get sect; zoom (move_window sec).

(** The 11 characters of a name. *)
Definition same_name : DW bool :=
  e ← dir_bytes 0 11;
  name ← dj_get fn;
  mret (mem_cmp e name 11 =? 0).

Definition find_body (fuel : nat) (_ : unit) : DW (ctl unit FRESULT) :=
  res ← move_to_sect;
  if is_err res then mret (Break res)
  else
    c ← dir_get DIR_Name;
    if c =? 0 then mret (Break FR_NO_FILE)
    else
      a ← dir_get DIR_Attr;
      same ← same_name;
      if (Z.land a AM_VOL =? 0) && same then mret (Break FR_OK)
      else
        res ← dir_next fuel false;
        mret (if is_ok res then Continue tt else Break res).

Definition dir_find (turns fuel : nat) : DW FRESULT :=
  res ← dir_seek fuel 0;
  if is_err res then mret res else while turns (find_body fuel) tt.

(** ['.'] and [0xE5] start entries that are not listed. *)
Definition read_entry_body (fuel : nat) (res : FRESULT) : DW (ctl FRESULT FRESULT) :=
  sec ← dj_get sect;
  if sec =? 0 then mret (Break res)
  else
    res ← move_to_sect;
    if is_err res then mret (Break res)
    else
      c ← dir_get DIR_Name;
      if c =? 0 then mret (Break FR_NO_FILE)
      else
        a ← dir_get DIR_Attr;
        if negb (c =? 0xE5) && negb (c =? 0x2E) && (Z.land a AM_VOL =? 0)
        then mret (Break res)
        else
          res ← dir_next fuel false;
          mret (if is_ok res then Continue res else Break res).

Definition dir_read (turns fuel : nat) : DW FRESULT :=
  res ← while turns (read_entry_body fuel) FR_NO_FILE;
  when (is_err res) (dj_set (fun d => d{{ sect := 0 }})) ;;
  mret res.

Definition blank_body (fuel : nat) (_ : unit) : DW (ctl unit FRESULT) :=
  res ← move_to_sect;
  if is_err res then mret (Break res)
  else
    c ← dir_get DIR_Name;
    if (c =? 0xE5) || (c =? 0) then mret (Break FR_OK)
    else
      res ← dir_next fuel true;
      mret (if is_ok res then Continue tt else Break res).

(** The entry gets the name, and is 0 otherwise. *)
Definition init_entry : DW unit :=
  p ← entry_at 0;
  name ← dj_get fn;
  l ← dvol_get win;
  l ← mem_cpy l p (replicate 32 0);
  name11 ← mem_get name 0 11;
  l ← mem_cpy l p name11;
  zoom (fset (fun s => s{{ win := l }})) ;;
  nt ← aget name NS;
  dir_put DIR_NTres (Z.land nt (Z.lor NS_BODY NS_EXT)) ;;
  zoom (fset (fun s => s{{ wflag := 1 }})).

Definition dir_register (turns fuel : nat) : DW FRESULT :=
  res ← dir_seek fuel 0;
  res ← (if is_err res then mret res else while turns (blank_body fuel) tt);
  if is_err res then mret res
  else
    res ← move_to_sect;
    if is_err res then mret res else init_entry ;; mret FR_OK.

(** Fields of an entry. *)
Definition ld_word (i : Z) : DW Z := p ← entry_at i; zoom (LD_WORD p).
Definition ld_dword (i : Z) : DW Z := p ← entry_at i; zoom (LD_DWORD p).
Definition st_word (i v : Z) : DW unit := p ← entry_at i; zoom (ST_WORD p v).
Definition st_dword (i v : Z) : DW unit := p ← entry_at i; zoom (ST_DWORD p v).

(** The start cluster of the entry. *)
Definition start_cluster : DW Z :=
  hi ← ld_word DIR_FstClusHI; lo ← ld_word DIR_FstClusLO;
  mret (Z.lor (Z.shiftl hi 16) lo).
End Dir.

(** ** Names *)

(** [_EXCVT] of code page 858: capital letters for the characters from 0x80 on. *)
Definition cvt : list Z :=
  [0x80;0x9A;0x90;0xB6;0x8E;0xB7;0x8F;0x80;0xD2;0xD3;0xD4;0xD8;0xD7;0xDE;0x8E;0x8F;
   0x90;0x92;0x92;0xE2;0x99;0xE3;0xEA;0xEB;0x59;0x99;0x9A;0x9D;0x9C;0x9D;0x9E;0x9F;
   0xB5;0xD6;0xE0;0xE9;0xA5;0xA5;0xA6;0xA7;0xA8;0xA9;0xAA;0xAB;0xAC;0x21;0xAE;0xAF;
   0xB0;0xB1;0xB2;0xB3;0xB4;0xB5;0xB6;0xB7;0xB8;0xB9;0xBA;0xBB;0xBC;0xBD;0xBE;0xBF;
   0xC0;0xC1;0xC2;0xC3;0xC4;0xC5;0xC7;0xC7;0xC8;0xC9;0xCA;0xCB;0xCC;0xCD;0xCE;0xCF;
   0xD1;0xD1;0xD2;0xD3;0xD4;0xD5;0xD6;0xD7;0xD8;0xD9;0xDA;0xDB;0xDC;0xDD;0xDE;0xDF;
   0xE0;0xE1;0xE2;0xE3;0xE5;0xE5;0xE6;0xE7;0xE7;0xE9;0xEA;0xEB;0xED;0xED;0xEE;0xEF;
   0xF0;0xF1;0xF2;0xF3;0xF4;0xF5;0xF6;0xF7;0xF8;0xF9;0xFA;0xFB;0xFC;0xFD;0xFE;0xFF].

(** Space, quote, [*+,[=]|] and 0x7F. *)
Definition illegal : list Z := [0x20;0x22;0x2A;0x2B;0x2C;0x5B;0x3D;0x5D;0x7C;0x7F].

Definition IsUpper (c : Z) : bool := (0x41 <=? c) && (c <=? 0x5A).
Definition IsLower (c : Z) : bool := (0x61 <=? c) && (c <=? 0x7A).
Definition is_sep (c : Z) : bool := (c =? 0x2F) || (c =? 0x5C).

(** The locals of [create_name]: the flags [b], the index [i] and limit [ni] in the name,
    and the name. *)
Record naming : Type := mk_naming { nb : Z; ni : Z; nlim : Z; sfn : list Z }.

Section Names.
Context {W : Type}.

(** One character of a name. *)
Definition name_char (n : naming) (c : Z) : M W (option naming) :=
  c ← (if 0x80 <=? c then aget cvt (c - 0x80) else mret c);
  if negb (chk_chr illegal c =? 0) then mret None
  else
    let b := if IsUpper c then Z.lor (nb n) 2
             else if IsLower c then Z.lor (nb n) 1 else nb n in
    let c := if negb (IsUpper c) && IsLower c then c - 0x20 else c in
    l ← aset (sfn n) (ni n) c;
    mret (Some (mk_naming b (ni n + 1) (nlim n) l)).

(** The segment: its last character, what was made of it and the rest of the path. *)
Fixpoint name_loop (path : list Z) (n : naming) : M W (option (Z * naming * list Z)) :=
  match path with
  | [] => fail OutOfBounds
  | c :: path' =>
      if (c <=? 0x20) || is_sep c then mret (Some (c, n, path'))
      else if (c =? 0x2E) || (nlim n <=? ni n) then
        if negb (nlim n =? 8) || negb (c =? 0x2E) then mret None
        else name_loop path' (mk_naming (u8 (Z.shiftl (nb n) 2)) 8 11 (sfn n))
      else
        o ← name_char n c;
        match o with
        | None => mret None
        | Some n' => name_loop path' n'
        end
  end.

(** The flags of the status byte. *)
Definition name_flags (c : Z) (n : naming) : Z :=
  let s := if c <=? 0x20 then NS_LAST else 0 in
  let b := if nlim n =? 8 then u8 (Z.shiftl (nb n) 2) else nb n in
  let s := if Z.land b 0x03 =? 0x01 then Z.lor s NS_EXT else s in
  if Z.land b 0x0C =? 0x04 then Z.lor s NS_BODY else s.

(** [create_name]: the 12 bytes of [fn] and the rest of the path, or an invalid name. *)
Definition create_name (path : list Z) : M W (option (list Z * list Z)) :=
  r ← name_loop path (mk_naming 0 0 8 (replicate 11 0x20));
  match r with
  | None => mret None
  | Some (c, n, rest) =>
      if ni n =? 0 then mret None
      else
        c0 ← aget (sfn n) 0;
        let name := if c0 =? 0xE5 then <[0%nat := 0x05]> (sfn n) else sfn n in
        mret (Some (name ++ [name_flags c n], rest))
  end.
End Names.

Section Path.
Context {D : Type} `{Disk D}.
#[local] Abbreviation DW := (M (dir_world D)).

(** [get_fileinfo]: the characters of the name up to the first space. *)
Fixpoint copy_name (l : list Z) : list Z :=
  match l with
  | [] => []
  | c :: l' => if c =? 0x20 then [] else c :: copy_name l'
  end.

Definition file_name (name : list Z) : list Z :=
  let body := (fun c => if c =? 0x05 then 0xE5 else c) <$> copy_name (take 8 name) in
  let ext := take 3 (drop 8 name) in
  match ext with
  | c :: _ => if c =? 0x20 then body else body ++ 0x2E :: copy_name ext
  | [] => body
  end.

Definition get_fileinfo (fno : FILINFO) : DW FILINFO :=
  sec ← dj_get sect;
  if sec =? 0 then mret (fno{{ fi_name := [0] }})
  else
    name ← dir_bytes 0 11;
    attr ← dir_get DIR_Attr;
    size ← ld_dword DIR_FileSize;
    date ← ld_word DIR_WrtDate;
    time ← ld_word DIR_WrtTime;
    mret (mk_filinfo size date time attr (file_name name ++ [0])).

(** [follow_path]; a path is the bytes of a string with its terminator. *)
Fixpoint skip_spaces (path : list Z) : list Z :=
  match path with
  | c :: path' => if c =? 0x20 then skip_spaces path' else path
  | [] => []
  end.

Definition strip_sep (path : list Z) : list Z :=
  match path with
  | c :: path' => if is_sep c then path' else path
  | [] => []
  end.

Definition follow_body (turns fuel : nat) (path : list Z) : DW (ctl (list Z) FRESULT) :=
  o ← create_name path;
  match o with
  | None => mret (Break FR_INVALID_NAME)
  | Some (name, path) =>
      dj_set (fun d => d{{ fn := name }}) ;;
      res ← dir_find turns fuel;
      st ← aget name NS;
      let last := negb (Z.land st NS_LAST =? 0) in
      match res with
      | FR_OK =>
          if last then mret (Break FR_OK)
          else
            a ← dir_get DIR_Attr;
            if Z.land a AM_DIR =? 0 then mret (Break FR_NO_PATH)
            else
              c ← start_cluster;
              dj_set (fun d => d{{ sclust := c }}) ;;
              mret (Continue path)
      | FR_NO_FILE => mret (Break (if last then FR_NO_FILE else FR_NO_PATH))
      | _ => mret (Break res)
      end
  end.

Definition follow_path (turns fuel : nat) (path : list Z) : DW FRESULT :=
  let path := strip_sep (skip_spaces path) in
  dj_set (fun d => d{{ sclust := 0 }}) ;;
  c ← aget path 0;
  if c <? 0x20 then
    res ← dir_seek fuel 0;
    dj_set (fun d => d{{ dir := None }}) ;;
    mret res
  else while turns (follow_body turns fuel) path.

(** ** [f_readdir] *)

Definition f_readdir (turns fuel : nat) (fno : option FILINFO) : DW (FRESULT * option FILINFO) :=
  d ← dj_get id;
  res ← zoom (validate (bool_decide (is_Some (d_fs d))) (d_id d));
  if is_err res then mret (res, fno)
  else
    match fno with
    | None => res ← dir_seek fuel 0; mret (res, fno)
    | Some i =>
        res ← dir_read turns fuel;
        res ← (match res with
               | FR_NO_FILE => dj_set (fun d => d{{ sect := 0 }}) ;; mret FR_OK
               | _ => mret res
               end);
        if is_err res then mret (res, fno)
        else
          i' ← get_fileinfo i;
          res ← dir_next fuel false;
          res ← (match res with
                 | FR_NO_FILE => dj_set (fun d => d{{ sect := 0 }}) ;; mret FR_OK
                 | _ => mret res
                 end);
          mret (res, Some i')
    end.
End Path.
