(* ===== verification/FatMount.v ===== *)
(** * FatFs: volumes

    Mounting ([f_mount], [check_fs], [chk_mounted]) and opening ([f_open], [f_opendir]) of
    ff.c.  The volume objects are the application's; the table [FatFs] holds the one that
    is registered for each logical drive, and logical drive n is physical drive n. *)

From S2P Require Import Prelude Fat FatFile FatDir.

Definition _DRIVES : Z := 2.
Definition FA_CREATE_NEW : Z := 0x04.
Definition FA_CREATE_ALWAYS : Z := 0x08.
Definition FA_OPEN_ALWAYS : Z := 0x10.
Definition AM_RDO : Z := 0x01.
Definition BPB_BytsPerSec : Z := 11.
Definition BPB_SecPerClus : Z := 13.
Definition BPB_RsvdSecCnt : Z := 14.
Definition BPB_NumFATs : Z := 16.
Definition BPB_RootEntCnt : Z := 17.
Definition BPB_TotSec16 : Z := 19.
Definition BPB_FATSz16 : Z := 22.
Definition BPB_TotSec32 : Z := 32.
Definition BPB_FATSz32 : Z := 36.
Definition BPB_RootClus : Z := 44.
Definition BPB_FSInfo : Z := 48.
Definition BS_FilSysType : Z := 54.
Definition BS_FilSysType32 : Z := 82.
Definition MBR_Table : Z := 446.

(** The registered objects, the objects, the drives, the mount counter and the clock. *)
Record ffworld (D : Type) : Type := mk_ffworld {
  FatFs : list (option nat);
  objs : list FATFS;
  drives : list D;
  Fsid : Z;
  clock : Z
}.
Arguments mk_ffworld {D}. Arguments FatFs {D}. Arguments objs {D}. Arguments drives {D}.
Arguments Fsid {D}. Arguments clock {D}.
#[export] Instance eta_ffworld D : Settable (ffworld D) :=
  fun w => mk_ffworld (FatFs w) (objs w) (drives w) (Fsid w) (clock w).

Section Mount.
Context {D : Type} `{Disk D}.
#[local] Abbreviation F := (M (fworld D)).
#[local] Abbreviation FF := (M (ffworld D)).
#[local] Abbreviation DW := (M (dir_world D)).

(** [m] on the volume object [i] and the drive that is bound to it. *)
Definition on_volume {A} (i : nat) (m : F A) : FF A := fun w =>
  match objs w !! i with
  | None => Fault NullDeref
  | Some s =>
      match drives w !! Z.to_nat (drive s) with
      | None => Fault OutOfBounds
      | Some d =>
          match m (mk_fworld s d (clock w)) with
          | Fault f => Fault f
          | Ok (a, v) =>
              Ok (a, w{{ objs := <[i := fs v]> (objs w);
                         drives := <[Z.to_nat (drive s) := dsk v]> (drives w) }})
          end
      end
  end.

Definition obj_set (i : nat) (f : FATFS -> FATFS) : FF unit := modify (fun w =>
  w{{ objs := alter f i (objs w) }}).

(** [m] with a directory object for the volume. *)
Definition with_dir {A} (d : DIR) (m : DW A) : F (A * DIR) := fun v =>
  match m (mk_dir_world d v) with
  | Fault f => Fault f
  | Ok (a, w) => Ok ((a, dj w), dvol w)
  end.

(** ** Mounting *)

Definition f_mount (v : Z) (o : option nat) : FF FRESULT :=
  if _DRIVES <=? v then mret FR_INVALID_DRIVE
  else
    t ← gets FatFs;
    rfs ← aget t v;
    match rfs with
    | None => mret tt
    | Some i => obj_set i (fun s => s{{ fs_type := 0 }})
    end ;;
    match o with
    | None => mret tt
    | Some i => obj_set i (fun s => s{{ fs_type := 0 }})
    end ;;
    t' ← aset t v o;
    modify (fun w => w{{ FatFs := t' }}) ;;
    mret FR_OK.

(** 0 when the sector is the boot record of a FAT volume. *)
Definition check_fs (sector : Z) : F Z :=
  r ← dsk_op (disk_read sector 1);
  fset (fun s => s{{ win := snd r }}) ;;
  if negb (fst r) then mret 3
  else
    sig ← LD_WORD BS_55AA;
    if negb (sig =? 0xAA55) then mret 2
    else
      t ← LD_DWORD BS_FilSysType;
      if Z.land t 0xFFFFFF =? 0x544146 then mret 0
      else
        t ← LD_DWORD BS_FilSysType32;
        mret (if Z.land t 0xFFFFFF =? 0x544146 then 0 else 1).

(** The boot record: its sector and what [check_fs] says, of the drive or of the first
    partition. *)
Definition find_boot : F (Z * Z) :=
  fmt ← check_fs 0;
  if negb (fmt =? 1) then mret (0, fmt)
  else
    t4 ← win_get (MBR_Table + 4);
    if t4 =? 0 then mret (0, fmt)
    else
      bsect ← LD_DWORD (MBR_Table + 8);
      fmt ← check_fs bsect;
      mret (bsect, fmt).

(** The layout of the volume, from the boot record in the window. *)
Definition read_layout (bsect : Z) : F Z :=
  fsz16 ← LD_WORD BPB_FATSz16;
  fsize ← (if fsz16 =? 0 then LD_DWORD BPB_FATSz32 else mret fsz16);
  fset (fun s => s{{ sects_fat := fsize }}) ;;
  nf ← win_get BPB_NumFATs;
  fset (fun s => s{{ n_fats := nf }}) ;;
  let fsize := u32 (fsize * nf) in
  rsvd ← LD_WORD BPB_RsvdSecCnt;
  fset (fun s => s{{ fatbase := u32 (bsect + rsvd) }}) ;;
  cs ← win_get BPB_SecPerClus;
  fset (fun s => s{{ csize := cs }}) ;;
  nr ← LD_WORD BPB_RootEntCnt;
  fset (fun s => s{{ n_rootdir := nr }}) ;;
  ts16 ← LD_WORD BPB_TotSec16;
  tsect ← (if ts16 =? 0 then LD_DWORD BPB_TotSec32 else mret ts16);
  guard (negb (cs =? 0)) DivByZero ;;
  let mclst := u32 (u32 (tsect - rsvd - fsize - nr / (SS / 32)) / cs + 2) in
  fset (fun s => s{{ max_clust := mclst }}) ;;
  let fmt := if 0xFFF7 <=? mclst then FS_FAT32
             else if 0xFF7 <=? mclst then FS_FAT16 else FS_FAT12 in
  root ← (if fmt =? FS_FAT32 then LD_DWORD BPB_RootClus
          else mret (u32 (u32 (bsect + rsvd) + fsize)));
  fset (fun s => s{{ dirbase := root;
                     database := u32 (u32 (bsect + rsvd) + fsize + nr / (SS / 32)) }}) ;;
  mret fmt.

(** The sector of the FSInfo is looked at last, the signatures in this order. *)
Definition read_fsinfo (bsect : Z) : F unit :=
  info ← LD_WORD BPB_FSInfo;
  fset (fun s => s{{ fsi_flag := 0; fsi_sector := u32 (bsect + info) }}) ;;
  s ← fget id;
  r ← dsk_op (disk_read (fsi_sector s) 1);
  fset (fun s => s{{ win := snd r }}) ;;
  if negb (fst r) then mret tt
  else
    sig ← LD_WORD BS_55AA;
    if negb (sig =? 0xAA55) then mret tt
    else
      lead ← LD_DWORD FSI_LeadSig;
      if negb (lead =? 0x41615252) then mret tt
      else
        struc ← LD_DWORD FSI_StrucSig;
        if negb (struc =? 0x61417272) then mret tt
        else
          nxt ← LD_DWORD FSI_Nxt_Free;
          free ← LD_DWORD FSI_Free_Count;
          fset (fun s => s{{ last_clust := nxt; free_clust := free }}).

(** The volume is read from the drive; [fid] is its mount ID. *)
Definition mount (chk_wp : bool) (fid : Z) : F (FRESULT * bool) :=
  stat ← dsk_op disk_initialize;
  if negb (Z.land stat STA_NOINIT =? 0) then mret (FR_NOT_READY, false)
  else if chk_wp && negb (Z.land stat STA_PROTECT =? 0) then mret (FR_WRITE_PROTECTED, false)
  else
    b ← find_boot;
    if snd b =? 3 then mret (FR_DISK_ERR, false)
    else
      bps ← (if snd b =? 0 then LD_WORD BPB_BytsPerSec else mret 0);
      if negb (snd b =? 0) || negb (bps =? SS) then mret (FR_NO_FILESYSTEM, false)
      else
        fmt ← read_layout (fst b);
        fset (fun s => s{{ free_clust := 0xFFFFFFFF; wflag := 0 }}) ;;
        when (fmt =? FS_FAT32) (read_fsinfo (fst b)) ;;
        fset (fun s => s{{ fs_type := fmt; winsect := 0; fs_id := fid }}) ;;
        mret (FR_OK, true).

(** A mounted volume whose drive was not reset. *)
Definition still_mounted (chk_wp : bool) : F (option FRESULT) :=
  s ← fget id;
  if fs_type s =? 0 then mret None
  else
    stat ← gets (fun w => disk_status (dsk w));
    if negb (Z.land stat STA_NOINIT =? 0) then mret None
    else mret (Some (if chk_wp && negb (Z.land stat STA_PROTECT =? 0)
                     then FR_WRITE_PROTECTED else FR_OK)).

(** The logical drive of a path, and the path without it. *)
Definition path_drive (path : list Z) : FF (Z * list Z) :=
  p0 ← aget path 0;
  let v := u32 (p0 - 0x30) in
  p1 ← (if v <=? 9 then aget path 1 else mret 0);
  mret (if (v <=? 9) && (p1 =? 0x3A) then (v, drop 2 path) else (0, path)).

(** The result, the volume object and the rest of the path. *)
Definition chk_mounted (path : list Z) (chk_wp : bool)
    : FF (FRESULT * option nat * list Z) :=
  p ← path_drive path;
  let '(v, path) := p in
  if _DRIVES <=? v then mret (FR_INVALID_DRIVE, None, path)
  else
    t ← gets FatFs;
    rfs ← aget t v;
    match rfs with
    | None => mret (FR_NOT_ENABLED, None, path)
    | Some i =>
        st ← on_volume i (still_mounted chk_wp);
        match st with
        | Some r => mret (r, rfs, path)
        | None =>
            obj_set i (fun s => s{{ fs_type := 0; drive := u8 v }}) ;;
            fid ← gets (fun w => u16 (Fsid w + 1));
            r ← on_volume i (mount chk_wp fid);
            when (snd r) (modify (fun w => w{{ Fsid := fid }})) ;;
            mret (fst r, rfs, path)
        end
    end.

(** ** Opening *)

Definition creates (mode : Z) : bool :=
  negb (Z.land mode (Z.lor FA_CREATE_ALWAYS (Z.lor FA_OPEN_ALWAYS FA_CREATE_NEW)) =? 0).
Definition has (mode bit : Z) : bool := negb (Z.land mode bit =? 0).

(** The file of the entry gets size 0, its clusters are released. *)
Definition truncate_entry (fuel : nat) : DW FRESULT :=
  cl ← start_cluster;
  st_word DIR_FstClusHI 0 ;;
  st_word DIR_FstClusLO 0 ;;
  st_dword DIR_FileSize 0 ;;
  zoom (fset (fun s => s{{ wflag := 1 }})) ;;
  ps ← dvol_get winsect;
  res ← (if cl =? 0 then mret FR_OK
         else
           res ← zoom (remove_chain fuel cl);
           when (is_ok res) (zoom (fset (fun s => s{{ last_clust := u32 (cl - 1) }}))) ;;
           mret res);
  if is_err res then mret res else zoom (move_window ps).

(** An object exists at the path: it may be opened for writing over. *)
Definition open_existing (fuel : nat) (mode : Z) : DW FRESULT :=
  if has mode FA_CREATE_NEW then mret FR_EXIST
  else
    d ← dj_get dir;
    match d with
    | None => mret FR_DENIED
    | Some _ =>
        a ← dir_get DIR_Attr;
        if negb (Z.land a (Z.lor AM_RDO AM_DIR) =? 0) then mret FR_DENIED
        else if has mode FA_CREATE_ALWAYS then truncate_entry fuel
        else mret FR_OK
    end.

(** A new or emptied file: attributes and time of creation. *)
Definition new_entry : DW unit :=
  dir_put DIR_Attr 0 ;;
  ps ← gets (fun w => fattime (dvol w));
  st_dword DIR_CrtTime ps ;;
  zoom (fset (fun s => s{{ wflag := 1 }})).

(** The mode with what creating adds to it, or an error. *)
Definition open_create (turns fuel : nat) (mode : Z) (res : FRESULT) : DW (FRESULT + Z) :=
  r ← (match res with
       | FR_OK => res ← open_existing fuel mode; mret (res, mode)
       | FR_NO_FILE =>
           res ← dir_register turns fuel; mret (res, Z.lor mode FA_CREATE_ALWAYS)
       | _ => mret (res, mode)
       end);
  let '(res, mode) := r in
  if is_err res then mret (inl res)
  else if has mode FA_CREATE_ALWAYS then
    new_entry ;; mret (inr (Z.lor mode FA__WRITTEN))
  else mret (inr mode).

Definition open_read (mode : Z) (res : FRESULT) : DW (FRESULT + Z) :=
  if is_err res then mret (inl res)
  else
    d ← dj_get dir;
    match d with
    | None => mret (inl FR_NO_FILE)
    | Some _ =>
        a ← dir_get DIR_Attr;
        if negb (Z.land a AM_DIR =? 0) then mret (inl FR_NO_FILE)
        else if has mode FA_WRITE && negb (Z.land a AM_RDO =? 0) then mret (inl FR_DENIED)
        else mret (inr mode)
    end.

(** The file object for the entry. *)
Definition fill_fil (i : nat) (mode : Z) (fp : FIL) : DW FIL :=
  s ← dvol_get id;
  p ← entry_at 0;
  clst ← start_cluster;
  size ← ld_dword DIR_FileSize;
  mret (mk_fil (Some i) (fs_id s) mode 255 0 size clst (curr_clust fp) 0 (winsect s) p).

Definition open_on (turns fuel : nat) (i : nat) (path : list Z) (mode : Z) (fp : FIL)
    : DW (FRESULT * FIL) :=
  res ← follow_path turns fuel path;
  r ← (if creates mode then open_create turns fuel mode res else open_read mode res);
  match r with
  | inl e => mret (e, fp)
  | inr mode => f ← fill_fil i mode fp; mret (FR_OK, f)
  end.

(** A directory object as the stack gives it, for the volume [i]. *)
Definition new_dir (i : option nat) : DIR := mk_dir i 0 0 0 0 0 None (replicate 12 0).

Definition f_open (turns fuel : nat) (fp : FIL) (path : list Z) (mode : Z)
    : FF (FRESULT * FIL) :=
  let fp := fp{{ fil_fs := None }} in
  let mode := Z.land mode 0x1F in
  r ← chk_mounted path (negb (Z.land mode 0x1E =? 0));
  let '(res, o, path) := r in
  if is_err res then mret (res, fp)
  else match o with
  | None => mret (res, fp)
  | Some i =>
      r ← on_volume i (with_dir (new_dir o) (open_on turns fuel i path mode fp));
      mret (fst r)
  end.

(** [f_opendir]; an entry that is a directory, or the root. *)
Definition opendir_on (turns fuel : nat) (path : list Z) : DW FRESULT :=
  res ← follow_path turns fuel path;
  match res with
  | FR_OK =>
      d ← dj_get dir;
      res ← match d with
            | None => mret FR_OK
            | Some _ =>
                a ← dir_get DIR_Attr;
                if Z.land a AM_DIR =? 0 then mret FR_NO_PATH
                else
                  c ← start_cluster;
                  dj_set (fun d => d{{ sclust := c }}) ;; mret FR_OK
            end;
      if is_err res then mret res
      else
        s ← dvol_get id;
        dj_set (fun d => d{{ d_id := fs_id s }}) ;;
        dir_seek fuel 0
  | FR_NO_FILE => mret FR_NO_PATH
  | _ => mret res
  end.

Definition f_opendir (turns fuel : nat) (d : DIR) (path : list Z) : FF (FRESULT * DIR) :=
  r ← chk_mounted path false;
  let '(res, o, path) := r in
  let d := match res with FR_INVALID_DRIVE => d | _ => d{{ d_fs := o }} end in
  if is_err res then mret (res, d)
  else match o with
  | None => mret (res, d)
  | Some i => on_volume i (with_dir d (opendir_on turns fuel path))
  end.
End Mount.
