(* ===== verification/FatNameFacts.v ===== *)
(** * Names of files

    [create_name] puts a segment of a path in the form of a directory entry, [file_name]
    lists it again: in capital letters, with the characters of the code page converted. *)

From S2P Require Import Prelude Fat FatFile FatDir.

(** A character as it stands in an entry. *)
Definition conv (c : Z) : Z := if 0x80 <=? c then default 0 (cvt !! Z.to_nat (c - 0x80)) else c.
Definition up (c : Z) : Z :=
  if negb (IsUpper (conv c)) && IsLower (conv c) then conv c - 0x20 else conv c.

(** The characters of a name: no separator, no dot, no control character. *)
Definition good (c : Z) : bool :=
  (0x20 <? c) && (c <? 256) && negb (is_sep c) && negb (c =? 0x2E) && (chk_chr illegal (conv c) =? 0).

Lemma cvt_values : Forall (fun c => 0x20 < c < 256) cvt.
Proof. apply (bool_decide_unpack _). vm_compute. done. Qed.

Lemma conv_range c : good c = true -> 0x20 < conv c < 256.
Proof.
  unfold good, conv. intros (((( H1%Z.ltb_lt & H2%Z.ltb_lt)%andb_true_iff & _)%andb_true_iff & _)%andb_true_iff & _)%andb_true_iff.
  destruct (Z.leb_spec 0x80 c); [|lia].
  destruct (lookup_lt_is_Some_2 cvt (Z.to_nat (c - 0x80))) as [x Hx].
  { change (length cvt) with 128%nat. lia. }
  rewrite Hx. simpl. pose proof cvt_values as Hf. rewrite Forall_lookup in Hf. by apply (Hf _ _ Hx).
Qed.

Lemma up_range c : good c = true -> 0x20 < up c < 256.
Proof.
  intros Hc%conv_range. unfold up, IsUpper, IsLower.
  destruct (Z.leb_spec 0x41 (conv c)), (Z.leb_spec (conv c) 0x5A), (Z.leb_spec 0x61 (conv c)),
    (Z.leb_spec (conv c) 0x7A); simpl; lia.
Qed.

(** The case bits after the characters. *)
Definition case_bit (b c : Z) : Z :=
  if IsUpper (conv c) then Z.lor b 2 else if IsLower (conv c) then Z.lor b 1 else b.

Section Names.
Context {W : Type}.
Implicit Types w : W.

Lemma name_char_good n c w : good c = true -> 0 <= ni n < Z.of_nat (length (sfn n)) ->
  name_char n c w =
  Ok (Some (mk_naming (case_bit (nb n) c) (ni n + 1) (nlim n) (<[Z.to_nat (ni n) := up c]> (sfn n))), w).
Proof.
  intros Hc Hn. pose proof Hc as Hc'. unfold good in Hc.
  apply andb_true_iff in Hc as [Hc Hi%Z.eqb_eq]. apply andb_true_iff in Hc as [Hc _].
  apply andb_true_iff in Hc as [Hc _]. apply andb_true_iff in Hc as [H1%Z.ltb_lt H2%Z.ltb_lt].
  unfold name_char. rewrite (bind_ok _ _ w (conv c) w).
  - rewrite Hi. cbn [Z.eqb negb]. unfold case_bit, up.
    by rewrite (bind_ok _ _ _ _ _ (aset_ok _ _ _ _ Hn)).
  - unfold conv. destruct (Z.leb_spec 0x80 c); [|done].
    destruct (lookup_lt_is_Some_2 cvt (Z.to_nat (c - 0x80))) as [x Hx].
    { change (length cvt) with 128%nat. lia. }
    rewrite Hx. apply aget_ok; [lia|done].
Qed.

(** The characters of one part go to its places. *)
Lemma name_loop_part part rest n w : forallb good part = true ->
  0 <= ni n -> ni n + Z.of_nat (length part) <= nlim n -> nlim n <= Z.of_nat (length (sfn n)) ->
  name_loop (part ++ rest) n w =
  name_loop rest (mk_naming (foldl case_bit (nb n) part) (ni n + Z.of_nat (length part)) (nlim n)
    (blit (sfn n) (Z.to_nat (ni n)) (up <$> part))) w.
Proof.
  revert n. induction part as [|c part IH]; intros n Hg H0 Hl Hs.
  - simpl. rewrite Z.add_0_r, blit_nil. by destruct n.
  - cbn [forallb length app name_loop] in *. apply andb_true_iff in Hg as [Hc Hg].
    pose proof Hc as Hc'. unfold good in Hc.
    apply andb_true_iff in Hc as [Hc _]. apply andb_true_iff in Hc as [Hc Hd%negb_true_iff].
    apply andb_true_iff in Hc as [Hc Hsep%negb_true_iff]. apply andb_true_iff in Hc as [H1%Z.ltb_lt _].
    rewrite Hsep, Hd. destruct (Z.leb_spec c 0x20); [lia|]. destruct (Z.leb_spec (nlim n) (ni n)); [lia|].
    cbn [orb]. rewrite (bind_ok _ _ _ _ _ (name_char_good n c w Hc' ltac:(lia))).
    rewrite IH; cbn [ni nlim nb sfn]; [|done|lia|lia|by rewrite length_insert].
    cbn [foldl fmap list_fmap]. rewrite blit_cons by lia.
    f_equal. f_equal; [lia|]. f_equal. lia.
Qed.
(** ** The eleven characters *)

Definition padded (n : nat) (l : list Z) : list Z := l ++ replicate (n - length l) 0x20.

(** An entry does not start with 0xE5, the mark of a deleted one. *)
Definition marked (name : list Z) : list Z :=
  match name with c :: name' => (if c =? 0xE5 then 0x05 else c) :: name' | [] => [] end.

Definition entry_name (body ext : list Z) : list Z :=
  padded 8 (up <$> body) ++ padded 3 (up <$> ext).

Lemma padded_length n l : (length l <= n)%nat -> length (padded n l) = n.
Proof. intros. unfold padded. rewrite length_app, length_replicate. lia. Qed.

Lemma blit_parts b e : (length b <= 8)%nat -> (length e <= 3)%nat ->
  blit (blit (replicate 11 0x20) 0 b) 8 e = padded 8 b ++ padded 3 e.
Proof.
  intros Hb He.
  assert (blit (replicate 11 0x20) 0 b = padded 8 b ++ replicate 3 0x20) as ->.
  { unfold blit, padded. rewrite drop_replicate, take_0. cbn [app]. rewrite <- app_assoc. f_equal.
    rewrite <- replicate_add. f_equal. lia. }
  pose proof (padded_length 8 b Hb) as Hl. unfold blit.
  rewrite take_app_length' by done. f_equal. unfold padded at 2. f_equal.
  rewrite <- Hl at 1. rewrite drop_app_add, drop_replicate. done.
Qed.

Lemma name_loop_stop c rest n w : (c <=? 0x20) || is_sep c = true ->
  name_loop (c :: rest) n w = Ok (Some (c, n, rest), w).
Proof. intros E. cbn [name_loop]. by rewrite E. Qed.

Lemma name_loop_dot rest n w : nlim n = 8 ->
  name_loop (0x2E :: rest) n w = name_loop rest (mk_naming (u8 (Z.shiftl (nb n) 2)) 8 11 (sfn n)) w.
Proof. intros E. cbn [name_loop]. by rewrite E. Qed.

Lemma entry_name_length body ext : (length body <= 8)%nat -> (length ext <= 3)%nat ->
  length (entry_name body ext) = 11%nat.
Proof. intros. unfold entry_name. rewrite length_app, !padded_length; rewrite ?length_fmap; lia. Qed.

(** What [create_name] makes of [body], or of [body] and [ext] with a dot between them. *)
Lemma create_name_spec body dot ext c rest w :
  forallb good body = true -> forallb good ext = true ->
  (length body <= 8)%nat -> (length ext <= 3)%nat -> (dot = false -> ext = []) ->
  body <> [] \/ dot = true -> (c <=? 0x20) || is_sep c = true ->
  exists n, create_name (body ++ (if dot : bool then 0x2E :: ext else []) ++ c :: rest) w =
    Ok (Some (marked (entry_name body ext) ++ [name_flags c n], rest), w).
Proof.
  intros Hgb Hge Hlb Hle Hd Hne Hc. unfold create_name.
  set (n0 := mk_naming 0 0 8 (replicate 11 0x20)).
  assert (exists b i k, name_loop (body ++ (if dot then 0x2E :: ext else []) ++ c :: rest) n0 w =
    Ok (Some (c, mk_naming b i k (entry_name body ext), rest), w) /\ i <> 0) as (b & i & k & E & Hi).
  { rewrite name_loop_part by (simpl; (done || lia)). unfold n0. cbn [ni nlim sfn nb].
    rewrite Z.add_0_l. change (Z.to_nat 0) with 0%nat. destruct dot.
    - cbn [app]. rewrite name_loop_dot by done. cbn [nb sfn].
      rewrite name_loop_part; cbn [ni nlim sfn nb]; [|done|lia|lia|].
      + rewrite name_loop_stop by done. change (Z.to_nat 8) with 8%nat.
        rewrite blit_parts by (by rewrite length_fmap). fold (entry_name body ext).
        do 3 eexists. split; [done|]. lia.
      + rewrite length_blit; rewrite ?length_fmap, ?length_replicate; lia.
    - rewrite (Hd eq_refl). cbn [app]. rewrite name_loop_stop by done.
      replace (blit (replicate 11 32) 0 (up <$> body)) with (entry_name body []).
      + do 3 eexists. split; [done|]. destruct Hne as [Hne|]; [|done].
        destruct body; [done|cbn [length]; lia].
      + unfold entry_name. rewrite <- blit_parts; [|by rewrite length_fmap|cbn; lia].
        cbn [fmap list_fmap]. by rewrite blit_nil. }
  exists (mk_naming b i k (entry_name body ext)).
  rewrite (bind_ok _ _ _ _ _ E). cbn [ni sfn]. destruct (Z.eqb_spec i 0); [done|].
  destruct (entry_name body ext) as [|x l] eqn:En.
  { pose proof (entry_name_length body ext Hlb Hle) as Hl. by rewrite En in Hl. }
  rewrite (bind_ok _ _ w x w) by done. unfold marked. by destruct (x =? 0xE5).
Qed.

(** The status byte tells the last segment of a path. *)
Lemma name_flags_last c n : (Z.land (name_flags c n) NS_LAST =? 0) = negb (c <=? 0x20).
Proof.
  unfold name_flags. by destruct (c <=? 0x20); repeat case_match.
Qed.

(** ** Listing *)

Lemma copy_padded n l : Forall (fun c => c <> 0x20) l -> copy_name (padded n l) = l.
Proof.
  unfold padded. generalize (n - length l)%nat as k. intros k. induction 1 as [|c l Hc _ IH].
  - by destruct k.
  - cbn [app copy_name]. destruct (Z.eqb_spec c 0x20); [done|]. by rewrite IH.
Qed.

Lemma up_part part : forallb good part = true -> Forall (fun c => 0x20 < c) (up <$> part).
Proof.
  intros Hg. apply Forall_fmap. apply Forall_forall. intros c Hc. simpl.
  apply up_range. rewrite forallb_forall in Hg. apply Hg. by apply list_elem_of_In.
Qed.

Lemma unmark l n : Forall (fun c => 0x20 < c) l ->
  (fun c => if c =? 0x05 then 0xE5 else c) <$> copy_name (marked (padded n l)) = l.
Proof.
  intros Hl. assert (forall l, Forall (fun c => 0x20 < c) l ->
    (fun c => if c =? 0x05 then 0xE5 else c) <$> l = l) as Hid.
  { clear. induction 1 as [|c l Hc _ IH]; [done|]. rewrite fmap_cons, IH.
    by destruct (Z.eqb_spec c 5); [lia|]. }
  destruct Hl as [|c l Hc Hl].
  - unfold padded. cbn [app length]. by destruct n.
  - assert (Forall (fun c => c <> 0x20) l) as Hne by (eapply Forall_impl; [exact Hl|simpl; lia]).
    unfold padded. cbn [app marked length copy_name].
    assert (((if c =? 229 then 5 else c) =? 32) = false) as ->
      by (apply Z.eqb_neq; destruct (c =? 229); lia).
    rewrite fmap_cons. pose proof (copy_padded (n - 1) l Hne) as Ec. unfold padded in Ec.
    replace (n - S (length l))%nat with (n - 1 - length l)%nat by lia. rewrite Ec, Hid by done.
    f_equal. destruct (Z.eqb_spec c 229) as [->|]; [done|]. by destruct (Z.eqb_spec c 5); [lia|].
Qed.

Lemma file_name_entry body ext : forallb good body = true -> forallb good ext = true ->
  (length body <= 8)%nat -> (length ext <= 3)%nat ->
  file_name (marked (entry_name body ext)) =
  (up <$> body) ++ match ext with [] => [] | _ => 0x2E :: (up <$> ext) end.
Proof.
  intros Hgb Hge Hlb Hle. pose proof (up_part body Hgb) as Hb. pose proof (up_part ext Hge) as He.
  pose proof (padded_length 8 (up <$> body)) as Hl8. rewrite length_fmap in Hl8. specialize (Hl8 Hlb).
  pose proof (padded_length 3 (up <$> ext)) as Hl3. rewrite length_fmap in Hl3. specialize (Hl3 Hle).
  assert (marked (entry_name body ext) = marked (padded 8 (up <$> body)) ++ padded 3 (up <$> ext)) as ->.
  { unfold entry_name. by destruct (padded 8 (up <$> body)). }
  assert (length (marked (padded 8 (up <$> body))) = 8%nat) as Hm
    by (by destruct (padded 8 (up <$> body))).
  unfold file_name. rewrite take_app_length', drop_app_length', unmark by done.
  rewrite take_ge by lia. destruct ext as [|c ext].
  - cbn [fmap list_fmap]. unfold padded. simpl. by rewrite app_nil_r.
  - assert (Forall (fun c => c <> 0x20) (up <$> c :: ext)) as Hne
      by (eapply Forall_impl; [exact He|simpl; lia]).
    rewrite copy_padded by done. cbn [fmap list_fmap] in *. unfold padded. cbn [app].
    apply Forall_cons in Hne as [Hc _]. by destruct (Z.eqb_spec (up c) 32).
Qed.
End Names.
