(* ===== verification/FatDirFacts.v ===== *)
(** * Searching directories

    [dir_find] on the fixed root directory of FAT12 and FAT16 and on directories that are
    chains of clusters: it finds the entry that a search in the list of entries finds. *)

From S2P Require Import Prelude Fat FatTable FatFacts FatChain FatData FatFile FatReadFacts FatWriteFacts FatDir.

(** ** Entries *)

(** Entry [i] of a directory in the sectors [ts]. *)
Definition dir_entry (g : Z -> list Z) (ts : list Z) (i : nat) : list Z :=
  take 32 (drop (32 * (i mod 16)) (g (nth (i / 16) ts 0))).

(** The entry of the name: not a volume label, and with the same eleven characters. *)
Definition named (name e : list Z) : bool :=
  (Z.land (byte_at e 11) AM_VOL =? 0) && bool_decide (take 11 e = take 11 name).

(** The first entry of the name among [n] from [i] on, before the end mark. *)
Fixpoint search_name (name : list Z) (entry : nat -> list Z) (i n : nat) : option nat :=
  match n with
  | O => None
  | S n' =>
      if byte_at (entry i) 0 =? 0 then None
      else if named name (entry i) then Some i
      else search_name name entry (S i) n'
  end.

Lemma mem_cmp_take a b n : (n <= length a)%nat -> (n <= length b)%nat ->
  (mem_cmp a b n =? 0) = bool_decide (take n a = take n b).
Proof.
  revert a b. induction n as [|n IH]; intros [|x a] [|y b] Ha Hb; simpl in *; try lia; try done.
  destruct (Z.eqb_spec (x - y) 0) as [E|E].
  - rewrite IH by lia. apply bool_decide_ext. assert (x = y) as -> by lia. split; congruence.
  - rewrite bool_decide_false by (intros ?; simplify_eq; lia). by apply Z.eqb_neq.
Qed.

Section Dir.
Context {D : Type} `{WorkingDisk D}.
Implicit Types v : fworld D.

(** ** The sectors of a directory *)

(** The directory of start cluster [sc]: its clusters, none for the fixed root directory,
    and its sectors. *)
Inductive directory v : Z -> list Z -> list Z -> Prop :=
| fixed_root : fs_type (fs v) <> FS_FAT32 -> n_rootdir (fs v) mod 16 = 0 ->
    0 < n_rootdir (fs v) < 65536 -> behind (fs v) (dirbase (fs v)) ->
    dirbase (fs v) + n_rootdir (fs v) / 16 <= database (fs v) -> 
    directory v 0 [] (seqZ (dirbase (fs v)) (n_rootdir (fs v) / 16))
| in_clusters sc c l : 2 <= c < max_clust (fs v) ->
    (sc = c \/ sc = 0 /\ fs_type (fs v) = FS_FAT32 /\ dirbase (fs v) = c) -> 
    whole_chain (entry v) (max_clust (fs v)) c l ->
    16 * csize (fs v) * Z.of_nat (length l) < 65536 ->
    (exists e, 0 <= e <= 7 /\ csize (fs v) = 2 ^ e) ->
    directory v sc l (chain_sects (fs v) l).

(** The directory object stands in sector [k] of the directory. *)
Definition sect_at v (l ts : list Z) (d : DIR) (k : nat) : Prop :=
  ts !! k = Some (sect d) /\
  if l is [] then clust d = 0
  else l !! Z.to_nat (Z.of_nat k / csize (fs v)) = Some (clust d).

(** The directory object stands at entry [i]. *)
Record dir_at v (l ts : list Z) (d : DIR) (i : nat) : Prop := {
  dt_index : index d = Z.of_nat i;
  dt_sect : sect_at v l ts d (i / 16);
  dt_dir : dir d = Some (Z.of_nat (32 * (i mod 16)))
}.

Lemma dj_run d v : dj_get id (mk_dir_world d v) = Ok (d, mk_dir_world d v).
Proof. done. Qed.
Lemma dfs_run d v : dvol_get id (mk_dir_world d v) = Ok (fs v, mk_dir_world d v).
Proof. done. Qed.
Lemma dv_run {A} (m : M (fworld D) A) d v a v' : m v = Ok (a, v') ->
  zoom m (mk_dir_world d v) = Ok (a, mk_dir_world d v').
Proof. intros E. by rewrite (zoom_ok m _ a v'). Qed.

Lemma directory_range v sc l ts t : sound v -> directory v sc l ts -> t ∈ ts ->
  primary (fs v) t /\ 0 < t < sectors (dsk v) /\ behind (fs v) t.
Proof.
  intros [Hv Hd] Hdir. destruct Hdir as [Hty Hm Hn Hb Hdb|sc c l Hc Hsc Hch Hlen He].
  - intros Ht%elem_of_seqZ. assert (behind (fs v) t) as Hbt by (unfold behind in *; lia).
    split; [by right|]. split; [|done]. destruct (v_geo _ Hv), Hd. unfold behind, first_sect in *.
    assert (0 < n_fats (fs v) * sects_fat (fs v)) by (apply Z.mul_pos_pos; lia).
    pose proof (Z.mul_nonneg_nonneg (max_clust (fs v) - 2) (csize (fs v)) ltac:(lia) ltac:(lia)). lia.
  - intros (x & Ht & Hx)%list_elem_of_bind. apply elem_of_seqZ in Ht.
    pose proof (chain_clusters v c l Hch) as Hcl. rewrite Forall_forall in Hcl. specialize (Hcl x Hx).
    replace t with (first_sect (fs v) x + (t - first_sect (fs v) x)) by lia.
    destruct (data_sector v x (t - first_sect (fs v) x) Hv Hd Hcl) as (H1 & _ & H3); [lia|].
    split; [done|]. split; [done|]. apply data_behind; [by split|done|lia].
Qed.

Lemma directory_same v v' sc l ts : sound v -> same_volume v v' -> directory v sc l ts ->
  directory v' sc l ts.
Proof.
  intros Hs Hsv Hd.
  destruct (geo_inv _ _ (sv_geo _ _ Hsv)) as (Ety & E1 & E2 & Emc & E4 & _ & Ecs & Edb & Enr & Edi & _).
  destruct Hd as [Hty Hm Hn Hb Hdb|sc c l Hc Hsc Hch Hlen He].
  - rewrite <- Enr, <- Edi. apply fixed_root; unfold behind in *; congruence.
  - rewrite <- (chain_sects_geo (fs v) (fs v') l) by apply Hsv.
    apply (in_clusters v' sc c l); rewrite ?Ety, ?Edi, ?Ecs, ?Emc; try done.
    rewrite <- Emc. by apply (chain_same v).
Qed.

(** What moving in a directory keeps of the object. *)
Definition kept_d (d : DIR) := (d_fs d, d_id d, sclust d, fn d).

(** The start of a directory. *)
Lemma dir_seek_start v d l ts fuel : sound v -> directory v (sclust d) l ts -> (0 < fuel)%nat ->
  exists d', dir_seek fuel 0 (mk_dir_world d v) = Ok (FR_OK, mk_dir_world d' v) /\
    dir_at v l ts d' 0 /\ kept_d d' = kept_d d.
Proof.
  intros [Hv Hd] Hdir Hf. unfold dir_seek.
  set (d1 := d{{ index := 0 }}).
  rewrite (bind_ok (dj_set _) _ (mk_dir_world d v) tt (mk_dir_world d1 v) eq_refl).
  rewrite (bind_ok (dj_get sclust) _ (mk_dir_world d1 v) (sclust d) (mk_dir_world d1 v) eq_refl).
  rewrite (bind_ok _ _ _ _ _ (dfs_run d1 v)).
  pose proof (g_clust _ _ (v_geo _ Hv)) as Hmc. pose proof (da_csize _ _ Hd) as Hcz.
  pose proof (g_size _ _ (v_geo _ Hv)) as Hg.
  remember (sclust d) as sc eqn:Esc. destruct Hdir as [Hty Hm Hn Hb Hdb|sc c l Hc Hsc Hch Hlen He].
  - destruct (Z.eqb_spec 0 1), (Z.leb_spec (max_clust (fs v)) 0); try lia. cbn [orb].
    destruct (Z.eqb_spec (fs_type (fs v)) FS_FAT32); [done|]. cbn [andb]. change (0 =? 0) with true. cbv iota.
    eexists. split.
    + unfold dj_set, modify, mbind, M_bind. simpl.
      destruct (Z.leb_spec (n_rootdir (fs v)) 0); [lia|]. reflexivity.
    + simpl. split; [|done]. constructor; simpl; try done.
      rewrite Z.add_0_r. assert (u32 (dirbase (fs v)) = dirbase (fs v)) as ->.
      { apply Z.mod_small. destruct Hd. unfold behind, first_sect in *.
        assert (0 < n_fats (fs v) * sects_fat (fs v)) by (destruct (v_geo _ Hv); apply Z.mul_pos_pos; lia).
        destruct (v_geo _ Hv).
        pose proof (Z.mul_nonneg_nonneg (max_clust (fs v) - 2) (csize (fs v)) ltac:(lia) ltac:(lia)). lia. }
      split; [apply lookup_seqZ; simpl; lia|done].
  - assert (clusters v c) as Hcl by done.
    destruct (Z.eqb_spec sc 1), (Z.leb_spec (max_clust (fs v)) sc);
      [lia..|destruct Hsc as [|(? & _)]; lia|]. cbn [orb].
    assert ((if (sc =? 0) && (fs_type (fs v) =? FS_FAT32) then dirbase (fs v) else sc) = c) as ->.
    { destruct Hsc as [->|(-> & -> & ->)]; [|done]. by destruct (Z.eqb_spec c 0); [lia|]. }
    destruct (Z.eqb_spec c 0); [lia|]. unfold SS.
    assert (u16 (512 / 32 * csize (fs v)) = 16 * csize (fs v)) as ->
      by (change (512 / 32) with 16; unfold u16; lia).
    rewrite (bind_ok _ _ _ (inr (0, c)) (mk_dir_world d1 v)).
    2: { apply dv_run. destruct fuel as [|fuel]; [lia|]. cbn [while].
      rewrite (bind_ok _ _ v (Break (inr (0, c))) v); [done|]. unfold seek_dir_body.
      by destruct (Z.ltb_spec 0 (16 * csize (fs v))); [|lia]. }
    set (d2 := d1{{ clust := c }}).
    rewrite (bind_ok (dj_set _) _ (mk_dir_world d1 v) tt (mk_dir_world d2 v) eq_refl).
    destruct (clust2sect_run v c Hv Hd Hcl) as [E Hne].
    rewrite (bind_ok _ _ _ _ _ (dv_run _ d2 v _ _ E)).
    destruct (data_sector v c 0 Hv Hd Hcl) as (_ & _ & Ht); [lia|].
    eexists. split; [reflexivity|]. simpl. split; [|done].
    destruct l as [|x l]; [by destruct Hch as [[_ ?]|[? _]]; [lia|]|].
    pose proof (whole_chain_first _ _ _ _ _ Hch eq_refl) as ->.
    constructor; simpl; try done. split; [|done].
    unfold chain_sects. cbn [mbind list_bind]. rewrite lookup_app_l by (rewrite length_seqZ; lia).
    rewrite lookup_seqZ. rewrite Z.add_0_r in *. split; [|lia].
    rewrite Z.add_0_r. unfold u32. apply Z.mod_small. lia.
Qed.

(** ** The next entry *)

Lemma chain_land i e : 0 <= i -> 0 <= e -> Z.land i (2 ^ e - 1) = i mod 2 ^ e.
Proof.
  intros Hi He. rewrite <- Z.land_ones by done. by rewrite Z.ones_equiv, Z.sub_1_r.
Qed.

(** The following cluster of a directory, or its end. *)
Lemma next_cluster_spec v c0 l x q fuel : sound v -> whole_chain (entry v) (max_clust (fs v)) c0 l ->
  l !! q = Some x ->
  exists v', next_cluster fuel x false v =
    Ok (match l !! S q with Some y => inr y | None => inl FR_NO_FILE end, v') /\ same_volume v v'.
Proof.
  intros [Hv Hd] Hch Hx. pose proof (whole_chain_range _ _ _ _ _ _ Hch Hx) as Hr.
  destruct (get_fat_spec v x Hv Hr) as (v' & E & Hs). exists v'. split; [|done].
  unfold next_cluster. rewrite (bind_ok _ _ _ _ _ E).
  unfold fget. rewrite (bind_ok _ _ v' (fs v') v' eq_refl).
  destruct (geo_inv _ _ (sv_geo _ _ Hs)) as (_ & _ & _ & -> & _).
  pose proof (entry_range v x Hv) as Her. pose proof (g_clust _ _ (v_geo _ Hv)) as Hmc.
  destruct (l !! S q) as [y|] eqn:Hy.
  - rewrite (whole_chain_next _ _ _ _ _ _ _ Hch Hx Hy) in *.
    pose proof (whole_chain_range _ _ _ _ _ _ Hch Hy) as Hyr.
    by destruct (Z.leb_spec y 1), (Z.eqb_spec y 0xFFFFFFFF), (Z.leb_spec (max_clust (fs v)) y); try lia.
  - destruct Hch as [[-> _]|(_ & e & Hp & He)]; [done|].
    destruct (path_lookup _ _ _ _ _ _ _ Hp Hx) as (_ & _ & ->). rewrite Hy in *. simpl in *.
    destruct (path_lookup _ _ _ _ _ _ _ Hp Hx) as (_ & _ & Ee). rewrite Hy in Ee. simpl in Ee.
    rewrite Ee in Her.
    by destruct (Z.leb_spec e 1), (Z.eqb_spec e 0xFFFFFFFF), (Z.leb_spec (max_clust (fs v)) e); try lia.
Qed.

(** Sector [k] of a chain. *)
Lemma chain_sects_at s l k c : 1 <= csize s -> l !! Z.to_nat (Z.of_nat k / csize s) = Some c ->
  chain_sects s l !! k = Some (first_sect s c + Z.of_nat k mod csize s).
Proof.
  intros Hs Hl. rewrite <- (chain_sects_lookup s l _ c _ ltac:(lia) Hl).
  - f_equal. pose proof (Z.div_mod (Z.of_nat k) (csize s) ltac:(lia)) as E.
    assert (0 <= Z.of_nat k / csize s) by (apply Z.div_pos; lia).
    pose proof (Z.mod_pos_bound (Z.of_nat k) (csize s) ltac:(lia)). nia.
  - apply Z.mod_pos_bound. lia.
Qed.

(** The sector behind sector [k]. *)
Lemma next_sector_spec v sc l ts d k fuel : sound v -> directory v sc l ts ->
  sect_at v l ts d k ->
  exists d' v', next_sector fuel (16 * (Z.of_nat k + 1)) false (mk_dir_world d v) =
    Ok (if decide (S k < length ts)%nat then FR_OK else FR_NO_FILE, mk_dir_world d' v') /\
    same_volume v v' /\ kept_d d' = kept_d d /\
    ((S k < length ts)%nat -> sect_at v l ts d' (S k)).
Proof.
  intros Hs Hdir [Hk Hcl]. pose proof Hs as [Hv Hd]. pose proof (da_csize _ _ Hd) as Hcz.
  destruct (directory_range v sc l ts (sect d) Hs Hdir) as (_ & Ht & _).
  { by apply (list_elem_of_lookup_2 _ k). }
  pose proof (g_size _ _ (v_geo _ Hv)) as Hg.
  assert (u32 (sect d + 1) = sect d + 1) as Eu by (apply Z.mod_small; lia).
  set (d1 := d{{ sect := sect d + 1 }}).
  assert (exists m : M (dir_world D) FRESULT, next_sector fuel (16 * (Z.of_nat k + 1)) false (mk_dir_world d v) =
    m (mk_dir_world d1 v) /\ m = (if clust d =? 0 then
      mret (if n_rootdir (fs v) <=? 16 * (Z.of_nat k + 1) then FR_NO_FILE else FR_OK)
    else if negb (Z.land (16 * (Z.of_nat k + 1) / 16) (csize (fs v) - 1) =? 0) then mret FR_OK
    else
      r ← zoom (next_cluster fuel (clust d) false);
      match r with
      | inl e => mret e
      | inr clst =>
          dj_set (fun d => d{{ clust := clst }}) ;;
          sec ← zoom (clust2sect clst);
          dj_set (fun d => d{{ sect := sec }}) ;;
          mret FR_OK
      end)) as (m & -> & ->).
  { eexists. split; [|reflexivity]. unfold next_sector.
    rewrite (bind_ok (dj_set _) _ (mk_dir_world d v) tt (mk_dir_world d1 v))
      by (unfold dj_set, modify; simpl; by rewrite Eu).
    rewrite (bind_ok (dj_get clust) _ (mk_dir_world d1 v) (clust d) (mk_dir_world d1 v) eq_refl).
    by rewrite (bind_ok _ _ _ _ _ (dfs_run d1 v)). }
  assert (Z.of_nat k = csize (fs v) * (Z.of_nat k / csize (fs v)) + Z.of_nat k mod csize (fs v)) as Ek
    by (apply Z.div_mod; lia).
  pose proof (Z.mod_pos_bound (Z.of_nat k) (csize (fs v)) ltac:(lia)) as Hmb.
  destruct Hdir as [Hty Hm Hn Hb Hdb|sc c l Hc Hsc Hch Hlen (e & He & Ee)].
  - rewrite Hcl. change (0 =? 0) with true. cbv iota. apply lookup_seqZ in Hk as [Hk Hkn].
    exists d1, v. split; [|split; [by apply same_volume_refl|split; [done|]]].
    + unfold mret, M_ret. do 2 f_equal. rewrite length_seqZ.
      destruct (decide _), (Z.leb_spec (n_rootdir (fs v)) (16 * (Z.of_nat k + 1))); try done; lia.
    + rewrite length_seqZ. intros Hlt. split; [|exact Hcl]. apply lookup_seqZ. simpl. lia.
  - assert (l !! Z.to_nat (Z.of_nat k / csize (fs v)) = Some (clust d)) as Hl.
    { destruct l as [|x l]; [by destruct Hch as [[_ ?]|[? _]]; [lia|]|done]. }
    assert (l <> []) as Hne by (intros ->; by rewrite lookup_nil in Hl).
    set (q := Z.to_nat (Z.of_nat k / csize (fs v))) in *.
    assert (0 <= Z.of_nat k / csize (fs v)) as Hq0 by (apply Z.div_pos; lia).
    pose proof (whole_chain_range _ _ _ _ _ _ Hch Hl) as Hr.
    destruct (Z.eqb_spec (clust d) 0); [lia|].
    replace (16 * (Z.of_nat k + 1) / 16) with (Z.of_nat k + 1) by lia. rewrite Ee, chain_land, <- Ee by lia.
    assert (sect d = first_sect (fs v) (clust d) + Z.of_nat k mod csize (fs v)) as Esd.
    { rewrite (chain_sects_at (fs v) l k (clust d) ltac:(lia) Hl) in Hk. congruence. }
    pose proof (lookup_lt_Some _ _ _ Hl) as Hql. rewrite chain_sects_length by lia.
    destruct (count_up (csize (fs v)) (Z.of_nat k) ltac:(lia)) as [(C1 & C2 & C3)|(C1 & C2 & C3)].
    + rewrite C3. destruct (Z.eqb_spec (Z.of_nat k mod csize (fs v) + 1) 0); [lia|]. cbn [negb].
      assert (S k < length l * Z.to_nat (csize (fs v)))%nat as Hlt by (unfold q in Hql; nia).
      exists d1, v. split; [by rewrite decide_True|]. split; [by apply same_volume_refl|]. split; [done|].
      intros _. unfold sect_at. replace (Z.of_nat (S k)) with (Z.of_nat k + 1) by lia.
      rewrite C2. fold q. split; [|by destruct l].
      rewrite (chain_sects_at _ l (S k) (clust d)); [|lia|].
      * change (sect d1) with (sect d + 1). f_equal. rewrite Esd.
        replace (Z.of_nat (S k)) with (Z.of_nat k + 1) by lia. lia.
      * by replace (Z.of_nat (S k)) with (Z.of_nat k + 1) by lia; rewrite C2.
    + rewrite C3. change (negb (0 =? 0)) with false. cbv iota.
      destruct (next_cluster_spec v c l (clust d) q fuel Hs Hch Hl) as (v' & E & Hsv).
      pose proof (sound_same v v' Hs Hsv) as [Hv' Hd'].
      destruct (geo_inv _ _ (sv_geo _ _ Hsv)) as (_ & _ & _ & Emc & _ & _ & Ecs & Edb & _).
      destruct (l !! S q) as [y|] eqn:Hy.
      * pose proof (whole_chain_range _ _ _ _ _ _ Hch Hy) as Hyr.
        assert (clusters v' y) as Hy' by (unfold clusters; by rewrite Emc).
        destruct (clust2sect_run v' y Hv' Hd' Hy') as [E2 _].
        set (d2 := d1{{ clust := y }}). set (d3 := d2{{ sect := first_sect (fs v') y }}).
        exists d3, v'. pose proof (lookup_lt_Some _ _ _ Hy) as Hylt.
        assert (S k < length l * Z.to_nat (csize (fs v)))%nat as Hlt by (unfold q in Hylt; nia).
        rewrite decide_True by done. split; [|split; [done|split; [done|]]].
        -- rewrite (bind_ok _ _ _ _ _ (dv_run _ d1 v _ _ E)).
           rewrite (bind_ok (dj_set _) _ (mk_dir_world d1 v') tt (mk_dir_world d2 v') eq_refl).
           by rewrite (bind_ok _ _ _ _ _ (dv_run _ d2 v' _ _ E2)).
        -- intros _. assert (l !! Z.to_nat (Z.of_nat (S k) / csize (fs v)) = Some y) as Hly.
           { replace (Z.of_nat (S k)) with (Z.of_nat k + 1) by lia. rewrite C2, <- Hy. f_equal. lia. }
           split; [|by destruct l].
           rewrite (chain_sects_at (fs v) l (S k) y ltac:(lia) Hly). simpl sect. unfold first_sect. rewrite Ecs, Edb.
           replace (Z.of_nat (S k)) with (Z.of_nat k + 1) by lia. by rewrite C3, Z.add_0_r.
      * exists d1, v'. apply lookup_ge_None_1 in Hy.
        assert (~ (S k < length l * Z.to_nat (csize (fs v)))%nat) as Hge by (unfold q in Hy, Hql; nia).
        rewrite decide_False by done. split; [|done].
        by rewrite (bind_ok _ _ _ _ _ (dv_run _ d1 v _ _ E)).
Qed.

Lemma directory_length v sc l ts : sound v -> directory v sc l ts ->
  0 < 16 * Z.of_nat (length ts) < 65536.
Proof.
  intros [_ Hd]. pose proof (da_csize _ _ Hd).
  destruct 1 as [Hty Hm Hn Hb Hdb|sc c l Hc Hsc Hch Hlen He].
  - rewrite length_seqZ. lia.
  - rewrite chain_sects_length by lia. destruct l; [by destruct Hch as [[_ ?]|[? _]]; [lia|]|].
    cbn [length] in *. nia.
Qed.

Lemma dir_next_spec v sc l ts d i fuel : sound v -> directory v sc l ts -> dir_at v l ts d i ->
  exists d' v', dir_next fuel false (mk_dir_world d v) =
    Ok (if decide (S i < 16 * length ts)%nat then FR_OK else FR_NO_FILE, mk_dir_world d' v') /\
    same_volume v v' /\ kept_d d' = kept_d d /\
    ((S i < 16 * length ts)%nat -> dir_at v l ts d' (S i)).
Proof.
  intros Hs Hdir [Hi Hk Hp]. pose proof (directory_length v sc l ts Hs Hdir) as Hlen.
  pose proof Hk as [Hkt _]. pose proof (lookup_lt_Some _ _ _ Hkt) as Hlt.
  destruct (directory_range v sc l ts (sect d) Hs Hdir) as (_ & Ht & _).
  { by apply (list_elem_of_lookup_2 _ (i / 16)). }
  unfold dir_next. rewrite (bind_ok _ _ _ _ _ (dj_run d v)). rewrite Hi.
  pose proof (Nat2Z.inj_div i 16) as Ei1. pose proof (Nat2Z.inj_mod i 16) as Ei2.
  pose proof (Nat2Z.inj_div (S i) 16) as Es1. pose proof (Nat2Z.inj_mod (S i) 16) as Es2.
  change (Z.of_nat 16) with 16 in *. assert (u16 (Z.of_nat i + 1) = Z.of_nat (S i)) as -> by (unfold u16; lia).
  destruct (Z.eqb_spec (Z.of_nat (S i)) 0), (Z.eqb_spec (sect d) 0); try lia. cbn [orb].
  change (SS / 32) with 16.
  assert (exists d1 v1, (if Z.of_nat (S i) mod 16 =? 0 then next_sector fuel (Z.of_nat (S i)) false
      else mret FR_OK) (mk_dir_world d v) =
    Ok (if decide (S i < 16 * length ts)%nat then FR_OK else FR_NO_FILE, mk_dir_world d1 v1) /\
    same_volume v v1 /\ kept_d d1 = kept_d d /\
    ((S i < 16 * length ts)%nat -> sect_at v l ts d1 (S i / 16))) as (d1 & v1 & E & Hsv & Hkd & Hat).
  { destruct (Z.eqb_spec (Z.of_nat (S i) mod 16) 0) as [E0|E0].
    - assert (S i / 16 = S (i / 16))%nat as Esi by lia.
      destruct (next_sector_spec v sc l ts d (i / 16) fuel Hs Hdir Hk) as (d1 & v1 & E & H1 & H2 & H3).
      exists d1, v1. replace (16 * (Z.of_nat (i / 16) + 1)) with (Z.of_nat (S i)) in E by lia.
      rewrite E, Esi. split; [|split; [done|split; [done|intros; apply H3; lia]]].
      do 2 f_equal. destruct (decide _), (decide _); try done; lia.
    - assert (S i / 16 = i / 16)%nat as Esi by lia. exists d, v.
      rewrite decide_True by lia. split; [done|]. split; [by apply same_volume_refl, Hs|].
      split; [done|]. intros _. by rewrite Esi. }
  rewrite (bind_ok _ _ _ _ _ E). destruct (decide (S i < 16 * length ts)%nat) as [Hn|Hn].
  - cbn [is_err is_ok negb]. eexists. exists v1. split; [reflexivity|]. split; [done|].
    split; [exact Hkd|]. intros _. constructor; [done|exact (Hat Hn)|]. simpl dir. f_equal. 
    change (SS / 32) with 16. lia.
  - cbn [is_err is_ok negb]. exists d1, v1. done.
Qed.

(** ** Searching *)

Lemma byte_at_slice l p n j : 0 <= j < Z.of_nat n -> byte_at (take n (drop p l)) j = byte_at l (Z.of_nat p + j).
Proof.
  intros Hj. unfold byte_at. rewrite lookup_take_lt, lookup_drop by lia. do 2 f_equal. lia.
Qed.

Lemma search_name_ext name e e' i n : (forall k, (i <= k < i + n)%nat -> e k = e' k) ->
  search_name name e i n = search_name name e' i n.
Proof.
  revert i. induction n as [|n IH]; intros i He; [done|]. cbn [search_name].
  rewrite He by lia. rewrite (IH (S i)) by (intros; apply He; lia). done.
Qed.

Lemma search_name_S name e i n : search_name name e i (S n) =
  (if byte_at (e i) 0 =? 0 then None
   else if named name (e i) then Some i else search_name name e (S i) n).
Proof. reflexivity. Qed.

(** What [dir_find] returns with the object [d] at entry [i], of the entries seen. *)
Definition find_result v (l ts : list Z) (o : option nat) (r : FRESULT) (d' : DIR) v' : Prop :=
  match o with
  | Some k => r = FR_OK /\ dir_at v l ts d' k /\ winsect (fs v') = sect d'
  | None => r = FR_NO_FILE
  end.

Lemma find_turn v sc l ts d i fuel : sound v -> directory v sc l ts -> dir_at v l ts d i ->
  (i < 16 * length ts)%nat -> (11 <= length (fn d))%nat ->
  let e := dir_entry (vsector v) ts i in
  exists v1, same_volume v v1 /\ winsect (fs v1) = sect d /\
    find_body fuel tt (mk_dir_world d v) =
    (if byte_at e 0 =? 0 then mret (Break FR_NO_FILE)
     else if named (fn d) e then mret (Break FR_OK)
     else res ← dir_next fuel false; mret (if is_ok res then Continue tt else Break res))
      (mk_dir_world d v1).
Proof.
  intros Hs Hdir [Hi [Hk _] Hp] Hn Hfn e.
  destruct (directory_range v sc l ts (sect d) Hs Hdir) as (Hpr & Ht & _).
  { by apply (list_elem_of_lookup_2 _ (i / 16)). }
  destruct (move_window_spec v (sect d) (proj1 Hs) Ht Hpr) as (v1 & E & Hsv & Ew & El).
  exists v1. split; [done|]. split; [done|].
  destruct (vsector_ok v (sect d) (proj1 Hs)) as [Hl _]. rewrite <- El in Hl.
  pose proof (Nat.mod_upper_bound i 16 ltac:(lia)) as Hmb.
  assert (e = take 32 (drop (32 * (i mod 16)) (win (fs v1)))) as Ee.
  { unfold e, dir_entry. rewrite El, (nth_lookup_Some ts _ 0 _ Hk). done. }
  assert (forall j, 0 <= j < 32 -> dir_get j (mk_dir_world d v1) = Ok (byte_at e j, mk_dir_world d v1)) as Hget.
  { intros j Hj. unfold dir_get, entry_at.
    rewrite (bind_ok _ _ (mk_dir_world d v1) (Z.of_nat (32 * (i mod 16)) + j) (mk_dir_world d v1)).
    - apply dv_run. rewrite win_get_run by lia. do 2 f_equal. by rewrite Ee, byte_at_slice by lia.
    - by rewrite (bind_ok (dj_get dir) _ (mk_dir_world d v1) (dir d) (mk_dir_world d v1) eq_refl), Hp. }
  unfold find_body, move_to_sect.
  rewrite (bind_ok _ _ _ FR_OK (mk_dir_world d v1)).
  2: { rewrite (bind_ok (dj_get sect) _ (mk_dir_world d v) (sect d) (mk_dir_world d v) eq_refl).
       by apply dv_run. }
  cbn [is_err is_ok negb]. rewrite (bind_ok _ _ _ _ _ (Hget DIR_Name ltac:(unfold DIR_Name; lia))).
  unfold DIR_Name. destruct (byte_at e 0 =? 0); [done|].
  rewrite (bind_ok _ _ _ _ _ (Hget DIR_Attr ltac:(unfold DIR_Attr; lia))).
  rewrite (bind_ok same_name _ _ (bool_decide (take 11 e = take 11 (fn d))) (mk_dir_world d v1)).
  - unfold named, DIR_Attr. by destruct (_ && _).
  - unfold same_name, dir_bytes, entry_at.
    rewrite (bind_ok _ _ (mk_dir_world d v1) (take 11 (drop (32 * (i mod 16)) (win (fs v1)))) (mk_dir_world d v1)).
    + rewrite (bind_ok (dj_get fn) _ (mk_dir_world d v1) (fn d) (mk_dir_world d v1) eq_refl).
      unfold mret, M_ret. do 2 f_equal. rewrite mem_cmp_take; [|rewrite length_take, length_drop; lia|done].
      by rewrite Ee, !take_take.
    + rewrite (bind_ok _ _ _ (Z.of_nat (32 * (i mod 16))) (mk_dir_world d v1)).
      2: { rewrite (bind_ok (dj_get dir) _ (mk_dir_world d v1) (dir d) (mk_dir_world d v1) eq_refl), Hp. unfold mret, M_ret. by rewrite Z.add_0_r. }
      rewrite (bind_ok (dvol_get win) _ (mk_dir_world d v1) (win (fs v1)) (mk_dir_world d v1) eq_refl).
      rewrite mem_get_run by lia. by rewrite Nat2Z.id.
Qed.

Lemma dir_at_same v v' l ts d i : same_volume v v' -> dir_at v l ts d i -> dir_at v' l ts d i.
Proof.
  intros Hs [Hi [Hk Hc] Hp]. destruct (geo_inv _ _ (sv_geo _ _ Hs)) as (_ & _ & _ & _ & _ & _ & Ecs & _).
  constructor; [done|split; [done|by rewrite Ecs]|done].
Qed.

(** The sectors of the directory are the same to the search. *)
Lemma dir_entry_same v v' sc l ts i : sound v -> directory v sc l ts -> same_volume v v' ->
  (i < 16 * length ts)%nat -> dir_entry (vsector v') ts i = dir_entry (vsector v) ts i.
Proof.
  intros Hs Hd Hsv Hi. unfold dir_entry. do 2 f_equal. apply (sv_view _ _ Hsv).
  apply (directory_range v sc l ts); [done|done|]. apply list_elem_of_In, nth_In.
  pose proof (Nat2Z.inj_div i 16). change (Z.of_nat 16) with 16 in *. lia.
Qed.

Lemma find_loop turns fuel v sc l ts d i n : sound v -> directory v sc l ts -> dir_at v l ts d i ->
  (i + S n = 16 * length ts)%nat -> (11 <= length (fn d))%nat -> (n < turns)%nat ->
  exists r d' v', while turns (find_body fuel) tt (mk_dir_world d v) = Ok (r, mk_dir_world d' v') /\
    same_volume v v' /\ kept_d d' = kept_d d /\
    find_result v l ts (search_name (fn d) (dir_entry (vsector v) ts) i (S n)) r d' v'.
Proof.
  revert turns v d i. induction n as [|n IH]; intros turns v d i Hs Hdir Hat Hn Hfn Ht;
    (destruct turns as [|turns]; [lia|]); cbn [while].
  all: destruct (find_turn v sc l ts d i fuel Hs Hdir Hat ltac:(lia) Hfn) as (v1 & Hsv & Ew & E).
  all: pose proof (dir_at_same v v1 l ts d i Hsv Hat) as Hat1.
  all: pose proof (directory_same v v1 sc l ts Hs Hsv Hdir) as Hdir1.
  all: pose proof (sound_same v v1 Hs Hsv) as Hs1.
  all: rewrite search_name_S; set (e := dir_entry (vsector v) ts i) in *.
  all: assert (forall r, find_body fuel tt (mk_dir_world d v) = Ok (Break r, mk_dir_world d v1) ->
    while (S turns) (find_body fuel) tt (mk_dir_world d v) = Ok (r, mk_dir_world d v1)) as Hbr
    by (intros r Er; cbn [while]; by rewrite (bind_ok _ _ _ _ _ Er)).
  all: cbn [while] in Hbr; destruct (byte_at e 0 =? 0);
    [exists FR_NO_FILE, d, v1; split; [by apply Hbr|done]|].
  all: destruct (named (fn d) e); [exists FR_OK, d, v1; split; [by apply Hbr|];
    split; [done|]; split; [done|]; split; [done|]; by split|].
  all: destruct (dir_next_spec v1 sc l ts d i fuel Hs1 Hdir1 Hat1) as (d2 & v2 & E2 & Hsv2 & Hkd & Hat2).
  all: pose proof (same_volume_trans _ _ _ Hsv Hsv2) as Hsv12.
  - rewrite decide_False in E2 by lia. rewrite (bind_ok _ _ _ _ _ E2) in E.
    exists FR_NO_FILE, d2, v2. by rewrite (bind_ok _ _ _ _ _ E).
  - rewrite decide_True in E2 by lia. rewrite (bind_ok _ _ _ _ _ E2) in E.
    specialize (Hat2 ltac:(lia)).
    assert (fn d2 = fn d) as Efn by (unfold kept_d in Hkd; congruence).
    destruct (IH turns v2 d2 (S i)) as (r & d' & v' & Ew' & Hsv' & Hkd' & Hres).
    + by apply (sound_same v1).
    + by apply (directory_same v1).
    + by apply (dir_at_same v1).
    + lia.
    + by rewrite Efn.
    + lia.
    + exists r, d', v'. rewrite (bind_ok _ _ _ _ _ E). split; [exact Ew'|].
      split; [by apply (same_volume_trans _ v2)|]. split; [congruence|].
      rewrite Efn in Hres. rewrite (search_name_ext _ _ (dir_entry (vsector v) ts)) in Hres.
      * unfold find_result in *. destruct (search_name _ _ _ _); [|done].
        destruct Hres as (H1 & H2 & H3). split; [done|]. split; [|done].
        destruct H2 as [G1 [G2 G3] G4]. constructor; [done|split; [done|]|done].
        destruct (geo_inv _ _ (sv_geo _ _ Hsv12)) as (_ & _ & _ & _ & _ & _ & Ecs & _).
        by rewrite Ecs in G3.
      * intros k Hk. apply (dir_entry_same v v2 sc l); [done|done|done|lia].
Qed.

(** [dir_find] finds the entry that the search in the list of entries finds. *)
Lemma dir_find_spec turns fuel v l ts d : sound v -> directory v (sclust d) l ts ->
  (11 <= length (fn d))%nat -> (16 * length ts <= turns)%nat -> (0 < fuel)%nat ->
  exists r d' v', dir_find turns fuel (mk_dir_world d v) = Ok (r, mk_dir_world d' v') /\
    same_volume v v' /\ kept_d d' = kept_d d /\
    find_result v l ts (search_name (fn d) (dir_entry (vsector v) ts) 0 (16 * length ts)) r d' v'.
Proof.
  intros Hs Hdir Hfn Ht Hf. pose proof (directory_length v _ l ts Hs Hdir) as Hlen.
  unfold dir_find. destruct (dir_seek_start v d l ts fuel Hs Hdir Hf) as (d1 & E & Hat & Hkd).
  rewrite (bind_ok _ _ _ _ _ E). cbn [is_err is_ok negb].
  assert (fn d1 = fn d) as Efn by (unfold kept_d in Hkd; congruence).
  destruct (find_loop turns fuel v (sclust d) l ts d1 0 (16 * length ts - 1)) as
    (r & d' & v' & E' & Hsv & Hkd' & Hres); try done; [lia|by rewrite Efn|lia|].
  exists r, d', v'. split; [done|]. split; [done|]. split; [congruence|].
  rewrite Efn in Hres. by replace (S (16 * length ts - 1)) with (16 * length ts)%nat in Hres by lia.
Qed.

End Dir.
