(* ===== verification/FatSpec.v ===== *)
(** * An open file as a sequence of bytes

    The abstract file is its bytes and a position; reading, writing, seeking and flushing
    are steps on it.  The file objects of FatFs implement it: every call on a file object
    is a step of the abstract file, and whatever calls follow one another, the object and
    its volume stay sound. *)

From S2P Require Import Prelude Fat FatTable FatFacts FatChain FatData FatFile FatReadFacts FatWriteFacts FatSeekFacts FatGrow FatSyncFacts.

(** ** The specification *)

(** The bytes, the position, what the file was opened for, and the largest size that the
    volume has room for. *)
Record afile : Type := mk_afile { bytes : list Z; pos : nat; may_read : bool; may_write : bool; limit : Z }.

Inductive call : Type :=
| Read (btr : Z)
| Write (buff : list Z)
| Seek (ofs : Z)
| Sync.

(** The result, the bytes that were read and the number that was written. *)
Definition reply : Type := FRESULT * list Z * Z.

(** How many bytes a write stores: all, as far as there is room; none when the size would
    not fit into 32 bits. *)
Definition write_count (a : afile) (n : nat) : nat :=
  if 4294967296 <=? Z.of_nat (length (bytes a) + n) then 0%nat
  else Nat.min n (Z.to_nat (limit a) - pos a).

(** Where a seek ends: a file for reading is not left, one for writing grows to the
    position, as far as there is room. *)
Definition seek_pos (a : afile) (ofs : Z) : nat :=
  Z.to_nat (Z.min ofs (if may_write a then limit a else Z.of_nat (length (bytes a)))).

(** What a file gains by a seek behind its end are bytes of any value. *)
Inductive astep : afile -> call -> reply -> afile -> Prop :=
| a_read b p w m n :
    astep (mk_afile b p true w m) (Read n) (FR_OK, take (Z.to_nat n) (drop p b), 0)
      (mk_afile b (p + Nat.min (Z.to_nat n) (length b - p)) true w m)
| a_unreadable a n : may_read a = false -> astep a (Read n) (FR_DENIED, [], 0) a
| a_write b p r m buff : let n := write_count (mk_afile b p r true m) (length buff) in
    astep (mk_afile b p r true m) (Write buff) (FR_OK, [], Z.of_nat n)
      (mk_afile (blit b p (take n buff)) (p + n) r true m)
| a_unwritable a buff : may_write a = false -> astep a (Write buff) (FR_DENIED, [], 0) a
| a_seek b p r w m ofs more : let p' := seek_pos (mk_afile b p r w m) ofs in
    length more = (p' - length b)%nat ->
    astep (mk_afile b p r w m) (Seek ofs) (FR_OK, [], 0) (mk_afile (b ++ more) p' r w m)
| a_sync a : astep a Sync (FR_OK, [], 0) a.

(** The arguments are of their types. *)
Definition typed_call (c : call) : Prop :=
  match c with
  | Read n => 0 <= n < 4294967296
  | Write buff => Forall byte_ok buff /\ Z.of_nat (length buff) < 4294967296
  | Seek ofs => 0 <= ofs < 4294967296
  | Sync => True
  end.

Inductive asteps : afile -> list call -> list reply -> afile -> Prop :=
| as_nil a : asteps a [] [] a
| as_cons a c rep a1 cs reps a2 :
    astep a c rep a1 -> asteps a1 cs reps a2 -> asteps a (c :: cs) (rep :: reps) a2.

(** The turns of the loop over the bytes of a call. *)
Definition call_size (c : call) : nat :=
  match c with Read n => Z.to_nat n | Write buff => length buff | _ => 0%nat end.

Section Spec.
Context {D : Type} `{WorkingDisk D}.
Implicit Types v : fworld D.
#[local] Abbreviation FW := (M (file_world D)).

Definition perform (turns fuel : nat) (c : call) : FW reply :=
  match c with
  | Read n => r ← f_read turns n; mret (fst r, snd r, 0)
  | Write buff => r ← f_write turns fuel buff (Z.of_nat (length buff)); mret (fst r, [], snd r)
  | Seek ofs => r ← f_lseek turns fuel ofs; mret (r, [], 0)
  | Sync => r ← f_sync; mret (r, [], 0)
  end.

(** The drive of a sound volume is ready. *)
Lemma drive_ready v : sound v -> Z.land (disk_status (dsk v)) STA_NOINIT = 0.
Proof. intros [Hv _]. apply status_works. destruct (v_range _ Hv). lia. Qed.

(** A chain is shorter than the table. *)
Lemma chain_short v c l : sound v -> whole_chain (entry v) (max_clust (fs v)) c l -> NoDup l ->
  (length l < enough v)%nat.
Proof.
  intros [Hv _] Hc Hn. pose proof (g_clust _ _ (v_geo _ Hv)). unfold enough.
  assert (length l <= Z.to_nat (max_clust (fs v) - 2))%nat; [|lia].
  apply clusters_bound; [done|]. exact (chain_clusters v c l Hc).
Qed.

(** ** The implementation relation *)

(** Sector [t] holds a directory: it is not in a free cluster, nor in one of the file. *)
Record dir_place v (l : list Z) (t : Z) : Prop := {
  dp_behind : behind (fs v) t;
  dp_range : 0 < t < sectors (dsk v);
  dp_used : forall c, clusters v c -> first_sect (fs v) c <= t < first_sect (fs v) c + csize (fs v) ->
    (c ∉ l) /\ entry v c <> 0
}.

(** Fields of the object and the volume that the calls rely on. *)
Record well_kept v (l : list Z) (f : FIL) : Prop := {
  wk_power : exists e, 0 <= e <= 7 /\ csize (fs v) = 2 ^ e;
  wk_time : word_ok (fattime v);
  wk_dir : dir_place v l (dir_sect f);
  wk_ptr : 0 <= dir_ptr f <= 480
}.

(** What the file was opened for. *)
Definition readable_file (f : FIL) : bool := negb (Z.land (flag f) FA_READ =? 0).
Definition writable_file (f : FIL) : bool := negb (Z.land (flag f) FA_WRITE =? 0).

(** The chain [l] of the object holds the abstract file. *)
Record holds_file v (l : list Z) (f : FIL) (a : afile) : Prop := {
  hf_nodup : NoDup l;
  hf_open : open_file v l f;
  hf_kept : well_kept v l f;
  hf_bytes : contents_of v l f = bytes a;
  hf_limit : room v l = limit a
}.

(** The file object on its volume implements the abstract file. *)
Record implements (w : file_world D) (a : afile) : Prop := {
  im_healthy : healthy (vol w);
  im_file : exists l, holds_file (vol w) l (fil w) a;
  im_pos : fptr (fil w) = Z.of_nat (pos a);
  im_modes : readable_file (fil w) = may_read a /\ writable_file (fil w) = may_write a
}.

Lemma dir_place_only v v' l l' t : only_file v l v' l' -> dir_place v l t -> dir_place v' l' t.
Proof.
  intros [] []. destruct (geo_inv _ _ of_geo) as (_ & En & Es & Em & Ef & _ & Ec & Ed & _).
  constructor.
  - unfold behind in *. congruence.
  - by rewrite of_size.
  - unfold clusters, first_sect. rewrite Em, Ec, Ed. intros c Hc Ht.
    destruct (dp_used0 c Hc Ht) as [Hn He]. assert (c ∉ l') as Hn'.
    { intros Hin. by destruct (of_fresh c Hin Hn). }
    split; [done|]. by rewrite of_entry.
Qed.

Lemma well_kept_only v v' l l' f f' : only_file v l v' l' -> well_kept v l f ->
  dir_sect f' = dir_sect f -> dir_ptr f' = dir_ptr f -> well_kept v' l' f'.
Proof.
  intros Ho [] Ed Ep. destruct (geo_inv _ _ (of_geo _ _ _ _ Ho)) as (_ & _ & _ & _ & _ & _ & Ec & _).
  constructor; [by rewrite Ec|by rewrite (of_time _ _ _ _ Ho)| |by rewrite Ep].
  rewrite Ed. by apply (dir_place_only v _ l).
Qed.

(** The modes are other bits than the mark of a change. *)
Lemma modes_marked f fl : fl = flag f \/ fl = Z.lor (flag f) FA__WRITTEN ->
  forall m, m = FA_READ \/ m = FA_WRITE -> Z.land fl m = Z.land (flag f) m.
Proof.
  intros [-> | ->] m Hm; [done|]. rewrite Z.land_lor_distr_l.
  destruct Hm as [-> | ->]; apply Z.lor_0_r.
Qed.

Lemma modes_clean fl m : Z.land FA__WRITTEN m = 0 ->
  Z.land (Z.land fl (Z.lnot FA__WRITTEN)) m = Z.land fl m.
Proof.
  intros Hm. rewrite <- Z.land_assoc. f_equal.
  rewrite Z.land_comm, <- Z.ldiff_land. apply Z.bits_inj'. intros i Hi.
  rewrite Z.ldiff_spec. assert (Z.testbit (Z.land FA__WRITTEN m) i = false) as E
    by (rewrite Hm; apply Z.bits_0). rewrite Z.land_spec in E.
  destruct (Z.testbit m i), (Z.testbit FA__WRITTEN i); done.
Qed.

(** After a call that touched nothing but the file. *)
Lemma implements_next v l f a v' l' f' b p : holds_file v l f a -> healthy v' ->
  NoDup l' -> only_file v l v' l' -> open_file v' l' f' ->
  dir_sect f' = dir_sect f -> dir_ptr f' = dir_ptr f ->
  flag f' = flag f \/ flag f' = Z.lor (flag f) FA__WRITTEN ->
  readable_file f = may_read a /\ writable_file f = may_write a ->
  contents_of v' l' f' = b -> fptr f' = Z.of_nat p ->
  implements (mk_file_world f' v') (mk_afile b p (may_read a) (may_write a) (limit a)).
Proof.
  intros [Hn Ho Hk Hb Hl] Hh' Hn' Hof Ho' Ed Ep Hm [Hr Hw] Hc Hp.
  constructor; cbn [fil vol may_read may_write pos]; [done| |done|].
  - exists l'. constructor; cbn [bytes limit]; [done|done|by apply (well_kept_only v v' l l' f)|done|].
    rewrite <- Hl. apply (only_file_room v l v' l' (org_clust f) (org_clust f')); [done|done|apply Ho|apply Ho'].
  - unfold readable_file, writable_file in *. rewrite <- Hr, <- Hw.
    rewrite !(modes_marked f _ Hm) by auto. done.
Qed.

(** Read calls leave the volume as it is. *)
Lemma same_contents v v' l f f' : sound v -> Forall (clusters v) l -> same_volume v v' ->
  fsize f' = fsize f -> contents_of v' l f' = contents_of v l f.
Proof.
  intros [Hv Hd] Hl Hs E. unfold contents_of. rewrite E. f_equal. by apply same_file_data.
Qed.

Lemma implements_moved v v' l f f' a p : healthy v -> holds_file v l f a ->
  readable_file f = may_read a /\ writable_file f = may_write a ->
  same_volume v v' -> open_file v' l f' -> fixed f' = fixed (f{{ fptr := Z.of_nat p }}) ->
  implements (mk_file_world f' v') (mk_afile (bytes a) p (may_read a) (may_write a) (limit a)).
Proof.
  intros Hh Ha Hm Hs Ho' E. injection E as E1 E2 E3 E4 E5 E6 E7 E8. simpl in *.
  pose proof (h_sound _ Hh) as Hso. pose proof Ha as [Hn Ho _ Hb _].
  apply (implements_next v l f a v' l f'); try done.
  - by apply (healthy_same v).
  - by apply same_only_file; [apply Hso|].
  - by left.
  - rewrite <- Hb. apply same_contents; [done| |done|done].
    exact (chain_clusters v _ l (p_chain _ _ _ (o_pos _ _ _ Ho))).
Qed.

(** A call on a represented file is a step of the abstract file. *)
Definition simulates (turns fuel : nat) (c : call) (w : file_world D) (a : afile) : Prop :=
  exists rep w' a', perform turns fuel c w = Ok (rep, w') /\ astep a c rep a' /\ implements w' a' /\
    geo (fs (vol w')) = geo (fs (vol w)).

Lemma represented_length v l f a : holds_file v l f a -> Z.of_nat (length (bytes a)) = fsize f.
Proof.
  intros [_ [[Hv Hd] Hp (H1 & H2 & H3) _ _] _ <- _]. pose proof (p_ptr _ _ _ Hp). pose proof (da_csize _ _ Hd).
  apply contents_length; [done|lia|lia].
Qed.

(** The bytes of the file fit into the volume. *)
Lemma represented_limit v l f a : holds_file v l f a -> fsize f <= limit a.
Proof.
  intros [_ [Hs _ (_ & _ & H3) _ _] _ _ <-]. pose proof (room_capacity v l Hs). lia.
Qed.

Lemma read_denied turns fuel n w a : implements w a -> may_read a = false ->
  perform turns fuel (Read n) w = Ok ((FR_DENIED, [], 0), w).
Proof.
  destruct w as [f v]. intros [Hh (l & [_ Ho _ _ _]) _ [Hm _]] Hr. rewrite Hr in Hm. simpl in *.
  apply negb_false_iff in Hm.
  rewrite (bind_ok _ _ (mk_file_world f v) (FR_DENIED, []) (mk_file_world f v)); [done|].
  unfold f_read. rewrite (bind_ok _ _ _ _ _ (validate_fil_ok v l f Ho (drive_ready v (h_sound _ Hh)))).
  cbn [is_err is_ok negb]. rewrite (bind_ok _ _ _ _ _ (fil_run f v)), (o_flag _ _ _ Ho). cbn [Z.eqb negb].
  by rewrite Hm.
Qed.

Lemma write_denied turns fuel buff w a : implements w a -> may_write a = false ->
  perform turns fuel (Write buff) w = Ok ((FR_DENIED, [], 0), w).
Proof.
  destruct w as [f v]. intros [Hh (l & [_ Ho _ _ _]) _ [_ Hm]] Hr. rewrite Hr in Hm. simpl in *.
  apply negb_false_iff in Hm.
  rewrite (bind_ok _ _ (mk_file_world f v) (FR_DENIED, 0) (mk_file_world f v)); [done|].
  unfold f_write. rewrite (bind_ok _ _ _ _ _ (validate_fil_ok v l f Ho (drive_ready v (h_sound _ Hh)))).
  cbn [is_err is_ok negb]. rewrite (bind_ok _ _ _ _ _ (fil_run f v)), (o_flag _ _ _ Ho). cbn [Z.eqb negb].
  by rewrite Hm.
Qed.

Lemma read_simulates turns fuel n w a : implements w a -> 0 <= n ->
  (Z.to_nat n < turns)%nat -> simulates turns fuel (Read n) w a.
Proof.
  intros Hi Hn0 Ht. destruct (may_read a) eqn:Hr.
  2: { exists (FR_DENIED, [], 0), w, a. split; [by apply (read_denied _ _ _ _ a)|]. split; [by constructor|done]. }
  destruct w as [f v], a as [b p r wr m]. simpl in Hr. subst r.
  destruct Hi as [Hh (l & Ha) Hp Hm]. pose proof Ha as [Hn Ho Hk Hc _]. simpl in *.
  pose proof (represented_length v l f _ Ha) as Hlen. simpl in Hlen.
  pose proof (o_size _ _ _ Ho) as (Hs1 & Hs2 & Hs3).
  destruct (f_read_spec v l f n turns Ho) as (f' & v' & E & Hadv & Hs & Ho');
    [by apply Z.eqb_neq, negb_true_iff, Hm|apply drive_ready, Hh|done|done|].
  eexists _, (mk_file_world f' v'), (mk_afile b (p + Nat.min (Z.to_nat n) (length b - p)) true wr m).
  split; [|split; [by apply a_read|split]].
  - simpl. rewrite (bind_ok _ _ _ _ _ E). unfold mret, M_ret. simpl. do 4 f_equal.
    rewrite <- Hc. unfold contents_of. rewrite skipn_firstn_comm, take_take, Hp, Nat2Z.id.
    f_equal. unfold readable. lia.
  - apply (implements_moved v v' l f f' (mk_afile b p true wr m)); try done. rewrite Hadv.
    replace (Z.of_nat (p + Nat.min (Z.to_nat n) (length b - p))) with (fptr f + readable f n); [done|].
    unfold readable. lia.
  - apply Hs.
Qed.

Lemma seek_simulates turns fuel ofs w a : implements w a -> 0 <= ofs < 4294967296 ->
  (enough (vol w) <= fuel)%nat -> (enough (vol w) <= turns)%nat -> simulates turns fuel (Seek ofs) w a.
Proof.
  destruct w as [f v], a as [b p r wr m]. intros [Hh (l & Ha) Hp Hm] Hofs Hf Ht.
  pose proof Ha as [Hn Ho Hk Hc Hlim]. simpl in *.
  pose proof (represented_length v l f _ Ha) as Hlen. simpl in Hlen.
  destruct (wk_power _ _ _ Hk) as (e & He & Ee). destruct Hm as [Hr Hw].
  destruct wr.
  - destruct (f_lseek_grows turns fuel v l f ofs e) as (f' & v' & l' & E & Hsk);
      [done..|by apply Z.eqb_neq, negb_true_iff|apply drive_ready, Hh|done|done|].
    destruct Hsk as ((Hh' & Hn' & Hof & _) & Ho' & Efp & Esz & Efl & Eds & Edp & Ec).
    rewrite Hc, Hlim in *.
    pose proof (represented_limit v l f _ Ha) as Hle. simpl in Hle.
    assert (fptr f' = Z.of_nat (seek_pos (mk_afile b p r true m) ofs)) as Epos
      by (unfold seek_pos; cbn [may_write limit]; lia).
    eexists _, (mk_file_world f' v'), (mk_afile (b ++ drop (length b) (contents_of v' l' f'))
      (seek_pos (mk_afile b p r true m) ofs) r true m).
    split; [|split; [apply a_seek|split]].
    + simpl. by rewrite (bind_ok _ _ _ _ _ E).
    + rewrite length_drop. pose proof (contents_length v' l' f' (proj1 (h_sound _ Hh'))) as Hlc.
      pose proof (da_csize _ _ (proj2 (h_sound _ Hh'))). pose proof (o_size _ _ _ Ho') as (_ & _ & ?).
      pose proof (o_size _ _ _ Ho). specialize (Hlc ltac:(lia) ltac:(lia)). lia.
    + apply (implements_next v l f (mk_afile b p r true m) v' l' f'); try done.
      * rewrite Efl. destruct (fsize f <? fptr f'); [by right|by left].
      * rewrite <- (take_drop (length b) (contents_of v' l' f')) at 1. f_equal.
        rewrite Ec at 2. by rewrite <- Hlen, Nat2Z.id.
    + apply Hof.
  - apply negb_false_iff, Z.eqb_eq in Hw.
    set (ofs' := Z.min ofs (fsize f)).
    assert (f_lseek turns fuel ofs (mk_file_world f v) = f_lseek turns fuel ofs' (mk_file_world f v)) as Esame.
    { unfold f_lseek. rewrite !(bind_ok _ _ _ _ _ (validate_fil_ok v l f Ho (drive_ready v (h_sound _ Hh)))).
      cbn [is_err is_ok negb]. rewrite !(bind_ok _ _ _ _ _ (fil_run f v)), Hw. rewrite !andb_true_r.
      unfold ofs'. destruct (Z.ltb_spec (fsize f) ofs), (Z.ltb_spec (fsize f) (Z.min ofs (fsize f))); try lia.
      - by rewrite Z.min_r by lia.
      - by rewrite Z.min_l by lia. }
    destruct (f_lseek_spec turns fuel v l f ofs' e) as (f' & v' & E & Hmv & Hs & Ho');
      [done|done|done|done|done|apply drive_ready, Hh|unfold ofs'; lia| |].
    { pose proof (chain_short v _ l (o_sound _ _ _ Ho) (p_chain _ _ _ (o_pos _ _ _ Ho)) Hn). lia. }
    eexists _, (mk_file_world f' v'), (mk_afile (b ++ []) (seek_pos (mk_afile b p r false m) ofs) r false m).
    split; [|split; [apply a_seek|split]].
    + simpl. rewrite (bind_ok _ _ _ _ _ (eq_trans Esame E)). done.
    + unfold seek_pos. simpl. lia.
    + rewrite app_nil_r. apply (implements_moved v v' l f f' (mk_afile b p r false m)); try done.
      * split; [done|]. simpl. unfold writable_file. by rewrite Hw.
      * unfold moved in Hmv. rewrite Hmv. do 2 f_equal. unfold seek_pos. cbn [may_write bytes].
        rewrite Hlen, Z2Nat.id by lia. done.
    + apply Hs.
Qed.

(** A write that would make the size overflow writes nothing. *)
Lemma write_overflow turns fuel v l f buff n : open_file v l f ->
  Z.land (disk_status (dsk v)) STA_NOINIT = 0 -> 0 <= n < 4294967296 -> 4294967296 <= fsize f + n ->
  f_write turns fuel buff n (mk_file_world f v) = f_write turns fuel buff 0 (mk_file_world f v).
Proof.
  intros Ho Hst Hn Hov. pose proof (o_size _ _ _ Ho) as (_ & Hs & _). pose proof (p_ptr _ _ _ (o_pos _ _ _ Ho)).
  pose proof (o_size _ _ _ Ho) as (Hsp & _).
  unfold f_write. rewrite !(bind_ok _ _ _ _ _ (validate_fil_ok v l f Ho Hst)).
  cbn [is_err is_ok negb]. rewrite !(bind_ok _ _ _ _ _ (fil_run f v)).
  assert (u32 (fsize f + n) = fsize f + n - 4294967296) as -> by (unfold u32; lia).
  rewrite Z.add_0_r. assert (u32 (fsize f) = fsize f) as -> by (unfold u32; lia).
  rewrite Z.ltb_irrefl. by destruct (Z.ltb_spec (fsize f + n - 4294967296) (fsize f)); [|lia].
Qed.

Lemma write_simulates turns fuel buff w a : implements w a -> Forall byte_ok buff ->
  Z.of_nat (length buff) < 4294967296 -> (enough (vol w) <= fuel)%nat ->
  (length buff < turns)%nat -> simulates turns fuel (Write buff) w a.
Proof.
  intros Hi Hb Hsz Hf Ht. destruct (may_write a) eqn:Hr.
  2: { exists (FR_DENIED, [], 0), w, a. split; [by apply (write_denied _ _ _ _ a)|]. split; [by constructor|done]. }
  destruct w as [f v], a as [b p r wr m]. simpl in Hr. subst wr.
  destruct Hi as [Hh (l & Ha) Hp Hm]. pose proof Ha as [Hn Ho Hk Hc Hlim]. simpl in *.
  pose proof (represented_length v l f _ Ha) as Hlen. simpl in Hlen.
  pose proof (represented_limit v l f _ Ha) as Hle. simpl in Hle.
  pose proof (o_size _ _ _ Ho) as (Hs1 & Hs2 & Hs3).
  set (btw := if 4294967296 <=? fsize f + Z.of_nat (length buff) then 0 else Z.of_nat (length buff)).
  assert (f_write turns fuel buff (Z.of_nat (length buff)) (mk_file_world f v) =
    f_write turns fuel buff btw (mk_file_world f v)) as Ew.
  { unfold btw. destruct (Z.leb_spec 4294967296 (fsize f + Z.of_nat (length buff))); [|done].
    apply (write_overflow _ _ _ l); [done|apply drive_ready, Hh|lia|done]. }
  destruct (f_write_spec v l f buff btw turns fuel) as (n & f' & v' & l' & E & Hnb & Hfull & Hw);
    [done|done|done|by apply Z.eqb_neq, negb_true_iff, Hm|apply drive_ready, Hh
    |unfold btw; destruct (_ <=? _); lia|done
    |unfold btw; destruct (Z.leb_spec 4294967296 (fsize f + Z.of_nat (length buff))); lia|done
    |unfold btw; destruct (_ <=? _); lia|].
  destruct Hw as (Hh' & Hn' & Ho' & Hof & Efp & Esz & Efl & Eds & Edp & Ec).
  pose proof (only_file_room v l v' l' _ _ Hof Hn' (p_chain _ _ _ (o_pos _ _ _ Ho)) (p_chain _ _ _ (o_pos _ _ _ Ho'))) as Er.
  pose proof (room_capacity v' l' (h_sound _ Hh')) as Hrc. pose proof (o_size _ _ _ Ho') as (Hs1' & _ & Hs3').
  assert (n = Z.min btw (limit (mk_afile b p r true m) - fptr f)) as En.
  { simpl. rewrite <- Hlim, <- Er. destruct (decide (n < btw)) as [Hlt|]; [|lia].
    destruct (Hfull Hlt) as [Hfu Ecap]. rewrite (full_room v' l' Hfu). lia. }
  assert (Z.to_nat n = write_count (mk_afile b p r true m) (length buff)) as Ewc.
  { unfold write_count. cbn [bytes pos limit]. rewrite En. unfold btw. simpl.
    rewrite Nat2Z.inj_add, Hlen. destruct (Z.leb_spec 4294967296 (fsize f + Z.of_nat (length buff))); lia. }
  exists (FR_OK, [], Z.of_nat (Z.to_nat n)), (mk_file_world f' v'),
    (mk_afile (blit b p (take (Z.to_nat n) buff)) (p + Z.to_nat n) r true m).
  split; [|split; [rewrite Ewc; apply a_write|split]].
  - simpl. rewrite (bind_ok _ _ _ _ _ (eq_trans Ew E)). by rewrite Z2Nat.id by lia.
  - apply (implements_next v l f (mk_afile b p r true m) v' l' f'); try done; [by right| |lia].
    by rewrite Ec, Hc, Hp, Nat2Z.id.
  - apply Hof.
Qed.

(** The directory is not among the sectors of the file. *)
Lemma dir_outside v l t : sound v -> Forall (clusters v) l -> dir_place v l t -> t ∉ chain_sects (fs v) l.
Proof.
  intros [Hv Hd] Hl [] (c & Ht & Hc)%list_elem_of_bind. rewrite Forall_forall in Hl.
  apply elem_of_seqZ in Ht. destruct (dp_used0 c (Hl c Hc)) as [Hn _]; [lia|done].
Qed.

Lemma sync_simulates turns fuel w a : implements w a -> simulates turns fuel Sync w a.
Proof.
  destruct w as [f v]. intros Hi. pose proof Hi as [Hh (l & Ha) Hp Hm].
  pose proof Ha as [Hn Ho Hk Hc Hlim]. simpl in *. pose proof Hk as [Hpow Htm Hd Hdp].
  pose proof (p_chain _ _ _ (o_pos _ _ _ Ho)) as Hch. pose proof (chain_clusters v _ l Hch) as Hcl.
  destruct (decide (Z.land (flag f) FA__WRITTEN = 0)) as [Hf|Hf].
  - eexists _, _, a. split; [|split; [apply a_sync|split; [exact Hi|done]]].
    simpl. rewrite (bind_ok _ _ (mk_file_world f v) FR_OK (mk_file_world f v)); [done|].
    unfold f_sync. rewrite (bind_ok _ _ _ _ _ (validate_fil_ok v l f Ho (drive_ready v (h_sound _ Hh)))).
    rewrite (bind_ok _ _ _ _ _ (fil_run f v)). by rewrite Hf.
  - pose proof (o_size _ _ _ Ho) as (H1 & H2 & H3). pose proof (p_ptr _ _ _ (o_pos _ _ _ Ho)) as H4.
    assert (word_ok (org_clust f)) as Hw.
    { destruct l as [|x l]; [destruct Hch as [[_ ->]|[? _]]; done|].
      pose proof (whole_chain_range _ _ _ _ 0%nat x Hch eq_refl) as Hx.
      rewrite (whole_chain_first _ _ _ _ _ Hch eq_refl) in Hx.
      by destruct (mask_bound v (org_clust f) (proj1 (h_sound _ Hh)) ltac:(lia)). }
    destruct (f_sync_spec v l f Ho (drive_ready v (h_sound _ Hh)) Hf) as (v' & E & Hy);
      [apply Hd|apply Hd|done|done|unfold word_ok; lia|done|].
    pose proof (dp_behind _ _ _ Hd) as Hb.
    destruct (geo_inv _ _ (fy_geo _ _ _ Hy)) as (_ & En & Es & Em & Ef & _ & Ec & Ed & _).
    eexists _, (mk_file_world (clean_flag f) v'), a.
    split; [|split; [apply a_sync|split]].
    + simpl. by rewrite (bind_ok _ _ _ _ _ E).
    + constructor; simpl; [by apply (synced_healthy v f)| |done|].
      2: { unfold readable_file, writable_file in *. simpl. by rewrite !modes_clean. }
      exists l. constructor; [done|by apply (synced_open v)| | |].
      * constructor; simpl; [by rewrite Ec|by rewrite (fy_time _ _ _ Hy)| |done].
        destruct Hd. constructor; [unfold behind in *; congruence|by rewrite (fy_size _ _ _ Hy)|].
        unfold clusters, first_sect. rewrite Em, Ec, Ed. intros c Hc' Ht.
        rewrite (synced_entry v f) by (done || apply Hh). by apply dp_used0.
      * rewrite <- Hc. unfold contents_of. simpl. f_equal. apply (synced_data v l f); try done.
        apply dir_outside; [apply Hh|done|done].
      * rewrite <- Hlim. unfold room, capacity. rewrite Ec, (frees_ext v v'); [done|done|].
        intros c Hcc. apply (synced_entry v f); (done || apply Hh).
    + apply Hy.
Qed.

Lemma call_simulates turns fuel c w a : implements w a -> typed_call c ->
  (enough (vol w) <= fuel)%nat -> (enough (vol w) <= turns)%nat -> (call_size c < turns)%nat ->
  simulates turns fuel c w a.
Proof.
  intros Hi Ha Hf Ht Hs. destruct c; simpl in *.
  - destruct Ha. by apply read_simulates.
  - destruct Ha. by apply write_simulates.
  - by apply seek_simulates.
  - by apply sync_simulates.
Qed.

(** ** Sessions *)

(** Calls on an open file, one after another. *)
Fixpoint perform_all (turns fuel : nat) (cs : list call) : FW (list reply) :=
  match cs with
  | [] => mret []
  | c :: cs' =>
      rep ← perform turns fuel c;
      reps ← perform_all turns fuel cs';
      mret (rep :: reps)
  end.

Lemma session_simulates turns fuel cs w a : implements w a ->
  Forall typed_call cs -> (enough (vol w) <= fuel)%nat -> (enough (vol w) <= turns)%nat ->
  Forall (fun c => call_size c < turns)%nat cs ->
  exists reps w' a', perform_all turns fuel cs w = Ok (reps, w') /\ asteps a cs reps a' /\
    implements w' a'.
Proof.
  revert w a. induction cs as [|c cs IH]; intros w a Hi Ha Hf Ht Hs.
  - exists [], w, a. split; [done|]. split; [apply as_nil|done].
  - apply Forall_cons in Hs as [Hc Hs]. apply Forall_cons in Ha as [Hal Hnext].
    destruct (call_simulates turns fuel c w a) as (rep & w1 & a1 & E & Hst & Hi1 & Hg); [done..|].
    destruct (geo_inv _ _ Hg) as (_ & _ & _ & Emc & _).
    destruct (IH w1 a1) as (reps & w' & a' & E' & Hst' & Hi'); try done.
    { unfold enough in *. by rewrite Emc. }
    { unfold enough in *. by rewrite Emc. }
    exists (rep :: reps), w', a'. split; [|split; [by apply (as_cons a c rep a1)|done]].
    cbn [perform_all]. rewrite (bind_ok _ _ _ _ _ E). by rewrite (bind_ok _ _ _ _ _ E').
Qed.

End Spec.
