(* ===== verification/FatAlike.v ===== *)
(** * Volumes on drives with the same contents

    A sound volume and what an open file holds depend on the sectors that the drive shows,
    not on the drive that keeps them. *)

From S2P Require Import Prelude Fat FatTable FatFacts FatChain FatData FatFile FatReadFacts FatWriteFacts FatSpec.

Section Alike.
Context {D1 : Type} `{WorkingDisk D1} {D2 : Type} `{WorkingDisk D2}.
Context (d1 : D1) (d2 : D2) (s : FATFS) (time : Z).
Context (Hsize : sectors d2 = sectors d1) (Hdata : contents d2 = contents d1).
#[local] Abbreviation w1 := (mk_fworld s d1 time).
#[local] Abbreviation w2 := (mk_fworld s d2 time).

Lemma alike_vsector : vsector w2 = vsector w1.
Proof. unfold vsector. simpl. by rewrite Hdata. Qed.

Lemma alike_entry : entry w2 = entry w1.
Proof. unfold entry, fat_byte. by rewrite alike_vsector. Qed.

Lemma alike_ok : volume_ok w1 -> volume_ok w2.
Proof.
  intros []. constructor; simpl in *; rewrite ?Hsize, ?Hdata; try done.
  unfold copies_agree in *. by rewrite Hdata.
Qed.

Lemma alike_sound : sound w1 -> sound w2.
Proof. intros [Hv Hd]. split; [by apply alike_ok|]. simpl in *. by rewrite Hsize. Qed.

Lemma alike_healthy : healthy w1 -> healthy w2.
Proof.
  intros [Hs Hc Hl Hm]. constructor; [by apply alike_sound| |done|by rewrite alike_entry].
  unfold counted, frees in *. by rewrite alike_entry.
Qed.

Lemma alike_open l f : open_file w1 l f -> open_file w2 l f.
Proof.
  intros [Hs [] Hsz Hfs Hfl]. constructor; [by apply alike_sound| |done|done|done].
  constructor; try done. by rewrite alike_entry.
Qed.

Lemma alike_kept l f : well_kept w1 l f -> well_kept w2 l f.
Proof.
  intros [? ? [] ?]. constructor; try done. constructor; simpl in *; [done|by rewrite Hsize|].
  by rewrite alike_entry.
Qed.

Lemma alike_holds l f a : holds_file w1 l f a -> holds_file w2 l f a.
Proof.
  intros [Hn Ho Hk Hc Hl]. constructor; [done|by apply alike_open|by apply alike_kept| |].
  - unfold contents_of, file_data in *. by rewrite alike_vsector.
  - unfold room, frees in *. by rewrite alike_entry.
Qed.

(** The same file object with the same volume on the other drive is the same file. *)
Lemma alike_implements f a : implements (mk_file_world f w1) a -> implements (mk_file_world f w2) a.
Proof.
  intros [Hh (l & Ha) Hp Hm]. constructor; [by apply alike_healthy| |done|done].
  exists l. by apply alike_holds.
Qed.
End Alike.
