(* ===== verification/FatOpenFacts.v ===== *)
(** * Opening a file

    A file in the root directory opened by its name: [f_open] finds the entry that the
    search in the directory finds, refuses what the mode does not allow, and otherwise
    returns a file object for the file of the entry, of which the specification of an
    open file holds. *)

From S2P Require Import Prelude Fat FatTable FatFacts FatChain FatData FatFile FatReadFacts FatWriteFacts FatSeekFacts FatSyncFacts FatDir FatNameFacts FatDirFacts FatMount FatSpec.

(** A segment of a path. *)
Definition segment (body : list Z) (dot : bool) (ext : list Z) : list Z :=
  body ++ (if dot then 0x2E :: ext else []).

(** A name of at most eight characters, and of three behind a dot. *)
Record short_name (body : list Z) (dot : bool) (ext : list Z) : Prop := {
  sn_body : forallb good body = true;
  sn_ext : forallb good ext = true;
  sn_len : (1 <= length body <= 8)%nat /\ (length ext <= 3)%nat;
  sn_dot : dot = false -> ext = []
}.

(** The fields of an entry. *)
Definition e_attr (e : list Z) : Z := byte_at e DIR_Attr.
Definition e_clust (e : list Z) : Z := 65536 * ld16 e DIR_FstClusHI + ld16 e DIR_FstClusLO.
Definition e_size (e : list Z) : Z := ld32 e DIR_FileSize.

Lemma named_fn name st e : length name = 11%nat -> named (name ++ [st]) e = named name e.
Proof. intros Hl. unfold named. by rewrite take_app_le by lia. Qed.

Lemma search_name_fn name st e i n : length name = 11%nat ->
  search_name (name ++ [st]) e i n = search_name name e i n.
Proof.
  intros Hl. revert i. induction n as [|n IH]; intros i; [done|].
  by rewrite !search_name_S, named_fn, IH.
Qed.

Lemma search_name_found name e i n k : search_name name e i n = Some k ->
  (i <= k < i + n)%nat /\ named name (e k) = true /\ byte_at (e k) 0 <> 0.
Proof.
  revert i. induction n as [|n IH]; intros i E; [done|]. rewrite search_name_S in E.
  destruct (Z.eqb_spec (byte_at (e i) 0) 0); [done|]. destruct (named name (e i)) eqn:En.
  - simplify_eq. split; [lia|done].
  - apply IH in E as (H1 & H2). split; [lia|done].
Qed.

Lemma length_marked name : length (marked name) = length name.
Proof. by destruct name. Qed.

Section Open.
Context {D : Type} `{WorkingDisk D}.
Implicit Types v : fworld D.

(** ** The entry in the window *)

Record at_entry (d : DIR) v (p : Z) (e : list Z) : Prop := {
  ae_dir : dir d = Some p;
  ae_range : 0 <= p <= 480;
  ae_len : length (win (fs v)) = 512%nat;
  ae_bytes : Forall byte_ok (win (fs v));
  ae_entry : forall j, 0 <= j < 32 -> byte_at e j = byte_at (win (fs v)) (p + j)
}.

Lemma entry_at_run d v p e i : at_entry d v p e ->
  entry_at i (mk_dir_world d v) = Ok (p + i, mk_dir_world d v).
Proof.
  intros []. unfold entry_at.
  by rewrite (bind_ok (dj_get dir) _ (mk_dir_world d v) (dir d) (mk_dir_world d v) eq_refl), ae_dir0.
Qed.

Lemma dir_get_run d v p e i : at_entry d v p e -> 0 <= i < 32 ->
  dir_get i (mk_dir_world d v) = Ok (byte_at e i, mk_dir_world d v).
Proof.
  intros Ha Hi. unfold dir_get. rewrite (bind_ok _ _ _ _ _ (entry_at_run d v p e i Ha)).
  destruct Ha. apply dv_run. rewrite win_get_run by lia. by rewrite ae_entry0 by done.
Qed.

Lemma ld_word_run d v p e i : at_entry d v p e -> 0 <= i < 31 ->
  ld_word i (mk_dir_world d v) = Ok (ld16 e i, mk_dir_world d v).
Proof.
  intros Ha Hi. unfold ld_word. rewrite (bind_ok _ _ _ _ _ (entry_at_run d v p e i Ha)).
  destruct Ha. apply dv_run. unfold ld16. rewrite !ae_entry0 by lia. rewrite Z.add_assoc.
  apply LD_WORD_run; try done; try lia; by apply byte_at_ok.
Qed.

Lemma ld_dword_run d v p e i : at_entry d v p e -> 0 <= i < 29 ->
  ld_dword i (mk_dir_world d v) = Ok (ld32 e i, mk_dir_world d v).
Proof.
  intros Ha Hi. unfold ld_dword. rewrite (bind_ok _ _ _ _ _ (entry_at_run d v p e i Ha)).
  destruct Ha. apply dv_run.
  rewrite (LD_DWORD_run v (p + i) (byte_at e i) (byte_at e (i + 1)) (byte_at e (i + 2)) (byte_at e (i + 3))).
  2-11: rewrite ?ae_entry0 by lia; try done; try lia; try (by apply byte_at_ok); f_equal; lia.
  - do 2 f_equal. unfold ld32, ld16. replace (i + 2 + 1) with (i + 3) by lia. lia.
Qed.

Lemma start_cluster_run d v p e : at_entry d v p e ->
  start_cluster (mk_dir_world d v) = Ok (e_clust e, mk_dir_world d v).
Proof.
  intros Ha. unfold start_cluster.
  rewrite (bind_ok _ _ _ _ _ (ld_word_run d v p e DIR_FstClusHI Ha ltac:(unfold DIR_FstClusHI; lia))).
  rewrite (bind_ok _ _ _ _ _ (ld_word_run d v p e DIR_FstClusLO Ha ltac:(unfold DIR_FstClusLO; lia))).
  destruct Ha. unfold ld16, DIR_FstClusHI, DIR_FstClusLO in *. pose proof (ae_bytes0) as Hb.
  unfold mret, M_ret, e_clust, ld16, DIR_FstClusHI, DIR_FstClusLO. do 2 f_equal. rewrite !ae_entry0 by lia.
  pose proof (byte_at_ok _ (p + 20) Hb). pose proof (byte_at_ok _ (p + (20 + 1)) Hb).
  pose proof (byte_at_ok _ (p + 26) Hb). pose proof (byte_at_ok _ (p + (26 + 1)) Hb). unfold byte_ok in *.
  rewrite Z_lor_shiftl_small by lia. rewrite Z.shiftl_mul_pow2 by lia. lia.
Qed.

Lemma found_entry v l ts d k : volume_ok v -> dir_at v l ts d k -> winsect (fs v) = sect d -> sect d <> 0 ->
  at_entry d v (Z.of_nat (32 * (k mod 16))) (dir_entry (vsector v) ts k).
Proof.
  intros Hv [Hi [Hk _] Hp] Hw Hs0. destruct (vsector_ok v (sect d) Hv) as [Hl Hb].
  rewrite (vsector_window v (sect d)) in Hl, Hb by done.
  pose proof (Nat.mod_upper_bound k 16 ltac:(lia)) as Hm. constructor; try done; [lia|].
  intros j Hj. unfold dir_entry. rewrite (nth_lookup_Some ts _ 0 _ Hk).
  rewrite (vsector_window v (sect d)) by done. rewrite byte_at_slice by lia. done.
Qed.

(** ** The path *)

Lemma follow_spec turns fuel v l ts d body dot ext rest : sound v ->
  directory v 0 l ts -> short_name body dot ext -> (16 * length ts <= turns)%nat -> (0 < fuel)%nat ->
  let name := marked (entry_name body ext) in
  let o := search_name name (dir_entry (vsector v) ts) 0 (16 * length ts) in
  exists d' v', follow_path turns fuel (segment body dot ext ++ 0 :: rest) (mk_dir_world d v) =
    Ok (if o is Some _ then FR_OK else FR_NO_FILE, mk_dir_world d' v') /\ same_volume v v' /\
    forall k, o = Some k -> at_entry d' v' (Z.of_nat (32 * (k mod 16))) (dir_entry (vsector v) ts k) /\
      winsect (fs v') = nth (k / 16) ts 0.
Proof.
  intros Hs Hdir [Hgb Hge [Hlb Hle] Hd] Ht Hf name o.
  pose proof (directory_length v 0 l ts Hs Hdir) as Hlen.
  destruct body as [|h body]; [cbn [length] in Hlb; lia|].
  pose proof Hgb as Hh. cbn [forallb] in Hh. apply andb_true_iff in Hh as [Hh _]. unfold good in Hh.
  apply andb_true_iff in Hh as [Hh _]. apply andb_true_iff in Hh as [Hh _].
  apply andb_true_iff in Hh as [Hh Hsep%negb_true_iff]. apply andb_true_iff in Hh as [Hh%Z.ltb_lt _].
  set (path := segment (h :: body) dot ext ++ 0 :: rest).
  assert (exists tl, path = h :: tl) as [tl Ep] by (by eexists).
  assert (strip_sep (skip_spaces path) = path) as Est.
  { rewrite Ep. cbn [skip_spaces]. destruct (Z.eqb_spec h 0x20); [lia|]. cbn [strip_sep]. by rewrite Hsep. }
  unfold follow_path. rewrite Est. set (d0 := d{{ sclust := 0 }}).
  rewrite (bind_ok (dj_set _) _ (mk_dir_world d v) tt (mk_dir_world d0 v) eq_refl).
  rewrite (bind_ok _ _ (mk_dir_world d0 v) h (mk_dir_world d0 v)).
  2: { rewrite Ep. by apply aget_ok. }
  destruct (Z.ltb_spec h 0x20); [lia|]. destruct turns as [|turns]; [lia|]. cbn [while].
  destruct (create_name_spec (h :: body) dot ext 0 rest (mk_dir_world d0 v)) as (n & E); try done;
    [lia|by left|].
  rewrite app_assoc in E. fold (segment (h :: body) dot ext) in E. fold path name in E.
  set (st := name_flags 0 n) in *.
  assert (length name = 11%nat) as Hln by (unfold name; rewrite length_marked; by apply entry_name_length; [lia|]).
  set (d1 := d0{{ fn := name ++ [st] }}).
  destruct (dir_find_spec (S turns) fuel v l ts d1) as (r & d' & v' & E2 & Hsv & Hkd & Hres); try done.
  { change (fn d1) with (name ++ [st]). rewrite length_app, Hln. lia. }
  change (fn d1) with (name ++ [st]) in Hres. rewrite search_name_fn in Hres by done. fold o in Hres.
  assert (follow_body (S turns) fuel path (mk_dir_world d0 v) =
    Ok (Break (if o is Some _ then FR_OK else FR_NO_FILE), mk_dir_world d' v')) as Eb.
  { unfold follow_body. rewrite (bind_ok _ _ _ _ _ E).
    rewrite (bind_ok (dj_set _) _ (mk_dir_world d0 v) tt (mk_dir_world d1 v) eq_refl).
    rewrite (bind_ok _ _ _ _ _ E2).
    rewrite (bind_ok _ _ (mk_dir_world d' v') st (mk_dir_world d' v')).
    2: { apply aget_ok; [done|]. unfold NS. change (Z.to_nat 11) with 11%nat.
         by rewrite lookup_app_r, Hln by lia. }
    assert ((Z.land st NS_LAST =? 0) = false) as -> by (unfold st; by rewrite name_flags_last).
    cbn [negb].
    unfold find_result in Hres. destruct o; [destruct Hres as [-> _]|rewrite Hres]; done. }
  exists d', v'. rewrite (bind_ok _ _ _ _ _ Eb). split; [done|]. split; [done|].
  intros k Eo. rewrite Eo in Hres. destruct Hres as (_ & Hat & Hw).
  pose proof (dir_at_same v v' l ts d' k Hsv Hat) as Hat'. pose proof Hat as [_ [Hk _] _].
  destruct (directory_range v 0 l ts (sect d') Hs Hdir) as (_ & Hr & _).
  { by apply (list_elem_of_lookup_2 _ (k / 16)). }
  apply search_name_found in Eo as (Hkn & _).
  rewrite <- (dir_entry_same v v' 0 l) by (done || lia). split.
  - apply (found_entry v' l); [apply Hsv|done|done|lia].
  - by rewrite (nth_lookup_Some ts _ 0 _ Hk).
Qed.

(** ** The file object *)

(** The result of opening with a mode that does not create. *)
Definition open_result (mode : Z) (o : option (list Z)) : FRESULT :=
  match o with
  | None => FR_NO_FILE
  | Some e =>
      if negb (Z.land (e_attr e) AM_DIR =? 0) then FR_NO_FILE
      else if has mode FA_WRITE && negb (Z.land (e_attr e) AM_RDO =? 0) then FR_DENIED
      else FR_OK
  end.

(** The object for entry [k] of the directory. *)
Definition opened (i : nat) (mode : Z) (fp : FIL) v (ts : list Z) (k : nat) : FIL :=
  let e := dir_entry (vsector v) ts k in
  mk_fil (Some i) (fs_id (fs v)) mode 255 0 (e_size e) (e_clust e) (curr_clust fp) 0
    (nth (k / 16) ts 0) (Z.of_nat (32 * (k mod 16))).

(** The entry that the root directory has for the name. *)
Definition lookup_name v (ts body ext : list Z) : option nat :=
  search_name (marked (entry_name body ext)) (dir_entry (vsector v) ts) 0 (16 * length ts).

Definition open_object (i : nat) (mode : Z) (fp : FIL) v (ts : list Z) (o : option nat) : FIL :=
  match o with
  | Some k => if is_ok (open_result mode (Some (dir_entry (vsector v) ts k)))
              then opened i mode fp v ts k else fp
  | None => fp
  end.

Lemma fill_run i mode fp d v v0 ts k : at_entry d v (Z.of_nat (32 * (k mod 16))) (dir_entry (vsector v0) ts k) ->
  winsect (fs v) = nth (k / 16) ts 0 -> fs_id (fs v) = fs_id (fs v0) ->
  fill_fil i mode fp (mk_dir_world d v) = Ok (opened i mode fp v0 ts k, mk_dir_world d v).
Proof.
  intros Ha Hw Hid. unfold fill_fil. rewrite (bind_ok _ _ _ _ _ (dfs_run d v)).
  rewrite (bind_ok _ _ _ _ _ (entry_at_run d v _ _ 0 Ha)), Z.add_0_r.
  rewrite (bind_ok _ _ _ _ _ (start_cluster_run d v _ _ Ha)).
  rewrite (bind_ok _ _ _ _ _ (ld_dword_run d v _ _ DIR_FileSize Ha ltac:(unfold DIR_FileSize; lia))).
  unfold mret, M_ret, opened. by rewrite Hw, Hid.
Qed.

Lemma open_read_run mode d v p e : at_entry d v p e ->
  open_read mode FR_OK (mk_dir_world d v) =
  Ok (if is_ok (open_result mode (Some e)) then inr mode else inl (open_result mode (Some e)),
    mk_dir_world d v).
Proof.
  intros Ha. unfold open_read. cbn [is_err is_ok negb].
  rewrite (bind_ok (dj_get dir) _ (mk_dir_world d v) (dir d) (mk_dir_world d v) eq_refl).
  rewrite (ae_dir _ _ _ _ Ha). unfold open_result.
  rewrite (bind_ok _ _ _ _ _ (dir_get_run d v p e DIR_Attr Ha ltac:(unfold DIR_Attr; lia))).
  fold (e_attr e). by repeat case_match.
Qed.

Lemma open_on_spec turns fuel i v l ts d body dot ext rest mode fp : sound v ->
  directory v 0 l ts -> short_name body dot ext -> (16 * length ts <= turns)%nat -> (0 < fuel)%nat ->
  creates mode = false ->
  let o := lookup_name v ts body ext in
  exists d' v', open_on turns fuel i (segment body dot ext ++ 0 :: rest) mode fp (mk_dir_world d v) =
    Ok ((open_result mode (dir_entry (vsector v) ts <$> o), open_object i mode fp v ts o),
      mk_dir_world d' v') /\ same_volume v v'.
Proof.
  intros Hs Hdir Hn Ht Hf Hm o.
  destruct (follow_spec turns fuel v l ts d body dot ext rest Hs Hdir Hn Ht Hf) as (d' & v' & E & Hsv & Hk).
  fold (lookup_name v ts body ext) in E, Hk. fold o in E, Hk. exists d', v'. split; [|done].
  unfold open_on. rewrite (bind_ok _ _ _ _ _ E), Hm. destruct o as [k|]; [|done].
  destruct (Hk k eq_refl) as [Ha Hw]. cbn [fmap option_fmap option_map open_object].
  rewrite (bind_ok _ _ _ _ _ (open_read_run mode d' v' _ _ Ha)).
  set (e := dir_entry (vsector v) ts k) in *.
  destruct (is_ok (open_result mode (Some e))) eqn:Er; [|done].
  destruct (geo_inv _ _ (sv_geo _ _ Hsv)) as (_ & _ & _ & _ & _ & _ & _ & _ & _ & _ & Eid).
  rewrite (bind_ok _ _ _ _ _ (fill_run i mode fp d' v' v ts k Ha Hw Eid)).
  unfold mret, M_ret. do 3 f_equal. by destruct (open_result mode (Some e)).
Qed.

(** ** A file of the root directory *)

(** The entry belongs to the file of chain [l]. *)
Record entry_file v (ts e l : list Z) : Prop := {
  ef_chain : whole_chain (entry v) (max_clust (fs v)) (e_clust e) l;
  ef_nodup : NoDup l;
  ef_size : e_size e <= capacity v l;
  ef_place : forall t, t ∈ ts -> dir_place v l t
}.

Lemma e_size_range e : Forall byte_ok e -> 0 <= e_size e < 4294967296.
Proof.
  intros Hb. unfold e_size, ld32, ld16. pose proof (byte_at_ok e) as Ho.
  pose proof (Ho DIR_FileSize Hb). pose proof (Ho (DIR_FileSize + 1) Hb).
  pose proof (Ho (DIR_FileSize + 2) Hb). pose proof (Ho (DIR_FileSize + 2 + 1) Hb).
  unfold byte_ok in *. lia.
Qed.

Lemma opened_open i m fp v v' ts k lf : Z.land m FA__ERROR = 0 -> sound v -> same_volume v v' ->
  entry_file v ts (dir_entry (vsector v) ts k) lf ->
  (exists e, 0 <= e <= 7 /\ csize (fs v) = 2 ^ e) ->
  open_file v' lf (opened i m fp v ts k).
Proof.
  intros Hm Hs Hsv [Hc _ Hsz _] Hpow. pose proof (sound_same v v' Hs Hsv) as Hs'.
  set (e := dir_entry (vsector v) ts k) in *.
  assert (Forall byte_ok e) as Hbe by (apply Forall_take, Forall_drop, vsector_ok, Hs).
  pose proof (e_size_range e Hbe) as Hr.
  destruct (geo_inv _ _ (sv_geo _ _ Hsv)) as (_ & _ & _ & _ & _ & _ & Ecs & _ & _ & _ & Eid).
  constructor; [done| | |split; [by eexists|done]|done].
  - constructor; cbn [fptr csect org_clust opened]; [|lia| |lia|done].
    + by apply (chain_same v).
    + intros _. rewrite Ecs. destruct Hpow as (n & Hn & ->).
      assert (2 ^ n <= 2 ^ 7) by (apply Z.pow_le_mono_r; lia). lia.
  - cbn [fptr fsize opened]. fold e. unfold capacity. rewrite Ecs. unfold capacity in Hsz. lia.
Qed.

(** The file as it is opened: at its start, with what the mode allows, and with the room
    of its volume. *)
Definition opened_afile (m : Z) v (lf : list Z) (f : FIL) : afile :=
  mk_afile (contents_of v lf f) 0 (has m FA_READ) (has m FA_WRITE) (room v lf).

(** The object of an opened file implements the bytes of the file. *)
Lemma opened_implements i m fp v v' ts k lf : Z.land m FA__ERROR = 0 -> healthy v -> same_volume v v' ->
  (k < 16 * length ts)%nat -> entry_file v ts (dir_entry (vsector v) ts k) lf ->
  (exists e, 0 <= e <= 7 /\ csize (fs v) = 2 ^ e) -> word_ok (fattime v) ->
  implements (mk_file_world (opened i m fp v ts k) v')
    (opened_afile m v lf (opened i m fp v ts k)).
Proof.
  intros Hm Hh Hsv Hk He Hpow Htime. pose proof (h_sound v Hh) as Hs.
  set (f := opened i m fp v ts k). set (a := opened_afile m v lf f).
  assert (well_kept v lf f) as Hwk.
  { constructor; [done|done| |].
    - apply (ef_place _ _ _ _ He). cbn [dir_sect opened]. apply list_elem_of_In, nth_In.
      pose proof (Nat2Z.inj_div k 16). change (Z.of_nat 16) with 16 in *. lia.
    - unfold f; cbn [dir_ptr opened]. pose proof (Nat.mod_upper_bound k 16 ltac:(lia)). lia. }
  apply (implements_moved v v' lf f f a 0); try done.
  - constructor; [apply (ef_nodup _ _ _ _ He)| |done|done|done].
    apply opened_open; [done|done|apply same_volume_refl, Hs|done|done].
  - by apply opened_open.
Qed.

(** ** Opening on the first drive *)

(** Object [i] is registered for drive 0 and is the volume [v]. *)
Record mounted (w : ffworld D) (i : nat) v : Prop := {
  mt_reg : FatFs w !! 0%nat = Some (Some i);
  mt_obj : objs w !! i = Some (fs v);
  mt_drive : drives w !! Z.to_nat (drive (fs v)) = Some (dsk v);
  mt_clock : clock w = fattime v
}.

(** The world after work on the volume. *)
Definition with_volume (w : ffworld D) (i : nat) v v' : ffworld D :=
  w{{ objs := <[i := fs v']> (objs w); drives := <[Z.to_nat (drive (fs v)) := dsk v']> (drives w) }}.

Lemma with_same w i v : mounted w i v -> with_volume w i v v = w.
Proof.
  intros []. destruct w. unfold with_volume. simpl in *. by rewrite !list_insert_id.
Qed.

Lemma on_volume_run {A} (m : M (fworld D) A) w i v a v' : mounted w i v -> m v = Ok (a, v') ->
  on_volume i m w = Ok (a, with_volume w i v v').
Proof.
  intros [] E. unfold on_volume. rewrite mt_obj0, mt_drive0, mt_clock0. destruct v. simpl in *. by rewrite E.
Qed.

(** The drive is ready, and not protected when the mode needs to write. *)
Definition usable (chk : bool) v : Prop :=
  Z.land (disk_status (dsk v)) STA_NOINIT = 0 /\
  (chk = true -> Z.land (disk_status (dsk v)) STA_PROTECT = 0).

Lemma still_mounted_run chk v : sound v -> usable chk v ->
  still_mounted chk v = Ok (Some FR_OK, v).
Proof.
  intros Hs [H1 H2]. unfold still_mounted, fget. rewrite (bind_ok _ _ v (fs v) v eq_refl).
  rewrite (open_file_type v Hs), (bind_ok _ _ v (disk_status (dsk v)) v eq_refl), H1.
  change (0 =? 0) with true. cbn [negb]. destruct chk; [by rewrite H2|done].
Qed.

Lemma path_drive_none path (w : ffworld D) p0 p1 tl : path = p0 :: p1 :: tl -> p1 <> 0x3A ->
  path_drive path w = Ok ((0, path), w).
Proof.
  intros -> Hp. unfold path_drive. rewrite (bind_ok _ _ w p0 w) by (by apply aget_ok).
  destruct (u32 (p0 - 48) <=? 9).
  - rewrite (bind_ok _ _ w p1 w) by (by apply aget_ok). by destruct (Z.eqb_spec p1 58).
  - done.
Qed.

Lemma chk_mounted_run path p0 p1 tl chk w i v : path = p0 :: p1 :: tl -> p1 <> 0x3A ->
  mounted w i v -> sound v -> usable chk v ->
  chk_mounted path chk w = Ok ((FR_OK, Some i, path), w).
Proof.
  intros Ep Hp Hm Hs Hu. unfold chk_mounted.
  rewrite (bind_ok _ _ _ _ _ (path_drive_none path w p0 p1 tl Ep Hp)). cbv iota beta.
  change (_DRIVES <=? 0) with false. cbv iota. rewrite (bind_ok _ _ w (FatFs w) w eq_refl).
  rewrite (bind_ok _ _ w (Some i) w) by (apply aget_ok; [done|apply Hm]).
  rewrite (bind_ok _ _ _ _ _ (on_volume_run _ w i v _ v Hm (still_mounted_run chk v Hs Hu))).
  by rewrite with_same.
Qed.

Lemma f_open_spec turns fuel w i v l ts body dot ext rest mode fp : mounted w i v -> sound v ->
  directory v 0 l ts -> short_name body dot ext -> (16 * length ts <= turns)%nat -> (0 < fuel)%nat ->
  let path := segment body dot ext ++ 0 :: rest in
  let m := Z.land mode 0x1F in
  let fp0 := fp{{ fil_fs := None }} in
  creates m = false -> path !! 1%nat <> Some 0x3A -> usable (negb (Z.land m 0x1E =? 0)) v ->
  let o := lookup_name v ts body ext in
  exists v', f_open turns fuel fp path mode w =
    Ok ((open_result m (dir_entry (vsector v) ts <$> o), open_object i m fp0 v ts o),
      with_volume w i v v') /\ same_volume v v'.
Proof.
  intros Hm Hs Hdir Hn Ht Hf path m fp0 Hcr Hp Hu o.
  destruct (open_on_spec turns fuel i v l ts (new_dir (Some i)) body dot ext rest m fp0) as
    (d' & v' & E & Hsv); try done.
  assert (exists p0 p1 tl, path = p0 :: p1 :: tl) as (p0 & p1 & tl & Ep).
  { unfold path, segment. destruct Hn as [_ _ [[Hl _] _] _]. destruct body as [|a [|b body]]; [cbn [length] in Hl; lia| |].
    - destruct dot; cbn [app]; by do 3 eexists.
    - cbn [app]. by do 3 eexists. }
  exists v'. split; [|done]. unfold f_open. fold m fp0.
  rewrite (bind_ok _ _ _ _ _ (chk_mounted_run path p0 p1 tl _ w i v Ep ltac:(rewrite Ep in Hp; simpl in Hp; congruence) Hm Hs Hu)).
  cbn [is_err is_ok negb]. fold path o in E.
  rewrite (bind_ok _ _ _ _ _ (on_volume_run (with_dir (new_dir (Some i)) (open_on turns fuel i path m fp0)) w i v
    (open_result m (dir_entry (vsector v) ts <$> o), open_object i m fp0 v ts o, d') v' Hm
    ltac:(unfold with_dir; by rewrite E))).
  done.
Qed.

(** The whole of it, with what the object then is. *)
Lemma open_by_name_spec turns fuel w i v l ts body dot ext rest mode fp : mounted w i v -> healthy v ->
  directory v 0 l ts -> short_name body dot ext -> (16 * length ts <= turns)%nat -> (0 < fuel)%nat ->
  let path := segment body dot ext ++ 0 :: rest in
  let m := Z.land mode 0x1F in
  creates m = false -> path !! 1%nat <> Some 0x3A -> usable (negb (Z.land m 0x1E =? 0)) v ->
  let o := lookup_name v ts body ext in
  let f := open_object i m (fp{{ fil_fs := None }}) v ts o in
  let r := open_result m (dir_entry (vsector v) ts <$> o) in
  exists v', f_open turns fuel fp path mode w = Ok ((r, f), with_volume w i v v') /\ same_volume v v' /\
    forall k lf, o = Some k -> r = FR_OK -> entry_file v ts (dir_entry (vsector v) ts k) lf ->
      (exists e, 0 <= e <= 7 /\ csize (fs v) = 2 ^ e) -> word_ok (fattime v) ->
      implements (mk_file_world f v') (opened_afile m v lf f).
Proof.
  intros Hm Hh Hdir Hn Ht Hf path m Hcr Hp Hu o f r.
  destruct (f_open_spec turns fuel w i v l ts body dot ext rest mode fp Hm (h_sound v Hh) Hdir Hn Ht Hf Hcr Hp Hu)
    as (v' & E & Hsv).
  exists v'. split; [exact E|]. split; [done|]. intros k lf Eo Er He Hpow Htime.
  assert (f = opened i m (fp{{ fil_fs := None }}) v ts k) as ->.
  { unfold f, open_object. rewrite Eo. unfold r in Er. rewrite Eo in Er.
    cbn [fmap option_fmap option_map] in Er. by rewrite Er. }
  apply (opened_implements i m _ v v' ts k lf); try done.
  { unfold m. rewrite <- Z.land_assoc. apply Z.land_0_r. }
  apply search_name_found in Eo as (Hk & _). lia.
Qed.
End Open.

(** The name that an entry made from a path is listed with. *)
Lemma name_listed {W} (w : W) body dot ext c rest :
  short_name body dot ext -> (c <=? 0x20) || is_sep c = true ->
  exists name st, create_name (segment body dot ext ++ c :: rest) w = Ok (Some (name ++ [st], rest), w) /\
    length name = 11%nat /\ (Z.land st NS_LAST =? 0) = negb (c <=? 0x20) /\
    file_name name = (up <$> body) ++ match ext with [] => [] | _ => 0x2E :: (up <$> ext) end.
Proof.
  intros [Hgb Hge [Hlb Hle] Hd] Hc.
  destruct (create_name_spec body dot ext c rest w) as (n & E); try done; [lia| |].
  { left. intros ->. cbn [length] in Hlb. lia. }
  exists (marked (entry_name body ext)), (name_flags c n).
  split; [unfold segment; by rewrite <- app_assoc|].
  split; [rewrite length_marked; by apply entry_name_length; [lia|]|].
  split; [apply name_flags_last|]. apply file_name_entry; (done || lia).
Qed.
