(* ===== verification/FatProps.v ===== *)
(** * What the file system promises

    The theorems on volumes and files, each applied to a small FAT12 volume on a drive in
    memory. *)

From S2P Require Import Prelude Fat FatTable FatFacts FatChain FatRam FatData FatFile FatReadFacts FatWriteFacts FatSeekFacts FatSyncFacts FatDir FatNameFacts FatDirFacts FatMount FatSpec FatOpenFacts.

(** ** A small volume *)

(** Forty sectors: the boot record, two copies of the table, a directory sector and 18
    clusters of two sectors; the chain 2, 3 belongs to a file of 1200 bytes. *)
Definition sample_table : list Z := [0xF8; 0xFF; 0xFF; 0x03; 0xF0; 0xFF] ++ replicate 506 0.
(** The root directory: the label DISK, and DATA.TXT of cluster 2 with 1200 bytes. *)
Definition sample_root : list Z :=
  [0x44; 0x49; 0x53; 0x4B] ++ replicate 7 0x20 ++ [0x08] ++ replicate 20 0 ++
  [0x44; 0x41; 0x54; 0x41; 0x20; 0x20; 0x20; 0x20; 0x54; 0x58; 0x54; 0x20] ++ replicate 14 0 ++
  [0x02; 0x00; 0xB0; 0x04; 0x00; 0x00] ++ replicate 448 0.
Definition sample_bytes (k : Z) : list Z := replicate 512 k.
Definition sample_disk : ramdisk :=
  [zero_sector; sample_table; sample_table; sample_root; sample_bytes 65; sample_bytes 66;
   sample_bytes 67; sample_bytes 68] ++ replicate 32 zero_sector.
Definition sample_fs : FATFS :=
  {| fs_type := FS_FAT12; drive := 0; csize := 2; n_fats := 2; wflag := 0; fsi_flag := 0;
     fs_id := 7; n_rootdir := 16; last_clust := 3; free_clust := 0xFFFFFFFF; fsi_sector := 0;
     sects_fat := 1; max_clust := 20; fatbase := 1; dirbase := 3; database := 4;
     winsect := 0; win := zero_sector |}.
Definition sample : fworld ramdisk := mk_fworld sample_fs sample_disk 0x3F213C00.
Definition sample_fil : FIL :=
  {| fil_fs := Some 0%nat; fil_id := 7; flag := 3; csect := 255; fptr := 0; fsize := 1200;
     org_clust := 2; curr_clust := 0; dsect := 0; dir_sect := 3; dir_ptr := 32 |}.
Definition sample_chain : list Z := [2; 3].
Definition sample_file : file_world ramdisk := mk_file_world sample_fil sample.

Lemma sample_ok : volume_ok sample.
Proof.
  constructor; simpl; try done.
  - constructor; simpl; unfold FS_FAT12, FS_FAT16, FS_FAT32; try lia; done.
  - by apply Forall_replicate.
  - intros k i Hk Hi. simpl in *. assert (i = 0) as -> by lia.
    assert (k = 0 \/ k = 1) as [-> | ->] by lia; done.
Qed.

Lemma sample_sound : sound sample.
Proof. split; [apply sample_ok|]. constructor; unfold behind, first_sect; simpl; done. Qed.

Lemma sample_entries : Forall (fun c => entry sample c <> 1) (seqZ 2 18).
Proof. apply (bool_decide_unpack _). vm_compute. done. Qed.

Lemma sample_healthy : healthy sample.
Proof.
  constructor; [apply sample_sound|by left|done|].
  intros c Hc. pose proof sample_entries as Hs. rewrite Forall_forall in Hs. apply Hs.
  apply elem_of_seqZ. unfold clusters in Hc. simpl in Hc. lia.
Qed.

Lemma sample_path : whole_chain (entry sample) (max_clust (fs sample)) 2 sample_chain.
Proof.
  right. split; [done|]. exists 0xFFF. split; [|done].
  assert (entry sample 2 = 3) as E2 by (by vm_compute).
  assert (entry sample 3 = 0xFFF) as E3 by (by vm_compute).
  apply path_link; [done|by rewrite E2|]. rewrite E2.
  apply path_link; [done|by rewrite E3|]. rewrite E3. apply path_end.
Qed.

Lemma sample_open : open_file sample sample_chain sample_fil.
Proof.
  constructor; try done.
  - apply sample_sound.
  - constructor; try done. apply sample_path.
Qed.

Lemma sample_chain_nodup : NoDup sample_chain.
Proof. apply (bool_decide_unpack _). done. Qed.

(** ** The file allocation table *)

Section Table.
Context {D : Type} `{WorkingDisk D}.
Implicit Types w : fworld D.

(** C15: [put_fat] sets one entry and [get_fat] reads it back, masked to the width of the
    table (12, 16 or 28 bits); every other cluster keeps its entry, every sector outside of
    the table keeps its bytes, and the copies of the table stay in step. *)
Theorem fat_entry_roundtrip w c x : volume_ok w -> clusters w c -> word_ok x ->
  exists w', put_fat c x w = Ok (FR_OK, w') /\ same_data w w' /\
    forall c', clusters w c' -> exists w2 w3,
      get_fat c' w = Ok (entry w c', w2) /\
      get_fat c' w' = Ok (if c' =? c then x mod (type_mask (fs_type (fs w)) + 1) else entry w c', w3) /\
      same_volume w w2 /\ same_volume w' w3.
Proof.
  intros Hv Hc Hx. destruct (put_fat_spec w c x Hv Hc Hx) as (w' & E & Hd & He).
  exists w'. split; [done|]. split; [done|]. intros c' Hc'.
  destruct (get_fat_spec w c' Hv Hc') as (w2 & E2 & Hs2).
  destruct (geo_inv _ _ (sd_geo _ _ Hd)) as (_ & _ & _ & Emc & _).
  destruct (get_fat_spec w' c' (sd_ok _ _ Hd)) as (w3 & E3 & Hs3); [by rewrite Emc|].
  exists w2, w3. by rewrite E2, E3, He.
Qed.

(** C16: [remove_chain] terminates on every table, a cyclic one too: it sets the entries of
    the chain to 0, each once, no other entry and nothing outside of the table, and the
    free count, where it is known, stays right. *)
Theorem chain_release w c fuel : volume_ok w -> counted w -> clusters w c ->
  (enough w <= fuel)%nat ->
  exists r w', remove_chain fuel c w = Ok (r, w') /\ chain_removed w c r w'.
Proof. apply remove_chain_spec. Qed.

(** C17: [create_chain] is the search in the table it stands for: it takes the first free
    cluster after the last one, wrapping around once, marks it as the end, links it to the
    chain and counts it; without a free cluster, or with a successor, nothing changes. *)
Theorem chain_extend w clst fuel : volume_ok w -> counted w ->
  0 <= last_clust (fs w) -> (enough w <= fuel)%nat ->
  exists n new w', create_chain fuel clst w = Ok (n, w') /\ extends w clst n new /\
    if new : bool then taken w clst n w' else same_volume w w'.
Proof. apply create_chain_spec. Qed.
End Table.

Lemma fat_entry_roundtrip_witness :
  exists w', put_fat 3 0xABCDE sample = Ok (FR_OK, w') /\ same_data sample w' /\
    forall c', clusters sample c' -> exists w2 w3,
      get_fat c' sample = Ok (entry sample c', w2) /\
      get_fat c' w' = Ok (if c' =? 3 then 0xCDE else entry sample c', w3) /\
      same_volume sample w2 /\ same_volume w' w3.
Proof. apply (fat_entry_roundtrip sample 3 0xABCDE); [apply sample_ok|done|done]. Defined.

Lemma chain_release_witness :
  exists r w', remove_chain 20 2 sample = Ok (r, w') /\ chain_removed sample 2 r w'.
Proof. apply (chain_release sample 2 20); [apply sample_ok|by left|done|unfold enough; simpl; lia]. Defined.

Lemma chain_extend_witness :
  exists n new w', create_chain 20 3 sample = Ok (n, w') /\ extends sample 3 n new /\
    if new : bool then taken sample 3 n w' else same_volume sample w'.
Proof. apply (chain_extend sample 3 20); [apply sample_ok|by left|done|unfold enough; simpl; lia]. Defined.

(** ** Files *)

Section Files.
Context {D : Type} `{WorkingDisk D}.
Implicit Types v : fworld D.

(** C9: [f_write] stores the bytes at the pointer, over the old ones and behind them, however
    they fall into sectors and clusters; fewer than asked only when no cluster is free and
    the last one of the file is full.  The table and the data of all other files are as
    before, and the volume stays sound. *)
Theorem write_contents v l f buff btw turns fuel : healthy v -> NoDup l -> open_file v l f ->
  Z.land (flag f) FA_WRITE <> 0 -> Z.land (disk_status (dsk v)) STA_NOINIT = 0 ->
  0 <= btw <= Z.of_nat (length buff) -> Forall byte_ok buff -> fsize f + btw < 4294967296 ->
  (enough v <= fuel)%nat -> (Z.to_nat btw < turns)%nat ->
  exists n f' v' l', f_write turns fuel buff btw (mk_file_world f v) =
    Ok ((FR_OK, n), mk_file_world f' v') /\
    0 <= n <= btw /\ (n < btw -> full v' /\ fptr f' = capacity v' l') /\ file_written v l f n buff v' l' f'.
Proof. apply f_write_spec. Qed.

(** C20: [f_sync] after a write: the directory entry of the file gets its size, first
    cluster, time and the archive bit and keeps its other bytes, the FSInfo sector of a
    FAT32 volume is brought up to date, and the drive holds every sector of the volume. *)
Theorem sync_flushes v l f : open_file v l f -> Z.land (disk_status (dsk v)) STA_NOINIT = 0 ->
  Z.land (flag f) FA__WRITTEN <> 0 -> behind (fs v) (dir_sect f) ->
  0 < dir_sect f < sectors (dsk v) -> 0 <= dir_ptr f <= 480 ->
  word_ok (fattime v) -> word_ok (fsize f) -> word_ok (org_clust f) ->
  exists v', f_sync (mk_file_world f v) = Ok (FR_OK, mk_file_world (clean_flag f) v') /\
    file_synced v f v'.
Proof. apply f_sync_spec. Qed.

(** C7: a file object implements a sequence of bytes with a position: any list of reads,
    writes, seeks and flushes, on a file opened for any of them, ends, call by call with
    exactly the result of the abstract file, and leaves an object and a volume of which the
    same is true.  A write stores what is asked, or as much as the volume has room for; a
    call that the file was not opened for is denied; a seek behind the end stops at the end
    of a file for reading, and lets a file for writing grow to the position, or as far as
    there is room, by bytes of any value. *)
Theorem file_session turns fuel cs w a : implements w a ->
  Forall typed_call cs -> (enough (vol w) <= fuel)%nat -> (enough (vol w) <= turns)%nat ->
  Forall (fun c => call_size c < turns)%nat cs ->
  exists reps w' a', perform_all turns fuel cs w = Ok (reps, w') /\ asteps a cs reps a' /\
    implements w' a'.
Proof. apply session_simulates. Qed.
End Files.

Lemma write_contents_witness :
  exists n f' v' l', f_write 101 20 (sample_bytes 7) 100 sample_file =
    Ok ((FR_OK, n), mk_file_world f' v') /\
    0 <= n <= 100 /\ (n < 100 -> full v' /\ fptr f' = capacity v' l') /\
    file_written sample sample_chain sample_fil n (sample_bytes 7) v' l' f'.
Proof.
  apply (write_contents sample sample_chain sample_fil (sample_bytes 7) 100 101 20).
  - apply sample_healthy.
  - apply sample_chain_nodup.
  - apply sample_open.
  - done.
  - done.
  - done.
  - by apply Forall_replicate.
  - done.
  - unfold enough. simpl. lia.
  - lia.
Defined.

(** The file once it was written. *)
Definition sample_written : FIL := sample_fil{{ flag := Z.lor (flag sample_fil) FA__WRITTEN }}.

Lemma sync_flushes_witness :
  exists v', f_sync (mk_file_world sample_written sample) =
    Ok (FR_OK, mk_file_world (clean_flag sample_written) v') /\ file_synced sample sample_written v'.
Proof.
  apply (sync_flushes sample sample_chain sample_written); try done.
  destruct sample_open as [Hs [] Hsz Hfs Hfl]. by constructor.
Defined.

(** The file as bytes. *)
Definition sample_afile : afile := mk_afile (contents_of sample sample_chain sample_fil) 0 true true (room sample sample_chain).

Lemma sample_implements : implements sample_file sample_afile.
Proof.
  constructor; [apply sample_healthy| |done|done]. exists sample_chain.
  constructor; [apply sample_chain_nodup|apply sample_open| |done|done].
  constructor; try done.
  - by exists 1.
  - constructor; simpl; [unfold behind; simpl; lia|done|]. unfold clusters, first_sect. simpl. lia.
Qed.

(** Seeking, writing over the end of a sector, flushing, reading all, letting the file grow
    by a seek and filling the volume: there is room for 18 clusters of 1024 bytes. *)
Definition sample_calls : list call :=
  [Seek 500; Write (sample_bytes 9); Sync; Seek 0; Read 1200; Seek 18300; Write (sample_bytes 9)].

Lemma sample_typed : Forall typed_call sample_calls.
Proof. repeat constructor; simpl; lia. Qed.

Lemma sample_room : room sample sample_chain = 18432.
Proof. by vm_compute. Qed.

Lemma file_session_witness :
  exists reps w' a', perform_all 1201 20 sample_calls sample_file = Ok (reps, w') /\
    asteps sample_afile sample_calls reps a' /\ implements w' a'.
Proof.
  apply (file_session 1201 20 sample_calls sample_file sample_afile).
  - apply sample_implements.
  - apply sample_typed.
  - unfold enough. simpl. lia.
  - unfold enough. simpl. lia.
  - apply (bool_decide_unpack _). vm_compute. done.
Defined.

(** ** Names and directories *)

(** C19: a name of the 8.3 form, put into a directory entry by [create_name], is listed by
    [get_fileinfo] as the same name in capital letters, with the dot where it has an
    extension; the status byte tells whether the segment is the last one of the path. *)
Theorem name_roundtrip {W} (w : W) body dot ext c rest :
  short_name body dot ext -> (c <=? 0x20) || is_sep c = true ->
  exists name st, create_name (segment body dot ext ++ c :: rest) w = Ok (Some (name ++ [st], rest), w) /\
    length name = 11%nat /\ (Z.land st NS_LAST =? 0) = negb (c <=? 0x20) /\
    file_name name = (up <$> body) ++ match ext with [] => [] | _ => 0x2E :: (up <$> ext) end.
Proof. apply name_listed. Qed.

Section Names.
Context {D : Type} `{WorkingDisk D}.
Implicit Types v : fworld D.

(** C18: opening a file of the root directory by its name, without creating one, finds the
    first entry of the name that is not a volume label, as a search in the list of entries
    does; the result is what the attributes of the entry and the mode call for, and the
    object, opened for reading, writing, both or none, implements the bytes of the file's
    chain in that mode, from the start. *)
Theorem open_by_name turns fuel w i v l ts body dot ext rest mode fp : mounted w i v -> healthy v ->
  directory v 0 l ts -> short_name body dot ext -> (16 * length ts <= turns)%nat -> (0 < fuel)%nat ->
  let path := segment body dot ext ++ 0 :: rest in
  let m := Z.land mode 0x1F in
  creates m = false -> path !! 1%nat <> Some 0x3A -> usable (negb (Z.land m 0x1E =? 0)) v ->
  let o := lookup_name v ts body ext in
  let f := open_object i m (fp{{ fil_fs := None }}) v ts o in
  let r := open_result m (dir_entry (vsector v) ts <$> o) in
  exists v', f_open turns fuel fp path mode w = Ok ((r, f), with_volume w i v v') /\ same_volume v v' /\
    forall k lf, o = Some k -> r = FR_OK -> entry_file v ts (dir_entry (vsector v) ts k) lf ->
      (exists e, 0 <= e <= 7 /\ csize (fs v) = 2 ^ e) -> word_ok (fattime v) ->
      implements (mk_file_world f v') (opened_afile m v lf f).
Proof. apply open_by_name_spec. Qed.
End Names.

(** "Data.txt" *)
Definition sample_name : list Z * list Z := ([0x44; 0x61; 0x74; 0x61], [0x74; 0x78; 0x74]).

Lemma sample_short : short_name sample_name.1 true sample_name.2.
Proof. by constructor; [| |split; simpl; lia|]. Qed.

Lemma name_roundtrip_witness :
  exists name st, create_name (segment sample_name.1 true sample_name.2 ++ [0]) tt =
    Ok (Some (name ++ [st], []), tt) /\
    length name = 11%nat /\ (Z.land st NS_LAST =? 0) = false /\
    file_name name = [0x44; 0x41; 0x54; 0x41; 0x2E; 0x54; 0x58; 0x54].
Proof. apply (name_roundtrip tt sample_name.1 true sample_name.2 0 []); [apply sample_short|done]. Defined.

Lemma sample_directory : directory sample 0 [] [3].
Proof. by apply (fixed_root sample). Qed.

Definition sample_world : ffworld ramdisk := mk_ffworld [Some 0%nat; None] [sample_fs] [sample_disk] 7 0x3F213C00.

Lemma sample_lookup : lookup_name sample [3] sample_name.1 sample_name.2 = Some 1%nat.
Proof. by vm_compute. Qed.

Lemma sample_entry : entry_file sample [3] (dir_entry (vsector sample) [3] 1) sample_chain.
Proof.
  constructor.
  - apply sample_path.
  - apply sample_chain_nodup.
  - apply (bool_decide_unpack _). vm_compute. done.
  - intros t ->%list_elem_of_singleton. constructor; simpl; [unfold behind; simpl; lia|done|].
    unfold clusters, first_sect. simpl. lia.
Qed.

Lemma sample_opened : open_object 0 (Z.land 3 0x1F) (sample_fil{{ fil_fs := None }}) sample [3] (Some 1%nat) = sample_fil.
Proof. by vm_compute. Qed.

Lemma sample_result : open_result (Z.land 3 0x1F) (dir_entry (vsector sample) [3] <$> Some 1%nat) = FR_OK.
Proof. by vm_compute. Qed.

Lemma sample_power : exists e, 0 <= e <= 7 /\ csize (fs sample) = 2 ^ e.
Proof. by exists 1. Qed.

Lemma sample_time : word_ok (fattime sample).
Proof. done. Qed.

Lemma open_by_name_witness :
  exists v', f_open 16 1 sample_fil (segment sample_name.1 true sample_name.2 ++ [0]) 3 sample_world =
    Ok ((FR_OK, sample_fil), with_volume sample_world 0 sample v') /\
    same_volume sample v' /\ implements (mk_file_world sample_fil v') sample_afile.
Proof.
  destruct (open_by_name 16 1 sample_world 0 sample [] [3] sample_name.1 true sample_name.2 [] 3 sample_fil)
    as (v' & E & Hsv & Hi).
  - done.
  - apply sample_healthy.
  - apply sample_directory.
  - apply sample_short.
  - done.
  - lia.
  - done.
  - done.
  - done.
  - rewrite sample_lookup, sample_opened, sample_result in *. exists v'. split; [exact E|]. split; [exact Hsv|].
    exact (Hi 1%nat sample_chain eq_refl eq_refl sample_entry sample_power sample_time).
Defined.
