(* ===== verification/Ssp.v ===== *)
(** * SSP: transfers by polling

    [SSP_ReadWrite] of lpc17xx_ssp.c in the mode [SSP_TRANSFER_POLLING].  The registers of
    the controller are the interface [SspPort]: reading SR, RIS and DR may let time pass. *)

From S2P Require Import Prelude.

(** The registers of an SSP controller. *)
Class SspPort (S : Type) : Type := {
  ssp_SR : S -> Z * S;
  ssp_RIS : S -> Z * S;
  ssp_DR : S -> Z * S;
  ssp_set_DR : Z -> S -> S;
  ssp_set_ICR : Z -> S -> S
}.

Definition SSP_SR_TNF : Z := 2.
Definition SSP_SR_RNE : Z := 4.
Definition SSP_RIS_ROR : Z := 1.
Definition SSP_ICR_BITMASK : Z := 3.
Definition SSP_STAT_DONE : Z := 0x100.
Definition SSP_STAT_ERROR : Z := 0x200.

(** The counters and the status of [SSP_DATA_SETUP_Type], the frames still to send and the
    frames received. *)
Record xfer : Type := mk_xfer {
  tx_cnt : Z;
  rx_cnt : Z;
  xstatus : Z;
  wdata : list Z;
  rdata : list Z
}.
#[export] Instance eta_xfer : Settable xfer :=
  fun x => mk_xfer (tx_cnt x) (rx_cnt x) (xstatus x) (wdata x) (rdata x).

Section Ssp.
Context {S : Type} `{SspPort S}.

(** A register access. *)
Definition dev {A} (f : S -> A * S) : M S A := fun s => Ok (f s).

Definition SSP_SendData (d : Z) : M S unit := modify (ssp_set_DR (Z.land d 0xFFFF)).
Definition SSP_ReceiveData : M S Z := v ← dev ssp_DR; mret (Z.land v 0xFFFF).

(** What a frame adds to the counters. *)
Definition frame_size (dataword : Z) : Z := if dataword =? 0 then 1 else 2.

(** Frames that an earlier transfer left are dropped. *)
Definition clear_body (_ : unit) : M S (ctl unit unit) :=
  sr ← dev ssp_SR;
  if negb (Z.land sr SSP_SR_RNE =? 0) then SSP_ReceiveData ;; mret (Continue tt)
  else mret (Break tt).

(** The next frame, of [tx_data] unless that is NULL. *)
Definition send_frame (dataword len : Z) (null_tx : bool) (x : xfer) : M S xfer :=
  sr ← dev ssp_SR;
  if negb (Z.land sr SSP_SR_TNF =? 0) && negb (tx_cnt x =? len) then
    match null_tx, wdata x with
    | true, _ =>
        SSP_SendData (if dataword =? 0 then 0xFF else 0xFFFF) ;;
        mret (x{{ tx_cnt := u32 (tx_cnt x + frame_size dataword) }})
    | false, d :: ds =>
        SSP_SendData d ;;
        mret (x{{ wdata := ds; tx_cnt := u32 (tx_cnt x + frame_size dataword) }})
    | false, [] => fail OutOfBounds
    end
  else mret x.

(** The frames that have come. *)
Definition drain_body (dataword len : Z) (null_rx : bool) (x : xfer) : M S (ctl xfer xfer) :=
  sr ← dev ssp_SR;
  if negb (Z.land sr SSP_SR_RNE =? 0) && negb (rx_cnt x =? len) then
    d ← SSP_ReceiveData;
    let x := if null_rx then x
             else x{{ rdata := rdata x ++ [if dataword =? 0 then u8 d else d] }} in
    mret (Continue (x{{ rx_cnt := u32 (rx_cnt x + frame_size dataword) }}))
  else mret (Break x).

Definition poll_body (fuel : nat) (dataword len : Z) (null_tx null_rx : bool) (x : xfer)
    : M S (ctl xfer (bool * xfer)) :=
  if (tx_cnt x =? len) && (rx_cnt x =? len) then
    mret (Break (true, x{{ xstatus := SSP_STAT_DONE }}))
  else
    x ← send_frame dataword len null_tx x;
    stat ← dev ssp_RIS;
    if negb (Z.land stat SSP_RIS_ROR =? 0) then
      mret (Break (false, x{{ xstatus := Z.lor stat SSP_STAT_ERROR }}))
    else
      x ← while fuel (drain_body dataword len null_rx) x;
      mret (Continue x).

(** The value returned and the transfer; [tx] is [tx_data] or NULL, [null_rx] tells that
    [rx_data] is NULL. *)
Definition SSP_ReadWrite (fuel : nat) (dataword : Z) (tx : option (list Z)) (null_rx : bool) (len : Z)
    : M S (Z * xfer) :=
  let null_tx := if tx is Some _ then false else true in
  while fuel clear_body tt ;;
  modify (ssp_set_ICR SSP_ICR_BITMASK) ;;
  r ← while fuel (poll_body fuel dataword len null_tx null_rx)
        (mk_xfer 0 0 0 (default [] tx) []);
  mret (if negb (fst r) then -1
        else if negb null_tx then s32 (tx_cnt (snd r))
        else if negb null_rx then s32 (rx_cnt (snd r)) else 0, snd r).
End Ssp.
