(* ===== verification/Mmc.v ===== *)
(** * The memory card

    mmc.c: the driver of an SD or MMC card in SPI mode behind SSP1, with its chip select,
    power and card detect pins on port 0.  [Socket] is the hardware; it also says how often
    the timer interrupt calls [disk_timerproc] meanwhile. *)

From S2P Require Import Prelude Clkpwr Fat Ssp.

Definition CMD0 : Z := 0x40.
Definition CMD1 : Z := 0x41.
Definition ACMD41 : Z := 0xE9.
Definition CMD8 : Z := 0x48.
Definition CMD9 : Z := 0x49.
Definition CMD10 : Z := 0x4A.
Definition CMD12 : Z := 0x4C.
Definition ACMD13 : Z := 0xCD.
Definition CMD16 : Z := 0x50.
Definition CMD17 : Z := 0x51.
Definition CMD18 : Z := 0x52.
Definition ACMD23 : Z := 0xD7.
Definition CMD24 : Z := 0x58.
Definition CMD25 : Z := 0x59.
Definition CMD55 : Z := 0x77.
Definition CMD58 : Z := 0x7A.

Definition CT_MMC : Z := 0x01.
Definition CT_SD1 : Z := 0x02.
Definition CT_SD2 : Z := 0x04.
Definition CT_SDC : Z := Z.lor CT_SD1 CT_SD2.
Definition CT_BLOCK : Z := 0x08.

Inductive DRESULT : Type := RES_OK | RES_ERROR | RES_WRPRT | RES_NOTRDY | RES_PARERR.

(** The socket: SSP1, the pins of port 0, and the calls of [disk_timerproc] that the timer
    interrupt makes between two transfers. *)
Class Socket (S : Type) : Type := {
  sock_ssp :: SspPort S;
  fio_set : Z -> S -> S;
  fio_clr : Z -> S -> S;
  fio_dir : Z -> Z -> S -> S;
  fio_pin : S -> Z * S;
  timer_calls : S -> nat * S
}.

(** The variables of mmc.c, and the socket. *)
Record mmc (S : Type) : Type := mk_mmc {
  Stat : Z;
  Timer1 : Z;
  Timer2 : Z;
  CardType : Z;
  pv : Z;
  sock : S
}.
Arguments mk_mmc {S}. Arguments Stat {S}. Arguments Timer1 {S}. Arguments Timer2 {S}.
Arguments CardType {S}. Arguments pv {S}. Arguments sock {S}.
#[export] Instance eta_mmc S : Settable (mmc S) :=
  fun w => mk_mmc (Stat w) (Timer1 w) (Timer2 w) (CardType w) (pv w) (sock w).
#[export] Instance lens_sock S : Lens S (mmc S) := {| view := sock; put s w := w{{ sock := s }} |}.

(** What [disk_ioctl] stores at [buff]. *)
Inductive ioctl_out : Type :=
| Nothing
| Dword (v : Z)
| Word (v : Z)
| Bytes (l : list Z).

Section Mmc.
Context {S : Type} `{Socket S} (fuel : nat).
#[local] Abbreviation MM := (M (mmc S)).

(** ** The timer *)

Definition count_down (n : Z) : Z := if n =? 0 then n else n - 1.

(** Every 10 ms: the timers, and the state of the socket once two samples agree. *)
Definition disk_timerproc : MM unit :=
  modify (fun w => w{{ Timer1 := count_down (Timer1 w); Timer2 := count_down (Timer2 w) }}) ;;
  n ← gets pv;
  pin ← zoom (dev fio_pin);
  let p := if Z.land pin (Z.shiftl 1 19) =? 0 then 0 else 1 in
  modify (fun w => w{{ pv := p }}) ;;
  when (n =? p) (modify (fun w => w{{ Stat :=
    if p =? 0 then Z.land (Stat w) (Z.lnot STA_NODISK)
    else Z.lor (Stat w) (Z.lor STA_NODISK STA_NOINIT) }})).

Fixpoint timerproc_times (n : nat) : MM unit :=
  match n with
  | O => mret tt
  | Datatypes.S n' => disk_timerproc ;; timerproc_times n'
  end.

Definition interrupts : MM unit := n ← zoom (dev timer_calls); timerproc_times n.

(** ** Bytes *)

(** SSP1 is set up for frames of 8 bits. *)
Definition SSPSend (buf : list Z) : MM unit :=
  zoom (SSP_ReadWrite fuel 0 (Some buf) true (Z.of_nat (length buf))) ;; interrupts.

Definition SSPReceive (n : Z) : MM (list Z) :=
  r ← zoom (SSP_ReadWrite fuel 0 None false n); interrupts ;; mret (rdata (snd r)).

Definition xmit_spi (dat : Z) : MM unit := SSPSend [u8 dat].

(** 0 when the transfer fails. *)
Definition rcvr_spi : MM Z := l ← SSPReceive 1; mret (default 0 (l !! 0%nat)).

(** Into an array: a transfer that fails leaves the byte. *)
Definition rcvr_spi_m (dst : list Z) (i : Z) : MM (list Z) :=
  l ← SSPReceive 1;
  match l with
  | [] => mret dst
  | b :: _ => aset dst i b
  end.

(** ** Chip select and power *)

Definition CS_LOW : MM unit := zoom (modify (fio_clr (Z.shiftl 1 6))).
Definition CS_HIGH : MM unit := zoom (modify (fio_set (Z.shiftl 1 6))).
Definition power_on : MM unit := zoom (modify (fio_clr (Z.shiftl 1 18))).
Definition power_off : MM unit := zoom (modify (fio_set (Z.shiftl 1 18))).
Definition chk_power : MM Z :=
  pin ← zoom (dev fio_pin); mret (if Z.land pin (Z.shiftl 1 18) =? 0 then 1 else 0).

Definition wait_body (_ : unit) : MM (ctl unit Z) :=
  res ← rcvr_spi;
  t ← gets Timer2;
  mret (if negb (res =? 0xFF) && negb (t =? 0) then Continue tt else Break res).

Definition wait_ready : MM Z :=
  modify (fun w => w{{ Timer2 := 50 }}) ;;
  rcvr_spi ;;
  while fuel wait_body tt.

Definition deselect : MM unit := CS_HIGH ;; rcvr_spi ;; mret tt.

Definition select : MM bool :=
  CS_LOW ;;
  r ← wait_ready;
  if negb (r =? 0xFF) then deselect ;; mret false else mret true.

(** ** Blocks *)

Definition token_body (_ : unit) : MM (ctl unit Z) :=
  token ← rcvr_spi;
  t ← gets Timer1;
  mret (if (token =? 0xFF) && negb (t =? 0) then Continue tt else Break token).

(** Four bytes in each turn; [btr] is a UINT. *)
Definition block_body (p : list Z * Z * Z) : MM (ctl (list Z * Z * Z) (list Z)) :=
  let '(buff, i, btr) := p in
  buff ← rcvr_spi_m buff i;
  buff ← rcvr_spi_m buff (i + 1);
  buff ← rcvr_spi_m buff (i + 2);
  buff ← rcvr_spi_m buff (i + 3);
  let btr := u32 (btr - 4) in
  mret (if btr =? 0 then Break buff else Continue (buff, i + 4, btr)).

(** The block goes to [buff] from index [p] on. *)
Definition rcvr_datablock (buff : list Z) (p btr : Z) : MM (bool * list Z) :=
  modify (fun w => w{{ Timer1 := 20 }}) ;;
  token ← while fuel token_body tt;
  if negb (token =? 0xFE) then mret (false, buff)
  else
    buff ← while fuel block_body (buff, p, btr);
    rcvr_spi ;;
    rcvr_spi ;;
    mret (true, buff).

(** Two bytes in each turn; [wc] is a BYTE that starts at 0. *)
Definition xmit_body (buff : list Z) (p : Z * Z) : MM (ctl (Z * Z) unit) :=
  let '(i, wc) := p in
  b0 ← aget buff i; xmit_spi b0 ;;
  b1 ← aget buff (i + 1); xmit_spi b1 ;;
  let wc := u8 (wc - 1) in
  mret (if wc =? 0 then Break tt else Continue (i + 2, wc)).

Definition xmit_datablock (buff : list Z) (p token : Z) : MM bool :=
  r ← wait_ready;
  if negb (r =? 0xFF) then mret false
  else
    xmit_spi token ;;
    if token =? 0xFD then mret true
    else
      while fuel (xmit_body buff) (p, 0) ;;
      xmit_spi 0xFF ;;
      xmit_spi 0xFF ;;
      resp ← rcvr_spi;
      mret (Z.land resp 0x1F =? 0x05).

(** ** Commands *)

Definition response_body (n : Z) : MM (ctl Z Z) :=
  res ← rcvr_spi;
  if Z.land res 0x80 =? 0 then mret (Break res)
  else mret (if n - 1 =? 0 then Break res else Continue (n - 1)).

(** A command without the prefix CMD55. *)
Definition send_plain (cmd arg : Z) : MM Z :=
  deselect ;;
  ok ← select;
  if negb ok then mret 0xFF
  else
    xmit_spi cmd ;;
    xmit_spi (Z.shiftr arg 24) ;;
    xmit_spi (Z.shiftr arg 16) ;;
    xmit_spi (Z.shiftr arg 8) ;;
    xmit_spi arg ;;
    xmit_spi (if cmd =? CMD8 then 0x87 else if cmd =? CMD0 then 0x95 else 0x01) ;;
    when (cmd =? CMD12) (rcvr_spi ;; mret tt) ;;
    while fuel response_body 10.

Definition send_cmd (cmd arg : Z) : MM Z :=
  if Z.land cmd 0x80 =? 0 then send_plain cmd arg
  else
    res ← send_plain CMD55 0;
    if 1 <? res then mret res else send_plain (Z.land cmd 0x7F) arg.

(** [n] bytes of a trailing response. *)
Fixpoint rcvr_bytes (n : nat) : MM (list Z) :=
  match n with
  | O => mret []
  | Datatypes.S n' => b ← rcvr_spi; l ← rcvr_bytes n'; mret (b :: l)
  end.

(** ** Initialisation *)

(** [while (Timer1 && send_cmd(cmd, arg));] *)
Definition leave_idle_body (cmd arg : Z) (_ : unit) : MM (ctl unit unit) :=
  t ← gets Timer1;
  if t =? 0 then mret (Break tt)
  else
    r ← send_cmd cmd arg;
    mret (if r =? 0 then Break tt else Continue tt).
Definition leave_idle (cmd arg : Z) : MM unit := while fuel (leave_idle_body cmd arg) tt.

(** A card that knows CMD8. *)
Definition init_sd2 : MM Z :=
  ocr ← rcvr_bytes 4;
  o2 ← aget ocr 2;
  o3 ← aget ocr 3;
  if (o2 =? 0x01) && (o3 =? 0xAA) then
    leave_idle ACMD41 (Z.shiftl 1 30) ;;
    t ← gets Timer1;
    if t =? 0 then mret 0
    else
      r ← send_cmd CMD58 0;
      if negb (r =? 0) then mret 0
      else
        ocr ← rcvr_bytes 4;
        o0 ← aget ocr 0;
        mret (if negb (Z.land o0 0x40 =? 0) then Z.lor CT_SD2 CT_BLOCK else CT_SD2)
  else mret 0.

(** SDv1 or MMC. *)
Definition init_old : MM Z :=
  r ← send_cmd ACMD41 0;
  let '(ty, cmd) := if r <=? 1 then (CT_SD1, ACMD41) else (CT_MMC, CMD1) in
  leave_idle cmd 0 ;;
  t ← gets Timer1;
  if t =? 0 then mret 0
  else
    r ← send_cmd CMD16 512;
    mret (if negb (r =? 0) then 0 else ty).

Definition disk_initialize (drv : Z) : MM Z :=
  zoom (modify (fio_dir (Z.shiftl 1 18) 1)) ;;
  zoom (modify (fio_dir (Z.shiftl 1 6) 1)) ;;
  zoom (modify (fio_dir (Z.shiftl 1 19) 0)) ;;
  if negb (drv =? 0) then mret STA_NOINIT
  else
    s ← gets Stat;
    if negb (Z.land s STA_NODISK =? 0) then gets Stat
    else
      power_on ;;
      rcvr_bytes 10 ;;
      r ← send_cmd CMD0 0;
      ty ← (if negb (r =? 1) then mret 0
            else
              modify (fun w => w{{ Timer1 := 100 }}) ;;
              r ← send_cmd CMD8 0x1AA;
              if r =? 1 then init_sd2 else init_old);
      modify (fun w => w{{ CardType := ty }}) ;;
      deselect ;;
      (if negb (ty =? 0) then modify (fun w => w{{ Stat := Z.land (Stat w) (Z.lnot STA_NOINIT) }})
       else power_off) ;;
      gets Stat.

Definition disk_status (drv : Z) : MM Z :=
  if negb (drv =? 0) then mret STA_NOINIT else gets Stat.

(** ** Sectors *)

(** The address a command takes: of the sector, or of its first byte. *)
Definition block_address (ty sector : Z) : Z :=
  if Z.land ty CT_BLOCK =? 0 then u32 (sector * 512) else sector.

(** The blocks of a multiple read; the count that is left is the result. *)
Definition read_blocks_body (p : list Z * Z * Z) : MM (ctl (list Z * Z * Z) (list Z * Z)) :=
  let '(buff, i, count) := p in
  r ← rcvr_datablock buff i 512;
  if negb (fst r) then mret (Break (snd r, count))
  else
    let count := count - 1 in
    mret (if count =? 0 then Break (snd r, count) else Continue (snd r, i + 512, count)).

(** The buffer and the count that is left, of one block and of several. *)
Definition read_single (buff : list Z) (address : Z) : MM (list Z * Z) :=
  r ← send_cmd CMD17 address;
  if negb (r =? 0) then mret (buff, 1)
  else
    b ← rcvr_datablock buff 0 512;
    mret (snd b, if negb (fst b) then 1 else 0).

Definition read_multiple (buff : list Z) (address count : Z) : MM (list Z * Z) :=
  r ← send_cmd CMD18 address;
  if negb (r =? 0) then mret (buff, count)
  else
    r ← while fuel read_blocks_body (buff, 0, count);
    send_cmd CMD12 0 ;;
    mret r.

Definition disk_read (drv : Z) (buff : list Z) (sector count : Z) : MM (DRESULT * list Z) :=
  if negb (drv =? 0) || (count =? 0) then mret (RES_PARERR, buff)
  else
    s ← gets Stat;
    if negb (Z.land s STA_NOINIT =? 0) then mret (RES_NOTRDY, buff)
    else
      ty ← gets CardType;
      let address := block_address ty sector in
      r ← (if count =? 1 then read_single buff address else read_multiple buff address count);
      deselect ;;
      mret (if snd r =? 0 then RES_OK else RES_ERROR, fst r).

Definition write_blocks_body (buff : list Z) (p : Z * Z) : MM (ctl (Z * Z) Z) :=
  let '(i, count) := p in
  ok ← xmit_datablock buff i 0xFC;
  if negb ok then mret (Break count)
  else
    let count := count - 1 in
    mret (if count =? 0 then Break count else Continue (i + 512, count)).

Definition write_single (buff : list Z) (address : Z) : MM Z :=
  r ← send_cmd CMD24 address;
  if negb (r =? 0) then mret 1
  else
    ok ← xmit_datablock buff 0 0xFE;
    mret (if negb ok then 1 else 0).

(** An SD card is told the count first; the stop token ends the blocks. *)
Definition write_multiple (buff : list Z) (ty address count : Z) : MM Z :=
  when (negb (Z.land ty CT_SDC =? 0)) (send_cmd ACMD23 count ;; mret tt) ;;
  r ← send_cmd CMD25 address;
  if negb (r =? 0) then mret count
  else
    count ← while fuel (write_blocks_body buff) (0, count);
    ok ← xmit_datablock [] 0 0xFD;
    mret (if negb ok then 1 else count).

Definition disk_write (drv : Z) (buff : list Z) (sector count : Z) : MM DRESULT :=
  if negb (drv =? 0) || (count =? 0) then mret RES_PARERR
  else
    s ← gets Stat;
    if negb (Z.land s STA_NOINIT =? 0) then mret RES_NOTRDY
    else if negb (Z.land s STA_PROTECT =? 0) then mret RES_WRPRT
    else
      ty ← gets CardType;
      let address := block_address ty sector in
      left ← (if count =? 1 then write_single buff address
              else write_multiple buff ty address count);
      deselect ;;
      mret (if left =? 0 then RES_OK else RES_ERROR).

(** ** [disk_ioctl] *)

Definition GET_SECTOR_COUNT : Z := 1.
Definition GET_SECTOR_SIZE : Z := 2.
Definition GET_BLOCK_SIZE : Z := 3.
Definition CTRL_POWER : Z := 4.
Definition MMC_GET_TYPE : Z := 10.
Definition MMC_GET_CSD : Z := 11.
Definition MMC_GET_CID : Z := 12.
Definition MMC_GET_OCR : Z := 13.
Definition MMC_GET_SDSTAT : Z := 14.
Definition CTRL_SYNC : Z := 0.

(** A command that answers with a block of [n] bytes. *)
Definition block_of (cmd n : Z) : MM (option (list Z)) :=
  r ← send_cmd cmd 0;
  if negb (r =? 0) then mret None
  else
    b ← rcvr_datablock (replicate (Z.to_nat n) 0) 0 n;
    mret (if negb (fst b) then None else Some (snd b)).

Definition csd_at (csd : list Z) (i : nat) : Z := default 0 (csd !! i).

(** The size of the card in sectors; [csize] is a WORD, [n] a BYTE. *)
Definition sector_count (csd : list Z) : Z :=
  let c := csd_at csd in
  if Z.shiftr (c 0%nat) 6 =? 1 then
    u32 (Z.shiftl (u16 (c 9%nat + Z.shiftl (c 8%nat) 8 + 1)) 10)
  else
    let n := u8 (Z.land (c 5%nat) 15 + Z.shiftr (Z.land (c 10%nat) 128) 7
                 + Z.shiftl (Z.land (c 9%nat) 3) 1 + 2) in
    let csize := u16 (Z.shiftr (c 8%nat) 6 + Z.shiftl (c 7%nat) 2
                      + Z.shiftl (Z.land (c 6%nat) 3) 10 + 1) in
    lsl csize (n - 9).

(** The size of an erase block in sectors, of an SD card of version 1 and of an MMC. *)
Definition erase_sd1 (csd : list Z) : Z :=
  let c := csd_at csd in
  lsl (Z.shiftl (Z.land (c 10%nat) 63) 1 + Z.shiftr (Z.land (c 11%nat) 128) 7 + 1)
    (Z.shiftr (c 13%nat) 6 - 1).
Definition erase_mmc (csd : list Z) : Z :=
  let c := csd_at csd in
  (Z.shiftr (Z.land (c 10%nat) 124) 2 + 1)
  * (Z.shiftl (Z.land (c 11%nat) 3) 3 + Z.shiftr (Z.land (c 11%nat) 224) 5 + 1).

Definition with_block (o : option (list Z)) (f : list Z -> ioctl_out) : DRESULT * ioctl_out :=
  match o with
  | Some l => (RES_OK, f l)
  | None => (RES_ERROR, Nothing)
  end.

Definition get_block_size : MM (DRESULT * ioctl_out) :=
  ty ← gets CardType;
  if negb (Z.land ty CT_SD2 =? 0) then
    r ← send_cmd ACMD13 0;
    if negb (r =? 0) then mret (RES_ERROR, Nothing)
    else
      rcvr_spi ;;
      b ← rcvr_datablock (replicate 16 0) 0 16;
      if negb (fst b) then mret (RES_ERROR, Nothing)
      else
        rcvr_bytes 48 ;;
        mret (RES_OK, Dword (lsl 16 (Z.shiftr (csd_at (snd b) 10) 4)))
  else
    o ← block_of CMD9 16;
    mret (with_block o (fun csd =>
      Dword (if negb (Z.land ty CT_SD1 =? 0) then erase_sd1 csd else erase_mmc csd))).

(** The sub control code of [CTRL_POWER] is [buff]'s first byte. *)
Definition power_control (code : Z) : MM (DRESULT * ioctl_out) :=
  if code =? 0 then
    p ← chk_power;
    when (negb (p =? 0)) power_off ;;
    mret (RES_OK, Nothing)
  else if code =? 1 then power_on ;; mret (RES_OK, Nothing)
  else if code =? 2 then p ← chk_power; mret (RES_OK, Bytes [code; p])
  else mret (RES_PARERR, Nothing).

Definition ioctl_card (ctrl : Z) : MM (DRESULT * ioctl_out) :=
  if ctrl =? CTRL_SYNC then
    ok ← select;
    if negb ok then mret (RES_ERROR, Nothing) else deselect ;; mret (RES_OK, Nothing)
  else if ctrl =? GET_SECTOR_COUNT then
    o ← block_of CMD9 16; mret (with_block o (fun csd => Dword (sector_count csd)))
  else if ctrl =? GET_SECTOR_SIZE then mret (RES_OK, Word 512)
  else if ctrl =? GET_BLOCK_SIZE then get_block_size
  else if ctrl =? MMC_GET_TYPE then ty ← gets CardType; mret (RES_OK, Bytes [ty])
  else if ctrl =? MMC_GET_CSD then o ← block_of CMD9 16; mret (with_block o Bytes)
  else if ctrl =? MMC_GET_CID then o ← block_of CMD10 16; mret (with_block o Bytes)
  else if ctrl =? MMC_GET_OCR then
    r ← send_cmd CMD58 0;
    if negb (r =? 0) then mret (RES_ERROR, Nothing)
    else l ← rcvr_bytes 4; mret (RES_OK, Bytes l)
  else if ctrl =? MMC_GET_SDSTAT then
    r ← send_cmd ACMD13 0;
    if negb (r =? 0) then mret (RES_ERROR, Nothing)
    else
      rcvr_spi ;;
      b ← rcvr_datablock (replicate 64 0) 0 64;
      mret (with_block (if negb (fst b) then None else Some (snd b)) Bytes)
  else mret (RES_PARERR, Nothing).

Definition disk_ioctl (drv ctrl code : Z) : MM (DRESULT * ioctl_out) :=
  if negb (drv =? 0) then mret (RES_PARERR, Nothing)
  else if ctrl =? CTRL_POWER then power_control code
  else
    s ← gets Stat;
    if negb (Z.land s STA_NOINIT =? 0) then mret (RES_NOTRDY, Nothing)
    else
      r ← ioctl_card ctrl;
      deselect ;;
      mret r.
End Mmc.
