(* ===== verification/SdCard.v ===== *)
(** * A memory card in its socket

    The hardware behind mmc.c as its documents describe it: SD and MMC cards in SPI mode as
    automata over the bytes on the bus, and the SSP with a receive buffer that fills some
    time after the byte was sent.  How long a card takes to answer, to send data and to
    program a block are parameters of the card. *)

From S2P Require Import Prelude Fat FatTable FatFacts FatRam Ssp Mmc.

(** ** The card *)

Inductive kind : Type := SDHC | SDv2 | SDv1 | MMCv3.
#[export] Instance kind_eq_dec : EqDecision kind.
Proof. solve_decision. Defined.

(** What the card does next with the bytes: takes commands, sends blocks from [t] on, waits
    for the token of a block to write, or receives it. *)
Inductive mode : Type :=
| Commands
| Reading (t : Z)
| Waiting (t : Z) (multi : bool)
| Receiving (t : Z) (multi : bool) (got : list Z).

Record card : Type := mk_card {
  c_kind : kind;
  c_mem : ramdisk;
  c_polls : nat;      (** polls until it leaves the idle state after a reset *)
  c_ncr : nat;        (** bytes before a response *)
  c_nac : nat;        (** bytes before a block of data *)
  c_busy : nat;       (** bytes it is busy after a block was written *)
  c_idle : option nat; (** the polls left in the idle state *)
  c_acmd : bool;      (** the next command is an application command *)
  c_in : list Z;      (** the bytes of a command so far *)
  c_out : list Z;     (** the bytes it is going to send *)
  c_mode : mode
}.
#[export] Instance eta_card : Settable card := fun c =>
  mk_card (c_kind c) (c_mem c) (c_polls c) (c_ncr c) (c_nac c) (c_busy c) (c_idle c)
    (c_acmd c) (c_in c) (c_out c) (c_mode c).

Definition gap (n : nat) : list Z := replicate n 0xFF.

(** A block with its start token and a checksum that nobody looks at. *)
Definition block (c : card) (t : Z) : list Z :=
  gap (c_nac c) ++ 0xFE :: ram_get (c_mem c) t ++ [0xFF; 0xFF].

Definition c_size (c : card) : Z := ram_size (c_mem c).
Definition idle_bit (c : card) : Z := if c_idle c is Some _ then 1 else 0.

(** Answers with a response. *)
Definition respond (l : list Z) (c : card) : card := c{{ c_out := gap (c_ncr c) ++ l }}.
Definition refuse (c : card) : card := respond [Z.lor (idle_bit c) 4] c.

(** The sector of an argument, if the card has it. *)
Definition sector_of (c : card) (arg : Z) : option Z :=
  let t := if decide (c_kind c = SDHC) then arg else arg / 512 in
  if (t <? c_size c) && (bool_decide (c_kind c = SDHC) || (arg mod 512 =? 0)) then Some t else None.

(** A command on a block: not in the idle state, and within the card. *)
Definition with_sector (c : card) (arg : Z) (f : Z -> card) : card :=
  if c_idle c is Some _ then refuse c
  else match sector_of c arg with
       | Some t => f t
       | None => respond [0x40] c
       end.

(** One more poll of the initialisation. *)
Definition poll (c : card) : card :=
  match c_idle c with
  | Some (S k) => respond [1] (c{{ c_idle := Some k }})
  | _ => respond [0] (c{{ c_idle := None }})
  end.

(** The command [cmd] with its argument; [acmd] tells that CMD55 came before. *)
Definition execute (acmd : bool) (cmd arg : Z) (c : card) : card :=
  if cmd =? 0 then
    respond [1] (c{{ c_idle := Some (c_polls c); c_mode := Commands }})
  else if cmd =? 8 then
    match c_kind c with
    | SDHC | SDv2 => respond [idle_bit c; 0; 0; Z.land (Z.shiftr arg 8) 0xF; arg mod 256] c
    | _ => refuse c
    end
  else if cmd =? 55 then
    match c_kind c with
    | MMCv3 => refuse c
    | _ => respond [idle_bit c] (c{{ c_acmd := true }})
    end
  else if (cmd =? 41) && acmd then
    (if bool_decide (c_kind c = SDHC) && negb (Z.testbit arg 30) then respond [1] c else poll c)
  else if cmd =? 1 then poll c
  else if cmd =? 58 then
    respond [idle_bit c; if decide (c_kind c = SDHC) then 0xC0 else 0x80; 0xFF; 0x80; 0] c
  else if cmd =? 16 then respond [idle_bit c] c
  else if cmd =? 17 then with_sector c arg (fun t => respond (0 :: block c t) c)
  else if cmd =? 18 then with_sector c arg (fun t => respond [0] (c{{ c_mode := Reading t }}))
  else if cmd =? 12 then
    (c{{ c_mode := Commands; c_out := 0xFF :: gap (c_ncr c) ++ [0] }})
  else if (cmd =? 23) && acmd then respond [idle_bit c] c
  else if cmd =? 24 then with_sector c arg (fun t => respond [0] (c{{ c_mode := Waiting t false }}))
  else if cmd =? 25 then with_sector c arg (fun t => respond [0] (c{{ c_mode := Waiting t true }}))
  else refuse c.

(** A byte of a command. *)
Definition command_byte (b : Z) (c : card) : card :=
  match c_in c with
  | [] => if Z.land b 0xC0 =? 0x40 then c{{ c_in := [b] }} else c
  | [c0; a3; a2; a1; a0] =>
      execute (c_acmd c) (Z.land c0 0x3F) (a0 + 256 * (a1 + 256 * (a2 + 256 * a3)))
        (c{{ c_in := []; c_acmd := false }})
  | l => c{{ c_in := l ++ [b] }}
  end.

(** A block and its checksum are there: it is stored, if the card has the sector. *)
Definition store_block (t : Z) (multi : bool) (l : list Z) (c : card) : card :=
  c{{ c_mem := <[Z.to_nat t := take 512 l]> (c_mem c);
      c_out := (if t <? c_size c then 0xE5 else 0xED) :: replicate (c_busy c) 0;
      c_mode := if multi then Waiting (t + 1) true else Commands }}.

Definition take_byte (b : Z) (c : card) : card :=
  match c_mode c with
  | Waiting t multi =>
      if b =? (if multi then 0xFC else 0xFE) then c{{ c_mode := Receiving t multi [] }}
      else if multi && (b =? 0xFD) then
        c{{ c_mode := Commands; c_out := 0xFF :: replicate (c_busy c) 0 }}
      else c
  | Receiving t multi l =>
      if (length l =? 513)%nat then store_block t multi (l ++ [b]) c
      else c{{ c_mode := Receiving t multi (l ++ [b]) }}
  | _ => command_byte b c
  end.

(** In a multiple read the next block follows the one before. *)
Definition refill (c : card) : card :=
  match c_mode c, c_out c with
  | Reading t, [] =>
      if t <? c_size c then c{{ c_out := block c t; c_mode := Reading (t + 1) }} else c
  | _, _ => c
  end.

(** One byte in each direction, the card selected. *)
Definition shift (b : Z) (c : card) : Z * card :=
  let c := refill c in
  (default 0xFF (head (c_out c)), take_byte b (c{{ c_out := tail (c_out c) }})).

(** Not selected, the card drives nothing; a command that was begun is forgotten. *)
Definition unselected (c : card) : Z * card := (0xFF, c{{ c_in := [] }}).

(** Without power it forgets everything but its memory. *)
Definition unpowered (c : card) : card :=
  c{{ c_idle := Some (c_polls c); c_acmd := false; c_in := []; c_out := []; c_mode := Commands }}.

(** ** The socket *)

(** The card, its chip select (high: not selected) and power pins, the bytes in the receive
    buffer and those on their way, and how many looks at SR it takes until a byte is there. *)
Record socket : Type := mk_socket {
  s_card : card;
  s_cs : bool;
  s_off : bool;
  s_rx : list Z;
  s_flight : list Z;
  s_wait : nat;
  s_latency : nat
}.
#[export] Instance eta_socket : Settable socket := fun s =>
  mk_socket (s_card s) (s_cs s) (s_off s) (s_rx s) (s_flight s) (s_wait s) (s_latency s).

Definition line (cs off : bool) (b : Z) (c : card) : Z * card :=
  if off then (0xFF, unpowered c) else if cs then unselected c else shift b c.

Definition look (s : socket) : Z * socket :=
  match s_rx s, s_flight s with
  | _ :: _, _ => (7, s)
  | [], [] => (3, s)
  | [], r :: fs =>
      match s_wait s with
      | O => (7, s{{ s_rx := [r]; s_flight := fs; s_wait := s_latency s }})
      | S k => (19, s{{ s_wait := k }})
      end
  end.

#[export] Instance socket_ssp : SspPort socket := {|
  ssp_SR := look;
  ssp_RIS s := (8, s);
  ssp_DR s := match s_rx s with d :: ds => (d, s{{ s_rx := ds }}) | [] => (0, s) end;
  ssp_set_DR d s :=
    let r := line (s_cs s) (s_off s) (d mod 256) (s_card s) in
    s{{ s_card := snd r; s_flight := s_flight s ++ [fst r] }};
  ssp_set_ICR _ s := s
|}.

(** Pins 6 and 18 are outputs; pin 19 is low, a card is there.  Nothing in the program calls
    [disk_timerproc]. *)
#[export] Instance socket_socket : Socket socket := {|
  fio_set m s := s{{ s_cs := s_cs s || Z.testbit m 6; s_off := s_off s || Z.testbit m 18 }};
  fio_clr m s := s{{ s_cs := s_cs s && negb (Z.testbit m 6);
                     s_off := s_off s && negb (Z.testbit m 18) }};
  fio_dir _ _ s := s;
  fio_pin s := (Z.lor (Z.shiftl (Z.b2z (s_cs s)) 6) (Z.shiftl (Z.b2z (s_off s)) 18), s);
  timer_calls s := (0%nat, s)
|}.

(** A card out of the box, in a socket. *)
Definition new_card (k : kind) (mem : ramdisk) (polls ncr nac busy : nat) : card :=
  mk_card k mem polls ncr nac busy (Some polls) false [] [] Commands.
Definition inserted (c : card) (latency : nat) : mmc socket :=
  mk_mmc STA_NOINIT 0 0 0 0 (mk_socket c true true [] [] latency latency).

(** A card without block addresses is initialised, written and read. *)
Example mmc_written_read :
  exists w, (disk_initialize 200 0 ;; disk_write 2000 0 (replicate 512 7) 1 1 ;; disk_read 2000 0 (replicate 512 0) 1 1)
    (inserted (new_card MMCv3 [zero_sector;zero_sector;zero_sector] 3 2 4 5) 1) = Ok ((RES_OK, replicate 512 7), w).
Proof. eexists. vm_compute; reflexivity. Qed.
