(* ===== verification/MmcFacts.v ===== *)
(** * Facts about [Mmc]

    The driver of the memory card with a card in the socket ([SdCard]): the bytes on the
    bus, commands, blocks, the transfer of sectors and the initialisation. *)

From S2P Require Import Prelude Clkpwr Fat FatTable FatFacts FatRam Ssp Mmc SdCard.

(** ** One byte *)

Definition got (null_rx : bool) (x : xfer) (a : Z) : xfer :=
  let x := if null_rx then x else x{{ rdata := rdata x ++ [u8 (Z.land a 0xFFFF)] }} in
  x{{ rx_cnt := 1 }}.

Lemma ris_run (s : socket) : dev ssp_RIS s = Ok (8, s).
Proof. reflexivity. Qed.

Lemma drain_visible fuel null_rx c cs a lat x : (2 <= fuel)%nat -> rx_cnt x = 0 ->
  while fuel (drain_body 0 1 null_rx) x (mk_socket c cs false [a] [] lat lat) =
  Ok (got null_rx x a, mk_socket c cs false [] [] lat lat).
Proof.
  intros Hf Hx. destruct fuel as [|[|n]]; [lia|lia|]. destruct x as [t r st wd rd]. simpl in Hx. subst r.
  by destruct null_rx.
Qed.

Lemma poll_done fuel null_tx null_rx n x s : tx_cnt x = 1 -> rx_cnt x = 1 ->
  while (S n) (poll_body fuel 0 1 null_tx null_rx) x s = Ok ((true, x{{ xstatus := SSP_STAT_DONE }}), s).
Proof. intros E1 E2. cbn [while]. unfold poll_body. by rewrite E1, E2. Qed.

Lemma got_cnt null_rx x a : tx_cnt (got null_rx x a) = tx_cnt x /\ rx_cnt (got null_rx x a) = 1.
Proof. unfold got. by destruct null_rx. Qed.

Lemma poll_waiting fuel null_tx null_rx n k c cs a lat x : (2 <= fuel)%nat -> (k + 2 <= n)%nat ->
  tx_cnt x = 1 -> rx_cnt x = 0 ->
  while n (poll_body fuel 0 1 null_tx null_rx) x (mk_socket c cs false [] [a] k lat) =
  Ok ((true, (got null_rx x a){{ xstatus := SSP_STAT_DONE }}), mk_socket c cs false [] [] lat lat).
Proof.
  intros Hf. revert n. induction k as [k IH] using lt_wf_ind. intros n Hn Ht Hr.
  destruct n as [|n]; [lia|]. cbn [while]. destruct (got_cnt null_rx x a) as [G1 G2].
  assert (forall s s', while fuel (drain_body 0 1 null_rx) x s' = Ok (got null_rx x a, mk_socket c cs false [] [] lat lat) ->
    send_frame 0 1 null_tx x s = Ok (x, s') ->
    while (S n) (poll_body fuel 0 1 null_tx null_rx) x s =
    Ok ((true, (got null_rx x a){{ xstatus := SSP_STAT_DONE }}), mk_socket c cs false [] [] lat lat)) as Hget.
  { intros s s' Ed Es. cbn [while]. rewrite (bind_ok _ _ s (Continue (got null_rx x a)) (mk_socket c cs false [] [] lat lat)).
    - destruct n as [|n']; [lia|]. apply poll_done; [congruence|done].
    - unfold poll_body. rewrite Ht, Hr. cbn [Z.eqb Pos.eqb andb]. rewrite (bind_ok _ _ _ _ _ Es).
      rewrite (bind_ok _ _ _ _ _ (ris_run s')). change (negb (Z.land 8 SSP_RIS_ROR =? 0)) with false.
      cbv iota. by rewrite (bind_ok _ _ _ _ _ Ed). }
  destruct k as [|[|k]].
  - apply (Hget _ (mk_socket c cs false [a] [] lat lat)); [by apply drain_visible|].
    unfold send_frame. cbn. by rewrite Ht.
  - apply (Hget _ (mk_socket c cs false [] [a] 0 lat)).
    + destruct fuel as [|[|f]]; [lia|lia|]. destruct x as [t r st wd rd]. simpl in Hr. subst r. by destruct null_rx.
    + unfold send_frame. cbn. by rewrite Ht.
  - rewrite (bind_ok _ _ _ (Continue x) (mk_socket c cs false [] [a] k lat)).
    + apply IH; [lia|lia|done|done].
    + unfold poll_body. rewrite Ht, Hr. cbn [Z.eqb Pos.eqb andb].
      rewrite (bind_ok _ _ _ x (mk_socket c cs false [] [a] (S k) lat)).
      2: { unfold send_frame. cbn. by rewrite Ht. }
      rewrite (bind_ok _ _ _ _ _ (ris_run (mk_socket c cs false [] [a] (S k) lat))).
      change (negb (Z.land 8 SSP_RIS_ROR =? 0)) with false. cbv iota.
      rewrite (bind_ok _ _ _ x (mk_socket c cs false [] [a] k lat)); [done|].
      by destruct fuel as [|f]; [lia|].
Qed.

Lemma transfer fuel tx null_rx d c cs lat : (lat + 4 <= fuel)%nat ->
  tx = Some [d] \/ tx = None /\ d = 0xFF ->
  let r := line cs false (Z.land d 0xFFFF mod 256) c in
  exists v x, SSP_ReadWrite fuel 0 tx null_rx 1 (mk_socket c cs false [] [] lat lat) =
    Ok ((v, x), mk_socket (snd r) cs false [] [] lat lat) /\
    (null_rx = false -> rdata x = [u8 (Z.land (fst r) 0xFFFF)]).
Proof.
  intros Hf Htx r. unfold SSP_ReadWrite. set (null_tx := if tx is Some _ then false else true).
  set (s := mk_socket c cs false [] [] lat lat).
  rewrite (bind_ok _ _ s tt s) by (destruct fuel; [lia|done]).
  rewrite (bind_ok _ _ s tt s eq_refl).
  set (x1 := mk_xfer 1 0 0 [] []).
  set (s1 := mk_socket (snd r) cs false [] [fst r] lat lat).
  assert (while fuel (poll_body fuel 0 1 null_tx null_rx) (mk_xfer 0 0 0 (default [] tx) []) s =
    Ok ((true, (got null_rx x1 (fst r)){{ xstatus := SSP_STAT_DONE }}), mk_socket (snd r) cs false [] [] lat lat)) as E.
  { destruct fuel as [|n]; [lia|]. cbn [while].
    destruct lat as [|k].
    - rewrite (bind_ok _ _ s (Continue (got null_rx x1 (fst r))) (mk_socket (snd r) cs false [] [] 0 0)).
      + destruct n as [|n]; [lia|]. apply poll_done; by apply got_cnt.
      + unfold poll_body. cbn [tx_cnt rx_cnt Z.eqb andb].
        rewrite (bind_ok _ _ s x1 s1).
        2: { unfold send_frame. destruct Htx as [->|[-> ->]]; reflexivity. }
        rewrite (bind_ok _ _ _ _ _ (ris_run s1)). change (negb (Z.land 8 SSP_RIS_ROR =? 0)) with false.
        cbv iota. destruct n as [|[|n]]; [lia|lia|]. by destruct null_rx.
    - rewrite (bind_ok _ _ s (Continue x1) (mk_socket (snd r) cs false [] [fst r] k (S k))).
      + apply poll_waiting; [lia|lia|done|done].
      + unfold poll_body. cbn [tx_cnt rx_cnt Z.eqb andb].
        rewrite (bind_ok _ _ s x1 s1).
        2: { unfold send_frame. destruct Htx as [->|[-> ->]]; reflexivity. }
        rewrite (bind_ok _ _ _ _ _ (ris_run s1)). change (negb (Z.land 8 SSP_RIS_ROR =? 0)) with false.
        cbv iota. rewrite (bind_ok _ _ _ x1 (mk_socket (snd r) cs false [] [fst r] k (S k))); [done|].
        by destruct n as [|n]. }
  rewrite (bind_ok _ _ _ _ _ E). eexists _, _. split; [reflexivity|]. intros ->. done.
Qed.

(** ** The driver with a card *)

(** The variables of the driver and the latency of the SSP. *)
Record base : Type := mk_base { b_stat : Z; b_t1 : Z; b_t2 : Z; b_type : Z; b_pv : Z; b_lat : nat }.
#[export] Instance eta_base : Settable base :=
  fun b => mk_base (b_stat b) (b_t1 b) (b_t2 b) (b_type b) (b_pv b) (b_lat b).

(** Between two transfers, the power on. *)
Definition wd (b : base) (cs : bool) (c : card) : mmc socket :=
  mk_mmc (b_stat b) (b_t1 b) (b_t2 b) (b_type b) (b_pv b)
    (mk_socket c cs false [] [] (b_lat b) (b_lat b)).

(** ** The card while it is read from *)

(** Bytes 0xFF mean nothing to the card. *)
Definition listens (c : card) : Prop :=
  c_in c = [] /\ match c_mode c with Receiving _ _ _ => False | _ => True end.
Definition streaming (c : card) : Prop := exists t, c_mode c = Reading t.

Lemma with_out c : c{{ c_out := c_out c }} = c.
Proof. by destruct c. Qed.

Lemma take_pause c : listens c -> take_byte 0xFF c = c.
Proof.
  intros [Hin Hm]. unfold take_byte. destruct (c_mode c) as [|t|t m|t m l] eqn:Em; [| | |done].
  - unfold command_byte. by rewrite Hin.
  - unfold command_byte. by rewrite Hin.
  - by destruct m.
Qed.

Lemma shift_out c a o : listens c -> c_out c = a :: o -> shift 0xFF c = (a, c{{ c_out := o }}).
Proof.
  intros [Hin Hm] Ho. unfold shift. assert (refill c = c) as -> by (unfold refill; rewrite Ho; by destruct (c_mode c)).
  rewrite Ho. by rewrite take_pause.
Qed.

Lemma shift_pause c : listens c -> ~ streaming c -> c_out c = [] -> shift 0xFF c = (0xFF, c).
Proof.
  intros [Hin Hm] Hs Ho. unfold shift.
  assert (refill c = c) as -> by (unfold refill; destruct (c_mode c) eqn:E; try done; by destruct Hs; eexists).
  rewrite Ho. cbn [head tail]. rewrite take_pause by done. destruct c. simpl in *. by subst.
Qed.

(** ** Commands on the bus *)

(** The card takes commands, while it sends blocks or not. *)
Definition talks (m : mode) : Prop := match m with Commands | Reading _ => True | _ => False end.
Definition flow (c : card) (o : list Z) (m : mode) : card := c{{ c_out := o; c_mode := m }}.
(** It was silent and stays so. *)
Definition silent (c : card) : Prop := c_mode c = Commands /\ c_out c = [].

Lemma shift_flow b c : talks (c_mode c) -> exists o m, talks m /\ (silent c -> o = [] /\ m = Commands) /\
  snd (shift b c) = command_byte b (flow c o m).
Proof.
  intros Ht. unfold shift, refill, silent, flow. destruct c as [k mem p n1 n2 n3 i a cin out m]. simpl in *.
  destruct m as [|t| |]; try done.
  - exists (tail out), Commands. split; [done|]. split; [by intros [_ ->]|done].
  - destruct out as [|x out]; [|exists out, (Reading t); split; [done|split; [by intros [? ?]|done]]].
    destruct (t <? _).
    + eexists _, (Reading (t + 1)). split; [done|]. split; [by intros [? ?]|reflexivity].
    + exists [], (Reading t). split; [done|]. split; [by intros [? ?]|reflexivity].
Qed.

Lemma flow_flow c o m o' m' : flow (flow c o m) o' m' = flow c o' m'.
Proof. done. Qed.

(** The six bytes of a command. *)
Definition shifts (l : list Z) (c : card) : card := foldl (fun c b => snd (shift b c)) c l.

Lemma shifts_flow c l x : talks (c_mode c) -> c_in c = l -> (1 <= length l < 5)%nat ->
  exists o m, talks m /\ (silent c -> o = [] /\ m = Commands) /\
    snd (shift x c) = (flow c o m){{ c_in := l ++ [x] }}.
Proof.
  intros Ht Hl Hn. destruct (shift_flow x c Ht) as (o & m & Hm & Hs & E). exists o, m. split; [done|].
  split; [done|]. rewrite E. unfold command_byte. change (c_in (flow c o m)) with (c_in c). rewrite Hl.
  destruct l as [|? [|? [|? [|? [|? ?]]]]]; simpl in Hn; try lia; done.
Qed.

Lemma six_bytes c cmd a3 a2 a1 a0 crc : talks (c_mode c) -> c_in c = [] -> Z.land cmd 0xC0 = 0x40 ->
  exists o m, talks m /\ (silent c -> o = [] /\ m = Commands) /\
  shifts [cmd; a3; a2; a1; a0; crc] c =
  execute (c_acmd c) (Z.land cmd 0x3F) (a0 + 256 * (a1 + 256 * (a2 + 256 * a3)))
    ((flow c o m){{ c_in := []; c_acmd := false }}).
Proof.
  intros Ht Hin Hcmd. unfold shifts. cbn [foldl].
  destruct (shift_flow cmd c Ht) as (o0 & m0 & Hm0 & Hs0 & ->). unfold command_byte at 1.
  change (c_in (flow c o0 m0)) with (c_in c). rewrite Hin, Hcmd. cbn [Z.eqb Pos.eqb].
  set (c0 := (flow c o0 m0){{ c_in := [cmd] }}).
  destruct (shifts_flow c0 [cmd] a3) as (o1 & m1 & Hm1 & Hs1 & ->); [done|done|simpl; lia|].
  set (c1 := (flow c0 o1 m1){{ c_in := [cmd] ++ [a3] }}).
  destruct (shifts_flow c1 [cmd; a3] a2) as (o2 & m2 & Hm2 & Hs2 & ->); [done|done|simpl; lia|].
  set (c2 := (flow c1 o2 m2){{ c_in := [cmd; a3] ++ [a2] }}).
  destruct (shifts_flow c2 [cmd; a3; a2] a1) as (o3 & m3 & Hm3 & Hs3 & ->); [done|done|simpl; lia|].
  set (c3 := (flow c2 o3 m3){{ c_in := [cmd; a3; a2] ++ [a1] }}).
  destruct (shifts_flow c3 [cmd; a3; a2; a1] a0) as (o4 & m4 & Hm4 & Hs4 & ->); [done|done|simpl; lia|].
  set (c4 := (flow c3 o4 m4){{ c_in := [cmd; a3; a2; a1] ++ [a0] }}).
  destruct (shift_flow crc c4) as (o5 & m5 & Hm5 & Hs5 & ->); [done|].
  exists o5, m5. split; [done|]. split; [|done].
  intros Hsil. apply Hs5. destruct (Hs4) as [-> ->]; [|done]. destruct Hs3 as [-> ->]; [|done].
  destruct Hs2 as [-> ->]; [|done]. destruct Hs1 as [-> ->]; [|done]. by destruct (Hs0 Hsil) as [-> ->].
Qed.

Section Driver.
Variable fuel : nat.

(** Enough turns for the polling of the SSP. *)
Definition swift (b : base) : Prop := (b_lat b + 4 <= fuel)%nat.

Lemma t1_run b cs c : gets Timer1 (wd b cs c) = Ok (b_t1 b, wd b cs c).
Proof. done. Qed.
Lemma t2_run b cs c : gets Timer2 (wd b cs c) = Ok (b_t2 b, wd b cs c).
Proof. done. Qed.

Lemma interrupts_run b cs c : interrupts (wd b cs c) = Ok (tt, wd b cs c).
Proof. done. Qed.

Lemma xmit_run b cs c d : swift b ->
  xmit_spi fuel d (wd b cs c) = Ok (tt, wd b cs (snd (line cs false (u8 d) c))).
Proof.
  intros Hf. unfold xmit_spi, SSPSend.
  destruct (transfer fuel (Some [u8 d]) true (u8 d) c cs (b_lat b) Hf) as (v & x & E & _); [by left|].
  change (Z.of_nat (length [u8 d])) with 1. change 0xFFFF with (Z.ones 16) in E.
  rewrite Z.land_ones in E by lia.
  replace (u8 d mod 2 ^ 16 mod 256) with (u8 d) in E by (unfold u8; lia).
  rewrite (bind_ok _ _ _ (v, x) (wd b cs (snd (line cs false (u8 d) c)))); [apply interrupts_run|].
  exact (zoom_ok _ (wd b cs c) _ _ E).
Qed.

Lemma receive_run b cs c : swift b -> let r := line cs false 0xFF c in byte_ok (fst r) ->
  SSPReceive fuel 1 (wd b cs c) = Ok ([fst r], wd b cs (snd r)).
Proof.
  intros Hf r Hr. unfold SSPReceive.
  destruct (transfer fuel None false 0xFF c cs (b_lat b) Hf) as (v & x & E & Hx); [by right|].
  specialize (Hx eq_refl). change (Z.land 255 65535 mod 256) with 0xFF in *. fold r in E, Hx.
  rewrite (bind_ok _ _ _ (v, x) (wd b cs (snd r))).
  2: exact (zoom_ok _ (wd b cs c) _ _ E).
  rewrite (bind_ok _ _ _ _ _ (interrupts_run b cs (snd r))). unfold mret, M_ret. simpl. rewrite Hx.
  change 0xFFFF with (Z.ones 16). rewrite Z.land_ones by lia. unfold byte_ok, u8 in *. do 3 f_equal. lia.
Qed.

Lemma rcvr_run b cs c a c' : swift b -> line cs false 0xFF c = (a, c') -> byte_ok a ->
  rcvr_spi fuel (wd b cs c) = Ok (a, wd b cs c').
Proof.
  intros Hf E Ha. unfold rcvr_spi. pose proof (receive_run b cs c Hf) as Hr. rewrite E in Hr.
  by rewrite (bind_ok _ _ _ _ _ (Hr Ha)).
Qed.

Lemma rcvr_m_run b cs c a c' dst i : swift b -> line cs false 0xFF c = (a, c') -> byte_ok a ->
  0 <= i < Z.of_nat (length dst) ->
  rcvr_spi_m fuel dst i (wd b cs c) = Ok (<[Z.to_nat i := a]> dst, wd b cs c').
Proof.
  intros Hf E Ha Hi. unfold rcvr_spi_m. pose proof (receive_run b cs c Hf) as Hr. rewrite E in Hr.
  rewrite (bind_ok _ _ _ _ _ (Hr Ha)). by apply aset_ok.
Qed.

Lemma cs_low_run b cs c : CS_LOW (wd b cs c) = Ok (tt, wd b false c).
Proof. by destruct cs. Qed.
Lemma cs_high_run b cs c : CS_HIGH (wd b cs c) = Ok (tt, wd b true c).
Proof. by destruct cs. Qed.

Lemma deselect_run b cs c : swift b ->
  deselect fuel (wd b cs c) = Ok (tt, wd b true (c{{ c_in := [] }})).
Proof.
  intros Hf. unfold deselect. rewrite (bind_ok _ _ _ _ _ (cs_high_run b cs c)).
  by rewrite (bind_ok _ _ _ _ _ (rcvr_run b true c 0xFF (c{{ c_in := [] }}) Hf eq_refl ltac:(done))).
Qed.

(** The bytes 0 of a busy card pass, then it answers 0xFF. *)
Lemma wait_loop turns b c n : swift b -> b_t2 b <> 0 -> listens c -> ~ streaming c ->
  c_out c = replicate n 0 -> (n < turns)%nat ->
  while turns (wait_body fuel) tt (wd b false c) = Ok (0xFF, wd b false (c{{ c_out := [] }})).
Proof.
  intros Hf Ht Hl Hs. revert turns c Hl Hs. induction n as [|n IH]; intros turns c Hl Hs Ho Hn;
    (destruct turns as [|turns]; [lia|]); cbn [while].
  - rewrite (bind_ok _ _ _ (Break 0xFF) (wd b false (c{{ c_out := [] }}))); [done|].
    unfold wait_body. rewrite (bind_ok _ _ _ _ _ (rcvr_run b false c 0xFF c Hf (shift_pause c Hl Hs Ho) ltac:(done))).
    simpl in Ho. by rewrite <- Ho, with_out.
  - rewrite (bind_ok _ _ _ (Continue tt) (wd b false (c{{ c_out := replicate n 0 }}))).
    + by rewrite IH by (done || lia).
    + unfold wait_body.
      rewrite (bind_ok _ _ _ _ _ (rcvr_run b false c 0 _ Hf (shift_out c 0 (replicate n 0) Hl Ho) ltac:(done))).
      rewrite (bind_ok _ _ _ _ _ (t2_run b false (c{{ c_out := replicate n 0 }}))).
      by destruct (Z.eqb_spec (b_t2 b) 0).
Qed.

(** The timer of [wait_ready] has been started. *)
Definition waited (b : base) : base := b{{ b_t2 := 50 }}.

(** What a busy card sends: zeros, behind a stuff byte when the stop token was the last. *)
Definition busy (l : list Z) : Prop :=
  exists n, (n < fuel)%nat /\ (l = replicate n 0 \/ l = 0xFF :: replicate n 0).

Lemma card_waited b c : swift b -> listens c -> ~ streaming c -> busy (c_out c) ->
  wait_ready fuel (wd b false c) = Ok (0xFF, wd (waited b) false (c{{ c_out := [] }})).
Proof.
  intros Hf Hl Hs (n & Hn & Ho). unfold wait_ready.
  rewrite (bind_ok (modify _) _ (wd b false c) tt (wd (waited b) false c) eq_refl).
  assert (forall a m, (m < fuel)%nat -> byte_ok a -> c_out c = a :: replicate m 0 ->
    (rcvr_spi fuel ;; while fuel (wait_body fuel) tt) (wd (waited b) false c) =
    Ok (0xFF, wd (waited b) false (c{{ c_out := [] }}))) as Hgo.
  { intros a m Hm Hb Ha.
    rewrite (bind_ok _ _ _ _ _ (rcvr_run (waited b) false c a _ Hf (shift_out c a (replicate m 0) Hl Ha) Hb)).
    by rewrite (wait_loop fuel (waited b) (c{{ c_out := replicate m 0 }}) m). }
  destruct Ho as [Ho|Ho]; [destruct n as [|n]|].
  - rewrite (bind_ok _ _ _ _ _ (rcvr_run (waited b) false c 0xFF c Hf (shift_pause c Hl Hs Ho) ltac:(done))).
    by apply (wait_loop fuel (waited b) c 0).
  - apply (Hgo 0 n); [lia|done|done].
  - by apply (Hgo 0xFF n).
Qed.

Lemma card_selected b cs c : swift b -> listens c -> ~ streaming c -> busy (c_out c) ->
  select fuel (wd b cs c) = Ok (true, wd (waited b) false (c{{ c_out := [] }})).
Proof.
  intros Hf Hl Hs Ho. unfold select. rewrite (bind_ok _ _ _ _ _ (cs_low_run b cs c)).
  by rewrite (bind_ok _ _ _ _ _ (card_waited b c Hf Hl Hs Ho)).
Qed.

(** ** Responses *)

Lemma response_loop turns b c n k r rest : swift b -> listens c -> c_out c = gap n ++ r :: rest ->
  byte_ok r -> Z.land r 0x80 = 0 -> Z.of_nat n < k -> (n < turns)%nat ->
  while turns (response_body fuel) k (wd b false c) = Ok (r, wd b false (c{{ c_out := rest }})).
Proof.
  intros Hf Hl Ho Hb Hr. revert turns c k Hl Ho. induction n as [|n IH]; intros turns c k Hl Ho Hk Hn;
    (destruct turns as [|turns]; [lia|]); cbn [while].
  - rewrite (bind_ok _ _ _ (Break r) (wd b false (c{{ c_out := rest }}))); [done|]. unfold response_body.
    rewrite (bind_ok _ _ _ _ _ (rcvr_run b false c r _ Hf (shift_out c r rest Hl Ho) Hb)). by rewrite Hr.
  - rewrite (bind_ok _ _ _ (Continue (k - 1)) (wd b false (c{{ c_out := gap n ++ r :: rest }}))).
    + by rewrite IH by (done || lia).
    + unfold response_body.
      rewrite (bind_ok _ _ _ _ _ (rcvr_run b false c 0xFF _ Hf (shift_out c 0xFF (gap n ++ r :: rest) Hl Ho) ltac:(done))).
      change (Z.land 255 128 =? 0) with false. cbv iota. by destruct (Z.eqb_spec (k - 1) 0); [lia|].
Qed.

Lemma arg_bytes arg : word_ok arg ->
  u8 arg + 256 * (u8 (Z.shiftr arg 8) + 256 * (u8 (Z.shiftr arg 16) + 256 * u8 (Z.shiftr arg 24))) = arg.
Proof.
  intros Ha. rewrite !Z.shiftr_div_pow2 by lia. unfold u8, word_ok in *.
  change (2 ^ 8) with 256. change (2 ^ 16) with 65536. change (2 ^ 24) with 16777216. lia.
Qed.

(** The bytes of a command, to a card that takes commands. *)
Definition send_bytes (cmd arg : Z) : M (mmc socket) unit :=
  xmit_spi fuel cmd ;;
  xmit_spi fuel (Z.shiftr arg 24) ;;
  xmit_spi fuel (Z.shiftr arg 16) ;;
  xmit_spi fuel (Z.shiftr arg 8) ;;
  xmit_spi fuel arg ;;
  xmit_spi fuel (if cmd =? CMD8 then 0x87 else if cmd =? CMD0 then 0x95 else 0x01).

Lemma send_bytes_run b c cmd arg : swift b -> talks (c_mode c) -> c_in c = [] ->
  0x40 <= cmd < 0x80 -> word_ok arg ->
  exists o m, talks m /\ (silent c -> o = [] /\ m = Commands) /\
  send_bytes cmd arg (wd b false c) = Ok (tt, wd b false
    (execute (c_acmd c) (cmd - 0x40) arg ((flow c o m){{ c_in := []; c_acmd := false }}))).
Proof.
  intros Hf Ht Hin Hc Ha.
  assert (Z.land cmd 0xC0 = 0x40 /\ Z.land cmd 0x3F = cmd - 0x40) as [Hc1 Hc2].
  { change 0x3F with (Z.ones 6). rewrite Z.land_ones by lia. change (2 ^ 6) with 64. split; [|lia].
    assert (forallb (fun x => Z.land x 0xC0 =? 0x40) (seqZ 64 64) = true) as Hall by done.
    rewrite forallb_forall in Hall. apply Z.eqb_eq, Hall, list_elem_of_In, elem_of_seqZ. lia. }
  set (crc := if cmd =? CMD8 then 0x87 else if cmd =? CMD0 then 0x95 else 0x01).
  destruct (six_bytes c cmd (u8 (Z.shiftr arg 24)) (u8 (Z.shiftr arg 16)) (u8 (Z.shiftr arg 8)) (u8 arg) (u8 crc)
    Ht Hin Hc1) as (o & m & Hm & Hs & E).
  exists o, m. split; [done|]. split; [done|]. rewrite arg_bytes, Hc2 in E by done. rewrite <- E.
  unfold send_bytes, shifts. cbn [foldl].
  rewrite (bind_ok _ _ _ _ _ (xmit_run b false c cmd Hf)).
  rewrite !(bind_ok _ _ _ _ _ (xmit_run b false _ _ Hf)).
  fold crc. rewrite xmit_run by done. unfold line.
  by replace (u8 cmd) with cmd by (unfold u8; lia).
Qed.

Lemma send_bytes_then {A} cmd arg (k : M (mmc socket) A) w w' : send_bytes cmd arg w = Ok (tt, w') ->
  (xmit_spi fuel cmd ;;
   xmit_spi fuel (Z.shiftr arg 24) ;;
   xmit_spi fuel (Z.shiftr arg 16) ;;
   xmit_spi fuel (Z.shiftr arg 8) ;;
   xmit_spi fuel arg ;;
   xmit_spi fuel (if cmd =? CMD8 then 0x87 else if cmd =? CMD0 then 0x95 else 0x01) ;;
   k) w = k w'.
Proof.
  unfold send_bytes. generalize (xmit_spi fuel cmd), (xmit_spi fuel (Z.shiftr arg 24)),
    (xmit_spi fuel (Z.shiftr arg 16)), (xmit_spi fuel (Z.shiftr arg 8)), (xmit_spi fuel arg),
    (xmit_spi fuel (if cmd =? CMD8 then 0x87 else if cmd =? CMD0 then 0x95 else 0x01)).
  intros m1 m2 m3 m4 m5 m6. unfold mbind, M_bind. intros E.
  do 5 (case_match; [|done]; case_match). by rewrite E.
Qed.

(** The card before a command is carried out. *)
Definition fresh (c : card) : card := c{{ c_out := []; c_in := []; c_acmd := false }}.

(** The card has the command [cmd] with the response [r], and sends [rest] after it. *)
Record answers (c c1 : card) (cmd arg r : Z) (rest : list Z) : Prop := {
  an_exec : c1 = execute (c_acmd c) (cmd - 0x40) arg (fresh c);
  an_out : exists k, (k <= 9)%nat /\ c_out c1 = gap k ++ r :: rest;
  an_resp : byte_ok r /\ Z.land r 0x80 = 0;
  an_listens : listens c1
}.

(** The card takes commands, or is busy for at most [fuel] bytes. *)
Record free (c : card) : Prop := {
  fr_in : c_in c = [];
  fr_mode : c_mode c = Commands;
  fr_busy : busy (c_out c)
}.

Lemma free_listens c : free c -> listens c /\ ~ streaming c.
Proof. intros [Hi Hm _]. split; [split; [done|by rewrite Hm]|]. intros [t E]. congruence. Qed.

Lemma send_plain_run b cs c c1 cmd arg r rest : swift b -> (10 < fuel)%nat -> free c ->
  0x40 <= cmd < 0x80 -> cmd <> CMD12 -> word_ok arg -> answers c c1 cmd arg r rest ->
  send_plain fuel cmd arg (wd b cs c) = Ok (r, wd (waited b) false (c1{{ c_out := rest }})).
Proof.
  intros Hf Hfu Hfr Hc H12 Ha [Ex (k & Hk & Ho) [Hb Hr] Hl].
  destruct (free_listens c Hfr) as [Hli Hns]. destruct Hfr as [Hin Hm Hbz].
  unfold send_plain. rewrite (bind_ok _ _ _ _ _ (deselect_run b cs c Hf)).
  assert (c{{ c_in := [] }} = c) as -> by (destruct c; simpl in *; by subst).
  rewrite (bind_ok _ _ _ _ _ (card_selected b true c Hf Hli Hns Hbz)). cbn [negb].
  destruct (send_bytes_run (waited b) (c{{ c_out := [] }}) cmd arg Hf) as (o & m & _ & Hs & E);
    [change (talks (c_mode c)); by rewrite Hm|done|done|done|].
  destruct Hs as [-> ->]; [by split|]. rewrite (send_bytes_then cmd arg _ _ _ E).
  assert (execute (c_acmd c) (cmd - 64) arg ((flow (c{{ c_out := [] }}) [] Commands){{ c_in := []; c_acmd := false }}) = c1) as E1.
  { rewrite Ex. f_equal. destruct c. simpl in *. by subst. }
  change (c_acmd (c{{ c_out := [] }})) with (c_acmd c) in *. rewrite E1.
  destruct (Z.eqb_spec cmd CMD12); [done|]. unfold when.
  rewrite (bind_ok (mret tt) _ _ tt (wd (waited b) false c1) eq_refl).
  apply (response_loop fuel (waited b) c1 k 10 r rest); (done || lia).
Qed.

(** ** The end of a multiple read *)

Lemma shift_stream c t : c_mode c = Reading t -> c_in c = [] ->
  (exists o, c_out c = 0xFF :: o) \/ c_out c = [] /\ (1 <= c_nac c)%nat ->
  exists o m, shift 0xFF c = (0xFF, flow c o m) /\ talks m /\ (exists t', m = Reading t') /\
    (c_out c = [] -> o = [] \/ exists o', o = gap (c_nac c - 1) ++ o').
Proof.
  intros Hm Hin Ho. destruct c as [k mem p n1 n2 n3 i a cin out md]. simpl in *. subst md cin.
  destruct Ho as [[o ->]|[-> Hn]].
  - exists o, (Reading t). split; [done|]. split; [done|]. split; [by exists t|done].
  - unfold shift, refill. cbn [c_mode c_out]. destruct (t <? _) eqn:E.
    + destruct n2 as [|n2]; [lia|]. eexists _, (Reading (t + 1)). split; [reflexivity|]. split; [done|].
      split; [by eexists|]. intros _. right. rewrite Nat.sub_succ, Nat.sub_0_r. by eexists.
    + exists [], (Reading t). split; [done|]. split; [done|]. split; [by eexists|]. by left.
Qed.

Lemma wait_stream b c t : swift b -> c_mode c = Reading t -> c_in c = [] -> c_out c = [] ->
  (2 <= c_nac c)%nat -> exists o m, talks m /\
    wait_ready fuel (wd b false c) = Ok (0xFF, wd (waited b) false (flow c o m)).
Proof.
  intros Hf Hm Hin Ho Hn. unfold wait_ready.
  rewrite (bind_ok (modify _) _ (wd b false c) tt (wd (waited b) false c) eq_refl).
  destruct (shift_stream c t Hm Hin) as (o1 & m1 & E1 & _ & (t1 & ->) & Ho1); [right; split; [done|lia]|].
  rewrite (bind_ok _ _ _ _ _ (rcvr_run (waited b) false c 0xFF _ Hf E1 ltac:(done))).
  destruct (shift_stream (flow c o1 (Reading t1)) t1) as (o2 & m2 & E2 & Hm2 & _ & _); [done|done| |].
  { change (c_out (flow c o1 (Reading t1))) with o1. change (c_nac (flow c o1 (Reading t1))) with (c_nac c).
    destruct (Ho1 Ho) as [->|[o' ->]]; [right; split; [done|lia]|left].
    destruct (c_nac c) as [|[|n]]; [lia|lia|]. simpl. by eexists. }
  exists o2, m2. split; [done|]. destruct fuel as [|fu] eqn:Ef; [unfold swift in Hf; lia|]. cbn [while].
  rewrite <- Ef in *. rewrite (bind_ok _ _ _ (Break 0xFF) (wd (waited b) false (flow c o2 m2))); [done|].
  unfold wait_body. by rewrite (bind_ok _ _ _ _ _ (rcvr_run (waited b) false _ 0xFF _ Hf E2 ltac:(done))).
Qed.

(** CMD12 ends the blocks, whatever is on its way. *)
Lemma send_stop b cs c t : swift b -> (10 < fuel)%nat -> c_mode c = Reading t -> c_in c = [] ->
  c_out c = [] -> (2 <= c_nac c)%nat -> (c_ncr c <= 9)%nat ->
  send_plain fuel CMD12 0 (wd b cs c) =
  Ok (0, wd (waited b) false ((fresh c){{ c_mode := Commands }})).
Proof.
  intros Hf Hfu Hm Hin Ho Hn Hk. unfold send_plain. rewrite (bind_ok _ _ _ _ _ (deselect_run b cs c Hf)).
  assert (c{{ c_in := [] }} = c) as -> by (destruct c; simpl in *; by subst).
  destruct (wait_stream b c t Hf Hm Hin Ho Hn) as (o1 & m1 & Hm1 & E1).
  unfold select.
  rewrite (bind_ok _ _ _ true (wd (waited b) false (flow c o1 m1))).
  2: { rewrite (bind_ok _ _ _ _ _ (cs_low_run b true c)). by rewrite (bind_ok _ _ _ _ _ E1). }
  cbn [negb].
  destruct (send_bytes_run (waited b) (flow c o1 m1) CMD12 0 Hf) as (o2 & m2 & Hm2 & _ & E2);
    [done|done|by unfold CMD12|done|].
  rewrite (send_bytes_then CMD12 0 _ _ _ E2).
  set (c2 := execute _ _ _ _).
  assert (c2 = (fresh c){{ c_mode := Commands; c_out := 0xFF :: gap (c_ncr c) ++ [0] }}) as -> by done.
  set (c3 := (fresh c){{ c_mode := Commands; c_out := gap (c_ncr c) ++ [0] }}).
  rewrite (bind_ok _ _ _ tt (wd (waited b) false c3)).
  2: { unfold when. change (CMD12 =? CMD12) with true. cbv iota. set (c4 := _{{ c_out := _ }}).
       assert (listens c4) as Hl4 by done. pose proof (shift_out c4 0xFF _ Hl4 eq_refl) as E4.
       by rewrite (bind_ok _ _ _ _ _ (rcvr_run (waited b) false c4 0xFF c3 Hf E4 ltac:(done))). }
  rewrite (response_loop fuel (waited b) c3 (c_ncr c) 10 0 []); try done; lia.
Qed.
End Driver.
