(* ===== verification/MmcBlocks.v ===== *)
(** * Blocks of a memory card

    [rcvr_datablock] and [xmit_datablock] with a card, and the transfer of sectors with
    [disk_read] and [disk_write]. *)

From S2P Require Import Prelude Clkpwr Fat FatTable FatFacts FatRam Ssp Mmc SdCard MmcFacts.

Section Blocks.
Variable fuel : nat.
#[local] Abbreviation swift := (swift fuel).
#[local] Abbreviation free := (free fuel).

(** ** Receiving *)

(** The timer of [rcvr_datablock] has been started. *)
Definition timed (b : base) : base := b{{ b_t1 := 20 }}.

Lemma token_loop turns b c n o : swift b -> b_t1 b <> 0 -> listens c -> c_out c = gap n ++ 0xFE :: o ->
  (n < turns)%nat ->
  while turns (token_body fuel) tt (wd b false c) = Ok (0xFE, wd b false (c{{ c_out := o }})).
Proof.
  intros Hf Ht. revert turns c. induction n as [|n IH]; intros turns c Hl Ho Hn;
    (destruct turns as [|turns]; [lia|]); cbn [while].
  - rewrite (bind_ok _ _ _ (Break 0xFE) (wd b false (c{{ c_out := o }}))); [done|]. unfold token_body.
    by rewrite (bind_ok _ _ _ _ _ (rcvr_run fuel b false c 0xFE _ Hf (shift_out c 0xFE o Hl Ho) ltac:(done))).
  - rewrite (bind_ok _ _ _ (Continue tt) (wd b false (c{{ c_out := gap n ++ 0xFE :: o }}))).
    + by rewrite IH by (done || lia).
    + unfold token_body.
      rewrite (bind_ok _ _ _ _ _ (rcvr_run fuel b false c 0xFF _ Hf (shift_out c 0xFF (gap n ++ 0xFE :: o) Hl Ho) ltac:(done))).
      rewrite (bind_ok _ _ _ _ _ (t1_run b false _)). by destruct (Z.eqb_spec (b_t1 b) 0).
Qed.

Lemma rcvr_m_out b c a o dst i : swift b -> listens c -> c_out c = a :: o -> byte_ok a ->
  0 <= i < Z.of_nat (length dst) ->
  rcvr_spi_m fuel dst i (wd b false c) = Ok (<[Z.to_nat i := a]> dst, wd b false (c{{ c_out := o }})).
Proof. intros Hf Hl Ho Ha Hi. apply rcvr_m_run; [done|by apply shift_out|done|done]. Qed.

Lemma block_loop turns b c m data rest buff i : swift b -> listens c -> c_out c = data ++ rest ->
  length data = (4 * S m)%nat -> Forall byte_ok data -> 0 <= i ->
  i + Z.of_nat (length data) <= Z.of_nat (length buff) -> Z.of_nat (length data) < 4294967296 ->
  (m < turns)%nat ->
  while turns (block_body fuel) (buff, i, Z.of_nat (length data)) (wd b false c) =
  Ok (blit buff (Z.to_nat i) data, wd b false (c{{ c_out := rest }})).
Proof.
  intros Hf. revert turns c data buff i. induction m as [|m IH]; intros turns c data buff i Hl Ho Hd Hb Hi Hle H32 Hn;
    (destruct turns as [|turns]; [lia|]); cbn [while];
    (destruct data as [|d0 [|d1 [|d2 [|d3 data]]]]; simpl in Hd; try lia);
    apply Forall_cons in Hb as [B0 Hb]; apply Forall_cons in Hb as [B1 Hb];
    apply Forall_cons in Hb as [B2 Hb]; apply Forall_cons in Hb as [B3 Hb]; cbn [length] in Hle, H32.
  all: set (buff1 := <[Z.to_nat i := d0]> buff); set (buff2 := <[Z.to_nat (i + 1) := d1]> buff1);
    set (buff3 := <[Z.to_nat (i + 2) := d2]> buff2); set (buff4 := <[Z.to_nat (i + 3) := d3]> buff3).
  all: assert (length buff1 = length buff) as Hl1 by (unfold buff1; by rewrite length_insert).
  all: assert (length buff2 = length buff) as Hl2 by (unfold buff2; by rewrite length_insert).
  all: assert (length buff3 = length buff) as Hl3 by (unfold buff3; by rewrite length_insert).
  all: assert (length buff4 = length buff) as Hl4 by (unfold buff4; by rewrite length_insert).
  all: assert (blit buff (Z.to_nat i) (d0 :: d1 :: d2 :: d3 :: data) = blit buff4 (Z.to_nat (i + 4)) data) as Eb
    by (rewrite !blit_cons by (rewrite ?length_insert; lia); unfold buff4, buff3, buff2, buff1;
        replace (Z.to_nat (i + 4)) with (S (S (S (S (Z.to_nat i))))) by lia;
        replace (Z.to_nat (i + 3)) with (S (S (S (Z.to_nat i)))) by lia;
        replace (Z.to_nat (i + 2)) with (S (S (Z.to_nat i))) by lia;
        by replace (Z.to_nat (i + 1)) with (S (Z.to_nat i)) by lia).
  all: set (c4 := c{{ c_out := data ++ rest }}).
  all: set (btr := Z.of_nat (length (d0 :: d1 :: d2 :: d3 :: data))).
  all: assert (u32 (btr - 4) = Z.of_nat (length data)) as Eu
    by (unfold btr, u32; cbn [length]; rewrite Z.mod_small; lia).
  all: assert (block_body fuel (buff, i, btr) (wd b false c) =
    Ok (if Z.of_nat (length data) =? 0 then Break buff4 else Continue (buff4, i + 4, Z.of_nat (length data)),
        wd b false c4)) as E.
  1, 3: unfold block_body;
    rewrite (bind_ok _ _ _ _ _ (rcvr_m_out b c d0 (d1 :: d2 :: d3 :: data ++ rest) buff i Hf Hl Ho B0 ltac:(lia)));
    set (c1 := c{{ c_out := d1 :: d2 :: d3 :: data ++ rest }});
    rewrite (bind_ok _ _ _ _ _ (rcvr_m_out b c1 d1 (d2 :: d3 :: data ++ rest) buff1 (i + 1) Hf Hl eq_refl B1 ltac:(lia)));
    set (c2 := c1{{ c_out := d2 :: d3 :: data ++ rest }});
    rewrite (bind_ok _ _ _ _ _ (rcvr_m_out b c2 d2 (d3 :: data ++ rest) buff2 (i + 2) Hf Hl eq_refl B2 ltac:(lia)));
    set (c3 := c2{{ c_out := d3 :: data ++ rest }});
    rewrite (bind_ok _ _ _ _ _ (rcvr_m_out b c3 d3 (data ++ rest) buff3 (i + 3) Hf Hl eq_refl B3 ltac:(lia)));
    by rewrite Eu.
  all: rewrite (bind_ok _ _ _ _ _ E).
  - destruct data; [|simpl in Hd; lia]. cbn [length]. rewrite Eb, blit_nil. done.
  - assert (length data = (4 * S m)%nat) as Hd' by lia.
    destruct (Z.eqb_spec (Z.of_nat (length data)) 0); [lia|]. rewrite Eb.
    rewrite IH; try done; lia.
Qed.

Lemma rcvr_block_run b c n data x y rest m buff p : swift b -> listens c ->
  c_out c = gap n ++ 0xFE :: data ++ x :: y :: rest -> (n < fuel)%nat -> (m < fuel)%nat ->
  length data = (4 * S m)%nat -> Forall byte_ok data -> byte_ok x -> byte_ok y -> 0 <= p ->
  p + Z.of_nat (length data) <= Z.of_nat (length buff) -> Z.of_nat (length data) < 4294967296 ->
  rcvr_datablock fuel buff p (Z.of_nat (length data)) (wd b false c) =
  Ok ((true, blit buff (Z.to_nat p) data), wd (timed b) false (c{{ c_out := rest }})).
Proof.
  intros Hf Hl Ho Hn Hm Hd Hb Hx Hy Hp Hle H32. unfold rcvr_datablock.
  rewrite (bind_ok (modify _) _ (wd b false c) tt (wd (timed b) false c) eq_refl).
  rewrite (bind_ok _ _ _ _ _ (token_loop fuel (timed b) c n _ Hf ltac:(done) Hl Ho Hn)).
  change (negb (254 =? 254)) with false. cbv iota.
  set (c1 := c{{ c_out := data ++ x :: y :: rest }}).
  rewrite (bind_ok _ _ _ _ _ (block_loop fuel (timed b) c1 m data (x :: y :: rest) buff p Hf Hl eq_refl Hd Hb Hp Hle H32 Hm)).
  set (c2 := c1{{ c_out := x :: y :: rest }}).
  rewrite (bind_ok _ _ _ _ _ (rcvr_run fuel (timed b) false c2 x _ Hf (shift_out c2 x (y :: rest) Hl eq_refl) Hx)).
  set (c3 := c2{{ c_out := y :: rest }}).
  by rewrite (bind_ok _ _ _ _ _ (rcvr_run fuel (timed b) false c3 y _ Hf (shift_out c3 y rest Hl eq_refl) Hy)).
Qed.

(** ** Sending *)

(** The bytes of a block go to a card that receives one. *)
Lemma shift_data c t multi l d : c_mode c = Receiving t multi l -> c_out c = [] -> (length l < 513)%nat ->
  shift d c = (0xFF, c{{ c_mode := Receiving t multi (l ++ [d]) }}).
Proof.
  intros Hm Ho Hl. destruct c as [k mem p n1 n2 n3 i a cin out md]. simpl in *. subst. unfold shift, refill. simpl.
  unfold take_byte. simpl. by destruct (Nat.eqb_spec (length l) 513); [lia|].
Qed.

Lemma shift_last c t multi l d : c_mode c = Receiving t multi l -> c_out c = [] -> length l = 513%nat ->
  snd (shift d c) = store_block t multi (l ++ [d]) c.
Proof.
  intros Hm Ho Hl. destruct c as [k mem p n1 n2 n3 i a cin out md]. simpl in *. subst. unfold shift, refill. simpl.
  unfold take_byte. simpl. by rewrite Hl.
Qed.

Lemma xmit_data b c t multi l d : swift b -> c_mode c = Receiving t multi l -> c_out c = [] ->
  (length l < 513)%nat -> byte_ok d ->
  xmit_spi fuel d (wd b false c) = Ok (tt, wd b false (c{{ c_mode := Receiving t multi (l ++ [d]) }})).
Proof.
  intros Hf Hm Ho Hl Hd. rewrite xmit_run by done. unfold line.
  replace (u8 d) with d by (unfold u8, byte_ok in *; lia). by rewrite (shift_data c t multi l d).
Qed.

Lemma xmit_loop turns b c t multi l r data rest buff i : swift b -> c_mode c = Receiving t multi l ->
  c_out c = [] -> (length l + length data <= 512)%nat -> length data = (2 * S r)%nat -> (r < 256)%nat ->
  Forall byte_ok data -> 0 <= i -> drop (Z.to_nat i) buff = data ++ rest -> (r < turns)%nat ->
  while turns (xmit_body fuel buff) (i, Z.of_nat (S r) mod 256) (wd b false c) =
  Ok (tt, wd b false (c{{ c_mode := Receiving t multi (l ++ data) }})).
Proof.
  intros Hf. revert turns c l data i. induction r as [|r IH]; intros turns c l data i Hm Ho Hl Hd Hr Hb Hi Hdr Hn;
    (destruct turns as [|turns]; [lia|]); cbn [while];
    (destruct data as [|d0 [|d1 data]]; simpl in Hd; try lia);
    apply Forall_cons in Hb as [B0 Hb]; apply Forall_cons in Hb as [B1 Hb]; cbn [length] in Hl.
  all: assert (buff !! Z.to_nat i = Some d0) as H0
    by (rewrite <- (Nat.add_0_r (Z.to_nat i)), <- lookup_drop, Hdr; done).
  all: assert (buff !! Z.to_nat (i + 1) = Some d1) as H1
    by (replace (Z.to_nat (i + 1)) with (Z.to_nat i + 1)%nat by lia; rewrite <- lookup_drop, Hdr; done).
  all: set (c1 := c{{ c_mode := Receiving t multi (l ++ [d0]) }}).
  all: set (c2 := c1{{ c_mode := Receiving t multi ((l ++ [d0]) ++ [d1]) }}).
  all: assert (forall wc, xmit_body fuel buff (i, wc) (wd b false c) =
    Ok (if u8 (wc - 1) =? 0 then Break tt else Continue (i + 2, u8 (wc - 1)), wd b false c2)) as E.
  1, 3: intros wc; unfold xmit_body; rewrite (bind_ok _ _ _ _ _ (aget_ok buff i d0 _ Hi H0));
    rewrite (bind_ok _ _ _ _ _ (xmit_data b c t multi l d0 Hf Hm Ho ltac:(lia) B0)); fold c1;
    rewrite (bind_ok _ _ _ _ _ (aget_ok buff (i + 1) d1 _ ltac:(lia) H1));
    by rewrite (bind_ok _ _ _ _ _ (xmit_data b c1 t multi (l ++ [d0]) d1 Hf eq_refl Ho ltac:(rewrite length_app; simpl; lia) B1)).
  all: rewrite (bind_ok _ _ _ _ _ (E _)).
  - destruct data; [|simpl in Hd; lia]. change (u8 (Z.of_nat 1 mod 256 - 1) =? 0) with true. cbv iota.
    unfold c2, c1. by rewrite <- app_assoc.
  - assert (u8 (Z.of_nat (S (S r)) mod 256 - 1) = Z.of_nat (S r)) as Eu by (unfold u8; lia).
    rewrite Eu. destruct (Z.eqb_spec (Z.of_nat (S r)) 0); [lia|].
    replace (Z.of_nat (S r)) with (Z.of_nat (S r) mod 256) by lia.
    rewrite (IH turns c2 ((l ++ [d0]) ++ [d1]) data (i + 2)); try done; try lia.
    + unfold c2, c1. by rewrite <- !app_assoc.
    + rewrite !length_app. simpl. lia.
    + replace (Z.to_nat (i + 2)) with (Z.to_nat i + 2)%nat by lia. by rewrite <- drop_drop, Hdr.
Qed.

(** A card that waits for a block, busy for at most [fuel] bytes. *)
Record awaits (t : Z) (multi : bool) (c : card) : Prop := {
  aw_in : c_in c = [];
  aw_mode : c_mode c = Waiting t multi;
  aw_busy : busy fuel (c_out c)
}.

Lemma awaits_listens t multi c : awaits t multi c -> listens c /\ ~ streaming c.
Proof. intros [Hi Hm _]. split; [split; [done|by rewrite Hm]|]. intros [u E]. congruence. Qed.

(** The card once it has stored the block of sector [t]. *)
Definition stored (t : Z) (multi : bool) (data : list Z) (c : card) : card :=
  c{{ c_mem := <[Z.to_nat t := data]> (c_mem c); c_out := replicate (c_busy c) 0;
      c_mode := if multi then Waiting (t + 1) true else Commands }}.

Lemma xmit_block_run b c t multi data rest buff p : swift b -> awaits t multi c -> t < c_size c ->
  length data = 512%nat -> Forall byte_ok data -> 0 <= p -> drop (Z.to_nat p) buff = data ++ rest ->
  (256 < fuel)%nat ->
  xmit_datablock fuel buff p (if multi then 0xFC else 0xFE) (wd b false c) =
  Ok (true, wd (waited b) false (stored t multi data c)).
Proof.
  intros Hf Ha Ht Hd Hb Hp Hdr Hfu. destruct (awaits_listens t multi c Ha) as [Hl Hs].
  destruct Ha as [Hin Hm Ho]. unfold xmit_datablock.
  rewrite (bind_ok _ _ _ _ _ (card_waited fuel b c Hf Hl Hs Ho)). change (negb (255 =? 255)) with false. cbv iota.
  set (b1 := waited b). set (c0 := c{{ c_out := []; c_mode := Receiving t multi [] }}).
  rewrite (bind_ok _ _ _ tt (wd b1 false c0)).
  2: { rewrite xmit_run by done. unfold line. do 3 f_equal.
       destruct c as [k mem q n1 n2 n3 i a cin out md]. simpl in Hin, Hm. subst. by destruct multi. }
  replace ((if multi then 0xFC else 0xFE) =? 0xFD) with false by (by destruct multi).
  assert (while fuel (xmit_body fuel buff) (p, 0) (wd b1 false c0) =
    Ok (tt, wd b1 false (c0{{ c_mode := Receiving t multi data }}))) as E.
  { apply (xmit_loop fuel b1 c0 t multi [] 255 data rest buff p); try done; try lia. simpl. lia. }
  rewrite (bind_ok _ _ _ _ _ E). set (c1 := c0{{ c_mode := Receiving t multi data }}).
  rewrite (bind_ok _ _ _ _ _ (xmit_data b1 c1 t multi data 0xFF Hf eq_refl eq_refl ltac:(lia) ltac:(done))).
  set (c2 := c1{{ c_mode := Receiving t multi (data ++ [0xFF]) }}).
  set (c3 := (stored t multi data c){{ c_out := 0xE5 :: replicate (c_busy c) 0 }}).
  rewrite (bind_ok _ _ _ tt (wd b1 false c3)).
  2: { rewrite xmit_run by done. unfold line. change (u8 0xFF) with 0xFF.
       rewrite (shift_last c2 t multi (data ++ [0xFF])); [|done|done|rewrite length_app, Hd; done].
       unfold store_block. change (c_size c2) with (c_size c). destruct (Z.ltb_spec t (c_size c)); [|lia].
       rewrite <- app_assoc, take_app_length' by done.
       done. }
  assert (listens c3) as Hl3.
  { split; [exact Hin|]. unfold c3, stored. simpl. by destruct multi. }
  rewrite (bind_ok _ _ _ _ _ (rcvr_run fuel b1 false c3 0xE5 _ Hf (shift_out c3 0xE5 _ Hl3 eq_refl) ltac:(done))).
  done.
Qed.
End Blocks.
