(* ===== verification/MmcDisk.v ===== *)
(** * A memory card is a drive that works

    [disk_read], [disk_write] and [CTRL_SYNC] of mmc.c with a card that has been
    initialised: the card is a [WorkingDisk], so that the theorems on the file system hold
    of it. *)

From S2P Require Import Prelude Clkpwr Fat FatTable FatFacts FatRam Ssp Mmc SdCard MmcFacts MmcBlocks.

Section Sectors.
Variable fuel : nat.
#[local] Abbreviation swift := (swift fuel).
#[local] Abbreviation free := (free fuel).

(** The driver and the card agree, and the card's delays are below the timeouts. *)
Record ready (b : base) (c : card) : Prop := {
  rd_swift : swift b;
  rd_stat : Z.land (b_stat b) STA_NOINIT = 0 /\ Z.land (b_stat b) STA_PROTECT = 0;
  rd_type : Z.land (b_type b) CT_BLOCK = 0 <-> c_kind c <> SDHC;
  rd_free : free c;
  rd_idle : c_idle c = None;
  rd_size : c_size c < 4294967296 /\ (c_kind c <> SDHC -> 512 * c_size c < 4294967296);
  rd_ncr : (c_ncr c <= 9)%nat;
  rd_nac : (2 <= c_nac c < fuel)%nat;
  rd_busy : (c_busy c < fuel)%nat;
  rd_fuel : (256 < fuel)%nat
}.

(** The driver after a transfer: the timers were started. *)
Definition ran (b : base) : base := timed (waited b).

Lemma address_sector b c t : ready b c -> 0 <= t < c_size c ->
  sector_of c (block_address (b_type b) t) = Some t /\ word_ok (block_address (b_type b) t).
Proof.
  intros [] Ht. unfold block_address, sector_of, word_ok. destruct rd_size0 as [Hs Hs'].
  destruct (Z.eqb_spec (Z.land (b_type b) CT_BLOCK) 0) as [E|E].
  - apply rd_type0 in E. specialize (Hs' E). rewrite decide_False, bool_decide_false by done.
    unfold u32. rewrite Z.mod_small by lia. rewrite Z.div_mul, Z_mod_mult by lia.
    destruct (Z.ltb_spec t (c_size c)); [|lia]. split; [done|lia].
  - assert (c_kind c = SDHC) as Ek by (destruct (decide (c_kind c = SDHC)); [done|by apply rd_type0 in n]).
    rewrite decide_True, bool_decide_true by done. destruct (Z.ltb_spec t (c_size c)); [|lia].
    split; [done|lia].
Qed.

(** A card in the ready state carries out a command on a block. *)
Lemma with_sector_ok b c t f : ready b c -> 0 <= t < c_size c ->
  with_sector (fresh c) (block_address (b_type b) t) f = f t.
Proof.
  intros Hr Ht. unfold with_sector. change (c_idle (fresh c)) with (c_idle c).
  rewrite (rd_idle _ _ Hr). change (sector_of (fresh c)) with (sector_of c).
  by rewrite (proj1 (address_sector b c t Hr Ht)).
Qed.

Lemma fresh_free c : free c -> free (fresh c) /\ c_mode (fresh c) = Commands.
Proof. intros [Hi Hm (n & Hn & _)]. split; [|done]. constructor; [done|done|]. exists 0%nat. split; [lia|by left]. Qed.

Lemma respond_answers c1 l r rest : c1 = respond (r :: rest) l -> c_in l = [] ->
  match c_mode l with Receiving _ _ _ => False | _ => True end -> (c_ncr l <= 9)%nat ->
  byte_ok r -> Z.land r 0x80 = 0 ->
  (exists k, (k <= 9)%nat /\ c_out c1 = gap k ++ r :: rest) /\ (byte_ok r /\ Z.land r 0x80 = 0) /\ listens c1.
Proof. intros -> Hi Hm Hn Hb Hr. split; [by exists (c_ncr l)|]. split; [done|]. by split. Qed.

(** The answers to the commands on blocks. *)
Lemma block_command b c t cmd f : ready b c -> 0 <= t < c_size c ->
  (forall a arg c, execute a (cmd - 0x40) arg c = with_sector c arg (f c)) ->
  forall l m, f (fresh c) t = respond (0 :: l) ((fresh c){{ c_mode := m }}) ->
  match m with Receiving _ _ _ => False | _ => True end ->
  answers c (f (fresh c) t) cmd (block_address (b_type b) t) 0 l.
Proof.
  intros Hr Ht Hex l m E Hm.
  destruct (respond_answers (f (fresh c) t) ((fresh c){{ c_mode := m }}) 0 l E) as (H1 & H2 & H3);
    [done|done|apply Hr|done|done|].
  constructor; [|done|done|done]. rewrite Hex. by rewrite (with_sector_ok b c t _ Hr Ht).
Qed.

(** ** Reading *)

(** The sectors [t], ... of the card, [n] of them. *)
Definition sectors_from (mem : ramdisk) (t : Z) (n : nat) : list Z :=
  concat (ram_get mem <$> seqZ t (Z.of_nat n)).

Lemma sectors_from_S mem t n :
  sectors_from mem t (S n) = ram_get mem t ++ sectors_from mem (t + 1) n.
Proof.
  unfold sectors_from. rewrite seqZ_cons by lia. cbn [fmap list_fmap concat]. f_equal.
  do 3 f_equal; lia.
Qed.

Lemma sectors_from_length mem t n : length (sectors_from mem t n) = (512 * n)%nat.
Proof.
  revert t. induction n as [|n IH]; intros t; [done|].
  rewrite sectors_from_S, length_app, IH, (proj1 (ram_get_ok mem t)). lia.
Qed.

Lemma read_block_out b c t buff p rest m : swift b -> listens (c{{ c_mode := m }}) ->
  (c_nac c < fuel)%nat -> (256 < fuel)%nat -> 0 <= p -> p + 512 <= Z.of_nat (length buff) ->
  rcvr_datablock fuel buff p 512 (wd b false (c{{ c_mode := m; c_out := block c t ++ rest }})) =
  Ok ((true, blit buff (Z.to_nat p) (ram_get (c_mem c) t)), wd (timed b) false (c{{ c_mode := m; c_out := rest }})).
Proof.
  intros Hf Hl Hn Hfu Hp Hle. destruct (ram_get_ok (c_mem c) t) as [Hlen Hb].
  set (c1 := c{{ c_mode := m; c_out := block c t ++ rest }}).
  assert (c_out c1 = gap (c_nac c) ++ 0xFE :: ram_get (c_mem c) t ++ 0xFF :: 0xFF :: rest) as Ho.
  { unfold c1, block. cbn [c_out]. by rewrite <- app_assoc, <- app_comm_cons, <- app_assoc. }
  pose proof (rcvr_block_run fuel b c1 (c_nac c) (ram_get (c_mem c) t) 0xFF 0xFF rest 127 buff p Hf Hl Ho Hn) as E.
  rewrite Hlen in E. change (Z.of_nat 512) with 512 in E. rewrite E by (done || lia). done.
Qed.

(** The next block of a multiple read comes by itself. *)
Lemma stream_refill b c t buff p : swift b -> c_mode c = Reading t -> c_in c = [] -> c_out c = [] ->
  t < c_size c -> (c_nac c < fuel)%nat ->
  rcvr_datablock fuel buff p 512 (wd b false c) =
  rcvr_datablock fuel buff p 512 (wd b false (c{{ c_mode := Reading (t + 1); c_out := block c t ++ [] }})).
Proof.
  intros Hf Hm Hin Ho Ht Hn. set (c1 := _{{ c_mode := _; c_out := _ }}).
  assert (shift 0xFF c = shift 0xFF c1) as Es.
  { destruct c as [k mem q n1 n2 n3 i a cin out md]. simpl in Hm, Hin, Ho. subst.
    unfold c1, shift, refill. cbn [c_mode c_out]. rewrite app_nil_r.
    change (c_size (mk_card k mem q n1 n2 n3 i a [] [] (Reading t))) with (ram_size mem) in *.
    destruct (Z.ltb_spec t (ram_size mem)); [|lia]. by destruct n2. }
  assert (exists a c', shift 0xFF c1 = (a, c') /\ byte_ok a) as (a & c' & E1 & Ha).
  { destruct (c_nac c) as [|n] eqn:En.
    - eexists 0xFE, _. split; [|done]. apply shift_out; [done|]. unfold c1, block. simpl. by rewrite En.
    - eexists 0xFF, _. split; [|done]. apply shift_out; [done|]. unfold c1, block. simpl. by rewrite En. }
  unfold rcvr_datablock.
  rewrite (bind_ok (modify _) _ (wd b false c) tt (wd (timed b) false c) eq_refl).
  rewrite (bind_ok (modify _) _ (wd b false c1) tt (wd (timed b) false c1) eq_refl).
  assert (token_body fuel tt (wd (timed b) false c) = token_body fuel tt (wd (timed b) false c1)) as Et.
  { unfold token_body. rewrite (bind_ok _ _ _ _ _ (rcvr_run fuel (timed b) false c1 a c' Hf E1 Ha)).
    rewrite <- Es in E1. by rewrite (bind_ok _ _ _ _ _ (rcvr_run fuel (timed b) false c a c' Hf E1 Ha)). }
  assert (while fuel (token_body fuel) tt (wd (timed b) false c) = while fuel (token_body fuel) tt (wd (timed b) false c1)) as Ew.
  { destruct fuel as [|fu]; [lia|]. cbn [while]. unfold mbind, M_bind. by rewrite Et. }
  unfold mbind, M_bind. by rewrite Ew.
Qed.

Lemma blocks_read turns b c t n buff i : swift b -> c_mode c = Reading t -> c_in c = [] -> c_out c = [] ->
  0 <= t -> t + Z.of_nat (S n) <= c_size c -> (c_nac c < fuel)%nat -> (256 < fuel)%nat -> 0 <= i ->
  i + 512 * Z.of_nat (S n) <= Z.of_nat (length buff) -> (n < turns)%nat ->
  while turns (read_blocks_body fuel) (buff, i, Z.of_nat (S n)) (wd b false c) =
  Ok ((blit buff (Z.to_nat i) (sectors_from (c_mem c) t (S n)), 0),
      wd (timed b) false (c{{ c_mode := Reading (t + Z.of_nat (S n)) }})).
Proof.
  intros Hf. revert turns b c t buff i Hf. induction n as [|n IH];
    intros turns b c t buff i Hf Hm Hin Ho Ht Hs Hn Hfu Hi Hle Htu;
    (destruct turns as [|turns]; [lia|]); cbn [while].
  all: set (c1 := c{{ c_mode := Reading (t + 1); c_out := [] }}).
  all: assert (rcvr_datablock fuel buff i 512 (wd b false c) =
      Ok ((true, blit buff (Z.to_nat i) (ram_get (c_mem c) t)), wd (timed b) false c1)) as E
    by (rewrite (stream_refill b c t buff i Hf Hm Hin Ho ltac:(lia) Hn);
        apply read_block_out; try done; lia).
  all: assert (length (ram_get (c_mem c) t) = 512%nat) as Hlen by apply ram_get_ok.
  - rewrite (bind_ok _ _ _ (Break (blit buff (Z.to_nat i) (ram_get (c_mem c) t), 0)) (wd (timed b) false c1)).
    + unfold mret, M_ret. rewrite sectors_from_S. cbn [app]. unfold sectors_from.
      change (seqZ (t + 1) (Z.of_nat 0)) with (@nil Z). cbn [fmap list_fmap concat]. rewrite app_nil_r.
      do 3 f_equal. unfold c1. destruct c. simpl in *. by subst.
    + unfold read_blocks_body. by rewrite (bind_ok _ _ _ _ _ E).
  - rewrite (bind_ok _ _ _ (Continue (blit buff (Z.to_nat i) (ram_get (c_mem c) t), i + 512, Z.of_nat (S n))) (wd (timed b) false c1)).
    + rewrite (IH turns (timed b) c1 (t + 1)); try done; try lia.
      * unfold mret, M_ret. rewrite (sectors_from_S _ t). change (c_mem c1) with (c_mem c).
        replace (Z.to_nat (i + 512)) with (Z.to_nat i + length (ram_get (c_mem c) t))%nat by lia.
        rewrite blit_app by (rewrite sectors_from_length, Hlen; lia).
        replace (t + 1 + Z.of_nat (S n)) with (t + Z.of_nat (S (S n))) by lia.
        do 3 f_equal. unfold c1. destruct c. simpl in *. by subst.
      * change (c_size c1) with (c_size c). lia.
      * rewrite length_blit; lia.
    + unfold read_blocks_body. rewrite (bind_ok _ _ _ _ _ E). cbn [fst snd negb].
      replace (Z.of_nat (S (S n)) - 1) with (Z.of_nat (S n)) by lia.
      by destruct (Z.eqb_spec (Z.of_nat (S n)) 0); [lia|].
Qed.

Lemma sectors_from_1 mem t : sectors_from mem t 1 = ram_get mem t.
Proof. rewrite sectors_from_S. unfold sectors_from. simpl. by rewrite app_nil_r. Qed.

Lemma blit_whole {A} (buff l : list A) : length l = length buff -> blit buff 0 l = l.
Proof.
  intros E. unfold blit. cbn [take Nat.add app]. rewrite drop_ge by lia. by rewrite app_nil_r.
Qed.

Lemma read_single_spec b cs c t buff : ready b c -> 0 <= t < c_size c -> length buff = 512%nat ->
  read_single fuel buff (block_address (b_type b) t) (wd b cs c) =
  Ok ((ram_get (c_mem c) t, 0), wd (ran b) false (fresh c)).
Proof.
  intros Hr Ht Hb. pose proof Hr as [Hf _ Hty Hfr Hid Hsz Hk Hna Hbz Hfu].
  destruct (fresh_free c Hfr) as [Hff Hfm]. destruct (address_sector b c t Hr Ht) as [_ Haddr].
  set (addr := block_address (b_type b) t) in *.
  assert (answers c (respond (0 :: block (fresh c) t) (fresh c)) CMD17 addr 0 (block (fresh c) t)) as Ha.
  { apply (block_command b c t CMD17 (fun c t => respond (0 :: block c t) c) Hr Ht) with (m := Commands); try done.
    destruct Hfr as [_ Hm _]. destruct c. simpl in Hm. by subst. }
  unfold read_single, send_cmd. change (Z.land CMD17 0x80 =? 0) with true. cbv iota.
  rewrite (bind_ok _ _ _ _ _ (send_plain_run fuel b cs c _ CMD17 addr 0 _ Hf ltac:(lia) Hfr ltac:(by unfold CMD17) ltac:(done) Haddr Ha)).
  change (negb (0 =? 0)) with false. cbv iota.
  pose proof (read_block_out (waited b) (fresh c) t buff 0 [] Commands Hf ltac:(done) ltac:(apply Hna) Hfu ltac:(lia) ltac:(lia)) as E.
  rewrite app_nil_r in E.
  assert ((fresh c){{ c_mode := Commands; c_out := block (fresh c) t }} =
    (respond (0 :: block (fresh c) t) (fresh c)){{ c_out := block (fresh c) t }}) as Ec
    by (destruct c; simpl in Hfm; by subst).
  rewrite Ec in E. rewrite (bind_ok _ _ _ _ _ E). unfold mret, M_ret. cbn [fst snd negb].
  change (Z.to_nat 0) with 0%nat. rewrite blit_whole by (rewrite Hb; apply ram_get_ok).
  do 3 f_equal. destruct c. simpl in Hfm. by subst.
Qed.

Lemma read_multiple_spec b cs c t n buff : ready b c -> 0 <= t -> (0 < n < 256)%nat ->
  t + Z.of_nat n <= c_size c -> length buff = (512 * n)%nat ->
  read_multiple fuel buff (block_address (b_type b) t) (Z.of_nat n) (wd b cs c) =
  Ok ((sectors_from (c_mem c) t n, 0), wd (ran b) false (fresh c)).
Proof.
  intros Hr Ht Hn Hs Hb. pose proof Hr as [Hf _ Hty Hfr Hid Hsz Hk Hna Hbz Hfu].
  destruct (fresh_free c Hfr) as [Hff Hfm]. destruct (address_sector b c t Hr ltac:(lia)) as [_ Haddr].
  set (addr := block_address (b_type b) t) in *. set (cR := (fresh c){{ c_mode := Reading t }}).
  assert (answers c (respond [0] cR) CMD18 addr 0 []) as Ha.
  { by apply (block_command b c t CMD18 (fun c t => respond [0] (c{{ c_mode := Reading t }})) Hr ltac:(lia))
      with (m := Reading t). }
  unfold read_multiple, send_cmd. change (Z.land CMD18 0x80 =? 0) with true.
  change (Z.land CMD12 0x80 =? 0) with true. cbv iota.
  rewrite (bind_ok _ _ _ _ _ (send_plain_run fuel b cs c _ CMD18 addr 0 _ Hf ltac:(lia) Hfr ltac:(by unfold CMD18) ltac:(done) Haddr Ha)).
  change (negb (0 =? 0)) with false. cbv iota. change ((respond [0] cR){{ c_out := [] }}) with cR.
  destruct n as [|n]; [lia|].
  rewrite (bind_ok _ _ _ _ _ (blocks_read fuel (waited b) cR t n buff 0 Hf eq_refl eq_refl eq_refl Ht Hs ltac:(apply Hna) Hfu ltac:(lia) ltac:(lia) ltac:(lia))).
  set (cE := cR{{ c_mode := Reading (t + Z.of_nat (S n)) }}).
  rewrite (bind_ok _ _ _ _ _ (send_stop fuel (timed (waited b)) false cE _ Hf ltac:(lia) eq_refl eq_refl eq_refl ltac:(apply Hna) Hk)).
  change (Z.to_nat 0) with 0%nat. rewrite blit_whole by (by rewrite sectors_from_length).
  unfold mret, M_ret. do 3 f_equal. unfold cE, cR. destruct c. simpl in Hfm. by subst.
Qed.

Lemma disk_read_spec b cs c t n buff : ready b c -> 0 <= t -> (0 < n < 256)%nat ->
  t + Z.of_nat n <= c_size c -> length buff = (512 * n)%nat ->
  disk_read fuel 0 buff t (Z.of_nat n) (wd b cs c) =
  Ok ((RES_OK, sectors_from (c_mem c) t n), wd (ran b) true (fresh c)).
Proof.
  intros Hr Ht Hn Hs Hb. pose proof (rd_swift _ _ Hr) as Hf. pose proof (proj1 (rd_stat _ _ Hr)) as Hst.
  unfold disk_read. change (negb (0 =? 0)) with false. destruct (Z.eqb_spec (Z.of_nat n) 0); [lia|]. cbn [orb].
  rewrite (bind_ok (gets Stat) _ (wd b cs c) (b_stat b) (wd b cs c) eq_refl), Hst.
  change (negb (0 =? 0)) with false. cbv iota.
  rewrite (bind_ok (gets CardType) _ (wd b cs c) (b_type b) (wd b cs c) eq_refl).
  rewrite (bind_ok _ _ _ (sectors_from (c_mem c) t n, 0) (wd (ran b) false (fresh c))).
  - by rewrite (bind_ok _ _ _ _ _ (deselect_run fuel (ran b) false (fresh c) Hf)).
  - destruct (Z.eqb_spec (Z.of_nat n) 1) as [E1|E1]; [|by apply read_multiple_spec].
    assert (n = 1%nat) as -> by lia. rewrite sectors_from_1. by apply read_single_spec; [|lia|].
Qed.

(** ** Writing *)

(** The card after sectors were written: free again, or still busy. *)
Definition written_card (c : card) (mem : ramdisk) (o : list Z) : card :=
  (fresh c){{ c_mem := mem; c_out := o }}.

Lemma waiting_card c t multi : free c -> awaits fuel t multi ((fresh c){{ c_mode := Waiting t multi }}).
Proof. intros [_ _ (n & Hn & _)]. constructor; [done|done|]. exists 0%nat. split; [lia|by left]. Qed.

Lemma write_single_spec b cs c t buff : ready b c -> 0 <= t < c_size c -> length buff = 512%nat ->
  Forall byte_ok buff ->
  write_single fuel buff (block_address (b_type b) t) (wd b cs c) =
  Ok (0, wd (waited b) false (written_card c (<[Z.to_nat t := buff]> (c_mem c)) (replicate (c_busy c) 0))).
Proof.
  intros Hr Ht Hl Hb. pose proof Hr as [Hf _ Hty Hfr Hid Hsz Hk Hna Hbz Hfu].
  destruct (fresh_free c Hfr) as [Hff Hfm]. destruct (address_sector b c t Hr Ht) as [_ Haddr].
  set (addr := block_address (b_type b) t) in *. set (cW := (fresh c){{ c_mode := Waiting t false }}).
  assert (answers c (respond [0] cW) CMD24 addr 0 []) as Ha.
  { by apply (block_command b c t CMD24 (fun c t => respond [0] (c{{ c_mode := Waiting t false }})) Hr Ht)
      with (m := Waiting t false). }
  unfold write_single, send_cmd. change (Z.land CMD24 0x80 =? 0) with true. cbv iota.
  rewrite (bind_ok _ _ _ _ _ (send_plain_run fuel b cs c _ CMD24 addr 0 _ Hf ltac:(lia) Hfr ltac:(by unfold CMD24) ltac:(done) Haddr Ha)).
  change (negb (0 =? 0)) with false. cbv iota. change ((respond [0] cW){{ c_out := [] }}) with cW.
  pose proof (xmit_block_run fuel (waited b) cW t false buff [] buff 0 Hf (waiting_card c t false Hfr) (proj2 Ht) Hl Hb
    ltac:(lia) ltac:(by rewrite app_nil_r) Hfu) as E.
  rewrite (bind_ok _ _ _ _ _ E). unfold mret, M_ret. cbn [negb]. do 3 f_equal.
  unfold stored, written_card, cW. destruct c. simpl in Hfm. by subst.
Qed.

Lemma blocks_written turns b c t n buff i : swift b -> awaits fuel t true c -> 0 <= t ->
  t + Z.of_nat (S n) <= c_size c -> (c_busy c < fuel)%nat -> (256 < fuel)%nat -> 0 <= i ->
  i + 512 * Z.of_nat (S n) <= Z.of_nat (length buff) -> Forall byte_ok buff -> (n < turns)%nat ->
  while turns (write_blocks_body fuel buff) (i, Z.of_nat (S n)) (wd b false c) =
  Ok (0, wd (waited b) false (c{{
    c_mem := ram_put (c_mem c) (Z.to_nat t) (drop (Z.to_nat i) buff) (S n);
    c_out := replicate (c_busy c) 0; c_mode := Waiting (t + Z.of_nat (S n)) true }})).
Proof.
  intros Hf. revert turns b c t i Hf. induction n as [|n IH];
    intros turns b c t i Hf Ha Ht Hs Hbz Hfu Hi Hle Hb Htu;
    (destruct turns as [|turns]; [lia|]); cbn [while].
  all: set (data := take 512 (drop (Z.to_nat i) buff)).
  all: assert (length data = 512%nat) as Hd by (unfold data; rewrite length_take, length_drop; lia).
  all: assert (Forall byte_ok data) as Hbd by (by apply Forall_take, Forall_drop).
  all: assert (drop (Z.to_nat i) buff = data ++ drop 512 (drop (Z.to_nat i) buff)) as Hdr
    by (unfold data; by rewrite take_drop).
  all: pose proof (xmit_block_run fuel b c t true data _ buff i Hf Ha ltac:(lia) Hd Hbd Hi Hdr Hfu) as E.
  - rewrite (bind_ok _ _ _ (Break 0) (wd (waited b) false (stored t true data c))); [done|].
    unfold write_blocks_body. by rewrite (bind_ok _ _ _ _ _ E).
  - rewrite (bind_ok _ _ _ (Continue (i + 512, Z.of_nat (S n))) (wd (waited b) false (stored t true data c))).
    + rewrite (IH turns (waited b) (stored t true data c) (t + 1) (i + 512)); try done; try lia.
      * unfold stored. cbn [c_mem c_busy ram_put].
        replace (Z.to_nat (i + 512)) with (Z.to_nat i + 512)%nat by lia. rewrite <- drop_drop.
        replace (Z.to_nat (t + 1)) with (S (Z.to_nat t)) by lia.
        by replace (t + 1 + Z.of_nat (S n)) with (t + Z.of_nat (S (S n))) by lia.
      * destruct Ha as [H1 H2 H3]. constructor; [exact H1|done|]. exists (c_busy c). split; [done|by left].
      * change (c_size (stored t true data c)) with (Z.of_nat (length (<[Z.to_nat t := data]> (c_mem c)))).
        rewrite length_insert. change (Z.of_nat (length (c_mem c))) with (c_size c). lia.
    + unfold write_blocks_body. rewrite (bind_ok _ _ _ _ _ E). cbn [negb].
      replace (Z.of_nat (S (S n)) - 1) with (Z.of_nat (S n)) by lia.
      by destruct (Z.eqb_spec (Z.of_nat (S n)) 0); [lia|].
Qed.

(** The stop token. *)
Lemma stop_run b c t : swift b -> awaits fuel t true c ->
  xmit_datablock fuel [] 0 0xFD (wd b false c) =
  Ok (true, wd (waited b) false (c{{ c_mode := Commands; c_out := 0xFF :: replicate (c_busy c) 0 }})).
Proof.
  intros Hf Ha. destruct (awaits_listens fuel t true c Ha) as [Hl Hs]. destruct Ha as [Hin Hm Ho].
  unfold xmit_datablock. rewrite (bind_ok _ _ _ _ _ (card_waited fuel b c Hf Hl Hs Ho)).
  change (negb (255 =? 255)) with false. cbv iota. change (0xFD =? 0xFD) with true. cbv iota.
  rewrite (bind_ok _ _ _ _ _ (xmit_run fuel (waited b) false (c{{ c_out := [] }}) 0xFD Hf)).
  unfold mret, M_ret, line. change (u8 0xFD) with 0xFD. do 3 f_equal.
  destruct c as [k mem q n1 n2 n3 i a cin out md]. simpl in Hin, Hm. by subst.
Qed.

(** The announcement of the count is taken, or refused, and changes nothing else. *)
Lemma announce_run b cs c n : ready b c -> 0 <= n < 256 -> exists r b' cs',
  send_cmd fuel ACMD23 n (wd b cs c) = Ok (r, wd b' cs' (fresh c)) /\ b' = waited b.
Proof.
  intros Hr Hn. pose proof Hr as [Hf _ Hty Hfr Hid Hsz Hk Hna Hbz Hfu].
  destruct (fresh_free c Hfr) as [Hff Hfm]. pose proof Hff as [_ _ Hbf].
  unfold send_cmd. change (Z.land ACMD23 0x80 =? 0) with false. change (Z.land ACMD23 0x7F) with 0x57. cbv iota.
  assert (idle_bit (fresh c) = 0) as Eid by (unfold idle_bit; change (c_idle (fresh c)) with (c_idle c); by rewrite Hid).
  assert (exists c1 r, answers c c1 CMD55 0 r [] /\ (c1 = respond [r] (fresh c) /\ r = 4 \/
    c1 = respond [r] ((fresh c){{ c_acmd := true }}) /\ r = 0)) as (c1 & r & Ha & Hc).
  { destruct (decide (c_kind c = MMCv3)) as [Ek|Ek].
    - exists (respond [4] (fresh c)), 4. split; [|by left].
      destruct (respond_answers (respond [4] (fresh c)) (fresh c) 4 [] eq_refl) as (H1 & H2 & H3);
        [done|by rewrite Hfm|done|done|done|].
      constructor; [|done|done|done]. change (CMD55 - 64) with 55. unfold execute. cbn [Z.eqb Pos.eqb].
      change (c_kind (fresh c)) with (c_kind c). rewrite Ek. unfold refuse. by rewrite Eid.
    - exists (respond [0] ((fresh c){{ c_acmd := true }})), 0. split; [|by right].
      destruct (respond_answers (respond [0] ((fresh c){{ c_acmd := true }})) ((fresh c){{ c_acmd := true }}) 0 [] eq_refl) as (H1 & H2 & H3);
        [done|change (match c_mode (fresh c) with Receiving _ _ _ => False | _ => True end); by rewrite Hfm|done|done|done|].
      constructor; [|done|done|done]. change (CMD55 - 64) with 55. unfold execute. cbn [Z.eqb Pos.eqb].
      change (c_kind (fresh c)) with (c_kind c). rewrite Eid. by destruct (c_kind c). }
  rewrite (bind_ok _ _ _ _ _ (send_plain_run fuel b cs c c1 CMD55 0 r [] Hf ltac:(lia) Hfr ltac:(by unfold CMD55) ltac:(done) ltac:(done) Ha)).
  destruct Hc as [[-> ->]|[-> ->]].
  - exists 4, (waited b), false. split; [|done]. change (1 <? 4) with true. cbv iota. done.
  - change (1 <? 0) with false. cbv iota. set (c2 := (fresh c){{ c_acmd := true }}).
    change ((respond [0] c2){{ c_out := [] }}) with c2.
    assert (free c2) as Hf2 by (constructor; [done|exact Hfm|exact Hbf]).
    assert (answers c2 (respond [0] (fresh c)) 0x57 n 0 []) as Ha2.
    { destruct (respond_answers (respond [0] (fresh c)) (fresh c) 0 [] eq_refl) as (H1 & H2 & H3);
        [done|by rewrite Hfm|done|done|done|].
      constructor; [|done|done|done]. change (0x57 - 64) with 23. unfold execute. cbn [Z.eqb Pos.eqb andb].
      change (c_acmd c2) with true. change (fresh c2) with (fresh c). cbn [andb]. by rewrite Eid. }
    rewrite (send_plain_run fuel (waited b) false c2 _ 0x57 n 0 [] Hf ltac:(lia) Hf2 ltac:(lia) ltac:(done) ltac:(unfold word_ok; lia) Ha2).
    by exists 0, (waited b), false.
Qed.

Lemma ready_fresh b c : ready b c -> ready (waited b) (fresh c) /\ ready (ran b) (fresh c).
Proof. intros []. split; constructor; try done; by apply fresh_free. Qed.

Lemma write_blocks_spec b cs c t n buff : ready b c -> 0 <= t -> (0 < n < 256)%nat ->
  t + Z.of_nat n <= c_size c -> length buff = (512 * n)%nat -> Forall byte_ok buff ->
  (r ← send_cmd fuel CMD25 (block_address (b_type b) t);
   if negb (r =? 0) then mret (Z.of_nat n)
   else
     count ← while fuel (write_blocks_body fuel buff) (0, Z.of_nat n);
     ok ← xmit_datablock fuel [] 0 0xFD;
     mret (if negb ok then 1 else count)) (wd b cs c) =
  Ok (0, wd (waited b) false
    (written_card c (ram_put (c_mem c) (Z.to_nat t) buff n) (0xFF :: replicate (c_busy c) 0))).
Proof.
  intros Hr Ht Hn Hs Hl Hb. pose proof Hr as [Hf _ Hty Hfr Hid Hsz Hk Hna Hbz Hfu].
  destruct (fresh_free c Hfr) as [Hff Hfm]. destruct (address_sector b c t Hr ltac:(lia)) as [_ Haddr].
  set (addr := block_address (b_type b) t) in *. set (cW := (fresh c){{ c_mode := Waiting t true }}).
  assert (answers c (respond [0] cW) CMD25 addr 0 []) as Ha.
  { by apply (block_command b c t CMD25 (fun c t => respond [0] (c{{ c_mode := Waiting t true }})) Hr ltac:(lia))
      with (m := Waiting t true). }
  assert (send_cmd fuel CMD25 addr = send_plain fuel CMD25 addr) as -> by done.
  rewrite (bind_ok _ _ _ _ _ (send_plain_run fuel b cs c _ CMD25 addr 0 _ Hf ltac:(lia) Hfr ltac:(by unfold CMD25) ltac:(done) Haddr Ha)).
  change (negb (0 =? 0)) with false. cbv iota. change ((respond [0] cW){{ c_out := [] }}) with cW.
  destruct n as [|n]; [lia|].
  rewrite (bind_ok _ _ _ _ _ (blocks_written fuel (waited b) cW t n buff 0 Hf (waiting_card c t true Hfr) Ht Hs Hbz Hfu
    ltac:(lia) ltac:(lia) Hb ltac:(lia))).
  set (cE := cW{{ c_mem := _; c_out := _; c_mode := _ }}).
  assert (awaits fuel (t + Z.of_nat (S n)) true cE) as HaE.
  { constructor; [done|done|]. exists (c_busy c). split; [done|by left]. }
  rewrite (bind_ok _ _ _ _ _ (stop_run (waited (waited b)) cE _ Hf HaE)). unfold mret, M_ret. cbn [negb].
  do 3 f_equal. unfold written_card, cE, cW. destruct c. simpl in Hfm. by subst.
Qed.

Lemma write_multiple_spec b cs c t n buff : ready b c -> 0 <= t -> (0 < n < 256)%nat ->
  t + Z.of_nat n <= c_size c -> length buff = (512 * n)%nat -> Forall byte_ok buff ->
  write_multiple fuel buff (b_type b) (block_address (b_type b) t) (Z.of_nat n) (wd b cs c) =
  Ok (0, wd (waited b) false
    (written_card c (ram_put (c_mem c) (Z.to_nat t) buff n) (0xFF :: replicate (c_busy c) 0))).
Proof.
  intros Hr Ht Hn Hs Hl Hb. unfold write_multiple, when.
  destruct (negb (Z.land (b_type b) CT_SDC =? 0)).
  - destruct (announce_run b cs c (Z.of_nat n) Hr ltac:(lia)) as (r & b' & cs' & E & ->).
    rewrite (bind_ok _ _ _ tt (wd (waited b) cs' (fresh c))) by (by rewrite (bind_ok _ _ _ _ _ E)).
    exact (write_blocks_spec (waited b) cs' (fresh c) t n buff (proj1 (ready_fresh b c Hr)) Ht Hn Hs Hl Hb).
  - rewrite (bind_ok (mret tt) _ _ tt (wd b cs c) eq_refl). by apply write_blocks_spec.
Qed.

Lemma disk_write_spec b cs c t n buff : ready b c -> 0 <= t -> (0 < n < 256)%nat ->
  t + Z.of_nat n <= c_size c -> length buff = (512 * n)%nat -> Forall byte_ok buff ->
  exists o, busy fuel o /\ disk_write fuel 0 buff t (Z.of_nat n) (wd b cs c) =
  Ok (RES_OK, wd (waited b) true (written_card c (ram_put (c_mem c) (Z.to_nat t) buff n) o)).
Proof.
  intros Hr Ht Hn Hs Hl Hb. pose proof (rd_swift _ _ Hr) as Hf. destruct (rd_stat _ _ Hr) as [Hst Hpr].
  pose proof (rd_busy _ _ Hr) as Hbz.
  assert (exists o, busy fuel o /\
    (if Z.of_nat n =? 1 then write_single fuel buff (block_address (b_type b) t)
     else write_multiple fuel buff (b_type b) (block_address (b_type b) t) (Z.of_nat n)) (wd b cs c) =
    Ok (0, wd (waited b) false (written_card c (ram_put (c_mem c) (Z.to_nat t) buff n) o))) as (o & Ho & E).
  { destruct (Z.eqb_spec (Z.of_nat n) 1) as [E1|E1].
    - assert (n = 1%nat) as -> by lia. exists (replicate (c_busy c) 0). split; [exists (c_busy c); split; [done|by left]|].
      cbn [ram_put]. rewrite take_ge by lia. apply write_single_spec; [done|lia|lia|done].
    - eexists. split; [|by apply write_multiple_spec]. exists (c_busy c). split; [done|by right]. }
  exists o. split; [done|]. unfold disk_write. change (negb (0 =? 0)) with false.
  destruct (Z.eqb_spec (Z.of_nat n) 0); [lia|]. cbn [orb].
  rewrite (bind_ok (gets Stat) _ (wd b cs c) (b_stat b) (wd b cs c) eq_refl), Hst, Hpr.
  change (negb (0 =? 0)) with false. cbv iota.
  rewrite (bind_ok (gets CardType) _ (wd b cs c) (b_type b) (wd b cs c) eq_refl).
  rewrite (bind_ok _ _ _ _ _ E).
  by rewrite (bind_ok _ _ _ _ _ (deselect_run fuel (waited b) false _ Hf)).
Qed.

Lemma ready_written b c t n l o : ready b c -> busy fuel o ->
  ready (waited b) (written_card c (ram_put (c_mem c) t l n) o) /\
  c_size (written_card c (ram_put (c_mem c) t l n) o) = c_size c.
Proof.
  intros [] Ho. assert (c_size (written_card c (ram_put (c_mem c) t l n) o) = c_size c) as Es
    by (change (Z.of_nat (length (ram_put (c_mem c) t l n)) = c_size c); by rewrite ram_put_length).
  split; [|done]. constructor; try done; [|by rewrite Es]. destruct rd_free0 as [_ Hm _]. by constructor.
Qed.

(** ** Waiting for the card *)

Lemma sync_run b cs c : ready b c ->
  disk_ioctl fuel 0 CTRL_SYNC 0 (wd b cs c) = Ok ((RES_OK, Nothing), wd (waited b) true (c{{ c_out := [] }})).
Proof.
  intros Hr. pose proof (rd_swift _ _ Hr) as Hf. pose proof (proj1 (rd_stat _ _ Hr)) as Hst.
  pose proof (rd_free _ _ Hr) as Hfr. destruct (free_listens fuel c Hfr) as [Hl Hs]. destruct Hfr as [Hin Hm Ho].
  unfold disk_ioctl. change (negb (0 =? 0)) with false. change (CTRL_SYNC =? CTRL_POWER) with false. cbv iota.
  rewrite (bind_ok (gets Stat) _ (wd b cs c) (b_stat b) (wd b cs c) eq_refl), Hst.
  change (negb (0 =? 0)) with false. cbv iota.
  set (c1 := c{{ c_out := [] }}). assert (c1{{ c_in := [] }} = c1) as E1
    by (unfold c1; destruct c; simpl in Hin; by subst).
  rewrite (bind_ok _ _ _ (RES_OK, Nothing) (wd (waited b) true c1)).
  - rewrite (bind_ok _ _ _ _ _ (deselect_run fuel (waited b) true c1 Hf)). by rewrite E1.
  - unfold ioctl_card. change (CTRL_SYNC =? CTRL_SYNC) with true. cbv iota.
    rewrite (bind_ok _ _ _ _ _ (card_selected fuel b cs c Hf Hl Hs Ho)). cbn [negb]. fold c1.
    rewrite (bind_ok _ _ _ _ _ (deselect_run fuel (waited b) false c1 Hf)). by rewrite E1.
Qed.
End Sectors.

(** ** The card as a drive *)

#[export] Instance mode_eq_dec : EqDecision mode.
Proof. solve_decision. Defined.

#[export] Instance busy_dec fuel l : Decision (busy fuel l).
Proof.
  destruct (decide ((length l < fuel)%nat /\ l = replicate (length l) 0)) as [H1|H1].
  { left. destruct H1 as [H1 E]. exists (length l). auto. }
  destruct (decide ((length (tail l) < fuel)%nat /\ l = 0xFF :: replicate (length (tail l)) 0)) as [H2|H2].
  { left. destruct H2 as [H2 E]. exists (length (tail l)). auto. }
  right. intros (n & Hn & [E|E]).
  - apply H1. rewrite E, length_replicate. done.
  - apply H2. rewrite E. cbn [tail]. rewrite length_replicate. done.
Defined.

#[export] Instance free_dec fuel c : Decision (free fuel c).
Proof.
  destruct (decide (c_in c = [] /\ c_mode c = Commands /\ busy fuel (c_out c))) as [(H1 & H2 & H3)|Hn].
  - left. by constructor.
  - right. intros []. by apply Hn.
Defined.

#[export] Instance ready_dec fuel b c : Decision (ready fuel b c).
Proof.
  destruct (decide (((b_lat b + 4 <= fuel)%nat /\
    (Z.land (b_stat b) STA_NOINIT = 0 /\ Z.land (b_stat b) STA_PROTECT = 0) /\
    bool_decide (Z.land (b_type b) CT_BLOCK = 0) = bool_decide (c_kind c <> SDHC) /\
    free fuel c /\ c_idle c = None) /\
    (c_size c < 4294967296 /\ (bool_decide (c_kind c <> SDHC) = true -> 512 * c_size c < 4294967296)) /\
    (c_ncr c <= 9)%nat /\ (2 <= c_nac c < fuel)%nat /\ (c_busy c < fuel)%nat /\ (256 < fuel)%nat))
    as [((H1 & H2 & H3 & H4 & H5) & (H6 & H6') & H7 & H8 & H9 & H10)|Hn].
  - left. constructor; try done.
    + by rewrite <- (bool_decide_eq_true (Z.land _ _ = 0)), <- (bool_decide_eq_true (c_kind c <> SDHC)), H3.
    + split; [done|]. intros Hk. apply H6'. by rewrite bool_decide_eq_true.
  - right. intros [H1 H2 H3 H4 H5 [H6 H6'] H7 H8 H9 H10]. apply Hn. split; [|split; [|done]].
    + split; [done|]. split; [done|]. split; [by apply bool_decide_ext|done].
    + split; [done|]. rewrite bool_decide_eq_true. done.
Defined.

(** The driver of a world, and whether the socket rests with a card that is ready. *)
Definition base_of (w : mmc socket) : base :=
  mk_base (Stat w) (Timer1 w) (Timer2 w) (CardType w) (pv w) (s_latency (sock w)).
Definition at_rest (w : mmc socket) : bool :=
  negb (s_off (sock w)) && bool_decide (s_rx (sock w) = []) && bool_decide (s_flight (sock w) = []) &&
  (s_wait (sock w) =? s_latency (sock w))%nat.

Lemma at_rest_wd w : at_rest w = true -> w = wd (base_of w) (s_cs (sock w)) (s_card (sock w)).
Proof.
  unfold at_rest. destruct w as [st t1 t2 ty p [c cs off rx fl wt lat]]. simpl.
  intros (((H1 & H2%bool_decide_eq_true)%andb_true_iff & H3%bool_decide_eq_true)%andb_true_iff & H4%Nat.eqb_eq)%andb_true_iff.
  destruct off; [done|]. by subst.
Qed.

Lemma wd_at_rest b cs c : at_rest (wd b cs c) = true.
Proof. unfold at_rest. simpl. by rewrite Nat.eqb_refl. Qed.

Section Drive.
Variable fuel : nat.

Definition card_of (w : mmc socket) : card := s_card (sock w).
Definition usable_card (w : mmc socket) : bool := at_rest w && bool_decide (ready fuel (base_of w) (card_of w)).

(** The functions that ff.c calls, of drive 0.  The contents of the caller's buffer count
    only after a transfer that succeeds; a call that does not return is one that fails. *)
#[local] Instance card_disk : Disk (mmc socket) := {|
  Fat.disk_initialize w :=
    match disk_initialize fuel 0 w with Ok (r, w') => (r, w') | Fault _ => (STA_NOINIT, w) end;
  Fat.disk_status w :=
    match disk_status 0 w with Ok (r, _) => r | Fault _ => STA_NOINIT end;
  Fat.disk_read t n w :=
    match disk_read fuel 0 (replicate (Z.to_nat (512 * n)) 0) t n w with
    | Ok ((RES_OK, l), w') => (true, l, w')
    | Ok ((_, l), w') => (false, l, w')
    | Fault _ => (false, replicate (Z.to_nat (512 * n)) 0, w)
    end;
  Fat.disk_write l t w :=
    match disk_write fuel 0 l t (Z.of_nat (length l) / 512) w with
    | Ok (RES_OK, w') => (true, w')
    | Ok (_, w') => (false, w')
    | Fault _ => (false, w)
    end;
  Fat.disk_sync w :=
    match disk_ioctl fuel 0 CTRL_SYNC 0 w with
    | Ok ((RES_OK, _), w') => (true, w')
    | Ok (_, w') => (false, w')
    | Fault _ => (false, w)
    end
|}.

Definition card_sectors (w : mmc socket) : Z := if usable_card w then c_size (card_of w) else 0.
Definition card_contents (w : mmc socket) (t : Z) : list Z :=
  if 0 <=? t then ram_get (c_mem (card_of w)) t else zero_sector.

Lemma usable_inv w : 0 < card_sectors w -> exists b cs c, w = wd b cs c /\ ready fuel b c /\ card_sectors w = c_size c.
Proof.
  unfold card_sectors, usable_card. destruct (at_rest w) eqn:E1; [|done].
  destruct (bool_decide (ready _ _ _)) eqn:E2; [|done]. apply bool_decide_eq_true in E2. intros _.
  exists (base_of w), (s_cs (sock w)), (card_of w). split; [by apply at_rest_wd|done].
Qed.

Lemma usable_wd b cs c : ready fuel b c -> card_sectors (wd b cs c) = c_size c.
Proof.
  intros Hr. unfold card_sectors, usable_card. rewrite wd_at_rest. rewrite bool_decide_true; [done|].
  by destruct b.
Qed.

Lemma image_sectors w t n : 0 <= t ->
  image card_contents w t (Z.of_nat n) = sectors_from (c_mem (card_of w)) t n.
Proof.
  intros Ht. unfold image, sectors_from. f_equal. apply list_fmap_ext.
  intros i x Hx%list_elem_of_lookup_2%elem_of_seqZ. unfold card_contents. by destruct (Z.leb_spec 0 x); [|lia].
Qed.

#[local] Obligation Tactic := idtac.
Program Definition card_works : WorkingDisk (mmc socket) := {|
  sectors := card_sectors;
  contents := card_contents
|}.
Next Obligation.
  intros w t. unfold card_contents. destruct (0 <=? t); [apply ram_get_ok|apply zero_sector_ok].
Qed.
Next Obligation.
  intros w t n Ht Hn Hs. destruct (usable_inv w ltac:(lia)) as (b & cs & c & -> & Hr & Es).
  rewrite Es in Hs. set (k := Z.to_nat n). assert (n = Z.of_nat k) as En by lia.
  exists (wd (ran b) true (fresh c)). split; [|split].
  - cbn [Fat.disk_read card_disk]. rewrite En, disk_read_spec; try done; try lia.
    + by rewrite image_sectors.
    + rewrite length_replicate. lia.
  - rewrite Es. by rewrite usable_wd by (by apply ready_fresh).
  - done.
Qed.
Next Obligation.
  intros w t n l Ht Hn Hs Hl Hb. destruct (usable_inv w ltac:(lia)) as (b & cs & c & -> & Hr & Es).
  rewrite Es in Hs. set (k := Z.to_nat n). assert (n = Z.of_nat k) as En by lia.
  destruct (disk_write_spec fuel b cs c t k l Hr Ht ltac:(lia) ltac:(lia) ltac:(lia) Hb) as (o & Ho & E).
  destruct (ready_written fuel b c (Z.to_nat t) k l o Hr Ho) as [Hr' Es'].
  eexists. split; [|split].
  - cbn [Fat.disk_write card_disk]. replace (Z.of_nat (length l) / 512) with (Z.of_nat k) by lia. by rewrite E.
  - by rewrite usable_wd, Es, Es'.
  - intros t'. unfold card_contents. destruct (Z.leb_spec 0 t').
    + change (c_mem (card_of (wd (waited b) true (written_card c (ram_put (c_mem c) (Z.to_nat t) l k) o))))
        with (ram_put (c_mem c) (Z.to_nat t) l k).
      rewrite ram_put_get; [|done|unfold c_size, ram_size in Hs; lia|lia|done].
      rewrite Z2Nat.id by lia. by replace (Z.of_nat (Z.to_nat t + k)) with (t + n) by lia.
    + destruct (Z.leb_spec t t'); [lia|]. done.
Qed.
Next Obligation.
  intros w Hs. destruct (usable_inv w Hs) as (b & cs & c & -> & Hr & Es). apply Hr.
Qed.
Next Obligation.
  intros w Hs. destruct (usable_inv w Hs) as (b & cs & c & -> & Hr & Es).
  eexists. split; [|split].
  - cbn [Fat.disk_sync card_disk]. by rewrite (sync_run fuel b cs c Hr).
  - rewrite Es, usable_wd; [done|]. pose proof (rd_free _ _ _ Hr) as [Hi Hm Ho]. destruct Hr.
    constructor; try done. constructor; [exact Hi|exact Hm|]. exists 0%nat. split; [lia|by left].
  - done.
Qed.
End Drive.
