(* ===== verification/MmcInit.v ===== *)
(** * Initialising a memory card

    [disk_initialize] of mmc.c tells the kinds of card apart and leaves the driver and the
    card ready; without the calls of [disk_timerproc] its timeouts never expire. *)

From S2P Require Import Prelude Clkpwr Fat FatTable FatFacts FatRam Ssp Mmc SdCard MmcFacts MmcBlocks MmcDisk.

Lemma fio_dir_run m v (w : mmc socket) : zoom (modify (fio_dir m v)) w = Ok (tt, w).
Proof. by destruct w. Qed.

(** What [CardType] is to be. *)
Definition card_type (k : kind) : Z :=
  match k with
  | SDHC => Z.lor CT_SD2 CT_BLOCK
  | SDv2 => CT_SD2
  | SDv1 => CT_SD1
  | MMCv3 => CT_MMC
  end.

Section Init.
Variable fuel : nat.
#[local] Abbreviation swift := (swift fuel).
#[local] Abbreviation free := (free fuel).

(** A card that takes a command, at whatever stage. *)
Record takes (b : base) (c : card) : Prop := {
  tk_swift : swift b;
  tk_free : free c;
  tk_ncr : (c_ncr c <= 9)%nat;
  tk_fuel : (256 < fuel)%nat
}.

Lemma command_run b cs c l cmd arg r rest : takes b c -> 0x40 <= cmd < 0x80 -> cmd <> CMD12 ->
  word_ok arg -> execute (c_acmd c) (cmd - 0x40) arg (fresh c) = respond (r :: rest) l ->
  c_in l = [] -> c_mode l = Commands -> (c_ncr l <= 9)%nat -> byte_ok r -> Z.land r 0x80 = 0 ->
  send_plain fuel cmd arg (wd b cs c) = Ok (r, wd (waited b) false (l{{ c_out := rest }})).
Proof.
  intros [Hf Hfr Hk Hfu] Hc H12 Ha E Hi Hm Hn Hb Hr.
  destruct (respond_answers _ l r rest E Hi ltac:(by rewrite Hm) Hn Hb Hr) as (H1 & H2 & H3).
  pose proof (Build_answers c _ cmd arg r rest eq_refl H1 H2 H3) as Han.
  rewrite (send_plain_run fuel b cs c _ cmd arg r rest Hf ltac:(lia) Hfr Hc H12 Ha Han).
  by rewrite E.
Qed.

(** The trailing bytes of a response. *)
Lemma rcvr_bytes_run b c l rest : swift b -> listens c -> c_out c = l ++ rest -> Forall byte_ok l ->
  rcvr_bytes fuel (length l) (wd b false c) = Ok (l, wd b false (c{{ c_out := rest }})).
Proof.
  intros Hf Hl Ho Hb. revert c Hl Ho. induction Hb as [|a l Ha _ IH]; intros c Hl Ho; cbn [length rcvr_bytes].
  - simpl in Ho. by rewrite <- Ho, with_out.
  - rewrite (bind_ok _ _ _ _ _ (rcvr_run fuel b false c a _ Hf (shift_out c a (l ++ rest) Hl Ho) Ha)).
    set (c1 := c{{ c_out := l ++ rest }}). by rewrite (bind_ok _ _ _ _ _ (IH c1 Hl eq_refl)).
Qed.

(** Clocks without the chip select. *)
Lemma clocks_run n b c : swift b -> c_in c = [] ->
  rcvr_bytes fuel n (wd b true c) = Ok (replicate n 0xFF, wd b true c).
Proof.
  intros Hf Hi. assert (c{{ c_in := [] }} = c) as Ec by (destruct c; simpl in Hi; by subst).
  induction n as [|n IH]; cbn [rcvr_bytes]; [done|].
  rewrite (bind_ok _ _ _ _ _ (rcvr_run fuel b true c 0xFF (c{{ c_in := [] }}) Hf eq_refl ltac:(done))).
  rewrite Ec. by rewrite (bind_ok _ _ _ _ _ IH).
Qed.

(** ** Leaving the idle state *)

Definition polled (c : card) : card :=
  (fresh c){{ c_idle := match c_idle c with Some (S k) => Some k | _ => None end }}.
Definition poll_reply (c : card) : Z := match c_idle c with Some (S _) => 1 | _ => 0 end.

Lemma poll_respond c : poll (fresh c) = respond [poll_reply c] (polled c).
Proof.
  unfold poll, polled, poll_reply. change (c_idle (fresh c)) with (c_idle c). by destruct (c_idle c) as [[|k]|].
Qed.

Lemma takes_polled b c : takes b c -> takes (waited b) (polled c).
Proof. intros [Hf [Hi Hm (n & Hn & _)] Hk Hfu]. constructor; try done. constructor; [done|done|]. exists 0%nat. split; [lia|by left]. Qed.

Lemma reply_ok c : byte_ok (poll_reply c) /\ Z.land (poll_reply c) 0x80 = 0.
Proof. unfold poll_reply. by destruct (c_idle c) as [[|k]|]. Qed.

(** A command that polls the card. *)
Definition polls_with (cmd arg : Z) (k : kind) : Prop := forall b cs c, takes b c -> c_kind c = k ->
  send_cmd fuel cmd arg (wd b cs c) = Ok (poll_reply c, wd (waited b) false (polled c)).

Lemma app_cmd_run b cs c : takes b c -> c_kind c <> MMCv3 ->
  send_plain fuel CMD55 0 (wd b cs c) = Ok (idle_bit c, wd (waited b) false ((fresh c){{ c_acmd := true }})).
Proof.
  intros Ht Hk. pose proof Ht as [Hf [Hi Hm Hb] Hn Hfu].
  rewrite (command_run b cs c ((fresh c){{ c_acmd := true }}) CMD55 0 (idle_bit c) []); try done.
  - change (CMD55 - 64) with 55. unfold execute. cbn [Z.eqb Pos.eqb].
    change (c_kind (fresh c)) with (c_kind c). by destruct (c_kind c).
  - unfold idle_bit. by destruct (c_idle c).
  - unfold idle_bit. by destruct (c_idle c).
Qed.

Lemma acmd41_polls arg k : k <> MMCv3 -> (k = SDHC -> Z.testbit arg 30 = true) -> word_ok arg ->
  polls_with ACMD41 arg k.
Proof.
  intros Hk Hbit Ha b cs c Ht Ek. unfold send_cmd. change (Z.land ACMD41 0x80 =? 0) with false.
  change (Z.land ACMD41 0x7F) with 0x69. cbv iota.
  rewrite (bind_ok _ _ _ _ _ (app_cmd_run b cs c Ht ltac:(congruence))).
  assert ((1 <? idle_bit c) = false) as -> by (unfold idle_bit; by destruct (c_idle c)).
  set (c2 := (fresh c){{ c_acmd := true }}). pose proof Ht as [Hf [Hi Hm Hb] Hn Hfu].
  assert (takes (waited b) c2) as Ht2.
  { constructor; try done. constructor; [done|exact Hm|]. exists 0%nat. split; [lia|by left]. }
  destruct (reply_ok c) as [R1 R2].
  rewrite (command_run (waited b) false c2 (polled c) 0x69 arg (poll_reply c) []); try done; try exact Hm.
  change (0x69 - 64) with 41. change (c_acmd c2) with true. change (fresh c2) with (fresh c).
  unfold execute. cbn [Z.eqb Pos.eqb andb]. change (c_kind (fresh c)) with (c_kind c). rewrite Ek.
  replace (bool_decide (k = SDHC) && negb (Z.testbit arg 30)) with false; [by rewrite poll_respond|].
  symmetry. destruct (decide (k = SDHC)) as [E|E]; [by rewrite (Hbit E), andb_false_r|by rewrite bool_decide_false].
Qed.

Lemma cmd1_polls k : polls_with CMD1 0 k.
Proof.
  intros b cs c Ht Ek. pose proof Ht as [Hf [Hi Hm Hb] Hn Hfu]. destruct (reply_ok c) as [R1 R2].
  unfold send_cmd. change (Z.land CMD1 0x80 =? 0) with true. cbv iota.
  rewrite (command_run b cs c (polled c) CMD1 0 (poll_reply c) []); try done; try exact Hm.
  change (CMD1 - 64) with 1. unfold execute. cbn [Z.eqb Pos.eqb andb]. by rewrite poll_respond.
Qed.

Lemma leave_idle_run cmd arg k : polls_with cmd arg k -> forall n turns b cs c, takes b c -> c_kind c = k ->
  b_t1 b <> 0 -> (c_idle c = Some n \/ c_idle c = None /\ n = 0%nat) -> (n < turns)%nat ->
  while turns (leave_idle_body fuel cmd arg) tt (wd b cs c) =
  Ok (tt, wd (waited b) false ((fresh c){{ c_idle := None }})).
Proof.
  intros Hp. induction n as [|n IH]; intros turns b cs c Ht Ek H1 Hid Hn; (destruct turns as [|turns]; [lia|]);
    cbn [while].
  - rewrite (bind_ok _ _ _ (Break tt) (wd (waited b) false (polled c))).
    + unfold polled. by destruct Hid as [->|[-> _]].
    + unfold leave_idle_body. rewrite (bind_ok _ _ _ _ _ (t1_run b cs c)). destruct (Z.eqb_spec (b_t1 b) 0); [done|].
      rewrite (bind_ok _ _ _ _ _ (Hp b cs c Ht Ek)). unfold poll_reply. by destruct Hid as [->|[-> _]].
  - destruct Hid as [Hid|[_ ?]]; [|done].
    rewrite (bind_ok _ _ _ (Continue tt) (wd (waited b) false (polled c))).
    + rewrite (IH turns (waited b) false (polled c)); try done; try lia; [by apply takes_polled|].
      left. unfold polled. cbn [c_idle]. by rewrite Hid.
    + unfold leave_idle_body. rewrite (bind_ok _ _ _ _ _ (t1_run b cs c)). destruct (Z.eqb_spec (b_t1 b) 0); [done|].
      rewrite (bind_ok _ _ _ _ _ (Hp b cs c Ht Ek)). unfold poll_reply. by rewrite Hid.
Qed.

(** The card has left the idle state. *)
Definition awake (c : card) : card := (fresh c){{ c_idle := None }}.

Lemma takes_awake b c : takes b c -> takes (waited b) (awake c).
Proof. intros [Hf [Hi Hm (n & Hn & _)] Hk Hfu]. constructor; try done. constructor; [done|done|]. exists 0%nat. split; [lia|by left]. Qed.

Lemma takes_fresh b c : takes b c -> takes (waited b) (fresh c).
Proof. intros [Hf Hfr Hk Hfu]. constructor; try done. by apply fresh_free. Qed.

Lemma init_sd2_run b c n : swift b -> b_t1 b <> 0 -> c_in c = [] -> c_mode c = Commands ->
  c_out c = [0; 0; 1; 0xAA] -> c_kind c = SDHC \/ c_kind c = SDv2 -> c_idle c = Some n -> (n < fuel)%nat ->
  (c_ncr c <= 9)%nat -> (256 < fuel)%nat ->
  init_sd2 fuel (wd b false c) = Ok (card_type (c_kind c), wd (waited b) false (awake c)).
Proof.
  intros Hf H1 Hi Hm Ho Hk Hid Hn Hncr Hfu. unfold init_sd2.
  assert (listens c) as Hl by (split; [done|by rewrite Hm]).
  rewrite (bind_ok _ _ _ _ _ (rcvr_bytes_run b c [0; 0; 1; 0xAA] [] Hf Hl Ho ltac:(by repeat constructor))).
  set (c1 := c{{ c_out := [] }}).
  rewrite (bind_ok (aget [0; 0; 1; 170] 2) _ _ 1 (wd b false c1) eq_refl).
  rewrite (bind_ok (aget [0; 0; 1; 170] 3) _ _ 170 (wd b false c1) eq_refl).
  change ((1 =? 1) && (170 =? 170)) with true. cbv iota.
  assert (takes b c1) as Ht.
  { constructor; try done. constructor; [exact Hi|exact Hm|]. exists 0%nat. split; [lia|by left]. }
  assert (polls_with ACMD41 (Z.shiftl 1 30) (c_kind c)) as Hp.
  { apply acmd41_polls; [by destruct Hk as [-> | ->]|done|done]. }
  rewrite (bind_ok _ _ _ _ _ (leave_idle_run ACMD41 (Z.shiftl 1 30) (c_kind c) Hp n fuel b false c1 Ht eq_refl H1 (or_introl Hid) Hn)).
  change ((fresh c1){{ c_idle := None }}) with (awake c).
  rewrite (bind_ok _ _ _ _ _ (t1_run (waited b) false _)). change (b_t1 (waited b)) with (b_t1 b).
  destruct (Z.eqb_spec (b_t1 b) 0); [done|].
  set (o0 := if decide (c_kind c = SDHC) then 0xC0 else 0x80).
  pose proof (takes_awake b c1 Ht) as Hta. change (awake c1) with (awake c) in Hta.
  assert (send_cmd fuel CMD58 0 (wd (waited b) false (awake c)) =
    Ok (0, wd (waited b) false ((awake c){{ c_out := [o0; 0xFF; 0x80; 0] }}))) as E58.
  { unfold send_cmd. change (Z.land CMD58 0x80 =? 0) with true. cbv iota.
    by rewrite (command_run (waited b) false (awake c) (awake c) CMD58 0 0 [o0; 0xFF; 0x80; 0]). }
  rewrite (bind_ok _ _ _ _ _ E58). change (negb (0 =? 0)) with false. cbv iota.
  set (c2 := (awake c){{ c_out := [o0; 0xFF; 0x80; 0] }}).
  assert (Forall byte_ok [o0; 0xFF; 0x80; 0]) as Hbo.
  { constructor; [unfold o0; by destruct (decide _)|by repeat constructor]. }
  assert (listens c2) as Hl2 by (split; [done|]; change (c_mode c2) with (c_mode c); by rewrite Hm).
  rewrite (bind_ok _ _ _ _ _ (rcvr_bytes_run (waited b) c2 [o0; 0xFF; 0x80; 0] [] Hf Hl2 eq_refl Hbo)).
  change (c2{{ c_out := [] }}) with (awake c).
  rewrite (bind_ok (aget [o0; 0xFF; 0x80; 0] 0) _ _ o0 (wd (waited b) false (awake c)) eq_refl).
  unfold mret, M_ret, o0. do 2 f_equal. by destruct Hk as [-> | ->].
Qed.

Lemma init_old_run b cs c n : takes b c -> b_t1 b <> 0 -> c_kind c = SDv1 \/ c_kind c = MMCv3 ->
  c_idle c = Some n -> (n < fuel)%nat ->
  init_old fuel (wd b cs c) = Ok (card_type (c_kind c), wd (waited b) false (awake c)).
Proof.
  intros Ht H1 Hk Hid Hn. pose proof Ht as [Hf [Hi Hm Hb] Hncr Hfu]. unfold init_old.
  assert (forall cmd k, polls_with cmd 0 k -> forall c1, takes (waited b) c1 -> c_kind c1 = k ->
    (c_idle c1 = Some n \/ exists m, c_idle c1 = Some m /\ S m = n \/ c_idle c1 = None) -> awake c1 = awake c ->
    forall ty, (leave_idle fuel cmd 0 ;; t ← gets Timer1;
      if t =? 0 then mret 0 else r ← send_cmd fuel CMD16 512; mret (if negb (r =? 0) then 0 else ty))
      (wd (waited b) false c1) = Ok (ty, wd (waited b) false (awake c))) as Hgo.
  { intros cmd k Hp c1 Ht1 Ek Hi1 Ea ty.
    assert (exists m, (m < fuel)%nat /\ (c_idle c1 = Some m \/ c_idle c1 = None /\ m = 0%nat)) as (m & Hm1 & Hi2).
    { destruct Hi1 as [E|(m & [[E ?]|E])]; [exists n|exists m|exists 0%nat]; split; auto; lia. }
    unfold leave_idle.
    rewrite (bind_ok _ _ _ _ _ (leave_idle_run cmd 0 k Hp m fuel (waited b) false c1 Ht1 Ek H1 Hi2 Hm1)).
    change ((fresh c1){{ c_idle := None }}) with (awake c1). rewrite Ea.
    rewrite (bind_ok _ _ _ _ _ (t1_run (waited (waited b)) false _)). change (b_t1 (waited (waited b))) with (b_t1 b).
    destruct (Z.eqb_spec (b_t1 b) 0); [done|].
    assert (send_cmd fuel CMD16 512 (wd (waited b) false (awake c)) = Ok (0, wd (waited b) false (awake c))) as E16.
    { unfold send_cmd. change (Z.land CMD16 0x80 =? 0) with true. cbv iota.
      rewrite (command_run (waited b) false (awake c) (awake c) CMD16 512 0 []); try done. by apply takes_awake. }
    change (waited (waited b)) with (waited b). by rewrite (bind_ok _ _ _ _ _ E16). }
  destruct Hk as [Ek|Ek]; rewrite Ek.
  - assert (polls_with ACMD41 0 SDv1) as Hp by (by apply acmd41_polls).
    rewrite (bind_ok _ _ _ _ _ (Hp b cs c Ht Ek)).
    assert ((poll_reply c <=? 1) = true) as -> by (unfold poll_reply; by destruct (c_idle c) as [[|?]|]).
    apply (Hgo ACMD41 SDv1 Hp); [by apply takes_polled|done| |done].
    right. unfold polled. cbn [c_idle]. rewrite Hid. destruct n as [|n]; [exists 0%nat; by right|exists n; by left].
  - assert (send_cmd fuel ACMD41 0 (wd b cs c) = Ok (5, wd (waited b) false (fresh c))) as E.
    { unfold send_cmd. change (Z.land ACMD41 0x80 =? 0) with false. cbv iota.
      rewrite (bind_ok _ _ _ 5 (wd (waited b) false (fresh c))); [done|].
      rewrite (command_run b cs c (fresh c) CMD55 0 5 []); try done.
      change (CMD55 - 64) with 55. unfold execute. cbn [Z.eqb Pos.eqb].
      change (c_kind (fresh c)) with (c_kind c). rewrite Ek. unfold refuse, idle_bit.
      change (c_idle (fresh c)) with (c_idle c). by rewrite Hid. }
    rewrite (bind_ok _ _ _ _ _ E). change (5 <=? 1) with false. cbv iota.
    apply (Hgo CMD1 MMCv3 (cmd1_polls MMCv3)); [by apply takes_fresh|done|by left|done].
Qed.

(** ** [disk_initialize] *)

(** A card whose delays are below the timeouts of the driver, counted in bytes. *)
Record sane (c : card) : Prop := {
  sa_size : c_size c < 4294967296 /\ (c_kind c <> SDHC -> 512 * c_size c < 4294967296);
  sa_ncr : (c_ncr c <= 9)%nat;
  sa_nac : (2 <= c_nac c < fuel)%nat;
  sa_busy : (c_busy c < fuel)%nat;
  sa_polls : (c_polls c < fuel)%nat
}.

Lemma disk_initialize_spec k mem polls ncr nac bz lat :
  let c := new_card k mem polls ncr nac bz in
  sane c -> (lat + 4 <= fuel)%nat -> (256 < fuel)%nat ->
  exists b, disk_initialize fuel 0 (inserted c lat) = Ok (0, wd b true (awake c)) /\
    ready fuel b (awake c) /\ b_type b = card_type k.
Proof.
  intros c [Hsz Hncr Hnac Hbz Hpo] Hlat Hfu.
  set (b0 := mk_base STA_NOINIT 0 0 0 0 lat).
  assert (takes b0 c) as Ht.
  { constructor; try done. constructor; [done|done|]. exists 0%nat. split; [lia|by left]. }
  set (ci := c{{ c_idle := Some polls }}).
  assert (forall r rest l arg cmd, 0x40 <= cmd < 0x80 -> cmd <> CMD12 -> word_ok arg ->
    Z.land cmd 0x80 = 0 -> execute false (cmd - 0x40) arg ci = respond (r :: rest) l ->
    c_in l = [] -> c_mode l = Commands -> (c_ncr l <= 9)%nat -> byte_ok r -> Z.land r 0x80 = 0 ->
    forall b, swift b -> send_cmd fuel cmd arg (wd b false ci) = Ok (r, wd (waited b) false (l{{ c_out := rest }}))) as Hcmd.
  { intros r rest l arg cmd Hc H12 Ha Hz E Hi Hm Hn Hb Hr b Hf. unfold send_cmd. rewrite Hz.
    change (0 =? 0) with true. cbv iota. apply command_run; try done.
    constructor; try done. constructor; [done|done|]. exists 0%nat. split; [lia|by left]. }
  set (b1 := (waited b0){{ b_t1 := 100 }}).
  assert (exists b2, (r ← send_cmd fuel CMD8 0x1AA; if r =? 1 then init_sd2 fuel else init_old fuel) (wd b1 false ci) =
    Ok (card_type k, wd (waited b1) false (awake c)) /\ b2 = waited b1) as (b2 & Ety & _).
  { exists (waited b1). split; [|done]. destruct (decide (k = SDHC \/ k = SDv2)) as [Ek|Ek].
    - rewrite (bind_ok _ _ _ 1 (wd (waited b1) false (ci{{ c_out := [0; 0; 1; 0xAA] }}))).
      + change (1 =? 1) with true. cbv iota.
        pose proof (init_sd2_run (waited b1) (ci{{ c_out := [0; 0; 1; 0xAA] }}) polls Hlat ltac:(done)
          eq_refl eq_refl eq_refl Ek eq_refl Hpo Hncr Hfu) as E. exact E.
      + apply (Hcmd 1 [0; 0; 1; 0xAA] ci); try done. by destruct Ek as [-> | ->].
    - rewrite (bind_ok _ _ _ 5 (wd (waited b1) false ci)).
      + change (5 =? 1) with false. cbv iota. assert (takes (waited b1) ci) as Hti
          by (constructor; try done; constructor; [done|done|]; exists 0%nat; split; [lia|by left]).
        assert (k = SDv1 \/ k = MMCv3) as Ek' by (destruct k; try (by left); try (by right); destruct Ek; auto).
        exact (init_old_run (waited b1) false ci polls Hti ltac:(done) Ek' eq_refl Hpo).
      + apply (Hcmd 5 [] ci); try done. destruct k; try done; destruct Ek; auto. }
  assert ((card_type k =? 0) = false) as Enz by (by destruct k).
  exists ((waited b1){{ b_type := card_type k; b_stat := 0 }}). split; [|split; [|done]].
  - unfold disk_initialize.
    do 3 rewrite (bind_ok _ _ _ _ _ (fio_dir_run _ _ (inserted c lat))).
    change (negb (0 =? 0)) with false. cbv iota.
    rewrite (bind_ok _ _ _ STA_NOINIT (inserted c lat)) by done.
    change (negb (Z.land STA_NOINIT STA_NODISK =? 0)) with false. cbv iota.
    rewrite (bind_ok _ _ _ tt (wd b0 true c)) by done.
    rewrite (bind_ok _ _ _ _ _ (clocks_run 10 b0 c Hlat eq_refl)).
    assert (send_cmd fuel CMD0 0 (wd b0 true c) = Ok (1, wd (waited b0) false ci)) as E0.
    { unfold send_cmd. change (Z.land CMD0 0x80 =? 0) with true. cbv iota.
      by rewrite (command_run b0 true c ci CMD0 0 1 []). }
    rewrite (bind_ok _ _ _ _ _ E0). change (negb (1 =? 1)) with false. cbv iota.
    rewrite (bind_ok _ _ _ (card_type k) (wd (waited b1) false (awake c))).
    2: { by rewrite (bind_ok (modify _) _ (wd (waited b0) false ci) tt (wd b1 false ci) eq_refl). }
    set (b3 := (waited b1){{ b_type := card_type k }}).
    rewrite (bind_ok (modify _) _ (wd (waited b1) false (awake c)) tt (wd b3 false (awake c)) eq_refl).
    rewrite (bind_ok _ _ _ _ _ (deselect_run fuel b3 false (awake c) Hlat)). rewrite Enz. cbn [negb]. done.
  - destruct (takes_awake b0 c Ht) as [Hf Hfr _ _]. constructor; try done.
    cbn [b_type]. by destruct k.
Qed.
End Init.
