(* ===== verification/MmcSafe.v ===== *)
(** * The memory card driver on any hardware

    Whatever the SSP and the card answer, mmc.c accesses its buffers within their bounds and
    keeps its variables within their types; the only thing that can happen instead of a
    result is that a loop goes on waiting. *)

From S2P Require Import Prelude Clkpwr Fat FatTable Ssp Mmc.

(** ** Computations that only may wait *)

(** From [I] the computation ends in [I] with a result in [Q], or a loop does not end. *)
Definition fine {W A} (I : W -> Prop) (m : M W A) (Q : A -> Prop) : Prop :=
  forall w, I w -> match m w with
                   | Ok (a, w') => I w' /\ Q a
                   | Fault f => f = OutOfFuel
                   end.

Section Fine.
Context {W : Type} (I : W -> Prop).

Lemma fine_ret {A} (a : A) (Q : A -> Prop) : Q a -> fine I (mret a) Q.
Proof. intros Hq w Hw. by split. Qed.

Lemma fine_bind {A B} (m : M W A) (k : A -> M W B) P Q :
  fine I m P -> (forall a, P a -> fine I (k a) Q) -> fine I (m ≫= k) Q.
Proof.
  intros Hm Hk w Hw. unfold mbind, M_bind. specialize (Hm w Hw).
  destruct (m w) as [[a w']|f]; [|done]. destruct Hm as [Hw' Ha]. by apply (Hk a Ha w').
Qed.

Lemma fine_weaken {A} (m : M W A) (P Q : A -> Prop) : fine I m P -> (forall a, P a -> Q a) -> fine I m Q.
Proof. intros Hm Hpq w Hw. specialize (Hm w Hw). destruct (m w) as [[a w']|f]; [|done]. destruct Hm. auto. Qed.

Lemma fine_gets {A} (f : W -> A) (Q : A -> Prop) : (forall w, I w -> Q (f w)) -> fine I (gets f) Q.
Proof. intros Hq w Hw. split; [done|by apply Hq]. Qed.

Lemma fine_modify (f : W -> W) : (forall w, I w -> I (f w)) -> fine I (modify f) (fun _ => True).
Proof. intros Hf w Hw. split; [by apply Hf|done]. Qed.

Lemma fine_if {A} (b : bool) (m m' : M W A) Q : (b = true -> fine I m Q) -> (b = false -> fine I m' Q) ->
  fine I (if b then m else m') Q.
Proof. destruct b; auto. Qed.

Lemma fine_while {A B} fuel (body : A -> M W (ctl A B)) (P : A -> Prop) (Q : B -> Prop) a :
  (forall a, P a -> fine I (body a) (fun c => match c with Continue a' => P a' | Break b => Q b end)) ->
  P a -> fine I (while fuel body a) Q.
Proof.
  intros Hb. revert a. induction fuel as [|n IH]; intros a Ha; [by intros w Hw|]. cbn [while].
  eapply fine_bind; [by apply Hb|]. intros [a'|b] Hc; [by apply IH|by apply fine_ret].
Qed.

Lemma fine_aget {A} (l : list A) i : 0 <= i < Z.of_nat (length l) -> fine I (aget l i) (fun x => x ∈ l).
Proof.
  intros Hi w Hw. destruct (lookup_lt_is_Some_2 l (Z.to_nat i)) as [x Hx]; [lia|].
  rewrite (aget_ok l i x w) by (done || lia). split; [done|]. by apply list_elem_of_lookup_2 in Hx.
Qed.

Lemma fine_aset {A} (l : list A) i x : 0 <= i < Z.of_nat (length l) ->
  fine I (aset l i x) (fun l' => length l' = length l).
Proof. intros Hi w Hw. rewrite aset_ok by done. split; [done|by rewrite length_insert]. Qed.
End Fine.

Ltac fine_step lem := eapply fine_bind; [apply lem|intros ? ?].

(** ** The SSP *)

Section Ssp.
Context {S : Type} `{SspPort S}.
#[local] Abbreviation ok := (fun _ : S => True).

Lemma fine_dev {A} (f : S -> A * S) : fine ok (dev f) (fun _ => True).
Proof. intros s _. unfold dev. by destruct (f s). Qed.

Lemma fine_receive : fine ok SSP_ReceiveData (fun _ => True).
Proof. unfold SSP_ReceiveData. eapply fine_bind; [apply fine_dev|]. intros. by apply fine_ret. Qed.

(** The frames to send are those that the counter says, the received ones are bytes. *)
Definition counted_xfer (len : Z) (null_tx : bool) (x : xfer) : Prop :=
  (null_tx = false -> 0 <= tx_cnt x /\ tx_cnt x + Z.of_nat (length (wdata x)) = len) /\
  Forall byte_ok (rdata x).

Lemma fine_send len null_tx x : len < 4294967296 -> counted_xfer len null_tx x ->
  fine ok (send_frame 0 len null_tx x) (counted_xfer len null_tx).
Proof.
  intros Hl [Hw Hr]. unfold send_frame. eapply fine_bind; [apply fine_dev|]. intros sr _.
  apply fine_if; [|intros _; by apply fine_ret]. intros [_ Hn%negb_true_iff%Z.eqb_neq]%andb_true_iff.
  destruct null_tx.
  - eapply fine_bind; [by apply fine_modify|]. intros _ _. by apply fine_ret.
  - destruct (Hw eq_refl) as [H1 H2]. destruct x as [t r st wd rd]. simpl in *. destruct wd as [|d ds]; [simpl in H2; lia|].
    eapply fine_bind; [by apply fine_modify|]. intros _ _. apply fine_ret. split; [|done].
    intros _. simpl in *. unfold u32, frame_size. simpl. lia.
Qed.

Lemma fine_drain len null_tx null_rx fuel x : counted_xfer len null_tx x ->
  fine ok (while fuel (drain_body 0 len null_rx) x) (counted_xfer len null_tx).
Proof.
  intros Hx. apply (fine_while ok fuel _ (counted_xfer len null_tx)); [|done].
  clear x Hx. intros x [Hw Hr]. unfold drain_body. eapply fine_bind; [apply fine_dev|]. intros sr _.
  apply fine_if; [|intros _; by apply fine_ret]. intros _.
  eapply fine_bind; [apply fine_receive|]. intros d _. apply fine_ret. destruct null_rx; [done|].
  split; [done|]. simpl. apply Forall_app. split; [done|]. repeat constructor; unfold u8; lia.
Qed.

Lemma fine_transfer fuel tx null_rx len : 0 <= len < 4294967296 ->
  (forall l, tx = Some l -> len = Z.of_nat (length l)) ->
  fine ok (SSP_ReadWrite fuel 0 tx null_rx len) (fun r => Forall byte_ok (rdata (snd r))).
Proof.
  intros Hl Htx. unfold SSP_ReadWrite. set (null_tx := if tx is Some _ then false else true).
  eapply fine_bind.
  { apply (fine_while ok fuel clear_body (fun _ => True) (fun _ => True)); [|done]. intros [] _. unfold clear_body.
    eapply fine_bind; [apply fine_dev|]. intros sr _. apply fine_if; [intros _|intros _; by apply fine_ret].
    eapply fine_bind; [apply fine_receive|]. intros. by apply fine_ret. }
  intros _ _. eapply fine_bind; [by apply fine_modify|]. intros _ _.
  eapply fine_bind.
  { apply (fine_while ok fuel _ (counted_xfer len null_tx) (fun r => counted_xfer len null_tx (snd r))).
    - intros x Hx. unfold poll_body. apply fine_if; [intros _; by apply fine_ret|intros _].
      eapply fine_bind; [apply fine_send; [lia|done]|]. intros x1 Hx1.
      eapply fine_bind; [apply fine_dev|]. intros st _. apply fine_if; [intros _; by apply fine_ret|intros _].
      eapply fine_bind; [by apply fine_drain|]. intros x2 Hx2. by apply fine_ret.
    - split; [|done]. intros E. simpl. destruct tx as [l|]; [|done]. rewrite (Htx l eq_refl). simpl. lia. }
  intros [okk x] [_ Hx]. by apply fine_ret.
Qed.
End Ssp.

(** ** The driver *)

(** Every variable of mmc.c fits its type. *)
Record typed {S} (w : mmc S) : Prop := {
  ty_stat : byte_ok (Stat w);
  ty_timer1 : byte_ok (Timer1 w);
  ty_timer2 : byte_ok (Timer2 w);
  ty_card : byte_ok (CardType w);
  ty_pv : byte_ok (pv w)
}.

Lemma byte_land a m : byte_ok a -> byte_ok (Z.land a m).
Proof.
  unfold byte_ok. intros Ha. assert (Z.land a m = Z.land a (Z.land (Z.ones 8) m)) as ->.
  { rewrite Z.land_assoc, Z.land_ones by lia. change (2 ^ 8) with 256. by rewrite Z.mod_small. }
  rewrite (Z.land_comm (Z.ones 8) m), Z.land_assoc, Z.land_ones by lia. change (2 ^ 8) with 256. lia.
Qed.

Lemma byte_lor_8 a m : byte_ok a -> byte_ok m -> byte_ok (Z.lor a m).
Proof.
  unfold byte_ok. intros Ha Hm. assert (forall x, 0 <= x < 256 -> Z.land x (Z.ones 8) = x) as Hx.
  { intros x Hx. rewrite Z.land_ones by lia. by apply Z.mod_small. }
  rewrite <- (Hx a Ha), <- (Hx m Hm), <- Z.land_lor_distr_l, Z.land_ones by lia. change (2 ^ 8) with 256. lia.
Qed.

(** The cases of a conditional result. *)
Ltac branch := match goal with |- context [if ?b then _ else _] => destruct b end.

(** An array of [n] bytes. *)
Definition buffer (n : nat) (l : list Z) : Prop := length l = n /\ Forall byte_ok l.

(** What remains of a block fits the buffer, in whole groups of four bytes. *)
Definition block_left (n : nat) (q : list Z * Z * Z) : Prop :=
  let '(l, i, r) := q in
  exists k, r = 4 * Z.of_nat (Datatypes.S k) /\ buffer n l /\ 0 <= i /\ i + r <= Z.of_nat n /\ r < 4294967296.

Section Driver.
Context {S : Type} `{Socket S} (fuel : nat).
#[local] Abbreviation fineD := (fine (@typed S)).

Lemma fine_zoom {A} (m : M S A) Q : fine (fun _ => True) m Q -> fineD (zoom m) Q.
Proof.
  intros Hm w Hw. unfold zoom. specialize (Hm (view w) I). destruct (m (view w)) as [[a s]|f]; [|done].
  split; [|apply Hm]. destruct Hw. by constructor.
Qed.

Lemma fine_set (f : mmc S -> mmc S) : (forall w, typed w -> typed (f w)) -> fineD (modify f) (fun _ => True).
Proof. apply fine_modify. Qed.

Lemma fine_pins (f : S -> S) : fineD (zoom (modify f)) (fun _ => True).
Proof. apply fine_zoom. by apply fine_modify. Qed.

Lemma fine_timerproc : fineD disk_timerproc (fun _ => True).
Proof.
  unfold disk_timerproc. eapply fine_bind.
  { apply fine_set. intros w []. constructor; simpl; try done; unfold count_down, byte_ok in *; case_match; lia. }
  intros _ _. eapply fine_bind; [by apply (fine_gets _ _ (fun _ => True))|]. intros n _.
  eapply fine_bind; [apply fine_zoom, fine_dev|]. intros pin _.
  eapply fine_bind.
  { apply fine_set. intros w []. constructor; simpl; try done. by branch. }
  intros _ _. unfold when. apply fine_if; [|intros _; by apply fine_ret]. intros _.
  apply fine_set. intros w []. constructor; simpl; try done. case_match; [by apply byte_land|by apply byte_lor_8].
Qed.

Lemma fine_interrupts : fineD interrupts (fun _ => True).
Proof.
  unfold interrupts. eapply fine_bind; [apply fine_zoom, fine_dev|]. intros n _.
  induction n as [|n IH]; cbn [timerproc_times]; [by apply fine_ret|].
  eapply fine_bind; [apply fine_timerproc|]. by intros _ _.
Qed.

Lemma fine_xmit d : fineD (xmit_spi fuel d) (fun _ => True).
Proof.
  unfold xmit_spi, SSPSend. eapply fine_bind.
  { apply fine_zoom, (fine_transfer fuel (Some [u8 d]) true); [done|]. by intros l [= <-]. }
  intros _ _. apply fine_interrupts.
Qed.

Lemma fine_SSPReceive : fineD (SSPReceive fuel 1) (Forall byte_ok).
Proof.
  unfold SSPReceive. eapply fine_bind; [by apply fine_zoom, (fine_transfer fuel None false)|]. intros r Hr.
  eapply fine_bind; [apply fine_interrupts|]. intros _ _. by apply fine_ret.
Qed.

Lemma fine_rcvr : fineD (rcvr_spi fuel) byte_ok.
Proof.
  unfold rcvr_spi. eapply fine_bind; [apply fine_SSPReceive|]. intros l Hl. apply fine_ret.
  destruct l as [|b l]; [done|]. by apply Forall_cons in Hl as [? _].
Qed.

Lemma fine_rcvr_m n dst i : buffer n dst -> 0 <= i < Z.of_nat n -> fineD (rcvr_spi_m fuel dst i) (buffer n).
Proof.
  intros [El Hb] Hi. unfold rcvr_spi_m. eapply fine_bind; [apply fine_SSPReceive|].
  intros [|b l] Hl; [by apply fine_ret|]. apply Forall_cons in Hl as [Hx _].
  intros w Hw. rewrite aset_ok by lia. split; [done|]. split; [by rewrite length_insert|by apply Forall_insert].
Qed.

Lemma fine_wait : fineD (wait_ready fuel) byte_ok.
Proof.
  unfold wait_ready. eapply fine_bind.
  { apply fine_set. intros w []. by constructor. }
  intros _ _. eapply fine_bind; [apply fine_rcvr|]. intros _ _.
  apply (fine_while _ fuel _ (fun _ => True)); [|done]. intros [] _. unfold wait_body.
  eapply fine_bind; [apply fine_rcvr|]. intros res Hr.
  eapply fine_bind; [by apply (fine_gets _ _ (fun _ => True))|]. intros t _. apply fine_ret. by branch.
Qed.

Lemma fine_deselect : fineD (deselect fuel) (fun _ => True).
Proof.
  unfold deselect. eapply fine_bind; [apply fine_pins|]. intros _ _.
  eapply fine_bind; [apply fine_rcvr|]. intros. by apply fine_ret.
Qed.

Lemma fine_select : fineD (select fuel) (fun _ => True).
Proof.
  unfold select. eapply fine_bind; [apply fine_pins|]. intros _ _.
  eapply fine_bind; [apply fine_wait|]. intros r _. apply fine_if; intros _; [|by apply fine_ret].
  eapply fine_bind; [apply fine_deselect|]. intros. by apply fine_ret.
Qed.

(** A block stays within the buffer that it goes to. *)
Lemma fine_block_body n q : block_left n q ->
  fineD (block_body fuel q) (fun c => match c with Continue q' => block_left n q' | Break l => buffer n l end).
Proof.
  destruct q as [[l i] r]. intros (k & -> & El & Hi & Hle & Hr). unfold block_body.
  do 4 (eapply fine_bind; [apply (fine_rcvr_m n); [done|lia]|]; intros ? ?).
  apply fine_ret. assert (u32 (4 * Z.of_nat (Datatypes.S k) - 4) = 4 * Z.of_nat k) as -> by (unfold u32; lia).
  destruct k as [|k]; [done|].
  destruct (Z.eqb_spec (4 * Z.of_nat (Datatypes.S k)) 0); [lia|]. exists k. split; [done|]. split; [done|]. lia.
Qed.

Lemma fine_rcvr_block n buff p m : buffer n buff -> 0 <= p -> p + 4 * Z.of_nat (Datatypes.S m) <= Z.of_nat n ->
  4 * Z.of_nat (Datatypes.S m) < 4294967296 ->
  fineD (rcvr_datablock fuel buff p (4 * Z.of_nat (Datatypes.S m))) (fun r => buffer n (snd r)).
Proof.
  intros Hb Hp Hl H32. unfold rcvr_datablock. eapply fine_bind.
  { apply fine_set. intros w []. by constructor. }
  intros _ _. eapply fine_bind.
  { apply (fine_while _ fuel _ (fun _ => True) (fun _ => True)); [|done]. intros [] _. unfold token_body.
    eapply fine_bind; [apply fine_rcvr|]. intros tk _.
    eapply fine_bind; [by apply (fine_gets _ _ (fun _ => True))|]. intros t _. apply fine_ret. by branch. }
  intros tk _. apply fine_if; intros _; [by apply fine_ret|]. eapply fine_bind.
  { apply (fine_while _ fuel _ (block_left n) (buffer n)); [apply fine_block_body|by exists m]. }
  intros l El. eapply fine_bind; [apply fine_rcvr|]. intros _ _.
  eapply fine_bind; [apply fine_rcvr|]. intros _ _. by apply fine_ret.
Qed.

Lemma fine_xmit_block buff p token : 0 <= p -> (token <> 0xFD -> p + 512 <= Z.of_nat (length buff)) ->
  fineD (xmit_datablock fuel buff p token) (fun _ => True).
Proof.
  intros Hp Hl. unfold xmit_datablock. eapply fine_bind; [apply fine_wait|]. intros r _.
  apply fine_if; intros _; [by apply fine_ret|]. eapply fine_bind; [apply fine_xmit|]. intros _ _.
  apply fine_if; [intros _; by apply fine_ret|]. intros Ht%Z.eqb_neq. specialize (Hl Ht). eapply fine_bind.
  { apply (fine_while _ fuel _ (fun q => let '(i, wc) := q in exists k, wc = Z.of_nat (Datatypes.S k) mod 256 /\
      (k < 256)%nat /\ 0 <= i /\ i + 2 * Z.of_nat (Datatypes.S k) <= Z.of_nat (length buff)) (fun _ => True)).
    - intros [i wc] (k & -> & Hk & Hi & Hle). unfold xmit_body.
      eapply fine_bind; [apply fine_aget; lia|]. intros b0 _. eapply fine_bind; [apply fine_xmit|]. intros _ _.
      eapply fine_bind; [apply fine_aget; lia|]. intros b1 _. eapply fine_bind; [apply fine_xmit|]. intros _ _.
      apply fine_ret. assert (u8 (Z.of_nat (Datatypes.S k) mod 256 - 1) = Z.of_nat k) as -> by (unfold u8; lia).
      destruct k as [|k]; [done|]. destruct (Z.eqb_spec (Z.of_nat (Datatypes.S k)) 0); [lia|].
      exists k. split; [lia|]. lia.
    - exists 255%nat. split; [done|]. lia. }
  intros _ _. eapply fine_bind; [apply fine_xmit|]. intros _ _. eapply fine_bind; [apply fine_xmit|]. intros _ _.
  eapply fine_bind; [apply fine_rcvr|]. intros resp _. by apply fine_ret.
Qed.

Lemma fine_send_plain cmd arg : fineD (send_plain fuel cmd arg) byte_ok.
Proof.
  unfold send_plain. eapply fine_bind; [apply fine_deselect|]. intros _ _.
  eapply fine_bind; [apply fine_select|]. intros ok _. apply fine_if; intros _; [by apply fine_ret|].
  do 6 (eapply fine_bind; [apply fine_xmit|]; intros _ _).
  eapply fine_bind.
  { unfold when. apply fine_if; intros _; [|by apply (fine_ret _ tt (fun _ => True))].
    eapply fine_bind; [apply fine_rcvr|]. intros. by apply fine_ret. }
  intros _ _. apply (fine_while _ fuel _ (fun _ => True)); [|done]. intros n _. unfold response_body.
  eapply fine_bind; [apply fine_rcvr|]. intros res Hr. apply fine_if; intros _; apply fine_ret; [done|by branch].
Qed.

Lemma fine_send_cmd cmd arg : fineD (send_cmd fuel cmd arg) byte_ok.
Proof.
  unfold send_cmd. apply fine_if; intros _; [apply fine_send_plain|].
  eapply fine_bind; [apply fine_send_plain|]. intros res Hr. apply fine_if; intros _; [by apply fine_ret|].
  apply fine_send_plain.
Qed.

Lemma fine_rcvr_bytes n : fineD (rcvr_bytes fuel n) (buffer n).
Proof.
  induction n as [|n IH]; cbn [rcvr_bytes]; [by apply fine_ret|].
  eapply fine_bind; [apply fine_rcvr|]. intros b Hb. eapply fine_bind; [apply IH|]. intros l [El Hl].
  apply fine_ret. split; [simpl; congruence|by constructor].
Qed.

Lemma fine_leave_idle cmd arg : fineD (leave_idle fuel cmd arg) (fun _ => True).
Proof.
  apply (fine_while _ fuel _ (fun _ => True)); [|done]. intros [] _. unfold leave_idle_body.
  eapply fine_bind; [by apply (fine_gets _ _ (fun _ => True))|]. intros t _. apply fine_if; intros _; [by apply fine_ret|].
  eapply fine_bind; [apply fine_send_cmd|]. intros r _. apply fine_ret. by branch.
Qed.

Lemma fine_Stat : fineD (gets Stat) byte_ok.
Proof. apply fine_gets. by intros w []. Qed.

Lemma fine_CardType : fineD (gets CardType) byte_ok.
Proof. apply fine_gets. by intros w []. Qed.

Lemma fine_Timer1 : fineD (gets Timer1) byte_ok.
Proof. apply fine_gets. by intros w []. Qed.

Lemma fine_init_sd2 : fineD (init_sd2 fuel) byte_ok.
Proof.
  unfold init_sd2. eapply fine_bind; [apply fine_rcvr_bytes|]. intros ocr [El _].
  do 2 (eapply fine_bind; [apply fine_aget; lia|]; intros ? _).
  apply fine_if; intros _; [|by apply fine_ret]. eapply fine_bind; [apply fine_leave_idle|]. intros _ _.
  eapply fine_bind; [apply fine_Timer1|]. intros t _. apply fine_if; intros _; [by apply fine_ret|].
  eapply fine_bind; [apply fine_send_cmd|]. intros r _. apply fine_if; intros _; [by apply fine_ret|].
  eapply fine_bind; [apply fine_rcvr_bytes|]. intros ocr' [El' _].
  eapply fine_bind; [apply fine_aget; lia|]. intros o0 _. apply fine_ret. by branch.
Qed.

Lemma fine_init_old : fineD (init_old fuel) byte_ok.
Proof.
  unfold init_old. eapply fine_bind; [apply fine_send_cmd|]. intros r _.
  destruct (r <=? 1); (eapply fine_bind; [apply fine_leave_idle|]; intros _ _);
    (eapply fine_bind; [apply fine_Timer1|]; intros t _); (apply fine_if; intros _; [by apply fine_ret|]);
    (eapply fine_bind; [apply fine_send_cmd|]; intros r' _); apply fine_ret; by branch.
Qed.

Lemma fine_initialize drv : fineD (disk_initialize fuel drv) byte_ok.
Proof.
  unfold disk_initialize. do 3 (eapply fine_bind; [apply fine_pins|]; intros _ _).
  apply fine_if; intros _; [by apply fine_ret|]. eapply fine_bind; [apply fine_Stat|]. intros s _.
  apply fine_if; intros _; [apply fine_Stat|]. eapply fine_bind; [apply fine_pins|]. intros _ _.
  eapply fine_bind; [apply fine_rcvr_bytes|]. intros _ _. eapply fine_bind; [apply fine_send_cmd|]. intros r _.
  eapply fine_bind.
  { apply fine_if; intros _; [by apply (fine_ret _ 0 byte_ok)|]. eapply fine_bind.
    { apply fine_set. intros w []. by constructor. }
    intros _ _. eapply fine_bind; [apply fine_send_cmd|]. intros r8 _.
    apply fine_if; intros _; [apply fine_init_sd2|apply fine_init_old]. }
  intros ty Hty. eapply fine_bind.
  { apply fine_set. intros w []. by constructor. }
  intros _ _. eapply fine_bind; [apply fine_deselect|]. intros _ _. eapply fine_bind.
  { apply fine_if; intros _; [|apply fine_pins]. apply fine_set. intros w []. constructor; simpl; try done.
    by apply byte_land. }
  intros _ _. apply fine_Stat.
Qed.

(** ** Sectors *)

Lemma fine_read_single buff address : buffer 512 buff ->
  fineD (read_single fuel buff address) (fun r => buffer 512 (fst r)).
Proof.
  intros Hb. unfold read_single. eapply fine_bind; [apply fine_send_cmd|]. intros r _.
  apply fine_if; intros _; [by apply fine_ret|].
  eapply fine_bind; [apply (fine_rcvr_block 512 _ 0 127); done || lia|]. intros b Hr. by apply fine_ret.
Qed.

(** The blocks of a multiple transfer that remain fit the buffer. *)
Lemma fine_read_multiple k buff address : buffer (512 * Datatypes.S k) buff ->
  fineD (read_multiple fuel buff address (Z.of_nat (Datatypes.S k))) (fun r => buffer (512 * Datatypes.S k) (fst r)).
Proof.
  intros Hb. unfold read_multiple. eapply fine_bind; [apply fine_send_cmd|]. intros r _.
  apply fine_if; intros _; [by apply fine_ret|]. eapply fine_bind.
  { apply (fine_while _ fuel _ (fun q => let '(l, i, c) := q in exists j, c = Z.of_nat (Datatypes.S j) /\
      buffer (512 * Datatypes.S k) l /\ 0 <= i /\ i + 512 * c <= Z.of_nat (512 * Datatypes.S k))
      (fun r => buffer (512 * Datatypes.S k) (fst r))).
    - intros [[l i] c] (j & -> & Hl & Hi & Hle). unfold read_blocks_body.
      eapply fine_bind; [apply (fine_rcvr_block (512 * Datatypes.S k) _ i 127); done || lia|]. intros b Hr.
      apply fine_if; intros _; apply fine_ret; [done|]. destruct (Z.eqb_spec (Z.of_nat (Datatypes.S j) - 1) 0); [done|].
      destruct j as [|j]; [lia|]. exists j. split; [lia|]. split; [done|]. lia.
    - exists k. split; [done|]. split; [done|]. lia. }
  intros [l c] Hr. eapply fine_bind; [apply fine_send_cmd|]. intros _ _. by apply fine_ret.
Qed.

Lemma fine_read drv k buff sector : buffer (512 * k) buff ->
  fineD (disk_read fuel drv buff sector (Z.of_nat k)) (fun r => buffer (512 * k) (snd r)).
Proof.
  intros Hb. unfold disk_read. apply fine_if; [intros _; by apply fine_ret|]. intros [_ Hk%Z.eqb_neq]%orb_false_iff.
  eapply fine_bind; [apply fine_Stat|]. intros s _. apply fine_if; intros _; [by apply fine_ret|].
  eapply fine_bind; [apply fine_CardType|]. intros ty _. destruct k as [|k]; [done|]. eapply fine_bind.
  { apply (fine_if _ _ _ _ (fun r => buffer (512 * Datatypes.S k) (fst r))); [|intros _; by apply fine_read_multiple].
    intros E%Z.eqb_eq. assert (k = 0%nat) as -> by lia. by apply fine_read_single. }
  intros r Hr. eapply fine_bind; [apply fine_deselect|]. intros _ _. by apply fine_ret.
Qed.

Lemma fine_write_multiple k buff ty address : length buff = (512 * Datatypes.S k)%nat ->
  fineD (write_multiple fuel buff ty address (Z.of_nat (Datatypes.S k))) (fun _ => True).
Proof.
  intros El. unfold write_multiple. eapply fine_bind.
  { unfold when. apply fine_if; intros _; [|by apply (fine_ret _ tt (fun _ => True))].
    eapply fine_bind; [apply fine_send_cmd|]. intros. by apply fine_ret. }
  intros _ _. eapply fine_bind; [apply fine_send_cmd|]. intros r _.
  apply fine_if; intros _; [by apply fine_ret|]. eapply fine_bind.
  { apply (fine_while _ fuel _ (fun q => let '(i, c) := q in exists j, c = Z.of_nat (Datatypes.S j) /\
      0 <= i /\ i + 512 * c <= Z.of_nat (length buff)) (fun _ => True)); [|exists k; lia].
    intros [i c] (j & -> & Hi & Hle). unfold write_blocks_body.
    eapply fine_bind; [apply fine_xmit_block; lia|]. intros ok _.
    apply fine_if; intros _; apply fine_ret; [done|]. destruct (Z.eqb_spec (Z.of_nat (Datatypes.S j) - 1) 0); [done|].
    destruct j as [|j]; [lia|]. exists j. lia. }
  intros c _. eapply fine_bind; [by apply fine_xmit_block|]. intros. by apply fine_ret.
Qed.

Lemma fine_write drv k buff sector : length buff = (512 * k)%nat ->
  fineD (disk_write fuel drv buff sector (Z.of_nat k)) (fun _ => True).
Proof.
  intros El. unfold disk_write. apply fine_if; [intros _; by apply fine_ret|]. intros [_ Hk%Z.eqb_neq]%orb_false_iff.
  eapply fine_bind; [apply fine_Stat|]. intros s _. apply fine_if; intros _; [by apply fine_ret|].
  apply fine_if; intros _; [by apply fine_ret|].
  eapply fine_bind; [apply fine_CardType|]. intros ty _. destruct k as [|k]; [done|]. eapply fine_bind.
  { apply (fine_if _ _ _ _ (fun _ => True)); [|intros _; by apply fine_write_multiple].
    intros _. unfold write_single. eapply fine_bind; [apply fine_send_cmd|]. intros r _.
    apply fine_if; intros _; [by apply fine_ret|]. eapply fine_bind; [apply fine_xmit_block; lia|].
    intros. by apply fine_ret. }
  intros r _. eapply fine_bind; [apply fine_deselect|]. intros _ _. by apply fine_ret.
Qed.

(** ** [disk_ioctl] *)

(** What is stored fits the type that it is stored with. *)
Definition out_typed (o : ioctl_out) : Prop :=
  match o with
  | Nothing => True
  | Dword v => 0 <= v < 4294967296
  | Word v => 0 <= v < 65536
  | Bytes l => Forall byte_ok l
  end.
#[local] Abbreviation answer := (fun r : DRESULT * ioctl_out => out_typed (snd r)).

Lemma fine_block_of cmd m : 4 * Z.of_nat (Datatypes.S m) < 4294967296 ->
  fineD (block_of fuel cmd (4 * Z.of_nat (Datatypes.S m))) (fun o => from_option (Forall byte_ok) True o).
Proof.
  intros Hm. unfold block_of. eapply fine_bind; [apply fine_send_cmd|]. intros r _.
  apply fine_if; intros _; [by apply fine_ret|]. eapply fine_bind.
  { apply (fine_rcvr_block (4 * Datatypes.S m) _ 0 m); try lia. split; [rewrite length_replicate; lia|].
    by apply Forall_replicate. }
  intros [b l] [_ Hl]. apply fine_ret. by destruct b.
Qed.

Lemma lsl_typed x n : 0 <= lsl x n < 4294967296.
Proof. unfold lsl. case_match; [unfold u32|]; lia. Qed.

Lemma csd_byte csd i : Forall byte_ok csd -> byte_ok (csd_at csd i).
Proof.
  intros Hl. unfold csd_at. destruct (csd !! i) as [b|] eqn:E; [|done].
  rewrite Forall_lookup in Hl. by apply (Hl i).
Qed.

Lemma sector_count_typed csd : 0 <= sector_count csd < 4294967296.
Proof. unfold sector_count. case_match; [unfold u32; lia|apply lsl_typed]. Qed.

Lemma land_le x m k : 0 <= m < 2 ^ k -> 0 <= k -> 0 <= Z.land x m < 2 ^ k.
Proof.
  intros Hm Hk. assert (Z.land x m = Z.land (Z.land x m) (Z.ones k)) as ->.
  { rewrite <- Z.land_assoc, (Z.land_ones m) by lia. by rewrite Z.mod_small. }
  rewrite Z.land_ones by lia. apply Z.mod_pos_bound. lia.
Qed.

Lemma erase_mmc_typed csd : 0 <= erase_mmc csd < 4294967296.
Proof.
  unfold erase_mmc. pose proof (land_le (csd_at csd 10) 124 7 ltac:(lia) ltac:(lia)).
  pose proof (land_le (csd_at csd 11) 3 2 ltac:(lia) ltac:(lia)).
  pose proof (land_le (csd_at csd 11) 224 8 ltac:(lia) ltac:(lia)).
  rewrite !Z.shiftr_div_pow2, Z.shiftl_mul_pow2 by lia.
  change (2 ^ 2) with 4 in *. change (2 ^ 7) with 128 in *. change (2 ^ 8) with 256 in *.
  change (2 ^ 3) with 8. change (2 ^ 5) with 32.
  set (a := Z.land (csd_at csd 10) 124 / 4 + 1). assert (0 <= a <= 32) by (subst a; lia).
  set (b := Z.land (csd_at csd 11) 3 * 8 + Z.land (csd_at csd 11) 224 / 32 + 1).
  assert (0 <= b <= 32) by (subst b; lia). clearbody a b. nia.
Qed.

Lemma fine_get_block_size : fineD (get_block_size fuel) answer.
Proof.
  unfold get_block_size. eapply fine_bind; [apply fine_CardType|]. intros ty _. apply fine_if; intros _.
  - eapply fine_bind; [apply fine_send_cmd|]. intros r _. apply fine_if; intros _; [by apply fine_ret|].
    eapply fine_bind; [apply fine_rcvr|]. intros _ _. eapply fine_bind.
    { apply (fine_rcvr_block 16 _ 0 3); try lia. split; [done|]. by apply Forall_replicate. }
    intros b _. apply fine_if; intros _; [by apply fine_ret|].
    eapply fine_bind; [apply fine_rcvr_bytes|]. intros _ _. apply fine_ret. apply lsl_typed.
  - eapply fine_bind; [by apply (fine_block_of CMD9 3)|]. intros [csd|] _; apply fine_ret; [|done]. simpl.
    branch; [apply lsl_typed|apply erase_mmc_typed].
Qed.

Lemma fine_register cmd : fineD (o ← block_of fuel cmd 16; mret (with_block o Bytes)) answer.
Proof. eapply fine_bind; [by apply (fine_block_of cmd 3)|]. intros [l|] Hl; by apply fine_ret. Qed.

Lemma fine_ioctl_card ctrl : fineD (ioctl_card fuel ctrl) answer.
Proof.
  unfold ioctl_card. apply fine_if; intros _.
  { eapply fine_bind; [apply fine_select|]. intros ok _. apply fine_if; intros _; [by apply fine_ret|].
    eapply fine_bind; [apply fine_deselect|]. intros _ _. by apply fine_ret. }
  apply fine_if; intros _.
  { eapply fine_bind; [by apply (fine_block_of CMD9 3)|]. intros [csd|] _; apply fine_ret; [|done].
    apply sector_count_typed. }
  apply fine_if; intros _; [by apply fine_ret|]. apply fine_if; intros _; [apply fine_get_block_size|].
  apply fine_if; intros _.
  { eapply fine_bind; [apply fine_CardType|]. intros ty Hty. apply fine_ret. by constructor. }
  do 2 (apply fine_if; intros _; [apply fine_register|]). apply fine_if; intros _.
  { eapply fine_bind; [apply fine_send_cmd|]. intros r _. apply fine_if; intros _; [by apply fine_ret|].
    eapply fine_bind; [apply fine_rcvr_bytes|]. intros l [_ Hl]. by apply fine_ret. }
  apply fine_if; intros _; [|by apply fine_ret].
  eapply fine_bind; [apply fine_send_cmd|]. intros r _. apply fine_if; intros _; [by apply fine_ret|].
  eapply fine_bind; [apply fine_rcvr|]. intros _ _. eapply fine_bind.
  { apply (fine_rcvr_block 64 _ 0 15); try lia. split; [done|]. by apply Forall_replicate. }
  intros [b l] [_ Hl]. apply fine_ret. by destruct b.
Qed.

Lemma fine_power code : byte_ok code -> fineD (power_control code) answer.
Proof.
  intros Hc. assert (fineD chk_power byte_ok) as Hchk.
  { unfold chk_power. eapply fine_bind; [apply fine_zoom, fine_dev|]. intros pin _. apply fine_ret. by branch. }
  unfold power_control. apply fine_if; intros _.
  { eapply fine_bind; [apply Hchk|]. intros pw _. eapply fine_bind.
    - unfold when. apply fine_if; intros _; [apply fine_pins|by apply (fine_ret _ tt (fun _ => True))].
    - intros _ _. by apply fine_ret. }
  apply fine_if; intros _.
  { eapply fine_bind; [apply fine_pins|]. intros _ _. by apply fine_ret. }
  apply fine_if; intros _; [|by apply fine_ret].
  eapply fine_bind; [apply Hchk|]. intros pw Hpw. apply fine_ret.
  exact (Forall_cons_2 _ _ _ Hc (Forall_cons_2 _ _ _ Hpw (Forall_nil_2 _))).
Qed.

Lemma fine_ioctl drv ctrl code : byte_ok code -> fineD (disk_ioctl fuel drv ctrl code) answer.
Proof.
  intros Hc. unfold disk_ioctl. apply fine_if; intros _; [by apply fine_ret|].
  apply fine_if; intros _; [by apply fine_power|]. eapply fine_bind; [apply fine_Stat|]. intros s _.
  apply fine_if; intros _; [by apply fine_ret|]. eapply fine_bind; [apply fine_ioctl_card|]. intros r Hr.
  eapply fine_bind; [apply fine_deselect|]. intros _ _. by apply fine_ret.
Qed.
End Driver.
