(* ===== verification/SdProps.v ===== *)
(** * What the memory card driver promises

    The theorems on mmc.c with a card in the socket, each applied to a card. *)

From S2P Require Import Prelude Clkpwr Fat FatTable FatFacts FatChain FatRam FatData FatFile FatReadFacts FatWriteFacts FatSeekFacts FatSyncFacts FatSpec FatAlike FatProps Ssp Mmc SdCard MmcFacts MmcBlocks MmcDisk MmcInit MmcSafe.

(** ** Sectors *)

Lemma buffer_length (buff : list Z) n : Z.of_nat (length buff) = 512 * n -> length buff = (512 * Z.to_nat n)%nat.
Proof. lia. Qed.

Lemma written_read fuel w t n l : 0 <= t -> 0 < n < 256 -> t + n <= card_sectors fuel w ->
  Z.of_nat (length l) = 512 * n -> Forall byte_ok l ->
  exists w1, disk_write fuel 0 l t n w = Ok (RES_OK, w1) /\ card_sectors fuel w1 = card_sectors fuel w /\
    (forall t', card_contents w1 t' =
       if (t <=? t') && (t' <? t + n) then slice l (t' - t) else card_contents w t') /\
    forall t' k buff, 0 <= t' -> 0 < k < 256 -> t' + k <= card_sectors fuel w ->
      Z.of_nat (length buff) = 512 * k ->
      exists w2, disk_read fuel 0 buff t' k w1 = Ok ((RES_OK, image card_contents w1 t' k), w2).
Proof.
  intros Ht Hn Hs Hl Hb.
  destruct (@write_works _ _ (card_works fuel) w t n l Ht Hn Hs Hl Hb) as (w' & E & Es & Ec).
  destruct (usable_inv fuel w ltac:(lia)) as (b & cs & c & -> & Hr & Es0).
  set (k := Z.to_nat n). assert (n = Z.of_nat k) as En by lia.
  destruct (disk_write_spec fuel b cs c t k l Hr Ht ltac:(lia) ltac:(lia) ltac:(lia) Hb) as (o & Ho & E1).
  destruct (ready_written fuel b c (Z.to_nat t) k l o Hr Ho) as [Hr' Es'].
  set (w1 := wd (waited b) true (written_card c (ram_put (c_mem c) (Z.to_nat t) l k) o)) in *. assert (w' = w1) as ->.
  { cbn [Fat.disk_write card_disk] in E. replace (Z.of_nat (length l) / 512) with (Z.of_nat k) in E by lia.
    rewrite E1 in E. congruence. }
  exists w1. rewrite En at 1. split; [done|]. split; [exact Es|]. split; [exact Ec|].
  intros t' m buff Ht' Hm Hs' Hl'. assert (m = Z.of_nat (Z.to_nat m)) as Em by lia. rewrite Em.
  eexists. unfold w1. rewrite disk_read_spec; [by rewrite image_sectors|done|done|lia| |by apply buffer_length].
  rewrite Es', <- Es0. lia.
Qed.

(** C10: what [disk_write] stores on an initialised card, of one sector or of several, is
    what [disk_read] returns; the other sectors are as before, and the card stays ready. *)
Theorem card_stores fuel w t n l : 0 <= t -> 0 < n < 256 -> t + n <= card_sectors fuel w ->
  Z.of_nat (length l) = 512 * n -> Forall byte_ok l ->
  exists w1, disk_write fuel 0 l t n w = Ok (RES_OK, w1) /\ card_sectors fuel w1 = card_sectors fuel w /\
    (forall t', card_contents w1 t' =
       if (t <=? t') && (t' <? t + n) then slice l (t' - t) else card_contents w t') /\
    forall t' k buff, 0 <= t' -> 0 < k < 256 -> t' + k <= card_sectors fuel w ->
      Z.of_nat (length buff) = 512 * k ->
      exists w2, disk_read fuel 0 buff t' k w1 = Ok ((RES_OK, image card_contents w1 t' k), w2).
Proof. apply written_read. Qed.

(** The calls on an open file, with the volume on a card. *)
Lemma session_on_card fuel turns loops cs (w : file_world (mmc socket)) a :
  implements (H := card_disk fuel) (H0 := card_works fuel) w a -> Forall typed_call cs ->
  (enough (vol w) <= loops)%nat -> (enough (vol w) <= turns)%nat ->
  Forall (fun c => call_size c < turns)%nat cs ->
  exists reps w' a', perform_all (H := card_disk fuel) turns loops cs w = Ok (reps, w') /\ asteps a cs reps a' /\
    implements (H := card_disk fuel) (H0 := card_works fuel) w' a'.
Proof. apply (session_simulates (H0 := card_works fuel)). Qed.

(** ** Initialisation *)

(** C21: [disk_initialize] tells the four kinds of card apart and leaves a drive with all
    sectors of the card and their contents, for every card with delays in these limits
    ([sane]): at most 9 bytes before it answers a command, as the specification allows, at
    least 2 before a block of data, and all waits shorter than the fuel of the loops.  The
    timeouts do not end a wait before, since nothing in the program calls
    [disk_timerproc]. *)
Theorem card_initialised fuel k mem polls ncr nac bz lat :
  let c := new_card k mem polls ncr nac bz in
  sane fuel c -> (lat + 4 <= fuel)%nat -> (256 < fuel)%nat ->
  exists w, disk_initialize fuel 0 (inserted c lat) = Ok (0, w) /\ CardType w = card_type k /\
    card_sectors fuel w = c_size c /\ forall t, 0 <= t -> card_contents w t = ram_get mem t.
Proof.
  intros c Hc Hl Hf. destruct (disk_initialize_spec fuel k mem polls ncr nac bz lat Hc Hl Hf) as (b & E & Hr & Ht).
  exists (wd b true (awake c)). split; [exact E|]. split; [exact Ht|].
  split; [by rewrite usable_wd|]. intros t Ht0. unfold card_contents. by destruct (Z.leb_spec 0 t); [|lia].
Qed.

(** C8: FatFs on the card driver on a card: when the sectors of a card of any kind hold a
    volume with a file, then after [disk_initialize] any sequence of reads, writes, seeks and
    flushes of the file is the same sequence of steps of the abstract file, for every card
    whose delays are in the limits of [sane]: at most 9 bytes before an answer, at least 2
    before a block of data, all waits shorter than the fuel. *)
Theorem file_on_card fuel k mem polls ncr nac bz lat turns loops cs f s time a :
  let c := new_card k mem polls ncr nac bz in
  sane fuel c -> (lat + 4 <= fuel)%nat -> (256 < fuel)%nat ->
  implements (mk_file_world f (mk_fworld s mem time)) a -> Forall typed_call cs ->
  (Z.to_nat (max_clust s) <= loops)%nat -> (Z.to_nat (max_clust s) <= turns)%nat ->
  Forall (fun c => call_size c < turns)%nat cs ->
  exists w reps v a', disk_initialize fuel 0 (inserted c lat) = Ok (0, w) /\
    perform_all (H := card_disk fuel) turns loops cs (mk_file_world f (mk_fworld s w time)) = Ok (reps, v) /\
    asteps a cs reps a' /\ implements (H := card_disk fuel) (H0 := card_works fuel) v a'.
Proof.
  intros c Hc Hlat Hf Hi Ha Hl Ht Hs.
  destruct (disk_initialize_spec fuel k mem polls ncr nac bz lat Hc Hlat Hf) as (b & E & Hr & _).
  set (w := wd b true (awake c)) in *.
  destruct (session_on_card fuel turns loops cs (mk_file_world f (mk_fworld s w time)) a) as (reps & v & a' & E' & Hst & Hi').
  - apply (alike_implements (H1 := card_disk fuel) (H2 := card_works fuel) mem w); [|done|done].
    by apply (usable_wd fuel b true).
  - exact Ha.
  - exact Hl.
  - exact Ht.
  - exact Hs.
  - exists w, reps, v, a'. split; [exact E|]. split; [exact E'|]. by split.
Qed.

(** The size that a CSD of version 2 gives: [C_SIZE] has 22 bits. *)
Definition c_size_v2 (csd : list Z) : Z :=
  65536 * (csd_at csd 7 mod 64) + 256 * csd_at csd 8 + csd_at csd 9.

(** C39: the sector count of a card of version 2 is right exactly for cards below 32 GiB:
    [disk_ioctl] computes it from the lower 16 of the 22 bits of the size. *)
Theorem sector_count_v2 csd : Forall byte_ok csd -> Z.shiftr (csd_at csd 0) 6 = 1 ->
  (sector_count csd = 1024 * (c_size_v2 csd + 1) <-> c_size_v2 csd < 65535).
Proof.
  intros Hb Hv. assert (forall i, byte_ok (csd_at csd i)) as Ho.
  { intros i. unfold csd_at. destruct (csd !! i) as [x|] eqn:E; [|done]. rewrite Forall_lookup in Hb. by apply (Hb i). }
  pose proof (Ho 7%nat). pose proof (Ho 8%nat). pose proof (Ho 9%nat). unfold byte_ok in *.
  unfold sector_count, c_size_v2. rewrite Hv. cbn [Z.eqb Pos.eqb].
  rewrite !Z.shiftl_mul_pow2 by lia. change (2 ^ 8) with 256. change (2 ^ 10) with 1024. unfold u16, u32. lia.
Qed.

(** ** The timeouts *)

Lemma timers_run {S} `{Socket S} n (w : mmc S) : 0 <= Timer1 w -> 0 <= Timer2 w ->
  exists w', timerproc_times n w = Ok (tt, w') /\
    Timer1 w' = Z.max 0 (Timer1 w - Z.of_nat n) /\ Timer2 w' = Z.max 0 (Timer2 w - Z.of_nat n).
Proof.
  revert w. induction n as [|n IH]; intros w H1 H2; [exists w; split; [done|]; lia|].
  assert (exists w1, disk_timerproc w = Ok (tt, w1) /\ Timer1 w1 = count_down (Timer1 w) /\
    Timer2 w1 = count_down (Timer2 w)) as (w1 & E & E1 & E2).
  { unfold disk_timerproc, zoom, dev, when, gets, modify, mbind, M_bind, mret, M_ret. simpl.
    destruct (fio_pin (sock w)) as [pin s]. simpl. destruct (_ =? _); eexists; done. }
  destruct (IH w1) as (w' & E' & F1 & F2); [rewrite E1|rewrite E2|];
    [unfold count_down; destruct (Z.eqb_spec (Timer1 w) 0); lia|unfold count_down; destruct (Z.eqb_spec (Timer2 w) 0); lia|].
  exists w'. split; [cbn [timerproc_times]; by rewrite (bind_ok _ _ _ _ _ E)|].
  rewrite F1, F2, E1, E2. unfold count_down.
  destruct (Z.eqb_spec (Timer1 w) 0), (Z.eqb_spec (Timer2 w) 0); lia.
Qed.

Lemma busy_waits fuel turns b c n : swift fuel b -> b_t2 b <> 0 -> listens c -> c_out c = replicate n 0 ->
  (turns <= n)%nat -> while turns (wait_body fuel) tt (wd b false c) = Fault OutOfFuel.
Proof.
  intros Hf Ht. revert c n. induction turns as [|turns IH]; intros c n Hl Ho Hn; [done|].
  destruct n as [|n]; [lia|]. cbn [while].
  rewrite (bind_ok _ _ _ (Continue tt) (wd b false (c{{ c_out := replicate n 0 }}))).
  - apply (IH _ n); [done|done|lia].
  - unfold wait_body.
    rewrite (bind_ok _ _ _ _ _ (rcvr_run fuel b false c 0 _ Hf (shift_out c 0 (replicate n 0) Hl Ho) ltac:(done))).
    rewrite (bind_ok _ _ _ _ _ (t2_run b false _)). by destruct (Z.eqb_spec (b_t2 b) 0).
Qed.

(** [wait_ready] is to give up after 500 ms, but the program never calls
    [disk_timerproc]: it waits for a busy card as long as the card is busy, however long. *)
Theorem busy_card_awaited fuel b c n : swift fuel b -> listens c -> c_out c = replicate n 0 ->
  (fuel < n)%nat -> wait_ready fuel (wd b false c) = Fault OutOfFuel.
Proof.
  intros Hf Hl Ho Hn. unfold wait_ready. destruct n as [|n]; [lia|].
  rewrite (bind_ok (modify _) _ (wd b false c) tt (wd (waited b) false c) eq_refl).
  rewrite (bind_ok _ _ _ _ _ (rcvr_run fuel (waited b) false c 0 _ Hf (shift_out c 0 (replicate n 0) Hl Ho) ltac:(done))).
  apply (busy_waits fuel fuel (waited b) _ n); [done|done|done|done|lia].
Qed.

(** ** Types *)

(** An outcome of the driver: its variables fit their types and the result is as said, or a
    loop still waits. *)
Definition well_typed {S A} (r : res (A * mmc S)) (Q : A -> Prop) : Prop :=
  match r with
  | Ok (a, w) => typed w /\ Q a
  | Fault f => f = OutOfFuel
  end.

(** C22: whatever the SSP, the pins and the card answer, and whenever the timer interrupt
    comes, the driver accesses its buffers within their bounds and keeps its variables and
    results within their types. *)
Theorem driver_keeps_types {S} `{Socket S} fuel drv sector k buff ctrl code (w : mmc S) :
  typed w -> buffer (512 * k) buff -> byte_ok code ->
  well_typed (disk_initialize fuel drv w) byte_ok /\
  well_typed (disk_read fuel drv buff sector (Z.of_nat k) w) (fun r => buffer (512 * k) (snd r)) /\
  well_typed (disk_write fuel drv buff sector (Z.of_nat k) w) (fun _ => True) /\
  well_typed (disk_ioctl fuel drv ctrl code w) (fun r => out_typed (snd r)).
Proof.
  intros Hw Hb Hc. split; [by apply fine_initialize|]. split; [by apply fine_read|].
  split; [by apply fine_write; [apply Hb|]|by apply fine_ioctl].
Qed.

(** ** Cards *)

Definition sample_mem : ramdisk := replicate 8 zero_sector.
Definition sample_card (k : kind) : card := new_card k sample_mem 3 2 4 5.
Definition sample_base (k : kind) : base := mk_base 0 20 50 (card_type k) 0 1.
Definition sample_drive (k : kind) : mmc socket := wd (sample_base k) true (awake (sample_card k)).

Lemma sample_sane k : sane 300 (sample_card k).
Proof. constructor; try (simpl; lia). unfold c_size, ram_size. simpl. lia. Qed.

Lemma sample_sectors k : card_sectors 300 (sample_drive k) = 8.
Proof. by destruct k; vm_compute. Qed.

Lemma card_initialised_witness :
  exists w, disk_initialize 300 0 (inserted (sample_card SDv1) 1) = Ok (0, w) /\ CardType w = CT_SD1 /\
    card_sectors 300 w = 8 /\ forall t, 0 <= t -> card_contents w t = ram_get sample_mem t.
Proof. apply (card_initialised 300 SDv1 sample_mem 3 2 4 5 1); [apply sample_sane|lia|lia]. Defined.

Lemma card_stores_witness :
  exists w1, disk_write 300 0 (replicate 1024 7) 3 2 (sample_drive MMCv3) = Ok (RES_OK, w1) /\
    card_sectors 300 w1 = card_sectors 300 (sample_drive MMCv3) /\
    (forall t', card_contents w1 t' =
       if (3 <=? t') && (t' <? 3 + 2) then slice (replicate 1024 7) (t' - 3)
       else card_contents (sample_drive MMCv3) t') /\
    forall t' k buff, 0 <= t' -> 0 < k < 256 -> t' + k <= card_sectors 300 (sample_drive MMCv3) ->
      Z.of_nat (length buff) = 512 * k ->
      exists w2, disk_read 300 0 buff t' k w1 = Ok ((RES_OK, image card_contents w1 t' k), w2).
Proof.
  apply (card_stores 300 (sample_drive MMCv3) 3 2 (replicate 1024 7)).
  - lia.
  - lia.
  - rewrite sample_sectors. lia.
  - by rewrite length_replicate.
  - by apply Forall_replicate.
Defined.

(** A card of 64 GB. *)
Definition sample_csd : list Z := [0x40; 0x0E; 0; 0x32; 0x5B; 0x59; 0; 1; 0xDB; 0xD3; 0x7F; 0x80; 0x0A; 0x40; 0; 1].

Lemma sector_count_v2_witness :
  sector_count sample_csd = 1024 * (c_size_v2 sample_csd + 1) <-> c_size_v2 sample_csd < 65535.
Proof. apply (sector_count_v2 sample_csd); [by repeat constructor|done]. Defined.

Definition busy_card : card := (awake (sample_card SDHC)){{ c_out := replicate 400 0 }}.

Lemma busy_card_awaited_witness : wait_ready 300 (wd (sample_base SDHC) false busy_card) = Fault OutOfFuel.
Proof.
  apply (busy_card_awaited 300 (sample_base SDHC) busy_card 400).
  - unfold swift. simpl. lia.
  - done.
  - done.
  - lia.
Defined.

Lemma driver_keeps_types_witness :
  well_typed (disk_read 300 0 (replicate 512 9) 2 1 (sample_drive SDHC)) (fun r => buffer 512 (snd r)) /\
  well_typed (disk_ioctl 300 0 GET_SECTOR_COUNT 0 (sample_drive SDHC)) (fun r => out_typed (snd r)).
Proof.
  destruct (driver_keeps_types 300 0 2 1 (replicate 512 9) GET_SECTOR_COUNT 0 (sample_drive SDHC)) as (_ & H1 & _ & H2).
  - constructor; simpl; vm_compute; by split.
  - split; [done|]. by apply Forall_replicate.
  - done.
  - split; [exact H1|exact H2].
Defined.

Lemma file_on_card_witness :
  exists w reps v a',
    disk_initialize 300 0 (inserted (new_card SDHC sample_disk 3 2 4 5) 1) = Ok (0, w) /\
    perform_all (H := card_disk 300) 1201 20 sample_calls (mk_file_world sample_fil (mk_fworld sample_fs w 0x3F213C00))
      = Ok (reps, v) /\
    asteps sample_afile sample_calls reps a' /\ implements (H := card_disk 300) (H0 := card_works 300) v a'.
Proof.
  apply (file_on_card 300 SDHC sample_disk 3 2 4 5 1 1201 20 sample_calls sample_fil sample_fs 0x3F213C00 sample_afile).
  - constructor; try (simpl; lia). unfold c_size, ram_size. simpl. lia.
  - lia.
  - lia.
  - exact sample_implements.
  - exact sample_typed.
  - simpl. lia.
  - simpl. lia.
  - apply (bool_decide_unpack _). vm_compute. done.
Defined.
