(* ===== verification/SspDev.v ===== *)
(** * SSP: configuration and transfers by interrupt

    The rest of lpc17xx_ssp.c: the clock and the modes of the two controllers, and transfers
    that [SSP_IntHandler] carries on.  The FIFOs and the raw interrupt status are the
    interface [SspPort] of [Ssp]; the other registers are fields. *)

From S2P Require Import Prelude Clkpwr Ssp.

Inductive LPC_SSP : Type := LPC_SSP0 | LPC_SSP1.

Definition CLKPWR_PCLKSEL_SSP1 : Z := 20.
Definition CLKPWR_PCLKSEL_SSP0 : Z := 42.
Definition CLKPWR_PCONP_PCSSP1 : Z := Z.shiftl 1 10.
Definition CLKPWR_PCONP_PCSSP0 : Z := Z.shiftl 1 21.
Definition SSP_CR0_DSS (n : Z) : Z := Z.land (n - 1) 0xF.
Definition SSP_CR0_SCR (n : Z) : Z := Z.shiftl (Z.land n 0xFF) 8.
Definition SSP_CR0_BITMASK : Z := 0xFFFF.
Definition SSP_CR1_LBM_EN : Z := Z.shiftl 1 0.
Definition SSP_CR1_SSP_EN : Z := Z.shiftl 1 1.
Definition SSP_CR1_SO_DISABLE : Z := Z.shiftl 1 3.
Definition SSP_CR1_BITMASK : Z := 0x0F.
Definition SSP_CPSR_BITMASK : Z := 0xFF.
Definition SSP_IMSC_BITMASK : Z := 0x0F.
Definition SSP_DMA_BITMASK : Z := 0x03.
Definition SSP_DATABIT_8 : Z := SSP_CR0_DSS 8.

Record SSP_CFG_Type : Type := mk_ssp_cfg {
  Databit : Z; CPHA : Z; CPOL : Z; Mode : Z; FrameFormat : Z; ClockRate : Z
}.

(** The buffers are the bytes behind the pointers, [None] for NULL. *)
Record SSP_DATA_SETUP_Type : Type := mk_ssp_setup {
  tx_data : option (list Z);
  tx_cnt : Z;
  rx_data : option (list Z);
  rx_cnt : Z;
  xf_length : Z;
  status : Z;
  callback : option Z
}.
#[export] Instance eta_SSP_DATA_SETUP_Type : Settable SSP_DATA_SETUP_Type :=
  fun c => mk_ssp_setup (tx_data c) (tx_cnt c) (rx_data c) (rx_cnt c) (xf_length c) (status c) (callback c).

(** A controller, and the driver's record of it: the frame size and the transfer. *)
Record ssp_ctl (P : Type) : Type := mk_ssp_ctl {
  CR0 : Z; CR1 : Z; CPSR : Z; IMSC : Z; DMACR : Z;
  dataword : Z;
  txrx_setup : option SSP_DATA_SETUP_Type;
  fifo : P
}.
Arguments mk_ssp_ctl {P}. Arguments CR0 {P}. Arguments CR1 {P}. Arguments CPSR {P}. Arguments IMSC {P}.
Arguments DMACR {P}. Arguments dataword {P}. Arguments txrx_setup {P}. Arguments fifo {P}.
#[export] Instance eta_ssp_ctl P : Settable (ssp_ctl P) :=
  fun s => mk_ssp_ctl (CR0 s) (CR1 s) (CPSR s) (IMSC s) (DMACR s) (dataword s) (txrx_setup s) (fifo s).
#[export] Instance lens_fifo P : Lens P (ssp_ctl P) := {| view := fifo; put := fun p s => s{{ fifo := p }} |}.

(** The two controllers, [sspcalled]: the calls of callbacks. *)
Record ssp_st (P : Type) : Type := mk_ssp_st {
  ssp0 : ssp_ctl P; ssp1 : ssp_ctl P;
  sspsc : sc_st;
  sspcalled : list Z
}.
Arguments mk_ssp_st {P}. Arguments ssp0 {P}. Arguments ssp1 {P}. Arguments sspsc {P}. Arguments sspcalled {P}.
#[export] Instance eta_ssp_st P : Settable (ssp_st P) :=
  fun s => mk_ssp_st (ssp0 s) (ssp1 s) (sspsc s) (sspcalled s).
#[export] Instance lens_sspsc P : Lens sc_st (ssp_st P) := {| view := sspsc; put := fun a s => s{{ sspsc := a }} |}.

Section Ssp.
Context {P : Type} `{SspPort P}.
#[local] Abbreviation MS := (M (ssp_st P)).

Definition of_ssp (SSPx : LPC_SSP) (s : ssp_st P) : ssp_ctl P := match SSPx with LPC_SSP0 => ssp0 s | LPC_SSP1 => ssp1 s end.
Definition put_ssp (SSPx : LPC_SSP) (c : ssp_ctl P) (s : ssp_st P) : ssp_st P :=
  match SSPx with LPC_SSP0 => s{{ ssp0 := c }} | LPC_SSP1 => s{{ ssp1 := c }} end.

Definition sreg {A} (SSPx : LPC_SSP) (f : ssp_ctl P -> A) : MS A := gets (fun s => f (of_ssp SSPx s)).
Definition sset (SSPx : LPC_SSP) (f : ssp_ctl P -> ssp_ctl P) : MS unit :=
  modify (fun s => put_ssp SSPx (f (of_ssp SSPx s)) s).
(** On the FIFOs of a controller. *)
Definition on_fifo {A} (SSPx : LPC_SSP) (m : M P A) : MS A := fun s =>
  match m (fifo (of_ssp SSPx s)) with
  | Ok (a, p) => Ok (a, put_ssp SSPx ((of_ssp SSPx s){{ fifo := p }}) s)
  | Fault f => Fault f
  end.

(** ** Configuration *)

Definition clock_body (ssp_clk target_clock : Z) (p : Z * Z * Z) : MS (ctl (Z * Z * Z) (Z * Z)) :=
  let '(cr0_div, cmp_clk, prescale) := p in
  if target_clock <? cmp_clk then
    let d := u32 (u32 (cr0_div + 1) * prescale) in
    guard (negb (d =? 0)) DivByZero ;;
    let cmp_clk := ssp_clk / d in
    if target_clock <? cmp_clk then
      let cr0_div := u32 (cr0_div + 1) in
      if 0xFF <? cr0_div then mret (Continue (0, cmp_clk, u32 (prescale + 2)))
      else mret (Continue (cr0_div, cmp_clk, prescale))
    else mret (Continue (cr0_div, cmp_clk, prescale))
  else mret (Break (cr0_div, prescale)).

Definition SSP_SetClock (fuel : nat) (SSPx : LPC_SSP) (target_clock : Z) : MS unit :=
  ssp_clk ← zoom (CLKPWR_GetPCLK (match SSPx with
                                   | LPC_SSP0 => CLKPWR_PCLKSEL_SSP0
                                   | LPC_SSP1 => CLKPWR_PCLKSEL_SSP1
                                   end));
  r ← while fuel (clock_body ssp_clk target_clock) (0, 0xFFFFFFFF, 2);
  sset SSPx (fun c => c{{ CR0 := Z.land (CR0 c) (Z.land (Z.lnot (SSP_CR0_SCR 0xFF)) SSP_CR0_BITMASK) }}) ;;
  sset SSPx (fun c => c{{ CR0 := Z.lor (CR0 c) (Z.land (SSP_CR0_SCR (fst r)) SSP_CR0_BITMASK) }}) ;;
  sset SSPx (fun c => c{{ CPSR := Z.land (snd r) SSP_CPSR_BITMASK }}).

Definition SSP_DeInit (SSPx : LPC_SSP) : MS unit :=
  zoom (CLKPWR_ConfigPPWR (match SSPx with
                            | LPC_SSP0 => CLKPWR_PCONP_PCSSP0
                            | LPC_SSP1 => CLKPWR_PCONP_PCSSP1
                            end) false).

Definition SSP_Init (fuel : nat) (SSPx : LPC_SSP) (g : SSP_CFG_Type) : MS unit :=
  zoom (CLKPWR_ConfigPPWR (match SSPx with
                            | LPC_SSP0 => CLKPWR_PCONP_PCSSP0
                            | LPC_SSP1 => CLKPWR_PCONP_PCSSP1
                            end) true) ;;
  sset SSPx (fun c => c{{ CR0 := Z.land (Z.lor (Z.lor (Z.lor (CPHA g) (CPOL g)) (FrameFormat g)) (Databit g))
                                   SSP_CR0_BITMASK }}) ;;
  sset SSPx (fun c => c{{ dataword := if SSP_DATABIT_8 <? Databit g then 1 else 0 }}) ;;
  sset SSPx (fun c => c{{ CR1 := Z.land (Mode g) SSP_CR1_BITMASK }}) ;;
  SSP_SetClock fuel SSPx (ClockRate g).

Definition SSP_ConfigStructInit : SSP_CFG_Type := mk_ssp_cfg SSP_DATABIT_8 0 0 0 0 1000000.

Definition CR1_bit (SSPx : LPC_SSP) (b : Z) (on : bool) : MS unit :=
  sset SSPx (fun c => c{{ CR1 := if on then Z.lor (CR1 c) b
                                 else Z.land (CR1 c) (Z.land (Z.lnot b) SSP_CR1_BITMASK) }}).
Definition SSP_Cmd (SSPx : LPC_SSP) (enable : bool) : MS unit := CR1_bit SSPx SSP_CR1_SSP_EN enable.
Definition SSP_LoopBackCmd (SSPx : LPC_SSP) (enable : bool) : MS unit := CR1_bit SSPx SSP_CR1_LBM_EN enable.
Definition SSP_SlaveOutputCmd (SSPx : LPC_SSP) (enable : bool) : MS unit := CR1_bit SSPx SSP_CR1_SO_DISABLE (negb enable).

(** One bit of a register. *)
Definition one_bit (n t : Z) : bool := existsb (fun k => t =? Z.shiftl 1 k) (range (Z.to_nat n)).

Definition SSP_GetStatus (SSPx : LPC_SSP) (FlagType : Z) : MS bool :=
  CHECK_PARAM (one_bit 5 FlagType) ;;
  sr ← on_fifo SSPx (dev ssp_SR); mret (negb (Z.land sr FlagType =? 0)).
Definition SSP_IntConfig (SSPx : LPC_SSP) (IntType : Z) (enable : bool) : MS unit :=
  CHECK_PARAM (one_bit 4 IntType) ;;
  sset SSPx (fun c => c{{ IMSC := if enable then Z.lor (IMSC c) IntType
                                  else Z.land (IMSC c) (Z.land (Z.lnot IntType) SSP_IMSC_BITMASK) }}).
Definition SSP_GetRawIntStatus (SSPx : LPC_SSP) (RawIntType : Z) : MS bool :=
  CHECK_PARAM (one_bit 4 RawIntType) ;;
  ris ← on_fifo SSPx (dev ssp_RIS); mret (negb (Z.land ris RawIntType =? 0)).
(** MIS is RIS as far as IMSC lets it through. *)
Definition SSP_GetIntStatus (SSPx : LPC_SSP) (IntType : Z) : MS bool :=
  CHECK_PARAM (one_bit 4 IntType) ;;
  m ← sreg SSPx IMSC;
  ris ← on_fifo SSPx (dev ssp_RIS); mret (negb (Z.land (Z.land ris m) IntType =? 0)).
Definition SSP_ClearIntPending (SSPx : LPC_SSP) (IntType : Z) : MS unit :=
  CHECK_PARAM (one_bit 2 IntType) ;; on_fifo SSPx (modify (ssp_set_ICR IntType)).
Definition SSP_DMACmd (SSPx : LPC_SSP) (DMAMode : Z) (enable : bool) : MS unit :=
  CHECK_PARAM (one_bit 2 DMAMode) ;;
  sset SSPx (fun c => c{{ DMACR := if enable then Z.lor (DMACR c) DMAMode
                                   else Z.land (DMACR c) (Z.land (Z.lnot DMAMode) SSP_DMA_BITMASK) }}).

(** ** Transfers by interrupt *)

#[local] Abbreviation SETUP := SSP_DATA_SETUP_Type.

(** [*(uint8_t * )(p + i)], or the two bytes of [*(uint16_t * )(p + i)]. *)
Definition frame_get (dw : Z) (p : list Z) (i : Z) : M P Z :=
  if dw =? 0 then aget p i
  else lo ← aget p i; hi ← aget p (i + 1); mret (lo + 256 * hi).
Definition frame_put (dw : Z) (p : list Z) (i v : Z) : M P (list Z) :=
  if dw =? 0 then aset p i (u8 v)
  else l ← aset p i (u8 v); aset l (i + 1) (u8 (v / 256)).

(** Does the transfer lack frames to send, to receive? *)
Definition tx_left (c : SETUP) : bool := negb (tx_cnt c =? xf_length c).
Definition rx_left (c : SETUP) : bool := negb (rx_cnt c =? xf_length c).

Definition send_next (dw : Z) (c : SETUP) : M P SETUP :=
  (match tx_data c with
   | None => SSP_SendData (if dw =? 0 then 0xFF else 0xFFFF)
   | Some l => d ← frame_get dw l (tx_cnt c); SSP_SendData d
   end) ;;
  mret (c{{ tx_cnt := u32 (tx_cnt c + frame_size dw) }}).

(** What has come. *)
Definition receive_body (dw : Z) (c : SETUP) : M P (ctl SETUP SETUP) :=
  sr ← dev ssp_SR;
  if negb (Z.land sr SSP_SR_RNE =? 0) && rx_left c then
    v ← SSP_ReceiveData;
    d ← (match rx_data c with
         | None => mret None
         | Some l => l ← frame_put dw l (rx_cnt c) v; mret (Some l)
         end);
    mret (Continue (c{{ rx_data := d; rx_cnt := u32 (rx_cnt c + frame_size dw) }}))
  else mret (Break c).

(** Fills the FIFO; false and the raw status at an overrun. *)
Definition fill_body (fuel : nat) (dw : Z) (c : SETUP) : M P (ctl SETUP (option Z * SETUP)) :=
  sr ← dev ssp_SR;
  if negb (Z.land sr SSP_SR_TNF =? 0) && tx_left c then
    c ← send_next dw c;
    stat ← dev ssp_RIS;
    if negb (Z.land stat SSP_RIS_ROR =? 0) then mret (Break (Some stat, c))
    else c ← while fuel (receive_body dw) c; mret (Continue c)
  else mret (Break (None, c)).

Definition call_back (c : SETUP) : MS unit :=
  match callback c with
  | Some f => modify (fun s : ssp_st P => s{{ sspcalled := sspcalled s ++ [f] }})
  | None => mret tt
  end.

Definition setup_of (SSPx : LPC_SSP) : MS SETUP :=
  o ← sreg SSPx txrx_setup;
  match o with Some c => mret c | None => fail NullDeref end.
Definition put_setup (SSPx : LPC_SSP) (c : SETUP) : MS unit := sset SSPx (fun s => s{{ txrx_setup := Some c }}).
Definition set_IMSC (SSPx : LPC_SSP) (v : Z) : MS unit := sset SSPx (fun c => c{{ IMSC := v }}).

(** An overrun: [stat] is what [status] is set to. *)
Definition overrun (SSPx : LPC_SSP) (c : SETUP) (stat : Z) : MS unit :=
  let c := c{{ status := stat }} in put_setup SSPx c ;; call_back c.

Definition SSP_IntHandler (fuel : nat) (SSPx : LPC_SSP) : MS unit :=
  set_IMSC SSPx 0 ;;
  c ← setup_of SSPx;
  dw ← sreg SSPx dataword;
  tmp ← on_fifo SSPx (dev ssp_RIS);
  let c := c{{ status := u16 tmp }} in
  put_setup SSPx c ;;
  if negb (Z.land (u16 tmp) SSP_RIS_ROR =? 0) then
    on_fifo SSPx (modify (ssp_set_ICR SSP_RIS_ROR)) ;;
    overrun SSPx c (Z.lor (status c) SSP_STAT_ERROR)
  else
    r ← (if tx_left c || rx_left c then
           c ← on_fifo SSPx (while fuel (receive_body dw) c);
           on_fifo SSPx (while fuel (fill_body fuel dw) c)
         else mret (None, c));
    let '(e, c) := r in
    match e with
    | Some _ => overrun SSPx c (Z.lor (status c) SSP_STAT_ERROR)
    | None =>
        if rx_left c || tx_left c then put_setup SSPx c ;; set_IMSC SSPx SSP_IMSC_BITMASK
        else let c := c{{ status := SSP_STAT_DONE }} in put_setup SSPx c ;; call_back c
    end.

(** [SSP_ReadWrite] with [SSP_TRANSFER_INTERRUPT]. *)
Definition SSP_ReadWrite_interrupt (fuel : nat) (SSPx : LPC_SSP) (c : SETUP) : MS Z :=
  let c := c{{ rx_cnt := 0; tx_cnt := 0; status := 0 }} in
  on_fifo SSPx (while fuel clear_body tt) ;;
  on_fifo SSPx (modify (ssp_set_ICR SSP_ICR_BITMASK)) ;;
  dw ← sreg SSPx dataword;
  put_setup SSPx c ;;
  r ← on_fifo SSPx (while fuel (fill_body fuel dw) c);
  let '(e, c) := r in
  match e with
  | Some stat => put_setup SSPx (c{{ status := Z.lor stat SSP_STAT_ERROR }}) ;; mret (-1)
  | None =>
      if rx_left c || tx_left c then put_setup SSPx c ;; set_IMSC SSPx SSP_IMSC_BITMASK ;; mret 0
      else put_setup SSPx (c{{ status := SSP_STAT_DONE }}) ;; mret 0
  end.

Definition SSP0_StdIntHandler (fuel : nat) : MS unit := SSP_IntHandler fuel LPC_SSP0.
Definition SSP1_StdIntHandler (fuel : nat) : MS unit := SSP_IntHandler fuel LPC_SSP1.
End Ssp.
