(* ===== verification/SspIrqFacts.v ===== *)
(** * SSP: transfers by interrupt

    A controller with its two FIFOs of eight frames and a partner at the other end of the
    wire ([wire]).  Frames move while the driver waits, any number of them, and one at a time
    while it runs.  [SSP_ReadWrite] and the calls of [SSP_IntHandler] exchange the buffers
    without an overrun. *)

From S2P Require Import Prelude Clkpwr Ssp SspDev.

(** ** The wire *)

(** [w_answers]: what the partner will send; [w_seen]: what it has got; [w_ticks]: does a
    frame move at the next looks at SR? *)
Record wire : Type := mk_wire {
  w_tx : list Z; w_rx : list Z;
  w_answers : list Z; w_seen : list Z;
  w_ror : bool;
  w_ticks : list bool
}.
#[export] Instance eta_wire : Settable wire := fun w =>
  mk_wire (w_tx w) (w_rx w) (w_answers w) (w_seen w) (w_ror w) (w_ticks w).

(** A frame leaves the transmit FIFO, the partner's comes; it is lost if there is no room. *)
Definition move (w : wire) : wire :=
  match w_tx w with
  | [] => w
  | d :: ds =>
      let w' := w{{ w_tx := ds; w_seen := w_seen w ++ [d]; w_answers := tail (w_answers w) }} in
      if (length (w_rx w) <? 8)%nat then w'{{ w_rx := w_rx w ++ [default 0xFF (head (w_answers w))] }}
      else w'{{ w_ror := true }}
  end.

Definition tick (w : wire) : wire :=
  match w_ticks w with
  | [] => w
  | b :: bs => let w := w{{ w_ticks := bs }} in if b then move w else w
  end.

Definition flag (b : bool) (n : Z) : Z := if b then n else 0.

Definition wire_SR (w : wire) : Z :=
  flag (length (w_tx w) =? 0)%nat 1 + flag (length (w_tx w) <? 8)%nat 2 + flag (0 <? length (w_rx w))%nat 4 +
  flag (8 <=? length (w_rx w))%nat 8 + flag (0 <? length (w_tx w))%nat 16.
Definition wire_RIS (w : wire) : Z :=
  flag (w_ror w) 1 + flag (4 <=? length (w_rx w))%nat 4 + flag (length (w_tx w) <=? 4)%nat 8.

#[export] Instance port_wire : SspPort wire := {|
  ssp_SR w := (wire_SR (tick w), tick w);
  ssp_RIS w := (wire_RIS w, w);
  ssp_DR w := (default 0 (head (w_rx w)), w{{ w_rx := tail (w_rx w) }});
  ssp_set_DR d w := if (length (w_tx w) <? 8)%nat then w{{ w_tx := w_tx w ++ [d] }} else w;
  ssp_set_ICR v w := if Z.testbit v 0 then w{{ w_ror := false }} else w
|}.

Lemma sr_tnf w : negb (Z.land (wire_SR w) SSP_SR_TNF =? 0) = (length (w_tx w) <? 8)%nat.
Proof.
  unfold wire_SR. generalize (length (w_tx w) =? 0)%nat, (length (w_tx w) <? 8)%nat, (0 <? length (w_rx w))%nat,
    (8 <=? length (w_rx w))%nat, (0 <? length (w_tx w))%nat. by intros [] [] [] [] [].
Qed.

Lemma sr_rne w : negb (Z.land (wire_SR w) SSP_SR_RNE =? 0) = (0 <? length (w_rx w))%nat.
Proof.
  unfold wire_SR. generalize (length (w_tx w) =? 0)%nat, (length (w_tx w) <? 8)%nat, (0 <? length (w_rx w))%nat,
    (8 <=? length (w_rx w))%nat, (0 <? length (w_tx w))%nat. by intros [] [] [] [] [].
Qed.

Lemma ris_ror w : w_ror w = false -> Z.land (wire_RIS w) SSP_RIS_ROR = 0.
Proof.
  intros E. unfold wire_RIS. rewrite E.
  by destruct (4 <=? length (w_rx w))%nat, (length (w_tx w) <=? 4)%nat.
Qed.

Lemma ris_low w : u16 (wire_RIS w) = wire_RIS w.
Proof.
  unfold wire_RIS. by destruct (w_ror w), (4 <=? length (w_rx w))%nat, (length (w_tx w) <=? 4)%nat.
Qed.

(** ** Steps of a controller in its place *)

Lemma sset_put {P} x f (K : ssp_ctl P) s : sset x f (put_ssp x K s) = Ok (tt, put_ssp x (f K) s).
Proof. by destruct x. Qed.
Lemma sreg_put {P A} x (f : ssp_ctl P -> A) K s : sreg x f (put_ssp x K s) = Ok (f K, put_ssp x K s).
Proof. by destruct x. Qed.
Lemma on_fifo_put {P A} x (m : M P A) (Q : A -> ssp_st P -> Prop) K s :
  wp (on_fifo x m) Q (put_ssp x K s) <-> wp m (fun a p => Q a (put_ssp x (K{{ fifo := p }}) s)) (fifo K).
Proof.
  unfold wp, on_fifo. assert (of_ssp x (put_ssp x K s) = K) as -> by (by destruct x).
  destruct (m (fifo K)) as [[a p]|]; [|done]. by destruct x.
Qed.
Lemma put_of {P} x (s : ssp_st P) : put_ssp x (of_ssp x s) s = s.
Proof. by destruct s, x. Qed.
Lemma of_put {P} x (K : ssp_ctl P) s : of_ssp x (put_ssp x K s) = K.
Proof. by destruct x. Qed.
Lemma put_put {P} x (c d : ssp_ctl P) s : put_ssp x c (put_ssp x d s) = put_ssp x c s.
Proof. by destruct x. Qed.
Lemma fifo_same {P} (K : ssp_ctl P) : K{{ fifo := fifo K }} = K.
Proof. by destruct K. Qed.

Lemma call_back_put {P} x c (K : ssp_ctl P) s :
  call_back c (put_ssp x K s) = Ok (tt, put_ssp x K (s{{ sspcalled := sspcalled s ++ option_list (callback c) }})).
Proof. unfold call_back. destruct (callback c), x, s; cbn; by rewrite ?app_nil_r. Qed.

Ltac ctl_step := apply wp_bind; (eapply wp_exact; [first [apply sset_put|apply sreg_put|apply call_back_put]|]).

(** ** A transfer under way *)

Section Transfer.
(** The buffers and the partner's frames; what the partner had seen before. *)
Context (T R A S0 : list Z) (cb : option Z).
#[local] Abbreviation len := (length T).
Context (HR : length R = len) (HA : (len <= length A)%nat) (Hn : Z.of_nat len < 4294967296)
  (HT : Forall byte_ok T) (HAb : Forall byte_ok A).

(** [i] frames handed to the controller, [j] received. *)
Record flows (i j : nat) (c : SSP_DATA_SETUP_Type) (w : wire) : Prop := {
  fl_c : c = mk_ssp_setup (Some T) (Z.of_nat i) (Some (take j A ++ drop j R)) (Z.of_nat j) (Z.of_nat len) (status c) cb;
  fl_i : (i <= len)%nat;
  fl_cnt : i = (j + length (w_rx w) + length (w_tx w))%nat;
  fl_seen : w_seen w ++ w_tx w = S0 ++ take i T;
  fl_ans : w_rx w ++ w_answers w = drop j A;
  fl_ror : w_ror w = false
}.

(** Room for a frame that moves. *)
Definition room (w : wire) : Prop := (length (w_rx w) < 8)%nat \/ w_tx w = [].

Lemma move_flows i j c w : flows i j c w -> room w -> flows i j c (move w) /\
  (length (w_rx (move w)) + length (w_tx (move w)) = length (w_rx w) + length (w_tx w))%nat /\
  length (w_tx (move w)) = pred (length (w_tx w)).
Proof.
  intros [Hc Hi Hcnt Hs Ha Hr] Hroom. unfold move. destruct (w_tx w) as [|d ds] eqn:Etx.
  { rewrite Etx. split; [by (constructor; rewrite ?Etx)|done]. }
  destruct Hroom as [Hroom|]; [|congruence]. destruct (Nat.ltb_spec (length (w_rx w)) 8); [|lia].
  assert (exists a as', w_answers w = a :: as') as (a & as' & Ea).
  { apply (f_equal length) in Ha. rewrite length_app, length_drop in Ha. cbn in Hcnt.
    destruct (w_answers w) as [|a as'] eqn:Ea; [cbn in Ha; lia|eauto]. }
  rewrite Ea in *. cbn in *. rewrite length_app. cbn. split; [|lia]. constructor; cbn; [done|done| | | |done].
  - rewrite length_app. cbn. lia.
  - by rewrite <- app_assoc.
  - by rewrite <- app_assoc.
Qed.

Lemma ticks_flows i j c w bs : flows i j c w -> flows i j c (w{{ w_ticks := bs }}).
Proof. by intros [Hc Hi Hcnt Hs Ha Hr]. Qed.

Lemma tick_flows i j c w : flows i j c w -> room w -> flows i j c (tick w) /\
  (length (w_rx (tick w)) + length (w_tx (tick w)) = length (w_rx w) + length (w_tx w))%nat /\
  (length (w_rx w) <= length (w_rx (tick w)) <= S (length (w_rx w)))%nat.
Proof.
  intros Hf Hroom. unfold tick. destruct (w_ticks w) as [|[] bs]; [auto| |].
  - destruct (move_flows i j c (w{{ w_ticks := bs }}) (ticks_flows _ _ _ _ bs Hf) Hroom) as (H1 & H2 & H3).
    split; [done|]. cbn in H2, H3 |- *. lia.
  - split; [by apply ticks_flows|]. cbn. lia.
Qed.

Lemma store_next j a : (j < len)%nat -> A !! j = Some a ->
  <[j := a]> (take j A ++ drop j R) = take (S j) A ++ drop (S j) R.
Proof.
  intros Hj Ha. pose proof (lookup_lt_Some _ _ _ Ha). rewrite (take_S_r _ _ _ Ha), <- app_assoc.
  rewrite insert_app_r_alt; rewrite length_take_le by lia; [|lia]. rewrite Nat.sub_diag.
  destruct (lookup_lt_is_Some_2 R j) as [r Hr]; [lia|]. by rewrite (drop_S _ _ _ Hr).
Qed.

Lemma received_byte a : byte_ok a -> u8 (Z.land a 0xFFFF) = a.
Proof.
  intros Ha. change 0xFFFF with (Z.ones 16). rewrite Z.land_ones by lia.
  unfold byte_ok, u8 in *. change (2 ^ 16) with 65536. lia.
Qed.

Lemma receive_frame w a rs : w_rx w = a :: rs -> SSP_ReceiveData w = Ok (Z.land a 0xFFFF, w{{ w_rx := rs }}).
Proof. intros E. unfold SSP_ReceiveData, dev, mbind, M_bind. cbn. by rewrite E. Qed.

(** One look at the receive FIFO. *)
Lemma receive_step i j c w : flows i j c w -> room w ->
  match w_rx (tick w) with
  | [] => receive_body 0 c w = Ok (Break c, tick w)
  | a :: rs => exists c', receive_body 0 c w = Ok (Continue c', (tick w){{ w_rx := rs }}) /\
      flows i (S j) c' ((tick w){{ w_rx := rs }}) /\ status c' = status c
  end.
Proof.
  intros Hf Hroom. destruct (tick_flows i j c w Hf Hroom) as ([Hc Hi Hcnt Hs Ha Hr] & _ & _).
  unfold receive_body. rewrite (bind_ok (dev ssp_SR) _ w (wire_SR (tick w)) (tick w)) by done. rewrite sr_rne.
  destruct (w_rx (tick w)) as [|a rs] eqn:Erx; [done|]. cbn in Hcnt.
  assert (A !! j = Some a) as Hj.
  { rewrite <- (Nat.add_0_r j), <- lookup_drop, <- Ha. done. }
  assert (rx_left c = true) as ->.
  { rewrite Hc. unfold rx_left. cbn. destruct (Z.eqb_spec (Z.of_nat j) (Z.of_nat len)); [lia|done]. }
  cbn [length Nat.ltb Nat.leb andb]. rewrite (bind_ok _ _ _ _ _ (receive_frame _ _ _ Erx)).
  assert (rx_data c = Some (take j A ++ drop j R)) as -> by (rewrite Hc; done).
  assert (rx_cnt c = Z.of_nat j) as -> by (rewrite Hc; done).
  unfold frame_put. cbn [Z.eqb]. rewrite received_byte by (apply (Forall_lookup_1 _ _ _ _ HAb Hj)).
  rewrite (bind_ok _ _ _ (Some (take (S j) A ++ drop (S j) R)) ((tick w){{ w_rx := rs }})).
  2:{ erewrite bind_ok; [|apply aset_ok; rewrite length_app, length_take, length_drop; lia].
      rewrite Nat2Z.id, store_next by (done || lia). done. }
  eexists. split; [done|]. split; [|done]. constructor; cbn; [|done|lia|done| |done].
  - rewrite Hc. cbn. f_equal; try done. unfold u32. lia.
  - apply (f_equal tail) in Ha. cbn in Ha. rewrite Ha. replace (S j) with (j + 1)%nat by lia. rewrite <- drop_drop. by destruct (drop j A).
Qed.

Lemma receive_loop fuel : forall i j c w, flows i j c w -> room w -> (len - j < fuel)%nat ->
  wp (while fuel (receive_body 0) c) (fun c' w' => exists j', flows i j' c' w' /\ w_rx w' = [] /\
    status c' = status c /\ (length (w_tx w') <= length (w_tx w))%nat) w.
Proof.
  induction fuel as [|fuel IH]; intros i j c w Hf Hroom Hm; [lia|]. cbn [while]. apply wp_bind.
  pose proof (receive_step i j c w Hf Hroom) as Hs. destruct (tick_flows i j c w Hf Hroom) as (Hf' & Hsum & Hle).
  destruct (w_rx (tick w)) as [|a rs] eqn:Erx.
  - eapply wp_exact; [exact Hs|]. apply wp_ret. exists j. cbn in Hsum, Hle. repeat split; [apply Hf'|apply Hf'..|done|lia].
  - destruct Hs as (c' & Hb & Hf2 & Hst). eapply wp_exact; [exact Hb|].
    eapply wp_mono; [apply (IH i (S j) c')|].
    + done.
    + destruct Hroom as [|Ht]; [left; cbn in *; lia|right]. cbn. rewrite Ht in Hsum. cbn in Hsum.
      destruct (w_tx (tick w)); [done|cbn in *; lia].
    + pose proof (fl_cnt _ _ _ _ Hf'). pose proof (fl_i _ _ _ _ Hf'). rewrite Erx in *. cbn in *. lia.
    + intros c2 w2 (j' & ? & ? & ? & Hl). exists j'. repeat split; [by apply H|by apply H..|done|congruence|cbn in *; lia].
Qed.

Lemma send_step i j c w : flows i j c w -> (i < len)%nat -> (length (w_tx w) < 8)%nat ->
  exists d c', send_next 0 c w = Ok (c', w{{ w_tx := w_tx w ++ [d] }}) /\
    flows (S i) j c' (w{{ w_tx := w_tx w ++ [d] }}) /\ status c' = status c.
Proof.
  intros [Hc Hi Hcnt Hs Ha Hr] Hlt H8. destruct (lookup_lt_is_Some_2 T i Hlt) as [d Hd].
  pose proof (Forall_lookup_1 _ _ _ _ HT Hd) as Hb.
  assert (Z.land d 0xFFFF = d) as Hdd.
  { change 0xFFFF with (Z.ones 16). rewrite Z.land_ones by lia. apply Z.mod_small. unfold byte_ok in Hb. lia. }
  exists d, (c{{ tx_cnt := u32 (tx_cnt c + frame_size 0) }}). split; [|split; [|done]].
  - unfold send_next. rewrite (bind_ok _ _ w tt (w{{ w_tx := w_tx w ++ [d] }})); [done|].
    assert (tx_data c = Some T) as -> by (rewrite Hc; done).
    assert (tx_cnt c = Z.of_nat i) as -> by (rewrite Hc; done).
    unfold frame_get. cbn [Z.eqb]. rewrite (bind_ok _ _ w d w) by (apply aget_ok; [lia|by rewrite Nat2Z.id]).
    unfold SSP_SendData, modify. rewrite Hdd. cbn -[Nat.ltb]. by destruct (Nat.ltb_spec (length (w_tx w)) 8); [|lia].
  - constructor; cbn; [|lia| | |done|done].
    + rewrite Hc. cbn. f_equal. unfold u32. lia.
    + rewrite length_app. cbn. lia.
    + by rewrite app_assoc, Hs, (take_S_r _ _ _ Hd), app_assoc.
Qed.

(** What the loops leave: eight frames at most under way, and none are left to send unless the
    transmit FIFO is full. *)
Definition paused (i j : nat) (c : SSP_DATA_SETUP_Type) (w : wire) : Prop :=
  flows i j c w /\ (length (w_rx w) + length (w_tx w) <= 8)%nat /\ (i = len \/ (8 <= length (w_tx w))%nat).

Lemma fill_loop fuel k : (len < fuel)%nat -> forall i j c w,
  flows i j c w -> w_rx w = [] -> (length (w_tx w) <= 8)%nat -> (len - i < k)%nat ->
  wp (while k (fill_body fuel 0) c) (fun r w' => fst r = None /\ status (snd r) = status c /\
    exists i' j', paused i' j' (snd r) w' /\ (j <= j')%nat) w.
Proof.
  intros Hfuel. induction k as [|k IH]; intros i j c w Hf Hrx H8 Hk; [lia|]. cbn [while]. apply wp_bind.
  destruct (tick_flows i j c w Hf) as (Hf' & Hsum & Hle); [left; rewrite Hrx; cbn; lia|].
  rewrite Hrx in Hsum, Hle. cbn in Hsum, Hle.
  assert (tx_left c = negb (i =? len)%nat) as Hl.
  { rewrite (fl_c _ _ _ _ Hf). unfold tx_left. cbn.
    destruct (Z.eqb_spec (Z.of_nat i) (Z.of_nat len)), (Nat.eqb_spec i len); done || lia. }
  unfold fill_body. apply wp_bind, (wp_exact _ (wire_SR (tick w)) (tick w)); [done|]. rewrite sr_tnf, Hl.
  pose proof (fl_i _ _ _ _ Hf') as Hin.
  destruct (Nat.ltb_spec (length (w_tx (tick w))) 8) as [Hlt|Hge], (Nat.eqb_spec i len) as [->|Hne]; cbn [andb negb].
  2:{ destruct (send_step i j c (tick w) Hf' ltac:(lia) Hlt) as (d & c1 & Hs & Hf1 & Hst).
      apply wp_bind. eapply wp_exact; [exact Hs|]. set (w1 := (tick w){{ w_tx := _ }}) in *.
      apply wp_bind, (wp_exact _ (wire_RIS w1) w1); [done|].
      rewrite ris_ror by apply (fl_ror _ _ _ _ Hf1). cbn [Z.eqb negb]. apply wp_bind.
      eapply wp_mono; [apply (receive_loop fuel (S i) j c1 w1 Hf1); [left; cbn; lia|lia]|].
      intros c2 w2 (j2 & Hf2 & Hrx2 & Hst2 & Htx2). apply wp_ret.
      pose proof (fl_cnt _ _ _ _ Hf1). pose proof (fl_cnt _ _ _ _ Hf2).
      subst w1. cbn in Htx2, H. rewrite length_app in Htx2, H. cbn in Htx2, H. rewrite Hrx2 in H0. cbn in H0.
      eapply wp_mono; [apply (IH (S i) j2 c2 w2 Hf2 Hrx2); lia|].
      intros r w3 (? & ? & i' & j' & ? & ?). split; [done|]. split; [congruence|]. exists i', j'. split; [done|lia]. }
  all: apply wp_ret, wp_ret; split; [done|]; split; [done|].
  all: eexists _, j; split; [split; [exact Hf'|split; [lia|auto]]|lia].
Qed.

(** ** The controller *)

(** The interrupts are on and there is something left to do. *)
Definition mid (i j : nat) (k : ssp_ctl wire) : Prop :=
  dataword k = 0 /\ IMSC k = SSP_IMSC_BITMASK /\ (i < len \/ j < len)%nat /\
  exists c, txrx_setup k = Some c /\ paused i j c (fifo k).

(** The buffers are exchanged. *)
Definition over (k : ssp_ctl wire) : Prop :=
  IMSC k = 0 /\ w_tx (fifo k) = [] /\ w_seen (fifo k) = S0 ++ T /\
  txrx_setup k = Some (mk_ssp_setup (Some T) (Z.of_nat len) (Some (take len A)) (Z.of_nat len) (Z.of_nat len)
                        SSP_STAT_DONE cb).

Lemma left_spec i j c w : flows i j c w ->
  rx_left c || tx_left c = negb (j =? len)%nat || negb (i =? len)%nat.
Proof.
  intros Hf. rewrite (fl_c _ _ _ _ Hf). unfold rx_left, tx_left. cbn.
  destruct (Z.eqb_spec (Z.of_nat i) (Z.of_nat len)), (Z.eqb_spec (Z.of_nat j) (Z.of_nat len)),
    (Nat.eqb_spec i len), (Nat.eqb_spec j len); done || lia.
Qed.

(** What the end of a call makes of it. *)
Lemma end_over c w : flows len len c w -> w_tx w = [] /\ w_seen w = S0 ++ T /\
  c{{ status := SSP_STAT_DONE }} = mk_ssp_setup (Some T) (Z.of_nat len) (Some (take len A)) (Z.of_nat len)
    (Z.of_nat len) SSP_STAT_DONE cb.
Proof.
  intros [Hc Hi Hcnt Hs Ha Hr]. assert (w_tx w = []) as Ht by (destruct (w_tx w); [done|cbn in Hcnt; lia]).
  rewrite Ht, app_nil_r, firstn_all in Hs. split; [done|]. split; [done|]. rewrite Hc. cbn.
  by rewrite <- HR, drop_all, app_nil_r.
Qed.

Lemma with_status i j c w z : flows i j c w -> flows i j (c{{ status := z }}) w.
Proof. intros [Hc Hi Hcnt Hs Ha Hr]. constructor; try done. rewrite Hc. done. Qed.

Lemma room_8 w : (length (w_rx w) + length (w_tx w) <= 8)%nat -> room w.
Proof. intros H8. unfold room. destruct (w_tx w); [by right|left; cbn in H8; lia]. Qed.

(** [SSP_IntHandler] goes on, or ends the transfer and calls back. *)
Lemma handler_step fuel x K i j c s : (len < fuel)%nat -> dataword K = 0 -> txrx_setup K = Some c ->
  flows i j c (fifo K) -> (length (w_rx (fifo K)) + length (w_tx (fifo K)) <= 8)%nat -> (i < len \/ j < len)%nat ->
  wp (SSP_IntHandler fuel x) (fun _ s' => exists K',
    (over K' /\ s' = put_ssp x K' (s{{ sspcalled := sspcalled s ++ option_list cb }})) \/
    (exists i' j', mid i' j' K' /\ s' = put_ssp x K' s /\ (j + length (w_rx (fifo K)) <= j')%nat)) (put_ssp x K s).
Proof.
  intros Hfuel Hdw Hc Hf H8 Hleft. destruct K as [r0 r1 ps im dm dw ox w]. cbn in Hdw, Hc, Hf, H8 |- *. subst dw ox.
  unfold SSP_IntHandler, set_IMSC, setup_of, put_setup. ctl_step. apply wp_bind. ctl_step. apply wp_ret. ctl_step.
  apply wp_bind, on_fifo_put. apply (wp_exact _ (wire_RIS w) w); [done|]. ctl_step.
  rewrite ris_low, ris_ror by apply (fl_ror _ _ _ _ Hf). cbn [Z.eqb negb].
  apply (with_status _ _ _ _ (wire_RIS w)) in Hf. set (c1 := c{{ status := wire_RIS w }}) in *.
  cbn [dataword]. rewrite orb_comm, (left_spec i j c1 w Hf).
  assert (negb (j =? len)%nat || negb (i =? len)%nat = true) as -> by
    (destruct (Nat.eqb_spec j len), (Nat.eqb_spec i len); cbn; lia || done).
  apply wp_bind, wp_bind, on_fifo_put. eapply wp_mono; [apply (receive_loop fuel i j c1 w Hf); [by apply room_8|lia]|].
  intros c2 w2 (j2 & Hf2 & Hrx2 & Hst2 & Htx2). apply on_fifo_put.
  eapply wp_mono; [apply (fill_loop fuel fuel Hfuel i j2 c2 w2 Hf2 Hrx2); lia|].
  intros [e c3] w3 (He & Hst3 & i3 & j3 & Hp & Hj). cbn in He, Hp. subst e.
  pose proof (fl_cnt _ _ _ _ Hf). pose proof (fl_cnt _ _ _ _ Hf2) as Hc2. rewrite Hrx2 in Hc2. cbn in Hc2.
  assert (j + length (w_rx w) <= j3)%nat as Hj3 by lia. destruct Hp as (Hf3 & Hp). rewrite (left_spec _ _ _ _ Hf3).
  pose proof (fl_i _ _ _ _ Hf3). pose proof (fl_cnt _ _ _ _ Hf3).
  destruct (Nat.eqb_spec j3 len) as [->|]; [destruct (Nat.eqb_spec i3 len) as [->|]|]; cbn [negb orb].
  - destruct (end_over _ _ Hf3) as (Ht & Hseen & Hend). rewrite Hend. ctl_step.
    eapply wp_exact; [apply call_back_put|]. eexists. left. split; [|done]. by repeat split.
  - lia.
  - ctl_step. eapply wp_exact; [apply sset_put|]. eexists. right. exists i3, j3. split; [|split; [done|lia]].
    split; [done|]. split; [done|]. split; [lia|]. by exists c3.
Qed.

Lemma moves_flows k i j c w : flows i j c w -> (length (w_rx w) + length (w_tx w) <= 8)%nat ->
  flows i j c (Nat.iter k move w) /\
  (length (w_rx (Nat.iter k move w)) + length (w_tx (Nat.iter k move w)) = length (w_rx w) + length (w_tx w))%nat /\
  length (w_tx (Nat.iter k move w)) = (length (w_tx w) - k)%nat.
Proof.
  intros Hf H8. induction k as [|k (H1 & H2 & H3)].
  { split; [done|]. split; [done|]. change (Nat.iter 0 move w) with w. lia. }
  change (Nat.iter (S k) move w) with (move (Nat.iter k move w)).
  destruct (move_flows i j c _ H1) as (H4 & H5 & H6); [apply room_8; lia|]. split; [done|]. lia.
Qed.
End Transfer.

(** While the driver waits [k] frames move, or as many as there are; then the controller
    interrupts, if its interrupts are on. *)
Definition wait (x : LPC_SSP) (k : nat) : M (ssp_st wire) unit := on_fifo x (modify (Nat.iter k move)).
Definition interrupt (fuel : nat) (x : LPC_SSP) : M (ssp_st wire) unit :=
  m ← sreg x IMSC;
  when (negb (m =? 0)) (match x with LPC_SSP0 => SSP0_StdIntHandler fuel | LPC_SSP1 => SSP1_StdIntHandler fuel end).
Definition served (fuel : nat) (x : LPC_SSP) (ws : list nat) : M (ssp_st wire) unit :=
  foreach ws (fun k => wait x k ;; interrupt fuel x).

Lemma wait_put x k (K : ssp_ctl wire) s :
  wait x k (put_ssp x K s) = Ok (tt, put_ssp x (K{{ fifo := Nat.iter k move (fifo K) }}) s).
Proof. by destruct x. Qed.

Section Served.
Context (T R A S0 : list Z) (cb : option Z).
#[local] Abbreviation len := (length T).
Context (HR : length R = len) (HA : (len <= length A)%nat) (Hn : Z.of_nat len < 4294967296)
  (HT : Forall byte_ok T) (HAb : Forall byte_ok A).
#[local] Abbreviation over := (over T A S0 cb).
#[local] Abbreviation mid := (mid T R A S0 cb).

Lemma idle_moves k w : w_tx w = [] -> Nat.iter k move w = w.
Proof.
  intros E. induction k as [|k IH]; [done|].
  change (Nat.iter (S k) move w) with (move (Nat.iter k move w)). rewrite IH. unfold move. by rewrite E.
Qed.

Lemma over_stays fuel x ws K s : over K -> served fuel x ws (put_ssp x K s) = Ok (tt, put_ssp x K s).
Proof.
  intros (Hi & Ht & _). induction ws as [|k ws IH]; [done|]. cbn [served foreach].
  rewrite (bind_ok _ _ _ tt (put_ssp x K s)); [exact IH|]. rewrite (bind_ok _ _ _ _ _ (wait_put _ _ _ _)).
  rewrite idle_moves, fifo_same by done. unfold interrupt. by rewrite (bind_ok _ _ _ _ _ (sreg_put _ _ _ _)), Hi.
Qed.

(** As many waits as there are frames still to move, and one more, end the transfer. *)
Lemma served_over fuel x : (len < fuel)%nat -> forall ws i j K s, mid i j K -> Forall (fun k => 1 <= k)%nat ws ->
  (len - (j + length (w_rx (fifo K))) < length ws)%nat ->
  exists K', over K' /\ served fuel x ws (put_ssp x K s) =
    Ok (tt, put_ssp x K' (s{{ sspcalled := sspcalled s ++ option_list cb }})).
Proof.
  intros Hfuel. induction ws as [|k ws IH]; intros i j K s Hm Hw Hlen; [cbn in Hlen; lia|].
  apply Forall_cons in Hw as [Hk Hw]. destruct Hm as (Hdw & HI & Hleft & c & Hc & Hf & H8 & Hfull).
  destruct (moves_flows _ _ _ _ _ HR HA k i j c (fifo K) Hf H8) as (Hf1 & Hsum & Htx).
  set (K1 := K{{ fifo := Nat.iter k move (fifo K) }}).
  assert ((wait x k ;; interrupt fuel x) (put_ssp x K s) = SSP_IntHandler fuel x (put_ssp x K1 s)) as Estep.
  { rewrite (bind_ok _ _ _ _ _ (wait_put _ _ _ _)). unfold interrupt. rewrite (bind_ok _ _ _ _ _ (sreg_put _ _ _ _)).
    cbn [IMSC]. unfold K1. cbn. rewrite HI. by destruct x. }
  pose proof (handler_step T R A S0 cb HR HA Hn HT HAb fuel x K1 i j c s Hfuel Hdw Hc Hf1
    ltac:(change (fifo K1) with (Nat.iter k move (fifo K)); lia) Hleft) as ([] & s' & Eh & K' & Hcases)%wp_run.
  cbn [served foreach]. rewrite <- Estep in Eh. pose proof (fl_cnt _ _ _ _ _ _ _ _ _ Hf). pose proof (fl_cnt _ _ _ _ _ _ _ _ _ Hf1) as Hc1.
  destruct Hcases as [[Hov ->]|(i' & j' & Hm' & -> & Hj)].
  - exists K'. split; [done|]. rewrite (bind_ok _ _ _ _ _ Eh). by apply over_stays.
  - edestruct (IH i' j' K' s Hm' Hw) as (K2 & Hov & Es).
    + change (fifo K1) with (Nat.iter k move (fifo K)) in Hj. destruct Hm' as (_ & _ & Hl' & c' & _ & Hf' & _).
      pose proof (fl_cnt _ _ _ _ _ _ _ _ _ Hf'). pose proof (fl_i _ _ _ _ _ _ _ _ _ Hf'). cbn in Hlen. lia.
    + exists K2. split; [done|]. by rewrite (bind_ok _ _ _ _ _ Eh).
Qed.

(** [SSP_ReadWrite] fills the FIFO once the setup is in place. *)
Lemma start_step fuel x K c s : (len < fuel)%nat -> dataword K = 0 -> IMSC K = 0 -> flows T R A S0 cb 0 0 c (fifo K) ->
  w_rx (fifo K) = [] -> (length (w_tx (fifo K)) <= 8)%nat ->
  wp (put_setup x c ;;
      r ← on_fifo x (while fuel (fill_body fuel 0) c);
      let '(e, c) := r in
      match e with
      | Some stat => put_setup x (c{{ status := Z.lor stat SSP_STAT_ERROR }}) ;; mret (-1)
      | None =>
          if rx_left c || tx_left c then put_setup x c ;; set_IMSC x SSP_IMSC_BITMASK ;; mret 0
          else put_setup x (c{{ status := SSP_STAT_DONE }}) ;; mret 0
      end)
    (fun v s' => v = 0 /\ exists K', s' = put_ssp x K' s /\ (over K' \/ exists i j, mid i j K')) (put_ssp x K s).
Proof.
  intros Hfuel Hdw HI Hf Hrx Htx. unfold put_setup, set_IMSC. ctl_step. apply wp_bind, on_fifo_put. cbn [fifo].
  eapply wp_mono; [apply (fill_loop T R A S0 cb HR HA Hn HT HAb fuel fuel Hfuel 0 0 c (fifo K) Hf Hrx Htx); lia|].
  intros [e c3] w3 (He & Hst3 & i3 & j3 & Hp & Hj). cbn in He, Hp. subst e.
  destruct Hp as (Hf3 & Hp). rewrite (left_spec T R A S0 cb HR HA _ _ _ _ Hf3).
  pose proof (fl_i _ _ _ _ _ _ _ _ _ Hf3). pose proof (fl_cnt _ _ _ _ _ _ _ _ _ Hf3).
  destruct (Nat.eqb_spec j3 len) as [->|]; [destruct (Nat.eqb_spec i3 len) as [->|]|]; cbn [negb orb].
  - destruct (end_over T R A S0 cb HR HA _ _ Hf3) as (Ht & Hseen & Hend). rewrite Hend. ctl_step. apply wp_ret.
    split; [done|]. eexists. split; [done|]. left. by repeat split.
  - lia.
  - ctl_step. ctl_step. apply wp_ret. split; [done|]. eexists. split; [done|]. right. exists i3, j3.
    split; [done|]. split; [done|]. split; [lia|]. by exists c3.
Qed.
End Served.

(** What an earlier transfer left is dropped. *)
Lemma clear_loop fuel : forall w, w_tx w = [] -> (length (w_rx w) < fuel)%nat ->
  wp (while fuel clear_body tt) (fun _ w' => w_rx w' = [] /\ w_tx w' = [] /\ w_seen w' = w_seen w /\
    w_answers w' = w_answers w) w.
Proof.
  induction fuel as [|fuel IH]; intros w Ht Hl; [lia|]. cbn [while]. apply wp_bind. unfold clear_body.
  apply wp_bind, (wp_exact _ (wire_SR (tick w)) (tick w)); [done|]. rewrite sr_rne.
  assert (w_rx (tick w) = w_rx w /\ w_tx (tick w) = [] /\ w_seen (tick w) = w_seen w /\ w_answers (tick w) = w_answers w)
    as (E1 & E2 & E3 & E4).
  { unfold tick, move. destruct (w_ticks w) as [|[] ?]; [done|cbn; by rewrite Ht|done]. }
  rewrite E1. destruct (w_rx w) as [|a rs]; cbn [length Nat.ltb Nat.leb].
  - by apply wp_ret, wp_ret.
  - apply wp_bind. eapply wp_exact; [by apply receive_frame|]. apply wp_ret.
    eapply wp_mono; [apply IH; [done|cbn in *; lia]|]. intros _ w' (? & ? & ? & ?). cbn in *. repeat split; congruence.
Qed.

(** The driver at rest, with buffers [T] and [R] of the same length; the partner has enough
    frames. *)
Record ready (fuel : nat) (T R : list Z) (c : SSP_DATA_SETUP_Type) (K : ssp_ctl wire) : Prop := {
  rd_tx : tx_data c = Some T;
  rd_rx : rx_data c = Some R;
  rd_len : xf_length c = Z.of_nat (length T);
  rd_R : length R = length T;
  rd_word : Z.of_nat (length T) < 4294967296;
  rd_bytes : Forall byte_ok T;
  rd_answers : Forall byte_ok (w_answers (fifo K));
  rd_enough : (length T <= length (w_answers (fifo K)))%nat;
  rd_8bit : dataword K = 0;
  rd_off : IMSC K = 0;
  rd_sent : w_tx (fifo K) = [];
  rd_fuel : (length T < fuel)%nat /\ (length (w_rx (fifo K)) < fuel)%nat
}.

(** C40: a transfer by interrupt of frames of eight bits, with a buffer to send and one of the
    same length to receive into (frames of 16 bits and missing buffers are not covered: of an odd
    number of bytes a transfer of 16 bit frames never ends), whatever the receive FIFO held
    and however the frames move: once at least one frame moves before each of as many
    interrupts as there are frames, and one more, the partner has what was to be sent, the
    buffer has what the partner sent, nothing is lost, the interrupts are off and the status
    is DONE; the callback has been called once, but not if [SSP_ReadWrite] itself found all
    done. *)
Theorem SSP_interrupt_transfer fuel x T R c ws s (K := of_ssp x s) :
  ready fuel T R c K -> Forall (fun k => 1 <= k)%nat ws -> (length T < length ws)%nat ->
  exists s1 s2, SSP_ReadWrite_interrupt fuel x c s = Ok (0, s1) /\ served fuel x ws s1 = Ok (tt, s2) /\
    IMSC (of_ssp x s2) = 0 /\ w_seen (fifo (of_ssp x s2)) = w_seen (fifo K) ++ T /\
    txrx_setup (of_ssp x s2) = Some (mk_ssp_setup (Some T) (Z.of_nat (length T))
      (Some (take (length T) (w_answers (fifo K)))) (Z.of_nat (length T)) (Z.of_nat (length T)) SSP_STAT_DONE (callback c)) /\
    sspcalled s2 = sspcalled s ++ if IMSC (of_ssp x s1) =? 0 then [] else option_list (callback c).
Proof.
  intros [Htx Hrx Hlen HR Hn HT HA Hen Hdw HI Hsent [Hf1 Hf2]] Hws Hl.
  set (A := w_answers (fifo K)) in *. set (S0 := w_seen (fifo K)) in *.
  pose proof (put_of x s) as Es. fold K in Es. clearbody K.
  assert (wp (SSP_ReadWrite_interrupt fuel x c) (fun v s' => v = 0 /\ exists K', s' = put_ssp x K' s /\
    (over T A S0 (callback c) K' \/ exists i j, mid T R A S0 (callback c) i j K')) (put_ssp x K s))
    as (v & s1 & E & -> & K' & -> & HK)%wp_run.
  { unfold SSP_ReadWrite_interrupt. apply wp_bind, on_fifo_put.
    eapply wp_mono; [by apply clear_loop|]. intros [] w (H1 & H2 & H3 & H4). apply wp_bind, on_fifo_put. cbn [fifo].
    apply (wp_exact _ tt (w{{ w_ror := false }})); [done|]. ctl_step.
    assert (dataword (K{{ fifo := w; fifo := w{{ w_ror := false }} }}) = 0) as -> by done.
    apply (start_step T R A S0 (callback c) HR Hen Hn HT HA); [done|done|done| |done|cbn; rewrite H2; cbn; lia].
    constructor; cbn; [|lia|by rewrite H1, H2|by rewrite H2, H3|by rewrite H1, H4|done].
    rewrite Htx, Hrx, Hlen. by rewrite !drop_0. }
  rewrite Es in E. destruct HK as [Hov|(i & j & Hm)].
  - exists (put_ssp x K' s), (put_ssp x K' s). split; [done|]. split; [by apply over_stays with T A S0 (callback c)|].
    rewrite of_put. destruct Hov as (-> & _ & Hs & Hc). repeat split; [done..|]. destruct x; cbn; by rewrite app_nil_r.
  - edestruct (served_over T R A S0 (callback c) HR Hen Hn HT HA fuel x Hf1 ws i j K' s Hm Hws) as (K2 & Hov & E2);
      [lia|]. exists (put_ssp x K' s), (put_ssp x K2 (s{{ sspcalled := sspcalled s ++ option_list (callback c) }})).
    split; [done|]. split; [done|]. rewrite !of_put. destruct Hov as (? & _ & Hs & Hc), Hm as (_ & HI' & _).
    repeat split; [done..|]. rewrite HI'. by destruct x.
Qed.

(** Four bytes on SSP1 by interrupt; the FIFO held a byte of an earlier transfer, and frames
    move while the driver runs. *)
Definition transfer_example : ssp_st wire :=
  let K w := mk_ssp_ctl 7 2 4 0 0 0 None w in
  mk_ssp_st (K (mk_wire [] [] [] [] false []))
    (K (mk_wire [] [5] (replicate 12 9 ++ [1; 2; 3; 4]) [] true [true; false; true; true]))
    (mk_sc 100000000 0 0 0) [].
Definition setup_example : SSP_DATA_SETUP_Type :=
  mk_ssp_setup (Some (replicate 12 6 ++ [7; 8])) 3 (Some (replicate 14 0)) 5 14 0 (Some 77).

Lemma SSP_interrupt_transfer_witness : exists s1 s2,
  SSP_ReadWrite_interrupt 20 LPC_SSP1 setup_example transfer_example = Ok (0, s1) /\
  served 20 LPC_SSP1 (replicate 15 1%nat) s1 = Ok (tt, s2) /\ sspcalled s2 = [77].
Proof.
  edestruct (SSP_interrupt_transfer 20 LPC_SSP1 (replicate 12 6 ++ [7; 8]) (replicate 14 0) setup_example (replicate 15 1%nat)
    transfer_example) as (s1 & s2 & E1 & E2 & _ & _ & _ & Hc).
  - constructor; try (vm_compute; reflexivity); try (cbn; lia);
      apply Forall_forall; intros z Hz; cbn in Hz; repeat (apply elem_of_cons in Hz as [->|Hz]; [by vm_compute|]);
      by apply elem_of_nil in Hz.
  - by repeat constructor.
  - cbn. lia.
  - exists s1, s2. split; [done|]. split; [done|]. rewrite Hc.
    assert (SSP_ReadWrite_interrupt 20 LPC_SSP1 setup_example transfer_example = Ok (0, s1)) as E by done.
    vm_compute in E. injection E as <-. reflexivity.
Defined.
