(* ===== verification/SspDevFacts.v ===== *)
(** * SSP: the clock that is set

    [SSP_SetClock] searches the settings of the prescaler and the divider in order, and stops
    at the first that is not above the target. *)

From S2P Require Import Prelude Clkpwr Ssp SspDev SspIrqFacts.

(** ** The search *)

(** Setting [k] of the search: the dividers 1 to 256 of each even prescaler. *)
Definition div_of (k : Z) : Z := k mod 256.
Definition prescaler (k : Z) : Z := 2 * (k / 256) + 2.
Definition divisor (k : Z) : Z := (div_of k + 1) * prescaler k.

(** The first setting that is not above the target. *)
Record first_setting (clk target k : Z) : Prop := {
  fs_pos : 0 <= k;
  fs_below : clk / divisor k <= target;
  fs_first : forall j, 0 <= j < k -> target < clk / divisor j
}.

(** The highest divisor that the registers hold. *)
Definition max_divisor : Z := 256 * 254.

Lemma divisor_pos k : 0 <= k -> 2 <= divisor k.
Proof. intros Hk. unfold divisor, div_of, prescaler. nia. Qed.

(** While the clock is above the target the divisor is not above the clock. *)
Lemma divisor_bound clk target j : 0 <= target -> 0 <= clk -> 0 <= j -> target < clk / divisor j -> divisor j <= clk.
Proof.
  intros Ht Hc Hj Hlt. pose proof (divisor_pos j Hj). destruct (Z.le_gt_cases (divisor j) clk); [done|].
  rewrite Z.div_small in Hlt by lia. lia.
Qed.

Lemma row_bound k : 256 <= k -> 512 * (k / 256) <= divisor (256 * (k / 256) - 1).
Proof.
  intros Hk. set (q := k / 256). assert (1 <= q) by (subst q; lia). unfold divisor, div_of, prescaler.
  assert ((256 * q - 1) mod 256 = 255) as -> by lia. assert ((256 * q - 1) / 256 = q - 1) as -> by lia. lia.
Qed.

(** The settings that are searched. *)
Lemma searched clk target k : 0 <= target -> 0 <= clk -> 0 <= k ->
  (forall j, 0 <= j < k -> target < clk / divisor j) -> 2 * (k - 255) <= clk.
Proof.
  intros Ht Hc Hk Hj. destruct (Z.le_gt_cases k 255); [lia|].
  pose proof (row_bound k ltac:(lia)) as Hr.
  pose proof (divisor_bound clk target (256 * (k / 256) - 1) Ht Hc ltac:(lia) (Hj (256 * (k / 256) - 1) ltac:(lia))). lia.
Qed.

Lemma divisor_word clk target k : 0 <= target -> 0 <= clk < 2147483648 -> 0 <= k ->
  (forall j, 0 <= j < k -> target < clk / divisor j) -> divisor k < 4294967296.
Proof.
  intros Ht Hc Hk Hj. destruct (Z.eq_dec (k mod 256) 0) as [E|E].
  - unfold divisor, div_of, prescaler. rewrite E. pose proof (searched clk target k Ht ltac:(lia) Hk Hj). lia.
  - assert (divisor k <= 2 * divisor (k - 1)) as Hd.
    { unfold divisor, div_of, prescaler. assert ((k - 1) mod 256 = k mod 256 - 1) as -> by lia.
      assert ((k - 1) / 256 = k / 256) as -> by lia. nia. }
    pose proof (divisor_bound clk target (k - 1) Ht ltac:(lia) ltac:(lia) (Hj (k - 1) ltac:(lia))). lia.
Qed.

Section Clock.
Context {P : Type} `{SspPort P}.
Implicit Types s : ssp_st P.

Lemma search_step clk target k cmp s : 0 <= target -> 0 <= clk < 2147483648 -> 0 <= k ->
  (forall j, 0 <= j < k -> target < clk / divisor j) -> target < cmp ->
  clock_body clk target (div_of k, cmp, prescaler k) s =
    Ok (Continue (if target <? clk / divisor k then (div_of (k + 1), clk / divisor k, prescaler (k + 1))
                  else (div_of k, clk / divisor k, prescaler k)), s).
Proof.
  intros Ht Hc Hk Hj Hcmp. unfold clock_body. destruct (Z.ltb_spec target cmp); [|lia].
  pose proof (divisor_word clk target k Ht Hc Hk Hj) as Hw. pose proof (divisor_pos k Hk).
  assert (u32 (u32 (div_of k + 1) * prescaler k) = divisor k) as ->.
  { unfold u32 at 2. rewrite (Z.mod_small (div_of k + 1)) by (unfold div_of; lia).
    change ((div_of k + 1) * prescaler k) with (divisor k). unfold u32. apply Z.mod_small. lia. }
  destruct (Z.eqb_spec (divisor k) 0); [lia|]. rewrite (bind_ok (guard _ _) _ s tt s) by done.
  destruct (Z.ltb_spec target (clk / divisor k)); [|done].
  assert (u32 (div_of k + 1) = div_of k + 1) as -> by (unfold u32, div_of; lia).
  pose proof (searched clk target k Ht ltac:(lia) Hk Hj).
  destruct (Z.ltb_spec 0xFF (div_of k + 1)); unfold mret, M_ret.
  - assert (div_of (k + 1) = 0) as -> by (unfold div_of in *; lia).
    assert (u32 (prescaler k + 2) = prescaler (k + 1)) as -> by (unfold u32, prescaler, div_of in *; lia). done.
  - assert (div_of (k + 1) = div_of k + 1) as -> by (unfold div_of in *; lia).
    assert (prescaler (k + 1) = prescaler k) as -> by (unfold prescaler, div_of in *; lia). done.
Qed.

(** The loop finds the first setting. *)
Lemma search clk target n : forall k cmp s fuel, 0 <= target -> 0 <= clk < 2147483648 -> 0 <= k ->
  (forall j, 0 <= j < k -> target < clk / divisor j) -> target < cmp ->
  clk < 2 * (k - 255 + Z.of_nat n) -> (n + 1 < fuel)%nat ->
  exists k', while fuel (clock_body clk target) (div_of k, cmp, prescaler k) s = Ok ((div_of k', prescaler k'), s) /\
    first_setting clk target k'.
Proof.
  induction n as [|n IH]; intros k cmp s fuel Ht Hc Hk Hj Hcmp Hn Hf.
  { pose proof (searched clk target k Ht ltac:(lia) Hk Hj). lia. }
  destruct fuel as [|fuel]; [lia|]. cbn [while].
  rewrite (bind_ok _ _ _ _ _ (search_step clk target k cmp s Ht Hc Hk Hj Hcmp)).
  destruct (Z.ltb_spec target (clk / divisor k)).
  - apply IH; try lia. intros j Hj'. destruct (Z.eq_dec j k) as [->|]; [lia|]. apply Hj. lia.
  - destruct fuel as [|fuel]; [lia|]. cbn [while]. exists k. split; [|by constructor].
    rewrite (bind_ok _ _ s (Break (div_of k, prescaler k)) s); [done|]. unfold clock_body.
    by destruct (Z.ltb_spec target (clk / divisor k)); [lia|].
Qed.

(** The registers of a setting. *)
Definition with_setting (k : Z) (c : ssp_ctl P) : ssp_ctl P :=
  c{{ CR0 := CR0 c mod 256 + 256 * div_of k; CPSR := prescaler k mod 256 }}.

(** The clock that the registers give. *)
Definition ssp_rate (clk : Z) (c : ssp_ctl P) : Z := clk / ((CR0 c / 256 mod 256 + 1) * CPSR c).

Lemma scr_bits v k : 0 <= k -> Z.lor (Z.land v (Z.land (Z.lnot (SSP_CR0_SCR 0xFF)) SSP_CR0_BITMASK))
  (Z.land (SSP_CR0_SCR (div_of k)) SSP_CR0_BITMASK) = v mod 256 + 256 * div_of k.
Proof.
  intros Hk. change (Z.land (Z.lnot (SSP_CR0_SCR 0xFF)) SSP_CR0_BITMASK) with (Z.ones 8).
  rewrite Z.land_ones by lia. change (2 ^ 8) with 256.
  assert (Z.land (SSP_CR0_SCR (div_of k)) SSP_CR0_BITMASK = Z.shiftl (div_of k) 8) as ->.
  { unfold SSP_CR0_SCR. change 0xFF with (Z.ones 8). rewrite Z.land_ones by lia.
    change SSP_CR0_BITMASK with (Z.ones 16). rewrite Z.land_ones by lia. rewrite !Z.shiftl_mul_pow2 by lia.
    change (2 ^ 8) with 256. change (2 ^ 16) with 65536. unfold div_of. lia. }
  rewrite Z.lor_comm. rewrite Z.shiftl_mul_pow2 by lia. change (2 ^ 8) with 256.
  rewrite <- (Z.add_comm (256 * div_of k)), (Z.mul_comm 256).
  change 256 with (2 ^ 8) at 1 3. rewrite <- Z.shiftl_mul_pow2 by lia. apply Z_lor_shiftl_small; unfold div_of; lia.
Qed.

(** The registers hold the setting iff some setting of theirs is not above the target. *)
Lemma held clk target k : 0 <= target -> 0 <= clk -> first_setting clk target k ->
  clk / max_divisor <= target <-> prescaler k < 256.
Proof.
  intros Ht Hc [Hk Hb Hf]. split; intros Hx.
  - destruct (Z.lt_ge_cases (prescaler k) 256) as [|Hge]; [done|].
    pose proof (Hf (126 * 256 + 255) ltac:(unfold prescaler in *; lia)) as Hj.
    change (divisor (126 * 256 + 255)) with max_divisor in Hj. lia.
  - pose proof (divisor_pos k Hk). etrans; [|exact Hb]. apply Z.div_le_compat_l; [lia|]. split; [lia|].
    unfold divisor, max_divisor, div_of, prescaler in *. nia.
Qed.

Lemma rate_held clk k (c : ssp_ctl P) : 0 <= k -> prescaler k < 256 ->
  ssp_rate clk (with_setting k c) = clk / divisor k.
Proof.
  intros Hk Hp. unfold ssp_rate, with_setting. cbn. unfold divisor.
  assert ((CR0 c mod 256 + 256 * div_of k) / 256 mod 256 = div_of k) as -> by (unfold div_of; lia).
  rewrite (Z.mod_small (prescaler k)) by (unfold prescaler in *; lia). done.
Qed.

(** The loop from its start, also for the target at which it does not turn. *)
Lemma search_from_start clk target s fuel : 0 <= target < 4294967296 -> 0 <= clk < 2147483648 ->
  (Z.to_nat (clk / 2) + 257 < fuel)%nat ->
  exists k, while fuel (clock_body clk target) (0, 0xFFFFFFFF, 2) s = Ok ((div_of k, prescaler k), s) /\
    first_setting clk target k.
Proof.
  intros Ht Hc Hf. destruct (Z.eq_dec target 0xFFFFFFFF) as [->|].
  - destruct fuel as [|fuel]; [lia|]. exists 0. split; [done|]. split; [done| |lia].
    change (divisor 0) with 2. lia.
  - apply (search clk target (Z.to_nat (clk / 2) + 256) 0 0xFFFFFFFF s fuel); lia.
Qed.

(** The clock of a controller. *)
Definition ssp_pclk (x : LPC_SSP) (s : ssp_st P) : Z :=
  let sel := match x with LPC_SSP0 => lsr (PCLKSEL1 (sspsc s)) 10 | LPC_SSP1 => lsr (PCLKSEL0 (sspsc s)) 20 end in
  SystemCoreClock (sspsc s) / match Z.land sel 3 with 0 => 4 | 1 => 1 | 2 => 2 | _ => 8 end.

Lemma pclk_of x s :
  zoom (CLKPWR_GetPCLK (match x with LPC_SSP0 => CLKPWR_PCLKSEL_SSP0 | LPC_SSP1 => CLKPWR_PCLKSEL_SSP1 end)) s =
    Ok (ssp_pclk x s, s).
Proof.
  assert (forall v, (if Z.land v 3 =? 0 then 4 else if Z.land v 3 =? 1 then 1 else if Z.land v 3 =? 2 then 2
             else if Z.land v 3 =? 3 then 8 else Z.land v 3) =
             match Z.land v 3 with 0 => 4 | 1 => 1 | 2 => 2 | _ => 8 end) as Hd.
  { intros v. pose proof (Z.land_ones v 2 ltac:(lia)) as Ho. change (Z.ones 2) with 3 in Ho. rewrite Ho.
    change (2 ^ 2) with 4. by assert (v mod 4 = 0 \/ v mod 4 = 1 \/ v mod 4 = 2 \/ v mod 4 = 3) as [->|[->|[->| ->]]] by lia. }
  unfold ssp_pclk. destruct s as [a b [clk p0 p1 pc] l], x; cbn [sspsc SystemCoreClock PCLKSEL1 PCLKSEL0];
    [rewrite <- (Hd (lsr p1 10))|rewrite <- (Hd (lsr p0 20))]; done.
Qed.

Lemma pclk_range x s : 0 <= SystemCoreClock (sspsc s) < 2147483648 -> 0 <= ssp_pclk x s < 2147483648.
Proof.
  intros Hs. unfold ssp_pclk. set (v := Z.land _ 3). assert (exists d, 1 <= d /\
    match v with 0 => 4 | 1 => 1 | 2 => 2 | _ => 8 end = d) as (d & Hd & ->).
  { eexists. split; [|done]. destruct v as [|[[?|?|]|[?|?|]|]|]; lia. }
  split; [apply Z.div_pos; lia|]. apply Z.div_lt_upper_bound; nia.
Qed.

(** [SSP_SetClock] ends for every target, with the first setting of the search that is not
    above it; the registers hold the setting iff some setting of theirs is not above the
    target, and then the rate is at most the target; otherwise the prescaler has more than the
    eight bits that are written. *)
Theorem SSP_SetClock_spec fuel x target s (clk := ssp_pclk x s) :
  0 <= target < 4294967296 -> 0 <= SystemCoreClock (sspsc s) < 2147483648 ->
  (Z.to_nat (clk / 2) + 257 < fuel)%nat ->
  exists k, first_setting clk target k /\
    SSP_SetClock fuel x target s = Ok (tt, put_ssp x (with_setting k (of_ssp x s)) s) /\
    (clk / max_divisor <= target <-> prescaler k < 256) /\
    (prescaler k < 256 -> ssp_rate clk (with_setting k (of_ssp x s)) <= target).
Proof.
  intros Ht Hs Hf. pose proof (pclk_range x s Hs).
  destruct (search_from_start clk target s fuel Ht ltac:(done) Hf) as (k & Hw & Hk).
  exists k. split; [done|]. split; [|split].
  - unfold SSP_SetClock. rewrite (bind_ok _ _ _ _ _ (pclk_of x s)). fold clk. rewrite (bind_ok _ _ _ _ _ Hw).
    cbn [fst snd]. unfold with_setting. rewrite <- (scr_bits (CR0 (of_ssp x s)) k) by apply Hk.
    pose proof (Z.land_ones (prescaler k) 8 ltac:(lia)) as Ho. change (Z.ones 8) with SSP_CPSR_BITMASK in Ho.
    change (2 ^ 8) with 256 in Ho. rewrite <- Ho.
    by destruct s as [[] [] a l], x.
  - apply held; [lia|lia|done].
  - intros Hp. rewrite rate_held by (done || apply Hk). apply Hk.
Qed.
End Clock.

(** At 100 MHz one megahertz is reached; a hundred hertz is not, there is no divider for that. *)
Lemma SSP_SetClock_spec_witness :
  (exists K, SSP_SetClock (Z.to_nat 12500258) LPC_SSP1 1000000 transfer_example =
    Ok (tt, put_ssp LPC_SSP1 K transfer_example) /\ ssp_rate 25000000 K <= 1000000) /\
  (exists k, first_setting 25000000 100 k /\ 256 <= prescaler k).
Proof.
  assert (ssp_pclk LPC_SSP1 transfer_example = 25000000) as Hp by reflexivity. split.
  - destruct (SSP_SetClock_spec (Z.to_nat 12500258) LPC_SSP1 1000000 transfer_example) as (k & _ & E & Hh & Hr);
      [lia|cbn; lia|rewrite Hp; lia|]. rewrite Hp in Hh, Hr.
    exists (with_setting k (of_ssp LPC_SSP1 transfer_example)). split; [exact E|]. apply Hr, Hh. unfold max_divisor. lia.
  - destruct (SSP_SetClock_spec (Z.to_nat 12500258) LPC_SSP1 100 transfer_example) as (k & Hk & _ & Hh & _);
      [lia|cbn; lia|rewrite Hp; lia|]. rewrite Hp in Hk, Hh. exists k. split; [exact Hk|].
    unfold max_divisor in Hh. lia.
Defined.
